(* ===== verification/_CoqProject ===== *)
-Q . S2P
Prelude.v
Vli.v
LruCache.v
Interval.v
Conflict.v
Headers.v
Uuid.v
Handshake.v
Req.v
ReqOrder.v
ReqProps.v
ReqLife.v
ReqSubmit.v
Bitmap.v
BitmapProps.v
BitmapOps.v
BitmapResize.v
BitmapDisk.v
BitmapAttach.v
BitmapSync.v
BitmapXfer.v
BitmapXferProps.v
BitmapExchange.v
ActLog.v
ActLogProps.v
ActLogSafe.v
ActLogClaims.v
MetaData.v
MetaLayout.v
DevSize.v
DevSizeProps.v
MetaClaims.v
Epoch.v
EpochSpec.v
EpochInv.v
EpochStep.v
EpochUpdate.v
EpochCall.v
EpochProps.v
EpochReceiver.v
EpochBarrier.v
EpochClaims.v
State.v
StateQuorum.v
StateFinish.v
StateProps.v
StateClaims.v
StateCommit.v
TwoPhase.v
TwoPhaseLocal.v
TwoPhaseRecv.v
TwoPhaseChange.v
TwoPhaseProps.v
TwoPhaseNet.v
TwoPhaseSteps.v
TwoPhaseAgree.v
TwoPhaseInv.v
TwoPhaseClaims.v
