(* ===== verification/Prelude.v ===== *)
(** * DRBD kernel module: a verification library

    DRBD replicates block devices between nodes.  A node keeps, for each device,
    the local disk and its meta-data, a bitmap per peer of the blocks that differ,
    and an activity log; it replicates writes to its peers and resynchronises
    blocks that one side missed.  This library models parts of the kernel module
    under [src/drbd] as executable functions on explicit states and proves what
    the code relies on.

    ** Files and what they model

    - [Prelude]: results of C routines ([outcome]: a value, an error number, or
      [BUG()]), machine words, automation, lemmas on integers and lists.
    - [Vli]: [drbd_vli.h], the variable length code of bitmap run lengths and the
      bit stream it is written to.
    - [LruCache]: [drbd-kernel-compat/lru_cache.c] and its header, the cache that
      tracks the extents of the activity log and the resync.  The state is the
      array of elements with their lists and the hash table; an operation is a
      function with result [outcome], so that the [BUG_ON]s of the code are
      visible.
    - [Interval]: [drbd_interval.c] and [.h], the tree of the requests that are in
      progress, with the largest end of each subtree.  The red-black tree of the
      kernel is a parameter, the class [RbAugmented]; [list_tree] is an instance.
    - [Conflict]: [drbd_find_conflict] and [drbd_release_conflicts] with their
      callers in [drbd_req.c], [drbd_receiver.c] and [drbd_sender.c].  A step
      relation ([critical_section]) has one step per critical section under
      [interval_lock]; a request that was canceled or turned out to be in sync leaves
      the tree in a second one.
    - [Headers]: the constants of the header submodule, which is not in the
      repository, as the class [DrbdHeaders] with the laws the code relies on;
      [small_headers] is an instance.
    - [Uuid]: the UUIDs of data generations, [drbd_main.c] 4684-5563: current,
      bitmap and history UUIDs and every operation that moves them.
    - [Handshake]: [drbd_receiver.c] 70-300 and 4264-5578: the decision of two
      nodes that connect or attach, from the exchanged UUIDs to the strategy, the
      operation on the bitmap and the change of UUIDs.
    - [Req], [ReqProps], [ReqLife], [ReqOrder], [ReqSubmit]: [drbd_req.c] 18-60, 209-349,
      401-574, 576-756, 892-1439, 1727-1805 and 2039-2202: the life of a request of
      the application from its submission to the moment it leaves the transfer log.
      [Req] has the definitions; a request is a word of flags for the disk and one
      per peer, with three reference counters; calls into other components are
      entries of a log.  [ReqProps] has the arithmetic of the counters and of the
      walk along the chain of writes, [ReqLife] the invariant and the events,
      [ReqOrder] what the operations do to the order of the writes in the transfer log,
      [ReqSubmit] the submission, the reachable states and the properties.

    - [Bitmap] with [BitmapProps], [BitmapOps], [BitmapResize], [BitmapDisk] and
      [BitmapAttach]: [drbd_bitmap.c], the bitmaps of all peers, interleaved word by word
      in an array of pages.  [Bitmap] has the definitions: the memory is the list of
      32 bit words of all pages, [page_private] the flags of the pages, and
      [____bm_op] is translated with its three loops and jumps.  The size of a page
      is the class [Arch].  [BitmapProps] follows the walk over words and pages,
      [BitmapOps] states what an operation does to the bits of a slot,
      [BitmapResize] treats the change of size and the copy of slots, [BitmapDisk] the
      marks of pages and their writing, [BitmapAttach] reading.
    - [BitmapSync]: [drbd_actlog.c] 647-887: ranges of sectors are marked in and out of
      sync in the slots of the bitmap, with the marks of resync progress.
    - [BitmapXfer], [BitmapXferProps], [BitmapExchange]: [drbd_main.c] 1897-2187 and
      [drbd_receiver.c] 8552-8927, the exchange of bitmaps.  [BitmapXfer] has the
      definitions of both sides; a transfer is the list of its packets.  [BitmapXferProps]
      relates the runs of a slot to the code words in the stream, [BitmapExchange] follows
      the packets from the sender to the receiver.
    - [ActLog] with [ActLogProps], [ActLogSafe] and [ActLogClaims]: [drbd_actlog.c]
      168-645 and the sizes in [drbd_nl.c], the activity log.  A device has the cache of
      [LruCache], the bitmap of [Bitmap], and the words of the bitmap and blocks of the
      log on disk.  [ActLogSafe] has a step relation in which the parts of a
      transaction interleave with requests, changes of bits and writes of pages.
    - [MetaData], [MetaLayout], [DevSize], [DevSizeProps], [MetaClaims]: [drbd_nl.c]
      1477-1558, 1619-2023, 2971-3320 and 5446-5461, [drbd_main.c] 4545-4584 and 6184-6291,
      [drbd_legacy_84.c] and [drbd_int.h] 2563-2610: the super block in both formats, the
      places of activity log and bitmap, the checks at attach, and the size of a device
      with its change.  [MetaData] has [struct drbd_md] and what writes, reads, lays out
      and checks it; [DevSize] the capacity of the disk, the agreement with the peers and
      [drbd_determine_dev_size], whose writes are a list of [md_event]s.  [MetaLayout] and
      [DevSizeProps] have the lemmas, [MetaClaims] the properties.  The constants of the
      missing headers are the class [MdHeaders].
    - [Epoch] and [EpochSpec]: [drbd_receiver.c] 302-311, 1356-1657, 1974-2070, 2874-2922,
      3046-3082 and 3263-3539 and [drbd_sender.c] 109-227, the epochs of received writes.
      [Epoch] has the epochs of a connection, [drbd_may_finish_epoch] in two parts because
      it lets go of the lock to send an answer, and the places where the receiver waits;
      [EpochSpec] has the steps of the threads and the specification, a queue of epochs
      that reads the log of events.  [EpochInv] has the invariant; [EpochStep],
      [EpochUpdate], [EpochCall], [EpochProps], [EpochReceiver] and [EpochBarrier] show that
      steps keep it, [EpochClaims] the property.
    - [State], [StateQuorum], [StateFinish], [StateProps], [StateClaims], [StateCommit]:
      [drbd_state.c] 31-254, 509-1010, 1122-1127, 1295-3329 and 6343-6449, the state
      engine.  A resource has connections, devices and peer devices, each with the state
      before a change and the new one.  [State] sanitizes and validates the new state and
      decides about quorum and the source of a resync; [StateFinish] carries out an
      accepted change: flags, meta-data, progress, and in order the calls to other parts,
      which are [action]s.  [StateQuorum] has what nodes of different partitions compute,
      [StateProps] follows sanitizing through its loops, [StateClaims] and [StateCommit]
      have the properties of a change.

    - [TwoPhase], [TwoPhaseLocal], [TwoPhaseRecv], [TwoPhaseChange]: [drbd_state.c] 4514-5942
      and [drbd_receiver.c] 6739-8013, 9886-9945 and 10658-10735, the two phase commit of
      changes that concern the cluster.  A [node] is a resource of [State] with its
      transaction.  [TwoPhase] has the packets and votes, [TwoPhaseLocal] the change of this
      node that a peer asks for, [TwoPhaseRecv] the handlers of a participant,
      [TwoPhaseChange] the initiator: what is changed, the request, the decision.
      [TwoPhaseNet] puts nodes together: the state of a cluster and its steps, where a
      packet that was sent may arrive at any time, more than once or never.
      [TwoPhaseProps] and [TwoPhaseSteps] say what handlers keep and do, [TwoPhaseAgree] has
      the invariant of a transaction, [TwoPhaseInv] that of the cluster, and
      [TwoPhaseClaims] the properties.

    [Conflict] uses the overlap search of [Interval] through its contract, and
    [Handshake] the operations of [Uuid]; [ActLog] uses [LruCache] and [Bitmap], and
    [BitmapXfer] uses [Vli] and [Bitmap]; [MetaData] checks the stripes of [ActLog], and a
    change of the size resizes the bitmap of [Bitmap].

    ** What the theorems show

    - [Vli]: every run length has a code word and decoding returns it; the decoder
      is total; reading bits returns the bits at the cursor, also at the end of
      the buffer (a lemma that the exchange of bitmaps uses).
    - [LruCache]: every sequence of calls keeps the cache well formed, so that none
      of the consistency [BUG_ON]s can be reached from legal calls; [lc_get] and
      its variants, [lc_put] and [lc_committed] do what their comments say.
    - [Interval]: the search with the augmented ends returns exactly the intervals
      that overlap, however the tree was built and balanced.
    - [Conflict]: two requests in flight never overlap if one writes, apart from
      verify reads that are marked; a request that waits is not forgotten, unless a write in
      its way left the tree without a release; the work function returns.  Runs are
      followed up to the first time that a request is queued which its owner is about
      to free; [is_in_sync_race] and [cancel_race] are runs in which this happens, and
      [write_without_disk_loses_wakeup] is a run that forgets a request.
    - [Uuid]: the meta-data stays well formed, as long as random numbers and the current
      UUIDs of peers are more than the primary bit; a new generation leaves a bitmap
      UUID for exactly the peers that miss it; taking over a generation does not
      forget the previous one.
    - [Handshake]: both nodes decide alike, in the comparison of UUIDs (for protocol 116
      and newer, when they agree about missed ends of a resync and their generations are
      not crossed) and in the recovery from a split brain; a primary is not made a sync target against its
      configuration; better disks overwrite worse ones; a peer that missed a
      generation is resynchronised with the bitmap kept for it.
    - [ReqSubmit]: in every state that submissions, events and retries can reach the
      reference counters are exact, the bio of a request is completed once and only
      when nothing is pending, writes are done in order, the activity log keeps the
      extent until all peers are done, and the consistency checks of the code only
      fire for aborted requests.  The guards of the events ([event_guard]) say what the
      callers see to, and leave out one order that they do not exclude: an answer that is
      handled before the sender has noted that it handed over the request,
      [reply_before_handed_over].
    - [BitmapOps]: every operation on a range of bits refines its specification on
      the bits of one slot, for every range, page size and number of peers.
    - [BitmapResize]: all operations keep sizes and pages consistent; a resize keeps the
      bits of remaining blocks and treats new ones as asked where it reaches them.  The
      counters are exact as long as no bitmap is grown whose last bits are not on its last
      page ([resize_misses_blocks]) and no slot with set padding is copied
      ([copy_counts_padding]).
    - [BitmapAttach]: what [drbd_bm_write] leaves on disk is what [drbd_bm_read] brings
      back, because every operation marks the pages it changes; for runs without resizes,
      copies of slots, hinted writes and I/O errors.
    - [BitmapSync]: marking rounds outwards to blocks and unmarking inwards, in exactly the
      slots that were asked for, with fewer than 32 slots.
    - [BitmapExchange]: the receiver of a bitmap ends with the union of both, whatever
      packets were sent; two examples show what happens with plain words between
      different block sizes.
    - [ActLogClaims]: a bit that is only in memory belongs to an extent that the log on
      disk has, at every moment of a run without I/O errors, failed transactions and
      changes of the size of the log, in which bits are set in held extents; a transaction always fits its block; references are
      taken and given back once.  What the log on disk says is the definition
      [al_logged], a reader that takes the newest block that mentions a slot.
    - [MetaClaims]: a new layout that is written is read back, and accepted if the activity
      log is clean; meta-data that is accepted has the blocks of its log in place and, but
      for two gaps of the check, its parts apart and inside the device; a
      change of the size is all or nothing (but for meta-data in persistent memory that
      cannot be mapped again), respects the known peers, the user and, if there was memory
      to find its size, the local disk, and a crash in the middle asks for a full resync.  The lemmas behind it show
      where the code has limits: [max_capacity_too_large], [local_limit_lost],
      [remap_failure_unnoticed], [check_gaps], [layout_overflow], [no_slots_accepted].
    - [EpochClaims]: the connection refines the queue: epochs are acknowledged in order,
      once, with the right number of writes, after these are on disk as the write ordering
      asks; the fuel of the loop is enough.  The theorem is for connections that stay, with
      memory for new epochs and no aborted writes or failed barriers; [barrier_use_after_free]
      is a run with barrier writes that uses an epoch after it was freed.
    - [StateQuorum]: two partitions with a common view of the cluster do not have quorum at
      once, unless one knows the other to be outdated.
    - [StateClaims]: whatever state is asked for, after sanitizing at most one resync runs
      towards a device and the disks fit the resyncs; a change is all or nothing; by a
      change that is not forced no node becomes primary without data and quorum, and no
      primary loses them.
    - [StateCommit]: what an accepted change records in the meta-data and marks to be
      written, so that a crash after the write does not make a worse disk a better one, and
      when a new data generation starts.
    - [TwoPhaseClaims]: a commit is sent only when every node that was asked, also by
      others, was ready for the change, and it names all primaries; so a node becomes
      primary alone where two are not allowed.  The handler of a packet and the work
      that it queues run without a break there, a participant keeps its transaction until
      the decision, (there is no timer, no abort and no cleanup of lost connections), the worker thread
      does not start changes, and transactions have different numbers.  Without the first of these a node can say yes before its check:
      [duplicate_votes_early].

    ** Bounds and fuel

    Words are integers with the wrap-around written out ([u8], [u32], [u64]).  The
    loops over lists are structural, and the search in a tree descends in it.  The
    loop that writes a value to the bit stream has fuel for 8 bytes, the length of
    a value; the walks over the overlaps of a tree have fuel for the size of the
    tree; [drbd_do_submit_conflict] has fuel for the number of queued requests; the
    walk along the chain of writes has fuel for the number of requests.  The
    theorems about these functions show that the fuel is enough.  [find_first_zero_bit] looks at the 64
    bits of its mask.  The loops over the pages of a bitmap have fuel for the number of
    pages and one, the loop over the words of a page for the words of a page; running
    out of it is [BUG], and the theorems show that the routines return.  A bitmap has at
    most 2^24 pages, which is the width of the page number in the flags of a page.
    The loop that codes run lengths has fuel for the code words that fit the packet, the
    decoder for its bits, the sender for the bits of the bitmap.
    The theorems on the activity log are for transaction numbers below 2^32, so before
    the number wraps.  The loop of [drbd_may_finish_epoch] has fuel for the number of epochs
    and one ([finish_loop_fuel]).

    ** What is not modelled

    Locks are not modelled as such: a critical section is one step.  Log messages
    and user mode helpers are left out.  Random numbers, the result of I/O and the
    decisions of the state engine that a component asks for are arguments.  Of the state
    engine the work after a change is missing, of the two phase commit the change of the
    size and peers with a protocol before 110.  Netlink, the
    transports, the sender and its resync controller, the bitmap in persistent memory and
    debugfs are not part of the library.  The capacity of devices is that of 64 bit
    architectures, at most 2^41 sectors.  The reader of the activity log after a crash is a program in user
    space; [al_logged] is what the blocks mean, not a model of it. *)

From Stdlib Require Export ZArith Lia Bool.
From stdpp Require Export base decidable option list numbers gmap sorting.

#[export] Set Default Goal Selector "!".
#[global] Open Scope Z_scope.

(** ** Results of C routines

    The kernel code reports failures with negative error numbers and stops the
    machine with [BUG()] or [BUG_ON()].  [outcome] keeps the three cases apart. *)

Inductive errno :=
  | EINVAL | EOVERFLOW | ENOBUFS | EIO | ENOSPC | ENOMEM | ERANGE | ENODATA
  | EWOULDBLOCK | EBUSY.

#[export] Instance errno_eq_dec : EqDecision errno.
Proof. solve_decision. Defined.

Inductive outcome (A : Type) :=
  | Ret (a : A)
  | Fail (e : errno)
  | BUG.
Arguments Ret {A} a.
Arguments Fail {A} e.
Arguments BUG {A}.

Definition obind {A B} (m : outcome A) (k : A -> outcome B) : outcome B :=
  match m with
  | Ret a => k a
  | Fail e => Fail e
  | BUG => BUG
  end.

Declare Scope drbd_scope.
Delimit Scope drbd_scope with drbd.
Notation "'let!' x := m 'in' k" := (obind m (fun x => k))
  (at level 200, x pattern, m at level 100, k at level 200, right associativity) : drbd_scope.
Notation "'bug_on!' c 'in' k" := (if c then BUG else k)
  (at level 200, c at level 100, k at level 200, right associativity) : drbd_scope.
#[global] Open Scope drbd_scope.

(** ** Machine integers *)

Definition u8 (z : Z) : Z := z mod 2 ^ 8.
Definition u32 (z : Z) : Z := z mod 2 ^ 32.
Definition u64 (z : Z) : Z := z mod 2 ^ 64.

(** ** Automation *)

Create HintDb drbd.
Create HintDb drbd_bits.

(** Turns boolean comparisons in the context into propositions. *)
Ltac reflect_bools :=
  repeat match goal with
  | H : andb _ _ = true |- _ => apply andb_true_iff in H; destruct H
  | H : orb _ _ = false |- _ => apply orb_false_iff in H; destruct H
  | H : negb _ = true |- _ => apply negb_true_iff in H
  | H : negb _ = false |- _ => apply negb_false_iff in H
  | H : (_ <? _) = true |- _ => apply Z.ltb_lt in H
  | H : (_ <? _) = false |- _ => apply Z.ltb_ge in H
  | H : (_ <=? _) = true |- _ => apply Z.leb_le in H
  | H : (_ <=? _) = false |- _ => apply Z.leb_gt in H
  | H : (_ =? _) = true |- _ => apply Z.eqb_eq in H
  | H : (_ =? _) = false |- _ => apply Z.eqb_neq in H
  end.

(** Case split on the condition of an [if] of the goal, with the condition
    reflected. *)
Ltac case_if :=
  match goal with
  | |- context [if ?c then _ else _] =>
      let E := fresh "Ec" in destruct c eqn:E; reflect_bools
  end.

Ltac case_if_in H :=
  match type of H with
  | context [if ?c then _ else _] =>
      let E := fresh "Ec" in destruct c eqn:E; reflect_bools
  end.

(** ** Generic lemmas on integers and their bits *)

Lemma u64_small z : 0 <= z < 2 ^ 64 -> u64 z = z.
Proof. apply Z.mod_small. Qed.

Lemma u32_small z : 0 <= z < 2 ^ 32 -> u32 z = z.
Proof. apply Z.mod_small. Qed.

Lemma u64_range z : 0 <= u64 z < 2 ^ 64.
Proof. apply Z.mod_pos_bound. lia. Qed.

Lemma u32_range z : 0 <= u32 z < 2 ^ 32.
Proof. apply Z.mod_pos_bound. lia. Qed.

Lemma land_pow2_mask x n : 0 <= n -> Z.land x (Z.shiftl 1 n - 1) = x mod 2 ^ n.
Proof.
  intros Hn. rewrite <- Z.land_ones by done. by f_equal.
Qed.

Lemma shiftr_all_ones64 n : 0 <= n <= 64 -> Z.shiftr (2 ^ 64 - 1) (64 - n) = Z.ones n.
Proof.
  intros Hn. replace (2 ^ 64 - 1) with (Z.ones 64) by done.
  apply Z.bits_inj'. intros i Hi.
  rewrite Z.shiftr_spec by lia. rewrite !Z.testbit_ones by lia.
  destruct (Z.ltb_spec i n), (Z.ltb_spec (i + (64 - n)) 64); lia.
Qed.

Lemma land_mask64 x n : 0 <= n <= 64 -> Z.land x (Z.shiftr (2 ^ 64 - 1) (64 - n)) = x mod 2 ^ n.
Proof. intros. rewrite shiftr_all_ones64 by done. apply Z.land_ones. lia. Qed.

Lemma testbit_mod_pow2 x n i : 0 <= n -> 0 <= i ->
  Z.testbit (x mod 2 ^ n) i = (i <? n) && Z.testbit x i.
Proof.
  intros Hn Hi. destruct (Z.ltb_spec i n); simpl.
  - by apply Z.mod_pow2_bits_low.
  - apply Z.mod_pow2_bits_high. lia.
Qed.

Lemma testbit_above x n i : 0 <= x < 2 ^ n -> 0 <= n <= i -> Z.testbit x i = false.
Proof.
  intros Hx Hi. rewrite <- (Z.mod_small x (2 ^ n)) by done.
  apply Z.mod_pow2_bits_high. lia.
Qed.

(** Two non-negative numbers below [2^n] with the same low [n] bits are equal. *)
Lemma bits_eq_below n x y :
  0 <= n -> 0 <= x < 2 ^ n -> 0 <= y < 2 ^ n ->
  (forall i, 0 <= i < n -> Z.testbit x i = Z.testbit y i) -> x = y.
Proof.
  intros Hn Hx Hy Hb. apply Z.bits_inj'. intros i Hi.
  destruct (Z.lt_ge_cases i n); [apply Hb; lia|].
  rewrite !(testbit_above _ n) by lia. done.
Qed.

#[export] Hint Resolve u64_range u32_range : drbd.

(** ** Generic lemmas on lists *)

Lemma filter_id {A} (P : A -> Prop) `{!forall x, Decision (P x)} (l : list A) :
  (forall x, x ∈ l -> P x) -> filter P l = l.
Proof.
  induction l as [|x l IH]; intros HP; [done|].
  rewrite filter_cons_True by (apply HP; by left). f_equal. apply IH. intros. apply HP. by right.
Qed.

Lemma filter_none {A} (P : A -> Prop) `{!forall x, Decision (P x)} (l : list A) :
  (forall x, x ∈ l -> ~ P x) -> filter P l = [].
Proof.
  induction l as [|x l IH]; intros HP; [done|].
  rewrite filter_cons_False by (apply HP; by left). apply IH. intros. apply HP. by right.
Qed.

(** The first element kept by a filter splits the list. *)
Lemma filter_split {A} (P : A -> Prop) `{!forall x, Decision (P x)} (l : list A) x rest :
  filter P l = x :: rest ->
  exists a b, l = a ++ x :: b /\ filter P a = [] /\ filter P b = rest.
Proof.
  induction l as [|y l IH]; [done|]. destruct (decide (P y)).
  - rewrite filter_cons_True by done. intros ?; simplify_eq. by exists [], l.
  - rewrite filter_cons_False by done. intros (a & b & -> & Ha & Hb)%IH.
    exists (y :: a), b. split_and!; [done|by rewrite filter_cons_False|done].
Qed.

Lemma Forall_filter_sub {A} (P : A -> Prop) (Q : A -> Prop) `{!forall x, Decision (Q x)} l :
  Forall P l -> Forall P (filter Q l).
Proof. rewrite !Forall_forall. intros HP x [_ Hx]%list_elem_of_filter. by apply HP. Qed.

Lemma StronglySorted_filter {A} (R : A -> A -> Prop) (Q : A -> Prop) `{!forall x, Decision (Q x)} l :
  StronglySorted R l -> StronglySorted R (filter Q l).
Proof.
  induction l as [|x l IH]; intros Hs; [constructor|]. apply StronglySorted_cons in Hs as [Hx Hs].
  destruct (decide (Q x)); [rewrite filter_cons_True by done|rewrite filter_cons_False by done; by apply IH].
  apply StronglySorted_cons. split; [by apply Forall_filter_sub|by apply IH].
Qed.

Lemma filter_sublist_nodup {A B} (f : A -> B) (P : A -> Prop) `{!forall x, Decision (P x)} (l : list A) :
  NoDup (f <$> l) -> NoDup (f <$> filter P l).
Proof.
  induction l as [|i l IH]; [done|]. simpl. intros [Hn Hnd]%NoDup_cons. destruct (decide (P i)).
  - rewrite filter_cons_True by done. simpl. apply NoDup_cons. split; [|by apply IH].
    intros (j & Heq & Hj)%list_elem_of_fmap. apply Hn, list_elem_of_fmap. exists j.
    split; [done|]. by apply list_elem_of_filter in Hj as [_ ?].
  - rewrite filter_cons_False by done. by apply IH.
Qed.
