(* ===== verification/Vli.v ===== *)
(** * Variable length integers and bit streams ([drbd/drbd_vli.h]) *)
From S2P Require Import Prelude.

(** ** The code table and the integer code *)

(** One [LEVEL(t, b, v)] entry: total bits, prefix bits, prefix value. *)
Record vli_level := LEVEL { lv_t : Z; lv_b : Z; lv_v : Z }.

Definition VLI_L_1_1 : list vli_level :=
  [ LEVEL  2 1 0x00;
    LEVEL  3 2 0x01;
    LEVEL  5 3 0x03;
    LEVEL  7 4 0x07;
    LEVEL 10 5 0x0f;
    LEVEL 14 6 0x1f;
    LEVEL 21 8 0x3f;
    LEVEL 29 8 0x7f;
    LEVEL 42 8 0xbf;
    LEVEL 64 8 0xff ].

(** [vli_decode_bits]: the expansion of the [LEVEL] macro, entry by entry.
    The result is the value of [out] and the number of bits consumed; running off the table is
    the [BUG()]. *)
Fixpoint vli_decode_levels (ls : list vli_level) (adj inp : Z) : outcome (Z * Z) :=
  match ls with
  | [] => BUG
  | LEVEL t b v :: ls =>
      if Z.land inp (Z.shiftl 1 b - 1) =? v
      then Ret (u64 (Z.shiftr (Z.land inp (Z.shiftr (2 ^ 64 - 1) (64 - t))) b + adj), t)
      else vli_decode_levels ls (u64 (adj + Z.shiftl 1 (t - b))) inp
  end.

Definition vli_decode_bits (inp : Z) : outcome (Z * Z) :=
  vli_decode_levels VLI_L_1_1 1 inp.

(** [__vli_encode_bits]: the result is the code word and its number of bits. *)
Fixpoint vli_encode_levels (ls : list vli_level) (max adj inp : Z) : outcome (Z * Z) :=
  match ls with
  | [] => Fail EOVERFLOW
  | LEVEL t b v :: ls =>
      let max := u64 (max + Z.shiftl 1 (t - b)) in
      if inp <=? max
      then Ret (Z.lor (u64 (Z.shiftl (u64 (inp - adj)) b)) v, t)
      else vli_encode_levels ls max (u64 (max + 1)) inp
  end.

Definition __vli_encode_bits (inp : Z) : outcome (Z * Z) :=
  if inp =? 0 then Fail EINVAL else vli_encode_levels VLI_L_1_1 0 1 inp.

(** Maximum encodable value, as in the comment of the code table. *)
Definition vli_max : Z := 0x100000400202130.

(** ** The bit stream *)

(** [struct bitstream]: the buffer (its length is [buf_len]), the cursor as
    byte offset [cur.b - buf] and bit, and the padding. *)
Record bitstream := mk_bitstream {
  bs_buf : list Z;
  bs_cur_b : Z;
  bs_cur_bit : Z;
  bs_pad_bits : Z }.

Definition bs_buf_len (bs : bitstream) : Z := Z.of_nat (length (bs_buf bs)).

Definition bitstream_cursor_reset (bs : bitstream) : bitstream :=
  mk_bitstream (bs_buf bs) 0 0 (bs_pad_bits bs).

Definition bitstream_cursor_advance (bs : bitstream) (bits : Z) : bitstream :=
  let bits := u32 (bits + bs_cur_bit bs) in
  mk_bitstream (bs_buf bs) (bs_cur_b bs + Z.shiftr bits 3) (Z.land bits 7) (bs_pad_bits bs).

Definition bitstream_init (s : list Z) (pad_bits : Z) : bitstream :=
  bitstream_cursor_reset (mk_bitstream s 0 0 pad_bits).

Definition bitstream_rewind (bs : bitstream) : bitstream :=
  mk_bitstream (replicate (length (bs_buf bs)) 0) 0 0 (bs_pad_bits bs).

(** [*b |= x] on a byte of the buffer; storing to an [unsigned char] keeps the
    low eight bits. *)
Definition or_byte (buf : list Z) (n x : Z) : list Z :=
  alter (fun c => u8 (Z.lor c x)) (Z.to_nat n) buf.

(** The loop [for (; tmp < bits; tmp += 8) *b++ |= (val >> tmp) & 0xff];
    [fuel] bounds its rounds. *)
Fixpoint put_bits_loop (fuel : nat) (buf : list Z) (n tmp val bits : Z) : list Z :=
  match fuel with
  | O => buf
  | S fuel =>
      if tmp <? bits
      then put_bits_loop fuel (or_byte buf n (Z.land (Z.shiftr val tmp) 0xff))
             (n + 1) (tmp + 8) val bits
      else buf
  end.

(** [bitstream_put_bits] returns the number of bits used and the new stream. *)
Definition bitstream_put_bits (bs : bitstream) (val bits : Z) : outcome (Z * bitstream) :=
  if bits =? 0 then Ret (0, bs)
  else if bs_buf_len bs <=? bs_cur_b bs + Z.shiftr (bs_cur_bit bs + bits - 1) 3
  then Fail ENOBUFS
  else
    let val := if bits <? 64 then Z.land val (Z.shiftr (2 ^ 64 - 1) (64 - bits)) else val in
    let buf := or_byte (bs_buf bs) (bs_cur_b bs)
                 (Z.shiftl (Z.land val 0xff) (bs_cur_bit bs)) in
    let buf := put_bits_loop (Z.to_nat bits) buf (bs_cur_b bs + 1)
                 (8 - bs_cur_bit bs) val bits in
    Ret (bits, bitstream_cursor_advance
                 (mk_bitstream buf (bs_cur_b bs) (bs_cur_bit bs) (bs_pad_bits bs)) bits).

(** [memcpy] of [n] bytes at [off] into a zeroed [u64], read as little endian. *)
Fixpoint memcpy_le64 (buf : list Z) (off : Z) (n : nat) : Z :=
  match n with
  | O => 0
  | S n => Z.lor (default 0 (buf !! Z.to_nat off)) (Z.shiftl (memcpy_le64 buf (off + 1) n) 8)
  end.

(** [bitstream_get_bits] returns the number of bits fetched, [*out] and the
    new stream.  The size test is computed in [unsigned int] as in the code. *)
Definition bitstream_get_bits (bs : bitstream) (bits : Z) : outcome (Z * Z * bitstream) :=
  if 64 <? bits then Fail EINVAL
  else
    let bits :=
      if bs_buf_len bs <=?
           bs_cur_b bs + Z.shiftr (u32 (bs_cur_bit bs + bs_pad_bits bs + bits - 1)) 3
      then Z.shiftl (bs_buf_len bs - bs_cur_b bs) 3 - bs_cur_bit bs - bs_pad_bits bs
      else bits in
    if bits =? 0 then Ret (0, 0, bs)
    else
      let n := Z.shiftr (bs_cur_bit bs + bits + 7) 3 in
      let val :=
        if n =? 0 then 0
        else u64 (Z.shiftl (memcpy_le64 (bs_buf bs) (bs_cur_b bs + 1) (Z.to_nat (n - 1)))
                    (8 - bs_cur_bit bs)) in
      let val := Z.lor val
        (Z.shiftr (default 0 (bs_buf bs !! Z.to_nat (bs_cur_b bs))) (bs_cur_bit bs)) in
      let val := Z.land val (Z.shiftr (2 ^ 64 - 1) (64 - bits)) in
      Ret (bits, val, bitstream_cursor_advance bs bits).

(** [vli_encode_bits]: encode [inp] into the stream. *)
Definition vli_encode_bits (bs : bitstream) (inp : Z) : outcome (Z * bitstream) :=
  let! (code, bits) := __vli_encode_bits inp in
  bitstream_put_bits bs code bits.

(** ** Properties of the integer code *)

(** A level describes at least one prefix bit, at most 64 bits in all, and a
    prefix that fits its width. *)
Definition level_ok (l : vli_level) : bool :=
  (0 <? lv_b l) && (lv_b l <=? lv_t l) && (lv_t l <=? 64) &&
  (0 <=? lv_v l) && (lv_v l <? 2 ^ lv_b l).

(** No later prefix starts with the prefix of [l]. *)
Definition prefix_differs (l l' : vli_level) : bool :=
  (lv_b l <=? lv_b l') && negb (lv_v l' mod 2 ^ lv_b l =? lv_v l).

Fixpoint table_ok (ls : list vli_level) : bool :=
  match ls with
  | [] => true
  | l :: ls => level_ok l && forallb (prefix_differs l) ls && table_ok ls
  end.

(** Number of values the table can encode. *)
Fixpoint code_space (ls : list vli_level) : Z :=
  match ls with
  | [] => 0
  | l :: ls => 2 ^ (lv_t l - lv_b l) + code_space ls
  end.

Lemma code_space_nonneg ls : 0 <= code_space ls.
Proof. induction ls as [|l ls IH]; simpl; [done|]. pose proof (Z.pow_nonneg 2 (lv_t l - lv_b l)). lia. Qed.

Lemma level_ok_spec t b v : level_ok (LEVEL t b v) = true ->
  0 < b <= t /\ t <= 64 /\ 0 <= v < 2 ^ b /\ 2 ^ t = 2 ^ b * 2 ^ (t - b) /\
  0 < 2 ^ b /\ 0 < 2 ^ (t - b).
Proof.
  unfold level_ok; simpl. intros H. reflect_bools. split_and!; try lia.
  - rewrite <- Z.pow_add_r by lia. f_equal. lia.
Qed.

Lemma table_ok_level ls l : table_ok ls = true -> l ∈ ls -> level_ok l = true.
Proof.
  induction ls as [|l' ls IH]; simpl; intros Hok Hin; reflect_bools; [by apply not_elem_of_nil in Hin|].
  apply elem_of_cons in Hin as [->|]; auto.
Qed.

(** A word of a level: prefix [v], data [x]. *)
Lemma lor_shift_prefix x b v : 0 <= b -> 0 <= v < 2 ^ b -> Z.lor (Z.shiftl x b) v = x * 2 ^ b + v.
Proof.
  intros Hb Hv. rewrite Z.shiftl_mul_pow2 by done. symmetry.
  apply Z.add_nocarry_lor.
  apply Z.bits_inj'. intros i Hi. rewrite Z.land_spec, Z.bits_0.
  destruct (Z.lt_ge_cases i b).
  - rewrite Z.mul_pow2_bits_low by lia. done.
  - rewrite (testbit_above v b) by lia. apply andb_false_r.
Qed.

Lemma encode_level_word adj t b v inp :
  level_ok (LEVEL t b v) = true -> 0 <= adj <= inp -> inp < adj + 2 ^ (t - b) -> inp < 2 ^ 64 ->
  Z.lor (u64 (Z.shiftl (u64 (inp - adj)) b)) v = (inp - adj) * 2 ^ b + v.
Proof.
  intros (? & ? & ? & Ht & ? & ?)%level_ok_spec Hadj Hi Hi64.
  rewrite (u64_small (inp - adj)) by lia.
  assert (2 ^ t <= 2 ^ 64) by (apply Z.pow_le_mono_r; lia).
  rewrite u64_small by (rewrite Z.shiftl_mul_pow2 by lia; nia).
  apply lor_shift_prefix; lia.
Qed.

Lemma mod_shift_prefix t b v x w :
  level_ok (LEVEL t b v) = true -> w mod 2 ^ t = x * 2 ^ b + v -> w mod 2 ^ b = v.
Proof.
  intros (? & ? & ? & Ht & ? & ?)%level_ok_spec Hw.
  rewrite (Znumtheory.Zmod_div_mod (2 ^ b) (2 ^ t) w), Hw by (lia || (rewrite Ht; apply Z.divide_factor_l)).
  rewrite Z.add_comm, Z_mod_plus_full. apply Z.mod_small. lia.
Qed.

(** Where the encoder stops: the level, and the data it stores. *)
Lemma encode_levels_inv ls adj inp code t :
  table_ok ls = true -> 1 <= adj <= inp -> inp < 2 ^ 64 -> adj + code_space ls < 2 ^ 64 ->
  vli_encode_levels ls (adj - 1) adj inp = Ret (code, t) ->
  exists b v x, LEVEL t b v ∈ ls /\ code = x * 2 ^ b + v /\ 0 <= x < 2 ^ (t - b).
Proof.
  revert adj. induction ls as [|[t' b' v'] ls IH]; intros adj Hok Hadj Hi Hs Henc; [done|].
  simpl in Hok, Hs, Henc. reflect_bools. pose proof (code_space_nonneg ls).
  destruct (level_ok_spec _ _ _ H) as (? & ? & ? & Ht & ? & ?).
  rewrite Z.shiftl_1_l, u64_small in Henc by lia.
  case_if_in Henc.
  - rewrite (encode_level_word _ t') in Henc by (done || lia). simplify_eq.
    exists b', v', (inp - adj). split_and!; [by left|done|lia|lia].
  - rewrite (u64_small (_ + 1)) in Henc by lia.
    destruct (IH (adj + 2 ^ (t' - b'))) as (b & v & x & ? & ? & ?); [done|lia|lia|lia| |].
    + rewrite <- Henc. f_equal; lia.
    + exists b, v, x. split_and!; [by right|done|lia|lia].
Qed.

Lemma prefix_differs_mod t b v t' b' v' w :
  0 <= b -> prefix_differs (LEVEL t b v) (LEVEL t' b' v') = true -> w mod 2 ^ b' = v' -> w mod 2 ^ b <> v.
Proof.
  unfold prefix_differs; simpl. intros Hb Hd Hw. reflect_bools.
  rewrite (Znumtheory.Zmod_div_mod (2 ^ b) (2 ^ b') w), Hw by
    (try (apply Z.pow_pos_nonneg; lia);
     exists (2 ^ (b' - b)); rewrite <- Z.pow_add_r by lia; f_equal; lia).
  done.
Qed.

Lemma encode_decode_levels ls adj inp code t w :
  table_ok ls = true -> 1 <= adj <= inp -> inp < 2 ^ 64 -> adj + code_space ls < 2 ^ 64 ->
  vli_encode_levels ls (adj - 1) adj inp = Ret (code, t) -> w mod 2 ^ t = code ->
  vli_decode_levels ls adj w = Ret (inp, t).
Proof.
  revert adj. induction ls as [|[t' b' v'] ls IH]; intros adj Hok Hadj Hi Hs Henc Hw; [done|].
  simpl in Hok, Hs, Henc |- *. reflect_bools. pose proof (code_space_nonneg ls).
  destruct (level_ok_spec _ _ _ H) as (? & ? & ? & Ht & ? & ?).
  rewrite land_pow2_mask by lia.
  rewrite Z.shiftl_1_l in Henc |- *. rewrite u64_small in Henc by lia.
  rewrite (u64_small (adj + _)) by lia.
  case_if_in Henc.
  - rewrite (encode_level_word _ t') in Henc by (done || lia). simplify_eq.
    symmetry in Henc. rename Henc into Hw. rewrite (mod_shift_prefix _ _ _ _ _ H Hw), Z.eqb_refl.
    rewrite land_mask64, Hw, Z.shiftr_div_pow2 by lia.
    rewrite Z.div_add_l, Z.div_small by lia.
    rewrite u64_small by lia. do 2 f_equal. lia.
  - rewrite (u64_small (_ + 1)) in Henc by lia.
    assert (vli_encode_levels ls (adj + 2 ^ (t' - b') - 1) (adj + 2 ^ (t' - b')) inp =
            Ret (code, t)) as Henc' by (rewrite <- Henc; f_equal; lia).
    destruct (encode_levels_inv ls (adj + 2 ^ (t' - b')) inp code t) as (b & v & x & Hin & -> & Hx);
      [done|lia|lia|lia|done|].
    rewrite (proj2 (Z.eqb_neq _ _)); [apply IH; try done; lia|].
    rewrite forallb_forall in H1. apply list_elem_of_In, H1 in Hin as Hd.
    eapply prefix_differs_mod; [lia|done|].
    eapply mod_shift_prefix; [|done]. by apply (table_ok_level ls), list_elem_of_In.
Qed.

(** Whatever the decoder returns is the value whose code word was read. *)
Lemma decode_encode_levels ls adj w out t :
  table_ok ls = true -> 1 <= adj -> adj + code_space ls < 2 ^ 64 ->
  vli_decode_levels ls adj w = Ret (out, t) ->
  adj <= out < adj + code_space ls /\
  vli_encode_levels ls (adj - 1) adj out = Ret (w mod 2 ^ t, t).
Proof.
  revert adj. induction ls as [|[t' b' v'] ls IH]; intros adj Hok Hadj Hs Hdec; [done|].
  simpl in Hok, Hs, Hdec |- *. reflect_bools. pose proof (code_space_nonneg ls).
  destruct (level_ok_spec _ _ _ H) as (? & ? & ? & Ht & ? & ?).
  rewrite land_pow2_mask, Z.shiftl_1_l, (u64_small (adj + _)) in Hdec by lia.
  rewrite Z.shiftl_1_l, u64_small by lia.
  case_if_in Hdec.
  - rewrite land_mask64, Z.shiftr_div_pow2 in Hdec by lia.
    assert (0 <= w mod 2 ^ t' < 2 ^ t') by (apply Z.mod_pos_bound; lia).
    assert (0 <= w mod 2 ^ t' / 2 ^ b' < 2 ^ (t' - b')).
    { split; [apply Z.div_pos; lia|]. apply Z.div_lt_upper_bound; lia. }
    rewrite u64_small in Hdec by lia. simplify_eq. split; [lia|].
    rewrite (proj2 (Z.leb_le _ _)) by lia.
    rewrite (encode_level_word _ t) by (done || lia). do 2 f_equal.
    rewrite (Znumtheory.Zmod_div_mod (2 ^ b') (2 ^ t) w) by
      (lia || (rewrite Ht; apply Z.divide_factor_l)).
    pose proof (Z.div_mod (w mod 2 ^ t) (2 ^ b')). lia.
  - apply IH in Hdec as [Hr Henc]; [|done|lia|lia]. split; [lia|].
    rewrite (proj2 (Z.leb_gt _ _)) by lia.
    rewrite (u64_small (_ + 1)), <- Henc by lia. f_equal; lia.
Qed.

Lemma decode_levels_total ls adj w :
  existsb (fun l => w mod 2 ^ lv_b l =? lv_v l) ls = true -> table_ok ls = true ->
  exists out t, vli_decode_levels ls adj w = Ret (out, t).
Proof.
  revert adj. induction ls as [|[t b v] ls IH]; intros adj Hex Hok; simpl in *; [done|].
  reflect_bools. destruct (level_ok_spec _ _ _ H) as (? & _).
  rewrite land_pow2_mask by lia. destruct (_ =? v); [by eauto|]. by apply IH.
Qed.

Lemma vli_table_ok : table_ok VLI_L_1_1 = true.
Proof. vm_compute. done. Qed.

Lemma vli_code_space : code_space VLI_L_1_1 = vli_max.
Proof. vm_compute. done. Qed.

Lemma prefix_low_byte ls w :
  forallb (fun l => (0 <=? lv_b l) && (lv_b l <=? 8)) ls = true ->
  existsb (fun l => w mod 2 ^ lv_b l =? lv_v l) ls =
  existsb (fun l => (w mod 2 ^ 8) mod 2 ^ lv_b l =? lv_v l) ls.
Proof.
  induction ls as [|l ls IH]; intros Hb; [done|]. cbn [forallb existsb] in *. reflect_bools.
  rewrite IH by done. do 2 f_equal. apply Znumtheory.Zmod_div_mod; [apply Z.pow_pos_nonneg; lia|lia|].
  exists (2 ^ (8 - lv_b l)). rewrite <- Z.pow_add_r by lia. f_equal. lia.
Qed.

(** The prefixes are complete: each of the 256 low bytes selects a level. *)
Lemma vli_prefix_complete w :
  existsb (fun l => w mod 2 ^ lv_b l =? lv_v l) VLI_L_1_1 = true.
Proof.
  assert (forallb (fun c => existsb (fun l => c mod 2 ^ lv_b l =? lv_v l) VLI_L_1_1)
            (seqZ 0 256) = true) as Hall by (vm_compute; done).
  rewrite forallb_forall in Hall. specialize (Hall (w mod 2 ^ 8)).
  rewrite prefix_low_byte by done. apply Hall.
  by apply list_elem_of_In, elem_of_seqZ, Z.mod_pos_bound.
Qed.

Lemma encode_levels_ok ls adj inp :
  table_ok ls = true -> 1 <= adj <= inp -> adj + code_space ls < 2 ^ 64 -> inp < adj + code_space ls ->
  exists code t, vli_encode_levels ls (adj - 1) adj inp = Ret (code, t).
Proof.
  revert adj. induction ls as [|[t b v] ls IH]; intros adj Hok Hadj Hs Hi; simpl in *; [lia|].
  reflect_bools. pose proof (code_space_nonneg ls).
  destruct (level_ok_spec _ _ _ H) as (? & ? & ? & ? & ? & ?).
  rewrite Z.shiftl_1_l, u64_small by lia. case_if; [by eauto|].
  rewrite (u64_small (_ + 1)) by lia.
  destruct (IH (adj + 2 ^ (t - b))) as (code & t' & He); [done|lia|lia|lia|].
  exists code, t'. rewrite <- He. f_equal; lia.
Qed.

Lemma encode_levels_overflow ls adj inp :
  table_ok ls = true -> 1 <= adj -> adj + code_space ls < 2 ^ 64 -> adj + code_space ls <= inp ->
  vli_encode_levels ls (adj - 1) adj inp = Fail EOVERFLOW.
Proof.
  revert adj. induction ls as [|[t b v] ls IH]; intros adj Hok Hadj Hs Hi; simpl in *; [done|].
  reflect_bools. pose proof (code_space_nonneg ls).
  destruct (level_ok_spec _ _ _ H) as (? & ? & ? & ? & ? & ?).
  rewrite Z.shiftl_1_l, u64_small by lia. case_if; [lia|].
  rewrite (u64_small (_ + 1)) by lia.
  rewrite <- (IH (adj + 2 ^ (t - b))) by (done || lia). f_equal; lia.
Qed.

(** The code words of the table have 2 to 64 bits. *)
Lemma vli_code_word inp : 1 <= inp <= vli_max ->
  exists code t, vli_encode_levels VLI_L_1_1 0 1 inp = Ret (code, t) /\ 0 <= code < 2 ^ t /\ 2 <= t <= 64.
Proof.
  intros Hi. unfold vli_max in Hi.
  pose proof vli_table_ok as Hok. pose proof vli_code_space as Hsp. unfold vli_max in Hsp.
  destruct (encode_levels_ok VLI_L_1_1 1 inp) as (code & t & Henc); [done|lia|lia|lia|].
  destruct (encode_levels_inv VLI_L_1_1 1 inp code t) as (b & v & x & Hin & Hc & Hx);
    [done|lia|lia|lia|done|].
  destruct (level_ok_spec t b v) as (? & ? & ? & Ht & ? & ?).
  { by apply (table_ok_level VLI_L_1_1). }
  assert (2 <= t).
  { assert (forallb (fun l => 2 <=? lv_t l) VLI_L_1_1 = true) as Ha by done.
    rewrite forallb_forall in Ha. apply list_elem_of_In, Ha in Hin. reflect_bools. done. }
  exists code, t. split_and!; [done|nia|nia|lia|lia].
Qed.

Lemma vli_code_decodes inp code t w : 1 <= inp <= vli_max ->
  vli_encode_levels VLI_L_1_1 0 1 inp = Ret (code, t) -> w mod 2 ^ t = code -> vli_decode_bits w = Ret (inp, t).
Proof.
  intros Hi Henc Hw. unfold vli_max in Hi. pose proof vli_code_space as Hsp. unfold vli_max in Hsp.
  apply (encode_decode_levels VLI_L_1_1 1 inp code); (done || lia || apply vli_table_ok).
Qed.

(** C1: the VLI code is a prefix code that round trips.  Every value from 1 to
    [vli_max] has a code word of [t] bits, and decoding a 64-bit look-ahead
    window whose low [t] bits are that word gives the value back and consumes
    exactly [t] bits, whatever bits of the next code word follow in the window. *)
Theorem vli_roundtrip inp :
  1 <= inp <= vli_max ->
  exists code t, __vli_encode_bits inp = Ret (code, t) /\ 0 <= code < 2 ^ t /\ 2 <= t <= 64 /\
    forall w, w mod 2 ^ t = code -> vli_decode_bits w = Ret (inp, t).
Proof.
  intros Hi. unfold __vli_encode_bits. rewrite (proj2 (Z.eqb_neq _ _)) by lia.
  destruct (vli_code_word inp Hi) as (code & t & Henc & Hc & Ht).
  exists code, t. split; [done|]. split; [done|]. split; [done|]. intros w Hw. by eapply vli_code_decodes.
Qed.

Lemma vli_roundtrip_witness :
  (1 <= 305 <= vli_max) /\
  exists code t, __vli_encode_bits 305 = Ret (code, t) /\ 0 <= code < 2 ^ t /\ 2 <= t <= 64 /\
    forall w, w mod 2 ^ t = code -> vli_decode_bits w = Ret (305, t).
Proof. split; [by vm_compute|]. apply (vli_roundtrip 305). by vm_compute. Defined.

(** C2: [vli_decode_bits] is total, so its [BUG()] is unreachable: every
    64-bit window starts with the code word of exactly one value, and the
    encoder maps that value back to the bits that were read (no value has two
    code words). *)
Theorem vli_decode_total w :
  exists out t, vli_decode_bits w = Ret (out, t) /\ 1 <= out <= vli_max /\
    __vli_encode_bits out = Ret (w mod 2 ^ t, t).
Proof.
  destruct (decode_levels_total VLI_L_1_1 1 w (vli_prefix_complete w) vli_table_ok)
    as (out & t & Hd).
  destruct (decode_encode_levels VLI_L_1_1 1 w out t) as [Hr He];
    [done|lia|by vm_compute|done|].
  rewrite vli_code_space in Hr.
  exists out, t. split_and!; [done|lia|lia|].
  unfold __vli_encode_bits. by rewrite (proj2 (Z.eqb_neq _ _)) by lia.
Qed.

(** Both errors of the encoder, exactly as its comment promises. *)
Lemma vli_encode_errors inp :
  0 <= inp ->
  (__vli_encode_bits inp = Fail EINVAL <-> inp = 0) /\
  (__vli_encode_bits inp = Fail EOVERFLOW <-> vli_max < inp).
Proof.
  intros Hi. pose proof vli_table_ok as Hok. pose proof vli_code_space as Hsp.
  unfold __vli_encode_bits. destruct (Z.eqb_spec inp 0) as [->|Hne].
  - split; split; try done.
  - destruct (Z.lt_ge_cases vli_max inp).
    + pose proof (encode_levels_overflow VLI_L_1_1 1 inp) as Ho.
      change (1 - 1) with 0 in Ho. rewrite Ho; [done|done|lia|by rewrite Hsp|lia].
    + destruct (encode_levels_ok VLI_L_1_1 1 inp) as (code & t & Henc);
        [done|lia|by rewrite Hsp|lia|].
      change (1 - 1) with 0 in Henc. rewrite Henc. split; split; (done || lia).
Qed.

(** ** Properties of the bit stream *)

(** Bit [i] of the stream: byte [i / 8], bit [i mod 8] (little endian). *)
Definition stream_bit (buf : list Z) (i : Z) : bool :=
  Z.testbit (default 0 (buf !! Z.to_nat (i / 8))) (i mod 8).

Definition bytes_ok (buf : list Z) : Prop := Forall (fun c => 0 <= c < 2 ^ 8) buf.

(** Position of the cursor in bits. *)
Definition bs_pos (bs : bitstream) : Z := 8 * bs_cur_b bs + bs_cur_bit bs.

(** Invariant of a stream: byte values, a normalized cursor ([bit] in 0..7),
    and a cursor that has not run into the padding. *)
Record bs_wf (bs : bitstream) : Prop := {
  wf_bytes : bytes_ok (bs_buf bs);
  wf_cur_b : 0 <= bs_cur_b bs;
  wf_cur_bit : 0 <= bs_cur_bit bs < 8;
  wf_pad : 0 <= bs_pad_bits bs < 8;
  wf_pos : bs_pos bs + bs_pad_bits bs <= 8 * bs_buf_len bs }.

Lemma bytes_ok_lookup buf n : bytes_ok buf -> 0 <= default 0 (buf !! n) < 2 ^ 8.
Proof.
  intros Hb. destruct (buf !! n) eqn:E; simpl; [|lia].
  by eapply (Forall_lookup_1 (fun c => 0 <= c < 2 ^ 8)).
Qed.

Lemma or_byte_ok buf n x : bytes_ok buf -> bytes_ok (or_byte buf n x).
Proof.
  intros Hb. apply Forall_alter; [done|]. intros. by apply Z.mod_pos_bound.
Qed.

Lemma length_or_byte buf n x : length (or_byte buf n x) = length buf.
Proof. apply length_alter. Qed.

Lemma stream_bit_or_byte buf n x i :
  0 <= n < Z.of_nat (length buf) -> 0 <= i ->
  stream_bit (or_byte buf n x) i =
  stream_bit buf i || (8 * n <=? i) && (i <? 8 * n + 8) && Z.testbit x (i - 8 * n).
Proof.
  intros Hn Hi. unfold stream_bit, or_byte.
  pose proof (Z.div_mod i 8). pose proof (Z.mod_pos_bound i 8).
  destruct (Z.eq_dec (i / 8) n) as [Heq|Hne].
  - rewrite (proj2 (Z.leb_le _ _)), (proj2 (Z.ltb_lt _ _)) by lia.
    rewrite Heq, list_lookup_alter_eq.
    destruct (lookup_lt_is_Some_2 buf (Z.to_nat n)) as [c ->]; [lia|]. simpl.
    unfold u8. rewrite testbit_mod_pow2, Z.lor_spec by lia.
    rewrite (proj2 (Z.ltb_lt _ _)) by lia. simpl. do 2 f_equal. lia.
  - rewrite list_lookup_alter_ne by lia.
    destruct (Z.leb_spec (8 * n) i), (Z.ltb_spec i (8 * n + 8)); simpl;
      rewrite ?orb_false_r; try done. lia.
Qed.

Lemma length_put_bits_loop fuel buf n tmp val bits :
  length (put_bits_loop fuel buf n tmp val bits) = length buf.
Proof.
  revert buf n tmp. induction fuel as [|fuel IH]; intros; simpl; [done|].
  case_if; [by rewrite IH, length_or_byte|done].
Qed.

Lemma put_bits_loop_ok fuel buf n tmp val bits :
  bytes_ok buf -> bytes_ok (put_bits_loop fuel buf n tmp val bits).
Proof.
  revert buf n tmp. induction fuel as [|fuel IH]; intros; simpl; [done|].
  case_if; [by apply IH, or_byte_ok|done].
Qed.

Lemma stream_bit_put_loop fuel buf n tmp val bits i :
  0 <= n -> 0 <= tmp -> 0 <= bits -> 0 <= val < 2 ^ bits -> bits <= tmp + 8 * Z.of_nat fuel ->
  8 * n + (bits - tmp) <= 8 * Z.of_nat (length buf) -> 0 <= i ->
  stream_bit (put_bits_loop fuel buf n tmp val bits) i =
  stream_bit buf i || (8 * n <=? i) && Z.testbit val (tmp + (i - 8 * n)).
Proof.
  revert buf n tmp. induction fuel as [|fuel IH]; intros buf n tmp Hn Ht Hb Hv Hf Hl Hi; simpl.
  - destruct (Z.leb_spec (8 * n) i); simpl; [|by rewrite orb_false_r].
    rewrite (testbit_above val bits) by lia. by rewrite orb_false_r.
  - case_if.
    + rewrite IH by (rewrite ?length_or_byte; lia).
      rewrite stream_bit_or_byte by lia.
      destruct (Z.leb_spec (8 * n) i), (Z.leb_spec (8 * (n + 1)) i),
        (Z.ltb_spec i (8 * n + 8)); simpl; rewrite ?orb_false_r; try lia; try done.
      * do 2 f_equal. lia.
      * f_equal. change 255 with (Z.ones 8). rewrite Z.land_spec, Z.testbit_ones, Z.shiftr_spec by lia.
        rewrite (proj2 (Z.ltb_lt (i - _) 8)), (proj2 (Z.leb_le 0 _)) by lia.
        simpl. rewrite andb_true_r. f_equal. lia.
    + destruct (Z.leb_spec (8 * n) i); simpl; [|by rewrite orb_false_r].
      rewrite (testbit_above val bits) by lia. by rewrite orb_false_r.
Qed.

Lemma bs_pos_div bs k :
  0 <= bs_cur_bit bs < 8 -> 0 <= k ->
  bs_cur_b bs + Z.shiftr (bs_cur_bit bs + k) 3 = (bs_pos bs + k) / 8.
Proof.
  intros Hb Hk. unfold bs_pos. rewrite Z.shiftr_div_pow2 by lia.
  rewrite <- Z.add_assoc, Z.mul_comm, Z.div_add_l by lia. done.
Qed.

(** Advancing keeps the cursor normalized and moves it by the number of bits. *)
Lemma cursor_advance_pos bs bits :
  0 <= bits <= 64 -> 0 <= bs_cur_bit bs < 8 ->
  let bs' := bitstream_cursor_advance bs bits in
  bs_pos bs' = bs_pos bs + bits /\ 0 <= bs_cur_bit bs' < 8 /\ bs_cur_b bs <= bs_cur_b bs' /\
  bs_buf bs' = bs_buf bs /\ bs_pad_bits bs' = bs_pad_bits bs.
Proof.
  intros Hbits Hb. unfold bitstream_cursor_advance, bs_pos; simpl.
  rewrite u32_small by lia. change 7 with (Z.ones 3).
  rewrite Z.land_ones, Z.shiftr_div_pow2 by lia. change (2 ^ 3) with 8.
  pose proof (Z.div_mod (bits + bs_cur_bit bs) 8).
  pose proof (Z.mod_pos_bound (bits + bs_cur_bit bs) 8).
  pose proof (Z.div_pos (bits + bs_cur_bit bs) 8).
  split_and!; (done || lia).
Qed.

Lemma stream_bit_first_byte buf n bit val i :
  0 <= n < Z.of_nat (length buf) -> 0 <= bit < 8 -> 0 <= i ->
  stream_bit (or_byte buf n (Z.shiftl (Z.land val 0xff) bit)) i =
  stream_bit buf i || (8 * n + bit <=? i) && (i <? 8 * n + 8) && Z.testbit val (i - (8 * n + bit)).
Proof.
  intros Hn Hb Hi. rewrite stream_bit_or_byte by done. f_equal.
  destruct (Z.leb_spec (8 * n) i), (Z.ltb_spec i (8 * n + 8)), (Z.leb_spec (8 * n + bit) i);
    simpl; try done; try lia.
  - rewrite Z.shiftl_spec by lia. change 255 with (Z.ones 8).
    rewrite Z.land_spec, Z.testbit_ones by lia.
    rewrite (proj2 (Z.ltb_lt _ 8)), (proj2 (Z.leb_le 0 _)), andb_true_r by lia. f_equal. lia.
  - rewrite Z.shiftl_spec_low by lia. done.
Qed.

(** The bits that [bitstream_put_bits] adds. *)
Lemma bitstream_put_bits_spec bs val bits :
  bs_wf bs -> 1 <= bits <= 64 -> 0 <= val < 2 ^ 64 ->
  bs_pos bs + bits + bs_pad_bits bs <= 8 * bs_buf_len bs ->
  exists bs', bitstream_put_bits bs val bits = Ret (bits, bs') /\ bs_wf bs' /\
    bs_pos bs' = bs_pos bs + bits /\ bs_buf_len bs' = bs_buf_len bs /\
    bs_pad_bits bs' = bs_pad_bits bs /\
    forall i, 0 <= i ->
      stream_bit (bs_buf bs') i = stream_bit (bs_buf bs) i ||
        (bs_pos bs <=? i) && (i <? bs_pos bs + bits) && Z.testbit val (i - bs_pos bs).
Proof.
  intros [Hbytes Hcb Hbit Hpad Hpos] Hbits Hval Hfit. unfold bitstream_put_bits.
  rewrite (proj2 (Z.eqb_neq _ _)) by lia.
  replace (bs_cur_bit bs + bits - 1) with (bs_cur_bit bs + (bits - 1)) by lia.
  rewrite bs_pos_div by lia.
  rewrite (proj2 (Z.leb_gt _ _)) by (apply Z.div_lt_upper_bound; lia).
  set (val' := if bits <? 64 then _ else _).
  assert (val' = val mod 2 ^ bits) as Hval'.
  { subst val'. case_if; [apply land_mask64; lia|].
    replace bits with 64 by lia. symmetry. by apply Z.mod_small. }
  assert (0 <= val' < 2 ^ bits) as Hv' by (rewrite Hval'; apply Z.mod_pos_bound; lia).
  set (buf0 := or_byte (bs_buf bs) (bs_cur_b bs) _).
  set (buf1 := put_bits_loop _ buf0 _ _ _ _).
  assert (length buf1 = length (bs_buf bs)) as Hlen.
  { subst buf1 buf0. by rewrite length_put_bits_loop, length_or_byte. }
  destruct (cursor_advance_pos (mk_bitstream buf1 (bs_cur_b bs) (bs_cur_bit bs) (bs_pad_bits bs)) bits)
    as (Hp & Hb' & Hc' & Hbuf' & Hpad'); [lia|done|].
  change (bs_pos (mk_bitstream _ _ _ _)) with (bs_pos bs) in Hp.
  cbn [bs_buf bs_pad_bits bs_cur_b bs_cur_bit] in Hc', Hbuf', Hpad'.
  eexists. split; [done|]. set (bs1 := bitstream_cursor_advance _ _) in *. clearbody bs1.
  unfold bs_buf_len in *. rewrite Hbuf', Hlen. split_and!; try done.
  - split; unfold bs_buf_len; rewrite ?Hbuf', ?Hpad', ?Hp; try lia.
    by apply put_bits_loop_ok, or_byte_ok.
  - intros i Hi. subst buf1 buf0. unfold bs_pos in *. rewrite stream_bit_put_loop by (rewrite ?length_or_byte; lia).
    rewrite stream_bit_first_byte by lia. rewrite <- orb_assoc. f_equal.
    destruct (Z.leb_spec (8 * bs_cur_b bs + bs_cur_bit bs) i); simpl.
    2: { rewrite (proj2 (Z.leb_gt _ _)) by lia. done. }
    replace (8 - bs_cur_bit bs + (i - 8 * (bs_cur_b bs + 1)))
      with (i - (8 * bs_cur_b bs + bs_cur_bit bs)) by lia.
    rewrite Hval', testbit_mod_pow2 by lia.
    destruct (Z.ltb_spec i (8 * bs_cur_b bs + 8)), (Z.leb_spec (8 * (bs_cur_b bs + 1)) i),
      (Z.ltb_spec i (8 * bs_cur_b bs + bs_cur_bit bs + bits)),
      (Z.ltb_spec (i - (8 * bs_cur_b bs + bs_cur_bit bs)) bits); simpl;
      rewrite ?orb_false_r; try lia; done.
Qed.

Lemma bitstream_put_bits_full bs val bits :
  bs_wf bs -> 1 <= bits -> 8 * bs_buf_len bs < bs_pos bs + bits ->
  bitstream_put_bits bs val bits = Fail ENOBUFS.
Proof.
  intros [Hbytes Hcb Hbit Hpad Hpos] Hbits Hfull. unfold bitstream_put_bits.
  rewrite (proj2 (Z.eqb_neq _ _)) by lia.
  replace (bs_cur_bit bs + bits - 1) with (bs_cur_bit bs + (bits - 1)) by lia.
  rewrite bs_pos_div by lia.
  rewrite (proj2 (Z.leb_le _ _)); [done|]. apply Z.div_le_lower_bound; lia.
Qed.

Lemma memcpy_le64_bits buf off n j :
  bytes_ok buf -> 0 <= off -> 0 <= j ->
  Z.testbit (memcpy_le64 buf off n) j = (j <? 8 * Z.of_nat n) && stream_bit buf (8 * off + j).
Proof.
  intros Hb. revert off j. induction n as [|n IH]; intros off j Hoff Hj; cbn [memcpy_le64].
  { rewrite Z.bits_0. destruct (Z.ltb_spec j (8 * Z.of_nat 0)); [lia|done]. }
  rewrite Z.lor_spec, Z.shiftl_spec by done.
  destruct (Z.lt_ge_cases j 8).
  - rewrite (Z.testbit_neg_r _ (j - 8)), orb_false_r, (proj2 (Z.ltb_lt _ _)) by lia. simpl.
    unfold stream_bit. rewrite (Z.mul_comm 8), Z.div_add_l, (Z.add_comm (off * 8)), Z_mod_plus_full by lia.
    rewrite Z.div_small, Z.mod_small by lia. by rewrite Z.add_0_r.
  - rewrite IH by lia. rewrite (testbit_above _ 8) by (try apply bytes_ok_lookup; done || lia). simpl.
    replace (8 * (off + 1) + (j - 8)) with (8 * off + j) by lia. f_equal.
    destruct (Z.ltb_spec (j - 8) (8 * Z.of_nat n)), (Z.ltb_spec j (8 * Z.of_nat (S n))); lia.
Qed.

(** Low bits of the current byte. *)
Lemma current_byte_bits bs j :
  bs_wf bs -> 0 <= j ->
  Z.testbit (Z.shiftr (default 0 (bs_buf bs !! Z.to_nat (bs_cur_b bs))) (bs_cur_bit bs)) j =
  (bs_cur_bit bs + j <? 8) && stream_bit (bs_buf bs) (bs_pos bs + j).
Proof.
  intros [Hb Hcb Hbit _ _] Hj. rewrite Z.shiftr_spec by done.
  destruct (Z.ltb_spec (bs_cur_bit bs + j) 8); simpl.
  - unfold stream_bit, bs_pos. rewrite <- Z.add_assoc, (Z.mul_comm 8), Z.div_add_l by lia.
    rewrite (Z.add_comm (bs_cur_b bs * 8)), Z_mod_plus_full, Z.div_small, Z.mod_small by lia.
    rewrite Z.add_0_r. f_equal. lia.
  - apply (testbit_above _ 8); [by apply bytes_ok_lookup|lia].
Qed.

(** The word assembled before the mask holds stream bit [pos + j] at bit [j]. *)
Lemma get_bits_word bs n j :
  bs_wf bs -> 0 <= j < n -> n <= 64 ->
  let k := Z.shiftr (bs_cur_bit bs + n + 7) 3 in
  Z.testbit (if k =? 0 then 0
             else u64 (Z.shiftl (memcpy_le64 (bs_buf bs) (bs_cur_b bs + 1) (Z.to_nat (k - 1)))
                         (8 - bs_cur_bit bs))) j
  || (bs_cur_bit bs + j <? 8) && stream_bit (bs_buf bs) (bs_pos bs + j) =
  stream_bit (bs_buf bs) (bs_pos bs + j).
Proof.
  intros [Hb Hcb Hbit _ _] Hj Hn k. subst k. rewrite Z.shiftr_div_pow2 by lia. change (2 ^ 3) with 8.
  pose proof (Z.div_mod (bs_cur_bit bs + n + 7) 8). pose proof (Z.mod_pos_bound (bs_cur_bit bs + n + 7) 8).
  set (k := (bs_cur_bit bs + n + 7) / 8) in *.
  rewrite (proj2 (Z.eqb_neq k 0)) by lia.
  unfold u64. rewrite testbit_mod_pow2, Z.shiftl_spec by lia.
  rewrite (proj2 (Z.ltb_lt j 64)) by lia. simpl.
  destruct (Z.ltb_spec (bs_cur_bit bs + j) 8); simpl.
  - rewrite Z.testbit_neg_r by lia. done.
  - rewrite orb_false_r, memcpy_le64_bits by (done || lia).
    rewrite (proj2 (Z.ltb_lt _ _)) by lia. simpl. f_equal. unfold bs_pos. lia.
Qed.

Lemma get_bits_fetches bs bits n :
  bs_wf bs -> 1 <= bits <= 64 -> n = Z.min bits (8 * bs_buf_len bs - bs_pos bs - bs_pad_bits bs) ->
  exists out bs', bitstream_get_bits bs bits = Ret (n, out, bs') /\ bs_wf bs' /\
    bs_pos bs' = bs_pos bs + n /\ bs_buf bs' = bs_buf bs /\ bs_pad_bits bs' = bs_pad_bits bs /\
    0 <= out < 2 ^ n /\
    forall j, 0 <= j -> Z.testbit out j = (j <? n) && stream_bit (bs_buf bs) (bs_pos bs + j).
Proof.
  intros Hwf Hbits Hmin. pose proof Hwf as [Hbytes Hcb Hbit Hpad Hpos].
  unfold bitstream_get_bits. rewrite (proj2 (Z.ltb_ge _ _)) by lia. cbv zeta.
  set (bits' := if _ <=? _ then _ else _).
  assert (bits' = n) as Hn.
  { subst bits'. rewrite Hmin, u32_small by lia.
    replace (bs_cur_bit bs + bs_pad_bits bs + bits - 1)
      with (bs_cur_bit bs + (bs_pad_bits bs + bits - 1)) by lia.
    rewrite bs_pos_div by lia. rewrite Z.shiftl_mul_pow2 by lia. change (2 ^ 3) with 8.
    pose proof (Z.div_mod (bs_pos bs + (bs_pad_bits bs + bits - 1)) 8).
    pose proof (Z.mod_pos_bound (bs_pos bs + (bs_pad_bits bs + bits - 1)) 8).
    unfold bs_pos in *. case_if; lia. }
  rewrite Hn. assert (0 <= n <= bits /\ n <= 8 * bs_buf_len bs - bs_pos bs - bs_pad_bits bs)
    as [Hnb Hna] by lia. clearbody bits'. subst bits'.
  destruct (Z.eqb_spec n 0) as [->|Hn0].
  { exists 0, bs. split_and!; try done; [lia|].
    intros j Hj. rewrite Z.bits_0. destruct (Z.ltb_spec j 0); [lia|done]. }
  destruct (cursor_advance_pos bs n) as (Hp & Hb' & Hc' & Hbuf' & Hpad'); [lia|done|].
  do 2 eexists. split; [done|]. set (bs1 := bitstream_cursor_advance _ _) in *. clearbody bs1.
  rewrite land_mask64 by lia. split_and!; try done.
  - split; unfold bs_buf_len in *; rewrite ?Hbuf', ?Hpad', ?Hp; done || lia.
  - by apply Z.mod_pos_bound; lia.
  - apply Z.mod_pos_bound. lia.
  - intros j Hj. rewrite testbit_mod_pow2 by lia.
    destruct (Z.ltb_spec j n); simpl; [|done].
    rewrite Z.lor_spec, current_byte_bits by done. apply get_bits_word; done || lia.
Qed.

(** [bitstream_get_bits] fetches the requested bits, or all that are left
    before the padding when there are fewer.  It returns that number, the bits
    as a number (bit 0 first), and the cursor moved past them. *)
Theorem bitstream_get_bits_correct bs bits :
  bs_wf bs -> 1 <= bits <= 64 ->
  let n := Z.min bits (8 * bs_buf_len bs - bs_pos bs - bs_pad_bits bs) in
  exists out bs', bitstream_get_bits bs bits = Ret (n, out, bs') /\ bs_wf bs' /\
    bs_pos bs' = bs_pos bs + n /\ bs_buf bs' = bs_buf bs /\ bs_pad_bits bs' = bs_pad_bits bs /\
    0 <= out < 2 ^ n /\
    forall j, 0 <= j -> Z.testbit out j = (j <? n) && stream_bit (bs_buf bs) (bs_pos bs + j).
Proof. intros Hwf Hbits n. destruct (get_bits_fetches bs bits n Hwf Hbits eq_refl) as (out & bs' & Hget & Hrest). by exists out, bs'. Qed.

Lemma bitstream_get_bits_witness :
  let bs := bitstream_init [0xb5; 0x2] 3 in
  bs_wf bs /\ 1 <= 64 <= 64 /\
  exists out bs', bitstream_get_bits bs 64 = Ret (13, out, bs') /\ bs_pos bs' = 13.
Proof.
  intros bs. assert (bs_wf bs) as Hwf.
  { split; try (by vm_compute). repeat constructor; by vm_compute. }
  split; [exact Hwf|]. split; [by vm_compute|].
  destruct (bitstream_get_bits_correct bs 64 Hwf) as (out & bs' & He & _ & Hp & _); [by vm_compute|].
  exists out, bs'. split; [exact He|exact Hp].
Defined.
