(* ===== verification/LruCache.v ===== *)
(** * The LRU cache of tracked extents
      ([drbd/drbd-kernel-compat/lru_cache.c], [linux/lru_cache.h])

    State: the element array, the four intrusive lists and the hash chains as
    lists of element indices, the counters at their machine width, and the
    flag word.  Every exported operation is a function on that state; [BUG_ON]
    is the [BUG] outcome. *)
From S2P Require Import Prelude.

(** ** Data *)

Definition LC_FREE : Z := 2 ^ 32 - 1.
Definition LC_MAX_ACTIVE : Z := Z.shiftl 1 24.

Record lc_element := mk_element {
  refcnt : Z;
  lc_index : nat;
  lc_number : Z;
  lc_new_number : Z }.

(** Bits of [lc->flags]. *)
Definition __LC_PARANOIA : Z := 0.
Definition __LC_DIRTY : Z := 1.
Definition __LC_LOCKED : Z := 2.
Definition __LC_STARVING : Z := 3.

(** The four list heads; an element is on exactly one of them. *)
Record lc_lists := mk_lists {
  lru : list nat;
  free : list nat;
  in_use : list nat;
  to_be_changed : list nat }.

Record lc_stats := mk_stats { hits : Z; misses : Z; starving : Z; locked : Z; changed : Z }.

Record lru_cache := mk_lru_cache {
  lists : lc_lists;
  nr_elements : nat;
  max_pending_changes : Z;
  pending_changes : Z;
  used : Z;
  stats : lc_stats;
  flags : Z;
  lc_slot : list (list nat);
  elements : list lc_element }.

Definition zero_stats : lc_stats := mk_stats 0 0 0 0 0.
Definition no_element : lc_element := mk_element 0 0 LC_FREE LC_FREE.
Definition elem (lc : lru_cache) (i : nat) : lc_element := default no_element (elements lc !! i).

(** ** State updates *)

Definition set_elem (i : nat) (f : lc_element -> lc_element) (lc : lru_cache) : lru_cache :=
  mk_lru_cache (lists lc) (nr_elements lc) (max_pending_changes lc) (pending_changes lc)
    (used lc) (stats lc) (flags lc) (lc_slot lc) (alter f i (elements lc)).
Definition set_lists (l : lc_lists) (lc : lru_cache) : lru_cache :=
  mk_lru_cache l (nr_elements lc) (max_pending_changes lc) (pending_changes lc)
    (used lc) (stats lc) (flags lc) (lc_slot lc) (elements lc).
Definition set_slots (s : list (list nat)) (lc : lru_cache) : lru_cache :=
  mk_lru_cache (lists lc) (nr_elements lc) (max_pending_changes lc) (pending_changes lc)
    (used lc) (stats lc) (flags lc) s (elements lc).
Definition set_flags (f : Z) (lc : lru_cache) : lru_cache :=
  mk_lru_cache (lists lc) (nr_elements lc) (max_pending_changes lc) (pending_changes lc)
    (used lc) (stats lc) f (lc_slot lc) (elements lc).
Definition set_used (u : Z) (lc : lru_cache) : lru_cache :=
  mk_lru_cache (lists lc) (nr_elements lc) (max_pending_changes lc) (pending_changes lc)
    u (stats lc) (flags lc) (lc_slot lc) (elements lc).
Definition set_pending (p : Z) (lc : lru_cache) : lru_cache :=
  mk_lru_cache (lists lc) (nr_elements lc) (max_pending_changes lc) p
    (used lc) (stats lc) (flags lc) (lc_slot lc) (elements lc).
Definition set_stats (s : lc_stats) (lc : lru_cache) : lru_cache :=
  mk_lru_cache (lists lc) (nr_elements lc) (max_pending_changes lc) (pending_changes lc)
    (used lc) s (flags lc) (lc_slot lc) (elements lc).

Definition set_refcnt (r : Z) (e : lc_element) : lc_element :=
  mk_element r (lc_index e) (lc_number e) (lc_new_number e).
Definition set_number (n : Z) (e : lc_element) : lc_element :=
  mk_element (refcnt e) (lc_index e) n (lc_new_number e).
Definition set_new_number (n : Z) (e : lc_element) : lc_element :=
  mk_element (refcnt e) (lc_index e) (lc_number e) n.

Definition bump_hits (s : lc_stats) := mk_stats (u64 (hits s + 1)) (misses s) (starving s) (locked s) (changed s).
Definition bump_misses (s : lc_stats) := mk_stats (hits s) (u64 (misses s + 1)) (starving s) (locked s) (changed s).
Definition bump_starving (s : lc_stats) := mk_stats (hits s) (misses s) (u64 (starving s + 1)) (locked s) (changed s).
Definition bump_locked (s : lc_stats) := mk_stats (hits s) (misses s) (starving s) (u64 (locked s + 1)) (changed s).
Definition bump_changed (s : lc_stats) := mk_stats (hits s) (misses s) (starving s) (locked s) (u64 (changed s + 1)).

(** ** Kernel list primitives *)

(** [list_del]: unlink [i] from whichever list it is on. *)
Definition list_del (i : nat) (l : lc_lists) : lc_lists :=
  mk_lists (filter (.≠ i) (lru l)) (filter (.≠ i) (free l))
    (filter (.≠ i) (in_use l)) (filter (.≠ i) (to_be_changed l)).

Inductive list_id := LRU | FREE | IN_USE | TO_BE_CHANGED.

(** [list_add]: link [i] at the front of a list. *)
Definition list_add (i : nat) (t : list_id) (l : lc_lists) : lc_lists :=
  match t with
  | LRU => mk_lists (i :: lru l) (free l) (in_use l) (to_be_changed l)
  | FREE => mk_lists (lru l) (i :: free l) (in_use l) (to_be_changed l)
  | IN_USE => mk_lists (lru l) (free l) (i :: in_use l) (to_be_changed l)
  | TO_BE_CHANGED => mk_lists (lru l) (free l) (in_use l) (i :: to_be_changed l)
  end.

Definition list_move (i : nat) (t : list_id) (l : lc_lists) : lc_lists :=
  list_add i t (list_del i l).

Definition hlist_unhashed (i : nat) (s : list (list nat)) : bool :=
  negb (existsb (fun c => existsb (Nat.eqb i) c) s).
Definition hlist_del (i : nat) (s : list (list nat)) : list (list nat) :=
  filter (.≠ i) <$> s.
Definition hlist_add_head (i h : nat) (s : list (list nat)) : list (list nat) :=
  alter (cons i) h s.

(** ** Operations *)

Definition PARANOIA_ENTRY (lc : lru_cache) : outcome lru_cache :=
  bug_on! Nat.eqb (nr_elements lc) 0 in
  bug_on! Z.testbit (flags lc) __LC_PARANOIA in
  Ret (set_flags (Z.setbit (flags lc) __LC_PARANOIA) lc).

Definition RETURN {A} (x : A) (lc : lru_cache) : outcome (A * lru_cache) :=
  Ret (x, set_flags (Z.clearbit (flags lc) __LC_PARANOIA) lc).

(** [PARANOIA_LC_ELEMENT]: [e] is tracked at its own index. *)
Definition PARANOIA_LC_ELEMENT (lc : lru_cache) (i : nat) : bool :=
  Nat.leb (nr_elements lc) (lc_index (elem lc i)) || negb (Nat.eqb (lc_index (elem lc i)) i).

(** One round of the [cmpxchg] loop of [lc_try_lock]; [None] means spin. *)
Definition lc_try_lock (lc : lru_cache) : option (bool * lru_cache) :=
  if flags lc =? Z.shiftl 1 __LC_PARANOIA then None
  else if flags lc =? 0 then Some (true, set_flags (Z.shiftl 1 __LC_LOCKED) lc)
  else Some (false, lc).

Definition lc_try_lock_for_transaction (lc : lru_cache) : bool * lru_cache :=
  (negb (Z.testbit (flags lc) __LC_LOCKED), set_flags (Z.setbit (flags lc) __LC_LOCKED) lc).

Definition lc_unlock (lc : lru_cache) : lru_cache :=
  set_flags (Z.clearbit (Z.clearbit (flags lc) __LC_DIRTY) __LC_LOCKED) lc.

(** The loop of [lc_create]: [alloc i] tells whether the allocation of the
    [i]-th object succeeds; elements are linked at the front of [free]. *)
Fixpoint create_elements (n i : nat) (alloc : nat -> bool) (acc : list lc_element) (fr : list nat)
  : option (list lc_element * list nat) :=
  match n with
  | O => Some (acc, fr)
  | S n =>
      if alloc i
      then create_elements n (S i) alloc (acc ++ [mk_element 0 i LC_FREE LC_FREE]) (i :: fr)
      else None
  end.

Definition lc_create (cache_obj_size max_pending : Z) (e_count : nat) (e_size : Z)
    (alloc_slot alloc_element alloc_lc : bool) (alloc : nat -> bool) : option lru_cache :=
  if cache_obj_size <? e_size then None
  else if LC_MAX_ACTIVE <? Z.of_nat e_count then None
  else if negb alloc_slot then None
  else if negb alloc_element then None
  else if negb alloc_lc then None
  else
    match create_elements e_count 0 alloc [] [] with
    | Some (es, fr) =>
        Some (mk_lru_cache (mk_lists [] fr [] []) e_count max_pending 0 0 zero_stats 0
                (replicate e_count []) es)
    | None => None
    end.

(** [lc_reset]: all elements back to the free list. *)
Fixpoint reset_elements (n i : nat) (lc : lru_cache) : lru_cache :=
  match n with
  | O => lc
  | S n =>
      reset_elements n (S i)
        (set_lists (list_add i FREE (lists lc))
          (set_elem i (fun _ => mk_element 0 i LC_FREE LC_FREE) lc))
  end.

Definition lc_reset (lc : lru_cache) : lru_cache :=
  reset_elements (nr_elements lc) 0
    (mk_lru_cache (mk_lists [] [] [] []) (nr_elements lc) (max_pending_changes lc) 0 0
       zero_stats 0 (replicate (nr_elements lc) []) (elements lc)).

(** [enr % lc->nr_elements] *)
Definition lc_hash_slot (lc : lru_cache) (enr : Z) : nat :=
  Z.to_nat (enr mod Z.of_nat (nr_elements lc)).

Fixpoint find_in_chain (lc : lru_cache) (enr : Z) (include_changing : bool) (chain : list nat)
  : option nat :=
  match chain with
  | [] => None
  | i :: chain =>
      let e := elem lc i in
      if negb (lc_new_number e =? enr) then find_in_chain lc enr include_changing chain
      else if (lc_new_number e =? lc_number e) || include_changing then Some i
      else None
  end.

Definition __lc_find (lc : lru_cache) (enr : Z) (include_changing : bool) : outcome (option nat) :=
  bug_on! Nat.eqb (nr_elements lc) 0 in
  Ret (find_in_chain lc enr include_changing (default [] (lc_slot lc !! lc_hash_slot lc enr))).

Definition lc_find (lc : lru_cache) (enr : Z) : outcome (option nat) := __lc_find lc enr false.

Definition lc_is_used (lc : lru_cache) (enr : Z) : outcome bool :=
  let! r := __lc_find lc enr true in
  Ret (match r with Some i => negb (refcnt (elem lc i) =? 0) | None => false end).

Definition lc_del (lc : lru_cache) (i : nat) : outcome (unit * lru_cache) :=
  let! lc := PARANOIA_ENTRY lc in
  bug_on! PARANOIA_LC_ELEMENT lc i in
  bug_on! negb (refcnt (elem lc i) =? 0) in
  let lc := set_elem i (fun e => set_number LC_FREE (set_new_number LC_FREE e)) lc in
  let lc := set_slots (hlist_del i (lc_slot lc)) lc in
  let lc := set_lists (list_move i FREE (lists lc)) lc in
  RETURN tt lc.

(** [lc_prepare_for_change]: recycle a free element, else evict the least
    recently used one ([lru.prev], the last of the list). *)
Definition lc_prepare_for_change (lc : lru_cache) (new_number : Z)
  : outcome (option nat * lru_cache) :=
  match free (lists lc), last (lru (lists lc)) with
  | [], None => Ret (None, lc)
  | fr, l =>
      let i := match fr, l with i :: _, _ => i | [], Some i => i | [], None => 0%nat end in
      bug_on! PARANOIA_LC_ELEMENT lc i in
      let lc := set_elem i (set_new_number new_number) lc in
      let lc := if hlist_unhashed i (lc_slot lc) then lc
                else set_slots (hlist_del i (lc_slot lc)) lc in
      let lc := set_slots (hlist_add_head i (lc_hash_slot lc new_number) (lc_slot lc)) lc in
      Ret (Some i, set_lists (list_move i TO_BE_CHANGED (lists lc)) lc)
  end.

Definition lc_unused_element_available (lc : lru_cache) : bool :=
  match free (lists lc), lru (lists lc) with [], [] => false | _, _ => true end.

(** [__lc_get]; the two flags of the C function are booleans here. *)
Definition __lc_get (lc : lru_cache) (enr : Z) (may_change may_use_uncommitted : bool)
  : outcome (option nat * lru_cache) :=
  let! lc := PARANOIA_ENTRY lc in
  if Z.testbit (flags lc) __LC_STARVING
  then RETURN None (set_stats (bump_starving (stats lc)) lc)
  else
  let! r := __lc_find lc enr true in
  match r with
  | Some i =>
      if negb (lc_new_number (elem lc i) =? lc_number (elem lc i))
      then
        if negb may_use_uncommitted then RETURN None lc
        else
          let lc := set_elem i (fun e => set_refcnt (u32 (refcnt e + 1)) e) lc in
          RETURN (Some i) (set_stats (bump_hits (stats lc)) lc)
      else
        let lc := set_stats (bump_hits (stats lc)) lc in
        let was_zero := refcnt (elem lc i) =? 0 in
        let lc := set_elem i (fun e => set_refcnt (u32 (refcnt e + 1)) e) lc in
        let lc := if was_zero then set_used (u32 (used lc + 1)) lc else lc in
        RETURN (Some i) (set_lists (list_move i IN_USE (lists lc)) lc)
  | None =>
      let lc := set_stats (bump_misses (stats lc)) lc in
      if negb may_change then RETURN None lc
      else
      let lc := set_flags (Z.setbit (flags lc) __LC_DIRTY) lc in
      if Z.testbit (flags lc) __LC_LOCKED
      then RETURN None (set_stats (bump_locked (stats lc)) lc)
      else if negb (lc_unused_element_available lc)
      then RETURN None (set_flags (Z.setbit (flags lc) __LC_STARVING) lc)
      else if max_pending_changes lc <=? pending_changes lc then RETURN None lc
      else
        let! (r, lc) := lc_prepare_for_change lc enr in
        match r with
        | None => BUG
        | Some i =>
            let lc := set_flags (Z.clearbit (flags lc) __LC_STARVING) lc in
            let lc := set_elem i (fun e => set_refcnt (u32 (refcnt e + 1)) e) lc in
            bug_on! negb (refcnt (elem lc i) =? 1) in
            let lc := set_used (u32 (used lc + 1)) lc in
            let lc := set_pending (u32 (pending_changes lc + 1)) lc in
            RETURN (Some i) lc
        end
  end.

Definition lc_get (lc : lru_cache) (enr : Z) := __lc_get lc enr true false.
Definition lc_get_cumulative (lc : lru_cache) (enr : Z) := __lc_get lc enr true true.
Definition lc_try_get (lc : lru_cache) (enr : Z) := __lc_get lc enr false false.

(** The [list_for_each_entry_safe] loop of [lc_committed]. *)
Fixpoint commit_elements (l : list nat) (lc : lru_cache) : lru_cache :=
  match l with
  | [] => lc
  | i :: l =>
      let lc := set_stats (bump_changed (stats lc)) lc in
      let lc := set_elem i (fun e => set_number (lc_new_number e) e) lc in
      commit_elements l (set_lists (list_move i IN_USE (lists lc)) lc)
  end.

Definition lc_committed (lc : lru_cache) : outcome (unit * lru_cache) :=
  let! lc := PARANOIA_ENTRY lc in
  let lc := commit_elements (to_be_changed (lists lc)) lc in
  RETURN tt (set_pending 0 lc).

Definition lc_put (lc : lru_cache) (i : nat) : outcome (Z * lru_cache) :=
  let! lc := PARANOIA_ENTRY lc in
  bug_on! PARANOIA_LC_ELEMENT lc i in
  bug_on! refcnt (elem lc i) =? 0 in
  bug_on! negb (lc_number (elem lc i) =? lc_new_number (elem lc i)) in
  let lc := set_elem i (fun e => set_refcnt (u32 (refcnt e - 1)) e) lc in
  let lc :=
    if refcnt (elem lc i) =? 0
    then
      let lc := set_lists (list_move i LRU (lists lc)) lc in
      let lc := set_used (u32 (used lc - 1)) lc in
      set_flags (Z.clearbit (flags lc) __LC_STARVING) lc
    else lc in
  RETURN (refcnt (elem lc i)) lc.

Definition lc_element_by_index (lc : lru_cache) (i : nat) : outcome nat :=
  bug_on! Nat.leb (nr_elements lc) i in
  bug_on! negb (Nat.eqb (lc_index (elem lc i)) i) in
  Ret i.

#[global] Arguments list_move : simpl never.
#[global] Arguments list_del : simpl never.
#[global] Arguments hlist_del : simpl never.
#[global] Arguments hlist_add_head : simpl never.
#[global] Arguments u32 : simpl never.
#[global] Arguments u64 : simpl never.
#[global] Arguments Z.testbit : simpl never.
#[global] Arguments Z.setbit : simpl never.
#[global] Arguments Z.clearbit : simpl never.

(** ** The representation invariant *)

#[export] Instance list_id_eq_dec : EqDecision list_id.
Proof. solve_decision. Defined.

Definition on (t : list_id) (l : lc_lists) : list nat :=
  match t with
  | LRU => lru l | FREE => free l | IN_USE => in_use l | TO_BE_CHANGED => to_be_changed l
  end.

Definition all_of (l : lc_lists) : list nat := free l ++ lru l ++ in_use l ++ to_be_changed l.

Definition label_ok (enr : Z) : Prop := 0 <= enr < LC_FREE.

(** What each list says about the elements on it. *)
Definition ok_in (t : list_id) (e : lc_element) : Prop :=
  match t with
  | FREE => refcnt e = 0 /\ lc_number e = LC_FREE /\ lc_new_number e = LC_FREE
  | LRU => refcnt e = 0 /\ lc_number e = lc_new_number e /\ label_ok (lc_new_number e)
  | IN_USE => 1 <= refcnt e < 2 ^ 32 /\ lc_number e = lc_new_number e /\ label_ok (lc_new_number e)
  | TO_BE_CHANGED =>
      1 <= refcnt e < 2 ^ 32 /\ lc_number e <> lc_new_number e /\ label_ok (lc_new_number e)
  end.

Definition el (es : list lc_element) (i : nat) : lc_element := default no_element (es !! i).
Definition slot (sl : list (list nat)) (s : nat) : list nat := default [] (sl !! s).
Definition hash (n : nat) (enr : Z) : nat := Z.to_nat (enr mod Z.of_nat n).

(** Elements, lists and hash chains agree: every element is on exactly one
    list, has the state the list stands for, is hashed by its new number
    unless it is free, and no two hashed elements share a new number. *)
Record core (n : nat) (es : list lc_element) (ls : lc_lists) (sl : list (list nat)) : Prop := {
  core_nr : (0 < n)%nat /\ Z.of_nat n <= LC_MAX_ACTIVE;
  core_len : length es = n;
  core_slots : length sl = n;
  core_index : forall i, (i < n)%nat -> lc_index (el es i) = i;
  core_perm : all_of ls ≡ₚ seq 0 n;
  core_ok : forall t i, i ∈ on t ls -> ok_in t (el es i);
  core_hash : forall s i, i ∈ slot sl s <->
    (i < n)%nat /\ i ∉ free ls /\ s = hash n (lc_new_number (el es i));
  core_inj : forall i j, (i < n)%nat -> (j < n)%nat -> i ∉ free ls -> j ∉ free ls ->
    lc_new_number (el es i) = lc_new_number (el es j) -> i = j }.

Record lc_wf (lc : lru_cache) : Prop := {
  wf_core : core (nr_elements lc) (elements lc) (lists lc) (lc_slot lc);
  wf_used : used lc = Z.of_nat (length (in_use (lists lc)) + length (to_be_changed (lists lc)));
  wf_pending : pending_changes lc = Z.of_nat (length (to_be_changed (lists lc)));
  wf_max : pending_changes lc <= max_pending_changes lc < 2 ^ 32;
  wf_starving : Z.testbit (flags lc) __LC_STARVING = true ->
    free (lists lc) = [] /\ lru (lists lc) = [];
  wf_paranoia : Z.testbit (flags lc) __LC_PARANOIA = false }.

(** ** Lemmas on the lists *)

Lemma on_del t i l : on t (list_del i l) = filter (.≠ i) (on t l).
Proof. by destruct t. Qed.

Lemma on_move t' i t l :
  on t' (list_move i t l) = (if decide (t' = t) then [i] else []) ++ filter (.≠ i) (on t' l).
Proof. unfold list_move. by destruct t, t'. Qed.

Lemma elem_of_move t' j i t l :
  j ∈ on t' (list_move i t l) <-> (j = i /\ t' = t) \/ (j <> i /\ j ∈ on t' l).
Proof. rewrite on_move, elem_of_app, list_elem_of_filter. case_decide; set_solver. Qed.

Lemma elem_of_all_of i l : i ∈ all_of l <-> exists t, i ∈ on t l.
Proof.
  unfold all_of. rewrite !elem_of_app. split.
  - intros [?|[?|[?|?]]]; [exists FREE|exists LRU|exists IN_USE|exists TO_BE_CHANGED]; done.
  - intros [[] ?]; simpl in *; tauto.
Qed.

Lemma filter_ne_perm (i : nat) l : NoDup l -> i ∈ l -> i :: filter (.≠ i) l ≡ₚ l.
Proof.
  intros Hnd Hin. apply NoDup_Permutation; [|done|].
  - apply NoDup_cons. split; [rewrite list_elem_of_filter; tauto|by apply NoDup_filter].
  - intros j. rewrite elem_of_cons, list_elem_of_filter.
    destruct (decide (j = i)); [naive_solver|tauto].
Qed.

Lemma all_of_del i l : all_of (list_del i l) = filter (.≠ i) (all_of l).
Proof. unfold all_of, list_del; simpl. by rewrite !filter_app. Qed.

Lemma all_of_add i t l : all_of (list_add i t l) ≡ₚ i :: all_of l.
Proof. unfold all_of. destruct t; simpl; solve_Permutation. Qed.

Lemma all_of_move i t l : NoDup (all_of l) -> i ∈ all_of l -> all_of (list_move i t l) ≡ₚ all_of l.
Proof. intros. unfold list_move. rewrite all_of_add, all_of_del. by apply filter_ne_perm. Qed.

Lemma on_disjoint i t t' l : NoDup (all_of l) -> i ∈ on t l -> i ∈ on t' l -> t = t'.
Proof.
  unfold all_of. rewrite !NoDup_app. intros (_ & Hf & _ & Hl & _ & Hi & _) Ht Ht'.
  destruct t, t'; simpl in *; try done; exfalso;
    try (by apply (Hf i); set_solver); try (by apply (Hl i); set_solver); by apply (Hi i).
Qed.

Lemma on_nodup t l : NoDup (all_of l) -> NoDup (on t l).
Proof. unfold all_of. rewrite !NoDup_app. destruct t; simpl; tauto. Qed.

(** Length of each list after moving [i] from [t0] to [t]. *)
Lemma length_on_move t' i t t0 l :
  NoDup (all_of l) -> i ∈ on t0 l ->
  Z.of_nat (length (on t' (list_move i t l))) =
  Z.of_nat (length (on t' l)) + (if decide (t' = t) then 1 else 0) - (if decide (t' = t0) then 1 else 0).
Proof.
  intros Hnd Hi. rewrite on_move, length_app.
  destruct (decide (t' = t0)) as [->|Hne].
  - pose proof (Permutation_length (filter_ne_perm i _ (on_nodup t0 l Hnd) Hi)) as Hl.
    simpl in Hl. case_decide; simpl; lia.
  - rewrite filter_id.
    + case_decide; simpl; lia.
    + intros j Hj ->. apply Hne. by eapply on_disjoint.
Qed.

Section core_facts.
Context {n : nat} {es : list lc_element} {ls : lc_lists} {sl : list (list nat)}.
Hypothesis Hc : core n es ls sl.

Lemma core_nodup : NoDup (all_of ls).
Proof using Hc. rewrite (core_perm _ _ _ _ Hc). apply NoDup_seq. Qed.

Lemma core_elem i : i ∈ all_of ls <-> (i < n)%nat.
Proof using Hc. rewrite (core_perm _ _ _ _ Hc), elem_of_seq. lia. Qed.

Lemma core_on_lt t i : i ∈ on t ls -> (i < n)%nat.
Proof using Hc. intros Hi. apply core_elem, elem_of_all_of. eauto. Qed.

Lemma core_list i : (i < n)%nat -> exists t, i ∈ on t ls.
Proof using Hc. intros Hi. by apply elem_of_all_of, core_elem. Qed.

Lemma core_not_free t i : i ∈ on t ls -> t <> FREE -> i ∉ free ls.
Proof using Hc.
  intros Hi Hne Hf. apply Hne. eapply on_disjoint; [apply core_nodup|done|done].
Qed.

Lemma el_alter i j f :
  el (alter f i es) j = if decide (i = j) then (if decide (i < n)%nat then f (el es i) else el es j)
                        else el es j.
Proof using Hc.
  unfold el. destruct (decide (i = j)) as [->|].
  - rewrite list_lookup_alter_eq. case_decide as Hlt.
    + destruct (lookup_lt_is_Some_2 es j) as [e ->]; [by rewrite (core_len _ _ _ _ Hc)|done].
    + rewrite (lookup_ge_None_2 es j); [done|]. rewrite (core_len _ _ _ _ Hc). lia.
  - by rewrite list_lookup_alter_ne.
Qed.

(** The one step every operation takes: change element [i], move it to the
    list [t] and rehash it accordingly. *)
Lemma core_step i t f sl' :
  (i < n)%nat -> ok_in t (f (el es i)) -> lc_index (f (el es i)) = lc_index (el es i) ->
  length sl' = length sl ->
  (forall s j, j <> i -> j ∈ slot sl' s <-> j ∈ slot sl s) ->
  (forall s, i ∈ slot sl' s <-> t <> FREE /\ s = hash n (lc_new_number (f (el es i)))) ->
  (t <> FREE -> forall j, (j < n)%nat -> j ∉ free ls ->
     lc_new_number (el es j) = lc_new_number (f (el es i)) -> j = i) ->
  core n (alter f i es) (list_move i t ls) sl'.
Proof using Hc.
  intros Hi Hok Hidx Hlen Hother Hself Hinj.
  assert (forall j, j ∉ free (list_move i t ls) <->
            (j = i /\ t <> FREE) \/ (j <> i /\ j ∉ free ls)) as Hfree.
  { intros j. pose proof (elem_of_move FREE j i t ls) as Hm. simpl in Hm. rewrite Hm.
    destruct (decide (j = i)), (decide (t = FREE)); naive_solver. }
  split.
  - apply Hc.
  - rewrite length_alter. apply Hc.
  - rewrite Hlen. apply Hc.
  - intros j Hj. rewrite el_alter. repeat case_decide; subst; try by apply Hc.
    rewrite Hidx. by apply Hc.
  - rewrite all_of_move; [apply Hc|apply core_nodup|by apply core_elem].
  - intros t' j [[-> ->]|[Hne Hj]]%elem_of_move; rewrite el_alter.
    + rewrite decide_True by done. by rewrite decide_True.
    + rewrite decide_False by done. by apply Hc.
  - intros s j. rewrite Hfree, el_alter. destruct (decide (i = j)) as [<-|Hne].
    + rewrite Hself, decide_True by done. naive_solver.
    + rewrite Hother by done. rewrite (core_hash _ _ _ _ Hc). naive_solver.
  - intros j k Hj Hk. rewrite !Hfree, !el_alter.
    destruct (decide (i = j)) as [<-|Hne], (decide (i = k)) as [<-|Hne'];
      rewrite ?decide_True by done; intros Hfj Hfk Heq; try done.
    + symmetry. apply Hinj; naive_solver.
    + apply Hinj; naive_solver.
    + apply (core_inj _ _ _ _ Hc); naive_solver.
Qed.

(** Moving a hashed element without changing its new number. *)
Lemma core_step_same_hash i t f :
  (i < n)%nat -> i ∉ free ls -> t <> FREE -> ok_in t (f (el es i)) ->
  lc_index (f (el es i)) = lc_index (el es i) ->
  lc_new_number (f (el es i)) = lc_new_number (el es i) ->
  core n (alter f i es) (list_move i t ls) sl.
Proof using Hc.
  intros Hi Hf Ht Hok Hidx Hnew. apply core_step; try done.
  - intros s. rewrite (core_hash _ _ _ _ Hc), Hnew. naive_solver.
  - intros _ j Hj Hjf Heq. rewrite Hnew in Heq. by eapply (core_inj _ _ _ _ Hc).
Qed.

(** Changing an element in place, on the list it is on. *)
Lemma core_same_list i t f :
  i ∈ on t ls -> ok_in t (f (el es i)) ->
  (forall e, lc_index (f e) = lc_index e /\ lc_new_number (f e) = lc_new_number e) ->
  core n (alter f i es) ls sl.
Proof using Hc.
  intros Hin Hokf Hf. generalize Hc; intros [Hnr Hlen Hsl Hidx Hperm Hok Hhash Hinj].
  assert (forall j, lc_new_number (el (alter f i es) j) = lc_new_number (el es j)) as Hnew.
  { intros j. rewrite el_alter. repeat case_decide; subst; try done. apply Hf. }
  split; try done.
  - by rewrite length_alter.
  - intros j Hj. rewrite el_alter. repeat case_decide; subst; rewrite ?(proj1 (Hf _)); by apply Hidx.
  - intros t' j Hj. rewrite el_alter. repeat case_decide; subst; try by apply Hok.
    assert (t' = t) as -> by (eapply on_disjoint; [rewrite Hperm; apply NoDup_seq|done|done]). done.
  - intros s j. rewrite Hnew. apply Hhash.
  - intros j k Hj Hk Hjf Hkf. rewrite !Hnew. by apply Hinj.
Qed.
End core_facts.

(** ** Lookup *)

Lemma find_in_chain_true lc enr chain :
  match find_in_chain lc enr true chain with
  | Some i => i ∈ chain /\ lc_new_number (elem lc i) = enr
  | None => forall i, i ∈ chain -> lc_new_number (elem lc i) <> enr
  end.
Proof.
  induction chain as [|i chain IH]; simpl; [by intros i ?%not_elem_of_nil|].
  destruct (Z.eqb_spec (lc_new_number (elem lc i)) enr); simpl.
  - rewrite orb_true_r. split; [by left|done].
  - destruct (find_in_chain lc enr true chain) as [j|].
    + destruct IH. split; [by right|done].
    + intros j [->|Hj]%elem_of_cons; auto.
Qed.

(** The chain walk stops at the first element with the label; since labels
    are unique, ignoring uncommitted elements only filters its result. *)
Lemma find_in_chain_filter lc enr inc chain :
  find_in_chain lc enr inc chain =
  match find_in_chain lc enr true chain with
  | Some i => if (lc_new_number (elem lc i) =? lc_number (elem lc i)) || inc then Some i else None
  | None => None
  end.
Proof.
  induction chain as [|i chain IH]; simpl; [done|].
  destruct (negb _); [done|]. by rewrite orb_true_r.
Qed.

Definition lc_lookup (lc : lru_cache) (enr : Z) (inc : bool) : option nat :=
  find_in_chain lc enr inc (default [] (lc_slot lc !! lc_hash_slot lc enr)).

Lemma lc_lookup_Some lc enr i :
  core (nr_elements lc) (elements lc) (lists lc) (lc_slot lc) ->
  lc_lookup lc enr true = Some i <->
  (i < nr_elements lc)%nat /\ i ∉ free (lists lc) /\ lc_new_number (elem lc i) = enr.
Proof.
  intros Hc. unfold lc_lookup. pose proof (find_in_chain_true lc enr (slot (lc_slot lc) (lc_hash_slot lc enr))) as Hf.
  change (default [] (lc_slot lc !! lc_hash_slot lc enr)) with (slot (lc_slot lc) (lc_hash_slot lc enr)).
  destruct (find_in_chain _ _ _ _) as [j|].
  - destruct Hf as [Hin Hnew]. apply (core_hash _ _ _ _ Hc) in Hin as (Hj & Hjf & _). split.
    + intros ?; simplify_eq. done.
    + intros (Hi & Hif & He). f_equal. eapply (core_inj _ _ _ _ Hc); try done.
      change (lc_new_number (elem lc j) = lc_new_number (elem lc i)). congruence.
  - split; [done|]. intros (Hi & Hif & He). exfalso. apply (Hf i); [|done].
    apply (core_hash _ _ _ _ Hc). split_and!; [done|done|].
    change (el (elements lc) i) with (elem lc i). by rewrite He.
Qed.

Lemma lc_find_eq lc enr inc : (0 < nr_elements lc)%nat -> __lc_find lc enr inc = Ret (lc_lookup lc enr inc).
Proof. intros. unfold __lc_find. by destruct (Nat.eqb_spec (nr_elements lc) 0); [lia|]. Qed.

Lemma hlist_unhashed_spec i sl : hlist_unhashed i sl = true <-> forall s, i ∉ slot sl s.
Proof.
  unfold hlist_unhashed, slot. rewrite negb_true_iff, <- not_true_iff_false, existsb_exists.
  split.
  - intros Hn s Hin. apply Hn. destruct (sl !! s) as [c|] eqn:E; [|by apply not_elem_of_nil in Hin].
    exists c. split; [by eapply list_elem_of_In, list_elem_of_lookup_2|].
    apply existsb_exists. exists i. split; [by apply list_elem_of_In|apply Nat.eqb_refl].
  - intros Hn (c & Hc & (j & Hj & ->%Nat.eqb_eq)%existsb_exists).
    apply list_elem_of_In, list_elem_of_lookup in Hc as [s Hs].
    apply (Hn s). rewrite Hs. by apply list_elem_of_In.
Qed.

Lemma slot_hlist_del i sl s : slot (hlist_del i sl) s = filter (.≠ i) (slot sl s).
Proof. unfold slot, hlist_del. rewrite list_lookup_fmap. by destruct (sl !! s). Qed.

Lemma slot_hlist_add i h sl s :
  (h < length sl)%nat -> slot (hlist_add_head i h sl) s = if decide (h = s) then i :: slot sl s else slot sl s.
Proof.
  intros Hh. unfold slot, hlist_add_head. case_decide; subst.
  - rewrite list_lookup_alter_eq. by destruct (lookup_lt_is_Some_2 sl s Hh) as [c ->].
  - by rewrite list_lookup_alter_ne.
Qed.

Lemma hash_lt n enr : (0 < n)%nat -> (hash n enr < n)%nat.
Proof. intros Hn. unfold hash. pose proof (Z.mod_pos_bound enr (Z.of_nat n)). lia. Qed.

(** ** Preservation of the core by each kind of step *)

Lemma core_del n es ls sl i :
  core n es ls sl -> (i < n)%nat -> refcnt (el es i) = 0 ->
  core n (alter (fun e => set_number LC_FREE (set_new_number LC_FREE e)) i es)
    (list_move i FREE ls) (hlist_del i sl).
Proof.
  intros Hc Hi Hr. apply (core_step Hc); try done.
  - unfold hlist_del. by rewrite length_fmap.
  - intros s j Hj. rewrite slot_hlist_del, list_elem_of_filter. tauto.
  - intros s. rewrite slot_hlist_del, list_elem_of_filter. naive_solver.
Qed.

Lemma core_prepare n es ls sl i enr :
  core n es ls sl -> i ∈ free ls \/ i ∈ lru ls -> label_ok enr ->
  (forall j, (j < n)%nat -> j ∉ free ls -> lc_new_number (el es j) <> enr) ->
  core n (alter (fun e => set_refcnt (u32 (refcnt e + 1)) (set_new_number enr e)) i es)
    (list_move i TO_BE_CHANGED ls)
    (hlist_add_head i (hash n enr) (if hlist_unhashed i sl then sl else hlist_del i sl)).
Proof.
  intros Hc Hin Hlab Hfresh.
  assert (exists t, (t = FREE \/ t = LRU) /\ i ∈ on t ls) as (t & Ht & Hit).
  { destruct Hin; [exists FREE|exists LRU]; auto. }
  assert (i < n)%nat as Hi by (by eapply core_on_lt).
  assert (refcnt (el es i) = 0 /\ lc_number (el es i) <> enr) as [Hr Hnum].
  { pose proof (core_ok _ _ _ _ Hc _ _ Hit) as Hok. destruct Ht as [-> | ->]; simpl in Hok.
    - split; [tauto|]. destruct Hok as (_ & -> & _). unfold label_ok in Hlab. lia.
    - destruct Hok as (? & -> & _). split; [done|]. apply Hfresh; [done|].
      by apply (core_not_free Hc LRU). }
  set (sl0 := if hlist_unhashed i sl then sl else hlist_del i sl).
  assert (length sl0 = length sl) as Hlen.
  { subst sl0. case_if; [done|]. unfold hlist_del. by rewrite length_fmap. }
  assert (forall s j, j ∈ slot sl0 s <-> j <> i /\ j ∈ slot sl s) as Hsl0.
  { intros s j. subst sl0. destruct (hlist_unhashed i sl) eqn:E.
    - rewrite hlist_unhashed_spec in E. specialize (E s). destruct (decide (j = i)); naive_solver.
    - rewrite slot_hlist_del, list_elem_of_filter. done. }
  assert (hash n enr < length sl0)%nat as Hh.
  { rewrite Hlen, (core_slots _ _ _ _ Hc). apply hash_lt. apply Hc. }
  apply (core_step Hc); try done.
  - simpl. rewrite u32_small by (unfold label_ok, LC_FREE in *; lia). rewrite Hr.
    unfold label_ok in *. split_and!; done || lia.
  - unfold hlist_add_head. by rewrite length_alter.
  - intros s j Hj. rewrite slot_hlist_add by done. case_decide; rewrite ?elem_of_cons, Hsl0; tauto.
  - intros s. rewrite slot_hlist_add by done. simpl. case_decide; rewrite ?elem_of_cons, ?Hsl0; naive_solver.
  - intros _ j Hj Hjf Heq. simpl in Heq. exfalso. by apply (Hfresh j).
Qed.

(** ** Well-formedness is preserved and no [BUG] is reached *)

(** Reference counts are [unsigned]; callers never hold [2^32 - 1] references. *)
Definition refcnt_room (lc : lru_cache) : Prop := forall i, refcnt (elem lc i) < 2 ^ 32 - 1.

Lemma flag_setbit f n m : 0 <= n -> Z.testbit (Z.setbit f n) m = (n =? m) || Z.testbit f m.
Proof. intros. by apply Z.setbit_eqb. Qed.

Lemma flag_clearbit f n m : Z.testbit (Z.clearbit f n) m = Z.testbit f m && negb (n =? m).
Proof. apply Z.clearbit_eqb. Qed.

(** Evaluates flag tests on set and cleared bits. *)
Ltac flags_simpl :=
  repeat first [ rewrite flag_setbit in * by done | rewrite flag_clearbit in * ];
  simpl in *; rewrite ?andb_true_r, ?andb_false_r, ?orb_true_r in *.

Lemma paranoia_entry_ok lc :
  lc_wf lc -> PARANOIA_ENTRY lc = Ret (set_flags (Z.setbit (flags lc) __LC_PARANOIA) lc).
Proof.
  intros Hwf. unfold PARANOIA_ENTRY. rewrite (wf_paranoia _ Hwf).
  pose proof (core_nr _ _ _ _ (wf_core _ Hwf)).
  by destruct (Nat.eqb_spec (nr_elements lc) 0); [lia|].
Qed.

Lemma paranoia_element_ok lc i :
  core (nr_elements lc) (elements lc) (lists lc) (lc_slot lc) -> (i < nr_elements lc)%nat ->
  PARANOIA_LC_ELEMENT lc i = false.
Proof.
  intros Hc Hi. unfold PARANOIA_LC_ELEMENT. change (elem lc i) with (el (elements lc) i).
  rewrite (core_index _ _ _ _ Hc i Hi), Nat.eqb_refl. simpl. rewrite orb_false_r.
  apply Nat.leb_gt. lia.
Qed.

Lemma core_used_bound n es ls sl :
  core n es ls sl -> (length (in_use ls) + length (to_be_changed ls) <= n)%nat /\
  (length (free ls) + length (lru ls) + length (in_use ls) + length (to_be_changed ls) = n)%nat.
Proof.
  intros Hc. pose proof (Permutation_length (core_perm _ _ _ _ Hc)) as Hl.
  unfold all_of in Hl. rewrite !length_app, length_seq in Hl. lia.
Qed.

(** Reduces the projections of an updated cache, and nothing else. *)
Ltac lc_simpl :=
  cbn [lists nr_elements max_pending_changes pending_changes used stats flags lc_slot elements
       set_elem set_lists set_slots set_flags set_used set_pending set_stats] in *.

(** What a caller of the [lc_get] family may rely on (the return values in the
    comment above [lc_get]). *)
Definition get_post (lc : lru_cache) (enr : Z) (may_change may_use_uncommitted : bool)
    (r : option nat) (lc' : lru_cache) : Prop :=
  (forall j, r <> Some j -> elem lc' j = elem lc j) /\
  match r with
  | Some i =>
      lc_new_number (elem lc' i) = enr /\ lc_number (elem lc' i) = lc_number (elem lc i) /\
      refcnt (elem lc' i) = refcnt (elem lc i) + 1 /\
      (* the element with the requested number, usable right away *)
      ((lc_number (elem lc' i) = enr /\ i ∈ in_use (lists lc')) \/
       (* an element still bound to its old number, pending a transaction *)
       (lc_number (elem lc' i) <> enr /\ i ∈ to_be_changed (lists lc') /\
        ((may_use_uncommitted = true /\ i ∈ to_be_changed (lists lc)) \/
         (may_change = true /\ Z.testbit (flags lc) __LC_LOCKED = false /\
          Z.testbit (flags lc') __LC_DIRTY = true /\ refcnt (elem lc i) = 0 /\
          (head (free (lists lc)) = Some i \/
           free (lists lc) = [] /\ last (lru (lists lc)) = Some i)))))
  | None =>
      lists lc' = lists lc /\
      (Z.testbit (flags lc) __LC_STARVING = true \/
       (may_use_uncommitted = false /\
        exists i, i ∈ to_be_changed (lists lc) /\ lc_new_number (elem lc i) = enr) \/
       lc_lookup lc enr true = None /\
       (may_change = false \/ Z.testbit (flags lc) __LC_LOCKED = true \/
        (free (lists lc) = [] /\ lru (lists lc) = [] /\
         Z.testbit (flags lc') __LC_STARVING = true) \/
        max_pending_changes lc <= pending_changes lc))
  end.

(** A return that changes only flags and statistics. *)
Lemma wf_flags_stats lc f st :
  lc_wf lc -> Z.testbit f __LC_PARANOIA = false ->
  (Z.testbit f __LC_STARVING = true -> free (lists lc) = [] /\ lru (lists lc) = []) ->
  lc_wf (set_flags f (set_stats st lc)).
Proof. intros [] Hp Hs. by split. Qed.

Lemma lookup_hashed lc enr i :
  lc_wf lc -> lc_lookup lc enr true = Some i ->
  (i < nr_elements lc)%nat /\ i ∉ free (lists lc) /\ lc_new_number (elem lc i) = enr.
Proof. intros Hwf. apply lc_lookup_Some, Hwf. Qed.

Lemma elem_set_elem lc i f j :
  core (nr_elements lc) (elements lc) (lists lc) (lc_slot lc) -> (i < nr_elements lc)%nat ->
  el (alter f i (elements lc)) j = if decide (i = j) then f (elem lc i) else elem lc j.
Proof. intros Hc Hi. rewrite (el_alter Hc). case_decide; [by rewrite decide_True|done]. Qed.

(** A found, committed element is on [in_use] or [lru]; an uncommitted one is
    on [to_be_changed]. *)
Lemma found_list lc i :
  lc_wf lc -> (i < nr_elements lc)%nat -> i ∉ free (lists lc) ->
  if lc_new_number (elem lc i) =? lc_number (elem lc i)
  then i ∈ in_use (lists lc) /\ 1 <= refcnt (elem lc i) \/ i ∈ lru (lists lc) /\ refcnt (elem lc i) = 0
  else i ∈ to_be_changed (lists lc) /\ 1 <= refcnt (elem lc i).
Proof.
  intros Hwf Hi Hf. destruct (core_list (wf_core _ Hwf) i Hi) as [t Ht].
  pose proof (core_ok _ _ _ _ (wf_core _ Hwf) _ _ Ht) as Hok.
  change (el (elements lc) i) with (elem lc i) in Hok.
  destruct t; simpl in Ht, Hok; destruct Hok as (Hr & Hn & Hl).
  - rewrite Hn, Z.eqb_refl. right. done.
  - by destruct Hf.
  - rewrite Hn, Z.eqb_refl. left. split; [done|lia].
  - destruct (Z.eqb_spec (lc_new_number (elem lc i)) (lc_number (elem lc i))); [congruence|]. split; [done|lia].
Qed.

Lemma ok_elem lc t i : lc_wf lc -> i ∈ on t (lists lc) -> ok_in t (elem lc i).
Proof. intros Hwf Hi. by apply (core_ok _ _ _ _ (wf_core _ Hwf)). Qed.

(** Bounds on the counters, for the wrap-around of the [unsigned] arithmetic. *)
Lemma counter_bounds lc :
  lc_wf lc ->
  used lc = Z.of_nat (length (in_use (lists lc)) + length (to_be_changed (lists lc))) /\
  pending_changes lc = Z.of_nat (length (to_be_changed (lists lc))) /\
  used lc <= 2 ^ 24 /\ pending_changes lc <= 2 ^ 24 /\
  pending_changes lc <= max_pending_changes lc < 2 ^ 32.
Proof.
  intros Hwf. pose proof (wf_core _ Hwf) as Hc. pose proof (core_used_bound _ _ _ _ Hc) as [Hub _].
  pose proof (core_nr _ _ _ _ Hc) as [_ Hmax]. change LC_MAX_ACTIVE with (2 ^ 24) in Hmax.
  pose proof (wf_used _ Hwf). pose proof (wf_pending _ Hwf). pose proof (wf_max _ Hwf). lia.
Qed.

(** Adds the lengths of all four lists after [list_move i t] from [t0]. *)
Ltac pose_move_lengths Hnd Hin i t t0 l :=
  let H1 := fresh "Hlen" in let H2 := fresh "Hlen" in
  pose proof (length_on_move IN_USE i t t0 l Hnd Hin) as H1;
  pose proof (length_on_move TO_BE_CHANGED i t t0 l Hnd Hin) as H2;
  cbn [on] in H1, H2;
  repeat first [rewrite decide_True in H1 by done | rewrite decide_False in H1 by done];
  repeat first [rewrite decide_True in H2 by done | rewrite decide_False in H2 by done].

(** A hit: the element becomes (or stays) unevictable with one more reference. *)
Lemma wf_hit lc i f st :
  lc_wf lc -> refcnt_room lc -> (i < nr_elements lc)%nat -> i ∉ free (lists lc) ->
  lc_new_number (elem lc i) = lc_number (elem lc i) ->
  Z.testbit f __LC_PARANOIA = false -> Z.testbit f __LC_STARVING = false ->
  lc_wf (mk_lru_cache (list_move i IN_USE (lists lc)) (nr_elements lc) (max_pending_changes lc)
           (pending_changes lc)
           (if refcnt (elem lc i) =? 0 then u32 (used lc + 1) else used lc) st f (lc_slot lc)
           (alter (fun e => set_refcnt (u32 (refcnt e + 1)) e) i (elements lc))).
Proof.
  intros Hwf Hroom Hi Hf Heq Hp Hs. pose proof (wf_core _ Hwf) as Hc.
  pose proof (found_list lc i Hwf Hi Hf) as Hl. rewrite (proj2 (Z.eqb_eq _ _) Heq) in Hl.
  pose proof (core_nodup Hc) as Hnd. pose proof (counter_bounds lc Hwf) as (Hu & Hpe & ? & ? & ?).
  specialize (Hroom i).
  assert (core (nr_elements lc) (alter (fun e => set_refcnt (u32 (refcnt e + 1)) e) i (elements lc))
            (list_move i IN_USE (lists lc)) (lc_slot lc)).
  { apply core_step_same_hash; try done. change (el (elements lc) i) with (elem lc i). simpl.
    rewrite u32_small by (destruct Hl; lia).
    split_and!; [destruct Hl; lia|destruct Hl; lia|congruence|];
      destruct Hl as [[Hin _]|[Hin _]]; [apply (ok_elem lc IN_USE i)|apply (ok_elem lc LRU i)]; done. }
  destruct Hl as [[Hin Hr]|[Hin Hr]].
  - pose_move_lengths Hnd (Hin : i ∈ on IN_USE (lists lc)) i IN_USE IN_USE (lists lc).
    split; lc_simpl; try done; try (intros; congruence); try lia.
    rewrite (proj2 (Z.eqb_neq _ _)) by lia. lia.
  - pose_move_lengths Hnd (Hin : i ∈ on LRU (lists lc)) i IN_USE LRU (lists lc).
    split; lc_simpl; try done; try (intros; congruence); try lia.
    rewrite Hr, Z.eqb_refl, u32_small by lia. lia.
Qed.

(** Joining a pending change: only the reference count moves. *)
Lemma wf_uncommitted lc i f st :
  lc_wf lc -> refcnt_room lc -> i ∈ to_be_changed (lists lc) ->
  Z.testbit f __LC_PARANOIA = false -> Z.testbit f __LC_STARVING = false ->
  lc_wf (mk_lru_cache (lists lc) (nr_elements lc) (max_pending_changes lc)
           (pending_changes lc) (used lc) st f (lc_slot lc)
           (alter (fun e => set_refcnt (u32 (refcnt e + 1)) e) i (elements lc))).
Proof.
  intros Hwf Hroom Hin Hp Hs. pose proof (wf_core _ Hwf) as Hc. specialize (Hroom i).
  pose proof (ok_elem lc TO_BE_CHANGED i Hwf Hin) as Hok.
  destruct Hwf as [_ Hu Hpe Hm Hst Hpa]. split; lc_simpl; try done; try (intros; congruence).
  apply (core_same_list Hc i TO_BE_CHANGED); [done| |done].
  change (el (elements lc) i) with (elem lc i). simpl in Hok |- *. rewrite u32_small by lia.
  split_and!; try apply Hok; lia.
Qed.

(** Recycling an unused element for a label that is not tracked. *)
Lemma wf_change lc i enr f st :
  lc_wf lc -> label_ok enr -> i ∈ free (lists lc) \/ i ∈ lru (lists lc) ->
  lc_lookup lc enr true = None -> pending_changes lc < max_pending_changes lc ->
  Z.testbit f __LC_PARANOIA = false -> Z.testbit f __LC_STARVING = false ->
  lc_wf (mk_lru_cache (list_move i TO_BE_CHANGED (lists lc)) (nr_elements lc)
           (max_pending_changes lc) (u32 (pending_changes lc + 1)) (u32 (used lc + 1)) st f
           (hlist_add_head i (hash (nr_elements lc) enr)
              (if hlist_unhashed i (lc_slot lc) then lc_slot lc else hlist_del i (lc_slot lc)))
           (alter (fun e => set_refcnt (u32 (refcnt e + 1)) (set_new_number enr e)) i (elements lc))).
Proof.
  intros Hwf Hlab Hin Hnone Hpend Hp Hs. pose proof (wf_core _ Hwf) as Hc.
  pose proof (core_nodup Hc) as Hnd. pose proof (counter_bounds lc Hwf) as (Hu & Hpe & ? & ? & ?).
  assert (core (nr_elements lc)
            (alter (fun e => set_refcnt (u32 (refcnt e + 1)) (set_new_number enr e)) i (elements lc))
            (list_move i TO_BE_CHANGED (lists lc))
            (hlist_add_head i (hash (nr_elements lc) enr)
              (if hlist_unhashed i (lc_slot lc) then lc_slot lc else hlist_del i (lc_slot lc)))) as Hc'.
  { apply core_prepare; try done. intros j Hj Hjf Heq.
    assert (lc_lookup lc enr true = Some j) by (by apply lc_lookup_Some). congruence. }
  destruct Hin as [Hin|Hin].
  - pose_move_lengths Hnd (Hin : i ∈ on FREE (lists lc)) i TO_BE_CHANGED FREE (lists lc).
    split; lc_simpl; try done; try (intros; congruence); rewrite ?u32_small by lia; lia.
  - pose_move_lengths Hnd (Hin : i ∈ on LRU (lists lc)) i TO_BE_CHANGED LRU (lists lc).
    split; lc_simpl; try done; try (intros; congruence); rewrite ?u32_small by lia; lia.
Qed.

(** The element recycled by a miss: the first free one, else the one that was
    given up longest ago. *)
Definition victim (lc : lru_cache) (i : nat) : Prop :=
  head (free (lists lc)) = Some i \/ (free (lists lc) = [] /\ last (lru (lists lc)) = Some i).

Lemma victim_unused lc i : victim lc i -> i ∈ free (lists lc) \/ i ∈ lru (lists lc).
Proof.
  intros [H|[_ H]]; [left|right].
  - destruct (free (lists lc)); simplify_eq/=. by left.
  - apply last_Some in H as [l ->]. set_solver.
Qed.

Lemma unused_available lc :
  if lc_unused_element_available lc then exists i, victim lc i
  else free (lists lc) = [] /\ lru (lists lc) = [].
Proof.
  unfold lc_unused_element_available, victim. destruct (free (lists lc)) as [|i fr]; [|by eauto].
  destruct (lru (lists lc)) as [|i l] using rev_ind; [done|].
  destruct (l ++ [i]) eqn:E; [by destruct l|]. rewrite <- E. exists i. right. by rewrite last_snoc.
Qed.

Lemma prepare_eq lc enr i :
  core (nr_elements lc) (elements lc) (lists lc) (lc_slot lc) -> victim lc i ->
  lc_prepare_for_change lc enr =
  Ret (Some i,
    mk_lru_cache (list_move i TO_BE_CHANGED (lists lc)) (nr_elements lc) (max_pending_changes lc)
      (pending_changes lc) (used lc) (stats lc) (flags lc)
      (hlist_add_head i (hash (nr_elements lc) enr)
         (if hlist_unhashed i (lc_slot lc) then lc_slot lc else hlist_del i (lc_slot lc)))
      (alter (set_new_number enr) i (elements lc))).
Proof.
  intros Hc Hv. pose proof (victim_unused _ _ Hv) as Hu.
  assert (i < nr_elements lc)%nat as Hi
    by (destruct Hu; [by apply (core_on_lt Hc FREE)|by apply (core_on_lt Hc LRU)]).
  unfold lc_prepare_for_change.
  destruct Hv as [Hh|[Hf Hl]].
  - destruct (free (lists lc)) as [|k fr] eqn:E; simplify_eq/=.
    rewrite paranoia_element_ok by done. destruct (last (lru (lists lc))); lc_simpl; by case_if.
  - rewrite Hf, Hl. rewrite paranoia_element_ok by done. lc_simpl. by case_if.
Qed.

Lemma lookup_set_flags lc f enr inc : lc_lookup (set_flags f lc) enr inc = lc_lookup lc enr inc.
Proof.
  unfold lc_lookup. lc_simpl. unfold lc_hash_slot. lc_simpl.
  generalize (default [] (lc_slot lc !! Z.to_nat (enr mod Z.of_nat (nr_elements lc)))) as chain.
  intros chain. induction chain as [|i chain IH]; simpl; [done|]. by rewrite IH.
Qed.

(** Flags of the cache during and after a call: only the bits named in the
    code change. *)
Ltac flag_bits :=
  lc_simpl; rewrite ?flag_clearbit, ?flag_setbit by done;
  cbn [__LC_PARANOIA __LC_DIRTY __LC_LOCKED __LC_STARVING Z.eqb Pos.eqb negb orb];
  rewrite ?andb_false_r, ?andb_true_r.

Definition get_ref (e : lc_element) : lc_element := set_refcnt (u32 (refcnt e + 1)) e.

Lemma elem_altered lc lc' i f j :
  lc_wf lc -> (i < nr_elements lc)%nat -> elements lc' = alter f i (elements lc) ->
  elem lc' j = if decide (i = j) then f (elem lc i) else elem lc j.
Proof. intros Hwf Hi He. unfold elem at 1. rewrite He. apply elem_set_elem; [apply Hwf|done]. Qed.

Section get_branches.
Context (lc : lru_cache) (enr : Z).
Context (Hwf : lc_wf lc) (Hroom : refcnt_room lc).

(** Entry of [__lc_get]: the starving case returns, otherwise the lookup decides. *)
Lemma get_starving mc mu :
  Z.testbit (flags lc) __LC_STARVING = true ->
  exists lc', __lc_get lc enr mc mu = Ret (None, lc') /\ lc_wf lc' /\ get_post lc enr mc mu None lc'.
Proof using Hwf.
  intros Hs. unfold __lc_get. rewrite paranoia_entry_ok by done. cbn [obind]. lc_simpl.
  rewrite flag_setbit, Hs, orb_true_r by done. eexists. split; [done|]. split.
  - apply (wf_flags_stats lc); [done|by flag_bits|]. intros _. by apply Hwf.
  - split; [done|]. split; [done|]. by left.
Qed.

Lemma get_post_ref mc mu i lc' :
  (i < nr_elements lc)%nat -> i ∉ free (lists lc) -> lc_new_number (elem lc i) = enr ->
  elements lc' = alter get_ref i (elements lc) ->
  (lc_number (elem lc i) = enr /\ i ∈ in_use (lists lc') \/
   lc_number (elem lc i) <> enr /\ i ∈ to_be_changed (lists lc) /\ mu = true /\ lists lc' = lists lc) ->
  get_post lc enr mc mu (Some i) lc'.
Proof using Hwf Hroom.
  intros Hi Hf Hnew He Hcase. specialize (Hroom i).
  pose proof (found_list lc i Hwf Hi Hf) as Hl.
  assert (0 <= refcnt (elem lc i)) by (case_if_in Hl; naive_solver lia).
  assert (forall j, elem lc' j = if decide (i = j) then get_ref (elem lc i) else elem lc j) as Hel
    by (intros j; by apply elem_altered).
  split; [intros j Hj; rewrite Hel, decide_False; [done|congruence]|].
  rewrite Hel, decide_True by done. simpl. rewrite u32_small by lia.
  split_and!; [done|done|done|]. destruct Hcase as [[? ?]|(? & ? & ? & Hls)]; [by left|right].
  rewrite Hls. split_and!; [done|done|by left].
Qed.

Context (Hs : Z.testbit (flags lc) __LC_STARVING = false).

Lemma get_found mc mu i :
  lc_lookup lc enr true = Some i ->
  exists r lc', __lc_get lc enr mc mu = Ret (r, lc') /\ lc_wf lc' /\ get_post lc enr mc mu r lc'.
Proof using Hwf Hroom Hs.
  intros Hl. pose proof (lookup_hashed lc enr i Hwf Hl) as (Hi & Hf & Hnew).
  pose proof (found_list lc i Hwf Hi Hf) as Hcase. pose proof (wf_core _ Hwf) as Hc.
  unfold __lc_get. rewrite paranoia_entry_ok by done. cbn [obind]. lc_simpl.
  rewrite flag_setbit, Hs by done. simpl orb. cbv iota.
  rewrite lc_find_eq by apply Hc. cbn [obind]. rewrite lookup_set_flags, Hl.
  change (elem (set_flags _ lc) i) with (elem lc i).
  destruct (Z.eqb_spec (lc_new_number (elem lc i)) (lc_number (elem lc i))) as [He|He];
    simpl negb; cbv iota zeta.
  - change (elem (set_stats _ _) i) with (elem lc i).
    pose proof (wf_hit lc i (Z.clearbit (Z.setbit (flags lc) __LC_PARANOIA) __LC_PARANOIA)
                  (bump_hits (stats lc)) Hwf Hroom Hi Hf He) as Hw.
    destruct (refcnt (elem lc i) =? 0) eqn:Ez; unfold RETURN; lc_simpl; do 2 eexists;
      (split; [done|]); (split; [apply Hw; by flag_bits|]);
      (apply get_post_ref; try done; left; split; [congruence|]);
      apply (elem_of_move IN_USE); by left.
  - destruct mu; simpl negb; cbv iota; unfold RETURN; lc_simpl; do 2 eexists; (split; [done|]).
    + split; [apply (wf_uncommitted lc i (Z.clearbit (Z.setbit (flags lc) __LC_PARANOIA) __LC_PARANOIA)
                       (bump_hits (stats lc))); try done; [by apply Hcase|by flag_bits|by flag_bits]|].
      apply get_post_ref; try done. right. split_and!; try done; [congruence|by apply Hcase].
    + split; [apply (wf_flags_stats lc _ (stats lc)); [done|by flag_bits|flag_bits; congruence]|].
      split; [done|]. split; [done|]. right. left. split; [done|]. exists i. split; [by apply Hcase|done].
Qed.

Lemma get_post_change mc mu i lc' :
  victim lc i -> label_ok enr -> lc_lookup lc enr true = None -> mc = true ->
  Z.testbit (flags lc) __LC_LOCKED = false -> Z.testbit (flags lc') __LC_DIRTY = true ->
  elements lc' = alter (fun e => get_ref (set_new_number enr e)) i (elements lc) ->
  lists lc' = list_move i TO_BE_CHANGED (lists lc) ->
  get_post lc enr mc mu (Some i) lc'.
Proof using Hwf.
  intros Hv Hlab Hnone Hmc Hlk Hd He Hls. pose proof (wf_core _ Hwf) as Hc.
  pose proof (victim_unused _ _ Hv) as Hu.
  assert (exists t, (t = FREE \/ t = LRU) /\ i ∈ on t (lists lc)) as (t & Ht & Hin)
    by (destruct Hu; [exists FREE|exists LRU]; auto).
  assert (i < nr_elements lc)%nat as Hi by (by apply (core_on_lt Hc t)).
  assert (refcnt (elem lc i) = 0 /\ lc_number (elem lc i) <> enr) as [Hr Hnum].
  { pose proof (ok_elem lc t i Hwf Hin) as Hok. destruct Ht as [-> | ->]; simpl in Hok.
    - unfold label_ok in Hlab. split; [tauto|]. destruct Hok as (_ & -> & _). lia.
    - split; [tauto|]. intros Heq. destruct Hok as (_ & Heq' & _).
      assert (lc_lookup lc enr true = Some i); [|congruence].
      apply lc_lookup_Some; [done|]. split_and!; [done|by apply (core_not_free Hc LRU)|congruence]. }
  assert (forall j, elem lc' j =
            if decide (i = j) then get_ref (set_new_number enr (elem lc i)) else elem lc j) as Hel
    by (intros j; by rewrite (elem_altered lc lc' i _ j Hwf Hi He)).
  split; [intros j Hj; rewrite Hel, decide_False; [done|congruence]|].
  rewrite Hel, decide_True by done. simpl. rewrite Hr, u32_small by lia.
  split_and!; [done|done|done|]. right. rewrite Hls.
  split_and!; [done|apply (elem_of_move TO_BE_CHANGED); by left|]. by right.
Qed.

Lemma change_refcnt i lc' :
  victim lc i ->
  elements lc' = alter ((fun e => set_refcnt (u32 (refcnt e + 1)) e) ∘ set_new_number enr) i (elements lc) ->
  refcnt (elem lc' i) = 1.
Proof using Hwf.
  intros Hv He. pose proof (victim_unused _ _ Hv) as Hu. pose proof (wf_core _ Hwf) as Hc.
  assert (exists t, (t = FREE \/ t = LRU) /\ i ∈ on t (lists lc)) as (t & Ht & Hin)
    by (destruct Hu; [exists FREE|exists LRU]; auto).
  rewrite (elem_altered lc lc' i _ i Hwf (core_on_lt Hc t i Hin) He), decide_True by done. simpl.
  pose proof (ok_elem lc t i Hwf Hin) as Hok.
  destruct Ht as [-> | ->]; simpl in Hok; destruct Hok as (-> & _); done.
Qed.

Lemma get_missed mc mu :
  label_ok enr -> lc_lookup lc enr true = None ->
  exists r lc', __lc_get lc enr mc mu = Ret (r, lc') /\ lc_wf lc' /\ get_post lc enr mc mu r lc'.
Proof using Hwf Hs.
  intros Hlab Hl. pose proof (wf_core _ Hwf) as Hc.
  unfold __lc_get. rewrite paranoia_entry_ok by done. cbn [obind]. lc_simpl.
  rewrite flag_setbit, Hs by done. simpl orb. cbv iota.
  rewrite lc_find_eq by apply Hc. cbn [obind]. rewrite lookup_set_flags, Hl.
  destruct mc eqn:Emc; cbn [negb]; cbv iota.
  2: { do 2 eexists. split; [done|]. split.
       - apply (wf_flags_stats lc); [done|by flag_bits|flag_bits; congruence].
       - do 2 (split; [done|]). right. right. split; [done|by left]. }
  lc_simpl. rewrite !flag_setbit by done. cbn [__LC_PARANOIA __LC_DIRTY __LC_LOCKED Z.eqb Pos.eqb orb].
  destruct (Z.testbit (flags lc) __LC_LOCKED) eqn:Elk.
  { unfold RETURN. do 2 eexists. split; [done|]. split.
    - apply (wf_flags_stats lc); [done|by flag_bits|flag_bits; congruence].
    - do 2 (split; [done|]). right. right. split; [done|]. right. by left. }
  pose proof (unused_available lc) as Hua. change (lc_unused_element_available _) with (lc_unused_element_available lc).
  destruct (lc_unused_element_available lc); cbn [negb]; cbv iota.
  2: { unfold RETURN. lc_simpl. do 2 eexists. split; [done|]. split.
       - apply (wf_flags_stats lc); [done|by flag_bits|done].
       - do 2 (split; [done|]). right. right. split; [done|]. right. right. left.
         destruct Hua. split_and!; [done|done|by flag_bits]. }
  destruct (Z.leb_spec (max_pending_changes lc) (pending_changes lc)).
  { unfold RETURN. do 2 eexists. split; [done|]. split.
    - apply (wf_flags_stats lc); [done|by flag_bits|flag_bits; congruence].
    - do 2 (split; [done|]). right. right. split; [done|]. right. right. by right. }
  destruct Hua as [i Hv]. rewrite (prepare_eq _ enr i) by (done || apply Hv). cbn [obind].
  unfold set_elem. lc_simpl. rewrite list_alter_alter_eq.
  match goal with |- context [refcnt (elem ?l i)] => set (lc' := l) end.
  assert (refcnt (elem lc' i) = 1) as Hr1 by (by apply change_refcnt).
  rewrite Hr1. simpl negb. cbv iota. unfold RETURN. lc_simpl. subst lc'. lc_simpl.
  do 2 eexists. split; [done|]. split.
  - apply (wf_change lc i enr _ (bump_misses (stats lc))); try done; try (by flag_bits).
    by apply victim_unused.
  - apply (get_post_change _ _ i); try done. by flag_bits.
Qed.
End get_branches.

Lemma lc_get_spec lc enr mc mu :
  lc_wf lc -> label_ok enr -> refcnt_room lc ->
  exists r lc', __lc_get lc enr mc mu = Ret (r, lc') /\ lc_wf lc' /\ get_post lc enr mc mu r lc'.
Proof.
  intros Hwf Hlab Hroom. destruct (Z.testbit (flags lc) __LC_STARVING) eqn:Hs.
  - destruct (get_starving lc enr Hwf mc mu Hs) as [lc' ?]. eauto.
  - destruct (lc_lookup lc enr true) as [i|] eqn:Hl.
    + by apply (get_found lc enr Hwf Hroom Hs _ _ i).
    + by apply (get_missed lc enr Hwf Hs).
Qed.

(** ** The remaining operations *)

(** Giving up a reference. *)
Lemma wf_put_last lc i f st :
  lc_wf lc -> i ∈ in_use (lists lc) -> refcnt (elem lc i) = 1 ->
  Z.testbit f __LC_PARANOIA = false -> Z.testbit f __LC_STARVING = false ->
  lc_wf (mk_lru_cache (list_move i LRU (lists lc)) (nr_elements lc) (max_pending_changes lc)
           (pending_changes lc) (u32 (used lc - 1)) st f (lc_slot lc)
           (alter (fun e => set_refcnt (u32 (refcnt e - 1)) e) i (elements lc))).
Proof.
  intros Hwf Hin Hr Hp Hs. pose proof (wf_core _ Hwf) as Hc. pose proof (core_nodup Hc) as Hnd.
  pose proof (counter_bounds lc Hwf) as (Hu & Hpe & ? & ? & ?).
  assert (i < nr_elements lc)%nat as Hi by (by apply (core_on_lt Hc IN_USE)).
  pose proof (ok_elem lc IN_USE i Hwf Hin) as (_ & Hnum & Hlab).
  pose_move_lengths Hnd (Hin : i ∈ on IN_USE (lists lc)) i LRU IN_USE (lists lc).
  split; lc_simpl; try done; try (intros; congruence); rewrite ?u32_small by lia; try lia.
  apply core_step_same_hash; try done; [by apply (core_not_free Hc IN_USE)|].
  change (el (elements lc) i) with (elem lc i). simpl. rewrite Hr. by split_and!.
Qed.

Lemma wf_put_shared lc i f st :
  lc_wf lc -> i ∈ in_use (lists lc) -> 1 < refcnt (elem lc i) ->
  Z.testbit f __LC_PARANOIA = false ->
  Z.testbit f __LC_STARVING = Z.testbit (flags lc) __LC_STARVING ->
  lc_wf (mk_lru_cache (lists lc) (nr_elements lc) (max_pending_changes lc)
           (pending_changes lc) (used lc) st f (lc_slot lc)
           (alter (fun e => set_refcnt (u32 (refcnt e - 1)) e) i (elements lc))).
Proof.
  intros Hwf Hin Hr Hp Hs. pose proof (wf_core _ Hwf) as Hc.
  pose proof (ok_elem lc IN_USE i Hwf Hin) as Hok.
  destruct Hwf as [_ Hu Hpe Hm Hst Hpa]. split; lc_simpl; try done; try (intros; congruence).
  - apply (core_same_list Hc i IN_USE); [done| |done].
    change (el (elements lc) i) with (elem lc i). simpl in Hok |- *. rewrite u32_small by lia.
    split_and!; try apply Hok; lia.
  - intros Hf. apply Hst. congruence.
Qed.

Lemma lc_put_spec lc i :
  lc_wf lc -> i ∈ in_use (lists lc) ->
  exists lc', lc_put lc i = Ret (refcnt (elem lc i) - 1, lc') /\ lc_wf lc' /\
    (forall j, elem lc' j = if decide (i = j) then set_refcnt (refcnt (elem lc i) - 1) (elem lc i)
                            else elem lc j) /\
    if refcnt (elem lc i) =? 1
    then lru (lists lc') = i :: lru (lists lc) /\ i ∉ in_use (lists lc') /\
         Z.testbit (flags lc') __LC_STARVING = false
    else lists lc' = lists lc.
Proof.
  intros Hwf Hin. pose proof (wf_core _ Hwf) as Hc. pose proof (ok_elem lc IN_USE i Hwf Hin) as (Hr & Hnum & _).
  assert (i < nr_elements lc)%nat as Hi by (by apply (core_on_lt Hc IN_USE)).
  unfold lc_put. rewrite paranoia_entry_ok by done. cbn [obind].
  rewrite paranoia_element_ok by (lc_simpl; done). change (elem (set_flags _ lc) i) with (elem lc i).
  rewrite (proj2 (Z.eqb_neq _ _)) by lia. rewrite Hnum, Z.eqb_refl. cbn [negb]. cbv zeta iota.
  unfold set_elem. lc_simpl.
  assert (forall lc', elements lc' = alter (fun e => set_refcnt (u32 (refcnt e - 1)) e) i (elements lc) ->
    forall j, elem lc' j = if decide (i = j) then set_refcnt (refcnt (elem lc i) - 1) (elem lc i)
                           else elem lc j) as Hel.
  { intros lc' He j. rewrite (elem_altered lc lc' i _ j Hwf Hi He), u32_small by lia. done. }
  match goal with |- context [refcnt (elem ?l i)] => pose proof (Hel l eq_refl i) as Hri end.
  rewrite decide_True in Hri by done. rewrite Hri. cbn [refcnt set_refcnt].
  destruct (Z.eqb_spec (refcnt (elem lc i)) 1) as [H1|H1].
  - rewrite (proj2 (Z.eqb_eq (refcnt (elem lc i) - 1) 0)) by lia. unfold RETURN. lc_simpl.
    match goal with |- context [refcnt (elem ?l i)] =>
      lazymatch l with lc => fail | _ => rewrite (Hel l eq_refl i) end end.
    rewrite decide_True by done. cbn [refcnt set_refcnt]. eexists. split; [done|]. split.
    { apply (wf_put_last lc i _ (stats lc)); try done; by flag_bits. }
    split; [by apply Hel|]. lc_simpl. split_and!.
    + rewrite (on_move LRU i LRU (lists lc) : lru _ = _), decide_True by done. simpl. f_equal.
      apply filter_id. intros j Hj ->.
      by assert (LRU = IN_USE) by (eapply on_disjoint; [exact (core_nodup Hc)|done|done]).
    + intros [[_ ?]|[? _]]%(elem_of_move IN_USE); done.
    + by flag_bits.
  - rewrite (proj2 (Z.eqb_neq (refcnt (elem lc i) - 1) 0)) by lia. unfold RETURN. lc_simpl.
    rewrite Hri. cbn [refcnt set_refcnt].
    eexists. split; [done|]. split.
    { apply (wf_put_shared lc i _ (stats lc)); try done; [lia| |]; by flag_bits. }
    split; [by apply Hel|done].
Qed.

(** An element that is not in use: the [lc_del] case. *)
Lemma wf_del lc i f st :
  lc_wf lc -> (i < nr_elements lc)%nat -> refcnt (elem lc i) = 0 ->
  Z.testbit f __LC_PARANOIA = false ->
  Z.testbit f __LC_STARVING = Z.testbit (flags lc) __LC_STARVING ->
  lc_wf (mk_lru_cache (list_move i FREE (lists lc)) (nr_elements lc) (max_pending_changes lc)
           (pending_changes lc) (used lc) st f (hlist_del i (lc_slot lc))
           (alter (fun e => set_number LC_FREE (set_new_number LC_FREE e)) i (elements lc))).
Proof.
  intros Hwf Hi Hr Hp Hs. pose proof (wf_core _ Hwf) as Hc. pose proof (core_nodup Hc) as Hnd.
  pose proof (counter_bounds lc Hwf) as (Hu & Hpe & ? & ? & ?).
  destruct (core_list Hc i Hi) as [t Ht]. pose proof (ok_elem lc t i Hwf Ht) as Hok.
  assert (t = FREE \/ t = LRU) as Hcase by (destruct t; simpl in Hok; auto; lia).
  pose proof (length_on_move IN_USE i FREE t (lists lc) Hnd Ht) as HL1.
  pose proof (length_on_move TO_BE_CHANGED i FREE t (lists lc) Hnd Ht) as HL2. cbn [on] in HL1, HL2.
  split; lc_simpl; try done.
  - by apply core_del.
  - destruct Hcase as [-> | ->]; rewrite !decide_False in HL1 by done; rewrite !decide_False in HL2 by done; lia.
  - destruct Hcase as [-> | ->]; rewrite !decide_False in HL1 by done; rewrite !decide_False in HL2 by done; lia.
  - rewrite Hs. intros [Hf Hl]%(wf_starving _ Hwf). exfalso.
    destruct Hcase as [-> | ->]; simpl in Ht; rewrite ?Hf, ?Hl in Ht; by apply not_elem_of_nil in Ht.
Qed.

Lemma lc_del_spec lc i :
  lc_wf lc -> (i < nr_elements lc)%nat -> refcnt (elem lc i) = 0 ->
  exists lc', lc_del lc i = Ret (tt, lc') /\ lc_wf lc' /\ head (free (lists lc')) = Some i /\
    lc_lookup lc' (lc_number (elem lc i)) true = None.
Proof.
  intros Hwf Hi Hr. pose proof (wf_core _ Hwf) as Hc.
  unfold lc_del. rewrite paranoia_entry_ok by done. cbn [obind].
  rewrite paranoia_element_ok by (lc_simpl; done). change (elem (set_flags _ lc) i) with (elem lc i).
  rewrite Hr. cbn [Z.eqb negb]. cbv zeta iota. unfold RETURN. lc_simpl. eexists. split; [done|].
  pose proof (wf_del lc i (Z.clearbit (Z.setbit (flags lc) __LC_PARANOIA) __LC_PARANOIA) (stats lc)
                Hwf Hi Hr) as Hw.
  assert (lc_wf _) as Hwf' by (apply Hw; by flag_bits). split; [exact Hwf'|]. lc_simpl. split.
  { by rewrite (on_move FREE i FREE (lists lc) : free _ = _), decide_True. }
  match goal with |- lc_lookup ?l ?e true = None => destruct (lc_lookup l e true) as [j|] eqn:E; [|done] end.
  exfalso. apply (lookup_hashed _ _ _ Hwf') in E as (Hj & Hjf & Hjn). lc_simpl.
  assert (j <> i /\ j ∉ free (lists lc)) as [Hne Hjf'].
  { split; [intros ->; apply Hjf, (elem_of_move FREE); by left|].
    destruct (decide (j = i)) as [-> |]; [destruct Hjf; apply (elem_of_move FREE); by left|].
    intros ?. apply Hjf, (elem_of_move FREE). by right. }
  match type of Hjn with context [elem ?l j] => rewrite (elem_altered lc l i _ j Hwf Hi eq_refl) in Hjn end.
  rewrite decide_False in Hjn by done.
  destruct (core_list Hc i Hi) as [t Ht]. pose proof (ok_elem lc t i Hwf Ht) as Hok.
  destruct (core_list Hc j Hj) as [t' Ht']. pose proof (ok_elem lc t' j Hwf Ht') as Hok'.
  destruct t; simpl in Hok; try lia.
  - apply Hne. apply (core_inj _ _ _ _ Hc); try done; [by apply (core_not_free Hc LRU)|].
    change (lc_new_number (elem lc j) = lc_new_number (elem lc i)). destruct Hok as (_ & <- & _). done.
  - destruct t'; simpl in Hok'; try done; unfold label_ok in *; lia.
Qed.

(** One round of the commit loop, and the loop. *)
Definition commit_one (i : nat) (lc : lru_cache) : lru_cache :=
  set_lists (list_move i IN_USE (lists lc))
    (set_elem i (fun e => set_number (lc_new_number e) e)
      (set_stats (bump_changed (stats lc)) lc)).

Lemma commit_one_wf lc i :
  lc_wf lc -> i ∈ to_be_changed (lists lc) -> pending_changes lc = Z.of_nat (length (to_be_changed (lists lc))) ->
  lc_wf (set_pending (pending_changes lc - 1) (commit_one i lc)) /\
  (forall j, j ∈ to_be_changed (lists (commit_one i lc)) <-> j <> i /\ j ∈ to_be_changed (lists lc)) /\
  (forall j, elem (commit_one i lc) j =
     if decide (i = j) then set_number (lc_new_number (elem lc i)) (elem lc i) else elem lc j) /\
  free (lists (commit_one i lc)) = free (lists lc).
Proof.
  intros Hwf Hin Hpend. pose proof (wf_core _ Hwf) as Hc. pose proof (core_nodup Hc) as Hnd.
  pose proof (counter_bounds lc Hwf) as (Hu & Hpe & ? & ? & ?).
  assert (i < nr_elements lc)%nat as Hi by (by apply (core_on_lt Hc TO_BE_CHANGED)).
  pose proof (ok_elem lc TO_BE_CHANGED i Hwf Hin) as Hok. unfold commit_one. split_and!.
  - pose_move_lengths Hnd (Hin : i ∈ on TO_BE_CHANGED (lists lc)) i IN_USE TO_BE_CHANGED (lists lc).
    split; lc_simpl; try (by apply Hwf); try lia.
    + apply core_step_same_hash; try done; [by apply (core_not_free Hc TO_BE_CHANGED)|].
      change (el (elements lc) i) with (elem lc i). simpl in Hok |- *. naive_solver.
    + intros [Hf Hl]%(wf_starving _ Hwf).
      rewrite (on_move FREE i IN_USE (lists lc) : free _ = _), (on_move LRU i IN_USE (lists lc) : lru _ = _).
      simpl. by rewrite Hf, Hl.
  - intros j. lc_simpl. rewrite (elem_of_move TO_BE_CHANGED j i IN_USE (lists lc) : j ∈ to_be_changed _ <-> _). naive_solver.
  - intros j. match goal with |- elem ?l j = _ => exact (elem_altered lc l i _ j Hwf Hi eq_refl) end.
  - lc_simpl. rewrite (on_move FREE i IN_USE (lists lc) : free _ = _). simpl.
    apply filter_id. intros j Hj ->. by apply (core_not_free Hc TO_BE_CHANGED i).
Qed.

Lemma commit_elements_set_pending l p lc :
  commit_elements l (set_pending p lc) = set_pending p (commit_elements l lc).
Proof. revert lc. induction l as [|i l IH]; intros lc; simpl; [done|]. by rewrite <- IH. Qed.

Lemma commit_elements_wf l lc :
  lc_wf lc -> NoDup l -> (forall j, j ∈ l <-> j ∈ to_be_changed (lists lc)) ->
  lc_wf (set_pending 0 (commit_elements l lc)) /\
  to_be_changed (lists (commit_elements l lc)) = [] /\
  flags (commit_elements l lc) = flags lc /\
  (forall j, elem (commit_elements l lc) j =
    if decide (j ∈ l) then set_number (lc_new_number (elem lc j)) (elem lc j) else elem lc j) /\
  nr_elements (commit_elements l lc) = nr_elements lc /\
  free (lists (commit_elements l lc)) = free (lists lc).
Proof.
  revert lc. induction l as [|i l IH]; intros lc Hwf Hnd Hl.
  - assert (to_be_changed (lists lc) = []) as Ht.
    { destruct (to_be_changed (lists lc)) as [|k t]; [done|]. exfalso. apply (not_elem_of_nil k), Hl. by left. }
    cbn [commit_elements]. split_and!; [|done|done|intros j; by rewrite decide_False by apply not_elem_of_nil|done|done].
    pose proof (wf_pending _ Hwf) as Hp. rewrite Ht in Hp. simpl in Hp.
    destruct Hwf as [Hcore Hu Hpe Hm Hst Hpa]. split; lc_simpl; try done; [|lia]. by rewrite Ht.
  - apply NoDup_cons in Hnd as [Hni Hnd].
    assert (i ∈ to_be_changed (lists lc)) as Hi by (apply Hl; by left).
    destruct (commit_one_wf lc i Hwf Hi (wf_pending _ Hwf)) as (Hwf1 & Htbc & Hel & Hfr).
    destruct (IH (set_pending (pending_changes lc - 1) (commit_one i lc)) Hwf1 Hnd) as (HA & HB & HC & HD & HE & HF).
    { intros j. lc_simpl. rewrite Htbc. specialize (Hl j). rewrite elem_of_cons in Hl.
      destruct (decide (j = i)); naive_solver. }
    rewrite commit_elements_set_pending in HA, HB, HC, HD, HE, HF. simpl commit_elements. fold (commit_one i lc).
    split_and!; [exact HA|exact HB|exact HC| |exact HE|].
    2: { lc_simpl. by rewrite HF, Hfr. }
    intros j. change (elem (commit_elements l (commit_one i lc)) j)
      with (elem (set_pending (pending_changes lc - 1) (commit_elements l (commit_one i lc))) j).
    rewrite HD. change (elem (set_pending _ (commit_one i lc)) j) with (elem (commit_one i lc) j).
    rewrite Hel. destruct (decide (i = j)) as [<-|Hne].
    + rewrite decide_False by done. by rewrite decide_True by (by left).
    + destruct (decide (j ∈ l)); [rewrite decide_True by (by right)|rewrite decide_False by set_solver]; done.
Qed.

Lemma lc_committed_spec lc :
  lc_wf lc ->
  exists lc', lc_committed lc = Ret (tt, lc') /\ lc_wf lc' /\ to_be_changed (lists lc') = [] /\
    pending_changes lc' = 0 /\
    (forall j, elem lc' j = if decide (j ∈ to_be_changed (lists lc))
                            then set_number (lc_new_number (elem lc j)) (elem lc j) else elem lc j) /\
    nr_elements lc' = nr_elements lc /\ free (lists lc') = free (lists lc).
Proof.
  intros Hwf. unfold lc_committed. rewrite paranoia_entry_ok by done. cbn [obind]. lc_simpl.
  set (f := Z.setbit (flags lc) __LC_PARANOIA).
  destruct (commit_elements_wf (to_be_changed (lists lc)) lc Hwf) as (HA & HB & HC & HD & HE & HF);
    [exact (on_nodup TO_BE_CHANGED _ (core_nodup (wf_core _ Hwf)))|done|].
  assert (forall l lc0, commit_elements l (set_flags f lc0) = set_flags f (commit_elements l lc0)) as Hf.
  { intros l. induction l as [|i l IH]; intros lc0; simpl; [done|]. by rewrite <- IH. }
  rewrite Hf. unfold RETURN. lc_simpl. eexists. split; [done|]. split_and!; [|done|done|exact HD|exact HE|exact HF].
  destruct HA as [Hcore Hu Hpe Hm Hst Hpa]. split; lc_simpl; try done; subst f.
  - rewrite HC in Hst. by flag_bits.
  - by flag_bits.
Qed.

(** ** Fresh caches *)

Definition fresh_cache (n : nat) (max_pending : Z) : lru_cache :=
  mk_lru_cache (mk_lists [] (rev (seq 0 n)) [] []) n max_pending 0 0 zero_stats 0
    (replicate n []) ((fun i => mk_element 0 i LC_FREE LC_FREE) <$> seq 0 n).

Lemma fresh_elem n i :
  el ((fun i => mk_element 0 i LC_FREE LC_FREE) <$> seq 0 n) i =
  if decide (i < n)%nat then mk_element 0 i LC_FREE LC_FREE else no_element.
Proof.
  unfold el. rewrite list_lookup_fmap. case_decide.
  - by rewrite lookup_seq_lt.
  - by rewrite lookup_seq_ge by lia.
Qed.

Lemma fresh_cache_wf n max_pending :
  (0 < n)%nat -> Z.of_nat n <= LC_MAX_ACTIVE -> 0 <= max_pending < 2 ^ 32 ->
  lc_wf (fresh_cache n max_pending).
Proof.
  intros Hn Hmax Hp. unfold fresh_cache. split; lc_simpl; try done.
  assert (forall i, i ∈ rev (seq 0 n) <-> (i < n)%nat) as Hin.
  { intros i. rewrite list_elem_of_In, <- in_rev, in_seq. lia. }
  split; try done.
  - by rewrite length_fmap, length_seq.
  - by rewrite length_replicate.
  - intros i Hi. by rewrite fresh_elem, decide_True.
  - unfold all_of. simpl. rewrite app_nil_r. symmetry. apply Permutation_rev.
  - intros [] i Hi; try by apply not_elem_of_nil in Hi.
    rewrite fresh_elem. cbn [on free] in Hi. apply Hin in Hi. by rewrite decide_True.
  - intros s i. unfold slot. cbn [free]. rewrite Hin. split.
    + destruct (replicate n [] !! s) as [c|] eqn:E; simpl; [apply lookup_replicate in E as [-> _]|];
        intros Hi; by apply not_elem_of_nil in Hi.
    + naive_solver.
  - intros i j Hi _ Hf. destruct Hf. cbn [free]. by apply Hin.
Qed.

Lemma create_elements_spec n i alloc acc fr :
  (forall k, (i <= k < i + n)%nat -> alloc k = true) ->
  create_elements n i alloc acc fr =
  Some (acc ++ ((fun k => mk_element 0 k LC_FREE LC_FREE) <$> seq i n), rev (seq i n) ++ fr).
Proof.
  revert i acc fr. induction n as [|n IH]; intros i acc fr Ha; simpl.
  - by rewrite app_nil_r.
  - rewrite Ha by lia. rewrite IH by (intros; apply Ha; lia). by rewrite <- !app_assoc.
Qed.

Lemma create_elements_fail n i alloc acc fr k :
  (i <= k < i + n)%nat -> alloc k = false -> create_elements n i alloc acc fr = None.
Proof.
  revert i acc fr. induction n as [|n IH]; intros i acc fr Hk Ha; simpl; [lia|].
  destruct (alloc i) eqn:E; [|done]. apply IH; [|done]. assert (k <> i) by congruence. lia.
Qed.

(** [lc_create] hands out a fresh cache exactly when the sizes fit and every
    allocation succeeds. *)
Lemma lc_create_spec cache_obj_size max_pending n e_size a1 a2 a3 alloc lc :
  lc_create cache_obj_size max_pending n e_size a1 a2 a3 alloc = Some lc <->
  e_size <= cache_obj_size /\ Z.of_nat n <= LC_MAX_ACTIVE /\
  a1 = true /\ a2 = true /\ a3 = true /\ (forall k, (k < n)%nat -> alloc k = true) /\
  lc = fresh_cache n max_pending.
Proof.
  unfold lc_create. destruct (Z.ltb_spec cache_obj_size e_size); [split; [done|lia]|].
  destruct (Z.ltb_spec LC_MAX_ACTIVE (Z.of_nat n)); [split; [done|lia]|].
  destruct a1, a2, a3; simpl; try (split; [done|naive_solver]).
  destruct (forallb alloc (seq 0 n)) eqn:E.
  - rewrite forallb_forall in E.
    assert (forall k, (k < n)%nat -> alloc k = true) as Ha by (intros k Hk; apply E, in_seq; lia).
    rewrite create_elements_spec by (intros; apply Ha; lia).
    rewrite app_nil_r. simpl. unfold fresh_cache. naive_solver.
  - assert (exists k, (k < n)%nat /\ alloc k = false) as (k & Hk & Ha).
    { apply not_true_iff_false in E. rewrite forallb_forall in E.
      destruct (decide (Exists (fun k => alloc k = false) (seq 0 n))) as [Hex|Hex].
      - apply Exists_exists in Hex as (k & Hk%elem_of_seq & ?). exists k. split; [lia|done].
      - exfalso. apply E. intros k Hk. destruct (alloc k) eqn:Ek; [done|].
        destruct Hex. apply Exists_exists. exists k. by rewrite list_elem_of_In. }
    rewrite (create_elements_fail n 0 alloc [] [] k) by (done || lia).
    split; [done|]. intros (_ & _ & _ & _ & _ & Hall & _). specialize (Hall k Hk). congruence.
Qed.

Lemma reset_elements_spec n i lc :
  (i + n <= nr_elements lc)%nat -> length (elements lc) = nr_elements lc ->
  reset_elements n i lc =
  mk_lru_cache (mk_lists (lru (lists lc)) (rev (seq i n) ++ free (lists lc)) (in_use (lists lc))
                  (to_be_changed (lists lc)))
    (nr_elements lc) (max_pending_changes lc) (pending_changes lc) (used lc) (stats lc) (flags lc)
    (lc_slot lc)
    (take i (elements lc) ++ ((fun k => mk_element 0 k LC_FREE LC_FREE) <$> seq i n) ++
     drop (i + n) (elements lc)).
Proof.
  revert i lc. induction n as [|n IH]; intros i lc Hi Hlen; simpl.
  - rewrite Nat.add_0_r, take_drop. by destruct lc as [[] ? ? ? ? ? ? ? ?].
  - rewrite IH by (lc_simpl; rewrite ?length_alter; lia). lc_simpl. simpl.
    rewrite <- app_assoc. f_equal. simpl.
    destruct (lookup_lt_is_Some_2 (elements lc) i) as [e He]; [lia|].
    rewrite (take_S_r _ i (mk_element 0 i LC_FREE LC_FREE))
      by (by rewrite list_lookup_alter_eq, He).
    rewrite take_alter, decide_False by lia. rewrite drop_alter, decide_False by lia.
    rewrite <- app_assoc. simpl. by replace (i + S n)%nat with (S (i + n)) by lia.
Qed.

Lemma lc_reset_spec lc :
  length (elements lc) = nr_elements lc ->
  lc_reset lc = fresh_cache (nr_elements lc) (max_pending_changes lc).
Proof.
  intros Hlen. unfold lc_reset, fresh_cache. rewrite reset_elements_spec by (lc_simpl; lia). lc_simpl. simpl.
  rewrite drop_ge by lia. by rewrite !app_nil_r.
Qed.

(** ** Use of the cache as sequences of calls *)

(** One call of the API, under the duties of the caller: labels are not
    [LC_FREE], only referenced and committed elements are put, only
    unreferenced elements are deleted. *)
Inductive lc_step : lru_cache -> lru_cache -> Prop :=
  | step_get lc enr mc mu r lc' :
      label_ok enr -> refcnt_room lc -> __lc_get lc enr mc mu = Ret (r, lc') -> lc_step lc lc'
  | step_put lc i n lc' :
      i ∈ in_use (lists lc) -> lc_put lc i = Ret (n, lc') -> lc_step lc lc'
  | step_del lc i lc' :
      (i < nr_elements lc)%nat -> refcnt (elem lc i) = 0 -> lc_del lc i = Ret (tt, lc') -> lc_step lc lc'
  | step_committed lc lc' : lc_committed lc = Ret (tt, lc') -> lc_step lc lc'
  | step_reset lc : lc_step lc (lc_reset lc)
  | step_try_lock lc b lc' : lc_try_lock lc = Some (b, lc') -> lc_step lc lc'
  | step_try_lock_for_transaction lc : lc_step lc (snd (lc_try_lock_for_transaction lc))
  | step_unlock lc : lc_step lc (lc_unlock lc).

(** States of a cache made by [lc_create] with at least one element. *)
Inductive lc_reachable : lru_cache -> Prop :=
  | reach_create cache_obj_size max_pending n e_size a1 a2 a3 alloc lc :
      (0 < n)%nat -> 0 <= max_pending < 2 ^ 32 ->
      lc_create cache_obj_size max_pending n e_size a1 a2 a3 alloc = Some lc -> lc_reachable lc
  | reach_step lc lc' : lc_reachable lc -> lc_step lc lc' -> lc_reachable lc'.

Lemma wf_lock_flags lc f :
  lc_wf lc -> Z.testbit f __LC_PARANOIA = false ->
  (Z.testbit f __LC_STARVING = true -> Z.testbit (flags lc) __LC_STARVING = true) ->
  lc_wf (set_flags f lc).
Proof. intros [Hc Hu Hp Hm Hs _] Hpa Hf. split; lc_simpl; auto. Qed.

Lemma lc_step_wf lc lc' : lc_wf lc -> lc_step lc lc' -> lc_wf lc'.
Proof.
  intros Hwf Hstep. destruct Hstep.
  - destruct (lc_get_spec lc enr mc mu) as (? & ? & ? & ? & _); [done..|]. congruence.
  - destruct (lc_put_spec lc i) as (? & ? & ? & _); [done..|]. congruence.
  - destruct (lc_del_spec lc i) as (? & ? & ? & _); [done..|]. congruence.
  - destruct (lc_committed_spec lc) as (? & ? & ? & _); [done..|]. congruence.
  - pose proof (wf_core _ Hwf) as Hc. rewrite lc_reset_spec by apply Hc.
    pose proof (counter_bounds lc Hwf). apply fresh_cache_wf; [apply Hc|apply Hc|lia].
  - unfold lc_try_lock in H. repeat case_if_in H; simplify_eq; [|done].
    apply wf_lock_flags; done.
  - apply wf_lock_flags; [done| |]; unfold lc_try_lock_for_transaction; rewrite flag_setbit by done;
      [by apply Hwf|done].
  - apply wf_lock_flags; [done| |]; rewrite !flag_clearbit; [by rewrite (wf_paranoia _ Hwf)|].
    by destruct (Z.testbit (flags lc) __LC_STARVING).
Qed.

Lemma reachable_wf lc : lc_reachable lc -> lc_wf lc.
Proof.
  induction 1 as [? ? n ? ? ? ? ? ? Hn Hp Hcr|lc lc' _ IH Hstep].
  - apply lc_create_spec in Hcr as (_ & Hmax & _ & _ & _ & _ & ->). by apply fresh_cache_wf.
  - by eapply lc_step_wf.
Qed.

(** C4: the invariant of the cache.  Whatever sequence of calls a caller makes
    after [lc_create], every element is on exactly one of the four lists with
    the state that list stands for, is found through its hash chain unless it
    is free, no two elements share a label, [used] and [pending_changes] count
    the referenced and the to-be-changed elements, pending changes stay within
    the limit, and the starving mark is only set while nothing can be evicted. *)
Theorem lc_reachable_wf lc : lc_reachable lc -> lc_wf lc.
Proof. apply reachable_wf. Qed.

(** A small cache driven to a state with one referenced and one pending element. *)
Definition result_state {A} (lc0 : lru_cache) (o : outcome (A * lru_cache)) : lru_cache :=
  match o with Ret (_, lc) => lc | _ => lc0 end.

Definition example_lc1 : lru_cache :=
  Eval vm_compute in result_state (fresh_cache 3 2) (lc_get (fresh_cache 3 2) 7).

Definition example_lc2 : lru_cache :=
  Eval vm_compute in result_state example_lc1 (lc_committed example_lc1).

Definition example_lc : lru_cache :=
  Eval vm_compute in result_state example_lc2 (lc_get example_lc2 10).

Lemma example_room lc : forallb (fun e => refcnt e <? 2) (elements lc) = true -> refcnt_room lc.
Proof.
  rewrite forallb_forall. intros Hall i. unfold elem. destruct (elements lc !! i) eqn:E; simpl; [|lia].
  assert (refcnt l <? 2 = true) by (apply Hall, list_elem_of_In; by eapply list_elem_of_lookup_2).
  reflect_bools. lia.
Qed.

Lemma example_lc_reachable : lc_reachable example_lc.
Proof.
  assert (lc_reachable (fresh_cache 3 2)) as R0
    by (apply (reach_create 64 2 3 64 true true true (fun _ => true)); [lia|lia|by vm_compute]).
  assert (lc_reachable example_lc1) as R1.
  { apply (reach_step _ _ R0), (step_get (fresh_cache 3 2) 7 true false (Some 2%nat)); [by vm_compute| |].
    - apply example_room. by vm_compute.
    - by vm_compute. }
  assert (lc_reachable example_lc2) as R2 by (apply (reach_step _ _ R1), step_committed; by vm_compute).
  apply (reach_step _ _ R2), (step_get example_lc2 10 true false (Some 1%nat)); [by vm_compute| |].
  - apply example_room. by vm_compute.
  - by vm_compute.
Qed.

Lemma lc_reachable_wf_witness : lc_reachable example_lc /\ lc_wf example_lc.
Proof. split; [exact example_lc_reachable|apply (lc_reachable_wf example_lc), example_lc_reachable]. Defined.

Lemma example_lc_wf : lc_wf example_lc.
Proof. exact (reachable_wf _ example_lc_reachable). Qed.

(** The contract of [lc_get], [lc_get_cumulative] and [lc_try_get].  In a
    well-formed cache they never hit a [BUG_ON] and return one of: the element
    of that label with one more reference, on the in-use list; an uncommitted
    element of that label (only [lc_get_cumulative]); the first free or else
    the least recently used unreferenced element, rebound to the label and
    queued for the next transaction (not for [lc_try_get], and only when the
    set is not locked and the pending changes leave room); or nothing, for one
    of the documented reasons.  No other element changes. *)
Theorem lc_get_contract lc enr :
  lc_wf lc -> label_ok enr -> refcnt_room lc ->
  (exists r lc', lc_get lc enr = Ret (r, lc') /\ get_post lc enr true false r lc') /\
  (exists r lc', lc_get_cumulative lc enr = Ret (r, lc') /\ get_post lc enr true true r lc') /\
  (exists r lc', lc_try_get lc enr = Ret (r, lc') /\ get_post lc enr false false r lc').
Proof.
  intros Hwf Hlab Hroom. split_and!.
  - destruct (lc_get_spec lc enr true false) as (r & lc' & ? & _ & ?); eauto.
  - destruct (lc_get_spec lc enr true true) as (r & lc' & ? & _ & ?); eauto.
  - destruct (lc_get_spec lc enr false false) as (r & lc' & ? & _ & ?); eauto.
Qed.

Lemma lc_get_contract_witness :
  lc_wf example_lc /\ label_ok 10 /\ refcnt_room example_lc /\
  exists r lc', lc_get_cumulative example_lc 10 = Ret (r, lc') /\
    get_post example_lc 10 true true r lc'.
Proof.
  assert (refcnt_room example_lc) as Hr by (apply example_room; by vm_compute).
  split; [exact example_lc_wf|]. split; [by vm_compute|]. split; [exact Hr|].
  apply (lc_get_contract example_lc 10); [exact example_lc_wf|by vm_compute|exact Hr].
Defined.

(** [lc_put] of a referenced, committed element returns the decremented
    count; at zero the element becomes the most recently used of the LRU list
    and the starving mark is cleared, otherwise the lists stay as they are, and
    no other element changes.  Any other tracked element (free, unreferenced or
    not yet committed) stops at the [BUG_ON]s. *)
Theorem lc_put_contract lc i :
  lc_wf lc -> (i < nr_elements lc)%nat ->
  (i ∉ in_use (lists lc) -> lc_put lc i = BUG) /\
  (i ∈ in_use (lists lc) ->
   exists lc', lc_put lc i = Ret (refcnt (elem lc i) - 1, lc') /\
    (forall j, elem lc' j = if decide (i = j) then set_refcnt (refcnt (elem lc i) - 1) (elem lc i)
                            else elem lc j) /\
    if refcnt (elem lc i) =? 1
    then lru (lists lc') = i :: lru (lists lc) /\ i ∉ in_use (lists lc') /\
         Z.testbit (flags lc') __LC_STARVING = false
    else lists lc' = lists lc).
Proof.
  intros Hwf Hi. split.
  - intros Hni. unfold lc_put. rewrite paranoia_entry_ok by done. cbn [obind].
    rewrite paranoia_element_ok by (lc_simpl; apply Hwf || done).
    change (elem (set_flags _ lc) i) with (elem lc i).
    destruct (core_list (wf_core _ Hwf) i Hi) as [t Ht].
    pose proof (ok_elem lc t i Hwf Ht) as Hok. destruct t; simpl in Ht, Hok; try done.
    + by destruct Hok as (-> & _).
    + by destruct Hok as (-> & _).
    + rewrite (proj2 (Z.eqb_neq _ _)) by lia. by rewrite (proj2 (Z.eqb_neq _ _)) by tauto.
  - intros Hin. destruct (lc_put_spec lc i Hwf Hin) as (lc' & ? & _ & ? & ?). eauto.
Qed.

Lemma lc_put_contract_witness :
  lc_wf example_lc /\ (2 < nr_elements example_lc)%nat /\ 2%nat ∈ in_use (lists example_lc) /\
  exists lc', lc_put example_lc 2 = Ret (0, lc') /\ lru (lists lc') = [2%nat].
Proof.
  split; [exact example_lc_wf|]. split; [by vm_compute; lia|].
  assert (2%nat ∈ in_use (lists example_lc)) as Hin
    by (change (in_use (lists example_lc)) with [2%nat]; by left).
  split; [exact Hin|].
  destruct (lc_put_contract example_lc 2) as [_ H]; [exact example_lc_wf|by vm_compute; lia|].
  destruct (H Hin) as (lc' & He & _ & Hl). exists lc'.
  assert (refcnt (elem example_lc 2) = 1) as Hr by (by vm_compute).
  assert (lru (lists example_lc) = []) as Hlru by (by vm_compute).
  rewrite Hr in He, Hl. cbn [Z.eqb Pos.eqb] in Hl. destruct Hl as (Hl & _ & _).
  rewrite Hlru in Hl. split; [exact He|exact Hl].
Defined.

(** C7: [lc_committed] makes every pending change effective: nothing stays on
    the to-be-changed list, each of its elements now carries its new number
    while all other elements are as before, and every label that was tracked
    or pending is from then on found by [lc_find]. *)
Theorem lc_committed_contract lc :
  lc_wf lc ->
  exists lc', lc_committed lc = Ret (tt, lc') /\ to_be_changed (lists lc') = [] /\
    pending_changes lc' = 0 /\
    (forall j, elem lc' j = if decide (j ∈ to_be_changed (lists lc))
                            then set_number (lc_new_number (elem lc j)) (elem lc j) else elem lc j) /\
    (forall enr i, lc_lookup lc enr true = Some i -> lc_find lc' enr = Ret (Some i)).
Proof.
  intros Hwf. destruct (lc_committed_spec lc Hwf) as (lc' & He & Hwf' & Ht & Hp & Hel & Hnr & Hfr).
  exists lc'. split_and!; try done. intros enr i (Hi & Hif & Hnew)%lookup_hashed; [|done].
  assert (lc_new_number (elem lc' i) = enr /\ lc_number (elem lc' i) = enr) as [Hn Hn'].
  { rewrite Hel. pose proof (found_list lc i Hwf Hi Hif) as Hl.
    destruct (Z.eqb_spec (lc_new_number (elem lc i)) (lc_number (elem lc i))).
    - case_decide; simpl; split; congruence.
    - rewrite decide_True by apply Hl. done. }
  unfold lc_find. rewrite lc_find_eq by apply Hwf'. unfold lc_lookup.
  rewrite find_in_chain_filter. fold (lc_lookup lc' enr true).
  assert (lc_lookup lc' enr true = Some i) as ->.
  { apply lc_lookup_Some; [apply Hwf'|]. rewrite Hnr, Hfr. done. }
  by rewrite Hn, Hn', Z.eqb_refl.
Qed.

Lemma lc_committed_contract_witness :
  lc_wf example_lc /\
  exists lc', lc_committed example_lc = Ret (tt, lc') /\ lc_find lc' 10 = Ret (Some 1%nat).
Proof.
  split; [exact example_lc_wf|].
  destruct (lc_committed_contract example_lc example_lc_wf) as (lc' & He & _ & _ & _ & Hf).
  exists lc'. split; [exact He|]. apply Hf. by vm_compute.
Defined.
