(* ===== verification/Interval.v ===== *)
(** * Interval trees ([drbd/drbd_interval.c], [drbd/drbd_interval.h])

    The red-black tree is the kernel's ([linux/rbtree_augmented.h], not part of
    this repository).  It enters as the class [RbAugmented]: rebalancing after
    a link, erasing, walking to the next node and propagating the augmented
    value, each with what its documentation promises about the in-order
    sequence of nodes and the augmented values.  The searches of DRBD itself
    are functions on the tree. *)
From Stdlib Require Import String.
From S2P Require Import Prelude.

(** ** Data *)

Inductive drbd_interval_type :=
  | INTERVAL_LOCAL_WRITE
  | INTERVAL_PEER_WRITE
  | INTERVAL_LOCAL_READ
  | INTERVAL_PEER_READ
  | INTERVAL_RESYNC_WRITE
  | INTERVAL_RESYNC_READ
  | INTERVAL_OV_READ_SOURCE
  | INTERVAL_OV_READ_TARGET
  | INTERVAL_PEERS_IN_SYNC_LOCK.

#[export] Instance interval_type_eq_dec : EqDecision drbd_interval_type.
Proof. solve_decision. Defined.

(** Bit numbers of [enum drbd_interval_flags]. *)
Definition INTERVAL_READY_TO_SEND : Z := 0.
Definition INTERVAL_SENT : Z := 1.
Definition INTERVAL_RECEIVED : Z := 2.
Definition INTERVAL_SUBMIT_CONFLICT_QUEUED : Z := 3.
Definition INTERVAL_SUBMITTED : Z := 4.
Definition INTERVAL_BACKING_COMPLETED : Z := 5.
Definition INTERVAL_COMPLETED : Z := 6.
Definition INTERVAL_CONFLICT : Z := 7.
Definition INTERVAL_CANCELED : Z := 8.
Definition INTERVAL_DONE : Z := 9.
Definition INTERVAL_AL_EXTENT_LAST : Z := 10.

(** [struct drbd_interval]; [i_addr] is the address of the object, which the
    tree uses to order intervals with the same start sector.  The augmented
    member [end] is kept in the tree node; [partially_in_al_next_enr] only
    serves the activity log and is not part of this component. *)
Record drbd_interval := mk_interval {
  i_addr : Z;
  i_sector : Z;
  i_size : Z;
  i_type : drbd_interval_type;
  i_flags : Z }.

#[export] Instance interval_eq_dec : EqDecision drbd_interval.
Proof. solve_decision. Defined.

Definition drbd_interval_is_application (i : drbd_interval) : bool :=
  match i_type i with
  | INTERVAL_LOCAL_WRITE | INTERVAL_PEER_WRITE | INTERVAL_LOCAL_READ | INTERVAL_PEER_READ => true
  | _ => false
  end.

Definition drbd_interval_is_write (i : drbd_interval) : bool :=
  match i_type i with
  | INTERVAL_LOCAL_WRITE | INTERVAL_PEER_WRITE | INTERVAL_RESYNC_WRITE => true
  | _ => false
  end.

Definition drbd_interval_is_resync (i : drbd_interval) : bool :=
  match i_type i with INTERVAL_RESYNC_WRITE | INTERVAL_RESYNC_READ => true | _ => false end.

Definition drbd_interval_is_verify (i : drbd_interval) : bool :=
  match i_type i with INTERVAL_OV_READ_SOURCE | INTERVAL_OV_READ_TARGET => true | _ => false end.

Definition drbd_interval_is_local (i : drbd_interval) : bool :=
  match i_type i with INTERVAL_LOCAL_READ | INTERVAL_LOCAL_WRITE => true | _ => false end.

(** [drbd_interval_type_str]: types without an entry in the table print as "?". *)
Definition drbd_interval_type_str (i : drbd_interval) : string :=
  match i_type i with
  | INTERVAL_LOCAL_WRITE => "LocalWrite"
  | INTERVAL_PEER_WRITE => "PeerWrite"
  | INTERVAL_RESYNC_WRITE => "ResyncWrite"
  | INTERVAL_RESYNC_READ => "ResyncRead"
  | INTERVAL_OV_READ_SOURCE => "VerifySource"
  | INTERVAL_OV_READ_TARGET => "VerifyTarget"
  | INTERVAL_PEERS_IN_SYNC_LOCK => "PeersInSync"
  | INTERVAL_LOCAL_READ | INTERVAL_PEER_READ => "?"
  end.

(** [NODE_END]: first sector after the interval; [sector_t] is 64 bits wide. *)
Definition NODE_END (i : drbd_interval) : Z := u64 (i_sector i + Z.shiftr (i_size i) 9).

(** A node: left subtree, interval, augmented [end], right subtree. *)
Inductive rb_tree :=
  | Leaf
  | Node (l : rb_tree) (i : drbd_interval) (iend : Z) (r : rb_tree).

Fixpoint inorder (t : rb_tree) : list drbd_interval :=
  match t with
  | Leaf => []
  | Node l i _ r => inorder l ++ i :: inorder r
  end.

Definition IS_ALIGNED (size a : Z) : bool := Z.land size (a - 1) =? 0.

(** ** Searches *)

(** The descent of [drbd_insert_interval]: raise [end] on the way down, link a
    new leaf, or stop at the object itself. *)
Fixpoint insert_descend (t : rb_tree) (this : drbd_interval) : option rb_tree * rb_tree :=
  match t with
  | Leaf => (Some (Node Leaf this (NODE_END this) Leaf), Leaf)
  | Node l here e r =>
      let e := if e <? NODE_END this then NODE_END this else e in
      let go_left := let '(n, l') := insert_descend l this in
                     ((fun l => Node l here e r) <$> n, Node l' here e r) in
      let go_right := let '(n, r') := insert_descend r this in
                      ((fun r => Node l here e r) <$> n, Node l here e r') in
      if i_sector this <? i_sector here then go_left
      else if i_sector here <? i_sector this then go_right
      else if i_addr this <? i_addr here then go_left
      else if i_addr here <? i_addr this then go_right
      else (None, Node l here e r)
  end.

(** [drbd_contains_interval] *)
Fixpoint drbd_contains_interval (t : rb_tree) (sector addr : Z) : bool :=
  match t with
  | Leaf => false
  | Node l here _ r =>
      if sector <? i_sector here then drbd_contains_interval l sector addr
      else if i_sector here <? sector then drbd_contains_interval r sector addr
      else if addr <? i_addr here then drbd_contains_interval l sector addr
      else if i_addr here <? addr then drbd_contains_interval r sector addr
      else true
  end.

(** [node->rb_left && sector < interval_end(node->rb_left)] *)
Definition left_reaches (l : rb_tree) (sector : Z) : bool :=
  match l with Leaf => false | Node _ _ e _ => sector <? e end.

(** The loop of [drbd_find_overlap]. *)
Fixpoint find_overlap_loop (t : rb_tree) (sector iend : Z) : option drbd_interval :=
  match t with
  | Leaf => None
  | Node l here _ r =>
      if left_reaches l sector then find_overlap_loop l sector iend
      else if (i_sector here <? iend) && (sector <? u64 (i_sector here + Z.shiftr (i_size here) 9))
      then Some here
      else if i_sector here <=? sector then find_overlap_loop r sector iend
      else None
  end.

Definition drbd_find_overlap (t : rb_tree) (sector size : Z) : outcome (option drbd_interval) :=
  bug_on! negb (IS_ALIGNED size 512) in
  Ret (find_overlap_loop t sector (u64 (sector + Z.shiftr size 9))).

(** ** The kernel's augmented red-black tree *)

(** [aug t]: every node's [end] is the largest end in its subtree. *)
Fixpoint max_end (t : rb_tree) : Z :=
  match t with
  | Leaf => 0
  | Node l i _ r => Z.max (NODE_END i) (Z.max (max_end l) (max_end r))
  end.

Fixpoint aug (t : rb_tree) : Prop :=
  match t with
  | Leaf => True
  | Node l i e r => e = max_end t /\ aug l /\ aug r
  end.

(** Writes [this->size] in the node of the object at [addr]. *)
Definition resize (addr new_size : Z) (i : drbd_interval) : drbd_interval :=
  if i_addr i =? addr
  then mk_interval (i_addr i) (i_sector i) new_size (i_type i) (i_flags i) else i.

Fixpoint set_size (addr new_size : Z) (t : rb_tree) : rb_tree :=
  match t with
  | Leaf => Leaf
  | Node l i e r =>
      Node (set_size addr new_size l) (resize addr new_size i) e (set_size addr new_size r)
  end.

(** What [rb_insert_augmented], [rb_erase_augmented], [rb_next] and the
    propagate callback of [RB_DECLARE_CALLBACKS_MAX] document. *)
Class RbAugmented := {
  rb_insert_augmented : rb_tree -> rb_tree;
  rb_erase_augmented : rb_tree -> Z -> rb_tree;
  rb_propagate : rb_tree -> Z -> rb_tree;
  rb_next : rb_tree -> Z -> option drbd_interval;
  rb_insert_inorder t : inorder (rb_insert_augmented t) = inorder t;
  rb_insert_aug t : aug t -> aug (rb_insert_augmented t);
  rb_erase_inorder t a : inorder (rb_erase_augmented t a) = filter (fun j => i_addr j <> a) (inorder t);
  rb_erase_aug t a : aug t -> aug (rb_erase_augmented t a);
  rb_propagate_inorder t a : inorder (rb_propagate t a) = inorder t;
  rb_propagate_aug t a n : aug t -> aug (rb_propagate (set_size a n t) a);
  rb_next_spec t l1 i l2 :
    inorder t = l1 ++ i :: l2 -> NoDup (i_addr <$> inorder t) -> rb_next t (i_addr i) = head l2 }.

Section with_rbtree.
Context `{RbAugmented}.

(** [drbd_insert_interval] *)
Definition drbd_insert_interval (root : rb_tree) (this : drbd_interval) : outcome (bool * rb_tree) :=
  bug_on! negb (IS_ALIGNED (i_size this) 512) in
  match insert_descend root this with
  | (Some linked, _) => Ret (true, rb_insert_augmented linked)
  | (None, raised) => Ret (false, raised)
  end.

(** [drbd_remove_interval]; [linked] is [!drbd_interval_empty(this)]. *)
Definition drbd_remove_interval (root : rb_tree) (this : drbd_interval) (linked : bool) : rb_tree :=
  if linked then rb_erase_augmented root (i_addr this) else root.

Definition drbd_update_interval_size (root : rb_tree) (addr new_size : Z) : rb_tree :=
  rb_propagate (set_size addr new_size root) addr.

(** The loop of [drbd_next_overlap]; [fuel] bounds the walk to the right. *)
Fixpoint next_overlap_loop (fuel : nat) (root : rb_tree) (addr sector iend : Z) : option drbd_interval :=
  match fuel with
  | O => None
  | S fuel =>
      match rb_next root addr with
      | None => None
      | Some i =>
          if iend <=? i_sector i then None
          else if sector <? u64 (i_sector i + Z.shiftr (i_size i) 9) then Some i
          else next_overlap_loop fuel root (i_addr i) sector iend
      end
  end.

Definition drbd_next_overlap (root : rb_tree) (addr sector size : Z) : option drbd_interval :=
  next_overlap_loop (length (inorder root)) root addr sector (u64 (sector + Z.shiftr size 9)).

(** [drbd_for_each_overlap]: the sequence of intervals the loop visits. *)
Fixpoint each_overlap_from (fuel : nat) (root : rb_tree) (i : option drbd_interval) (sector size : Z)
  : list drbd_interval :=
  match fuel, i with
  | S fuel, Some i =>
      i :: each_overlap_from fuel root (drbd_next_overlap root (i_addr i) sector size) sector size
  | _, _ => []
  end.

Definition drbd_for_each_overlap (root : rb_tree) (sector size : Z) : outcome (list drbd_interval) :=
  let! first := drbd_find_overlap root sector size in
  Ret (each_overlap_from (length (inorder root)) root first sector size).
End with_rbtree.

(** ** Specification vocabulary *)

(** Intervals do not run past the end of the 64-bit sector space. *)
Definition interval_ok (i : drbd_interval) : Prop :=
  0 <= i_sector i /\ 0 <= i_size i /\ i_sector i + Z.shiftr (i_size i) 9 < 2 ^ 64.

(** Tree order: start sector, then address. *)
Definition key_lt (i j : drbd_interval) : Prop :=
  i_sector i < i_sector j \/ (i_sector i = i_sector j /\ i_addr i < i_addr j).

(** [i] intersects the sectors [sector .. iend - 1], as the code tests it. *)
Definition overlaps (sector iend : Z) (i : drbd_interval) : Prop :=
  i_sector i < iend /\ sector < NODE_END i.

#[export] Instance overlaps_dec sector iend i : Decision (overlaps sector iend i).
Proof. apply _. Defined.

Notation sorted := (StronglySorted key_lt).

Record tree_wf (t : rb_tree) : Prop := {
  wf_sorted : sorted (inorder t);
  wf_ok : Forall interval_ok (inorder t);
  wf_aug : aug t;
  wf_addr : NoDup (i_addr <$> inorder t) }.

Lemma sorted_node l i r :
  sorted (l ++ i :: r) <->
  sorted l /\ sorted r /\ (forall j, j ∈ l -> key_lt j i) /\ (forall j, j ∈ r -> key_lt i j) /\
  (forall j k, j ∈ l -> k ∈ r -> key_lt j k).
Proof.
  rewrite StronglySorted_app, StronglySorted_cons, Forall_forall. split.
  - intros (Hx & Hl & Hi & Hr). split_and!; try done; intros; apply Hx; set_solver.
  - intros (Hl & Hr & Hli & Hir & Hlr). split_and!; try done. set_solver.
Qed.

Lemma node_end_eq i : interval_ok i -> NODE_END i = i_sector i + Z.shiftr (i_size i) 9 /\ i_sector i <= NODE_END i.
Proof.
  intros (Hs & Hz & Hb). assert (0 <= Z.shiftr (i_size i) 9) by (by apply Z.shiftr_nonneg).
  unfold NODE_END. rewrite u64_small; lia.
Qed.

Lemma node_end_nonneg i : 0 <= NODE_END i.
Proof. apply u64_range. Qed.

Lemma max_end_nonneg t : 0 <= max_end t.
Proof. destruct t; simpl; [lia|]. pose proof (node_end_nonneg i). lia. Qed.

Lemma max_end_ge t i : i ∈ inorder t -> NODE_END i <= max_end t.
Proof.
  induction t as [|l IHl j e r IHr]; simpl; [by intros ?%not_elem_of_nil|].
  intros [Hi|[->|Hi]%elem_of_cons]%elem_of_app; [apply IHl in Hi|..|apply IHr in Hi]; lia.
Qed.

Lemma max_end_attained t s : s < max_end t -> 0 <= s -> exists i, i ∈ inorder t /\ s < NODE_END i.
Proof.
  induction t as [|l IHl j e r IHr]; simpl; [lia|]. intros Hs Hs0.
  destruct (Z.lt_ge_cases s (NODE_END j)); [exists j; set_solver|].
  destruct (Z.lt_ge_cases s (max_end l)).
  - destruct IHl as (i & ? & ?); [done..|]. exists i. set_solver.
  - destruct IHr as (i & ? & ?); [lia..|]. exists i. set_solver.
Qed.

Lemma left_reaches_aug l s : aug l -> 0 <= s -> left_reaches l s = (s <? max_end l).
Proof.
  destruct l; simpl; intros Ha Hs; [symmetry; apply Z.ltb_ge; lia|]. by destruct Ha as (-> & _).
Qed.

(** Right of an interval that starts at or after the end, nothing overlaps. *)
Lemma no_overlap_right i l sector iend :
  iend <= i_sector i -> (forall j, j ∈ l -> key_lt i j) -> filter (overlaps sector iend) l = [].
Proof.
  intros Hi Hl. apply filter_none. intros j Hj [? _]. specialize (Hl j Hj). unfold key_lt in Hl. lia.
Qed.

Lemma find_overlap_loop_spec t sector iend :
  sorted (inorder t) -> Forall interval_ok (inorder t) -> aug t -> 0 <= sector ->
  find_overlap_loop t sector iend = head (filter (overlaps sector iend) (inorder t)).
Proof.
  intros Hs Hok Ha Hsec. induction t as [|l IHl i e r IHr]; simpl; [done|].
  simpl in Hs, Hok, Ha. apply sorted_node in Hs as (Hsl & Hsr & Hli & Hir & Hlr).
  apply Forall_app in Hok as [Hokl [Hoki Hokr]%Forall_cons]. destruct Ha as (_ & Hal & Har).
  rewrite filter_app, left_reaches_aug by done. destruct (Z.ltb_spec sector (max_end l)) as [Hr|Hr].
  - rewrite IHl by done. destruct (filter (overlaps sector iend) (inorder l)) eqn:E; [|done]. simpl.
    destruct (max_end_attained l sector Hr Hsec) as (j & Hj & Hje).
    assert (iend <= i_sector j).
    { destruct (Z.lt_ge_cases (i_sector j) iend); [|done].
      assert (j ∈ filter (overlaps sector iend) (inorder l)) as Hin by (by apply list_elem_of_filter).
      rewrite E in Hin. by apply not_elem_of_nil in Hin. }
    rewrite (no_overlap_right j) by (try done; intros k [->|]%elem_of_cons; auto). done.
  - rewrite (filter_none _ (inorder l)) by (intros j Hj [_ ?]; pose proof (max_end_ge l j Hj); lia).
    simpl. fold (NODE_END i). pose proof (node_end_eq i Hoki) as [_ Hne].
    destruct (Z.ltb_spec (i_sector i) iend), (Z.ltb_spec sector (NODE_END i)); simpl.
    1: by rewrite filter_cons_True.
    all: rewrite filter_cons_False by (intros [? ?]; lia).
    all: destruct (Z.leb_spec (i_sector i) sector); [by apply IHr|].
    all: try lia; by rewrite (no_overlap_right i).
Qed.

(** The descent and the membership test follow the tree order. *)
Definition same_key (i j : drbd_interval) : Prop := i_sector i = i_sector j /\ i_addr i = i_addr j.

Lemma key_lt_irrefl i j : key_lt i j -> ~ same_key i j.
Proof. unfold key_lt, same_key. lia. Qed.

Lemma key_trichotomy i j : key_lt i j \/ key_lt j i \/ same_key i j.
Proof. unfold key_lt, same_key. lia. Qed.

Lemma key_lt_trans i j k : key_lt i j -> key_lt j k -> key_lt i k.
Proof. unfold key_lt. lia. Qed.

Lemma contains_spec t s a :
  sorted (inorder t) ->
  drbd_contains_interval t s a = true <-> exists i, i ∈ inorder t /\ i_sector i = s /\ i_addr i = a.
Proof.
  induction t as [|l IHl i e r IHr]; intros Hs; cbn [inorder drbd_contains_interval].
  { split; [done|]. by intros (i & ?%not_elem_of_nil & _). }
  apply sorted_node in Hs as (Hsl & Hsr & Hli & Hir & Hlr). unfold key_lt in Hli, Hir.
  setoid_rewrite elem_of_app. setoid_rewrite elem_of_cons.
  destruct (Z.ltb_spec s (i_sector i)); [rewrite IHl by done; naive_solver lia|].
  destruct (Z.ltb_spec (i_sector i) s); [rewrite IHr by done; naive_solver lia|].
  destruct (Z.ltb_spec a (i_addr i)); [rewrite IHl by done; naive_solver lia|].
  destruct (Z.ltb_spec (i_addr i) a); [rewrite IHr by done; naive_solver lia|].
  split; [|done]. intros _. exists i. split_and!; [by right; left|lia|lia].
Qed.

(** The three ways the descent continues at a node. *)
Lemma insert_descend_left l i e r this :
  key_lt this i ->
  insert_descend (Node l i e r) this =
  let '(n, l') := insert_descend l this in
  ((fun l => Node l i (Z.max e (NODE_END this)) r) <$> n, Node l' i (Z.max e (NODE_END this)) r).
Proof.
  intros Hk. cbn [insert_descend].
  replace (if e <? NODE_END this then NODE_END this else e) with (Z.max e (NODE_END this))
    by (case_if; lia).
  unfold key_lt in Hk. repeat case_if; (done || lia).
Qed.

Lemma insert_descend_right l i e r this :
  key_lt i this ->
  insert_descend (Node l i e r) this =
  let '(n, r') := insert_descend r this in
  ((fun r => Node l i (Z.max e (NODE_END this)) r) <$> n, Node l i (Z.max e (NODE_END this)) r').
Proof.
  intros Hk. cbn [insert_descend].
  replace (if e <? NODE_END this then NODE_END this else e) with (Z.max e (NODE_END this))
    by (case_if; lia).
  unfold key_lt in Hk. repeat case_if; (done || lia).
Qed.

Lemma insert_descend_same l i e r this :
  same_key i this -> insert_descend (Node l i e r) this = (None, Node l i (Z.max e (NODE_END this)) r).
Proof.
  intros Hk. cbn [insert_descend].
  replace (if e <? NODE_END this then NODE_END this else e) with (Z.max e (NODE_END this))
    by (case_if; lia).
  unfold same_key in Hk. repeat case_if; (done || lia).
Qed.

Definition descend_post (t : rb_tree) (this : drbd_interval) (res : option rb_tree * rb_tree) : Prop :=
  match res with
  | (Some t', _) =>
      (forall i, i ∈ inorder t -> ~ same_key i this) /\ sorted (inorder t') /\
      inorder t' ≡ₚ this :: inorder t /\ max_end t' = Z.max (max_end t) (NODE_END this) /\ aug t'
  | (None, t') => (exists i, i ∈ inorder t /\ same_key i this) /\
      (NODE_END this <= max_end t -> (forall i, i ∈ inorder t -> same_key i this -> i = this) -> t' = t)
  end.

Lemma descend_post_left l i e r this :
  sorted (inorder l ++ i :: inorder r) -> e = max_end (Node l i e r) -> aug r -> key_lt this i ->
  descend_post l this (insert_descend l this) ->
  descend_post (Node l i e r) this (insert_descend (Node l i e r) this).
Proof.
  intros (Hsl & Hsr & Hli & Hir & Hlr)%sorted_node He Har Hk Hpost.
  rewrite insert_descend_left by done. destruct (insert_descend l this) as [[l'|] lr]; simpl in *.
  - destruct Hpost as (Hn & Hs' & Hp & Hm & Ha). split_and!.
    + intros j [Hj|[->|Hj]%elem_of_cons]%elem_of_app; [by apply Hn|..]; intros ?.
      * apply (key_lt_irrefl this i); [done|]. unfold same_key in *. lia.
      * apply (key_lt_irrefl this j); [by eapply key_lt_trans; [|apply Hir]|]. unfold same_key in *. lia.
    + apply sorted_node. split_and!; try done.
      * intros j. rewrite Hp. intros [->|Hj]%elem_of_cons; auto.
      * intros j k. rewrite Hp. intros [->|Hj]%elem_of_cons Hk'; [|by apply Hlr].
        eapply key_lt_trans; [done|]. by apply Hir.
    + by rewrite Hp.
    + rewrite Hm. lia.
    + rewrite Hm. lia.
    + done.
    + done.
  - destruct Hpost as ((j & Hj & Hkj) & Hsame). split.
    + exists j. split; [set_solver|done].
    + intros Hle Huniq. rewrite Hsame; [f_equal; lia| |].
      * assert (j = this) as -> by (apply Huniq; [set_solver|done]). by apply max_end_ge.
      * intros k Hk'. apply Huniq. set_solver.
Qed.

Lemma descend_post_right l i e r this :
  sorted (inorder l ++ i :: inorder r) -> e = max_end (Node l i e r) -> aug l -> key_lt i this ->
  descend_post r this (insert_descend r this) ->
  descend_post (Node l i e r) this (insert_descend (Node l i e r) this).
Proof.
  intros (Hsl & Hsr & Hli & Hir & Hlr)%sorted_node He Hal Hk Hpost.
  rewrite insert_descend_right by done. destruct (insert_descend r this) as [[r'|] rr]; simpl in *.
  - destruct Hpost as (Hn & Hs' & Hp & Hm & Ha). split_and!.
    + intros j [Hj|[->|Hj]%elem_of_cons]%elem_of_app; [..|by apply Hn].
      * apply key_lt_irrefl. eapply key_lt_trans; [by apply Hli|done].
      * by apply key_lt_irrefl.
    + apply sorted_node. split_and!; try done.
      * intros j. rewrite Hp. intros [->|Hj]%elem_of_cons; auto.
      * intros j k Hj. rewrite Hp. intros [->|Hk']%elem_of_cons; [|by apply Hlr].
        eapply key_lt_trans; [by apply Hli|done].
    + rewrite Hp. solve_Permutation.
    + rewrite Hm. lia.
    + rewrite Hm. lia.
    + done.
    + done.
  - destruct Hpost as ((j & Hj & Hkj) & Hsame). split.
    + exists j. split; [set_solver|done].
    + intros Hle Huniq. rewrite Hsame; [f_equal; lia| |].
      * assert (j = this) as -> by (apply Huniq; [set_solver|done]). by apply max_end_ge.
      * intros k Hk'. apply Huniq. set_solver.
Qed.

Lemma insert_descend_spec t this :
  sorted (inorder t) -> aug t -> descend_post t this (insert_descend t this).
Proof.
  induction t as [|l IHl i e r IHr]; intros Hs Ha.
  { simpl. pose proof (node_end_nonneg this). split; [by intros i ?%not_elem_of_nil|]. split.
    - apply StronglySorted_cons. split; [done|constructor].
    - split; [done|]. lia. }
  cbn [inorder] in Hs. pose proof Hs as (Hsl & Hsr & _)%sorted_node. destruct Ha as (He & Hal & Har).
  destruct (key_trichotomy this i) as [Hk|[Hk|Hk]].
  - by apply descend_post_left; auto.
  - by apply descend_post_right; auto.
  - rewrite insert_descend_same by (unfold same_key in *; lia). split.
    + exists i. split; [set_solver|unfold same_key in *; lia].
    + intros Hle _. f_equal. lia.
Qed.

(** ** Properties of the operations *)

Section with_rbtree_props.
Context `{RbAugmented}.

Lemma nodup_addr_app l1 i l2 :
  NoDup (i_addr <$> l1 ++ i :: l2) -> forall t, inorder t = l1 ++ i :: l2 ->
  rb_next t (i_addr i) = head l2.
Proof. intros Hnd t Ht. eapply rb_next_spec; [done|by rewrite Ht]. Qed.

(** Walking right from [i] finds the next overlapping interval. *)
Lemma next_overlap_loop_spec fuel t l1 i l2 sector iend :
  tree_wf t -> inorder t = l1 ++ i :: l2 -> (length l2 <= fuel)%nat ->
  next_overlap_loop fuel t (i_addr i) sector iend = head (filter (overlaps sector iend) l2).
Proof.
  intros Hwf. revert l1 i l2. induction fuel as [|fuel IH]; intros l1 i l2 Ht Hf.
  { by destruct l2; [|simpl in Hf; lia]. }
  cbn [next_overlap_loop]. pose proof (wf_addr _ Hwf) as Hnd. pose proof (wf_sorted _ Hwf) as Hs.
  rewrite Ht in Hnd, Hs. rewrite (nodup_addr_app l1 i l2 Hnd t Ht).
  destruct l2 as [|j l2]; [done|]. simpl. fold (NODE_END j).
  apply sorted_node in Hs as (_ & Hsr & _ & Hir & _).
  apply StronglySorted_cons in Hsr as [Hj _]. rewrite Forall_forall in Hj.
  destruct (Z.leb_spec iend (i_sector j)).
  { rewrite filter_cons_False by (intros [? ?]; lia). by rewrite (no_overlap_right j l2 sector iend). }
  destruct (Z.ltb_spec sector (NODE_END j)); [by rewrite filter_cons_True|].
  rewrite filter_cons_False by (intros [? ?]; lia).
  apply (IH (l1 ++ [i])); [by rewrite <- app_assoc|simpl in Hf; lia].
Qed.

Lemma each_overlap_from_spec fuel t pre suf sector size :
  tree_wf t -> inorder t = pre ++ suf -> (length suf <= fuel)%nat ->
  let P := overlaps sector (u64 (sector + Z.shiftr size 9)) in
  each_overlap_from fuel t (head (filter P suf)) sector size = filter P suf.
Proof.
  intros Hwf. revert pre suf. induction fuel as [|fuel IH]; intros pre suf Ht Hf P.
  { by destruct suf; [|simpl in Hf; lia]. }
  destruct (filter P suf) as [|i rest] eqn:E; [done|]. simpl.
  destruct (filter_split P suf i rest E) as (a & b & -> & Ha & Hb). f_equal.
  unfold drbd_next_overlap.
  rewrite (next_overlap_loop_spec _ t (pre ++ a) i b);
    [|done|by rewrite Ht, <- app_assoc|rewrite Ht, !length_app; simpl; lia].
  rewrite <- Hb. apply (IH (pre ++ a ++ [i])).
  - by rewrite Ht, <- !app_assoc.
  - rewrite length_app in Hf. simpl in Hf. lia.
Qed.

(** The enumeration as a lemma for the users of the tree. *)
Lemma for_each_overlap_spec t sector size :
  tree_wf t -> 0 <= sector -> IS_ALIGNED size 512 = true ->
  drbd_for_each_overlap t sector size =
  Ret (filter (overlaps sector (u64 (sector + Z.shiftr size 9))) (inorder t)).
Proof.
  intros Hwf Hs Hal. unfold drbd_for_each_overlap, drbd_find_overlap. rewrite Hal. cbn [negb obind].
  rewrite find_overlap_loop_spec by (done || apply Hwf). f_equal.
  by apply (each_overlap_from_spec _ t []).
Qed.

Lemma insert_interval_spec t this :
  tree_wf t -> interval_ok this -> IS_ALIGNED (i_size this) 512 = true ->
  (forall i, i ∈ inorder t -> i_addr i <> i_addr this) ->
  exists t', drbd_insert_interval t this = Ret (true, t') /\ tree_wf t' /\
    inorder t' ≡ₚ this :: inorder t.
Proof.
  intros [Hs Hok Ha Hnd] Hthis Hal Hnew. unfold drbd_insert_interval. rewrite Hal. cbn [negb].
  pose proof (insert_descend_spec t this Hs Ha) as Hp.
  destruct (insert_descend t this) as [[t'|] t'']; simpl in Hp.
  - destruct Hp as (_ & Hs' & Hperm & _ & Ha'). eexists. split; [done|].
    rewrite rb_insert_inorder. split; [|done]. split; rewrite ?rb_insert_inorder; try done.
    + rewrite Hperm. by constructor.
    + by apply rb_insert_aug.
    + rewrite Hperm. simpl. apply NoDup_cons. split; [|done].
      intros (i & Heq & Hi)%list_elem_of_fmap. by apply (Hnew i).
  - destruct Hp as ((i & Hi & _ & Heq) & _). by destruct (Hnew i Hi).
Qed.

Lemma remove_interval_wf t this linked : tree_wf t -> tree_wf (drbd_remove_interval t this linked).
Proof.
  intros Hwf. unfold drbd_remove_interval. destruct linked; [|done]. destruct Hwf as [Hs Hok Ha Hnd].
  split; rewrite ?rb_erase_inorder.
  - by apply StronglySorted_filter.
  - by apply Forall_filter_sub.
  - by apply rb_erase_aug.
  - by apply filter_sublist_nodup.
Qed.

Lemma inorder_set_size a n t : inorder (set_size a n t) = resize a n <$> inorder t.
Proof. induction t as [|l IHl i e r IHr]; simpl; [done|]. by rewrite IHl, IHr, fmap_app. Qed.

Lemma resize_addr a n i : i_addr (resize a n i) = i_addr i.
Proof. unfold resize. by case_if. Qed.

Lemma resize_key a n i j : key_lt (resize a n i) (resize a n j) <-> key_lt i j.
Proof. unfold resize. by repeat case_if. Qed.

Lemma update_interval_size_wf t a n :
  tree_wf t -> (forall i, i ∈ inorder t -> i_addr i = a -> 0 <= n /\ i_sector i + Z.shiftr n 9 < 2 ^ 64) ->
  tree_wf (drbd_update_interval_size t a n).
Proof.
  intros [Hs Hok Ha Hnd] Hn. unfold drbd_update_interval_size.
  split; rewrite ?rb_propagate_inorder, ?inorder_set_size.
  - clear -Hs. induction Hs as [|i l Hs IH Hi]; simpl; constructor; [done|].
    rewrite Forall_fmap. eapply Forall_impl; [done|]. intros j. simpl. by rewrite resize_key.
  - rewrite Forall_fmap. rewrite Forall_forall in Hok |- *. intros i Hi. simpl.
    specialize (Hok i Hi). specialize (Hn i Hi). unfold resize. case_if; [|done].
    unfold interval_ok in *. simpl. tauto.
  - by apply rb_propagate_aug.
  - rewrite <- list_fmap_compose. erewrite list_fmap_ext; [exact Hnd|].
    intros; apply resize_addr.
Qed.

(** ** Life of a tree *)

(** One call on a tree; objects in the tree have different addresses, and an
    object is only inserted again while it is already there. *)
Inductive tree_step : rb_tree -> rb_tree -> Prop :=
  | step_insert t this b t' :
      interval_ok this -> (forall i, i ∈ inorder t -> i_addr i = i_addr this -> i = this) ->
      drbd_insert_interval t this = Ret (b, t') -> tree_step t t'
  | step_remove t this linked : tree_step t (drbd_remove_interval t this linked)
  | step_resize t a n :
      (forall i, i ∈ inorder t -> i_addr i = a -> 0 <= n /\ i_sector i + Z.shiftr n 9 < 2 ^ 64) ->
      tree_step t (drbd_update_interval_size t a n).

Lemma insert_interval_result t this :
  tree_wf t -> interval_ok this -> IS_ALIGNED (i_size this) 512 = true ->
  (forall i, i ∈ inorder t -> i_addr i = i_addr this -> i = this) ->
  exists b t', drbd_insert_interval t this = Ret (b, t') /\ tree_wf t' /\
    (if b then this ∉ inorder t /\ inorder t' ≡ₚ this :: inorder t else this ∈ inorder t /\ t' = t).
Proof.
  intros Hwf Hthis Hal Huniq. destruct (decide (this ∈ inorder t)) as [Hin|Hni].
  - exists false, t. unfold drbd_insert_interval. rewrite Hal. cbn [negb].
    destruct Hwf as [Hs Hok Ha Hnd]. pose proof (insert_descend_spec t this Hs Ha) as Hp.
    destruct (insert_descend t this) as [[t'|] t'']; simpl in Hp.
    { destruct Hp as (Hp & _). by destruct (Hp this Hin). }
    destruct Hp as (_ & Hp). rewrite Hp; [done|by apply max_end_ge|].
    intros i Hi [_ Hai]. by apply Huniq.
  - exists true. destruct (insert_interval_spec t this Hwf Hthis Hal) as (t' & ? & ? & ?); [|by eauto].
    intros i Hi Heq. apply Hni. by rewrite <- (Huniq i Hi Heq).
Qed.

Lemma tree_step_wf t t' : tree_wf t -> tree_step t t' -> tree_wf t'.
Proof.
  intros Hwf Hst. destruct Hst as [t this b t' Hok Huniq He|t this linked|t a n Hn].
  - assert (IS_ALIGNED (i_size this) 512 = true) as Hal.
    { unfold drbd_insert_interval in He. by destruct (IS_ALIGNED (i_size this) 512). }
    destruct (insert_interval_result t this Hwf Hok Hal Huniq) as (b' & t'' & He' & Hwf' & _).
    congruence.
  - by apply remove_interval_wf.
  - by apply update_interval_size_wf.
Qed.

Lemma empty_tree_wf : tree_wf Leaf.
Proof. split; simpl; try done; constructor. Qed.

Lemma tree_reachable_wf t : rtc tree_step Leaf t -> tree_wf t.
Proof.
  assert (forall t1, tree_wf t1 -> rtc tree_step t1 t -> tree_wf t) as Hgen.
  { intros t1 Hwf Hr. induction Hr as [|t1 t2 t3 Hst _ IH]; [done|]. by eapply IH, tree_step_wf. }
  apply Hgen, empty_tree_wf.
Qed.
End with_rbtree_props.

(** ** A reference tree

    A tree that is rebuilt as a list after each change satisfies the laws of
    [RbAugmented]; it is what the witnesses run on. *)
Fixpoint of_list (l : list drbd_interval) : rb_tree :=
  match l with
  | [] => Leaf
  | i :: l => let r := of_list l in Node Leaf i (max_end (Node Leaf i 0 r)) r
  end.

Fixpoint next_in (l : list drbd_interval) (addr : Z) : option drbd_interval :=
  match l with
  | [] => None
  | i :: l => if i_addr i =? addr then head l else next_in l addr
  end.

Lemma inorder_of_list l : inorder (of_list l) = l.
Proof. induction l as [|i l IH]; simpl; [done|]. by rewrite IH. Qed.

Lemma aug_of_list l : aug (of_list l).
Proof. induction l as [|i l IH]; simpl; [done|]. done. Qed.

Lemma next_in_spec l1 i l2 : NoDup (i_addr <$> l1 ++ i :: l2) -> next_in (l1 ++ i :: l2) (i_addr i) = head l2.
Proof.
  induction l1 as [|j l1 IH]; simpl; intros Hnd; [by rewrite Z.eqb_refl|].
  apply NoDup_cons in Hnd as [Hj Hnd]. destruct (Z.eqb_spec (i_addr j) (i_addr i)) as [He|]; [|by apply IH].
  destruct Hj. rewrite He, fmap_app, fmap_cons. set_solver.
Qed.

#[export] Program Instance list_tree : RbAugmented := {
  rb_insert_augmented := fun t => t;
  rb_erase_augmented := fun t a => of_list (filter (fun j => i_addr j <> a) (inorder t));
  rb_propagate := fun t _ => of_list (inorder t);
  rb_next := fun t a => next_in (inorder t) a }.
Next Obligation. done. Qed.
Next Obligation. done. Qed.
Next Obligation. intros. apply inorder_of_list. Qed.
Next Obligation. intros. apply aug_of_list. Qed.
Next Obligation. intros. apply inorder_of_list. Qed.
Next Obligation. intros. apply aug_of_list. Qed.
Next Obligation. intros t l1 i l2 Ht Hnd. simpl. rewrite Ht in Hnd |- *. by apply next_in_spec. Qed.

(** ** Correctness of the component *)

(** C8: in every tree built from the empty one by insertions, removals and size
    changes, [drbd_for_each_overlap] visits exactly the intervals that overlap
    the given range, each once, in the order of start sector and address; and
    [drbd_find_overlap] returns the first of them. *)
Theorem drbd_for_each_overlap_exact `{RbAugmented} t sector size :
  rtc tree_step Leaf t -> 0 <= sector -> 0 <= size -> sector + Z.shiftr size 9 < 2 ^ 64 ->
  IS_ALIGNED size 512 = true ->
  exists l, drbd_for_each_overlap t sector size = Ret l /\ sorted l /\
    drbd_find_overlap t sector size = Ret (head l) /\
    forall i, i ∈ l <-> i ∈ inorder t /\ i_sector i < sector + Z.shiftr size 9 /\
                      sector < i_sector i + Z.shiftr (i_size i) 9.
Proof.
  intros Hr Hs Hz Hlim Hal. apply tree_reachable_wf in Hr as Hwf.
  rewrite for_each_overlap_spec by done. eexists. split; [done|].
  assert (0 <= Z.shiftr size 9) by (by apply Z.shiftr_nonneg). rewrite u64_small by lia. split_and!.
  - apply StronglySorted_filter, Hwf.
  - unfold drbd_find_overlap. rewrite Hal. cbn [negb]. rewrite u64_small by lia.
    by rewrite find_overlap_loop_spec by (done || apply Hwf).
  - intros i. rewrite list_elem_of_filter. unfold overlaps.
    split; intros Hi; (assert (interval_ok i) as Hok
      by (pose proof (wf_ok _ Hwf) as Hf; rewrite Forall_forall in Hf; apply Hf; tauto));
      pose proof (node_end_eq i Hok) as [He _]; rewrite ?He in *; tauto.
Qed.

(** Three objects; the last one sits between the others. *)
Definition ex_a := mk_interval 100 8 4096 INTERVAL_LOCAL_WRITE 0.
Definition ex_b := mk_interval 300 40 4096 INTERVAL_PEER_WRITE 0.
Definition ex_c := mk_interval 200 8 8192 INTERVAL_RESYNC_WRITE 0.

Definition inserted (t : rb_tree) (i : drbd_interval) : rb_tree :=
  match drbd_insert_interval t i with Ret (_, t) => t | _ => t end.

Definition ex_t1 : rb_tree := Eval vm_compute in inserted Leaf ex_b.
Definition ex_t2 : rb_tree := Eval vm_compute in inserted ex_t1 ex_a.
Definition ex_tree : rb_tree := Eval vm_compute in inserted ex_t2 ex_c.

Lemma ex_insert t i t' :
  rtc tree_step Leaf t -> forallb (fun j => negb (i_addr j =? i_addr i)) (inorder t) = true ->
  interval_ok i -> drbd_insert_interval t i = Ret (true, t') -> rtc tree_step Leaf t'.
Proof.
  intros Hr Hall Hok He. eapply rtc_r; [exact Hr|]. eapply step_insert; [done| |done].
  intros j Hj%list_elem_of_In Haddr. rewrite forallb_forall in Hall. specialize (Hall j Hj).
  by rewrite Haddr, Z.eqb_refl in Hall.
Qed.

Lemma ex_tree_reachable : rtc tree_step Leaf ex_tree.
Proof.
  apply (ex_insert ex_t2 ex_c); [|by vm_compute..].
  apply (ex_insert ex_t1 ex_a); [|by vm_compute..].
  apply (ex_insert Leaf ex_b); [|by vm_compute..]. apply rtc_refl.
Qed.

Lemma drbd_for_each_overlap_exact_witness :
  rtc tree_step Leaf ex_tree /\ drbd_for_each_overlap ex_tree 20 4096 = Ret [ex_c] /\
  exists l, drbd_for_each_overlap ex_tree 20 4096 = Ret l /\ sorted l.
Proof.
  split; [exact ex_tree_reachable|]. split; [by vm_compute|].
  destruct (drbd_for_each_overlap_exact ex_tree 20 4096) as (l & He & Hs & _);
    [exact ex_tree_reachable|lia|lia|by vm_compute|by vm_compute|]. exists l. split; [exact He|exact Hs].
Defined.

(** [drbd_insert_interval] on such a tree refuses sizes that are not a
    multiple of the sector size ([BUG_ON]), returns false and leaves the tree
    alone when the object is already there, and otherwise adds exactly this
    interval; afterwards [drbd_contains_interval] finds exactly the objects of
    the tree under their own start sector. *)
Theorem drbd_insert_interval_contract `{RbAugmented} t this :
  rtc tree_step Leaf t -> interval_ok this ->
  (forall i, i ∈ inorder t -> i_addr i = i_addr this -> i = this) ->
  if IS_ALIGNED (i_size this) 512
  then exists b t', drbd_insert_interval t this = Ret (b, t') /\
    b = negb (drbd_contains_interval t (i_sector this) (i_addr this)) /\
    (if b then inorder t' ≡ₚ this :: inorder t else t' = t) /\
    (forall s a, drbd_contains_interval t' s a = true <->
       exists i, i ∈ inorder t' /\ i_sector i = s /\ i_addr i = a)
  else drbd_insert_interval t this = BUG.
Proof.
  intros Hr Hok Huniq. apply tree_reachable_wf in Hr as Hwf.
  destruct (IS_ALIGNED (i_size this) 512) eqn:Hal.
  2: { unfold drbd_insert_interval. by rewrite Hal. }
  destruct (insert_interval_result t this Hwf Hok Hal Huniq) as (b & t' & He & Hwf' & Hb).
  exists b, t'. split_and!; [done| | |].
  - destruct (drbd_contains_interval t (i_sector this) (i_addr this)) eqn:E, b; try done; simpl.
    + apply contains_spec in E as (i & Hi & _ & Ha); [|apply Hwf]. destruct (proj1 Hb).
      by rewrite <- (Huniq i Hi Ha).
    + apply not_true_iff_false in E. destruct E. apply contains_spec; [apply Hwf|]. exists this. tauto.
  - destruct b; apply Hb.
  - intros s a. apply contains_spec, Hwf'.
Qed.

Lemma drbd_insert_interval_contract_witness :
  rtc tree_step Leaf ex_tree /\
  exists b t', drbd_insert_interval ex_tree (mk_interval 50 8 512 INTERVAL_LOCAL_READ 0) = Ret (b, t') /\
    b = true /\ inorder t' ≡ₚ mk_interval 50 8 512 INTERVAL_LOCAL_READ 0 :: inorder ex_tree.
Proof.
  split; [exact ex_tree_reachable|].
  destruct (drbd_insert_interval_contract ex_tree (mk_interval 50 8 512 INTERVAL_LOCAL_READ 0))
    as (b & t' & He & Hb & Hp & _).
  - exact ex_tree_reachable.
  - by vm_compute.
  - intros i Hi. cbn in Hi. repeat (apply elem_of_cons in Hi as [->|Hi]; [done|]). by apply not_elem_of_nil in Hi.
  - assert (b = true) as Hbt by (rewrite Hb; by vm_compute). exists b, t'. rewrite Hbt in Hp, He |- *.
    split; [exact He|]. split; [reflexivity|exact Hp].
Defined.
