(* ===== verification/Conflict.v ===== *)
(** * Conflicts between requests ([drbd/drbd_int.h] 2992-3160, [drbd/drbd_req.c],
      [drbd/drbd_receiver.c], [drbd/drbd_sender.c])

    Every request that touches a range of the device sits in the interval tree
    [device->requests].  [drbd_find_conflict] decides whether it has to wait,
    [drbd_release_conflicts] queues the waiting ones again, and a work function
    takes them from the queue.  All of it runs under [device->interval_lock], so
    an operation of this file is one critical section; threads interleave as
    sequences of such operations ([critical_section]).  A request that was canceled, or
    whose block is in sync, is removed in a second critical section of its owner. *)
From S2P Require Import Prelude Interval.

(** ** State *)

(** [struct conflict_worker]: the queues, as addresses of the queued intervals. *)
Record conflict_worker := mk_worker {
  resync_writes : list Z;
  resync_reads : list Z;
  writes : list Z;
  peer_writes : list Z }.

(** The part of [struct drbd_device] the conflict handling works on.
    [peer_device] is the [peer_device] member of the peer request that contains
    the interval at an address, [rq_postponed] the requests with [RQ_POSTPONED]
    set, [worker_queued] says that the work item is pending, and [running] holds
    what the running work function has taken from the queues. *)
Record drbd_device := mk_device {
  requests : rb_tree;
  submit_conflict : conflict_worker;
  worker_queued : bool;
  running : conflict_worker;
  peer_device : Z -> Z;
  rq_postponed : list Z }.

Definition empty_worker : conflict_worker := mk_worker [] [] [] [].

Definition set_requests (t : rb_tree) (d : drbd_device) : drbd_device :=
  mk_device t (submit_conflict d) (worker_queued d) (running d) (peer_device d) (rq_postponed d).

Definition set_conflict_worker (w : conflict_worker) (d : drbd_device) : drbd_device :=
  mk_device (requests d) w (worker_queued d) (running d) (peer_device d) (rq_postponed d).

Definition set_worker_queued (b : bool) (d : drbd_device) : drbd_device :=
  mk_device (requests d) (submit_conflict d) b (running d) (peer_device d) (rq_postponed d).

Definition set_running (w : conflict_worker) (d : drbd_device) : drbd_device :=
  mk_device (requests d) (submit_conflict d) (worker_queued d) w (peer_device d) (rq_postponed d).

Definition set_peer (a p : Z) (d : drbd_device) : drbd_device :=
  mk_device (requests d) (submit_conflict d) (worker_queued d) (running d)
    (fun b => if b =? a then p else peer_device d b) (rq_postponed d).

Definition set_postponed (a : Z) (d : drbd_device) : drbd_device :=
  mk_device (requests d) (submit_conflict d) (worker_queued d) (running d) (peer_device d)
    (a :: rq_postponed d).

(** ** Flags of the objects in the tree *)

Definition test_bit (b : Z) (i : drbd_interval) : bool := Z.testbit (i_flags i) b.

Definition with_flags (f : Z) (i : drbd_interval) : drbd_interval :=
  mk_interval (i_addr i) (i_sector i) (i_size i) (i_type i) f.

Fixpoint map_flags (phi : drbd_interval -> Z) (t : rb_tree) : rb_tree :=
  match t with
  | Leaf => Leaf
  | Node l i e r => Node (map_flags phi l) (with_flags (phi i) i) e (map_flags phi r)
  end.

(** [set_bit] and [clear_bit] on the object at address [a]. *)
Definition change_flags (a : Z) (f : Z -> Z) (i : drbd_interval) : Z :=
  if i_addr i =? a then f (i_flags i) else i_flags i.

Definition set_bit (b a : Z) (d : drbd_device) : drbd_device :=
  set_requests (map_flags (change_flags a (fun f => Z.setbit f b)) (requests d)) d.

Definition clear_bit (b a : Z) (d : drbd_device) : drbd_device :=
  set_requests (map_flags (change_flags a (fun f => Z.clearbit f b)) (requests d)) d.

(** The object a pointer refers to: its current fields if it is in the tree,
    the caller's [i] otherwise. *)
Definition find_addr (a : Z) (t : rb_tree) : option drbd_interval :=
  find (fun j => i_addr j =? a) (inorder t).

Definition object (d : drbd_device) (i : drbd_interval) : drbd_interval :=
  default i (find_addr (i_addr i) (requests d)).

(** [drbd_interval_empty] *)
Definition drbd_interval_empty (d : drbd_device) (i : drbd_interval) : bool :=
  match find_addr (i_addr i) (requests d) with Some _ => false | None => true end.

(** ** Finding conflicts *)

Definition drbd_interval_same_peer (d : drbd_device) (interval i : drbd_interval) : bool :=
  match i_type interval with
  | INTERVAL_LOCAL_WRITE | INTERVAL_LOCAL_READ | INTERVAL_PEERS_IN_SYNC_LOCK => false
  | _ => peer_device d (i_addr interval) =? peer_device d (i_addr i)
  end.

Definition drbd_should_defer_to_resync (d : drbd_device) (interval i : drbd_interval) : bool :=
  if negb (drbd_interval_is_resync i) then false
  else if test_bit INTERVAL_RECEIVED i then true
  else negb (drbd_interval_same_peer d interval i).

Definition is_type (t : drbd_interval_type) (i : drbd_interval) : bool := bool_decide (i_type i = t).

Definition drbd_should_defer_to_interval (d : drbd_device) (interval i : drbd_interval)
    (defer_to_resync : bool) : bool :=
  if test_bit INTERVAL_SUBMITTED i then true
  else if defer_to_resync && drbd_should_defer_to_resync d interval i then true
  else is_type INTERVAL_RESYNC_WRITE interval && is_type INTERVAL_RESYNC_WRITE i &&
       test_bit INTERVAL_READY_TO_SEND i.

Definition CONFLICT_FLAG_APPLICATION_ONLY : Z := 1.
Definition CONFLICT_FLAG_IGNORE_SAME_PEER : Z := 2.

(** The body of the loop of [drbd_find_conflict]: [continue], mark the verify
    request and [continue], or [break]. *)
Inductive verdict := Continue | Mark | Break.

#[export] Instance verdict_eq_dec : EqDecision verdict.
Proof. solve_decision. Defined.

Definition find_conflict_body (d : drbd_device) (interval : drbd_interval) (flags : Z)
    (i : drbd_interval) : verdict :=
  let application_only := negb (Z.land flags CONFLICT_FLAG_APPLICATION_ONLY =? 0) in
  let defer_to_resync :=
    (is_type INTERVAL_LOCAL_WRITE interval || is_type INTERVAL_PEER_WRITE interval) &&
    negb application_only in
  let exclusive_until_completed := is_type INTERVAL_LOCAL_WRITE interval || application_only in
  let ignore_same_peer := negb (Z.land flags CONFLICT_FLAG_IGNORE_SAME_PEER =? 0) in
  if i_addr i =? i_addr interval then Continue
  else if (if exclusive_until_completed then test_bit INTERVAL_COMPLETED i
           else test_bit INTERVAL_BACKING_COMPLETED i) then Continue
  else if negb (drbd_should_defer_to_interval d interval i defer_to_resync) then Continue
  else if ignore_same_peer && is_type INTERVAL_PEER_WRITE i && drbd_interval_same_peer d interval i
  then Continue
  else if application_only && negb (drbd_interval_is_application i) then Continue
  else if drbd_interval_is_write interval
  then if drbd_interval_is_verify i then Mark else Break
  else if is_type INTERVAL_RESYNC_READ i then Continue
  else if drbd_interval_is_verify i then Continue
  else if is_type INTERVAL_PEERS_IN_SYNC_LOCK i then Continue
  else Break.

Fixpoint find_conflict_loop (d : drbd_device) (interval : drbd_interval) (flags : Z)
    (l : list drbd_interval) : option drbd_interval * drbd_device :=
  match l with
  | [] => (None, d)
  | i :: l =>
      match find_conflict_body d interval flags i with
      | Continue => find_conflict_loop d interval flags l
      | Mark => find_conflict_loop (set_bit INTERVAL_CONFLICT (i_addr i) d) interval flags l
      | Break => (Some i, d)
      end
  end.

Section conflicts.
Context `{RbAugmented}.

Definition drbd_find_conflict (d : drbd_device) (interval : drbd_interval) (flags : Z)
  : outcome (option drbd_interval * drbd_device) :=
  let! l := drbd_for_each_overlap (requests d) (i_sector interval) (i_size interval) in
  Ret (find_conflict_loop d interval flags l).

(** ** Releasing conflicts *)

Definition queue_conflicting_resync_write (a : Z) (w : conflict_worker) : conflict_worker :=
  mk_worker (resync_writes w ++ [a]) (resync_reads w) (writes w) (peer_writes w).
Definition queue_conflicting_resync_read (a : Z) (w : conflict_worker) : conflict_worker :=
  mk_worker (resync_writes w) (resync_reads w ++ [a]) (writes w) (peer_writes w).
Definition queue_conflicting_write (a : Z) (w : conflict_worker) : conflict_worker :=
  mk_worker (resync_writes w) (resync_reads w) (writes w ++ [a]) (peer_writes w).
Definition queue_conflicting_peer_write (a : Z) (w : conflict_worker) : conflict_worker :=
  mk_worker (resync_writes w) (resync_reads w) (writes w) (peer_writes w ++ [a]).

(** The [switch] on the type; [None] is [BUG()]. *)
Definition queue_by_type (i : drbd_interval) (w : conflict_worker) : option conflict_worker :=
  match i_type i with
  | INTERVAL_LOCAL_WRITE => Some (queue_conflicting_write (i_addr i) w)
  | INTERVAL_PEER_WRITE => Some (queue_conflicting_peer_write (i_addr i) w)
  | INTERVAL_RESYNC_WRITE => Some (queue_conflicting_resync_write (i_addr i) w)
  | INTERVAL_RESYNC_READ => Some (queue_conflicting_resync_read (i_addr i) w)
  | _ => None
  end.

(** The tests that make the loop [continue]. *)
Definition release_skips (i : drbd_interval) : bool :=
  test_bit INTERVAL_SUBMITTED i ||
  (test_bit INTERVAL_READY_TO_SEND i && negb (test_bit INTERVAL_RECEIVED i)) ||
  test_bit INTERVAL_SUBMIT_CONFLICT_QUEUED i ||
  drbd_interval_is_verify i.

Fixpoint release_loop (d : drbd_device) (any_queued : bool) (l : list drbd_interval)
  : outcome (bool * drbd_device) :=
  match l with
  | [] => Ret (any_queued, d)
  | i :: l =>
      if release_skips i then release_loop d any_queued l
      else
        let d := set_bit INTERVAL_SUBMIT_CONFLICT_QUEUED (i_addr i) d in
        match queue_by_type i (submit_conflict d) with
        | None => BUG
        | Some w => release_loop (set_conflict_worker w d) true l
        end
  end.

Definition drbd_release_conflicts (d : drbd_device) (release_interval : drbd_interval)
  : outcome drbd_device :=
  let! l := drbd_for_each_overlap (requests d) (i_sector release_interval) (i_size release_interval) in
  let! (any_queued, d) := release_loop d false l in
  Ret (if any_queued then set_worker_queued true d else d).

(** ** Entering and leaving the tree *)

Definition insert_request (d : drbd_device) (i : drbd_interval) : outcome drbd_device :=
  let! (_, t) := drbd_insert_interval (requests d) i in Ret (set_requests t d).

Definition remove_request (d : drbd_device) (i : drbd_interval) : drbd_device :=
  set_requests (drbd_remove_interval (requests d) i (negb (drbd_interval_empty d i))) d.

(** What the caller does after the critical section. *)
Inductive action :=
  | SUBMIT     (** hand the request to the disk, or send it *)
  | WAIT       (** a conflict is in the way *)
  | POSTPONE   (** the request is retried later *)
  | CANCEL.    (** the request was canceled: its owner removes it and frees it *)

(** [drbd_conflict_submit_write] *)
Definition drbd_conflict_submit_write (d : drbd_device) (i : drbd_interval) : outcome (action * drbd_device) :=
  let a := i_addr i in
  let i := object d i in
  let i := with_flags (Z.clearbit (i_flags i) INTERVAL_SUBMIT_CONFLICT_QUEUED) i in
  let d := clear_bit INTERVAL_SUBMIT_CONFLICT_QUEUED a d in
  let! (conflict, d) := drbd_find_conflict d i 0 in
  let! d := if drbd_interval_empty d i then insert_request d i else Ret d in
  match conflict with
  | None => Ret (SUBMIT, set_bit INTERVAL_SUBMITTED a d)
  | Some c =>
      let d := if drbd_interval_is_local c && bool_decide (i_addr c ∈ rq_postponed d)
               then remove_request (set_postponed a d) i else d in
      Ret (if bool_decide (a ∈ rq_postponed d) then POSTPONE else WAIT, d)
  end.

(** [drbd_peer_write_conflicts] *)
Definition drbd_peer_write_conflicts (d : drbd_device) (i : drbd_interval) : outcome drbd_device :=
  let! (c, d) := drbd_find_conflict d i CONFLICT_FLAG_APPLICATION_ONLY in
  match c with Some _ => Fail EBUSY | None => Ret d end.

(** The critical section of [receive_Data]; [tp] is "two primaries". *)
Definition receive_Data_submit (d : drbd_device) (i : drbd_interval) (tp : bool) : outcome (action * drbd_device) :=
  let! d := if tp then drbd_peer_write_conflicts d i else Ret d in
  let! (conflict, d) := drbd_find_conflict d i 0 in
  let! d := insert_request d i in
  match conflict with
  | None => Ret (SUBMIT, set_bit INTERVAL_SUBMITTED (i_addr i) d)
  | Some _ => Ret (WAIT, d)
  end.

(** [drbd_conflict_submit_peer_write] *)
Definition drbd_conflict_submit_peer_write (d : drbd_device) (i : drbd_interval) : outcome (action * drbd_device) :=
  let d := clear_bit INTERVAL_SUBMIT_CONFLICT_QUEUED (i_addr i) d in
  let! (conflict, d) := drbd_find_conflict d (object d i) 0 in
  match conflict with
  | None => Ret (SUBMIT, set_bit INTERVAL_SUBMITTED (i_addr i) d)
  | Some _ => Ret (WAIT, d)
  end.

(** [drbd_remove_peer_req_interval] *)
Definition drbd_remove_peer_req_interval (d : drbd_device) (i : drbd_interval) : outcome drbd_device :=
  let i := object d i in
  let d := remove_request d i in
  if negb (drbd_interval_is_verify i) then drbd_release_conflicts d i else Ret d.

(** The critical section of [drbd_conflict_submit_resync_request]. *)
Definition drbd_conflict_submit_resync_request (d : drbd_device) (i : drbd_interval) : outcome (action * drbd_device) :=
  let a := i_addr i in
  let d := clear_bit INTERVAL_SUBMIT_CONFLICT_QUEUED a d in
  let canceled := test_bit INTERVAL_CANCELED (object d i) in
  let d := set_bit INTERVAL_RECEIVED a d in
  let! (conflict, d) := drbd_find_conflict d (object d i) 0 in
  match conflict with
  | None => Ret (SUBMIT, set_bit INTERVAL_SUBMITTED a d)
  | Some _ => Ret (if canceled then CANCEL else WAIT, d)
  end.

(** The critical section of [drbd_conflict_send_resync_request]. *)
Definition drbd_conflict_send_resync_request (d : drbd_device) (i : drbd_interval) : outcome (action * drbd_device) :=
  let a := i_addr i in
  let i := object d i in
  let i := with_flags (Z.clearbit (i_flags i) INTERVAL_SUBMIT_CONFLICT_QUEUED) i in
  let d := clear_bit INTERVAL_SUBMIT_CONFLICT_QUEUED a d in
  let canceled := test_bit INTERVAL_CANCELED i in
  let! (conflict, d) := drbd_find_conflict d i CONFLICT_FLAG_IGNORE_SAME_PEER in
  let! d := if drbd_interval_empty d i then insert_request d i else Ret d in
  match conflict with
  | None => Ret (SUBMIT, set_bit INTERVAL_READY_TO_SEND a d)
  | Some _ => Ret (if canceled then CANCEL else WAIT, d)
  end.

(** The critical section of [drbd_conflict_submit_peer_read]. *)
Definition drbd_conflict_submit_peer_read (d : drbd_device) (i : drbd_interval) : outcome (action * drbd_device) :=
  if drbd_interval_is_resync i || is_type INTERVAL_OV_READ_TARGET i then
    let a := i_addr i in
    let i := object d i in
    let i := with_flags (Z.clearbit (i_flags i) INTERVAL_SUBMIT_CONFLICT_QUEUED) i in
    let d := clear_bit INTERVAL_SUBMIT_CONFLICT_QUEUED a d in
    let canceled := test_bit INTERVAL_CANCELED i in
    let! (conflict, d) := drbd_find_conflict d i 0 in
    let has_conflict := match conflict with Some _ => true | None => false end in
    let! d :=
      if drbd_interval_empty d i
      then insert_request d
             (if has_conflict then with_flags (Z.setbit (i_flags i) INTERVAL_CONFLICT) i else i)
      else Ret d in
    if negb has_conflict || drbd_interval_is_verify i
    then Ret (SUBMIT, set_bit INTERVAL_SUBMITTED a d)
    else Ret (if canceled then CANCEL else WAIT, d)
  else Ret (SUBMIT, d).

(** What the three functions do after their critical section, as far as it changes the
    tree: [drbd_cleanup_received_resync_write], [drbd_cleanup_peer_read] and the end of
    [drbd_conflict_send_resync_request]. *)
Definition cleanup_canceled (r : action) (i : drbd_interval) (d : drbd_device) : outcome drbd_device :=
  match r with CANCEL => drbd_remove_peer_req_interval d i | _ => Ret d end.

(** [drbd_conflict_send_ov_request] *)
Definition drbd_conflict_send_ov_request (d : drbd_device) (i : drbd_interval) : outcome (action * drbd_device) :=
  let! (conflict, d) := drbd_find_conflict d i 0 in
  let i := match conflict with
           | Some _ => with_flags (Z.setbit (i_flags i) INTERVAL_CONFLICT) i
           | None => i end in
  let! d := insert_request d i in
  let d := set_bit INTERVAL_READY_TO_SEND (i_addr i) d in
  Ret (SUBMIT, set_bit INTERVAL_SUBMITTED (i_addr i) d).

(** [update_peers_for_small_range]: taking and dropping the lock interval. *)
Definition peers_in_sync_lock (d : drbd_device) (i : drbd_interval) : outcome (action * drbd_device) :=
  let! (conflict, d) := drbd_find_conflict d i 0 in
  match conflict with
  | Some _ => Ret (CANCEL, d)
  | None => let! d := insert_request d i in Ret (SUBMIT, set_bit INTERVAL_SUBMITTED (i_addr i) d)
  end.

Definition peers_in_sync_unlock (d : drbd_device) (i : drbd_interval) : outcome drbd_device :=
  let i := object d i in
  drbd_release_conflicts (remove_request d i) i.

(** The critical sections of [drbd_request_endio] and [drbd_req_complete] for
    writes, and the removal in [drbd_req_done]. *)
Definition request_endio_interval (d : drbd_device) (i : drbd_interval) : outcome drbd_device :=
  let d := set_bit INTERVAL_BACKING_COMPLETED (i_addr i) d in
  drbd_release_conflicts d (object d i).

Definition req_complete_interval (d : drbd_device) (i : drbd_interval) : outcome drbd_device :=
  let d := set_bit INTERVAL_COMPLETED (i_addr i) d in
  drbd_release_conflicts d (object d i).

Definition drbd_remove_request_interval (d : drbd_device) (i : drbd_interval) : drbd_device :=
  remove_request d i.

(** [drbd_cancel_conflicting_resync_requests] *)
Definition cancel_skips (d : drbd_device) (peer : Z) (i : drbd_interval) : bool :=
  negb (drbd_interval_is_resync i) || negb (peer_device d (i_addr i) =? peer) ||
  (test_bit INTERVAL_SUBMITTED i ||
   (test_bit INTERVAL_READY_TO_SEND i && negb (test_bit INTERVAL_RECEIVED i)) ||
   test_bit INTERVAL_CANCELED i).

Fixpoint cancel_loop (d : drbd_device) (peer : Z) (any_queued : bool) (l : list drbd_interval)
  : bool * drbd_device :=
  match l with
  | [] => (any_queued, d)
  | i :: l =>
      if cancel_skips d peer i then cancel_loop d peer any_queued l
      else
        let d := set_bit INTERVAL_CANCELED (i_addr i) d in
        if test_bit INTERVAL_SUBMIT_CONFLICT_QUEUED i then cancel_loop d peer any_queued l
        else
          let d := set_bit INTERVAL_SUBMIT_CONFLICT_QUEUED (i_addr i) d in
          let d := match i_type i with
                   | INTERVAL_RESYNC_WRITE =>
                       set_conflict_worker (queue_conflicting_resync_write (i_addr i) (submit_conflict d)) d
                   | INTERVAL_RESYNC_READ =>
                       set_conflict_worker (queue_conflicting_resync_read (i_addr i) (submit_conflict d)) d
                   | _ => d
                   end in
          cancel_loop d peer true l
  end.

Definition drbd_cancel_conflicting_resync_requests (d : drbd_device) (peer : Z) : drbd_device :=
  let '(any_queued, d) := cancel_loop d peer false (inorder (requests d)) in
  if any_queued then set_worker_queued true d else d.

(** ** The work function [drbd_do_submit_conflict] *)

(** Taking over the queues. *)
Definition splice (d : drbd_device) : drbd_device :=
  set_running (submit_conflict d) (set_conflict_worker empty_worker (set_worker_queued false d)).

(** An object whose address is on a list. *)
Definition by_addr (a : Z) : drbd_interval := mk_interval a 0 0 INTERVAL_LOCAL_WRITE 0.

(** The critical section for the next entry of the lists taken over, in the order of
    the four loops, and what is to be done with which object after it. *)
Definition do_submit_conflict_section (d : drbd_device) : outcome (option (action * drbd_interval) * drbd_device) :=
  let w := running d in
  match resync_writes w, resync_reads w, writes w, peer_writes w with
  | a :: l, rr, wr, pw =>
      let d := set_running (mk_worker l rr wr pw) d in
      let i := object d (by_addr a) in
      let! (r, d) := if negb (test_bit INTERVAL_READY_TO_SEND i)
                     then drbd_conflict_send_resync_request d i
                     else drbd_conflict_submit_resync_request d i in Ret (Some (r, i), d)
  | [], a :: l, wr, pw =>
      let d := set_running (mk_worker [] l wr pw) d in
      let i := object d (by_addr a) in
      let! (r, d) := drbd_conflict_submit_peer_read d i in Ret (Some (r, i), d)
  | [], [], a :: l, pw =>
      let d := set_running (mk_worker [] [] l pw) d in
      let i := object d (by_addr a) in
      let! (r, d) := drbd_conflict_submit_write d i in Ret (Some (r, i), d)
  | [], [], [], a :: l =>
      let d := set_running (mk_worker [] [] [] l) d in
      let i := object d (by_addr a) in
      let! (r, d) := drbd_conflict_submit_peer_write d i in Ret (Some (r, i), d)
  | [], [], [], [] => Ret (None, d)
  end.

Definition do_submit_conflict_next (d : drbd_device) : outcome (option action * drbd_device) :=
  let! (r, d) := do_submit_conflict_section d in
  match r with
  | None => Ret (None, d)
  | Some (r, i) => let! d := cleanup_canceled r i d in Ret (Some r, d)
  end.

(** The whole function without interleaving; the lists it took over only get
    shorter, so their length is enough fuel. *)
Fixpoint do_submit_conflict_loop (fuel : nat) (d : drbd_device) : outcome drbd_device :=
  match fuel with
  | O => Ret d
  | S fuel =>
      let! (r, d) := do_submit_conflict_next d in
      match r with None => Ret d | Some _ => do_submit_conflict_loop fuel d end
  end.

Definition worker_len (w : conflict_worker) : nat :=
  length (resync_writes w ++ resync_reads w ++ writes w ++ peer_writes w).

Definition drbd_do_submit_conflict (d : drbd_device) : outcome drbd_device :=
  let d := splice d in do_submit_conflict_loop (S (worker_len (running d))) d.
End conflicts.

(** ** Invariant *)

Notation ints d := (inorder (requests d)).

(** The ranges of two intervals intersect. *)
Definition olap (i j : drbd_interval) : Prop := overlaps (i_sector i) (NODE_END i) j.

#[export] Instance olap_dec i j : Decision (olap i j) := overlaps_dec _ _ _.

(** Submitted, and neither the backing device nor the upper layers are done. *)
Definition in_flight (i : drbd_interval) : bool :=
  test_bit INTERVAL_SUBMITTED i && negb (test_bit INTERVAL_BACKING_COMPLETED i) &&
  negb (test_bit INTERVAL_COMPLETED i).

(** In the tree for its turn: not submitted, not queued, not waiting for the peer. *)
Definition waiting (i : drbd_interval) : bool :=
  negb (test_bit INTERVAL_SUBMITTED i) && negb (test_bit INTERVAL_SUBMIT_CONFLICT_QUEUED i) &&
  negb (test_bit INTERVAL_READY_TO_SEND i && negb (test_bit INTERVAL_RECEIVED i)).

(** The flags a waiting request passes when it looks for conflicts again. *)
Definition wait_flags (i : drbd_interval) : Z :=
  if is_type INTERVAL_RESYNC_WRITE i && negb (test_bit INTERVAL_READY_TO_SEND i)
  then CONFLICT_FLAG_IGNORE_SAME_PEER else 0.

(** The reply to a resync request comes after the request was sent. *)
Definition stage_ok (i : drbd_interval) : bool :=
  negb (is_type INTERVAL_RESYNC_WRITE i && test_bit INTERVAL_RECEIVED i && negb (test_bit INTERVAL_READY_TO_SEND i)).

Definition queueable (t : drbd_interval_type) : bool :=
  match t with
  | INTERVAL_LOCAL_WRITE | INTERVAL_PEER_WRITE | INTERVAL_RESYNC_WRITE | INTERVAL_RESYNC_READ => true
  | _ => false
  end.

Definition queued_of (w : conflict_worker) : list (drbd_interval_type * Z) :=
  (pair INTERVAL_RESYNC_WRITE <$> resync_writes w) ++ (pair INTERVAL_RESYNC_READ <$> resync_reads w) ++
  (pair INTERVAL_LOCAL_WRITE <$> writes w) ++ (pair INTERVAL_PEER_WRITE <$> peer_writes w).

Definition queued (d : drbd_device) : list (drbd_interval_type * Z) :=
  queued_of (submit_conflict d) ++ queued_of (running d).

(** No write is in flight together with an overlapping request, except for
    verify reads, which are marked as conflicting. *)
Definition exclusive (l : list drbd_interval) : Prop :=
  forall i j, i ∈ l -> j ∈ l -> in_flight i = true -> in_flight j = true -> olap i j ->
    i_addr i <> i_addr j -> drbd_interval_is_write i = true ->
    drbd_interval_is_verify j = true /\ test_bit INTERVAL_CONFLICT j = true.

Definition blocked (d : drbd_device) (flags : Z) (i : drbd_interval) : Prop :=
  exists j, j ∈ ints d /\ olap i j /\ find_conflict_body d i flags j = Break.

(** The invariant; the requests at the addresses [ex] are being handled and may
    wait without a reason for the moment. *)
Record inv (ex : list Z) (d : drbd_device) : Prop := {
  inv_tree : tree_wf (requests d);
  inv_aligned : forall i, i ∈ ints d -> IS_ALIGNED (i_size i) 512 = true;
  inv_types : forall i, i ∈ ints d -> test_bit INTERVAL_SUBMITTED i = false -> queueable (i_type i) = true;
  inv_excl : exclusive (ints d);
  inv_stage : forall i, i ∈ ints d -> stage_ok i = true;
  inv_queued : forall i, i ∈ ints d -> test_bit INTERVAL_SUBMIT_CONFLICT_QUEUED i = true ->
    test_bit INTERVAL_SUBMITTED i = false /\ (i_type i, i_addr i) ∈ queued d;
  inv_inqueue : forall t a, (t, a) ∈ queued d -> exists i, i ∈ ints d /\ i_addr i = a /\ i_type i = t /\
    test_bit INTERVAL_SUBMIT_CONFLICT_QUEUED i = true;
  inv_nodup : NoDup (queued d);
  inv_wait : forall i, i ∈ ints d -> waiting i = true -> i_addr i ∉ ex -> blocked d (wait_flags i) i }.

(** ** Flag changes *)

Lemma inorder_map_flags phi t : inorder (map_flags phi t) = (fun i => with_flags (phi i) i) <$> inorder t.
Proof. induction t as [|l IHl i e r IHr]; simpl; [done|]. by rewrite IHl, IHr, fmap_app. Qed.

Lemma max_end_map_flags phi t : max_end (map_flags phi t) = max_end t.
Proof. induction t as [|l IHl i e r IHr]; simpl; [done|]. by rewrite IHl, IHr. Qed.

Lemma aug_map_flags phi t : aug t -> aug (map_flags phi t).
Proof.
  induction t as [|l IHl i e r IHr]; simpl; [done|]. intros (-> & Hl & Hr).
  rewrite !max_end_map_flags. auto.
Qed.

Lemma map_flags_wf phi t : tree_wf t -> tree_wf (map_flags phi t).
Proof.
  intros [Hs Hok Ha Hnd]. split; rewrite ?inorder_map_flags.
  - clear -Hs. induction Hs as [|i l Hs IH Hi]; simpl; constructor; [done|]. by rewrite Forall_fmap.
  - by rewrite Forall_fmap.
  - by apply aug_map_flags.
  - rewrite <- list_fmap_compose. exact Hnd.
Qed.

(** [j'] is [j] after the flag change [g] of the object at [a]. *)
Definition changed (a : Z) (g : Z -> Z) (j : drbd_interval) : drbd_interval :=
  with_flags (change_flags a g j) j.

Lemma changed_ne a g j : i_addr j <> a -> changed a g j = j.
Proof. intros Hne. unfold changed, change_flags. rewrite (proj2 (Z.eqb_neq _ _)) by done. by destruct j. Qed.

Lemma changed_eq a g j : i_addr j = a -> changed a g j = with_flags (g (i_flags j)) j.
Proof. intros Ha. unfold changed, change_flags. by rewrite (proj2 (Z.eqb_eq _ _) Ha). Qed.

Definition update (a : Z) (g : Z -> Z) (d : drbd_device) : drbd_device :=
  set_requests (map_flags (change_flags a g) (requests d)) d.

Lemma elem_of_update a g d j' : j' ∈ ints (update a g d) <-> exists j, j ∈ ints d /\ j' = changed a g j.
Proof.
  unfold update. cbn [requests set_requests]. rewrite inorder_map_flags, list_elem_of_fmap. naive_solver.
Qed.

(** Addresses identify objects. *)
Lemma addr_inj t i j : tree_wf t -> i ∈ inorder t -> j ∈ inorder t -> i_addr i = i_addr j -> i = j.
Proof.
  intros Hwf Hi Hj He. pose proof (wf_addr _ Hwf) as Hnd.
  apply list_elem_of_lookup in Hi as [n Hn], Hj as [m Hm].
  assert (n = m) as ->; [|congruence].
  apply (NoDup_lookup (i_addr <$> inorder t) n m (i_addr i)); [done|by rewrite list_lookup_fmap, Hn|].
  by rewrite list_lookup_fmap, Hm, He.
Qed.

Lemma olap_sym i j : olap i j -> olap j i.
Proof. unfold olap, overlaps. tauto. Qed.

(** What the tree order and the ranges see is unchanged. *)
Lemma olap_with_flags f g i j : olap (with_flags f i) (with_flags g j) <-> olap i j.
Proof. done. Qed.

Lemma defer_eq d i j dr :
  drbd_should_defer_to_interval d i j dr =
  test_bit INTERVAL_SUBMITTED j ||
  (dr && drbd_interval_is_resync j &&
   (test_bit INTERVAL_RECEIVED j || negb (drbd_interval_same_peer d i j))) ||
  (is_type INTERVAL_RESYNC_WRITE i && is_type INTERVAL_RESYNC_WRITE j && test_bit INTERVAL_READY_TO_SEND j).
Proof.
  unfold drbd_should_defer_to_interval, drbd_should_defer_to_resync.
  destruct (test_bit INTERVAL_SUBMITTED j), dr, (drbd_interval_is_resync j),
    (test_bit INTERVAL_RECEIVED j), (drbd_interval_same_peer d i j); done.
Qed.

(** The requests [i] and [i'] look the same to the search for conflicts. *)
Definition same_object (i i' : drbd_interval) : Prop := i_addr i' = i_addr i /\ i_type i' = i_type i.

Lemma same_peer_same d i i' j f :
  same_object i i' -> drbd_interval_same_peer d i' (with_flags f j) = drbd_interval_same_peer d i j.
Proof. intros [Ha Ht]. unfold drbd_interval_same_peer. by rewrite Ha, Ht. Qed.

Lemma is_type_same t i i' : same_object i i' -> is_type t i' = is_type t i.
Proof. intros [Ha Ht]. unfold is_type. by rewrite Ht. Qed.

Lemma is_write_same i i' : same_object i i' -> drbd_interval_is_write i' = drbd_interval_is_write i.
Proof. intros [Ha Ht]. unfold drbd_interval_is_write. by rewrite Ht. Qed.

(** Flags that only grow, without completion. *)
Definition grows (j : drbd_interval) (f : Z) : Prop :=
  (test_bit INTERVAL_SUBMITTED j = true -> Z.testbit f INTERVAL_SUBMITTED = true) /\
  (test_bit INTERVAL_RECEIVED j = true -> Z.testbit f INTERVAL_RECEIVED = true) /\
  (test_bit INTERVAL_READY_TO_SEND j = true -> Z.testbit f INTERVAL_READY_TO_SEND = true) /\
  Z.testbit f INTERVAL_COMPLETED = test_bit INTERVAL_COMPLETED j /\
  Z.testbit f INTERVAL_BACKING_COMPLETED = test_bit INTERVAL_BACKING_COMPLETED j.

Lemma defer_mono d i i' j f dr :
  same_object i i' -> grows j f -> drbd_should_defer_to_interval d i j dr = true ->
  drbd_should_defer_to_interval d i' (with_flags f j) dr = true.
Proof.
  intros Hi (Hs & Hr & Hy & _). rewrite !defer_eq, (same_peer_same d i i'), (is_type_same _ i i') by done.
  change (drbd_interval_is_resync (with_flags f j)) with (drbd_interval_is_resync j).
  change (is_type INTERVAL_RESYNC_WRITE (with_flags f j)) with (is_type INTERVAL_RESYNC_WRITE j).
  unfold test_bit in *. cbn [i_flags with_flags]. rewrite !orb_true_iff, !andb_true_iff, !orb_true_iff. tauto.
Qed.

(** A conflict stays one while its flags only grow and it does not complete. *)
Lemma break_mono d i i' flags j f :
  same_object i i' -> grows j f ->
  find_conflict_body d i flags j = Break -> find_conflict_body d i' flags (with_flags f j) = Break.
Proof.
  intros Hi Hg. unfold find_conflict_body.
  rewrite !(is_type_same _ i i'), (same_peer_same d i i'), (is_write_same i i') by done.
  destruct (drbd_should_defer_to_interval d i j _) eqn:E; [|by repeat case_if].
  rewrite (defer_mono d i i' j f _ Hi Hg E). destruct Hi as [-> _]. destruct Hg as (_ & _ & _ & Hc & Hb).
  unfold test_bit in *. cbn [i_flags i_addr with_flags]. rewrite Hc, Hb. done.
Qed.

(** ** The invariant under flag changes *)

Lemma update_wf a g d : tree_wf (requests d) -> tree_wf (requests (update a g d)).
Proof. apply map_flags_wf. Qed.

Lemma changed_same a g j : same_object j (changed a g j).
Proof. done. Qed.

Lemma inv_update ex ex' a g d :
  inv ex d ->
  (forall j, j ∈ ints d -> i_addr j = a ->
     Z.testbit (g (i_flags j)) INTERVAL_SUBMIT_CONFLICT_QUEUED = test_bit INTERVAL_SUBMIT_CONFLICT_QUEUED j /\
     (test_bit INTERVAL_SUBMITTED j = true -> Z.testbit (g (i_flags j)) INTERVAL_SUBMITTED = true) /\
     (test_bit INTERVAL_SUBMIT_CONFLICT_QUEUED j = true ->
      Z.testbit (g (i_flags j)) INTERVAL_SUBMITTED = test_bit INTERVAL_SUBMITTED j) /\
     stage_ok (with_flags (g (i_flags j)) j) = true) ->
  exclusive (ints (update a g d)) ->
  (forall j, j ∈ ints d -> waiting (changed a g j) = true -> i_addr j ∉ ex' ->
     blocked (update a g d) (wait_flags (changed a g j)) (changed a g j)) ->
  inv ex' (update a g d).
Proof.
  intros Hinv Hbits Hexcl Hwait.
  assert (forall j, j ∈ ints d ->
    test_bit INTERVAL_SUBMIT_CONFLICT_QUEUED (changed a g j) = test_bit INTERVAL_SUBMIT_CONFLICT_QUEUED j /\
    (test_bit INTERVAL_SUBMITTED (changed a g j) = false -> test_bit INTERVAL_SUBMITTED j = false) /\
    (test_bit INTERVAL_SUBMIT_CONFLICT_QUEUED j = true ->
     test_bit INTERVAL_SUBMITTED (changed a g j) = test_bit INTERVAL_SUBMITTED j)) as Hb.
  { intros j Hj. destruct (decide (i_addr j = a)) as [He|Hne]; [|by rewrite changed_ne].
    rewrite changed_eq by done. specialize (Hbits j Hj He) as (H1 & H2 & H3 & _).
    unfold test_bit in *. cbn [i_flags with_flags]. split_and!; [done| |done].
    destruct (Z.testbit (i_flags j) INTERVAL_SUBMITTED); [by rewrite H2|done]. }
  split; try done.
  - by apply update_wf, Hinv.
  - intros j (k & Hk & ->)%elem_of_update. by apply (inv_aligned _ _ Hinv k).
  - intros j (k & Hk & ->)%elem_of_update Hs. apply (inv_types _ _ Hinv k Hk). by apply (Hb k Hk).
  - intros j (k & Hk & ->)%elem_of_update. destruct (decide (i_addr k = a)) as [He|].
    + rewrite changed_eq by done. by apply Hbits.
    + rewrite changed_ne by done. by apply (inv_stage _ _ Hinv).
  - intros j (k & Hk & ->)%elem_of_update Hq. destruct (Hb k Hk) as (Hq' & _ & Hs).
    rewrite Hq' in Hq. rewrite Hs by done. by apply (inv_queued _ _ Hinv k Hk).
  - intros t b Hin. destruct (inv_inqueue _ _ Hinv t b Hin) as (k & Hk & Ha & Ht & Hq).
    exists (changed a g k). split_and!; [apply elem_of_update; eauto|done|done|]. by rewrite (proj1 (Hb k Hk)).
  - by apply (inv_nodup _ _ Hinv).
  - intros j (k & Hk & ->)%elem_of_update Hw Hex. by apply Hwait.
Qed.

Lemma exclusive_shrink a g d :
  exclusive (ints d) ->
  (forall j, j ∈ ints d -> i_addr j = a ->
     (in_flight (with_flags (g (i_flags j)) j) = true -> in_flight j = true) /\
     (test_bit INTERVAL_CONFLICT j = true -> Z.testbit (g (i_flags j)) INTERVAL_CONFLICT = true)) ->
  exclusive (ints (update a g d)).
Proof.
  intros Hex Hg i j (i0 & Hi & ->)%elem_of_update (j0 & Hj & ->)%elem_of_update Hfi Hfj Ho Hne Hw.
  assert (forall k, k ∈ ints d -> in_flight (changed a g k) = true -> in_flight k = true) as Hf.
  { intros k Hk. destruct (decide (i_addr k = a)) as [He|]; [|by rewrite changed_ne].
    rewrite changed_eq by done. by apply Hg. }
  destruct (Hex i0 j0 Hi Hj (Hf i0 Hi Hfi) (Hf j0 Hj Hfj) Ho Hne Hw) as [Hv Hc]. split; [done|].
  destruct (decide (i_addr j0 = a)) as [He|]; [|by rewrite changed_ne].
  rewrite changed_eq by done. unfold test_bit. cbn [i_flags with_flags]. by apply (Hg j0 Hj He).
Qed.

Lemma blocked_update a g d flags i i' :
  same_object i i' -> (forall j, olap i j -> olap i' j) ->
  (forall j, j ∈ ints d -> i_addr j = a -> grows j (g (i_flags j))) ->
  blocked d flags i -> blocked (update a g d) flags i'.
Proof.
  intros Hsame Hol Hg (j & Hj & Ho & Hb). exists (changed a g j).
  split_and!; [apply elem_of_update; eauto|by apply Hol in Ho|].
  change (find_conflict_body (update a g d)) with (find_conflict_body d).
  destruct (decide (i_addr j = a)) as [He|Hne].
  - rewrite changed_eq by done. by eapply break_mono; [| |exact Hb]; auto.
  - rewrite changed_ne by done.
    replace j with (with_flags (i_flags j) j) by (by destruct j). by eapply break_mono; [| |exact Hb].
Qed.

(** Changes that neither submit nor complete nor queue. *)
Lemma inv_change ex a g d :
  inv ex d ->
  (forall j, j ∈ ints d -> i_addr j = a ->
     grows j (g (i_flags j)) /\
     Z.testbit (g (i_flags j)) INTERVAL_SUBMITTED = test_bit INTERVAL_SUBMITTED j /\
     Z.testbit (g (i_flags j)) INTERVAL_SUBMIT_CONFLICT_QUEUED = test_bit INTERVAL_SUBMIT_CONFLICT_QUEUED j /\
     (test_bit INTERVAL_CONFLICT j = true -> Z.testbit (g (i_flags j)) INTERVAL_CONFLICT = true) /\
     (a ∈ ex /\ stage_ok (with_flags (g (i_flags j)) j) = true \/
      Z.testbit (g (i_flags j)) INTERVAL_READY_TO_SEND = test_bit INTERVAL_READY_TO_SEND j /\
      Z.testbit (g (i_flags j)) INTERVAL_RECEIVED = test_bit INTERVAL_RECEIVED j)) ->
  inv ex (update a g d).
Proof.
  intros Hinv Hg. apply (inv_update ex); [done| | |].
  - intros j Hj Ha. destruct (Hg j Hj Ha) as (_ & Hs & Hq & _ & Hst). rewrite Hs. split_and!; try done.
    destruct Hst as [[_ Hst]|[Hr Hy]]; [done|]. pose proof (inv_stage _ _ Hinv j Hj) as Hst.
    unfold stage_ok, test_bit in *. cbn [i_flags with_flags]. by rewrite Hr, Hy.
  - apply exclusive_shrink; [apply Hinv|]. intros j Hj Ha.
    destruct (Hg j Hj Ha) as ((_ & _ & _ & Hc & Hb) & Hs & _ & Hm & _). split; [|done].
    unfold in_flight, test_bit in *. cbn [i_flags with_flags]. by rewrite Hs, Hb, Hc.
  - intros j Hj Hw Hex.
    destruct (decide (i_addr j = a)) as [Ha|Hne].
    + destruct (Hg j Hj Ha) as (_ & Hs & Hq & _ & [[Hin _]|[Hr Hy]]); [by subst|].
      rewrite changed_eq in Hw |- * by done.
      apply (blocked_update _ _ _ _ j); [done|done|by intros; apply Hg|].
      assert (wait_flags (with_flags (g (i_flags j)) j) = wait_flags j) as ->.
      { unfold wait_flags, test_bit in *. cbn [i_flags with_flags]. by rewrite Hr. }
      apply (inv_wait _ _ Hinv); [done| |done].
      unfold waiting, test_bit in *. cbn [i_flags with_flags] in Hw. by rewrite Hs, Hq, Hr, Hy in Hw.
    + rewrite changed_ne in Hw |- * by done.
      apply (blocked_update _ _ _ _ j); [done|done|by intros; apply Hg|].
      by apply (inv_wait _ _ Hinv).
Qed.

(** Evaluates tests of flags that were just set or cleared. *)
Ltac flag_simpl :=
  unfold test_bit in *; cbn [i_flags i_type i_addr i_sector i_size with_flags] in *;
  rewrite ?Z.setbit_eqb, ?Z.clearbit_eqb by done;
  cbn [Z.eqb Pos.eqb orb andb negb INTERVAL_READY_TO_SEND INTERVAL_SENT INTERVAL_RECEIVED
       INTERVAL_SUBMIT_CONFLICT_QUEUED INTERVAL_SUBMITTED INTERVAL_BACKING_COMPLETED
       INTERVAL_COMPLETED INTERVAL_CONFLICT INTERVAL_CANCELED];
  rewrite ?andb_true_r, ?orb_false_r, ?andb_false_r, ?orb_true_r.

Lemma grows_set j b :
  b <> INTERVAL_COMPLETED -> b <> INTERVAL_BACKING_COMPLETED -> 0 <= b -> grows j (Z.setbit (i_flags j) b).
Proof.
  intros Hc Hb H0. unfold grows, test_bit. rewrite !Z.setbit_eqb by done.
  rewrite (proj2 (Z.eqb_neq b INTERVAL_COMPLETED)), (proj2 (Z.eqb_neq b INTERVAL_BACKING_COMPLETED)) by done.
  simpl. split_and!; try done; intros ->; by rewrite orb_true_r.
Qed.

Lemma inv_weaken ex ex' d : inv ex d -> (forall a, a ∈ ex -> a ∈ ex') -> inv ex' d.
Proof.
  intros [] Hsub. split; try done. intros i Hi Hw Hex. apply inv_wait0; [done|done|]. by intros ?%Hsub.
Qed.

(** An address can leave [ex] once its request does not wait. *)
Lemma inv_settle ex a d :
  inv (a :: ex) d ->
  (forall j, j ∈ ints d -> i_addr j = a -> waiting j = true -> blocked d (wait_flags j) j) -> inv ex d.
Proof.
  intros Hinv Ha. pose proof (inv_wait _ _ Hinv) as Hw. destruct Hinv. split; try done.
  intros i Hi Hwi Hex. destruct (decide (i_addr i = a)); [by apply Ha|].
  apply Hw; [done|done|]. rewrite elem_of_cons. tauto.
Qed.

Lemma inv_set_conflict ex a d : inv ex d -> inv ex (set_bit INTERVAL_CONFLICT a d).
Proof.
  intros Hinv. apply (inv_change ex a (fun f => Z.setbit f INTERVAL_CONFLICT)); [done|]. intros j Hj Ha.
  split; [by apply grows_set|]. flag_simpl. split_and!; try done. by right.
Qed.

Lemma inv_set_canceled ex a d : inv ex d -> inv ex (set_bit INTERVAL_CANCELED a d).
Proof.
  intros Hinv. apply (inv_change ex a (fun f => Z.setbit f INTERVAL_CANCELED)); [done|]. intros j Hj Ha.
  split; [by apply grows_set|]. flag_simpl. split_and!; try done. by right.
Qed.

Lemma inv_set_stage ex a b d :
  inv ex d -> a ∈ ex -> b = INTERVAL_RECEIVED \/ b = INTERVAL_READY_TO_SEND ->
  (b = INTERVAL_RECEIVED -> forall j, j ∈ ints d -> i_addr j = a -> test_bit INTERVAL_READY_TO_SEND j = true) ->
  inv ex (set_bit b a d).
Proof.
  intros Hinv Hin Hb Hrdy. apply (inv_change ex a (fun f => Z.setbit f b)); [done|]. intros j Hj Ha.
  split; [apply grows_set; destruct Hb as [-> | ->]; done|].
  destruct Hb as [-> | ->]; flag_simpl; (split_and!; try done; left; split; [done|]);
    unfold stage_ok; flag_simpl; [|done]. specialize (Hrdy eq_refl j Hj Ha).
  unfold test_bit in Hrdy. by rewrite Hrdy, andb_false_r.
Qed.

(** Submitting the request [i0], when everything in flight that overlaps is
    harmless. *)
Lemma inv_submit ex i0 d :
  inv (i_addr i0 :: ex) d -> i0 ∈ ints d -> test_bit INTERVAL_SUBMIT_CONFLICT_QUEUED i0 = false ->
  (forall k, k ∈ ints d -> i_addr k <> i_addr i0 -> in_flight k = true -> olap i0 k ->
     (drbd_interval_is_write i0 = true -> drbd_interval_is_verify k = true /\ test_bit INTERVAL_CONFLICT k = true) /\
     (drbd_interval_is_write k = true -> drbd_interval_is_verify i0 = true /\ test_bit INTERVAL_CONFLICT i0 = true)) ->
  inv ex (set_bit INTERVAL_SUBMITTED (i_addr i0) d).
Proof.
  intros Hinv Hi0 Hq Hfree. set (g := fun f => Z.setbit f INTERVAL_SUBMITTED).
  assert (forall j, j ∈ ints d -> i_addr j = i_addr i0 -> j = i0) as Huniq
    by (intros j Hj; apply (addr_inj (requests d)); [apply Hinv|done|done]).
  apply (inv_update (i_addr i0 :: ex) ex (i_addr i0) g); [done| | |].
  - intros j Hj Ha. rewrite (Huniq j Hj Ha). subst g. pose proof (inv_stage _ _ Hinv i0 Hi0).
    unfold stage_ok in *. flag_simpl. split_and!; (congruence || done).
  - intros i j (i1 & Hi & ->)%elem_of_update (j1 & Hj & ->)%elem_of_update Hfi Hfj Ho Hne Hw.
    destruct (decide (i_addr i1 = i_addr i0)) as [Hi1|Hi1]; [|rewrite (changed_ne _ _ i1) in Hfi by done];
    (destruct (decide (i_addr j1 = i_addr i0)) as [Hj1|Hj1];
       [|rewrite (changed_ne _ _ j1) in Hfj |- * by done]).
    + destruct Hne. exact (eq_trans Hi1 (eq_sym Hj1)).
    + rewrite (Huniq i1 Hi Hi1) in Ho, Hw. by apply (Hfree j1).
    + pose proof (Huniq j1 Hj Hj1) as ->. rewrite changed_eq by done.
      destruct (Hfree i1 Hi Hi1 Hfi (olap_sym _ _ Ho)) as [_ Hk]. destruct (Hk Hw) as [Hv Hc].
      split; [done|]. subst g. by flag_simpl.
    + by apply (inv_excl _ _ Hinv i1 j1).
  - intros j Hj Hw Hex. destruct (decide (i_addr j = i_addr i0)) as [Ha|Hne].
    + rewrite changed_eq in Hw by done. subst g. unfold waiting in Hw. unfold test_bit in Hw.
      cbn [i_flags with_flags] in Hw. by rewrite (Z.setbit_eqb _ INTERVAL_SUBMITTED INTERVAL_SUBMITTED) in Hw by done.
    + rewrite changed_ne in Hw |- * by done.
      apply (blocked_update _ _ _ _ j); [done|done|by intros; apply grows_set|].
      apply (inv_wait _ _ Hinv); [done|done|]. rewrite elem_of_cons. tauto.
Qed.

(** ** The invariant and the queues *)

Lemma queue_by_type_some i w : queueable (i_type i) = true -> exists w', queue_by_type i w = Some w'.
Proof. unfold queue_by_type. destruct (i_type i); try done; eauto. Qed.

Lemma queue_by_type_perm i w w' :
  queue_by_type i w = Some w' -> queued_of w' ≡ₚ (i_type i, i_addr i) :: queued_of w.
Proof.
  unfold queue_by_type, queued_of. destruct (i_type i); intros; simplify_eq; simpl;
    rewrite fmap_app; simpl; solve_Permutation.
Qed.

(** Queueing the request [i0]. *)
Definition enqueue (i0 : drbd_interval) (w : conflict_worker) (d : drbd_device) : drbd_device :=
  set_conflict_worker w (set_bit INTERVAL_SUBMIT_CONFLICT_QUEUED (i_addr i0) d).

Lemma inv_enqueue ex i0 w d :
  inv (i_addr i0 :: ex) d -> i0 ∈ ints d -> test_bit INTERVAL_SUBMITTED i0 = false ->
  test_bit INTERVAL_SUBMIT_CONFLICT_QUEUED i0 = false -> queue_by_type i0 (submit_conflict d) = Some w ->
  inv ex (enqueue i0 w d).
Proof.
  intros Hinv Hi0 Hs Hq Hw. apply queue_by_type_perm in Hw. set (g := fun f => Z.setbit f INTERVAL_SUBMIT_CONFLICT_QUEUED).
  assert (queued (enqueue i0 w d) ≡ₚ (i_type i0, i_addr i0) :: queued d) as HQ.
  { unfold queued. simpl. by rewrite Hw. }
  assert (ints (enqueue i0 w d) = ints (update (i_addr i0) g d)) as HL by done.
  assert (forall j, j ∈ ints d -> i_addr j = i_addr i0 -> j = i0) as Huniq
    by (intros j Hj; apply (addr_inj (requests d)); [apply Hinv|done|done]).
  split.
  - apply update_wf, Hinv.
  - rewrite HL. intros j (k & Hk & ->)%elem_of_update. by apply (inv_aligned _ _ Hinv k).
  - rewrite HL. intros j (k & Hk & ->)%elem_of_update Hsub. apply (inv_types _ _ Hinv k Hk).
    destruct (decide (i_addr k = i_addr i0)) as [He|]; [by rewrite (Huniq k Hk He)|by rewrite changed_ne in Hsub].
  - rewrite HL. apply exclusive_shrink; [apply Hinv|]. intros j Hj Ha. subst g. unfold in_flight. by flag_simpl.
  - rewrite HL. intros j (k & Hk & ->)%elem_of_update. pose proof (inv_stage _ _ Hinv k Hk).
    destruct (decide (i_addr k = i_addr i0)) as [He|]; [|by rewrite changed_ne].
    rewrite changed_eq by done. subst g. unfold stage_ok in *. by flag_simpl.
  - rewrite HL. intros j (k & Hk & ->)%elem_of_update Hqk. rewrite HQ.
    destruct (decide (i_addr k = i_addr i0)) as [He|Hne].
    + rewrite (Huniq k Hk He) in *. rewrite changed_eq by done. subst g. flag_simpl. split; [done|]. by left.
    + rewrite changed_ne in Hqk |- * by done. destruct (inv_queued _ _ Hinv k Hk Hqk). split; [done|]. by right.
  - rewrite HL. intros t a. rewrite HQ. intros [[= -> ->]|Hin]%elem_of_cons.
    + exists (changed (i_addr i0) g i0). split_and!; [apply elem_of_update; eauto|done|done|].
      rewrite changed_eq by done. subst g. by flag_simpl.
    + destruct (inv_inqueue _ _ Hinv t a Hin) as (k & Hk & Ha & Ht & Hqk).
      exists (changed (i_addr i0) g k). split_and!; [apply elem_of_update; eauto|done|done|].
      destruct (decide (i_addr k = i_addr i0)) as [He|]; [|by rewrite changed_ne].
      rewrite changed_eq by done. subst g. by flag_simpl.
  - rewrite HQ. apply NoDup_cons. split; [|apply Hinv]. intros Hin.
    destruct (inv_inqueue _ _ Hinv _ _ Hin) as (k & Hk & Ha & _ & Hqk).
    rewrite (Huniq k Hk Ha) in Hqk. congruence.
  - rewrite HL. intros j (k & Hk & ->)%elem_of_update Hwk Hex.
    destruct (decide (i_addr k = i_addr i0)) as [He|Hne].
    + rewrite changed_eq in Hwk by done. subst g. unfold waiting in Hwk. unfold test_bit in Hwk.
      cbn [i_flags with_flags] in Hwk.
      rewrite (Z.setbit_eqb _ INTERVAL_SUBMIT_CONFLICT_QUEUED INTERVAL_SUBMIT_CONFLICT_QUEUED) in Hwk by done.
      simpl in Hwk. by rewrite andb_false_r in Hwk.
    + rewrite changed_ne in Hwk |- * by done.
      change (blocked (enqueue i0 w d)) with (blocked (update (i_addr i0) g d)).
      apply (blocked_update _ _ _ _ k); [done|done|by intros; apply grows_set|].
      apply (inv_wait _ _ Hinv); [done|done|]. rewrite elem_of_cons. rewrite changed_ne in Hex by done. tauto.
Qed.

(** Taking a request out of the queue: [w] is what remains of [running]. *)
Definition dequeue (a : Z) (w : conflict_worker) (d : drbd_device) : drbd_device :=
  clear_bit INTERVAL_SUBMIT_CONFLICT_QUEUED a (set_running w d).

Lemma inv_dequeue ex t a w d :
  inv ex d -> queued_of (running d) ≡ₚ (t, a) :: queued_of w ->
  inv (a :: ex) (dequeue a w d).
Proof.
  intros Hinv Hp. set (g := fun f => Z.clearbit f INTERVAL_SUBMIT_CONFLICT_QUEUED).
  assert (queued d ≡ₚ (t, a) :: queued (dequeue a w d)) as HQ.
  { unfold queued. simpl. rewrite Hp. solve_Permutation. }
  assert (ints (dequeue a w d) = ints (update a g d)) as HL by done.
  pose proof (inv_nodup _ _ Hinv) as Hnd. rewrite HQ in Hnd. apply NoDup_cons in Hnd as [Hni Hnd].
  destruct (inv_inqueue _ _ Hinv t a) as (i0 & Hi0 & Ha0 & Ht0 & Hq0); [rewrite HQ; by left|].
  assert (forall j, j ∈ ints d -> i_addr j = a -> j = i0) as Huniq
    by (intros j Hj Hja; apply (addr_inj (requests d)); [apply Hinv|done|done|congruence]).
  assert (forall j, grows j (g (i_flags j))) as Hgr by (intros j; subst g; unfold grows; by flag_simpl).
  split.
  - apply update_wf, Hinv.
  - rewrite HL. intros j (k & Hk & ->)%elem_of_update. by apply (inv_aligned _ _ Hinv k).
  - rewrite HL. intros j (k & Hk & ->)%elem_of_update Hsub. apply (inv_types _ _ Hinv k Hk).
    destruct (decide (i_addr k = a)) as [He|]; [|by rewrite changed_ne in Hsub].
    rewrite changed_eq in Hsub by done. subst g. unfold test_bit in *. cbn [i_flags with_flags] in Hsub.
    rewrite Z.clearbit_eqb in Hsub. by rewrite andb_true_r in Hsub.
  - rewrite HL. apply exclusive_shrink; [apply Hinv|]. intros j Hj Ha. subst g. unfold in_flight. by flag_simpl.
  - rewrite HL. intros j (k & Hk & ->)%elem_of_update. pose proof (inv_stage _ _ Hinv k Hk).
    destruct (decide (i_addr k = a)) as [He|]; [|by rewrite changed_ne].
    rewrite changed_eq by done. subst g. unfold stage_ok in *. by flag_simpl.
  - rewrite HL. intros j (k & Hk & ->)%elem_of_update Hqk. destruct (decide (i_addr k = a)) as [He|Hne].
    + rewrite changed_eq in Hqk by done. subst g. unfold test_bit in Hqk. cbn [i_flags with_flags] in Hqk.
      rewrite Z.clearbit_eqb in Hqk. by rewrite andb_false_r in Hqk.
    + rewrite changed_ne in Hqk |- * by done. destruct (inv_queued _ _ Hinv k Hk Hqk) as [? Hin]. split; [done|].
      rewrite HQ in Hin. apply elem_of_cons in Hin as [[= _ ?]|]; done.
  - rewrite HL. intros t' b Hin. destruct (inv_inqueue _ _ Hinv t' b) as (k & Hk & Ha & Ht & Hqk);
      [rewrite HQ; by right|].
    exists k. split_and!; try done. apply elem_of_update. exists k. split; [done|].
    rewrite changed_ne; [done|]. intros He. rewrite (Huniq k Hk He) in *. destruct Hni. subst. congruence.
  - done.
  - rewrite HL. intros j (k & Hk & ->)%elem_of_update Hwk Hex.
    change (blocked (dequeue a w d)) with (blocked (update a g d)).
    assert (i_addr k <> a) as Hne by (intros <-; apply Hex; by left).
    rewrite changed_ne in Hwk, Hex |- * by done.
    apply (blocked_update _ _ _ _ k); [done|done|by intros; apply Hgr|].
    apply (inv_wait _ _ Hinv); [done|done|]. intros ?. apply Hex. by right.
Qed.

(** ** The search for conflicts *)

(** [j'] is [j], possibly marked by the search. *)
Definition marked (j j' : drbd_interval) : Prop :=
  j' = j \/ j' = with_flags (Z.setbit (i_flags j) INTERVAL_CONFLICT) j.

Lemma marked_trans i j k : marked i j -> marked j k -> marked i k.
Proof.
  assert (forall f, Z.setbit (Z.setbit f INTERVAL_CONFLICT) INTERVAL_CONFLICT = Z.setbit f INTERVAL_CONFLICT) as Hidem.
  { intros f. apply Z.bits_inj'. intros n Hn. rewrite !Z.setbit_eqb by done.
    by destruct (INTERVAL_CONFLICT =? n). }
  intros [-> | ->] [-> | ->]; unfold marked; auto. right. simpl. by rewrite Hidem.
Qed.

Lemma body_marked d i flags j j' : marked j j' -> find_conflict_body d i flags j' = find_conflict_body d i flags j.
Proof.
  intros [-> | ->]; [done|]. unfold find_conflict_body. rewrite !defer_eq. unfold test_bit.
  cbn [i_flags with_flags]. rewrite !Z.setbit_neq by done. done.
Qed.

(** Only flags of verify requests differ. *)
Record search_frame (d d' : drbd_device) : Prop := {
  frame_rest : d' = set_requests (requests d') d;
  frame_fwd j : j ∈ ints d -> exists j', j' ∈ ints d' /\ marked j j';
  frame_bwd j' : j' ∈ ints d' -> exists j, j ∈ ints d /\ marked j j' }.

Lemma search_frame_refl d : search_frame d d.
Proof. split; [by destruct d|intros j Hj; exists j; split; [done|by left]..]. Qed.

Lemma search_frame_trans d1 d2 d3 : search_frame d1 d2 -> search_frame d2 d3 -> search_frame d1 d3.
Proof.
  intros [R1 F1 B1] [R2 F2 B2]. split.
  - rewrite R2, R1. done.
  - intros j (j2 & Hj2 & M1)%F1. destruct (F2 j2 Hj2) as (j3 & ? & M2). eauto using marked_trans.
  - intros j (j2 & Hj2 & M1)%B2. destruct (B1 j2 Hj2) as (j3 & ? & M2). eauto using marked_trans.
Qed.

Lemma search_frame_mark a d : search_frame d (set_bit INTERVAL_CONFLICT a d).
Proof.
  set (g := fun f => Z.setbit f INTERVAL_CONFLICT).
  assert (forall j, marked j (changed a g j)) as Hm.
  { intros j. destruct (decide (i_addr j = a)); [rewrite changed_eq by done; by right|].
    rewrite changed_ne by done. by left. }
  split; [done| |].
  - intros j Hj. exists (changed a g j). split; [apply elem_of_update; eauto|done].
  - intros j' (j & Hj & ->)%elem_of_update. eauto.
Qed.

Lemma marked_conflict j j' : marked j j' -> test_bit INTERVAL_CONFLICT j = true -> test_bit INTERVAL_CONFLICT j' = true.
Proof. intros [-> | ->] Hc; [done|]. by flag_simpl. Qed.

Lemma find_conflict_loop_spec ex i flags l d :
  inv ex d ->
  let '(c, d') := find_conflict_loop d i flags l in
  inv ex d' /\ search_frame d d' /\
  match c with
  | Some k => k ∈ l /\ find_conflict_body d i flags k = Break
  | None => forall k, k ∈ l -> find_conflict_body d i flags k <> Break /\
      (find_conflict_body d i flags k = Mark ->
       forall j', j' ∈ ints d' -> i_addr j' = i_addr k -> test_bit INTERVAL_CONFLICT j' = true)
  end.
Proof.
  revert d. induction l as [|k l IH]; intros d Hinv; simpl.
  { split_and!; [done|apply search_frame_refl|]. by intros k ?%not_elem_of_nil. }
  destruct (find_conflict_body d i flags k) eqn:E.
  - specialize (IH d Hinv). destruct (find_conflict_loop d i flags l) as [[c|] d'];
      destruct IH as (Hi & Hf & Hc); (split; [done|split; [done|]]); [split; [by right; apply Hc|apply Hc]|].
    intros k' [-> |Hk]%elem_of_cons; [rewrite E; done|by apply Hc].
  - specialize (IH _ (inv_set_conflict _ (i_addr k) _ Hinv)).
    pose proof (search_frame_mark (i_addr k) d) as Hm.
    change (find_conflict_body (set_bit INTERVAL_CONFLICT (i_addr k) d)) with (find_conflict_body d) in IH.
    destruct (find_conflict_loop _ i flags l) as [[c|] d'];
      destruct IH as (Hi & Hf & Hc); (split; [done|split; [by eapply search_frame_trans|]]).
    + split; [by right; apply Hc|apply Hc].
    + intros k' [-> |Hk]%elem_of_cons; [|by apply Hc]. split; [by rewrite E|]. intros _ j' Hj' Ha.
      destruct (frame_bwd _ _ Hf j' Hj') as (j & Hj & Hjm).
      apply (marked_conflict j j' Hjm). apply elem_of_update in Hj as (j0 & Hj0 & ->).
      assert (i_addr j' = i_addr j0) as He by (destruct Hjm as [-> | ->]; done).
      rewrite changed_eq by congruence. by flag_simpl.
  - split_and!; [done|apply search_frame_refl|by left|done].
Qed.

(** The callers pass objects with these ranges. *)
Definition obj_ok (i : drbd_interval) : Prop := interval_ok i /\ IS_ALIGNED (i_size i) 512 = true.

Lemma inv_obj_ok ex d i : inv ex d -> i ∈ ints d -> obj_ok i.
Proof.
  intros Hinv Hi. split; [|by apply (inv_aligned _ _ Hinv)].
  pose proof (wf_ok _ (inv_tree _ _ Hinv)) as Hok. rewrite Forall_forall in Hok. by apply Hok.
Qed.

Section conflict_props.
Context `{RbAugmented}.

Lemma for_each_olap d i :
  tree_wf (requests d) -> obj_ok i ->
  drbd_for_each_overlap (requests d) (i_sector i) (i_size i) = Ret (filter (olap i) (ints d)).
Proof. intros Hwf [[Hs _] Hal]. by apply for_each_overlap_spec. Qed.

Lemma find_conflict_spec ex d i flags :
  inv ex d -> obj_ok i ->
  exists c d', drbd_find_conflict d i flags = Ret (c, d') /\ inv ex d' /\ search_frame d d' /\
    match c with
    | Some k => k ∈ ints d /\ olap i k /\ blocked d' flags i
    | None => forall j, j ∈ ints d' -> olap i j -> find_conflict_body d i flags j <> Break /\
        (find_conflict_body d i flags j = Mark -> test_bit INTERVAL_CONFLICT j = true)
    end.
Proof.
  intros Hinv Hok. unfold drbd_find_conflict. rewrite for_each_olap by (apply Hinv || done). cbn [obind].
  pose proof (find_conflict_loop_spec ex i flags (filter (olap i) (ints d)) d Hinv) as Hl.
  destruct (find_conflict_loop d i flags _) as [c d']. destruct Hl as (Hi & Hf & Hc).
  exists c, d'. split_and!; try done. destruct c as [k|].
  - destruct Hc as [[Ho Hk]%list_elem_of_filter Hb]. split_and!; try done.
    destruct (frame_fwd _ _ Hf k Hk) as (k' & Hk' & Hm). exists k'. split_and!; [done|by destruct Hm as [-> | ->]|].
    pose proof (frame_rest _ _ Hf) as Hr. rewrite Hr.
    change (find_conflict_body (set_requests _ d)) with (find_conflict_body d). by rewrite (body_marked _ _ _ k).
  - intros j Hj Ho. destruct (frame_bwd _ _ Hf j Hj) as (k & Hk & Hm).
    destruct (Hc k) as [Hnb Hmk].
    { apply list_elem_of_filter. split; [|done]. by destruct Hm as [-> | ->]. }
    rewrite (body_marked _ _ _ k) by done. split; [done|]. intros Hb. apply Hmk; [done|done|].
    by destruct Hm as [-> | ->].
Qed.

(** Nothing found: whatever is in flight over the range is harmless. *)
Lemma no_conflict_free d i j :
  i_addr j <> i_addr i -> in_flight j = true ->
  find_conflict_body d i 0 j <> Break ->
  (find_conflict_body d i 0 j = Mark -> test_bit INTERVAL_CONFLICT j = true) ->
  (drbd_interval_is_write i = true -> drbd_interval_is_verify j = true /\ test_bit INTERVAL_CONFLICT j = true) /\
  (drbd_interval_is_write j = true -> False).
Proof.
  unfold in_flight. rewrite !andb_true_iff, !negb_true_iff. intros Hne [[Hs Hb] Hc].
  unfold find_conflict_body. rewrite !defer_eq, Hs, Hb, Hc, (proj2 (Z.eqb_neq _ _)) by done. simpl.
  replace (if is_type INTERVAL_LOCAL_WRITE i || false then false else false) with false by (by case_if).
  destruct (drbd_interval_is_write i) eqn:Hi; intros Hnb Hm.
  - destruct (drbd_interval_is_verify j) eqn:Hv; [|done]. split; [intros _; split; [done|by apply Hm]|].
    unfold drbd_interval_is_write, drbd_interval_is_verify in *. by destruct (i_type j).
  - split; [done|]. unfold drbd_interval_is_write, drbd_interval_is_verify, is_type in *. by destruct (i_type j).
Qed.

(** ** Releasing *)

Notation addrs l := (i_addr <$> l).

(** The work item is pending whenever something is queued. *)
Definition worker_ok (d : drbd_device) : Prop :=
  worker_queued d = true \/ submit_conflict d = empty_worker.

Lemma enqueue_other i0 w d j : i_addr j <> i_addr i0 -> j ∈ ints d -> j ∈ ints (enqueue i0 w d).
Proof.
  intros Hne Hj.
  apply (elem_of_update (i_addr i0) (fun f => Z.setbit f INTERVAL_SUBMIT_CONFLICT_QUEUED) d).
  exists j. by rewrite changed_ne.
Qed.

Lemma release_loop_spec ex l d b :
  inv (addrs l ++ ex) d -> (forall i, i ∈ l -> i ∈ ints d) -> NoDup (addrs l) ->
  exists q d', release_loop d b l = Ret (q, d') /\ inv ex d' /\ running d' = running d /\
    worker_queued d' = worker_queued d /\ (q = true \/ q = b /\ submit_conflict d' = submit_conflict d) /\
    (b = true -> q = true).
Proof.
  revert d b. induction l as [|i l IH]; intros d b Hinv Hl Hnd.
  { exists b, d. split_and!; auto. }
  simpl in Hinv, Hnd |- *. apply NoDup_cons in Hnd as [Hni Hnd].
  assert (i ∈ ints d) as Hi by (apply Hl; by left).
  destruct (release_skips i) eqn:E.
  - apply IH; [|intros j Hj; apply Hl; by right|done]. apply (inv_settle _ _ _ Hinv).
    intros j Hj Ha Hw. exfalso. rewrite (addr_inj _ _ _ (inv_tree _ _ Hinv) Hj Hi Ha) in Hw.
    pose proof (inv_types _ _ Hinv i Hi) as Ht. unfold release_skips in E. unfold waiting in Hw.
    destruct (test_bit INTERVAL_SUBMITTED i); [done|]. specialize (Ht eq_refl).
    destruct (test_bit INTERVAL_SUBMIT_CONFLICT_QUEUED i); [done|].
    assert (drbd_interval_is_verify i = false) as Hv
      by (unfold drbd_interval_is_verify; by destruct (i_type i)).
    rewrite Hv in E. by destruct (_ && negb (test_bit INTERVAL_RECEIVED i)).
  - unfold release_skips in E. rewrite !orb_false_iff in E. destruct E as [[[Hs _] Hq] _].
    destruct (queue_by_type_some i (submit_conflict d)) as [w Hw]; [by apply (inv_types _ _ Hinv)|].
    cbn [submit_conflict set_bit set_requests]. rewrite Hw. fold (enqueue i w d).
    destruct (IH (enqueue i w d) true) as (q & d' & He & Hinv' & Hr & Hwq & Hsub & Hq'); [by apply inv_enqueue| |done|].
    { intros j Hj. apply enqueue_other; [|apply Hl; by right]. intros He. apply Hni. rewrite <- He.
      by apply list_elem_of_fmap_2. }
    exists q, d'. split_and!; try done; auto.
Qed.

Lemma addrs_nodup d (P : drbd_interval -> Prop) `{!forall x, Decision (P x)} :
  tree_wf (requests d) -> NoDup (addrs (filter P (ints d))).
Proof. intros Hwf. apply filter_sublist_nodup, Hwf. Qed.

Lemma release_spec ex x d :
  inv (addrs (filter (olap x) (ints d)) ++ ex) d -> worker_ok d -> obj_ok x ->
  exists d', drbd_release_conflicts d x = Ret d' /\ inv ex d' /\ worker_ok d' /\ running d' = running d.
Proof.
  intros Hinv Hw Hok. unfold drbd_release_conflicts. rewrite for_each_olap by (apply Hinv || done). cbn [obind].
  destruct (release_loop_spec ex (filter (olap x) (ints d)) d false) as (q & d' & He & Hi & Hr & Hwq & Hs & _);
    [done|by intros i [_ ?]%list_elem_of_filter|apply addrs_nodup, Hinv|].
  rewrite He. cbn [obind]. eexists. split; [done|]. destruct q.
  - split_and!; [by destruct Hi; split|by left|done].
  - destruct Hs as [?|[_ Hs]]; [done|]. split_and!; [done| |done]. unfold worker_ok. by rewrite Hwq, Hs.
Qed.

(** ** Insertion, removal and completion *)

(** A new object [i], with its final flags. *)
Lemma inv_insert ex i d d' :
  inv ex d -> tree_wf (requests d') -> ints d' ≡ₚ i :: ints d -> d' = set_requests (requests d') d ->
  IS_ALIGNED (i_size i) 512 = true -> (forall j, j ∈ ints d -> i_addr j <> i_addr i) ->
  test_bit INTERVAL_SUBMIT_CONFLICT_QUEUED i = false ->
  (test_bit INTERVAL_SUBMITTED i = false -> queueable (i_type i) = true) -> stage_ok i = true ->
  (in_flight i = true -> forall k, k ∈ ints d -> in_flight k = true -> olap i k ->
     (drbd_interval_is_write i = true -> drbd_interval_is_verify k = true /\ test_bit INTERVAL_CONFLICT k = true) /\
     (drbd_interval_is_write k = true -> drbd_interval_is_verify i = true /\ test_bit INTERVAL_CONFLICT i = true)) ->
  (waiting i = true -> i_addr i ∉ ex -> blocked d (wait_flags i) i) ->
  inv ex d'.
Proof.
  intros Hinv Hwf HL Hd Hal Hnew Hq Ht Hst Hfree Hwait.
  assert (queued d' = queued d) as HQ by (rewrite Hd; done).
  assert (forall fl j, blocked d fl j -> blocked d' fl j) as Hbl.
  { intros fl j (k & Hk & Ho & Hb). exists k. split_and!; [rewrite HL; by right|done|]. by rewrite Hd. }
  split; rewrite ?HQ; try apply Hinv; try done.
  - intros j. rewrite HL. intros [->|Hj]%elem_of_cons; [done|by apply (inv_aligned _ _ Hinv)].
  - intros j. rewrite HL. intros [->|Hj]%elem_of_cons; [done|by apply (inv_types _ _ Hinv)].
  - intros j k. rewrite !HL. intros [->|Hj]%elem_of_cons [->|Hk]%elem_of_cons Hfj Hfk Ho Hne Hw; try done.
    + by apply (Hfree Hfj k).
    + apply (Hfree Hfk j); try done. by apply olap_sym.
    + by apply (inv_excl _ _ Hinv j k).
  - intros j. rewrite HL. intros [->|Hj]%elem_of_cons; [done|by apply (inv_stage _ _ Hinv)].
  - intros j. rewrite HL. intros [->|Hj]%elem_of_cons; [by rewrite Hq|by apply (inv_queued _ _ Hinv)].
  - intros t a Hin. destruct (inv_inqueue _ _ Hinv t a Hin) as (k & Hk & ?). exists k. split; [|done].
    rewrite HL. by right.
  - intros j. rewrite HL. intros [->|Hj]%elem_of_cons Hw Hex; apply Hbl; [by apply Hwait|by apply (inv_wait _ _ Hinv)].
Qed.

Lemma insert_request_spec ex d i :
  inv ex d -> obj_ok i -> (forall j, j ∈ ints d -> i_addr j <> i_addr i) ->
  exists d', insert_request d i = Ret d' /\ tree_wf (requests d') /\ ints d' ≡ₚ i :: ints d /\
    d' = set_requests (requests d') d.
Proof.
  intros Hinv [Hok Hal] Hnew.
  destruct (insert_interval_spec (requests d) i (inv_tree _ _ Hinv) Hok Hal Hnew) as (t' & He & Hwf & HL).
  unfold insert_request. rewrite He. cbn [obind]. eexists. by split_and!.
Qed.

(** Setting a flag of the object just inserted. *)
Lemma set_bit_inserted b i l d :
  tree_wf (requests d) -> ints d ≡ₚ i :: l ->
  tree_wf (requests (set_bit b (i_addr i) d)) /\
  ints (set_bit b (i_addr i) d) ≡ₚ with_flags (Z.setbit (i_flags i) b) i :: l.
Proof.
  intros Hwf HL. split; [by apply map_flags_wf|].
  assert (ints (set_bit b (i_addr i) d) = changed (i_addr i) (fun f => Z.setbit f b) <$> ints d) as ->
    by apply inorder_map_flags.
  rewrite HL. simpl. rewrite changed_eq by done. f_equiv.
  pose proof (wf_addr _ Hwf) as Hnd. rewrite HL in Hnd. simpl in Hnd. apply NoDup_cons in Hnd as [Hni _].
  clear -Hni. induction l as [|j l IH]; [done|]. simpl in Hni. rewrite not_elem_of_cons in Hni.
  simpl. rewrite changed_ne by naive_solver. f_equiv. apply IH, Hni.
Qed.

Lemma remove_request_ints ex d i :
  inv ex d -> ints (remove_request d i) = filter (fun j => i_addr j <> i_addr i) (ints d).
Proof.
  intros Hinv. unfold remove_request, drbd_remove_interval, drbd_interval_empty. cbn [requests set_requests].
  destruct (find_addr (i_addr i) (requests d)) eqn:E; simpl; [by rewrite rb_erase_inorder|].
  symmetry. apply filter_id. intros j Hj Ha. unfold find_addr in E.
  apply list_elem_of_In, (find_none _ _ E j) in Hj. by rewrite Ha, Z.eqb_refl in Hj.
Qed.

Lemma remove_request_wf d i : tree_wf (requests d) -> tree_wf (requests (remove_request d i)).
Proof. apply remove_interval_wf. Qed.

Lemma remove_request_rest d i : remove_request d i = set_requests (requests (remove_request d i)) d.
Proof. done. Qed.

(** A request leaves; those that may have waited for it are listed. *)
Lemma inv_remove ex i d :
  inv ex d -> (forall j, j ∈ ints d -> i_addr j = i_addr i ->
                 j = i /\ test_bit INTERVAL_SUBMIT_CONFLICT_QUEUED j = false) ->
  inv (addrs (filter (olap i) (ints (remove_request d i))) ++ ex) (remove_request d i).
Proof.
  intros Hinv Hi. pose proof (remove_request_ints _ _ i Hinv) as HL.
  assert (forall j, j ∈ ints (remove_request d i) <-> i_addr j <> i_addr i /\ j ∈ ints d) as Hin
    by (intros j; rewrite HL, list_elem_of_filter; done).
  split.
  - apply remove_request_wf, Hinv.
  - intros j [_ Hj]%Hin. by apply (inv_aligned _ _ Hinv).
  - intros j [_ Hj]%Hin. by apply (inv_types _ _ Hinv).
  - intros j k [_ Hj]%Hin [_ Hk]%Hin. by apply (inv_excl _ _ Hinv).
  - intros j [_ Hj]%Hin. by apply (inv_stage _ _ Hinv).
  - intros j [_ Hj]%Hin. by apply (inv_queued _ _ Hinv).
  - intros t a Hq. destruct (inv_inqueue _ _ Hinv t a Hq) as (k & Hk & Ha & Ht & Hqk).
    exists k. split_and!; try done. apply Hin. split; [|done]. intros He.
    destruct (Hi k Hk He) as [_ Hf]. congruence.
  - apply (inv_nodup _ _ Hinv).
  - intros j Hj Hw Hex. pose proof (proj1 (Hin j) Hj) as [Hne Hj'].
    rewrite elem_of_app in Hex. destruct (inv_wait _ _ Hinv j Hj' Hw) as (k & Hk & Ho & Hb); [tauto|].
    destruct (decide (i_addr k = i_addr i)) as [He|Hke].
    + exfalso. apply Hex. left. apply list_elem_of_fmap_2, list_elem_of_filter. split; [|done].
      destruct (Hi k Hk He) as [-> _]. by apply olap_sym.
    + exists k. split_and!; [by apply Hin|done|done].
Qed.

(** A request that blocks nobody leaves. *)
Lemma inv_remove_quiet ex i d :
  inv ex d -> (forall j, j ∈ ints d -> i_addr j = i_addr i ->
                 j = i /\ test_bit INTERVAL_SUBMIT_CONFLICT_QUEUED j = false) ->
  (forall j flags, find_conflict_body d j flags i <> Break) ->
  inv ex (remove_request d i).
Proof.
  intros Hinv Hi Hq. pose proof (inv_remove ex i d Hinv Hi) as Hr.
  pose proof (remove_request_ints _ _ i Hinv) as HL.
  destruct Hr as [? ? ? ? ? ? ? ? _]. split; try done.
  intros j. rewrite HL. intros [Hne Hj]%list_elem_of_filter Hw Hex.
  destruct (inv_wait _ _ Hinv j Hj Hw Hex) as (k & Hk & Ho & Hb).
  exists k. split_and!; [|done|done]. rewrite HL. apply list_elem_of_filter. split; [|done].
  intros He. destruct (Hi k Hk He) as [-> _]. by apply (Hq j (wait_flags j)).
Qed.

(** A request completes. *)
Lemma inv_finish ex b i d :
  inv ex d -> i ∈ ints d -> b = INTERVAL_BACKING_COMPLETED \/ b = INTERVAL_COMPLETED ->
  inv (addrs (filter (olap i) (ints (set_bit b (i_addr i) d))) ++ ex) (set_bit b (i_addr i) d).
Proof.
  intros Hinv Hi Hb. set (g := fun f => Z.setbit f b).
  assert (forall n f, n <> b -> Z.testbit (g f) n = Z.testbit f n) as Hg.
  { intros n f Hn. subst g. simpl. rewrite Z.setbit_neq; [done|by destruct Hb as [-> | ->]|done]. }
  assert (forall j, grows (changed (i_addr i) g j) (i_flags (changed (i_addr i) g j))) as Hrefl by (unfold grows; done).
  apply (inv_update ex _ (i_addr i) g); [done| | |].
  - intros j Hj Ha. pose proof (inv_stage _ _ Hinv j Hj). unfold stage_ok, test_bit in *.
    cbn [i_flags with_flags]. rewrite !Hg by (destruct Hb as [-> | ->]; done). done.
  - apply exclusive_shrink; [apply Hinv|]. intros j Hj Ha. split.
    + unfold in_flight, test_bit. cbn [i_flags with_flags]. rewrite (Hg INTERVAL_SUBMITTED) by (destruct Hb as [-> | ->]; done).
      subst g. cbv beta. rewrite !Z.setbit_eqb by (destruct Hb as [-> | ->]; done). destruct Hb as [-> | ->]; simpl.
      * by rewrite andb_false_r.
      * by rewrite andb_false_r.
    + rewrite (Hg INTERVAL_CONFLICT) by (destruct Hb as [-> | ->]; done). done.
  - intros j Hj Hw Hex. rewrite elem_of_app in Hex.
    assert (waiting j = true /\ wait_flags (changed (i_addr i) g j) = wait_flags j) as [Hwj Hwf].
    { destruct (decide (i_addr j = i_addr i)) as [Ha|Hne]; [|by rewrite changed_ne in Hw |- *].
      rewrite changed_eq in Hw |- * by done. unfold waiting, wait_flags, test_bit in *.
      cbn [i_flags with_flags] in *. rewrite !Hg in Hw by (destruct Hb as [-> | ->]; done).
      rewrite !Hg by (destruct Hb as [-> | ->]; done). done. }
    rewrite Hwf. destruct (inv_wait _ _ Hinv j Hj Hwj) as (k & Hk & Ho & Hbr); [tauto|].
    destruct (decide (i_addr k = i_addr i)) as [He|Hke].
    + exfalso. apply Hex. left. change (i_addr j) with (i_addr (changed (i_addr i) g j)).
      apply list_elem_of_fmap_2, list_elem_of_filter. split; [|apply elem_of_update; eauto].
      rewrite (addr_inj _ _ _ (inv_tree _ _ Hinv) Hk Hi He) in Ho. by apply olap_sym in Ho.
    + exists k. split_and!; [apply elem_of_update; exists k; by rewrite changed_ne|done|].
      change (find_conflict_body (update (i_addr i) g d)) with (find_conflict_body d).
      replace k with (with_flags (i_flags k) k) by (by destruct k).
      by eapply break_mono; [| |exact Hbr].
Qed.

(** ** Objects *)

Lemma find_addr_some d i : tree_wf (requests d) -> i ∈ ints d -> find_addr (i_addr i) (requests d) = Some i.
Proof.
  intros Hwf Hi. unfold find_addr. destruct (find _ _) as [j|] eqn:E.
  - apply find_some in E as [Hj%list_elem_of_In Ha%Z.eqb_eq]. f_equal. by apply (addr_inj (requests d)).
  - apply list_elem_of_In, (find_none _ _ E) in Hi. by rewrite Z.eqb_refl in Hi.
Qed.

Lemma find_addr_none d i : (forall j, j ∈ ints d -> i_addr j <> i_addr i) -> find_addr (i_addr i) (requests d) = None.
Proof.
  intros Hnew. unfold find_addr. destruct (find _ _) as [j|] eqn:E; [|done].
  apply find_some in E as [Hj%list_elem_of_In Ha%Z.eqb_eq]. by destruct (Hnew j Hj).
Qed.

Lemma object_linked d i j : tree_wf (requests d) -> j ∈ ints d -> i_addr j = i_addr i -> object d i = j.
Proof. intros Hwf Hj Ha. unfold object. by rewrite <- Ha, find_addr_some. Qed.

Lemma empty_linked d i j : tree_wf (requests d) -> j ∈ ints d -> i_addr j = i_addr i -> drbd_interval_empty d i = false.
Proof. intros Hwf Hj Ha. unfold drbd_interval_empty. by rewrite <- Ha, find_addr_some. Qed.

(** An object that is not in the tree. *)
Definition fresh (d : drbd_device) (i : drbd_interval) : Prop :=
  obj_ok i /\ (i_flags i = 0 \/ i_flags i = Z.setbit 0 INTERVAL_CONFLICT) /\ forall j, j ∈ ints d -> i_addr j <> i_addr i.

Lemma object_fresh d i : fresh d i -> object d i = i.
Proof. intros (_ & _ & Hn). unfold object. by rewrite find_addr_none. Qed.

Lemma empty_fresh d i : fresh d i -> drbd_interval_empty d i = true.
Proof. intros (_ & _ & Hn). unfold drbd_interval_empty. by rewrite find_addr_none. Qed.

Lemma update_fresh a g d : (forall j, j ∈ ints d -> i_addr j <> a) -> update a g d = d.
Proof.
  intros Hn. assert (map_flags (change_flags a g) (requests d) = requests d) as He.
  { clear -Hn. induction (requests d) as [|l IHl i e r IHr]; [done|]. simpl in Hn |- *. f_equal.
    - apply IHl. intros j Hj. apply Hn. set_solver.
    - apply changed_ne, Hn. set_solver.
    - apply IHr. intros j Hj. apply Hn. set_solver. }
  unfold update. rewrite He. by destruct d.
Qed.

Lemma fresh_flags d i : fresh d i -> forall b, b <> INTERVAL_CONFLICT -> test_bit b i = false.
Proof.
  intros (_ & [Hf|Hf] & _) b Hb; unfold test_bit; rewrite Hf; [|rewrite Z.setbit_neq by done];
    apply Z.testbit_0_l.
Qed.

Lemma frame_fresh d d' i : search_frame d d' -> fresh d i -> fresh d' i.
Proof.
  intros Hf (Hok & Hz & Hn). split_and!; try done. intros j' Hj'.
  destruct (frame_bwd _ _ Hf j' Hj') as (j & Hj & Hm). specialize (Hn j Hj). by destruct Hm as [-> | ->].
Qed.

Lemma body_same_object d i i' flags j :
  same_object i i' -> find_conflict_body d i' flags j = find_conflict_body d i flags j.
Proof.
  intros Hi. unfold find_conflict_body. rewrite !defer_eq.
  rewrite !(is_type_same _ i i'), (is_write_same i i') by done.
  replace (drbd_interval_same_peer d i' j) with (drbd_interval_same_peer d i j)
    by (unfold drbd_interval_same_peer; by destruct Hi as [-> ->]).
  by destruct Hi as [-> _].
Qed.

(** ** After the search *)

(** Submitting an object of the tree. *)
Lemma submit_linked ex d1 d2 i :
  inv (i_addr i :: ex) d2 -> search_frame d1 d2 -> i ∈ ints d1 ->
  test_bit INTERVAL_SUBMIT_CONFLICT_QUEUED i = false ->
  (forall j, j ∈ ints d2 -> olap i j -> find_conflict_body d1 i 0 j <> Break /\
     (find_conflict_body d1 i 0 j = Mark -> test_bit INTERVAL_CONFLICT j = true)) ->
  inv ex (set_bit INTERVAL_SUBMITTED (i_addr i) d2).
Proof.
  intros Hinv Hf Hi Hq Hnone. destruct (frame_fwd _ _ Hf i Hi) as (i2 & Hi2 & Hm).
  assert (i_addr i2 = i_addr i /\ drbd_interval_is_write i2 = drbd_interval_is_write i) as [Ha Hw]
    by (by destruct Hm as [-> | ->]).
  rewrite <- Ha in Hinv |- *. apply inv_submit; [done|done| |].
  - destruct Hm as [-> | ->]; [done|]. by flag_simpl.
  - intros k Hk Hne Hfk Ho. assert (olap i k) as Ho' by (by destruct Hm as [-> | ->]).
    destruct (Hnone k Hk Ho') as [Hnb Hmk].
    destruct (no_conflict_free d1 i k) as [H1 H2]; [congruence|done|done|done|].
    rewrite Hw. split; [done|]. by intros ?%H2.
Qed.

(** An object of the tree keeps waiting. *)
Lemma wait_linked ex d1 d2 i :
  inv (i_addr i :: ex) d2 -> search_frame d1 d2 -> i ∈ ints d1 -> blocked d2 (wait_flags i) i -> inv ex d2.
Proof.
  intros Hinv Hf Hi (k & Hk & Ho & Hb). apply (inv_settle _ _ _ Hinv). intros j Hj Ha _.
  destruct (frame_fwd _ _ Hf i Hi) as (i2 & Hi2 & Hm).
  assert (j = i2) as -> by (apply (addr_inj (requests d2)); [apply Hinv|done|done|by destruct Hm as [-> | ->]]).
  exists k. split_and!; [done|by destruct Hm as [-> | ->]|].
  assert (wait_flags i2 = wait_flags i) as ->.
  { destruct Hm as [-> | ->]; [done|]. unfold wait_flags. by flag_simpl. }
  rewrite (body_same_object _ i); [done|by destruct Hm as [-> | ->]].
Qed.

Section settled.
Variable ex : list Z.

(** Submitting a new object. *)
Lemma submit_fresh d1 d2 d3 i :
  inv ex d2 -> search_frame d1 d2 -> fresh d2 i -> tree_wf (requests d3) -> ints d3 ≡ₚ i :: ints d2 ->
  d3 = set_requests (requests d3) d2 ->
  (forall j, j ∈ ints d2 -> olap i j -> find_conflict_body d1 i 0 j <> Break /\
     (find_conflict_body d1 i 0 j = Mark -> test_bit INTERVAL_CONFLICT j = true)) ->
  inv ex (set_bit INTERVAL_SUBMITTED (i_addr i) d3).
Proof.
  intros Hinv Hf Hfr Hwf HL Hd Hnone. destruct (set_bit_inserted INTERVAL_SUBMITTED i _ d3 Hwf HL) as [Hwf' HL'].
  pose proof (fresh_flags _ _ Hfr) as Hz. destruct Hfr as ([Hok Hal] & _ & Hn).
  eapply (inv_insert _ _ d2); [done|done|exact HL'|by rewrite Hd|done|done| | | | |].
  - pose proof (Hz INTERVAL_SUBMIT_CONFLICT_QUEUED ltac:(done)). by flag_simpl.
  - flag_simpl. done.
  - unfold stage_ok. pose proof (Hz INTERVAL_RECEIVED ltac:(done)) as Hzr. flag_simpl. by rewrite Hzr, andb_false_r.
  - intros _ k Hk Hfk Ho. destruct (Hnone k Hk Ho) as [Hnb Hmk].
    destruct (no_conflict_free d1 i k) as [H1 H2]; [by apply Hn|done|done|done|].
    split; [exact H1|]. by intros ?%H2.
  - unfold waiting. flag_simpl. done.
Qed.

(** A new object waits. *)
Lemma wait_fresh d2 d3 i :
  inv ex d2 -> fresh d2 i -> tree_wf (requests d3) -> ints d3 ≡ₚ i :: ints d2 ->
  d3 = set_requests (requests d3) d2 -> queueable (i_type i) = true -> blocked d2 (wait_flags i) i -> inv ex d3.
Proof.
  intros Hinv Hfr Hwf HL Hd Hq Hb. pose proof (fresh_flags _ _ Hfr) as Hz. destruct Hfr as ([Hok Hal] & _ & Hn).
  eapply (inv_insert _ i d2); try done; [by apply Hz|unfold stage_ok; by rewrite Hz, andb_false_r by done|].
  unfold in_flight. by rewrite Hz by done.
Qed.

(** Invariant between critical sections. *)
Definition settled (d : drbd_device) : Prop := inv ex d /\ worker_ok d.

Lemma frame_worker d d' : search_frame d d' -> worker_ok d -> worker_ok d' /\ running d' = running d.
Proof. intros Hf. rewrite (frame_rest _ _ Hf). done. Qed.

Lemma rest_worker d d' : d' = set_requests (requests d') d -> worker_ok d -> worker_ok d' /\ running d' = running d.
Proof. intros ->. done. Qed.

Lemma wait_flags_0 i : i_type i <> INTERVAL_RESYNC_WRITE -> wait_flags i = 0.
Proof. intros Hne. unfold wait_flags, is_type. by rewrite bool_decide_false. Qed.

Lemma wait_flags_ready i : test_bit INTERVAL_READY_TO_SEND i = true -> wait_flags i = 0.
Proof. intros Hr. unfold wait_flags. by rewrite Hr, andb_false_r. Qed.

Lemma verify_never_break d i flags j : drbd_interval_is_verify j = true -> find_conflict_body d i flags j <> Break.
Proof. intros Hv. unfold find_conflict_body. rewrite Hv. repeat case_if; done. Qed.

(** An unsubmitted request that is not resync blocks nobody. *)
Lemma idle_never_break d i flags j :
  test_bit INTERVAL_SUBMITTED j = false -> drbd_interval_is_resync j = false ->
  find_conflict_body d i flags j <> Break.
Proof.
  intros Hs Hr. unfold find_conflict_body. rewrite defer_eq, Hs, Hr.
  assert (is_type INTERVAL_RESYNC_WRITE j = false) as ->.
  { unfold is_type, drbd_interval_is_resync in *. by destruct (i_type j). }
  rewrite !andb_false_r, andb_false_l. simpl. repeat case_if; done.
Qed.

(** A request that is done on both levels blocks nobody. *)
Lemma done_never_break d i flags j :
  test_bit INTERVAL_COMPLETED j = true -> test_bit INTERVAL_BACKING_COMPLETED j = true ->
  find_conflict_body d i flags j <> Break.
Proof.
  intros Hc Hb. unfold find_conflict_body. rewrite Hc, Hb.
  destruct (i_addr j =? i_addr i); [done|].
  match goal with |- context [if (if ?b then true else true) then _ else _] => by destruct b end.
Qed.

Lemma remove_request_addr d i j : i_addr i = i_addr j -> remove_request d i = remove_request d j.
Proof. unfold remove_request, drbd_remove_interval, drbd_interval_empty. by intros ->. Qed.

Lemma remove_gone ex0 d i : inv ex0 d -> forall j, j ∈ ints (remove_request d i) -> i_addr j <> i_addr i.
Proof. intros Hinv j. rewrite (remove_request_ints _ _ i Hinv). by intros [? _]%list_elem_of_filter. Qed.

(** [drbd_remove_peer_req_interval] of an object that is not queued. *)
Lemma remove_peer_req_spec i d j :
  inv (i_addr i :: ex) d -> worker_ok d -> j ∈ ints d -> i_addr j = i_addr i ->
  test_bit INTERVAL_SUBMIT_CONFLICT_QUEUED j = false ->
  exists d', drbd_remove_peer_req_interval d i = Ret d' /\ settled d' /\ running d' = running d.
Proof.
  intros Hinv Hw Hj Ha Hq. unfold drbd_remove_peer_req_interval.
  rewrite (object_linked d i j) by (done || apply Hinv).
  assert (forall k, k ∈ ints d -> i_addr k = i_addr j ->
            k = j /\ test_bit INTERVAL_SUBMIT_CONFLICT_QUEUED k = false) as Hu.
  { intros k Hk He. rewrite (addr_inj _ _ _ (inv_tree _ _ Hinv) Hk Hj He). done. }
  pose proof (remove_gone _ _ j Hinv) as Hgone.
  destruct (drbd_interval_is_verify j) eqn:Hv; cbn [negb].
  - eexists. split; [done|]. split; [|done]. split; [|done].
    apply (inv_settle ex (i_addr i)); [|intros k Hk He; destruct (Hgone k Hk); congruence].
    apply inv_remove_quiet; [done|done|]. intros k fl. by apply verify_never_break.
  - destruct (release_spec ex j (remove_request d j)) as (d' & He & Hi & Hw' & Hrun);
      [|done|by apply (inv_obj_ok _ _ _ Hinv)|exists d'; by split_and!].
    apply (inv_settle _ (i_addr i)); [|intros k Hk Hke; destruct (Hgone k Hk); congruence].
    eapply inv_weaken; [by apply (inv_remove _ _ _ Hinv)|]. intros b. rewrite !elem_of_app. set_solver.
Qed.

(** ** The operations keep the invariant *)

(** The object at [i_addr j] is in the tree, looks like [j], and has not been
    queued or submitted. *)
Definition present (d : drbd_device) (j : drbd_interval) : Prop :=
  exists k, k ∈ ints d /\ marked j k /\
    test_bit INTERVAL_SUBMIT_CONFLICT_QUEUED k = false /\ test_bit INTERVAL_SUBMITTED k = false.

(** The state after the search for conflicts of [j], which is in the tree now. *)
Record entered (d : drbd_device) (j : drbd_interval) (c : option drbd_interval) (flags : Z)
    (d' : drbd_device) : Prop := {
  entered_worker : worker_ok d';
  entered_running : running d' = running d;
  entered_inv : inv (i_addr j :: ex) d';
  entered_present : present d' j;
  entered_free : c = None -> flags = 0 -> inv ex (set_bit INTERVAL_SUBMITTED (i_addr j) d');
  entered_wait : c <> None -> wait_flags j = flags -> inv ex d' }.

Lemma inv_any a d : inv ex d -> inv (a :: ex) d.
Proof. intros Hinv. eapply inv_weaken; [done|]. intros b Hb. by right. Qed.

Lemma marked_same i i' :
  marked i i' -> same_object i i' /\ wait_flags i' = wait_flags i /\ (forall j, olap i' j <-> olap i j) /\
    (obj_ok i -> obj_ok i').
Proof. intros [-> | ->]; [done|]. split_and!; try done. unfold wait_flags. by flag_simpl. Qed.

Lemma fresh_marked d i i' : i_flags i = 0 -> marked i i' -> fresh d i -> fresh d i'.
Proof.
  intros Hz Hm (Hok & _ & Hn). destruct (marked_same i i' Hm) as ([Ha _] & _ & _ & Ho).
  split_and!; [by apply Ho| |by rewrite Ha]. destruct Hm as [-> | ->]; [by left|]. right. simpl. by rewrite Hz.
Qed.

(** A new object [i] is inserted, possibly marked as conflicting ([i']). *)
Lemma enter_fresh d i i' flags :
  settled d -> fresh d i -> i_flags i = 0 -> marked i i' -> queueable (i_type i) = true ->
  exists c d2 d3, drbd_find_conflict d i flags = Ret (c, d2) /\ drbd_interval_empty d2 i = true /\
    insert_request d2 i' = Ret d3 /\ entered d i c flags d3.
Proof.
  intros [Hinv Hw] Hfr Hf0 Hm Ht. destruct (find_conflict_spec ex d i flags Hinv (proj1 Hfr)) as (c & d2 & Hfc & Hinv2 & Hf & Hc).
  pose proof (frame_fresh _ _ _ Hf Hfr) as Hfr2. pose proof (fresh_marked d2 i i' Hf0 Hm Hfr2) as Hfr3.
  pose proof (fresh_flags _ _ Hfr3) as Hz. destruct (marked_same i i' Hm) as (Hso & Hwf & Hol & _).
  destruct (insert_request_spec _ d2 i' Hinv2 (proj1 Hfr3) (proj2 (proj2 Hfr3))) as (d3 & Hins & Hwf3 & HL & Hd3).
  exists c, d2, d3. split_and!; [done|by apply empty_fresh|done|].
  destruct (frame_worker _ _ Hf Hw) as [Hw2 Hr2]. destruct (rest_worker _ _ Hd3 Hw2) as [Hw3 Hr3].
  assert (queueable (i_type i') = true) as Ht' by (by rewrite (proj2 Hso)).
  split.
  - done.
  - congruence.
  - rewrite <- (proj1 Hso). destruct Hfr3 as ([? ?] & _ & Hn). eapply (inv_insert _ i' d2); try done;
      [by apply inv_any|by apply Hz| | |].
    + unfold stage_ok. by rewrite Hz, andb_false_r.
    + unfold in_flight. by rewrite Hz by done.
    + intros _ Hex. destruct Hex. by left.
  - exists i'. split_and!; [rewrite HL; by left|done|by apply Hz|by apply Hz].
  - intros -> ->. rewrite <- (proj1 Hso). eapply (submit_fresh d d2); try done. intros j Hj Ho.
    rewrite !(body_same_object d i i') by done. by apply Hc, Hol.
  - destruct c as [c|]; [|done]. intros _ <-. eapply (wait_fresh d2 d3 i'); try done. rewrite Hwf.
    destruct Hc as (_ & _ & k & Hk & Ho & Hb). exists k. split_and!; [done|by apply Hol|].
    by rewrite (body_same_object _ i).
Qed.

(** The objects handled by the work function and by the receiver are in the
    tree.  [j] is such an object, its queue flag cleared by the caller. *)
Lemma enter_linked d j flags :
  inv (i_addr j :: ex) d -> worker_ok d -> j ∈ ints d ->
  test_bit INTERVAL_SUBMIT_CONFLICT_QUEUED j = false -> test_bit INTERVAL_SUBMITTED j = false ->
  exists c d2, drbd_find_conflict d j flags = Ret (c, d2) /\ drbd_interval_empty d2 j = false /\
    entered d j c flags d2.
Proof.
  intros Hinv Hw Hj Hq Hs.
  destruct (find_conflict_spec (i_addr j :: ex) d j flags Hinv (inv_obj_ok _ _ _ Hinv Hj)) as (c & d2 & Hfc & Hinv2 & Hf & Hc).
  destruct (frame_fwd _ _ Hf j Hj) as (k & Hk & Hm). destruct (frame_worker _ _ Hf Hw) as [Hw2 Hr2].
  exists c, d2. split_and!; [done| |].
  { apply (empty_linked d2 j k); [apply Hinv2|done|by destruct Hm as [-> | ->]]. }
  split; try done.
  - exists k. split_and!; try done; (destruct Hm as [-> | ->]; [done|]); by flag_simpl.
  - intros -> ->. by apply (submit_linked ex d d2 j).
  - destruct c as [c|]; [|done]. intros _ <-. apply (wait_linked ex d d2 j); try done. apply Hc.
Qed.

(** Leaving the tree unsubmitted, for a write. *)
Lemma postpone_inv d i :
  inv (i_addr i :: ex) d -> present d i -> drbd_interval_is_resync i = false ->
  inv ex (remove_request (set_postponed (i_addr i) d) i).
Proof.
  intros Hinv (k & Hk & Hm & Hq & Hs) Hr.
  assert (inv (i_addr i :: ex) (set_postponed (i_addr i) d)) as Hinv' by (by destruct Hinv; split).
  assert (i_addr k = i_addr i /\ drbd_interval_is_resync k = false) as [Ha Hr'] by (by destruct Hm as [-> | ->]).
  rewrite <- (remove_request_addr _ k i) by done. apply (inv_settle _ (i_addr i)).
  - apply inv_remove_quiet; [done| |intros; by apply idle_never_break]. intros j Hj He.
    by rewrite (addr_inj _ _ _ (inv_tree _ _ Hinv) Hj Hk He).
  - intros j Hj He. exfalso. apply (remove_gone _ _ k Hinv' j Hj). congruence.
Qed.

(** The state after a critical section for the request at [a]: when its owner goes on
    to remove it, it is in the tree and not queued. *)
Definition outcome_ok (a : Z) (r : action) (d : drbd_device) : Prop :=
  match r with
  | CANCEL => inv (a :: ex) d /\ worker_ok d /\
      exists k, k ∈ ints d /\ i_addr k = a /\ test_bit INTERVAL_SUBMIT_CONFLICT_QUEUED k = false
  | _ => settled d
  end.

Notation good a d r := (exists x d', r = Ret (x, d') /\ outcome_ok a x d' /\ running d' = running d).

Lemma write_epilogue d j c d3 :
  entered d j c 0 d3 -> i_type j = INTERVAL_LOCAL_WRITE ->
  good (i_addr j) d (match c with
    | None => Ret (SUBMIT, set_bit INTERVAL_SUBMITTED (i_addr j) d3)
    | Some c =>
        let d := if drbd_interval_is_local c && bool_decide (i_addr c ∈ rq_postponed d3)
                 then remove_request (set_postponed (i_addr j) d3) j else d3 in
        Ret (if bool_decide (i_addr j ∈ rq_postponed d) then POSTPONE else WAIT, d)
    end).
Proof.
  intros [Hw Hr Hinv Hp Hfree Hwait] Ht. destruct c as [c|].
  - cbv zeta. eexists _, _. split; [done|]. set (b := bool_decide (i_addr j ∈ _)).
    assert (forall d', settled d' -> outcome_ok (i_addr j) (if b then POSTPONE else WAIT) d') as Hok by (by destruct b).
    destruct (_ && bool_decide _).
    + split; [apply Hok; split; [|exact Hw]|exact Hr]. apply postpone_inv; try done.
      unfold drbd_interval_is_resync. by rewrite Ht.
    + split; [apply Hok; split; [|exact Hw]|exact Hr]. apply Hwait; [done|]. apply wait_flags_0. by rewrite Ht.
  - eexists _, _. split; [done|]. split; [split; [|exact Hw]|exact Hr]. by apply Hfree.
Qed.

(** An object of the tree at the start of an operation on it: [j] is the object
    after its queue flag is cleared. *)
Record linked (d : drbd_device) (i j : drbd_interval) : Prop := {
  linked_obj : with_flags (Z.clearbit (i_flags (object d i)) INTERVAL_SUBMIT_CONFLICT_QUEUED) (object d i) = j;
  linked_addr : i_addr j = i_addr i;
  linked_inv : inv (i_addr j :: ex) (clear_bit INTERVAL_SUBMIT_CONFLICT_QUEUED (i_addr i) d);
  linked_worker : worker_ok d;
  linked_in : j ∈ ints (clear_bit INTERVAL_SUBMIT_CONFLICT_QUEUED (i_addr i) d);
  linked_queued : test_bit INTERVAL_SUBMIT_CONFLICT_QUEUED j = false;
  linked_submitted : test_bit INTERVAL_SUBMITTED j = false }.

Lemma linked_intro d i i0 :
  inv (i_addr i :: ex) (clear_bit INTERVAL_SUBMIT_CONFLICT_QUEUED (i_addr i) d) -> worker_ok d ->
  tree_wf (requests d) -> i0 ∈ ints d -> i_addr i0 = i_addr i -> test_bit INTERVAL_SUBMITTED i0 = false ->
  linked d i (with_flags (Z.clearbit (i_flags i0) INTERVAL_SUBMIT_CONFLICT_QUEUED) i0).
Proof.
  intros Hinv Hw Hwf Hi0 Ha Hs. split; try done.
  - by rewrite (object_linked d i i0).
  - cbn [i_addr with_flags]. by rewrite Ha.
  - apply (elem_of_update (i_addr i) (fun f => Z.clearbit f INTERVAL_SUBMIT_CONFLICT_QUEUED) d).
    exists i0. split; [done|]. by rewrite changed_eq.
  - by flag_simpl.
  - by flag_simpl.
Qed.

Lemma linked_object d i j : linked d i j -> object (clear_bit INTERVAL_SUBMIT_CONFLICT_QUEUED (i_addr i) d) i = j.
Proof. intros Hl. apply object_linked; [apply (inv_tree _ _ (linked_inv _ _ _ Hl))|apply Hl|apply Hl]. Qed.

Lemma enter_of_linked d i j flags :
  linked d i j ->
  exists c d2, drbd_find_conflict (clear_bit INTERVAL_SUBMIT_CONFLICT_QUEUED (i_addr i) d) j flags = Ret (c, d2) /\
    drbd_interval_empty d2 j = false /\ entered d j c flags d2.
Proof.
  intros [_ _ Hinv Hw Hj Hq Hs]. destruct (enter_linked _ j flags Hinv Hw Hj Hq Hs) as (c & d2 & ? & ? & Hent).
  exists c, d2. split_and!; try done. by destruct Hent.
Qed.

Lemma clear_fresh d i :
  fresh d i -> i_flags i = 0 ->
  with_flags (Z.clearbit (i_flags (object d i)) INTERVAL_SUBMIT_CONFLICT_QUEUED) (object d i) = i /\
  clear_bit INTERVAL_SUBMIT_CONFLICT_QUEUED (i_addr i) d = d.
Proof.
  intros Hfr Hf. rewrite object_fresh by done. split.
  - rewrite Hf. replace (Z.clearbit 0 INTERVAL_SUBMIT_CONFLICT_QUEUED) with 0 by done.
    rewrite <- Hf. by destruct i.
  - apply (update_fresh (i_addr i) (fun f => Z.clearbit f INTERVAL_SUBMIT_CONFLICT_QUEUED)), Hfr.
Qed.

Lemma submit_write_fresh d i :
  settled d -> fresh d i -> i_flags i = 0 -> i_type i = INTERVAL_LOCAL_WRITE ->
  good (i_addr i) d (drbd_conflict_submit_write d i).
Proof.
  intros Hs Hf Hz Ht. unfold drbd_conflict_submit_write. destruct (clear_fresh d i Hf Hz) as [-> ->].
  destruct (enter_fresh d i i 0 Hs Hf Hz) as (c & d2 & d3 & He & Hem & Hins & Hent); [by left|by rewrite Ht|].
  rewrite He. cbn [obind]. rewrite Hem, Hins. cbn [obind]. by apply write_epilogue.
Qed.

Lemma submit_write_linked d i j :
  linked d i j -> i_type j = INTERVAL_LOCAL_WRITE -> good (i_addr i) d (drbd_conflict_submit_write d i).
Proof.
  intros Hl Ht. unfold drbd_conflict_submit_write. rewrite (linked_obj _ _ _ Hl).
  destruct (enter_of_linked _ _ _ 0 Hl) as (c & d2 & He & Hem & Hent).
  rewrite He. cbn [obind]. rewrite Hem. cbn [obind]. rewrite <- (linked_addr _ _ _ Hl). by apply (write_epilogue _ _ _ _ Hent).
Qed.

Lemma submit_or_cancel d j c d3 (canceled : bool) :
  entered d j c 0 d3 -> wait_flags j = 0 ->
  good (i_addr j) d (match c with
          | None => Ret (SUBMIT, set_bit INTERVAL_SUBMITTED (i_addr j) d3)
          | Some _ => Ret (if canceled then CANCEL else WAIT, d3) end).
Proof.
  intros [Hw Hr Hinv Hp Hfree Hwait] Hwf. destruct c as [c|]; (eexists _, _; split; [done|]).
  - split; [|exact Hr]. destruct canceled; [|split; [by apply Hwait|exact Hw]]. split_and!; try done.
    destruct Hp as (k & Hk & Hm & Hq & _). exists k. split_and!; [done|by destruct Hm as [-> | ->]|done].
  - split; [split; [by apply Hfree|exact Hw]|exact Hr].
Qed.

Lemma submit_peer_write_linked d i j :
  linked d i j -> i_type j = INTERVAL_PEER_WRITE -> good (i_addr i) d (drbd_conflict_submit_peer_write d i).
Proof.
  intros Hl Ht. unfold drbd_conflict_submit_peer_write. cbv zeta. rewrite (linked_object _ _ _ Hl).
  destruct (enter_of_linked _ _ _ 0 Hl) as (c & d2 & He & Hem & Hent).
  rewrite He. cbn [obind]. rewrite <- (linked_addr _ _ _ Hl).
  apply (submit_or_cancel _ _ _ _ false Hent). apply wait_flags_0. by rewrite Ht.
Qed.

(** The search of [drbd_peer_write_conflicts] changes nothing that matters. *)
Lemma receive_data_fresh d i tp :
  settled d -> fresh d i -> i_flags i = 0 -> i_type i = INTERVAL_PEER_WRITE ->
  receive_Data_submit d i tp = Fail EBUSY \/ good (i_addr i) d (receive_Data_submit d i tp).
Proof.
  intros [Hinv Hw] Hf Hz Ht. unfold receive_Data_submit.
  assert ((exists d0, (if tp then drbd_peer_write_conflicts d i else Ret d) = Ret d0 /\ settled d0 /\
             fresh d0 i /\ running d0 = running d) \/
          (if tp then drbd_peer_write_conflicts d i else Ret d) = Fail EBUSY) as [(d0 & -> & Hs0 & Hf0 & Hr0)| ->]; [| |by left].
  { destruct tp; [|left; exists d; by split_and!]. unfold drbd_peer_write_conflicts.
    destruct (find_conflict_spec ex d i CONFLICT_FLAG_APPLICATION_ONLY Hinv (proj1 Hf))
      as ([c|] & d2 & -> & Hi2 & Hfr & _); cbn [obind]; [by right|left].
    destruct (frame_worker _ _ Hfr Hw). exists d2. split_and!; try done. by eapply frame_fresh. }
  right. cbn [obind]. destruct (enter_fresh d0 i i 0 Hs0 Hf0 Hz) as (c & d2 & d3 & He & Hem & Hins & Hent); [by left|by rewrite Ht|].
  rewrite He. cbn [obind]. rewrite Hins. cbn [obind].
  destruct (submit_or_cancel _ _ _ _ false Hent) as (r & d' & -> & Hs & Hr); [apply wait_flags_0; by rewrite Ht|].
  eexists _, _. split; [done|]. split; [done|congruence].
Qed.

Lemma submit_resync_request_linked d i j :
  linked d i j -> test_bit INTERVAL_READY_TO_SEND j = true -> good (i_addr i) d (drbd_conflict_submit_resync_request d i).
Proof.
  intros Hl Hrdy. unfold drbd_conflict_submit_resync_request. cbv zeta. rewrite (linked_object _ _ _ Hl).
  set (d1 := clear_bit INTERVAL_SUBMIT_CONFLICT_QUEUED (i_addr i) d).
  pose proof (linked_inv _ _ _ Hl) as Hinv. fold d1 in Hinv. pose proof (linked_in _ _ _ Hl) as Hj. fold d1 in Hj.
  pose proof (linked_addr _ _ _ Hl) as Ha.
  set (j' := with_flags (Z.setbit (i_flags j) INTERVAL_RECEIVED) j).
  assert (inv (i_addr j :: ex) (set_bit INTERVAL_RECEIVED (i_addr i) d1)) as Hinv2.
  { rewrite <- Ha. apply inv_set_stage; [done|by left|by left|]. intros _ k Hk Hka.
    by rewrite (addr_inj _ _ _ (inv_tree _ _ Hinv) Hk Hj Hka). }
  assert (j' ∈ ints (set_bit INTERVAL_RECEIVED (i_addr i) d1)) as Hj'.
  { apply (elem_of_update (i_addr i) (fun f => Z.setbit f INTERVAL_RECEIVED) d1). exists j. split; [done|].
    by rewrite changed_eq. }
  rewrite (object_linked _ i j') by (done || apply (inv_tree _ _ Hinv2)).
  destruct (enter_linked _ j' 0 Hinv2 (linked_worker _ _ _ Hl) Hj') as (c & d2 & He & Hem & Hent).
  - pose proof (linked_queued _ _ _ Hl). subst j'. by flag_simpl.
  - pose proof (linked_submitted _ _ _ Hl). subst j'. by flag_simpl.
  - rewrite He. cbn [obind]. rewrite <- Ha. apply (submit_or_cancel _ _ _ _ _ Hent).
    apply wait_flags_ready. subst j'. by flag_simpl.
Qed.

Lemma waiting_sent k :
  test_bit INTERVAL_RECEIVED k = false -> waiting (with_flags (Z.setbit (i_flags k) INTERVAL_READY_TO_SEND) k) = false.
Proof. intros Hr. unfold waiting. flag_simpl. rewrite Hr. simpl. by rewrite andb_false_r. Qed.

(** After the search of [drbd_conflict_send_resync_request]. *)
Lemma send_or_cancel d j c d3 (canceled : bool) :
  entered d j c CONFLICT_FLAG_IGNORE_SAME_PEER d3 -> wait_flags j = CONFLICT_FLAG_IGNORE_SAME_PEER ->
  test_bit INTERVAL_RECEIVED j = false ->
  good (i_addr j) d (match c with
          | None => Ret (SUBMIT, set_bit INTERVAL_READY_TO_SEND (i_addr j) d3)
          | Some _ => Ret (if canceled then CANCEL else WAIT, d3) end).
Proof.
  intros [Hw Hr Hinv Hp Hfree Hwait] Hwf Hrec. destruct c as [c|].
  - eexists _, _. split; [done|]. split; [|exact Hr]. destruct canceled; [|split; [by apply Hwait|exact Hw]].
    split_and!; try done. destruct Hp as (k & Hk & Hm & Hq & _). exists k. split_and!; [done|by destruct Hm as [-> | ->]|done].
  - eexists _, _. split; [done|]. split; [split; [|exact Hw]|exact Hr].
    apply (inv_settle ex (i_addr j)); [apply inv_set_stage; [done|by left|by right|done]|].
    intros k (k0 & Hk0 & ->)%elem_of_update Hka Hwk. exfalso. destruct Hp as (k1 & Hk1 & Hm & _ & Hs1).
    assert (k0 = k1) as -> by (apply (addr_inj _ _ _ (inv_tree _ _ Hinv)); [done|done|by destruct Hm as [-> | ->]]).
    rewrite changed_eq in Hwk by done. assert (test_bit INTERVAL_RECEIVED k1 = false) as Hr1.
    { destruct Hm as [-> | ->]; [done|]. by flag_simpl. }
    by rewrite waiting_sent in Hwk.
Qed.

Lemma resync_wait_flags j :
  i_type j = INTERVAL_RESYNC_WRITE -> test_bit INTERVAL_READY_TO_SEND j = false ->
  wait_flags j = CONFLICT_FLAG_IGNORE_SAME_PEER.
Proof. intros Ht Hr. unfold wait_flags, is_type. by rewrite Hr, bool_decide_true. Qed.

Lemma send_resync_request_fresh d i :
  settled d -> fresh d i -> i_flags i = 0 -> i_type i = INTERVAL_RESYNC_WRITE ->
  good (i_addr i) d (drbd_conflict_send_resync_request d i).
Proof.
  intros Hs Hf Hz Ht. unfold drbd_conflict_send_resync_request. destruct (clear_fresh d i Hf Hz) as [-> ->].
  destruct (enter_fresh d i i CONFLICT_FLAG_IGNORE_SAME_PEER Hs Hf Hz)
    as (c & d2 & d3 & He & Hem & Hins & Hent); [by left|by rewrite Ht|].
  rewrite He. cbn [obind]. rewrite Hem, Hins. cbn [obind]. pose proof (fresh_flags _ _ Hf) as Hfl.
  apply (send_or_cancel _ _ _ _ _ Hent); [apply resync_wait_flags; [done|by apply Hfl]|by apply Hfl].
Qed.

Lemma send_resync_request_linked d i j :
  linked d i j -> i_type j = INTERVAL_RESYNC_WRITE -> test_bit INTERVAL_READY_TO_SEND j = false ->
  good (i_addr i) d (drbd_conflict_send_resync_request d i).
Proof.
  intros Hl Ht Hr. unfold drbd_conflict_send_resync_request. rewrite (linked_obj _ _ _ Hl).
  destruct (enter_of_linked _ _ _ CONFLICT_FLAG_IGNORE_SAME_PEER Hl) as (c & d2 & He & Hem & Hent).
  rewrite He. cbn [obind]. rewrite Hem. cbn [obind]. rewrite <- (linked_addr _ _ _ Hl).
  apply (send_or_cancel _ _ _ _ _ Hent); [by apply resync_wait_flags|].
  pose proof (inv_stage _ _ (linked_inv _ _ _ Hl) j (linked_in _ _ _ Hl)) as Hst.
  unfold stage_ok, is_type in Hst. rewrite Hr, bool_decide_true in Hst by done.
  by destruct (test_bit INTERVAL_RECEIVED j).
Qed.

Lemma peer_read_linked d i j :
  linked d i j -> i_type i = INTERVAL_RESYNC_READ -> i_type j = INTERVAL_RESYNC_READ ->
  good (i_addr i) d (drbd_conflict_submit_peer_read d i).
Proof.
  intros Hl Hti Ht. unfold drbd_conflict_submit_peer_read.
  assert (drbd_interval_is_resync i = true) as -> by (unfold drbd_interval_is_resync; by rewrite Hti).
  cbn [orb]. rewrite (linked_obj _ _ _ Hl).
  destruct (enter_of_linked _ _ _ 0 Hl) as (c & d2 & He & Hem & Hent).
  rewrite He. cbn [obind]. rewrite Hem. cbn [obind].
  assert (drbd_interval_is_verify j = false) as -> by (unfold drbd_interval_is_verify; by rewrite Ht).
  pose proof (submit_or_cancel _ j _ _ (test_bit INTERVAL_CANCELED j) Hent) as Hgood.
  rewrite <- (linked_addr _ _ _ Hl).
  destruct c as [c|]; (apply Hgood; apply wait_flags_0; by rewrite Ht).
Qed.

Lemma peer_read_fresh d i :
  settled d -> fresh d i -> i_flags i = 0 -> i_type i = INTERVAL_RESYNC_READ ->
  good (i_addr i) d (drbd_conflict_submit_peer_read d i).
Proof.
  intros Hs Hf Hz Ht. unfold drbd_conflict_submit_peer_read.
  assert (drbd_interval_is_resync i = true) as -> by (unfold drbd_interval_is_resync; by rewrite Ht).
  cbn [orb]. destruct (clear_fresh d i Hf Hz) as [-> ->].
  destruct (find_conflict_spec ex d i 0 (proj1 Hs) (proj1 Hf)) as (c0 & d0 & He0 & _).
  set (i' := match c0 with Some _ => with_flags (Z.setbit (i_flags i) INTERVAL_CONFLICT) i | None => i end).
  destruct (enter_fresh d i i' 0 Hs Hf Hz) as (c & d2 & d3 & He & Hem & Hins & Hent);
    [subst i'; destruct c0; [by right|by left]|by rewrite Ht|].
  rewrite He0 in He. injection He as -> ->. rewrite He0. cbn [obind]. rewrite Hem.
  assert (drbd_interval_is_verify i = false) as -> by (unfold drbd_interval_is_verify; by rewrite Ht).
  pose proof (submit_or_cancel _ i _ _ (test_bit INTERVAL_CANCELED i) Hent) as Hgood. subst i'.
  destruct c as [c|]; rewrite Hins; cbn [obind negb orb];
    (apply Hgood; apply wait_flags_0; by rewrite Ht).
Qed.

(** Verify reads and lock intervals are inserted as submitted. *)
Lemma submitted_fresh d i c d2 d4 f :
  settled d -> fresh d i -> drbd_find_conflict d i 0 = Ret (c, d2) -> drbd_interval_is_write i = false ->
  tree_wf (requests d4) -> ints d4 ≡ₚ with_flags f i :: ints d2 -> d4 = set_requests (requests d4) d2 ->
  Z.testbit f INTERVAL_SUBMITTED = true -> Z.testbit f INTERVAL_SUBMIT_CONFLICT_QUEUED = false ->
  Z.testbit f INTERVAL_RECEIVED = false ->
  (c <> None -> drbd_interval_is_verify i = true /\ Z.testbit f INTERVAL_CONFLICT = true) ->
  settled d4 /\ running d4 = running d.
Proof.
  intros [Hinv Hw] Hf Hfc Hnw Hwf HL Hd Hs Hq Hr Hcf.
  destruct (find_conflict_spec ex d i 0 Hinv (proj1 Hf)) as (c' & d2' & Hfc' & Hinv2 & Hfr & Hc).
  rewrite Hfc in Hfc'. injection Hfc' as <- <-.
  destruct (frame_worker _ _ Hfr Hw) as [Hw2 Hr2]. destruct (rest_worker _ _ Hd Hw2) as [Hw4 Hr4].
  split; [split; [|done]|congruence]. destruct (frame_fresh _ _ _ Hfr Hf) as ([Hok Hal] & _ & Hn).
  eapply (inv_insert _ (with_flags f i) d2); try done.
  - intros Hns. unfold test_bit in Hns. cbn [i_flags with_flags] in Hns. congruence.
  - unfold stage_ok, test_bit. cbn [i_flags with_flags]. by rewrite Hr, andb_false_r.
  - intros _ k Hk Hfk Ho. change (drbd_interval_is_write (with_flags f i)) with (drbd_interval_is_write i).
    rewrite Hnw. split; [done|]. intros Hwk. destruct c as [c|]; [by apply Hcf|].
    destruct (Hc k Hk Ho) as [Hnb Hmk]. destruct (no_conflict_free d i k) as [_ Hno]; [by apply Hn|done|done|done|].
    by destruct (Hno Hwk).
  - unfold waiting, test_bit. cbn [i_flags with_flags]. by rewrite Hs.
Qed.

(** The flags after insertion, with or without the conflict mark. *)
Definition marked_flags (c : option drbd_interval) : Z :=
  match c with Some _ => Z.setbit 0 INTERVAL_CONFLICT | None => 0 end.

Lemma insert_marked d i c d2 :
  settled d -> fresh d i -> i_flags i = 0 -> drbd_find_conflict d i 0 = Ret (c, d2) ->
  exists d3, insert_request d2 (with_flags (marked_flags c) i) = Ret d3 /\ tree_wf (requests d3) /\
    ints d3 ≡ₚ with_flags (marked_flags c) i :: ints d2 /\ d3 = set_requests (requests d3) d2.
Proof.
  intros [Hinv Hw] Hf Hz Hfc.
  destruct (find_conflict_spec ex d i 0 Hinv (proj1 Hf)) as (c' & d2' & Hfc' & Hinv2 & Hfr & _).
  rewrite Hfc in Hfc'. injection Hfc' as <- <-. destruct (frame_fresh _ _ _ Hfr Hf) as (Hok & _ & Hn).
  by apply (insert_request_spec ex).
Qed.

Lemma mark_if_conflict i c :
  i_flags i = 0 ->
  match c with Some _ => with_flags (Z.setbit (i_flags i) INTERVAL_CONFLICT) i | None => i end =
  with_flags (marked_flags c) i.
Proof. intros Hz. destruct c; simpl; [by rewrite Hz|]. rewrite <- Hz. by destruct i. Qed.

Lemma find_conflict_total d i flags :
  settled d -> fresh d i -> exists c d2, drbd_find_conflict d i flags = Ret (c, d2).
Proof.
  intros [Hinv _] Hf. destruct (find_conflict_spec ex d i flags Hinv (proj1 Hf)) as (c & d2 & ? & _). eauto.
Qed.

Lemma ov_request_fresh d i :
  settled d -> fresh d i -> i_flags i = 0 -> i_type i = INTERVAL_OV_READ_SOURCE ->
  good (i_addr i) d (drbd_conflict_send_ov_request d i).
Proof.
  intros Hs Hf Hz Ht. unfold drbd_conflict_send_ov_request.
  destruct (find_conflict_total d i 0 Hs Hf) as (c & d2 & Hfc). rewrite Hfc. cbn [obind]. cbv zeta.
  rewrite mark_if_conflict by done. destruct (insert_marked d i c d2 Hs Hf Hz Hfc) as (d3 & -> & Hwf & HL & Hd).
  cbn [obind]. change (i_addr (with_flags (marked_flags c) i)) with (i_addr i).
  destruct (set_bit_inserted INTERVAL_READY_TO_SEND _ _ _ Hwf HL) as [Hwf1 HL1].
  destruct (set_bit_inserted INTERVAL_SUBMITTED _ _ _ Hwf1 HL1) as [Hwf2 HL2].
  eexists _, _. split; [done|]. eapply (submitted_fresh d i c d2); [done|done|done| |exact Hwf2|exact HL2|by rewrite Hd|..].
  - unfold drbd_interval_is_write. by rewrite Ht.
  - by destruct c.
  - by destruct c.
  - by destruct c.
  - intros Hc. split; [unfold drbd_interval_is_verify; by rewrite Ht|]. by destruct c.
Qed.

Lemma ov_target_fresh d i :
  settled d -> fresh d i -> i_flags i = 0 -> i_type i = INTERVAL_OV_READ_TARGET ->
  good (i_addr i) d (drbd_conflict_submit_peer_read d i).
Proof.
  intros Hs Hf Hz Ht. unfold drbd_conflict_submit_peer_read.
  assert (is_type INTERVAL_OV_READ_TARGET i = true) as -> by (unfold is_type; by rewrite bool_decide_true).
  rewrite orb_true_r. destruct (clear_fresh d i Hf Hz) as [-> ->].
  destruct (find_conflict_total d i 0 Hs Hf) as (c & d2 & Hfc). rewrite Hfc. cbn [obind].
  assert (drbd_interval_empty d2 i = true) as ->.
  { destruct (find_conflict_spec ex d i 0 (proj1 Hs) (proj1 Hf)) as (c' & d2' & Hfc' & _ & Hfr & _).
    rewrite Hfc in Hfc'. injection Hfc' as <- <-. by eapply empty_fresh, frame_fresh. }
  assert (drbd_interval_is_verify i = true) as Hv by (unfold drbd_interval_is_verify; by rewrite Ht).
  rewrite Hv, orb_true_r. destruct (insert_marked d i c d2 Hs Hf Hz Hfc) as (d3 & Hins & Hwf & HL & Hd).
  rewrite <- (mark_if_conflict i c Hz) in Hins.
  replace (insert_request d2 _) with (Ret d3) by (rewrite <- Hins; by destruct c).
  cbn [obind]. destruct (set_bit_inserted INTERVAL_SUBMITTED _ _ _ Hwf HL) as [Hwf1 HL1].
  eexists _, _. split; [done|]. eapply (submitted_fresh d i c d2); [done|done|done| |exact Hwf1|exact HL1|by rewrite Hd|..].
  - unfold drbd_interval_is_write. by rewrite Ht.
  - by destruct c.
  - by destruct c.
  - by destruct c.
  - intros Hc. split; [done|]. by destruct c.
Qed.

Lemma peers_lock_fresh d i :
  settled d -> fresh d i -> i_flags i = 0 -> i_type i = INTERVAL_PEERS_IN_SYNC_LOCK ->
  exists r d', peers_in_sync_lock d i = Ret (r, d') /\ settled d' /\ running d' = running d.
Proof.
  intros Hs Hf Hz Ht. unfold peers_in_sync_lock. destruct Hs as [Hinv Hw].
  destruct (find_conflict_spec ex d i 0 Hinv (proj1 Hf)) as (c & d2 & Hfc & Hinv2 & Hfr & _). rewrite Hfc. cbn [obind].
  destruct (frame_worker _ _ Hfr Hw) as [Hw2 Hr2]. destruct c as [c|].
  { eexists _, _. split; [done|]. by split. }
  destruct (insert_marked d i None d2 (conj Hinv Hw) Hf Hz Hfc) as (d3 & Hins & Hwf & HL & Hd).
  rewrite <- (mark_if_conflict i None Hz) in Hins, HL. rewrite Hins. cbn [obind].
  destruct (set_bit_inserted INTERVAL_SUBMITTED _ _ _ Hwf HL) as [Hwf1 HL1].
  eexists _, _. split; [done|].
  eapply (submitted_fresh d i None d2); [done|done|done| |exact Hwf1|exact HL1|by rewrite Hd|by rewrite Hz..|done].
  unfold drbd_interval_is_write. by rewrite Ht.
Qed.

(** ** Completion, removal, cancelation *)

Notation good' d r := (exists d', r = Ret d' /\ settled d' /\ running d' = running d).

Lemma finish_spec b d i i0 :
  settled d -> i0 ∈ ints d -> i_addr i0 = i_addr i -> b = INTERVAL_BACKING_COMPLETED \/ b = INTERVAL_COMPLETED ->
  good' d (let d := set_bit b (i_addr i) d in drbd_release_conflicts d (object d i)).
Proof.
  intros [Hinv Hw] Hi Ha Hb. cbv zeta. rewrite <- Ha.
  pose proof (inv_finish ex b i0 d Hinv Hi Hb) as Hinv1.
  set (i1 := changed (i_addr i0) (fun f => Z.setbit f b) i0).
  assert (i1 ∈ ints (set_bit b (i_addr i0) d)) as Hi1 by (apply elem_of_update; eauto).
  rewrite (object_linked _ i i1) by (done || apply (inv_tree _ _ Hinv1)).
  destruct (release_spec ex i1 (set_bit b (i_addr i0) d)) as (d' & -> & Hinv' & Hw' & Hr');
    [exact Hinv1|exact Hw|by apply (inv_obj_ok _ _ _ Hinv1)|]. exists d'. by split_and!.
Qed.

Lemma remove_peer_settled d i i0 :
  settled d -> i0 ∈ ints d -> i_addr i0 = i_addr i -> test_bit INTERVAL_SUBMIT_CONFLICT_QUEUED i0 = false ->
  good' d (drbd_remove_peer_req_interval d i).
Proof. intros [Hinv Hw] Hi Ha Hq. apply (remove_peer_req_spec i d i0); try done. by apply inv_any. Qed.

Lemma unlock_spec d i i0 :
  settled d -> i0 ∈ ints d -> i_addr i0 = i_addr i -> i_type i0 = INTERVAL_PEERS_IN_SYNC_LOCK ->
  test_bit INTERVAL_SUBMIT_CONFLICT_QUEUED i0 = false -> good' d (peers_in_sync_unlock d i).
Proof.
  intros Hs Hi Ha Ht Hq. pose proof (remove_peer_settled d i i0 Hs Hi Ha Hq) as Hg.
  unfold drbd_remove_peer_req_interval in Hg. unfold peers_in_sync_unlock.
  rewrite (object_linked d i i0) in Hg |- * by (done || apply (inv_tree _ _ (proj1 Hs))).
  assert (drbd_interval_is_verify i0 = false) as Hv by (unfold drbd_interval_is_verify; by rewrite Ht).
  by rewrite Hv in Hg.
Qed.

Lemma update_other a g d j : i_addr j <> a -> j ∈ ints d -> j ∈ ints (update a g d).
Proof. intros Hne Hj. apply elem_of_update. exists j. by rewrite changed_ne. Qed.

Lemma cancel_loop_spec peer l d b :
  inv ex d -> (forall i, i ∈ l -> i ∈ ints d) -> NoDup (addrs l) ->
  let '(q, d') := cancel_loop d peer b l in
  inv ex d' /\ running d' = running d /\ worker_queued d' = worker_queued d /\
  (q = true \/ q = b /\ submit_conflict d' = submit_conflict d).
Proof.
  revert d b. induction l as [|i l IH]; intros d b Hinv Hl Hnd; cbn [cancel_loop]; [by split_and!; auto|].
  rewrite fmap_cons in Hnd. apply NoDup_cons in Hnd as [Hni Hnd]. assert (i ∈ ints d) as Hi by (apply Hl; by left).
  assert (forall j, j ∈ l -> i_addr j <> i_addr i /\ j ∈ ints d) as Hl'.
  { intros j Hj. split; [|apply Hl; by right]. intros He. apply Hni. rewrite <- He. by apply list_elem_of_fmap_2. }
  destruct (cancel_skips d peer i) eqn:E; [apply IH; [done|intros; by apply Hl'|done]|].
  unfold cancel_skips in E. rewrite !orb_false_iff in E. destruct E as [[Hres _] [[Hs _] _]].
  apply negb_false_iff in Hres.
  set (d1 := set_bit INTERVAL_CANCELED (i_addr i) d). pose proof (inv_set_canceled ex (i_addr i) d Hinv) as Hinv1.
  set (i1 := with_flags (Z.setbit (i_flags i) INTERVAL_CANCELED) i).
  assert (i1 ∈ ints d1) as Hi1.
  { apply (elem_of_update (i_addr i) (fun f => Z.setbit f INTERVAL_CANCELED) d). exists i. split; [done|].
    by rewrite changed_eq. }
  destruct (test_bit INTERVAL_SUBMIT_CONFLICT_QUEUED i) eqn:Hq.
  { refine (IH d1 b Hinv1 _ Hnd). intros j Hj. by apply update_other; apply Hl'. }
  destruct (queue_by_type_some i1 (submit_conflict d1)) as [w Hw].
  { unfold drbd_interval_is_resync in Hres. simpl. by destruct (i_type i). }
  assert (inv ex (enqueue i1 w d1)) as Hinv2.
  { apply inv_enqueue; try done; [by apply inv_any| |]; subst i1; by flag_simpl. }
  assert (forall j, j ∈ l -> j ∈ ints (enqueue i1 w d1)) as Hl2.
  { intros j Hj. destruct (Hl' j Hj) as [Hne Hj']. apply enqueue_other; [done|]. by apply update_other. }
  match goal with |- context [cancel_loop ?d2 peer true l] => assert (d2 = enqueue i1 w d1) as -> end.
  { unfold queue_by_type in Hw. unfold drbd_interval_is_resync in Hres. simpl in Hw. subst d1.
    by destruct (i_type i); try done; injection Hw as <-. }
  specialize (IH (enqueue i1 w d1) true Hinv2 Hl2 Hnd).
  destruct (cancel_loop _ peer true l) as [q d']. destruct IH as (? & ? & ? & [?|[? ?]]); split_and!; auto.
Qed.

Lemma cancel_spec d peer :
  settled d -> settled (drbd_cancel_conflicting_resync_requests d peer) /\
               running (drbd_cancel_conflicting_resync_requests d peer) = running d.
Proof.
  intros [Hinv Hw]. unfold drbd_cancel_conflicting_resync_requests.
  pose proof (cancel_loop_spec peer (ints d) d false Hinv (fun i Hi => Hi) (wf_addr _ (inv_tree _ _ Hinv))) as Hc.
  destruct (cancel_loop d peer false (ints d)) as [q d']. destruct Hc as (Hi & Hr & Hq & Hs). destruct q.
  - split; [|done]. split; [by destruct Hi; split|by left].
  - destruct Hs as [?|[_ Hs]]; [done|]. split; [|done]. split; [done|]. unfold worker_ok. by rewrite Hq, Hs.
Qed.

(** ** The work function *)

Lemma pop_linked d t a w :
  settled d -> queued_of (running d) ≡ₚ (t, a) :: queued_of w ->
  exists i0, object (set_running w d) (by_addr a) = i0 /\ i_type i0 = t /\
    linked (set_running w d) i0 (with_flags (Z.clearbit (i_flags i0) INTERVAL_SUBMIT_CONFLICT_QUEUED) i0).
Proof.
  intros [Hinv Hw] Hp.
  destruct (inv_inqueue _ _ Hinv t a) as (i0 & Hi0 & Ha & Ht & Hq).
  { unfold queued. rewrite elem_of_app. right. rewrite Hp. by left. }
  exists i0. split_and!; [|done|].
  - apply object_linked; [apply (inv_tree _ _ Hinv)|done|done].
  - apply linked_intro; [|exact Hw|apply (inv_tree _ _ Hinv)|done|done|by apply (inv_queued _ _ Hinv)].
    rewrite Ha. by apply (inv_dequeue ex t).
Qed.

(** A request that is in the tree and not queued. *)
Lemma reply_linked d i0 :
  settled d -> i0 ∈ ints d -> test_bit INTERVAL_SUBMIT_CONFLICT_QUEUED i0 = false ->
  test_bit INTERVAL_SUBMITTED i0 = false ->
  linked d i0 (with_flags (Z.clearbit (i_flags i0) INTERVAL_SUBMIT_CONFLICT_QUEUED) i0).
Proof.
  intros [Hinv Hw] Hi Hq Hs. apply linked_intro; [|done|apply (inv_tree _ _ Hinv)|done|done|done].
  apply inv_any, (inv_change ex (i_addr i0) (fun f => Z.clearbit f INTERVAL_SUBMIT_CONFLICT_QUEUED)); [done|].
  intros j Hj Ha. rewrite (addr_inj _ _ _ (inv_tree _ _ Hinv) Hj Hi Ha). unfold grows. flag_simpl.
  split_and!; try done. by right.
Qed.

Lemma do_submit_conflict_section_spec d :
  settled d ->
  exists r d', do_submit_conflict_section d = Ret (r, d') /\
    match r with
    | None => running d = empty_worker /\ d' = d
    | Some (x, i) => outcome_ok (i_addr i) x d' /\ S (worker_len (running d')) = worker_len (running d)
    end.
Proof.
  intros Hs. unfold do_submit_conflict_section.
  destruct (running d) as [[|a l1] [|b l2] [|c l3] [|e l4]] eqn:Er; cbn [resync_writes resync_reads writes peer_writes].
  1: { exists None, d. by split_and!. }
  1: destruct (pop_linked d INTERVAL_PEER_WRITE e (mk_worker [] [] [] l4) Hs) as (i0 & -> & Ht & Hl);
       [by rewrite Er|];
     destruct (submit_peer_write_linked _ _ _ Hl Ht) as (r & d' & -> & Hs' & Hr').
  2, 3: destruct (pop_linked d INTERVAL_LOCAL_WRITE c (mk_worker [] [] l3 (peer_writes (running d))) Hs)
         as (i0 & Hobj & Ht & Hl); [by rewrite Er|]; rewrite Er in Hobj, Hl;
       cbn [resync_reads writes peer_writes] in Hobj, Hl; rewrite Hobj;
       destruct (submit_write_linked _ _ _ Hl Ht) as (r & d' & -> & Hs' & Hr').
  4, 5, 6, 7: destruct (pop_linked d INTERVAL_RESYNC_READ b (mk_worker [] l2 (writes (running d)) (peer_writes (running d))) Hs)
         as (i0 & Hobj & Ht & Hl); [by rewrite Er|]; rewrite Er in Hobj, Hl;
       cbn [resync_reads writes peer_writes] in Hobj, Hl; rewrite Hobj;
       destruct (peer_read_linked _ _ _ Hl Ht Ht) as (r & d' & -> & Hs' & Hr').
  8-15: destruct (pop_linked d INTERVAL_RESYNC_WRITE a
           (mk_worker l1 (resync_reads (running d)) (writes (running d)) (peer_writes (running d))) Hs)
         as (i0 & Hobj & Ht & Hl); [by rewrite Er|]; rewrite Er in Hobj, Hl;
       cbn [resync_reads writes peer_writes] in Hobj, Hl; rewrite Hobj;
       (destruct (test_bit INTERVAL_READY_TO_SEND i0) eqn:Hrdy; cbn [negb];
         [destruct (submit_resync_request_linked _ _ _ Hl) as (r & d' & -> & Hs' & Hr'); [by flag_simpl|]
         |destruct (send_resync_request_linked _ _ _ Hl Ht) as (r & d' & -> & Hs' & Hr'); [by flag_simpl|]]).
  all: cbn [obind]; eexists _, _; split; [done|]; cbn beta iota; (split; [exact Hs'|]); rewrite Hr';
    unfold worker_len; simpl; rewrite ?length_app; simpl; lia.
Qed.

(** The owner removes a canceled request at once. *)
Lemma cleanup_spec r i d :
  outcome_ok (i_addr i) r d -> exists d', cleanup_canceled r i d = Ret d' /\ settled d' /\ running d' = running d.
Proof.
  destruct r; simpl; try (intros Hs; by exists d). intros (Hinv & Hw & k & Hk & Ha & Hq). by apply (remove_peer_req_spec i d k).
Qed.

Lemma do_submit_conflict_next_spec d :
  settled d ->
  exists r d', do_submit_conflict_next d = Ret (r, d') /\ settled d' /\
    (r = None -> running d = empty_worker /\ d' = d) /\
    (r <> None -> S (worker_len (running d')) = worker_len (running d)).
Proof.
  intros Hs. unfold do_submit_conflict_next. destruct (do_submit_conflict_section_spec d Hs) as ([[x i]|] & d1 & -> & Hr); cbn [obind].
  - destruct Hr as [Hok Hlen]. destruct (cleanup_spec x i d1 Hok) as (d' & -> & Hs' & Hr). cbn [obind].
    eexists _, _. split; [done|]. split; [done|]. split; [done|]. intros _. by rewrite Hr.
  - destruct Hr as [Hr ->]. eexists _, _. split; [done|]. by split_and!.
Qed.

Lemma splice_spec d : settled d -> running d = empty_worker -> settled (splice d).
Proof.
  intros [Hinv Hw] Hr.
  assert (queued (splice d) ≡ₚ queued d) as HQ.
  { unfold queued. simpl. rewrite Hr. by rewrite app_nil_r. }
  split; [|by right]. destruct Hinv. split; try done.
  - intros i Hi Hq. rewrite HQ. auto.
  - intros t a. rewrite HQ. apply inv_inqueue0.
  - by rewrite HQ.
Qed.

Lemma do_submit_conflict_loop_spec fuel d :
  settled d -> (worker_len (running d) < fuel)%nat ->
  exists d', do_submit_conflict_loop fuel d = Ret d' /\ settled d' /\ running d' = empty_worker.
Proof.
  revert d. induction fuel as [|fuel IH]; intros d Hs Hf; [lia|]. cbn [do_submit_conflict_loop].
  destruct (do_submit_conflict_next_spec d Hs) as (r & d' & -> & Hs' & Hn & Hsome). cbn [obind]. destruct r as [r|].
  - apply IH; [done|]. specialize (Hsome ltac:(done)). lia.
  - destruct (Hn eq_refl) as [Hr ->]. eauto.
Qed.

Lemma do_submit_conflict_spec d :
  settled d -> running d = empty_worker ->
  exists d', drbd_do_submit_conflict d = Ret d' /\ settled d' /\ running d' = empty_worker.
Proof.
  intros Hs Hr. apply do_submit_conflict_loop_spec; [by apply splice_spec|]. simpl. lia.
Qed.

End settled.

(** ** Interleavings *)

(** The device, with what the threads are about to do and have left undone: the
    requests whose owner has left its critical section to take them out of the tree and
    free them in the next one, and the requests that wait since a write in their way was
    taken out of the tree without a call of [drbd_release_conflicts]. *)
Record system := mk_system { dev : drbd_device; leaving : list Z; unreleased : list Z }.

(** Only while they wait. *)
Definition still_waiting (d : drbd_device) (l : list Z) : list Z :=
  filter (fun a => match find_addr a (requests d) with Some i => waiting i | None => false end = true) l.

Definition continue (s : system) (d : drbd_device) : system :=
  mk_system d (leaving s) (still_waiting d (unreleased s)).

(** After a critical section for the request at [a]. *)
Definition continue_with (s : system) (a : Z) (r : action) (d : drbd_device) : system :=
  mk_system d (match r with CANCEL => a :: leaving s | _ => leaving s end) (still_waiting d (unreleased s)).

(** The requests that wait with [i] in their way. *)
Definition left_behind (d : drbd_device) (i : drbd_interval) : list Z :=
  i_addr <$> filter (fun j => waiting j = true /\ olap j i /\ find_conflict_body d j (wait_flags j) i = Break) (ints d).

(** One critical section of some thread.  New objects have an address that is
    not in the tree; a request is handled by one owner at a time; requests that are
    removed in the section that decides to do so are not queued (they were submitted or
    sent); a work function runs alone. *)
Inductive critical_section (s : system) : system -> Prop :=
  | st_alloc a p : (forall j, j ∈ ints (dev s) -> i_addr j <> a) -> critical_section s (continue s (set_peer a p (dev s)))
  | st_postponed a : critical_section s (continue s (set_postponed a (dev s)))
  | st_write i r d' :
      fresh (dev s) i -> i_flags i = 0 -> i_type i = INTERVAL_LOCAL_WRITE ->
      drbd_conflict_submit_write (dev s) i = Ret (r, d') -> critical_section s (continue_with s (i_addr i) r d')
  | st_peer_write i tp r d' :
      fresh (dev s) i -> i_flags i = 0 -> i_type i = INTERVAL_PEER_WRITE ->
      receive_Data_submit (dev s) i tp = Ret (r, d') -> critical_section s (continue_with s (i_addr i) r d')
  | st_resync_request i r d' :
      fresh (dev s) i -> i_flags i = 0 -> i_type i = INTERVAL_RESYNC_WRITE ->
      drbd_conflict_send_resync_request (dev s) i = Ret (r, d') -> critical_section s (continue_with s (i_addr i) r d')
  | st_resync_reply i r d' :
      i ∈ ints (dev s) -> i_addr i ∉ leaving s -> test_bit INTERVAL_READY_TO_SEND i = true -> test_bit INTERVAL_SUBMITTED i = false ->
      test_bit INTERVAL_SUBMIT_CONFLICT_QUEUED i = false ->
      drbd_conflict_submit_resync_request (dev s) i = Ret (r, d') -> critical_section s (continue_with s (i_addr i) r d')
  | st_is_in_sync i :
      i ∈ ints (dev s) -> i_addr i ∉ leaving s -> test_bit INTERVAL_READY_TO_SEND i = true -> test_bit INTERVAL_SUBMITTED i = false ->
      critical_section s (continue_with s (i_addr i) CANCEL (set_bit INTERVAL_RECEIVED (i_addr i) (dev s)))
  | st_peer_read i r d' :
      fresh (dev s) i -> i_flags i = 0 -> i_type i = INTERVAL_RESYNC_READ \/ i_type i = INTERVAL_OV_READ_TARGET ->
      drbd_conflict_submit_peer_read (dev s) i = Ret (r, d') -> critical_section s (continue_with s (i_addr i) r d')
  | st_ov_request i r d' :
      fresh (dev s) i -> i_flags i = 0 -> i_type i = INTERVAL_OV_READ_SOURCE ->
      drbd_conflict_send_ov_request (dev s) i = Ret (r, d') -> critical_section s (continue_with s (i_addr i) r d')
  | st_lock i r d' :
      fresh (dev s) i -> i_flags i = 0 -> i_type i = INTERVAL_PEERS_IN_SYNC_LOCK ->
      peers_in_sync_lock (dev s) i = Ret (r, d') -> critical_section s (continue s d')
  | st_unlock i d' :
      i ∈ ints (dev s) -> i_type i = INTERVAL_PEERS_IN_SYNC_LOCK -> peers_in_sync_unlock (dev s) i = Ret d' ->
      critical_section s (continue s d')
  | st_remove i d' :
      i ∈ ints (dev s) -> i_addr i ∉ leaving s -> test_bit INTERVAL_SUBMIT_CONFLICT_QUEUED i = false ->
      drbd_remove_peer_req_interval (dev s) i = Ret d' -> critical_section s (continue s d')
  | st_leave i d' :
      i ∈ ints (dev s) -> i_addr i ∈ leaving s -> drbd_remove_peer_req_interval (dev s) i = Ret d' ->
      critical_section s (mk_system d' (filter (fun a => a <> i_addr i) (leaving s)) (still_waiting d' (unreleased s)))
  | st_endio i d' : i ∈ ints (dev s) -> request_endio_interval (dev s) i = Ret d' -> critical_section s (continue s d')
  | st_complete i d' : i ∈ ints (dev s) -> req_complete_interval (dev s) i = Ret d' -> critical_section s (continue s d')
  | st_done i :
      i ∈ ints (dev s) -> test_bit INTERVAL_SUBMITTED i = true ->
      critical_section s (let d' := drbd_remove_request_interval (dev s) i in
        mk_system d' (leaving s) (still_waiting d' (left_behind (dev s) i ++ unreleased s)))
  | st_cancel peer : critical_section s (continue s (drbd_cancel_conflicting_resync_requests (dev s) peer))
  | st_worker : running (dev s) = empty_worker -> critical_section s (continue s (splice (dev s)))
  | st_worker_idle d' : do_submit_conflict_section (dev s) = Ret (None, d') -> critical_section s (continue s d')
  | st_worker_next i r d' : do_submit_conflict_section (dev s) = Ret (Some (r, i), d') ->
      critical_section s (continue_with s (i_addr i) r d').

(** No request that its owner is about to remove has been queued.  The code does
    nothing to prevent it; [is_in_sync_race] and [cancel_race] are runs in which it
    happens, and a freed request stays on the queue. *)
Definition unraced (s : system) : Prop :=
  forall i, i ∈ ints (dev s) -> i_addr i ∈ leaving s -> test_bit INTERVAL_SUBMIT_CONFLICT_QUEUED i = false.

Definition dev_step (s s' : system) : Prop := critical_section s s' /\ unraced s'.

(** The requests that may wait without a conflict. *)
Notation exempt s := (leaving s ++ unreleased s).

Lemma settled_drop E E' d :
  (forall i, i ∈ ints d -> waiting i = true -> i_addr i ∈ E -> i_addr i ∈ E') -> settled E d -> settled E' d.
Proof.
  intros HE [Hinv Hw]. split; [|done]. pose proof (inv_wait _ _ Hinv) as Hwait. destruct Hinv. split; try done.
  intros i Hi Hwi Hex. apply Hwait; [done|done|]. intros Hin. apply Hex, HE; done.
Qed.

Lemma settled_still l u d : settled (l ++ u) d -> settled (l ++ still_waiting d u) d.
Proof.
  intros Hs. pose proof (inv_tree _ _ (proj1 Hs)) as Hwf. revert Hs. apply settled_drop. intros i Hi Hw. rewrite !elem_of_app. intros [|Hu]; [by left|right].
  apply list_elem_of_filter. by rewrite find_addr_some.
Qed.

Lemma inv_set_peer ex a p d :
  inv ex d -> (forall j, j ∈ ints d -> i_addr j <> a) -> inv ex (set_peer a p d).
Proof.
  intros Hinv Hn. destruct Hinv. split; try done. intros i Hi Hw Hex.
  destruct (inv_wait0 i Hi Hw Hex) as (j & Hj & Ho & Hb). exists j. split_and!; [done|done|].
  rewrite <- Hb. unfold find_conflict_body. rewrite !defer_eq. unfold drbd_interval_same_peer.
  cbn [peer_device set_peer]. rewrite (proj2 (Z.eqb_neq (i_addr i) a)), (proj2 (Z.eqb_neq (i_addr j) a)) by (by apply Hn).
  done.
Qed.

(** After a critical section that handles the request at [a]. *)
Lemma settled_with s a r d' :
  outcome_ok (exempt s) a r d' -> settled (exempt (continue_with s a r d')) d'.
Proof. destruct r; intros Hok; try exact (settled_still _ _ _ Hok). destruct Hok as (Hinv & Hw & _). exact (settled_still (a :: leaving s) _ _ (conj Hinv Hw)). Qed.

(** A write leaves without a release: those that waited for it are left behind. *)
Lemma req_done_settled ex d i :
  settled ex d -> i ∈ ints d -> test_bit INTERVAL_SUBMITTED i = true ->
  settled (left_behind d i ++ ex) (drbd_remove_request_interval d i).
Proof.
  intros [Hinv Hw] Hi Hs. split; [|done]. unfold drbd_remove_request_interval.
  assert (forall j, j ∈ ints d -> i_addr j = i_addr i -> j = i /\ test_bit INTERVAL_SUBMIT_CONFLICT_QUEUED j = false) as Hu.
  { intros j Hj He. rewrite (addr_inj _ _ _ (inv_tree _ _ Hinv) Hj Hi He). split; [done|].
    destruct (test_bit INTERVAL_SUBMIT_CONFLICT_QUEUED i) eqn:Hq; [|done]. destruct (inv_queued _ _ Hinv i Hi Hq). congruence. }
  pose proof (inv_remove ex i d Hinv Hu) as Hr. pose proof (remove_request_ints _ _ i Hinv) as HL.
  destruct Hr as [? ? ? ? ? ? ? ? _]. split; try done.
  intros j. rewrite HL. intros [Hne Hj]%list_elem_of_filter Hwj Hex. rewrite elem_of_app in Hex.
  destruct (inv_wait _ _ Hinv j Hj Hwj) as (k & Hk & Ho & Hb); [tauto|].
  exists k. split_and!; [|done|done]. rewrite HL. apply list_elem_of_filter. split; [|done].
  intros He. destruct (Hu k Hk He) as [-> _]. apply Hex. left. by apply list_elem_of_fmap_2, list_elem_of_filter.
Qed.

(** A write that is done on both levels leaves nobody behind. *)
Lemma done_leaves_nobody d i :
  test_bit INTERVAL_COMPLETED i = true -> test_bit INTERVAL_BACKING_COMPLETED i = true -> left_behind d i = [].
Proof.
  intros Hc Hb. unfold left_behind. induction (ints d) as [|j l IH]; [done|]. rewrite filter_cons_False; [done|].
  intros (_ & _ & Hbr). by apply (done_never_break d j (wait_flags j) i Hc Hb).
Qed.

Lemma in_sync_settled s i :
  settled (exempt s) (dev s) -> i ∈ ints (dev s) -> test_bit INTERVAL_READY_TO_SEND i = true ->
  settled (i_addr i :: exempt s) (set_bit INTERVAL_RECEIVED (i_addr i) (dev s)).
Proof.
  intros [Hinv Hw] Hi Hr. split; [|done]. apply inv_set_stage; [by apply inv_any|by left|by left|].
  intros _ j Hj Ha. by rewrite (addr_inj _ _ _ (inv_tree _ _ Hinv) Hj Hi Ha).
Qed.

Lemma leave_settled s i d' :
  settled (exempt s) (dev s) -> i ∈ ints (dev s) -> test_bit INTERVAL_SUBMIT_CONFLICT_QUEUED i = false ->
  drbd_remove_peer_req_interval (dev s) i = Ret d' ->
  settled (filter (fun a => a <> i_addr i) (leaving s) ++ unreleased s) d'.
Proof.
  intros [Hinv Hw] Hi Hq Hrun. set (E := filter _ _ ++ _).
  destruct (remove_peer_req_spec E i (dev s) i) as (d1 & Hrun1 & Hs & _); try done; [|congruence].
  eapply inv_weaken; [exact Hinv|]. intros a. rewrite elem_of_cons. unfold E. rewrite !elem_of_app, list_elem_of_filter.
  destruct (decide (a = i_addr i)); tauto.
Qed.

Lemma section_settled s s' : unraced s -> settled (exempt s) (dev s) -> critical_section s s' -> settled (exempt s') (dev s').
Proof.
  intros Hun Hs Hst. pose proof Hs as [Hinv Hw].
  destruct Hst as [a p Hn|a|i r d' Hf Hz Ht Hrun|i tp r d' Hf Hz Ht Hrun|i r d' Hf Hz Ht Hrun|i r d' Hi Hl Hr Hsub Hq Hrun|i Hi Hl Hr Hsub
    |i r d' Hf Hz Ht Hrun|i r d' Hf Hz Ht Hrun|i r d' Hf Hz Ht Hrun|i d' Hi Ht Hrun|i d' Hi Hl Hq Hrun|i d' Hi Hl Hrun
    |i d' Hi Hrun|i d' Hi Hrun|i Hi Hsub|peer|Hrun|d' Hrun|i r d' Hrun].
  all: match goal with
    | |- context [continue_with _ _ CANCEL _] => apply (settled_still (i_addr i :: leaving s))
    | |- context [continue_with] => apply settled_with
    | _ => apply settled_still end.
  - split; [by apply inv_set_peer|done].
  - split; [by destruct Hinv; split|done].
  - destruct (submit_write_fresh _ _ i Hs Hf Hz Ht) as (? & ? & E & ? & _). rewrite Hrun in E. by simplify_eq.
  - destruct (receive_data_fresh _ _ i tp Hs Hf Hz Ht) as [E|(? & ? & E & ? & _)]; rewrite Hrun in E; by simplify_eq.
  - destruct (send_resync_request_fresh _ _ i Hs Hf Hz Ht) as (? & ? & E & ? & _). rewrite Hrun in E. by simplify_eq.
  - destruct (submit_resync_request_linked _ _ i _ (reply_linked _ _ i Hs Hi Hq Hsub)) as (? & ? & E & ? & _); [by flag_simpl|]. rewrite Hrun in E. by simplify_eq.
  - by apply in_sync_settled.
  - destruct Ht as [Ht|Ht].
    + destruct (peer_read_fresh _ _ i Hs Hf Hz Ht) as (? & ? & E & ? & _). rewrite Hrun in E. by simplify_eq.
    + destruct (ov_target_fresh _ _ i Hs Hf Hz Ht) as (? & ? & E & ? & _). rewrite Hrun in E. by simplify_eq.
  - destruct (ov_request_fresh _ _ i Hs Hf Hz Ht) as (? & ? & E & ? & _). rewrite Hrun in E. by simplify_eq.
  - destruct (peers_lock_fresh _ _ i Hs Hf Hz Ht) as (? & ? & E & ? & _). rewrite Hrun in E. by simplify_eq.
  - destruct (unlock_spec _ _ i i Hs Hi eq_refl Ht) as (? & E & ? & _); [|rewrite Hrun in E; by simplify_eq].
    destruct (test_bit INTERVAL_SUBMIT_CONFLICT_QUEUED i) eqn:Hq; [|done].
    destruct (inv_queued _ _ Hinv i Hi Hq) as [Hsub _]. pose proof (inv_types _ _ Hinv i Hi Hsub) as Hty. by rewrite Ht in Hty.
  - destruct (remove_peer_settled _ _ i i Hs Hi eq_refl Hq) as (? & E & ? & _). rewrite Hrun in E. by simplify_eq.
  - apply leave_settled; try done. by apply Hun.
  - destruct (finish_spec _ INTERVAL_BACKING_COMPLETED _ i i Hs Hi eq_refl) as (? & E & ? & _); [by left|]. unfold request_endio_interval in Hrun. cbv zeta in E, Hrun. rewrite Hrun in E. by simplify_eq.
  - destruct (finish_spec _ INTERVAL_COMPLETED _ i i Hs Hi eq_refl) as (? & E & ? & _); [by right|]. unfold req_complete_interval in Hrun. cbv zeta in E, Hrun. rewrite Hrun in E. by simplify_eq.
  - eapply settled_drop; [|by apply req_done_settled]. intros j _ _. rewrite !elem_of_app. tauto.
  - by apply cancel_spec.
  - by apply splice_spec.
  - destruct (do_submit_conflict_section_spec _ _ Hs) as (? & ? & Hrun' & Hr). rewrite Hrun in Hrun'. simplify_eq. by destruct Hr as [_ ->].
  - destruct (do_submit_conflict_section_spec _ _ Hs) as (? & ? & Hrun' & Hr). rewrite Hrun in Hrun'. simplify_eq. by destruct Hr.
Qed.

(** A device without requests. *)
Definition idle_device : drbd_device := mk_device Leaf empty_worker false empty_worker (fun _ => 0) [].
Definition idle_system : system := mk_system idle_device [] [].

Lemma idle_settled : settled [] idle_device.
Proof.
  split; [|by right]. split; try (intros ? ?%not_elem_of_nil; done).
  - apply empty_tree_wf.
  - intros ? ? ?%not_elem_of_nil. done.
  - intros ? ? ?%not_elem_of_nil. done.
  - constructor.
Qed.

Lemma reachable_settled s : rtc dev_step idle_system s -> settled (exempt s) (dev s).
Proof.
  assert (forall s0, unraced s0 /\ settled (exempt s0) (dev s0) -> rtc dev_step s0 s -> settled (exempt s) (dev s)) as Hgen.
  { intros s0 Hs Hr. induction Hr as [|s0 s1 s2 [Hst Hun] _ IH]; [by apply Hs|]. apply IH. split; [done|]. by eapply section_settled; [apply Hs..|]. }
  apply Hgen. split; [by intros i ?%not_elem_of_nil|apply idle_settled].
Qed.

(** A blocked request finds its conflict. *)
Lemma blocked_found ex d i flags :
  inv ex d -> obj_ok i -> blocked d flags i -> exists c d', drbd_find_conflict d i flags = Ret (Some c, d') /\ c ∈ ints d.
Proof.
  intros Hinv Hok (j & Hj & Ho & Hb). destruct (find_conflict_spec ex d i flags Hinv Hok) as (c & d' & He & _ & Hf & Hc).
  destruct c as [c|]; [exists c, d'; by split; [|apply Hc]|]. exfalso.
  destruct (frame_fwd _ _ Hf j Hj) as (j' & Hj' & Hm). destruct (marked_same _ _ Hm) as (_ & _ & Hol & _).
  destruct (Hc j' Hj') as [Hnb _]; [by destruct Hm as [-> | ->]|]. by rewrite (body_marked _ _ _ j) in Hnb.
Qed.
End conflict_props.

(** ** Correctness of the component *)


(** Two requests that overlap: a write in flight, a second write that waits for
    it, and a verify read that is marked. *)
Definition state_of (o : outcome (action * drbd_device)) : drbd_device :=
  match o with Ret (_, d) => d | _ => idle_device end.

(** Nobody is about to remove a request, and nobody was left behind. *)
Definition quiet (d : drbd_device) : system := mk_system d [] [].

Definition ex_w1 := mk_interval 100 8 4096 INTERVAL_LOCAL_WRITE 0.
Definition ex_w2 := mk_interval 200 12 4096 INTERVAL_PEER_WRITE 0.
Definition ex_ov := mk_interval 300 0 8192 INTERVAL_OV_READ_SOURCE 0.

Definition ex_d1 : drbd_device := Eval vm_compute in state_of (drbd_conflict_submit_write idle_device ex_w1).
Definition ex_d2 : drbd_device := Eval vm_compute in state_of (receive_Data_submit ex_d1 ex_w2 false).
Definition ex_d3 : drbd_device := Eval vm_compute in state_of (drbd_conflict_send_ov_request ex_d2 ex_ov).

Lemma fresh_check d i :
  interval_ok i -> IS_ALIGNED (i_size i) 512 = true -> i_flags i = 0 ->
  forallb (fun j => negb (i_addr j =? i_addr i)) (ints d) = true -> fresh d i.
Proof.
  intros Hok Hal Hz Hall. split_and!; [by split|by left|]. intros j Hj%list_elem_of_In He.
  rewrite forallb_forall in Hall. specialize (Hall j Hj). by rewrite He, Z.eqb_refl in Hall.
Qed.

Lemma unraced_check s :
  forallb (fun i => negb (bool_decide (i_addr i ∈ leaving s)) || negb (test_bit INTERVAL_SUBMIT_CONFLICT_QUEUED i)) (ints (dev s)) = true ->
  unraced s.
Proof.
  intros Hall i Hi%list_elem_of_In Hl. rewrite forallb_forall in Hall. specialize (Hall i Hi).
  rewrite bool_decide_true in Hall by done. by apply negb_true_iff in Hall.
Qed.

Lemma ex_d3_reachable : rtc dev_step idle_system (quiet ex_d3).
Proof.
  apply (rtc_l _ _ (quiet ex_d1)).
  { split; [|by apply unraced_check]. apply (st_write idle_system ex_w1 SUBMIT); [by apply fresh_check|done|done|by vm_compute]. }
  apply (rtc_l _ _ (quiet ex_d2)).
  { split; [|by apply unraced_check]. apply (st_peer_write (quiet ex_d1) ex_w2 false WAIT); [by apply fresh_check|done|done|by vm_compute]. }
  apply (rtc_l _ _ (quiet ex_d3)); [|apply rtc_refl]. split; [|by apply unraced_check].
  apply (st_ov_request (quiet ex_d2) ex_ov SUBMIT); [by apply fresh_check|done|done|by vm_compute].
Qed.





(** The first write completes, and the second one is queued. *)
Definition dev_of (o : outcome drbd_device) : drbd_device := match o with Ret d => d | _ => idle_device end.
Definition ex_d4 : drbd_device := Eval vm_compute in dev_of (request_endio_interval ex_d3 ex_w1).

Lemma ex_d4_reachable : rtc dev_step idle_system (quiet ex_d4).
Proof.
  eapply rtc_r; [exact ex_d3_reachable|]. split; [|by apply unraced_check].
  apply (st_endio (quiet ex_d3) (with_flags 16 ex_w1)); [vm_compute; set_solver|by vm_compute].
Qed.


(** ** Observations *)

(** [drbd_get_peer_request_state] of [drbd_debugfs.c] tests the flags with the
    bit numbers as masks. *)
Inductive drbd_peer_request_state := PRS_NEW | PRS_READY_TO_SEND | PRS_SUBMITTED.

Definition drbd_get_peer_request_state (interval_flags : Z) : drbd_peer_request_state :=
  if negb (Z.land interval_flags INTERVAL_SUBMITTED =? 0) then PRS_SUBMITTED
  else if negb (Z.land interval_flags INTERVAL_READY_TO_SEND =? 0) then PRS_READY_TO_SEND
  else PRS_NEW.

(** So it never reports a request as ready to send, and reports the flag
    [INTERVAL_RECEIVED] as "submitted". *)
Lemma peer_request_state_misreported f :
  drbd_get_peer_request_state f =
  if Z.testbit f INTERVAL_RECEIVED then PRS_SUBMITTED else PRS_NEW.
Proof.
  unfold drbd_get_peer_request_state, INTERVAL_SUBMITTED, INTERVAL_READY_TO_SEND, INTERVAL_RECEIVED.
  rewrite Z.land_0_r. cbn [Z.eqb negb]. change 4 with (2 ^ 2).
  destruct (Z.testbit f 2) eqn:E.
  - destruct (Z.eqb_spec (Z.land f (2 ^ 2)) 0) as [He|]; [|done].
    apply (f_equal (fun z => Z.testbit z 2)) in He. rewrite Z.land_spec, E in He. done.
  - rewrite (proj2 (Z.eqb_eq _ 0)); [done|]. apply Z.bits_inj'. intros n Hn.
    rewrite Z.land_spec, Z.bits_0, Z.pow2_bits_eqb by done. destruct (Z.eqb_spec 2 n) as [<-|]; [by rewrite E|].
    apply andb_false_r.
Qed.

(** A resync request and a write of the same block; the peer of the request is 1. *)
Definition ex_rs := mk_interval 400 8 4096 INTERVAL_RESYNC_WRITE 0.
Definition ex_pw := mk_interval 500 8 4096 INTERVAL_PEER_WRITE 0.
Definition ex_rq := mk_interval 400 8 4096 INTERVAL_RESYNC_READ 0.

(** [got_IsInSync] sets [INTERVAL_RECEIVED] before it removes the interval, and
    not under [interval_lock].  When an overlapping write of the same peer
    finishes in between, [drbd_release_conflicts] queues the resync request,
    which is then removed and freed while its address stays on the queue. *)
Definition sync_d1 : drbd_device := Eval vm_compute in state_of (drbd_conflict_send_resync_request idle_device ex_rs).
Definition sync_d2 : drbd_device := Eval vm_compute in state_of (receive_Data_submit sync_d1 ex_pw false).
Definition sync_d3 : drbd_device := Eval vm_compute in set_bit INTERVAL_RECEIVED 400 sync_d2.
Definition sync_d4 : drbd_device := Eval vm_compute in dev_of (drbd_remove_peer_req_interval sync_d3 ex_pw).
Definition sync_d5 : drbd_device := Eval vm_compute in dev_of (drbd_remove_peer_req_interval sync_d4 ex_rs).

Lemma is_in_sync_race :
  rtc critical_section idle_system (quiet sync_d5) /\
  resync_writes (submit_conflict sync_d5) = [400] /\ ints sync_d5 = [].
Proof.
  split; [|done].
  apply (rtc_l _ _ (quiet sync_d1)); [apply (st_resync_request idle_system ex_rs SUBMIT); [by apply fresh_check|done|done|by vm_compute]|].
  apply (rtc_l _ _ (quiet sync_d2)); [apply (st_peer_write (quiet sync_d1) ex_pw false SUBMIT); [by apply fresh_check|done|done|by vm_compute]|].
  apply (rtc_l _ _ (mk_system sync_d3 [400] [])).
  { apply (st_is_in_sync (quiet sync_d2) (with_flags 1 ex_rs)); [vm_compute; set_solver|apply not_elem_of_nil|done|done]. }
  apply (rtc_l _ _ (mk_system sync_d4 [400] [])).
  { apply (st_remove (mk_system sync_d3 [400] []) (with_flags 16 ex_pw)); [vm_compute; set_solver|vm_compute; set_solver|done|by vm_compute]. }
  apply (rtc_l _ _ (quiet sync_d5)); [|apply rtc_refl].
  apply (st_leave (mk_system sync_d4 [400] []) (with_flags 13 ex_rs)); [vm_compute; set_solver|vm_compute; set_solver|by vm_compute].
Qed.

(** A resync read that was canceled is removed in a second critical section.  When the
    write it waits for finishes in between, it is queued again, and then freed. *)
Definition cancel_d1 : drbd_device := Eval vm_compute in state_of (drbd_conflict_submit_write idle_device ex_w1).
Definition cancel_d2 : drbd_device := Eval vm_compute in state_of (drbd_conflict_submit_peer_read cancel_d1 ex_rq).
Definition cancel_d3 : drbd_device := Eval vm_compute in splice (drbd_cancel_conflicting_resync_requests cancel_d2 0).
Definition cancel_d4 : drbd_device := Eval vm_compute in match do_submit_conflict_section cancel_d3 with Ret (_, d) => d | _ => idle_device end.
Definition cancel_d5 : drbd_device := Eval vm_compute in dev_of (request_endio_interval cancel_d4 ex_w1).
Definition cancel_d6 : drbd_device := Eval vm_compute in dev_of (drbd_remove_peer_req_interval cancel_d5 ex_rq).

Lemma cancel_race :
  rtc critical_section idle_system (quiet cancel_d6) /\
  resync_reads (submit_conflict cancel_d6) = [400] /\ Forall (fun i => i_addr i <> 400) (ints cancel_d6).
Proof.
  split; [|split; [done|vm_compute; repeat constructor; done]].
  apply (rtc_l _ _ (quiet cancel_d1)); [apply (st_write idle_system ex_w1 SUBMIT); [by apply fresh_check|done|done|by vm_compute]|].
  apply (rtc_l _ _ (quiet cancel_d2)); [apply (st_peer_read (quiet cancel_d1) ex_rq WAIT); [by apply fresh_check|done|by left|by vm_compute]|].
  apply (rtc_l _ _ (quiet (drbd_cancel_conflicting_resync_requests cancel_d2 0))); [apply (st_cancel (quiet cancel_d2) 0)|].
  apply (rtc_l _ _ (quiet cancel_d3)); [by apply (st_worker (quiet (drbd_cancel_conflicting_resync_requests cancel_d2 0)))|].
  apply (rtc_l _ _ (mk_system cancel_d4 [400] [])).
  { refine (st_worker_next (quiet cancel_d3) (object cancel_d3 ex_rq) CANCEL cancel_d4 _). by vm_compute. }
  apply (rtc_l _ _ (mk_system cancel_d5 [400] [])).
  { apply (st_endio (mk_system cancel_d4 [400] []) (with_flags 16 ex_w1)); [vm_compute; set_solver|by vm_compute]. }
  apply (rtc_l _ _ (quiet cancel_d6)); [|apply rtc_refl].
  refine (st_leave (mk_system cancel_d5 [400] []) (object cancel_d5 ex_rq) cancel_d6 _ _ _); [vm_compute; set_solver|vm_compute; set_solver|by vm_compute].
Qed.

(** A write that is not submitted to a local disk is never marked
    [INTERVAL_BACKING_COMPLETED].  A resync request waits for it also after it was
    completed to the upper layers, and [drbd_req_done] takes it out of the tree without
    releasing conflicts: the resync request then waits for nothing. *)
Definition lost_d1 : drbd_device := Eval vm_compute in state_of (drbd_conflict_submit_write idle_device ex_w1).
Definition lost_d2 : drbd_device := Eval vm_compute in state_of (drbd_conflict_send_resync_request lost_d1 ex_rs).
Definition lost_d3 : drbd_device := Eval vm_compute in dev_of (req_complete_interval lost_d2 ex_w1).
Definition lost_d4 : drbd_device := Eval vm_compute in splice lost_d3.
Definition lost_d5 : drbd_device := Eval vm_compute in match do_submit_conflict_section lost_d4 with Ret (_, d) => d | _ => idle_device end.
Definition lost_d6 : drbd_device := Eval vm_compute in drbd_remove_request_interval lost_d5 ex_w1.

Lemma write_without_disk_loses_wakeup :
  rtc dev_step idle_system (mk_system lost_d6 [] [400]) /\ ints lost_d6 = [ex_rs] /\
  queued lost_d6 = [] /\ worker_queued lost_d6 = false /\ drbd_find_conflict lost_d6 ex_rs (wait_flags ex_rs) = Ret (None, lost_d6).
Proof.
  split; [|split_and!; by vm_compute].
  apply (rtc_l _ _ (quiet lost_d1)); [split; [|by apply unraced_check]; apply (st_write idle_system ex_w1 SUBMIT); [by apply fresh_check|done|done|by vm_compute]|].
  apply (rtc_l _ _ (quiet lost_d2)); [split; [|by apply unraced_check]; apply (st_resync_request (quiet lost_d1) ex_rs WAIT); [by apply fresh_check|done|done|by vm_compute]|].
  apply (rtc_l _ _ (quiet lost_d3)); [split; [|by apply unraced_check]; apply (st_complete (quiet lost_d2) (with_flags 16 ex_w1)); [vm_compute; set_solver|by vm_compute]|].
  apply (rtc_l _ _ (quiet lost_d4)); [split; [|by apply unraced_check]; by apply (st_worker (quiet lost_d3))|].
  apply (rtc_l _ _ (quiet lost_d5)); [split; [|by apply unraced_check]; refine (st_worker_next (quiet lost_d4) (object lost_d4 ex_rs) WAIT lost_d5 _); by vm_compute|].
  apply (rtc_l _ _ (mk_system lost_d6 [] [400])); [split; [|by apply unraced_check]|apply rtc_refl].
  pose (s5 := quiet lost_d5). pose (i5 := object lost_d5 ex_w1).
  assert (mk_system lost_d6 [] [400] = (let d' := drbd_remove_request_interval (dev s5) i5 in
    mk_system d' (leaving s5) (still_waiting d' (left_behind (dev s5) i5 ++ unreleased s5)))) as -> by (vm_compute; reflexivity).
  apply (st_done s5 i5); [vm_compute; set_solver|done].
Qed.
