(* ===== verification/Headers.v ===== *)
(** * Constants of [drbd.h] and [drbd_protocol.h]

    These headers are in the submodule [drbd-headers], which is not part of the
    repository.  The sources use the constants below; their values are a
    parameter of the development.  The laws are the ones the sources rely on. *)
From S2P Require Import Prelude.

(** Only compared for equality. *)
Inductive drbd_role := R_UNKNOWN | R_PRIMARY | R_SECONDARY.

Inductive drbd_after_sb_p :=
  | ASB_DISCONNECT | ASB_DISCARD_YOUNGER_PRI | ASB_DISCARD_OLDER_PRI | ASB_DISCARD_ZERO_CHG
  | ASB_DISCARD_LEAST_CHG | ASB_DISCARD_LOCAL | ASB_DISCARD_REMOTE | ASB_CONSENSUS
  | ASB_DISCARD_SECONDARY | ASB_CALL_HELPER | ASB_VIOLENTLY | ASB_RETRY_CONNECT | ASB_AUTO_DISCARD.

Inductive drbd_wire_protocol := DRBD_PROT_A | DRBD_PROT_B | DRBD_PROT_C.

#[export] Instance role_eq_dec : EqDecision drbd_role.
Proof. solve_decision. Defined.
#[export] Instance after_sb_eq_dec : EqDecision drbd_after_sb_p.
Proof. solve_decision. Defined.
#[export] Instance wire_protocol_eq_dec : EqDecision drbd_wire_protocol.
Proof. solve_decision. Defined.

(** The bits of [uuid_flags]. *)
Inductive uuid_flag :=
  | UUID_FLAG_DISCARD_MY_DATA | UUID_FLAG_CRASHED_PRIMARY | UUID_FLAG_INCONSISTENT
  | UUID_FLAG_RECONNECT | UUID_FLAG_PRIMARY_LOST_QUORUM | UUID_FLAG_STABLE | UUID_FLAG_SYNC_TARGET.

#[export] Instance uuid_flag_eq_dec : EqDecision uuid_flag.
Proof. solve_decision. Defined.

Class DrbdHeaders := {
  UUID_PRIMARY : Z;
  UUID_JUST_CREATED : Z;
  UUID_NEW_BM_OFFSET : Z;
  HISTORY_UUIDS : nat;
  DRBD_PEERS_MAX : nat;
  DRBD_NODE_ID_MAX : nat;
  uuid_flag_bit : uuid_flag -> Z;
  MDF_HAVE_BITMAP : Z;
  MDF_NODE_EXISTS : Z;
  (* disk states *)
  D_DISKLESS : Z; D_FAILED : Z; D_NEGOTIATING : Z; D_INCONSISTENT : Z; D_OUTDATED : Z;
  D_UNKNOWN : Z; D_CONSISTENT : Z; D_UP_TO_DATE : Z;
  (* replication states *)
  L_OFF : Z; L_ESTABLISHED : Z; L_WF_BITMAP_S : Z; L_WF_BITMAP_T : Z; L_SYNC_SOURCE : Z;
  L_SYNC_TARGET : Z; L_PAUSED_SYNC_S : Z; L_PAUSED_SYNC_T : Z; L_BEHIND : Z;
  (* one bit marks UUIDs of a primary, and the reserved UUID does not have it *)
  uuid_primary_bit : UUID_PRIMARY = 1;
  uuid_just_created : UUID_JUST_CREATED <> 0 /\ 0 <= UUID_JUST_CREATED < 2 ^ 64 /\
                      Z.ldiff UUID_JUST_CREATED UUID_PRIMARY = UUID_JUST_CREATED;
  history_uuids_pos : (0 < HISTORY_UUIDS)%nat;
  node_id_max : (DRBD_NODE_ID_MAX <= 64)%nat /\ DRBD_PEERS_MAX = DRBD_NODE_ID_MAX;
  uuid_flag_inj f g : uuid_flag_bit f = uuid_flag_bit g -> f = g;
  uuid_flag_range f : 0 <= uuid_flag_bit f < 64;
  disk_order : D_DISKLESS < D_FAILED /\ D_FAILED < D_NEGOTIATING /\ D_NEGOTIATING < D_INCONSISTENT /\
               D_INCONSISTENT < D_OUTDATED /\ D_OUTDATED < D_UNKNOWN /\ D_UNKNOWN < D_CONSISTENT /\
               D_CONSISTENT < D_UP_TO_DATE;
  repl_order : L_OFF < L_ESTABLISHED /\ L_ESTABLISHED < L_WF_BITMAP_S /\ L_WF_BITMAP_S < L_WF_BITMAP_T /\
               L_WF_BITMAP_T < L_SYNC_SOURCE /\ L_SYNC_SOURCE < L_SYNC_TARGET /\ L_SYNC_TARGET < L_PAUSED_SYNC_S /\
               L_PAUSED_SYNC_S < L_PAUSED_SYNC_T /\ L_PAUSED_SYNC_T < L_BEHIND }.

(** [x & ~UUID_PRIMARY], [flags & UUID_FLAG_X], [NODE_MASK(id)]. *)
Section masks.
Context `{DrbdHeaders}.

Definition no_primary (x : Z) : Z := Z.ldiff x UUID_PRIMARY.
Definition UUID_FLAG (f : uuid_flag) : Z := Z.shiftl 1 (uuid_flag_bit f).
Definition has_flag (flags : Z) (f : uuid_flag) : bool := negb (Z.land flags (UUID_FLAG f) =? 0).
Definition NODE_MASK (id : nat) : Z := Z.shiftl 1 (Z.of_nat id).

Lemma no_primary_idem x : no_primary (no_primary x) = no_primary x.
Proof.
  unfold no_primary. apply Z.bits_inj'. intros n Hn. rewrite !Z.ldiff_spec.
  by destruct (Z.testbit x n), (Z.testbit UUID_PRIMARY n).
Qed.

Lemma has_flag_testbit flags f : has_flag flags f = Z.testbit flags (uuid_flag_bit f).
Proof.
  pose proof (uuid_flag_range f) as Hr. unfold has_flag, UUID_FLAG. rewrite Z.shiftl_1_l.
  destruct (Z.testbit flags (uuid_flag_bit f)) eqn:E.
  - destruct (Z.eqb_spec (Z.land flags (2 ^ uuid_flag_bit f)) 0) as [He|]; [|done].
    apply (f_equal (fun z => Z.testbit z (uuid_flag_bit f))) in He.
    rewrite Z.land_spec, E, Z.pow2_bits_true, Z.bits_0 in He by lia. done.
  - rewrite (proj2 (Z.eqb_eq _ 0)); [done|]. apply Z.bits_inj'. intros n Hn.
    rewrite Z.land_spec, Z.bits_0, Z.pow2_bits_eqb by lia.
    destruct (Z.eqb_spec (uuid_flag_bit f) n) as [<-|]; [by rewrite E|]. apply andb_false_r.
Qed.

Lemma has_flag_lor a b f : has_flag (Z.lor a b) f = has_flag a f || has_flag b f.
Proof. by rewrite !has_flag_testbit, Z.lor_spec. Qed.

Lemma has_flag_0 f : has_flag 0 f = false.
Proof. rewrite has_flag_testbit. apply Z.testbit_0_l. Qed.

Lemma has_flag_flag f g : has_flag (UUID_FLAG f) g = bool_decide (f = g).
Proof.
  pose proof (uuid_flag_range f). pose proof (uuid_flag_range g). rewrite has_flag_testbit. unfold UUID_FLAG.
  rewrite Z.shiftl_1_l, Z.pow2_bits_eqb by lia.
  destruct (Z.eqb_spec (uuid_flag_bit f) (uuid_flag_bit g)) as [He|Hne].
  - symmetry. by apply bool_decide_eq_true, uuid_flag_inj.
  - symmetry. apply bool_decide_eq_false. congruence.
Qed.

Lemma has_flag_if (b : bool) f g : has_flag (if b then UUID_FLAG f else 0) g = b && bool_decide (f = g).
Proof. destruct b; [apply has_flag_flag|apply has_flag_0]. Qed.
End masks.

(** An instance with small tables, to run the definitions on. *)
Program Definition small_headers : DrbdHeaders := {|
  UUID_PRIMARY := 1; UUID_JUST_CREATED := 4; UUID_NEW_BM_OFFSET := 2 ^ 48;
  HISTORY_UUIDS := 4; DRBD_PEERS_MAX := 4; DRBD_NODE_ID_MAX := 4;
  uuid_flag_bit := fun f =>
    match f with
    | UUID_FLAG_DISCARD_MY_DATA => 0 | UUID_FLAG_CRASHED_PRIMARY => 1 | UUID_FLAG_INCONSISTENT => 2
    | UUID_FLAG_RECONNECT => 5 | UUID_FLAG_PRIMARY_LOST_QUORUM => 8 | UUID_FLAG_STABLE => 4
    | UUID_FLAG_SYNC_TARGET => 9 end;
  MDF_HAVE_BITMAP := 1; MDF_NODE_EXISTS := 2;
  D_DISKLESS := 0; D_FAILED := 3; D_NEGOTIATING := 4; D_INCONSISTENT := 5; D_OUTDATED := 6;
  D_UNKNOWN := 7; D_CONSISTENT := 8; D_UP_TO_DATE := 9;
  L_OFF := 9; L_ESTABLISHED := 10; L_WF_BITMAP_S := 13; L_WF_BITMAP_T := 14; L_SYNC_SOURCE := 16;
  L_SYNC_TARGET := 17; L_PAUSED_SYNC_S := 20; L_PAUSED_SYNC_T := 21; L_BEHIND := 23 |}.
Next Obligation. done. Qed.
Next Obligation. done. Qed.
Next Obligation. lia. Qed.
Next Obligation. lia. Qed.
Next Obligation. by intros [] []. Qed.
Next Obligation. by intros []. Qed.
Next Obligation. lia. Qed.
Next Obligation. lia. Qed.
