(* ===== verification/Uuid.v ===== *)
(** * Data generation UUIDs ([drbd/drbd_main.c] 4684-5570)

    The meta-data of a device keeps a current UUID, one bitmap UUID per peer (the
    generation at which the bitmap towards that peer starts) and a history.
    This file models the operations that move UUIDs between these places.
    Random numbers and the result of writing the meta-data are arguments. *)
From S2P Require Import Prelude Headers.

Section uuid.
Context `{DrbdHeaders}.

(** ** State *)

(** [struct drbd_peer_md] *)
Record drbd_peer_md := mk_peer_md {
  bitmap_uuid : Z;
  bitmap_dagtag : Z;
  pmd_flags : Z;
  bitmap_index : Z }.

(** The members of [struct drbd_md] for UUIDs. *)
Record drbd_md := mk_md {
  current_uuid : Z;
  md_node_id : nat;
  max_peers : Z;
  peers : list drbd_peer_md;
  history_uuids : list Z }.

(** The members of [struct drbd_peer_device] (and of its connection) that
    generation handling and the handshake use. *)
Record drbd_peer_device := mk_peer_device {
  pd_node_id : nat;
  pd_bitmap_index : Z;
  pd_disk_state : Z;
  pd_repl_state : Z;
  pd_current_uuid : Z;
  pd_bitmap_uuids : list Z;
  pd_history_uuids : list Z;
  pd_uuid_flags : Z;
  pd_dirty_bits : Z;
  pd_comm_current_uuid : Z;
  pd_comm_bitmap_uuid : Z;
  pd_comm_uuid_flags : Z;
  pd_comm_bm_set : Z;
  pd_comm_disk : Z;
  pd_rs_start_uuid : Z;
  pd_want_bitmap : bool;
  INITIAL_STATE_SENT : bool;
  RS_SOURCE_MISSED_END : bool;
  RS_PEER_MISSED_END : bool;
  DISCARD_MY_DATA : bool;
  SYNC_SRC_CRASHED_PRI : bool;
  agreed_pro_version : Z;
  RECONNECT : bool }.

(** The members of [struct drbd_device] and its resource. *)
Record drbd_device := mk_device {
  md : drbd_md;
  md_dirty : bool;
  exposed_data_uuid : Z;
  role : drbd_role;
  disk_state : Z;
  dagtag_sector : Z;
  CRASHED_PRIMARY : bool;
  PRIMARY_LOST_QUORUM : bool;
  md_consistent : bool;
  device_stable : bool;
  peer_devices : list drbd_peer_device }.

Definition set_md (m : drbd_md) (d : drbd_device) : drbd_device :=
  mk_device m (md_dirty d) (exposed_data_uuid d) (role d) (disk_state d) (dagtag_sector d)
    (CRASHED_PRIMARY d) (PRIMARY_LOST_QUORUM d) (md_consistent d) (device_stable d) (peer_devices d).

Definition set_exposed (v : Z) (d : drbd_device) : drbd_device :=
  mk_device (md d) (md_dirty d) v (role d) (disk_state d) (dagtag_sector d)
    (CRASHED_PRIMARY d) (PRIMARY_LOST_QUORUM d) (md_consistent d) (device_stable d) (peer_devices d).

Definition set_peer_devices (l : list drbd_peer_device) (d : drbd_device) : drbd_device :=
  mk_device (md d) (md_dirty d) (exposed_data_uuid d) (role d) (disk_state d) (dagtag_sector d)
    (CRASHED_PRIMARY d) (PRIMARY_LOST_QUORUM d) (md_consistent d) (device_stable d) l.

Definition no_peer_md : drbd_peer_md := mk_peer_md 0 0 0 (-1).
Definition peer_md (m : drbd_md) (i : nat) : drbd_peer_md := default no_peer_md (peers m !! i).

Definition set_history (l : list Z) (m : drbd_md) : drbd_md :=
  mk_md (current_uuid m) (md_node_id m) (max_peers m) (peers m) l.

Definition set_peer_md (i : nat) (f : drbd_peer_md -> drbd_peer_md) (m : drbd_md) : drbd_md :=
  mk_md (current_uuid m) (md_node_id m) (max_peers m) (alter f i (peers m)) (history_uuids m).

Definition set_bitmap_uuid (u dagtag : Z) (p : drbd_peer_md) : drbd_peer_md :=
  mk_peer_md u dagtag (pmd_flags p) (bitmap_index p).

(** [drbd_md_mark_dirty] *)
Definition drbd_md_mark_dirty (d : drbd_device) : drbd_device :=
  mk_device (md d) true (exposed_data_uuid d) (role d) (disk_state d) (dagtag_sector d)
    (CRASHED_PRIMARY d) (PRIMARY_LOST_QUORUM d) (md_consistent d) (device_stable d) (peer_devices d).

(** [drbd_current_uuid], [drbd_bitmap_uuid], [drbd_history_uuid], with the disk
    attached. *)
Definition drbd_current_uuid (d : drbd_device) : Z := current_uuid (md d).
Definition drbd_bitmap_uuid (d : drbd_device) (p : drbd_peer_device) : Z :=
  bitmap_uuid (peer_md (md d) (pd_node_id p)).
Definition drbd_history_uuid (d : drbd_device) (i : nat) : Z := default 0 (history_uuids (md d) !! i).

(** ** History *)

(** The four tests of [_drbd_uuid_push_history] that make it return early. *)
Definition other_nodes (m : drbd_md) : list nat :=
  filter (fun i => i <> md_node_id m) (seq 0 DRBD_NODE_ID_MAX).

Definition in_bitmap_slot (m : drbd_md) (val : Z) : bool :=
  existsb (fun i => val =? no_primary (bitmap_uuid (peer_md m i))) (other_nodes m).

Definition push_history_skips (m : drbd_md) (val : Z) : bool :=
  (val =? UUID_JUST_CREATED) || (val =? 0) ||
  (no_primary val =? no_primary (current_uuid m)) ||
  in_bitmap_slot m (no_primary val) ||
  existsb (fun h => h =? no_primary val) (history_uuids m).

(** [for (i = N - 1; i > 0; i--) h[i] = h[i - 1]; h[0] = val] *)
Definition shift_in (val : Z) (h : list Z) : list Z := take (length h) (val :: h).

Definition _drbd_uuid_push_history (val : Z) (m : drbd_md) : drbd_md :=
  if push_history_skips m val then m else set_history (shift_in (no_primary val) (history_uuids m)) m.

(** [_drbd_uuid_pull_history] *)
Definition shift_out (h : list Z) : list Z := match h with [] => [] | _ :: t => t ++ [0] end.

Definition _drbd_uuid_pull_history (m : drbd_md) : Z * drbd_md :=
  (default 0 (head (history_uuids m)), set_history (shift_out (history_uuids m)) m).

(** ** Current and bitmap UUIDs *)

Definition with_role (d : drbd_device) (val : Z) : Z :=
  if decide (role d = R_PRIMARY) then Z.lor val UUID_PRIMARY else no_primary val.

(** [drbd_uuid_set_exposed] *)
Definition drbd_uuid_set_exposed (val : Z) (d : drbd_device) : bool * drbd_device :=
  if (no_primary (exposed_data_uuid d) =? no_primary val) || (val =? UUID_JUST_CREATED)
  then (false, d)
  else (true, set_exposed (with_role d val) d).

(** [__drbd_uuid_set_current] *)
Definition __drbd_uuid_set_current (val : Z) (d : drbd_device) : drbd_device :=
  let d := drbd_md_mark_dirty d in
  let val := with_role d val in
  let m := md d in
  let d := set_md (mk_md val (md_node_id m) (max_peers m) (peers m) (history_uuids m)) d in
  snd (drbd_uuid_set_exposed val d).

(** [__drbd_uuid_set_bitmap] *)
Definition __drbd_uuid_set_bitmap (p : drbd_peer_device) (val : Z) (d : drbd_device) : drbd_device :=
  let d := drbd_md_mark_dirty d in
  set_md (set_peer_md (pd_node_id p)
            (set_bitmap_uuid val (if val =? 0 then 0 else dagtag_sector d)) (md d)) d.

(** [drbd_uuid_set_bitmap] *)
Definition drbd_uuid_set_bitmap (p : drbd_peer_device) (uuid : Z) (d : drbd_device) : drbd_device :=
  let previous_uuid := drbd_bitmap_uuid d p in
  let d := __drbd_uuid_set_bitmap p uuid d in
  if previous_uuid =? 0 then d else set_md (_drbd_uuid_push_history previous_uuid (md d)) d.

(** [drbd_uuid_is_day0] *)
Definition drbd_uuid_is_day0 (m : drbd_md) : bool :=
  if (no_primary (current_uuid m) =? UUID_JUST_CREATED) || (current_uuid m =? 0) then false
  else forallb (fun h => h =? 0) (history_uuids m) &&
       forallb (fun i => bitmap_uuid (peer_md m i) =? 0) (other_nodes m).

(** ** A new generation *)

(** Local variables of [rotate_current_into_bitmap] in its loops. *)
Record rotation := mk_rotation {
  rot_md : drbd_md;
  rot_dirty : bool;
  node_mask : Z;
  slot_mask : Z;
  got_new_bitmap_uuid : Z }.

Definition mdf (m : drbd_md) (i : nat) (flag : Z) : bool :=
  negb (Z.land (pmd_flags (peer_md m i)) flag =? 0).

Definition in_mask (mask : Z) (i : nat) : bool := negb (Z.land mask (NODE_MASK i) =? 0).

(** The body of the loop over the peer devices. *)
Definition rotate_peer_device (prev_c_uuid weak_nodes dagtag : Z) (r : rotation)
    (p : drbd_peer_device) : rotation :=
  let node_id := pd_node_id p in
  let nodes := Z.lor (node_mask r) (NODE_MASK node_id) in
  let slots := if pd_bitmap_index p =? -1 then slot_mask r else Z.setbit (slot_mask r) (pd_bitmap_index p) in
  let skip := mk_rotation (rot_md r) (rot_dirty r) nodes slots (got_new_bitmap_uuid r) in
  let bm_uuid := bitmap_uuid (peer_md (rot_md r) node_id) in
  if negb (bm_uuid =? 0) && negb (bm_uuid =? prev_c_uuid) then skip
  else
    let pdsk := pd_disk_state p in
    if (pdsk =? D_DISKLESS) && negb (mdf (rot_md r) node_id MDF_HAVE_BITMAP) then skip
    else if ((pdsk <=? D_UNKNOWN) && negb (pdsk =? D_NEGOTIATING)) || in_mask weak_nodes node_id
    then mk_rotation (set_peer_md node_id (set_bitmap_uuid prev_c_uuid dagtag) (rot_md r)) true
           nodes slots (Z.lor (got_new_bitmap_uuid r) (NODE_MASK node_id))
    else skip.

(** [find_first_zero_bit(&slot_mask, 64)] *)
Fixpoint find_first_zero_bit (n : nat) (i : Z) (mask : Z) : Z :=
  match n with
  | O => i
  | S n => if Z.testbit mask i then find_first_zero_bit n (i + 1) mask else i
  end.

(** The body of the loop over the other node ids. *)
Definition rotate_node_id (prev_c_uuid dagtag : Z) (r : rotation) (node_id : nat) : rotation :=
  let m := rot_md r in
  if Nat.eqb node_id (md_node_id m) then r
  else if in_mask (node_mask r) node_id then r
  else
    let slot_nr := bitmap_index (peer_md m node_id) in
    if negb (slot_nr =? -1) && Z.testbit (slot_mask r) slot_nr then r
    else
      let slots := if slot_nr =? -1 then slot_mask r else Z.setbit (slot_mask r) slot_nr in
      let bm_uuid := bitmap_uuid (peer_md m node_id) in
      if negb (bm_uuid =? 0) && negb (bm_uuid =? prev_c_uuid)
      then mk_rotation m (rot_dirty r) (node_mask r) slots (got_new_bitmap_uuid r)
      else
        let slot_nr' := if slot_nr =? -1 then find_first_zero_bit 64 0 slots else slot_nr in
        let slots := if slot_nr =? -1 then Z.setbit slots slot_nr' else slots in
        mk_rotation (set_peer_md node_id (set_bitmap_uuid prev_c_uuid dagtag) m) true (node_mask r) slots
          (if slot_nr' <? max_peers m then Z.lor (got_new_bitmap_uuid r) (NODE_MASK node_id)
           else got_new_bitmap_uuid r).

(** [rotate_current_into_bitmap]; [random] is the value of [get_random_u64()]. *)
Definition rotate_current_into_bitmap (weak_nodes dagtag random : Z) (d : drbd_device) : Z * drbd_device :=
  let m := md d in
  let prev_c_uuid := if current_uuid m =? UUID_JUST_CREATED then random else current_uuid m in
  let r := foldl (rotate_peer_device prev_c_uuid weak_nodes dagtag)
             (mk_rotation m (md_dirty d) 0 0 0) (peer_devices d) in
  let r := foldl (rotate_node_id prev_c_uuid dagtag) r (seq 0 DRBD_NODE_ID_MAX) in
  let d' := set_md (rot_md r) d in
  (got_new_bitmap_uuid r, if rot_dirty r then drbd_md_mark_dirty d' else d').

(** [initial_resync_nodes] *)
Definition initial_resync_nodes (d : drbd_device) : Z :=
  foldl (fun nodes p =>
           if (pd_disk_state p =? D_INCONSISTENT) && (pd_repl_state p =? L_ESTABLISHED)
           then Z.lor nodes (NODE_MASK (pd_node_id p)) else nodes) 0 (peer_devices d).

(** [drbd_weak_nodes_device] of the node [my_id], as a 64-bit mask. *)
Definition drbd_weak_nodes_device (my_id : nat) (d : drbd_device) : Z :=
  let not_weak := if disk_state d =? D_UP_TO_DATE then NODE_MASK my_id else 0 in
  let not_weak :=
    foldl (fun nw p =>
             let pdsk := pd_disk_state p in
             if negb ((pdsk <=? D_FAILED) || (pdsk =? D_UNKNOWN) || (pdsk =? D_OUTDATED))
             then Z.lor nw (NODE_MASK (pd_node_id p)) else nw) not_weak (peer_devices d) in
  u64 (Z.lnot not_weak).

(** [__new_current_uuid_prepare]; [random1], [random2] are the random numbers,
    [sync_ok] says whether [drbd_md_sync] succeeds. *)
Definition __new_current_uuid_prepare (forced : bool) (random1 random2 : Z) (sync_ok : bool)
    (d : drbd_device) : bool * drbd_device :=
  let day0 := drbd_uuid_is_day0 (md d) in
  let '(got, d) := rotate_current_into_bitmap (if forced then initial_resync_nodes d else 0)
                     (dagtag_sector d) random1 d in
  if (got =? 0) && negb day0 then (false, d)
  else
    let old_current_uuid := drbd_current_uuid d in
    let d := __drbd_uuid_set_current random2 d in
    if sync_ok then (true, d) else (false, __drbd_uuid_set_current old_current_uuid d).

(** ** Diskless decisions *)

Definition pd_bitmap_uuid (p : drbd_peer_device) (i : nat) : Z := default 0 (pd_bitmap_uuids p !! i).

Definition peer_device_by_node_id (d : drbd_device) (i : nat) : option drbd_peer_device :=
  find (fun p => Nat.eqb (pd_node_id p) i) (peer_devices d).

(** [(u64)-1] *)
Definition U64_MAX : Z := 2 ^ 64 - 1.

Definition peer_can_fill_a_bitmap_slot (d : drbd_device) (p : drbd_peer_device) : bool :=
  existsb (fun node_id =>
             negb (Nat.eqb node_id (pd_node_id p)) && (pd_bitmap_uuid p node_id =? 0) &&
             match peer_device_by_node_id d node_id with
             | Some p2 => pd_want_bitmap p2
             | None => true
             end) (seq 0 DRBD_NODE_ID_MAX).

Definition diskless_primary_needs_uuid_bump (my_id : nat) (d : drbd_device) (p : drbd_peer_device) : bool :=
  negb (existsb (fun n =>
                   negb (Nat.eqb n (pd_node_id p)) && negb (Nat.eqb n my_id) &&
                   match peer_device_by_node_id d n with Some _ => true | None => false end &&
                   negb (pd_bitmap_uuid p n =? U64_MAX) && negb (pd_bitmap_uuid p n =? 0))
          (seq 0 DRBD_NODE_ID_MAX)).

Definition diskfull_peers_need_new_cur_uuid (my_id : nat) (d : drbd_device) : bool :=
  existsb (fun p =>
             negb (agreed_pro_version p <? 110) && negb (pd_disk_state p <? D_UP_TO_DATE) &&
             (if disk_state d =? D_DISKLESS then diskless_primary_needs_uuid_bump my_id d p
              else peer_can_fill_a_bitmap_slot d p)) (peer_devices d).

Definition a_lost_peer_is_on_same_cur_uuid (d : drbd_device) : bool :=
  existsb (fun p =>
             negb ((L_ESTABLISHED <=? pd_repl_state p) || (pd_disk_state p <? D_INCONSISTENT) ||
                   (D_UNKNOWN <? pd_disk_state p)) &&
             negb (has_flag (pd_uuid_flags p) UUID_FLAG_SYNC_TARGET) &&
             ((no_primary (exposed_data_uuid d) =? no_primary (pd_current_uuid p)) ||
              (pd_current_uuid p =? 0))) (peer_devices d).

Definition set_pd_current (v : Z) (p : drbd_peer_device) : drbd_peer_device :=
  mk_peer_device (pd_node_id p) (pd_bitmap_index p) (pd_disk_state p) (pd_repl_state p) v
    (pd_bitmap_uuids p) (pd_history_uuids p) (pd_uuid_flags p) (pd_dirty_bits p)
    (pd_comm_current_uuid p) (pd_comm_bitmap_uuid p) (pd_comm_uuid_flags p) (pd_comm_bm_set p)
    (pd_comm_disk p) (pd_rs_start_uuid p) (pd_want_bitmap p) (INITIAL_STATE_SENT p)
    (RS_SOURCE_MISSED_END p) (RS_PEER_MISSED_END p) (DISCARD_MY_DATA p) (SYNC_SRC_CRASHED_PRI p)
    (agreed_pro_version p) (RECONNECT p).

(** [drbd_uuid_new_current]; the list are the node ids a new UUID is sent to. *)
Definition drbd_uuid_new_current (my_id : nat) (forced : bool) (random1 random2 : Z) (sync_ok : bool)
    (d : drbd_device) : list nat * drbd_device :=
  let established := filter (fun p => L_ESTABLISHED <= pd_repl_state p) (peer_devices d) in
  if D_UP_TO_DATE <=? disk_state d then
    let '(ok, d) := __new_current_uuid_prepare forced random1 random2 sync_ok d in
    (if ok then pd_node_id <$> established else [], d)
  else if diskfull_peers_need_new_cur_uuid my_id d || a_lost_peer_is_on_same_cur_uuid d then
    let current := with_role d random1 in
    let '(_, d) := drbd_uuid_set_exposed current d in
    (pd_node_id <$> established,
     set_peer_devices ((fun p => if L_ESTABLISHED <=? pd_repl_state p then set_pd_current current p else p)
                         <$> peer_devices d) d)
  else ([], d).

(** [drbd_uuid_new_current_by_user] *)
Definition forget_slot (peer_mask : Z) (d : drbd_device) (node_id : nat) : drbd_device :=
  let m := md d in
  if Nat.eqb node_id (md_node_id m) then d
  else if in_mask peer_mask node_id then d
  else
    let bm_uuid := bitmap_uuid (peer_md m node_id) in
    if bm_uuid =? 0 then d
    else
      let m := set_peer_md node_id (set_bitmap_uuid 0 0) m in
      set_md (_drbd_uuid_push_history bm_uuid m) (drbd_md_mark_dirty d).

Definition drbd_uuid_new_current_by_user (random1 random2 : Z) (sync_ok : bool) (d : drbd_device) : bool * drbd_device :=
  let peer_mask := foldl (fun mask p => Z.lor mask (NODE_MASK (pd_node_id p))) 0 (peer_devices d) in
  let d := foldl (fun d p => drbd_uuid_set_bitmap p 0 d) d (peer_devices d) in
  let d := foldl (forget_slot peer_mask) d (seq 0 DRBD_NODE_ID_MAX) in
  __new_current_uuid_prepare false random1 random2 sync_ok d.

(** ** Bitmap slots *)

Definition set_bitmap_slot (uuid do_nodes : Z) (acc : Z * drbd_device) (node_id : nat) : Z * drbd_device :=
  let '(modified, d) := acc in
  let m := md d in
  if Nat.eqb node_id (md_node_id m) then acc
  else if negb (in_mask do_nodes node_id) then acc
  else if negb (mdf m node_id MDF_HAVE_BITMAP) then acc
  else
    let previous := bitmap_uuid (peer_md m node_id) in
    if previous =? uuid then acc
    else
      let m := set_peer_md node_id (set_bitmap_uuid uuid (if uuid =? 0 then 0 else dagtag_sector d)) m in
      (Z.lor modified (NODE_MASK node_id),
       drbd_md_mark_dirty (set_md (_drbd_uuid_push_history previous m) d)).

Definition __set_bitmap_slots (uuid do_nodes : Z) (d : drbd_device) : Z * drbd_device :=
  foldl (set_bitmap_slot uuid do_nodes) (0, d) (seq 0 DRBD_NODE_ID_MAX).

Definition __test_bitmap_slots (d : drbd_device) : Z :=
  foldl (fun rv i => if bitmap_uuid (peer_md (md d) i) =? 0 then rv else Z.lor rv (NODE_MASK i)) 0
    (seq 0 DRBD_NODE_ID_MAX).

Definition __test_bitmap_slots_of_peer (p : drbd_peer_device) : Z :=
  foldl (fun rv i => if (pd_bitmap_uuid p i =? 0) || (pd_bitmap_uuid p i =? U64_MAX) then rv
                     else Z.lor rv (NODE_MASK i)) 0 (seq 0 DRBD_NODE_ID_MAX).

Definition peers_with_current_uuid (d : drbd_device) (uuid : Z) : Z :=
  foldl (fun nodes p =>
           if (pd_disk_state p <? D_INCONSISTENT) || (pd_disk_state p =? D_UNKNOWN) then nodes
           else if no_primary uuid =? no_primary (pd_current_uuid p)
           then Z.lor nodes (NODE_MASK (pd_node_id p)) else nodes) 0 (peer_devices d).

(** ** Resync *)

(** [drbd_uuid_resync_starting] *)
Definition drbd_uuid_resync_starting (random : Z) (p : drbd_peer_device) (d : drbd_device)
  : drbd_peer_device * drbd_device :=
  let p' := mk_peer_device (pd_node_id p) (pd_bitmap_index p) (pd_disk_state p) (pd_repl_state p)
    (pd_current_uuid p) (pd_bitmap_uuids p) (pd_history_uuids p) (pd_uuid_flags p) (pd_dirty_bits p)
    (pd_comm_current_uuid p) (pd_comm_bitmap_uuid p) (pd_comm_uuid_flags p) (pd_comm_bm_set p)
    (pd_comm_disk p) (drbd_current_uuid d) (pd_want_bitmap p) (INITIAL_STATE_SENT p)
    (RS_SOURCE_MISSED_END p) (RS_PEER_MISSED_END p) (DISCARD_MY_DATA p)
    (has_flag (pd_uuid_flags p) UUID_FLAG_CRASHED_PRIMARY || SYNC_SRC_CRASHED_PRI p)
    (agreed_pro_version p) (RECONNECT p) in
  (p', snd (rotate_current_into_bitmap 0 (dagtag_sector d) random d)).

(** [drbd_uuid_resync_finished] towards the sync source [p]. *)
Definition drbd_uuid_resync_finished (p : drbd_peer_device) (d : drbd_device) : Z * drbd_device :=
  let push v d := set_md (_drbd_uuid_push_history v (md d)) d in
  let d := foldl (fun d v => push (no_primary v) d) d (pd_history_uuids p) in
  let d := foldl (fun d i => if pd_bitmap_uuid p i =? U64_MAX then d
                             else push (no_primary (pd_bitmap_uuid p i)) d) d (seq 0 DRBD_PEERS_MAX) in
  let ss_nz_bm := __test_bitmap_slots_of_peer p in
  let pwcu := peers_with_current_uuid d (pd_current_uuid p) in
  let '(newer, d) := __set_bitmap_slots (pd_rs_start_uuid p) (Z.ldiff ss_nz_bm pwcu) d in
  let '(_, d) := __set_bitmap_slots 0 (u64 (Z.lor (Z.lnot ss_nz_bm) pwcu)) d in
  let d := push (drbd_current_uuid d) d in
  (newer, __drbd_uuid_set_current (pd_current_uuid p) d).

(** [drbd_uuid_received_new_current] *)
Definition received_target (p : drbd_peer_device) : bool :=
  (pd_repl_state p =? L_SYNC_TARGET) || (pd_repl_state p =? L_BEHIND) || (pd_repl_state p =? L_PAUSED_SYNC_T).

Definition received_recipient (p : drbd_peer_device) : bool :=
  (pd_repl_state p =? L_WF_BITMAP_S) || (pd_repl_state p =? L_SYNC_SOURCE) ||
  (pd_repl_state p =? L_PAUSED_SYNC_S) || (pd_repl_state p =? L_ESTABLISHED) ||
  (pd_disk_state p =? D_DISKLESS).

Definition drbd_uuid_received_new_current (val weak_nodes dagtag random : Z) (d : drbd_device) : Z * drbd_device :=
  let recipients := foldl (fun r p => if received_recipient p then Z.lor r (NODE_MASK (pd_node_id p)) else r)
                      0 (peer_devices d) in
  let set_current := negb (existsb received_target (peer_devices d)) in
  let d := set_peer_devices ((fun p => if received_target p then set_pd_current val p else p) <$> peer_devices d) d in
  if set_current then
    let old_current := drbd_current_uuid d in
    let '(recipients, d) :=
      if disk_state d =? D_UP_TO_DATE
      then let '(got, d) := rotate_current_into_bitmap weak_nodes dagtag random d in (Z.lor recipients got, d)
      else (recipients, d) in
    let upd := Z.land (u64 (Z.lnot weak_nodes)) (__test_bitmap_slots d) in
    let '(_, d) := __set_bitmap_slots val upd d in
    let d := __drbd_uuid_set_current val d in
    (recipients, set_md (_drbd_uuid_push_history old_current (md d)) d)
  else (0, d).

(** ** What is sent to a peer *)

(** [drbd_collect_local_uuid_flags] *)
Definition drbd_collect_local_uuid_flags (d : drbd_device) (p : drbd_peer_device) : Z :=
  let flag (b : bool) f := if b then UUID_FLAG f else 0 in
  Z.lor (flag (DISCARD_MY_DATA p) UUID_FLAG_DISCARD_MY_DATA)
  (Z.lor (flag (CRASHED_PRIMARY d) UUID_FLAG_CRASHED_PRIMARY)
  (Z.lor (flag (negb (md_consistent d)) UUID_FLAG_INCONSISTENT)
  (Z.lor (flag (RECONNECT p) UUID_FLAG_RECONNECT)
  (Z.lor (flag (PRIMARY_LOST_QUORUM d) UUID_FLAG_PRIMARY_LOST_QUORUM)
         (flag (device_stable d) UUID_FLAG_STABLE))))).

(** [drbd_resolved_uuid]: the UUID, and the flag it adds. *)
Definition drbd_resolved_uuid (d : drbd_device) (base : drbd_peer_device) : Z * Z :=
  match find (fun p => negb (Nat.eqb (pd_node_id p) (pd_node_id base)) && (pd_repl_state p =? L_SYNC_TARGET))
          (peer_devices d) with
  | Some p => (pd_current_uuid p, UUID_FLAG UUID_FLAG_SYNC_TARGET)
  | None => (drbd_current_uuid d, 0)
  end.

(** [__bitmap_uuid]: what is sent as the bitmap UUID of a node. *)
Definition __bitmap_uuid (d : drbd_device) (node_id : nat) : Z :=
  let u := bitmap_uuid (peer_md (md d) node_id) in
  match peer_device_by_node_id d node_id with
  | Some p =>
      if (u =? 0) && ((pd_repl_state p =? L_SYNC_TARGET) || (pd_repl_state p =? L_PAUSED_SYNC_T)) &&
         negb (pd_current_uuid p =? 0) &&
         negb (no_primary (pd_current_uuid p) =? no_primary (drbd_current_uuid d))
      then U64_MAX else u
  | None => u
  end.
End uuid.

(** ** The history *)

Section uuid_props.
Context `{DrbdHeaders}.

(** A history of fixed length, in which each entry but for free ones at the end is there once and
    without the primary bit.  That there is no free entry between used ones is [used_first] below. *)
Definition hist_wf (h : list Z) : Prop :=
  length h = HISTORY_UUIDS /\
  exists l k, h = l ++ replicate k 0 /\ NoDup l /\ Forall (fun v => no_primary v = v) l.

Record md_wf (m : drbd_md) : Prop := {
  wf_peers : length (peers m) = DRBD_NODE_ID_MAX;
  wf_history : hist_wf (history_uuids m) }.

Lemma shift_in_wf v h : hist_wf h -> v ∉ h -> no_primary v = v -> hist_wf (shift_in v h).
Proof.
  intros (Hlen & l & k & -> & Hnd & Hall) Hv Hp. unfold shift_in. split; [rewrite length_take; simpl; lia|].
  destruct k as [|k].
  - rewrite app_nil_r in *. destruct (decide (l = [])) as [-> |Hne]; [exists [], 0%nat; by split_and!|].
    destruct (exists_last Hne) as (l' & x & ->). exists (v :: l'), 0%nat. rewrite app_nil_r.
    rewrite length_app. simpl. rewrite Nat.add_1_r. simpl. rewrite take_app_length. split_and!; [done| |].
    + apply NoDup_app in Hnd as (Hnd & _ & _). apply NoDup_cons. split; [|done]. intros Hin. apply Hv. set_solver.
    + apply Forall_app in Hall as [Hall _]. by constructor.
  - exists (v :: l), k. rewrite length_app, length_replicate.
    replace (length l + S k)%nat with (S (length l + k)) by lia. cbn [take app]. split_and!.
    + f_equal. rewrite take_app_ge by lia. f_equal.
      replace (length l + k - length l)%nat with k by lia.
      rewrite take_replicate. f_equal. lia.
    + apply NoDup_cons. split; [|done]. intros Hin. apply Hv. set_solver.
    + by constructor.
Qed.

Lemma replicate_snoc k : replicate k 0 ++ [0] = replicate (S k) 0.
Proof. change [0] with (replicate 1 0). rewrite <- replicate_add. by rewrite Nat.add_1_r. Qed.

Lemma shift_out_wf h : hist_wf h -> hist_wf (shift_out h).
Proof.
  intros (Hlen & l & k & -> & Hnd & Hall). unfold hist_wf, shift_out. destruct l as [|x l].
  - destruct k as [|k]; [pose proof history_uuids_pos; simpl in Hlen; lia|].
    cbn [app replicate] in *. rewrite replicate_snoc. split; [done|]. by exists [], (S k).
  - cbn [app] in *. rewrite <- app_assoc, replicate_snoc. split.
    + revert Hlen. cbn [length]. rewrite !length_app, !length_replicate. lia.
    + exists l, (S k). by apply NoDup_cons in Hnd as [_ ?]; apply Forall_cons in Hall as [_ ?].
Qed.

Lemma not_in_history v h : existsb (fun x => x =? v) h = false -> v ∉ h.
Proof.
  intros He Hin. apply list_elem_of_In in Hin. apply not_true_iff_false in He. apply He, existsb_exists.
  exists v. by rewrite Z.eqb_refl.
Qed.

(** The operations keep the node id and the number of slots. *)
Record same_shape (m m' : drbd_md) : Prop := {
  shape_node : md_node_id m' = md_node_id m;
  shape_max : max_peers m' = max_peers m;
  shape_peers : length (peers m') = length (peers m);
  shape_hist : hist_wf (history_uuids m) -> hist_wf (history_uuids m') }.

#[export] Instance same_shape_preorder : PreOrder same_shape.
Proof.
  split; [intros m; by split|]. intros a b c [] []. split; [congruence..|]. auto.
Qed.

Lemma push_history_shape v m : same_shape m (_drbd_uuid_push_history v m).
Proof.
  unfold _drbd_uuid_push_history. destruct (push_history_skips m v) eqn:E; [done|].
  unfold push_history_skips in E. rewrite !orb_false_iff in E. destruct E as [_ He].
  split; [done..|]. intros Hh. apply shift_in_wf; [done|by apply not_in_history|apply no_primary_idem].
Qed.

Lemma set_peer_md_shape i f m : same_shape m (set_peer_md i f m).
Proof. split; [done|done|apply length_alter|done]. Qed.

Lemma shape_foldl {A B} (P : A -> drbd_md) (f : A -> B -> A) l a :
  (forall a b, same_shape (P a) (P (f a b))) -> same_shape (P a) (P (foldl f a l)).
Proof.
  intros Hf. revert a. induction l as [|b l IH]; intros a; [done|]. simpl. etransitivity; [apply Hf|apply IH].
Qed.
End uuid_props.

#[export] Hint Resolve push_history_shape set_peer_md_shape : drbd.

Section uuid_wf.
Context `{DrbdHeaders}.

Notation shape d d' := (same_shape (md d) (md d')).

Lemma set_exposed_md v d : md (snd (drbd_uuid_set_exposed v d)) = md d.
Proof. unfold drbd_uuid_set_exposed. by case_if. Qed.

Lemma set_current_shape v d : shape d (__drbd_uuid_set_current v d).
Proof. unfold __drbd_uuid_set_current. rewrite set_exposed_md. by split. Qed.

Lemma uuid_set_bitmap_shape p v d : shape d (drbd_uuid_set_bitmap p v d).
Proof.
  unfold drbd_uuid_set_bitmap, __drbd_uuid_set_bitmap. case_if; cbn; [apply set_peer_md_shape|].
  etransitivity; [apply set_peer_md_shape|apply push_history_shape].
Qed.

Lemma rotate_shape weak dagtag rnd d : shape d (snd (rotate_current_into_bitmap weak dagtag rnd d)).
Proof.
  unfold rotate_current_into_bitmap. set (c := if current_uuid (md d) =? _ then _ else _).
  set (r0 := mk_rotation _ _ _ _ _). cbn zeta.
  assert (forall r p, same_shape (rot_md r) (rot_md (rotate_peer_device c weak dagtag r p))) as H1.
  { intros r p. unfold rotate_peer_device. repeat case_if; cbn; auto using set_peer_md_shape; reflexivity. }
  assert (forall r i, same_shape (rot_md r) (rot_md (rotate_node_id c dagtag r i))) as H2.
  { intros r i. unfold rotate_node_id. repeat case_if; cbn; auto using set_peer_md_shape; reflexivity. }
  set (r := foldl _ _ (seq _ _)). assert (same_shape (md d) (rot_md r)) as Hs.
  { change (md d) with (rot_md r0). etransitivity; [|apply shape_foldl, H2]. apply shape_foldl, H1. }
  cbn [snd]. by case_if.
Qed.

Lemma prepare_shape f r1 r2 ok d : shape d (snd (__new_current_uuid_prepare f r1 r2 ok d)).
Proof.
  unfold __new_current_uuid_prepare. pose proof (rotate_shape (if f then initial_resync_nodes d else 0) (dagtag_sector d) r1 d) as Hr.
  destruct (rotate_current_into_bitmap _ _ _ d) as [got d1]. cbn [snd] in Hr.
  case_if; [done|]. case_if; cbn [snd]; repeat (etransitivity; [|apply set_current_shape]); done.
Qed.

Lemma new_current_shape my_id f r1 r2 ok d : shape d (snd (drbd_uuid_new_current my_id f r1 r2 ok d)).
Proof.
  unfold drbd_uuid_new_current. case_if.
  - pose proof (prepare_shape f r1 r2 ok d). by destruct (__new_current_uuid_prepare _ _ _ _ d).
  - case_if; [|done]. pose proof (set_exposed_md (with_role d r1) d) as He.
    destruct (drbd_uuid_set_exposed _ d) as [b d1]. cbn in *. by rewrite He.
Qed.

Lemma by_user_shape r1 r2 ok d : shape d (snd (drbd_uuid_new_current_by_user r1 r2 ok d)).
Proof.
  unfold drbd_uuid_new_current_by_user. etransitivity; [|apply prepare_shape].
  set (mask := foldl _ 0 _). set (d1 := foldl _ d _). transitivity (md d1).
  { apply (shape_foldl md). intros. apply uuid_set_bitmap_shape. }
  apply (shape_foldl md (forget_slot mask)). intros a i. unfold forget_slot. repeat case_if; try reflexivity. cbn.
  etransitivity; [apply set_peer_md_shape|apply push_history_shape].
Qed.

Lemma set_slots_shape u nodes d : shape d (snd (__set_bitmap_slots u nodes d)).
Proof.
  unfold __set_bitmap_slots. apply (shape_foldl (fun a => md (snd a)) (set_bitmap_slot u nodes) _ (0, d)).
  intros [b a] i.
  unfold set_bitmap_slot. repeat case_if; try reflexivity; cbn;
    (etransitivity; [apply set_peer_md_shape|apply push_history_shape]).
Qed.

Lemma resync_finished_shape p d : shape d (snd (drbd_uuid_resync_finished p d)).
Proof.
  unfold drbd_uuid_resync_finished. set (d1 := foldl _ d _). set (d2 := foldl _ d1 _).
  assert (shape d d2) as Hd2.
  { transitivity (md d1); [apply (shape_foldl md); intros; apply push_history_shape|].
    apply (shape_foldl md). intros a i. case_if; [done|]. apply push_history_shape. }
  pose proof (set_slots_shape (pd_rs_start_uuid p)
    (Z.ldiff (__test_bitmap_slots_of_peer p) (peers_with_current_uuid d2 (pd_current_uuid p))) d2) as Hd3.
  cbn zeta. destruct (__set_bitmap_slots _ _ d2) as [n d3]. cbn [snd] in Hd3.
  pose proof (set_slots_shape 0
    (u64 (Z.lor (Z.lnot (__test_bitmap_slots_of_peer p)) (peers_with_current_uuid d2 (pd_current_uuid p)))) d3) as Hd4.
  destruct (__set_bitmap_slots _ _ d3) as [n' d4]. cbn [snd] in *.
  etransitivity; [|apply set_current_shape]. cbn [md set_md].
  etransitivity; [|apply push_history_shape]. do 2 (etransitivity; [|done]). done.
Qed.

Lemma received_shape v weak dagtag rnd d : shape d (snd (drbd_uuid_received_new_current v weak dagtag rnd d)).
Proof.
  unfold drbd_uuid_received_new_current. case_if; [|done].
  set (d1 := set_peer_devices _ d). change (md d) with (md d1).
  assert (exists n d2, (if disk_state d1 =? D_UP_TO_DATE
      then let '(got, d2) := rotate_current_into_bitmap weak dagtag rnd d1
           in (Z.lor (foldl (fun r p => if received_recipient p then Z.lor r (NODE_MASK (pd_node_id p)) else r)
                      0 (peer_devices d)) got, d2)
      else (foldl (fun r p => if received_recipient p then Z.lor r (NODE_MASK (pd_node_id p)) else r)
                      0 (peer_devices d), d1)) = (n, d2) /\ shape d1 d2) as (n & d2 & -> & Hd2).
  { case_if; [|by eexists _, _]. pose proof (rotate_shape weak dagtag rnd d1).
    destruct (rotate_current_into_bitmap _ _ _ d1). by eexists _, _. }
  pose proof (set_slots_shape v (Z.land (u64 (Z.lnot weak)) (__test_bitmap_slots d2)) d2) as Hd3.
  destruct (__set_bitmap_slots _ _ d2) as [n' d3]. cbn [snd md set_md] in *.
  etransitivity; [|apply push_history_shape]. etransitivity; [|apply set_current_shape]. by etransitivity.
Qed.

(** ** Used and free entries *)

(** A generation has more than the bit that tells the role; 0 stands for none. *)
Definition is_gen (v : Z) : Prop := no_primary v <> 0.
Definition gen_or_none (v : Z) : Prop := v = 0 \/ is_gen v.

(** All used entries come before the free ones. *)
Definition used_first (h : list Z) : Prop := exists l k, h = l ++ replicate k 0 /\ Forall (fun v => v <> 0) l.

Record md_gens (m : drbd_md) : Prop := {
  gens_current : is_gen (current_uuid m);
  gens_peers : Forall (fun p => gen_or_none (bitmap_uuid p)) (peers m);
  gens_history : used_first (history_uuids m) }.

Lemma no_primary_with_role d v : no_primary (with_role d v) = no_primary v.
Proof.
  unfold with_role. case_decide; [|apply no_primary_idem]. unfold no_primary.
  apply Z.bits_inj'. intros n Hn. rewrite !Z.ldiff_spec, Z.lor_spec.
  by destruct (Z.testbit v n), (Z.testbit UUID_PRIMARY n).
Qed.

Lemma shift_in_used v h : v <> 0 -> used_first h -> used_first (shift_in v h).
Proof.
  intros Hv (l & k & -> & Hl). unfold shift_in. rewrite length_app, length_replicate. destruct k as [|k].
  - exists (take (length l) (v :: l)), 0%nat. rewrite !app_nil_r, Nat.add_0_r. split; [done|].
    apply Forall_take. by constructor.
  - exists (v :: l), k. split; [|by constructor]. rewrite Nat.add_succ_r. cbn [take app]. f_equal.
    rewrite take_app_ge by lia. f_equal. rewrite take_replicate. f_equal. lia.
Qed.

Lemma shift_out_used h : used_first h -> used_first (shift_out h).
Proof.
  intros (l & k & -> & Hl). destruct l as [|x l]; [destruct k as [|k]|]; cbn [app replicate shift_out].
  - by exists [], 0%nat.
  - rewrite replicate_snoc. by exists [], (S k).
  - rewrite <- app_assoc, replicate_snoc. exists l, (S k). by apply Forall_cons in Hl as [_ Hl].
Qed.

Lemma gen_or_none_peer m i : md_gens m -> gen_or_none (bitmap_uuid (peer_md m i)).
Proof.
  intros [_ Hp _]. unfold peer_md. destruct (peers m !! i) as [p|] eqn:E; [|by left].
  by apply (Forall_lookup_1 _ _ _ _ Hp E).
Qed.

Lemma push_history_gens v m : gen_or_none v -> md_gens m -> md_gens (_drbd_uuid_push_history v m).
Proof.
  intros Hv Hm. unfold _drbd_uuid_push_history. destruct (push_history_skips m v) eqn:E; [done|].
  unfold push_history_skips in E. rewrite !orb_false_iff, Z.eqb_neq in E. destruct E as [[[[_ Hz] _] _] _].
  destruct Hm as [Hc Hp Hh]. split; [done|done|]. apply shift_in_used; [|done].
  by destruct Hv as [->|Hv].
Qed.

(** What was masked before, as the resync does it, is never the role bit alone. *)
Lemma gen_or_none_masked v : gen_or_none (no_primary v).
Proof.
  destruct (decide (no_primary v = 0)) as [->|Hv]; [by left|]. right. unfold is_gen. by rewrite no_primary_idem.
Qed.

Lemma set_peer_md_gens i u dt m : gen_or_none u -> md_gens m -> md_gens (set_peer_md i (set_bitmap_uuid u dt) m).
Proof. intros Hu [Hc Hp Hh]. split; [done| |done]. by apply Forall_alter. Qed.

Lemma set_current_gens v d : is_gen v -> md_gens (md d) -> md_gens (md (__drbd_uuid_set_current v d)).
Proof.
  intros Hv [Hc Hp Hh]. unfold __drbd_uuid_set_current. rewrite set_exposed_md. split; [|done..].
  cbn. unfold is_gen. by rewrite no_primary_with_role.
Qed.

Lemma uuid_set_bitmap_gens p v d : gen_or_none v -> md_gens (md d) -> md_gens (md (drbd_uuid_set_bitmap p v d)).
Proof.
  intros Hv Hd. unfold drbd_uuid_set_bitmap, __drbd_uuid_set_bitmap. case_if; cbn; [by apply set_peer_md_gens|].
  apply push_history_gens; [by apply gen_or_none_peer|by apply set_peer_md_gens].
Qed.

Lemma gens_foldl {A B} (P : A -> drbd_md) (f : A -> B -> A) l a :
  (forall a b, md_gens (P a) -> md_gens (P (f a b))) -> md_gens (P a) -> md_gens (P (foldl f a l)).
Proof. intros Hf. revert a. induction l as [|b l IH]; intros a Ha; [done|]. simpl. auto. Qed.

Lemma rotate_gens weak dagtag rnd d :
  is_gen rnd -> md_gens (md d) -> md_gens (md (snd (rotate_current_into_bitmap weak dagtag rnd d))).
Proof.
  intros Hr Hd. unfold rotate_current_into_bitmap. set (c := if current_uuid (md d) =? _ then _ else _).
  set (r0 := mk_rotation _ _ _ _ _). cbn zeta.
  assert (gen_or_none c) as Hc. { right. subst c. case_if; [done|]. by apply gens_current. }
  set (r := foldl _ _ (seq _ _)). assert (md_gens (rot_md r)) as Hs.
  { apply (gens_foldl rot_md).
    { intros a i Ha. unfold rotate_node_id. repeat case_if; cbn; auto using set_peer_md_gens. }
    apply (gens_foldl rot_md); [|done].
    intros a p Ha. unfold rotate_peer_device. repeat case_if; cbn; auto using set_peer_md_gens. }
  cbn [snd]. by case_if.
Qed.

Lemma prepare_gens f r1 r2 ok d : is_gen r1 -> is_gen r2 ->
  md_gens (md d) -> md_gens (md (snd (__new_current_uuid_prepare f r1 r2 ok d))).
Proof.
  intros H1 H2 Hd. unfold __new_current_uuid_prepare.
  pose proof (rotate_gens (if f then initial_resync_nodes d else 0) (dagtag_sector d) r1 d H1 Hd) as Hr.
  destruct (rotate_current_into_bitmap _ _ _ d) as [got d1]. cbn [snd] in Hr.
  case_if; [done|]. case_if; cbn [snd]; repeat apply set_current_gens; try done. by apply gens_current.
Qed.

Lemma new_current_gens my_id f r1 r2 ok d : is_gen r1 -> is_gen r2 ->
  md_gens (md d) -> md_gens (md (snd (drbd_uuid_new_current my_id f r1 r2 ok d))).
Proof.
  intros H1 H2 Hd. unfold drbd_uuid_new_current. case_if.
  - pose proof (prepare_gens f r1 r2 ok d H1 H2 Hd). by destruct (__new_current_uuid_prepare _ _ _ _ d).
  - case_if; [|done]. pose proof (set_exposed_md (with_role d r1) d) as He.
    destruct (drbd_uuid_set_exposed _ d) as [b d1]. cbn in *. by rewrite He.
Qed.

Lemma by_user_gens r1 r2 ok d : is_gen r1 -> is_gen r2 ->
  md_gens (md d) -> md_gens (md (snd (drbd_uuid_new_current_by_user r1 r2 ok d))).
Proof.
  intros H1 H2 Hd. unfold drbd_uuid_new_current_by_user. apply prepare_gens; [done..|].
  apply (gens_foldl md).
  - intros a i Ha. unfold forget_slot. repeat case_if; try done. cbn.
    apply push_history_gens; [by apply gen_or_none_peer|]. apply set_peer_md_gens; [by left|done].
  - apply (gens_foldl md); [|done]. intros. apply uuid_set_bitmap_gens; [by left|done].
Qed.

Lemma set_slots_gens u nodes d : gen_or_none u -> md_gens (md d) -> md_gens (md (snd (__set_bitmap_slots u nodes d))).
Proof.
  intros Hu Hd. unfold __set_bitmap_slots.
  apply (gens_foldl (fun a => md (snd a)) (set_bitmap_slot u nodes) _ (0, d)); [|done].
  intros [b a] i Ha. unfold set_bitmap_slot. repeat case_if; try done; cbn;
    (apply push_history_gens; [by apply gen_or_none_peer|by apply set_peer_md_gens]).
Qed.

Lemma resync_finished_gens p d : is_gen (pd_current_uuid p) -> gen_or_none (pd_rs_start_uuid p) ->
  md_gens (md d) -> md_gens (md (snd (drbd_uuid_resync_finished p d))).
Proof.
  intros Hc Hs Hd. unfold drbd_uuid_resync_finished. set (d1 := foldl _ d _). set (d2 := foldl _ d1 _).
  assert (md_gens (md d2)) as Hd2.
  { apply (gens_foldl md).
    { intros a i Ha. case_if; [done|]. apply push_history_gens; [apply gen_or_none_masked|done]. }
    apply (gens_foldl md); [|done]. intros. apply push_history_gens; [apply gen_or_none_masked|done]. }
  pose proof (set_slots_gens (pd_rs_start_uuid p)
    (Z.ldiff (__test_bitmap_slots_of_peer p) (peers_with_current_uuid d2 (pd_current_uuid p))) d2 Hs Hd2) as Hd3.
  cbn zeta. destruct (__set_bitmap_slots _ _ d2) as [n d3]. cbn [snd] in Hd3.
  pose proof (set_slots_gens 0
    (u64 (Z.lor (Z.lnot (__test_bitmap_slots_of_peer p)) (peers_with_current_uuid d2 (pd_current_uuid p)))) d3
    (or_introl eq_refl) Hd3) as Hd4.
  destruct (__set_bitmap_slots _ _ d3) as [n' d4]. cbn [snd] in *.
  apply set_current_gens; [done|]. cbn [md set_md]. apply push_history_gens; [|done]. right. by apply gens_current.
Qed.

Lemma received_gens v weak dagtag rnd d : is_gen v -> is_gen rnd ->
  md_gens (md d) -> md_gens (md (snd (drbd_uuid_received_new_current v weak dagtag rnd d))).
Proof.
  intros Hv Hr Hd. unfold drbd_uuid_received_new_current. case_if; [|done].
  set (d1 := set_peer_devices _ d). change (md_gens (md d1)) in Hd.
  set (rec := foldl _ 0 _).
  assert (exists n d2, (if disk_state d1 =? D_UP_TO_DATE
      then let '(got, d2) := rotate_current_into_bitmap weak dagtag rnd d1 in (Z.lor rec got, d2)
      else (rec, d1)) = (n, d2) /\ md_gens (md d2)) as (n & d2 & -> & Hd2).
  { case_if; [|by eexists _, _]. pose proof (rotate_gens weak dagtag rnd d1 Hr Hd).
    destruct (rotate_current_into_bitmap _ _ _ d1). by eexists _, _. }
  pose proof (set_slots_gens v (Z.land (u64 (Z.lnot weak)) (__test_bitmap_slots d2)) d2 (or_intror Hv) Hd2) as Hd3.
  destruct (__set_bitmap_slots _ _ d2) as [n' d3]. cbn [snd md set_md] in *.
  apply push_history_gens; [right; by apply gens_current|by apply set_current_gens].
Qed.

(** Every operation of this file that changes the meta-data.  The values that come from outside, a
    random number or what a peer sent, are generations: the code tests neither, and a random number
    is one but for two of its 2^64 values. *)
Inductive uuid_step : drbd_device -> drbd_device -> Prop :=
  | step_set_current v d : is_gen v -> uuid_step d (__drbd_uuid_set_current v d)
  | step__set_bitmap p v d : gen_or_none v -> uuid_step d (__drbd_uuid_set_bitmap p v d)
  | step_set_bitmap p v d : gen_or_none v -> uuid_step d (drbd_uuid_set_bitmap p v d)
  | step_push v d : gen_or_none v -> uuid_step d (set_md (_drbd_uuid_push_history v (md d)) d)
  | step_pull d : uuid_step d (set_md (snd (_drbd_uuid_pull_history (md d))) d)
  | step_exposed v d : uuid_step d (snd (drbd_uuid_set_exposed v d))
  | step_new_current my_id f r1 r2 ok d : is_gen r1 -> is_gen r2 ->
      uuid_step d (snd (drbd_uuid_new_current my_id f r1 r2 ok d))
  | step_by_user r1 r2 ok d : is_gen r1 -> is_gen r2 ->
      uuid_step d (snd (drbd_uuid_new_current_by_user r1 r2 ok d))
  | step_received v weak dagtag rnd d : is_gen v -> is_gen rnd ->
      uuid_step d (snd (drbd_uuid_received_new_current v weak dagtag rnd d))
  | step_resync_starting rnd p d : is_gen rnd -> uuid_step d (snd (drbd_uuid_resync_starting rnd p d))
  | step_resync_finished p d : is_gen (pd_current_uuid p) -> gen_or_none (pd_rs_start_uuid p) ->
      uuid_step d (snd (drbd_uuid_resync_finished p d))
  (* roles, peers and states change outside of this file *)
  | step_environment d d' : md d' = md d -> uuid_step d d'.

Lemma uuid_step_gens d d' : uuid_step d d' -> md_gens (md d) -> md_gens (md d').
Proof.
  destruct 1; auto using set_current_gens, uuid_set_bitmap_gens, new_current_gens, by_user_gens,
    received_gens, resync_finished_gens.
  - by apply set_peer_md_gens.
  - by apply push_history_gens.
  - intros [Hc Hp Hh]. split; [done..|]. by apply shift_out_used.
  - by rewrite set_exposed_md.
  - intros Hd. unfold drbd_uuid_resync_starting. by apply rotate_gens.
  - by rewrite H0.
Qed.

Lemma uuid_step_shape d d' : uuid_step d d' -> shape d d'.
Proof.
  destruct 1; auto using set_current_shape, uuid_set_bitmap_shape, new_current_shape, by_user_shape,
    received_shape, resync_finished_shape.
  - apply set_peer_md_shape.
  - apply push_history_shape.
  - split; [done..|]. apply shift_out_wf.
  - by rewrite set_exposed_md.
  - unfold drbd_uuid_resync_starting. apply rotate_shape.
  - by rewrite H0.
Qed.
End uuid_wf.

(** ** Rotation of the current UUID into the bitmap slots *)

Section uuid_rotate.
Context `{DrbdHeaders}.

Lemma in_mask_testbit mask i : in_mask mask i = Z.testbit mask (Z.of_nat i).
Proof.
  unfold in_mask, NODE_MASK. rewrite Z.shiftl_1_l. destruct (Z.testbit mask (Z.of_nat i)) eqn:E.
  - destruct (Z.eqb_spec (Z.land mask (2 ^ Z.of_nat i)) 0) as [He|]; [|done].
    apply (f_equal (fun z => Z.testbit z (Z.of_nat i))) in He.
    rewrite Z.land_spec, E, Z.pow2_bits_true, Z.bits_0 in He by lia. done.
  - rewrite (proj2 (Z.eqb_eq _ 0)); [done|]. apply Z.bits_inj'. intros n Hn.
    rewrite Z.land_spec, Z.bits_0, Z.pow2_bits_eqb by lia.
    destruct (Z.eqb_spec (Z.of_nat i) n) as [<-|]; [by rewrite E|]. apply andb_false_r.
Qed.

Lemma in_mask_lor mask i j : in_mask (Z.lor mask (NODE_MASK i)) j = in_mask mask j || Nat.eqb i j.
Proof.
  rewrite !in_mask_testbit, Z.lor_spec. unfold NODE_MASK. rewrite Z.shiftl_1_l, Z.pow2_bits_eqb by lia.
  f_equal. destruct (Nat.eqb_spec i j) as [-> |]; [by rewrite Z.eqb_refl|]. apply Z.eqb_neq. lia.
Qed.

Lemma in_mask_0 i : in_mask 0 i = false.
Proof. by rewrite in_mask_testbit, Z.testbit_0_l. Qed.

Lemma peer_md_alter_eq i f m : (i < length (peers m))%nat -> peer_md (set_peer_md i f m) i = f (peer_md m i).
Proof.
  intros Hi. unfold peer_md, set_peer_md. cbn. rewrite list_lookup_alter_eq.
  destruct (lookup_lt_is_Some_2 _ _ Hi) as [x ->]. done.
Qed.

Lemma peer_md_alter_ne i j f m : i <> j -> peer_md (set_peer_md i f m) j = peer_md m j.
Proof. intros Hne. unfold peer_md, set_peer_md. cbn. by rewrite list_lookup_alter_ne. Qed.

(** The peers whose slot takes the previous current UUID: the slot does not
    already start at an older generation, the peer keeps a bitmap, and it is
    either not there or named as weak. *)
Definition starts_new_bitmap (prev_c_uuid weak_nodes : Z) (m : drbd_md) (p : drbd_peer_device) : bool :=
  let bm_uuid := bitmap_uuid (peer_md m (pd_node_id p)) in
  ((bm_uuid =? 0) || (bm_uuid =? prev_c_uuid)) &&
  negb ((pd_disk_state p =? D_DISKLESS) && negb (mdf m (pd_node_id p) MDF_HAVE_BITMAP)) &&
  (((pd_disk_state p <=? D_UNKNOWN) && negb (pd_disk_state p =? D_NEGOTIATING)) ||
   in_mask weak_nodes (pd_node_id p)).

Lemma rotate_peer_device_cases c weak dagtag r p :
  let r' := rotate_peer_device c weak dagtag r p in
  node_mask r' = Z.lor (node_mask r) (NODE_MASK (pd_node_id p)) /\
  if starts_new_bitmap c weak (rot_md r) p
  then rot_md r' = set_peer_md (pd_node_id p) (set_bitmap_uuid c dagtag) (rot_md r) /\ rot_dirty r' = true /\
       got_new_bitmap_uuid r' = Z.lor (got_new_bitmap_uuid r) (NODE_MASK (pd_node_id p))
  else rot_md r' = rot_md r /\ got_new_bitmap_uuid r' = got_new_bitmap_uuid r.
Proof.
  cbn zeta. unfold rotate_peer_device, starts_new_bitmap.
  destruct (bitmap_uuid _ =? 0), (bitmap_uuid _ =? c); cbn [negb andb orb];
  destruct (pd_disk_state p =? D_DISKLESS), (mdf (rot_md r) (pd_node_id p) MDF_HAVE_BITMAP); cbn [negb andb orb];
  destruct (pd_disk_state p <=? D_UNKNOWN), (pd_disk_state p =? D_NEGOTIATING), (in_mask weak (pd_node_id p)); cbn; done.
Qed.

Notation slot m i := (bitmap_uuid (peer_md m i)).

(** Slots of node ids that the loop does not visit keep their contents. *)
Lemma rotate_peer_devices_other c weak dagtag ps r i :
  i ∉ pd_node_id <$> ps ->
  let r' := foldl (rotate_peer_device c weak dagtag) r ps in
  peer_md (rot_md r') i = peer_md (rot_md r) i /\
  in_mask (node_mask r') i = in_mask (node_mask r) i /\
  in_mask (got_new_bitmap_uuid r') i = in_mask (got_new_bitmap_uuid r) i.
Proof.
  revert r. induction ps as [|p ps IH]; intros r Hi; [done|]. cbn [foldl]. cbn in Hi.
  rewrite not_elem_of_cons in Hi. destruct Hi as [Hip Hi].
  destruct (rotate_peer_device_cases c weak dagtag r p) as [Hn Hc].
  destruct (IH (rotate_peer_device c weak dagtag r p) Hi) as (-> & -> & ->). rewrite Hn, in_mask_lor.
  rewrite (proj2 (Nat.eqb_neq _ _)), orb_false_r by done. split_and!; [|done|].
  - destruct (starts_new_bitmap _ _ _ _); destruct Hc as [-> _]; [|done]. by apply peer_md_alter_ne.
  - destruct (starts_new_bitmap _ _ _ _); [destruct Hc as (_ & _ & ->)|by destruct Hc as [_ ->]].
    by rewrite in_mask_lor, (proj2 (Nat.eqb_neq _ _)), orb_false_r.
Qed.

Lemma rotate_peer_devices_length c weak dagtag ps r :
  length (peers (rot_md (foldl (rotate_peer_device c weak dagtag) r ps))) = length (peers (rot_md r)).
Proof.
  revert r. induction ps as [|p ps IH]; intros r; [done|]. cbn [foldl]. rewrite IH.
  destruct (rotate_peer_device_cases c weak dagtag r p) as [_ Hc].
  destruct (starts_new_bitmap _ _ _ _); destruct Hc as [-> _]; [apply length_alter|done].
Qed.

(** The slot of a visited peer. *)
Lemma rotate_peer_devices_peer c weak dagtag ps r p :
  NoDup (pd_node_id <$> ps) -> p ∈ ps -> (pd_node_id p < length (peers (rot_md r)))%nat ->
  let r' := foldl (rotate_peer_device c weak dagtag) r ps in
  let i := pd_node_id p in
  peer_md (rot_md r') i = (if starts_new_bitmap c weak (rot_md r) p then set_bitmap_uuid c dagtag (peer_md (rot_md r) i) else peer_md (rot_md r) i) /\
  in_mask (node_mask r') i = true /\
  in_mask (got_new_bitmap_uuid r') i = in_mask (got_new_bitmap_uuid r) i || starts_new_bitmap c weak (rot_md r) p.
Proof.
  revert r. induction ps as [|q ps IH]; intros r Hnd Hp Hlt; [by apply not_elem_of_nil in Hp|].
  cbn in Hnd. apply NoDup_cons in Hnd as [Hq Hnd]. cbn [foldl].
  destruct (rotate_peer_device_cases c weak dagtag r q) as [Hn Hc]. cbn zeta.
  apply elem_of_cons in Hp as [-> |Hp].
  - destruct (rotate_peer_devices_other c weak dagtag ps (rotate_peer_device c weak dagtag r q) (pd_node_id q) Hq)
      as (-> & -> & ->).
    rewrite Hn, in_mask_lor, Nat.eqb_refl, orb_true_r.
    destruct (starts_new_bitmap _ _ _ _); [destruct Hc as (-> & _ & ->)|by destruct Hc as [-> ->]; rewrite orb_false_r].
    rewrite peer_md_alter_eq, in_mask_lor, Nat.eqb_refl by done. done.
  - assert (pd_node_id q <> pd_node_id p) as Hne.
    { intros He. apply Hq. rewrite He. by apply list_elem_of_fmap_2. }
    destruct (IH (rotate_peer_device c weak dagtag r q) Hnd Hp) as (-> & -> & ->).
    { destruct (starts_new_bitmap _ _ _ _); destruct Hc as [-> _]; [|done].
      unfold set_peer_md. cbn. by rewrite length_alter. }
    assert (peer_md (rot_md (rotate_peer_device c weak dagtag r q)) (pd_node_id p) = peer_md (rot_md r) (pd_node_id p)) as Hs.
    { destruct (starts_new_bitmap _ _ _ _); destruct Hc as [-> _]; [by apply peer_md_alter_ne|done]. }
    assert (starts_new_bitmap c weak (rot_md (rotate_peer_device c weak dagtag r q)) p =
            starts_new_bitmap c weak (rot_md r) p) as ->.
    { unfold starts_new_bitmap, mdf. by rewrite Hs. }
    rewrite Hs. split_and!; [done|done|]. f_equal.
    destruct (starts_new_bitmap _ _ _ q); [destruct Hc as (_ & _ & ->)|by destruct Hc as [_ ->]].
    by rewrite in_mask_lor, (proj2 (Nat.eqb_neq _ _)), orb_false_r.
Qed.

(** Whatever the peers are, a slot keeps its contents or goes from empty to the
    previous current UUID. *)
Lemma rotate_peer_device_range c weak dagtag r p i :
  let r' := rotate_peer_device c weak dagtag r p in
  slot (rot_md r') i = slot (rot_md r) i \/
  (slot (rot_md r) i = 0 \/ slot (rot_md r) i = c) /\ slot (rot_md r') i = c.
Proof.
  cbn zeta. destruct (rotate_peer_device_cases c weak dagtag r p) as [_ Hc].
  destruct (starts_new_bitmap c weak (rot_md r) p) eqn:Es; [|left; by destruct Hc as [-> _]].
  destruct Hc as [-> _]. destruct (decide (pd_node_id p = i)) as [<-|Hne]; [|left; by rewrite peer_md_alter_ne].
  destruct (decide (pd_node_id p < length (peers (rot_md r)))%nat) as [Hlt|Hge].
  - right. rewrite peer_md_alter_eq by done. split; [|done]. unfold starts_new_bitmap in Es.
    apply andb_true_iff in Es as [[[Es|Es]%orb_true_iff _]%andb_true_iff _]; reflect_bools; auto.
  - left. unfold peer_md, set_peer_md. cbn. by rewrite !lookup_ge_None_2 by (rewrite ?length_alter; lia).
Qed.

Lemma rotate_peer_devices_range c weak dagtag ps r i :
  let r' := foldl (rotate_peer_device c weak dagtag) r ps in
  slot (rot_md r') i = slot (rot_md r) i \/
  (slot (rot_md r) i = 0 \/ slot (rot_md r) i = c) /\ slot (rot_md r') i = c.
Proof.
  revert r. induction ps as [|p ps IH]; intros r; [by left|]. cbn [foldl].
  destruct (rotate_peer_device_range c weak dagtag r p i) as [He|[Ho He]]; specialize (IH (rotate_peer_device c weak dagtag r p));
    cbn zeta in IH; rewrite He in IH; [done|]. right. split; [done|]. by destruct IH as [-> |[_ ->]].
Qed.

(** The loop over the node ids without a peer device. *)
Lemma rotate_node_id_cases c dagtag r i j :
  (i < length (peers (rot_md r)))%nat ->
  let r' := rotate_node_id c dagtag r i in
  node_mask r' = node_mask r /\
  length (peers (rot_md r')) = length (peers (rot_md r)) /\
  (peer_md (rot_md r') j = peer_md (rot_md r) j \/
   i = j /\ in_mask (node_mask r) i = false /\ i <> md_node_id (rot_md r) /\
   (slot (rot_md r) i = 0 \/ slot (rot_md r) i = c) /\ slot (rot_md r') i = c) /\
  (i <> j \/ in_mask (node_mask r) i = true ->
   in_mask (got_new_bitmap_uuid r') j = in_mask (got_new_bitmap_uuid r) j) /\
  md_node_id (rot_md r') = md_node_id (rot_md r).
Proof.
  intros Hi. cbn zeta. unfold rotate_node_id. case_if; [split_and!; auto|]. case_if; [split_and!; auto|].
  case_if; [split_and!; auto|].
  destruct (negb (slot (rot_md r) i =? 0) && negb (slot (rot_md r) i =? c)) eqn:Es; [split_and!; auto|].
  cbn [node_mask rot_md got_new_bitmap_uuid].
  assert (slot (rot_md r) i = 0 \/ slot (rot_md r) i = c) as Hs.
  { apply andb_false_iff in Es as [Es|Es]; reflect_bools; auto. }
  split_and!; [done|apply length_alter| | |done].
  - destruct (decide (i = j)) as [<- |Hne]; [right|left; by apply peer_md_alter_ne].
    split_and!; [done|done|by apply Nat.eqb_neq|done|]. by rewrite peer_md_alter_eq.
  - intros [Hne|?]; [|congruence].
    case_if; [by rewrite in_mask_lor, (proj2 (Nat.eqb_neq _ _)), orb_false_r|done].
Qed.

Lemma rotate_node_ids_spec c dagtag l r j :
  Forall (fun i => (i < length (peers (rot_md r)))%nat) l ->
  let r' := foldl (rotate_node_id c dagtag) r l in
  node_mask r' = node_mask r /\
  (slot (rot_md r') j = slot (rot_md r) j \/
   in_mask (node_mask r) j = false /\ j <> md_node_id (rot_md r) /\
   (slot (rot_md r) j = 0 \/ slot (rot_md r) j = c) /\ slot (rot_md r') j = c) /\
  (in_mask (node_mask r) j = true ->
   peer_md (rot_md r') j = peer_md (rot_md r) j /\
   in_mask (got_new_bitmap_uuid r') j = in_mask (got_new_bitmap_uuid r) j).
Proof.
  revert r. induction l as [|i l IH]; intros r Hl; [split_and!; auto|]. cbn [foldl].
  apply Forall_cons in Hl as [Hi Hl].
  destruct (rotate_node_id_cases c dagtag r i j Hi) as (Hn & Hlen & Hs & Hg & Hid).
  destruct (IH (rotate_node_id c dagtag r i)) as (Hn' & Hs' & Hg').
  { by rewrite Hlen. }
  cbn zeta in *. rewrite Hn in *. rewrite Hid in Hs'. split_and!; [done| |].
  - destruct Hs as [Hs|(<- & Hm & Hne & Hold & Hs)].
    + rewrite Hs in Hs'. done.
    + right. split_and!; [done|done|done|]. destruct Hs' as [-> |(_ & _ & _ & ->)]; done.
  - intros Hm. destruct (Hg' Hm) as [-> ->]. split.
    + destruct Hs as [-> |(<- & Hm' & _)]; congruence.
    + apply Hg. destruct (decide (i = j)) as [-> |]; auto.
Qed.

(** *** Node ids without a peer device *)

Definition no_older_start (c : Z) (m : drbd_md) (i : nat) : bool := (slot m i =? 0) || (slot m i =? c).

Lemma testbit_setbit_other mask n s : Z.testbit (Z.setbit mask n) s = true -> Z.testbit mask s = true \/ s = n.
Proof.
  unfold Z.setbit. rewrite Z.lor_spec. intros [?|Ht]%orb_true_iff; [by left|]. right. destruct (Z.lt_ge_cases s 0); [by rewrite Z.testbit_neg_r in Ht|].
  rewrite Z.shiftl_spec in Ht by done. destruct (Z.eq_dec (s - n) 0); [lia|]. destruct (Z.lt_ge_cases (s - n) 0); [by rewrite Z.testbit_neg_r in Ht|].
  assert (1 < 2 ^ (s - n)) by (apply Z.pow_gt_1; lia). rewrite Z.bits_above_log2 in Ht; [done|lia|]. simpl. lia.
Qed.

Lemma rotate_peer_device_slots c weak dagtag r p s : Z.testbit (slot_mask (rotate_peer_device c weak dagtag r p)) s = true ->
  Z.testbit (slot_mask r) s = true \/ pd_bitmap_index p <> -1 /\ s = pd_bitmap_index p.
Proof.
  assert (slot_mask (rotate_peer_device c weak dagtag r p) = if pd_bitmap_index p =? -1 then slot_mask r else Z.setbit (slot_mask r) (pd_bitmap_index p)) as ->.
  { unfold rotate_peer_device. cbn zeta. repeat match goal with |- slot_mask (if ?b then _ else _) = _ => destruct b end; done. }
  case_if; [auto|]. intros [?|?]%testbit_setbit_other; auto.
Qed.

Lemma rotate_peer_devices_slots c weak dagtag ps r s : Z.testbit (slot_mask (foldl (rotate_peer_device c weak dagtag) r ps)) s = true ->
  Z.testbit (slot_mask r) s = true \/ s <> -1 /\ s ∈ pd_bitmap_index <$> ps.
Proof.
  revert r. induction ps as [|p ps IH]; intros r Ht; [by left|]. destruct (IH _ Ht) as [H1|[? ?]]; [|right; split; [done|]; by right].
  destruct (rotate_peer_device_slots _ _ _ _ _ _ H1) as [?|[? ->]]; [by left|]. right. split; [done|]. by left.
Qed.

(** What another node id leaves alone. *)
Lemma rotate_node_id_other c dagtag r i j : i <> j ->
  let r' := rotate_node_id c dagtag r i in
  peer_md (rot_md r') j = peer_md (rot_md r) j /\ in_mask (got_new_bitmap_uuid r') j = in_mask (got_new_bitmap_uuid r) j /\
  node_mask r' = node_mask r /\ md_node_id (rot_md r') = md_node_id (rot_md r) /\ max_peers (rot_md r') = max_peers (rot_md r) /\
  length (peers (rot_md r')) = length (peers (rot_md r)).
Proof.
  intros Hne. cbn zeta. unfold rotate_node_id. repeat case_if; cbn; split_and!; try done; try (by apply peer_md_alter_ne); try apply length_alter.
  all: by rewrite in_mask_lor, (proj2 (Nat.eqb_neq _ _)), orb_false_r.
Qed.

(** Slots taken by a node id that has one. *)
Lemma rotate_node_id_slots c dagtag r i s :
  md_node_id (rot_md r) = i \/ in_mask (node_mask r) i = true \/ bitmap_index (peer_md (rot_md r) i) <> -1 /\ bitmap_index (peer_md (rot_md r) i) <> s ->
  Z.testbit (slot_mask (rotate_node_id c dagtag r i)) s = true -> Z.testbit (slot_mask r) s = true.
Proof.
  intros Hor. unfold rotate_node_id. destruct (Nat.eqb_spec i (md_node_id (rot_md r))) as [|Hne]; [done|]. destruct (in_mask (node_mask r) i) eqn:Em; [done|].
  destruct Hor as [|[|[Hi Hs]]]; [done..|]. rewrite (proj2 (Z.eqb_neq _ _) Hi). cbn [negb andb]. case_if; [done|]. case_if; cbn; intros [?|?]%testbit_setbit_other; congruence.
Qed.

(** The visit of a node id whose slot is free. *)
Lemma rotate_node_id_visit c dagtag r i : (i < length (peers (rot_md r)))%nat -> i <> md_node_id (rot_md r) -> in_mask (node_mask r) i = false ->
  (bitmap_index (peer_md (rot_md r) i) = -1 \/ Z.testbit (slot_mask r) (bitmap_index (peer_md (rot_md r) i)) = false) ->
  let r' := rotate_node_id c dagtag r i in
  peer_md (rot_md r') i = (if no_older_start c (rot_md r) i then set_bitmap_uuid c dagtag (peer_md (rot_md r) i) else peer_md (rot_md r) i) /\
  (bitmap_index (peer_md (rot_md r) i) <> -1 ->
   in_mask (got_new_bitmap_uuid r') i = in_mask (got_new_bitmap_uuid r) i || no_older_start c (rot_md r) i && (bitmap_index (peer_md (rot_md r) i) <? max_peers (rot_md r))).
Proof.
  intros Hlt Hne Hm Hs. cbn zeta. unfold rotate_node_id, no_older_start. rewrite (proj2 (Nat.eqb_neq _ _) Hne), Hm.
  destruct (Z.eqb_spec (bitmap_index (peer_md (rot_md r) i)) (-1)) as [Hi|Hi]; cbn [negb andb].
  - destruct (slot (rot_md r) i =? 0), (slot (rot_md r) i =? c); cbn; rewrite ?peer_md_alter_eq by done; done.
  - destruct Hs as [?|Hs]; [done|]. rewrite Hs. destruct (slot (rot_md r) i =? 0), (slot (rot_md r) i =? c); cbn; rewrite ?peer_md_alter_eq by done.
    all: split; [done|]; intros _; try case_if; by rewrite ?in_mask_lor, ?Nat.eqb_refl, ?orb_true_r, ?orb_false_r.
Qed.

Lemma rotate_node_ids_other c dagtag l r j : j ∉ l ->
  let r' := foldl (rotate_node_id c dagtag) r l in
  peer_md (rot_md r') j = peer_md (rot_md r) j /\ in_mask (got_new_bitmap_uuid r') j = in_mask (got_new_bitmap_uuid r) j /\
  node_mask r' = node_mask r /\ md_node_id (rot_md r') = md_node_id (rot_md r) /\ max_peers (rot_md r') = max_peers (rot_md r) /\
  length (peers (rot_md r')) = length (peers (rot_md r)).
Proof.
  revert r. induction l as [|i l IH]; intros r Hj; [done|]. cbn [foldl]. apply not_elem_of_cons in Hj as [Hne Hj].
  destruct (IH (rotate_node_id c dagtag r i) Hj) as (-> & -> & -> & -> & -> & ->). by apply rotate_node_id_other.
Qed.

Lemma rotate_node_ids_own c dagtag l r : let r' := foldl (rotate_node_id c dagtag) r l in let j := md_node_id (rot_md r) in
  peer_md (rot_md r') j = peer_md (rot_md r) j /\ in_mask (got_new_bitmap_uuid r') j = in_mask (got_new_bitmap_uuid r) j.
Proof.
  cbn zeta. revert r. induction l as [|i l IH]; intros r; [done|]. cbn [foldl]. destruct (decide (i = md_node_id (rot_md r))) as [->|Hne].
  - assert (rotate_node_id c dagtag r (md_node_id (rot_md r)) = r) as -> by (unfold rotate_node_id; by rewrite Nat.eqb_refl). apply IH.
  - destruct (rotate_node_id_other c dagtag r i _ Hne) as (E1 & E2 & _ & E3 & _). rewrite <- E1, <- E2, <- E3. apply IH.
Qed.

(** The node ids before [j] leave the slot [s] free. *)
Lemma rotate_node_ids_slots c dagtag l r s :
  NoDup l -> Forall (fun i => md_node_id (rot_md r) = i \/ in_mask (node_mask r) i = true \/ bitmap_index (peer_md (rot_md r) i) <> -1 /\ bitmap_index (peer_md (rot_md r) i) <> s) l ->
  Z.testbit (slot_mask (foldl (rotate_node_id c dagtag) r l)) s = true -> Z.testbit (slot_mask r) s = true.
Proof.
  revert r. induction l as [|i l IH]; intros r Hnd Hall Ht; [done|]. apply NoDup_cons in Hnd as [Hi Hnd]. apply Forall_cons in Hall as [Hh Hall].
  apply (rotate_node_id_slots c dagtag r i s Hh). apply IH; [done| |done]. rewrite Forall_forall in *. intros k Hk.
  destruct (rotate_node_id_other c dagtag r i k) as (-> & _ & -> & -> & _); [by intros ->|]. by apply Hall.
Qed.

Lemma seq_split j n : (j < n)%nat -> seq 0 n = seq 0 j ++ j :: seq (S j) (n - S j).
Proof. intros Hj. replace n with (j + S (n - S j))%nat at 1 by lia. by rewrite seq_app. Qed.

(** A node id without a peer device, and with no slot or one that is its own. *)
Lemma rotate_node_ids_visit c dagtag r j n : (j < n)%nat -> n = length (peers (rot_md r)) -> j <> md_node_id (rot_md r) -> in_mask (node_mask r) j = false ->
  bitmap_index (peer_md (rot_md r) j) = -1 \/
  Z.testbit (slot_mask r) (bitmap_index (peer_md (rot_md r) j)) = false /\
  (forall i, (i < j)%nat -> md_node_id (rot_md r) = i \/ in_mask (node_mask r) i = true \/
     bitmap_index (peer_md (rot_md r) i) <> -1 /\ bitmap_index (peer_md (rot_md r) i) <> bitmap_index (peer_md (rot_md r) j)) ->
  let r' := foldl (rotate_node_id c dagtag) r (seq 0 n) in
  peer_md (rot_md r') j = (if no_older_start c (rot_md r) j then set_bitmap_uuid c dagtag (peer_md (rot_md r) j) else peer_md (rot_md r) j) /\
  (bitmap_index (peer_md (rot_md r) j) <> -1 ->
   in_mask (got_new_bitmap_uuid r') j = in_mask (got_new_bitmap_uuid r) j || no_older_start c (rot_md r) j && (bitmap_index (peer_md (rot_md r) j) <? max_peers (rot_md r))).
Proof.
  intros Hj Hn Hown Hm Hs. cbn zeta. rewrite (seq_split j n Hj), foldl_app. cbn [foldl]. set (r1 := foldl _ r (seq 0 j)).
  destruct (rotate_node_ids_other c dagtag (seq 0 j) r j) as (Hp & Hg & Hnm & Hid & Hmx & Hlen); [rewrite elem_of_seq; lia|]. fold r1 in Hp, Hg, Hnm, Hid, Hmx, Hlen.
  destruct (rotate_node_ids_other c dagtag (seq (S j) (n - S j)) (rotate_node_id c dagtag r1 j) j) as (-> & -> & _); [rewrite elem_of_seq; lia|].
  assert (no_older_start c (rot_md r) j = no_older_start c (rot_md r1) j) as -> by (unfold no_older_start; by rewrite Hp). rewrite <- Hp, <- Hg, <- Hmx.
  apply rotate_node_id_visit; [lia|congruence|by rewrite Hnm|]. rewrite Hp. destruct Hs as [?|[Hfree Hbefore]]; [by left|right].
  apply not_true_iff_false. intros Ht. apply (rotate_node_ids_slots c dagtag (seq 0 j) r) in Ht; [congruence|apply NoDup_seq|].
  apply Forall_forall. intros i Hi%elem_of_seq. apply Hbefore. lia.
Qed.

(** Flags and slots stay, and only slots with the previous current UUID are reported. *)
Definition rotated (c dagtag : Z) (m : drbd_md) (r : rotation) (i : nat) : Prop :=
  (peer_md (rot_md r) i = peer_md m i \/ no_older_start c m i = true /\ peer_md (rot_md r) i = set_bitmap_uuid c dagtag (peer_md m i)) /\
  (in_mask (got_new_bitmap_uuid r) i = true -> peer_md (rot_md r) i = set_bitmap_uuid c dagtag (peer_md m i)).

Lemma set_bitmap_twice c dagtag p : set_bitmap_uuid c dagtag (set_bitmap_uuid c dagtag p) = set_bitmap_uuid c dagtag p.
Proof. done. Qed.

Lemma rotated_alter c dagtag m r r' i j : (j < length (peers (rot_md r)))%nat -> rotated c dagtag m r i -> no_older_start c (rot_md r) j = true ->
  rot_md r' = set_peer_md j (set_bitmap_uuid c dagtag) (rot_md r) ->
  got_new_bitmap_uuid r' = got_new_bitmap_uuid r \/ got_new_bitmap_uuid r' = Z.lor (got_new_bitmap_uuid r) (NODE_MASK j) -> rotated c dagtag m r' i.
Proof.
  intros Hlt [H1 H2] Hno Hm Hg. unfold rotated. rewrite Hm. destruct (decide (j = i)) as [->|Hne].
  - rewrite peer_md_alter_eq by done. assert (no_older_start c m i = true /\ set_bitmap_uuid c dagtag (peer_md (rot_md r) i) = set_bitmap_uuid c dagtag (peer_md m i)) as [E1 E2].
    { destruct H1 as [E|[E1 E2]]; [split; [|by rewrite E]; unfold no_older_start in *; by rewrite E in Hno|by rewrite E2]. }
    rewrite E2. split; [by right|done].
  - rewrite peer_md_alter_ne by done. split; [done|]. intros Hi. apply H2. destruct Hg as [Hg|Hg]; rewrite Hg in Hi; [done|].
    by rewrite in_mask_lor, (proj2 (Nat.eqb_neq _ _)), orb_false_r in Hi.
Qed.

Lemma rotate_peer_devices_rotated c weak dagtag m ps r i : Forall (fun p => (pd_node_id p < length (peers (rot_md r)))%nat) ps ->
  rotated c dagtag m r i -> rotated c dagtag m (foldl (rotate_peer_device c weak dagtag) r ps) i.
Proof.
  revert r. induction ps as [|p ps IH]; intros r Hall Hr; [done|]. cbn [foldl]. apply Forall_cons in Hall as [Hp Hall].
  pose proof (rotate_peer_devices_length c weak dagtag [p] r) as Hlen. cbn in Hlen. apply IH; [by rewrite Hlen|]. clear IH.
  destruct (rotate_peer_device_cases c weak dagtag r p) as [_ Hc]. destruct (starts_new_bitmap c weak (rot_md r) p) eqn:Es.
  - destruct Hc as (Hm & _ & Hg). apply (rotated_alter c dagtag m r _ i (pd_node_id p)); auto. unfold starts_new_bitmap in Es. by apply andb_true_iff in Es as [[? _]%andb_true_iff _].
  - destruct Hc as [Hm Hg]. unfold rotated. by rewrite Hm, Hg.
Qed.

Lemma rotate_node_ids_rotated c dagtag m l r i : Forall (fun k => (k < length (peers (rot_md r)))%nat) l ->
  rotated c dagtag m r i -> rotated c dagtag m (foldl (rotate_node_id c dagtag) r l) i.
Proof.
  revert r. induction l as [|k l IH]; intros r Hall Hr; [done|]. cbn [foldl]. apply Forall_cons in Hall as [Hk Hall].
  destruct (rotate_node_id_cases c dagtag r k i Hk) as (_ & Hlen & _). apply IH; [by rewrite Hlen|]. clear IH Hlen Hall.
  unfold rotate_node_id. case_if; [done|]. case_if; [done|]. case_if; [done|].
  destruct (negb (slot (rot_md r) k =? 0) && negb (slot (rot_md r) k =? c)) eqn:Es; [done|].
  apply (rotated_alter c dagtag m r _ i k); try done; [|cbn; case_if; auto].
  unfold no_older_start. by destruct (slot (rot_md r) k =? 0), (slot (rot_md r) k =? c).
Qed.
End uuid_rotate.

Section uuid_generations.
Context `{DrbdHeaders}.

Notation slot m i := (bitmap_uuid (peer_md m i)).

Lemma foldl_keeps {A B C} (P : A -> C) (f : A -> B -> A) l a :
  (forall a b, P (f a b) = P a) -> P (foldl f a l) = P a.
Proof. intros Hf. revert a. induction l as [|b l IH]; intros a; [done|]. cbn. by rewrite IH, Hf. Qed.

Lemma rotate_frame weak dagtag rnd d :
  let d' := snd (rotate_current_into_bitmap weak dagtag rnd d) in
  current_uuid (md d') = current_uuid (md d) /\ history_uuids (md d') = history_uuids (md d) /\ role d' = role d /\
  md_node_id (md d') = md_node_id (md d).
Proof.
  unfold rotate_current_into_bitmap. cbn zeta. set (c := if current_uuid (md d) =? _ then _ else _).
  set (r := foldl _ _ (seq _ _)).
  assert ((current_uuid (rot_md r), history_uuids (rot_md r), md_node_id (rot_md r)) =
          (current_uuid (md d), history_uuids (md d), md_node_id (md d))) as Hr.
  { unfold r. rewrite (foldl_keeps (fun r => (current_uuid (rot_md r), history_uuids (rot_md r), md_node_id (rot_md r)))).
    - rewrite (foldl_keeps (fun r => (current_uuid (rot_md r), history_uuids (rot_md r), md_node_id (rot_md r)))); [done|].
      intros a p. unfold rotate_peer_device. by repeat case_if.
    - intros a i. unfold rotate_node_id. by repeat case_if. }
  simplify_eq. cbn [snd]. case_if; cbn; done.
Qed.

Definition prev_current (random : Z) (m : drbd_md) : Z :=
  if current_uuid m =? UUID_JUST_CREATED then random else current_uuid m.

Lemma rotate_slots weak dagtag rnd d got d' :
  rotate_current_into_bitmap weak dagtag rnd d = (got, d') ->
  length (peers (md d)) = DRBD_NODE_ID_MAX ->
  (forall i, slot (md d') i = slot (md d) i \/
     (slot (md d) i = 0 \/ slot (md d) i = prev_current rnd (md d)) /\ slot (md d') i = prev_current rnd (md d)) /\
  (NoDup (pd_node_id <$> peer_devices d) ->
   forall p, p ∈ peer_devices d -> (pd_node_id p < DRBD_NODE_ID_MAX)%nat ->
     slot (md d') (pd_node_id p) =
       (if starts_new_bitmap (prev_current rnd (md d)) weak (md d) p
        then prev_current rnd (md d) else slot (md d) (pd_node_id p)) /\
     in_mask got (pd_node_id p) = starts_new_bitmap (prev_current rnd (md d)) weak (md d) p).
Proof.
  unfold rotate_current_into_bitmap. fold (prev_current rnd (md d)). set (c := prev_current rnd (md d)).
  set (r0 := mk_rotation _ _ _ _ _). cbn zeta. set (r1 := foldl _ r0 _). set (r2 := foldl _ r1 _).
  intros [= <- Hd'] Hlen.
  assert (md d' = rot_md r2) as ->. { destruct (rot_dirty r2); by subst d'. }
  assert (Forall (fun i => (i < length (peers (rot_md r1)))%nat) (seq 0 DRBD_NODE_ID_MAX)) as Hseq.
  { apply Forall_forall. intros i Hi. apply elem_of_seq in Hi. unfold r1. rewrite rotate_peer_devices_length.
    cbn. lia. }
  assert (forall p, p ∈ peer_devices d -> (pd_node_id p < DRBD_NODE_ID_MAX)%nat ->
    NoDup (pd_node_id <$> peer_devices d) -> _) as Hpeer
    by exact (fun p Hp Hlt Hnd => rotate_peer_devices_peer c weak dagtag (peer_devices d) r0 p Hnd Hp
                (eq_ind_r (fun n => (pd_node_id p < n)%nat) Hlt Hlen)).
  split.
  - intros i. destruct (rotate_node_ids_spec c dagtag _ r1 i Hseq) as (_ & Hs & _).
    assert (slot (rot_md r1) i = slot (md d) i \/ (slot (md d) i = 0 \/ slot (md d) i = c) /\ slot (rot_md r1) i = c) as H1.
    { apply (rotate_peer_devices_range c weak dagtag (peer_devices d) r0 i). }
    fold r2 in Hs. destruct Hs as [-> |(_ & _ & Hold & ->)]; [done|]. right. split; [|done].
    destruct H1 as [<- |[? _]]; done.
  - intros Hnd p Hp Hlt. destruct (Hpeer p Hp Hlt Hnd) as (Hs & Hn & Hg). fold r1 in Hs, Hn, Hg.
    destruct (rotate_node_ids_spec c dagtag _ r1 (pd_node_id p) Hseq) as (_ & _ & Hk).
    fold r2 in Hk. destruct (Hk Hn) as [-> ->]. rewrite Hs, Hg. cbn. rewrite in_mask_0. by destruct (starts_new_bitmap _ _ _ _).
Qed.

Lemma set_current_md v d :
  md (__drbd_uuid_set_current v d) =
    mk_md (with_role d v) (md_node_id (md d)) (max_peers (md d)) (peers (md d)) (history_uuids (md d)) /\
  role (__drbd_uuid_set_current v d) = role d.
Proof.
  unfold __drbd_uuid_set_current. rewrite set_exposed_md. split; [done|].
  unfold drbd_uuid_set_exposed. by case_if.
Qed.

(** The generation [v] is recorded somewhere. *)
Definition known (m : drbd_md) (v : Z) : Prop :=
  no_primary v = no_primary (current_uuid m) \/ in_bitmap_slot m (no_primary v) = true \/
  no_primary v ∈ history_uuids m.

Lemma push_history_known v m :
  v <> 0 -> v <> UUID_JUST_CREATED -> hist_wf (history_uuids m) -> known (_drbd_uuid_push_history v m) v.
Proof.
  intros Hz Hj [Hlen _]. unfold _drbd_uuid_push_history. destruct (push_history_skips m v) eqn:E.
  - unfold push_history_skips in E. rewrite !orb_true_iff, !Z.eqb_eq in E.
    destruct E as [[[[?|?]|?]|?]|E]; [done|done|by left|by right; left|]. right. right.
    apply existsb_exists in E as (x & Hx & ->%Z.eqb_eq). by apply list_elem_of_In.
  - right. right. unfold set_history. cbn. unfold shift_in. pose proof history_uuids_pos.
    destruct (history_uuids m) as [|x h]; [cbn in Hlen; lia|]. cbn. by left.
Qed.

Lemma push_current_skips m : _drbd_uuid_push_history (current_uuid m) m = m.
Proof. unfold _drbd_uuid_push_history, push_history_skips. by rewrite Z.eqb_refl, !orb_true_r. Qed.
End uuid_generations.

(** ** Theorems *)

Section uuid_theorems.
Context `{DrbdHeaders}.

Notation slot m i := (bitmap_uuid (peer_md m i)).

(** C13: whatever sequence of UUID operations runs, with roles, peers and states
    changing in between, the meta-data stays well formed: one slot per node id,
    and a history of fixed length that holds its used entries before the free ones, every
    generation once and none with the primary bit; the current UUID stays a generation and
    each slot holds a generation or none.  The random numbers and the UUIDs that peers send are
    taken to be generations, that is to have a bit besides the primary bit (sent slots and
    history entries may be anything). *)
Theorem uuid_reachable_wf d d' :
  md_wf (md d) -> md_gens (md d) -> rtc uuid_step d d' ->
  md_wf (md d') /\ md_gens (md d') /\ md_node_id (md d') = md_node_id (md d).
Proof.
  intros [Hp Hh] Hg. induction 1 as [d|d1 d2 d3 Hs _ IH]; [done|].
  destruct (uuid_step_shape d1 d2 Hs) as [Hn _ Hl Hk]. rewrite <- Hn.
  apply IH; [congruence|auto|by apply (uuid_step_gens d1)].
Qed.

(** The role bit alone passes the test for 0 and is stored without it, as a free entry before the
    used ones. *)
Lemma push_primary_bit_leaves_hole m :
  md_gens m -> UUID_PRIMARY <> 0 -> UUID_PRIMARY <> UUID_JUST_CREATED -> 0 ∉ history_uuids m ->
  in_bitmap_slot m 0 = false ->
  history_uuids (_drbd_uuid_push_history UUID_PRIMARY m) = shift_in 0 (history_uuids m).
Proof.
  intros [Hc _ _] Hz Hj Hn Hs. unfold _drbd_uuid_push_history, push_history_skips.
  assert (no_primary UUID_PRIMARY = 0) as Hp0 by (unfold no_primary; apply Z.ldiff_diag). rewrite Hp0.
  apply Z.eqb_neq in Hz, Hj. rewrite Hz, Hj, Hs. unfold is_gen in Hc. rewrite (proj2 (Z.eqb_neq _ _)) by done.
  destruct (existsb _ _) eqn:E; [|done]. apply existsb_exists in E as (x & Hx & ->%Z.eqb_eq).
  by apply list_elem_of_In in Hx.
Qed.

(** A node id without a peer device whose slot nobody takes before it: it has none, or no peer
    device and no smaller node id has it, and the smaller ones have slots. *)
Definition own_slot (d : drbd_device) (i : nat) : Prop :=
  let index k := bitmap_index (peer_md (md d) k) in
  index i = -1 \/
  index i ∉ pd_bitmap_index <$> peer_devices d /\
  forall k, (k < i)%nat -> md_node_id (md d) = k \/ k ∈ pd_node_id <$> peer_devices d \/ index k <> -1 /\ index k <> index i.


(** C15: starting a new generation records where every absent peer fell behind.
    When it succeeds the current UUID is the new one; when nobody is missing or
    the meta-data cannot be written it is the old generation still.  In every
    case each absent peer with a bitmap has a bitmap UUID afterwards, the
    previous current one if it had none, and without [forced] no peer that is
    here gets one. *)
Theorem new_current_uuid_prepare_spec forced r1 r2 sync_ok d ok d' :
  __new_current_uuid_prepare forced r1 r2 sync_ok d = (ok, d') ->
  md_wf (md d) -> NoDup (pd_node_id <$> peer_devices d) ->
  Forall (fun p => (pd_node_id p < DRBD_NODE_ID_MAX)%nat) (peer_devices d) ->
  current_uuid (md d) <> 0 -> r1 <> 0 ->
  (ok = true -> current_uuid (md d') = with_role d r2) /\
  (ok = false -> no_primary (current_uuid (md d')) = no_primary (current_uuid (md d))) /\
  (forall p, p ∈ peer_devices d -> pd_disk_state p <= D_UNKNOWN -> pd_disk_state p <> D_NEGOTIATING ->
     pd_disk_state p <> D_DISKLESS \/ mdf (md d) (pd_node_id p) MDF_HAVE_BITMAP = true ->
     slot (md d') (pd_node_id p) <> 0 /\
     (slot (md d) (pd_node_id p) = 0 ->
      slot (md d') (pd_node_id p) =
        if current_uuid (md d) =? UUID_JUST_CREATED then r1 else current_uuid (md d))) /\
  (forced = false -> forall p, p ∈ peer_devices d -> D_UNKNOWN < pd_disk_state p ->
     slot (md d') (pd_node_id p) = slot (md d) (pd_node_id p)).
Proof.
  unfold __new_current_uuid_prepare. intros Hprep [Hlen _] Hnd Hlt Hcur Hr1. rewrite Forall_forall in Hlt.
  set (weak := if forced then initial_resync_nodes d else 0) in Hprep.
  destruct (rotate_current_into_bitmap weak (dagtag_sector d) r1 d) as [got d1] eqn:Hr.
  destruct (rotate_slots _ _ _ _ _ _ Hr Hlen) as [_ Hp].
  destruct (rotate_frame weak (dagtag_sector d) r1 d) as (Hc & _ & Hro & _). rewrite Hr in Hc, Hro. cbn [snd] in *.
  assert (with_role d1 = with_role d) as Hrole by (unfold with_role; by rewrite Hro).
  assert (peers (md d') = peers (md d1) /\
          (ok = true -> current_uuid (md d') = with_role d r2) /\
          (ok = false -> no_primary (current_uuid (md d')) = no_primary (current_uuid (md d)))) as (Hpe & Hcu & Hno).
  { case_if_in Hprep; [by simplify_eq; rewrite Hc|]. case_if_in Hprep; simplify_eq.
    - destruct (set_current_md r2 d1) as [-> _]. by rewrite Hrole.
    - destruct (set_current_md (drbd_current_uuid d1) (__drbd_uuid_set_current r2 d1)) as [-> _].
      destruct (set_current_md r2 d1) as [-> _]. cbn. split_and!; [done..|]. intros _.
      rewrite no_primary_with_role. unfold drbd_current_uuid. by rewrite Hc. }
  assert (forall i, slot (md d') i = slot (md d1) i) as Hsl by (intros; unfold peer_md; by rewrite Hpe).
  split_and!; [done|done| |].
  - intros p Hin Hd Hneg Hbm. rewrite !Hsl. destruct (Hp Hnd p Hin (Hlt p Hin)) as [-> _].
    fold (prev_current r1 (md d)).
    assert (prev_current r1 (md d) <> 0) as Hpz by (unfold prev_current; by case_if).
    unfold starts_new_bitmap. rewrite (proj2 (Z.leb_le _ _) Hd), (proj2 (Z.eqb_neq _ _) Hneg). cbn [negb andb orb].
    assert (negb ((pd_disk_state p =? D_DISKLESS) && negb (mdf (md d) (pd_node_id p) MDF_HAVE_BITMAP)) = true) as ->.
    { destruct Hbm as [Hbm| ->]; [by rewrite (proj2 (Z.eqb_neq _ _) Hbm)|]. by rewrite andb_false_r. }
    rewrite !andb_true_r. destruct (Z.eqb_spec (slot (md d) (pd_node_id p)) 0); cbn [orb]; [done|].
    case_if; done.
  - intros -> p Hin Hd. rewrite Hsl. destruct (Hp Hnd p Hin (Hlt p Hin)) as [-> _].
    unfold starts_new_bitmap, weak. rewrite in_mask_0, (proj2 (Z.leb_gt _ _) Hd). cbn [andb orb].
    by rewrite andb_false_r.
Qed.

(** A node that takes over a new current UUID from its primary still knows
    the generation it had, as a bitmap UUID or in the history. *)
Theorem received_new_current_keeps_old val weak dagtag rnd d :
  md_wf (md d) -> existsb received_target (peer_devices d) = false ->
  current_uuid (md d) <> 0 -> current_uuid (md d) <> UUID_JUST_CREATED ->
  let d' := snd (drbd_uuid_received_new_current val weak dagtag rnd d) in
  known (md d') (current_uuid (md d)) /\ no_primary (current_uuid (md d')) = no_primary val.
Proof.
  intros [Hlen Hh] Ht Hz Hj. pose proof (received_shape val weak dagtag rnd d) as Hsh.
  unfold drbd_uuid_received_new_current in *. rewrite Ht in *. cbn [negb] in *. cbn zeta in *.
  set (d1 := set_peer_devices _ d) in *. destruct (if disk_state d1 =? _ then _ else _) as [n d2] eqn:E.
  destruct (__set_bitmap_slots _ _ d2) as [n' d3] eqn:E3. cbn [snd] in *. split.
  - cbn. apply push_history_known; [done|done|]. destruct (set_current_md val d3) as [-> _]. cbn.
    assert (same_shape (md d) (md d2)) as S2.
    { case_if_in E; [|by simplify_eq]. pose proof (rotate_shape weak dagtag rnd d1) as Hr.
      destruct (rotate_current_into_bitmap _ _ _ d1). by simplify_eq. }
    pose proof (set_slots_shape val (Z.land (u64 (Z.lnot weak)) (__test_bitmap_slots d2)) d2) as S3.
    rewrite E3 in S3. apply S3. by apply S2.
  - cbn. unfold _drbd_uuid_push_history. destruct (set_current_md val d3) as [-> _].
    case_if; cbn; apply no_primary_with_role.
Qed.

(** [drbd_uuid_resync_finished] pushes the current UUID before it replaces it, and
    a UUID that is the current one is not pushed: the call has no effect. *)
Lemma resync_finished_push_is_noop d :
  set_md (_drbd_uuid_push_history (drbd_current_uuid d) (md d)) d = d.
Proof. unfold drbd_current_uuid. rewrite push_current_skips. by destruct d. Qed.
End uuid_theorems.

(** ** Concrete runs: node 0 is primary, node 1 is connected, node 2 is absent. *)

Section uuid_witnesses.
#[local] Existing Instance small_headers.

Definition demo_peer (id : nat) (disk repl cur : Z) : drbd_peer_device :=
  mk_peer_device id (Z.of_nat id - 1) disk repl cur [0; 0; 0; 0] [0; 0; 0; 0] 0 0 0 0 0 0 0 0
    true true false false false false 119 false.

Definition demo_md : drbd_md :=
  mk_md 101 0 3 [mk_peer_md 0 0 0 (-1); mk_peer_md 0 0 3 0; mk_peer_md 0 0 3 1; mk_peer_md 0 0 0 (-1)]
    [64; 32; 0; 0].

Definition demo_device : drbd_device :=
  mk_device demo_md false 101 R_PRIMARY 9 77 false false true true
    [demo_peer 1 9 1 101; demo_peer 2 7 0 101].

Definition demo_new : bool * drbd_device :=
  Eval vm_compute in __new_current_uuid_prepare false 200 300 true demo_device.
Definition demo_rotated : Z * drbd_device :=
  Eval vm_compute in rotate_current_into_bitmap 0 5 200 demo_device.

Lemma demo_new_run : __new_current_uuid_prepare false 200 300 true demo_device = (fst demo_new, snd demo_new).
Proof. by vm_compute. Qed.

Lemma demo_rotated_run : rotate_current_into_bitmap 0 5 200 demo_device = (fst demo_rotated, snd demo_rotated).
Proof. by vm_compute. Qed.

Lemma demo_current : current_uuid (md demo_device) <> 0.
Proof. done. Qed.

Lemma demo_md_wf : md_wf demo_md.
Proof. split; [done|]. split; [done|]. exists [64; 32], 2%nat. split_and!; [done| |by repeat constructor].
  apply (bool_decide_unpack _). by vm_compute.
Qed.

Lemma demo_nodup : NoDup (pd_node_id <$> peer_devices demo_device).
Proof. apply (bool_decide_unpack _). by vm_compute. Qed.

Lemma demo_ids : Forall (fun p => (pd_node_id p < 4)%nat) (peer_devices demo_device).
Proof. repeat constructor. Qed.

Lemma demo_md_gens : md_gens demo_md.
Proof.
  split; [by vm_compute|repeat constructor|]. exists [64; 32], 2%nat. split; [done|]. by repeat constructor.
Qed.

Lemma uuid_reachable_wf_witness :
  let d' := snd (drbd_uuid_new_current_by_user 200 300 true demo_device) in
  md_wf (md d') /\ md_gens (md d') /\ md_node_id (md d') = md_node_id (md demo_device).
Proof.
  apply (uuid_reachable_wf demo_device); [exact demo_md_wf|exact demo_md_gens|].
  apply rtc_once, step_by_user; by vm_compute.
Defined.


Lemma new_current_uuid_prepare_spec_witness :
  fst demo_new = true /\ current_uuid (md (snd demo_new)) = 301 /\
  bitmap_uuid (peer_md (md (snd demo_new)) 2) <> 0.
Proof.
  split; [reflexivity|]. split; [reflexivity|].
  destruct (new_current_uuid_prepare_spec false 200 300 true demo_device (fst demo_new) (snd demo_new)
    demo_new_run demo_md_wf demo_nodup demo_ids demo_current ltac:(done)) as (_ & _ & Hp & _).
  apply (Hp (demo_peer 2 7 0 101)); [right; left|done|done|by left].
Defined.

Lemma received_new_current_keeps_old_witness :
  known (md (snd (drbd_uuid_received_new_current 500 0 5 200 demo_device))) 101.
Proof.
  apply (received_new_current_keeps_old 500 0 5 200 demo_device demo_md_wf); by vm_compute.
Defined.

(** The generation a sync target had is forgotten when the resync finishes. *)
Lemma resync_finished_forgets_current :
  let d' := snd (drbd_uuid_resync_finished (demo_peer 1 9 8 700) demo_device) in
  current_uuid (md d') = 701 /\ history_uuids (md d') = [64; 32; 0; 0] /\ in_bitmap_slot (md d') 100 = false.
Proof. by vm_compute. Qed.
End uuid_witnesses.
