(* ===== verification/Handshake.v ===== *)
(** * Resync handshake ([drbd/drbd_receiver.c] 70-300, 4264-5570)

    When two nodes connect they exchange their UUIDs and each decides on its own
    whether to resynchronise, in which direction and with which bitmap.  This
    file models the decision: the comparison of the UUIDs, the policies after a
    split brain, the decision by disk states, and the whole handshake.

    The device and the peer device are passed as states.  [my_id] is the node id
    of the resource.  Messages to the kernel log and calls of user mode helpers
    are left out. *)
From S2P Require Import Prelude Headers Uuid.

(** ** Strategies *)

Inductive sync_rule :=
  | RULE_SYNC_SOURCE_MISSED_FINISH | RULE_SYNC_SOURCE_PEER_MISSED_FINISH
  | RULE_SYNC_TARGET_MISSED_FINISH | RULE_SYNC_TARGET_PEER_MISSED_FINISH
  | RULE_SYNC_TARGET_MISSED_START | RULE_SYNC_SOURCE_MISSED_START
  | RULE_INITIAL_HANDSHAKE_CHANGED
  | RULE_JUST_CREATED_PEER | RULE_JUST_CREATED_SELF | RULE_JUST_CREATED_BOTH
  | RULE_CRASHED_PRIMARY | RULE_LOST_QUORUM | RULE_RECONNECTED | RULE_BOTH_OFF
  | RULE_BITMAP_PEER | RULE_BITMAP_PEER_OTHER | RULE_BITMAP_SELF | RULE_BITMAP_SELF_OTHER
  | RULE_BITMAP_BOTH | RULE_HISTORY_PEER | RULE_HISTORY_SELF | RULE_HISTORY_BOTH.

Inductive sync_strategy :=
  | UNDETERMINED | NO_SYNC
  | SYNC_SOURCE_IF_BOTH_FAILED | SYNC_SOURCE_USE_BITMAP | SYNC_SOURCE_SET_BITMAP | SYNC_SOURCE_COPY_BITMAP
  | SYNC_TARGET_IF_BOTH_FAILED | SYNC_TARGET_USE_BITMAP | SYNC_TARGET_SET_BITMAP | SYNC_TARGET_CLEAR_BITMAP
  | SPLIT_BRAIN_AUTO_RECOVER | SPLIT_BRAIN_DISCONNECT | UNRELATED_DATA | RETRY_CONNECT
  | REQUIRES_PROTO_91 | REQUIRES_PROTO_96 | REQUIRES_PROTO_124
  | SYNC_TARGET_PRIMARY_RECONNECT | SYNC_TARGET_PRIMARY_DISCONNECT.

#[export] Instance sync_rule_eq_dec : EqDecision sync_rule.
Proof. solve_decision. Defined.
#[export] Instance sync_strategy_eq_dec : EqDecision sync_strategy.
Proof. solve_decision. Defined.

(** [struct sync_descriptor], without the name. *)
Record sync_descriptor := mk_descriptor {
  required_protocol : Z;
  is_split_brain : bool;
  is_sync_source : bool;
  is_sync_target : bool;
  reconnect : bool;
  disconnect : bool;
  resync_peer_preference : Z;
  full_sync_equivalent : sync_strategy;
  reverse : sync_strategy }.

Definition strategy_descriptor (s : sync_strategy) : sync_descriptor :=
  match s with
  | UNDETERMINED => mk_descriptor 0 false false false false false 0 UNDETERMINED UNDETERMINED
  | NO_SYNC => mk_descriptor 0 false false false false false 5 UNDETERMINED UNDETERMINED
  | SYNC_SOURCE_IF_BOTH_FAILED => mk_descriptor 0 false true false false false 0 UNDETERMINED SYNC_TARGET_IF_BOTH_FAILED
  | SYNC_SOURCE_USE_BITMAP => mk_descriptor 0 false true false false false 0 SYNC_SOURCE_SET_BITMAP SYNC_TARGET_USE_BITMAP
  | SYNC_SOURCE_SET_BITMAP => mk_descriptor 0 false true false false false 0 UNDETERMINED SYNC_TARGET_SET_BITMAP
  | SYNC_SOURCE_COPY_BITMAP => mk_descriptor 0 false true false false false 0 UNDETERMINED UNDETERMINED
  | SYNC_TARGET_IF_BOTH_FAILED => mk_descriptor 0 false false true false false 4 UNDETERMINED SYNC_SOURCE_IF_BOTH_FAILED
  | SYNC_TARGET_USE_BITMAP => mk_descriptor 0 false false true false false 3 SYNC_TARGET_SET_BITMAP SYNC_SOURCE_USE_BITMAP
  | SYNC_TARGET_SET_BITMAP => mk_descriptor 0 false false true false false 2 UNDETERMINED SYNC_SOURCE_SET_BITMAP
  | SYNC_TARGET_CLEAR_BITMAP => mk_descriptor 0 false false true false false 1 UNDETERMINED UNDETERMINED
  | SPLIT_BRAIN_AUTO_RECOVER => mk_descriptor 0 true false false false true 0 UNDETERMINED UNDETERMINED
  | SPLIT_BRAIN_DISCONNECT => mk_descriptor 0 true false false false true 0 UNDETERMINED UNDETERMINED
  | UNRELATED_DATA => mk_descriptor 0 false false false false true 0 UNDETERMINED UNDETERMINED
  | RETRY_CONNECT => mk_descriptor 0 false false false true false 0 UNDETERMINED UNDETERMINED
  | REQUIRES_PROTO_91 => mk_descriptor 91 false false false false true 0 UNDETERMINED UNDETERMINED
  | REQUIRES_PROTO_96 => mk_descriptor 96 false false false false true 0 UNDETERMINED UNDETERMINED
  | REQUIRES_PROTO_124 => mk_descriptor 124 false false false false true 0 UNDETERMINED UNDETERMINED
  | SYNC_TARGET_PRIMARY_RECONNECT => mk_descriptor 0 false false true true false 0 UNDETERMINED UNDETERMINED
  | SYNC_TARGET_PRIMARY_DISCONNECT => mk_descriptor 0 false false true false true 0 UNDETERMINED UNDETERMINED
  end.

Definition is_strategy_determined (s : sync_strategy) : bool :=
  bool_decide (s = NO_SYNC) || is_sync_source (strategy_descriptor s) || is_sync_target (strategy_descriptor s).

(** ** Connection and environment *)

(** The members of [struct drbd_connection] and its [net_conf]. *)
Record drbd_connection := mk_connection {
  RESOLVE_CONFLICTS : bool;
  cstate_connecting : bool;
  CONN_DRY_RUN : bool;
  wire_protocol : drbd_wire_protocol;
  after_sb_0p : drbd_after_sb_p;
  after_sb_1p : drbd_after_sb_p;
  after_sb_2p : drbd_after_sb_p;
  always_asbp : bool;
  rr_conflict : drbd_after_sb_p;
  conn_peer_role : drbd_role }.

(** [union drbd_state] as the peer sends it. *)
Record drbd_state := mk_state { st_role : drbd_role; st_disk : Z; st_quorum : bool }.

(** What the handshake asks from the state engine and the meta-data: whether
    quorum is configured and kept, the flag [MDF_WAS_UP_TO_DATE] and the result of
    [may_be_up_to_date], whether [change_role] to secondary and the bitmap I/O
    succeed. *)
Record handshake_env := mk_env {
  quorum_on : bool;
  have_quorum : bool;
  was_up_to_date : bool;
  may_be_up_to_date : bool;
  change_role_ok : bool;
  bitmap_io_ok : bool }.

Section handshake.
Context `{DrbdHeaders}.

Definition disk_state_from_md (e : handshake_env) (d : drbd_device) : Z :=
  if negb (md_consistent d) then D_INCONSISTENT
  else if negb (was_up_to_date e) then D_OUTDATED
  else if may_be_up_to_date e then D_UP_TO_DATE else D_CONSISTENT.

Definition set_role (r : drbd_role) (d : drbd_device) : drbd_device :=
  mk_device (md d) (md_dirty d) (exposed_data_uuid d) r (disk_state d) (dagtag_sector d)
    (CRASHED_PRIMARY d) (PRIMARY_LOST_QUORUM d) (md_consistent d) (device_stable d) (peer_devices d).

(** ** After split brain *)

(** [convert_after_sb]: the policy of this node that goes with one of the peer;
    [receive_protocol] refuses the connection when the policies do not match. *)
Definition convert_after_sb (peer : drbd_after_sb_p) : drbd_after_sb_p :=
  match peer with ASB_DISCARD_REMOTE => ASB_DISCARD_LOCAL | ASB_DISCARD_LOCAL => ASB_DISCARD_REMOTE | p => p end.

Definition by_resolve_conflicts (c : drbd_connection) : sync_strategy :=
  if RESOLVE_CONFLICTS c then SYNC_TARGET_USE_BITMAP else SYNC_SOURCE_USE_BITMAP.

Definition discard_least_chg (c : drbd_connection) (ch_self ch_peer : Z) : sync_strategy :=
  if ch_self <? ch_peer then SYNC_TARGET_USE_BITMAP
  else if ch_peer <? ch_self then SYNC_SOURCE_USE_BITMAP
  else by_resolve_conflicts c.

Definition discard_zero_chg (c : drbd_connection) (ch_self ch_peer : Z) : sync_strategy :=
  if (ch_peer =? 0) && (ch_self =? 0) then by_resolve_conflicts c
  else if ch_peer =? 0 then SYNC_SOURCE_USE_BITMAP
  else if ch_self =? 0 then SYNC_TARGET_USE_BITMAP
  else if decide (after_sb_0p c = ASB_DISCARD_ZERO_CHG) then SPLIT_BRAIN_DISCONNECT
  else discard_least_chg c ch_self ch_peer.

Definition discard_older_pri (c : drbd_connection) (self peer ch_self ch_peer : Z) : sync_strategy :=
  if (self =? 0) && (peer =? 1) then SYNC_SOURCE_USE_BITMAP
  else if (self =? 1) && (peer =? 0) then SYNC_TARGET_USE_BITMAP
  else discard_zero_chg c ch_self ch_peer.

Definition discard_younger_pri (c : drbd_connection) (self peer ch_self ch_peer : Z) : sync_strategy :=
  if (self =? 0) && (peer =? 1) then SYNC_TARGET_USE_BITMAP
  else if (self =? 1) && (peer =? 0) then SYNC_SOURCE_USE_BITMAP
  else discard_older_pri c self peer ch_self ch_peer.

Definition drbd_asb_recover_0p (my_id : nat) (c : drbd_connection) (d : drbd_device) (p : drbd_peer_device) : sync_strategy :=
  let self := Z.land (drbd_bitmap_uuid d p) UUID_PRIMARY in
  let peer := Z.land (pd_bitmap_uuid p my_id) UUID_PRIMARY in
  let ch_peer := pd_dirty_bits p in
  let ch_self := pd_comm_bm_set p in
  match after_sb_0p c with
  | ASB_CONSENSUS | ASB_DISCARD_SECONDARY | ASB_CALL_HELPER | ASB_VIOLENTLY | ASB_RETRY_CONNECT
  | ASB_AUTO_DISCARD => SPLIT_BRAIN_DISCONNECT
  | ASB_DISCONNECT => SPLIT_BRAIN_DISCONNECT
  | ASB_DISCARD_YOUNGER_PRI => discard_younger_pri c self peer ch_self ch_peer
  | ASB_DISCARD_OLDER_PRI => discard_older_pri c self peer ch_self ch_peer
  | ASB_DISCARD_ZERO_CHG => discard_zero_chg c ch_self ch_peer
  | ASB_DISCARD_LEAST_CHG => discard_least_chg c ch_self ch_peer
  | ASB_DISCARD_LOCAL => SYNC_TARGET_USE_BITMAP
  | ASB_DISCARD_REMOTE => SYNC_SOURCE_USE_BITMAP
  end.

(** [change_role(resource, R_SECONDARY, ...)] before becoming sync target *)
Definition give_up_primary (e : handshake_env) (s : sync_strategy) (d : drbd_device) : sync_strategy * drbd_device :=
  if change_role_ok e then (s, set_role R_SECONDARY d) else (SPLIT_BRAIN_DISCONNECT, d).

Definition drbd_asb_recover_1p (my_id : nat) (e : handshake_env) (c : drbd_connection) (d : drbd_device)
    (p : drbd_peer_device) : sync_strategy * drbd_device :=
  let strategy := drbd_asb_recover_0p my_id c d p in
  match after_sb_1p c with
  | ASB_DISCARD_YOUNGER_PRI | ASB_DISCARD_OLDER_PRI | ASB_DISCARD_LEAST_CHG | ASB_DISCARD_LOCAL
  | ASB_DISCARD_REMOTE | ASB_DISCARD_ZERO_CHG | ASB_RETRY_CONNECT | ASB_AUTO_DISCARD => (SPLIT_BRAIN_DISCONNECT, d)
  | ASB_DISCONNECT => (SPLIT_BRAIN_DISCONNECT, d)
  | ASB_CONSENSUS =>
      if decide (strategy = SYNC_TARGET_USE_BITMAP /\ role d = R_SECONDARY) then (strategy, d)
      else if decide (strategy = SYNC_SOURCE_USE_BITMAP /\ role d = R_PRIMARY) then (strategy, d)
      else (SPLIT_BRAIN_DISCONNECT, d)
  | ASB_VIOLENTLY => (strategy, d)
  | ASB_DISCARD_SECONDARY =>
      (if decide (role d = R_PRIMARY) then SYNC_SOURCE_USE_BITMAP else SYNC_TARGET_USE_BITMAP, d)
  | ASB_CALL_HELPER =>
      if decide (strategy = SYNC_TARGET_USE_BITMAP /\ role d = R_PRIMARY) then give_up_primary e strategy d
      else (strategy, d)
  end.

Definition drbd_asb_recover_2p (my_id : nat) (e : handshake_env) (c : drbd_connection) (d : drbd_device)
    (p : drbd_peer_device) : sync_strategy * drbd_device :=
  let strategy := drbd_asb_recover_0p my_id c d p in
  match after_sb_2p c with
  | ASB_DISCARD_YOUNGER_PRI | ASB_DISCARD_OLDER_PRI | ASB_DISCARD_LEAST_CHG | ASB_DISCARD_LOCAL
  | ASB_DISCARD_REMOTE | ASB_CONSENSUS | ASB_DISCARD_SECONDARY | ASB_DISCARD_ZERO_CHG | ASB_RETRY_CONNECT
  | ASB_AUTO_DISCARD => (SPLIT_BRAIN_DISCONNECT, d)
  | ASB_VIOLENTLY => (strategy, d)
  | ASB_DISCONNECT => (SPLIT_BRAIN_DISCONNECT, d)
  | ASB_CALL_HELPER =>
      if decide (strategy = SYNC_TARGET_USE_BITMAP) then give_up_primary e strategy d else (strategy, d)
  end.

(** ** Comparison of UUIDs *)

Definition drbd_find_peer_bitmap_by_uuid (p : drbd_peer_device) (uuid : Z) : option nat :=
  find (fun i => uuid =? no_primary (pd_bitmap_uuid p i)) (seq 0 DRBD_PEERS_MAX).

Definition drbd_find_bitmap_by_uuid (d : drbd_device) (p : drbd_peer_device) (uuid : Z) : option nat :=
  find (fun i =>
          negb (Nat.eqb i (md_node_id (md d))) &&
          negb ((agreed_pro_version p <? 116) && (bitmap_index (peer_md (md d) i) =? -1)) &&
          (no_primary (bitmap_uuid (peer_md (md d) i)) =? uuid)) (seq 0 DRBD_NODE_ID_MAX).

Definition pd_history (p : drbd_peer_device) (i : nat) : Z := default 0 (pd_history_uuids p !! i).

Definition uuid_in_peer_history (p : drbd_peer_device) (uuid : Z) : bool :=
  existsb (fun h => no_primary h =? uuid) (pd_history_uuids p).

Definition uuid_in_my_history (d : drbd_device) (uuid : Z) : bool :=
  existsb (fun h => no_primary h =? uuid) (history_uuids (md d)).

Definition set_pd_uuids (bitmaps history : list Z) (p : drbd_peer_device) : drbd_peer_device :=
  mk_peer_device (pd_node_id p) (pd_bitmap_index p) (pd_disk_state p) (pd_repl_state p) (pd_current_uuid p)
    bitmaps history (pd_uuid_flags p) (pd_dirty_bits p) (pd_comm_current_uuid p) (pd_comm_bitmap_uuid p)
    (pd_comm_uuid_flags p) (pd_comm_bm_set p) (pd_comm_disk p) (pd_rs_start_uuid p) (pd_want_bitmap p)
    (INITIAL_STATE_SENT p) (RS_SOURCE_MISSED_END p) (RS_PEER_MISSED_END p) (DISCARD_MY_DATA p)
    (SYNC_SRC_CRASHED_PRI p) (agreed_pro_version p) (RECONNECT p).

(** The result of a comparison: the strategy, the rule that gave it, the node
    whose bitmap is to be used, and the states, which fixups change. *)
Record comparison := mk_cmp {
  cmp_strategy : sync_strategy;
  cmp_rule : sync_rule;
  cmp_peer_node_id : option nat;
  cmp_device : drbd_device;
  cmp_peer : drbd_peer_device }.

(** Corrections for events one node missed, for protocols before 110.  [None] is
    [UNDETERMINED]; [rule] is the rule set before the call. *)
Definition uuid_fixup_resync_end (my_id : nat) (rule : sync_rule) (d : drbd_device) (p : drbd_peer_device)
  : option comparison :=
  let self_bm := drbd_bitmap_uuid d p in
  let peer_bm := pd_bitmap_uuid p my_id in
  if (peer_bm =? 0) && negb (self_bm =? 0) then
    Some (if agreed_pro_version p <? 91 then mk_cmp REQUIRES_PROTO_91 rule None d p
          else if (no_primary self_bm =? no_primary (pd_history p 0)) &&
                  (no_primary (drbd_history_uuid d 0) =? no_primary (pd_history p 0))
          then mk_cmp SYNC_SOURCE_USE_BITMAP RULE_SYNC_SOURCE_MISSED_FINISH None
                 (set_md (_drbd_uuid_push_history self_bm
                            (set_peer_md (pd_node_id p)
                               (fun q => set_bitmap_uuid 0 (bitmap_dagtag q) q) (md d))) d) p
          else mk_cmp SYNC_SOURCE_USE_BITMAP RULE_SYNC_SOURCE_PEER_MISSED_FINISH None d p)
  else if (self_bm =? 0) && negb (peer_bm =? 0) then
    Some (if agreed_pro_version p <? 91 then mk_cmp REQUIRES_PROTO_91 rule None d p
          else if (no_primary (drbd_history_uuid d 0) =? no_primary peer_bm) &&
                  (no_primary (drbd_history_uuid d 1) =? no_primary (pd_history p 0))
          then mk_cmp SYNC_TARGET_USE_BITMAP RULE_SYNC_TARGET_PEER_MISSED_FINISH None d
                 (set_pd_uuids (<[my_id := 0]> (pd_bitmap_uuids p)) (shift_in peer_bm (pd_history_uuids p)) p)
          else mk_cmp SYNC_TARGET_USE_BITMAP RULE_SYNC_TARGET_MISSED_FINISH None d p)
  else None.

Definition uuid_fixup_resync_start1 (my_id : nat) (d : drbd_device) (p : drbd_peer_device) : option comparison :=
  let self := no_primary (drbd_current_uuid d) in
  let peer := no_primary (pd_history p 0) in
  if (self =? peer) &&
     (if agreed_pro_version p <? 96 then no_primary (drbd_history_uuid d 0) =? no_primary (pd_history p 1)
      else u64 (peer + UUID_NEW_BM_OFFSET) =? no_primary (pd_bitmap_uuid p my_id))
  then Some (if agreed_pro_version p <? 91 then mk_cmp REQUIRES_PROTO_91 RULE_SYNC_TARGET_MISSED_START None d p
             else mk_cmp SYNC_TARGET_USE_BITMAP RULE_SYNC_TARGET_MISSED_START None d
                    (set_pd_uuids (<[my_id := pd_history p 0]> (pd_bitmap_uuids p))
                       (shift_out (pd_history_uuids p)) p))
  else None.

Definition uuid_fixup_resync_start2 (d : drbd_device) (p : drbd_peer_device) : option comparison :=
  let self := no_primary (drbd_history_uuid d 0) in
  let peer := no_primary (pd_current_uuid p) in
  if (self =? peer) &&
     (if agreed_pro_version p <? 96 then no_primary (drbd_history_uuid d 1) =? no_primary (pd_history p 0)
      else u64 (self + UUID_NEW_BM_OFFSET) =? no_primary (drbd_bitmap_uuid d p))
  then Some (if agreed_pro_version p <? 91 then mk_cmp REQUIRES_PROTO_91 RULE_SYNC_SOURCE_MISSED_START None d p
             else
               let '(bitmap_uuid, m) := _drbd_uuid_pull_history (md d) in
               mk_cmp SYNC_SOURCE_USE_BITMAP RULE_SYNC_SOURCE_MISSED_START None
                 (__drbd_uuid_set_bitmap p bitmap_uuid (set_md m d)) p)
  else None.

(** The local flags of [drbd_uuid_compare]. *)
Definition local_uuid_flags (d : drbd_device) (p : drbd_peer_device) : Z :=
  Z.lor (snd (drbd_resolved_uuid d p)) (drbd_collect_local_uuid_flags d p).

(** The UUIDs or flags are not those that were sent, while connecting. *)
Definition handshake_changed (c : drbd_connection) (d : drbd_device) (p : drbd_peer_device) : bool :=
  let uuid_matches := no_primary (fst (drbd_resolved_uuid d p)) =? no_primary (pd_comm_current_uuid p) in
  let bitmap_matches := drbd_bitmap_uuid d p =? pd_comm_bitmap_uuid p in
  let flags_matches := Z.ldiff (Z.lxor (local_uuid_flags d p) (pd_comm_uuid_flags p))
                         (UUID_FLAG UUID_FLAG_INCONSISTENT) =? 0 in
  INITIAL_STATE_SENT p && negb (uuid_matches && flags_matches && bitmap_matches) && cstate_connecting c.

Definition or_just_created (uuid : Z) : Z := if uuid =? 0 then UUID_JUST_CREATED else uuid.

(** The decision when both nodes have the same current UUID, after the fixups. *)
Definition both_off (c : drbd_connection) (l_crashed p_crashed : bool) : sync_strategy :=
  if l_crashed then (if p_crashed && RESOLVE_CONFLICTS c then SYNC_TARGET_IF_BOTH_FAILED else SYNC_SOURCE_IF_BOTH_FAILED)
  else if p_crashed then SYNC_TARGET_IF_BOTH_FAILED else NO_SYNC.

Definition lost_quorum (c : drbd_connection) (l_lost p_lost : bool) : option sync_strategy :=
  match p_lost, l_lost with
  | true, false => Some SYNC_TARGET_IF_BOTH_FAILED
  | false, true => Some SYNC_SOURCE_IF_BOTH_FAILED
  | true, true => Some (if RESOLVE_CONFLICTS c then SYNC_SOURCE_IF_BOTH_FAILED else SYNC_TARGET_IF_BOTH_FAILED)
  | false, false => None
  end.

Definition same_generation_tail (c : drbd_connection) (agreed : Z) (l_crashed p_crashed l_rec p_rec l_lost p_lost : bool)
  : sync_strategy * sync_rule :=
  match lost_quorum c l_lost p_lost with
  | Some s => (s, RULE_LOST_QUORUM)
  | None =>
      let rule := if agreed <? 120 then RULE_RECONNECTED else RULE_LOST_QUORUM in
      if (agreed <? 120) && p_rec && l_rec then (NO_SYNC, rule)
      else if p_crashed && l_rec then (SYNC_SOURCE_IF_BOTH_FAILED, rule)
      else if l_crashed && p_rec then (SYNC_TARGET_IF_BOTH_FAILED, rule)
      else if p_rec || l_rec then (NO_SYNC, rule)
      else (both_off c l_crashed p_crashed, RULE_BOTH_OFF)
  end.

Definition compare_same_generation (c : drbd_connection) (d : drbd_device) (p : drbd_peer_device)
  : sync_strategy * sync_rule :=
  let agreed := agreed_pro_version p in
  let l_flag := has_flag (local_uuid_flags d p) in
  let p_flag := has_flag (pd_uuid_flags p) in
  let l_crashed := l_flag UUID_FLAG_CRASHED_PRIMARY in
  let p_crashed := p_flag UUID_FLAG_CRASHED_PRIMARY in
  if RS_SOURCE_MISSED_END p then (SYNC_SOURCE_USE_BITMAP, RULE_SYNC_SOURCE_MISSED_FINISH)
  else if RS_PEER_MISSED_END p then (SYNC_TARGET_USE_BITMAP, RULE_SYNC_TARGET_PEER_MISSED_FINISH)
  else if (120 <=? agreed) && p_flag UUID_FLAG_RECONNECT && l_flag UUID_FLAG_RECONNECT
  then (NO_SYNC, RULE_RECONNECTED)
  else
    let prot_ab := (121 <=? agreed) && (bool_decide (wire_protocol c = DRBD_PROT_A) || bool_decide (wire_protocol c = DRBD_PROT_B)) in
    if prot_ab && l_crashed && negb p_crashed then (SYNC_SOURCE_USE_BITMAP, RULE_CRASHED_PRIMARY)
    else if prot_ab && p_crashed && negb l_crashed then (SYNC_TARGET_USE_BITMAP, RULE_CRASHED_PRIMARY)
    else same_generation_tail c agreed l_crashed p_crashed (l_flag UUID_FLAG_RECONNECT) (p_flag UUID_FLAG_RECONNECT)
           (PRIMARY_LOST_QUORUM d) (p_flag UUID_FLAG_PRIMARY_LOST_QUORUM).

(** The entries before the first unused one, and the two loops over them. *)
Definition used_history (h : list Z) : list Z :=
  (fix go l := match l with [] => [] | x :: l => if x =? 0 then [] else x :: go l end) (no_primary <$> h).

Definition histories_meet (h1 h2 : list Z) : bool :=
  existsb (fun x => existsb (fun y => x =? y) (used_history h2)) (used_history h1).

(** The decision by the history of both nodes. *)
Definition compare_histories (my_id : nat) (my_current_in_peers_history : bool) (d : drbd_device) (p : drbd_peer_device)
  : comparison :=
  let peer := no_primary (pd_current_uuid p) in
  let peers_current_in_my_history := uuid_in_my_history d peer in
  let ret s r := mk_cmp s r None d p in
  if my_current_in_peers_history && negb peers_current_in_my_history
  then ret SYNC_TARGET_SET_BITMAP RULE_HISTORY_PEER
  else if negb my_current_in_peers_history && peers_current_in_my_history
  then ret SYNC_SOURCE_SET_BITMAP RULE_HISTORY_SELF
  else
    let self_bm := no_primary (drbd_bitmap_uuid d p) in
    let peer_bm := no_primary (pd_bitmap_uuid p my_id) in
    if (self_bm =? peer_bm) && negb (self_bm =? 0) then ret SPLIT_BRAIN_AUTO_RECOVER RULE_BITMAP_BOTH
    else if histories_meet (history_uuids (md d)) (pd_history_uuids p)
    then ret SPLIT_BRAIN_DISCONNECT RULE_HISTORY_BOTH
    else ret UNRELATED_DATA RULE_HISTORY_BOTH.

(** The decision when the current UUIDs differ: [self] is the resolved UUID, and
    [bm] the bitmap UUID read at the start. *)
Definition compare_generations (my_id : nat) (self bm : Z) (d : drbd_device) (p : drbd_peer_device) : comparison :=
  let old := agreed_pro_version p <? 110 in
  if self =? no_primary (pd_bitmap_uuid p my_id) then mk_cmp SYNC_TARGET_USE_BITMAP RULE_BITMAP_PEER None d p
  else match drbd_find_peer_bitmap_by_uuid p self with
  | Some i => mk_cmp SYNC_TARGET_CLEAR_BITMAP RULE_BITMAP_PEER_OTHER (Some i) d p
  | None =>
    match (if old then uuid_fixup_resync_start1 my_id d p else None) with
    | Some r => r
    | None =>
      let peer := no_primary (pd_current_uuid p) in
      if no_primary bm =? peer then mk_cmp SYNC_SOURCE_USE_BITMAP RULE_BITMAP_SELF None d p
      else match drbd_find_bitmap_by_uuid d p peer with
      | Some i => mk_cmp SYNC_SOURCE_COPY_BITMAP RULE_BITMAP_SELF_OTHER (Some i) d p
      | None =>
        let my_current_in_peers_history := uuid_in_peer_history p self in
        match (if old then uuid_fixup_resync_start2 d p else None) with
        | Some r => r
        | None => compare_histories my_id my_current_in_peers_history d p
        end
      end
    end
  end.

Definition drbd_uuid_compare (my_id : nat) (c : drbd_connection) (d : drbd_device) (p : drbd_peer_device) : comparison :=
  let resolved_uuid := no_primary (fst (drbd_resolved_uuid d p)) in
  let ret s r := mk_cmp s r None d p in
  if handshake_changed c d p then ret RETRY_CONNECT RULE_INITIAL_HANDSHAKE_CHANGED
  else
    let self := or_just_created resolved_uuid in
    let peer := or_just_created (no_primary (pd_current_uuid p)) in
    if (self =? UUID_JUST_CREATED) && (peer =? UUID_JUST_CREATED) then ret NO_SYNC RULE_JUST_CREATED_BOTH
    else if self =? UUID_JUST_CREATED then ret SYNC_TARGET_SET_BITMAP RULE_JUST_CREATED_SELF
    else if peer =? UUID_JUST_CREATED then ret SYNC_SOURCE_SET_BITMAP RULE_JUST_CREATED_PEER
    else if self =? peer then
      match (if agreed_pro_version p <? 110 then uuid_fixup_resync_end my_id RULE_JUST_CREATED_PEER d p else None) with
      | Some r => r
      | None => let '(s, r) := compare_same_generation c d p in ret s r
      end
    else compare_generations my_id self (drbd_bitmap_uuid d p) d p.

(** ** Effects of a decision *)

Definition is_resync_running (d : drbd_device) : bool :=
  existsb (fun p => (pd_repl_state p =? L_SYNC_TARGET) || (pd_repl_state p =? L_PAUSED_SYNC_T)) (peer_devices d).

Definition bitmap_index_vacant (m : drbd_md) (i : Z) : bool :=
  forallb (fun node_id => negb (bitmap_index (peer_md m node_id) =? i)) (seq 0 DRBD_NODE_ID_MAX).

Definition drbd_unallocated_index (m : drbd_md) : option nat :=
  find (fun i => bitmap_index_vacant m (Z.of_nat i)) (seq 0 (Z.to_nat (max_peers m))).

(** The operation on the bitmap that a decision asks for. *)
Inductive bitmap_action :=
  | BM_NONE
  | BM_SET_MANY_BITS                (* all bits of the slot of the peer *)
  | BM_COPY_SLOT (from to : Z)
  | BM_CLEAR_MANY_BITS
  | BM_SET_N_WRITE                  (* drbd_bmio_set_n_write *)
  | BM_SET_ALLOCATED_N_WRITE.       (* drbd_bmio_set_allocated_n_write *)

(** [bitmap_mod_after_handshake]; [false] is an error. *)
Definition bitmap_mod_after_handshake (e : handshake_env) (s : sync_strategy) (peer_node_id : option nat)
    (d : drbd_device) (p : drbd_peer_device) : bool * bitmap_action * drbd_device :=
  match s with
  | SYNC_SOURCE_COPY_BITMAP =>
      let from := bitmap_index (peer_md (md d) (default 0%nat peer_node_id)) in
      let from := if from =? -1 then match drbd_unallocated_index (md d) with Some i => Z.of_nat i | None => -1 end
                  else from in
      if pd_bitmap_index p =? -1 then (true, BM_NONE, d)
      else (true, if from =? -1 then BM_SET_MANY_BITS else BM_COPY_SLOT from (pd_bitmap_index p), d)
  | SYNC_TARGET_CLEAR_BITMAP => (true, BM_CLEAR_MANY_BITS, d)
  | SYNC_SOURCE_SET_BITMAP | SYNC_TARGET_SET_BITMAP =>
      let fresh := drbd_current_uuid d =? UUID_JUST_CREATED in
      if bool_decide (s = SYNC_TARGET_SET_BITMAP) && fresh && is_resync_running d then (true, BM_NONE, d)
      else
        let action := if fresh then BM_SET_ALLOCATED_N_WRITE else BM_SET_N_WRITE in
        if negb (bitmap_io_ok e) then (false, action, d)
        else if negb fresh && negb (pd_current_uuid p =? UUID_JUST_CREATED) &&
                bool_decide (s = SYNC_SOURCE_SET_BITMAP)
        then (true, action, drbd_uuid_set_bitmap p (pd_current_uuid p) d)
        else (true, action, d)
  | _ => (true, BM_NONE, d)
  end.

Definition strategy_to_repl_state (my_role peer_role : drbd_role) (s : sync_strategy) : Z :=
  if decide ((s = SYNC_SOURCE_IF_BOTH_FAILED \/ s = SYNC_TARGET_IF_BOTH_FAILED) /\
             (my_role = R_PRIMARY \/ peer_role = R_PRIMARY))
  then if decide (peer_role = R_SECONDARY) then L_WF_BITMAP_S
       else if decide (my_role = R_SECONDARY) then L_WF_BITMAP_T else L_ESTABLISHED
  else if is_sync_source (strategy_descriptor s) then L_WF_BITMAP_S
  else if is_sync_target (strategy_descriptor s) then L_WF_BITMAP_T
  else L_ESTABLISHED.

(** ** Decision by disk states *)

(** The strategy and the node id, if it is written. *)
Definition drbd_disk_states_source_strategy (my_id : nat) (d : drbd_device) (p : drbd_peer_device)
  : sync_strategy * option nat :=
  if negb (has_flag (pd_uuid_flags p) UUID_FLAG_SYNC_TARGET) then (SYNC_SOURCE_USE_BITMAP, None)
  else
    let bitmap_uuid := pd_bitmap_uuid p my_id in
    if (bitmap_uuid =? pd_current_uuid p) && (bitmap_uuid =? drbd_current_uuid d) then (SYNC_SOURCE_USE_BITMAP, None)
    else match (if bitmap_uuid =? 0 then None else drbd_find_bitmap_by_uuid d p bitmap_uuid) with
    | None => (SYNC_SOURCE_SET_BITMAP, None)
    | Some i => if Nat.eqb i (pd_node_id p) then (SYNC_SOURCE_USE_BITMAP, None) else (SYNC_SOURCE_COPY_BITMAP, Some i)
    end.

Definition drbd_disk_states_target_strategy (my_id : nat) (d : drbd_device) (p : drbd_peer_device)
  : sync_strategy * option nat :=
  if negb (has_flag (pd_comm_uuid_flags p) UUID_FLAG_SYNC_TARGET) then (SYNC_TARGET_USE_BITMAP, None)
  else
    let bitmap_uuid := drbd_bitmap_uuid d p in
    if (bitmap_uuid =? pd_current_uuid p) && (bitmap_uuid =? drbd_current_uuid d) then (SYNC_TARGET_USE_BITMAP, None)
    else match drbd_find_peer_bitmap_by_uuid p bitmap_uuid with
    | None => (SYNC_TARGET_SET_BITMAP, None)
    | Some i => if Nat.eqb i my_id then (SYNC_TARGET_USE_BITMAP, None) else (SYNC_TARGET_CLEAR_BITMAP, Some i)
    end.

(** The disk state sent to the peer, or the one of the meta-data. *)
Definition communicated_disk (e : handshake_env) (d : drbd_device) (p : drbd_peer_device) : Z :=
  if pd_comm_disk p =? D_NEGOTIATING then disk_state_from_md e d else pd_comm_disk p.

Definition decide_based_on_dstates (agreed disk peer_disk : Z) (s : sync_strategy) (rule : sync_rule) : bool :=
  let either_inconsistent := ((disk =? D_INCONSISTENT) && (D_INCONSISTENT <? peer_disk)) ||
                             ((peer_disk =? D_INCONSISTENT) && (D_INCONSISTENT <? disk)) in
  if 119 <=? agreed then
    let dstates_want_resync := negb (disk =? peer_disk) && (D_INCONSISTENT <=? disk) &&
                               (D_INCONSISTENT <=? peer_disk) && negb (peer_disk =? D_UNKNOWN) in
    let resync_direction_arbitrary :=
      bool_decide (s = SYNC_TARGET_IF_BOTH_FAILED \/ s = SYNC_SOURCE_IF_BOTH_FAILED) in
    dstates_want_resync &&
    ((bool_decide (rule = RULE_RECONNECTED \/ rule = RULE_LOST_QUORUM \/ rule = RULE_BOTH_OFF) &&
      resync_direction_arbitrary) ||
     (bool_decide (s = NO_SYNC) && either_inconsistent))
  else bool_decide (rule = RULE_BOTH_OFF \/ s = NO_SYNC) && either_inconsistent.

Definition disk_states_to_strategy (my_id : nat) (e : handshake_env) (peer_disk : Z) (r : comparison)
  : sync_strategy * option nat :=
  let d := cmp_device r in
  let p := cmp_peer r in
  let disk := communicated_disk e d p in
  let prefer_local := if 119 <=? agreed_pro_version p then peer_disk <? disk else D_INCONSISTENT <? disk in
  if decide_based_on_dstates (agreed_pro_version p) disk peer_disk (cmp_strategy r) (cmp_rule r)
  then let '(s, i) := if prefer_local then drbd_disk_states_source_strategy my_id d p
                      else drbd_disk_states_target_strategy my_id d p in
       (s, match i with Some _ => i | None => cmp_peer_node_id r end)
  else (cmp_strategy r, cmp_peer_node_id r).

(** ** The handshakes *)

Definition recover_by_primaries (my_id : nat) (e : handshake_env) (c : drbd_connection) (peer_role : drbd_role)
    (d : drbd_device) (p : drbd_peer_device) : sync_strategy * drbd_device :=
  if decide (role d = R_PRIMARY) then
    if decide (peer_role = R_PRIMARY) then drbd_asb_recover_2p my_id e c d p else drbd_asb_recover_1p my_id e c d p
  else
    if decide (peer_role = R_PRIMARY) then drbd_asb_recover_1p my_id e c d p else (drbd_asb_recover_0p my_id c d p, d).

(** A split brain that one side does not see as stable is ignored. *)
Definition ignore_unstable (d : drbd_device) (p : drbd_peer_device) (s : sync_strategy) : sync_strategy :=
  if bool_decide (s = SPLIT_BRAIN_AUTO_RECOVER) &&
     (negb (device_stable d) || negb (has_flag (pd_uuid_flags p) UUID_FLAG_STABLE))
  then NO_SYNC else s.

(** The block that applies the policies: [quorum_decides] is the decision by
    quorum, if there is one.  [inl] is a return from the handshake. *)
Definition after_split_brain (my_id : nat) (e : handshake_env) (c : drbd_connection) (peer_role : drbd_role)
    (quorum_decides : option sync_strategy) (s : sync_strategy) (d : drbd_device) (p : drbd_peer_device)
  : sync_strategy * drbd_device + sync_strategy * drbd_device :=
  let need_full_sync := bool_decide (s = SPLIT_BRAIN_DISCONNECT) in
  if bool_decide (s = SPLIT_BRAIN_AUTO_RECOVER) || (need_full_sync && always_asbp c) then
    let s := default s quorum_decides in
    let '(s, d) := if is_split_brain (strategy_descriptor s) then recover_by_primaries my_id e c peer_role d p
                   else (s, d) in
    if is_split_brain (strategy_descriptor s) then inr (s, d)
    else if need_full_sync then
      if decide (full_sync_equivalent (strategy_descriptor s) = UNDETERMINED) then inl (SPLIT_BRAIN_DISCONNECT, d)
      else inr (full_sync_equivalent (strategy_descriptor s), d)
    else inr (s, d)
  else inr (s, d).

(** A primary with good data that would become sync target. *)
Definition primary_would_be_target (s : sync_strategy) (d : drbd_device) (p : drbd_peer_device) : bool :=
  is_sync_target (strategy_descriptor s) && negb (bool_decide (s = SYNC_TARGET_IF_BOTH_FAILED)) &&
  bool_decide (role d = R_PRIMARY) && (D_CONSISTENT <=? disk_state d) &&
  ((0 <? pd_comm_bm_set p) || (0 <? pd_dirty_bits p)).

Definition refuse_target (c : drbd_connection) (s : sync_strategy) : sync_strategy :=
  match rr_conflict c with
  | ASB_CALL_HELPER | ASB_DISCONNECT => SYNC_TARGET_PRIMARY_DISCONNECT
  | ASB_RETRY_CONNECT => SYNC_TARGET_PRIMARY_RECONNECT
  | _ => s
  end.

Definition drbd_attach_handshake (my_id : nat) (e : handshake_env) (c : drbd_connection) (peer_disk : Z)
    (d : drbd_device) (p : drbd_peer_device) : sync_strategy * bitmap_action * drbd_device :=
  let r := drbd_uuid_compare my_id c d p in
  let d := cmp_device r in
  let p := cmp_peer r in
  if negb (is_strategy_determined (cmp_strategy r)) then (cmp_strategy r, BM_NONE, d)
  else
    let '(s, peer_node_id) := disk_states_to_strategy my_id e peer_disk r in
    let s := ignore_unstable d p s in
    match after_split_brain my_id e c (conn_peer_role c) None s d p with
    | inl (s, d) => (s, BM_NONE, d)
    | inr (s, d) =>
        if is_split_brain (strategy_descriptor s) then (s, BM_NONE, d)
        else if negb (is_strategy_determined s) then (s, BM_NONE, d)
        else
          let s := if primary_would_be_target s d p then refuse_target c s else s in
          let '(ok, action, d) := bitmap_mod_after_handshake e s peer_node_id d p in
          (if ok then s else RETRY_CONNECT, action, d)
    end.

Definition discard_my_data_to_strategy (p : drbd_peer_device) : sync_strategy :=
  match DISCARD_MY_DATA p, has_flag (pd_uuid_flags p) UUID_FLAG_DISCARD_MY_DATA with
  | true, false => SYNC_TARGET_USE_BITMAP
  | false, true => SYNC_SOURCE_USE_BITMAP
  | _, _ => UNDETERMINED
  end.

(** The returns of [drbd_sync_handshake] before the disk states are looked at. *)
Definition handshake_early_return (my_role : drbd_role) (s : sync_strategy) (rule : sync_rule) (p : drbd_peer_device)
  : option sync_strategy :=
  if bool_decide (s = RETRY_CONNECT \/ s = UNRELATED_DATA) then Some s
  else if negb (required_protocol (strategy_descriptor s) =? 0) then Some s
  else if (agreed_pro_version p <? 124) && (pd_comm_bm_set p =? 0) && (pd_dirty_bits p =? 0) then
    if bool_decide (s = SYNC_SOURCE_USE_BITMAP /\ rule = RULE_SYNC_SOURCE_MISSED_FINISH) then Some RETRY_CONNECT
    else if bool_decide (s = SYNC_TARGET_USE_BITMAP /\ rule = RULE_SYNC_TARGET_PEER_MISSED_FINISH /\ my_role = R_PRIMARY)
    then Some REQUIRES_PROTO_124
    else None
  else None.

Definition quorum_decision (e : handshake_env) (peer_quorum : bool) (p : drbd_peer_device) : option sync_strategy :=
  if quorum_on e && (113 <=? agreed_pro_version p) then
    match have_quorum e, peer_quorum with
    | true, false => Some SYNC_SOURCE_USE_BITMAP
    | false, true => Some SYNC_TARGET_USE_BITMAP
    | _, _ => None
    end
  else None.

(** A split brain solved by [--discard-my-data]. *)
Definition solved_by_user (need_full_sync : bool) (from_user s : sync_strategy) : sync_strategy :=
  if bool_decide (s = SPLIT_BRAIN_DISCONNECT) && negb (bool_decide (from_user = UNDETERMINED))
  then if need_full_sync then full_sync_equivalent (strategy_descriptor from_user) else from_user
  else s.

(** A direction that [--discard-my-data] reverses. *)
Definition reversed_by_user (from_user s : sync_strategy) (peer_disk : Z) (d : drbd_device) (p : drbd_peer_device)
  : sync_strategy :=
  if (121 <=? agreed_pro_version p) && negb (bool_decide (s = NO_SYNC)) &&
     negb (bool_decide (from_user = UNDETERMINED)) &&
     negb (eqb (is_sync_source (strategy_descriptor s)) (is_sync_source (strategy_descriptor from_user))) &&
     negb (bool_decide (reverse (strategy_descriptor s) = UNDETERMINED))
  then
    let reversed := reverse (strategy_descriptor s) in
    let source_disk := if is_sync_source (strategy_descriptor reversed) then disk_state d else peer_disk in
    if D_INCONSISTENT <? source_disk then reversed else s
  else s.

(** The two blocks with [rr_conflict]. *)
Definition primary_conflict (c : drbd_connection) (rule : sync_rule) (s : sync_strategy) (d : drbd_device)
    (p : drbd_peer_device) : sync_strategy :=
  if primary_would_be_target s d p then
    match rr_conflict c with
    | ASB_AUTO_DISCARD =>
        if bool_decide (s = SYNC_TARGET_USE_BITMAP /\ rule = RULE_CRASHED_PRIMARY) then SYNC_SOURCE_USE_BITMAP else s
    | _ => refuse_target c s
    end
  else s.

Definition auto_discard (c : drbd_connection) (rule : sync_rule) (peer : drbd_state) (s : sync_strategy) : sync_strategy :=
  if bool_decide (s = SYNC_SOURCE_USE_BITMAP /\ rule = RULE_CRASHED_PRIMARY /\ st_role peer = R_PRIMARY) &&
     (D_CONSISTENT <=? st_disk peer) && bool_decide (rr_conflict c = ASB_AUTO_DISCARD)
  then SYNC_TARGET_USE_BITMAP else s.

Definition missed_finish (rule : sync_rule) : bool :=
  bool_decide (rule = RULE_SYNC_SOURCE_MISSED_FINISH \/ rule = RULE_SYNC_SOURCE_PEER_MISSED_FINISH \/
               rule = RULE_SYNC_TARGET_MISSED_FINISH \/ rule = RULE_SYNC_TARGET_PEER_MISSED_FINISH).

(** A resync after a missed finish is skipped unless its source is up to date. *)
Definition skip_missed_finish (e : handshake_env) (rule : sync_rule) (peer_disk : Z) (s : sync_strategy)
    (d : drbd_device) (p : drbd_peer_device) : sync_strategy * drbd_device :=
  if negb (missed_finish rule) then (s, d)
  else match s with
  | SYNC_SOURCE_USE_BITMAP => (if communicated_disk e d p =? D_UP_TO_DATE then s else NO_SYNC, d)
  | SYNC_TARGET_USE_BITMAP =>
      if peer_disk =? D_UP_TO_DATE then (s, d)
      else
        let previous := drbd_bitmap_uuid d p in
        (NO_SYNC,
         if previous =? 0 then d
         else drbd_md_mark_dirty
                (set_md (_drbd_uuid_push_history previous
                           (set_peer_md (pd_node_id p) (fun q => set_bitmap_uuid 0 (bitmap_dagtag q) q) (md d))) d))
  | _ => (s, d)
  end.

(** The value that is returned: a strategy, or -2 for a dry run. *)
Inductive handshake_return := RET_STRATEGY (s : sync_strategy) | RET_DRY_RUN.

(** From the strategy by UUIDs and disk states to the end. *)
Definition handshake_finish (my_id : nat) (e : handshake_env) (c : drbd_connection) (peer : drbd_state)
    (rule : sync_rule) (s : sync_strategy) (peer_node_id : option nat) (d : drbd_device) (p : drbd_peer_device)
  : handshake_return * bitmap_action * drbd_device :=
  let from_user := discard_my_data_to_strategy p in
  let s := ignore_unstable d p s in
  let need_full_sync := bool_decide (s = SPLIT_BRAIN_DISCONNECT) in
  match after_split_brain my_id e c (st_role peer) (quorum_decision e (st_quorum peer) p) s d p with
  | inl (s, d) => (RET_STRATEGY s, BM_NONE, d)
  | inr (s, d) =>
      let s := solved_by_user need_full_sync from_user s in
      if is_split_brain (strategy_descriptor s) || negb (is_strategy_determined s) then (RET_STRATEGY s, BM_NONE, d)
      else
        let s := reversed_by_user from_user s (st_disk peer) d p in
        let s := primary_conflict c rule s d p in
        let s := auto_discard c rule peer s in
        let '(s, d) := skip_missed_finish e rule (st_disk peer) s d p in
        if CONN_DRY_RUN c then (RET_DRY_RUN, BM_NONE, d)
        else
          let '(ok, action, d) := bitmap_mod_after_handshake e s peer_node_id d p in
          (RET_STRATEGY (if ok then s else RETRY_CONNECT), action, d)
  end.

Definition drbd_sync_handshake (my_id : nat) (e : handshake_env) (c : drbd_connection) (peer : drbd_state)
    (d : drbd_device) (p : drbd_peer_device) : handshake_return * bitmap_action * drbd_device :=
  let r := drbd_uuid_compare my_id c d p in
  match handshake_early_return (role d) (cmp_strategy r) (cmp_rule r) (cmp_peer r) with
  | Some s => (RET_STRATEGY s, BM_NONE, cmp_device r)
  | None =>
      let '(s, peer_node_id) := disk_states_to_strategy my_id e (st_disk peer) r in
      handshake_finish my_id e c peer (cmp_rule r) s peer_node_id (cmp_device r) (cmp_peer r)
  end.

(** The descriptor the caller looks up: -2 is out of range. *)
Definition return_descriptor (r : handshake_return) : sync_descriptor :=
  match r with RET_STRATEGY s => strategy_descriptor s | RET_DRY_RUN => strategy_descriptor UNDETERMINED end.

Definition return_repl_state (my_role peer_role : drbd_role) (r : handshake_return) : Z :=
  match r with
  | RET_STRATEGY s => strategy_to_repl_state my_role peer_role s
  | RET_DRY_RUN => L_ESTABLISHED
  end.
End handshake.

(** ** Both nodes decide alike *)

Section mirror.
Context `{DrbdHeaders}.

(** The strategy of the peer that goes with a strategy. *)
Definition mirror (s : sync_strategy) : sync_strategy :=
  match s with
  | SYNC_SOURCE_IF_BOTH_FAILED => SYNC_TARGET_IF_BOTH_FAILED
  | SYNC_SOURCE_USE_BITMAP => SYNC_TARGET_USE_BITMAP
  | SYNC_SOURCE_SET_BITMAP => SYNC_TARGET_SET_BITMAP
  | SYNC_SOURCE_COPY_BITMAP => SYNC_TARGET_CLEAR_BITMAP
  | SYNC_TARGET_IF_BOTH_FAILED => SYNC_SOURCE_IF_BOTH_FAILED
  | SYNC_TARGET_USE_BITMAP => SYNC_SOURCE_USE_BITMAP
  | SYNC_TARGET_SET_BITMAP => SYNC_SOURCE_SET_BITMAP
  | SYNC_TARGET_CLEAR_BITMAP => SYNC_SOURCE_COPY_BITMAP
  | s => s
  end.

Notation resolved d p := (fst (drbd_resolved_uuid d p)).
Notation slot m i := (bitmap_uuid (peer_md m i)).

(** [p] is what a node received from the node with the device [d], whose peer
    device for the receiver is [q]: the resolved UUID, the flags, the history and
    the slots; an unused slot may be sent as -1. *)
Record sees (p : drbd_peer_device) (d : drbd_device) (q : drbd_peer_device) : Prop := {
  sees_node : pd_node_id p = md_node_id (md d);
  sees_current : pd_current_uuid p = resolved d q;
  sees_flags f : has_flag (pd_uuid_flags p) f = has_flag (local_uuid_flags d q) f;
  sees_history : pd_history_uuids p = history_uuids (md d);
  sees_slot i : (i < DRBD_NODE_ID_MAX)%nat -> i <> md_node_id (md d) ->
    pd_bitmap_uuid p i = slot (md d) i \/ slot (md d) i = 0 /\ pd_bitmap_uuid p i = U64_MAX;
  sees_own_slot : pd_bitmap_uuid p (md_node_id (md d)) = 0 \/ pd_bitmap_uuid p (md_node_id (md d)) = U64_MAX;
  sees_agreed : agreed_pro_version p = agreed_pro_version q;
  sees_missed : RS_SOURCE_MISSED_END p = RS_PEER_MISSED_END q;
  sees_missed_once : RS_SOURCE_MISSED_END p && RS_PEER_MISSED_END p = false }.

(** -1 stands for no generation. *)
Definition not_reserved (u : Z) : Prop := no_primary u <> no_primary U64_MAX.

(** Two nodes that are connected to each other and have each other's UUIDs. *)
Record connected (c1 : drbd_connection) (d1 : drbd_device) (p1 : drbd_peer_device)
    (c2 : drbd_connection) (d2 : drbd_device) (p2 : drbd_peer_device) : Prop := {
  con_12 : sees p1 d2 p2;
  con_21 : sees p2 d1 p1;
  con_ids : (md_node_id (md d1) < DRBD_NODE_ID_MAX)%nat /\ (md_node_id (md d2) < DRBD_NODE_ID_MAX)%nat /\
            md_node_id (md d1) <> md_node_id (md d2);
  con_wire : wire_protocol c1 = wire_protocol c2;
  con_resolve : RESOLVE_CONFLICTS c1 = negb (RESOLVE_CONFLICTS c2);
  con_unchanged : handshake_changed c1 d1 p1 = false /\ handshake_changed c2 d2 p2 = false;
  con_current : not_reserved (resolved d1 p1) /\ not_reserved (resolved d2 p2);
  con_bitmap : not_reserved (drbd_bitmap_uuid d1 p1) /\ not_reserved (drbd_bitmap_uuid d2 p2) }.

Lemma connected_sym c1 d1 p1 c2 d2 p2 : connected c1 d1 p1 c2 d2 p2 -> connected c2 d2 p2 c1 d1 p1.
Proof.
  intros [? ? (? & ? & ?) ? Hr [] [] []]. split; [done|done|split_and!; by auto|done| |done|done|done].
  by rewrite Hr, negb_involutive.
Qed.

Lemma find_ext {A} (f g : A -> bool) l : Forall (fun x => f x = g x) l -> find f l = find g l.
Proof. induction 1 as [|x l Hx _ IH]; [done|]. cbn. by rewrite Hx, IH. Qed.

Lemma no_primary_0 : no_primary 0 = 0.
Proof. unfold no_primary. apply Z.ldiff_0_l. Qed.

(** A search in the received slots is a search in the slots of the sender. *)
Lemma find_bitmap_mirror p d q u :
  sees p d q -> 116 <= agreed_pro_version q -> u <> 0 -> u <> no_primary U64_MAX ->
  drbd_find_peer_bitmap_by_uuid p u = drbd_find_bitmap_by_uuid d q u.
Proof.
  intros Hs Ha Hz Hm. unfold drbd_find_peer_bitmap_by_uuid, drbd_find_bitmap_by_uuid.
  destruct node_id_max as [_ ->]. apply find_ext, Forall_forall. intros i Hi. apply elem_of_seq in Hi.
  rewrite (proj2 (Z.ltb_ge _ _)) by done. cbn [andb negb]. rewrite andb_true_r.
  destruct (Nat.eqb_spec i (md_node_id (md d))) as [-> |Hne]; cbn [negb andb].
  - apply Z.eqb_neq. destruct (sees_own_slot _ _ _ Hs) as [-> | ->]; [by rewrite no_primary_0|done].
  - destruct (sees_slot _ _ _ Hs i) as [-> |[-> ->]]; [lia|done|apply Z.eqb_sym|].
    rewrite no_primary_0, (proj2 (Z.eqb_neq _ _) Hm). symmetry. by apply Z.eqb_neq.
Qed.

(** The slot towards the receiver, as both see it. *)
Lemma slot_mirror p d q u :
  sees p d q -> (pd_node_id q < DRBD_NODE_ID_MAX)%nat -> pd_node_id q <> md_node_id (md d) ->
  u <> 0 -> u <> no_primary U64_MAX ->
  (u =? no_primary (pd_bitmap_uuid p (pd_node_id q))) = (no_primary (drbd_bitmap_uuid d q) =? u).
Proof.
  intros Hs Hlt Hne Hz Hm. unfold drbd_bitmap_uuid.
  destruct (sees_slot _ _ _ Hs _ Hlt Hne) as [-> |[-> ->]]; [apply Z.eqb_sym|].
  rewrite no_primary_0, (proj2 (Z.eqb_neq _ _) Hm). symmetry. by apply Z.eqb_neq.
Qed.

Lemma local_lost_quorum d p : has_flag (local_uuid_flags d p) UUID_FLAG_PRIMARY_LOST_QUORUM = PRIMARY_LOST_QUORUM d.
Proof.
  unfold local_uuid_flags, drbd_collect_local_uuid_flags. rewrite !has_flag_lor, !has_flag_if.
  assert (has_flag (snd (drbd_resolved_uuid d p)) UUID_FLAG_PRIMARY_LOST_QUORUM = false) as ->.
  { unfold drbd_resolved_uuid. case_match; cbn; [by rewrite has_flag_flag|apply has_flag_0]. }
  rewrite !(bool_decide_eq_false_2 (_ = UUID_FLAG_PRIMARY_LOST_QUORUM)) by done.
  by rewrite bool_decide_eq_true_2, !andb_false_r, andb_true_r, orb_false_r.
Qed.

Lemma histories_meet_sym h1 h2 : histories_meet h1 h2 = histories_meet h2 h1.
Proof.
  unfold histories_meet. apply eq_true_iff_eq. rewrite !existsb_exists. setoid_rewrite existsb_exists.
  setoid_rewrite Z.eqb_eq. naive_solver.
Qed.

Lemma same_generation_mirror c1 d1 p1 c2 d2 p2 :
  connected c1 d1 p1 c2 d2 p2 ->
  fst (compare_same_generation c2 d2 p2) = mirror (fst (compare_same_generation c1 d1 p1)).
Proof.
  intros [H12 H21 _ Hw Hr _ _ _]. unfold compare_same_generation.
  rewrite <- (local_lost_quorum d1 p1), <- (local_lost_quorum d2 p2), !(sees_flags _ _ _ H12), !(sees_flags _ _ _ H21).
  rewrite (sees_agreed _ _ _ H12), (sees_missed _ _ _ H12), <- (sees_missed _ _ _ H21), Hw.
  pose proof (sees_missed_once _ _ _ H21) as Ho. rewrite <- (sees_missed _ _ _ H12) in *.
  rewrite (sees_missed _ _ _ H12) in *. set (ab := _ || _).
  unfold same_generation_tail, lost_quorum, both_off. rewrite Hr.
  generalize (has_flag (local_uuid_flags d1 p1)) (has_flag (local_uuid_flags d2 p2)). intros f1 f2.
  destruct (RS_SOURCE_MISSED_END p2), (RS_PEER_MISSED_END p2); try done.
  destruct (Z.ltb_spec (agreed_pro_version p2) 120) as [Hlt|Hge].
  - rewrite (proj2 (Z.leb_gt 120 _)), (proj2 (Z.leb_gt 121 _)) by lia. cbn [andb].
    destruct (f1 UUID_FLAG_PRIMARY_LOST_QUORUM), (f2 UUID_FLAG_PRIMARY_LOST_QUORUM), (RESOLVE_CONFLICTS c2); try done;
    destruct (f1 UUID_FLAG_RECONNECT), (f2 UUID_FLAG_RECONNECT); try done;
    destruct (f1 UUID_FLAG_CRASHED_PRIMARY), (f2 UUID_FLAG_CRASHED_PRIMARY); done.
  - rewrite (proj2 (Z.leb_le 120 _)) by lia. destruct (121 <=? _); cbn [andb]; generalize ab; intros [];
    destruct (f1 UUID_FLAG_RECONNECT), (f2 UUID_FLAG_RECONNECT); try done; cbn [andb];
    destruct (f1 UUID_FLAG_CRASHED_PRIMARY), (f2 UUID_FLAG_CRASHED_PRIMARY); try done; cbn [andb negb];
    destruct (f1 UUID_FLAG_PRIMARY_LOST_QUORUM), (f2 UUID_FLAG_PRIMARY_LOST_QUORUM), (RESOLVE_CONFLICTS c2); done.
Qed.

(** The slots towards each other start at the same generation. *)
Lemma bitmaps_meet_mirror c1 d1 p1 c2 d2 p2 :
  connected c1 d1 p1 c2 d2 p2 ->
  (no_primary (drbd_bitmap_uuid d1 p1) =? no_primary (pd_bitmap_uuid p1 (md_node_id (md d1)))) &&
    negb (no_primary (drbd_bitmap_uuid d1 p1) =? 0) = true ->
  (no_primary (drbd_bitmap_uuid d2 p2) =? no_primary (pd_bitmap_uuid p2 (md_node_id (md d2)))) &&
    negb (no_primary (drbd_bitmap_uuid d2 p2) =? 0) = true.
Proof.
  intros [H12 H21 (Hl1 & Hl2 & Hne) _ _ _ _ [Hr1 Hr2]] Hm. reflect_bools. unfold drbd_bitmap_uuid in *.
  rewrite (sees_node _ _ _ H12) in *. rewrite (sees_node _ _ _ H21) in *.
  destruct (sees_slot _ _ _ H12 _ Hl1 Hne) as [E1|[E1 E1']]; [|rewrite E1' in *; done].
  destruct (sees_slot _ _ _ H21 _ Hl2 (not_eq_sym Hne)) as [E2|[E2 E2']];
    [|rewrite E2, no_primary_0 in *; done].
  rewrite E1 in *. rewrite E2. apply andb_true_intro. split; [by apply Z.eqb_eq|].
  apply negb_true_iff, Z.eqb_neq. congruence.
Qed.

Lemma compare_histories_mirror c1 d1 p1 c2 d2 p2 a b :
  connected c1 d1 p1 c2 d2 p2 -> a = no_primary (resolved d1 p1) -> b = no_primary (resolved d2 p2) ->
  cmp_strategy (compare_histories (md_node_id (md d2)) (uuid_in_peer_history p2 b) d2 p2) =
    mirror (cmp_strategy (compare_histories (md_node_id (md d1)) (uuid_in_peer_history p1 a) d1 p1)) /\
  cmp_peer_node_id (compare_histories (md_node_id (md d1)) (uuid_in_peer_history p1 a) d1 p1) = None /\
  cmp_peer_node_id (compare_histories (md_node_id (md d2)) (uuid_in_peer_history p2 b) d2 p2) = None.
Proof.
  intros Hc -> ->. pose proof Hc as [H12 H21 _ _ _ _ _ _]. unfold compare_histories, uuid_in_peer_history, uuid_in_my_history.
  rewrite (sees_history _ _ _ H12), (sees_history _ _ _ H21), (sees_current _ _ _ H12), (sees_current _ _ _ H21).
  rewrite (histories_meet_sym (history_uuids (md d2))).
  pose proof (bitmaps_meet_mirror _ _ _ _ _ _ Hc) as M1.
  pose proof (bitmaps_meet_mirror _ _ _ _ _ _ (connected_sym _ _ _ _ _ _ Hc)) as M2.
  destruct (existsb _ (history_uuids (md d1))), (existsb _ (history_uuids (md d2))); cbn [negb andb]; try done;
  destruct (_ && _); destruct (_ && _); try (by specialize (M1 eq_refl)); try (by specialize (M2 eq_refl)); try done;
  by destruct (histories_meet _ _).
Qed.

(** At most one of the two current generations is the start of a bitmap of the
    other node. *)
Definition not_crossed (d1 : drbd_device) (p1 : drbd_peer_device) (d2 : drbd_device) (p2 : drbd_peer_device) : Prop :=
  drbd_find_peer_bitmap_by_uuid p1 (no_primary (resolved d1 p1)) = None \/
  drbd_find_peer_bitmap_by_uuid p2 (no_primary (resolved d2 p2)) = None.

Lemma slot_is_found p u i :
  (i < DRBD_NODE_ID_MAX)%nat -> (u =? no_primary (pd_bitmap_uuid p i)) = true -> drbd_find_peer_bitmap_by_uuid p u <> None.
Proof.
  intros Hi Hu Hn. unfold drbd_find_peer_bitmap_by_uuid in Hn. destruct node_id_max as [_ Hm].
  pose proof (find_none _ _ Hn i) as Hf. cbv beta in Hf. rewrite Hu in Hf. apply diff_true_false, Hf, in_seq. lia.
Qed.

Lemma compare_generations_mirror c1 d1 p1 c2 d2 p2 a b :
  connected c1 d1 p1 c2 d2 p2 -> 116 <= agreed_pro_version p1 -> not_crossed d1 p1 d2 p2 ->
  a = no_primary (resolved d1 p1) -> b = no_primary (resolved d2 p2) -> a <> 0 -> b <> 0 ->
  let r1 := compare_generations (md_node_id (md d1)) a (drbd_bitmap_uuid d1 p1) d1 p1 in
  let r2 := compare_generations (md_node_id (md d2)) b (drbd_bitmap_uuid d2 p2) d2 p2 in
  cmp_strategy r2 = mirror (cmp_strategy r1) /\ cmp_peer_node_id r2 = cmp_peer_node_id r1.
Proof.
  intros Hc Ha Hx Ea Eb Hza Hzb. pose proof Hc as [H12 H21 (Hl1 & Hl2 & Hne) _ _ _ [Hn1 Hn2] _].
  pose proof (sees_agreed _ _ _ H12) as Hag. unfold not_reserved in *. unfold not_crossed in Hx. rewrite <- Ea, <- Eb in *.
  unfold compare_generations. rewrite !(proj2 (Z.ltb_ge _ 110)) by lia.
  rewrite (sees_current _ _ _ H12), (sees_current _ _ _ H21), <- Ea, <- Eb.
  pose proof (slot_mirror _ _ _ a H12) as S1. rewrite (sees_node _ _ _ H21) in S1.
  pose proof (slot_mirror _ _ _ b H21) as S2. rewrite (sees_node _ _ _ H12) in S2.
  rewrite <- S1, <- S2 by auto.
  rewrite <- (find_bitmap_mirror _ _ _ a H12), <- (find_bitmap_mirror _ _ _ b H21) by (try done; lia).
  pose proof (slot_is_found p1 a (md_node_id (md d1)) Hl1) as F1.
  pose proof (slot_is_found p2 b (md_node_id (md d2)) Hl2) as F2.
  destruct (a =? _); [specialize (F1 eq_refl)|];
  (destruct (b =? _); [specialize (F2 eq_refl)|]); [by destruct Hx| | |].
  - destruct Hx as [?| ->]; [done|]. done.
  - destruct Hx as [-> |?]; done.
  - destruct Hx as [-> | ->].
    + destruct (drbd_find_peer_bitmap_by_uuid p2 b); [done|]. 
      destruct (compare_histories_mirror _ _ _ _ _ _ a b Hc Ea Eb) as (-> & -> & ->). done.
    + destruct (drbd_find_peer_bitmap_by_uuid p1 a); [done|].
      destruct (compare_histories_mirror _ _ _ _ _ _ a b Hc Ea Eb) as (-> & -> & ->). done.
Qed.
End mirror.

(** ** What a handshake keeps *)

Section frames.
Context `{DrbdHeaders}.

(** A fixup changes UUIDs only. *)
Definition same_frame (d d' : drbd_device) : Prop := role d' = role d /\ disk_state d' = disk_state d.

Lemma compare_frame my_id c d p :
  let r := drbd_uuid_compare my_id c d p in
  same_frame d (cmp_device r) /\ pd_comm_bm_set (cmp_peer r) = pd_comm_bm_set p /\
  pd_dirty_bits (cmp_peer r) = pd_dirty_bits p.
Proof.
  unfold drbd_uuid_compare, compare_generations, compare_histories, uuid_fixup_resync_end, uuid_fixup_resync_start1,
    uuid_fixup_resync_start2, _drbd_uuid_pull_history.
  destruct (compare_same_generation c d p). repeat (case_match; simplify_eq; try done).
Qed.

Lemma asb_0p_range my_id c d p :
  drbd_asb_recover_0p my_id c d p = SPLIT_BRAIN_DISCONNECT \/
  drbd_asb_recover_0p my_id c d p = SYNC_SOURCE_USE_BITMAP \/ drbd_asb_recover_0p my_id c d p = SYNC_TARGET_USE_BITMAP.
Proof.
  unfold drbd_asb_recover_0p, discard_younger_pri, discard_older_pri, discard_zero_chg, discard_least_chg, by_resolve_conflicts.
  repeat case_match; auto.
Qed.

(** A node that gives up its primary role becomes secondary; nothing else changes
    the role, and no policy changes the disk state. *)
Definition role_kept_or_given_up (d d' : drbd_device) : Prop :=
  disk_state d' = disk_state d /\ (role d' = role d \/ role d' = R_SECONDARY).

Lemma recover_frame my_id e c r d p : role_kept_or_given_up d (snd (recover_by_primaries my_id e c r d p)).
Proof.
  unfold recover_by_primaries, drbd_asb_recover_2p, drbd_asb_recover_1p, give_up_primary, role_kept_or_given_up.
  repeat case_match; cbn; auto.
Qed.

Lemma after_split_brain_frame my_id e c r q s d p :
  match after_split_brain my_id e c r q s d p with
  | inl (s', d') => s' = SPLIT_BRAIN_DISCONNECT
  | inr (s', d') => role_kept_or_given_up d d'
  end.
Proof.
  unfold after_split_brain. case_if; [|split; auto].
  pose proof (recover_frame my_id e c r d p) as Hr.
  destruct (is_split_brain (strategy_descriptor (default s q))).
  - destruct (recover_by_primaries my_id e c r d p) as [s' d']. repeat case_match; simplify_eq; done.
  - repeat case_match; simplify_eq; split; auto.
Qed.

Lemma skip_missed_finish_frame e rule disk s d p :
  same_frame d (snd (skip_missed_finish e rule disk s d p)) /\
  (fst (skip_missed_finish e rule disk s d p) = s \/ fst (skip_missed_finish e rule disk s d p) = NO_SYNC).
Proof. unfold skip_missed_finish. repeat case_match; cbn; repeat split; auto. Qed.

Lemma bitmap_mod_frame e s i d p : same_frame d (snd (bitmap_mod_after_handshake e s i d p)).
Proof.
  unfold bitmap_mod_after_handshake. repeat case_match; cbn; try done; unfold drbd_uuid_set_bitmap; by case_match.
Qed.

(** A strategy a primary with good data may follow. *)
Definition no_target (s : sync_strategy) : Prop :=
  is_sync_target (strategy_descriptor s) = true ->
  s = SYNC_TARGET_IF_BOTH_FAILED \/ disconnect (strategy_descriptor s) || reconnect (strategy_descriptor s) = true.

Lemma no_target_repl peer_role s :
  no_target s -> strategy_to_repl_state R_PRIMARY peer_role s = L_WF_BITMAP_T ->
  disconnect (strategy_descriptor s) || reconnect (strategy_descriptor s) = true.
Proof.
  pose proof repl_order. unfold no_target, strategy_to_repl_state. intros Hs Hr.
  destruct s; cbn in *; try done; repeat case_decide; try lia; naive_solver.
Qed.

Lemma early_return_not_target my_role s rule p s' :
  handshake_early_return my_role s rule p = Some s' -> is_sync_target (strategy_descriptor s') = false.
Proof.
  unfold handshake_early_return. case_bool_decide as Hs; [intros [= <-]; by destruct Hs as [-> | ->]|].
  case_if; [intros [= <-]; by destruct s|]. case_if; [|done].
  case_bool_decide; [by intros [= <-]|]. case_bool_decide; [by intros [= <-]|done].
Qed.

Lemma primary_conflict_no_target c rule s d p :
  rr_conflict c = ASB_CALL_HELPER \/ rr_conflict c = ASB_DISCONNECT \/ rr_conflict c = ASB_RETRY_CONNECT ->
  role d = R_PRIMARY -> D_CONSISTENT <= disk_state d -> 0 < pd_comm_bm_set p \/ 0 < pd_dirty_bits p ->
  no_target (primary_conflict c rule s d p).
Proof.
  intros Hrr Hro Hd Hb. unfold primary_conflict, primary_would_be_target, no_target.
  rewrite (bool_decide_eq_true_2 (role d = _)), (proj2 (Z.leb_le _ _) Hd) by done.
  assert ((0 <? pd_comm_bm_set p) || (0 <? pd_dirty_bits p) = true) as ->.
  { apply orb_true_iff. rewrite !Z.ltb_lt. done. }
  rewrite !andb_true_r. unfold refuse_target.
  destruct (is_sync_target (strategy_descriptor s)) eqn:Et; cbn [andb]; [|by rewrite Et].
  destruct (decide (s = SYNC_TARGET_IF_BOTH_FAILED)) as [-> |Hne]; [by left|].
  rewrite bool_decide_eq_false_2 by done. cbn [negb]. by destruct Hrr as [-> |[-> | ->]]; right.
Qed.
End frames.

(** ** Theorems *)

Section handshake_theorems.
Context `{DrbdHeaders}.

Notation resolved d p := (fst (drbd_resolved_uuid d p)).

(** C17: two connected nodes that compare the UUIDs they exchanged reach matching
    decisions: one becomes source where the other becomes target, with the same
    kind of bitmap and the same third node, or both see the same split brain,
    unrelated data or no need to sync.  Conditions: each node has what the other sent, in
    which the entry of a node is its own slot, or -1 for an empty one ([sees]); each
    has seen the other miss the end of a resync exactly when the other knows it, and
    not both ways at once ([sees_missed]); neither state changed since the UUIDs
    were sent; no UUID is the reserved -1; the protocol is 116 or newer (with an older one
    a node leaves out its own slots without a bitmap); and not both current generations are the start of a
    bitmap of the other node ([not_crossed]). *)
Theorem drbd_uuid_compare_mirror c1 d1 p1 c2 d2 p2 :
  connected c1 d1 p1 c2 d2 p2 -> 116 <= agreed_pro_version p1 -> not_crossed d1 p1 d2 p2 ->
  let r1 := drbd_uuid_compare (md_node_id (md d1)) c1 d1 p1 in
  let r2 := drbd_uuid_compare (md_node_id (md d2)) c2 d2 p2 in
  cmp_strategy r2 = mirror (cmp_strategy r1) /\ cmp_peer_node_id r2 = cmp_peer_node_id r1.
Proof.
  intros Hc Ha Hx. pose proof Hc as [H12 H21 _ _ _ [U1 U2] _ _]. pose proof (sees_agreed _ _ _ H12) as Hag.
  unfold drbd_uuid_compare. rewrite U1, U2, (sees_current _ _ _ H12), (sees_current _ _ _ H21).
  set (a := no_primary (resolved d1 p1)). set (b := no_primary (resolved d2 p2)).
  rewrite (Z.eqb_sym (or_just_created b) (or_just_created a)).
  destruct (or_just_created a =? UUID_JUST_CREATED) eqn:Ea, (or_just_created b =? UUID_JUST_CREATED) eqn:Eb; try done.
  cbn [andb]. unfold or_just_created in *. pose proof uuid_just_created.
  destruct (Z.eqb_spec a 0) as [|Hza]; [by rewrite Z.eqb_refl in Ea|].
  destruct (Z.eqb_spec b 0) as [|Hzb]; [by rewrite Z.eqb_refl in Eb|].
  destruct (a =? b).
  - rewrite !(proj2 (Z.ltb_ge _ 110)) by lia. pose proof (same_generation_mirror _ _ _ _ _ _ Hc) as Hm.
    destruct (compare_same_generation c1 d1 p1), (compare_same_generation c2 d2 p2). done.
  - by apply compare_generations_mirror with (c1 := c1) (c2 := c2).
Qed.

(** C18: the automatic recovery from a split brain without primary gives the two
    nodes opposite roles, or makes both disconnect: when they use matching
    policies, know each other's number of changed blocks and bitmap UUIDs, and
    have different [RESOLVE_CONFLICTS] bits. *)
Theorem drbd_asb_recover_0p_mirror c1 d1 p1 id1 c2 d2 p2 id2 :
  after_sb_0p c1 = convert_after_sb (after_sb_0p c2) -> RESOLVE_CONFLICTS c1 = negb (RESOLVE_CONFLICTS c2) ->
  pd_dirty_bits p1 = pd_comm_bm_set p2 -> pd_dirty_bits p2 = pd_comm_bm_set p1 ->
  pd_bitmap_uuid p1 id1 = drbd_bitmap_uuid d2 p2 -> pd_bitmap_uuid p2 id2 = drbd_bitmap_uuid d1 p1 ->
  drbd_asb_recover_0p id2 c2 d2 p2 = mirror (drbd_asb_recover_0p id1 c1 d1 p1).
Proof.
  intros Hp Hr H1 H2 B1 B2.
  unfold drbd_asb_recover_0p, discard_younger_pri, discard_older_pri, discard_zero_chg, discard_least_chg, by_resolve_conflicts.
  rewrite Hp, Hr, H1, H2, B1, B2. clear.
  set (x1 := Z.land (drbd_bitmap_uuid d1 p1) _). set (x2 := Z.land (drbd_bitmap_uuid d2 p2) _).
  set (n1 := pd_comm_bm_set p1). set (n2 := pd_comm_bm_set p2).
  destruct (RESOLVE_CONFLICTS c2), (after_sb_0p c2); cbn [convert_after_sb negb mirror]; try done;
  repeat (case_decide; try done);
  destruct (Z.eqb_spec x1 0), (Z.eqb_spec x1 1), (Z.eqb_spec x2 0), (Z.eqb_spec x2 1); cbn [andb]; try done; try lia;
  destruct (Z.eqb_spec n1 0), (Z.eqb_spec n2 0); cbn [andb]; try done; try lia;
  destruct (Z.ltb_spec n1 n2), (Z.ltb_spec n2 n1); done || lia.
Qed.

(** C19: a primary with consistent data and changed blocks never becomes sync
    target by a handshake, unless configured to: with the policies "call helper",
    "disconnect" and "retry connect" the strategy drops the connection. *)
Theorem drbd_sync_handshake_protects_primary my_id e c peer d p r action d' :
  drbd_sync_handshake my_id e c peer d p = (r, action, d') ->
  rr_conflict c = ASB_CALL_HELPER \/ rr_conflict c = ASB_DISCONNECT \/ rr_conflict c = ASB_RETRY_CONNECT ->
  role d' = R_PRIMARY -> D_CONSISTENT <= disk_state d -> 0 < pd_comm_bm_set p \/ 0 < pd_dirty_bits p ->
  return_repl_state (role d') (st_role peer) r = L_WF_BITMAP_T ->
  disconnect (return_descriptor r) || reconnect (return_descriptor r) = true.
Proof.
  pose proof repl_order. intros Hh Hrr Hro Hdisk Hbits. unfold drbd_sync_handshake in Hh. rewrite Hro.
  destruct (compare_frame my_id c d p) as ([_ Hds] & Hb1 & Hb2). set (cmp := drbd_uuid_compare my_id c d p) in *.
  rewrite <- Hb1, <- Hb2 in Hbits. rewrite <- Hds in Hdisk.
  destruct (handshake_early_return _ _ _ _) as [s|] eqn:Ee.
  { simplify_eq. apply (no_target_repl (st_role peer)). intros Ht.
    by rewrite (early_return_not_target _ _ _ _ _ Ee) in Ht. }
  destruct (disk_states_to_strategy my_id e (st_disk peer) cmp) as [s i]. unfold handshake_finish in Hh.
  set (s1 := ignore_unstable _ _ s) in Hh.
  pose proof (after_split_brain_frame my_id e c (st_role peer) (quorum_decision e (st_quorum peer) (cmp_peer cmp)) s1
    (cmp_device cmp) (cmp_peer cmp)) as Hf.
  destruct (after_split_brain _ _ _ _ _ _ _ _) as [[s2 d2]|[s2 d2]]; [by simplify_eq|].
  set (s3 := solved_by_user _ _ s2) in Hh. case_if_in Hh.
  { simplify_eq. apply (no_target_repl (st_role peer)). intros Ht. right.
    apply orb_true_iff in Ec as [Ec|Ec]; [by destruct s3|]. unfold is_strategy_determined in Ec. by destruct s3. }
  set (s4 := reversed_by_user _ s3 _ _ _) in Hh. destruct Hf as [Hdk _]. rewrite <- Hdk in Hdisk.
  destruct (skip_missed_finish_frame e (cmp_rule cmp) (st_disk peer)
    (auto_discard c (cmp_rule cmp) peer (primary_conflict c (cmp_rule cmp) s4 d2 (cmp_peer cmp))) d2 (cmp_peer cmp)) as [[Hr5 _] Hs5].
  destruct (skip_missed_finish _ _ _ _ d2 _) as [s5 d5]. cbn [fst snd] in *.
  case_if_in Hh; [simplify_eq; cbn; lia|].
  pose proof (bitmap_mod_frame e s5 i d5 (cmp_peer cmp)) as [Hr6 _].
  destruct (bitmap_mod_after_handshake _ _ _ _ _) as [[ok a] d6]. simplify_eq. cbn [snd] in *. intros Hrs.
  apply (no_target_repl (st_role peer)) in Hrs; [done|]. destruct ok; [|done].
  assert (role d2 = R_PRIMARY) as Hro2 by congruence.
  pose proof (primary_conflict_no_target c (cmp_rule cmp) s4 d2 (cmp_peer cmp) Hrr Hro2 Hdisk Hbits) as Hnt.
  assert (forall t, auto_discard c (cmp_rule cmp) peer t = t) as Had.
  { intros t. unfold auto_discard. rewrite (bool_decide_eq_false_2 (rr_conflict c = _)), andb_false_r; [done|].
    intros Hx. rewrite Hx in Hrr. by destruct Hrr as [?|[?|?]]. }
  rewrite Had in Hs5. by destruct Hs5 as [-> | ->].
Qed.

(** A decision by disk states resynchronises from the node with the better
    disk to the other one. *)
Theorem disk_states_to_strategy_direction my_id e peer_disk r :
  let disk := communicated_disk e (cmp_device r) (cmp_peer r) in
  let s := fst (disk_states_to_strategy my_id e peer_disk r) in
  decide_based_on_dstates (agreed_pro_version (cmp_peer r)) disk peer_disk (cmp_strategy r) (cmp_rule r) = true ->
  (is_sync_source (strategy_descriptor s) = true /\ peer_disk < disk \/
   is_sync_target (strategy_descriptor s) = true /\ disk < peer_disk) /\
  D_INCONSISTENT <= disk /\ D_INCONSISTENT <= peer_disk.
Proof.
  intros disk s Hd. unfold s, disk_states_to_strategy. fold disk. rewrite Hd.
  assert (forall q d p, is_sync_source (strategy_descriptor (fst (drbd_disk_states_source_strategy q d p))) = true) as Hs.
  { intros. unfold drbd_disk_states_source_strategy. repeat case_match; done. }
  assert (forall q d p, is_sync_target (strategy_descriptor (fst (drbd_disk_states_target_strategy q d p))) = true) as Ht.
  { intros. unfold drbd_disk_states_target_strategy. repeat case_match; done. }
  specialize (Hs my_id (cmp_device r) (cmp_peer r)). specialize (Ht my_id (cmp_device r) (cmp_peer r)).
  destruct (drbd_disk_states_source_strategy _ _ _), (drbd_disk_states_target_strategy _ _ _).
  unfold decide_based_on_dstates in Hd. destruct (119 <=? agreed_pro_version (cmp_peer r)).
  - apply andb_true_iff in Hd as [Hw _]. reflect_bools. split; [|lia].
    destruct (Z.ltb_spec peer_disk disk); cbn; [by left|right; split; [done|lia]].
  - apply andb_true_iff in Hd as [_ [Hd|Hd]%orb_true_iff]; reflect_bools; (split; [|lia]).
    + rewrite (proj2 (Z.ltb_ge _ _)) by lia. right. split; [done|lia].
    + rewrite (proj2 (Z.ltb_lt _ _)) by lia. left. split; [done|lia].
Qed.

(** C21: a peer that was absent when a new generation started and comes back with
    the old one is resynchronised with the bitmap kept for it: the handshake finds
    the slot that the new generation filled. *)
Theorem absent_peer_resyncs_with_bitmap forced r1 r2 d d' p my_id c d2 p2 :
  __new_current_uuid_prepare forced r1 r2 true d = (true, d') ->
  md_wf (md d) -> NoDup (pd_node_id <$> peer_devices d) ->
  p ∈ peer_devices d -> (pd_node_id p < DRBD_NODE_ID_MAX)%nat ->
  pd_disk_state p = D_UNKNOWN -> drbd_bitmap_uuid d p = 0 ->
  no_primary (current_uuid (md d)) <> 0 -> no_primary (current_uuid (md d)) <> UUID_JUST_CREATED ->
  no_primary r2 <> 0 -> no_primary r2 <> UUID_JUST_CREATED -> no_primary r2 <> no_primary (current_uuid (md d)) ->
  (* later, with the UUIDs of the peer in [p2] *)
  md d2 = md d' -> pd_node_id p2 = pd_node_id p -> (my_id < DRBD_NODE_ID_MAX)%nat -> 110 <= agreed_pro_version p2 ->
  resolved d2 p2 = drbd_current_uuid d2 -> handshake_changed c d2 p2 = false ->
  no_primary (pd_current_uuid p2) = no_primary (current_uuid (md d)) ->
  drbd_find_peer_bitmap_by_uuid p2 (no_primary r2) = None ->
  let r := drbd_uuid_compare my_id c d2 p2 in
  cmp_strategy r = SYNC_SOURCE_USE_BITMAP /\ cmp_rule r = RULE_BITMAP_SELF.
Proof.
  intros Hprep [Hlen _] Hnd Hp Hlt Hpd Hz Hcz Hcj Hrz Hrj Hrc Hmd Hid Hmy Hag Hres Hch Hpc Hnf.
  unfold __new_current_uuid_prepare in Hprep. set (weak := if forced then _ else _) in Hprep.
  destruct (rotate_current_into_bitmap weak (dagtag_sector d) r1 d) as [got d1] eqn:Hr.
  case_if_in Hprep; [done|]. injection Hprep as <-.
  destruct (rotate_slots _ _ _ _ _ _ Hr Hlen) as [_ Hs]. destruct (Hs Hnd p Hp Hlt) as [Hsl _]. clear Hs.
  assert (current_uuid (md d) <> UUID_JUST_CREATED) as Hnj.
  { intros He. apply Hcj. rewrite He. unfold no_primary. apply uuid_just_created. }
  assert (bitmap_uuid (peer_md (md d1) (pd_node_id p)) = current_uuid (md d)) as Hslot.
  { rewrite Hsl. unfold starts_new_bitmap, prev_current. rewrite (proj2 (Z.eqb_neq _ _) Hnj).
    unfold drbd_bitmap_uuid in Hz. rewrite Hz, Hpd. pose proof disk_order.
    rewrite Z.leb_refl, !(proj2 (Z.eqb_neq D_UNKNOWN _)) by lia. done. }
  destruct (set_current_md r2 d1) as [Hmd1 _]. rewrite Hmd1 in Hmd.
  assert (drbd_bitmap_uuid d2 p2 = current_uuid (md d)) as Hbm.
  { unfold drbd_bitmap_uuid. by rewrite Hmd, Hid. }
  assert (no_primary (drbd_current_uuid d2) = no_primary r2) as Hcur.
  { unfold drbd_current_uuid. rewrite Hmd. apply no_primary_with_role. }
  unfold drbd_uuid_compare. rewrite Hch, Hres, Hcur, Hpc, Hbm. unfold or_just_created.
  rewrite (proj2 (Z.eqb_neq _ _) Hrz), (proj2 (Z.eqb_neq _ _) Hcz), (proj2 (Z.eqb_neq _ _) Hrj),
    (proj2 (Z.eqb_neq _ _) Hcj), (proj2 (Z.eqb_neq _ _) Hrc). cbn [andb].
  unfold compare_generations. rewrite Hnf, Hpc, Z.eqb_refl, (proj2 (Z.ltb_ge _ _)) by done.
  destruct (_ =? no_primary (pd_bitmap_uuid p2 my_id)) eqn:E; [|done]. by apply slot_is_found in E.
Qed.

(** A connection that is made to test what would happen is not dropped: the value
    -2 has the descriptor of an undetermined strategy. *)
Lemma dry_run_is_not_dropped my_role peer_role :
  disconnect (return_descriptor RET_DRY_RUN) = false /\ reconnect (return_descriptor RET_DRY_RUN) = false /\
  return_repl_state my_role peer_role RET_DRY_RUN = L_ESTABLISHED.
Proof. done. Qed.

(** During an attach the policies after split brain are never used: the
    strategies they apply to have been returned before.  A split brain that is found
    during an attach is never recovered automatically. *)
Theorem attach_ignores_split_brain_policies my_id e c peer_disk d p policy always :
  let c' := mk_connection (RESOLVE_CONFLICTS c) (cstate_connecting c) (CONN_DRY_RUN c) (wire_protocol c)
              policy policy policy always (rr_conflict c) (conn_peer_role c) in
  drbd_attach_handshake my_id e c' peer_disk d p = drbd_attach_handshake my_id e c peer_disk d p.
Proof.
  intros c'. unfold drbd_attach_handshake.
  change (drbd_uuid_compare my_id c' d p) with (drbd_uuid_compare my_id c d p).
  set (r := drbd_uuid_compare my_id c d p). case_if; [done|].
  assert (forall s, disk_states_to_strategy my_id e peer_disk r = s -> is_split_brain (strategy_descriptor (fst s)) = false) as Hs.
  { intros s <-. unfold disk_states_to_strategy, drbd_disk_states_source_strategy, drbd_disk_states_target_strategy.
    unfold is_strategy_determined in Ec. repeat case_match; simplify_eq; try done; by destruct (cmp_strategy r). }
  destruct (disk_states_to_strategy my_id e peer_disk r) as [s i]. specialize (Hs _ eq_refl). cbn in Hs.
  unfold ignore_unstable, after_split_brain.
  rewrite !(bool_decide_eq_false_2 (s = _)) by (intros ->; done). done.
Qed.
End handshake_theorems.

(** ** Concrete runs: node 0 went on as primary while node 2 was absent. *)

Section handshake_witnesses.
#[local] Existing Instance small_headers.

Definition hs_device (id : nat) (cur : Z) (r : drbd_role) (slots : list Z) : drbd_device :=
  mk_device (mk_md cur id 3 ((fun u => mk_peer_md u 0 3 (-1)) <$> slots) [64; 32; 0; 0])
    false cur r 9 77 false false true true [].

Definition hs_peer (id : nat) (cur : Z) (slots : list Z) (my_cur my_bm dirty set : Z) : drbd_peer_device :=
  mk_peer_device id (-1) 7 0 cur slots [64; 32; 0; 0] 16 dirty my_cur my_bm 16 set 9 0
    true true false false false false 119 false.

Definition hs_connection (resolve : bool) (policy : drbd_after_sb_p) : drbd_connection :=
  mk_connection resolve true false DRBD_PROT_C policy ASB_DISCONNECT ASB_DISCONNECT false ASB_DISCONNECT R_SECONDARY.

Definition hs_env : handshake_env := mk_env false true true true true true.

Definition hs_d1 : drbd_device := hs_device 0 301 R_PRIMARY [0; 0; 101; 0].
Definition hs_d2 : drbd_device := hs_device 2 100 R_SECONDARY [0; 0; 0; 0].
Definition hs_p1 : drbd_peer_device := hs_peer 2 100 [0; 0; 0; 0] 301 101 0 5.
Definition hs_p2 : drbd_peer_device := hs_peer 0 301 [0; 0; 101; 0] 100 0 5 0.
Definition hs_c1 : drbd_connection := hs_connection true ASB_DISCARD_LEAST_CHG.
Definition hs_c2 : drbd_connection := hs_connection false ASB_DISCARD_LEAST_CHG.

Lemma hs_sees_12 : sees hs_p1 hs_d2 hs_p2.
Proof.
  split; try done; [|by left].
  intros i Hi _. left. do 4 (destruct i as [|i]; [done|]). cbn in Hi. lia.
Qed.

Lemma hs_sees_21 : sees hs_p2 hs_d1 hs_p1.
Proof.
  split; try done; [|by left].
  intros i Hi _. left. do 4 (destruct i as [|i]; [done|]). cbn in Hi. lia.
Qed.

Lemma hs_connected : connected hs_c1 hs_d1 hs_p1 hs_c2 hs_d2 hs_p2.
Proof.
  split; [exact hs_sees_12|exact hs_sees_21|split_and!; [cbn; lia|cbn; lia|done]|done|done|split; by vm_compute|
    split; by vm_compute|split; by vm_compute].
Qed.

Lemma drbd_uuid_compare_mirror_witness :
  cmp_strategy (drbd_uuid_compare 0 hs_c1 hs_d1 hs_p1) = SYNC_SOURCE_USE_BITMAP /\
  cmp_strategy (drbd_uuid_compare 2 hs_c2 hs_d2 hs_p2) =
    mirror (cmp_strategy (drbd_uuid_compare 0 hs_c1 hs_d1 hs_p1)).
Proof.
  split; [by vm_compute|].
  exact (proj1 (drbd_uuid_compare_mirror hs_c1 hs_d1 hs_p1 hs_c2 hs_d2 hs_p2 hs_connected
    ltac:(by vm_compute) ltac:(left; by vm_compute))).
Defined.

Lemma drbd_asb_recover_0p_mirror_witness :
  drbd_asb_recover_0p 0 hs_c1 hs_d1 hs_p1 = SYNC_SOURCE_USE_BITMAP /\
  drbd_asb_recover_0p 2 hs_c2 hs_d2 hs_p2 = mirror (drbd_asb_recover_0p 0 hs_c1 hs_d1 hs_p1).
Proof.
  split; [by vm_compute|]. apply (drbd_asb_recover_0p_mirror hs_c1 hs_d1 hs_p1 0 hs_c2 hs_d2 hs_p2 2); reflexivity.
Defined.

(** The primary comes back with older data than the peer. *)
Definition hs_old_primary : drbd_device := hs_device 0 101 R_PRIMARY [0; 0; 0; 0].
Definition hs_new_peer : drbd_peer_device := hs_peer 2 300 [100; 0; 0; 0] 101 0 5 0.
Definition hs_peer_state : drbd_state := mk_state R_SECONDARY 9 true.

Definition hs_run : handshake_return * bitmap_action * drbd_device :=
  Eval vm_compute in drbd_sync_handshake 0 hs_env hs_c1 hs_peer_state hs_old_primary hs_new_peer.

Lemma hs_run_eq :
  drbd_sync_handshake 0 hs_env hs_c1 hs_peer_state hs_old_primary hs_new_peer = (fst (fst hs_run), snd (fst hs_run), snd hs_run).
Proof. by vm_compute. Qed.

Lemma drbd_sync_handshake_protects_primary_witness :
  fst (fst hs_run) = RET_STRATEGY SYNC_TARGET_PRIMARY_DISCONNECT /\
  disconnect (return_descriptor (fst (fst hs_run))) || reconnect (return_descriptor (fst (fst hs_run))) = true.
Proof.
  split; [reflexivity|].
  apply (drbd_sync_handshake_protects_primary 0 hs_env hs_c1 hs_peer_state hs_old_primary hs_new_peer
    (fst (fst hs_run)) (snd (fst hs_run)) (snd hs_run) hs_run_eq);
    [by right; left|reflexivity|by vm_compute|by right; vm_compute|reflexivity].
Defined.

(** Both disks are of the same generation, the one of the peer is inconsistent. *)
Definition hs_equal : comparison :=
  mk_cmp NO_SYNC RULE_RECONNECTED None hs_d1 hs_p1.

Lemma disk_states_to_strategy_direction_witness :
  fst (disk_states_to_strategy 0 hs_env 5 hs_equal) = SYNC_SOURCE_USE_BITMAP /\
  5 <= communicated_disk hs_env hs_d1 hs_p1.
Proof.
  split; [by vm_compute|].
  exact (proj1 (proj2 (disk_states_to_strategy_direction 0 hs_env 5 hs_equal ltac:(by vm_compute)))).
Defined.

Lemma hs_bump : __new_current_uuid_prepare false 200 300 true demo_device = (true, snd demo_new).
Proof. by vm_compute. Qed.

Definition hs_later : drbd_device :=
  mk_device (md (snd demo_new)) false 301 R_PRIMARY 9 77 false false true true [].

Lemma absent_peer_resyncs_with_bitmap_witness :
  cmp_strategy (drbd_uuid_compare 0 hs_c1 hs_later hs_p1) = SYNC_SOURCE_USE_BITMAP.
Proof.
  refine (proj1 (absent_peer_resyncs_with_bitmap false 200 300 demo_device (snd demo_new) (demo_peer 2 7 0 101) 0
    hs_c1 hs_later hs_p1 hs_bump demo_md_wf demo_nodup _ _ _ _ _ _ _ _ _ _ _ _ _ _ _ _ _));
    first [reflexivity|by vm_compute|cbn; lia|right; left].
Defined.
End handshake_witnesses.
