(* ===== verification/Req.v ===== *)
(** * Life of a request ([drbd/drbd_req.c], [drbd/drbd_req.h])

    A write of the application goes to the local disk and to several peers at the
    same time.  The request collects what happened in one word of flags for the
    local disk and one per peer, and counts what it still waits for in three
    reference counters: the bio is completed when [completion_ref] is zero, the
    request is done (bitmap, activity log) when [done_ref] is zero, and leaves the
    transfer log when [oos_send_ref] is zero.  This file models the events
    ([__req_mod]), the counters and the walk along the chain of writes.

    The state is the list of all requests of a resource, in the order in which they
    were added to the transfer log; a pointer to a request is its index.  Calls
    into other components are recorded in the log, in their order. *)
From S2P Require Import Prelude Headers.

(** ** Flags *)

Inductive drbd_req_event :=
  | TO_BE_SUBMITTED | NEW_NET_READ | NEW_NET_WRITE | NEW_NET_OOS | READY_FOR_NET | SKIP_OOS | BARRIER_SENT
  | SEND_CANCELED | SEND_FAILED | HANDED_OVER_TO_NETWORK | OOS_HANDED_TO_NETWORK
  | CONNECTION_LOST | CONNECTION_LOST_WHILE_SUSPENDED
  | RECV_ACKED_BY_PEER | WRITE_ACKED_BY_PEER | WRITE_ACKED_BY_PEER_AND_SIS | NEG_ACKED | BARRIER_ACKED | DATA_RECEIVED
  | COMPLETED_OK | READ_COMPLETED_WITH_ERROR | READ_AHEAD_COMPLETED_WITH_ERROR | WRITE_COMPLETED_WITH_ERROR
  | DISCARD_COMPLETED_NOTSUPP | DISCARD_COMPLETED_WITH_ERROR
  | ABORT_DISK_IO | RESEND | CANCEL_SUSPENDED_IO | COMPLETION_RESUMED | NOTHING.

(** [enum drbd_req_state_bits] *)
Definition __RQ_NET_PENDING : Z := 0.
Definition __RQ_NET_PENDING_OOS : Z := 1.
Definition __RQ_NET_QUEUED : Z := 2.
Definition __RQ_NET_READY : Z := 3.
Definition __RQ_NET_SENT : Z := 4.
Definition __RQ_NET_DONE : Z := 5.
Definition __RQ_NET_OK : Z := 6.
Definition __RQ_NET_SIS : Z := 7.
Definition __RQ_NET_MAX : Z := 8.
Definition __RQ_EXP_RECEIVE_ACK : Z := 9.
Definition __RQ_EXP_WRITE_ACK : Z := 10.
Definition __RQ_EXP_BARR_ACK : Z := 11.
Definition __RQ_LOCAL_PENDING : Z := 12.
Definition __RQ_LOCAL_COMPLETED : Z := 13.
Definition __RQ_LOCAL_OK : Z := 14.
Definition __RQ_LOCAL_ABORTED : Z := 15.
Definition __RQ_WRITE : Z := 16.
Definition __RQ_WSAME : Z := 17.
Definition __RQ_UNMAP : Z := 18.
Definition __RQ_ZEROES : Z := 19.
Definition __RQ_IN_ACT_LOG : Z := 20.
Definition __RQ_UNPLUG : Z := 21.
Definition __RQ_POSTPONED : Z := 22.
Definition __RQ_COMPLETION_SUSP : Z := 23.

(** A set of flags, [RQ_X | RQ_Y | ...]. *)
Definition RQ (l : list Z) : Z := foldr (fun k m => Z.lor (Z.shiftl 1 k) m) 0 l.

Definition local_bits : list Z :=
  [__RQ_LOCAL_ABORTED; __RQ_LOCAL_OK; __RQ_LOCAL_COMPLETED; __RQ_LOCAL_PENDING].
Definition RQ_LOCAL_MASK : Z := RQ local_bits.
Definition RQ_NET_MASK : Z := Z.ldiff (Z.shiftl 1 __RQ_NET_MAX - 1) RQ_LOCAL_MASK.
Definition RQ_STATE_0_MASK : Z :=
  RQ (local_bits ++ [__RQ_WRITE; __RQ_WSAME; __RQ_UNMAP; __RQ_ZEROES; __RQ_IN_ACT_LOG; __RQ_UNPLUG; __RQ_POSTPONED;
                     __RQ_COMPLETION_SUSP]).

(** [s & RQ_X], [s & MASK] *)
Definition flag (s k : Z) : bool := Z.testbit s k.
Definition any (s mask : Z) : bool := negb (Z.land s mask =? 0).
Arguments flag : simpl never.
Arguments any : simpl never.
Arguments RQ : simpl never.

(** ** State *)

(** [struct drbd_request]; [submitting] and [base_done] are not in the code: they say
    that [drbd_send_and_submit] still has its [completion_ref], and that the
    [done_ref] that goes with the completion is still held. *)
Record drbd_request := mk_req {
  local_rq_state : Z;
  net_rq_state : list Z;
  completion_ref : Z;
  done_ref : Z;
  oos_send_ref : Z;
  master_bio : bool;
  r_size : Z;
  r_epoch : Z;
  r_op_read : bool;
  r_rahead : bool;
  on_tl : bool;
  next_write : option nat;
  INTERVAL_DONE : bool;
  submitting : bool;
  base_done : bool }.

Inductive cache_ptr := req_not_net_done | req_ack_pending.

(** Calls into other components, for a request.  [REMOVE_WRITE_INTERVAL] has no effect
    on an interval that is in no tree; [OOS_SENT] is [drbd_req_oos_sent], which may send a
    peer ack; [RESTART_REQUEST] is [drbd_restart_request], which queues the request for
    [do_retry], after the suspension if I/O is suspended. *)
Inductive effect :=
  | INC_AP_PENDING (idx : nat) | DEC_AP_PENDING (idx : nat) | AP_IN_FLIGHT (idx : nat) (sectors : Z)
  | SET_CACHE_PTR (idx : nat) (p : cache_ptr) | ADVANCE_CACHE_PTR (idx : nat) (p : cache_ptr)
  | ADVANCE_CONN_REQ_NEXT (idx : nat) | CHECK_AHEAD (idx : nat)
  | DEL_PENDING_LOCAL | DEL_PENDING_MASTER_COMPLETION
  | INSERT_READ_INTERVAL | REMOVE_READ_INTERVAL | REMOVE_WRITE_INTERVAL | RELEASE_CONFLICTS
  | SET_ALL_OUT_OF_SYNC
  | SET_SYNC (bits mask : Z)           (* drbd_set_sync(device, sector, size, bits, mask) *)
  | AL_COMPLETE_IO | OOS_SENT
  | COMPLETE_BIO (ok : bool)           (* m->bio and m->error == 0 *)
  | RESTART_REQUEST
  | LOGIC_BUG.

Record drbd_resource := mk_res {
  reqs : list drbd_request;
  tl_previous_write : option nat;
  current_tle_nr : Z;
  current_tle_writes : Z;
  log : list (nat * effect) }.

(** What the events look up elsewhere: the node ids of the peer devices, the bitmap
    index of a node in the meta-data, the wire protocol of a connection; whether
    [device->cached_err_io] is set, I/O errors are reported because of lost quorum,
    the disk is attached, the device has a bitmap; the result of [drbd_set_sync] for a peer;
    [cached_min_aggreed_protocol_version] and [max_epoch_size]. *)
Record req_env := mk_req_env {
  peer_nodes : list nat;
  e_max_node_id : nat;
  md_bitmap_index : nat -> Z;
  pd_bitmap_index : nat -> Z;
  e_wire_protocol : nat -> drbd_wire_protocol;
  cached_err_io : bool;
  quorum : bool;
  ldev_ok : bool;
  has_bitmap : bool;
  set_sync_modified : nat -> bool;
  min_protocol_version : Z;
  max_epoch_size : Z }.

Definition no_request : drbd_request := mk_req 0 [] 0 0 0 false 0 0 false false false None false false false.
Definition req (s : drbd_resource) (i : nat) : drbd_request := default no_request (reqs s !! i).
Definition net (r : drbd_request) (idx : nat) : Z := default 0 (net_rq_state r !! idx).

Definition upd (i : nat) (f : drbd_request -> drbd_request) (s : drbd_resource) : drbd_resource :=
  mk_res (alter f i (reqs s)) (tl_previous_write s) (current_tle_nr s) (current_tle_writes s) (log s).
Definition emit (i : nat) (l : list effect) (s : drbd_resource) : drbd_resource :=
  mk_res (reqs s) (tl_previous_write s) (current_tle_nr s) (current_tle_writes s) (log s ++ (pair i <$> l)).

Definition set_rq_state (l : Z) (n : list Z) (r : drbd_request) : drbd_request :=
  mk_req l n (completion_ref r) (done_ref r) (oos_send_ref r) (master_bio r) (r_size r) (r_epoch r) (r_op_read r)
    (r_rahead r) (on_tl r) (next_write r) (INTERVAL_DONE r) (submitting r) (base_done r).
Definition set_refs (c d o : Z) (r : drbd_request) : drbd_request :=
  mk_req (local_rq_state r) (net_rq_state r) c d o (master_bio r) (r_size r) (r_epoch r) (r_op_read r)
    (r_rahead r) (on_tl r) (next_write r) (INTERVAL_DONE r) (submitting r) (base_done r).
Definition set_master_bio (b : bool) (r : drbd_request) : drbd_request :=
  mk_req (local_rq_state r) (net_rq_state r) (completion_ref r) (done_ref r) (oos_send_ref r) b (r_size r) (r_epoch r)
    (r_op_read r) (r_rahead r) (on_tl r) (next_write r) (INTERVAL_DONE r) (submitting r) (base_done r).
Definition set_tl (tl idone : bool) (nw : option nat) (r : drbd_request) : drbd_request :=
  mk_req (local_rq_state r) (net_rq_state r) (completion_ref r) (done_ref r) (oos_send_ref r) (master_bio r) (r_size r)
    (r_epoch r) (r_op_read r) (r_rahead r) tl nw idone (submitting r) (base_done r).
Definition set_ghost (sub base : bool) (r : drbd_request) : drbd_request :=
  mk_req (local_rq_state r) (net_rq_state r) (completion_ref r) (done_ref r) (oos_send_ref r) (master_bio r) (r_size r)
    (r_epoch r) (r_op_read r) (r_rahead r) (on_tl r) (next_write r) (INTERVAL_DONE r) sub base.

(** ** Changing flags and counters *)

Definition req_payload_sectors (r : drbd_request) : Z :=
  if flag (local_rq_state r) __RQ_WSAME then 8
  else if any (local_rq_state r) (RQ [__RQ_UNMAP; __RQ_ZEROES]) then 1
  else Z.shiftr (r_size r) 9.

Definition drbd_sender_needs_master_bio (n : Z) : bool := flag n __RQ_NET_QUEUED && negb (flag n __RQ_NET_DONE).

Definition when {A} (b : bool) (l : list A) : list A := if b then l else [].

(** Bit [k] becomes set, or cleared, by [set] or [clear]. *)
Definition newly (old set k : Z) : bool := negb (flag old k) && flag set k.
Definition no_more (old clear k : Z) : bool := flag old k && flag clear k.

(** The references that [mod_rq_state] puts: completion, done, out-of-sync. *)
Record rq_puts := mk_puts { c_put : Z; d_put : Z; o_put : Z }.

(** [mod_rq_state] up to the puts, on one request.  [idx] is the node id of the
    peer device. *)
Definition apply_rq_state (idx : option nat) (clear set : Z) (r : drbd_request)
  : outcome (drbd_request * rq_puts * list effect) :=
  let set_local := Z.land set RQ_STATE_0_MASK in
  let clear_local := Z.land clear RQ_STATE_0_MASK in
  let set := Z.ldiff set RQ_STATE_0_MASK in
  let clear := Z.ldiff clear RQ_STATE_0_MASK in
  let no_idx := match idx with None => true | Some _ => false end in
  let id := default 0%nat idx in
  bug_on! no_idx && negb (set =? 0) in
  bug_on! no_idx && negb (clear =? 0) in
  let old_local := local_rq_state r in
  let new_local := Z.lor (Z.ldiff old_local clear_local) set_local in
  let old_net := if no_idx then 0 else net r id in
  let new_net := if no_idx then 0 else Z.lor (Z.ldiff old_net clear) set in
  if (new_local =? old_local) && (no_idx || (new_net =? old_net)) then Ret (r, mk_puts 0 0 0, [])
  else
    let gets_c := Z.b2z (newly old_local set_local __RQ_LOCAL_PENDING) + Z.b2z (newly old_net set __RQ_NET_PENDING) +
                  Z.b2z (negb (drbd_sender_needs_master_bio old_net) && drbd_sender_needs_master_bio new_net) +
                  Z.b2z (newly old_local set_local __RQ_COMPLETION_SUSP) in
    let gets_d := Z.b2z (newly old_net set __RQ_EXP_BARR_ACK) in
    let gets_o := Z.b2z (newly old_net set __RQ_NET_QUEUED) in
    let local_done := no_more old_local clear_local __RQ_LOCAL_PENDING in
    let aborted := flag new_local __RQ_LOCAL_ABORTED in
    let done := newly old_net set __RQ_NET_DONE in
    let puts_c := Z.b2z (no_more old_local clear_local __RQ_COMPLETION_SUSP) +
                  Z.b2z (newly old_local set_local __RQ_LOCAL_ABORTED) + Z.b2z (local_done && negb aborted) +
                  Z.b2z (no_more old_net clear __RQ_NET_PENDING) +
                  Z.b2z (drbd_sender_needs_master_bio old_net && negb (drbd_sender_needs_master_bio new_net)) in
    let puts_d := Z.b2z (local_done && aborted) + Z.b2z (done && flag old_net __RQ_EXP_BARR_ACK) in
    let puts_o := Z.b2z (no_more old_net clear __RQ_NET_QUEUED) in
    let effects :=
      when (newly old_net set __RQ_NET_PENDING) [INC_AP_PENDING id] ++
      when (newly old_net set __RQ_NET_READY && negb (flag new_net __RQ_NET_DONE)) [SET_CACHE_PTR id req_not_net_done] ++
      when (newly old_net set __RQ_NET_SENT && negb (flag old_net __RQ_NET_DONE)) [AP_IN_FLIGHT id (req_payload_sectors r)] ++
      when (newly old_net set __RQ_NET_SENT && flag new_net __RQ_NET_PENDING) [SET_CACHE_PTR id req_ack_pending] ++
      when local_done [DEL_PENDING_LOCAL] ++
      when (no_more old_net clear __RQ_NET_PENDING) [DEC_AP_PENDING id; ADVANCE_CACHE_PTR id req_ack_pending] ++
      when (no_more old_net clear __RQ_NET_QUEUED) [ADVANCE_CONN_REQ_NEXT id] ++
      when (done && flag old_net __RQ_NET_SENT) [AP_IN_FLIGHT id (- req_payload_sectors r)] ++
      when done [ADVANCE_CACHE_PTR id req_not_net_done] ++
      when (no_more old_net clear __RQ_NET_PENDING_OOS) [CHECK_AHEAD id] in
    let nets := match idx with None => net_rq_state r | Some k => <[k := new_net]> (net_rq_state r) end in
    let r := set_refs (completion_ref r + gets_c) (done_ref r + gets_d) (oos_send_ref r + gets_o)
               (set_rq_state new_local nets r) in
    let r := set_ghost (submitting r) (base_done r && negb (local_done && aborted)) r in
    Ret (r, mk_puts puts_c puts_d puts_o, effects).

(** [start_new_tl_epoch] *)
Definition start_new_tl_epoch (s : drbd_resource) : drbd_resource :=
  if current_tle_writes s =? 0 then s
  else mk_res (reqs s) (tl_previous_write s) (current_tle_nr s + 1) 0 (log s).

(** The loops over the peer devices in [drbd_req_complete]. *)
Definition completion_blocked (e : req_env) (r : drbd_request) : bool :=
  existsb (fun idx => any (net r idx) RQ_NET_MASK && negb (flag (net r idx) __RQ_NET_PENDING_OOS) &&
                      any (net r idx) (RQ [__RQ_NET_PENDING; __RQ_NET_QUEUED])) (peer_nodes e).

Definition succeeded_somewhere (e : req_env) (r : drbd_request) : bool :=
  flag (local_rq_state r) __RQ_LOCAL_OK || existsb (fun idx => flag (net r idx) __RQ_NET_OK) (peer_nodes e).

(** The flag [RQ_POSTPONED] after the decision whether to retry. *)
Definition postpone (e : req_env) (r : drbd_request) : drbd_request :=
  if cached_err_io e
  then set_rq_state (Z.clearbit (local_rq_state r) __RQ_POSTPONED) (net_rq_state r) r
  else if negb (succeeded_somewhere e r) && r_op_read r && negb (r_rahead r) && on_tl r
  then set_rq_state (Z.setbit (local_rq_state r) __RQ_POSTPONED) (net_rq_state r) r
  else r.

Definition drbd_req_complete (e : req_env) (i : nat) (s : drbd_resource) : drbd_resource :=
  let r := req s i in
  let l := local_rq_state r in
  if completion_blocked e r then emit i [LOGIC_BUG] s
  else if negb (completion_ref r =? 0) || (flag l __RQ_LOCAL_PENDING && negb (flag l __RQ_LOCAL_ABORTED))
  then emit i [LOGIC_BUG] s
  else if negb (master_bio r) then emit i [LOGIC_BUG] s
  else
    let ok := succeeded_somewhere e r && negb (cached_err_io e) in
    let s := if flag l __RQ_WRITE && negb (r_size r =? 0) && (r_epoch r =? current_tle_nr s)
             then start_new_tl_epoch s else s in
    let s := upd i (postpone e) s in
    let s := if flag (local_rq_state (req s i)) __RQ_POSTPONED then s
             else emit i (COMPLETE_BIO (ok && quorum e) :: when (flag l __RQ_WRITE) [RELEASE_CONFLICTS])
                    (upd i (set_master_bio false) s) in
    let s := if flag l __RQ_WRITE then s else emit i [REMOVE_READ_INTERVAL] s in
    emit i [DEL_PENDING_MASTER_COMPLETION] s.

(** The masks for [drbd_set_sync]: all bits are set, except for the peers that have
    the data; of these, the bit is cleared if the peer did the same, and left alone
    otherwise. *)
Definition sync_masks_node (e : req_env) (r : drbd_request) (bm : Z * Z) (node_id : nat) : Z * Z :=
  let '(bits, mask) := bm in
  let n := net r node_id in
  if flag n __RQ_NET_OK then
    let bitmap_index := md_bitmap_index e node_id in
    if bitmap_index =? -1 then bm
    else if flag n __RQ_NET_SIS then (Z.clearbit bits bitmap_index, mask) else (bits, Z.clearbit mask bitmap_index)
  else bm.

Definition sync_masks (e : req_env) (r : drbd_request) : Z * Z :=
  foldl (sync_masks_node e r) (-1, -1) (seq 0 (S (e_max_node_id e))).

Definition touches_bitmap (e : req_env) (r : drbd_request) : bool :=
  let l := local_rq_state r in
  flag l __RQ_WRITE &&
  negb (Z.land l (Z.lor (RQ [__RQ_POSTPONED]) RQ_LOCAL_MASK) =? RQ [__RQ_POSTPONED]) &&
  negb (r_size r =? 0) && ldev_ok e && has_bitmap e.

(** [_req_mod] for the events [READY_FOR_NET] and [SKIP_OOS], which put no reference. *)
Definition mod_without_puts (i idx : nat) (clear set : Z) (s : drbd_resource) : drbd_resource :=
  match apply_rq_state (Some idx) clear set (req s i) with
  | Ret (r, _, l) => emit i l (upd i (fun _ => r) s)
  | _ => s
  end.

Definition oos_to_peer (e : req_env) (i : nat) (touched : bool) (s : drbd_resource) (idx : nat) : drbd_resource :=
  let r := req s i in
  if negb (flag (net r idx) __RQ_NET_PENDING_OOS) then s
  else if flag (local_rq_state r) __RQ_POSTPONED then emit i [LOGIC_BUG] s
  else if negb (pd_bitmap_index e idx =? -1) && touched && set_sync_modified e idx
  then mod_without_puts i idx 0 (RQ [__RQ_NET_READY]) s
  else mod_without_puts i idx (RQ [__RQ_NET_PENDING_OOS]) (RQ [__RQ_NET_READY]) s.

Definition not_net_done (e : req_env) (r : drbd_request) : bool :=
  existsb (fun idx => any (net r idx) RQ_NET_MASK && negb (flag (net r idx) __RQ_NET_DONE)) (peer_nodes e).

Definition drbd_req_done (e : req_env) (i : nat) (s : drbd_resource) : drbd_resource :=
  let r := req s i in
  let l := local_rq_state r in
  if not_net_done e r then emit i [LOGIC_BUG] s
  else if (master_bio r && negb (flag l __RQ_POSTPONED)) || negb (completion_ref r =? 0) || flag l __RQ_LOCAL_PENDING
  then emit i [LOGIC_BUG] s
  else
    let s := emit i (when (flag l __RQ_WRITE) [REMOVE_WRITE_INTERVAL]) s in
    let touched := touches_bitmap e r in
    let '(bits, mask) := sync_masks e r in
    let s := emit i (when touched [SET_SYNC bits mask]) s in
    let s := if flag l __RQ_WRITE then foldl (oos_to_peer e i touched) s (peer_nodes e) else s in
    emit i (when (flag l __RQ_IN_ACT_LOG && ldev_ok e) [AL_COMPLETE_IO]) s.

(** One round of [drbd_put_ref_tl_walk]: whether the request is done, and sent. *)
Definition put_refs (e : req_env) (i : nat) (done_put oos_send_put : Z) (s : drbd_resource)
  : bool * bool * drbd_resource :=
  let r := req s i in
  let done := negb (done_put =? 0) && (done_ref r - done_put =? 0) in
  let s := upd i (fun r => set_refs (completion_ref r) (done_ref r - done_put) (oos_send_ref r) r) s in
  let s := if done then drbd_req_done e i s else s in
  let oos_send_put := if done then oos_send_put + 1 else oos_send_put in
  let oos_sent := negb (oos_send_put =? 0) && (oos_send_ref (req s i) - oos_send_put =? 0) in
  (done, oos_sent,
   upd i (fun r => set_refs (completion_ref r) (done_ref r) (oos_send_ref r - oos_send_put) r) s).

(** The update of the transfer log after a round. *)
Definition leave_tl (i : nat) (done oos_sent : bool) (s : drbd_resource) : drbd_resource :=
  if oos_sent then
    let s := upd i (fun r => set_tl false (INTERVAL_DONE r) (next_write r) r) s in
    let s := mk_res (reqs s)
               (if decide (tl_previous_write s = Some i) then None else tl_previous_write s)
               (current_tle_nr s) (current_tle_writes s) (log s) in
    emit i [OOS_SENT] s
  else if done then upd i (fun r => set_tl (on_tl r) true (next_write r) r) s
  else s.

(** [drbd_put_ref_tl_walk]: a write comes after its predecessor in the list, so that
    the length of the list is enough fuel. *)
Fixpoint put_ref_tl_walk (fuel : nat) (e : req_env) (i : nat) (done_put oos_send_put : Z) (s : drbd_resource)
  : drbd_resource :=
  match fuel with
  | O => s
  | S fuel =>
      let '(done, oos_sent, s) := put_refs e i done_put oos_send_put s in
      if negb done && negb oos_sent then s
      else
        let next := next_write (req s i) in
        let s := leave_tl i done oos_sent s in
        match next with
        | None => s
        | Some j => put_ref_tl_walk fuel e j (Z.b2z done) (Z.b2z oos_sent) s
        end
  end.

Definition drbd_put_ref_tl_walk (e : req_env) (i : nat) (done_put oos_send_put : Z) (s : drbd_resource) : drbd_resource :=
  put_ref_tl_walk (length (reqs s)) e i done_put oos_send_put s.

(** The put that goes with the completion. *)
Definition put_base_done (e : req_env) (i : nat) (s : drbd_resource) : drbd_resource :=
  drbd_put_ref_tl_walk e i 1 0 (upd i (fun r => set_ghost (submitting r) false r) s).

Definition drbd_req_put_completion_ref (e : req_env) (i : nat) (put : Z) (s : drbd_resource) : drbd_resource :=
  if put =? 0 then s
  else
    let s := upd i (fun r => set_refs (completion_ref r - put) (done_ref r) (oos_send_ref r) r) s in
    if negb (completion_ref (req s i) =? 0) then s
    else
      let s := drbd_req_complete e i s in
      let l := local_rq_state (req s i) in
      if flag l __RQ_LOCAL_ABORTED then s
      else if flag l __RQ_POSTPONED then emit i [RESTART_REQUEST] s
      else put_base_done e i s.

Definition mod_rq_state (e : req_env) (i : nat) (idx : option nat) (clear set : Z) (s : drbd_resource)
  : outcome drbd_resource :=
  let! (r, puts, l) := apply_rq_state idx clear set (req s i) in
  let s := emit i l (upd i (fun _ => r) s) in
  let s := drbd_req_put_completion_ref e i (c_put puts) s in
  Ret (if (d_put puts =? 0) && (o_put puts =? 0) then s
       else drbd_put_ref_tl_walk e i (d_put puts) (o_put puts) s).

(** ** Events *)

Definition drbd_protocol_state_bits (p : drbd_wire_protocol) : list Z :=
  match p with
  | DRBD_PROT_C => [__RQ_EXP_WRITE_ACK]
  | DRBD_PROT_B => [__RQ_EXP_RECEIVE_ACK]
  | DRBD_PROT_A => []
  end.

Definition is_pending_write_protocol_A (r : drbd_request) (idx : nat) : bool :=
  flag (local_rq_state r) __RQ_WRITE &&
  (Z.land (net r idx) (RQ [__RQ_NET_PENDING; __RQ_EXP_WRITE_ACK; __RQ_EXP_RECEIVE_ACK]) =? RQ [__RQ_NET_PENDING]).

(** Not for this peer, or done. *)
Definition not_for_peer (r : drbd_request) (idx : nat) : bool :=
  negb (any (net r idx) RQ_NET_MASK) || flag (net r idx) __RQ_NET_DONE.

Definition barrier_acked (e : req_env) (i idx : nat) (s : drbd_resource) : outcome drbd_resource :=
  if negb (flag (local_rq_state (req s i)) __RQ_WRITE) then Ret s
  else
    let! s := (if flag (net (req s i) idx) __RQ_NET_PENDING
               then mod_rq_state e i (Some idx) (RQ [__RQ_NET_PENDING]) (RQ [__RQ_NET_OK]) s else Ret s) in
    if any (net (req s i) idx) RQ_NET_MASK then mod_rq_state e i (Some idx) 0 (RQ [__RQ_NET_DONE]) s else Ret s.

(** The events of the local disk, with [peer_device == NULL]. *)
Definition req_mod_local (e : req_env) (i : nat) (what : drbd_req_event) (s : drbd_resource) : outcome drbd_resource :=
  let mod_ c st s := mod_rq_state e i None (RQ c) (RQ st) s in
  match what with
  | TO_BE_SUBMITTED => mod_ [] [__RQ_LOCAL_PENDING] s
  | COMPLETED_OK => mod_ [__RQ_LOCAL_PENDING] [__RQ_LOCAL_COMPLETED; __RQ_LOCAL_OK] s
  | ABORT_DISK_IO => mod_ [] [__RQ_LOCAL_ABORTED] s
  | READ_COMPLETED_WITH_ERROR => mod_ [__RQ_LOCAL_PENDING] [__RQ_LOCAL_COMPLETED] (emit i [SET_ALL_OUT_OF_SYNC] s)
  | WRITE_COMPLETED_WITH_ERROR | READ_AHEAD_COMPLETED_WITH_ERROR | DISCARD_COMPLETED_NOTSUPP
  | DISCARD_COMPLETED_WITH_ERROR => mod_ [__RQ_LOCAL_PENDING] [__RQ_LOCAL_COMPLETED] s
  | COMPLETION_RESUMED => mod_ [__RQ_COMPLETION_SUSP] [] s
  | _ => Ret s
  end.

(** The events of a peer. *)
Definition req_mod_net (e : req_env) (i idx : nat) (what : drbd_req_event) (s : drbd_resource) : outcome drbd_resource :=
  let r := req s i in
  let n := net r idx in
  let mod_ c st s := mod_rq_state e i (Some idx) (RQ c) (RQ st) s in
  match what with
  | NEW_NET_READ => mod_ [] [__RQ_NET_PENDING; __RQ_NET_QUEUED] (emit i [INSERT_READ_INTERVAL] s)
  | NEW_NET_WRITE =>
      let! s := mod_ [] ([__RQ_NET_PENDING; __RQ_NET_QUEUED; __RQ_EXP_BARR_ACK] ++
                         drbd_protocol_state_bits (e_wire_protocol e idx)) s in
      let p := if (min_protocol_version e <? 114) &&
                  any (local_rq_state (req s i)) (RQ [__RQ_UNMAP; __RQ_WSAME; __RQ_ZEROES])
               then 1 else max_epoch_size e in
      Ret (if p <=? current_tle_writes s then start_new_tl_epoch s else s)
  | NEW_NET_OOS => mod_ [] [__RQ_NET_PENDING_OOS; __RQ_NET_QUEUED; __RQ_NET_DONE] s
  | READY_FOR_NET => mod_ [] [__RQ_NET_READY] s
  | SKIP_OOS => mod_ [__RQ_NET_PENDING_OOS] [__RQ_NET_READY] s
  | OOS_HANDED_TO_NETWORK | SEND_CANCELED | SEND_FAILED => mod_ [__RQ_NET_PENDING_OOS; __RQ_NET_QUEUED] [] s
  | HANDED_OVER_TO_NETWORK =>
      if is_pending_write_protocol_A r idx
      then mod_ [__RQ_NET_QUEUED; __RQ_NET_PENDING] [__RQ_NET_SENT; __RQ_NET_OK] s
      else mod_ [__RQ_NET_QUEUED] [__RQ_NET_SENT] s
  | CONNECTION_LOST =>
      if not_for_peer r idx then Ret s else mod_ [__RQ_NET_PENDING; __RQ_NET_OK] [__RQ_NET_DONE] s
  | CONNECTION_LOST_WHILE_SUSPENDED =>
      if not_for_peer r idx then Ret s
      else if negb (any n (RQ [__RQ_EXP_RECEIVE_ACK; __RQ_EXP_WRITE_ACK]))
      then mod_ [__RQ_NET_PENDING; __RQ_NET_OK] [__RQ_NET_DONE] s
      else if flag n __RQ_NET_PENDING then mod_ [] [__RQ_COMPLETION_SUSP] s
      else Ret s
  | WRITE_ACKED_BY_PEER_AND_SIS =>
      let s := upd i (fun r => set_rq_state (local_rq_state r)
                                 (alter (fun n => Z.setbit n __RQ_NET_SIS) idx (net_rq_state r)) r) s in
      mod_ [__RQ_NET_PENDING] [__RQ_NET_OK] s
  | WRITE_ACKED_BY_PEER | RECV_ACKED_BY_PEER => mod_ [__RQ_NET_PENDING] [__RQ_NET_OK] s
  | NEG_ACKED => mod_ [__RQ_NET_OK; __RQ_NET_PENDING] (if flag (local_rq_state r) __RQ_WRITE then [] else [__RQ_NET_DONE]) s
  | COMPLETION_RESUMED => mod_ [__RQ_COMPLETION_SUSP] [] s
  | CANCEL_SUSPENDED_IO =>
      if not_for_peer r idx then Ret s else mod_ [__RQ_NET_PENDING; __RQ_NET_OK] [__RQ_NET_DONE] s
  | RESEND =>
      if flag n __RQ_NET_OK then barrier_acked e i idx s
      else if negb (flag n __RQ_NET_PENDING) then Ret s
      else mod_ [__RQ_NET_SENT] [__RQ_NET_QUEUED] s
  | BARRIER_ACKED => barrier_acked e i idx s
  | DATA_RECEIVED => mod_ [__RQ_NET_PENDING] [__RQ_NET_OK; __RQ_NET_DONE] s
  | BARRIER_SENT => mod_ [] [__RQ_NET_OK; __RQ_NET_DONE] s
  | _ => Ret s
  end.

(** [NOTHING] is the only event without a case of its own: the message of the default.  No event of
    the local disk comes with a peer device and none of a peer without. *)
Definition __req_mod (e : req_env) (i : nat) (idx : option nat) (what : drbd_req_event) (s : drbd_resource)
  : outcome drbd_resource :=
  match what with
  | NOTHING => Ret (emit i [LOGIC_BUG] s)
  | _ => match idx with None => req_mod_local e i what s | Some idx => req_mod_net e i idx what s end
  end.

(** ** Submission *)

(** What a bio asks for, and what [drbd_send_and_submit] finds out about devices and
    peers before it acts. *)
Record submission := mk_sub {
  b_write : bool;
  b_op_read : bool;
  b_rahead : bool;
  b_zeroes : bool;
  b_unmap : bool;
  b_size : Z;
  b_private_bio : bool;                    (* there is a clone for the local disk *)
  b_in_act_log : bool;
  b_suspended : bool;                      (* drbd_suspended() *)
  b_may_do_writes : bool;
  b_read_peer : option nat;                (* find_peer_device_for_read() *)
  b_remote : nat -> bool;                  (* drbd_should_do_remote() *)
  b_send_oos : nat -> bool;                (* drbd_should_send_out_of_sync() *)
  b_peer_up_to_date : nat -> bool }.

(** [drbd_req_new]; [slots] is the size of the array of peers. *)
Definition drbd_req_new (slots : nat) (b : submission) : drbd_request :=
  mk_req (RQ (when (b_write b) [__RQ_WRITE] ++ when (b_zeroes b) [__RQ_ZEROES] ++ when (b_unmap b) [__RQ_UNMAP] ++
              when (b_in_act_log b) [__RQ_IN_ACT_LOG]))
    (replicate slots 0) 1 1 1 true (b_size b) 0 (b_op_read b) (b_rahead b) false None false true true.

(** A loop with events over the peer devices. *)
Fixpoint for_each_peer_device (l : list nat) (f : nat -> drbd_resource -> outcome drbd_resource) (s : drbd_resource)
  : outcome drbd_resource :=
  match l with
  | [] => Ret s
  | idx :: l => let! s := f idx s in for_each_peer_device l f s
  end.

Definition drbd_process_empty_flush (e : req_env) (b : submission) (i : nat) (s : drbd_resource) : outcome drbd_resource :=
  for_each_peer_device (peer_nodes e)
    (fun idx s => if b_peer_up_to_date b idx then req_mod_net e i idx BARRIER_SENT s else Ret s) s.

Definition drbd_process_write_request (e : req_env) (b : submission) (i : nat) (s : drbd_resource) : outcome drbd_resource :=
  for_each_peer_device (peer_nodes e)
    (fun idx s => if b_remote b idx then req_mod_net e i idx NEW_NET_WRITE s
                  else if b_send_oos b idx then req_mod_net e i idx NEW_NET_OOS s else Ret s) s.

Definition drbd_request_ready_for_net (e : req_env) (i : nat) (s : drbd_resource) : outcome drbd_resource :=
  for_each_peer_device (peer_nodes e)
    (fun idx s => if flag (net (req s i) idx) __RQ_NET_PENDING then req_mod_net e i idx READY_FOR_NET s else Ret s) s.

(** The link from the previous write of the transfer log. *)
Definition link_previous_write (i : nat) (s : drbd_resource) : drbd_resource :=
  let prev := tl_previous_write s in
  let s := mk_res (reqs s) (Some i) (current_tle_nr s) (current_tle_writes s) (log s) in
  match prev with
  | None => s
  | Some j =>
      let d := Z.b2z (negb (INTERVAL_DONE (req s j))) in
      let s := upd i (fun r => set_refs (completion_ref r) (done_ref r + d) (oos_send_ref r + 1) r) s in
      upd j (fun r => set_tl (on_tl r) (INTERVAL_DONE r) (Some i) r) s
  end.

Definition set_epoch (ep : Z) (r : drbd_request) : drbd_request :=
  mk_req (local_rq_state r) (net_rq_state r) (completion_ref r) (done_ref r) (oos_send_ref r) (master_bio r) (r_size r) ep
    (r_op_read r) (r_rahead r) (on_tl r) (next_write r) (INTERVAL_DONE r) (submitting r) (base_done r).

(** The part under [tl_update_lock]. *)
Definition add_to_tl (e : req_env) (b : submission) (i : nat) (s : drbd_resource) : outcome drbd_resource :=
  let s := upd i (set_epoch (current_tle_nr s)) s in
  let s := mk_res (reqs s) (tl_previous_write s) (current_tle_nr s)
             (if b_write b && negb (b_size b =? 0) then current_tle_writes s + 1 else current_tle_writes s) (log s) in
  if b_size b =? 0 then drbd_process_empty_flush e b i s
  else
    let! s := (if b_write b then drbd_process_write_request e b i (link_previous_write i s)
               else match b_read_peer b with Some idx => req_mod_net e i idx NEW_NET_READ s | None => Ret s end) in
    let s := upd i (fun r => set_tl true (INTERVAL_DONE r) (next_write r) r) s in
    drbd_request_ready_for_net e i s.

(** The put at the label [out]. *)
Definition put_submission (e : req_env) (i : nat) (s : drbd_resource) : drbd_resource :=
  drbd_req_put_completion_ref e i 1 (upd i (fun r => set_ghost false (base_done r) r) s).

Definition drbd_send_and_submit (e : req_env) (slots : nat) (b : submission) (s : drbd_resource) : outcome drbd_resource :=
  let i := length (reqs s) in
  let s := mk_res (reqs s ++ [drbd_req_new slots b]) (tl_previous_write s) (current_tle_nr s) (current_tle_writes s) (log s) in
  if b_suspended b
  then Ret (put_submission e i (upd i (fun r => set_rq_state (Z.setbit (local_rq_state r) __RQ_POSTPONED) (net_rq_state r) r) s))
  else if (if b_write b then negb (b_may_do_writes b)
           else match b_read_peer b with None => negb (b_private_bio b) | Some _ => false end)
  then Ret (put_submission e i s)
  else
    let! s := add_to_tl e b i s in
    let! s := (if b_private_bio b then req_mod_local e i TO_BE_SUBMITTED s else Ret s) in
    Ret (put_submission e i s).

(** [do_retry] for one request: the reference that goes with the completion; the bio
    is then submitted again as a new request. *)
Definition do_retry (e : req_env) (i : nat) (s : drbd_resource) : drbd_resource := put_base_done e i s.
