(* ===== verification/ReqOrder.v ===== *)
(** * The order of the writes in the transfer log

    What the operations of [Req] do to the links between writes, to the last write and to the
    reports of [drbd_req_oos_sent]: only the submission of a write links, and the last write is
    forgotten only when it has left the transfer log.  No counter is looked at here. *)
From S2P Require Import Prelude Headers Req.

(** ** Nothing happens to the order *)

Record tl_quiet (s s' : drbd_resource) : Prop := {
  tq_prev : tl_previous_write s' = tl_previous_write s;
  tq_log x : x ∈ log s -> x ∈ log s';
  tq_sent k : (k, OOS_SENT) ∈ log s' -> (k, OOS_SENT) ∈ log s;
  tq_next : next_write <$> reqs s' = next_write <$> reqs s }.

#[export] Instance tl_quiet_preorder : PreOrder tl_quiet.
Proof.
  split; [by intros s; split|]. intros a b c [P1 L1 S1 N1] [P2 L2 S2 N2]. split; [congruence|auto|auto|congruence].
Qed.

Lemma alter_next f i (l : list drbd_request) : (forall r, next_write (f r) = next_write r) -> next_write <$> alter f i l = next_write <$> l.
Proof.
  intros Hf. apply list_eq. intros k. rewrite !list_lookup_fmap. destruct (decide (k = i)) as [-> |Hne].
  - rewrite list_lookup_alter_eq. destruct (l !! i); cbn; [by rewrite Hf|done].
  - by rewrite list_lookup_alter_ne.
Qed.

Lemma upd_quiet i f s : (forall r, next_write (f r) = next_write r) -> tl_quiet s (upd i f s).
Proof. intros Hf. split; [done..|by apply alter_next]. Qed.

Lemma emit_quiet i l s : OOS_SENT ∉ l -> tl_quiet s (emit i l s).
Proof.
  intros Hl. split; [done| | |done].
  - intros x Hx. cbn. apply elem_of_app. by left.
  - intros k. cbn. rewrite elem_of_app. intros [?|(ef & [= _ <-] & ?)%list_elem_of_fmap]; done.
Qed.

Lemma tle_quiet s nr writes : tl_quiet s (mk_res (reqs s) (tl_previous_write s) nr writes (log s)).
Proof. by split. Qed.

Lemma epoch_quiet s : tl_quiet s (start_new_tl_epoch s).
Proof. unfold start_new_tl_epoch. case_if; [done|apply tle_quiet]. Qed.

(** The effects of a change of flags. *)
Lemma apply_order idx clear set r r' p l : apply_rq_state idx clear set r = Ret (r', p, l) -> OOS_SENT ∉ l /\ next_write r' = next_write r.
Proof.
  intros Ha. unfold apply_rq_state in Ha. do 2 (case_if_in Ha; [done|]). case_if_in Ha; injection Ha as <- _ <-; [by split; [apply not_elem_of_nil|]|].
  split; [|done]. unfold when. rewrite !not_elem_of_app. repeat split; case_if; set_solver.
Qed.

(** Request [i] becomes [r'], and effects are recorded. *)
Lemma set_quiet i idx clear set r' p l s : apply_rq_state idx clear set (req s i) = Ret (r', p, l) -> tl_quiet s (emit i l (upd i (fun _ => r') s)).
Proof.
  intros [Hl Hn]%apply_order. etransitivity; [|by apply emit_quiet]. split; [done..|]. cbn. apply list_eq. intros k. rewrite !list_lookup_fmap.
  destruct (decide (k = i)) as [-> |Hne]; [|by rewrite list_lookup_alter_ne]. rewrite list_lookup_alter_eq.
  unfold req in Hn. destruct (reqs s !! i); cbn in *; [by rewrite Hn|done].
Qed.

Lemma foldl_quiet {A} (f : drbd_resource -> A -> drbd_resource) l s : (forall s x, tl_quiet s (f s x)) -> tl_quiet s (foldl f s l).
Proof. intros Hf. revert s. induction l as [|x l IH]; intros s; [done|]. cbn. etransitivity; [apply Hf|apply IH]. Qed.

Lemma oos_to_peer_quiet_order e i touched s idx : tl_quiet s (oos_to_peer e i touched s idx).
Proof.
  unfold oos_to_peer, mod_without_puts. case_if; [done|]. case_if; [apply emit_quiet; set_solver|].
  case_if; destruct (apply_rq_state _ _ _ _) as [[[r' p] l]| |] eqn:Ea; try done; by eapply set_quiet.
Qed.

Lemma req_done_quiet e i s : tl_quiet s (drbd_req_done e i s).
Proof.
  unfold drbd_req_done. case_if; [apply emit_quiet; set_solver|]. case_if; [apply emit_quiet; set_solver|].
  destruct (sync_masks e (req s i)) as [bits mask]. unfold when.
  etransitivity; [|apply emit_quiet; case_if; set_solver].
  set (s1 := emit i _ s). assert (tl_quiet s s1) as Q1 by (apply emit_quiet; case_if; set_solver).
  set (s2 := emit i _ s1). assert (tl_quiet s1 s2) as Q2 by (apply emit_quiet; case_if; set_solver).
  etransitivity; [exact Q1|]. etransitivity; [exact Q2|]. case_if; [|done]. apply foldl_quiet. intros. apply oos_to_peer_quiet_order.
Qed.

Lemma postpone_next e r : next_write (postpone e r) = next_write r.
Proof. unfold postpone. by repeat case_if. Qed.

Lemma req_complete_quiet e i s : tl_quiet s (drbd_req_complete e i s).
Proof.
  unfold drbd_req_complete. do 3 (case_if; [apply emit_quiet; set_solver|]).
  set (s1 := if _ && _ then start_new_tl_epoch s else s). assert (tl_quiet s s1) as Q1 by (unfold s1; case_if; [apply epoch_quiet|done]).
  etransitivity; [exact Q1|]. clearbody s1. etransitivity; [apply (upd_quiet i (postpone e)); apply postpone_next|].
  set (s2 := upd i (postpone e) s1). etransitivity; [|apply emit_quiet; set_solver].
  match goal with |- context [if flag (local_rq_state (req s2 i)) __RQ_POSTPONED then s2 else ?y] => set (s3 := if flag (local_rq_state (req s2 i)) __RQ_POSTPONED then s2 else y) end.
  assert (tl_quiet s2 s3) as Q3.
  { unfold s3. case_if; [done|]. etransitivity; [apply (upd_quiet i (set_master_bio false)); done|]. apply emit_quiet. unfold when. case_if; set_solver. }
  clearbody s3. etransitivity; [exact Q3|]. case_if; [done|apply emit_quiet; set_solver].
Qed.

Lemma put_refs_quiet e i pd po s d o s' : put_refs e i pd po s = (d, o, s') -> tl_quiet s s'.
Proof.
  unfold put_refs. intros [= _ _ <-]. match goal with |- tl_quiet s (upd i _ (if ?c then drbd_req_done e i ?x else _)) => set (s1 := x); set (b := c) end.
  assert (tl_quiet s s1) as Q1 by (by apply upd_quiet). etransitivity; [exact Q1|]. clearbody s1 b.
  etransitivity; [|by apply upd_quiet]. case_if; [apply req_done_quiet|done].
Qed.

(** ** A write leaves the transfer log *)

Record tl_kept (s s' : drbd_resource) : Prop := {
  tk_prev : tl_previous_write s' = tl_previous_write s \/
    exists j, tl_previous_write s = Some j /\ tl_previous_write s' = None /\ (j, OOS_SENT) ∈ log s';
  tk_log x : x ∈ log s -> x ∈ log s';
  tk_next : next_write <$> reqs s' = next_write <$> reqs s }.

#[export] Instance tl_kept_preorder : PreOrder tl_kept.
Proof.
  split; [intros s; split; [by left|done|done]|]. intros a b c [P1 L1 N1] [P2 L2 N2]. split; [|auto|congruence].
  destruct P1 as [P1|(j & E1 & E2 & E3)]; [rewrite <- P1; auto|]. right. exists j. destruct P2 as [P2|(k & F1 & _)]; [|congruence].
  split_and!; [done|congruence|auto].
Qed.

Lemma quiet_kept s s' : tl_quiet s s' -> tl_kept s s'.
Proof. intros [P L _ N]. split; [by left|done|done]. Qed.

Lemma leave_tl_kept i done sent s : tl_kept s (leave_tl i done sent s).
Proof.
  unfold leave_tl. destruct sent; [|destruct done; [by apply quiet_kept, upd_quiet|reflexivity]]. split; cbn.
  - case_decide as E; [|by left]. right. exists i. rewrite elem_of_app. split_and!; [done|done|right; by apply list_elem_of_singleton].
  - intros x Hx. apply elem_of_app. by left.
  - by apply alter_next.
Qed.

Lemma walk_kept fuel e i pd po s : tl_kept s (put_ref_tl_walk fuel e i pd po s).
Proof.
  revert i pd po s. induction fuel as [|fuel IH]; intros i pd po s; [reflexivity|]. cbn [put_ref_tl_walk].
  destruct (put_refs e i pd po s) as [[d o] s1] eqn:Ep. apply put_refs_quiet, quiet_kept in Ep. etransitivity; [exact Ep|].
  case_if; [reflexivity|]. etransitivity; [apply leave_tl_kept|]. case_match; [apply IH|reflexivity].
Qed.

Lemma put_base_done_kept e i s : tl_kept s (put_base_done e i s).
Proof. unfold put_base_done. etransitivity; [|apply walk_kept]. by apply quiet_kept, upd_quiet. Qed.

Lemma put_completion_kept e i put s : tl_kept s (drbd_req_put_completion_ref e i put s).
Proof.
  unfold drbd_req_put_completion_ref. case_if; [reflexivity|]. set (s1 := upd i _ s).
  assert (tl_kept s s1) as Q1 by (by apply quiet_kept, upd_quiet). clearbody s1. etransitivity; [exact Q1|]. case_if; [reflexivity|].
  etransitivity; [apply quiet_kept, (req_complete_quiet e i)|]. case_if; [reflexivity|]. case_if; [apply quiet_kept, emit_quiet; set_solver|apply put_base_done_kept].
Qed.

Lemma mod_kept e i idx clear set s s' : mod_rq_state e i idx clear set s = Ret s' -> tl_kept s s'.
Proof.
  unfold mod_rq_state. destruct (apply_rq_state idx clear set (req s i)) as [[[r p] l]| |] eqn:Ea; try done. cbn [obind]. intros [= <-].
  apply set_quiet, quiet_kept in Ea. etransitivity; [exact Ea|]. etransitivity; [apply (put_completion_kept e i (c_put p))|].
  case_if; [reflexivity|apply walk_kept].
Qed.

Lemma barrier_acked_kept e i idx s s' : barrier_acked e i idx s = Ret s' -> tl_kept s s'.
Proof.
  unfold barrier_acked. case_if; [by intros [= <-]|].
  destruct (if flag (net (req s i) idx) __RQ_NET_PENDING then _ else _) as [s1| |] eqn:E1; try done. cbn [obind].
  assert (tl_kept s s1) as Q1 by (case_if_in E1; [by eapply mod_kept|by injection E1 as <-]).
  intros E2. etransitivity; [exact Q1|]. case_if_in E2; [by eapply mod_kept|by injection E2 as <-].
Qed.

Lemma req_mod_local_kept e i what s s' : req_mod_local e i what s = Ret s' -> tl_kept s s'.
Proof.
  destruct what; cbn [req_mod_local]; try (by intros [= <-]); try (by intros; eapply mod_kept).
  intros E. etransitivity; [|by eapply mod_kept]. apply quiet_kept, emit_quiet. set_solver.
Qed.

Lemma req_mod_net_kept e i idx what s s' : req_mod_net e i idx what s = Ret s' -> tl_kept s s'.
Proof.
  unfold req_mod_net. destruct what; repeat case_if; try (by intros [= <-]); try (by intros; eapply mod_kept); try (by intros; eapply barrier_acked_kept).
  - intros E. etransitivity; [|by eapply mod_kept]. apply quiet_kept, emit_quiet. set_solver.
  - destruct (mod_rq_state _ _ _ _ _ _) as [s1| |] eqn:E1; try done. cbn [obind]. intros [= <-]. apply mod_kept in E1.
    etransitivity; [exact E1|]. case_if; [apply quiet_kept, epoch_quiet|reflexivity].
  - intros E. etransitivity; [|by eapply mod_kept]. by apply quiet_kept, upd_quiet.
Qed.

Lemma req_mod_kept e i idx what s s' : __req_mod e i idx what s = Ret s' -> tl_kept s s'.
Proof.
  unfold __req_mod. destruct idx as [idx|], what; try (by apply req_mod_local_kept); try (by apply req_mod_net_kept).
  all: intros [= <-]; apply quiet_kept, emit_quiet; set_solver.
Qed.

Lemma for_each_kept l f s s' : (forall idx s s', f idx s = Ret s' -> tl_kept s s') -> for_each_peer_device l f s = Ret s' -> tl_kept s s'.
Proof.
  intros Hf. revert s. induction l as [|idx l IH]; intros s; cbn; [by intros [= <-]|]. destruct (f idx s) as [s1| |] eqn:E; try done. cbn [obind].
  intros Hr. etransitivity; [by eapply Hf|by apply IH].
Qed.

Lemma process_flush_kept e b i s s' : drbd_process_empty_flush e b i s = Ret s' -> tl_kept s s'.
Proof. apply for_each_kept. intros idx t t'. case_if; [apply req_mod_net_kept|by intros [= <-]]. Qed.

Lemma process_write_kept e b i s s' : drbd_process_write_request e b i s = Ret s' -> tl_kept s s'.
Proof. apply for_each_kept. intros idx t t'. repeat case_if; [apply req_mod_net_kept|apply req_mod_net_kept|by intros [= <-]]. Qed.

Lemma ready_for_net_kept e i s s' : drbd_request_ready_for_net e i s = Ret s' -> tl_kept s s'.
Proof. apply for_each_kept. intros idx t t'. case_if; [apply req_mod_net_kept|by intros [= <-]]. Qed.

(** ** Submission *)

(** The writes that go into the transfer log: with data, not postponed, and some disk takes them. *)
Definition enters_tl (b : submission) : bool := negb (b_suspended b) && b_write b && b_may_do_writes b && negb (b_size b =? 0).

Lemma put_submission_kept e i s : tl_kept s (put_submission e i s).
Proof. unfold put_submission. etransitivity; [|apply put_completion_kept]. by apply quiet_kept, upd_quiet. Qed.

Lemma after_link e b i (s1 s' : drbd_resource) :
  (let! s2 := drbd_process_write_request e b i s1 in
   drbd_request_ready_for_net e i (upd i (fun r => set_tl true (INTERVAL_DONE r) (next_write r) r) s2)) = Ret s' -> tl_kept s1 s'.
Proof.
  destruct (drbd_process_write_request e b i s1) as [s2| |] eqn:E; try done. cbn [obind]. intros Hr.
  apply process_write_kept in E. apply ready_for_net_kept in Hr. etransitivity; [exact E|]. etransitivity; [|exact Hr]. by apply quiet_kept, upd_quiet.
Qed.

(** The state in which a new write is linked. *)
Definition before_link (slots : nat) (b : submission) (s : drbd_resource) : drbd_resource :=
  let i := length (reqs s) in
  let s0 := mk_res (reqs s ++ [drbd_req_new slots b]) (tl_previous_write s) (current_tle_nr s) (current_tle_writes s) (log s) in
  let s1 := upd i (set_epoch (current_tle_nr s0)) s0 in
  mk_res (reqs s1) (tl_previous_write s1) (current_tle_nr s1) (if b_write b && negb (b_size b =? 0) then current_tle_writes s1 + 1 else current_tle_writes s1) (log s1).

Definition new_request (slots : nat) (b : submission) (s : drbd_resource) : drbd_resource :=
  mk_res (reqs s ++ [drbd_req_new slots b]) (tl_previous_write s) (current_tle_nr s) (current_tle_writes s) (log s).

Lemma before_link_quiet slots b s : tl_quiet (new_request slots b s) (before_link slots b s).
Proof. unfold before_link. cbv zeta. fold (new_request slots b s). etransitivity; [|apply tle_quiet]. by apply upd_quiet. Qed.

(** A write that goes into the transfer log is linked once, any other submission leaves the order
    alone. *)
Lemma submit_order e slots b s s' : drbd_send_and_submit e slots b s = Ret s' ->
  if enters_tl b then tl_kept (link_previous_write (length (reqs s)) (before_link slots b s)) s' else tl_kept (new_request slots b s) s'.
Proof.
  unfold drbd_send_and_submit, enters_tl. cbv zeta. fold (new_request slots b s). set (i := length (reqs s)).
  destruct (b_suspended b); cbn [negb andb]; [intros [= <-]; etransitivity; [|apply put_submission_kept]; by apply quiet_kept, upd_quiet|].
  assert (forall s1 s', (let! s2 := (if b_private_bio b then req_mod_local e i TO_BE_SUBMITTED s1 else Ret s1) in Ret (put_submission e i s2)) = Ret s' -> tl_kept s1 s') as Hend.
  { intros s1 t. destruct (if b_private_bio b then _ else _) as [s2| |] eqn:E2; try done. cbn [obind]. intros [= <-].
    etransitivity; [|apply put_submission_kept]. case_if_in E2; [by eapply req_mod_local_kept|by injection E2 as <-]. }
  assert (forall s1, add_to_tl e b i (new_request slots b s) = Ret s1 ->
    if b_write b && negb (b_size b =? 0) then tl_kept (link_previous_write i (before_link slots b s)) s1 else tl_kept (new_request slots b s) s1) as Hadd.
  { intros s1. unfold add_to_tl. cbv zeta. fold (before_link slots b s). pose proof (quiet_kept _ _ (before_link_quiet slots b s)) as Hb.
    change (mk_res _ _ _ _ _) with (before_link slots b s). destruct (b_size b =? 0); rewrite ?andb_false_r, ?andb_true_r; cbn [negb].
    - intros E. etransitivity; [exact Hb|]. by eapply process_flush_kept.
    - destruct (b_write b); [apply after_link|].
      destruct (match b_read_peer b with Some idx => _ | None => _ end) as [s2| |] eqn:E2; try done. cbn [obind]. intros Hr.
      etransitivity; [exact Hb|]. apply ready_for_net_kept in Hr. etransitivity; [|exact Hr]. etransitivity; [|by apply quiet_kept, upd_quiet].
      destruct (b_read_peer b); [by eapply req_mod_net_kept|by injection E2 as <-]. }
  destruct (b_write b) eqn:Ew; cbn [andb] in *.
  - destruct (b_may_do_writes b); cbn [negb andb]; [|intros [= <-]; apply put_submission_kept].
    destruct (add_to_tl e b i _) as [s1| |]; try done. cbn [obind]. specialize (Hadd _ eq_refl). intros Hr%Hend.
    case_if; by etransitivity.
  - case_match; cbn [negb]; try (intros [= <-]; apply put_submission_kept);
      (case_if; [intros [= <-]; apply put_submission_kept|] || idtac);
      destruct (add_to_tl e b i _) as [s1| |]; try done; cbn [obind]; specialize (Hadd _ eq_refl); intros Hr%Hend; by etransitivity.
Qed.
