(* ===== verification/ReqProps.v ===== *)
(** * Reference counting of requests

    Proofs about [Req]: every counter is the number of the things it stands for, in
    every state that the events can reach. *)
From S2P Require Import Prelude Headers Req ReqOrder.

(** ** Contributions to the counters *)

Definition nc (n : Z) : Z := Z.b2z (flag n __RQ_NET_PENDING) + Z.b2z (drbd_sender_needs_master_bio n).
Definition bc (n : Z) : Z := Z.b2z (flag n __RQ_EXP_BARR_ACK && negb (flag n __RQ_NET_DONE)).
Definition qc (n : Z) : Z := Z.b2z (flag n __RQ_NET_QUEUED).
Definition lc (l : Z) : Z :=
  Z.b2z (flag l __RQ_LOCAL_PENDING && negb (flag l __RQ_LOCAL_ABORTED)) + Z.b2z (flag l __RQ_COMPLETION_SUSP).
Definition sumz (f : Z -> Z) (l : list Z) : Z := foldr (fun n a => f n + a) 0 l.

(** What [completion_ref] counts, what [done_ref] counts apart from the previous
    write, and the same for [oos_send_ref]. *)
Definition pending_actions (r : drbd_request) : Z :=
  Z.b2z (submitting r) + lc (local_rq_state r) + sumz nc (net_rq_state r).
Definition undone (r : drbd_request) : Z := Z.b2z (base_done r) + sumz bc (net_rq_state r).
Definition queued (r : drbd_request) : Z := sumz qc (net_rq_state r).

Lemma b2z_range b : 0 <= Z.b2z b <= 1.
Proof. by destruct b. Qed.

Lemma nc_nonneg n : 0 <= nc n.
Proof. unfold nc. pose proof (b2z_range (flag n __RQ_NET_PENDING)). pose proof (b2z_range (drbd_sender_needs_master_bio n)). lia. Qed.
Lemma bc_nonneg n : 0 <= bc n.
Proof. apply b2z_range. Qed.
Lemma qc_nonneg n : 0 <= qc n.
Proof. apply b2z_range. Qed.
Lemma lc_nonneg l : 0 <= lc l.
Proof. unfold lc. pose proof (b2z_range (flag l __RQ_LOCAL_PENDING && negb (flag l __RQ_LOCAL_ABORTED))).
  pose proof (b2z_range (flag l __RQ_COMPLETION_SUSP)). lia. Qed.

Lemma sumz_nonneg f l : (forall n, 0 <= f n) -> 0 <= sumz f l.
Proof. intros Hf. induction l as [|n l IH]; [done|]. cbn. fold (sumz f l). specialize (Hf n). lia. Qed.

Lemma sumz_insert f l k n m : l !! k = Some n -> sumz f (<[k := m]> l) = sumz f l - f n + f m.
Proof.
  revert k. induction l as [|x l IH]; intros [|k] Hk; [done..| |].
  - injection Hk as ->. change (f m + sumz f l = f n + sumz f l - f n + f m). lia.
  - change (f x + sumz f (<[k := m]> l) = f x + sumz f l - f n + f m). rewrite (IH _ Hk). lia.
Qed.

Lemma sumz_zero f l : (forall n, 0 <= f n) -> sumz f l = 0 -> Forall (fun n => f n = 0) l.
Proof.
  intros Hf. induction l as [|n l IH]; [constructor|]. cbn. fold (sumz f l). intros Hs. pose proof (Hf n). pose proof (sumz_nonneg f l Hf).
  constructor; [lia|apply IH; lia].
Qed.

Lemma pending_nonneg r : 0 <= pending_actions r.
Proof.
  unfold pending_actions. pose proof (b2z_range (submitting r)). pose proof (lc_nonneg (local_rq_state r)).
  pose proof (sumz_nonneg nc (net_rq_state r) nc_nonneg). lia.
Qed.
Lemma undone_nonneg r : 0 <= undone r.
Proof. unfold undone. pose proof (b2z_range (base_done r)). pose proof (sumz_nonneg bc (net_rq_state r) bc_nonneg). lia. Qed.
Lemma queued_nonneg r : 0 <= queued r.
Proof. apply sumz_nonneg, qc_nonneg. Qed.

(** ** Bits of masks *)

Lemma flag_set old clear set k : 0 <= k ->
  flag (Z.lor (Z.ldiff old clear) set) k = flag set k || (flag old k && negb (flag clear k)).
Proof. intros. unfold flag. rewrite Z.lor_spec, Z.ldiff_spec. apply orb_comm. Qed.

Lemma flag_RQ l k : 0 <= k -> Forall (fun x => 0 <= x) l -> flag (RQ l) k = bool_decide (k ∈ l).
Proof.
  intros Hk. induction 1 as [|x l Hx _ IH].
  - unfold flag. cbn [RQ foldr]. rewrite Z.testbit_0_l. symmetry. apply bool_decide_eq_false. apply not_elem_of_nil.
  - unfold flag in *. change (RQ (x :: l)) with (Z.lor (Z.shiftl 1 x) (RQ l)). rewrite Z.lor_spec, IH, Z.shiftl_1_l, Z.pow2_bits_eqb by done.
    destruct (Z.eqb_spec x k) as [-> |Hne]; cbn.
    + symmetry. apply bool_decide_eq_true. by left.
    + apply bool_decide_ext. rewrite elem_of_cons. naive_solver.
Qed.

Lemma flag_RQ1 j k : 0 <= k -> 0 <= j -> k <> j -> flag (RQ [j]) k = false.
Proof. intros Hk Hj Hne. rewrite flag_RQ by auto. apply bool_decide_eq_false. set_solver. Qed.

Lemma any_flag n m k : 0 <= k -> flag n k = true -> flag m k = true -> any n m = true.
Proof.
  intros Hk Hn Hm. unfold any. apply negb_true_iff, Z.eqb_neq. intros H0.
  assert (flag (Z.land n m) k = true) as Hf by (unfold flag; rewrite Z.land_spec; by apply andb_true_iff).
  by rewrite H0, Z.testbit_0_l in Hf.
Qed.

(** Conditions under which a change of flags keeps the counters right. *)
Record change_ok (idx : option nat) (clear set : Z) (r : drbd_request) : Prop := {
  co_disjoint k : 0 <= k -> flag set k = true -> flag clear k = false;
  co_slot : match idx with None => True | Some id => (id < length (net_rq_state r))%nat end;
  co_abort : flag set __RQ_LOCAL_ABORTED = true -> flag (local_rq_state r) __RQ_LOCAL_PENDING = true /\
             flag clear __RQ_LOCAL_PENDING = false;
  co_abort_keeps : flag clear __RQ_LOCAL_ABORTED = false;
  co_pending : flag set __RQ_LOCAL_PENDING = true -> flag (local_rq_state r) __RQ_LOCAL_ABORTED = false /\
               flag set __RQ_LOCAL_ABORTED = false;
  co_barr : flag clear __RQ_EXP_BARR_ACK = false /\ flag clear __RQ_NET_DONE = false;
  co_barr_set id : idx = Some id -> flag set __RQ_EXP_BARR_ACK = true ->
     flag (net r id) __RQ_NET_DONE = false /\ flag set __RQ_NET_DONE = false;
  (* an aborted request that completes locally still has the reference *)
  co_base : flag clear __RQ_LOCAL_PENDING = true -> flag (local_rq_state r) __RQ_LOCAL_PENDING = true ->
            flag (local_rq_state r) __RQ_LOCAL_ABORTED = true -> base_done r = true }.

Definition state0 (k : Z) : bool := flag RQ_STATE_0_MASK k.

Lemma flag_land_state0 m k : 0 <= k -> flag (Z.land m RQ_STATE_0_MASK) k = flag m k && state0 k.
Proof. intros. unfold flag, state0. apply Z.land_spec. Qed.
Lemma flag_ldiff_state0 m k : 0 <= k -> flag (Z.ldiff m RQ_STATE_0_MASK) k = flag m k && negb (state0 k).
Proof. intros. unfold flag, state0. apply Z.ldiff_spec. Qed.

Lemma flag_0 k : flag 0 k = false.
Proof. apply Z.testbit_0_l. Qed.

(** The change of one word of flags. *)
Section word.
Variables (old clear set : Z).
Notation new := (Z.lor (Z.ldiff old clear) set).
Hypothesis disjoint : forall k, 0 <= k -> flag set k = true -> flag clear k = false.

Lemma nc_change :
  nc new = nc old + Z.b2z (newly old set __RQ_NET_PENDING) +
    Z.b2z (negb (drbd_sender_needs_master_bio old) && drbd_sender_needs_master_bio new) -
    Z.b2z (no_more old clear __RQ_NET_PENDING) -
    Z.b2z (drbd_sender_needs_master_bio old && negb (drbd_sender_needs_master_bio new)).
Proof.
  unfold nc, newly, no_more. pose proof (disjoint __RQ_NET_PENDING).
  destruct (drbd_sender_needs_master_bio old), (drbd_sender_needs_master_bio new);
  rewrite flag_set by done; destruct (flag old _), (flag set _), (flag clear _); try done; by specialize (H ltac:(done) eq_refl).
Qed.

Lemma qc_change : qc new = qc old + Z.b2z (newly old set __RQ_NET_QUEUED) - Z.b2z (no_more old clear __RQ_NET_QUEUED).
Proof.
  unfold qc, newly, no_more. pose proof (disjoint __RQ_NET_QUEUED). rewrite flag_set by done.
  destruct (flag old _), (flag set _), (flag clear _); try done; by specialize (H ltac:(done) eq_refl).
Qed.

Lemma bc_change :
  flag clear __RQ_EXP_BARR_ACK = false -> flag clear __RQ_NET_DONE = false ->
  (flag set __RQ_EXP_BARR_ACK = true -> flag old __RQ_NET_DONE = false /\ flag set __RQ_NET_DONE = false) ->
  bc new = bc old + Z.b2z (newly old set __RQ_EXP_BARR_ACK) -
           Z.b2z (newly old set __RQ_NET_DONE && flag old __RQ_EXP_BARR_ACK).
Proof.
  intros Hb Hd Hs. unfold bc, newly. rewrite !flag_set, Hb, Hd by done.
  destruct (flag set __RQ_EXP_BARR_ACK); [destruct (Hs eq_refl) as [-> ->]|];
  destruct (flag old __RQ_EXP_BARR_ACK), (flag old __RQ_NET_DONE), (flag set __RQ_NET_DONE); done.
Qed.

Lemma lc_change :
  (flag set __RQ_LOCAL_ABORTED = true -> flag old __RQ_LOCAL_PENDING = true /\ flag clear __RQ_LOCAL_PENDING = false) ->
  flag clear __RQ_LOCAL_ABORTED = false ->
  (flag set __RQ_LOCAL_PENDING = true -> flag old __RQ_LOCAL_ABORTED = false /\ flag set __RQ_LOCAL_ABORTED = false) ->
  lc new = lc old + Z.b2z (newly old set __RQ_LOCAL_PENDING) + Z.b2z (newly old set __RQ_COMPLETION_SUSP) -
    Z.b2z (no_more old clear __RQ_COMPLETION_SUSP) - Z.b2z (newly old set __RQ_LOCAL_ABORTED) -
    Z.b2z (no_more old clear __RQ_LOCAL_PENDING && negb (flag new __RQ_LOCAL_ABORTED)).
Proof.
  intros Ha Hk Hp. unfold lc, newly, no_more. pose proof (disjoint __RQ_COMPLETION_SUSP) as H1.
  pose proof (disjoint __RQ_LOCAL_PENDING) as H2. rewrite !flag_set, Hk by done.
  destruct (flag old __RQ_COMPLETION_SUSP), (flag set __RQ_COMPLETION_SUSP), (flag clear __RQ_COMPLETION_SUSP);
    try (by specialize (H1 ltac:(done) eq_refl));
  destruct (flag set __RQ_LOCAL_ABORTED); try destruct (Ha eq_refl) as [-> ->];
  destruct (flag set __RQ_LOCAL_PENDING); try (destruct (Hp eq_refl) as [-> ?]); try done;
  destruct (flag old __RQ_LOCAL_ABORTED); try done;
  try (destruct (flag old __RQ_LOCAL_PENDING)); try done; try (destruct (flag clear __RQ_LOCAL_PENDING)); try done;
  by specialize (H2 ltac:(done) eq_refl).
Qed.
End word.

(** The bits of one state word, with the masks that [mod_rq_state] splits. *)
Lemma disjoint_local clear set k : 0 <= k -> (forall k, 0 <= k -> flag set k = true -> flag clear k = false) ->
  flag (Z.land set RQ_STATE_0_MASK) k = true -> flag (Z.land clear RQ_STATE_0_MASK) k = false.
Proof. intros Hk Hd. rewrite !flag_land_state0 by done. intros [Hs _]%andb_true_iff. by rewrite (Hd k Hk Hs). Qed.
Lemma disjoint_net clear set k : 0 <= k -> (forall k, 0 <= k -> flag set k = true -> flag clear k = false) ->
  flag (Z.ldiff set RQ_STATE_0_MASK) k = true -> flag (Z.ldiff clear RQ_STATE_0_MASK) k = false.
Proof. intros Hk Hd. rewrite !flag_ldiff_state0 by done. intros [Hs _]%andb_true_iff. by rewrite (Hd k Hk Hs). Qed.

Lemma local_bit m k : 0 <= k -> state0 k = true -> flag (Z.land m RQ_STATE_0_MASK) k = flag m k.
Proof. intros Hk Hs. by rewrite flag_land_state0, Hs, andb_true_r. Qed.
Lemma net_bit m k : 0 <= k -> state0 k = false -> flag (Z.ldiff m RQ_STATE_0_MASK) k = flag m k.
Proof. intros Hk Hs. by rewrite flag_ldiff_state0, Hs, andb_true_r. Qed.

(** The words after a change. *)
Definition new_local (clear set : Z) (r : drbd_request) : Z :=
  Z.lor (Z.ldiff (local_rq_state r) (Z.land clear RQ_STATE_0_MASK)) (Z.land set RQ_STATE_0_MASK).
Definition new_net (clear set n : Z) : Z :=
  Z.lor (Z.ldiff n (Z.ldiff clear RQ_STATE_0_MASK)) (Z.ldiff set RQ_STATE_0_MASK).
Definition new_nets (idx : option nat) (clear set : Z) (r : drbd_request) : list Z :=
  match idx with None => net_rq_state r | Some k => <[k := new_net clear set (net r k)]> (net_rq_state r) end.

Lemma sumz_new_nets f idx clear set r :
  match idx with None => True | Some id => (id < length (net_rq_state r))%nat end ->
  sumz f (new_nets idx clear set r) = sumz f (net_rq_state r) +
    match idx with None => 0 | Some k => f (new_net clear set (net r k)) - f (net r k) end.
Proof.
  intros Hs. unfold new_nets. destruct idx as [k|]; [|lia]. destruct (lookup_lt_is_Some_2 _ _ Hs) as [n Hn].
  rewrite (sumz_insert f _ _ _ _ Hn). unfold net. rewrite Hn. cbn. lia.
Qed.

Lemma net_insert_same r k : (k < length (net_rq_state r))%nat -> <[k := net r k]> (net_rq_state r) = net_rq_state r.
Proof. intros Hk. destruct (lookup_lt_is_Some_2 _ _ Hk) as [n Hn]. unfold net. rewrite Hn. by apply list_insert_id. Qed.

(** [apply_rq_state] sets the words, keeps the other members, and changes each
    counter by what it still has to put and by the change of what it counts. *)
Lemma apply_rq_state_counts idx clear set r r' p l :
  apply_rq_state idx clear set r = Ret (r', p, l) -> change_ok idx clear set r ->
  completion_ref r' - c_put p - pending_actions r' = completion_ref r - pending_actions r /\
  done_ref r' - d_put p - undone r' = done_ref r - undone r /\
  oos_send_ref r' - o_put p - queued r' = oos_send_ref r - queued r /\
  0 <= c_put p /\ 0 <= d_put p /\ 0 <= o_put p /\
  done_ref r <= done_ref r'.
Proof.
  intros Ha [Hdis Hslot Hab Habk Hpe [Hb1 Hb2] Hbs Hba]. unfold apply_rq_state in Ha.
  case_if_in Ha; [done|]. case_if_in Ha; [done|]. case_if_in Ha.
  { injection Ha as <- <- _. cbn. lia. }
  injection Ha as <- <- _. unfold pending_actions, undone, queued. cbn [set_ghost set_refs set_rq_state completion_ref done_ref
    oos_send_ref submitting base_done local_rq_state net_rq_state c_put d_put o_put].
  fold (new_local clear set r).
  pose proof (lc_change (local_rq_state r) (Z.land clear RQ_STATE_0_MASK) (Z.land set RQ_STATE_0_MASK)) as HL.
  fold (new_local clear set r) in HL. rewrite !local_bit in HL by done.
  specialize (HL ltac:(intros k Hk; by apply disjoint_local) Hab Habk Hpe).
  assert (forall f, sumz f match idx with None => net_rq_state r | Some k =>
     <[k := if match idx with Some _ => false | None => true end then 0 else
        Z.lor (Z.ldiff (if match idx with Some _ => false | None => true end then 0 else net r (default 0%nat idx))
           (Z.ldiff clear RQ_STATE_0_MASK)) (Z.ldiff set RQ_STATE_0_MASK)]> (net_rq_state r) end =
     sumz f (new_nets idx clear set r)) as Hn by (intros; by destruct idx).
  rewrite !Hn. clear Hn. rewrite !sumz_new_nets by done.
  assert (forall b1 b2 : bool, (b1 = true -> b2 = true) ->
    Z.b2z (b2 && negb b1) = Z.b2z b2 - Z.b2z b1) as Hb2z by (intros [] []; cbn; naive_solver).
  set (ld := no_more (local_rq_state r) (Z.land clear RQ_STATE_0_MASK) __RQ_LOCAL_PENDING) in *.
  set (ab := flag (new_local clear set r) __RQ_LOCAL_ABORTED) in *.
  rewrite (Hb2z (ld && ab) (base_done r)).
  2:{ unfold ld, ab, no_more. rewrite local_bit by done. intros [[Hp Hc]%andb_true_iff Hx]%andb_true_iff.
      apply Hba; [done|done|]. unfold new_local in Hx. rewrite flag_set, !local_bit in Hx by done.
      destruct (flag set __RQ_LOCAL_ABORTED) eqn:Es; [by destruct (Hab eq_refl) as [_ ?]; congruence|].
      by apply andb_true_iff in Hx as [? _]. }
  destruct idx as [id|]; cbn [default from_option Datatypes.id].
  - pose proof (nc_change (net r id) (Z.ldiff clear RQ_STATE_0_MASK) (Z.ldiff set RQ_STATE_0_MASK)
      ltac:(intros k Hk; by apply disjoint_net)) as HN.
    pose proof (qc_change (net r id) (Z.ldiff clear RQ_STATE_0_MASK) (Z.ldiff set RQ_STATE_0_MASK)
      ltac:(intros k Hk; by apply disjoint_net)) as HQ.
    pose proof (bc_change (net r id) (Z.ldiff clear RQ_STATE_0_MASK) (Z.ldiff set RQ_STATE_0_MASK)) as HB.
    rewrite !net_bit in HB by done. specialize (HB Hb1 Hb2 (Hbs id eq_refl)).
    unfold new_net. rewrite HN, HQ, HB, HL. clear.
    repeat match goal with |- context [Z.b2z ?b] => lazymatch b with context [Z.b2z _] => fail | _ =>
      let x := fresh "x" in let Hx := fresh "Hx" in pose proof (b2z_range b) as Hx; set (x := Z.b2z b) in *; clearbody x end end.
    lia.
  - rewrite HL. unfold newly, no_more, drbd_sender_needs_master_bio. rewrite !flag_0. cbn [negb andb Z.b2z].
    assert (Z.ldiff set RQ_STATE_0_MASK = 0) as -> by (apply negb_false_iff, Z.eqb_eq in Ec; done).
    rewrite !flag_0. cbn [negb andb Z.b2z]. clear.
    repeat match goal with |- context [Z.b2z ?b] => lazymatch b with context [Z.b2z _] => fail | _ =>
      let x := fresh "x" in let Hx := fresh "Hx" in pose proof (b2z_range b) as Hx; set (x := Z.b2z b) in *; clearbody x end end.
    lia.
Qed.

(** ** Quiet changes

    [READY_FOR_NET] and [SKIP_OOS] change bits that no counter looks at. *)

Definition quiet_bit (k : Z) : bool := (k =? __RQ_NET_READY) || (k =? __RQ_NET_PENDING_OOS).

Record quiet_word (n n' : Z) : Prop := {
  qw_bits k : 0 <= k -> quiet_bit k = false -> flag n' k = flag n k;
  qw_mask : any n' RQ_NET_MASK = any n RQ_NET_MASK }.

(** The requests differ at most in such bits. *)
Record quiet_req (r r' : drbd_request) : Prop := {
  qr_nets : Forall2 quiet_word (net_rq_state r) (net_rq_state r');
  qr_same : r' = set_rq_state (local_rq_state r) (net_rq_state r') r }.

#[export] Instance quiet_word_refl : Reflexive quiet_word.
Proof. by intros n; split. Qed.
#[export] Instance quiet_word_trans : Transitive quiet_word.
Proof. intros a b c [H1 M1] [H2 M2]. split; [|congruence]. intros k Hk Hq. by rewrite H2, H1. Qed.

#[export] Instance quiet_req_preorder : PreOrder quiet_req.
Proof.
  split.
  - intros r. split; [reflexivity|by destruct r].
  - intros a b c [H1 E1] [H2 E2]. split; [by etransitivity|]. rewrite E2. by rewrite E1.
Qed.

Lemma quiet_nc n n' : quiet_word n n' -> nc n' = nc n.
Proof. intros [Hq _]. unfold nc, drbd_sender_needs_master_bio. by rewrite !Hq. Qed.
Lemma quiet_bc n n' : quiet_word n n' -> bc n' = bc n.
Proof. intros [Hq _]. unfold bc. by rewrite !Hq. Qed.
Lemma quiet_qc n n' : quiet_word n n' -> qc n' = qc n.
Proof. intros [Hq _]. unfold qc. by rewrite !Hq. Qed.

Lemma quiet_sumz f l l' : (forall n n', quiet_word n n' -> f n' = f n) -> Forall2 quiet_word l l' -> sumz f l' = sumz f l.
Proof. intros Hf. induction 1 as [|n n' l l' Hn _ IH]; [done|]. cbn. fold (sumz f l) (sumz f l'). rewrite (Hf n n'), IH; done. Qed.

Lemma quiet_counts r r' : quiet_req r r' ->
  pending_actions r' = pending_actions r /\ undone r' = undone r /\ queued r' = queued r.
Proof.
  intros [Hn Hs]. unfold pending_actions, undone, queued.
  rewrite (quiet_sumz nc _ _ quiet_nc Hn), (quiet_sumz bc _ _ quiet_bc Hn), (quiet_sumz qc _ _ quiet_qc Hn).
  rewrite Hs. done.
Qed.

Lemma quiet_apply idx clear set r r' p l :
  (clear = 0 \/ clear = RQ [__RQ_NET_PENDING_OOS]) -> set = RQ [__RQ_NET_READY] -> any (net r idx) RQ_NET_MASK = true ->
  apply_rq_state (Some idx) clear set r = Ret (r', p, l) -> quiet_req r r' /\ p = mk_puts 0 0 0.
Proof.
  intros Hc -> Hany Ha. unfold apply_rq_state in Ha. cbn [andb] in Ha. case_if_in Ha; [by injection Ha as <- <- _|].
  assert (forall k, 0 <= k -> quiet_bit k = false ->
    flag (Z.ldiff clear RQ_STATE_0_MASK) k = false /\ flag (Z.ldiff (RQ [__RQ_NET_READY]) RQ_STATE_0_MASK) k = false) as Hz.
  { intros k Hk Hq. unfold quiet_bit in Hq. reflect_bools. rewrite !flag_ldiff_state0 by done. split.
    - destruct Hc as [-> | ->]; [by rewrite flag_0|]. by rewrite flag_RQ1.
    - by rewrite flag_RQ1. }
  assert (Z.land clear RQ_STATE_0_MASK = 0) as Hcl by (by destruct Hc as [-> | ->]).
  assert (Z.land (RQ [__RQ_NET_READY]) RQ_STATE_0_MASK = 0) as Hsl by done.
  rewrite Hcl, Hsl, Z.ldiff_0_r, Z.lor_0_r in Ha.
  set (st := Z.ldiff (RQ [__RQ_NET_READY]) RQ_STATE_0_MASK) in *. set (cl := Z.ldiff clear RQ_STATE_0_MASK) in *.
  cbn [default from_option Datatypes.id] in Ha. set (n := net r idx) in Ha. assert (quiet_word n (Z.lor (Z.ldiff n cl) st)) as Hw.
  { split.
    - intros k Hk Hq. destruct (Hz k Hk Hq) as [H1 H2]. rewrite flag_set, H1, H2 by done. cbn. apply andb_true_r.
    - fold n in Hany. rewrite Hany. apply (any_flag _ _ __RQ_NET_READY); [done| |done]. rewrite flag_set by done. done. }
  unfold newly, no_more, drbd_sender_needs_master_bio in Ha.
  rewrite !(qw_bits _ _ Hw __RQ_NET_QUEUED), !(qw_bits _ _ Hw __RQ_NET_DONE) in Ha by done.
  rewrite !flag_0, !andb_false_r in Ha.
  destruct (Hz __RQ_NET_PENDING) as [Z1 Z2]; [done|done|]. destruct (Hz __RQ_NET_QUEUED) as [Z3 Z4]; [done|done|].
  destruct (Hz __RQ_EXP_BARR_ACK) as [_ Z5]; [done|done|]. destruct (Hz __RQ_NET_DONE) as [_ Z6]; [done|done|].
  rewrite ?Z1, ?Z2, ?Z3, ?Z4, ?Z5, ?Z6, !andb_false_r, !andb_negb_r, !andb_negb_l in Ha. cbn [Z.b2z andb negb Z.add] in Ha.
  injection Ha as <- <- _. split; [|done]. split; cbn [net_rq_state set_ghost set_refs set_rq_state].
  - destruct (net_rq_state r !! idx) as [x|] eqn:Ex.
    + rewrite <- (list_insert_id (net_rq_state r) idx x Ex) at 1. apply Forall2_insert; [reflexivity|].
      subst n. unfold net in *. rewrite Ex in *. done.
    + rewrite list_insert_ge by (by apply lookup_ge_None). reflexivity.
  - rewrite !Z.add_0_r, !andb_true_r. done.
Qed.

(** ** The chain of writes *)

Definition pred_undone (s : drbd_resource) (k : nat) : bool :=
  existsb (fun r => bool_decide (next_write r = Some k) && (0 <? done_ref r)) (reqs s).
Definition pred_unsent (s : drbd_resource) (k : nat) : bool :=
  existsb (fun r => bool_decide (next_write r = Some k) && (0 <? oos_send_ref r)) (reqs s).

(** A write links to a later one, and no two to the same. *)
Record links_inv (s : drbd_resource) : Prop := {
  li_next j r k : reqs s !! j = Some r -> next_write r = Some k -> (j < k < length (reqs s))%nat;
  li_inj j1 r1 j2 r2 k : reqs s !! j1 = Some r1 -> reqs s !! j2 = Some r2 ->
    next_write r1 = Some k -> next_write r2 = Some k -> j1 = j2 }.

(** The last write of the transfer log can be linked to the next one. *)
Definition last_write_inv (s : drbd_resource) : Prop :=
  forall j, tl_previous_write s = Some j ->
    exists r, reqs s !! j = Some r /\ next_write r = None /\ 0 < oos_send_ref r /\ INTERVAL_DONE r = (done_ref r =? 0).

(** The counters [done_ref] and [oos_send_ref]; request [k] has [D k] and [O k] more,
    which are about to be put. *)
Definition ref_inv (s : drbd_resource) (D O : nat -> Z) : Prop :=
  forall k r, reqs s !! k = Some r ->
    done_ref r = undone r + Z.b2z (pred_undone s k) + D k /\
    oos_send_ref r = Z.b2z (0 <? done_ref r) + queued r + Z.b2z (pred_unsent s k) + O k.

Record chain_inv (s : drbd_resource) (D O : nat -> Z) : Prop := {
  ci_links : links_inv s;
  ci_last : last_write_inv s;
  ci_refs : ref_inv s D O;
  ci_nonneg k : 0 <= D k /\ 0 <= O k;
  (* a request that has left the transfer log stays without references *)
  ci_sent k : (k, OOS_SENT) ∈ log s -> exists r, reqs s !! k = Some r /\ oos_send_ref r <= 0 }.

(** [x] references of request [i], if any, are put or have yet to be put. *)
Definition take (i : option nat) (x : Z) (D : nat -> Z) (k : nat) : Z := if decide (i = Some k) then D k - x else D k.

Lemma existsb_none {A} (f : A -> bool) l : (forall j r, l !! j = Some r -> f r = false) -> existsb f l = false.
Proof.
  intros Hf. apply not_true_iff_false. intros (r & Hr & Ht)%existsb_exists.
  apply list_elem_of_In, list_elem_of_lookup in Hr as [j Hj]. by rewrite (Hf j r Hj) in Ht.
Qed.

Lemma existsb_one {A} (f : A -> bool) l j r :
  l !! j = Some r -> (forall k x, l !! k = Some x -> k <> j -> f x = false) -> existsb f l = f r.
Proof.
  intros Hj Ho. destruct (f r) eqn:E.
  - apply existsb_exists. exists r. split; [|done]. by eapply list_elem_of_In, list_elem_of_lookup_2.
  - apply existsb_none. intros k x Hk. destruct (decide (k = j)) as [-> |]; [by simplify_eq|by apply (Ho k)].
Qed.

Lemma pred_cases s k : links_inv s ->
  (exists j r, reqs s !! j = Some r /\ next_write r = Some k /\ (j < k)%nat /\
     pred_undone s k = (0 <? done_ref r) /\ pred_unsent s k = (0 <? oos_send_ref r)) \/
  ((forall j r, reqs s !! j = Some r -> next_write r <> Some k) /\ pred_undone s k = false /\ pred_unsent s k = false).
Proof.
  intros [Hn Hi].
  destruct (decide (Exists (fun r => next_write r = Some k) (reqs s))) as [He|He].
  - left. apply Exists_exists in He as (r & [j Hj]%list_elem_of_lookup & Hr). exists j, r.
    split_and!; [done|done|by apply (Hn j r k)| |].
    + unfold pred_undone. rewrite (existsb_one _ _ j r Hj); [by rewrite bool_decide_eq_true_2|].
      intros k' x Hk' Hne. rewrite bool_decide_eq_false_2; [done|]. intros Hx. by apply Hne, (Hi k' x j r k).
    + unfold pred_unsent. rewrite (existsb_one _ _ j r Hj); [by rewrite bool_decide_eq_true_2|].
      intros k' x Hk' Hne. rewrite bool_decide_eq_false_2; [done|]. intros Hx. by apply Hne, (Hi k' x j r k).
  - right. assert (forall j r, reqs s !! j = Some r -> next_write r <> Some k) as Hno.
    { intros j r Hj Hr. apply He, Exists_exists. exists r. split; [by eapply list_elem_of_lookup_2|done]. }
    split_and!; [done| |]; apply existsb_none; intros j r Hj; by rewrite bool_decide_eq_false_2 by (by apply (Hno j)).
Qed.

(** The change of one request, seen from the others. *)
Lemma pred_change s s' i r r' k :
  links_inv s -> reqs s !! i = Some r -> reqs s' = <[i := r']> (reqs s) -> next_write r' = next_write r ->
  Z.b2z (pred_undone s k) = Z.b2z (pred_undone s' k) +
    (if decide (next_write r = Some k) then Z.b2z (0 <? done_ref r) - Z.b2z (0 <? done_ref r') else 0) /\
  Z.b2z (pred_unsent s k) = Z.b2z (pred_unsent s' k) +
    (if decide (next_write r = Some k) then Z.b2z (0 <? oos_send_ref r) - Z.b2z (0 <? oos_send_ref r') else 0).
Proof.
  intros Hl Hi Hs Hnw. pose proof (lookup_lt_Some _ _ _ Hi) as Hlt.
  assert (links_inv s') as Hl'.
  { destruct Hl as [Hn Hj]. split; rewrite Hs; setoid_rewrite list_lookup_insert_Some; rewrite ?length_insert.
    - intros j x k' [(-> & <- & _)|[_ Hx]] Hk; [rewrite Hnw in Hk; by apply (Hn j r)|by apply (Hn j x)].
    - intros j1 x1 j2 x2 k' [(-> & <- & _)|[_ H1]] [(-> & <- & _)|[_ H2]] K1 K2; rewrite ?Hnw in *; by eauto. }
  destruct (pred_cases s k Hl) as [(j & x & Hj & Hk & _ & -> & ->)|(Hno & -> & ->)].
  - destruct (decide (j = i)) as [-> |Hne].
    + simplify_eq. rewrite !decide_True by done.
      destruct (pred_cases s' k Hl') as [(j' & x' & Hj' & Hk' & _ & -> & ->)|(Hno & _)].
      * assert (j' = i) as ->. { apply (li_inj _ Hl' j' x' i r' k); [done| |done|congruence]. rewrite Hs. by apply list_lookup_insert_eq. }
        rewrite Hs, list_lookup_insert_eq in Hj' by done. simplify_eq. split; ring.
      * exfalso. apply (Hno i r'); [rewrite Hs; by apply list_lookup_insert_eq|congruence].
    + rewrite !decide_False by (intros Hr; apply Hne; by apply (li_inj _ Hl j x i r k)).
      destruct (pred_cases s' k Hl') as [(j' & x' & Hj' & Hk' & _ & -> & ->)|(Hno & _)].
      * assert (j' = j) as ->. { apply (li_inj _ Hl' j' x' j x k); [done| |done|done]. rewrite Hs. by rewrite list_lookup_insert_ne. }
        rewrite Hs, list_lookup_insert_ne in Hj' by done. simplify_eq. split; ring.
      * exfalso. apply (Hno j x); [rewrite Hs; by rewrite list_lookup_insert_ne|done].
  - rewrite !decide_False by (by apply (Hno i)).
    destruct (pred_cases s' k Hl') as [(j' & x' & Hj' & Hk' & _)|(_ & -> & ->)]; [|done].
    exfalso. rewrite Hs in Hj'. apply list_lookup_insert_Some in Hj' as [(-> & <- & _)|[_ Hx]].
    + apply (Hno j' r); [done|congruence].
    + by apply (Hno j' x').
Qed.

(** ** One round of the walk *)

(** A request after a round: counters, flags of the transfer log and quiet bits may
    differ. *)
Record walk_req (r r' : drbd_request) : Prop := {
  wr_nets : Forall2 quiet_word (net_rq_state r) (net_rq_state r');
  wr_same : r' = set_tl (on_tl r') (INTERVAL_DONE r') (next_write r)
                   (set_refs (completion_ref r) (done_ref r') (oos_send_ref r')
                      (set_rq_state (local_rq_state r) (net_rq_state r') r));
  wr_done : done_ref r' <= done_ref r;
  wr_oos : oos_send_ref r' <= oos_send_ref r;
  (* the bits of a request that waits for something are left alone *)
  wr_undone : undone r <> 0 -> net_rq_state r' = net_rq_state r }.

Lemma walk_undone r r' : Forall2 quiet_word (net_rq_state r) (net_rq_state r') -> base_done r' = base_done r ->
  undone r' = undone r.
Proof. intros Hn Hb. unfold undone. by rewrite Hb, (quiet_sumz bc _ _ quiet_bc Hn). Qed.

#[export] Instance walk_req_preorder : PreOrder walk_req.
Proof.
  split.
  - intros r. split; [reflexivity|by destruct r|lia|lia|done].
  - intros a b c [H1 E1 D1 O1 U1] [H2 E2 D2 O2 U2]. split; [by etransitivity| |lia|lia|].
    + rewrite E2. rewrite E1. done.
    + intros Hu. rewrite U2, U1; [done|done|]. rewrite (walk_undone a b); [done|done|by rewrite E1].
Qed.

Lemma walk_counts r r' : walk_req r r' ->
  pending_actions r' = pending_actions r /\ undone r' = undone r /\ queued r' = queued r.
Proof.
  intros [Hn Hs _ _ _]. unfold pending_actions, undone, queued.
  rewrite (quiet_sumz nc _ _ quiet_nc Hn), (quiet_sumz bc _ _ quiet_bc Hn), (quiet_sumz qc _ _ quiet_qc Hn).
  rewrite Hs. done.
Qed.

Lemma req_lookup s i r : reqs s !! i = Some r -> req s i = r.
Proof. intros H. unfold req. by rewrite H. Qed.

(** The log only grows; no bio is completed and no request restarted; [B] says which
    requests may report a bug, and which may release their extent of the activity log. *)
Definition calm (B : nat * effect -> Prop) (x : nat * effect) : Prop :=
  match x.2 with COMPLETE_BIO _ | RESTART_REQUEST => False | LOGIC_BUG | AL_COMPLETE_IO => B x | _ => True end.
Definition log_ext (B : nat * effect -> Prop) (s s' : drbd_resource) : Prop :=
  exists ext, log s' = log s ++ ext /\ Forall (calm B) ext.

#[export] Instance log_ext_preorder B : PreOrder (log_ext B).
Proof.
  split.
  - intros s. exists []. by rewrite app_nil_r.
  - intros a b c (x & Hx & Fx) (y & Hy & Fy). exists (x ++ y). rewrite Hy, Hx, app_assoc. split; [done|by apply Forall_app].
Qed.

Lemma log_ext_emit B i l s : Forall (fun ef => calm B (i, ef)) l -> log_ext B s (emit i l s).
Proof. intros Hl. exists (pair i <$> l). split; [done|by apply Forall_fmap]. Qed.

Section frame.
Variables (B : nat * effect -> Prop) (i : nat).

(** [s'] differs from [s] in request [i], which is [r'] now, and in the log. *)
Record only_req (r' : drbd_request) (s s' : drbd_resource) : Prop := {
  or_reqs : reqs s' = <[i := r']> (reqs s);
  or_prev : tl_previous_write s' = tl_previous_write s;
  or_log : log_ext B s s' }.

Lemma alter_as_insert {A} (f : A -> A) j (l : list A) x : l !! j = Some x -> alter f j l = <[j := f x]> l.
Proof.
  intros Hx. apply list_eq. intros k. destruct (decide (k = j)) as [-> |Hne].
  - rewrite list_lookup_alter_eq, Hx, list_lookup_insert_eq; [done|by eapply lookup_lt_Some].
  - by rewrite list_lookup_alter_ne, list_lookup_insert_ne.
Qed.

Lemma only_refl s r : reqs s !! i = Some r -> only_req r s s.
Proof. intros Hr. split; [by rewrite list_insert_id|done|done]. Qed.

Lemma only_upd f s r : reqs s !! i = Some r -> only_req (f r) s (upd i f s).
Proof. intros Hr. split; [|done|]. { cbn. by apply alter_as_insert. } { exists []. by rewrite app_nil_r. } Qed.

Lemma only_emit r s l : reqs s !! i = Some r -> Forall (fun ef => calm B (i, ef)) l -> only_req r s (emit i l s).
Proof. intros Hr Hl. split; [|done|by apply log_ext_emit]. cbn. by rewrite list_insert_id. Qed.

Lemma only_trans r r' s s1 s2 : only_req r s s1 -> only_req r' s1 s2 -> only_req r' s s2.
Proof. intros [H1 P1 L1] [H2 P2 L2]. split; [|by rewrite P2|by etransitivity]. by rewrite H2, H1, list_insert_insert_eq. Qed.

Lemma only_lookup r r' s s' : reqs s !! i = Some r -> only_req r' s s' -> reqs s' !! i = Some r'.
Proof. intros Hr [-> _ _]. apply list_lookup_insert_eq. by eapply lookup_lt_Some. Qed.

Lemma only_upd_emit f s r l : reqs s !! i = Some r -> Forall (fun ef => calm B (i, ef)) l ->
  only_req (f r) s (emit i l (upd i f s)).
Proof. intros Hr Hl. eapply only_trans; [by apply only_upd|]. apply only_emit; [|done]. by eapply only_lookup, only_upd. Qed.

(** ** Finishing a request *)

Lemma apply_calm idx clear set r r' p l : apply_rq_state idx clear set r = Ret (r', p, l) ->
  Forall (fun ef => calm B (i, ef)) l.
Proof.
  intros Ha. unfold apply_rq_state in Ha. do 2 (case_if_in Ha; [done|]). case_if_in Ha; injection Ha as _ _ <-; [done|].
  unfold when. rewrite !Forall_app. split_and!; case_if; by repeat constructor.
Qed.

(** A request is reported by [drbd_req_done] unless it is in this state. *)
Definition no_oos_postponed (r : drbd_request) : Prop :=
  flag (local_rq_state r) __RQ_POSTPONED = true -> flag (local_rq_state r) __RQ_WRITE = true ->
  Forall (fun n => any n RQ_NET_MASK = false) (net_rq_state r).
Record done_safe (e : req_env) (r : drbd_request) : Prop := {
  ds_net : not_net_done e r = false;
  ds_local : (master_bio r && negb (flag (local_rq_state r) __RQ_POSTPONED)) || negb (completion_ref r =? 0) ||
             flag (local_rq_state r) __RQ_LOCAL_PENDING = false;
  ds_oos : no_oos_postponed r }.

Lemma quiet_no_oos r r' : quiet_req r r' -> no_oos_postponed r -> no_oos_postponed r'.
Proof.
  intros [Hn Hs] Hp. unfold no_oos_postponed. assert (local_rq_state r' = local_rq_state r) as -> by (by rewrite Hs).
  intros H1 H2. specialize (Hp H1 H2). clear H1 H2 Hs. revert Hp.
  induction Hn as [|n n' l l' [_ Hq] _ IH]; [done|]. intros Hp. apply Forall_cons in Hp as [Ha Hp].
  constructor; [congruence|by apply IH].
Qed.

Lemma no_oos_word r idx : no_oos_postponed r -> flag (local_rq_state r) __RQ_WRITE = true ->
  flag (local_rq_state r) __RQ_POSTPONED = true -> flag (net r idx) __RQ_NET_PENDING_OOS = false.
Proof.
  intros Hn Hw Hp. apply not_true_iff_false. intros Hf. specialize (Hn Hp Hw). unfold net in Hf.
  destruct (net_rq_state r !! idx) as [n|] eqn:En; [|by rewrite flag_0 in Hf].
  assert (any n RQ_NET_MASK = false) as H0 by (by apply (Forall_lookup_1 _ _ _ _ Hn En)). cbn in Hf.
  by rewrite (any_flag n RQ_NET_MASK __RQ_NET_PENDING_OOS) in H0.
Qed.

Lemma oos_to_peer_quiet e touched s idx r : reqs s !! i = Some r ->
  (B (i, LOGIC_BUG) \/ flag (local_rq_state r) __RQ_WRITE = true /\ no_oos_postponed r) ->
  exists r', only_req r' s (oos_to_peer e i touched s idx) /\ quiet_req r r'.
Proof.
  intros Hr HB. unfold oos_to_peer, mod_without_puts. rewrite (req_lookup _ _ _ Hr).
  case_if; [by exists r; split; [apply only_refl|]|].
  case_if.
  { exists r. split; [|done]. apply only_emit; [done|]. constructor; [|done]. destruct HB as [?|[Hw Hn]]; [done|].
    by rewrite (no_oos_word r idx Hn Hw) in Ec. }
  case_if.
  all: destruct (apply_rq_state _ _ _ r) as [[[r' p] l]| |] eqn:Ea; try (by exists r; split; [apply only_refl|]).
  all: exists r'; split; [by apply (only_upd_emit (fun _ => r') s r); [|eapply apply_calm]|].
  all: eapply quiet_apply, Ea; [by auto|done|]; by apply (any_flag _ _ __RQ_NET_PENDING_OOS); reflect_bools.
Qed.

Lemma oos_to_peers_quiet e touched l s r : reqs s !! i = Some r ->
  (B (i, LOGIC_BUG) \/ flag (local_rq_state r) __RQ_WRITE = true /\ no_oos_postponed r) ->
  exists r', only_req r' s (foldl (oos_to_peer e i touched) s l) /\ quiet_req r r'.
Proof.
  revert s r. induction l as [|idx l IH]; intros s r Hr HB; cbn.
  - exists r. split; [by apply only_refl|done].
  - destruct (oos_to_peer_quiet e touched s idx r Hr HB) as (r1 & H1 & Q1).
    destruct (IH _ r1 (only_lookup _ _ _ _ Hr H1)) as (r2 & H2 & Q2).
    { destruct HB as [?|[Hw Hn]]; [by left|right]. split; [by rewrite (qr_same _ _ Q1)|by eapply quiet_no_oos]. }
    exists r2. split; [by eapply only_trans|by etransitivity].
Qed.

Lemma drbd_req_done_quiet e s r : reqs s !! i = Some r -> B (i, AL_COMPLETE_IO) -> (B (i, LOGIC_BUG) \/ done_safe e r) ->
  exists r', only_req r' s (drbd_req_done e i s) /\ quiet_req r r'.
Proof.
  intros Hr HAL HB. unfold drbd_req_done. rewrite (req_lookup _ _ _ Hr).
  assert (forall b, b = true -> (done_safe e r -> b = false) -> B (i, LOGIC_BUG)) as Hbug by (intros b Hb Hd; destruct HB as [|?%Hd]; [done|congruence]).
  case_if; [exists r; split; [apply only_emit; [done|]|done]; constructor; [by apply (Hbug _ Ec), ds_net|done]|].
  case_if; [exists r; split; [apply only_emit; [done|]|done]; constructor; [by apply (Hbug _ Ec0), ds_local|done]|].
  destruct (sync_masks e r) as [bits mask].
  set (s1 := emit _ _ s). set (s2 := emit _ _ s1).
  assert (only_req r s s1) as O1 by (apply only_emit; [done|]; unfold when; case_if; by repeat constructor).
  assert (only_req r s s2) as O2.
  { eapply only_trans; [done|]. apply only_emit; [by eapply only_lookup|]. unfold when; case_if; by repeat constructor. }
  assert (reqs s2 !! i = Some r) as R2 by by eapply only_lookup.
  assert (forall l, Forall (fun ef => calm B (i, ef)) (when l [AL_COMPLETE_IO])) as Hal by (intros []; by repeat constructor).
  case_if.
  - destruct (oos_to_peers_quiet e (touches_bitmap e r) (peer_nodes e) s2 r R2) as (r' & O3 & Q).
    { destruct HB as [?|?%ds_oos]; [by left|by right]. }
    exists r'. split; [|done]. eapply only_trans; [done|]. eapply only_trans; [done|]. apply only_emit; [|done]. by eapply only_lookup.
  - exists r. split; [|done]. eapply only_trans; [done|]. by apply only_emit.
Qed.

(** A round takes the references from request [i]. *)
Lemma put_refs_spec e pd po s r done sent s' :
  put_refs e i pd po s = (done, sent, s') -> reqs s !! i = Some r -> 0 <= pd -> 0 <= po ->
  (done = true -> undone r = 0 /\ B (i, AL_COMPLETE_IO) /\ (B (i, LOGIC_BUG) \/ done_safe e r)) ->
  exists r', only_req r' s s' /\ walk_req r r' /\
    done = negb (pd =? 0) && (done_ref r - pd =? 0) /\ done_ref r' = done_ref r - pd /\
    oos_send_ref r' = oos_send_ref r - (po + Z.b2z done) /\
    sent = negb (po + Z.b2z done =? 0) && (oos_send_ref r' =? 0) /\
    on_tl r' = on_tl r /\ INTERVAL_DONE r' = INTERVAL_DONE r.
Proof.
  intros Hp Hr Hpd Hpo Hdone. unfold put_refs in Hp. rewrite (req_lookup _ _ _ Hr) in Hp.
  set (d := negb (pd =? 0) && (done_ref r - pd =? 0)) in *.
  set (f := fun r => set_refs (completion_ref r) (done_ref r - pd) (oos_send_ref r) r) in *.
  assert (d = done) as Edone by by injection Hp.
  pose proof (only_upd f s r Hr) as O1. pose proof (only_lookup _ _ _ _ Hr O1) as R1.
  assert (exists r2, only_req r2 s (if d then drbd_req_done e i (upd i f s) else upd i f s) /\ quiet_req (f r) r2 /\
    (undone r <> 0 -> r2 = f r)) as (r2 & O2 & Q & Hu).
  { destruct d; [|by exists (f r)]. destruct Hdone as (Hu & HAL & HB); [done|].
    destruct (drbd_req_done_quiet e (upd i f s) (f r) R1 HAL) as (r2 & O2 & Q).
    { destruct HB as [?|[H1 H2 H3]]; [by left|by right]. }
    exists r2. split_and!; [by eapply only_trans|done|done]. }
  set (s2 := if d then drbd_req_done e i (upd i f s) else upd i f s) in *. pose proof (only_lookup _ _ _ _ Hr O2) as R2.
  assert ((if d then po + 1 else po) = po + Z.b2z d) as Epo by (destruct d; cbn; lia).
  rewrite Epo, (req_lookup _ _ _ R2) in Hp. injection Hp as _ <- <-. rewrite <- Edone.
  destruct Q as [Qn Qs]. eexists. split_and!.
  - eapply only_trans; [done|]. by apply only_upd.
  - assert (0 <= Z.b2z d) by apply b2z_range. split.
    5:{ intros Hne. rewrite (Hu Hne). done. }
    all: rewrite Qs; destruct r; cbn in *; first [done|lia].
  - done.
  - by rewrite Qs.
  - by rewrite Qs.
  - by rewrite Qs.
  - by rewrite Qs.
  - by rewrite Qs.
Qed.
End frame.

Lemma put_test p d : 0 <= p <= d -> Z.b2z (negb (p =? 0) && (d - p =? 0)) = Z.b2z (0 <? d) - Z.b2z (0 <? d - p).
Proof. intros Hp. destruct (Z.eqb_spec p 0), (Z.eqb_spec (d - p) 0), (Z.ltb_spec 0 d), (Z.ltb_spec 0 (d - p)); cbn; lia. Qed.

Lemma interval_done_after p d done d' : 0 <= p <= d -> done = negb (p =? 0) && (d - p =? 0) -> d' = d - p ->
  (d =? 0) || (done && true) = (d' =? 0).
Proof.
  intros Hp -> ->. destruct (Z.eqb_spec p 0), (Z.eqb_spec (d - p) 0), (Z.eqb_spec d 0); cbn; try done; lia.
Qed.
Lemma still_unsent p o : 0 <= p <= o -> 0 < o -> false = negb (p =? 0) && (o - p =? 0) -> 0 < o - p.
Proof. intros Hp Ho Hs. destruct (Z.eqb_spec p 0), (Z.eqb_spec (o - p) 0); try done; lia. Qed.

Lemma chain_inv_ext s D O D' O' : (forall k, D k = D' k) -> (forall k, O k = O' k) -> chain_inv s D O -> chain_inv s D' O'.
Proof.
  intros HD HO [Hl Hw Hr Hn Hs]. split; [done|done| | |done].
  - intros k r Hk. rewrite <- HD, <- HO. by apply Hr.
  - intros k. rewrite <- HD, <- HO. done.
Qed.

Lemma links_inv_insert s s' i r r' : links_inv s -> reqs s !! i = Some r -> reqs s' = <[i := r']> (reqs s) ->
  next_write r' = next_write r -> links_inv s'.
Proof.
  intros [Hn Hj] Hi Hs Hnw. split; rewrite Hs; setoid_rewrite list_lookup_insert_Some; rewrite ?length_insert.
  - intros j x k' [(-> & <- & _)|[_ Hx]] Hk; [rewrite Hnw in Hk; by apply (Hn j r)|by apply (Hn j x)].
  - intros j1 x1 j2 x2 k' [(-> & <- & _)|[_ H1]] [(-> & <- & _)|[_ H2]] K1 K2; rewrite ?Hnw in *; by eauto.
Qed.

(** What a change of request [i] has to satisfy so that only the successor notices. *)
Lemma ref_inv_insert s s' i r r' D O D' O' :
  links_inv s -> ref_inv s D O -> reqs s !! i = Some r -> reqs s' = <[i := r']> (reqs s) -> next_write r' = next_write r ->
  (done_ref r' - undone r' - D' i = done_ref r - undone r - D i /\
   oos_send_ref r' - Z.b2z (0 <? done_ref r') - queued r' - O' i = oos_send_ref r - Z.b2z (0 <? done_ref r) - queued r - O i) ->
  (forall k, k <> i ->
     D' k = D k + (if decide (next_write r = Some k) then Z.b2z (0 <? done_ref r) - Z.b2z (0 <? done_ref r') else 0) /\
     O' k = O k + (if decide (next_write r = Some k) then Z.b2z (0 <? oos_send_ref r) - Z.b2z (0 <? oos_send_ref r') else 0)) ->
  ref_inv s' D' O'.
Proof.
  intros Hl Hr Hi Hs Hnw [HD HO] Hk k x Hx.
  destruct (pred_change s s' i r r' k Hl Hi Hs Hnw) as [P1 P2].
  rewrite Hs in Hx. apply list_lookup_insert_Some in Hx as [(-> & <- & _)|[Hne Hx]].
  - destruct (Hr k r Hi) as [R1 R2].
    assert (next_write r <> Some k) as Hself by (intros Hx; pose proof (li_next _ Hl k r k Hi Hx); lia).
    rewrite !decide_False in P1, P2 by done. lia.
  - destruct (Hr k x Hx) as [R1 R2]. destruct (Hk k) as [K1 K2]; [congruence|]. rewrite K1, K2. lia.
Qed.

(** The same for the last write. *)
Lemma last_write_insert s s' i r r' :
  last_write_inv s -> reqs s !! i = Some r -> reqs s' = <[i := r']> (reqs s) -> next_write r' = next_write r ->
  (tl_previous_write s' = None \/ tl_previous_write s' = tl_previous_write s) ->
  (tl_previous_write s' = Some i -> 0 < oos_send_ref r -> INTERVAL_DONE r = (done_ref r =? 0) ->
   0 < oos_send_ref r' /\ INTERVAL_DONE r' = (done_ref r' =? 0)) ->
  last_write_inv s'.
Proof.
  intros Hl Hi Hs Hnw Hp Hlast j Hj. assert (tl_previous_write s = Some j) as Hsj by (destruct Hp; congruence).
  destruct (Hl j Hsj) as (x & Hx & Hn & Ho & Hd). destruct (decide (j = i)) as [-> |Hne].
  - simplify_eq. exists r'. split_and!; [rewrite Hs; apply list_lookup_insert_eq; by eapply lookup_lt_Some|congruence|by apply Hlast..].
  - exists x. split_and!; [by rewrite Hs, list_lookup_insert_ne|done..].
Qed.

(** The requests that are done report nothing, except those in [B]. *)
Definition quiet_done (B : nat * effect -> Prop) (e : req_env) (s : drbd_resource) : Prop :=
  forall k r, reqs s !! k = Some r -> undone r = 0 -> B (k, AL_COMPLETE_IO) /\ (B (k, LOGIC_BUG) \/ done_safe e r).

Lemma not_net_done_quiet e r r' : Forall2 quiet_word (net_rq_state r) (net_rq_state r') -> not_net_done e r' = not_net_done e r.
Proof.
  intros Hn. unfold not_net_done. induction (peer_nodes e) as [|idx l IH]; [done|]. cbn. rewrite IH. f_equal. unfold net.
  destruct (net_rq_state r !! idx) as [n|] eqn:En.
  - destruct (Forall2_lookup_l _ _ _ _ _ Hn En) as (n' & -> & [Hq Hm]). cbn. by rewrite Hm, Hq.
  - apply lookup_ge_None in En. rewrite (Forall2_length _ _ _ Hn) in En. apply lookup_ge_None in En. by rewrite En.
Qed.

Lemma done_safe_walk e r r' : walk_req r r' -> done_safe e r -> done_safe e r'.
Proof.
  intros [Hn Hs _ _ _] [H1 H2 H3]. split.
  - by rewrite (not_net_done_quiet e r).
  - by rewrite Hs.
  - apply (quiet_no_oos r (set_rq_state (local_rq_state r) (net_rq_state r') r)) in H3; [by rewrite Hs|]. by split.
Qed.

Lemma quiet_done_walk B e s s' : Forall2 walk_req (reqs s) (reqs s') -> quiet_done B e s -> quiet_done B e s'.
Proof.
  intros Hw Hq k r' Hr'. destruct (Forall2_lookup_r _ _ _ _ _ Hw Hr') as (r & Hr & Hk).
  destruct (walk_counts _ _ Hk) as (_ & -> & _). intros Hu. destruct (Hq k r Hr Hu) as [HA [?|Hd]]; split; auto.
  right. by eapply done_safe_walk.
Qed.

Section round.
Variable (B : nat * effect -> Prop).
Variables (s : drbd_resource) (D O : nat -> Z) (i : nat) (r : drbd_request) (pd po : Z).
Hypothesis Hinv : chain_inv s D O.
Hypothesis Hi : reqs s !! i = Some r.
Hypotheses (Hpd : 0 <= pd <= D i) (Hpo : 0 <= po <= O i).

Lemma round_bounds : pd <= done_ref r /\ po + Z.b2z (0 <? done_ref r) <= oos_send_ref r.
Proof.
  destruct Hinv as [_ _ Hr Hn _]. destruct (Hr i r Hi) as [H1 H2].
  pose proof (undone_nonneg r). pose proof (queued_nonneg r). pose proof (b2z_range (pred_undone s i)).
  pose proof (b2z_range (pred_unsent s i)). lia.
Qed.

Lemma leave_tl_sent done sent s' k : (k, OOS_SENT) ∈ log (leave_tl i done sent s') -> (k, OOS_SENT) ∈ log s' \/ k = i /\ sent = true.
Proof.
  unfold leave_tl. destruct sent; [|by destruct done; left]. cbn. rewrite elem_of_app, list_elem_of_singleton. intros [?|[= ->]]; auto.
Qed.

Lemma leave_tl_req done sent s' r' : reqs s' !! i = Some r' -> log_ext B s' (leave_tl i done sent s') /\
  exists r2, reqs (leave_tl i done sent s') = <[i := r2]> (reqs s') /\
    r2 = set_tl (on_tl r' && negb sent) (INTERVAL_DONE r' || (done && negb sent)) (next_write r') r' /\
    tl_previous_write (leave_tl i done sent s') =
      (if sent then if decide (tl_previous_write s' = Some i) then None else tl_previous_write s' else tl_previous_write s').
Proof.
  intros Hr'. unfold leave_tl. split.
  { destruct sent; [|destruct done; [exists []; by rewrite app_nil_r|done]]. exists [(i, OOS_SENT)]. split; [done|by repeat constructor]. }
  destruct sent, done; eexists; split_and!; try done; cbn;
    rewrite ?(alter_as_insert _ _ _ _ Hr'), ?andb_true_r, ?andb_false_r, ?orb_true_r, ?orb_false_r; try done.
  rewrite list_insert_id; [done|]. rewrite Hr'. by destruct r'.
Qed.

Lemma round_inv e done sent s1 : quiet_done B e s -> put_refs e i pd po s = (done, sent, s1) ->
  let s2 := leave_tl i done sent s1 in
  next_write (req s1 i) = next_write r /\ log_ext B s s2 /\ Forall2 walk_req (reqs s) (reqs s2) /\
  (negb done && negb sent = true -> s2 = s1) /\
  chain_inv s2 (take (next_write r) (- Z.b2z done) (take (Some i) pd D))
               (take (next_write r) (- Z.b2z sent) (take (Some i) po O)).
Proof.
  intros HB Hp s2. destruct round_bounds as [B1 B2].
  destruct (put_refs_spec B i e pd po s r done sent s1 Hp Hi) as (r1 & O1 & W1 & Ed & Er & Eo & Es & Et & Ei); [lia|lia| |].
  { intros Hd. assert (undone r = 0) as Hu; [|split; [done|]; by apply (HB i r Hi)].
    unfold put_refs in Hp. rewrite (req_lookup _ _ _ Hi) in Hp. injection Hp as Hx _ _. rewrite Hd in Hx.
    apply andb_true_iff in Hx as [_ Hx%Z.eqb_eq]. destruct (ci_refs _ _ _ Hinv i r Hi) as [H1 _].
    pose proof (undone_nonneg r). pose proof (b2z_range (pred_undone s i)). lia. }
  pose proof (only_lookup _ _ _ _ _ _ Hi O1) as R1.
  destruct (leave_tl_req done sent s1 r1 R1) as (L2 & r2 & Q2 & E2 & P2). fold s2 in Q2, P2.
  assert (reqs s2 = <[i := r2]> (reqs s)) as Hs2 by (rewrite Q2, (or_reqs _ _ _ _ _ O1); apply list_insert_insert_eq).
  assert (next_write r1 = next_write r) as N1 by (by rewrite (wr_same _ _ W1)).
  assert (next_write r2 = next_write r) as N2 by (by rewrite E2).
  assert (walk_req r r2) as W2.
  { etransitivity; [apply W1|]. rewrite E2. split; [reflexivity|by destruct r1|cbn; lia|cbn; lia|done]. }
  assert (Z.b2z done = Z.b2z (0 <? done_ref r) - Z.b2z (0 <? done_ref r1)) as Dd by (rewrite Ed, Er; apply put_test; lia).
  assert (Z.b2z sent = Z.b2z (0 <? oos_send_ref r) - Z.b2z (0 <? oos_send_ref r1)) as Ds.
  { rewrite Es, Eo. apply put_test. pose proof (b2z_range done). pose proof (b2z_range (0 <? done_ref r1)). lia. }
  split_and!.
  - by rewrite (req_lookup _ _ _ R1).
  - etransitivity; [apply (or_log _ _ _ _ _ O1)|done].
  - rewrite Hs2. rewrite <- (list_insert_id (reqs s) i r Hi) at 1. apply Forall2_insert; [reflexivity|done].
  - unfold s2, leave_tl. destruct done, sent; done.
  - destruct (walk_counts _ _ W2) as (_ & U2 & V2). split.
    + by apply (links_inv_insert s s2 i r r2 (ci_links _ _ _ Hinv)).
    + apply (last_write_insert s s2 i r r2 (ci_last _ _ _ Hinv) Hi Hs2 N2).
      * rewrite P2, (or_prev _ _ _ _ _ O1). destruct sent; [destruct (decide (tl_previous_write s = Some i)); auto|auto].
      * rewrite P2, (or_prev _ _ _ _ _ O1), E2. cbn. intros Hw Hlt Hd. destruct sent; [by destruct (decide (tl_previous_write s = Some i))|].
        rewrite Ei, Hd. split; [|by apply (interval_done_after pd); [lia|..]].
        rewrite Eo. apply still_unsent; [|done|by rewrite <- Eo]. pose proof (b2z_range done). pose proof (b2z_range (0 <? done_ref r1)). lia.
    + eapply (ref_inv_insert s s2 i r r2 D O); [apply Hinv..|done|done|done| |].
      * unfold take. rewrite U2, V2.
        assert (next_write r <> Some i) as Hself by (intros Hx; pose proof (li_next _ (ci_links _ _ _ Hinv) i r i Hi Hx); lia).
        rewrite !(decide_False (P := next_write r = Some i)), !decide_True by done. rewrite E2. cbn. lia.
      * intros k Hk. unfold take. rewrite !(decide_False (P := Some i = Some k)) by congruence. rewrite E2. cbn.
        destruct (decide (next_write r = Some k)); lia.
    + intros k. destruct Hinv as [_ _ _ Hn _]. specialize (Hn k). unfold take. pose proof (b2z_range done). pose proof (b2z_range sent).
      repeat case_decide; simplify_eq; lia.
    + intros k Hk. apply leave_tl_sent in Hk as [Hk|[-> ->]].
      * apply (tq_sent _ _ (put_refs_quiet _ _ _ _ _ _ _ _ Hp)) in Hk. destruct (ci_sent _ _ _ Hinv k Hk) as (x & Hx & Hle). rewrite Hs2.
        destruct (decide (k = i)) as [-> |Hne]; [|exists x; by rewrite list_lookup_insert_ne]. assert (x = r) as -> by congruence. exists r2.
        rewrite list_lookup_insert_eq by (by eapply lookup_lt_Some). split; [done|]. pose proof (wr_oos _ _ W2). lia.
      * exists r2. rewrite Hs2, list_lookup_insert_eq by (by eapply lookup_lt_Some). split; [done|]. rewrite E2. cbn.
        symmetry in Es. apply andb_true_iff in Es as [_ Es%Z.eqb_eq]. lia.
Qed.
End round.

(** ** The walk *)

#[export] Instance walk_reqs_preorder : PreOrder (Forall2 walk_req).
Proof. split; [intros l; reflexivity|intros a b c; apply transitivity]. Qed.

Lemma take_none x D k : take None x D k = D k.
Proof. done. Qed.
Lemma take_back j x D k : take (Some j) x (take (Some j) (- x) D) k = D k.
Proof. unfold take. case_decide; lia. Qed.
Lemma take_zero i D k : take i 0 D k = D k.
Proof. unfold take. case_decide; lia. Qed.

(** The walk puts the references it was asked to put, and keeps all counters right;
    the length of the list is enough fuel. *)
Lemma walk_inv B fuel e i pd po s D O :
  chain_inv s D O -> quiet_done B e s -> (i < length (reqs s))%nat -> (length (reqs s) - i <= fuel)%nat ->
  0 <= pd <= D i -> 0 <= po <= O i ->
  chain_inv (put_ref_tl_walk fuel e i pd po s) (take (Some i) pd D) (take (Some i) po O) /\
  Forall2 walk_req (reqs s) (reqs (put_ref_tl_walk fuel e i pd po s)) /\
  log_ext B s (put_ref_tl_walk fuel e i pd po s) /\
  (forall fuel', (length (reqs s) - i <= fuel')%nat ->
     put_ref_tl_walk fuel' e i pd po s = put_ref_tl_walk fuel e i pd po s).
Proof.
  revert i pd po s D O. induction fuel as [|fuel IH]; intros i pd po s D O Hinv HB Hlt Hfuel Hpd Hpo; [lia|].
  destruct (lookup_lt_is_Some_2 _ _ Hlt) as [r Hr]. cbn [put_ref_tl_walk].
  destruct (put_refs e i pd po s) as [[done sent] s1] eqn:Ep.
  destruct (round_inv B s D O i r pd po Hinv Hr Hpd Hpo e done sent s1 HB Ep) as (En & Hlog & Hw & Hsame & Hinv2).
  rewrite En. set (s2 := leave_tl i done sent s1) in *.
  assert (length (reqs s2) = length (reqs s)) as Hlen by (symmetry; by eapply Forall2_length).
  destruct (negb done && negb sent) eqn:Ec.
  { rewrite (Hsame eq_refl) in *. apply andb_true_iff in Ec as [->%negb_true_iff ->%negb_true_iff]. split_and!; [|done|done|].
    - eapply chain_inv_ext, Hinv2; intros k; apply (take_zero (next_write r)).
    - intros [|fuel'] Hf; [lia|]. cbn [put_ref_tl_walk]. by rewrite Ep. }
  destruct (next_write r) as [j|] eqn:Ej.
  - pose proof (li_next _ (ci_links _ _ _ Hinv) i r j Hr Ej) as Hj.
    destruct (IH j (Z.b2z done) (Z.b2z sent) s2 _ _ Hinv2) as (I1 & I2 & I3 & I4); [by eapply quiet_done_walk|lia|lia| | |].
    { pose proof (ci_nonneg _ _ _ Hinv j) as [? _]. pose proof (b2z_range done). unfold take. rewrite decide_True by done.
      rewrite decide_False by (intros [=]; lia). lia. }
    { pose proof (ci_nonneg _ _ _ Hinv j) as [_ ?]. pose proof (b2z_range sent). unfold take. rewrite decide_True by done.
      rewrite decide_False by (intros [=]; lia). lia. }
    split_and!.
    + eapply chain_inv_ext, I1; intros k; apply take_back.
    + by etransitivity.
    + by etransitivity.
    + intros [|fuel'] Hf; [lia|]. cbn [put_ref_tl_walk]. rewrite Ep, Ec, En. apply I4. rewrite Hlen. lia.
  - split_and!; [done|done|done|]. intros [|fuel'] Hf; [lia|]. cbn [put_ref_tl_walk]. by rewrite Ep, Ec, En.
Qed.
