(* ===== verification/ReqLife.v ===== *)
(** * The life of a request

    The invariant that the events of [Req] keep, and what it says about the
    reference counters and the completion of the bio. *)
From S2P Require Import Prelude Headers Req ReqOrder ReqProps.

(** ** The effect of a change of flags *)

Section applied.
Variables (idx : option nat) (clear set : Z) (r : drbd_request).

(** What [apply_rq_state] makes of a request. *)
Record applied (r' : drbd_request) (p : rq_puts) : Prop := {
  ap_same : r' = set_ghost (submitting r) (base_done r')
                   (set_refs (completion_ref r') (done_ref r') (oos_send_ref r')
                      (set_rq_state (new_local clear set r) (new_nets idx clear set r) r));
  ap_base : base_done r' = base_done r && negb (flag (local_rq_state r) __RQ_LOCAL_PENDING &&
              flag clear __RQ_LOCAL_PENDING && flag (new_local clear set r) __RQ_LOCAL_ABORTED);
  ap_completion : completion_ref r' - c_put p - pending_actions r' = completion_ref r - pending_actions r;
  ap_done : done_ref r' - d_put p - undone r' = done_ref r - undone r;
  ap_oos : oos_send_ref r' - o_put p - queued r' = oos_send_ref r - queued r;
  ap_puts : 0 <= c_put p /\ 0 <= d_put p /\ 0 <= o_put p;
  ap_done_same : flag set __RQ_EXP_BARR_ACK = false -> done_ref r' = done_ref r;
  ap_oos_same : flag set __RQ_NET_QUEUED = false -> oos_send_ref r' = oos_send_ref r;
  ap_grows : done_ref r <= done_ref r' /\ oos_send_ref r <= oos_send_ref r' }.

(** Flags that stand for something to wait for. *)
Definition adds : bool :=
  flag set __RQ_NET_PENDING || flag set __RQ_NET_QUEUED || flag set __RQ_LOCAL_PENDING || flag set __RQ_COMPLETION_SUSP.

Lemma flag_new_local k : 0 <= k -> state0 k = true ->
  flag (new_local clear set r) k = flag set k || (flag (local_rq_state r) k && negb (flag clear k)).
Proof. intros Hk Hs. unfold new_local. by rewrite flag_set, !local_bit. Qed.

Lemma flag_new_net n k : 0 <= k -> state0 k = false ->
  flag (new_net clear set n) k = flag set k || (flag n k && negb (flag clear k)).
Proof. intros Hk Hs. unfold new_net. by rewrite flag_set, !net_bit. Qed.

Lemma apply_applied r' p l : apply_rq_state idx clear set r = Ret (r', p, l) -> change_ok idx clear set r -> applied r' p.
Proof.
  intros Ha Hok. destruct (apply_rq_state_counts _ _ _ _ _ _ _ Ha Hok) as (A1 & A2 & A3 & A4 & A5 & A6 & A7).
  assert (0 <= Z.b2z (newly (if match idx with Some _ => false | None => true end then 0 else net r (default 0%nat idx))
     (Z.ldiff set RQ_STATE_0_MASK) __RQ_NET_QUEUED)) as Hq by apply b2z_range.
  destruct Hok as [Hdis Hslot _ _ _ _ _ _].
  unfold apply_rq_state in Ha. case_if_in Ha; [done|]. case_if_in Ha; [done|]. fold (new_local clear set r) in Ha.
  match type of Ha with context [if ?c then Ret _ else _] => destruct c eqn:Eu end.
  - injection Ha as <- <- _. apply andb_true_iff in Eu as [El%Z.eqb_eq En].
    assert (new_nets idx clear set r = net_rq_state r) as Enets.
    { destruct idx as [k|]; [|done]. cbn in En. apply Z.eqb_eq in En. unfold new_nets. fold (new_net clear set (net r k)) in En.
      rewrite En. by apply net_insert_same. }
    split; rewrite ?El, ?Enets; try done; try lia; [by destruct r|].
    destruct (flag (local_rq_state r) __RQ_LOCAL_PENDING) eqn:Ep; [|by rewrite andb_true_r].
    destruct (flag clear __RQ_LOCAL_PENDING) eqn:Ecl; [|by rewrite andb_true_r]. exfalso.
    rewrite <- El, flag_new_local, Ecl, andb_false_r, orb_false_r in Ep by done. apply Hdis in Ep; [congruence|done].
  - assert (match idx with None => net_rq_state r | Some k =>
     <[k := if match idx with Some _ => false | None => true end then 0 else
        Z.lor (Z.ldiff (if match idx with Some _ => false | None => true end then 0 else net r (default 0%nat idx))
           (Z.ldiff clear RQ_STATE_0_MASK)) (Z.ldiff set RQ_STATE_0_MASK)]> (net_rq_state r) end =
     new_nets idx clear set r) as Hn by by destruct idx.
    rewrite Hn in Ha. injection Ha as <- <- _. split; try done; try (by destruct r).
    + cbn. unfold no_more. by rewrite local_bit.
    + cbn [set_ghost set_refs done_ref]. intros Hs. unfold newly. rewrite net_bit, Hs, andb_false_r by done. cbn. lia.
    + cbn [set_ghost set_refs oos_send_ref]. intros Hs. unfold newly. rewrite net_bit, Hs, andb_false_r by done. cbn. lia.
    + split; [done|]. cbn [set_ghost set_refs oos_send_ref]. lia.
Qed.

Lemma pending_zero : pending_actions r = 0 ->
  submitting r = false /\ lc (local_rq_state r) = 0 /\ forall id, nc (net r id) = 0.
Proof.
  unfold pending_actions. pose proof (lc_nonneg (local_rq_state r)). pose proof (sumz_nonneg nc (net_rq_state r) nc_nonneg).
  intros Hp. split_and!; [by destruct (submitting r); [cbn in Hp; lia|]|destruct (submitting r); cbn in Hp; lia|].
  intros id. unfold net. destruct (net_rq_state r !! id) as [n|] eqn:En; [|done].
  apply (Forall_lookup_1 (fun n => nc n = 0) (net_rq_state r) id); [|done]. apply sumz_zero; [apply nc_nonneg|].
  destruct (submitting r); cbn in Hp; lia.
Qed.

(** A request that waits for nothing has nothing to put. *)
Lemma apply_idle r' p l : apply_rq_state idx clear set r = Ret (r', p, l) -> change_ok idx clear set r ->
  pending_actions r = 0 -> c_put p = 0.
Proof.
  intros Ha [_ _ Hab Hkeep _ _ _ _] (_ & Hl & Hn)%pending_zero.
  assert (flag (local_rq_state r) __RQ_LOCAL_PENDING = true -> flag (local_rq_state r) __RQ_LOCAL_ABORTED = true) as Hla.
  { unfold lc in Hl. pose proof (b2z_range (flag (local_rq_state r) __RQ_COMPLETION_SUSP)). intros Hp. rewrite Hp in Hl.
    destruct (flag (local_rq_state r) __RQ_LOCAL_ABORTED); [done|]. cbn in Hl. lia. }
  assert (flag (local_rq_state r) __RQ_COMPLETION_SUSP = false) as Hsu.
  { unfold lc in Hl. pose proof (b2z_range (flag (local_rq_state r) __RQ_LOCAL_PENDING && negb (flag (local_rq_state r) __RQ_LOCAL_ABORTED))).
    destruct (flag (local_rq_state r) __RQ_COMPLETION_SUSP); [cbn in Hl; lia|done]. }
  set (old := if match idx with Some _ => false | None => true end then 0 else net r (default 0%nat idx)).
  assert (nc old = 0) as Ho by (unfold old; destruct idx; [apply Hn|done]).
  assert (flag old __RQ_NET_PENDING = false /\ drbd_sender_needs_master_bio old = false) as [Hp Hs].
  { unfold nc in Ho. destruct (flag old __RQ_NET_PENDING), (drbd_sender_needs_master_bio old); done. }
  unfold apply_rq_state in Ha. do 2 (case_if_in Ha; [done|]). fold old in Ha. fold (new_local clear set r) in Ha.
  match type of Ha with context [if ?c then Ret _ else _] => destruct c eqn:Eu end; injection Ha as _ <- _; [done|]. cbn [c_put].
  unfold newly, no_more. rewrite Hp, Hs, Hsu, !local_bit by done. cbn [andb Z.b2z].
  destruct (flag set __RQ_LOCAL_ABORTED) eqn:Ea.
  - destruct (Hab eq_refl) as [Hlp Hc]. rewrite (Hla Hlp), Hc, andb_false_r. done.
  - rewrite andb_false_r. destruct (flag (local_rq_state r) __RQ_LOCAL_PENDING) eqn:El; [|done]. specialize (Hla eq_refl).
    destruct (flag clear __RQ_LOCAL_PENDING); [|done]. cbn [andb]. rewrite flag_new_local by done. by rewrite Ea, Hla, Hkeep.
Qed.

Lemma apply_grows r' p l : apply_rq_state idx clear set r = Ret (r', p, l) -> completion_ref r <= completion_ref r'.
Proof.
  intros Ha. unfold apply_rq_state in Ha. do 2 (case_if_in Ha; [done|]).
  match type of Ha with context [if ?c then Ret _ else _] => destruct c eqn:Eu end; injection Ha as <- _ _; [lia|].
  cbn [set_ghost set_refs completion_ref].
  repeat match goal with |- context [Z.b2z ?b] => pose proof (b2z_range b); generalize dependent (Z.b2z b); intros end. lia.
Qed.

Lemma apply_returns : (idx = None -> Z.ldiff set RQ_STATE_0_MASK = 0 /\ Z.ldiff clear RQ_STATE_0_MASK = 0) ->
  exists r' p l, apply_rq_state idx clear set r = Ret (r', p, l).
Proof.
  intros Hn. unfold apply_rq_state. destruct idx as [id|]; cbn [andb].
  - case_if; eauto.
  - destruct (Hn eq_refl) as [-> ->]. cbn [Z.eqb negb]. case_if; eauto.
Qed.

Lemma apply_no_adds r' p l : apply_rq_state idx clear set r = Ret (r', p, l) -> change_ok idx clear set r ->
  adds = false -> completion_ref r' = completion_ref r.
Proof.
  intros Ha [_ _ _ _ _ [_ Hd] _ _] [[[Hp Hq]%orb_false_iff Hlp]%orb_false_iff Hsu]%orb_false_iff.
  set (old := if match idx with Some _ => false | None => true end then 0 else net r (default 0%nat idx)).
  unfold apply_rq_state in Ha. do 2 (case_if_in Ha; [done|]). fold old in Ha. fold (new_local clear set r) in Ha.
  match type of Ha with context [if ?c then Ret _ else _] => destruct c eqn:Eu end; injection Ha as <- _ _; [done|].
  cbn [set_ghost set_refs completion_ref]. unfold newly. rewrite !local_bit, !net_bit by done. rewrite Hp, Hlp, Hsu, !andb_false_r.
  match goal with |- context [Z.b2z (negb ?a && ?b)] => assert (negb a && b = false) as -> end; [|cbn [Z.b2z]; lia].
  unfold drbd_sender_needs_master_bio. destruct idx as [id|]; [|by rewrite flag_0, andb_false_r].
  rewrite !flag_set, !net_bit by done. rewrite Hq, Hd.
  destruct (flag old __RQ_NET_QUEUED), (flag old __RQ_NET_DONE), (flag clear __RQ_NET_QUEUED), (flag set __RQ_NET_DONE); done.
Qed.
End applied.

(** ** The invariant of a request *)

Definition aborted (r : drbd_request) : bool := flag (local_rq_state r) __RQ_LOCAL_ABORTED.

(** A word for a peer: while the peer has to answer, the request is not done there;
    for a write, the barrier of the peer will end it; a word that is in use waits for
    an answer or a barrier, or is done. *)
Definition word_ok (write : bool) (n : Z) : bool :=
  implb (flag n __RQ_NET_PENDING) (negb (flag n __RQ_NET_DONE)) &&
  implb (write && flag n __RQ_NET_PENDING) (flag n __RQ_EXP_BARR_ACK) &&
  implb (any n RQ_NET_MASK) (flag n __RQ_EXP_BARR_ACK || flag n __RQ_NET_PENDING || flag n __RQ_NET_DONE).

(** Queued for the sender and done at the same time: only to send out-of-sync. *)
Definition oos_word (n : Z) : bool := implb (flag n __RQ_NET_QUEUED && flag n __RQ_NET_DONE) (flag n __RQ_NET_PENDING_OOS).

Record words_inv (r : drbd_request) : Prop := {
  wi_words : Forall (fun n => word_ok (flag (local_rq_state r) __RQ_WRITE) n = true) (net_rq_state r);
  (* a read goes to the local disk or to a peer *)
  wi_local : flag (local_rq_state r) __RQ_LOCAL_PENDING || aborted r = true -> flag (local_rq_state r) __RQ_WRITE = false ->
             Forall (fun n => flag n __RQ_NET_PENDING = false) (net_rq_state r);
  wi_read : r_op_read r = true -> flag (local_rq_state r) __RQ_WRITE = false;
  wi_abort : aborted r = true -> flag (local_rq_state r) __RQ_LOCAL_PENDING = true -> base_done r = true }.

(** A request that waits for something can be completed later. *)
Record ready (r : drbd_request) : Prop := {
  rd_bio : master_bio r = true;
  rd_base : base_done r = true;
  rd_words : Forall (fun n => oos_word n = true) (net_rq_state r) }.

Record life (r : drbd_request) : Prop := {
  lf_waiting : pending_actions r <> 0 -> ready r /\ flag (local_rq_state r) __RQ_POSTPONED = false;
  lf_completed : pending_actions r = 0 -> master_bio r = flag (local_rq_state r) __RQ_POSTPONED;
  lf_oos : no_oos_postponed r }.

Record req_inv (r : drbd_request) : Prop := {
  ri_ref : completion_ref r = pending_actions r;
  ri_words : words_inv r;
  ri_life : aborted r = false -> life r }.

Lemma quiet_word_ok w n n' : quiet_word n n' -> word_ok w n' = word_ok w n.
Proof. intros [Hq Hm]. unfold word_ok. by rewrite !Hq, Hm. Qed.

Lemma Forall_quiet (P : Z -> Prop) l l' : (forall n n', quiet_word n n' -> P n -> P n') -> Forall2 quiet_word l l' ->
  Forall P l -> Forall P l'.
Proof. intros HP. induction 1; [done|]. intros [? ?]%Forall_cons. constructor; eauto. Qed.

Lemma words_inv_walk r r' : walk_req r r' -> words_inv r -> words_inv r'.
Proof.
  intros [Hn Hs _ _ _] [H1 H2 H3 H4].
  assert (local_rq_state r' = local_rq_state r /\ base_done r' = base_done r /\ r_op_read r' = r_op_read r)
    as (El & Eb & Eo) by (by rewrite Hs).
  split; unfold aborted; rewrite ?El, ?Eb, ?Eo; [|intros Ha Hw|done|done].
  - eapply Forall_quiet, H1; [|done]. intros n n' Hq Hw. by rewrite (quiet_word_ok _ n).
  - eapply Forall_quiet, H2; [|done|done|done]. intros n n' [Hq _] Hp. by rewrite Hq.
Qed.

Lemma ready_undone r : ready r -> undone r <> 0.
Proof. intros [_ Hb _]. unfold undone. rewrite Hb. pose proof (sumz_nonneg bc (net_rq_state r) bc_nonneg). cbn. lia. Qed.

Lemma req_inv_walk r r' : walk_req r r' -> req_inv r -> req_inv r'.
Proof.
  intros Hw [H1 H2 H3]. destruct (walk_counts _ _ Hw) as (Ep & _ & _). pose proof (words_inv_walk _ _ Hw H2) as H2'.
  destruct Hw as [Hn Hs _ _ Hu].
  assert (local_rq_state r' = local_rq_state r /\ base_done r' = base_done r /\ master_bio r' = master_bio r /\
    completion_ref r' = completion_ref r) as (El & Eb & Em & Ec) by (by rewrite Hs).
  split; [congruence|done|]. unfold aborted in *. rewrite El. intros Ha. destruct (H3 Ha) as [L1 L2 L3].
  split; rewrite ?Ep, ?El, ?Em; [|done|].
  - intros Hp. destruct (L1 Hp) as [Hrd Hpp]. split; [|done]. pose proof (ready_undone _ Hrd) as Hne. destruct Hrd.
    split; [congruence|congruence|]. by rewrite (Hu Hne).
  - apply (quiet_no_oos r (set_rq_state (local_rq_state r) (net_rq_state r') r)) in L3; [by rewrite Hs|]. by split.
Qed.

(** A request that is done is fit to be reported as done. *)
Lemma req_inv_done_safe e r : req_inv r -> aborted r = false -> undone r = 0 -> done_safe e r.
Proof.
  intros [H1 H2 H3] Ha Hu. destruct (H3 Ha) as [L1 L2 L3].
  assert (pending_actions r = 0) as Hp.
  { destruct (decide (pending_actions r = 0)) as [|Hne]; [done|]. destruct (L1 Hne) as [?%ready_undone _]. done. }
  unfold pending_actions, undone in *.
  pose proof (sumz_nonneg bc (net_rq_state r) bc_nonneg). pose proof (sumz_nonneg nc (net_rq_state r) nc_nonneg).
  pose proof (b2z_range (base_done r)). pose proof (b2z_range (submitting r)). pose proof (lc_nonneg (local_rq_state r)).
  assert (Forall (fun n => bc n = 0) (net_rq_state r)) as Fb by (apply sumz_zero; [apply bc_nonneg|lia]).
  assert (Forall (fun n => nc n = 0) (net_rq_state r)) as Fn by (apply sumz_zero; [apply nc_nonneg|lia]).
  assert (lc (local_rq_state r) = 0) as Fl by lia.
  split; [| |done].
  - unfold not_net_done. apply not_true_iff_false. intros (idx & _ & Hx)%existsb_exists. unfold net in Hx.
    destruct (net_rq_state r !! idx) as [n|] eqn:En; [|done]. cbn in Hx. apply andb_true_iff in Hx as [Hx Hd%negb_true_iff].
    pose proof (Forall_lookup_1 _ _ _ _ Fb En) as Zb. pose proof (Forall_lookup_1 _ _ _ _ Fn En) as Zn.
    pose proof (Forall_lookup_1 _ _ _ _ (wi_words _ H2) En) as Hw. cbn in Zb, Zn, Hw. unfold word_ok in Hw. rewrite Hx, Hd in Hw.
    unfold bc, nc in Zb, Zn. rewrite Hd in Zb. destruct (flag n __RQ_EXP_BARR_ACK); [done|].
    destruct (flag n __RQ_NET_PENDING); [|by rewrite !andb_false_r in Hw].
    pose proof (b2z_range (drbd_sender_needs_master_bio n)). cbn in Zn. lia.
  - apply orb_false_iff. split; [apply orb_false_iff; split|].
    + rewrite (L2 Hp). apply andb_negb_r.
    + apply negb_false_iff, Z.eqb_eq. rewrite H1. unfold pending_actions. lia.
    + unfold lc in Fl. unfold aborted in Ha. rewrite Ha in Fl. destruct (flag (local_rq_state r) __RQ_LOCAL_PENDING); [|done].
      pose proof (b2z_range (flag (local_rq_state r) __RQ_COMPLETION_SUSP)). cbn in Fl. lia.
Qed.

(** ** The invariant of the resource *)

Definition completion_of (k : nat) (x : nat * effect) : bool :=
  bool_decide (x.1 = k) && match x.2 with COMPLETE_BIO _ => true | _ => false end.
(** How often the bio of request [k] has been completed. *)
Definition completions (s : drbd_resource) (k : nat) : nat := length (List.filter (completion_of k) (log s)).

Record log_inv (s : drbd_resource) : Prop := {
  lg_completed k : completions s k = match reqs s !! k with Some r => if master_bio r then 0%nat else 1%nat | None => 0%nat end;
  lg_bug k : (k, LOGIC_BUG) ∈ log s -> exists r, reqs s !! k = Some r /\ aborted r = true;
  lg_restart k : (k, RESTART_REQUEST) ∈ log s -> exists r, reqs s !! k = Some r /\ aborted r = false /\
    pending_actions r = 0 /\ flag (local_rq_state r) __RQ_POSTPONED = true;
  lg_al k : (k, AL_COMPLETE_IO) ∈ log s -> exists r, reqs s !! k = Some r /\ undone r = 0 }.

Record res_inv (s : drbd_resource) (D O : nat -> Z) : Prop := {
  rs_chain : chain_inv s D O;
  rs_req k r : reqs s !! k = Some r -> req_inv r;
  rs_log : log_inv s }.

(** Changes that the log does not have to tell. *)
Record same_life (r r' : drbd_request) : Prop := {
  sl_bio : master_bio r' = master_bio r;
  sl_postponed : flag (local_rq_state r') __RQ_POSTPONED = flag (local_rq_state r) __RQ_POSTPONED;
  sl_aborted : aborted r = true -> aborted r' = true;
  sl_idle : pending_actions r = 0 -> aborted r = false -> pending_actions r' = 0 /\ aborted r' = false;
  sl_undone : undone r = 0 -> undone r' = 0 }.

Lemma walk_same_life r r' : walk_req r r' -> same_life r r'.
Proof.
  intros Hw. destruct (walk_counts _ _ Hw) as (Ep & Eu & _). destruct Hw as [_ Hs _ _ _].
  assert (local_rq_state r' = local_rq_state r /\ master_bio r' = master_bio r) as [El Em] by (by rewrite Hs).
  unfold aborted. split; unfold aborted; rewrite ?El, ?Ep, ?Eu; auto.
Qed.

Definition is_aborted (s : drbd_resource) (k : nat) : Prop := exists r, reqs s !! k = Some r /\ aborted r = true.

Definition is_done (s : drbd_resource) (k : nat) : Prop := exists r, reqs s !! k = Some r /\ undone r = 0.
Definition allowed (s : drbd_resource) (x : nat * effect) : Prop :=
  match x.2 with LOGIC_BUG => is_aborted s x.1 | AL_COMPLETE_IO => is_done s x.1 | _ => True end.

Lemma log_inv_calm s s' : Forall2 same_life (reqs s) (reqs s') -> log_ext (allowed s) s s' -> log_inv s -> log_inv s'.
Proof.
  intros Hl (ext & Hext & Hc) [H1 H2 H3 H4].
  assert (forall k, is_done s k -> is_done s' k) as Hdn.
  { intros k (r & Hr & Hu). destruct (Forall2_lookup_l _ _ _ _ _ Hl Hr) as (r' & Hr' & Hs). exists r'. by split; [|apply Hs]. }
  assert (forall k, is_aborted s k -> is_aborted s' k) as Hab.
  { intros k (r & Hr & Ha). destruct (Forall2_lookup_l _ _ _ _ _ Hl Hr) as (r' & Hr' & Hs). exists r'. by split; [|apply Hs]. }
  split.
  - intros k. unfold completions. rewrite Hext, List.filter_app, length_app. fold (completions s k). rewrite H1.
    assert (List.filter (completion_of k) ext = []) as ->.
    { clear -Hc. induction Hc as [|[j ef] l Hx _ IH]; [done|]. cbn. unfold completion_of at 1. cbn [fst snd].
      destruct ef; rewrite ?andb_false_r; done. }
    rewrite Nat.add_0_r. destruct (reqs s !! k) as [r|] eqn:Er.
    + destruct (Forall2_lookup_l _ _ _ _ _ Hl Er) as (r' & -> & Hs). by rewrite (sl_bio _ _ Hs).
    + apply lookup_ge_None in Er. rewrite (Forall2_length _ _ _ Hl) in Er. apply lookup_ge_None in Er. by rewrite Er.
  - intros k. rewrite Hext, elem_of_app. intros [Hb|Hb]; apply Hab; [by apply H2|].
    by rewrite Forall_forall in Hc; apply Hc in Hb.
  - intros k. rewrite Hext, elem_of_app. intros [Hb|Hb]; [|by rewrite Forall_forall in Hc; apply Hc in Hb].
    destruct (H3 k Hb) as (r & Hr & Ha & Hp & Hpp). destruct (Forall2_lookup_l _ _ _ _ _ Hl Hr) as (r' & Hr' & Hs).
    exists r'. destruct (sl_idle _ _ Hs Hp Ha). by rewrite (sl_postponed _ _ Hs).
  - intros k. rewrite Hext, elem_of_app. intros [Hb|Hb]; apply Hdn; [by apply H4|].
    by rewrite Forall_forall in Hc; apply Hc in Hb.
Qed.

Lemma res_quiet_done e s : (forall k r, reqs s !! k = Some r -> req_inv r) -> quiet_done (allowed s) e s.
Proof.
  intros Hs k r Hr Hu. split; [by exists r|]. destruct (aborted r) eqn:Ea; [left; by exists r|right]. by apply req_inv_done_safe; [eapply Hs|..].
Qed.

(** The walk keeps the invariant. *)
Lemma walk_res_inv e i pd po s D O : res_inv s D O -> (i < length (reqs s))%nat -> 0 <= pd <= D i -> 0 <= po <= O i ->
  res_inv (drbd_put_ref_tl_walk e i pd po s) (take (Some i) pd D) (take (Some i) po O) /\
  Forall2 walk_req (reqs s) (reqs (drbd_put_ref_tl_walk e i pd po s)).
Proof.
  intros [Hc Hr Hl] Hi Hpd Hpo.
  destruct (walk_inv (allowed s) (length (reqs s)) e i pd po s D O Hc (res_quiet_done e s Hr) Hi ltac:(lia) Hpd Hpo)
    as (W1 & W2 & W3 & _). split; [split|done].
  - done.
  - intros k r' Hk. destruct (Forall2_lookup_r _ _ _ _ _ W2 Hk) as (r & Hk' & Hw). by eapply req_inv_walk, Hr.
  - eapply log_inv_calm; [|apply W3|done]. eapply Forall2_impl; [apply W2|]. apply walk_same_life.
Qed.

(** ** Completion *)

Definition is_complete (ef : effect) : bool := match ef with COMPLETE_BIO _ => true | _ => false end.

Lemma completions_own i k l effs :
  length (List.filter (completion_of k) (l ++ (pair i <$> effs))) =
  (length (List.filter (completion_of k) l) + if decide (i = k) then length (List.filter is_complete effs) else 0)%nat.
Proof.
  rewrite List.filter_app, length_app. f_equal. induction effs as [|ef effs IH]; [by case_decide|].
  cbn. unfold completion_of at 1. cbn [fst snd]. case_decide as Hk.
  - rewrite bool_decide_eq_true_2 by done. destruct ef; cbn; rewrite IH; done.
  - rewrite bool_decide_eq_false_2 by done. done.
Qed.

(** Request [i] changes, and says so in the log. *)
Lemma log_inv_own i s s' r r' effs :
  reqs s !! i = Some r -> reqs s' = <[i := r']> (reqs s) -> log s' = log s ++ (pair i <$> effs) ->
  (if master_bio r' then 0 else 1)%nat = ((if master_bio r then 0 else 1) + length (List.filter is_complete effs))%nat ->
  aborted r' = aborted r -> ((undone r = 0 -> undone r' = 0) /\ AL_COMPLETE_IO ∉ effs) -> (LOGIC_BUG ∈ effs -> aborted r' = true) ->
  (RESTART_REQUEST ∈ effs \/ (i, RESTART_REQUEST) ∈ log s ->
   aborted r' = false /\ pending_actions r' = 0 /\ flag (local_rq_state r') __RQ_POSTPONED = true) ->
  log_inv s -> log_inv s'.
Proof.
  intros Hi Hs Hlog Hm Ha [Hu Hal] Hbug Hre [H1 H2 H3 H4].
  assert (reqs s' !! i = Some r') as Hi' by (rewrite Hs; apply list_lookup_insert_eq; by eapply lookup_lt_Some).
  assert (forall ef, (i, ef) ∈ pair i <$> effs -> ef ∈ effs) as Hel.
  { intros ef (x & [=] & Hx)%list_elem_of_fmap. by subst. }
  split.
  - intros k. unfold completions. rewrite Hlog, completions_own. fold (completions s k). rewrite H1.
    case_decide as Hk; [subst k; by rewrite Hi, Hi', Hm|]. by rewrite Hs, list_lookup_insert_ne, Nat.add_0_r.
  - intros k. rewrite Hlog, elem_of_app. intros Hb. destruct (decide (k = i)) as [-> |Hne].
    + exists r'. split; [done|]. destruct Hb as [(x & Hx & Hax)%H2|Hb%Hel]; [|by apply Hbug]. rewrite Ha. by simplify_eq.
    + destruct Hb as [(x & Hx & Hax)%H2|(? & [=] & _)%list_elem_of_fmap]; [|done]. exists x. by rewrite Hs, list_lookup_insert_ne.
  - intros k. rewrite Hlog, elem_of_app. intros Hb. destruct (decide (k = i)) as [-> |Hne].
    + exists r'. split; [done|]. apply Hre. destruct Hb as [Hb|Hb%Hel]; auto.
    + destruct Hb as [(x & Hx & Hax)%H3|(? & [=] & _)%list_elem_of_fmap]; [|done]. exists x. by rewrite Hs, list_lookup_insert_ne.
  - intros k. rewrite Hlog, elem_of_app. intros Hb. destruct (decide (k = i)) as [-> |Hne].
    + exists r'. split; [done|]. destruct Hb as [(x & Hx & Hux)%H4|Hb%Hel]; [|done]. apply Hu. by simplify_eq.
    + destruct Hb as [(x & Hx & Hux)%H4|(? & [=] & _)%list_elem_of_fmap]; [|done]. exists x. by rewrite Hs, list_lookup_insert_ne.
Qed.

(** The same without a word. *)
Lemma log_inv_silent i s s' r r' :
  reqs s !! i = Some r -> reqs s' = <[i := r']> (reqs s) -> log s' = log s -> master_bio r' = master_bio r ->
  aborted r' = aborted r -> (undone r = 0 -> undone r' = 0) ->
  ((i, RESTART_REQUEST) ∈ log s ->
   aborted r' = false /\ pending_actions r' = 0 /\ flag (local_rq_state r') __RQ_POSTPONED = true) ->
  log_inv s -> log_inv s'.
Proof.
  intros Hi Hs Hl Hm Ha Hu Hre. apply (log_inv_own i s s' r r' []); try done.
  - cbn. by rewrite app_nil_r.
  - rewrite Hm. cbn. by destruct (master_bio r).
  - split; [done|apply not_elem_of_nil].
  - by intros ?%elem_of_nil.
  - intros [Hno|?]; [by apply elem_of_nil in Hno|by apply Hre].
Qed.

(** A request after [drbd_req_complete]. *)
Record completed (r r' : drbd_request) : Prop := {
  cm_same : r' = set_master_bio (master_bio r') (set_rq_state (local_rq_state r') (net_rq_state r) r);
  cm_local k : 0 <= k -> k <> __RQ_POSTPONED -> flag (local_rq_state r') k = flag (local_rq_state r) k }.

Lemma completed_refl r : completed r r.
Proof. by split; [destruct r|]. Qed.

Lemma completed_counts r r' : completed r r' ->
  pending_actions r' = pending_actions r /\ undone r' = undone r /\ queued r' = queued r.
Proof.
  intros [Hs Hl]. unfold pending_actions, undone, queued, lc. rewrite !Hl by done. by rewrite Hs.
Qed.

Lemma completed_words r r' : completed r r' -> words_inv r -> words_inv r'.
Proof.
  intros [Hs Hl] [H1 H2 H3 H4].
  assert (net_rq_state r' = net_rq_state r /\ base_done r' = base_done r /\ r_op_read r' = r_op_read r)
    as (En & Eb & Eo) by (by rewrite Hs).
  by split; unfold aborted; rewrite ?En, ?Eb, ?Eo, ?Hl.
Qed.

Lemma rq_clearbit n j k : 0 <= j -> k <> j -> flag (Z.clearbit n j) k = flag n k.
Proof. intros. unfold flag. by apply Z.clearbit_neq. Qed.
Lemma rq_setbit n j k : 0 <= j -> k <> j -> flag (Z.setbit n j) k = flag n k.
Proof. intros. unfold flag. by apply Z.setbit_neq. Qed.

Lemma postpone_completed e r : completed r (postpone e r).
Proof.
  unfold postpone. case_if; [|case_if; [|apply completed_refl]]; (split; [by destruct r|]); cbn; intros k Hk Hne.
  - by apply rq_clearbit.
  - by apply rq_setbit.
Qed.

Lemma postpone_bio e r : master_bio (postpone e r) = master_bio r.
Proof. unfold postpone. case_if; [done|]. by case_if. Qed.

Lemma postpone_no_oos e r : words_inv r -> no_oos_postponed r -> no_oos_postponed (postpone e r).
Proof.
  intros Hw Hn. unfold postpone. case_if; [|case_if; [|done]]; intros Hp Hwr; cbn in *.
  - exfalso. unfold flag in Hp. by rewrite Z.clearbit_eq in Hp.
  - exfalso. rewrite rq_setbit in Hwr by done. rewrite (wi_read _ Hw) in Hwr; [done|]. by reflect_bools.
Qed.

(** Nothing speaks against the completion. *)
Lemma ready_not_blocked e r : pending_actions r = 0 -> ready r -> completion_blocked e r = false.
Proof.
  intros Hp [_ _ Hw]. unfold completion_blocked. apply not_true_iff_false. intros (idx & _ & Hx)%existsb_exists.
  unfold net in Hx. destruct (net_rq_state r !! idx) as [n|] eqn:En; [|done]. cbn in Hx.
  pose proof (Forall_lookup_1 _ _ _ _ Hw En) as Ho. cbn in Ho.
  assert (nc n = 0) as Hn.
  { unfold pending_actions in Hp. pose proof (b2z_range (submitting r)). pose proof (lc_nonneg (local_rq_state r)).
    pose proof (sumz_nonneg nc (net_rq_state r) nc_nonneg).
    apply (Forall_lookup_1 (fun n => nc n = 0) (net_rq_state r) idx); [|done]. apply sumz_zero; [apply nc_nonneg|lia]. }
  apply andb_true_iff in Hx as [[_ Hoos%negb_true_iff]%andb_true_iff Hx].
  assert (flag n __RQ_NET_PENDING || flag n __RQ_NET_QUEUED = true) as Hf.
  { destruct (flag n __RQ_NET_PENDING) eqn:E1; [done|]. destruct (flag n __RQ_NET_QUEUED) eqn:E2; [done|]. exfalso.
    assert (any n (RQ [__RQ_NET_PENDING; __RQ_NET_QUEUED]) = false) as H0; [|congruence].
    unfold any. apply negb_false_iff, Z.eqb_eq. apply Z.bits_inj'. intros k Hk. rewrite Z.land_spec, Z.bits_0.
    fold (flag n k) (flag (RQ [__RQ_NET_PENDING; __RQ_NET_QUEUED]) k). rewrite flag_RQ by (try done; by repeat constructor).
    case_bool_decide as Hel; [|by rewrite andb_false_r]. rewrite !elem_of_cons, elem_of_nil in Hel.
    destruct Hel as [-> |[-> |[]]]; by rewrite ?E1, ?E2. }
  unfold nc, drbd_sender_needs_master_bio in Hn. unfold oos_word in Ho. rewrite Hoos in Ho.
  destruct (flag n __RQ_NET_PENDING), (flag n __RQ_NET_QUEUED), (flag n __RQ_NET_DONE); done.
Qed.

(** The request and the effects of a completion that is not refused. *)
Definition complete_req (e : req_env) (r : drbd_request) : drbd_request :=
  let r1 := postpone e r in if flag (local_rq_state r1) __RQ_POSTPONED then r1 else set_master_bio false r1.
Definition complete_effects (e : req_env) (r : drbd_request) : list effect :=
  let write := flag (local_rq_state r) __RQ_WRITE in
  (if flag (local_rq_state (postpone e r)) __RQ_POSTPONED then []
   else COMPLETE_BIO (succeeded_somewhere e r && negb (cached_err_io e) && quorum e) :: when write [RELEASE_CONFLICTS]) ++
  (if write then [] else [REMOVE_READ_INTERVAL]) ++ [DEL_PENDING_MASTER_COMPLETION].

Record complete_fits (e : req_env) (r : drbd_request) : Prop := {
  cf_blocked : completion_blocked e r = false;
  cf_ref : completion_ref r = 0;
  cf_local : flag (local_rq_state r) __RQ_LOCAL_PENDING && negb (aborted r) = false;
  cf_bio : master_bio r = true }.

Lemma drbd_req_complete_ok e i s r : reqs s !! i = Some r -> complete_fits e r ->
  let s' := drbd_req_complete e i s in
  reqs s' = <[i := complete_req e r]> (reqs s) /\ tl_previous_write s' = tl_previous_write s /\
  log s' = log s ++ (pair i <$> complete_effects e r).
Proof.
  intros Hr [H1 H2 H3 H4] s'. unfold s', drbd_req_complete. rewrite (req_lookup _ _ _ Hr), H1, H2. fold (aborted r).
  rewrite H3, H4. cbn [negb orb Z.eqb].
  set (s1 := if (flag (local_rq_state r) __RQ_WRITE && _ && _) then start_new_tl_epoch s else s).
  assert (reqs s1 = reqs s /\ tl_previous_write s1 = tl_previous_write s /\ log s1 = log s) as (R1 & P1 & L1).
  { unfold s1, start_new_tl_epoch. case_if; [|done]. by case_if. }
  assert (reqs s1 !! i = Some r) as Hr1 by by rewrite R1.
  assert (req (upd i (postpone e) s1) i = postpone e r) as ->.
  { apply req_lookup. cbn. by rewrite list_lookup_alter_eq, Hr1. }
  unfold complete_req, complete_effects. cbn [reqs tl_previous_write log emit upd].
  destruct (flag (local_rq_state (postpone e r)) __RQ_POSTPONED) eqn:Epp;
    destruct (flag (local_rq_state r) __RQ_WRITE) eqn:Ew; cbn [reqs tl_previous_write log emit upd app];
    rewrite ?P1, ?L1, ?fmap_app, ?app_assoc, ?fmap_cons, ?fmap_nil; (split_and!; [|done|by rewrite <- ?app_assoc]).
  all: rewrite ?(alter_as_insert (postpone e) _ _ _ Hr1), R1; try done.
  all: rewrite (alter_as_insert _ _ _ (postpone e r)); [by rewrite list_insert_insert_eq|];
    apply list_lookup_insert_eq; by eapply lookup_lt_Some.
Qed.

Lemma drbd_req_complete_bug e i s r : reqs s !! i = Some r -> ~ complete_fits e r ->
  drbd_req_complete e i s = emit i [LOGIC_BUG] s.
Proof.
  intros Hr Hn. unfold drbd_req_complete. rewrite (req_lookup _ _ _ Hr). fold (aborted r).
  destruct (completion_blocked e r) eqn:E1; [done|]. destruct (Z.eqb_spec (completion_ref r) 0) as [E2|E2]; [|done].
  destruct (flag (local_rq_state r) __RQ_LOCAL_PENDING && negb (aborted r)) eqn:E3; [done|].
  destruct (master_bio r) eqn:E4; [|done]. exfalso. by apply Hn.
Qed.

Lemma complete_req_completed e r : completed r (complete_req e r).
Proof.
  unfold complete_req. destruct (postpone_completed e r) as [Hs Hl]. case_if; [done|]. split; [|done]. cbn. rewrite Hs. done.
Qed.

#[export] Instance complete_fits_dec e r : Decision (complete_fits e r).
Proof.
  destruct (decide (completion_blocked e r = false /\ completion_ref r = 0 /\
    flag (local_rq_state r) __RQ_LOCAL_PENDING && negb (aborted r) = false /\ master_bio r = true)) as [(?&?&?&?)|Hn].
  - by left.
  - right. by intros [? ? ? ?]; apply Hn.
Defined.

Lemma complete_inv e i s r :
  reqs s !! i = Some r -> completion_ref r = 0 -> pending_actions r = 0 -> words_inv r ->
  (aborted r = false -> ready r /\ no_oos_postponed r) -> (i, RESTART_REQUEST) ∉ log s -> log_inv s ->
  let s' := drbd_req_complete e i s in
  exists r', reqs s' = <[i := r']> (reqs s) /\ tl_previous_write s' = tl_previous_write s /\
    log_inv s' /\ (i, RESTART_REQUEST) ∉ log s' /\ completed r r' /\ (aborted r = false -> life r').
Proof.
  intros Hr Hc Hp Hw Hrd Hre Hlog s'. unfold s'. destruct (decide (complete_fits e r)) as [Hf|Hf].
  - destruct (drbd_req_complete_ok e i s r Hr Hf) as (R & P & L). pose proof (complete_req_completed e r) as Hcm.
    exists (complete_req e r). destruct (completed_counts _ _ Hcm) as (Ep & Eu & _).
    assert (aborted (complete_req e r) = aborted r) as Ea by (by apply (cm_local _ _ Hcm)).
    assert (LOGIC_BUG ∉ complete_effects e r /\ RESTART_REQUEST ∉ complete_effects e r /\ AL_COMPLETE_IO ∉ complete_effects e r) as (Nb & Nr & Na).
    { assert (Forall (fun ef => ef <> LOGIC_BUG /\ ef <> RESTART_REQUEST /\ ef <> AL_COMPLETE_IO) (complete_effects e r)) as HF.
      { unfold complete_effects, when. destruct (flag (local_rq_state (postpone e r)) __RQ_POSTPONED), (flag (local_rq_state r) __RQ_WRITE);
          by repeat constructor. }
      rewrite Forall_forall in HF. split_and!; intros Hx%HF; by destruct Hx as (? & ? & ?). }
    assert ((i, RESTART_REQUEST) ∉ log (drbd_req_complete e i s)) as Nr'.
    { rewrite L, elem_of_app. intros [?|(x & [=] & Hx)%list_elem_of_fmap]; [done|by subst]. }
    split_and!; [done|done| |done|done|].
    + eapply (log_inv_own i s _ r (complete_req e r)); [done|done|done| |done|split; [by rewrite Eu|done]|done| |done].
      * unfold complete_req, complete_effects. rewrite (cf_bio _ _ Hf).
        destruct (flag (local_rq_state (postpone e r)) __RQ_POSTPONED) eqn:Epp.
        -- rewrite postpone_bio, (cf_bio _ _ Hf). by case_if.
        -- cbn. unfold when. case_if; done.
      * intros [?|?]; done.
    + intros Ha. destruct (Hrd Ha) as [[B1 B2 B3] Hno]. split; [by rewrite Ep, Hp| |].
      * intros _. unfold complete_req. destruct (flag (local_rq_state (postpone e r)) __RQ_POSTPONED) eqn:Epp; [|done].
        rewrite Epp, (cm_same _ _ (postpone_completed e r)). cbn. by rewrite postpone_bio.
      * pose proof (postpone_no_oos e r Hw Hno) as Hpo. unfold complete_req. case_if; done.
  - rewrite (drbd_req_complete_bug e i s r Hr Hf). assert (aborted r = true) as Ha.
    { destruct (aborted r) eqn:Ha; [done|]. exfalso. apply Hf. destruct (Hrd eq_refl) as [Hrdy _]. split; [|done| |apply Hrdy].
      - by apply ready_not_blocked.
      - unfold pending_actions, lc in Hp. unfold aborted in Ha. unfold aborted. rewrite Ha in *.
        pose proof (b2z_range (submitting r)). pose proof (sumz_nonneg nc (net_rq_state r) nc_nonneg).
        pose proof (b2z_range (flag (local_rq_state r) __RQ_COMPLETION_SUSP)).
        destruct (flag (local_rq_state r) __RQ_LOCAL_PENDING); [cbn in Hp; lia|done]. }
    assert ((i, RESTART_REQUEST) ∉ log (emit i [LOGIC_BUG] s)) as Nr'.
    { cbn. rewrite elem_of_app, list_elem_of_singleton. intros [?|[=]]; done. }
    exists r. split_and!; [cbn; by rewrite list_insert_id|done| |done|apply completed_refl|congruence].
    eapply (log_inv_own i s _ r r); [done|cbn; by rewrite list_insert_id|done|by destruct (master_bio r)|done| |done| |done].
    + split; [done|]. by intros [=]%list_elem_of_singleton.
    + rewrite list_elem_of_singleton. intros [[=]|?]. done.
Qed.

(** ** Putting references to the completion *)

(** No request leaves the transfer log. *)
Definition no_sent (s s' : drbd_resource) : Prop := forall k, (k, OOS_SENT) ∈ log s' -> (k, OOS_SENT) ∈ log s.

Lemma no_sent_emit i l s s' : OOS_SENT ∉ l -> log s' = log s ++ (pair i <$> l) -> no_sent s s'.
Proof. intros Hl Hlog k. rewrite Hlog, elem_of_app. intros [?|(ef & [= _ <-] & ?)%list_elem_of_fmap]; done. Qed.

#[export] Hint Extern 0 (no_sent _ _) => (let k := fresh "k" in let Hk := fresh "Hk" in intros k Hk; exact Hk) : core.

(** Request [i] changes; it has [d] and [o] references more to put. *)
Lemma chain_inv_own s s' i r r' d o D O :
  chain_inv s D O -> reqs s !! i = Some r -> reqs s' = <[i := r']> (reqs s) -> tl_previous_write s' = tl_previous_write s ->
  no_sent s s' -> next_write r' = next_write r -> INTERVAL_DONE r' = INTERVAL_DONE r ->
  (0 <? done_ref r') = (0 <? done_ref r) -> (0 <? oos_send_ref r') = (0 <? oos_send_ref r) ->
  done_ref r' - undone r' = done_ref r - undone r + d -> oos_send_ref r' - queued r' = oos_send_ref r - queued r + o ->
  0 <= D i + d -> 0 <= O i + o ->
  chain_inv s' (take (Some i) (- d) D) (take (Some i) (- o) O).
Proof.
  intros [C1 C2 C3 C4 C5] Hr Hs Hp Hsent Hn Hi Hd Ho Hdd Hoo HD HO.
  assert (0 <= done_ref r) as Hpos.
  { destruct (C3 i r Hr) as [E _]. pose proof (undone_nonneg r). pose proof (b2z_range (pred_undone s i)). pose proof (C4 i). lia. }
  split.
  - by apply (links_inv_insert s s' i r r').
  - apply (last_write_insert s s' i r r'); [done..|by right|]. intros _ Hlt Hdone. split; [by rewrite <- Z.ltb_lt, Ho, Z.ltb_lt|].
    rewrite Hi, Hdone.
    destruct (Z.eqb_spec (done_ref r) 0) as [E|E], (Z.eqb_spec (done_ref r') 0) as [E'|E']; try done.
    + rewrite E in Hd. apply Z.ltb_ge in Hd.
      pose proof (undone_nonneg r'). destruct (C3 i r Hr) as [E1 _]. pose proof (undone_nonneg r).
      pose proof (b2z_range (pred_undone s i)). pose proof (C4 i). lia.
    + rewrite E' in Hd. symmetry in Hd. apply Z.ltb_ge in Hd. lia.
  - apply (ref_inv_insert s s' i r r' D O); [done..| |].
    + unfold take. rewrite !decide_True by done. rewrite Hd. lia.
    + intros k Hk. unfold take. rewrite !(decide_False (P := Some i = Some k)) by congruence. rewrite Hd, Ho, !Z.sub_diag.
      destruct (decide (next_write r = Some k)); lia.
  - intros k. specialize (C4 k). unfold take. destruct (decide (Some i = Some k)); simplify_eq; lia.
  - intros k Hk%Hsent. destruct (C5 k Hk) as (x & Hx & Hle). rewrite Hs. destruct (decide (k = i)) as [-> |Hne].
    + simplify_eq. exists r'. rewrite list_lookup_insert_eq by (by eapply lookup_lt_Some). split; [done|]. apply Z.ltb_ge. rewrite Ho. by apply Z.ltb_ge.
    + exists x. by rewrite list_lookup_insert_ne.
Qed.

(** The same if the counters stay. *)
Lemma chain_inv_own_same s s' i r r' D O :
  chain_inv s D O -> reqs s !! i = Some r -> reqs s' = <[i := r']> (reqs s) -> tl_previous_write s' = tl_previous_write s ->
  no_sent s s' -> next_write r' = next_write r -> INTERVAL_DONE r' = INTERVAL_DONE r -> done_ref r' = done_ref r ->
  oos_send_ref r' = oos_send_ref r -> undone r' = undone r -> queued r' = queued r -> chain_inv s' D O.
Proof.
  intros HC Hr Hs Hp Hsent Hn Hi Hd Ho Hu Hq. pose proof (ci_nonneg _ _ _ HC i).
  assert (chain_inv s' (take (Some i) (- 0) D) (take (Some i) (- 0) O)) as H1.
  { apply (chain_inv_own s s' i r r'); try done; rewrite ?Hd, ?Ho, ?Hu, ?Hq; done || lia. }
  eapply chain_inv_ext, H1; intros k; apply take_zero.
Qed.

(** Request [i] has [c] references to the completion that are about to be put. *)
Definition own_ok (c : Z) (r : drbd_request) : Prop :=
  if c =? 0 then life r
  else ready r /\ no_oos_postponed r /\ (pending_actions r <> 0 -> flag (local_rq_state r) __RQ_POSTPONED = false).

Record mid (s : drbd_resource) (i : nat) (c : Z) (D O : nat -> Z) : Prop := {
  md_chain : chain_inv s D O;
  md_req k r : k <> i -> reqs s !! k = Some r -> req_inv r;
  md_log : log_inv s;
  md_own : exists r, reqs s !! i = Some r /\ completion_ref r = pending_actions r + c /\ words_inv r /\
             (aborted r = false -> own_ok c r);
  md_restart : c <> 0 -> (i, RESTART_REQUEST) ∉ log s }.

Lemma req_inv_insert (i : nat) r' (l : list drbd_request) : (forall k r, k <> i -> l !! k = Some r -> req_inv r) -> req_inv r' ->
  forall k r, <[i := r']> l !! k = Some r -> req_inv r.
Proof. intros Ho Hr k r. rewrite list_lookup_insert_Some. intros [(-> & <- & _)|[Hne Hx]]; [done|by apply (Ho k)]. Qed.

(** What putting references leaves alone. *)
Record put_req (r r' : drbd_request) : Prop := {
  pr_nets : Forall2 quiet_word (net_rq_state r) (net_rq_state r');
  pr_local k : 0 <= k -> k <> __RQ_POSTPONED -> flag (local_rq_state r') k = flag (local_rq_state r) k;
  pr_sub : submitting r' = submitting r }.

#[export] Instance put_req_preorder : PreOrder put_req.
Proof.
  split; [by intros r; split|]. intros a b c [N1 L1 S1] [N2 L2 S2]. split; [by etransitivity| |congruence].
  intros k Hk Hne. by rewrite L2, L1.
Qed.
#[export] Instance put_reqs_preorder : PreOrder (Forall2 put_req).
Proof. split; [intros l; reflexivity|intros a b c; apply transitivity]. Qed.

Lemma walk_put r r' : walk_req r r' -> put_req r r'.
Proof. intros [Hn Hs _ _ _]. split; [done|by rewrite Hs|by rewrite Hs]. Qed.
Lemma completed_put r r' : completed r r' -> put_req r r'.
Proof. intros [Hs Hl]. split; [by rewrite Hs|done|by rewrite Hs]. Qed.
Lemma put_reqs_insert i r r' l : l !! i = Some r -> put_req r r' -> Forall2 put_req l (<[i := r']> l).
Proof. intros Hi Hp. rewrite <- (list_insert_id l i r Hi) at 1. by apply Forall2_insert. Qed.

(** The reference that goes with the completion. *)
Lemma put_base_done_inv e i s r D O : res_inv s D O -> reqs s !! i = Some r ->
  base_done r = true -> pending_actions r = 0 -> aborted r = false ->
  res_inv (put_base_done e i s) D O /\ Forall2 put_req (reqs s) (reqs (put_base_done e i s)).
Proof.
  intros [Hc Hr Hl] Hi Hb Hp Ha. set (r' := set_ghost (submitting r) false r). unfold put_base_done.
  set (s1 := upd i _ s). pose proof (ci_nonneg _ _ _ Hc i) as Hn.
  assert (reqs s1 = <[i := r']> (reqs s)) as R1 by exact (alter_as_insert _ i (reqs s) r Hi).
  assert (undone r' = undone r - 1) as Hu by (unfold undone, r'; cbn [set_ghost base_done net_rq_state]; rewrite Hb; cbn [Z.b2z]; lia).
  assert (chain_inv s1 (take (Some i) (- 1) D) (take (Some i) (- 0) O)) as C1.
  { apply (chain_inv_own s s1 i r r' 1 0); try done; rewrite ?Hu; change (done_ref r') with (done_ref r);
      change (oos_send_ref r') with (oos_send_ref r); change (queued r') with (queued r); lia. }
  assert (res_inv s1 (take (Some i) (- 1) D) (take (Some i) (- 0) O)) as I1.
  { split; [done| |].
    - rewrite R1. apply req_inv_insert; [by intros; eapply Hr|]. destruct (Hr i r Hi) as [H1 [W1 W2 W3 W4] H3].
      split; [done| |].
      + split; [done|done|done|]. unfold aborted in *. cbn. congruence.
      + intros _. destruct (H3 Ha) as [L1 L2 L3]. split; [|done|done]. change (pending_actions r') with (pending_actions r). by rewrite Hp.
    - apply (log_inv_silent i s s1 r r'); [done|done|done|done|done|pose proof (undone_nonneg r'); lia| |done].
      intros Hre. destruct (lg_restart _ Hl i Hre) as (x & Hx & ?). by simplify_eq. }
  assert (i < length (reqs s1))%nat as Hlt by (rewrite R1, length_insert; by eapply lookup_lt_Some).
  destruct (walk_res_inv e i 1 0 s1 _ _ I1 Hlt) as [[C2 Q2 L2] W2]; [unfold take; rewrite decide_True by done; lia..|].
  split.
  2:{ etransitivity; [|eapply Forall2_impl; [apply W2|apply walk_put]]. rewrite R1. by apply (put_reqs_insert i r). }
  split; [|done|done]. eapply chain_inv_ext, C2; intros k; [apply take_back|]. unfold take.
  destruct (decide (Some i = Some k)); lia.
Qed.

Lemma put_completion_inv e i c s D O : mid s i c D O -> 0 <= c ->
  res_inv (drbd_req_put_completion_ref e i c s) D O /\
  Forall2 put_req (reqs s) (reqs (drbd_req_put_completion_ref e i c s)).
Proof.
  intros [Hc Hr Hl (r & Hi & Href & Hw & Hown) Hre] Hge. unfold drbd_req_put_completion_ref, own_ok in *.
  destruct (Z.eqb_spec c 0) as [-> |Hne].
  { split; [|done]. split; [done| |done]. intros k x Hx. destruct (decide (k = i)) as [-> |]; [|by apply (Hr k)]. simplify_eq.
    split; [lia|done|done]. }
  specialize (Hre Hne). set (f := fun r => set_refs (completion_ref r - c) (done_ref r) (oos_send_ref r) r).
  set (r1 := f r). set (s1 := upd i f s).
  assert (reqs s1 = <[i := r1]> (reqs s)) as R1 by exact (alter_as_insert f i (reqs s) r Hi).
  assert (reqs s1 !! i = Some r1) as Hi1 by (rewrite R1; apply list_lookup_insert_eq; by eapply lookup_lt_Some).
  assert (chain_inv s1 D O) as C1 by by apply (chain_inv_own_same s s1 i r r1).
  assert (completion_ref r1 = pending_actions r1) as Ref1 by (change (completion_ref r - c = pending_actions r); lia).
  assert (log_inv s1) as L1.
  { by apply (log_inv_silent i s s1 r r1). }
  assert (Forall2 put_req (reqs s) (reqs s1)) as P1 by (rewrite R1; by apply (put_reqs_insert i r)).
  rewrite (req_lookup _ _ _ Hi1). destruct (Z.eqb_spec (completion_ref r1) 0) as [E0|E0]; cbn [negb].
  2:{ split; [|done]. split; [done| |done]. rewrite R1. apply req_inv_insert; [done|]. split; [done|by destruct Hw|].
      intros Ha. destruct (Hown Ha) as ([] & Hoos & Hpp). split; [|intros; congruence|done].
      intros Hp. split; [by split|by apply Hpp]. }
  rewrite Ref1 in E0.
  destruct (complete_inv e i s1 r1 Hi1) as (r2 & R2 & P2 & L2 & Nr2 & Cm & Life2); [congruence|done|by destruct Hw| |done|done|].
  { intros Ha. destruct (Hown Ha) as ([] & Hoos & _). by split. }
  set (s2 := drbd_req_complete e i s1) in *. rewrite R1, list_insert_insert_eq in R2.
  assert (reqs s2 !! i = Some r2) as Hi2 by (rewrite R2; apply list_lookup_insert_eq; by eapply lookup_lt_Some).
  assert (Forall2 put_req (reqs s) (reqs s2)) as F2.
  { rewrite R2. apply (put_reqs_insert i r); [done|]. transitivity r1; [done|by apply completed_put]. }
  destruct (completed_counts _ _ Cm) as (Ep & Eu & Eq). pose proof (cm_same _ _ Cm) as Es.
  assert (aborted r2 = aborted r) as Ea by (by apply (cm_local _ _ Cm)).
  assert (chain_inv s2 D O) as C2.
  { apply (chain_inv_own_same s s2 i r r2); [done|done|done|done|exact (tq_sent _ _ (req_complete_quiet e i s1))| | | | |done|done]; by rewrite Es. }
  assert (completion_ref r2 = pending_actions r2) as Ref2 by (rewrite Ep, <- Ref1; by rewrite Es).
  assert (res_inv s2 D O) as I2.
  { split; [done| |done]. rewrite R2. apply req_inv_insert; [done|].
    split; [done|eapply completed_words; [done|by destruct Hw]|]. rewrite Ea. by apply Life2. }
  rewrite (req_lookup _ _ _ Hi2). fold (aborted r2). rewrite Ea.
  destruct (aborted r) eqn:Eab; [done|].
  destruct (flag (local_rq_state r2) __RQ_POSTPONED) eqn:Epp.
  - assert (reqs (emit i [RESTART_REQUEST] s2) = <[i := r2]> (reqs s2)) as R3 by (by rewrite list_insert_id).
    split; [|done]. split; [apply (chain_inv_own_same s2 _ i r2 r2); try done; apply (no_sent_emit i [RESTART_REQUEST]); [set_solver|done]|apply I2|].
    apply (log_inv_own i s2 _ r2 r2 [RESTART_REQUEST]); [done|cbn; by rewrite list_insert_id|done|by cbn; destruct (master_bio r2)|done| | | |done].
    + split; [done|]. by intros [=]%list_elem_of_singleton.
    + by intros [=]%list_elem_of_singleton.
    + intros _. by rewrite Ea, Ep, E0.
  - destruct (put_base_done_inv e i s2 r2 D O) as [I3 F3]; [done|done| |congruence|congruence|split; [done|by etransitivity]].
    destruct (Hown eq_refl) as ([_ Hb _] & _). rewrite Es. done.
Qed.

(** ** [mod_rq_state] *)

(** When a change of flags keeps the invariant. *)
Record step_ok (idx : option nat) (clear set : Z) (r : drbd_request) : Prop := {
  so_change : change_ok idx clear set r;
  so_bug : idx = None -> Z.ldiff set RQ_STATE_0_MASK = 0 /\ Z.ldiff clear RQ_STATE_0_MASK = 0;
  so_adds : adds set = true -> pending_actions r <> 0;
  so_grow : flag set __RQ_EXP_BARR_ACK || flag set __RQ_NET_QUEUED = true -> 0 < undone r;
  so_fixed k : k = __RQ_POSTPONED \/ k = __RQ_WRITE -> flag set k = false /\ flag clear k = false;
  so_word id : idx = Some id -> word_ok (flag (local_rq_state r) __RQ_WRITE) (new_net clear set (net r id)) = true;
  so_oos id : idx = Some id -> oos_word (net r id) = true -> oos_word (new_net clear set (net r id)) = true;
  so_any id : idx = Some id -> any (new_net clear set (net r id)) RQ_NET_MASK = true ->
              any (net r id) RQ_NET_MASK = true \/ pending_actions r <> 0;
  so_local : flag (new_local clear set r) __RQ_LOCAL_PENDING || flag (new_local clear set r) __RQ_LOCAL_ABORTED = true ->
             flag (local_rq_state r) __RQ_WRITE = false ->
             Forall (fun n => flag n __RQ_NET_PENDING = false) (new_nets idx clear set r) }.

Section step.
Variables (idx : option nat) (clear set : Z) (r r' : drbd_request) (p : rq_puts) (l : list effect).
Hypothesis Hstep : step_ok idx clear set r.
Hypothesis Hinv : req_inv r.
Hypothesis Happ : apply_rq_state idx clear set r = Ret (r', p, l).

Let Hap : applied idx clear set r r' p := apply_applied _ _ _ _ _ _ _ Happ (so_change _ _ _ _ Hstep).

Lemma step_local : local_rq_state r' = new_local clear set r.
Proof. by rewrite (ap_same _ _ _ _ _ _ Hap). Qed.
Lemma step_nets : net_rq_state r' = new_nets idx clear set r.
Proof. by rewrite (ap_same _ _ _ _ _ _ Hap). Qed.

Lemma step_fixed k : k = __RQ_POSTPONED \/ k = __RQ_WRITE -> flag (local_rq_state r') k = flag (local_rq_state r) k.
Proof.
  intros Hk. destruct (so_fixed _ _ _ _ Hstep k Hk) as [H1 H2]. rewrite step_local, flag_new_local.
  - by rewrite H1, H2, andb_true_r.
  - by destruct Hk as [-> | ->].
  - by destruct Hk as [-> | ->].
Qed.

Lemma step_aborts : aborted r = true -> aborted r' = true.
Proof.
  unfold aborted. intros Ha. rewrite step_local, flag_new_local, Ha by done.
  rewrite (co_abort_keeps _ _ _ _ (so_change _ _ _ _ Hstep)). by rewrite orb_true_r.
Qed.

Lemma local_pending_waits : flag (local_rq_state r) __RQ_LOCAL_PENDING = true -> aborted r = false -> pending_actions r <> 0.
Proof.
  unfold aborted. intros Hp Ha (_ & Hl & _)%pending_zero. unfold lc in Hl. rewrite Hp, Ha in Hl.
  pose proof (b2z_range (flag (local_rq_state r) __RQ_COMPLETION_SUSP)). cbn in Hl. lia.
Qed.

Lemma step_ref : completion_ref r' = pending_actions r' + c_put p.
Proof. pose proof (ap_completion _ _ _ _ _ _ Hap). pose proof (ri_ref _ Hinv). lia. Qed.

Lemma step_idle : pending_actions r = 0 -> c_put p = 0 /\ pending_actions r' = 0.
Proof.
  intros Hp. pose proof (apply_idle _ _ _ _ _ _ _ Happ (so_change _ _ _ _ Hstep) Hp) as Hc. split; [done|].
  assert (adds set = false) as Hadd by (apply not_true_iff_false; intros Ht; by apply (so_adds _ _ _ _ Hstep)).
  pose proof (apply_no_adds _ _ _ _ _ _ _ Happ (so_change _ _ _ _ Hstep) Hadd). pose proof step_ref. pose proof (ri_ref _ Hinv). lia.
Qed.

Lemma step_same_life : same_life r r'.
Proof.
  split.
  - by rewrite (ap_same _ _ _ _ _ _ Hap).
  - apply step_fixed. by left.
  - apply step_aborts.
  - intros Hp Ha. split; [by apply step_idle|]. unfold aborted in *. rewrite step_local, flag_new_local, Ha, orb_false_r by done.
    apply not_true_iff_false. intros Hs. destruct (co_abort _ _ _ _ (so_change _ _ _ _ Hstep) Hs) as [Hlp _].
    by apply (local_pending_waits Hlp Ha).
  - intros Hu. assert (flag set __RQ_EXP_BARR_ACK = false) as Hb.
    { apply not_true_iff_false. intros Hb. pose proof (so_grow _ _ _ _ Hstep) as Hg. rewrite Hb in Hg. specialize (Hg eq_refl). lia. }
    pose proof (ap_done_same _ _ _ _ _ _ Hap Hb). pose proof (ap_done _ _ _ _ _ _ Hap). pose proof (undone_nonneg r').
    destruct (ap_puts _ _ _ _ _ _ Hap) as (_ & ? & _). lia.
Qed.

Lemma step_slot id : idx = Some id -> exists n, net_rq_state r !! id = Some n /\ net r id = n.
Proof.
  intros Hid. pose proof (co_slot _ _ _ _ (so_change _ _ _ _ Hstep)) as Hs. rewrite Hid in Hs.
  destruct (lookup_lt_is_Some_2 _ _ Hs) as [n Hn]. exists n. split; [done|]. unfold net. by rewrite Hn.
Qed.

Lemma Forall_new_nets (P : Z -> Prop) : Forall P (net_rq_state r) ->
  (forall id, idx = Some id -> P (net r id) -> P (new_net clear set (net r id))) -> Forall P (net_rq_state r').
Proof.
  intros HF Hnew. rewrite step_nets. unfold new_nets. pose proof step_slot as Hslot. clear Hstep Hap Happ. destruct idx as [id|]; [|done].
  apply Forall_insert; [done|]. apply Hnew; [done|]. destruct (Hslot id eq_refl) as (n & Hn & ->). exact (Forall_lookup_1 P (net_rq_state r) id n HF Hn).
Qed.

Lemma step_base : aborted r' = false -> base_done r' = base_done r.
Proof. unfold aborted. rewrite step_local. intros Ha. by rewrite (ap_base _ _ _ _ _ _ Hap), Ha, andb_false_r, andb_true_r. Qed.

Lemma step_words : words_inv r'.
Proof.
  destruct Hinv as [_ [W1 W2 W3 W4] Hlife]. assert (r_op_read r' = r_op_read r) as Eop by (by rewrite (ap_same _ _ _ _ _ _ Hap)).
  split.
  - rewrite step_fixed by (by right). apply Forall_new_nets; [done|]. intros id Hid _. by apply (so_word _ _ _ _ Hstep).
  - rewrite (step_fixed __RQ_WRITE), step_nets by (by right). unfold aborted. rewrite step_local. apply (so_local _ _ _ _ Hstep).
  - by rewrite step_fixed, Eop by (by right).
  - unfold aborted. rewrite step_local. intros Ha Hlp. rewrite (ap_base _ _ _ _ _ _ Hap), Ha, andb_true_r.
    pose proof (co_abort_keeps _ _ _ _ (so_change _ _ _ _ Hstep)) as Hkeep.
    pose proof (co_pending _ _ _ _ (so_change _ _ _ _ Hstep)) as Hpe. rewrite flag_new_local in Ha, Hlp by done. rewrite Hkeep, andb_true_r in Ha.
    destruct (flag set __RQ_LOCAL_PENDING).
    { destruct (Hpe eq_refl) as [H1 H2]. by rewrite H1, H2 in Ha. }
    apply andb_true_iff in Hlp as [Hlp ->%negb_true_iff]. rewrite andb_false_r, andb_true_r.
    destruct (aborted r) eqn:Eab; [by apply W4|]. apply (rd_base r). by apply (lf_waiting _ (Hlife eq_refl)), local_pending_waits.
Qed.

Lemma step_ready : aborted r' = false -> pending_actions r <> 0 -> ready r' /\ flag (local_rq_state r') __RQ_POSTPONED = false.
Proof.
  intros Ha Hp. assert (aborted r = false) as Hra by (destruct (aborted r) eqn:E; [by rewrite step_aborts in Ha|done]).
  destruct (lf_waiting _ (ri_life _ Hinv Hra) Hp) as [[R1 R2 R3] Hpp]. rewrite step_fixed by (by left). split; [|done]. split.
  - by rewrite (ap_same _ _ _ _ _ _ Hap).
  - by rewrite step_base.
  - apply Forall_new_nets; [done|]. intros id Hid. by apply (so_oos _ _ _ _ Hstep).
Qed.

Lemma step_no_oos : aborted r' = false -> no_oos_postponed r'.
Proof.
  intros Ha. assert (aborted r = false) as Hra by (destruct (aborted r) eqn:E; [by rewrite step_aborts in Ha|done]).
  destruct (ri_life _ Hinv Hra) as [L1 _ L3]. intros Hp Hw. rewrite step_fixed in Hp, Hw by auto.
  apply Forall_new_nets; [by apply L3|]. intros id Hid Hany. apply not_true_iff_false. intros Hn.
  destruct (so_any _ _ _ _ Hstep id Hid Hn) as [Ht|Hpe]; [congruence|]. destruct (L1 Hpe) as [_ ?]. congruence.
Qed.

Lemma step_own_ok : aborted r' = false -> own_ok (c_put p) r'.
Proof.
  intros Ha. assert (aborted r = false) as Hra by (destruct (aborted r) eqn:E; [by rewrite step_aborts in Ha|done]).
  unfold own_ok. destruct (Z.eqb_spec (c_put p) 0) as [Hc|Hc].
  - split; [| |by apply step_no_oos].
    + intros Hp. apply step_ready; [done|]. intros Hp0. by apply step_idle in Hp0 as [_ ?].
    + intros Hp. rewrite step_fixed by (by left). assert (master_bio r' = master_bio r) as -> by (by rewrite (ap_same _ _ _ _ _ _ Hap)).
      apply (lf_completed _ (ri_life _ Hinv Hra)). pose proof (apply_grows _ _ _ _ _ _ _ Happ). pose proof step_ref.
      pose proof (ri_ref _ Hinv). pose proof (pending_nonneg r). lia.
  - assert (pending_actions r <> 0) as Hp by (intros Hp; by apply step_idle in Hp as [? _]).
    destruct (step_ready Ha Hp) as [Hr Hpp]. split_and!; [done|by apply step_no_oos|done].
Qed.
End step.

Definition zero : nat -> Z := fun _ => 0.
(** The invariant between two events. *)
Definition settled (s : drbd_resource) : Prop := res_inv s zero zero.

Lemma settled_pos s i r : settled s -> reqs s !! i = Some r -> 0 < undone r -> 0 < done_ref r /\ 0 < oos_send_ref r.
Proof.
  intros [Hc _ _] Hr Hu. destruct (ci_refs _ _ _ Hc i r Hr) as [H1 H2]. unfold zero in *.
  pose proof (b2z_range (pred_undone s i)). pose proof (b2z_range (pred_unsent s i)). pose proof (queued_nonneg r).
  assert (0 < done_ref r) as Hd by lia. split; [done|]. rewrite (proj2 (Z.ltb_lt 0 (done_ref r)) Hd) in H2. cbn in H2. lia.
Qed.

Lemma apply_mid i idx clear set s r r' p l :
  settled s -> reqs s !! i = Some r -> step_ok idx clear set r -> apply_rq_state idx clear set r = Ret (r', p, l) ->
  mid (emit i l (upd i (fun _ => r') s)) i (c_put p) (take (Some i) (- d_put p) zero) (take (Some i) (- o_put p) zero).
Proof.
  intros Hset Hi Hstep Happ. pose proof Hset as [Hc Hr Hl]. pose proof (Hr i r Hi) as Hinv.
  pose proof (apply_applied _ _ _ _ _ _ _ Happ (so_change _ _ _ _ Hstep)) as Hap.
  set (s1 := emit i l (upd i (fun _ => r') s)).
  assert (only_req (allowed s) i r' s s1) as Ho.
  { apply (only_upd_emit _ i (fun _ => r') s r); [done|]. by eapply apply_calm. }
  assert (reqs s1 = <[i := r']> (reqs s)) as R1 by apply Ho.
  pose proof (step_same_life _ _ _ _ _ _ _ Hstep Hinv Happ) as Hsl.
  destruct (ap_puts _ _ _ _ _ _ Hap) as (P1 & P2 & P3). destruct (ap_grows _ _ _ _ _ _ Hap) as (G1 & G2).
  split.
  - apply (chain_inv_own s s1 i r r'); [done|done|done|apply Ho|apply (no_sent_emit i l); [by apply apply_order in Happ as [? _]|done]|..].
    + by rewrite (ap_same _ _ _ _ _ _ Hap).
    + by rewrite (ap_same _ _ _ _ _ _ Hap).
    + destruct (flag set __RQ_EXP_BARR_ACK) eqn:Eb.
      * destruct (settled_pos s i r Hset Hi); [apply (so_grow _ _ _ _ Hstep); by rewrite Eb|].
        by rewrite !(proj2 (Z.ltb_lt _ _)) by lia.
      * by rewrite (ap_done_same _ _ _ _ _ _ Hap Eb).
    + destruct (flag set __RQ_NET_QUEUED) eqn:Eq.
      * destruct (settled_pos s i r Hset Hi); [apply (so_grow _ _ _ _ Hstep); by rewrite Eq, orb_true_r|].
        by rewrite !(proj2 (Z.ltb_lt _ _)) by lia.
      * by rewrite (ap_oos_same _ _ _ _ _ _ Hap Eq).
    + pose proof (ap_done _ _ _ _ _ _ Hap). lia.
    + pose proof (ap_oos _ _ _ _ _ _ Hap). lia.
    + unfold zero. lia.
    + unfold zero. lia.
  - intros k x Hk. rewrite R1, list_lookup_insert_ne by done. apply Hr.
  - eapply log_inv_calm; [|apply Ho|done]. rewrite R1. rewrite <- (list_insert_id (reqs s) i r Hi) at 1.
    apply Forall2_insert; [|done]. apply Forall_Forall2_diag, Forall_true. intros x. split; auto.
  - exists r'. split_and!.
    + rewrite R1. apply list_lookup_insert_eq. by eapply lookup_lt_Some.
    + by eapply step_ref.
    + by eapply step_words.
    + intros Ha. by eapply step_own_ok.
  - intros Hne. assert (pending_actions r <> 0) as Hp by (intros Hp; by eapply step_idle in Hp as [? _]).
    destruct (or_log _ _ _ _ _ Ho) as (ext & -> & Hcalm). rewrite elem_of_app. intros [Hin|Hin].
    + destruct (lg_restart _ Hl i Hin) as (x & Hx & _ & Hp' & _). by simplify_eq.
    + rewrite Forall_forall in Hcalm. by apply Hcalm in Hin.
Qed.

(** Whether a request is being submitted does not change. *)
Definition same_sub (r r' : drbd_request) : Prop := submitting r' = submitting r.
#[export] Instance same_sub_preorder : PreOrder same_sub.
Proof. split; [done|]. intros a b c. unfold same_sub. congruence. Qed.
#[export] Instance same_subs_preorder : PreOrder (Forall2 same_sub).
Proof. split; [intros l; reflexivity|intros a b c; apply transitivity]. Qed.

Lemma same_subs_insert i r r' l : l !! i = Some r -> same_sub r r' -> Forall2 same_sub l (<[i := r']> l).
Proof. intros Hi Hp. rewrite <- (list_insert_id l i r Hi) at 1. by apply Forall2_insert. Qed.
Lemma put_subs l l' : Forall2 put_req l l' -> Forall2 same_sub l l'.
Proof. intros H. eapply Forall2_impl; [apply H|]. by intros ? ? [_ _ ?]. Qed.

(** The request after the change and the puts. *)
Record after (idx : option nat) (clear set : Z) (r r' : drbd_request) : Prop := {
  af_nets : Forall2 quiet_word (new_nets idx clear set r) (net_rq_state r');
  af_local k : 0 <= k -> k <> __RQ_POSTPONED -> flag (local_rq_state r') k = flag (new_local clear set r) k;
  af_sub : submitting r' = submitting r }.

Lemma mod_inv e i idx clear set s r :
  settled s -> reqs s !! i = Some r -> step_ok idx clear set r ->
  exists s', mod_rq_state e i idx clear set s = Ret s' /\ settled s' /\ Forall2 same_sub (reqs s) (reqs s') /\
    exists r', reqs s' !! i = Some r' /\ after idx clear set r r'.
Proof.
  intros Hset Hi Hstep. destruct (apply_returns idx clear set r (so_bug _ _ _ _ Hstep)) as (r1 & p & l & Happ).
  pose proof (apply_mid i idx clear set s r r1 p l Hset Hi Hstep Happ) as Hmid.
  pose proof (apply_applied _ _ _ _ _ _ _ Happ (so_change _ _ _ _ Hstep)) as Hap.
  destruct (ap_puts _ _ _ _ _ _ Hap) as (P1 & P2 & P3).
  unfold mod_rq_state. rewrite (req_lookup _ _ _ Hi), Happ. cbn [obind].
  set (s1 := emit i l (upd i (fun _ => r1) s)) in *.
  destruct (put_completion_inv e i (c_put p) s1 _ _ Hmid P1) as [I2 F2].
  set (s2 := drbd_req_put_completion_ref e i (c_put p) s1) in *.
  assert (reqs s1 !! i = Some r1) as Hi1.
  { cbn. rewrite list_lookup_alter_eq, Hi. done. }
  assert (length (reqs s2) = length (reqs s)) as Hlen.
  { rewrite <- (Forall2_length _ _ _ F2). cbn. apply length_alter. }
  assert (i < length (reqs s2))%nat as Hlt by (rewrite Hlen; by eapply lookup_lt_Some).
  assert (forall s', Forall2 put_req (reqs s2) (reqs s') -> Forall2 same_sub (reqs s) (reqs s') /\
     exists r', reqs s' !! i = Some r' /\ after idx clear set r r') as Hframe.
  { intros s' F3. assert (Forall2 put_req (reqs s1) (reqs s')) as F by (by etransitivity).
    split. { etransitivity; [|by apply put_subs, F]. cbn. rewrite (alter_as_insert _ _ _ _ Hi). apply (same_subs_insert i r); [done|].
      unfold same_sub. by rewrite (ap_same _ _ _ _ _ _ Hap). }
    destruct (Forall2_lookup_l _ _ _ _ _ F Hi1) as (r' & Hr' & [N L S]). exists r'. split; [done|].
    rewrite (ap_same _ _ _ _ _ _ Hap) in N, L, S. by split. }
  destruct ((d_put p =? 0) && (o_put p =? 0)) eqn:Ez.
  - apply andb_true_iff in Ez as [Ed%Z.eqb_eq Eo%Z.eqb_eq]. rewrite Ed, Eo in I2. exists s2. split; [done|].
    split; [|by apply Hframe]. destruct I2 as [C2 Q2 L2]. split; [|done|done].
    eapply chain_inv_ext, C2; intros k; apply take_zero.
  - destruct (walk_res_inv e i (d_put p) (o_put p) s2 _ _ I2 Hlt) as [[C3 Q3 L3] W3];
      [unfold take, zero; rewrite decide_True by done; lia..|].
    eexists. split; [done|]. split.
    + split; [|done|done]. eapply chain_inv_ext, C3; intros k; apply take_back.
    + apply Hframe. eapply Forall2_impl; [apply W3|apply walk_put].
Qed.

(** ** The masks of the events *)

(** The masks of an event of a peer after the submission: no new answer to wait for,
    nothing of the local disk. *)
Definition net_masks (clear set : Z) : bool :=
  forallb (fun k => negb (flag set k))
    [__RQ_LOCAL_PENDING; __RQ_LOCAL_ABORTED; __RQ_POSTPONED; __RQ_WRITE; __RQ_EXP_BARR_ACK; __RQ_NET_PENDING] &&
  forallb (fun k => negb (flag clear k))
    [__RQ_LOCAL_PENDING; __RQ_LOCAL_ABORTED; __RQ_POSTPONED; __RQ_WRITE; __RQ_EXP_BARR_ACK; __RQ_NET_DONE] &&
  (Z.land clear set =? 0).

Lemma land_disjoint clear set k : (Z.land clear set =? 0) = true -> flag set k = true -> flag clear k = false.
Proof.
  intros H0%Z.eqb_eq Hs. apply not_true_iff_false. intros Hc. unfold flag in *.
  assert (Z.testbit (Z.land clear set) k = true) as Ht by (rewrite Z.land_spec, Hs, Hc; done). by rewrite H0, Z.testbit_0_l in Ht.
Qed.

Lemma any_new clear set n : any (new_net clear set n) RQ_NET_MASK = true ->
  any n RQ_NET_MASK = true \/ any set RQ_NET_MASK = true.
Proof.
  unfold any. rewrite !negb_true_iff, !Z.eqb_neq. intros Hn.
  destruct (decide (Z.land n RQ_NET_MASK = 0)) as [Hz|]; [right|by left]. intros Hs. apply Hn.
  apply Z.bits_inj'. intros k Hk. rewrite Z.land_spec, Z.bits_0. fold (flag (new_net clear set n) k).
  assert (forall m, Z.land m RQ_NET_MASK = 0 -> Z.testbit m k && Z.testbit RQ_NET_MASK k = false) as Hm
    by (intros m Em; by rewrite <- Z.land_spec, Em, Z.bits_0).
  unfold new_net. rewrite flag_set, !flag_ldiff_state0 by done. unfold flag.
  pose proof (Hm n Hz). pose proof (Hm set Hs).
  destruct (Z.testbit n k), (Z.testbit set k), (Z.testbit RQ_NET_MASK k); cbn in *; rewrite ?andb_false_r; done.
Qed.

(** A peer that has to answer keeps the request from being done. *)
Lemma pending_word_waits r id : flag (net r id) __RQ_NET_PENDING = true -> pending_actions r <> 0.
Proof.
  intros Hp (_ & _ & Hn)%pending_zero. specialize (Hn id). unfold nc in Hn. rewrite Hp in Hn.
  pose proof (b2z_range (drbd_sender_needs_master_bio (net r id))). cbn in Hn. lia.
Qed.

Lemma net_word r id (P : Z -> Prop) : Forall P (net_rq_state r) -> (id < length (net_rq_state r))%nat -> P (net r id).
Proof.
  intros HF Hlt. destruct (lookup_lt_is_Some_2 _ _ Hlt) as [n Hn]. unfold net. rewrite Hn. exact (Forall_lookup_1 P _ id n HF Hn).
Qed.

Lemma pending_word_undone r id : req_inv r -> (id < length (net_rq_state r))%nat ->
  flag (net r id) __RQ_NET_PENDING = true -> 0 < undone r.
Proof.
  intros [_ [W1 W2 _ _] Hlife] Hlt Hp. pose proof (net_word r id _ W1 Hlt) as Hw. cbn in Hw. unfold word_ok in Hw. rewrite Hp in Hw.
  apply andb_true_iff in Hw as [[Hd%negb_true_iff Hb]%andb_true_iff _]. cbn in Hb. rewrite andb_true_r in Hb.
  assert (0 <= Z.b2z (base_done r) /\ 0 <= sumz bc (net_rq_state r)) as [H1 H2]
    by (split; [apply b2z_range|apply sumz_nonneg, bc_nonneg]).
  destruct (aborted r) eqn:Ea.
  - destruct (flag (local_rq_state r) __RQ_WRITE) eqn:Ew.
    + destruct (lookup_lt_is_Some_2 _ _ Hlt) as [n Hn]. assert (net r id = n) as En by (unfold net; by rewrite Hn).
      unfold undone. rewrite <- (list_insert_id _ _ _ Hn) in H2 |- *. rewrite En in Hb, Hd.
      assert (sumz bc (net_rq_state r) <> 0) as Hne; [|rewrite (list_insert_id _ _ _ Hn) in *; lia].
      intros H0. pose proof (sumz_zero bc _ bc_nonneg H0) as HF. pose proof (Forall_lookup_1 _ _ _ _ HF Hn) as Hx. cbn in Hx.
      cbn [implb] in Hb. unfold bc in Hx. by rewrite Hb, Hd in Hx.
    + assert (Forall (fun n => flag n __RQ_NET_PENDING = false) (net_rq_state r)) as HF by (apply W2; [by rewrite orb_true_r|done]).
      pose proof (net_word r id _ HF Hlt) as Hx. cbn in Hx. congruence.
  - assert (ready r) as Hr by (apply (lf_waiting _ (Hlife eq_refl)); by eapply pending_word_waits).
    unfold undone. rewrite (rd_base _ Hr) in *. cbn in *. lia.
Qed.

Lemma net_step_ok id clear set r :
  req_inv r -> (id < length (net_rq_state r))%nat -> net_masks clear set = true ->
  (flag set __RQ_NET_QUEUED || flag set __RQ_COMPLETION_SUSP = true -> flag (net r id) __RQ_NET_PENDING = true) ->
  (any set RQ_NET_MASK = true -> any (net r id) RQ_NET_MASK = true) ->
  word_ok (flag (local_rq_state r) __RQ_WRITE) (new_net clear set (net r id)) = true ->
  (oos_word (net r id) = true -> oos_word (new_net clear set (net r id)) = true) ->
  step_ok (Some id) clear set r.
Proof.
  intros Hinv Hlt [[Hset Hclear]%andb_true_iff Hdis]%andb_true_iff Hadds Hany Hword Hoos.
  rewrite forallb_forall in Hset, Hclear.
  assert (forall k, k = __RQ_LOCAL_PENDING \/ k = __RQ_LOCAL_ABORTED \/ k = __RQ_POSTPONED \/ k = __RQ_WRITE \/ k = __RQ_EXP_BARR_ACK ->
    flag set k = false /\ flag clear k = false) as Hk.
  { intros k Hk. split; apply negb_true_iff; [apply Hset|apply Hclear]; cbn [In]; destruct Hk as [-> |[-> |[-> |[-> | ->]]]]; tauto. }
  assert (flag set __RQ_NET_PENDING = false /\ flag clear __RQ_NET_DONE = false) as [Hp Hd].
  { split; apply negb_true_iff; [apply Hset|apply Hclear]; cbn [In]; tauto. }
  destruct (Hk __RQ_LOCAL_PENDING) as [S1 C1]; [tauto|]. destruct (Hk __RQ_LOCAL_ABORTED) as [S2 C2]; [tauto|].
  destruct (Hk __RQ_EXP_BARR_ACK) as [S3 C3]; [tauto|].
  assert (forall k, k = __RQ_LOCAL_PENDING \/ k = __RQ_LOCAL_ABORTED -> flag (new_local clear set r) k = flag (local_rq_state r) k) as Hloc.
  { intros k Hx. destruct (Hk k) as [Sk Ck]; [tauto|]. rewrite flag_new_local by (by destruct Hx as [-> | ->]). by rewrite Sk, Ck, andb_true_r. }
  split.
  - split; [intros k _; by apply land_disjoint|done|congruence|done|congruence|done|intros; congruence|congruence].
  - done.
  - unfold adds. rewrite Hp, S1. cbn [orb]. rewrite orb_false_r. intros Ha. apply (pending_word_waits r id), Hadds. done.
  - rewrite S3. cbn. intros Hq. apply (pending_word_undone r id Hinv Hlt), Hadds. by rewrite Hq.
  - intros k Hx. apply Hk. tauto.
  - by intros ? [= <-].
  - by intros ? [= <-].
  - intros ? [= <-] Hn. left. destruct (any_new _ _ _ Hn); auto.
  - rewrite !Hloc by auto. intros Hl Hw. pose proof (wi_local _ (ri_words _ Hinv) Hl Hw) as HF. cbn.
    apply Forall_insert; [done|]. rewrite flag_new_net by done. rewrite Hp. cbn. pose proof (net_word r id _ HF Hlt) as Hx. cbn in Hx. by rewrite Hx.
Qed.

(** Evaluates the flags of closed masks. *)
Ltac eval_masks :=
  repeat match goal with
  | |- context [flag (RQ ?l) ?k] => let b := eval vm_compute in (flag (RQ l) k) in change (flag (RQ l) k) with b
  | |- context [flag 0 ?k] => rewrite (flag_0 k)
  end.

(** The local disk. *)
Lemma local_step_ok clear set r :
  req_inv r -> Z.ldiff set RQ_STATE_0_MASK = 0 -> Z.ldiff clear RQ_STATE_0_MASK = 0 -> (Z.land clear set =? 0) = true ->
  forallb (fun k => negb (flag set k)) [__RQ_LOCAL_PENDING; __RQ_COMPLETION_SUSP; __RQ_POSTPONED; __RQ_WRITE] = true ->
  forallb (fun k => negb (flag clear k)) [__RQ_LOCAL_ABORTED; __RQ_POSTPONED; __RQ_WRITE] = true ->
  (flag set __RQ_LOCAL_ABORTED = true ->
   flag (local_rq_state r) __RQ_LOCAL_PENDING = true /\ flag clear __RQ_LOCAL_PENDING = false) ->
  step_ok None clear set r.
Proof.
  intros Hinv Hs0 Hc0 Hdis Hset Hclear Hab. rewrite forallb_forall in Hset, Hclear.
  assert (forall m k, Z.ldiff m RQ_STATE_0_MASK = 0 -> 0 <= k -> state0 k = false -> flag m k = false) as Hnet.
  { intros m k Hm Hk Hs. rewrite <- (net_bit m k Hk Hs), Hm. apply flag_0. }
  assert (flag set __RQ_LOCAL_PENDING = false /\ flag set __RQ_COMPLETION_SUSP = false) as [S1 S2].
  { split; apply negb_true_iff, Hset; cbn [In]; tauto. }
  assert (flag clear __RQ_LOCAL_ABORTED = false) as C1 by (apply negb_true_iff, Hclear; cbn [In]; tauto).
  split.
  - split; [intros k _; by apply land_disjoint|done|done|done|congruence| |intros; congruence|].
    + by split; apply Hnet.
    + intros _ Hp Ha. by apply (wi_abort _ (ri_words _ Hinv)).
  - done.
  - unfold adds. rewrite S1, S2, !(Hnet set) by done. done.
  - rewrite !(Hnet set) by done. done.
  - intros k Hk. split; apply negb_true_iff; [apply Hset|apply Hclear]; cbn [In]; destruct Hk as [-> | ->]; tauto.
  - done.
  - done.
  - done.
  - cbn [new_nets]. intros Hl Hw. apply (wi_local _ (ri_words _ Hinv)); [|done]. unfold aborted.
    rewrite !flag_new_local, S1, C1, andb_true_r in Hl by done. destruct (flag set __RQ_LOCAL_ABORTED); [by destruct (Hab eq_refl) as [-> _]|].
    destruct (flag (local_rq_state r) __RQ_LOCAL_PENDING); [done|]. done.
Qed.

Section event.
Variables (r : drbd_request) (id : nat).
Hypothesis Hinv : req_inv r.
Hypothesis Hid : (id < length (net_rq_state r))%nat.

Notation n := (net r id).
Notation w := (flag (local_rq_state r) __RQ_WRITE).

Lemma event_word : word_ok w n = true.
Proof. exact (net_word r id _ (wi_words _ (ri_words _ Hinv)) Hid). Qed.

(** The masks of an event that adds nothing to wait for. *)
Lemma event_step_ok c st :
  net_masks (RQ c) (RQ st) = true ->
  flag (RQ st) __RQ_NET_QUEUED || flag (RQ st) __RQ_COMPLETION_SUSP = false ->
  (any (RQ st) RQ_NET_MASK = true -> any n RQ_NET_MASK = true) ->
  (flag n __RQ_NET_PENDING = true -> flag (RQ c) __RQ_NET_PENDING = true -> w || flag (RQ st) __RQ_NET_DONE = true) ->
  (flag (RQ st) __RQ_NET_DONE = true -> flag n __RQ_NET_PENDING = true -> flag (RQ c) __RQ_NET_PENDING = true) ->
  (flag (RQ st) __RQ_NET_DONE = true -> drbd_sender_needs_master_bio n = false) ->
  (flag (RQ c) __RQ_NET_PENDING_OOS = true -> flag (RQ c) __RQ_NET_QUEUED = true) ->
  step_ok (Some id) (RQ c) (RQ st) r.
Proof.
  intros Hm Hadd Hany Hp Hd Hq Hoo. pose proof event_word as Hw. pose proof Hm as Hm'.
  unfold net_masks in Hm'. apply andb_true_iff in Hm' as [[Hset Hclear]%andb_true_iff _]. rewrite forallb_forall in Hset, Hclear.
  assert (flag (RQ st) __RQ_NET_PENDING = false /\ flag (RQ st) __RQ_EXP_BARR_ACK = false) as [S1 S2]
    by (split; apply negb_true_iff, Hset; cbn [In]; tauto).
  assert (flag (RQ c) __RQ_EXP_BARR_ACK = false /\ flag (RQ c) __RQ_NET_DONE = false) as [C1 C2]
    by (split; apply negb_true_iff, Hclear; cbn [In]; tauto).
  apply orb_false_iff in Hadd as [S3 S4].
  apply net_step_ok; [done|done|done|by rewrite S3, S4|done| |].
  - assert (any (new_net (RQ c) (RQ st) n) RQ_NET_MASK = true -> any n RQ_NET_MASK = true) as Ha.
    { intros Hn. destruct (any_new _ _ _ Hn); auto. }
    unfold word_ok in *. rewrite !flag_new_net, S1, S2, C1, C2 by done. cbn [negb orb]. rewrite !andb_true_r.
    destruct (any (new_net (RQ c) (RQ st) n) RQ_NET_MASK); [rewrite Ha in Hw by done|];
    destruct (flag n __RQ_NET_PENDING), (flag (RQ c) __RQ_NET_PENDING), (flag (RQ st) __RQ_NET_DONE);
      try specialize (Hp eq_refl eq_refl); try specialize (Hd eq_refl eq_refl);
      destruct w, (flag n __RQ_EXP_BARR_ACK), (flag n __RQ_NET_DONE); done.
  - unfold oos_word, drbd_sender_needs_master_bio in *. rewrite !flag_new_net, S3, C2 by done. cbn [negb orb]. rewrite andb_true_r.
    destruct (flag (RQ st) __RQ_NET_DONE); [specialize (Hq eq_refl)|]; destruct (flag (RQ c) __RQ_NET_PENDING_OOS);
      try specialize (Hoo eq_refl);
      destruct (flag n __RQ_NET_QUEUED), (flag n __RQ_NET_DONE), (flag n __RQ_NET_PENDING_OOS), (flag (RQ c) __RQ_NET_QUEUED),
        (flag (RQ st) __RQ_NET_PENDING_OOS); done.
Qed.
End event.

(** ** The events *)

(** The events that the claims on requests cover.  The disk is aborted while it works on the
    request; an answer comes from a peer that got the request, write acks only for
    writes; and an event that ends the request at a peer comes after the sender gave
    the data to the network, or gave up.  The last point is more than the code sees to:
    the receiver may handle the answer to a read before the sender has noted that it
    handed over the request ([reply_before_handed_over]); this order is left out. *)
Definition event_guard (r : drbd_request) (idx : option nat) (what : drbd_req_event) : Prop :=
  match idx with
  | None =>
      match what with
      | TO_BE_SUBMITTED | NOTHING => False
      | ABORT_DISK_IO => flag (local_rq_state r) __RQ_LOCAL_PENDING = true
      | _ => True
      end
  | Some id =>
      (id < length (net_rq_state r))%nat /\
      match what with
      | NEW_NET_READ | NEW_NET_WRITE | NEW_NET_OOS | READY_FOR_NET | SKIP_OOS | BARRIER_SENT | NOTHING => False
      | HANDED_OVER_TO_NETWORK => flag (net r id) __RQ_NET_QUEUED = true
      | RECV_ACKED_BY_PEER | WRITE_ACKED_BY_PEER | WRITE_ACKED_BY_PEER_AND_SIS =>
          flag (local_rq_state r) __RQ_WRITE = true /\ any (net r id) RQ_NET_MASK = true
      | NEG_ACKED | DATA_RECEIVED =>
          any (net r id) RQ_NET_MASK = true /\ drbd_sender_needs_master_bio (net r id) = false
      | CONNECTION_LOST | CONNECTION_LOST_WHILE_SUSPENDED | CANCEL_SUSPENDED_IO | BARRIER_ACKED =>
          drbd_sender_needs_master_bio (net r id) = false
      | RESEND => flag (net r id) __RQ_NET_OK = true -> drbd_sender_needs_master_bio (net r id) = false
      | _ => True
      end
  end.

Definition keeps (s : drbd_resource) (o : outcome drbd_resource) : Prop :=
  exists s', o = Ret s' /\ settled s' /\ Forall2 same_sub (reqs s) (reqs s').

Lemma keeps_id s : settled s -> keeps s (Ret s).
Proof. intros Hs. by exists s. Qed.

Lemma keeps_mod e i idx clear set s r : settled s -> reqs s !! i = Some r -> step_ok idx clear set r ->
  keeps s (mod_rq_state e i idx clear set s).
Proof. intros Hs Hi Hst. destruct (mod_inv e i idx clear set s r Hs Hi Hst) as (s' & E & S' & L & _). by exists s'. Qed.

(** An entry in the log that says nothing. *)
Lemma emit_settled i l s r : OOS_SENT ∉ l -> Forall (fun ef => calm (allowed s) (i, ef)) l -> settled s -> reqs s !! i = Some r -> settled (emit i l s).
Proof.
  intros Hns Hl [C Q L] Hi. assert (reqs (emit i l s) = <[i := r]> (reqs s)) as R by (by rewrite list_insert_id).
  split; [apply (chain_inv_own_same s _ i r r); try done; by apply (no_sent_emit i l)|done|].
  apply (log_inv_calm s); [|by apply log_ext_emit|done]. apply Forall_Forall2_diag, Forall_true. intros x. split; auto.
Qed.

(** [RQ_NET_SIS] means nothing to the counters. *)
Definition set_sis (id : nat) (r : drbd_request) : drbd_request :=
  set_rq_state (local_rq_state r) (alter (fun n => Z.setbit n __RQ_NET_SIS) id (net_rq_state r)) r.

Lemma sis_flag n k : 0 <= k -> k <> __RQ_NET_SIS -> flag (Z.setbit n __RQ_NET_SIS) k = flag n k.
Proof. intros. by apply rq_setbit. Qed.

Lemma sis_sumz f id l : (forall n, f (Z.setbit n __RQ_NET_SIS) = f n) -> sumz f (alter (fun n => Z.setbit n __RQ_NET_SIS) id l) = sumz f l.
Proof.
  intros Hf. destruct (l !! id) as [n|] eqn:En.
  - rewrite (alter_as_insert _ _ _ _ En), (sumz_insert f _ _ _ _ En), Hf. lia.
  - f_equal. apply list_eq. intros k. destruct (decide (k = id)) as [-> |]; [by rewrite list_lookup_alter_eq, En|by rewrite list_lookup_alter_ne].
Qed.

Lemma sis_counts id r : pending_actions (set_sis id r) = pending_actions r /\ undone (set_sis id r) = undone r /\
  queued (set_sis id r) = queued r.
Proof.
  unfold pending_actions, undone, queued. cbn [set_sis set_rq_state net_rq_state local_rq_state submitting base_done].
  rewrite !sis_sumz; [done|..]; intros n; unfold qc, bc, nc, drbd_sender_needs_master_bio; by rewrite !sis_flag.
Qed.

Lemma sis_Forall (P : Z -> Prop) id r : (forall n, any n RQ_NET_MASK = true -> P n -> P (Z.setbit n __RQ_NET_SIS)) ->
  any (net r id) RQ_NET_MASK = true -> Forall P (net_rq_state r) -> Forall P (net_rq_state (set_sis id r)).
Proof.
  intros HP Hany HF. cbn. unfold net in Hany. destruct (net_rq_state r !! id) as [n|] eqn:En; [|done]. cbn in Hany.
  rewrite (alter_as_insert _ _ _ _ En). apply Forall_insert; [done|]. apply HP; [done|]. exact (Forall_lookup_1 P _ id n HF En).
Qed.

Lemma sis_req_inv id r : any (net r id) RQ_NET_MASK = true -> req_inv r -> req_inv (set_sis id r).
Proof.
  intros Hany [H1 [W1 W2 W3 W4] H3]. destruct (sis_counts id r) as (Ep & _ & _).
  assert (forall n, any n RQ_NET_MASK = true -> any (Z.setbit n __RQ_NET_SIS) RQ_NET_MASK = true) as Hs.
  { intros n _. apply (any_flag _ _ __RQ_NET_SIS); [done| |done]. unfold flag. by apply Z.setbit_eq. }
  split; [by rewrite Ep|split; [| |done|done]|].
  - apply sis_Forall; [|done|done]. intros n Hn. unfold word_ok. by rewrite !sis_flag, Hs, Hn by done.
  - intros Ha Hw. apply sis_Forall; [|done|by apply W2]. intros n _. by rewrite sis_flag.
  - intros Ha. destruct (H3 Ha) as [L1 L2 L3]. split; rewrite ?Ep; [|done|].
    + intros Hp. destruct (L1 Hp) as [[R1 R2 R3] Hpp]. split; [|done]. split; [done|done|].
      apply sis_Forall; [|done|done]. intros n _. unfold oos_word. by rewrite !sis_flag.
    + intros Hp Hw. apply sis_Forall; [|done|by apply L3]. intros n Hn Hf. congruence.
Qed.

Lemma sis_settled i id s r : settled s -> reqs s !! i = Some r -> any (net r id) RQ_NET_MASK = true -> settled (upd i (set_sis id) s).
Proof.
  intros [C Q L] Hi Hany. assert (reqs (upd i (set_sis id) s) = <[i := set_sis id r]> (reqs s)) as R by exact (alter_as_insert _ i (reqs s) r Hi).
  destruct (sis_counts id r) as (Ep & Eu & Eq). split.
  - by apply (chain_inv_own_same s _ i r (set_sis id r)).
  - rewrite R. apply req_inv_insert; [by intros; eapply Q|]. apply sis_req_inv; [done|by eapply Q].
  - apply (log_inv_silent i s _ r (set_sis id r)); [done|done|done|done|done|by rewrite Eu| |done].
    intros Hre. rewrite Ep. destruct (lg_restart _ L i Hre) as (x & Hx & ?). by simplify_eq.
Qed.

Lemma after_word id clear set r r' : after (Some id) clear set r r' -> (id < length (net_rq_state r))%nat ->
  quiet_word (new_net clear set (net r id)) (net r' id) /\ length (net_rq_state r') = length (net_rq_state r).
Proof.
  intros [Hn _ _] Hlt. cbn [new_nets] in Hn. split.
  - assert (<[id := new_net clear set (net r id)]> (net_rq_state r) !! id = Some (new_net clear set (net r id))) as Hl
      by (by apply list_lookup_insert_eq).
    destruct (Forall2_lookup_l _ _ _ _ _ Hn Hl) as (x & Hx & Hq). unfold net at 2. by rewrite Hx.
  - rewrite <- (Forall2_length _ _ _ Hn). by rewrite length_insert.
Qed.

Lemma barrier_done_keeps e i id s r : settled s -> reqs s !! i = Some r -> (id < length (net_rq_state r))%nat ->
  drbd_sender_needs_master_bio (net r id) = false -> flag (net r id) __RQ_NET_PENDING = false ->
  keeps s (if any (net (req s i) id) RQ_NET_MASK then mod_rq_state e i (Some id) 0 (RQ [__RQ_NET_DONE]) s else Ret s).
Proof.
  intros Hs Hi Hid Hq Hp. rewrite (req_lookup _ _ _ Hi).
  destruct (any (net r id) RQ_NET_MASK) eqn:Eany; [|by apply keeps_id].
  apply (keeps_mod e i (Some id) _ _ s r Hs Hi). change 0 with (RQ []).
  apply event_step_ok; [by eapply Hs|done|done|done|done|by rewrite Hp|by rewrite Hp|done|done].
Qed.

Lemma barrier_keeps e i id s r : settled s -> reqs s !! i = Some r -> (id < length (net_rq_state r))%nat ->
  drbd_sender_needs_master_bio (net r id) = false -> keeps s (barrier_acked e i id s).
Proof.
  intros Hs Hi Hid Hq. unfold barrier_acked. rewrite (req_lookup _ _ _ Hi).
  destruct (flag (local_rq_state r) __RQ_WRITE) eqn:Ew; cbn [negb]; [|by apply keeps_id].
  destruct (flag (net r id) __RQ_NET_PENDING) eqn:Ep; [|cbn [obind]; by eapply barrier_done_keeps].
  destruct (mod_inv e i (Some id) (RQ [__RQ_NET_PENDING]) (RQ [__RQ_NET_OK]) s r Hs Hi) as (s1 & -> & S1 & L1 & r1 & Hi1 & Ha).
  { apply event_step_ok; [by eapply Hs|done|done|done| |by rewrite Ew|done|done|done].
    intros _. by apply (any_flag _ _ __RQ_NET_PENDING). }
  cbn [obind]. destruct (after_word id _ _ r r1 Ha Hid) as [[Hb _] Hlen].
  destruct (barrier_done_keeps e i id s1 r1 S1 Hi1) as (s2 & E2 & S2 & L2).
  - by rewrite Hlen.
  - unfold drbd_sender_needs_master_bio in *. rewrite !Hb, !flag_new_net by done. eval_masks. by rewrite !andb_true_r.
  - rewrite Hb, flag_new_net by done. eval_masks. by rewrite andb_false_r.
  - exists s2. split_and!; [done|done|by etransitivity].
Qed.

Lemma resend_step_ok r id : req_inv r -> (id < length (net_rq_state r))%nat -> flag (net r id) __RQ_NET_PENDING = true ->
  step_ok (Some id) (RQ [__RQ_NET_SENT]) (RQ [__RQ_NET_QUEUED]) r.
Proof.
  intros Hinv Hid Hp. pose proof (event_word r id Hinv Hid) as Hw.
  apply net_step_ok; [done|done|done|done| | |].
  - intros _. by apply (any_flag _ _ __RQ_NET_PENDING).
  - unfold word_ok in *. rewrite !flag_new_net by done. eval_masks. rewrite Hp in *.
    destruct (flag (local_rq_state r) __RQ_WRITE), (flag (net r id) __RQ_EXP_BARR_ACK), (flag (net r id) __RQ_NET_DONE),
      (any (net r id) RQ_NET_MASK), (any (new_net _ _ _) RQ_NET_MASK); done.
  - intros _. unfold oos_word, word_ok in *. rewrite !flag_new_net by done. eval_masks. rewrite Hp in Hw.
    destruct (flag (net r id) __RQ_NET_DONE); [done|]. done.
Qed.

Lemma suspend_step_ok r id : req_inv r -> (id < length (net_rq_state r))%nat -> flag (net r id) __RQ_NET_PENDING = true ->
  step_ok (Some id) (RQ []) (RQ [__RQ_COMPLETION_SUSP]) r.
Proof.
  intros Hinv Hid Hp. pose proof (event_word r id Hinv Hid) as Hw.
  assert (new_net (RQ []) (RQ [__RQ_COMPLETION_SUSP]) (net r id) = net r id) as E by (unfold new_net; by rewrite Z.lor_0_r, Z.ldiff_0_r).
  by apply net_step_ok; rewrite ?E.
Qed.

Lemma local_event_keeps e i what s r : settled s -> reqs s !! i = Some r -> event_guard r None what ->
  keeps s (req_mod_local e i what s).
Proof.
  intros Hs Hi Hg. pose proof (rs_req _ _ _ Hs i r Hi) as Hinv.
  assert (forall clear set, step_ok None clear set r -> keeps s (mod_rq_state e i None clear set s)) as Hmod
    by (intros; by apply (keeps_mod e i None _ _ s r)).
  assert (keeps s (mod_rq_state e i None (RQ [__RQ_LOCAL_PENDING]) (RQ [__RQ_LOCAL_COMPLETED]) s)) as Herr by (by apply Hmod, local_step_ok).
  destruct what; cbn [req_mod_local]; try done; try (by apply keeps_id).
  - (* COMPLETED_OK *) by apply Hmod, local_step_ok.
  - (* READ_COMPLETED_WITH_ERROR *) clear Herr.
    assert (settled (emit i [SET_ALL_OUT_OF_SYNC] s)) as Hs' by (apply (emit_settled i _ s r); [set_solver|by repeat constructor|done|done]).
    apply (keeps_mod e i None _ _ (emit i [SET_ALL_OUT_OF_SYNC] s) r Hs' Hi). by apply local_step_ok.
  - (* ABORT_DISK_IO *) by apply Hmod, local_step_ok.
  - (* COMPLETION_RESUMED *) by apply Hmod, local_step_ok.
Qed.

Lemma lost_step_ok r id : req_inv r -> (id < length (net_rq_state r))%nat -> not_for_peer r id = false ->
  drbd_sender_needs_master_bio (net r id) = false ->
  step_ok (Some id) (RQ [__RQ_NET_PENDING; __RQ_NET_OK]) (RQ [__RQ_NET_DONE]) r.
Proof.
  intros Hinv Hid [Hany%negb_false_iff Hd]%orb_false_iff Hq. apply event_step_ok; try done. intros _ _. apply orb_true_r.
Qed.

Lemma net_event_keeps e i id what s r : settled s -> reqs s !! i = Some r -> event_guard r (Some id) what ->
  keeps s (req_mod_net e i id what s).
Proof.
  intros Hs Hi [Hid Hg]. pose proof (rs_req _ _ _ Hs i r Hi) as Hinv. pose proof (event_word r id Hinv Hid) as Hword.
  unfold req_mod_net. rewrite (req_lookup _ _ _ Hi).
  destruct what; try done; try (by apply keeps_id).
  - (* SEND_CANCELED *) apply (keeps_mod e i (Some id) _ _ s r Hs Hi). by apply event_step_ok.
  - (* SEND_FAILED *) apply (keeps_mod e i (Some id) _ _ s r Hs Hi). by apply event_step_ok.
  - (* HANDED_OVER_TO_NETWORK *)
    assert (any (net r id) RQ_NET_MASK = true) as Hany by (by apply (any_flag _ _ __RQ_NET_QUEUED)).
    destruct (is_pending_write_protocol_A r id) eqn:EA; apply (keeps_mod e i (Some id) _ _ s r Hs Hi); apply event_step_ok; try done.
    intros _ _. unfold is_pending_write_protocol_A in EA. by apply andb_true_iff in EA as [-> _].
  - (* OOS_HANDED_TO_NETWORK *) apply (keeps_mod e i (Some id) _ _ s r Hs Hi). by apply event_step_ok.
  - (* CONNECTION_LOST *) destruct (not_for_peer r id) eqn:En; [by apply keeps_id|].
    apply (keeps_mod e i (Some id) _ _ s r Hs Hi). by apply lost_step_ok.
  - (* CONNECTION_LOST_WHILE_SUSPENDED *) destruct (not_for_peer r id) eqn:En; [by apply keeps_id|]. case_if.
    + apply (keeps_mod e i (Some id) _ _ s r Hs Hi). by apply lost_step_ok.
    + destruct (flag (net r id) __RQ_NET_PENDING) eqn:Ep; [|by apply keeps_id].
      apply (keeps_mod e i (Some id) _ _ s r Hs Hi). by apply suspend_step_ok.
  - (* RECV_ACKED_BY_PEER *) destruct Hg as [Hw Hany]. apply (keeps_mod e i (Some id) _ _ s r Hs Hi).
    apply event_step_ok; try done. by rewrite Hw.
  - (* WRITE_ACKED_BY_PEER *) destruct Hg as [Hw Hany]. apply (keeps_mod e i (Some id) _ _ s r Hs Hi).
    apply event_step_ok; try done. by rewrite Hw.
  - (* WRITE_ACKED_BY_PEER_AND_SIS *) destruct Hg as [Hw Hany]. fold (set_sis id).
    pose proof (sis_settled i id s r Hs Hi Hany) as Hs'.
    assert (reqs (upd i (set_sis id) s) !! i = Some (set_sis id r)) as Hi' by (cbn; by rewrite list_lookup_alter_eq, Hi).
    destruct (keeps_mod e i (Some id) (RQ [__RQ_NET_PENDING]) (RQ [__RQ_NET_OK]) _ (set_sis id r) Hs' Hi') as (s' & E & S' & L').
    { apply event_step_ok; try done; [by eapply Hs'|cbn; by rewrite length_alter| |change (local_rq_state (set_sis id r)) with (local_rq_state r); by rewrite Hw].
      intros _. apply (any_flag _ _ __RQ_NET_SIS); [done| |done]. unfold net. cbn. rewrite list_lookup_alter_eq.
      destruct (lookup_lt_is_Some_2 _ _ Hid) as [x ->]. cbn. unfold flag. by apply Z.setbit_eq. }
    exists s'. split_and!; [done|done|]. etransitivity; [|apply L']. cbn. rewrite (alter_as_insert _ _ _ _ Hi). by apply (same_subs_insert i r).
  - (* NEG_ACKED *) destruct Hg as [Hany Hq]. apply (keeps_mod e i (Some id) _ _ s r Hs Hi).
    destruct (flag (local_rq_state r) __RQ_WRITE) eqn:Ew; apply event_step_ok; try done; by rewrite Ew.
  - (* BARRIER_ACKED *) by eapply barrier_keeps.
  - (* DATA_RECEIVED *) destruct Hg as [Hany Hq]. apply (keeps_mod e i (Some id) _ _ s r Hs Hi).
    apply event_step_ok; try done. intros _ _. apply orb_true_r.
  - (* RESEND *) destruct (flag (net r id) __RQ_NET_OK) eqn:Eo; [by eapply barrier_keeps; eauto|].
    destruct (flag (net r id) __RQ_NET_PENDING) eqn:Ep; cbn [negb]; [|by apply keeps_id].
    apply (keeps_mod e i (Some id) _ _ s r Hs Hi). by apply resend_step_ok.
  - (* CANCEL_SUSPENDED_IO *) destruct (not_for_peer r id) eqn:En; [by apply keeps_id|].
    apply (keeps_mod e i (Some id) _ _ s r Hs Hi). by apply lost_step_ok.
  - (* COMPLETION_RESUMED *) apply (keeps_mod e i (Some id) _ _ s r Hs Hi). by apply event_step_ok.
Qed.
