(* ===== verification/ReqSubmit.v ===== *)
(** * Submission of requests, and what holds in every reachable state

    [drbd_send_and_submit] keeps the invariant of [ReqLife]; so do the events and the
    retry of a request.  The properties of the requests follow for every state that
    they can reach. *)
From S2P Require Import Prelude Headers Req ReqOrder ReqProps ReqLife.

(** ** Changes that do not matter *)

Lemma settled_tle s nr writes : settled s -> settled (mk_res (reqs s) (tl_previous_write s) nr writes (log s)).
Proof.
  intros [[[L1 L2] W R N S] Q [G1 G2 G3 G4]]. split; [split; [by split|done..]|done|by split].
Qed.

(** A change of other members of request [i]. *)
Lemma settled_upd i f s r : settled s -> reqs s !! i = Some r ->
  f r = set_epoch (r_epoch (f r)) (set_tl (on_tl (f r)) (INTERVAL_DONE r) (next_write r) r) -> settled (upd i f s).
Proof.
  intros [C Q L] Hi Hf. assert (reqs (upd i f s) = <[i := f r]> (reqs s)) as R by (by apply alter_as_insert).
  assert (pending_actions (f r) = pending_actions r /\ undone (f r) = undone r /\ queued (f r) = queued r) as (Ep & Eu & Eq) by (by rewrite Hf).
  split.
  - apply (chain_inv_own_same s _ i r (f r)); try done; by rewrite Hf.
  - rewrite R. apply req_inv_insert; [by intros; eapply Q|]. destruct (Q i r Hi) as [R1 [W1 W2 W3 W4] RL]. rewrite Hf.
    split; [done|by split|]. intros Ha. destruct (RL Ha) as [F1 F2 F3]. split; [|done|done]. intros Hp. by destruct (F1 Hp) as [[]].
  - apply (log_inv_silent i s _ r (f r)); [done|done|done|by rewrite Hf|by rewrite Hf|by rewrite Eu| |done].
    intros Hre. rewrite Ep, Hf. destruct (lg_restart _ L i Hre) as (x & Hx & ?). by simplify_eq.
Qed.

(** ** A new request *)

Section append.
Variables (slots : nat) (b : submission) (s : drbd_resource).
Hypothesis Hs : settled s.
Hypothesis Hread : b_write b = true -> b_op_read b = false.

Let r0 : drbd_request := drbd_req_new slots b.
Definition with_new : drbd_resource :=
  mk_res (reqs s ++ [drbd_req_new slots b]) (tl_previous_write s) (current_tle_nr s) (current_tle_writes s) (log s).

Lemma new_flag k : 0 <= k -> flag (local_rq_state r0) k =
  (b_write b && (k =? __RQ_WRITE)) || (b_zeroes b && (k =? __RQ_ZEROES)) || (b_unmap b && (k =? __RQ_UNMAP)) ||
  (b_in_act_log b && (k =? __RQ_IN_ACT_LOG)).
Proof.
  intros Hk. clear Hread Hs. unfold r0, drbd_req_new. cbn [local_rq_state]. rewrite flag_RQ; [|done|].
  - unfold when. clear. destruct (b_write b), (b_zeroes b), (b_unmap b), (b_in_act_log b); cbn [app andb orb];
      apply eq_true_iff_eq; rewrite bool_decide_eq_true, ?orb_true_iff, ?Z.eqb_eq, ?elem_of_cons, ?elem_of_nil; intuition congruence.
  - unfold when. destruct (b_write b), (b_zeroes b), (b_unmap b), (b_in_act_log b); by repeat constructor.
Qed.

Lemma sumz_replicate f m : f 0 = 0 -> sumz f (replicate m 0) = 0.
Proof. intros Hf. induction m as [|m IH]; [done|]. cbn. fold (sumz f (replicate m 0)). lia. Qed.

Lemma new_counts : pending_actions r0 = 1 /\ undone r0 = 1 /\ queued r0 = 0.
Proof.
  unfold pending_actions, undone, queued. change (net_rq_state r0) with (replicate slots 0). rewrite !sumz_replicate by done.
  assert (lc (local_rq_state r0) = 0) as ->; [|done]. unfold lc. rewrite !new_flag by done. by rewrite !andb_false_r.
Qed.

Lemma new_req_inv : req_inv r0.
Proof.
  destruct new_counts as (Ep & _ & _). split; [by rewrite Ep|split|].
  - apply Forall_replicate. unfold word_ok. rewrite !flag_0, andb_false_r. done.
  - intros _ _. by apply Forall_replicate.
  - rewrite new_flag by done. intros Ho. rewrite !andb_false_r, !orb_false_r, andb_true_r. destruct (b_write b) eqn:E; [|done].
    change (b_op_read b = true) in Ho. by rewrite (Hread eq_refl) in Ho.
  - done.
  - intros _. split; rewrite ?Ep; [|done|].
    + intros _. split; [|rewrite new_flag by done; by rewrite !andb_false_r]. split; [done|done|by apply Forall_replicate].
    + intros _ _. by apply Forall_replicate.
Qed.

Lemma lookup_new k : reqs with_new !! k = if decide (k = length (reqs s)) then Some r0 else reqs s !! k.
Proof.
  cbn. case_decide as Hk; [subst; by rewrite lookup_app_r, Nat.sub_diag by lia|].
  destruct (decide (k < length (reqs s))%nat); [by rewrite lookup_app_l|].
  rewrite (lookup_ge_None_2 (reqs s)) by lia. apply lookup_ge_None_2. rewrite length_app. cbn. lia.
Qed.

Lemma pred_new f k : existsb (fun r => bool_decide (next_write r = Some k) && f r) (reqs with_new) =
  existsb (fun r => bool_decide (next_write r = Some k) && f r) (reqs s).
Proof. cbn. rewrite existsb_app. cbn. by rewrite orb_false_r. Qed.

Lemma no_pred_new f : existsb (fun r => bool_decide (next_write r = Some (length (reqs s))) && f r) (reqs s) = false.
Proof.
  apply existsb_none. intros j r Hj. rewrite bool_decide_eq_false_2; [done|]. intros Hn.
  pose proof (li_next _ (ci_links _ _ _ (rs_chain _ _ _ Hs)) j r _ Hj Hn). lia.
Qed.

Lemma settled_new : settled with_new.
Proof.
  pose proof Hs as [[[L1 L2] W R N S] Q [G1 G2 G3 G4]]. pose proof new_req_inv as Hr0. destruct new_counts as (Ep & Eu & Eq).
  assert (forall k r, reqs s !! k = Some r -> reqs with_new !! k = Some r) as Hold.
  { intros k r Hk. rewrite lookup_new, decide_False; [done|]. apply lookup_lt_Some in Hk. lia. }
  split; [split|..].
  - split.
    + intros j r k Hj Hn. rewrite lookup_new in Hj. case_decide; [by simplify_eq|]. pose proof (L1 j r k Hj Hn). cbn. rewrite length_app. cbn. lia.
    + intros j1 r1 j2 r2 k H1 H2. rewrite lookup_new in H1, H2. repeat case_decide; simplify_eq; try done. by apply L2.
  - intros j Hj. destruct (W j Hj) as (r & Hr & ?). exists r. split; [by apply Hold|done].
  - intros k r Hk. unfold pred_undone, pred_unsent. rewrite !pred_new. rewrite lookup_new in Hk. case_decide; [|by apply (R k r)].
    simplify_eq. rewrite !no_pred_new, Eu, Eq. done.
  - done.
  - intros k Hk. destruct (S k Hk) as (r & Hr & ?). exists r. split; [by apply Hold|done].
  - intros k r Hk. rewrite lookup_new in Hk. case_decide; [by simplify_eq|by eapply Q].
  - split.
    + intros k. change (completions with_new k) with (completions s k). rewrite G1, lookup_new. case_decide; [|done].
      subst. by rewrite (lookup_ge_None_2 (reqs s)) by lia.
    + intros k Hk. destruct (G2 k Hk) as (r & Hr & ?). exists r. split; [by apply Hold|done].
    + intros k Hk. destruct (G3 k Hk) as (r & Hr & ?). exists r. split; [by apply Hold|done].
    + intros k Hk. destruct (G4 k Hk) as (r & Hr & ?). exists r. split; [by apply Hold|done].
Qed.

Lemma new_not_restarted : (length (reqs s), RESTART_REQUEST) ∉ log s.
Proof. intros Hk. destruct (lg_restart _ (rs_log _ _ _ Hs) _ Hk) as (r & Hr & _). apply lookup_lt_Some in Hr. lia. Qed.
End append.

(** ** The link from the previous write *)

Lemma pred_exists f s k : existsb (fun r => bool_decide (next_write r = Some k) && f r) (reqs s) = true <->
  exists j r, reqs s !! j = Some r /\ next_write r = Some k /\ f r = true.
Proof.
  rewrite existsb_exists. split.
  - intros (r & Hr & [Hn%bool_decide_eq_true Hf]%andb_true_iff). apply list_elem_of_In, list_elem_of_lookup in Hr as [j Hj]. eauto.
  - intros (j & r & Hj & Hn & Hf). exists r. split; [by eapply list_elem_of_In, list_elem_of_lookup_2|].
    by rewrite bool_decide_eq_true_2, Hf.
Qed.

Section link.
Variables (i : nat) (s : drbd_resource) (r : drbd_request).
Hypothesis Hs : settled s.
Hypothesis Hi : reqs s !! i = Some r.
Hypothesis Hnext : next_write r = None.
Hypothesis Hdone : INTERVAL_DONE r = false.
Hypothesis Hpred : forall j x, reqs s !! j = Some x -> next_write x <> Some i.
Hypothesis Hprev : forall j, tl_previous_write s = Some j -> (j < i)%nat.
Hypothesis Hundone : 0 < undone r.

Variables (j : nat) (rj : drbd_request).
Hypothesis Hj : tl_previous_write s = Some j.
Hypothesis Hrj : reqs s !! j = Some rj.

Let d : Z := Z.b2z (negb (INTERVAL_DONE rj)).
Let ri' : drbd_request := set_refs (completion_ref r) (done_ref r + d) (oos_send_ref r + 1) r.
Let rj' : drbd_request := set_tl (on_tl rj) (INTERVAL_DONE rj) (Some i) rj.

Lemma link_reqs : reqs (link_previous_write i s) = <[j := rj']> (<[i := ri']> (reqs s)).
Proof.
  unfold link_previous_write. rewrite Hj. cbn [reqs upd req].
  assert (j <> i) as Hne by (pose proof (Hprev j Hj); lia).
  unfold req. cbn [reqs]. rewrite Hrj. cbn [default from_option Datatypes.id]. fold d.
  rewrite (alter_as_insert _ i (reqs s) r Hi). by rewrite (alter_as_insert _ j _ rj) by (by rewrite list_lookup_insert_ne).
Qed.

Lemma link_lookup k x : reqs (link_previous_write i s) !! k = Some x ->
  (k = i /\ x = ri') \/ (k = j /\ x = rj') \/ (k <> i /\ k <> j /\ reqs s !! k = Some x).
Proof.
  rewrite link_reqs, list_lookup_insert_Some. intros [(-> & <- & _)|[Hkj Hk]]; [auto|].
  apply list_lookup_insert_Some in Hk as [(-> & <- & _)|[Hki Hk]]; auto.
Qed.

Lemma link_at_i : reqs (link_previous_write i s) !! i = Some ri'.
Proof.
  rewrite link_reqs. rewrite list_lookup_insert_ne by (pose proof (Hprev j Hj); lia). apply list_lookup_insert_eq. by eapply lookup_lt_Some.
Qed.
Lemma link_at_j : reqs (link_previous_write i s) !! j = Some rj'.
Proof. rewrite link_reqs. apply list_lookup_insert_eq. rewrite length_insert. by eapply lookup_lt_Some. Qed.
Lemma link_at k : k <> i -> k <> j -> reqs (link_previous_write i s) !! k = reqs s !! k.
Proof. intros Hi' Hj'. by rewrite link_reqs, !list_lookup_insert_ne. Qed.

Lemma link_prev : tl_previous_write (link_previous_write i s) = Some i.
Proof. unfold link_previous_write. by rewrite Hj. Qed.
Lemma link_log : log (link_previous_write i s) = log s.
Proof. unfold link_previous_write. by rewrite Hj. Qed.

Lemma link_last : next_write rj = None /\ 0 < oos_send_ref rj /\ d = Z.b2z (0 <? done_ref rj).
Proof.
  pose proof Hs as [[_ W R _ _] _ _]. destruct (W j Hj) as (x & Hx & Hn & Ho & Hd). simplify_eq. split_and!; [done|done|].
  unfold d. rewrite Hd. destruct (R j rj Hrj) as [E _]. unfold zero in E. pose proof (undone_nonneg rj). pose proof (b2z_range (pred_undone s j)).
  destruct (Z.eqb_spec (done_ref rj) 0), (Z.ltb_spec 0 (done_ref rj)); done || lia.
Qed.

Lemma link_pred f k : (forall x, f (set_tl (on_tl x) (INTERVAL_DONE x) (Some i) x) = f x) ->
  existsb (fun x => bool_decide (next_write x = Some k) && f x) (reqs (link_previous_write i s)) =
  if decide (k = i) then f rj
  else existsb (fun x => bool_decide (next_write x = Some k) && f x) (reqs s).
Proof.
  intros Hf. destruct link_last as (Hn & _ & _). apply eq_true_iff_eq. rewrite pred_exists. case_decide as Hk.
  - subst k. split.
    + intros (m & x & Hm & Hx & Hfx). destruct (link_lookup m x Hm) as [[-> ->]|[[-> ->]|(_ & _ & Ho)]].
      * cbn in Hx. congruence.
      * by rewrite <- Hf.
      * by apply Hpred in Ho.
    + intros Hfj. exists j, rj'. split_and!; [apply link_at_j|done|]. unfold rj'. by rewrite Hf.
  - rewrite pred_exists. split.
    + intros (m & x & Hm & Hx & Hfx). destruct (link_lookup m x Hm) as [[-> ->]|[[-> ->]|(_ & _ & Ho)]].
      * cbn in Hx. congruence.
      * cbn in Hx. congruence.
      * by exists m, x.
    + intros (m & x & Hm & Hx & Hfx). exists m, x. split; [|done]. rewrite link_at; [done|..]; intros ->; simplify_eq.
Qed.
End link.

Lemma link_settled i s r : settled s -> reqs s !! i = Some r -> next_write r = None -> INTERVAL_DONE r = false ->
  (forall j x, reqs s !! j = Some x -> next_write x <> Some i) -> (forall j, tl_previous_write s = Some j -> (j < i)%nat) ->
  0 < undone r ->
  settled (link_previous_write i s) /\ Forall2 same_sub (reqs s) (reqs (link_previous_write i s)) /\
  exists r', reqs (link_previous_write i s) !! i = Some r' /\ r' = set_refs (completion_ref r) (done_ref r') (oos_send_ref r') r.
Proof.
  intros Hs Hi Hnext Hdone Hpred Hprev Hundone. destruct (settled_pos s i r Hs Hi Hundone) as [Hd Ho].
  pose proof Hs as [[[L1 L2] W R N S] Q G].
  destruct (tl_previous_write s) as [j|] eqn:Ej.
  2:{ unfold link_previous_write. rewrite Ej. split; [|split; [reflexivity|exists r; split; [done|by destruct r]]].
      destruct G. split; [split|done|by split]; [by split| |done|done|done]. intros k [= <-]. exists r. split_and!; [done|done|done|].
      rewrite Hdone. symmetry. apply Z.eqb_neq. lia. }
  destruct (W j Ej) as (rj & Hrj & Hnj & Hoj & Hdj). rewrite <- Ej in Hprev.
  pose proof (link_reqs i s r Hi Hprev j rj Ej Hrj) as Hreqs.
  pose proof (link_lookup i s r Hi Hpred Hprev j rj Ej Hrj) as Hlk.
  pose proof (link_at_i i s r Hi Hprev j rj Ej Hrj) as Hai. pose proof (link_at_j i s r Hi Hprev j rj Ej Hrj) as Haj.
  pose proof (link_prev i s j Ej) as Hp. pose proof (link_log i s j Ej) as Hlog.
  destruct (link_last s Hs j rj Ej Hrj) as (_ & _ & Hdd).
  pose proof (link_pred i s r Hs Hi Hnext Hpred Hprev j rj Ej Hrj) as Hpr.
  set (d := Z.b2z (negb (INTERVAL_DONE rj))) in *. set (s' := link_previous_write i s) in *.
  set (ri' := set_refs (completion_ref r) (done_ref r + d) (oos_send_ref r + 1) r) in *.
  set (rj' := set_tl (on_tl rj) (INTERVAL_DONE rj) (Some i) rj) in *.
  assert (0 <= d) by (rewrite Hdd; apply b2z_range).
  assert (length (reqs s') = length (reqs s)) as Hlen by (by rewrite Hreqs, !length_insert).
  assert (j < i < length (reqs s))%nat as Hji by (split; [by apply Hprev|by eapply lookup_lt_Some]).
  split_and!.
  - split; [split|..].
    + split.
      * intros k x m Hk Hx. rewrite Hlen. destruct (Hlk k x Hk) as [[-> ->]|[[-> ->]|(_ & _ & Hold)]]; cbn in Hx; [congruence| |by apply (L1 k x)].
        injection Hx as <-. done.
      * intros k1 x1 k2 x2 m H1 H2 N1 N2.
        destruct (Hlk k1 x1 H1) as [[-> ->]|[[-> ->]|(_ & _ & O1)]]; cbn in N1; [congruence|injection N1 as <-|];
        destruct (Hlk k2 x2 H2) as [[-> ->]|[[-> ->]|(_ & _ & O2)]]; cbn in N2; try congruence; try done.
        -- by apply Hpred in O2.
        -- injection N2 as <-. by apply Hpred in O1.
        -- by eapply L2.
    + intros k. rewrite Hp. intros [= <-]. exists ri'. split_and!; [done|done|cbn; lia|]. cbn. rewrite Hdone. symmetry. apply Z.eqb_neq. lia.
    + intros k x Hk. unfold pred_undone, pred_unsent. rewrite !Hpr by done.
      destruct (Hlk k x Hk) as [[-> ->]|[[-> ->]|(Hki & _ & Hold)]].
      * rewrite !decide_True by done. destruct (R i r Hi) as [E1 E2]. unfold pred_undone, pred_unsent, zero in *.
        assert (forall f, existsb (fun x => bool_decide (next_write x = Some i) && f x) (reqs s) = false) as Hno.
        { intros f. apply existsb_none. intros k x Hx. by rewrite bool_decide_eq_false_2 by (by eapply Hpred). }
        rewrite Hno in E1. rewrite Hno in E2. change (undone ri') with (undone r). change (queued ri') with (queued r).
        cbn [ri' set_refs done_ref oos_send_ref]. rewrite (proj2 (Z.ltb_lt 0 (oos_send_ref rj)) Hoj).
        rewrite (proj2 (Z.ltb_lt 0 (done_ref r)) Hd) in E2. rewrite (proj2 (Z.ltb_lt 0 (done_ref r + d))) by lia.
        cbn [Z.b2z] in *. lia.
      * rewrite !decide_False by lia. exact (R j rj Hrj).
      * rewrite !decide_False by done. exact (R k x Hold).
    + done.
    + intros k Hk. rewrite Hlog in Hk. destruct (S k Hk) as (x & Hx & Hle).
      destruct (decide (k = i)) as [-> |Hki]; [assert (x = r) as -> by congruence; lia|].
      destruct (decide (k = j)) as [-> |Hkj]; [assert (x = rj) as -> by congruence; lia|].
      exists x. by rewrite Hreqs, !list_lookup_insert_ne.
    + intros k x Hk. destruct (Hlk k x Hk) as [[-> ->]|[[-> ->]|(_ & _ & Hold)]]; [| |by eapply Q].
      * destruct (Q i r Hi) as [R1 [W1 W2 W3 W4] RL]. split; [done|by split|]. intros Ha. destruct (RL Ha) as [F1 F2 F3].
        split; [|done|done]. intros Hpp. by destruct (F1 Hpp) as [[]].
      * destruct (Q j rj Hrj) as [R1 [W1 W2 W3 W4] RL]. split; [done|by split|]. intros Ha. destruct (RL Ha) as [F1 F2 F3].
        split; [|done|done]. intros Hpp. by destruct (F1 Hpp) as [[]].
    + apply (log_inv_calm s); [|exists []; by rewrite app_nil_r, Hlog|done]. apply Forall2_lookup. intros k.
      destruct (reqs s' !! k) as [x|] eqn:Ex.
      * destruct (Hlk k x Ex) as [[-> ->]|[[-> ->]|(_ & _ & ->)]]; rewrite ?Hi, ?Hrj; constructor; split; auto.
      * apply lookup_ge_None in Ex. rewrite Hlen in Ex. apply lookup_ge_None in Ex. rewrite Ex. constructor.
  - rewrite Hreqs. transitivity (<[i := ri']> (reqs s)); [by apply (same_subs_insert i r)|]. apply (same_subs_insert j rj); [|done].
    rewrite list_lookup_insert_ne by lia. done.
  - by exists ri'.
Qed.

(** ** The events of the submission *)

(** A word that no event has touched. *)
Definition fresh_word (n : Z) : Prop := any n RQ_NET_MASK = false /\ flag n __RQ_EXP_BARR_ACK = false.

Lemma fresh_flag n k : fresh_word n -> 0 <= k -> flag RQ_NET_MASK k = true -> flag n k = false.
Proof.
  intros [Ha _] Hk Hm. apply not_true_iff_false. intros Hn. by rewrite (any_flag n RQ_NET_MASK k) in Ha.
Qed.

Lemma quiet_fresh n n' : quiet_word n n' -> fresh_word n -> fresh_word n'.
Proof. intros [Hq Hm] [Ha Hb]. split; [congruence|]. by rewrite Hq. Qed.

(** A request on its way into the transfer log. *)
Record sub_req (slots : nat) (write : bool) (r : drbd_request) : Prop := {
  sr_sub : submitting r = true;
  sr_abort : aborted r = false;
  sr_local : flag (local_rq_state r) __RQ_LOCAL_PENDING = false;
  sr_write : flag (local_rq_state r) __RQ_WRITE = write;
  sr_slots : length (net_rq_state r) = slots }.

Lemma sub_waits slots w r : sub_req slots w r -> pending_actions r <> 0.
Proof. intros [Hs _ _ _ _] (Hf & _)%pending_zero. congruence. Qed.

Lemma sub_undone slots w r : req_inv r -> sub_req slots w r -> 0 < undone r.
Proof.
  intros Hinv Hsub. destruct (ri_life _ Hinv (sr_abort _ _ _ Hsub)) as [L1 _ _].
  destruct (L1 (sub_waits _ _ _ Hsub)) as [Hr%ready_undone _]. pose proof (undone_nonneg r). lia.
Qed.

(** The flags that the submission sets for a peer. *)
Definition new_bits (write : bool) (st : list Z) : bool :=
  forallb (fun k => negb (flag (RQ st) k))
    [__RQ_LOCAL_PENDING; __RQ_LOCAL_ABORTED; __RQ_COMPLETION_SUSP; __RQ_POSTPONED; __RQ_WRITE] &&
  negb (flag (RQ st) __RQ_EXP_BARR_ACK && flag (RQ st) __RQ_NET_DONE) &&
  implb (flag (RQ st) __RQ_NET_PENDING) (negb (flag (RQ st) __RQ_NET_DONE)) &&
  implb (write && flag (RQ st) __RQ_NET_PENDING) (flag (RQ st) __RQ_EXP_BARR_ACK) &&
  (flag (RQ st) __RQ_EXP_BARR_ACK || flag (RQ st) __RQ_NET_PENDING || flag (RQ st) __RQ_NET_DONE) &&
  implb (flag (RQ st) __RQ_NET_QUEUED && flag (RQ st) __RQ_NET_DONE) (flag (RQ st) __RQ_NET_PENDING_OOS).

Lemma new_step_ok slots w id st r : req_inv r -> sub_req slots w r -> (id < slots)%nat -> fresh_word (net r id) ->
  new_bits w st = true -> step_ok (Some id) (RQ []) (RQ st) r.
Proof.
  intros Hinv Hsub Hid Hf Hb. pose proof Hsub as [S1 S2 S3 S4 S5]. unfold new_bits in Hb.
  apply andb_true_iff in Hb as [[[[[Hset Hbd]%andb_true_iff Hpd]%andb_true_iff Hwp]%andb_true_iff Hany]%andb_true_iff Hqd].
  rewrite forallb_forall in Hset.
  assert (forall k, In k [__RQ_LOCAL_PENDING; __RQ_LOCAL_ABORTED; __RQ_COMPLETION_SUSP; __RQ_POSTPONED; __RQ_WRITE] -> flag (RQ st) k = false) as Hk
    by (intros k Hx; by apply negb_true_iff, Hset).
  assert (forall k, 0 <= k -> flag RQ_NET_MASK k = true -> flag (net r id) k = false) as Hz by (intros; by apply fresh_flag).
  assert (forall k, flag (RQ []) k = false) as Hc by (intros; apply flag_0).
  split.
  - split; [by intros k _ _|by rewrite S5| | | | | |].
    + rewrite Hk; [done|cbn; tauto].
    + done.
    + rewrite (Hk __RQ_LOCAL_PENDING); [done|cbn; tauto].
    + done.
    + intros ? [= <-] Hbarr. rewrite Hbarr in Hbd. split; [by apply Hz|]. by destruct (flag (RQ st) __RQ_NET_DONE).
    + by rewrite Hc.
  - done.
  - intros _. by eapply sub_waits.
  - intros _. by eapply sub_undone.
  - intros k Hx. split; [apply Hk; destruct Hx as [-> | ->]; cbn; tauto|done].
  - intros ? [= <-]. unfold word_ok. rewrite !flag_new_net, !Hz by done. rewrite (proj2 Hf), S4, !orb_false_r.
    destruct (any (new_net (RQ []) (RQ st) (net r id)) RQ_NET_MASK); cbn [implb]; rewrite ?Hany, ?andb_true_r; by rewrite Hpd, Hwp.
  - intros ? [= <-] _. unfold oos_word. rewrite !flag_new_net, !Hz by done. by rewrite !orb_false_r.
  - intros ? [= <-] _. right. by eapply sub_waits.
  - rewrite !flag_new_local, (Hk __RQ_LOCAL_PENDING), (Hk __RQ_LOCAL_ABORTED) by (try done; cbn; tauto).
    unfold aborted in S2. by rewrite S2, S3.
Qed.

Section loops.
Variables (e : req_env) (slots i : nat) (w : bool).

(** While the loops run over the peers: those of [rest] are still untouched. *)
Record loop_inv (s0 : drbd_resource) (rest : list nat) (s : drbd_resource) : Prop := {
  lp_settled : settled s;
  lp_sub : Forall2 same_sub (reqs s0) (reqs s);
  lp_req : exists r, reqs s !! i = Some r /\ sub_req slots w r /\ Forall (fun id => fresh_word (net r id)) rest;
  lp_rest : NoDup rest /\ Forall (fun id => id < slots)%nat rest }.

Lemma for_each_inv (I : list nat -> drbd_resource -> Prop) l f s :
  I l s -> (forall id l s, I (id :: l) s -> exists s', f id s = Ret s' /\ I l s') ->
  exists s', for_each_peer_device l f s = Ret s' /\ I [] s'.
Proof.
  intros HI Hf. revert s HI. induction l as [|id l IH]; intros s HI; [by exists s|].
  destruct (Hf id l s HI) as (s1 & E1 & H1). cbn. rewrite E1. cbn. by apply IH.
Qed.

Lemma after_sub id c st r r' : sub_req slots w r -> (id < slots)%nat ->
  (forall k, In k [__RQ_LOCAL_PENDING; __RQ_LOCAL_ABORTED; __RQ_WRITE] -> flag (RQ st) k = false /\ flag (RQ c) k = false) ->
  after (Some id) (RQ c) (RQ st) r r' -> sub_req slots w r'.
Proof.
  intros [S1 S2 S3 S4 S5] Hid Hk Ha. destruct (after_word id _ _ r r' Ha) as [_ Hlen]; [by rewrite S5|].
  destruct Ha as [_ Hl Hs].
  assert (forall k, In k [__RQ_LOCAL_PENDING; __RQ_LOCAL_ABORTED; __RQ_WRITE] -> flag (local_rq_state r') k = flag (local_rq_state r) k) as Hx.
  { intros k Hin. destruct (Hk k Hin) as [K1 K2]. cbn [In] in Hin.
    assert (0 <= k /\ state0 k = true /\ k <> __RQ_POSTPONED) as (G1 & G2 & G3) by (by destruct Hin as [<- |[<- |[<- |[]]]]).
    rewrite Hl, flag_new_local, K1, K2 by done. apply andb_true_r. }
  split; [congruence|unfold aborted; rewrite Hx by (cbn; tauto); apply S2|rewrite Hx by (cbn; tauto); apply S3|
    rewrite Hx by (cbn; tauto); apply S4|congruence].
Qed.

Lemma after_fresh id c st r r' l : after (Some id) c st r r' -> id ∉ l ->
  Forall (fun id => fresh_word (net r id)) l -> Forall (fun id => fresh_word (net r' id)) l.
Proof.
  intros [Hn _ _] Hid HF. rewrite Forall_forall in *. intros k Hk. specialize (HF k Hk). cbn [new_nets] in Hn.
  assert (id <> k) as Hne by congruence. unfold net in *.
  assert (<[id := new_net c st (default 0 (net_rq_state r !! id))]> (net_rq_state r) !! k = net_rq_state r !! k) as El by (by apply list_lookup_insert_ne).
  unfold net in Hn. destruct (net_rq_state r !! k) as [n|] eqn:En.
  - destruct (Forall2_lookup_l _ _ _ _ _ Hn El) as (n' & -> & Hq). cbn in *. by eapply quiet_fresh.
  - apply lookup_ge_None in En. pose proof (Forall2_length _ _ _ Hn) as Hlen. rewrite length_insert in Hlen.
    rewrite (proj2 (lookup_ge_None (net_rq_state r') k)) by lia. done.
Qed.

Lemma loop_mod s0 id l s st : loop_inv s0 (id :: l) s -> new_bits w st = true ->
  exists s', mod_rq_state e i (Some id) (RQ []) (RQ st) s = Ret s' /\ loop_inv s0 l s'.
Proof.
  intros [Hs Hsub (r & Hi & Hr & [Hf Hfs]%Forall_cons) [[Hnin Hnd]%NoDup_cons [Hid Hids]%Forall_cons]] Hb.
  pose proof (new_step_ok slots w id st r (rs_req _ _ _ Hs i r Hi) Hr Hid Hf Hb) as Hst.
  destruct (mod_inv e i (Some id) (RQ []) (RQ st) s r Hs Hi Hst) as (s' & E & S' & L' & r' & Hi' & Ha).
  exists s'. split; [done|]. split; [done|by etransitivity| |done].
  exists r'. split; [done|]. split; [|by eapply after_fresh].
  eapply after_sub, Ha; [done|done|]. intros k Hk. split; [|apply flag_0]. unfold new_bits in Hb.
  apply andb_true_iff in Hb as [[[[[Hset _]%andb_true_iff _]%andb_true_iff _]%andb_true_iff _]%andb_true_iff _].
  rewrite forallb_forall in Hset. apply negb_true_iff, Hset. cbn [In] in *. tauto.
Qed.

Lemma loop_skip s0 id l s : loop_inv s0 (id :: l) s -> loop_inv s0 l s.
Proof.
  intros [Hs Hsub (r & Hi & Hr & [_ Hfs]%Forall_cons) [[_ Hnd]%NoDup_cons [_ Hids]%Forall_cons]]. split; [done|done| |done]. by exists r.
Qed.

Lemma loop_tle s0 l s nr writes : loop_inv s0 l s -> loop_inv s0 l (mk_res (reqs s) (tl_previous_write s) nr writes (log s)).
Proof. intros [Hs Hsub Hr Hd]. split; [by apply settled_tle|done|done|done]. Qed.
End loops.

Section submit.
Variables (e : req_env) (slots i : nat) (b : submission).
Hypothesis Hnodes : NoDup (peer_nodes e) /\ Forall (fun id => id < slots)%nat (peer_nodes e).

(** The state of the submission between the loops. *)
Record sub_inv (w : bool) (s0 s : drbd_resource) : Prop := {
  si_settled : settled s;
  si_sub : Forall2 same_sub (reqs s0) (reqs s);
  si_req : exists r, reqs s !! i = Some r /\ sub_req slots w r }.

Lemma loop_sub w s0 l s : loop_inv slots i w s0 l s -> sub_inv w s0 s.
Proof. intros [H1 H2 (r & Hr & Hs & _) _]. split; [done|done|by exists r]. Qed.

Lemma new_net_write_ok s0 id l s : loop_inv slots i true s0 (id :: l) s ->
  exists s', req_mod_net e i id NEW_NET_WRITE s = Ret s' /\ loop_inv slots i true s0 l s'.
Proof.
  intros HI. unfold req_mod_net.
  destruct (loop_mod e slots i true s0 id l s ([__RQ_NET_PENDING; __RQ_NET_QUEUED; __RQ_EXP_BARR_ACK] ++
    drbd_protocol_state_bits (e_wire_protocol e id)) HI) as (s1 & -> & H1); [by destruct (e_wire_protocol e id)|].
  cbn [obind]. eexists. split; [done|]. case_if; [|done]. unfold start_new_tl_epoch. case_if; [done|]. by apply loop_tle.
Qed.

Lemma process_write_ok s0 s : loop_inv slots i true s0 (peer_nodes e) s ->
  exists s', drbd_process_write_request e b i s = Ret s' /\ sub_inv true s0 s'.
Proof.
  intros HI. unfold drbd_process_write_request.
  destruct (for_each_inv (loop_inv slots i true s0) (peer_nodes e) (fun idx s => if b_remote b idx then req_mod_net e i idx NEW_NET_WRITE s
     else if b_send_oos b idx then req_mod_net e i idx NEW_NET_OOS s else Ret s) s HI) as (s' & E & H).
  - intros id l s1 H1. destruct (b_remote b id); [by apply new_net_write_ok|]. destruct (b_send_oos b id).
    + by apply (loop_mod e slots i true s0 id l s1 [__RQ_NET_PENDING_OOS; __RQ_NET_QUEUED; __RQ_NET_DONE]).
    + eexists. split; [done|]. by eapply loop_skip.
  - exists s'. split; [done|]. by eapply loop_sub.
Qed.

Lemma process_flush_ok w s0 s : loop_inv slots i w s0 (peer_nodes e) s ->
  exists s', drbd_process_empty_flush e b i s = Ret s' /\ sub_inv w s0 s'.
Proof.
  intros HI. unfold drbd_process_empty_flush.
  destruct (for_each_inv (loop_inv slots i w s0) (peer_nodes e) (fun idx s => if b_peer_up_to_date b idx
     then req_mod_net e i idx BARRIER_SENT s else Ret s) s HI) as (s' & E & H).
  - intros id l s1 H1. destruct (b_peer_up_to_date b id).
    + apply (loop_mod e slots i w s0 id l s1 [__RQ_NET_OK; __RQ_NET_DONE] H1). by destruct w.
    + eexists. split; [done|]. by eapply loop_skip.
  - exists s'. split; [done|]. by eapply loop_sub.
Qed.

Lemma new_net_read_ok s0 id s : loop_inv slots i false s0 [id] s ->
  exists s', req_mod_net e i id NEW_NET_READ s = Ret s' /\ sub_inv false s0 s'.
Proof.
  intros HI. unfold req_mod_net.
  assert (loop_inv slots i false s0 [id] (emit i [INSERT_READ_INTERVAL] s)) as HI'.
  { destruct HI as [H1 H2 (r & Hr & H3) H4]. split; [|done| |done]; [|by exists r].
    apply (emit_settled i _ s r); [by intros [=]%list_elem_of_singleton|by repeat constructor|done|done]. }
  destruct (loop_mod e slots i false s0 id [] _ [__RQ_NET_PENDING; __RQ_NET_QUEUED] HI') as (s' & E & H); [done|].
  exists s'. split; [done|]. by eapply loop_sub.
Qed.

Lemma ready_for_net_ok w s0 s : sub_inv w s0 s ->
  exists s', drbd_request_ready_for_net e i s = Ret s' /\ sub_inv w s0 s'.
Proof.
  intros HI. unfold drbd_request_ready_for_net. destruct Hnodes as [_ Hlt].
  set (I := fun l s => sub_inv w s0 s /\ Forall (fun id => id < slots)%nat l).
  destruct (for_each_inv I (peer_nodes e) (fun idx s => if flag (net (req s i) idx) __RQ_NET_PENDING
     then req_mod_net e i idx READY_FOR_NET s else Ret s) s) as (s' & E & [H _]); [done| |by exists s'].
  clear s HI. intros id l s [[Hs Hsub (r & Hi & Hr)] [Hid Hl]%Forall_cons]. rewrite (req_lookup _ _ _ Hi).
  destruct (flag (net r id) __RQ_NET_PENDING) eqn:Ep; [|eexists; split; [done|]; split; [|done]; split; [done|done|by exists r]].
  assert (id < length (net_rq_state r))%nat as Hid' by (by rewrite (sr_slots _ _ _ Hr)).
  destruct (mod_inv e i (Some id) (RQ []) (RQ [__RQ_NET_READY]) s r Hs Hi) as (s' & E & S' & L' & r' & Hi' & Ha).
  { apply event_step_ok; try done; [by eapply Hs|]. intros _. by apply (any_flag _ _ __RQ_NET_PENDING). }
  exists s'. split; [done|]. split; [|done]. split; [done|by etransitivity|]. exists r'. split; [done|].
  eapply after_sub, Ha; [done|done|]. intros k Hk. cbn [In] in Hk. by destruct Hk as [<- |[<- |[<- |[]]]].
Qed.

(** No peer was asked: there is nothing to make ready. *)
Lemma ready_for_net_idle s r : reqs s !! i = Some r -> Forall (fun n => flag n __RQ_NET_PENDING = false) (net_rq_state r) ->
  drbd_request_ready_for_net e i s = Ret s.
Proof.
  intros Hi HF. unfold drbd_request_ready_for_net. clear Hnodes. induction (peer_nodes e) as [|id l IH]; [done|].
  cbn [for_each_peer_device]. rewrite (req_lookup _ _ _ Hi).
  assert (flag (net r id) __RQ_NET_PENDING = false) as ->; [|exact IH].
  unfold net. destruct (net_rq_state r !! id) as [n|] eqn:En; [|apply flag_0]. exact (Forall_lookup_1 _ _ _ _ HF En).
Qed.

Lemma to_be_submitted_ok w s0 s r : sub_inv w s0 s -> reqs s !! i = Some r ->
  (w = false -> Forall (fun n => flag n __RQ_NET_PENDING = false) (net_rq_state r)) ->
  exists s', req_mod_local e i TO_BE_SUBMITTED s = Ret s' /\ settled s' /\ Forall2 same_sub (reqs s0) (reqs s').
Proof.
  intros [Hs Hsub (r' & Hi' & Hr)] Hi Hw. assert (r' = r) as -> by congruence. cbn [req_mod_local].
  destruct (mod_inv e i None (RQ []) (RQ [__RQ_LOCAL_PENDING]) s r Hs Hi) as (s' & E & S' & L' & _).
  2:{ exists s'. split_and!; [done|done|by etransitivity]. }
  pose proof Hr as [S1 S2 S3 S4 S5]. split; try done.
  - split; try done. by intros k _ _; apply flag_0.
  - intros _. by eapply sub_waits.
  - intros k [-> | ->]; done.
  - intros _ Hwr. apply Hw. congruence.
Qed.

(** The put at the end of the submission. *)
Lemma put_submission_ok s r : chain_inv s zero zero -> (forall k x, k <> i -> reqs s !! k = Some x -> req_inv x) ->
  log_inv s -> (i, RESTART_REQUEST) ∉ log s -> reqs s !! i = Some r ->
  submitting r = true -> completion_ref r = pending_actions r -> words_inv r ->
  (aborted r = false -> ready r /\ no_oos_postponed r /\ (pending_actions r <> 1 -> flag (local_rq_state r) __RQ_POSTPONED = false)) ->
  settled (put_submission e i s) /\
  Forall2 same_sub (<[i := set_ghost false (base_done r) r]> (reqs s)) (reqs (put_submission e i s)).
Proof.
  intros Hc Hr Hl Hre Hi Hsub Href Hw Hrd. unfold put_submission. set (f := fun r => set_ghost false (base_done r) r).
  set (s1 := upd i f s). assert (reqs s1 = <[i := f r]> (reqs s)) as R1 by exact (alter_as_insert f i (reqs s) r Hi).
  assert (pending_actions (f r) = pending_actions r - 1) as Ep.
  { unfold pending_actions, f. cbn [set_ghost submitting local_rq_state net_rq_state]. rewrite Hsub. cbn [Z.b2z]. lia. }
  destruct (put_completion_inv e i 1 s1 zero zero) as [I1 F1]; [|lia|].
  2:{ split; [exact I1|]. fold (f r). rewrite <- R1. by apply put_subs. }
  split.
  - by apply (chain_inv_own_same s s1 i r (f r)).
  - intros k x Hk. rewrite R1, list_lookup_insert_ne by done. by apply Hr.
  - by apply (log_inv_silent i s s1 r (f r)).
  - exists (f r). split_and!; [rewrite R1; apply list_lookup_insert_eq; by eapply lookup_lt_Some| |by destruct Hw|].
    + rewrite Ep. change (completion_ref (f r)) with (completion_ref r). lia.
    + intros Ha. destruct (Hrd Ha) as ([] & Hno & Hpp). unfold own_ok. cbn [Z.eqb]. split_and!; [by split|done|].
      intros Hne. apply Hpp. lia.
  - done.
Qed.
End submit.

(** What the callers of [drbd_send_and_submit] see to: a read that a peer serves does not
    go to the local disk ([find_peer_device_for_read] gives up the clone of the bio), and
    only flushes are empty. *)
Record wf_submission (e : req_env) (slots : nat) (b : submission) : Prop := {
  ws_nodes : NoDup (peer_nodes e) /\ Forall (fun id => id < slots)%nat (peer_nodes e);
  ws_read : b_write b = true -> b_op_read b = false;
  ws_peer id : b_write b = false -> b_read_peer b = Some id -> (id < slots)%nat /\ b_private_bio b = false;
  ws_flush : b_size b = 0 -> b_write b = true }.

Section send_and_submit.
Variables (e : req_env) (slots : nat) (b : submission) (s : drbd_resource).
Hypothesis Hwf : wf_submission e slots b.
Hypothesis Hs : settled s.

Let i : nat := length (reqs s).
Let r0 : drbd_request := drbd_req_new slots b.
Let s0 : drbd_resource := with_new slots b s.

Lemma s0_settled : settled s0.
Proof. apply settled_new; [done|]. apply (ws_read _ _ _ Hwf). Qed.
Lemma s0_new : reqs s0 !! i = Some r0.
Proof. unfold s0. rewrite lookup_new. by rewrite decide_True. Qed.

Lemma r0_flags : flag (local_rq_state r0) __RQ_WRITE = b_write b /\ aborted r0 = false /\
  flag (local_rq_state r0) __RQ_LOCAL_PENDING = false.
Proof.
  unfold aborted, r0. rewrite !new_flag by done. clear. by destruct (b_write b), (b_zeroes b), (b_unmap b), (b_in_act_log b).
Qed.

Lemma r0_sub : sub_req slots (b_write b) r0.
Proof. destruct r0_flags as (H1 & H2 & H3). split; [done|done|done|done|apply length_replicate]. Qed.

Lemma r0_fresh id : fresh_word (net r0 id).
Proof.
  unfold net. destruct (net_rq_state r0 !! id) as [n|] eqn:En; [|done]. apply lookup_replicate in En as [-> _]. done.
Qed.

(** The new request with its epoch, before the loops. *)
Lemma epoch_loop w l : w = b_write b -> NoDup l /\ Forall (fun id => id < slots)%nat l ->
  let s1 := upd i (set_epoch (current_tle_nr s0)) s0 in
  forall writes, loop_inv slots i w s0 l (mk_res (reqs s1) (tl_previous_write s1) (current_tle_nr s1) writes (log s1)).
Proof.
  intros -> Hl s1 writes. apply loop_tle.
  assert (reqs s1 = <[i := set_epoch (current_tle_nr s0) r0]> (reqs s0)) as R1 by exact (alter_as_insert _ i _ _ s0_new).
  split; [|rewrite R1; apply (same_subs_insert i r0); [apply s0_new|done]| |done].
  - by apply (settled_upd i _ s0 r0 s0_settled s0_new).
  - exists (set_epoch (current_tle_nr s0) r0). split_and!.
    + rewrite R1. apply list_lookup_insert_eq. eapply lookup_lt_Some, s0_new.
    + by destruct r0_sub.
    + apply Forall_true. intros id. apply r0_fresh.
Qed.

Lemma link_loop s1 : b_write b = true -> loop_inv slots i true s0 (peer_nodes e) s1 -> tl_previous_write s1 = tl_previous_write s ->
  reqs s1 !! i = Some (set_epoch (current_tle_nr s0) r0) -> (forall k, k <> i -> reqs s1 !! k = reqs s0 !! k) ->
  loop_inv slots i true s0 (peer_nodes e) (link_previous_write i s1).
Proof.
  intros Hw [L1 L2 (r & Hr & Hsub & Hfr) L4] Hp Hi Hold. assert (r = set_epoch (current_tle_nr s0) r0) as -> by congruence.
  destruct (link_settled i s1 _ L1 Hi) as (S' & F' & r' & Hi' & Er'); [done|done| | |by eapply sub_undone; [eapply L1|]|].
  - intros j x Hj Hn. destruct (decide (j = i)) as [-> |Hne]; [by simplify_eq|]. rewrite Hold in Hj by done.
    unfold s0 in Hj. rewrite lookup_new, decide_False in Hj by done.
    pose proof (li_next _ (ci_links _ _ _ (rs_chain _ _ _ Hs)) j x i Hj Hn). lia.
  - intros j Hj. rewrite Hp in Hj. destruct (ci_last _ _ _ (rs_chain _ _ _ Hs) j Hj) as (x & Hx & _). by apply lookup_lt_Some in Hx.
  - split; [done|by etransitivity| |done]. exists r'. split; [done|]. rewrite Er'. by destruct Hsub.
Qed.

(** The transfer log. *)
Lemma add_to_tl_ok : exists s', add_to_tl e b i s0 = Ret s' /\ sub_inv slots i (b_write b) s0 s' /\
  exists r, reqs s' !! i = Some r /\
    (b_write b = false -> b_read_peer b = None -> Forall (fun n => flag n __RQ_NET_PENDING = false) (net_rq_state r)).
Proof.
  unfold add_to_tl. set (s1 := upd i (set_epoch (current_tle_nr s0)) s0). set (s2 := mk_res (reqs s1) _ _ _ _).
  pose proof (ws_nodes _ _ _ Hwf) as Hnodes.
  assert (reqs s2 = <[i := set_epoch (current_tle_nr s0) r0]> (reqs s0)) as R2 by exact (alter_as_insert _ i _ _ s0_new).
  assert (reqs s2 !! i = Some (set_epoch (current_tle_nr s0) r0)) as Hi2.
  { rewrite R2. apply list_lookup_insert_eq. eapply lookup_lt_Some, s0_new. }
  destruct (Z.eqb_spec (b_size b) 0) as [Ez|Ez].
  { destruct (process_flush_ok e slots i b (b_write b) s0 s2) as (s' & E & H); [by apply epoch_loop|].
    exists s'. split; [done|]. split; [done|]. destruct H as [_ _ (r & Hr & _)]. exists r. split; [done|].
    rewrite (ws_flush _ _ _ Hwf Ez). done. }
  assert (exists s3, (if b_write b then drbd_process_write_request e b i (link_previous_write i s2)
      else match b_read_peer b with Some idx => req_mod_net e i idx NEW_NET_READ s2 | None => Ret s2 end) = Ret s3 /\
      sub_inv slots i (b_write b) s0 s3 /\
      exists r, reqs s3 !! i = Some r /\ (b_write b = false -> b_read_peer b = None ->
        Forall (fun n => flag n __RQ_NET_PENDING = false) (net_rq_state r))) as (s3 & -> & H3 & r3 & Hi3 & HF3).
  { destruct (b_write b) eqn:Ew.
    - destruct (process_write_ok e slots i b s0 (link_previous_write i s2)) as (s3 & E & H).
      + apply link_loop; [done|by apply epoch_loop|done|done|]. intros k Hk. rewrite R2. by apply list_lookup_insert_ne.
      + exists s3. split; [done|]. split; [done|]. destruct H as [_ _ (r & Hr & _)]. by exists r.
    - destruct (b_read_peer b) as [id|] eqn:Er.
      + destruct (ws_peer _ _ _ Hwf id Ew Er) as [Hid _].
        destruct (new_net_read_ok e slots i s0 id s2) as (s3 & E & H).
        { apply epoch_loop; [done|]. split; [apply NoDup_singleton|by repeat constructor]. }
        exists s3. split; [done|]. split; [done|]. destruct H as [_ _ (r & Hr & _)]. by exists r.
      + exists s2. split; [done|]. split.
        * apply (loop_sub slots i false s0 []). apply epoch_loop; [done|]. split; constructor.
        * exists (set_epoch (current_tle_nr s0) r0). split; [done|]. intros _ _. by apply Forall_replicate. }
  cbn [obind]. set (f := fun r => set_tl true (INTERVAL_DONE r) (next_write r) r).
  assert (reqs (upd i f s3) = <[i := f r3]> (reqs s3)) as R4 by exact (alter_as_insert f i _ _ Hi3).
  assert (reqs (upd i f s3) !! i = Some (f r3)) as Hi4 by (rewrite R4; apply list_lookup_insert_eq; by eapply lookup_lt_Some).
  assert (sub_inv slots i (b_write b) s0 (upd i f s3)) as H4.
  { destruct H3 as [S3 F3 (r & Hr & Hsub)]. assert (r = r3) as -> by congruence. split.
    - by apply (settled_upd i f s3 r3).
    - etransitivity; [apply F3|]. rewrite R4. by apply (same_subs_insert i r3).
    - exists (f r3). split; [done|]. by destruct Hsub. }
  destruct (b_write b) eqn:Ew; [|destruct (b_read_peer b) as [id|] eqn:Er].
  - destruct (ready_for_net_ok e slots i Hnodes true s0 _ H4) as (s5 & E5 & H5). exists s5. split; [done|]. split; [done|].
    destruct H5 as [_ _ (r & Hr & _)]. by exists r.
  - destruct (ready_for_net_ok e slots i Hnodes false s0 _ H4) as (s5 & E5 & H5). exists s5. split; [done|]. split; [done|].
    destruct H5 as [_ _ (r & Hr & _)]. by exists r.
  - rewrite (ready_for_net_idle e i _ (f r3) Hi4); [|by apply HF3]. eexists. split; [done|]. split; [done|].
    exists (f r3). split; [done|]. intros. by apply HF3.
Qed.

Lemma subs_end s' s1 r : Forall2 same_sub (reqs s0) (reqs s1) -> reqs s1 !! i = Some r ->
  Forall2 same_sub (<[i := set_ghost false (base_done r) r]> (reqs s1)) (reqs s') ->
  Forall (fun r => submitting r = false) (reqs s) -> Forall (fun r => submitting r = false) (reqs s').
Proof.
  intros F1 Hi F2 Hall. apply Forall_lookup. intros k x Hx.
  destruct (Forall2_lookup_r _ _ _ _ _ F2 Hx) as (y & Hy & Exy). rewrite Exy.
  apply list_lookup_insert_Some in Hy as [(-> & <- & _)|[Hne Hy]]; [done|].
  destruct (Forall2_lookup_r _ _ _ _ _ F1 Hy) as (z & Hz & Eyz). rewrite Eyz.
  unfold s0 in Hz. rewrite lookup_new, decide_False in Hz by done. exact (Forall_lookup_1 _ _ _ _ Hall Hz).
Qed.

Lemma put_end s1 : settled s1 -> Forall2 same_sub (reqs s0) (reqs s1) -> Forall (fun r => submitting r = false) (reqs s) ->
  settled (put_submission e i s1) /\ Forall (fun r => submitting r = false) (reqs (put_submission e i s1)).
Proof.
  intros S1 F1 Hall. destruct (Forall2_lookup_l _ _ _ _ _ F1 s0_new) as (r & Hr & Esub). unfold same_sub in Esub.
  pose proof S1 as [C1 Q1 L1]. destruct (Q1 i r Hr) as [Href Hw Hlife].
  assert (submitting r = true) as Hsub by (by rewrite Esub).
  assert (pending_actions r <> 0) as Hp by (intros (Hf & _)%pending_zero; congruence).
  destruct (put_submission_ok e i s1 r C1) as [S2 F2]; [intros; by eapply Q1|done| |done|done|done|done| |].
  - intros Hre. destruct (lg_restart _ L1 i Hre) as (x & Hx & _ & Hx0 & _). by simplify_eq.
  - intros Ha. destruct (Hlife Ha) as [F1' _ F3]. destruct (F1' Hp) as [Hrd Hpp]. done.
  - split; [done|]. by eapply subs_end.
Qed.

Lemma postponed_end : Forall (fun r => submitting r = false) (reqs s) ->
  let s1 := upd i (fun r => set_rq_state (Z.setbit (local_rq_state r) __RQ_POSTPONED) (net_rq_state r) r) s0 in
  settled (put_submission e i s1) /\ Forall (fun r => submitting r = false) (reqs (put_submission e i s1)).
Proof.
  intros Hall s1. set (f := fun r => set_rq_state (Z.setbit (local_rq_state r) __RQ_POSTPONED) (net_rq_state r) r).
  pose proof s0_new as Hi. assert (reqs s1 = <[i := f r0]> (reqs s0)) as R1 by exact (alter_as_insert f i _ _ Hi).
  assert (reqs s1 !! i = Some (f r0)) as Hi1 by (rewrite R1; apply list_lookup_insert_eq; by eapply lookup_lt_Some).
  pose proof s0_settled as [C0 Q0 L0]. pose proof (Q0 i r0 Hi) as [Href Hw Hlife].
  assert (completed r0 (f r0)) as Hcm by (split; [by destruct r0|]; intros k Hk Hne; by apply rq_setbit).
  destruct (completed_counts _ _ Hcm) as (Ep & Eu & Eq).
  assert (pending_actions r0 = 1) as Ep1 by (by apply new_counts).
  destruct r0_flags as (_ & Ha & _).
  assert (aborted (f r0) = false) as Ha1 by (unfold aborted; by rewrite (cm_local _ _ Hcm)).
  destruct (put_submission_ok e i s1 (f r0)) as [S2 F2]; [| | | |done|done|by rewrite Ep|by eapply completed_words| |].
  - by apply (chain_inv_own_same s0 s1 i r0 (f r0)).
  - intros k x Hk. rewrite R1, list_lookup_insert_ne by done. by apply Q0.
  - apply (log_inv_silent i s0 s1 r0 (f r0)); [done|done|done|done|by rewrite Ha, Ha1|by rewrite Eu| |done].
    intros Hre. by apply (new_not_restarted s Hs) in Hre.
  - exact (new_not_restarted s Hs).
  - intros _. destruct (Hlife Ha) as [F1 _ _]. destruct (F1 ltac:(lia)) as [[R2 R3 R4] _]. split_and!; [by split| |rewrite Ep; lia].
    intros _ _. by apply Forall_replicate.
  - split; [done|]. eapply (subs_end _ s1 (f r0)); [|done|done|done]. rewrite R1. by apply (same_subs_insert i r0).
Qed.

Lemma send_and_submit_ok : Forall (fun r => submitting r = false) (reqs s) ->
  exists s', drbd_send_and_submit e slots b s = Ret s' /\ settled s' /\ Forall (fun r => submitting r = false) (reqs s').
Proof.
  intros Hall. unfold drbd_send_and_submit. fold (with_new slots b s) i s0.
  destruct (b_suspended b); [eexists; split; [done|]; by apply postponed_end|].
  case_if; [eexists; split; [done|]; apply put_end; [apply s0_settled|reflexivity|done]|].
  destruct add_to_tl_ok as (s1 & E1 & [S1 F1 (r & Hr & Hsub)] & r' & Hr' & HF). assert (r' = r) as -> by congruence.
  unfold i in *. rewrite E1. cbn [obind]. destruct (b_private_bio b) eqn:Epb.
  - destruct (to_be_submitted_ok e slots (length (reqs s)) (b_write b) s0 s1 r) as (s2 & E2 & S2 & F2); [split; [done|done|by exists r]|done| |].
    + intros Hw. apply HF; [done|]. destruct (b_read_peer b) as [id|] eqn:Er; [|done].
      destruct (ws_peer _ _ _ Hwf id Hw Er) as [_ ?]. congruence.
    + rewrite E2. cbn [obind]. eexists. split; [done|]. by apply put_end.
  - cbn [obind]. eexists. split; [done|]. by apply put_end.
Qed.
End send_and_submit.

(** ** Reachable states *)

(** What can happen to the requests: a bio is submitted, an event comes in, a request
    that was handed to [drbd_restart_request] is retried.  The environment of each step
    is arbitrary. *)
Inductive req_step (slots : nat) : drbd_resource -> drbd_resource -> Prop :=
  | step_submit e b s s' :
      wf_submission e slots b -> drbd_send_and_submit e slots b s = Ret s' -> req_step slots s s'
  | step_event e i r idx what s s' :
      reqs s !! i = Some r -> event_guard r idx what -> __req_mod e i idx what s = Ret s' -> req_step slots s s'
  | step_retry e i r s :
      reqs s !! i = Some r -> (i, RESTART_REQUEST) ∈ log s -> base_done r = true -> req_step slots s (do_retry e i s).

Definition no_requests (nr : Z) : drbd_resource := mk_res [] None nr 0 [].

Definition reachable (slots : nat) (s : drbd_resource) : Prop := exists nr, rtc (req_step slots) (no_requests nr) s.

(** The invariant, and no request is left in the middle of its submission. *)
Definition quiescent (s : drbd_resource) : Prop := settled s /\ Forall (fun r => submitting r = false) (reqs s).

Lemma no_requests_quiescent nr : quiescent (no_requests nr).
Proof.
  split; [|constructor]. split; [split; [by split|done|done|done|]|done|].
  { intros k Hk. by apply elem_of_nil in Hk. }
  split; [done|..]; intros k Hk; by apply elem_of_nil in Hk.
Qed.

Lemma same_sub_quiescent l l' : Forall2 same_sub l l' -> Forall (fun r => submitting r = false) l ->
  Forall (fun r => submitting r = false) l'.
Proof. induction 1 as [|r r' l l' Hs _ IH]; [done|]. intros [Hr Hl]%Forall_cons. constructor; [by rewrite Hs|by apply IH]. Qed.

Lemma event_keeps e i r idx what s : settled s -> reqs s !! i = Some r -> event_guard r idx what ->
  keeps s (__req_mod e i idx what s).
Proof.
  intros Hs Hi Hg. assert (what <> NOTHING) as Hne by (intros ->; by destruct idx; [destruct Hg|]).
  assert (__req_mod e i idx what s = match idx with None => req_mod_local e i what s | Some id => req_mod_net e i id what s end) as -> by (by destruct what).
  destruct idx as [id|]; [by eapply net_event_keeps|by eapply local_event_keeps].
Qed.

Lemma step_quiescent slots s s' : req_step slots s s' -> quiescent s -> quiescent s'.
Proof.
  intros Hstep [Hs Hsub]. destruct Hstep as [e b s s' Hwf E|e i r idx what s s' Hi Hg E|e i r s Hi Hre Hb].
  - destruct (send_and_submit_ok e slots b s Hwf Hs Hsub) as (s1 & E1 & S1 & F1). rewrite E1 in E. injection E as <-. done.
  - destruct (event_keeps e i r idx what s Hs Hi Hg) as (s1 & E1 & S1 & F1). rewrite E1 in E. injection E as <-.
    split; [done|]. by eapply same_sub_quiescent.
  - destruct (lg_restart _ (rs_log _ _ _ Hs) i Hre) as (x & Hx & Ha & Hp & _). simplify_eq.
    destruct (put_base_done_inv e i s r zero zero Hs Hi Hb Hp Ha) as [S1 F1]. split; [done|]. by eapply same_sub_quiescent, Hsub; apply put_subs.
Qed.

Lemma reachable_quiescent slots s : reachable slots s -> quiescent s.
Proof.
  intros [nr Hr]. remember (no_requests nr) as s0 eqn:E. assert (quiescent s0) as H0 by (subst; apply no_requests_quiescent).
  clear E. induction Hr as [|a b c Hab _ IH]; [done|]. apply IH. by eapply step_quiescent.
Qed.

Lemma reachable_req slots s i r : reachable slots s -> reqs s !! i = Some r ->
  settled s /\ req_inv r /\ submitting r = false.
Proof.
  intros [Hs Hsub]%reachable_quiescent Hi. split_and!; [done|by eapply Hs|exact (Forall_lookup_1 _ _ _ _ Hsub Hi)].
Qed.

(** ** A run

    Two writes to the local disk and two peers, one of which gets only out-of-sync
    information.  The first write is completed and done. *)

Definition ret_of (o : outcome drbd_resource) : drbd_resource := match o with Ret s => s | _ => no_requests 0 end.

Definition demo_env : req_env :=
  mk_req_env [0%nat; 1%nat] 1 Z.of_nat Z.of_nat (fun _ => DRBD_PROT_C) false true true true (fun _ => true) 120 2048.
Definition demo_write : submission :=
  mk_sub true false false false false 4096 true true false true None (fun id => (id =? 0)%nat) (fun id => (id =? 1)%nat) (fun _ => true).
Definition demo_read : submission :=
  mk_sub false true false false false 4096 true false false true None (fun _ => false) (fun _ => false) (fun _ => true).

Definition demo_submit (b : submission) (s : drbd_resource) : drbd_resource := ret_of (drbd_send_and_submit demo_env 2 b s).
Definition demo_event (i : nat) (idx : option nat) (what : drbd_req_event) (s : drbd_resource) : drbd_resource :=
  ret_of (__req_mod demo_env i idx what s).

Definition demo1 : drbd_resource := Eval vm_compute in demo_submit demo_write (no_requests 0).
Definition demo2 : drbd_resource := Eval vm_compute in demo_submit demo_write demo1.
Definition demo3 : drbd_resource := Eval vm_compute in demo_event 0 (Some 0%nat) HANDED_OVER_TO_NETWORK demo2.
Definition demo4 : drbd_resource := Eval vm_compute in demo_event 0 None COMPLETED_OK demo3.
Definition demo5 : drbd_resource := Eval vm_compute in demo_event 0 (Some 0%nat) WRITE_ACKED_BY_PEER demo4.
Definition demo6 : drbd_resource := Eval vm_compute in demo_event 0 (Some 0%nat) BARRIER_ACKED demo5.
(** A local read that fails is restarted. *)
Definition demo7 : drbd_resource := Eval vm_compute in demo_submit demo_read demo6.
Definition demo8 : drbd_resource := Eval vm_compute in demo_event 2 None READ_COMPLETED_WITH_ERROR demo7.

(** The second write of [demo6] is done as well. *)
Definition demo9 : drbd_resource := Eval vm_compute in demo_event 1 (Some 0%nat) HANDED_OVER_TO_NETWORK demo6.
Definition demo10 : drbd_resource := Eval vm_compute in demo_event 1 None COMPLETED_OK demo9.
Definition demo11 : drbd_resource := Eval vm_compute in demo_event 1 (Some 0%nat) WRITE_ACKED_BY_PEER_AND_SIS demo10.
Definition demo12 : drbd_resource := Eval vm_compute in demo_event 1 (Some 0%nat) BARRIER_ACKED demo11.

Lemma demo_wf : wf_submission demo_env 2 demo_write /\ wf_submission demo_env 2 demo_read.
Proof.
  assert (NoDup [0%nat; 1%nat]) by (by apply (bool_decide_unpack _)).
  split; split; try done; split; try done; repeat constructor; lia.
Qed.

Lemma reach_submit b s s' : reachable 2 s -> wf_submission demo_env 2 b -> drbd_send_and_submit demo_env 2 b s = Ret s' -> reachable 2 s'.
Proof. intros [nr Hr] Hb Hs. exists nr. eapply rtc_r; [exact Hr|]. by eapply step_submit. Qed.
Lemma reach_event i r idx what s s' : reachable 2 s -> reqs s !! i = Some r -> event_guard r idx what ->
  __req_mod demo_env i idx what s = Ret s' -> reachable 2 s'.
Proof. intros [nr Hr] Hi Hg Hs. exists nr. eapply rtc_r; [exact Hr|]. by eapply step_event. Qed.

Lemma demo2_reachable : reachable 2 demo2.
Proof.
  apply (reach_submit demo_write demo1); [|apply demo_wf|vm_compute; reflexivity].
  apply (reach_submit demo_write (no_requests 0)); [by exists 0|apply demo_wf|vm_compute; reflexivity].
Qed.

Lemma demo6_reachable : reachable 2 demo6.
Proof.
  eapply (reach_event 0 _ (Some 0%nat) BARRIER_ACKED demo5); [|vm_compute; reflexivity|vm_compute; repeat split; lia|vm_compute; reflexivity].
  eapply (reach_event 0 _ (Some 0%nat) WRITE_ACKED_BY_PEER demo4); [|vm_compute; reflexivity|vm_compute; repeat split; lia|vm_compute; reflexivity].
  eapply (reach_event 0 _ None COMPLETED_OK demo3); [|vm_compute; reflexivity|done|vm_compute; reflexivity].
  eapply (reach_event 0 _ (Some 0%nat) HANDED_OVER_TO_NETWORK demo2); [apply demo2_reachable|vm_compute; reflexivity|vm_compute; repeat split; lia|vm_compute; reflexivity].
Qed.

Lemma demo8_reachable : reachable 2 demo8.
Proof.
  eapply (reach_event 2 _ None READ_COMPLETED_WITH_ERROR demo7); [|vm_compute; reflexivity|done|vm_compute; reflexivity].
  apply (reach_submit demo_read demo6); [apply demo6_reachable|apply demo_wf|vm_compute; reflexivity].
Qed.

Lemma demo12_reachable : reachable 2 demo12.
Proof.
  eapply (reach_event 1 _ (Some 0%nat) BARRIER_ACKED demo11); [|vm_compute; reflexivity|vm_compute; repeat split; lia|vm_compute; reflexivity].
  eapply (reach_event 1 _ (Some 0%nat) WRITE_ACKED_BY_PEER_AND_SIS demo10); [|vm_compute; reflexivity|vm_compute; repeat split; lia|vm_compute; reflexivity].
  eapply (reach_event 1 _ None COMPLETED_OK demo9); [|vm_compute; reflexivity|done|vm_compute; reflexivity].
  eapply (reach_event 1 _ (Some 0%nat) HANDED_OVER_TO_NETWORK demo6); [apply demo6_reachable|vm_compute; reflexivity|vm_compute; repeat split; lia|vm_compute; reflexivity].
Qed.

(** ** Properties *)

(** What request [i] of [s] waits for before its bio is completed: the local disk, the
    end of a suspension, per peer its answer and the sender. *)
Definition waits_for (r : drbd_request) : Z := lc (local_rq_state r) + sumz nc (net_rq_state r).

(** C23: in every reachable state the three reference counters of a request are exact.
    [completion_ref] is the number of things the completion of the bio waits for (local
    disk, suspension, per peer its answer and the sender); [done_ref] counts the
    reference of the completion, the peers whose barrier ack is missing, and the
    previous write if that is not done; [oos_send_ref] counts the request itself while
    it is not done, the peers for which it is queued, and the previous write if that is
    still in the transfer log. *)
Theorem req_refcounts slots s i r : reachable slots s -> reqs s !! i = Some r ->
  completion_ref r = waits_for r /\
  done_ref r = Z.b2z (base_done r) + sumz bc (net_rq_state r) + Z.b2z (pred_undone s i) /\
  oos_send_ref r = Z.b2z (0 <? done_ref r) + sumz qc (net_rq_state r) + Z.b2z (pred_unsent s i).
Proof.
  intros Hr Hi. destruct (reachable_req slots s i r Hr Hi) as ([Hc _ _] & Hinv & Hsub).
  destruct (ci_refs _ _ _ Hc i r Hi) as [H1 H2]. pose proof (ri_ref _ Hinv) as H3.
  unfold pending_actions, undone, queued, zero, waits_for in *. rewrite Hsub in H3. cbn [Z.b2z] in H3. lia.
Qed.

Lemma req_refcounts_witness : reachable 2 demo6 /\
  exists r, reqs demo6 !! 1%nat = Some r /\ completion_ref r = waits_for r /\ done_ref r = 2 /\ oos_send_ref r = 4.
Proof.
  split; [apply demo6_reachable|]. eexists. split; [vm_compute; reflexivity|].
  pose proof (req_refcounts 2 demo6 1 _ demo6_reachable ltac:(vm_compute; reflexivity)) as (H1 & _). by split.
Defined.

(** C24: in every state that submissions and guarded events reach, unless the I/O of the
    request was aborted, its bio has been completed exactly once if the request waits for
    nothing and was not postponed, and not at all otherwise.  Guarded ([event_guard])
    means in particular that an answer to a read or a loss of the connection is handled after the
    sender has noted that it handed over the request; the other order leaves a bio that is
    never completed, [reply_before_handed_over]. *)
Theorem bio_completed_once slots s i r : reachable slots s -> reqs s !! i = Some r -> aborted r = false ->
  completions s i =
    if (waits_for r =? 0) && negb (flag (local_rq_state r) __RQ_POSTPONED) then 1%nat else 0%nat.
Proof.
  intros Hr Hi Ha. destruct (reachable_req slots s i r Hr Hi) as ([_ _ Hl] & Hinv & Hsub).
  rewrite (lg_completed _ Hl), Hi. destruct (ri_life _ Hinv Ha) as [L1 L2 _].
  assert (pending_actions r = waits_for r) as Hw by (unfold pending_actions, waits_for; rewrite Hsub; cbn [Z.b2z]; lia).
  rewrite Hw in L1, L2. destruct (Z.eqb_spec (waits_for r) 0) as [Hz|Hz]; cbn [andb].
  - rewrite (L2 Hz). by destruct (flag (local_rq_state r) __RQ_POSTPONED).
  - destruct (L1 Hz) as [[-> _ _] _]. done.
Qed.

Lemma bio_completed_once_witness : completions demo6 0 = 1%nat /\ completions demo6 1 = 0%nat.
Proof.
  split.
  - erewrite (bio_completed_once 2 demo6 0 _ demo6_reachable); [|vm_compute; reflexivity|vm_compute; reflexivity]. vm_compute. reflexivity.
  - erewrite (bio_completed_once 2 demo6 1 _ demo6_reachable); [|vm_compute; reflexivity|vm_compute; reflexivity]. vm_compute. reflexivity.
Defined.

(** C25: no event trips over an inconsistent request.  In every reachable state an event
    that meets its guard returns (no [BUG_ON]), and the checks of [drbd_req_complete] and
    [drbd_req_done] ("Logic BUG") only ever fire for requests whose disk I/O was
    aborted. *)
Theorem no_logic_bug slots s e i r idx what : reachable slots s -> reqs s !! i = Some r -> event_guard r idx what ->
  exists s', __req_mod e i idx what s = Ret s' /\
    forall k, (k, LOGIC_BUG) ∈ log s' -> exists rk, reqs s' !! k = Some rk /\ aborted rk = true.
Proof.
  intros [Hs _]%reachable_quiescent Hi Hg. destruct (event_keeps e i r idx what s Hs Hi Hg) as (s' & E & S' & _).
  exists s'. split; [done|]. apply (lg_bug _ (rs_log _ _ _ S')).
Qed.

Lemma no_logic_bug_witness : exists s', __req_mod demo_env 0 (Some 0%nat) BARRIER_ACKED demo6 = Ret s' /\
  forall k, (k, LOGIC_BUG) ∈ log s' -> exists rk, reqs s' !! k = Some rk /\ aborted rk = true.
Proof.
  eapply (no_logic_bug 2 demo6 demo_env 0 _ (Some 0%nat) BARRIER_ACKED demo6_reachable); [vm_compute; reflexivity|vm_compute; repeat split; lia].
Defined.

(** ** The order of the writes *)

(** A run, with the writes that went into the transfer log in the order of their submission: a list
    of requests that only the submissions determine, whatever the code does with its links. *)
Inductive tl_run (slots : nat) : list nat -> drbd_resource -> Prop :=
  | run_start nr : tl_run slots [] (no_requests nr)
  | run_submit W e b s s' : tl_run slots W s -> wf_submission e slots b -> drbd_send_and_submit e slots b s = Ret s' ->
      tl_run slots (if enters_tl b then W ++ [length (reqs s)] else W) s'
  | run_event W e i r idx what s s' : tl_run slots W s ->
      reqs s !! i = Some r -> event_guard r idx what -> __req_mod e i idx what s = Ret s' -> tl_run slots W s'
  | run_retry W e i r s : tl_run slots W s ->
      reqs s !! i = Some r -> (i, RESTART_REQUEST) ∈ log s -> base_done r = true -> tl_run slots W (do_retry e i s).

Lemma run_reachable slots W s : tl_run slots W s -> reachable slots s.
Proof.
  induction 1 as [nr|W e b s s' _ [nr Hr] Hb Hs|W e i r idx what s s' _ [nr Hr] Hi Hg Hs|W e i r s _ [nr Hr] Hi Hre Hb]; [by exists nr|..]; exists nr; eapply rtc_r; try exact Hr.
  - by eapply step_submit.
  - by eapply step_event.
  - by eapply step_retry.
Qed.

Lemma reachable_run slots s : reachable slots s -> exists W, tl_run slots W s.
Proof.
  intros [nr Hr]. remember (no_requests nr) as s0 eqn:E. assert (exists W, tl_run slots W s0) as H0 by (subst; eexists; apply run_start).
  clear E. induction Hr as [|a b c Hab _ IH]; [done|]. apply IH. destruct H0 as [W HW].
  destruct Hab; eexists; [by eapply run_submit|by eapply run_event|by eapply run_retry].
Qed.

(** Request [a] is linked to [b], or has left the transfer log. *)
Definition linked (s : drbd_resource) (a b : nat) : Prop :=
  (exists r, reqs s !! a = Some r /\ next_write r = Some b) \/ (a, OOS_SENT) ∈ log s.

(** Each write to the next one of the run, and the last one is the one that is linked next. *)
Record run_links (W : list nat) (s : drbd_resource) : Prop := {
  rl_next k a b : W !! k = Some a -> W !! S k = Some b -> linked s a b;
  rl_last a : last W = Some a -> tl_previous_write s = Some a \/ (a, OOS_SENT) ∈ log s;
  rl_prev j : tl_previous_write s = Some j -> last W = Some j;
  rl_old a : a ∈ W -> (a < length (reqs s))%nat;
  rl_nodup : NoDup W }.

Lemma kept_links W s s' : tl_kept s s' -> run_links W s -> run_links W s'.
Proof.
  intros [P L N] [R1 R2 R3 R4 R5]. assert (length (reqs s') = length (reqs s)) as Hlen by (by rewrite <- (length_fmap next_write (reqs s')), N, length_fmap).
  split; [| | | |done].
  - intros k a b Ha Hb. destruct (R1 k a b Ha Hb) as [(r & Hr & Hn)|Hs]; [left|right; auto].
    apply (f_equal (lookup a)) in N. rewrite !list_lookup_fmap, Hr in N. destruct (reqs s' !! a) as [r'|]; [|done]. injection N as N. exists r'. by rewrite N.
  - intros a Ha. destruct (R2 a Ha) as [Hp|Hs]; [|right; auto]. destruct P as [P|(j & E1 & E2 & E3)]; [left; congruence|right]. congruence.
  - intros j Hj. destruct P as [P|(i & E1 & E2 & E3)]; [apply R3; congruence|congruence].
  - intros a Ha. rewrite Hlen. by apply R4.
Qed.

Lemma new_links slots b W s : run_links W s -> run_links W (new_request slots b s).
Proof.
  intros [R1 R2 R3 R4 R5]. split; [|done|done| |done].
  - intros k a c Ha Hc. destruct (R1 k a c Ha Hc) as [(r & Hr & Hn)|Hs]; [left|by right]. exists r. split; [|done]. by apply lookup_app_l_Some.
  - intros a Ha. cbn. rewrite length_app. specialize (R4 a Ha). lia.
Qed.

Lemma link_next s i j r : tl_previous_write s = Some j -> reqs s !! j = Some r ->
  exists r', reqs (link_previous_write i s) !! j = Some r' /\ next_write r' = Some i.
Proof.
  intros Hp Hj. unfold link_previous_write. rewrite Hp. cbn. rewrite list_lookup_alter_eq.
  destruct (decide (j = i)) as [-> |Hne]; [rewrite list_lookup_alter_eq, Hj; by eexists|]. rewrite list_lookup_alter_ne, Hj by done. by eexists.
Qed.

Lemma link_other s i a r : reqs s !! a = Some r -> tl_previous_write s <> Some a ->
  exists r', reqs (link_previous_write i s) !! a = Some r' /\ next_write r' = next_write r.
Proof.
  intros Ha Hne. unfold link_previous_write. destruct (tl_previous_write s) as [j|]; cbn; [|by exists r].
  rewrite list_lookup_alter_ne by congruence. destruct (decide (a = i)) as [-> |Hai]; [rewrite list_lookup_alter_eq, Ha; by eexists|].
  rewrite list_lookup_alter_ne by congruence. by exists r.
Qed.

(** The submission of a write links the last one of the run to it. *)
Lemma link_links W s i : run_links W s -> (i < length (reqs s))%nat -> i ∉ W -> run_links (W ++ [i]) (link_previous_write i s).
Proof.
  intros [R1 R2 R3 R4 R5] Hi Hin.
  assert (log (link_previous_write i s) = log s /\ tl_previous_write (link_previous_write i s) = Some i /\ length (reqs (link_previous_write i s)) = length (reqs s)) as (El & Ep & En).
  { unfold link_previous_write. destruct (tl_previous_write s); cbn; rewrite ?length_alter; done. }
  split.
  - intros k a b Ha Hb. unfold linked. rewrite El. apply lookup_app_Some in Hb as [Hb|[Hk Hb]].
    + pose proof (lookup_lt_Some _ _ _ Hb) as Hlt. rewrite lookup_app_l in Ha by lia. destruct (R1 k a b Ha Hb) as [(r & Hr & Hn)|Hs]; [|by right].
      destruct (decide (tl_previous_write s = Some a)) as [Hp|Hp]; [|left; destruct (link_other s i a r Hr Hp) as (r' & Hr' & Hn'); exists r'; by rewrite Hn'].
      apply R3 in Hp. rewrite last_lookup in Hp. pose proof (NoDup_lookup _ _ _ _ R5 Ha Hp). lia.
    + destruct (S k - length W)%nat as [|n] eqn:Ek; [|by destruct n]. injection Hb as <-. rewrite lookup_app_l in Ha by lia.
      assert (last W = Some a) as Hl by (rewrite last_lookup; by replace (pred (length W)) with k by lia).
      destruct (R2 a Hl) as [Hp|Hs]; [left|by right]. destruct (lookup_lt_is_Some_2 (reqs s) a) as [r Hr]; [apply R4; by eapply list_elem_of_lookup_2|].
      by eapply link_next.
  - intros a. rewrite last_snoc. intros [= <-]. by left.
  - intros j. rewrite Ep, last_snoc. done.
  - intros a [Ha%R4| ->%list_elem_of_singleton]%elem_of_app; rewrite En; done.
  - apply NoDup_app. split_and!; [done| |apply NoDup_singleton]. intros x Hx ->%list_elem_of_singleton. done.
Qed.

Lemma run_linked slots W s : tl_run slots W s -> run_links W s.
Proof.
  induction 1 as [nr|W e b s s' _ IH Hb Hs|W e i r idx what s s' _ IH Hi Hg Hs|W e i r s _ IH Hi Hre Hb].
  - split; [done|done|done| |constructor]. intros a Ha. by apply elem_of_nil in Ha.
  - apply submit_order in Hs. apply (new_links slots b) in IH as Hn. destruct (enters_tl b); eapply kept_links; try exact Hs; [|done].
    apply link_links; [by eapply kept_links, Hn; apply quiet_kept, before_link_quiet|cbn; rewrite length_alter, length_app; cbn; lia|].
    intros Ha. pose proof (rl_old _ _ IH _ Ha). lia.
  - eapply kept_links, IH. by eapply req_mod_kept.
  - eapply kept_links, IH. apply put_base_done_kept.
Qed.

(** The references of a request are not negative, and go together. *)
Lemma refs_sent s k r : settled s -> reqs s !! k = Some r -> 0 <= done_ref r /\ 0 <= oos_send_ref r /\ (oos_send_ref r <= 0 -> done_ref r = 0).
Proof.
  intros [Hc _ _] Hk. destruct (ci_refs _ _ _ Hc k r Hk) as [D1 O1]. unfold zero in *. pose proof (undone_nonneg r). pose proof (queued_nonneg r).
  pose proof (b2z_range (pred_undone s k)). pose proof (b2z_range (pred_unsent s k)). pose proof (b2z_range (0 <? done_ref r)).
  split_and!; [lia|lia|]. intros Hle. destruct (Z.ltb_spec 0 (done_ref r)); cbn [Z.b2z] in *; lia.
Qed.

Lemma linked_order s a b : settled s -> (b < length (reqs s))%nat -> linked s a b ->
  (done_ref (req s b) = 0 -> done_ref (req s a) = 0) /\ (oos_send_ref (req s b) = 0 -> oos_send_ref (req s a) = 0).
Proof.
  intros Hs Hb Hl. pose proof Hs as [Hc _ _]. destruct Hl as [(r & Ha & Hn)|Hsent].
  2:{ destruct (ci_sent _ _ _ Hc a Hsent) as (r & Ha & Hle). destruct (refs_sent s a r Hs Ha) as (D1 & O1 & Hd). rewrite (req_lookup _ _ _ Ha). split; [auto|lia]. }
  destruct (lookup_lt_is_Some_2 (reqs s) b Hb) as [rb Hrb]. rewrite (req_lookup _ _ _ Hrb), (req_lookup _ _ _ Ha).
  destruct (ci_refs _ _ _ Hc b rb Hrb) as [D1 O1]. unfold zero in *. destruct (refs_sent s a r Hs Ha) as (D2 & O2 & _).
  destruct (pred_cases s b (ci_links _ _ _ Hc)) as [(j & x & Hj & Hx & _ & Hu & Hv)|(Hno & _)]; [|by apply Hno in Ha].
  assert (j = a) as -> by (by eapply (li_inj _ (ci_links _ _ _ Hc))). simplify_eq. rewrite Hu in D1. rewrite Hv in O1.
  pose proof (undone_nonneg rb). pose proof (queued_nonneg rb). pose proof (b2z_range (0 <? done_ref rb)).
  split; intros Hz.
  - destruct (Z.ltb_spec 0 (done_ref r)); cbn [Z.b2z] in D1; lia.
  - destruct (Z.ltb_spec 0 (oos_send_ref r)); cbn [Z.b2z] in O1; lia.
Qed.

(** C26: writes are done, and leave the transfer log, in the order of their submission.  [W] are the
    writes with data that were neither postponed nor refused at their submission, in its order: in
    every run of submissions and guarded events, if a write of [W] has no [done_ref] left then no
    earlier one has any, and if it has no [oos_send_ref] left, which is when it is taken from the log,
    then no earlier one has any. *)
Theorem writes_done_in_order slots W s k l a b : tl_run slots W s -> (k < l)%nat -> W !! k = Some a -> W !! l = Some b ->
  (done_ref (req s b) = 0 -> done_ref (req s a) = 0) /\ (oos_send_ref (req s b) = 0 -> oos_send_ref (req s a) = 0).
Proof.
  intros Hrun Hkl Ha Hb. pose proof (run_linked _ _ _ Hrun) as HL. apply run_reachable, reachable_quiescent in Hrun as [Hs _].
  revert b Hb. induction Hkl as [|l Hkl IH]; intros b Hb.
  - apply linked_order; [done|apply (rl_old _ _ HL); by eapply list_elem_of_lookup_2|by eapply (rl_next _ _ HL)].
  - destruct (lookup_lt_is_Some_2 W l) as [c Hl]; [apply lookup_lt_Some in Hb; lia|]. destruct (IH c Hl) as [IH1 IH2].
    destruct (linked_order s c b) as [L1 L2]; [done|apply (rl_old _ _ HL); by eapply list_elem_of_lookup_2|by eapply (rl_next _ _ HL)|]. auto.
Qed.

Lemma run_demo_event W i r idx what s s' : tl_run 2 W s -> reqs s !! i = Some r -> event_guard r idx what ->
  __req_mod demo_env i idx what s = Ret s' -> tl_run 2 W s'.
Proof. intros. by eapply run_event. Qed.

Lemma demo12_run : tl_run 2 [0%nat; 1%nat] demo12.
Proof.
  eapply (run_demo_event _ 1 _ (Some 0%nat) BARRIER_ACKED demo11); [|vm_compute; reflexivity|vm_compute; repeat split; lia|vm_compute; reflexivity].
  eapply (run_demo_event _ 1 _ (Some 0%nat) WRITE_ACKED_BY_PEER_AND_SIS demo10); [|vm_compute; reflexivity|vm_compute; repeat split; lia|vm_compute; reflexivity].
  eapply (run_demo_event _ 1 _ None COMPLETED_OK demo9); [|vm_compute; reflexivity|done|vm_compute; reflexivity].
  eapply (run_demo_event _ 1 _ (Some 0%nat) HANDED_OVER_TO_NETWORK demo6); [|vm_compute; reflexivity|vm_compute; repeat split; lia|vm_compute; reflexivity].
  eapply (run_demo_event _ 0 _ (Some 0%nat) BARRIER_ACKED demo5); [|vm_compute; reflexivity|vm_compute; repeat split; lia|vm_compute; reflexivity].
  eapply (run_demo_event _ 0 _ (Some 0%nat) WRITE_ACKED_BY_PEER demo4); [|vm_compute; reflexivity|vm_compute; repeat split; lia|vm_compute; reflexivity].
  eapply (run_demo_event _ 0 _ None COMPLETED_OK demo3); [|vm_compute; reflexivity|done|vm_compute; reflexivity].
  eapply (run_demo_event _ 0 _ (Some 0%nat) HANDED_OVER_TO_NETWORK demo2); [|vm_compute; reflexivity|vm_compute; repeat split; lia|vm_compute; reflexivity].
  apply (run_submit 2 [0%nat] demo_env demo_write demo1 demo2); [|apply demo_wf|vm_compute; reflexivity].
  apply (run_submit 2 [] demo_env demo_write (no_requests 0) demo1); [apply run_start|apply demo_wf|vm_compute; reflexivity].
Qed.

Lemma writes_done_in_order_witness : done_ref (req demo12 1) = 0 /\ done_ref (req demo12 0) = 0.
Proof.
  split; [vm_compute; reflexivity|]. apply (writes_done_in_order 2 [0%nat; 1%nat] demo12 0 1 0 1 demo12_run); [lia|reflexivity|reflexivity|].
  vm_compute. reflexivity.
Defined.

(** C27: a request keeps its extent of the activity log until all peers are done with it.
    In every reachable state, if [drbd_al_complete_io] was called for a request that was
    not aborted, then no peer has to answer it, it is queued for no peer but to send
    out-of-sync, every write sent to a peer was ended by a barrier ack or by the loss of
    the connection, and the local disk does not work on it. *)
Theorem al_released_last slots s i r : reachable slots s -> reqs s !! i = Some r -> aborted r = false ->
  (i, AL_COMPLETE_IO) ∈ log s ->
  flag (local_rq_state r) __RQ_LOCAL_PENDING = false /\
  Forall (fun n => flag n __RQ_NET_PENDING = false /\ drbd_sender_needs_master_bio n = false /\
            (any n RQ_NET_MASK = true -> flag n __RQ_NET_DONE = true)) (net_rq_state r).
Proof.
  intros Hr Hi Ha Hal. destruct (reachable_req slots s i r Hr Hi) as ([_ _ Hl] & Hinv & _).
  destruct (lg_al _ Hl i Hal) as (x & Hx & Hu). assert (x = r) as -> by congruence.
  assert (pending_actions r = 0) as Hp.
  { destruct (decide (pending_actions r = 0)) as [|Hne]; [done|].
    destruct (lf_waiting _ (ri_life _ Hinv Ha) Hne) as [?%ready_undone _]. done. }
  split.
  - apply not_true_iff_false. intros Hlp. by apply (local_pending_waits r Hlp Ha).
  - apply Forall_lookup. intros id n Hn. assert (net r id = n) as En by (unfold net; by rewrite Hn).
    apply pending_zero in Hp as (_ & _ & Hnc). specialize (Hnc id). rewrite En in Hnc.
    pose proof (Forall_lookup_1 _ _ _ _ (wi_words _ (ri_words _ Hinv)) Hn) as Hw. cbn in Hw.
    assert (bc n = 0) as Hb.
    { unfold undone in Hu. pose proof (b2z_range (base_done r)). pose proof (sumz_nonneg bc (net_rq_state r) bc_nonneg).
      apply (Forall_lookup_1 (fun n => bc n = 0) (net_rq_state r) id); [|done]. apply sumz_zero; [apply bc_nonneg|lia]. }
    unfold nc, bc, word_ok in *. destruct (flag n __RQ_NET_PENDING), (drbd_sender_needs_master_bio n); try done.
    split_and!; [done|done|]. intros Hany. rewrite Hany in Hw.
    destruct (flag n __RQ_EXP_BARR_ACK), (flag n __RQ_NET_DONE); try done. by rewrite !andb_false_r in Hw.
Qed.

Lemma al_released_last_witness : exists r, reqs demo6 !! 0%nat = Some r /\
  flag (local_rq_state r) __RQ_LOCAL_PENDING = false.
Proof.
  eexists. split; [vm_compute; reflexivity|].
  apply (al_released_last 2 demo6 0 _ demo6_reachable); [vm_compute; reflexivity|vm_compute; reflexivity|].
  apply list_elem_of_In. vm_compute. tauto.
Defined.

(** What [do_retry] expects of the requests it finds in its list holds in every
    reachable state: nothing is pending, the request is postponed and its bio was not
    completed. *)
Theorem restarted_as_expected slots s i : reachable slots s -> (i, RESTART_REQUEST) ∈ log s ->
  completion_ref (req s i) = 0 /\ flag (local_rq_state (req s i)) __RQ_POSTPONED = true /\
  flag (local_rq_state (req s i)) __RQ_LOCAL_PENDING = false /\ completions s i = 0%nat.
Proof.
  intros Hr Hre. destruct (reachable_quiescent _ _ Hr) as [[_ _ Hl] _].
  destruct (lg_restart _ Hl i Hre) as (r & Hi & Ha & Hp & Hpp). destruct (reachable_req slots s i r Hr Hi) as (_ & Hinv & _).
  rewrite (req_lookup _ _ _ Hi). split_and!.
  - by rewrite (ri_ref _ Hinv).
  - done.
  - apply not_true_iff_false. intros Hlp. by apply (local_pending_waits r Hlp Ha).
  - rewrite (lg_completed _ Hl), Hi. by rewrite (lf_completed _ (ri_life _ Hinv Ha) Hp), Hpp.
Qed.

Lemma restarted_as_expected_witness : completion_ref (req demo8 2) = 0 /\ completions demo8 2 = 0%nat.
Proof.
  assert ((2%nat, RESTART_REQUEST) ∈ log demo8) as Hre by (apply list_elem_of_In; vm_compute; tauto).
  destruct (restarted_as_expected 2 demo8 2 demo8_reachable Hre) as (H1 & _ & _ & H4). by split.
Defined.

(** ** The bitmap when a request is done *)

Lemma sync_masks_fold e r l bits mask bi : 0 <= bi -> (forall k, k ∈ l -> -1 <= md_bitmap_index e k) ->
  let '(bits', mask') := foldl (sync_masks_node e r) (bits, mask) l in
  Z.testbit bits' bi = Z.testbit bits bi &&
    negb (existsb (fun k => (md_bitmap_index e k =? bi) && flag (net r k) __RQ_NET_OK && flag (net r k) __RQ_NET_SIS) l) /\
  Z.testbit mask' bi = Z.testbit mask bi &&
    negb (existsb (fun k => (md_bitmap_index e k =? bi) && flag (net r k) __RQ_NET_OK && negb (flag (net r k) __RQ_NET_SIS)) l).
Proof.
  intros Hbi. revert bits mask. induction l as [|k l IH]; intros bits mask Hl; [cbn; by rewrite !andb_true_r|].
  cbn [foldl existsb]. assert (-1 <= md_bitmap_index e k) as Hk by (apply Hl; by left).
  assert (forall k, k ∈ l -> -1 <= md_bitmap_index e k) as Hl' by (intros; apply Hl; by right).
  unfold sync_masks_node at 2.
  destruct (flag (net r k) __RQ_NET_OK); [|rewrite !andb_false_r; by apply IH].
  destruct (Z.eqb_spec (md_bitmap_index e k) (-1)) as [E|E].
  { rewrite E, (proj2 (Z.eqb_neq (-1) bi)) by lia. by apply IH. }
  destruct (flag (net r k) __RQ_NET_SIS).
  - specialize (IH (Z.clearbit bits (md_bitmap_index e k)) mask Hl'). destruct (foldl _ _ l) as [b' m'].
    rewrite Z.clearbit_eqb in IH. rewrite !andb_true_r, !andb_false_r. cbn [negb orb]. rewrite negb_orb, andb_assoc. done.
  - specialize (IH bits (Z.clearbit mask (md_bitmap_index e k)) Hl'). destruct (foldl _ _ l) as [b' m'].
    rewrite Z.clearbit_eqb in IH. rewrite !andb_true_r, !andb_false_r. cbn [negb orb]. rewrite negb_orb, andb_assoc. done.
Qed.

Lemma sync_masks_node_of e r k (f : nat -> bool) :
  (k <= e_max_node_id e)%nat -> (forall j, (j <= e_max_node_id e)%nat -> md_bitmap_index e j = md_bitmap_index e k -> j = k) ->
  existsb (fun j => (md_bitmap_index e j =? md_bitmap_index e k) && flag (net r j) __RQ_NET_OK && f j) (seq 0 (S (e_max_node_id e))) =
  flag (net r k) __RQ_NET_OK && f k.
Proof.
  intros Hk Hinj.
  rewrite (existsb_one _ _ k k); [by rewrite Z.eqb_refl|apply lookup_seq; lia|].
  intros j x [-> Hj]%lookup_seq Hne. destruct (Z.eqb_spec (md_bitmap_index e (0 + j)) (md_bitmap_index e k)) as [E|]; [|done].
  apply Hinj in E; lia.
Qed.

(** C29: when a write is done, [drbd_set_sync] gets masks that treat each node with a slot
    in the bitmap as the answers of the node say: a node that did not confirm the write is
    marked out of sync; the bits of a node that confirmed it are left alone, or cleared
    if the node set the area in sync with its confirmation.  No two nodes share a slot. *)
Theorem done_marks_peers e i s r :
  reqs s !! i = Some r -> done_safe e r -> touches_bitmap e r = true ->
  (forall k, -1 <= md_bitmap_index e k) ->
  (forall j k, (j <= e_max_node_id e)%nat -> (k <= e_max_node_id e)%nat -> md_bitmap_index e k <> -1 ->
     md_bitmap_index e j = md_bitmap_index e k -> j = k) ->
  exists bits mask, (i, SET_SYNC bits mask) ∈ log (drbd_req_done e i s) /\
    forall k, (k <= e_max_node_id e)%nat -> md_bitmap_index e k <> -1 ->
      let ok := flag (net r k) __RQ_NET_OK in
      let in_sync := flag (net r k) __RQ_NET_SIS in
      Z.testbit mask (md_bitmap_index e k) = negb (ok && negb in_sync) /\
      Z.testbit bits (md_bitmap_index e k) = negb (ok && in_sync).
Proof.
  intros Hi [Hd1 Hd2 Hd3] Ht Hge Hinj. unfold drbd_req_done. rewrite (req_lookup _ _ _ Hi), Hd1, Hd2, Ht.
  destruct (sync_masks e r) as [bits mask] eqn:Em. exists bits, mask. split.
  - cbn [when]. set (s1 := emit i [SET_SYNC bits mask] _).
    assert ((i, SET_SYNC bits mask) ∈ log s1) as Hin by (cbn; apply elem_of_app; right; by left).
    assert (reqs s1 !! i = Some r) as Hi1 by done.
    assert (forall l, (i, SET_SYNC bits mask) ∈ log (emit i l s1)) as Hem by (intros; cbn; apply elem_of_app; by left).
    case_if; [|apply Hem].
    destruct (oos_to_peers_quiet (fun _ => True) i e true (peer_nodes e) s1 r Hi1 (or_introl I)) as (r' & [_ _ (ext & Hl & _)] & _).
    cbn [emit log]. apply elem_of_app. left. rewrite Hl. apply elem_of_app. by left.
  - intros k Hk Hne. cbn zeta. unfold sync_masks in Em.
    pose proof (sync_masks_fold e r (seq 0 (S (e_max_node_id e))) (-1) (-1) (md_bitmap_index e k)) as HF.
    rewrite Em in HF. destruct HF as [H1 H2]; [specialize (Hge k); lia|auto|].
    rewrite Z.bits_m1 in H1, H2 by (specialize (Hge k); lia). cbn [andb] in H1, H2.
    rewrite (sync_masks_node_of e r k (fun j => flag (net r j) __RQ_NET_SIS)) in H1; [|done|intros j Hj; by apply Hinj].
    rewrite (sync_masks_node_of e r k (fun j => negb (flag (net r j) __RQ_NET_SIS))) in H2; [|done|intros j Hj; by apply Hinj].
    done.
Qed.

Lemma done_marks_peers_witness : exists bits mask,
  (0%nat, SET_SYNC bits mask) ∈ log (drbd_req_done demo_env 0 demo6) /\ Z.testbit mask 0 = false /\ Z.testbit bits 1 = true.
Proof.
  destruct (done_marks_peers demo_env 0 demo6 (req demo6 0)) as (bits & mask & Hin & Hk).
  - vm_compute. reflexivity.
  - split; [vm_compute; reflexivity|vm_compute; reflexivity|]. intros Hp. vm_compute in Hp. discriminate Hp.
  - vm_compute. reflexivity.
  - intros k. change (md_bitmap_index demo_env k) with (Z.of_nat k). lia.
  - intros j k _ _ _. change (Z.of_nat j = Z.of_nat k -> j = k). lia.
  - exists bits, mask. split; [exact Hin|].
    assert (md_bitmap_index demo_env 0 <> -1) as N0 by discriminate. assert (md_bitmap_index demo_env 1 <> -1) as N1 by discriminate.
    destruct (Hk 0%nat ltac:(vm_compute; lia) N0) as [H0 _]. destruct (Hk 1%nat ltac:(vm_compute; lia) N1) as [_ H1].
    split; [exact H0|exact H1].
Defined.

(** ** Where the guards matter *)

(** The answer to a read can arrive before the sender notes that it sent the request.
    [DATA_RECEIVED] then drops the reference that [RQ_NET_QUEUED] holds, and
    [drbd_req_complete] refuses to complete the bio because the request is still queued:
    nothing is left that would complete it. *)
Definition race_env : req_env := demo_env.
Definition race_read : submission :=
  mk_sub false true false false false 4096 false false false true (Some 0%nat) (fun _ => false) (fun _ => false) (fun _ => true).
Definition race : drbd_resource := Eval vm_compute in
  demo_event 0 (Some 0%nat) HANDED_OVER_TO_NETWORK (demo_event 0 (Some 0%nat) DATA_RECEIVED (demo_submit race_read (no_requests 0))).

Example reply_before_handed_over :
  completions race 0 = 0%nat /\ completion_ref (req race 0) = 0 /\ done_ref (req race 0) = 0 /\ oos_send_ref (req race 0) = 0 /\
  (0%nat, LOGIC_BUG) ∈ log race.
Proof. split_and!; try (vm_compute; reflexivity). apply list_elem_of_In. vm_compute. tauto. Qed.

(** A read whose disk I/O is aborted is postponed, but not handed to the retry worker, so
    that its bio is neither completed nor submitted again. *)
Definition abort_read : drbd_resource := Eval vm_compute in
  demo_event 0 None READ_COMPLETED_WITH_ERROR (demo_event 0 None ABORT_DISK_IO (demo_submit demo_read (no_requests 0))).

Example aborted_read_lost :
  completions abort_read 0 = 0%nat /\ completion_ref (req abort_read 0) = 0 /\ done_ref (req abort_read 0) = 0 /\
  flag (local_rq_state (req abort_read 0)) __RQ_POSTPONED = true /\ ~ (0%nat, RESTART_REQUEST) ∈ log abort_read.
Proof.
  split_and!; try (vm_compute; reflexivity). rewrite list_elem_of_In. vm_compute. intuition discriminate.
Qed.
