(* ===== verification/Bitmap.v ===== *)
(** * The bitmap of out-of-sync blocks

    [drbd_bitmap.c]: one bit per block and peer, kept in pages of 32 bit words in
    which the words of the peers are interleaved.  The state is [struct
    drbd_bitmap]; the pages are the sequence of their words, and a page is the
    stretch of [WORDS32_PER_PAGE] words at its number.  An access outside of the
    mapped page or outside of the allocated pages is [BUG].  The page shift of the
    architecture is the class [Arch].

    This file has the definitions: addresses, the routine [____bm_op] behind all
    operations on ranges of bits, its callers, the copy of a slot, resizing, the
    hints for the activity log and the selection of the pages to write. *)
From S2P Require Import Prelude.

Class Arch := {
  PAGE_SHIFT : Z;
  page_shift_range : 12 <= PAGE_SHIFT <= 20 }.

Definition PAGE_SHIFT_4k : Arch := {| PAGE_SHIFT := 12; page_shift_range := ltac:(lia) |}.

(** The conversion of a wider integer to [int]. *)
Definition to_int (z : Z) : Z := (z + 2 ^ 31) mod 2 ^ 32 - 2 ^ 31.

Definition BITS_PER_LONG : Z := 64.
Definition AL_UPDATES_PER_TRANSACTION : Z := 64.
(** [~(unsigned long)0] *)
Definition DRBD_END_OF_BITMAP : Z := 2 ^ 64 - 1.

(** Bits of [page_private]. *)
Definition BM_PAGE_IDX_MASK : Z := Z.shiftl 1 24 - 1.
Definition BM_PAGE_IO_ERROR : Z := 30.
Definition BM_PAGE_NEED_WRITEOUT : Z := 29.
Definition BM_PAGE_LAZY_WRITEOUT : Z := 28.
Definition BM_PAGE_HINT_WRITEOUT : Z := 27.

Inductive bitmap_operations :=
  | BM_OP_CLEAR | BM_OP_SET | BM_OP_TEST | BM_OP_COUNT | BM_OP_MERGE | BM_OP_EXTRACT
  | BM_OP_FIND_BIT | BM_OP_FIND_ZERO_BIT.

#[export] Instance bitmap_operations_eq_dec : EqDecision bitmap_operations.
Proof. solve_decision. Defined.

(** [struct drbd_bitmap]: [bm_pages] has the words of all pages, [page_private] one
    word of flags per page; [bm_on_dax] is the flag [BM_ON_DAX_PMEM].  The array
    [al_bitmap_hints] has its [n_bitmap_hints] used entries. *)
Record drbd_bitmap := mk_bitmap {
  bm_pages : list Z;
  page_private : list Z;
  bm_set : list Z;
  bm_bits : Z;
  bm_bits_4k : Z;
  bm_words : Z;
  bm_number_of_pages : Z;
  bm_dev_capacity : Z;
  bm_on_dax : bool;
  bm_max_peers : Z;
  bm_block_shift : Z;
  al_bitmap_hints : list Z }.

Definition set_pages (m : list Z) (b : drbd_bitmap) : drbd_bitmap :=
  mk_bitmap m (page_private b) (bm_set b) (bm_bits b) (bm_bits_4k b) (bm_words b) (bm_number_of_pages b)
    (bm_dev_capacity b) (bm_on_dax b) (bm_max_peers b) (bm_block_shift b) (al_bitmap_hints b).
Definition set_private (f : list Z) (b : drbd_bitmap) : drbd_bitmap :=
  mk_bitmap (bm_pages b) f (bm_set b) (bm_bits b) (bm_bits_4k b) (bm_words b) (bm_number_of_pages b)
    (bm_dev_capacity b) (bm_on_dax b) (bm_max_peers b) (bm_block_shift b) (al_bitmap_hints b).
Definition set_counts (c : list Z) (b : drbd_bitmap) : drbd_bitmap :=
  mk_bitmap (bm_pages b) (page_private b) c (bm_bits b) (bm_bits_4k b) (bm_words b) (bm_number_of_pages b)
    (bm_dev_capacity b) (bm_on_dax b) (bm_max_peers b) (bm_block_shift b) (al_bitmap_hints b).
Definition set_hints (h : list Z) (b : drbd_bitmap) : drbd_bitmap :=
  mk_bitmap (bm_pages b) (page_private b) (bm_set b) (bm_bits b) (bm_bits_4k b) (bm_words b) (bm_number_of_pages b)
    (bm_dev_capacity b) (bm_on_dax b) (bm_max_peers b) (bm_block_shift b) h.

Definition drbd_bm_alloc (BM_BLOCK_SHIFT_MIN BM_BLOCK_SIZE_MAX : Z) (DRBD_PEERS_MAX : nat)
    (max_peers block_shift : Z) : option drbd_bitmap :=
  if (block_shift <? BM_BLOCK_SHIFT_MIN) || (BM_BLOCK_SIZE_MAX <? block_shift) then None
  else if (max_peers <? 1) || (Z.of_nat DRBD_PEERS_MAX <? max_peers) then None
  else Some (mk_bitmap [] [] (replicate DRBD_PEERS_MAX 0) 0 0 0 0 0 false max_peers block_shift []).

(** ** Conversion between sectors and bits *)

Definition bm_sect_to_bit (b : drbd_bitmap) (s : Z) : Z := Z.shiftr s (bm_block_shift b - 9).
Definition bm_bit_to_sect (b : drbd_bitmap) (bit : Z) : Z := Z.shiftl bit (bm_block_shift b - 9).
Definition bm_sect_per_bit (b : drbd_bitmap) : Z := Z.shiftl 1 (bm_block_shift b - 9).
Definition bm_bit_to_kb (b : drbd_bitmap) (bit : Z) : Z := Z.shiftl bit (bm_block_shift b - 10).
Definition sect_to_bit (s shift : Z) : Z := Z.shiftr s (shift - 9).
Definition sect_per_bit (shift : Z) : Z := Z.shiftl 1 (shift - 9).
Definition BM_BLOCK_SHIFT_4k : Z := 12.

(** [ALIGN] of the kernel, for powers of two. *)
Definition ALIGN (x a : Z) : Z := Z.ldiff (x + (a - 1)) (a - 1).

(** Number of [true] among the [n] values from [a] on, and those of [[a, e)]. *)
Fixpoint cnt (f : Z -> bool) (a : Z) (n : nat) : Z :=
  match n with
  | O => 0
  | S n => Z.b2z (f a) + cnt f (a + 1) n
  end.
Definition count_range (f : Z -> bool) (a e : Z) : Z := cnt f a (Z.to_nat (e - a)).

Section bitmap.
Context `{Arch}.

Definition PAGE_SIZE : Z := Z.shiftl 1 PAGE_SHIFT.
Definition BITS_PER_PAGE : Z := Z.shiftl 1 (PAGE_SHIFT + 3).
Definition WORDS32_PER_PAGE : Z := Z.shiftl 1 (PAGE_SHIFT - 2).
Definition PFN_UP (x : Z) : Z := Z.shiftr (x + PAGE_SIZE - 1) PAGE_SHIFT.

(** ** Addresses *)

Definition interleaved_word32 (b : drbd_bitmap) (bitmap_index bit : Z) : Z :=
  Z.shiftr bit 5 * bm_max_peers b + bitmap_index.
Definition word32_to_page (word : Z) : Z := Z.shiftr word (PAGE_SHIFT - 2).
Definition word32_in_page (word : Z) : Z := Z.land word (Z.shiftl 1 (PAGE_SHIFT - 2) - 1).
Definition last_bit_on_page (b : drbd_bitmap) (bitmap_index bit : Z) : Z :=
  let word := interleaved_word32 b bitmap_index bit in
  Z.lor bit 31 + Z.shiftl (word32_in_page (u64 (- (word + 1))) / bm_max_peers b) 5.
Definition bit_to_page_interleaved (b : drbd_bitmap) (bitmap_index bit : Z) : Z :=
  word32_to_page (interleaved_word32 b bitmap_index bit).

(** Access to the word of the mapped page that has the bit [bit] of the page. *)
Definition word_index (page bit : Z) : nat := Z.to_nat (page * WORDS32_PER_PAGE + Z.shiftr bit 5).

Definition load32 (m : list Z) (page bit : Z) : outcome Z :=
  bug_on! (WORDS32_PER_PAGE <=? Z.shiftr bit 5) in
  match m !! word_index page bit with Some w => Ret w | None => BUG end.

Definition store32 (m : list Z) (page bit w : Z) : outcome (list Z) :=
  let! _ := load32 m page bit in Ret (<[word_index page bit := w]> m).

Definition test_bit_le (m : list Z) (page bit : Z) : outcome bool :=
  let! w := load32 m page bit in Ret (Z.testbit w (Z.land bit 31)).

(** [find_next_bit_le] and [find_next_zero_bit_le] on the [n] bits from [bit] on. *)
Fixpoint find_next_le (want : bool) (m : list Z) (page : Z) (n : nat) (bit : Z) : outcome (option Z) :=
  match n with
  | O => Ret None
  | S n => let! v := test_bit_le m page bit in
           if Bool.eqb v want then Ret (Some bit) else find_next_le want m page n (bit + 1)
  end.

(** Number of set bits of a word, and its first bit with a value: [hweight32],
    [__ffs], [ffz]. *)
Definition hweight32 (w : Z) : Z := cnt (Z.testbit w) 0 32.
Definition not32 (w : Z) : Z := Z.lxor w (2 ^ 32 - 1).

Fixpoint first_from (want : bool) (w : Z) (n : nat) (k : Z) : Z :=
  match n with
  | O => k
  | S n => if Bool.eqb (Z.testbit w k) want then k else first_from want w n (k + 1)
  end.
Definition find_next_bit_le32 (w : Z) : Z := if w =? 0 then 32 else first_from true w 32 0.
Definition find_next_zero_bit_le32 (w : Z) : Z := if w =? 2 ^ 32 - 1 then 32 else first_from false w 32 0.

(** ** Marks of pages *)

Definition set_page_flag (flag : Z) (page : Z) (b : drbd_bitmap) : drbd_bitmap :=
  if bm_on_dax b then b
  else set_private (alter (fun p => Z.setbit p flag) (Z.to_nat page) (page_private b)) b.
Definition bm_set_page_need_writeout : Z -> drbd_bitmap -> drbd_bitmap := set_page_flag BM_PAGE_NEED_WRITEOUT.
Definition bm_set_page_lazy_writeout : Z -> drbd_bitmap -> drbd_bitmap := set_page_flag BM_PAGE_LAZY_WRITEOUT.
Definition bm_set_page_unchanged (p : Z) : Z :=
  Z.clearbit (Z.clearbit p BM_PAGE_NEED_WRITEOUT) BM_PAGE_LAZY_WRITEOUT.
Definition bm_test_page_unchanged (p : Z) : bool :=
  Z.land p (Z.lor (Z.shiftl 1 BM_PAGE_NEED_WRITEOUT) (Z.shiftl 1 BM_PAGE_LAZY_WRITEOUT)) =? 0.
Definition bm_test_page_lazy_writeout (p : Z) : bool := Z.testbit p BM_PAGE_LAZY_WRITEOUT.

(** ** [____bm_op]

    The local variables of the routine.  [o_buf] is the memory behind [buffer] and
    [o_next] the number of words the pointer has advanced. *)
Record op_state := mk_op {
  o_mem : list Z; o_start : Z; o_bit : Z; o_count : Z; o_total : Z; o_buf : list Z; o_next : Z }.

Definition set_addr (start bit : Z) (s : op_state) : op_state :=
  mk_op (o_mem s) start bit (o_count s) (o_total s) (o_buf s) (o_next s).
Definition set_mem (m : list Z) (count : Z) (s : op_state) : op_state :=
  mk_op m (o_start s) (o_bit s) count (o_total s) (o_buf s) (o_next s).
Definition set_total (total : Z) (s : op_state) : op_state :=
  mk_op (o_mem s) (o_start s) (o_bit s) (o_count s) total (o_buf s) (o_next s).
Definition set_buf (buf : list Z) (next : Z) (s : op_state) : op_state :=
  mk_op (o_mem s) (o_start s) (o_bit s) (o_count s) (o_total s) buf next.

(** How a part of the loop body ends: it falls through, jumps to [next_page], or
    the routine returns. *)
Inductive flow := Go (s : op_state) | Next_page (s : op_state) | Return (r : Z).

Definition buf_load (s : op_state) : outcome Z :=
  match o_buf s !! Z.to_nat (o_next s) with Some w => Ret w | None => BUG end.
Definition buf_store (w : Z) (s : op_state) : outcome op_state :=
  let! _ := buf_load s in Ret (set_buf (<[Z.to_nat (o_next s) := w]> (o_buf s)) (o_next s + 1) s).

(** One round of a loop over bits.  The head of the routine assigns [start] after
    its loop. *)
Definition bit_step (op : bitmap_operations) (page : Z) (s : op_state) : outcome op_state :=
  let k := Z.land (o_bit s) 31 in
  let! s' :=
    match op with
    | BM_OP_CLEAR =>
        let! w := load32 (o_mem s) page (o_bit s) in
        if Z.testbit w k
        then let! m := store32 (o_mem s) page (o_bit s) (Z.clearbit w k) in Ret (set_mem m (o_count s + 1) s)
        else Ret s
    | BM_OP_SET =>
        let! w := load32 (o_mem s) page (o_bit s) in
        if negb (Z.testbit w k)
        then let! m := store32 (o_mem s) page (o_bit s) (Z.setbit w k) in Ret (set_mem m (o_count s + 1) s)
        else Ret s
    | BM_OP_COUNT =>
        let! v := test_bit_le (o_mem s) page (o_bit s) in
        Ret (if v then set_total (o_total s + 1) s else s)
    | _ => Ret s
    end in
  Ret (set_addr (o_start s' + 1) (o_bit s' + 1) s').

Fixpoint bit_loop (op : bitmap_operations) (page : Z) (n : nat) (s : op_state) : outcome op_state :=
  match n with
  | O => Ret s
  | S n => let! s' := bit_step op page s in bit_loop op page n s'
  end.

Definition word32_skip (b : drbd_bitmap) : Z := 32 * bm_max_peers b.

(** [start += ...; bit_in_page += ...; if (bit_in_page >= BITS_PER_PAGE) goto next_page] *)
Definition advance (start bit : Z) (s : op_state) : flow :=
  let s' := set_addr start bit s in if BITS_PER_PAGE <=? bit then Next_page s' else Go s'.

(** The bits up to the end of a word that does not begin at [start]. *)
Definition bm_op_head (b : drbd_bitmap) (op : bitmap_operations) (page e : Z) (s : op_state) : outcome flow :=
  let start := o_start s in
  if (negb (Z.land start 31 =? 0) && (Z.lor start 31 <=? e)) || bool_decide (op = BM_OP_TEST) then
    let last := Z.lor (o_bit s) 31 in
    let n := Z.to_nat (last + 1 - o_bit s) in
    let find want :=
      let! r := find_next_le want (o_mem s) page n (o_bit s) in
      Ret match r with
          | Some c => Return (u64 (start + c - o_bit s))
          | None => advance (Z.lor start 31 + 1) (last + 1 + word32_skip b - 32) s
          end in
    match op with
    | BM_OP_MERGE | BM_OP_EXTRACT => BUG
    | BM_OP_FIND_BIT => find true
    | BM_OP_FIND_ZERO_BIT => find false
    | BM_OP_TEST => let! v := test_bit_le (o_mem s) page (o_bit s) in Ret (Return (Z.b2z v))
    | _ => let! s' := bit_loop op page n s in
           Ret (advance (Z.lor start 31 + 1) (o_bit s' + word32_skip b - 32) s')
    end
  else Ret (Go s).

(** The [switch] for one whole word. *)
Definition word_op (op : bitmap_operations) (page : Z) (s : op_state) : outcome flow :=
  let! w := load32 (o_mem s) page (o_bit s) in
  let put v c := let! m := store32 (o_mem s) page (o_bit s) v in Ret (Go (set_mem m (o_count s + c) s)) in
  let find c := Ret (if c <? 32 then Return (u64 (o_start s + (c + o_bit s) - o_bit s)) else Go s) in
  match op with
  | BM_OP_CLEAR => put 0 (hweight32 w)
  | BM_OP_SET => put (2 ^ 32 - 1) (hweight32 (not32 w))
  | BM_OP_TEST => BUG
  | BM_OP_COUNT => Ret (Go (set_total (o_total s + hweight32 w) s))
  | BM_OP_MERGE =>
      let! v := buf_load s in
      let! m := store32 (o_mem s) page (o_bit s) (Z.lor w v) in
      Ret (Go (set_buf (o_buf s) (o_next s + 1) (set_mem m (o_count s + hweight32 (Z.land (not32 w) v)) s)))
  | BM_OP_EXTRACT => let! s' := buf_store w s in Ret (Go s')
  | BM_OP_FIND_BIT => find (find_next_bit_le32 w)
  | BM_OP_FIND_ZERO_BIT => find (find_next_zero_bit_le32 w)
  end.

Fixpoint bm_op_words (b : drbd_bitmap) (op : bitmap_operations) (page e : Z) (fuel : nat) (s : op_state) : outcome flow :=
  if u64 (o_start s + 31) <=? e then
    match fuel with
    | O => BUG
    | S fuel =>
        let! f := word_op op page s in
        match f with
        | Go s' =>
            match advance (o_start s' + 32) (o_bit s' + word32_skip b) s' with
            | Go s'' => bm_op_words b op page e fuel s''
            | f => Ret f
            end
        | f => Ret f
        end
    end
  else Ret (Go s).

(** The bits of the last, incomplete word. *)
Definition bm_op_tail (op : bitmap_operations) (page e : Z) (s : op_state) : outcome flow :=
  let start := o_start s in
  if e <? start then Ret (Next_page s)
  else
    let mask := u32 (Z.shiftl 1 (e - start + 1) - 1) in
    let n := Z.to_nat (e - start + 1) in
    let find want :=
      let! r := find_next_le want (o_mem s) page n (o_bit s) in
      Ret match r with
          | Some c => Return (u64 (start + c - o_bit s))
          | None => Next_page (set_addr (e + 1) (o_bit s) s)
          end in
    match op with
    | BM_OP_MERGE =>
        let! w := load32 (o_mem s) page (o_bit s) in
        let! v := buf_load s in
        let v := Z.land v mask in
        let! m := store32 (o_mem s) page (o_bit s) (Z.lor w v) in
        Ret (Next_page (set_addr (e + 1) (o_bit s)
          (set_buf (o_buf s) (o_next s + 1) (set_mem m (o_count s + hweight32 (Z.land (not32 w) v)) s))))
    | BM_OP_EXTRACT =>
        let! w := load32 (o_mem s) page (o_bit s) in
        let! s' := buf_store (Z.land w mask) s in
        Ret (Next_page (set_addr (e + 1) (o_bit s) s'))
    | BM_OP_FIND_BIT => find true
    | BM_OP_FIND_ZERO_BIT => find false
    | _ => let! s' := bit_loop op page n s in Ret (Next_page s')
    end.

(** The body of the loop over pages up to [next_page]. *)
Definition bm_op_page (b : drbd_bitmap) (op : bitmap_operations) (page e : Z) (s : op_state) : outcome flow :=
  let! f := bm_op_head b op page e s in
  match f with
  | Go s =>
      let! f := bm_op_words b op page e (Z.to_nat WORDS32_PER_PAGE) s in
      match f with
      | Go s => bm_op_tail op page e s
      | f => Ret f
      end
  | f => Ret f
  end.

(** The end of the loop body: the marks of the page and the sum of changed bits. *)
Definition bm_op_next_page (op : bitmap_operations) (page : Z) (b : drbd_bitmap) (s : op_state) : drbd_bitmap * op_state :=
  let s' total := mk_op (o_mem s) (o_start s) (u32 (o_bit s - BITS_PER_PAGE)) 0 total (o_buf s) (o_next s) in
  match op with
  | BM_OP_CLEAR =>
      if o_count s =? 0 then (b, s' (o_total s)) else (bm_set_page_lazy_writeout page b, s' (o_total s + o_count s))
  | BM_OP_SET | BM_OP_MERGE =>
      if o_count s =? 0 then (b, s' (o_total s)) else (bm_set_page_need_writeout page b, s' (o_total s + o_count s))
  | _ => (b, s' (o_total s))
  end.

(** After the loop. *)
Definition bm_op_finish (op : bitmap_operations) (bitmap_index : Z) (b : drbd_bitmap) (total : Z) : Z * drbd_bitmap :=
  match op with
  | BM_OP_CLEAR => (total, set_counts (alter (fun c => u64 (c - total)) (Z.to_nat bitmap_index) (bm_set b)) b)
  | BM_OP_SET | BM_OP_MERGE =>
      (total, set_counts (alter (fun c => u64 (c + total)) (Z.to_nat bitmap_index) (bm_set b)) b)
  | BM_OP_FIND_BIT | BM_OP_FIND_ZERO_BIT => (DRBD_END_OF_BITMAP, b)
  | _ => (total, b)
  end.

Fixpoint bm_op_pages (bitmap_index : Z) (op : bitmap_operations) (e : Z) (fuel : nat) (page : Z)
    (b : drbd_bitmap) (s : op_state) : outcome (Z * drbd_bitmap * list Z) :=
  if o_start s <=? e then
    match fuel with
    | O => BUG
    | S fuel =>
        let! f := bm_op_page b op page e s in
        match f with
        | Return r => Ret (r, set_pages (o_mem s) b, o_buf s)
        | Go s' | Next_page s' =>
            let '(b, s'') := bm_op_next_page op page b s' in
            bm_op_pages bitmap_index op e fuel (page + 1) b s''
        end
    end
  else
    let '(r, b) := bm_op_finish op bitmap_index b (o_total s) in
    Ret (r, set_pages (o_mem s) b, o_buf s).

(** The result, the bitmap and the memory behind the buffer.  The fuel is one round
    per page and one to leave the loop. *)
Definition ____bm_op (b : drbd_bitmap) (bitmap_index start e : Z) (op : bitmap_operations) (buffer : list Z)
    : outcome (Z * drbd_bitmap * list Z) :=
  let e := if bm_bits b <=? e then u64 (bm_bits b - 1) else e in
  let word := interleaved_word32 b bitmap_index start in
  let page := u32 (word32_to_page word) in
  let bit_in_page := Z.lor (Z.shiftl (word32_in_page word) 5) (Z.land start 31) in
  bm_op_pages bitmap_index op e (S (Z.to_nat (bm_number_of_pages b))) page b
    (mk_op (bm_pages b) start bit_in_page 0 0 buffer 0).

(** [bm_op] and [__bm_op]; the check for a missing bitmap is the caller's. *)
Definition bm_op (b : drbd_bitmap) (bitmap_index start e : Z) (op : bitmap_operations) (buffer : list Z)
    : outcome (Z * drbd_bitmap * list Z) :=
  if bm_number_of_pages b =? 0 then Ret (0, b, buffer)
  else if bm_bits b =? 0 then Ret (0, b, buffer)
  else ____bm_op b bitmap_index start e op buffer.

(** ** Operations on ranges of bits *)

Definition drbd_bm_merge_lel (b : drbd_bitmap) (bitmap_index offset number : Z) (buffer : list Z)
    : outcome (Z * drbd_bitmap * list Z) :=
  let start := u64 (offset * BITS_PER_LONG) in
  bm_op b bitmap_index start (u64 (start + number * BITS_PER_LONG - 1)) BM_OP_MERGE buffer.

Definition drbd_bm_get_lel (b : drbd_bitmap) (bitmap_index offset number : Z) (buffer : list Z)
    : outcome (Z * drbd_bitmap * list Z) :=
  let start := u64 (offset * BITS_PER_LONG) in
  bm_op b bitmap_index start (u64 (start + number * BITS_PER_LONG - 1)) BM_OP_EXTRACT buffer.

(** The routines without a buffer. *)
Definition bm_op_nobuf (b : drbd_bitmap) (bitmap_index start e : Z) (op : bitmap_operations) : outcome (Z * drbd_bitmap) :=
  let! (r, b', _) := bm_op b bitmap_index start e op [] in Ret (r, b').
Definition ____bm_op_nobuf (b : drbd_bitmap) (bitmap_index start e : Z) (op : bitmap_operations) : outcome (Z * drbd_bitmap) :=
  let! (r, b', _) := ____bm_op b bitmap_index start e op [] in Ret (r, b').

(** [drbd_bm_set_bits] and [drbd_bm_clear_bits] return an [unsigned int], [drbd_bm_count_bits] an [int]. *)
Definition drbd_bm_set_bits (b : drbd_bitmap) (bitmap_index start e : Z) : outcome (Z * drbd_bitmap) :=
  let! (r, b') := bm_op_nobuf b bitmap_index start e BM_OP_SET in Ret (u32 r, b').
Definition drbd_bm_clear_bits (b : drbd_bitmap) (bitmap_index start e : Z) : outcome (Z * drbd_bitmap) :=
  let! (r, b') := bm_op_nobuf b bitmap_index start e BM_OP_CLEAR in Ret (u32 r, b').
Definition drbd_bm_count_bits (b : drbd_bitmap) (bitmap_index s e : Z) : outcome Z :=
  let! (r, _) := bm_op_nobuf b bitmap_index s e BM_OP_COUNT in Ret (to_int r).
Definition drbd_bm_find_next (b : drbd_bitmap) (bitmap_index start : Z) : outcome Z :=
  let! (r, _) := bm_op_nobuf b bitmap_index start DRBD_END_OF_BITMAP BM_OP_FIND_BIT in Ret r.
Definition _drbd_bm_find_next (b : drbd_bitmap) (bitmap_index start : Z) : outcome Z :=
  let! (r, _) := ____bm_op_nobuf b bitmap_index start DRBD_END_OF_BITMAP BM_OP_FIND_BIT in Ret r.
Definition _drbd_bm_find_next_zero (b : drbd_bitmap) (bitmap_index start : Z) : outcome Z :=
  let! (r, _) := ____bm_op_nobuf b bitmap_index start DRBD_END_OF_BITMAP BM_OP_FIND_ZERO_BIT in Ret r.

(** [__bm_many_bits_op]: one page at a time. *)
Fixpoint many_bits_loop (bitmap_index : Z) (op : bitmap_operations) (e : Z) (fuel : nat) (bit : Z) (b : drbd_bitmap)
    : outcome drbd_bitmap :=
  if bit <=? e then
    match fuel with
    | O => BUG
    | S fuel =>
        let last_bit := last_bit_on_page b bitmap_index bit in
        let last_bit := if e <? last_bit then e else last_bit in
        let! (_, b') := bm_op_nobuf b bitmap_index bit last_bit op in
        many_bits_loop bitmap_index op e fuel (u64 (last_bit + 1)) b'
    end
  else Ret b.

Definition __bm_many_bits_op (b : drbd_bitmap) (bitmap_index start e : Z) (op : bitmap_operations) : outcome drbd_bitmap :=
  let e := if bm_bits b <=? e then u64 (bm_bits b - 1) else e in
  many_bits_loop bitmap_index op e (S (Z.to_nat (bm_number_of_pages b))) start b.

Definition drbd_bm_set_many_bits (b : drbd_bitmap) (bitmap_index start e : Z) : outcome drbd_bitmap :=
  if bitmap_index =? -1 then Ret b else __bm_many_bits_op b bitmap_index start e BM_OP_SET.
Definition drbd_bm_clear_many_bits (b : drbd_bitmap) (bitmap_index start e : Z) : outcome drbd_bitmap :=
  if bitmap_index =? -1 then Ret b else __bm_many_bits_op b bitmap_index start e BM_OP_CLEAR.

Fixpoint for_slots (body : Z -> drbd_bitmap -> outcome drbd_bitmap) (n : nat) (bitmap_index : Z) (b : drbd_bitmap)
    : outcome drbd_bitmap :=
  match n with
  | O => Ret b
  | S n => let! b' := body bitmap_index b in for_slots body n (bitmap_index + 1) b'
  end.

Definition for_each_slot (body : Z -> drbd_bitmap -> outcome drbd_bitmap) (b : drbd_bitmap) : outcome drbd_bitmap :=
  for_slots body (Z.to_nat (bm_max_peers b)) 0 b.

Definition drbd_bm_set_all (b : drbd_bitmap) : outcome drbd_bitmap :=
  for_each_slot (fun i b => __bm_many_bits_op b i 0 DRBD_END_OF_BITMAP BM_OP_SET) b.
Definition drbd_bm_clear_all (b : drbd_bitmap) : outcome drbd_bitmap :=
  for_each_slot (fun i b => __bm_many_bits_op b i 0 DRBD_END_OF_BITMAP BM_OP_CLEAR) b.

(** ** Counters *)

Fixpoint count_slot_loop (b : drbd_bitmap) (bitmap_index : Z) (fuel : nat) (bit bits_set : Z) : outcome Z :=
  if bit <? bm_bits b then
    match fuel with
    | O => BUG
    | S fuel =>
        let last_bit := last_bit_on_page b bitmap_index bit in
        let! (r, _) := ____bm_op_nobuf b bitmap_index bit last_bit BM_OP_COUNT in
        count_slot_loop b bitmap_index fuel (last_bit + 1) (bits_set + r)
    end
  else Ret bits_set.

Definition set_count (bitmap_index n : Z) (b : drbd_bitmap) : drbd_bitmap :=
  set_counts (<[Z.to_nat bitmap_index := n]> (bm_set b)) b.

Definition bm_count_bits (b : drbd_bitmap) : outcome drbd_bitmap :=
  for_each_slot (fun i b =>
    let! n := count_slot_loop b i (S (Z.to_nat (bm_number_of_pages b))) 0 0 in Ret (set_count i n b)) b.

Definition _drbd_bm_total_weight (b : drbd_bitmap) (bitmap_index : Z) : Z :=
  if bm_number_of_pages b =? 0 then 0 else default 0 (bm_set b !! Z.to_nat bitmap_index).
(** [has_disk]: [get_ldev_if_state(device, D_NEGOTIATING)]. *)
Definition drbd_bm_total_weight (b : drbd_bitmap) (has_disk : bool) (bitmap_index : Z) : Z :=
  if bitmap_index =? -1 then 0 else if negb has_disk then 0 else _drbd_bm_total_weight b bitmap_index.
Definition drbd_bm_words (b : drbd_bitmap) : Z :=
  if bm_number_of_pages b =? 0 then 0 else bm_words b / bm_max_peers b.

(** ** Copy of a slot *)

Definition load_word32 (m : list Z) (word : Z) : outcome Z :=
  load32 m (word32_to_page word) (Z.shiftl (word32_in_page word) 5).
Definition store_word32 (m : list Z) (word v : Z) : outcome (list Z) :=
  store32 m (word32_to_page word) (Z.shiftl (word32_in_page word) 5) v.

(** [n] rounds of the loop from [word_nr] on. *)
Fixpoint copy_slot_loop (from_index to_index : Z) (n : nat) (word_nr : Z) (b : drbd_bitmap) : outcome drbd_bitmap :=
  match n with
  | O => Ret b
  | S n =>
      let from_word_nr := word_nr + from_index in
      let to_word_nr := word_nr + to_index in
      let! data_word := load_word32 (bm_pages b) from_word_nr in
      let! old := load_word32 (bm_pages b) to_word_nr in
      let b := if negb (old =? data_word) then bm_set_page_need_writeout (word32_to_page to_word_nr) b else b in
      let! m := store_word32 (bm_pages b) to_word_nr data_word in
      let b := set_pages m b in
      let b := set_counts (alter (fun c => u64 (c + hweight32 data_word)) (Z.to_nat to_index) (bm_set b)) b in
      copy_slot_loop from_index to_index n (word_nr + bm_max_peers b) b
  end.

(** [word_nr < words32_total] in steps of [bm_max_peers]. *)
Definition drbd_bm_copy_slot (b : drbd_bitmap) (from_index to_index : Z) : outcome drbd_bitmap :=
  let words32_total := bm_words b * 8 / 4 in
  copy_slot_loop from_index to_index (Z.to_nat ((words32_total + bm_max_peers b - 1) / bm_max_peers b)) 0
    (set_count to_index 0 b).

(** ** Resizing *)

(** [drbd_md_on_disk_bits]; the sectors are [al_offset], [md_size_sect], [bm_offset]. *)
Definition drbd_md_on_disk_bits (al_offset md_size_sect bm_offset max_peers : Z) : Z :=
  let bitmap_sectors := if al_offset =? 8 then u32 (md_size_sect - bm_offset) else to_int (al_offset - bm_offset) in
  u64 (Z.shiftl (u64 (Z.shiftl (u64 bitmap_sectors) (9 - 3)) / max_peers) 6).

Definition new_private (have n : Z) : list Z := (fun k => have + Z.of_nat k) <$> seq 0 (Z.to_nat n).

(** The words and marks of the resized array; new pages are zero and know their number. *)
Definition bm_realloc_pages (b : drbd_bitmap) (want : Z) : outcome (list Z * list Z) :=
  let have := bm_number_of_pages b in
  bug_on! (have =? 0) && negb (bool_decide (bm_pages b = [])) in
  bug_on! negb (have =? 0) && bool_decide (bm_pages b = []) in
  if have <=? want then
    bug_on! (have <? want) && negb (Z.ldiff (want - 1) BM_PAGE_IDX_MASK =? 0) in
    Ret (bm_pages b ++ replicate (Z.to_nat ((want - have) * WORDS32_PER_PAGE)) 0,
         page_private b ++ new_private have (want - have))
  else Ret (take (Z.to_nat (want * WORDS32_PER_PAGE)) (bm_pages b), take (Z.to_nat want) (page_private b)).

(** The new bits of one slot. *)
Definition resize_slot (obits bits have want first_bit_last_page : Z) (set_new_bits : bool) (bitmap_index : Z) (b : drbd_bitmap)
    : outcome drbd_bitmap :=
  let old_set := default 0 (bm_set b !! Z.to_nat bitmap_index) in
  let page_end := last_bit_on_page b bitmap_index obits in
  let page_end := if bits <=? page_end then bits - 1 else page_end in
  if set_new_bits then
    let! b := (if obits =? 0 then Ret b
               else let! (_, b) := bm_op_nobuf b bitmap_index obits page_end BM_OP_SET in Ret b) in
    let! b := (if have <? want
               then let! (_, b) := bm_op_nobuf b bitmap_index first_bit_last_page (bits - 1) BM_OP_SET in Ret b
               else Ret b) in
    Ret (set_count bitmap_index (u64 (old_set + (bits - obits))) b)
  else
    let! b := (if obits =? 0 then Ret b
               else let! (_, b) := bm_op_nobuf b bitmap_index obits page_end BM_OP_CLEAR in Ret b) in
    Ret (set_count bitmap_index old_set b).

(** [memset(addr, 0xFF, PAGE_SIZE)] on the pages [p], ..., [p + n - 1]. *)
Fixpoint fill_pages (n : nat) (p : Z) (b : drbd_bitmap) : drbd_bitmap :=
  match n with
  | O => b
  | S n =>
      let first := Z.to_nat (p * WORDS32_PER_PAGE) in
      let size := Z.to_nat WORDS32_PER_PAGE in
      let m := take first (bm_pages b) ++ replicate size (2 ^ 32 - 1) ++ drop (first + size) (bm_pages b) in
      fill_pages n (p + 1) (bm_set_page_need_writeout p (set_pages m b))
  end.

(** [on_disk]: the bits of the meta-data if there is a disk; [alloc]: the memory is
    available.  For a bitmap that is not in persistent memory. *)
Definition drbd_bm_resize (on_disk : option Z) (alloc : bool) (capacity : Z) (set_new_bits : bool) (b : drbd_bitmap)
    : outcome drbd_bitmap :=
  if capacity =? bm_dev_capacity b then Ret b
  else if capacity =? 0 then
    Ret (mk_bitmap [] [] (replicate (Z.to_nat (bm_max_peers b)) 0 ++ drop (Z.to_nat (bm_max_peers b)) (bm_set b))
           0 0 0 0 0 (bm_on_dax b) (bm_max_peers b) (bm_block_shift b) (al_bitmap_hints b))
  else
    let bits := bm_sect_to_bit b (ALIGN capacity (bm_sect_per_bit b)) in
    let words := ALIGN bits 64 * bm_max_peers b / BITS_PER_LONG in
    let want := PFN_UP (words * 8) in
    let have := bm_number_of_pages b in
    if match on_disk with Some n => n <? bits | None => false end then Fail ENOSPC
    else
      let! (pages, private) :=
        (if want =? have then Ret (bm_pages b, page_private b)
         else if alloc then bm_realloc_pages b want else Fail ENOMEM) in
      let obits := bm_bits b in
      let growing := obits <? bits in
      let b := mk_bitmap pages private (bm_set b) bits
                 (sect_to_bit (ALIGN capacity (sect_per_bit BM_BLOCK_SHIFT_4k)) BM_BLOCK_SHIFT_4k)
                 words want capacity (bm_on_dax b) (bm_max_peers b) (bm_block_shift b) (al_bitmap_hints b) in
      if growing then
        let first_bit_last_page :=
          if set_new_bits && (have <? want) then Z.shiftl ((want - 1) * (PAGE_SIZE / 4) / bm_max_peers b) 5 else 0 in
        let! b := for_each_slot (resize_slot obits bits have want first_bit_last_page set_new_bits) b in
        Ret (if set_new_bits && (have + 1 <? want) then fill_pages (Z.to_nat (want - 1 - have)) have b else b)
      else bm_count_bits b.

(** ** Hints for the activity log *)

Definition push_al_bitmap_hint (page_nr : Z) (b : drbd_bitmap) : outcome drbd_bitmap :=
  bug_on! (2 * AL_UPDATES_PER_TRANSACTION <=? Z.of_nat (length (al_bitmap_hints b))) in
  match page_private b !! Z.to_nat page_nr with
  | None => BUG
  | Some p =>
      if Z.testbit p BM_PAGE_HINT_WRITEOUT then Ret b
      else Ret (set_hints (al_bitmap_hints b ++ [page_nr])
                  (set_private (<[Z.to_nat page_nr := Z.setbit p BM_PAGE_HINT_WRITEOUT]> (page_private b)) b))
  end.

Fixpoint push_hints (n : nat) (page_nr : Z) (b : drbd_bitmap) : outcome drbd_bitmap :=
  match n with
  | O => Ret b
  | S n => let! b := push_al_bitmap_hint page_nr b in push_hints n (page_nr + 1) b
  end.

Definition drbd_bm_reset_al_hints (b : drbd_bitmap) : drbd_bitmap := set_hints [] b.

Definition drbd_bm_mark_range_for_writeout (b : drbd_bitmap) (start e : Z) : outcome drbd_bitmap :=
  if bm_on_dax b then Ret b
  else
    let e := if bm_bits b <=? e then u64 (bm_bits b - 1) else e in
    let page_nr := bit_to_page_interleaved b 0 start in
    let last_page := bit_to_page_interleaved b (bm_max_peers b - 1) e in
    push_hints (Z.to_nat (last_page + 1 - page_nr)) page_nr b.

(** ** Writing pages to the meta-data

    [disk] has the words of the area of the meta-data for the bitmap, the sectors
    from [first_bm_sect] to [last_bm_sect]; [io_ok] tells whether the write of a page
    succeeds.  A page is submitted and completed in one step. *)
Record bm_disk := mk_disk { bm_area : list Z; io_error : bool }.

Definition bm_page_write (io_ok : Z -> bool) (page_nr : Z) (bd : drbd_bitmap * bm_disk) : drbd_bitmap * bm_disk :=
  let '(b, d) := bd in
  let first := Z.to_nat (page_nr * WORDS32_PER_PAGE) in
  let upd g := set_private (alter g (Z.to_nat page_nr) (page_private b)) b in
  if Nat.leb (length (bm_area d)) first then (upd (fun p => Z.setbit p BM_PAGE_IO_ERROR), mk_disk (bm_area d) true)
  else if io_ok page_nr then
    let page := take (Z.to_nat WORDS32_PER_PAGE) (drop first (bm_pages b)) in
    let len := (length (bm_area d) - first)%nat in
    (upd (fun p => Z.clearbit (bm_set_page_unchanged p) BM_PAGE_IO_ERROR),
     mk_disk (take first (bm_area d) ++ take len page ++ drop (first + length page) (bm_area d)) (io_error d))
  else (upd (fun p => Z.setbit (bm_set_page_unchanged p) BM_PAGE_IO_ERROR), mk_disk (bm_area d) true).

Definition BM_AIO_COPY_PAGES : Z := 1.
Definition BM_AIO_WRITE_HINTED : Z := 2.
Definition BM_AIO_WRITE_ALL_PAGES : Z := 4.
Definition BM_AIO_WRITE_LAZY : Z := 16.
Definition aio_flag (flags f : Z) : bool := negb (Z.land flags f =? 0).

Fixpoint write_hinted (io_ok : Z -> bool) (end_page : Z) (hints : list Z) (bd : drbd_bitmap * bm_disk) : drbd_bitmap * bm_disk :=
  match hints with
  | [] => bd
  | k :: hints =>
      let '(b, d) := bd in
      write_hinted io_ok end_page hints
        (if end_page <? k then bd
         else match page_private b !! Z.to_nat k with
              | None => bd
              | Some p =>
                  let b := set_private (<[Z.to_nat k := Z.clearbit p BM_PAGE_HINT_WRITEOUT]> (page_private b)) b in
                  if negb (Z.testbit p BM_PAGE_HINT_WRITEOUT) then bd
                  else if bm_test_page_unchanged p then (b, d)
                  else bm_page_write io_ok k (b, d)
              end)
  end.

Fixpoint write_range (io_ok : Z -> bool) (flags : Z) (n : nat) (k : Z) (bd : drbd_bitmap * bm_disk) : drbd_bitmap * bm_disk :=
  match n with
  | O => bd
  | S n =>
      let p := default 0 (page_private (fst bd) !! Z.to_nat k) in
      write_range io_ok flags n (k + 1)
        (if negb (aio_flag flags BM_AIO_WRITE_ALL_PAGES) && bm_test_page_unchanged p then bd
         else if aio_flag flags BM_AIO_WRITE_LAZY && negb (bm_test_page_lazy_writeout p) then bd
         else bm_page_write io_ok k bd)
  end.

(** The writes of [bm_rw_range]; [io_error] of the result says that it is an error number. *)
Definition bm_rw_range (io_ok : Z -> bool) (start_page end_page flags : Z) (b : drbd_bitmap) (area : list Z)
    : drbd_bitmap * bm_disk :=
  let d := mk_disk area false in
  if bm_on_dax b then (b, d)
  else if bm_number_of_pages b =? 0 then (b, mk_disk area true)
  else
    let end_page := if bm_number_of_pages b <=? end_page then bm_number_of_pages b - 1 else end_page in
    if aio_flag flags BM_AIO_WRITE_HINTED then write_hinted io_ok end_page (al_bitmap_hints b) (b, d)
    else write_range io_ok flags (Z.to_nat (end_page + 1 - start_page)) start_page (b, d).

Definition bm_rw (io_ok : Z -> bool) (flags : Z) (b : drbd_bitmap) (area : list Z) : drbd_bitmap * bm_disk :=
  bm_rw_range io_ok 0 (2 ^ 32 - 1) flags b area.
Definition drbd_bm_write (io_ok : Z -> bool) := bm_rw io_ok 0.
Definition drbd_bm_write_all (io_ok : Z -> bool) := bm_rw io_ok BM_AIO_WRITE_ALL_PAGES.
Definition drbd_bm_write_copy_pages (io_ok : Z -> bool) := bm_rw io_ok BM_AIO_COPY_PAGES.
Definition drbd_bm_write_hinted (io_ok : Z -> bool) := bm_rw io_ok (Z.lor BM_AIO_WRITE_HINTED BM_AIO_COPY_PAGES).
Definition drbd_bm_write_lazy (io_ok : Z -> bool) (upper_idx : Z) :=
  bm_rw_range io_ok 0 (u32 (upper_idx - 1)) (Z.lor BM_AIO_COPY_PAGES BM_AIO_WRITE_LAZY).

(** Reading a page into memory; what the area does not have stays as it is. *)
Definition bm_page_read (io_ok : Z -> bool) (page_nr : Z) (bd : drbd_bitmap * bm_disk) : drbd_bitmap * bm_disk :=
  let '(b, d) := bd in
  let first := Z.to_nat (page_nr * WORDS32_PER_PAGE) in
  let upd g b := set_private (alter g (Z.to_nat page_nr) (page_private b)) b in
  if Nat.leb (length (bm_area d)) first then (upd (fun p => Z.setbit p BM_PAGE_IO_ERROR) b, mk_disk (bm_area d) true)
  else if io_ok page_nr then
    let data := take (Z.to_nat WORDS32_PER_PAGE) (drop first (bm_area d)) in
    (upd (fun p => Z.clearbit (bm_set_page_unchanged p) BM_PAGE_IO_ERROR)
       (set_pages (take first (bm_pages b) ++ data ++ drop (first + length data) (bm_pages b)) b), d)
  else (upd (fun p => Z.setbit (bm_set_page_unchanged p) BM_PAGE_IO_ERROR) b, mk_disk (bm_area d) true).

Fixpoint read_range (io_ok : Z -> bool) (n : nat) (k : Z) (bd : drbd_bitmap * bm_disk) : drbd_bitmap * bm_disk :=
  match n with
  | O => bd
  | S n => read_range io_ok n (k + 1) (bm_page_read io_ok k bd)
  end.

(** [drbd_bm_read], which is [bm_rw_range] with [BM_AIO_READ]. *)
Definition drbd_bm_read (io_ok : Z -> bool) (b : drbd_bitmap) (area : list Z) : outcome (drbd_bitmap * bm_disk) :=
  let d := mk_disk area false in
  if bm_on_dax b then Ret (b, d)
  else if bm_number_of_pages b =? 0 then Ret (b, mk_disk area true)
  else
    let '(b, d) := read_range io_ok (Z.to_nat (bm_number_of_pages b)) 0 (b, d) in
    let! b := bm_count_bits b in Ret (b, d).
End bitmap.
