(* ===== verification/BitmapProps.v ===== *)
(** * The bitmap: addresses, and the walk of [____bm_op] over the pages

    The words of all pages form one sequence of bits; bit [n] of slot [i] is at
    [pos b i n] of it.  [prog] says what a part of the walk has done to the bits
    between two values of [start], for every operation at once; the phases of the
    loop body satisfy it, and it composes. *)
From S2P Require Import Prelude Bitmap.

(** Linear arithmetic with quotients and remainders. *)
Ltac zdiv := Z.div_mod_to_equations; lia.

(** The blocks of width [w] that a range touches. *)
Lemma touched_div w lo hi k : 0 < w -> 0 <= lo <= hi -> lo / w <= k <= hi / w <-> exists s, lo <= s <= hi /\ s / w = k.
Proof.
  intros Hw Hlo. split.
  - intros Hk. exists (Z.max lo (k * w)). pose proof (Z.mul_div_le hi w Hw). split; [nia|].
    destruct (Z.max_spec lo (k * w)) as [[_ ->]|[Hm ->]]; [by apply Z.div_mul; lia|].
    pose proof (Z.div_le_lower_bound lo w k Hw ltac:(lia)). lia.
  - intros (s & Hs & <-). split; apply Z.div_le_mono; lia.
Qed.

(** ** Counting *)

Lemma cnt_app f a n m : cnt f a (n + m) = cnt f a n + cnt f (a + Z.of_nat n) m.
Proof.
  revert a. induction n as [|n IH]; intros a; [by rewrite Z.add_0_r|].
  cbn [Nat.add cnt]. rewrite IH. replace (a + 1 + Z.of_nat n) with (a + Z.of_nat (S n)) by lia. lia.
Qed.

Lemma cnt_shift f g a c n :
  (forall k, 0 <= k < Z.of_nat n -> f (a + k) = g (c + k)) -> cnt f a n = cnt g c n.
Proof.
  revert a c. induction n as [|n IH]; intros a c Hfg; [done|]. cbn [cnt]. f_equal.
  - f_equal. specialize (Hfg 0). rewrite !Z.add_0_r in Hfg. apply Hfg. lia.
  - apply IH. intros k Hk. rewrite <- !Z.add_assoc. apply Hfg. lia.
Qed.

Lemma cnt_range f a n : 0 <= cnt f a n <= Z.of_nat n.
Proof.
  revert a. induction n as [|n IH]; intros a; cbn [cnt]; [lia|].
  specialize (IH (a + 1)). destruct (f a); simpl; lia.
Qed.

Lemma cnt_zero f a n : cnt f a n = 0 -> forall k, a <= k < a + Z.of_nat n -> f k = false.
Proof.
  revert a. induction n as [|n IH]; intros a; cbn [cnt]; intros H0 k Hk; [lia|].
  pose proof (cnt_range f (a + 1) n). destruct (f a) eqn:Ea; simpl in H0; [lia|].
  destruct (decide (k = a)) as [->|]; [done|]. apply (IH (a + 1)); lia.
Qed.

Lemma count_range_split f a c e : a <= c <= e -> count_range f a e = count_range f a c + count_range f c e.
Proof.
  intros ?. unfold count_range. replace (Z.to_nat (e - a)) with (Z.to_nat (c - a) + Z.to_nat (e - c))%nat by lia.
  rewrite cnt_app. f_equal. f_equal. lia.
Qed.

Lemma count_range_ext f g a e : (forall k, a <= k < e -> f k = g k) -> count_range f a e = count_range g a e.
Proof. intros Hfg. apply cnt_shift. intros k Hk. apply Hfg. lia. Qed.

Lemma count_range_shift f g a c n :
  0 <= n -> (forall k, 0 <= k < n -> f (a + k) = g (c + k)) -> count_range f a (a + n) = count_range g c (c + n).
Proof.
  intros Hn Hfg. unfold count_range. rewrite !Z.add_simpl_l. apply cnt_shift. intros k Hk. apply Hfg. lia.
Qed.

Lemma count_range_bounds f a e : a <= e -> 0 <= count_range f a e <= e - a.
Proof. intros. pose proof (cnt_range f a (Z.to_nat (e - a))). unfold count_range. lia. Qed.

Lemma count_range_zero f a e : count_range f a e = 0 -> forall k, a <= k < e -> f k = false.
Proof. intros H0 k Hk. apply (cnt_zero f a _ H0). lia. Qed.

Lemma cnt_const v a n : cnt (fun _ => v) a n = Z.b2z v * Z.of_nat n.
Proof. revert a. induction n as [|n IH]; intros a; cbn [cnt]; [lia|]. rewrite IH. lia. Qed.

Lemma count_range_none f a e : (forall k, a <= k < e -> f k = false) -> count_range f a e = 0.
Proof. intros Hf. rewrite (count_range_ext _ (fun _ => false)) by done. apply cnt_const. Qed.

Lemma count_range_all f a e : a <= e -> (forall k, a <= k < e -> f k = true) -> count_range f a e = e - a.
Proof.
  intros Hae Hf. rewrite (count_range_ext _ (fun _ => true)) by done. unfold count_range.
  rewrite cnt_const. simpl. lia.
Qed.

Lemma count_range_one f a : count_range f a (a + 1) = Z.b2z (f a).
Proof. unfold count_range. replace (Z.to_nat (a + 1 - a)) with 1%nat by lia. cbn. lia. Qed.

Lemma count_range_nil f a : count_range f a a = 0.
Proof. unfold count_range. by rewrite Z.sub_diag. Qed.

Lemma count_range_add f g h a e :
  (forall k, a <= k < e -> Z.b2z (f k) = Z.b2z (g k) + Z.b2z (h k)) -> count_range f a e = count_range g a e + count_range h a e.
Proof.
  unfold count_range. intros Hk. assert (forall k, a <= k < a + Z.of_nat (Z.to_nat (e - a)) -> Z.b2z (f k) = Z.b2z (g k) + Z.b2z (h k))
    as Hk' by (intros; apply Hk; lia). revert Hk'. clear Hk. generalize (Z.to_nat (e - a)) as n. intros n. revert a.
  induction n as [|n IH]; intros a Hk; cbn [cnt]; [done|]. rewrite IH by (intros; apply Hk; lia). specialize (Hk a ltac:(lia)). lia.
Qed.

(** The count after the bits of a range have changed by what was counted. *)
Lemma count_range_change f f' d a s e n sg :
  a <= s -> e < n -> (forall k, a <= k < n -> s <= k <= e -> Z.b2z (f' k) = Z.b2z (f k) + sg * Z.b2z (d k)) ->
  (forall k, a <= k < n -> k < s \/ e < k -> f' k = f k) -> sg = 1 \/ sg = -1 ->
  count_range f' a n = count_range f a n + sg * count_range d s (e + 1).
Proof.
  intros Ha Hn Hin Hout Hsg. destruct (Z.le_gt_cases s e) as [Hse|Hse].
  - rewrite !(count_range_split _ a s n), !(count_range_split _ s (e + 1) n) by lia.
    rewrite (count_range_ext f' f a s), (count_range_ext f' f (e + 1) n) by (intros; apply Hout; lia).
    destruct Hsg as [-> | ->].
    + rewrite (count_range_add f' f d s (e + 1)) by (intros; rewrite Hin; lia). lia.
    + rewrite (count_range_add f f' d s (e + 1)) by (intros; rewrite Hin; lia). lia.
  - replace (count_range d s (e + 1)) with 0 by (unfold count_range; by replace (Z.to_nat (e + 1 - s)) with O by lia).
    rewrite (count_range_ext f' f) by (intros; apply Hout; lia). lia.
Qed.

Lemma hweight32_range w : hweight32 w = count_range (Z.testbit w) 0 (0 + 32).
Proof. done. Qed.

(** ** Masks and shifts by the width of a word *)

Lemma land31 x : Z.land x 31 = x mod 32.
Proof. exact (Z.land_ones x 5 ltac:(lia)). Qed.

Lemma shiftr5 x : Z.shiftr x 5 = x / 32.
Proof. by rewrite Z.shiftr_div_pow2. Qed.

Lemma lor31 x : Z.lor x 31 = 32 * (x / 32) + 31.
Proof.
  apply Z.bits_inj'. intros k Hk. change 31 with (Z.ones 5) at 1. rewrite Z.lor_spec, Z.testbit_ones_nonneg by lia.
  destruct (Z.ltb_spec k 5) as [Hl|Hl].
  - rewrite orb_true_r. replace (32 * (x / 32) + 31) with (31 + x / 32 * 2 ^ 5) by lia.
    rewrite <- (Z.mod_pow2_bits_low _ 5) by lia. rewrite Z.mod_add by done.
    assert (k = 0 \/ k = 1 \/ k = 2 \/ k = 3 \/ k = 4) as [-> | [-> | [-> | [-> | ->]]]] by lia; done.
  - rewrite orb_false_r. replace k with (k - 5 + 5) by lia. rewrite <- !Z.div_pow2_bits by lia.
    replace (32 * (x / 32) + 31) with (31 + x / 32 * 2 ^ 5) by lia. rewrite Z.div_add by done. done.
Qed.

Lemma lor_low x y : 0 <= y < 32 -> Z.lor (Z.shiftl x 5) y = 32 * x + y.
Proof.
  intros Hy. rewrite Z.shiftl_mul_pow2 by lia. pose proof (Z.add_lor_land (x * 2 ^ 5) y) as Hs.
  assert (Z.land (x * 2 ^ 5) y = 0) as Hl; [|lia]. apply Z.bits_inj'. intros k Hk.
  rewrite Z.land_spec, Z.bits_0. destruct (Z.lt_ge_cases k 5).
  - by rewrite Z.mul_pow2_bits_low.
  - rewrite (testbit_above y 5) by lia. apply andb_false_r.
Qed.

(** ** Bits of a sequence of words *)

Definition is_word32 (w : Z) : Prop := 0 <= w < 2 ^ 32.
Definition mword (m : list Z) (w : Z) : Z := default 0 (m !! Z.to_nat w).
Definition mbit (m : list Z) (p : Z) : bool := Z.testbit (mword m (p / 32)) (p mod 32).

Lemma mword_insert m w v x : 0 <= w < Z.of_nat (length m) -> 0 <= x ->
  mword (<[Z.to_nat w := v]> m) x = if x =? w then v else mword m x.
Proof.
  intros Hw Hx. unfold mword. destruct (Z.eqb_spec x w) as [->|Hne].
  - by rewrite list_lookup_insert_eq by lia.
  - by rewrite list_lookup_insert_ne by lia.
Qed.

Lemma mbit_insert m w v p : 0 <= w < Z.of_nat (length m) -> 0 <= p ->
  mbit (<[Z.to_nat w := v]> m) p = if p / 32 =? w then Z.testbit v (p mod 32) else mbit m p.
Proof.
  intros Hw Hp. unfold mbit. rewrite mword_insert by (lia || (apply Z.div_pos; lia)). by case_if.
Qed.

Lemma mword_word m w : Forall is_word32 m -> is_word32 (mword m w).
Proof.
  intros Hm. unfold mword. destruct (m !! Z.to_nat w) eqn:E; simpl; [|by unfold is_word32].
  by apply (Forall_lookup_1 _ _ _ _ Hm E).
Qed.

(** Two sequences of words with the same bits are equal. *)
Lemma words_eq m1 m2 :
  length m1 = length m2 -> Forall is_word32 m1 -> Forall is_word32 m2 ->
  (forall p, 0 <= p < 32 * Z.of_nat (length m1) -> mbit m1 p = mbit m2 p) -> m1 = m2.
Proof.
  intros Hl H1 H2 Hb. apply list_eq_same_length with (length m1); [done..|].
  intros w x y Hw Hx Hy. apply (bits_eq_below 32); [lia|by apply (Forall_lookup_1 _ _ _ _ H1 Hx)|by apply (Forall_lookup_1 _ _ _ _ H2 Hy)|].
  intros k Hk. specialize (Hb (32 * Z.of_nat w + k) ltac:(lia)). unfold mbit, mword in Hb.
  replace ((32 * Z.of_nat w + k) / 32) with (Z.of_nat w) in Hb by zdiv.
  replace ((32 * Z.of_nat w + k) mod 32) with k in Hb by zdiv.
  rewrite Nat2Z.id, Hx, Hy in Hb. done.
Qed.

(** A number without bits from 32 on is a word. *)
Lemma word_of_bits w : 0 <= w -> (forall k, 32 <= k -> Z.testbit w k = false) -> is_word32 w.
Proof.
  intros H0 Hb. split; [done|]. replace w with (w mod 2 ^ 32); [apply Z.mod_pos_bound; lia|].
  apply Z.bits_inj'. intros k Hk. rewrite testbit_mod_pow2 by lia. destruct (Z.ltb_spec k 32); [done|]. by rewrite Hb.
Qed.

Lemma word_bit w k : is_word32 w -> 32 <= k -> Z.testbit w k = false.
Proof. intros Hw Hk. by apply (testbit_above w 32). Qed.

Lemma setbit_word w k : is_word32 w -> 0 <= k < 32 -> is_word32 (Z.setbit w k).
Proof.
  intros Hw Hk. apply word_of_bits; [rewrite Z.setbit_spec'; apply Z.lor_nonneg; split; [apply Hw|by apply Z.pow_nonneg]|].
  intros j Hj. rewrite Z.setbit_neq by lia. by apply word_bit.
Qed.

Lemma clearbit_word w k : is_word32 w -> is_word32 (Z.clearbit w k).
Proof.
  intros Hw. apply word_of_bits; [rewrite Z.clearbit_spec'; apply Z.ldiff_nonneg; left; apply Hw|].
  intros j Hj. rewrite Z.clearbit_eqb, word_bit by done. done.
Qed.

Lemma lor_word w v : is_word32 w -> is_word32 v -> is_word32 (Z.lor w v).
Proof.
  intros Hw Hv. apply word_of_bits; [apply Z.lor_nonneg; split; [apply Hw|apply Hv]|].
  intros j Hj. by rewrite Z.lor_spec, !word_bit.
Qed.

Lemma land_word w v : is_word32 w -> is_word32 (Z.land w v).
Proof.
  intros Hw. apply word_of_bits; [apply Z.land_nonneg; left; apply Hw|].
  intros j Hj. by rewrite Z.land_spec, word_bit.
Qed.

Lemma not32_bit w k : 0 <= k < 32 -> Z.testbit (not32 w) k = negb (Z.testbit w k).
Proof.
  intros Hk. unfold not32. rewrite Z.lxor_spec. change (2 ^ 32 - 1) with (Z.ones 32).
  rewrite Z.ones_spec_low by lia. apply xorb_true_r.
Qed.

Lemma ones32_bit k : 0 <= k < 32 -> Z.testbit (2 ^ 32 - 1) k = true.
Proof. intros. change (2 ^ 32 - 1) with (Z.ones 32). by apply Z.ones_spec_low. Qed.

Section walk.
Context `{Arch}.

(** ** Pages *)

Lemma words32_pos : 1024 <= WORDS32_PER_PAGE <= 2 ^ 18.
Proof.
  unfold WORDS32_PER_PAGE. pose proof page_shift_range. rewrite Z.shiftl_1_l. change 1024 with (2 ^ 10).
  split; apply Z.pow_le_mono_r; lia.
Qed.

Lemma bits_per_page : BITS_PER_PAGE = 32 * WORDS32_PER_PAGE.
Proof.
  unfold BITS_PER_PAGE, WORDS32_PER_PAGE. pose proof page_shift_range. rewrite !Z.shiftl_1_l.
  change 32 with (2 ^ 5). rewrite <- Z.pow_add_r by lia. f_equal. lia.
Qed.

Lemma page_size : PAGE_SIZE = 4 * WORDS32_PER_PAGE.
Proof.
  unfold PAGE_SIZE, WORDS32_PER_PAGE. pose proof page_shift_range. rewrite !Z.shiftl_1_l.
  change 4 with (2 ^ 2). rewrite <- Z.pow_add_r by lia. f_equal. lia.
Qed.

Lemma to_page w : word32_to_page w = w / WORDS32_PER_PAGE.
Proof.
  unfold word32_to_page, WORDS32_PER_PAGE. pose proof page_shift_range.
  rewrite Z.shiftr_div_pow2 by lia. by rewrite Z.shiftl_1_l.
Qed.

Lemma to_in_page w : word32_in_page w = w mod WORDS32_PER_PAGE.
Proof.
  unfold word32_in_page, WORDS32_PER_PAGE. pose proof page_shift_range.
  rewrite land_pow2_mask by lia. by rewrite Z.shiftl_1_l.
Qed.

Lemma page_split p page bit :
  0 <= page -> 0 <= bit < BITS_PER_PAGE -> page * BITS_PER_PAGE + bit = p ->
  page * WORDS32_PER_PAGE + bit / 32 = p / 32 /\ bit mod 32 = p mod 32 /\ bit / 32 < WORDS32_PER_PAGE.
Proof.
  rewrite bits_per_page. intros Hp Hb <-. pose proof words32_pos.
  replace (page * (32 * WORDS32_PER_PAGE) + bit) with (bit + page * WORDS32_PER_PAGE * 32) by lia.
  rewrite Z.div_add, Z.mod_add by lia. split_and!; [lia|lia|zdiv].
Qed.

Lemma load_ok m p page bit :
  0 <= page -> 0 <= bit < BITS_PER_PAGE -> page * BITS_PER_PAGE + bit = p -> p / 32 < Z.of_nat (length m) ->
  load32 m page bit = Ret (mword m (p / 32)) /\ word_index page bit = Z.to_nat (p / 32) /\ 0 <= p / 32.
Proof.
  intros Hp Hb He Hl. destruct (page_split p page bit Hp Hb He) as (Hw & _ & Hlt). pose proof words32_pos.
  unfold load32, word_index. rewrite shiftr5, Hw. rewrite (proj2 (Z.leb_gt _ _)) by lia.
  assert (0 <= p / 32) by (rewrite <- Hw; assert (0 <= bit / 32) by zdiv; nia).
  destruct (lookup_lt_is_Some_2 m (Z.to_nat (p / 32)) ltac:(lia)) as [w Ew].
  unfold mword. by rewrite Ew.
Qed.

Lemma store_ok m p page bit v :
  0 <= page -> 0 <= bit < BITS_PER_PAGE -> page * BITS_PER_PAGE + bit = p -> p / 32 < Z.of_nat (length m) ->
  store32 m page bit v = Ret (<[Z.to_nat (p / 32) := v]> m).
Proof. intros Hp Hb He Hl. unfold store32. destruct (load_ok m p page bit) as (-> & -> & _); done. Qed.

Lemma test_bit_ok m p page bit :
  0 <= page -> 0 <= bit < BITS_PER_PAGE -> page * BITS_PER_PAGE + bit = p -> p / 32 < Z.of_nat (length m) ->
  test_bit_le m page bit = Ret (mbit m p).
Proof.
  intros Hp Hb He Hl. unfold test_bit_le. destruct (load_ok m p page bit) as (-> & _); [done..|].
  simpl. rewrite land31. destruct (page_split p page bit Hp Hb He) as (_ & -> & _). done.
Qed.

(** ** Positions of bits *)

Variable b : drbd_bitmap.

Definition pos (j n : Z) : Z := 32 * interleaved_word32 b j n + n mod 32.

Lemma pos_word j n : pos j n / 32 = n / 32 * bm_max_peers b + j.
Proof. unfold pos, interleaved_word32. rewrite shiftr5. zdiv. Qed.

Lemma pos_bit j n : pos j n mod 32 = n mod 32.
Proof. unfold pos. zdiv. Qed.

Lemma pos_same_word j n n' : n / 32 = n' / 32 -> pos j n / 32 = pos j n' / 32.
Proof. rewrite !pos_word. by intros ->. Qed.

Lemma mbit_word (m : list Z) j n : mbit m (pos j n) = Z.testbit (mword m (pos j n / 32)) (n mod 32).
Proof. unfold mbit. by rewrite pos_bit. Qed.

Lemma pos_next j n k : 0 <= k -> n mod 32 + k < 32 -> pos j (n + k) = pos j n + k.
Proof.
  intros Hk Hn. unfold pos, interleaved_word32. rewrite !shiftr5.
  replace ((n + k) / 32) with (n / 32) by zdiv. zdiv.
Qed.

Lemma pos_row j n : n mod 32 = 0 -> pos j (n + 32) = pos j n + word32_skip b.
Proof.
  intros Hn. unfold pos, interleaved_word32, word32_skip. rewrite !shiftr5.
  replace ((n + 32) / 32) with (n / 32 + 1) by zdiv. replace ((n + 32) mod 32) with (n mod 32) by zdiv. lia.
Qed.

Hypothesis Hpeers : 1 <= bm_max_peers b <= 64.

Lemma pos_nonneg j n : 0 <= j -> 0 <= n -> 0 <= pos j n.
Proof.
  intros. unfold pos, interleaved_word32. rewrite shiftr5. assert (0 <= n / 32) by zdiv.
  assert (0 <= n mod 32) by zdiv. nia.
Qed.

(** The words of the slots are disjoint. *)
Lemma same_word j n j' n' : 0 <= j < bm_max_peers b -> 0 <= j' < bm_max_peers b ->
  pos j n / 32 = pos j' n' / 32 -> j = j' /\ n / 32 = n' / 32.
Proof.
  intros Hj Hj'. rewrite !pos_word. generalize (n / 32) (n' / 32). intros a a' He.
  assert (a = a') as -> by nia. split; [lia|done].
Qed.

Lemma pos_le j n n' : 0 <= j < bm_max_peers b -> 0 <= n <= n' -> pos j n / 32 <= pos j n' / 32.
Proof. intros Hj Hn. rewrite !pos_word. assert (n / 32 <= n' / 32) by zdiv. nia. Qed.

(** Every bit of the memory belongs to a slot. *)
Lemma all_pos p : 0 <= p -> exists j n, 0 <= j < bm_max_peers b /\ 0 <= n /\ p = pos j n.
Proof.
  intros Hp. exists ((p / 32) mod bm_max_peers b), (32 * (p / 32 / bm_max_peers b) + p mod 32).
  assert (0 <= p / 32) by zdiv. pose proof (Z.div_pos (p / 32) (bm_max_peers b)).
  split_and!; [apply Z.mod_pos_bound; lia|apply Z.mod_pos_bound; lia|zdiv|]. unfold pos, interleaved_word32. rewrite shiftr5.
  replace ((32 * (p / 32 / bm_max_peers b) + p mod 32) / 32) with (p / 32 / bm_max_peers b) by zdiv.
  replace ((32 * (p / 32 / bm_max_peers b) + p mod 32) mod 32) with (p mod 32) by zdiv.
  pose proof (Z.div_mod (p / 32) (bm_max_peers b)). zdiv.
Qed.

Variable i : Z.
Hypothesis Hi : 0 <= i < bm_max_peers b.

(** ** What a part of the walk does

    [new_bit] and [delta] are the effect of an operation on one bit, given the bit
    of the buffer: its new value and whether it is counted.  [s0] is the bit at
    which the buffer begins. *)
Variables (op : bitmap_operations) (s0 e : Z).

Definition new_bit (old nb : bool) : bool :=
  match op with
  | BM_OP_CLEAR => false
  | BM_OP_SET => true
  | BM_OP_MERGE => old || nb
  | _ => old
  end.

Definition delta (old nb : bool) : bool :=
  match op with
  | BM_OP_CLEAR | BM_OP_COUNT => old
  | BM_OP_SET => negb old
  | BM_OP_MERGE => negb old && nb
  | _ => false
  end.

Definition modifies : bool := match op with BM_OP_CLEAR | BM_OP_SET | BM_OP_MERGE => true | _ => false end.
Definition uses_buf : bool := match op with BM_OP_MERGE | BM_OP_EXTRACT => true | _ => false end.
Definition wanted : option bool :=
  match op with BM_OP_FIND_BIT => Some true | BM_OP_FIND_ZERO_BIT => Some false | _ => None end.

Definition in_range (s s' : op_state) (j n : Z) : bool := (j =? i) && (o_start s <=? n) && (n <? o_start s').
Definition delta_at (s : op_state) (n : Z) : bool := delta (mbit (o_mem s) (pos i n)) (mbit (o_buf s) (n - s0)).

Record prog (s s' : op_state) : Prop := {
  pr_start : o_start s <= o_start s';
  pr_len : length (o_mem s') = length (o_mem s);
  pr_blen : length (o_buf s') = length (o_buf s);
  pr_words : Forall is_word32 (o_mem s) -> Forall is_word32 (o_buf s) ->
    Forall is_word32 (o_mem s') /\ Forall is_word32 (o_buf s');
  pr_bits j n : 0 <= j < bm_max_peers b -> 0 <= n ->
    mbit (o_mem s') (pos j n) =
      if in_range s s' j n then new_bit (mbit (o_mem s) (pos j n)) (mbit (o_buf s) (n - s0)) else mbit (o_mem s) (pos j n);
  pr_cnt : o_count s' + o_total s' = o_count s + o_total s + count_range (delta_at s) (o_start s) (o_start s');
  pr_split : if modifies then o_total s' = o_total s else o_count s' = o_count s;
  pr_find want : wanted = Some want ->
    forall n, o_start s <= n < o_start s' -> mbit (o_mem s) (pos i n) = negb want;
  pr_test : op = BM_OP_TEST -> o_start s' = o_start s;
  pr_buf : op <> BM_OP_EXTRACT -> o_buf s' = o_buf s;
  pr_next : op = BM_OP_EXTRACT -> 32 * o_next s = o_start s - s0 ->
    32 * (o_next s' - 1) < o_start s' - s0 <= 32 * o_next s';
  pr_ext : op = BM_OP_EXTRACT -> forall q, 0 <= q ->
    mbit (o_buf s') q =
      if q <? o_start s - s0 then mbit (o_buf s) q
      else if q <? o_start s' - s0 then mbit (o_mem s) (pos i (q + s0))
      else if q <? 32 * o_next s' then false else mbit (o_buf s) q }.

(** The buffer pointer and [start] agree. *)
Definition aligned (s : op_state) : Prop := uses_buf = true -> 0 <= s0 /\ s0 <= o_start s /\ 32 * o_next s = o_start s - s0.

Lemma prog_refl s : aligned s -> prog s s.
Proof.
  intros Ha. split; try done.
  - intros j n Hj Hn. unfold in_range. by destruct (j =? i), (Z.leb_spec (o_start s) n), (Z.ltb_spec n (o_start s)); simpl; try lia.
  - rewrite count_range_nil. lia.
  - by destruct modifies.
  - intros; lia.
  - intros; lia.
  - intros Ho q Hq. destruct (Ha ltac:(unfold uses_buf; by rewrite Ho)) as (_ & _ & He). rewrite He. by destruct (q <? o_start s - s0).
Qed.

Lemma prog_start_nonneg s s' : prog s s' -> 0 <= o_start s -> 0 <= o_start s'.
Proof. intros [] ?. lia. Qed.

Lemma delta_step s s1 n : prog s s1 -> 0 <= n -> o_start s1 <= n -> op <> BM_OP_EXTRACT -> delta_at s1 n = delta_at s n.
Proof.
  intros Hp H0 Hn Ho. unfold delta_at. rewrite (pr_buf _ _ Hp) by done. rewrite (pr_bits _ _ Hp) by (done || lia).
  unfold in_range. rewrite (proj2 (Z.ltb_ge _ _)) by lia. by rewrite andb_false_r.
Qed.

Lemma prog_trans s s1 s2 : 0 <= o_start s -> aligned s1 -> prog s s1 -> prog s1 s2 -> prog s s2.
Proof.
  intros H0 Ha H1 H2. pose proof (pr_start _ _ H1). pose proof (pr_start _ _ H2). split.
  - lia.
  - by rewrite (pr_len _ _ H2), (pr_len _ _ H1).
  - by rewrite (pr_blen _ _ H2), (pr_blen _ _ H1).
  - intros Hm Hb. destruct (pr_words _ _ H1 Hm Hb). by apply (pr_words _ _ H2).
  - intros j n Hj Hn. rewrite (pr_bits _ _ H2 j n Hj Hn), (pr_bits _ _ H1 j n Hj Hn). unfold in_range.
    destruct (Z.eqb_spec j i) as [->|]; simpl; [|done].
    destruct (Z.leb_spec (o_start s) n), (Z.ltb_spec n (o_start s1)), (Z.leb_spec (o_start s1) n),
      (Z.ltb_spec n (o_start s2)); simpl; try lia; try done.
    destruct (decide (op = BM_OP_EXTRACT)) as [He|He]; [unfold new_bit; by rewrite He|by rewrite (pr_buf _ _ H1)].
  - rewrite (pr_cnt _ _ H2), (pr_cnt _ _ H1), (count_range_split _ (o_start s) (o_start s1) (o_start s2)) by lia.
    enough (count_range (delta_at s1) (o_start s1) (o_start s2) = count_range (delta_at s) (o_start s1) (o_start s2)) by lia.
    apply count_range_ext. intros k Hk. destruct (decide (op = BM_OP_EXTRACT)) as [He|He].
    + unfold delta_at, delta. by rewrite He.
    + apply delta_step; (done || lia).
  - pose proof (pr_split _ _ H1). pose proof (pr_split _ _ H2). destruct modifies; congruence.
  - intros want Hw n Hn. destruct (Z.lt_ge_cases n (o_start s1)); [by apply (pr_find _ _ H1 want Hw); lia|].
    rewrite <- (pr_find _ _ H2 want Hw n) by lia. rewrite (pr_bits _ _ H1) by lia. unfold in_range.
    rewrite (proj2 (Z.ltb_ge _ _)) by lia. by rewrite andb_false_r.
  - intros Ht. rewrite (pr_test _ _ H2), (pr_test _ _ H1) by done. done.
  - intros Ho. by rewrite (pr_buf _ _ H2), (pr_buf _ _ H1).
  - intros Ho _. apply (pr_next _ _ H2 Ho). by apply Ha; unfold uses_buf; rewrite Ho.
  - intros Ho q Hq. destruct (Ha ltac:(unfold uses_buf; by rewrite Ho)) as (Hs0 & Hs1 & He).
    rewrite (pr_ext _ _ H2 Ho q Hq), (pr_ext _ _ H1 Ho q Hq).
    destruct (Z.ltb_spec q (o_start s - s0)), (Z.ltb_spec q (o_start s1 - s0)), (Z.ltb_spec q (o_start s2 - s0)),
      (Z.ltb_spec q (32 * o_next s1)); try lia; try done.
    rewrite (pr_bits _ _ H1) by lia. unfold in_range. rewrite (proj2 (Z.ltb_ge (q + s0) _)) by lia. by rewrite andb_false_r.
Qed.

(** ** Steps within one word *)

Lemma prog_write s s' v n :
  modifies = true -> 0 <= o_start s -> pos i (o_start s) / 32 < Z.of_nat (length (o_mem s)) ->
  0 <= n -> o_start s mod 32 + n <= 32 ->
  (Forall is_word32 (o_mem s) -> Forall is_word32 (o_buf s) -> is_word32 v) ->
  o_mem s' = <[Z.to_nat (pos i (o_start s) / 32) := v]> (o_mem s) -> o_start s' = o_start s + n -> o_buf s' = o_buf s ->
  (forall k, 0 <= k < n -> Z.testbit v (o_start s mod 32 + k) =
     new_bit (mbit (o_mem s) (pos i (o_start s + k))) (mbit (o_buf s) (o_start s + k - s0))) ->
  (forall k, 0 <= k < o_start s mod 32 \/ o_start s mod 32 + n <= k < 32 ->
     Z.testbit v k = Z.testbit (mword (o_mem s) (pos i (o_start s) / 32)) k) ->
  o_total s' = o_total s -> o_count s' = o_count s + count_range (delta_at s) (o_start s) (o_start s + n) ->
  prog s s'.
Proof.
  intros Hm H0 Hw Hn Hfit Hv Emem Est Ebuf Hin Hout Etot Ecnt. pose proof (pos_nonneg i _ (proj1 Hi) H0).
  assert (0 <= pos i (o_start s) / 32) by zdiv.
  assert (op <> BM_OP_EXTRACT /\ op <> BM_OP_TEST /\ wanted = None) as (He & Ht & Hwn)
    by (unfold modifies, wanted in *; by destruct op).
  split; rewrite ?Est, ?Ebuf; try done; try congruence.
  - lia.
  - by rewrite Emem, length_insert.
  - intros Hf Hb. split; [|done]. rewrite Emem. apply Forall_insert; [done|by apply Hv].
  - intros j m Hj Hm0. rewrite Emem. pose proof (pos_nonneg j m (proj1 Hj) Hm0).
    rewrite mbit_insert, pos_bit by lia. unfold in_range. rewrite Est.
    destruct (Z.eqb_spec (pos j m / 32) (pos i (o_start s) / 32)) as [Heq|Hne].
    + apply same_word in Heq as [-> Heq]; [|done..]. rewrite Z.eqb_refl. simpl.
      destruct (Z.leb_spec (o_start s) m), (Z.ltb_spec m (o_start s + n)); simpl.
      * specialize (Hin (m - o_start s) ltac:(lia)). replace (o_start s + (m - o_start s)) with m in Hin by lia.
        rewrite <- Hin. f_equal. zdiv.
      * rewrite Hout by zdiv. unfold mbit. rewrite pos_bit. f_equal. f_equal. rewrite !pos_word. by rewrite Heq.
      * rewrite Hout by zdiv. unfold mbit. rewrite pos_bit. f_equal. f_equal. rewrite !pos_word. by rewrite Heq.
      * zdiv.
    + destruct (Z.eqb_spec j i) as [->|]; simpl; [|done].
      destruct (Z.leb_spec (o_start s) m), (Z.ltb_spec m (o_start s + n)); simpl; try done.
      destruct Hne. rewrite !pos_word. f_equal. f_equal. zdiv.
  - lia.
  - by rewrite Hm.
Qed.

Lemma prog_read s s' :
  modifies = false -> o_start s <= o_start s' -> o_mem s' = o_mem s -> o_count s' = o_count s ->
  o_total s' = o_total s + count_range (delta_at s) (o_start s) (o_start s') ->
  (forall want, wanted = Some want -> forall n, o_start s <= n < o_start s' -> mbit (o_mem s) (pos i n) = negb want) ->
  (op = BM_OP_TEST -> o_start s' = o_start s) ->
  (if decide (op = BM_OP_EXTRACT)
   then length (o_buf s') = length (o_buf s) /\
     (32 * o_next s = o_start s - s0 -> 32 * (o_next s' - 1) < o_start s' - s0 <= 32 * o_next s') /\
     (Forall is_word32 (o_mem s) -> Forall is_word32 (o_buf s) -> Forall is_word32 (o_buf s')) /\
     forall q, 0 <= q ->
       mbit (o_buf s') q =
         if q <? o_start s - s0 then mbit (o_buf s) q
         else if q <? o_start s' - s0 then mbit (o_mem s) (pos i (q + s0))
         else if q <? 32 * o_next s' then false else mbit (o_buf s) q
   else o_buf s' = o_buf s) ->
  prog s s'.
Proof.
  intros Hm Hs Emem Ecnt Etot Hf Ht Hb. split; rewrite ?Emem; try done.
  - destruct (decide _); [by destruct Hb|by rewrite Hb].
  - intros Hw Hbw. split; [done|]. destruct (decide _) as [He|He]; [|by rewrite Hb]. by apply Hb.
  - intros j n Hj Hn. replace (new_bit _ _) with (mbit (o_mem s) (pos j n)); [by destruct (in_range s s' j n)|].
    unfold new_bit, modifies in *. by destruct op.
  - lia.
  - by rewrite Hm.
  - intros He. by rewrite decide_False in Hb.
  - intros He. rewrite decide_True in Hb by done. apply Hb.
  - intros He q Hq. rewrite decide_True in Hb by done. by apply Hb.
Qed.

Lemma bit_in_row s k : 0 <= k -> o_start s mod 32 + k < 32 ->
  mbit (o_mem s) (pos i (o_start s + k)) = Z.testbit (mword (o_mem s) (pos i (o_start s) / 32)) (o_start s mod 32 + k).
Proof.
  intros Hk Hn. unfold mbit. rewrite pos_bit, !pos_word. f_equal; [|zdiv]. f_equal. f_equal. f_equal. zdiv.
Qed.

(** The page and the bit in it are those of [start]. *)
Definition at_pos (page : Z) (s : op_state) : Prop :=
  0 <= page /\ 0 <= o_start s /\ 0 <= o_bit s < BITS_PER_PAGE /\ page * BITS_PER_PAGE + o_bit s = pos i (o_start s).

Definition fits (s : op_state) : Prop := pos i e / 32 < Z.of_nat (length (o_mem s)).

Lemma fits_start s : fits s -> 0 <= o_start s <= e -> pos i (o_start s) / 32 < Z.of_nat (length (o_mem s)).
Proof. unfold fits. intros Hf Hs. pose proof (pos_le i (o_start s) e Hi Hs). lia. Qed.

Lemma at_pos_load page s : at_pos page s -> fits s -> o_start s <= e ->
  load32 (o_mem s) page (o_bit s) = Ret (mword (o_mem s) (pos i (o_start s) / 32)) /\
  o_bit s mod 32 = o_start s mod 32 /\
  test_bit_le (o_mem s) page (o_bit s) = Ret (mbit (o_mem s) (pos i (o_start s))) /\
  (forall v, store32 (o_mem s) page (o_bit s) v = Ret (<[Z.to_nat (pos i (o_start s) / 32) := v]> (o_mem s))).
Proof.
  intros (Hp & H0 & Hb & He) Hf Hs. pose proof (fits_start s Hf (conj H0 Hs)) as Hl.
  destruct (page_split _ _ _ Hp Hb He) as (_ & Hmod & _). rewrite pos_bit in Hmod.
  split_and!; [by apply load_ok|done|by apply test_bit_ok|]. intros v. by apply store_ok.
Qed.

Definition bitwise : bool := match op with BM_OP_CLEAR | BM_OP_SET | BM_OP_COUNT => true | _ => false end.

(** A bit that is written: the other bits of its word keep their value. *)
Lemma prog_write_bit s v :
  modifies = true -> uses_buf = false -> 0 <= o_start s <= e -> fits s ->
  let w := mword (o_mem s) (pos i (o_start s) / 32) in
  (is_word32 w -> is_word32 v) ->
  (forall k, 0 <= k < 32 -> Z.testbit v k = if k =? o_start s mod 32 then new_bit (Z.testbit w k) false else Z.testbit w k) ->
  delta_at s (o_start s) = true ->
  prog s (set_addr (o_start s + 1) (o_bit s + 1)
    (set_mem (<[Z.to_nat (pos i (o_start s) / 32) := v]> (o_mem s)) (o_count s + 1) s)).
Proof.
  intros Hm Hu H0 Hf w Hv Hbits Hd. apply (prog_write _ _ v 1); try done; try lia.
  - by apply fits_start.
  - assert (0 <= o_start s mod 32 < 32) by zdiv. lia.
  - intros Hw _. apply Hv. by apply mword_word.
  - intros k Hk. assert (k = 0) as -> by lia. rewrite !Z.add_0_r, Hbits by zdiv. rewrite Z.eqb_refl, mbit_word.
    unfold new_bit, uses_buf, modifies in *. by destruct op.
  - intros k Hk. assert (0 <= o_start s mod 32 < 32) by zdiv. rewrite Hbits by lia.
    destruct (Z.eqb_spec k (o_start s mod 32)); [lia|done].
  - by rewrite count_range_one, Hd.
Qed.

(** A bit that keeps its value, or is only read. *)
Lemma prog_keep_bit s :
  bitwise = true -> 0 <= o_start s -> pos i (o_start s) / 32 < Z.of_nat (length (o_mem s)) ->
  new_bit (mbit (o_mem s) (pos i (o_start s))) false = mbit (o_mem s) (pos i (o_start s)) ->
  (modifies = true -> delta_at s (o_start s) = false) ->
  prog s (set_addr (o_start s + 1) (o_bit s + 1)
    (set_total (o_total s + (if modifies then 0 else Z.b2z (delta_at s (o_start s)))) s)).
Proof.
  intros Hbw H0 Hf Hn Hd. destruct modifies eqn:Hm.
  - assert (0 <= pos i (o_start s) / 32) by (pose proof (pos_nonneg i _ (proj1 Hi) H0); zdiv).
    apply (prog_write _ _ (mword (o_mem s) (pos i (o_start s) / 32)) 1); try done; try lia.
    + assert (0 <= o_start s mod 32 < 32) by zdiv. lia.
    + intros Hw _. by apply mword_word.
    + simpl. unfold mword. destruct (lookup_lt_is_Some_2 (o_mem s) (Z.to_nat (pos i (o_start s) / 32)) ltac:(lia)) as [w Ew].
      rewrite Ew. simpl. by rewrite list_insert_id.
    + intros k Hk. assert (k = 0) as -> by lia. rewrite !Z.add_0_r, <- mbit_word.
      rewrite <- Hn at 1. unfold new_bit, bitwise in *. by destruct op.
    + simpl. lia.
    + rewrite count_range_one, Hd by done. simpl. lia.
  - apply prog_read; simpl; try done; try lia.
    + rewrite count_range_one. lia.
    + unfold wanted, bitwise in *. by destruct op.
    + unfold bitwise in *. by destruct op.
    + rewrite decide_False; [done|]. unfold bitwise in *. by destruct op.
Qed.

Lemma set_total_same s : set_total (o_total s + 0) s = s.
Proof. destruct s. unfold set_total. simpl. by rewrite Z.add_0_r. Qed.

Lemma bit_step_ok page s : bitwise = true -> at_pos page s -> fits s -> o_start s <= e ->
  exists s', bit_step op page s = Ret s' /\ prog s s' /\ o_start s' = o_start s + 1 /\ o_bit s' = o_bit s + 1.
Proof.
  intros Hbw Hat Hf Hs. destruct (at_pos_load page s Hat Hf Hs) as (Hld & Hmod & Hte & Hst).
  destruct Hat as (_ & H0 & _ & _). pose proof (fits_start s Hf (conj H0 Hs)) as Hfs.
  pose proof (prog_keep_bit s Hbw H0 Hfs) as Hkeep. pose proof (mbit_word (o_mem s) i (o_start s)) as Hmb.
  assert (0 <= o_start s mod 32 < 32) by zdiv.
  unfold bit_step. rewrite land31, Hmod, Hte, Hld. unfold bitwise in Hbw. destruct op eqn:Eop; try done; simpl in *.
  - destruct (Z.testbit _ _) eqn:Eb; [rewrite Hst; simpl|].
    + eexists. split; [done|]. split; [|done]. apply prog_write_bit; try done; unfold modifies, uses_buf; try (by rewrite Eop).
      * apply clearbit_word.
      * intros k Hk. rewrite Z.clearbit_eqb. unfold new_bit. rewrite Eop, Z.eqb_sym.
        destruct (k =? _); [apply andb_false_r|apply andb_true_r].
      * unfold delta_at, delta. by rewrite Eop, Hmb.
    + eexists. split; [done|]. split; [|done]. unfold new_bit, modifies, delta_at, delta in Hkeep. rewrite Eop, Hmb in Hkeep.
      specialize (Hkeep eq_refl (fun _ => eq_refl)). by rewrite set_total_same in Hkeep.
  - destruct (Z.testbit _ _) eqn:Eb; [simpl|simpl; rewrite Hst; simpl].
    + eexists. split; [done|]. split; [|done]. unfold new_bit, modifies, delta_at, delta in Hkeep. rewrite Eop, Hmb in Hkeep.
      specialize (Hkeep eq_refl (fun _ => eq_refl)). by rewrite set_total_same in Hkeep.
    + eexists. split; [done|]. split; [|done]. apply prog_write_bit; try done; unfold modifies, uses_buf; try (by rewrite Eop).
      * intros. by apply setbit_word.
      * intros k Hk. rewrite Z.setbit_eqb by lia. unfold new_bit. rewrite Eop, Z.eqb_sym. by destruct (k =? _).
      * unfold delta_at, delta. by rewrite Eop, Hmb.
  - unfold new_bit, modifies, delta_at, delta in Hkeep. rewrite Eop in Hkeep. specialize (Hkeep eq_refl ltac:(done)).
    destruct (mbit _ _); simpl in *; eexists; (split; [done|]); (split; [|done]); [done|]. by rewrite set_total_same in Hkeep.
Qed.

Lemma prog_addr s s' st bit : prog s s' -> st = o_start s' -> prog s (set_addr st bit s').
Proof. intros [] ->. by split. Qed.

Lemma aligned_free s : uses_buf = false -> aligned s.
Proof. intros Hu. unfold aligned. by rewrite Hu. Qed.

Lemma prog_fits s s' : prog s s' -> fits s -> fits s'.
Proof. unfold fits. intros Hp. by rewrite (pr_len _ _ Hp). Qed.

Lemma at_pos_next page s s' n : at_pos page s -> 0 <= n -> o_start s mod 32 + n < 32 ->
  o_start s' = o_start s + n -> o_bit s' = o_bit s + n -> at_pos page s'.
Proof.
  intros (Hp & H0 & Hb & He) Hn Hk Es Eb. unfold at_pos. rewrite Es, Eb, pos_next by done.
  destruct (page_split _ _ _ Hp Hb He) as (_ & Hmod & Hlt). rewrite pos_bit in Hmod. rewrite bits_per_page in *.
  split_and!; [done|lia|lia|zdiv|lia].
Qed.

Lemma bit_loop_ok page n s : bitwise = true -> n = O \/ at_pos page s -> fits s -> 0 <= o_start s ->
  o_start s + Z.of_nat n <= e + 1 -> o_start s mod 32 + Z.of_nat n <= 32 ->
  exists s', bit_loop op page n s = Ret s' /\ prog s s' /\
    o_start s' = o_start s + Z.of_nat n /\ o_bit s' = o_bit s + Z.of_nat n.
Proof.
  intros Hbw. assert (uses_buf = false) as Hu by (unfold uses_buf, bitwise in *; by destruct op).
  revert s. induction n as [|n IH]; intros s Hat Hf H0 Hle Hrow.
  - exists s. split; [done|]. split; [by apply prog_refl, aligned_free|]. lia.
  - destruct Hat as [|Hat]; [done|]. destruct (bit_step_ok page s Hbw Hat Hf ltac:(lia)) as (s1 & Es & Hp1 & Est & Ebit).
    cbn [bit_loop]. rewrite Es. simpl. destruct (IH s1) as (s' & El & Hp & Est' & Ebit').
    + destruct n as [|n]; [by left|right]. apply (at_pos_next page s s1 1); try done; lia.
    + by apply (prog_fits s).
    + lia.
    + lia.
    + rewrite Est. destruct n as [|n]; [|zdiv]. assert (0 <= (o_start s + 1) mod 32 < 32) by zdiv. lia.
    + exists s'. split; [done|]. split; [|lia]. by apply (prog_trans s s1); [|apply aligned_free| |].
Qed.

(** The search within one word. *)
Lemma find_next_le_ok want page n s :
  n = O \/ at_pos page s -> fits s -> 0 <= o_start s ->
  o_start s + Z.of_nat n <= e + 1 -> o_start s mod 32 + Z.of_nat n <= 32 ->
  exists r, find_next_le want (o_mem s) page n (o_bit s) = Ret r /\
    match r with
    | Some c => exists k, c = o_bit s + k /\ 0 <= k < Z.of_nat n /\ mbit (o_mem s) (pos i (o_start s + k)) = want /\
        forall j, o_start s <= j < o_start s + k -> mbit (o_mem s) (pos i j) = negb want
    | None => forall j, o_start s <= j < o_start s + Z.of_nat n -> mbit (o_mem s) (pos i j) = negb want
    end.
Proof.
  revert s. induction n as [|n IH]; intros s Hat Hf H0 Hle Hrow; cbn [find_next_le].
  - exists None. split; [done|]. intros; lia.
  - destruct Hat as [|Hat]; [done|]. destruct (at_pos_load page s Hat Hf ltac:(lia)) as (_ & _ & -> & _). simpl.
    destruct (Bool.eqb _ _) eqn:Eb.
    + apply Bool.eqb_prop in Eb. exists (Some (o_bit s)). split; [done|]. exists 0. rewrite !Z.add_0_r.
      split_and!; [done|lia|lia|done|]. intros; lia.
    + apply Bool.eqb_false_iff in Eb. assert (mbit (o_mem s) (pos i (o_start s)) = negb want) as Hn
        by (by destruct (mbit _ _), want).
      destruct (IH (set_addr (o_start s + 1) (o_bit s + 1) s)) as (r & Er & Hr); simpl in *.
      * destruct n as [|n]; [by left|right]. apply (at_pos_next page s _ 1); try done; lia.
      * done.
      * lia.
      * lia.
      * destruct n as [|n]; [|zdiv]. assert (0 <= (o_start s + 1) mod 32 < 32) by zdiv. lia.
      * exists r. split; [done|]. destruct r as [c|].
        -- destruct Hr as (k & -> & Hk & Hw & Hall). exists (k + 1). split_and!; [lia|lia|lia| |].
           ++ by replace (o_start s + (k + 1)) with (o_start s + 1 + k) by lia.
           ++ intros j Hj. destruct (decide (j = o_start s)) as [->|]; [done|]. apply Hall. lia.
        -- intros j Hj. destruct (decide (j = o_start s)) as [->|]; [done|]. apply Hr. lia.
Qed.

(** ** How a part of the loop body ends *)

Definition ret_ok (s : op_state) (r : Z) : Prop :=
  match wanted with
  | Some want => o_start s <= r <= e /\ mbit (o_mem s) (pos i r) = want /\
      forall n, o_start s <= n < r -> mbit (o_mem s) (pos i n) = negb want
  | None => op = BM_OP_TEST /\ r = Z.b2z (mbit (o_mem s) (pos i (o_start s)))
  end.

Definition go_ok (page : Z) (s s' : op_state) : Prop :=
  prog s s' /\ at_pos page s' /\ aligned s' /\ o_start s' <= e + 1.

Definition next_ok (page : Z) (s s' : op_state) : Prop :=
  prog s s' /\ pos i (o_start s' - 1) / 32 < (page + 1) * WORDS32_PER_PAGE /\ (o_start s' = e + 1 \/
    o_start s' <= e /\ aligned s' /\ at_pos (page + 1) (set_addr (o_start s') (o_bit s' - BITS_PER_PAGE) s')).

Definition flow_ok (page : Z) (s : op_state) (o : outcome flow) : Prop :=
  match o with
  | Ret (Go s') => go_ok page s s'
  | Ret (Next_page s') => next_ok page s s'
  | Ret (Return r) => ret_ok s r
  | _ => False
  end.

Lemma ret_ok_prog s s' r : 0 <= o_start s -> prog s s' -> ret_ok s' r -> ret_ok s r.
Proof.
  intros H0 Hp. pose proof (pr_start _ _ Hp). unfold ret_ok. destruct wanted as [want|] eqn:Hw.
  - assert (forall n, o_start s' <= n -> mbit (o_mem s') (pos i n) = mbit (o_mem s) (pos i n)) as Heq.
    { intros n Hn. rewrite (pr_bits _ _ Hp) by lia. unfold in_range. rewrite (proj2 (Z.ltb_ge n _)) by lia. by rewrite andb_false_r. }
    intros (Hr & Hb & Hall). split_and!; [lia|lia|by rewrite <- Heq by lia|].
    intros n Hn. destruct (Z.lt_ge_cases n (o_start s')); [by apply (pr_find _ _ Hp want Hw); lia|]. rewrite <- Heq by lia. apply Hall. lia.
  - intros [Ht ->]. split; [done|]. rewrite (pr_test _ _ Hp Ht). rewrite (pr_bits _ _ Hp) by lia.
    replace (new_bit _ _) with (mbit (o_mem s) (pos i (o_start s))); [by destruct (in_range _ _ _ _)|]. unfold new_bit. by rewrite Ht.
Qed.

Lemma next_ok_prog page s s1 s' : 0 <= o_start s -> aligned s1 -> prog s s1 -> next_ok page s1 s' -> next_ok page s s'.
Proof. intros H0 Ha Hp [Hp' Hr]. split; [by apply (prog_trans s s1)|done]. Qed.

Lemma flow_ok_prog page s s1 o : 0 <= o_start s -> aligned s1 -> prog s s1 -> flow_ok page s1 o -> flow_ok page s o.
Proof.
  intros H0 Ha Hp. destruct o as [[s'|s'|r]| |]; simpl; try done.
  - intros (? & ? & ? & ?). split_and!; try done. by apply (prog_trans s s1).
  - by apply next_ok_prog.
  - by apply ret_ok_prog.
Qed.

Lemma flow_ok_bind page s o k : 0 <= o_start s -> flow_ok page s o ->
  (forall s', go_ok page s s' -> flow_ok page s' (k s')) ->
  flow_ok page s (let! f := o in match f with Go s' => k s' | f => Ret f end).
Proof.
  intros H0 Ho Hk. destruct o as [[s'|s'|r]| |]; simpl in *; try done.
  pose proof Ho as (Hp & _ & Ha & _). apply (flow_ok_prog _ s s'); auto.
Qed.

Lemma advance_ok page s s' st bit :
  0 <= page -> 0 <= st -> prog s (set_addr st bit s') -> aligned (set_addr st bit s') -> st <= e + 1 ->
  0 <= bit < 2 * BITS_PER_PAGE -> page * BITS_PER_PAGE + bit = pos i st ->
  pos i (st - 1) / 32 < (page + 1) * WORDS32_PER_PAGE -> flow_ok page s (Ret (advance st bit s')).
Proof.
  intros Hp H0 Hpr Ha Hst Hb He Hl. unfold advance. destruct (Z.leb_spec BITS_PER_PAGE bit); simpl.
  - split; [done|]. split; [done|]. simpl. destruct (decide (st = e + 1)); [by left|right]. split_and!; [lia|done|]. unfold at_pos. simpl. lia.
  - split; [done|]. split; [unfold at_pos; simpl; lia|]. split; [done|simpl; lia].
Qed.

(** ** The phases *)

Hypothesis He : 0 <= e < 2 ^ 63.

Lemma peers_skip : 32 <= word32_skip b <= BITS_PER_PAGE.
Proof. unfold word32_skip. rewrite bits_per_page. pose proof words32_pos. lia. Qed.

Lemma at_pos_page page s : at_pos page s -> pos i (o_start s) / 32 < (page + 1) * WORDS32_PER_PAGE.
Proof. intros (Hp & H0 & Hb & Hpos). destruct (page_split _ _ _ Hp Hb Hpos) as (? & _ & ?). lia. Qed.

(** The rest of a word has been handled: the next word of the slot. *)
Lemma next_row_ok page s s' st bit :
  at_pos page s -> o_start s <= e -> aligned (set_addr st bit s') -> prog s (set_addr st bit s') ->
  st = 32 * (o_start s / 32) + 32 -> st <= e + 1 -> bit = o_bit s - o_start s mod 32 + word32_skip b ->
  flow_ok page s (Ret (advance st bit s')).
Proof.
  intros (Hp & H0 & Hb & Hpos) Hs Ha Hpr Est Hst Ebit. pose proof peers_skip.
  assert (0 <= o_bit s - o_start s mod 32) as Hrow.
  { destruct (page_split _ _ _ Hp Hb Hpos) as (_ & Hmod & _). rewrite pos_bit in Hmod. zdiv. }
  apply advance_ok; try done; try zdiv.
  2: { rewrite (pos_same_word i (st - 1) (o_start s)) by zdiv. by apply at_pos_page. }
  rewrite Est, pos_row by zdiv. unfold pos, interleaved_word32 in *. rewrite !shiftr5 in *.
  replace (32 * (o_start s / 32) / 32) with (o_start s / 32) by zdiv. zdiv.
Qed.

Lemma head_finds want page s n :
  wanted = Some want -> at_pos page s -> fits s -> o_start s <= e -> Z.lor (o_start s) 31 <= e ->
  n = Z.to_nat (Z.lor (o_bit s) 31 + 1 - o_bit s) ->
  flow_ok page s
    (let! r := find_next_le want (o_mem s) page n (o_bit s) in
     Ret match r with
         | Some c => Return (u64 (o_start s + c - o_bit s))
         | None => advance (Z.lor (o_start s) 31 + 1) (Z.lor (o_bit s) 31 + 1 + word32_skip b - 32) s
         end).
Proof.
  intros Hw Hat Hf Hs Hl ->. assert (uses_buf = false) as Hu by (unfold uses_buf, wanted in *; by destruct op).
  pose proof Hat as (Hp & H0 & Hb & Hpos). destruct (page_split _ _ _ Hp Hb Hpos) as (_ & Hmod & _). rewrite pos_bit in Hmod.
  rewrite lor31 in Hl. rewrite !lor31.
  destruct (find_next_le_ok want page (Z.to_nat (32 * (o_bit s / 32) + 31 + 1 - o_bit s)) s) as (r & -> & Hr);
    [by right|done|done|zdiv|zdiv|]. simpl. destruct r as [c|].
  - destruct Hr as (k & -> & Hk & Hbit & Hall). unfold flow_ok, ret_ok. rewrite Hw.
    assert (o_start s + k <= e) by zdiv. rewrite u64_small by lia. replace (o_start s + (o_bit s + k) - o_bit s) with (o_start s + k) by lia.
    split_and!; [lia|lia|done|done].
  - apply next_row_ok; try done; try lia; [by apply aligned_free| |zdiv].
    apply prog_read; simpl; try done.
    + unfold modifies, wanted in *. by destruct op.
    + zdiv.
    + rewrite count_range_none; [lia|]. intros k Hk. unfold delta_at, delta, wanted in *. by destruct op.
    + intros want' Hw' n Hn. assert (want' = want) as -> by congruence. apply Hr. zdiv.
    + unfold wanted in *. by destruct op.
    + rewrite decide_False; [done|]. unfold wanted in *. by destruct op.
Qed.

Lemma head_bits page s n :
  bitwise = true -> at_pos page s -> fits s -> o_start s <= e -> Z.lor (o_start s) 31 <= e ->
  n = Z.to_nat (Z.lor (o_bit s) 31 + 1 - o_bit s) ->
  flow_ok page s
    (let! s' := bit_loop op page n s in
     Ret (advance (Z.lor (o_start s) 31 + 1) (o_bit s' + word32_skip b - 32) s')).
Proof.
  intros Hbw Hat Hf Hs Hl ->. assert (uses_buf = false) as Hu by (unfold uses_buf, bitwise in *; by destruct op).
  pose proof Hat as (Hp & H0 & Hb & Hpos). destruct (page_split _ _ _ Hp Hb Hpos) as (_ & Hmod & _). rewrite pos_bit in Hmod.
  rewrite lor31 in Hl. rewrite !lor31.
  destruct (bit_loop_ok page (Z.to_nat (32 * (o_bit s / 32) + 31 + 1 - o_bit s)) s) as (s' & -> & Hpr & Est & Ebit);
    [done|by right|done|done|zdiv|zdiv|]. simpl.
  apply next_row_ok; try done; [by apply aligned_free| |lia|lia|zdiv].
  apply prog_addr; [done|]. zdiv.
Qed.

Lemma bm_op_head_ok page s : at_pos page s -> aligned s -> fits s -> o_start s <= e ->
  (uses_buf = true -> o_start s mod 32 = 0) -> flow_ok page s (bm_op_head b op page e s).
Proof.
  intros Hat Ha Hf Hs Hal. unfold bm_op_head.
  destruct (negb (Z.land (o_start s) 31 =? 0) && (Z.lor (o_start s) 31 <=? e)) eqn:Eh; reflect_bools; simpl.
  - rewrite land31 in *. unfold uses_buf in Hal. destruct op eqn:Eop.
    all: try (exfalso; lia).
    all: try (rewrite <- Eop; apply head_bits; try done; unfold bitwise; by rewrite Eop).
    all: try (apply head_finds; try done; unfold wanted; by rewrite Eop).
    destruct (at_pos_load page s Hat Hf Hs) as (_ & _ & -> & _). simpl. unfold ret_ok, wanted. by rewrite Eop.
  - destruct (bool_decide_reflect (op = BM_OP_TEST)) as [Et|Et].
    + rewrite Et. destruct (at_pos_load page s Hat Hf Hs) as (_ & _ & -> & _). simpl. unfold ret_ok, wanted. by rewrite Et.
    + simpl. split; [by apply prog_refl|]. split; [done|]. split; [done|lia].
Qed.

Lemma first_from_spec want w n k :
  let c := first_from want w n k in
  k <= c <= k + Z.of_nat n /\ (c < k + Z.of_nat n -> Z.testbit w c = want) /\
  forall j, k <= j < c -> Z.testbit w j = negb want.
Proof.
  revert k. induction n as [|n IH]; intros k; simpl.
  - split_and!; [lia|lia|lia|]. intros; lia.
  - destruct (Bool.eqb _ _) eqn:Eb.
    + apply Bool.eqb_prop in Eb. split_and!; [lia|lia|done|]. intros; lia.
    + apply Bool.eqb_false_iff in Eb. destruct (IH (k + 1)) as (Hr & Hc & Hall). split_and!; [lia|lia| |].
      * intros. apply Hc. lia.
      * intros j Hj. destruct (decide (j = k)) as [->|]; [|apply Hall; lia]. by destruct (Z.testbit w k), want.
Qed.

Definition word_find (want : bool) (w : Z) : Z := if want then find_next_bit_le32 w else find_next_zero_bit_le32 w.

Lemma word_find_spec want w :
  let c := word_find want w in
  0 <= c <= 32 /\ (c < 32 -> Z.testbit w c = want) /\ forall j, 0 <= j < c -> Z.testbit w j = negb want.
Proof.
  unfold word_find, find_next_bit_le32, find_next_zero_bit_le32. pose proof (first_from_spec want w 32 0) as Hf.
  destruct want; case_if; try exact Hf; subst w; (split_and!; [lia|lia|lia|]); intros j Hj.
  - apply Z.bits_0.
  - by apply ones32_bit.
Qed.

Definition bfits (s : op_state) : Prop := uses_buf = true -> (e - s0) / 32 < Z.of_nat (length (o_buf s)).

Lemma prog_bfits s s' : prog s s' -> bfits s -> bfits s'.
Proof. unfold bfits. intros Hp. by rewrite (pr_blen _ _ Hp). Qed.

(** The word of the buffer that belongs to [start]. *)
Lemma buf_load_ok s : uses_buf = true -> aligned s -> bfits s -> o_start s <= e ->
  buf_load s = Ret (mword (o_buf s) (o_next s)) /\ 0 <= o_next s < Z.of_nat (length (o_buf s)).
Proof.
  intros Hu Ha Hb Hs. destruct (Ha Hu) as (? & ? & ?). specialize (Hb Hu). assert (0 <= o_next s < Z.of_nat (length (o_buf s))) by zdiv.
  split; [|done]. unfold buf_load, mword. destruct (lookup_lt_is_Some_2 (o_buf s) (Z.to_nat (o_next s)) ltac:(lia)) as [w ->]. done.
Qed.

Lemma buf_bit s k : uses_buf = true -> aligned s -> 0 <= k < 32 ->
  mbit (o_buf s) (o_start s + k - s0) = Z.testbit (mword (o_buf s) (o_next s)) k.
Proof. intros Hu Ha Hk. destruct (Ha Hu) as (? & ? & ?). unfold mbit. f_equal; [|zdiv]. f_equal. zdiv. Qed.

(** A word is written from its first bit on. *)
Lemma prog_write_low s s' v n :
  modifies = true -> 0 <= o_start s <= e -> fits s -> o_start s mod 32 = 0 -> 0 <= n <= 32 ->
  let w := mword (o_mem s) (pos i (o_start s) / 32) in
  (Forall is_word32 (o_mem s) -> Forall is_word32 (o_buf s) -> is_word32 v) ->
  o_mem s' = <[Z.to_nat (pos i (o_start s) / 32) := v]> (o_mem s) -> o_start s' = o_start s + n -> o_buf s' = o_buf s ->
  (forall k, 0 <= k < 32 -> Z.testbit v k =
     if k <? n then new_bit (Z.testbit w k) (mbit (o_buf s) (o_start s + k - s0)) else Z.testbit w k) ->
  o_total s' = o_total s ->
  o_count s' = o_count s + count_range (fun k => (k <? n) && delta (Z.testbit w k) (mbit (o_buf s) (o_start s + k - s0))) 0 (0 + 32) ->
  prog s s'.
Proof.
  intros Hm H0 Hf Hr Hn w Hv Emem Est Ebuf Hbits Etot Ecnt. apply (prog_write s s' v n); try done; try lia.
  - by apply fits_start.
  - intros k Hk. rewrite Hr, Z.add_0_l. rewrite Hbits by lia. rewrite (proj2 (Z.ltb_lt k n)) by lia.
    rewrite bit_in_row, Hr by lia. done.
  - intros k Hk. rewrite Hr in Hk. rewrite Hbits by lia. by rewrite (proj2 (Z.ltb_ge k n)) by lia.
  - rewrite Ecnt. f_equal. rewrite (count_range_split _ 0 n (0 + 32)) by lia.
    rewrite (count_range_none _ n (0 + 32)); [rewrite Z.add_0_r|].
    + match goal with |- count_range ?f 0 n = _ => pose proof (count_range_shift f (delta_at s) 0 (o_start s) n) as Hc end.
      rewrite !Z.add_0_l in Hc. apply Hc; [lia|]. clear Hc. intros k Hk. unfold delta_at.
      rewrite !Z.add_0_l, (proj2 (Z.ltb_lt k n)) by lia. rewrite bit_in_row, Hr by lia. done.
    + intros k Hk. by rewrite (proj2 (Z.ltb_ge k n)) by lia.
Qed.

(** A word is copied to the buffer, its bits from [n] on as 0. *)
Lemma prog_extract s s' n v :
  op = BM_OP_EXTRACT -> 0 <= o_start s <= e -> aligned s -> bfits s -> o_start s mod 32 = 0 -> 0 < n <= 32 ->
  let w := mword (o_mem s) (pos i (o_start s) / 32) in
  (is_word32 w -> is_word32 v) ->
  (forall k, 0 <= k < 32 -> Z.testbit v k = (k <? n) && Z.testbit w k) ->
  o_mem s' = o_mem s -> o_count s' = o_count s -> o_total s' = o_total s -> o_start s' = o_start s + n ->
  o_buf s' = <[Z.to_nat (o_next s) := v]> (o_buf s) -> o_next s' = o_next s + 1 -> prog s s'.
Proof.
  intros Eop H0 Ha Hb Hr Hn w Hv Hbits Emem Ecnt Etot Est Ebuf Enext.
  assert (uses_buf = true) as Hu by (unfold uses_buf; by rewrite Eop). destruct (Ha Hu) as (Hs0 & Hs1 & Hal).
  destruct (buf_load_ok s Hu Ha Hb (proj2 H0)) as [_ Hlen].
  apply prog_read; try done; try lia.
  - unfold modifies. by rewrite Eop.
  - rewrite count_range_none; [lia|]. intros. unfold delta_at, delta. by rewrite Eop.
  - unfold wanted. by rewrite Eop.
  - by rewrite Eop.
  - rewrite decide_True by done. rewrite Ebuf, Enext, Est. split_and!.
    + apply length_insert.
    + lia.
    + intros Hw Hbw. apply Forall_insert; [done|]. apply Hv, mword_word, Hw.
    + intros q Hq. rewrite mbit_insert by lia. destruct (Z.eqb_spec (q / 32) (o_next s)) as [Hq'|Hq'].
      * rewrite Hbits by zdiv. rewrite (proj2 (Z.ltb_ge q (o_start s - s0))) by zdiv.
        destruct (Z.ltb_spec (q mod 32) n), (Z.ltb_spec q (o_start s + n - s0)); try zdiv; simpl.
        -- replace (q + s0) with (o_start s + q mod 32) by zdiv. rewrite bit_in_row, Hr by zdiv. done.
        -- by rewrite (proj2 (Z.ltb_lt q (32 * (o_next s + 1)))) by zdiv.
      * destruct (Z.ltb_spec q (o_start s - s0)), (Z.ltb_spec q (o_start s + n - s0)), (Z.ltb_spec q (32 * (o_next s + 1)));
          try done; zdiv.
Qed.

(** The result of the [switch] for a whole word, before [start] advances. *)
Definition word_ok (s : op_state) (f : flow) : Prop :=
  match f with
  | Go s' => o_start s' = o_start s /\ o_bit s' = o_bit s /\
      forall bit, prog s (set_addr (o_start s + 32) bit s') /\ aligned (set_addr (o_start s + 32) bit s')
  | Next_page _ => False
  | Return r => ret_ok s r
  end.

Lemma aligned_next s s' n bit : aligned s -> o_next s' = o_next s + 1 -> n = 32 -> aligned (set_addr (o_start s + n) bit s').
Proof. intros Ha En -> Hu. destruct (Ha Hu) as (? & ? & ?). simpl. lia. Qed.

Lemma word_find_ok want s :
  wanted = Some want -> 0 <= o_start s -> o_start s + 31 <= e -> o_start s mod 32 = 0 ->
  let c := word_find want (mword (o_mem s) (pos i (o_start s) / 32)) in
  word_ok s (if c <? 32 then Return (u64 (o_start s + (c + o_bit s) - o_bit s)) else Go s).
Proof.
  intros Hw H0 Hs Hr c. assert (uses_buf = false) as Hu by (unfold uses_buf, wanted in *; by destruct op).
  destruct (word_find_spec want (mword (o_mem s) (pos i (o_start s) / 32))) as (Hc & Hc1 & Hc2). fold c in Hc, Hc1, Hc2.
  assert (forall j, o_start s <= j < o_start s + c -> mbit (o_mem s) (pos i j) = negb want) as Hall.
  { intros j Hj. replace j with (o_start s + (j - o_start s)) by lia. rewrite bit_in_row, Hr by lia. apply Hc2. lia. }
  destruct (Z.ltb_spec c 32); simpl.
  - replace (o_start s + (c + o_bit s) - o_bit s) with (o_start s + c) by lia. rewrite u64_small by lia.
    unfold ret_ok. rewrite Hw. split_and!; [lia|lia| |done]. rewrite bit_in_row, Hr by lia. by apply Hc1.
  - split_and!; try done. intros bit. split; [|by apply aligned_free]. apply prog_read; simpl; try done; try lia.
    + unfold modifies, wanted in *. by destruct op.
    + rewrite count_range_none; [lia|]. intros. unfold delta_at, delta, wanted in *. by destruct op.
    + intros want' Hw' n Hn. assert (want' = want) as -> by congruence. apply Hall. lia.
    + unfold wanted in *. by destruct op.
    + rewrite decide_False; [done|]. unfold wanted in *. by destruct op.
Qed.

Lemma word_op_ok page s :
  op <> BM_OP_TEST -> at_pos page s -> aligned s -> fits s -> bfits s -> o_start s mod 32 = 0 -> o_start s + 31 <= e ->
  exists f, word_op op page s = Ret f /\ word_ok s f.
Proof.
  intros Ht Hat Ha Hf Hbf Hr Hs. destruct (at_pos_load page s Hat Hf ltac:(lia)) as (Hld & _ & _ & Hst).
  destruct Hat as (_ & H0 & _ & _). unfold word_op. rewrite Hld. cbn [obind]. set (w := mword (o_mem s) (pos i (o_start s) / 32)) in *.
  assert (modifies = true -> uses_buf = false -> forall v c, is_word32 v ->
    (forall k, 0 <= k < 32 -> Z.testbit v k = new_bit (Z.testbit w k) false) ->
    c = count_range (fun k => delta (Z.testbit w k) false) 0 (0 + 32) ->
    exists f, (let! m := store32 (o_mem s) page (o_bit s) v in Ret (Go (set_mem m (o_count s + c) s))) = Ret f /\ word_ok s f) as Hput.
  { intros Hm Hu v c Hv Hb ->. rewrite Hst. cbn [obind]. eexists. split; [done|]. split_and!; try done. intros bit.
    split; [|by apply aligned_free]. apply (prog_write_low _ _ v 32); try done; try lia.
    - intros k Hk. rewrite Hb by done. rewrite (proj2 (Z.ltb_lt k 32)) by lia. fold w.
      unfold new_bit, modifies, uses_buf in *. by destruct op.
    - simpl. f_equal. apply count_range_ext. intros k Hk. rewrite (proj2 (Z.ltb_lt k 32)) by lia. fold w.
      unfold delta, modifies, uses_buf in *. by destruct op. }
  destruct op eqn:Eop; try done.
  - apply Hput; try done; [unfold modifies; by rewrite Eop|unfold uses_buf; by rewrite Eop| |].
    + intros k Hk. unfold new_bit. rewrite Eop. apply Z.bits_0.
    + rewrite hweight32_range. unfold delta. by rewrite Eop.
  - apply Hput; try done; [unfold modifies; by rewrite Eop|unfold uses_buf; by rewrite Eop| |].
    + intros k Hk. unfold new_bit. rewrite Eop. by apply ones32_bit.
    + rewrite hweight32_range. apply count_range_ext. intros k Hk. unfold delta. rewrite Eop. by apply not32_bit.
  - eexists. split; [done|]. split_and!; try done. intros bit. split; [|apply aligned_free; unfold uses_buf; by rewrite Eop].
    apply prog_read; simpl; try done; try lia; try (by rewrite Eop); try (unfold modifies, wanted; by rewrite Eop).
    + rewrite hweight32_range. f_equal. apply count_range_shift; [lia|]. intros k Hk. unfold delta_at, delta. rewrite Eop.
      rewrite bit_in_row, Hr by lia. done.
  - assert (uses_buf = true) as Hu by (unfold uses_buf; by rewrite Eop). destruct (buf_load_ok s Hu Ha Hbf ltac:(lia)) as [-> Hlen].
    cbn [obind]. rewrite Hst. cbn [obind]. eexists. split; [done|]. split_and!; try done. intros bit.
    split; [|by apply aligned_next]. apply (prog_write_low _ _ (Z.lor w (mword (o_buf s) (o_next s))) 32); try done; try lia.
    + unfold modifies. by rewrite Eop.
    + intros Hw Hb. apply lor_word; by apply mword_word.
    + intros k Hk. rewrite (proj2 (Z.ltb_lt k 32)) by lia. rewrite Z.lor_spec, buf_bit by done. fold w. unfold new_bit. by rewrite Eop.
    + simpl. f_equal. rewrite hweight32_range. apply count_range_ext. intros k Hk. rewrite (proj2 (Z.ltb_lt k 32)) by lia.
      rewrite Z.land_spec, not32_bit, buf_bit by done. fold w. unfold delta. by rewrite Eop.
  - assert (uses_buf = true) as Hu by (unfold uses_buf; by rewrite Eop). unfold buf_store.
    destruct (buf_load_ok s Hu Ha Hbf ltac:(lia)) as [-> Hlen]. cbn [obind]. eexists. split; [done|]. split_and!; try done. intros bit.
    split; [|by apply aligned_next]. apply (prog_extract _ _ 32 w); try done; try lia.
    intros k Hk. by rewrite (proj2 (Z.ltb_lt k 32)) by lia.
  - eexists. split; [done|]. apply (word_find_ok true); try done. unfold wanted. by rewrite Eop.
  - eexists. split; [done|]. apply (word_find_ok false); try done. unfold wanted. by rewrite Eop.
Qed.

Lemma bm_op_words_ok page fuel s :
  op <> BM_OP_TEST -> at_pos page s -> aligned s -> fits s -> bfits s -> o_start s <= e + 1 ->
  (o_start s + 31 <= e -> o_start s mod 32 = 0) -> BITS_PER_PAGE - o_bit s <= 32 * Z.of_nat fuel ->
  flow_ok page s (bm_op_words b op page e fuel s) /\
  forall s', bm_op_words b op page e fuel s = Ret (Go s') -> e < o_start s' + 31 /\ (o_start s mod 32 = 0 -> o_start s' mod 32 = 0).
Proof.
  intros Ht. revert s. induction fuel as [|fuel IH]; intros s Hat Ha Hf Hbf Hs Hr Hfuel.
  - destruct Hat as (_ & _ & ? & _). lia.
  - cbn [bm_op_words]. pose proof Hat as (Hp & H0 & Hb & Hpos). rewrite u64_small by lia. destruct (Z.leb_spec (o_start s + 31) e) as [Hle|Hgt].
    + specialize (Hr Hle). destruct (word_op_ok page s) as (f & -> & Hw); try done. cbn [obind].
      destruct f as [s1| |r]; simpl in Hw; [|done|split; [done|done]]. destruct Hw as (Est & Ebit & Hw).
      assert (flow_ok page s (Ret (advance (o_start s1 + 32) (o_bit s1 + word32_skip b) s1))) as Hadv.
      { destruct (Hw (o_bit s1 + word32_skip b)). apply next_row_ok; rewrite ?Est; try done; zdiv. }
      destruct (advance _ _ _) as [s2|s2|r] eqn:Eadv; [|by split|by split].
      unfold advance in Eadv. case_if_in Eadv; [done|]. injection Eadv as <-. simpl in Hadv. destruct Hadv as (Hpr & Hat2 & Ha2 & Hs2).
      pose proof peers_skip. destruct (IH (set_addr (o_start s1 + 32) (o_bit s1 + word32_skip b) s1)) as [IH1 IH2]; try done; simpl.
      * by apply (prog_fits s).
      * by apply (prog_bfits s).
      * simpl in *. zdiv.
      * lia.
      * split; [by apply (flow_ok_prog page s (set_addr (o_start s1 + 32) (o_bit s1 + word32_skip b) s1))|].
        intros s' Es'. destruct (IH2 s' Es') as [? Hmod]. split; [done|]. intros _. apply Hmod. simpl. zdiv.
    + split.
      * split; [by apply prog_refl|]. split; [done|]. split; [done|lia].
      * intros s' [= <-]. split; [lia|done].
Qed.

Lemma mask_bit n k : 0 <= n < 32 -> 0 <= k < 32 -> Z.testbit (u32 (Z.shiftl 1 n - 1)) k = (k <? n).
Proof.
  intros Hn Hk. rewrite Z.shiftl_1_l. unfold u32. rewrite testbit_mod_pow2 by lia. rewrite (proj2 (Z.ltb_lt k 32)) by lia. simpl.
  replace (2 ^ n - 1) with (Z.ones n) by (rewrite Z.ones_equiv; lia). destruct (Z.ltb_spec k n).
  - apply Z.ones_spec_low. lia.
  - apply Z.ones_spec_high. lia.
Qed.

Lemma tail_finds want page s n :
  wanted = Some want -> at_pos page s -> fits s -> o_start s <= e -> o_start s mod 32 + (e - o_start s + 1) <= 32 ->
  n = Z.to_nat (e - o_start s + 1) ->
  flow_ok page s
    (let! r := find_next_le want (o_mem s) page n (o_bit s) in
     Ret match r with
         | Some c => Return (u64 (o_start s + c - o_bit s))
         | None => Next_page (set_addr (e + 1) (o_bit s) s)
         end).
Proof.
  intros Hw Hat Hf Hs Hl ->. pose proof Hat as (_ & H0 & _ & _).
  destruct (find_next_le_ok want page (Z.to_nat (e - o_start s + 1)) s) as (r & -> & Hr); [by right|done|done|lia|lia|].
  simpl. destruct r as [c|].
  - destruct Hr as (k & -> & Hk & Hbit & Hall). unfold flow_ok, ret_ok. rewrite Hw.
    rewrite u64_small by lia. replace (o_start s + (o_bit s + k) - o_bit s) with (o_start s + k) by lia.
    split_and!; [lia|lia|done|done].
  - split; [|split; [simpl; rewrite (pos_same_word i (e + 1 - 1) (o_start s)) by zdiv; by apply at_pos_page|by left]].
    apply prog_read; simpl; try done; try lia.
    + unfold modifies, wanted in *. by destruct op.
    + rewrite count_range_none; [lia|]. intros k Hk. unfold delta_at, delta, wanted in *. by destruct op.
    + intros want' Hw' n Hn. assert (want' = want) as -> by congruence. apply Hr. lia.
    + unfold wanted in *. by destruct op.
    + rewrite decide_False; [done|]. unfold wanted in *. by destruct op.
Qed.

Lemma bm_op_tail_ok page s :
  op <> BM_OP_TEST -> at_pos page s -> aligned s -> fits s -> bfits s -> o_start s <= e + 1 -> e < o_start s + 31 ->
  (o_start s <= e -> o_start s mod 32 + (e - o_start s + 1) <= 32) -> (uses_buf = true -> o_start s mod 32 = 0) ->
  flow_ok page s (bm_op_tail op page e s).
Proof.
  intros Ht Hat Ha Hf Hbf Hs Hlt Hrow Hal. unfold bm_op_tail. destruct (Z.ltb_spec e (o_start s)) as [Hend|Hend].
  { simpl. split; [by apply prog_refl|]. split; [|left; lia]. pose proof (at_pos_page page s Hat) as Hq.
    destruct Hat as (_ & H0 & _ & _). pose proof (pos_le i (o_start s - 1) (o_start s) Hi). lia. }
  specialize (Hrow Hend). assert (pos i (e + 1 - 1) / 32 < (page + 1) * WORDS32_PER_PAGE) as Hpg.
  { rewrite (pos_same_word i (e + 1 - 1) (o_start s)) by zdiv. by apply at_pos_page. }
   destruct (at_pos_load page s Hat Hf Hend) as (Hld & _ & _ & Hst).
  pose proof Hat as (_ & H0 & _ & _). set (w := mword (o_mem s) (pos i (o_start s) / 32)) in *.
  assert (bitwise = true -> flow_ok page s
    (let! s' := bit_loop op page (Z.to_nat (e - o_start s + 1)) s in Ret (Next_page s'))) as Hbits.
  { intros Hbw. destruct (bit_loop_ok page (Z.to_nat (e - o_start s + 1)) s) as (s' & -> & Hpr & Est & _); try done; [by right|lia|lia|].
    simpl. split; [done|]. replace (o_start s') with (e + 1) by lia. split; [done|by left]. }
  unfold bitwise in Hbits. unfold uses_buf in Hal. destruct op eqn:Eop; try done; try (by apply Hbits).
  - assert (uses_buf = true) as Hu by (unfold uses_buf; by rewrite Eop). rewrite Hld.
    destruct (buf_load_ok s Hu Ha Hbf Hend) as [-> Hlen]. cbn [obind]. rewrite Hst. cbn [obind]. split; [|split; [done|by left]].
    set (v := Z.land (mword (o_buf s) (o_next s)) _). 
    assert (forall k, 0 <= k < 32 -> Z.testbit v k = (k <? e - o_start s + 1) && mbit (o_buf s) (o_start s + k - s0)) as Hv.
    { intros k Hk. unfold v. rewrite Z.land_spec, mask_bit, buf_bit by (done || lia). apply andb_comm. }
    apply (prog_write_low _ _ (Z.lor w v) (e - o_start s + 1)); try done; try lia; simpl.
    + unfold modifies. by rewrite Eop.
    + intros Hw Hb. apply lor_word; [by apply mword_word|by apply land_word, mword_word].
    + lia.
    + intros k Hk. rewrite Z.lor_spec, Hv by done. fold w. unfold new_bit. rewrite Eop. destruct (k <? _); [done|apply orb_false_r].
    + f_equal. rewrite hweight32_range. apply count_range_ext. intros k Hk.
      rewrite Z.land_spec, not32_bit, Hv by done. fold w. unfold delta. rewrite Eop. by destruct (k <? _), (Z.testbit w k).
  - assert (uses_buf = true) as Hu by (unfold uses_buf; by rewrite Eop). rewrite Hld. cbn [obind]. unfold buf_store.
    destruct (buf_load_ok s Hu Ha Hbf Hend) as [-> Hlen]. cbn [obind]. split; [|split; [done|by left]].
    apply (prog_extract _ _ (e - o_start s + 1) (Z.land w (u32 (Z.shiftl 1 (e - o_start s + 1) - 1)))); try done; try lia; simpl.
    + apply land_word.
    + intros k Hk. rewrite Z.land_spec, mask_bit by lia. apply andb_comm.
    + lia.
  - apply tail_finds; try done. unfold wanted. by rewrite Eop.
  - apply tail_finds; try done. unfold wanted. by rewrite Eop.
Qed.

(** The state at the head of the loop over pages. *)
Definition page_inv (page : Z) (s : op_state) : Prop :=
  at_pos page s /\ aligned s /\ fits s /\ bfits s /\ o_start s <= e /\ (uses_buf = true -> o_start s mod 32 = 0).

Lemma head_go page s s' : page_inv page s -> bm_op_head b op page e s = Ret (Go s') ->
  op <> BM_OP_TEST /\ (o_start s' <= e -> o_start s' mod 32 = 0 \/ e < 32 * (o_start s' / 32) + 31).
Proof.
  intros (Hat & Ha & Hf & Hbf & Hs & Hal). pose proof (bm_op_head_ok page s Hat Ha Hf Hs Hal) as Hok. unfold bm_op_head in *.
  destruct (negb (Z.land (o_start s) 31 =? 0) && (Z.lor (o_start s) 31 <=? e)) eqn:Eh; simpl in *.
  - assert (forall st bit s1, Z.lor (o_start s) 31 + 1 = st -> Ret (advance st bit s1) = Ret (Go s') -> o_start s' mod 32 = 0) as Hadv.
    { intros st bit s1 <- Ead. rewrite lor31 in Ead. unfold advance in Ead. case_if_in Ead; [done|]. injection Ead as <-. simpl. zdiv. }
    destruct op eqn:Eop; try done; intros Eq.
    3: by destruct (test_bit_le _ _ _).
    all: split; [done|]; intros _; left.
    all: try (destruct (bit_loop _ _ _ _); simpl in Eq; [by eapply Hadv|done|done]).
    all: try (destruct (find_next_le _ _ _ _ _) as [[|]| |]; simpl in Eq; [done|by eapply Hadv|done|done]).
  - destruct (bool_decide_reflect (op = BM_OP_TEST)) as [Et|Et].
    + rewrite Et. by destruct (test_bit_le _ _ _).
    + intros [= <-]. split; [done|]. intros _. apply andb_false_iff in Eh as [Eh|Eh]; reflect_bools.
      * left. by rewrite land31 in Eh.
      * right. by rewrite lor31 in Eh.
Qed.

Lemma bm_op_page_ok page s : page_inv page s ->
  match bm_op_page b op page e s with
  | Ret (Next_page s') => next_ok page s s'
  | Ret (Return r) => ret_ok s r
  | _ => False
  end.
Proof.
  intros Hinv. pose proof Hinv as (Hat & Ha & Hf & Hbf & Hs & Hal). pose proof Hat as (_ & H0 & _ & _).
  pose proof (bm_op_head_ok page s Hat Ha Hf Hs Hal) as Hhead. pose proof (fun s' => head_go page s s' Hinv) as Hgo.
  unfold bm_op_page. destruct (bm_op_head b op page e s) as [[s1|s1|r]| |] eqn:Eh; simpl in *; try done.
  destruct Hhead as (Hp1 & Hat1 & Ha1 & Hs1). destruct (Hgo s1 eq_refl) as [Ht Hrow]. clear Hgo.
  pose proof (prog_fits _ _ Hp1 Hf) as Hf1. pose proof (prog_bfits _ _ Hp1 Hbf) as Hbf1.
  assert (uses_buf = true -> o_start s1 mod 32 = 0) as Hal1.
  { intros Hu. specialize (Hal Hu). destruct (Ha Hu) as (? & ? & ?), (Ha1 Hu) as (? & ? & ?). zdiv. }
  pose proof words32_pos. destruct (bm_op_words_ok page (Z.to_nat WORDS32_PER_PAGE) s1) as [Hwords Hmod]; try done.
  { intros. destruct Hrow as [|]; [lia|done|]. zdiv. }
  { rewrite bits_per_page. destruct Hat1 as (_ & _ & ? & _). lia. }
  destruct (bm_op_words _ _ _ _ _ s1) as [[s2|s2|r]| |] eqn:Ew; simpl in *; try done.
  - destruct Hwords as (Hp2 & Hat2 & Ha2 & Hs2). destruct (Hmod s2 eq_refl) as [Hlt Hm].
    assert (prog s s2) as Hp by by apply (prog_trans s s1).
    assert (flow_ok page s (bm_op_tail op page e s2)) as Htail.
    { apply (flow_ok_prog page s s2); try done. apply bm_op_tail_ok; try done.
      - by apply (prog_fits s).
      - by apply (prog_bfits s).
      - intros Hle. destruct Hrow as [Hr|Hr]; [pose proof (pr_start _ _ Hp2); lia| |].
        + specialize (Hm Hr). zdiv.
        + pose proof (pr_start _ _ Hp2). zdiv.
      - intros Hu. apply Hm, Hal1, Hu. }
    destruct (bm_op_tail op page e s2) as [[s3|s3|r]| |] eqn:Et; simpl in Htail; try done.
    exfalso. unfold bm_op_tail in Et. case_if_in Et; [done|].
    destruct op; try done; simpl in Et;
      repeat (match type of Et with obind ?o _ = _ => destruct o; simpl in Et; try done end);
      repeat (match type of Et with context [match ?x with Some _ => _ | None => _ end] => destruct x; simpl in Et; try done end).
  - by apply (next_ok_prog page s s1).
  - by apply (ret_ok_prog s s1).
Qed.

(** ** The loop over pages *)

Definition set_ct (c t : Z) (s : op_state) : op_state := mk_op (o_mem s) (o_start s) (o_bit s) c t (o_buf s) (o_next s).

Lemma prog_rebase s s' x y : prog s s' ->
  prog (set_ct (o_count s + x) (o_total s + y) s) (set_ct (o_count s' + x) (o_total s' + y) s').
Proof.
  intros Hp. split; try apply Hp; simpl.
  - pose proof (pr_cnt _ _ Hp) as Hc. unfold delta_at in *. simpl. lia.
  - pose proof (pr_split _ _ Hp). destruct modifies; lia.
Qed.

(** Progress over several pages: the count of a page is added to the total. *)
Definition xprog (s s' : op_state) : Prop := exists c t, c + t = o_count s' + o_total s' /\ prog s (set_ct c t s').

Lemma xprog_trans s s1 s2 : 0 <= o_start s -> aligned s1 -> xprog s s1 -> xprog s1 s2 -> xprog s s2.
Proof.
  intros H0 Ha (c1 & t1 & Hs1 & H1) (c2 & t2 & Hs2 & H2).
  pose proof (prog_rebase _ _ (c1 - o_count s1) (t1 - o_total s1) H2) as Hr. simpl in Hr.
  replace (o_count s1 + (c1 - o_count s1)) with c1 in Hr by lia. replace (o_total s1 + (t1 - o_total s1)) with t1 in Hr by lia.
  exists (c2 + (c1 - o_count s1)), (t2 + (t1 - o_total s1)). split; [lia|]. by apply (prog_trans s (set_ct c1 t1 s1)).
Qed.

Lemma word_same (m m' : list Z) w : Forall is_word32 m -> Forall is_word32 m' -> 0 <= w ->
  (forall p, p / 32 = w -> mbit m' p = mbit m p) -> mword m' w = mword m w.
Proof.
  intros Hm Hm' Hw Hb. apply (bits_eq_below 32); [lia|by apply mword_word|by apply mword_word|].
  intros k Hk. specialize (Hb (32 * w + k) ltac:(zdiv)). unfold mbit in Hb.
  by replace ((32 * w + k) / 32) with w in Hb by zdiv; replace ((32 * w + k) mod 32) with k in Hb by zdiv.
Qed.

Lemma prog_same_words s s' w : prog s s' -> Forall is_word32 (o_mem s) -> Forall is_word32 (o_buf s) -> 0 <= w ->
  (modifies = true -> forall n, o_start s <= n < o_start s' -> 0 <= n -> pos i n / 32 = w -> delta_at s n = false) ->
  mword (o_mem s') w = mword (o_mem s) w.
Proof.
  intros Hp Hm Hb Hw Hd. destruct (pr_words _ _ Hp Hm Hb) as [Hm' _]. apply word_same; try done. intros p Hpw.
  destruct (all_pos p ltac:(zdiv)) as (j & n & Hj & Hn & ->). rewrite (pr_bits _ _ Hp) by done.
  destruct (in_range s s' j n) eqn:Er; [|done]. unfold in_range in Er. reflect_bools. subst j.
  destruct modifies eqn:Em; [|unfold new_bit, modifies in *; by destruct op].
  specialize (Hd eq_refl n ltac:(lia) Hn Hpw). unfold delta_at, delta, new_bit, modifies in *.
  destruct op; try done; by destruct (mbit (o_mem s) (pos i n)), (mbit (o_buf s) (n - s0)).
Qed.

(** The marks after a change of the memory: a page with a changed word has the
    mark, and no other bit of the marks changes. *)
Definition page_flag : Z := if decide (op = BM_OP_CLEAR) then BM_PAGE_LAZY_WRITEOUT else BM_PAGE_NEED_WRITEOUT.

Definition marked (f f' m m' : list Z) : Prop :=
  length f' = length f /\
  forall q p, f !! q = Some p -> exists p', f' !! q = Some p' /\ (p' = p \/ p' = Z.setbit p page_flag) /\
    (bm_on_dax b = false ->
     (exists w, 0 <= w /\ w / WORDS32_PER_PAGE = Z.of_nat q /\ mword m' w <> mword m w) -> p' = Z.setbit p page_flag).

Lemma page_flag_nonneg : 0 <= page_flag.
Proof. unfold page_flag. by destruct (decide _). Qed.

Lemma setbit_idem x k : 0 <= k -> Z.setbit (Z.setbit x k) k = Z.setbit x k.
Proof.
  intros Hk. apply Z.bits_inj'. intros j Hj. rewrite !Z.setbit_eqb by done. by destruct (k =? j).
Qed.

Lemma marked_compose f f1 f2 m m1 m2 : marked f f1 m m1 -> marked f1 f2 m1 m2 -> marked f f2 m m2.
Proof.
  intros [Hl1 H1] [Hl2 H2]. split; [by rewrite Hl2|]. intros q p Hq. destruct (H1 q p Hq) as (p1 & Hq1 & Hc1 & Hm1).
  destruct (H2 q p1 Hq1) as (p2 & Hq2 & Hc2 & Hm2). pose proof page_flag_nonneg. exists p2. split; [done|]. split.
  - destruct Hc1 as [->| ->], Hc2 as [->| ->]; try (by left); right; rewrite ?setbit_idem by done; done.
  - intros Hd (w & Hw & Hwq & Hne). destruct (decide (mword m1 w = mword m w)) as [Heq|Heq].
    + rewrite (Hm2 Hd) by (exists w; split_and!; congruence). by destruct Hc1 as [->| ->]; rewrite ?setbit_idem.
    + specialize (Hm1 Hd ltac:(by exists w)). subst p1. by destruct Hc2 as [->| ->]; rewrite ?setbit_idem.
Qed.

Lemma marked_unchanged f m : marked f f m m.
Proof. split; [done|]. intros q p Hq. exists p. split_and!; [done|by left|]. by intros _ (w & _ & _ & []). Qed.

Lemma marked_changed f page m m' : 0 <= page ->
  (forall w, 0 <= w -> mword m' w <> mword m w -> w / WORDS32_PER_PAGE = page) ->
  marked f (if bm_on_dax b then f else alter (fun p => Z.setbit p page_flag) (Z.to_nat page) f) m m'.
Proof.
  intros Hp Hch. split; [destruct (bm_on_dax b); [done|apply length_alter]|]. intros q p Hq.
  destruct (bm_on_dax b) eqn:Ed; [exists p; split_and!; [done|by left|done]|].
  destruct (decide (q = Z.to_nat page)) as [->|Hne].
  - exists (Z.setbit p page_flag). split_and!; [by rewrite list_lookup_alter_eq, Hq|by right|done].
  - exists p. split_and!; [by rewrite list_lookup_alter_ne|by left|]. intros _ (w & Hw & Hwq & Hn).
    specialize (Hch w Hw Hn). lia.
Qed.

(** Only words of the page change. *)
Lemma changed_on_page page s s' w : page_inv page s -> prog s s' ->
  pos i (o_start s' - 1) / 32 < (page + 1) * WORDS32_PER_PAGE ->
  Forall is_word32 (o_mem s) -> Forall is_word32 (o_buf s) -> 0 <= w ->
  mword (o_mem s') w <> mword (o_mem s) w -> w / WORDS32_PER_PAGE = page.
Proof.
  intros ((Hpg & H0 & Hb & Hpos) & _) Hpr Hlast Hm Hbw Hw Hne. destruct (decide (w / WORDS32_PER_PAGE = page)) as [|Hnp]; [done|].
  destruct Hne. apply prog_same_words; try done. intros _ n Hn Hn0 Hwn. destruct Hnp. pose proof words32_pos.
  destruct (page_split _ _ _ Hpg Hb Hpos) as (Hfirst & _ & _).
  pose proof (pos_le i (o_start s) n Hi ltac:(lia)). pose proof (pos_le i n (o_start s' - 1) Hi ltac:(lia)).
  assert (0 <= o_bit s / 32) by zdiv. symmetry. apply Z.div_unique with (w - page * WORDS32_PER_PAGE); lia.
Qed.

Lemma next_page_ok page f s s' : page_inv page s -> prog s s' -> o_count s = 0 ->
  pos i (o_start s' - 1) / 32 < (page + 1) * WORDS32_PER_PAGE ->
  Forall is_word32 (o_mem s) -> Forall is_word32 (o_buf s) ->
  exists f' t, bm_op_next_page op page (set_private f b) s' =
      (set_private f' b, set_ct 0 t (set_addr (o_start s') (u32 (o_bit s' - BITS_PER_PAGE)) s')) /\
    t = o_count s' + o_total s' /\ marked f f' (o_mem s) (o_mem s') /\ (modifies = false -> f' = f).
Proof.
  intros Hinv Hpr Hc0 Hlast Hm Hb. pose proof (pr_split _ _ Hpr) as Hsp. pose proof (pr_cnt _ _ Hpr) as Hcnt.
  pose proof Hinv as ((Hpg & H0 & _) & _). pose proof (pr_start _ _ Hpr) as Hle.
  pose proof (marked_changed f page _ _ Hpg (fun w Hw => changed_on_page page s s' w Hinv Hpr Hlast Hm Hb Hw)) as Hmk.
  assert (o_mem s' = o_mem s \/ modifies = true /\ o_count s' <> 0) as Hcase.
  { destruct modifies eqn:Em; [destruct (decide (o_count s' = 0)) as [Ez|]; [left|by right]|left];
      (apply list_eq_same_length with (length (o_mem s)); [done|by rewrite (pr_len _ _ Hpr)|]);
      intros w x y _ Hx Hy; assert (mword (o_mem s') (Z.of_nat w) = mword (o_mem s) (Z.of_nat w)) as Hw;
      try (unfold mword in Hw; rewrite Nat2Z.id, Hx, Hy in Hw; done); apply prog_same_words; try done; try lia.
    - intros _ n Hn Hn0 _. apply (count_range_zero (delta_at s) (o_start s) (o_start s')); lia.
    - by rewrite Em. }
  assert (marked f f (o_mem s) (o_mem s') \/ modifies = true /\ o_count s' <> 0) as Hmk0.
  { destruct Hcase as [->|]; [left; apply marked_unchanged|by right]. }
  unfold bm_op_next_page, modifies, page_flag in *.
  destruct op; simpl in *;
    try (exists f, (o_total s'); split_and!; [done|lia|by destruct Hmk0 as [|[]]|done]);
    (destruct (Z.eqb_spec (o_count s') 0) as [Ez|Ez];
      [exists f, (o_total s'); split_and!; [done|lia|by destruct Hmk0 as [|[]]|done]|]);
    unfold bm_set_page_lazy_writeout, bm_set_page_need_writeout, set_page_flag; simpl;
    (destruct (bm_on_dax b); [exists f|eexists]); exists (o_total s' + o_count s'); split_and!; done || lia.
Qed.

Definition found (s : op_state) (f : list Z) (res : Z * drbd_bitmap * list Z) : Prop :=
  o_start s <= e /\ modifies = false /\ ret_ok s (fst (fst res)) /\
  res = (fst (fst res), set_pages (o_mem s) (set_private f b), o_buf s).

Definition finished (s : op_state) (f : list Z) (res : Z * drbd_bitmap * list Z) : Prop :=
  exists s' f', xprog s s' /\ o_start s' = Z.max (o_start s) (e + 1) /\ o_count s' = 0 /\ marked f f' (o_mem s) (o_mem s') /\
    (modifies = false -> f' = f) /\
    let '(r, b') := bm_op_finish op i (set_private f' b) (o_total s') in res = (r, set_pages (o_mem s') b', o_buf s').

Lemma xprog_of_prog s s' bit t : o_count s = 0 -> prog s s' -> t = o_count s' + o_total s' ->
  xprog s (set_ct 0 t (set_addr (o_start s') bit s')).
Proof.
  intros Hc Hp ->. exists (o_count s'), (o_total s'). split; [simpl; lia|].
  pose proof (prog_addr _ _ (o_start s') bit Hp eq_refl). by destruct s'.
Qed.

Lemma xprog_refl s : aligned s -> xprog s s.
Proof.
  intros Ha. exists (o_count s), (o_total s). split; [done|].
  replace (set_ct (o_count s) (o_total s) s) with s by by destruct s. by apply prog_refl.
Qed.

Lemma finished_now s f f' s' :
  o_start s' = Z.max (o_start s) (e + 1) -> o_count s' = 0 -> marked f f' (o_mem s) (o_mem s') ->
  (modifies = false -> f' = f) -> xprog s s' ->
  exists res, (let '(r, b') := bm_op_finish op i (set_private f' b) (o_total s') in
      Ret (r, set_pages (o_mem s') b', o_buf s')) = Ret res /\ finished s f res.
Proof.
  intros Hst Hc Hmk Hf Hx. destruct (bm_op_finish op i (set_private f' b) (o_total s')) as [r b'] eqn:Ef.
  eexists. split; [done|]. exists s', f'. by rewrite Ef.
Qed.

(** The walk over a page does not depend on the marks. *)
Lemma bm_op_page_private f page s : bm_op_page (set_private f b) op page e s = bm_op_page b op page e s.
Proof.
  assert (forall fuel s, bm_op_words (set_private f b) op page e fuel s = bm_op_words b op page e fuel s) as Hw.
  { clear s. induction fuel as [|fuel IH]; intros s; cbn [bm_op_words]; [done|]. destruct (_ <=? e); [|done].
    destruct (word_op op page s) as [[s'| |]| |]; try done. cbn [obind].
    change (word32_skip (set_private f b)) with (word32_skip b). by destruct (advance _ _ _). }
  unfold bm_op_page. change (bm_op_head (set_private f b) op page e s) with (bm_op_head b op page e s).
  destruct (bm_op_head b op page e s) as [[s'| |]| |]; try done. cbn [obind]. by rewrite Hw.
Qed.

Lemma bm_op_pages_ok npages fuel page f s :
  (o_start s <= e -> page_inv page s) -> aligned s -> 0 <= o_start s -> o_count s = 0 ->
  Forall is_word32 (o_mem s) -> Forall is_word32 (o_buf s) ->
  Z.of_nat (length (o_mem s)) = npages * WORDS32_PER_PAGE -> npages - page <= Z.of_nat fuel ->
  exists res, bm_op_pages i op e fuel page (set_private f b) s = Ret res /\ (found s f res \/ finished s f res).
Proof.
  revert page f s. induction fuel as [|fuel IH]; intros page f s Hinv Hal H0 Hc0 Hm Hb Hlen Hfuel; cbn [bm_op_pages];
    destruct (Z.leb_spec (o_start s) e) as [Hle|Hgt].
  - destruct (Hinv Hle) as ((Hp & _ & Hbit & Hpos) & _ & Hf & _). unfold fits in Hf. pose proof words32_pos.
    destruct (page_split _ _ _ Hp Hbit Hpos) as (Hw & _ & _). pose proof (pos_le i (o_start s) e Hi ltac:(lia)). 
    assert (0 <= o_bit s / 32) by zdiv. exfalso. assert (npages <= page) by lia. nia.
  - destruct (finished_now s f f s) as (res & -> & Hfin); try done; [lia|apply marked_unchanged|by apply xprog_refl|].
    exists res. split; [done|by right].
  - specialize (Hinv Hle). pose proof (bm_op_page_ok page s Hinv) as Hpage.
    rewrite bm_op_page_private.
    destruct (bm_op_page b op page e s) as [[s1|s1|r]| |]; try done; cbn [obind].
    + destruct Hpage as (Hpr & Hlast & Hnext). destruct (next_page_ok page f s s1) as (f1 & t & -> & Ht & Hmk & Hf1); try done.
      pose proof (xprog_of_prog s s1 (u32 (o_bit s1 - BITS_PER_PAGE)) t Hc0 Hpr Ht) as Hx.
      set (s2 := set_ct 0 t (set_addr (o_start s1) (u32 (o_bit s1 - BITS_PER_PAGE)) s1)) in *.
      destruct (pr_words _ _ Hpr Hm Hb) as [Hm1 Hb1]. pose proof (pr_start _ _ Hpr).
      destruct Hinv as ((Hpg & _) & _ & Hf & Hbf & _ & Hmod).
      destruct Hnext as [Hend|(Hin & Hal1 & Hat1)].
      * destruct (finished_now s f f1 s2) as (res & Eres & Hfin); try done; [simpl; lia|]. exists res.
        destruct fuel; cbn [bm_op_pages]; rewrite (proj2 (Z.leb_gt (o_start s2) e)) by (simpl; lia); (split; [done|by right]).
      * assert (u32 (o_bit s1 - BITS_PER_PAGE) = o_bit s1 - BITS_PER_PAGE) as Hu.
        { apply u32_small. destruct Hat1 as (_ & _ & Hb1' & _). simpl in Hb1'. rewrite bits_per_page in *. pose proof words32_pos. lia. }
        destruct (IH (page + 1) f1 s2) as (res & Er & Hres); try done.
        -- intros _. split; [unfold at_pos, s2; simpl; rewrite Hu; apply Hat1|]. split; [done|].
           split; [exact (prog_fits s s1 Hpr Hf)|]. split; [exact (prog_bfits s s1 Hpr Hbf)|]. split; [done|].
           intros Hub. specialize (Hmod Hub). destruct (Hal Hub) as (? & ? & ?), (Hal1 Hub) as (? & ? & ?). simpl. zdiv.
        -- simpl. lia.
        -- simpl. by rewrite (pr_len _ _ Hpr).
        -- lia.
        -- exists res. split; [done|]. destruct Hres as [Hfound|Hfin]; [left|right].
           ++ destruct Hfound as (_ & Hmf & Hret & Hres). split; [done|]. split; [done|].
              assert (o_mem s1 = o_mem s) as Hsm.
              { apply words_eq; try done; [by rewrite (pr_len _ _ Hpr)|]. intros p Hp. destruct (all_pos p ltac:(lia)) as (j & n & Hj & Hn & ->).
                rewrite (pr_bits _ _ Hpr) by done. destruct (in_range s s1 j n); [|done]. unfold new_bit, modifies in *. by destruct op. }
              split.
              ** apply (ret_ok_prog s s1); try done.
              ** rewrite Hres. simpl. rewrite Hsm, (Hf1 Hmf). f_equal. apply (pr_buf _ _ Hpr). intros He'.
                 unfold ret_ok, wanted in Hret. rewrite He' in Hret. by destruct Hret.
           ++ destruct Hfin as (s' & f' & Hx' & Hst' & Hc' & Hmk' & Hf' & Hres). exists s', f'. split_and!; try done.
              ** by apply (xprog_trans s s2).
              ** simpl in *. lia.
              ** by apply (marked_compose f f1 f' _ (o_mem s1)).
              ** intros Hmf. by rewrite (Hf' Hmf), (Hf1 Hmf).
    + eexists. split; [done|]. left. split; [done|]. split.
      * unfold ret_ok, wanted, modifies in *. destruct op; try done; by destruct Hpage.
      * done.
  - destruct (finished_now s f f s) as (res & -> & Hfin); try done; [lia|apply marked_unchanged|by apply xprog_refl|].
    exists res. split; [done|by right].
Qed.
End walk.
