(* ===== verification/BitmapOps.v ===== *)
(** * The bitmap: what its operations do

    [abs_op] is the specification of [____bm_op] on the bits of one slot as a
    function; the refinement theorem says that the walk over the interleaved pages
    implements it and leaves the other slots alone.  The well-formedness [bm_wf] and
    the exactness of the counters [bm_counts] are kept by every operation. *)
From S2P Require Import Prelude Bitmap BitmapProps.

(** ** Specification on the bits of a slot *)

Fixpoint first_bit (want : bool) (f : Z -> bool) (n : nat) (a : Z) : option Z :=
  match n with
  | O => None
  | S n => if Bool.eqb (f a) want then Some a else first_bit want f n (a + 1)
  end.

(** Result and new bits for the range from [s] to [e]; [nb] are the bits of the buffer. *)
Definition abs_op (op : bitmap_operations) (f nb : Z -> bool) (s e : Z) : Z * (Z -> bool) :=
  let upd g n := if (s <=? n) && (n <=? e) then g n else f n in
  let find want := default DRBD_END_OF_BITMAP (first_bit want f (Z.to_nat (e + 1 - s)) s) in
  match op with
  | BM_OP_CLEAR => (count_range f s (e + 1), upd (fun _ => false))
  | BM_OP_SET => (count_range (fun n => negb (f n)) s (e + 1), upd (fun _ => true))
  | BM_OP_TEST => (if s <=? e then Z.b2z (f s) else 0, f)
  | BM_OP_COUNT => (count_range f s (e + 1), f)
  | BM_OP_MERGE => (count_range (fun n => negb (f n) && nb n) s (e + 1), upd (fun n => f n || nb n))
  | BM_OP_EXTRACT => (0, f)
  | BM_OP_FIND_BIT => (find true, f)
  | BM_OP_FIND_ZERO_BIT => (find false, f)
  end.

Lemma first_bit_none want f n a : first_bit want f n a = None <-> forall k, a <= k < a + Z.of_nat n -> f k = negb want.
Proof.
  revert a. induction n as [|n IH]; intros a; simpl; [split; [intros; lia|done]|].
  destruct (Bool.eqb (f a) want) eqn:Eb.
  - split; [done|]. intros Ha. specialize (Ha a ltac:(lia)). apply Bool.eqb_prop in Eb. rewrite Ha in Eb. by destruct want.
  - apply Bool.eqb_false_iff in Eb. rewrite IH. split; intros Ha k Hk.
    + destruct (decide (k = a)) as [->|]; [by destruct (f a), want|]. apply Ha. lia.
    + apply Ha. lia.
Qed.

Lemma first_bit_some want f n a r : a <= r < a + Z.of_nat n -> f r = want -> (forall k, a <= k < r -> f k = negb want) ->
  first_bit want f n a = Some r.
Proof.
  revert a. induction n as [|n IH]; intros a Hr Hf Hall; [lia|]. simpl. destruct (Bool.eqb (f a) want) eqn:Eb.
  - f_equal. destruct (decide (a = r)) as [|Hne]; [done|]. rewrite (Hall a ltac:(lia)) in Eb. by destruct want.
  - apply Bool.eqb_false_iff in Eb. destruct (decide (a = r)) as [->|Hne]; [done|]. apply IH; [lia|done|].
    intros. apply Hall. lia.
Qed.

Section ops.
Context `{Arch}.

(** ** Well-formed bitmaps *)

Record bm_wf (b : drbd_bitmap) : Prop := {
  wf_peers : 1 <= bm_max_peers b <= 64;
  wf_npages : 0 <= bm_number_of_pages b <= 2 ^ 24;
  wf_pages : Z.of_nat (length (bm_pages b)) = bm_number_of_pages b * WORDS32_PER_PAGE;
  wf_private : Z.of_nat (length (page_private b)) = bm_number_of_pages b;
  wf_set : bm_max_peers b <= Z.of_nat (length (bm_set b));
  wf_words : Forall is_word32 (bm_pages b);
  wf_bits : 0 <= bm_bits b;
  wf_room : (bm_bits b + 31) / 32 * bm_max_peers b <= bm_number_of_pages b * WORDS32_PER_PAGE }.

Definition bm_bit (b : drbd_bitmap) (i n : Z) : bool := mbit (bm_pages b) (pos b i n).

(** The counters are exact. *)
Definition bm_counts (b : drbd_bitmap) : Prop :=
  forall i, 0 <= i < bm_max_peers b -> bm_set b !! Z.to_nat i = Some (count_range (bm_bit b i) 0 (bm_bits b)).

(** What never changes while the size stays. *)
Definition same_shape (b b' : drbd_bitmap) : Prop :=
  bm_bits b' = bm_bits b /\ bm_bits_4k b' = bm_bits_4k b /\ bm_words b' = bm_words b /\
  bm_number_of_pages b' = bm_number_of_pages b /\ bm_dev_capacity b' = bm_dev_capacity b /\ bm_on_dax b' = bm_on_dax b /\
  bm_max_peers b' = bm_max_peers b /\ bm_block_shift b' = bm_block_shift b /\ al_bitmap_hints b' = al_bitmap_hints b.

Lemma bits_small b : bm_wf b -> 0 <= bm_bits b <= 2 ^ 47.
Proof.
  intros Hwf. pose proof (wf_peers b Hwf). pose proof (wf_npages b Hwf). pose proof (wf_bits b Hwf). pose proof (wf_room b Hwf) as Hr.
  pose proof words32_pos. assert (bm_number_of_pages b * WORDS32_PER_PAGE <= 2 ^ 24 * 2 ^ 18) by nia.
  assert ((bm_bits b + 31) / 32 <= 2 ^ 42) by (assert (0 <= (bm_bits b + 31) / 32) by zdiv; nia). zdiv.
Qed.

Lemma pos_in_pages b i n : bm_wf b -> 0 <= i < bm_max_peers b -> 0 <= n < bm_bits b ->
  pos b i n / 32 < Z.of_nat (length (bm_pages b)).
Proof.
  intros Hwf Hi Hn. rewrite (wf_pages b Hwf), pos_word. pose proof (wf_room b Hwf).
  assert (n / 32 + 1 <= (bm_bits b + 31) / 32) by zdiv. nia.
Qed.

Definition clip (b : drbd_bitmap) (e : Z) : Z := Z.min e (bm_bits b - 1).

Definition op_pre (b : drbd_bitmap) (i s e : Z) (op : bitmap_operations) (buf : list Z) : Prop :=
  0 <= i < bm_max_peers b /\ 0 <= s /\ 0 <= e < 2 ^ 64 /\ Forall is_word32 buf /\
  (uses_buf op = true -> s mod 32 = 0 /\ (clip b e - s) / 32 < Z.of_nat (length buf)).

Definition start_state (b : drbd_bitmap) (i s : Z) (buf : list Z) : op_state :=
  mk_op (bm_pages b) s (Z.lor (Z.shiftl (word32_in_page (interleaved_word32 b i s)) 5) (Z.land s 31)) 0 0 buf 0.

Lemma set_private_id b : set_private (page_private b) b = b.
Proof. by destruct b. Qed.

(** The walk, from the call on. *)
Lemma bm_op_walk b i s e op buf : bm_wf b -> 0 < bm_bits b -> op_pre b i s e op buf ->
  exists res, ____bm_op b i s e op buf = Ret res /\
    (found b i op (clip b e) (start_state b i s buf) (page_private b) res \/
     finished b i op s (clip b e) (start_state b i s buf) (page_private b) res).
Proof.
  intros Hwf Hbits (Hi & Hs & He & Hbuf & Hu). pose proof (bits_small b Hwf) as Hsm. pose proof (wf_peers b Hwf) as Hpe.
  pose proof words32_pos as HW. assert (0 < WORDS32_PER_PAGE) as HW0 by lia. unfold ____bm_op.
  replace (if bm_bits b <=? e then u64 (bm_bits b - 1) else e) with (clip b e)
    by (unfold clip; case_if; [rewrite u64_small by lia|]; lia).
  set (word := interleaved_word32 b i s).
  assert (0 <= clip b e < 2 ^ 63) as Hce by (unfold clip; lia).
  assert (s <= clip b e -> 0 <= word /\ word32_to_page word < bm_number_of_pages b /\ u32 (word32_to_page word) = word32_to_page word) as Hpage.
  { intros Hle. pose proof (pos_in_pages b i s Hwf Hi ltac:(unfold clip in *; lia)) as Hpos.
    assert (pos b i s / 32 = word) as Hw by (rewrite pos_word; unfold word, interleaved_word32; by rewrite shiftr5).
    rewrite Hw, (wf_pages b Hwf) in Hpos. pose proof (pos_nonneg b Hpe i s ltac:(lia) Hs).
    assert (0 <= word) by (rewrite <- Hw; zdiv). rewrite to_page. pose proof (wf_npages b Hwf).
    assert (word / WORDS32_PER_PAGE < bm_number_of_pages b) by (apply Z.div_lt_upper_bound; lia).
    assert (0 <= word / WORDS32_PER_PAGE) by (apply Z.div_pos; lia). split_and!; [done|done|]. apply u32_small. lia. }
  pose proof (bm_op_pages_ok b Hpe i Hi op s (clip b e) Hce (bm_number_of_pages b) (S (Z.to_nat (bm_number_of_pages b)))
    (u32 (word32_to_page word)) (page_private b) (start_state b i s buf)) as Hok.
  rewrite set_private_id in Hok. apply Hok; clear Hok; simpl; try done.
  - intros Hle. destruct (Hpage Hle) as (Hw0 & Hwp & ->). unfold start_state. fold word. rewrite to_page, to_in_page, land31.
    pose proof (Z.mod_pos_bound word WORDS32_PER_PAGE HW0). assert (0 <= s mod 32 < 32) by zdiv.
    rewrite lor_low by done.
    split; [|split; [intros _; simpl; lia|split; [|split; [intros Hub; by apply Hu|split; [done|intros Hub; by apply Hu]]]]].
    + unfold at_pos. simpl. rewrite bits_per_page. split_and!; try lia; [apply Z.div_pos; lia|].
      unfold pos. fold word. pose proof (Z.div_mod word WORDS32_PER_PAGE). lia.
    + unfold fits. simpl. apply pos_in_pages; try done. unfold clip in *. lia.
  - intros _. simpl. lia.
  - apply (wf_words b Hwf).
  - apply (wf_pages b Hwf).
  - destruct (Z.le_gt_cases s (clip b e)) as [Hle|Hgt].
    + destruct (Hpage Hle) as (Hw0 & _ & ->). rewrite to_page. pose proof (Z.div_pos word WORDS32_PER_PAGE). lia.
    + pose proof (u32_range (word32_to_page word)). lia.
Qed.

(** ** The refinement *)

Definition new_counts (op : bitmap_operations) (i r : Z) (c : list Z) : list Z :=
  match op with
  | BM_OP_CLEAR => alter (fun x => u64 (x - r)) (Z.to_nat i) c
  | BM_OP_SET | BM_OP_MERGE => alter (fun x => u64 (x + r)) (Z.to_nat i) c
  | _ => c
  end.

(** The words [____bm_op] writes to the buffer: those of the range, cut at its end. *)
Definition extracted (b : drbd_bitmap) (i s e : Z) (buf buf' : list Z) : Prop :=
  length buf' = length buf /\ Forall is_word32 buf' /\
  forall q, 0 <= q -> mbit buf' q =
    if q + s <=? e then bm_bit b i (q + s) else if q / 32 <=? (e - s) / 32 then false else mbit buf q.

Record op_done (b : drbd_bitmap) (i s e : Z) (op : bitmap_operations) (buf : list Z) (r : Z) (b' : drbd_bitmap) (buf' : list Z) : Prop := {
  od_shape : same_shape b b';
  od_len : length (bm_pages b') = length (bm_pages b);
  od_words : Forall is_word32 (bm_pages b');
  od_result : r = fst (abs_op op (bm_bit b i) (fun n => mbit buf (n - s)) s e);
  od_bits n : 0 <= n -> bm_bit b' i n = snd (abs_op op (bm_bit b i) (fun n => mbit buf (n - s)) s e) n;
  od_others j n : 0 <= j < bm_max_peers b -> j <> i -> 0 <= n -> bm_bit b' j n = bm_bit b j n;
  od_counts : bm_set b' = new_counts op i r (bm_set b);
  od_marks : marked b op (page_private b) (page_private b') (bm_pages b) (bm_pages b');
  od_buffer : if decide (op = BM_OP_EXTRACT) then s <= e -> extracted b i s e buf buf' else buf' = buf }.

Lemma abs_op_still op f nb s e n : modifies op = false -> snd (abs_op op f nb s e) n = f n.
Proof. by destruct op. Qed.

Lemma abs_op_new op f nb s e n : modifies op = true ->
  snd (abs_op op f nb s e) n = if (s <=? n) && (n <=? e) then new_bit op (f n) (nb n) else f n.
Proof. by destruct op. Qed.

Lemma bm_bit_same b b' j n : same_shape b b' -> bm_bit b' j n = mbit (bm_pages b') (pos b j n).
Proof. intros (_ & _ & _ & _ & _ & _ & Hp & _). unfold bm_bit, pos, interleaved_word32. by rewrite Hp. Qed.

Lemma set_pages_id b : set_pages (bm_pages b) b = b.
Proof. by destruct b. Qed.

Lemma found_done b i s e op buf res : 0 <= e < 2 ^ 63 -> bm_wf b ->
  found b i op e (start_state b i s buf) (page_private b) res ->
  exists r, res = (r, b, buf) /\ op_done b i s e op buf r b buf.
Proof.
  intros He Hwf (Hs & Hm & Hret & Hres). simpl in Hres. rewrite set_private_id, set_pages_id in Hres. exists (fst (fst res)). split; [done|].
  split; try done.
  - apply (wf_words b Hwf).
  - unfold ret_ok, wanted in Hret. simpl in Hret, Hs. destruct op; try (by destruct Hret); simpl; simpl in Hret.
    + rewrite (proj2 (Z.leb_le s e)) by done. apply Hret.
    + destruct Hret as (Hr & Hb & Hall). by rewrite (first_bit_some true _ _ _ (fst (fst res))) by (done || lia).
    + destruct Hret as (Hr & Hb & Hall). by rewrite (first_bit_some false _ _ _ (fst (fst res))) by (done || lia).
  - intros n Hn. by rewrite abs_op_still.
  - unfold new_counts, modifies in *. by destruct op.
  - apply marked_unchanged.
  - destruct (decide _) as [He'|]; [|done]. unfold ret_ok, wanted in Hret. rewrite He' in Hret. by destruct Hret.
Qed.

Lemma finish_shape op i b r b' total : bm_op_finish op i b total = (r, b') ->
  r = match wanted op with Some _ => DRBD_END_OF_BITMAP | None => total end /\
  b' = set_counts (new_counts op i total (bm_set b)) b.
Proof.
  destruct op; simpl; intros Eq; injection Eq as Hr Hb; (split; [by rewrite <- Hr|]); rewrite <- Hb; try done; by destruct b.
Qed.

Lemma counted b i s e op buf :
  count_range (delta_at b i op s (start_state b i s buf)) s (Z.max s (e + 1)) =
  match wanted op with Some _ => 0 | None =>
    if decide (op = BM_OP_TEST) then 0 else fst (abs_op op (bm_bit b i) (fun n => mbit buf (n - s)) s e) end.
Proof.
  assert (forall f, count_range f s (Z.max s (e + 1)) = count_range f s (e + 1)) as Hmax.
  { intros f. unfold count_range. f_equal. lia. }
  rewrite Hmax. destruct op; simpl; try (apply count_range_none; done); apply count_range_ext; intros k _; done.
Qed.

Lemma finished_done b i s e op buf res : bm_wf b -> 0 <= i < bm_max_peers b -> 0 <= s -> 0 <= e < 2 ^ 63 -> Forall is_word32 buf ->
  (uses_buf op = true -> s mod 32 = 0) ->
  finished b i op s e (start_state b i s buf) (page_private b) res ->
  exists r b' buf', res = (r, b', buf') /\ op_done b i s e op buf r b' buf'.
Proof.
  intros Hwf Hi Hs He Hbuf Hal (s' & f' & (c & t & Hct & Hp) & Hst & Hc & Hmk & Hf & Hres). simpl in Hst.
  destruct (bm_op_finish op i (set_private f' b) (o_total s')) as [r b'] eqn:Ef. apply finish_shape in Ef as [Hr Hb'].
  destruct (pr_words _ _ _ _ _ _ Hp (wf_words b Hwf) Hbuf) as [Hw1 Hw2]. simpl in Hw1, Hw2.
  pose proof (pr_cnt _ _ _ _ _ _ Hp) as Hcnt. simpl in Hcnt. rewrite Hst, counted in Hcnt.
  assert (o_total s' = match wanted op with Some _ => 0 | None =>
    if decide (op = BM_OP_TEST) then 0 else fst (abs_op op (bm_bit b i) (fun n => mbit buf (n - s)) s e) end) as Ht by lia.
  assert (r = fst (abs_op op (bm_bit b i) (fun n => mbit buf (n - s)) s e)) as Hres1.
  { rewrite Hr, Ht. pose proof (pr_find _ _ _ _ _ _ Hp) as Hfind. pose proof (pr_test _ _ _ _ _ _ Hp) as Htest.
    simpl in Hfind, Htest. rewrite Hst in Hfind, Htest. unfold wanted in *.
    destruct op; simpl; try done.
    - specialize (Htest eq_refl). by rewrite (proj2 (Z.leb_gt s e)) by lia.
    - rewrite (proj2 (first_bit_none true _ _ _)); [done|]. intros k Hk. apply (Hfind true eq_refl). lia.
    - rewrite (proj2 (first_bit_none false _ _ _)); [done|]. intros k Hk. apply (Hfind false eq_refl). lia. }
  exists r, (set_pages (o_mem s') b'), (o_buf s'). split; [done|]. subst b'.
  assert (forall j n, 0 <= j < bm_max_peers b -> 0 <= n -> mbit (o_mem s') (pos b j n) =
    if (j =? i) && (s <=? n) && (n <=? e) then new_bit op (bm_bit b j n) (mbit buf (n - s)) else bm_bit b j n) as Hbits.
  { intros j n Hj Hn. pose proof (pr_bits _ _ _ _ _ _ Hp j n Hj Hn) as Hb. unfold in_range in Hb. simpl in Hb. rewrite Hb, Hst.
    destruct (j =? i), (Z.leb_spec s n), (Z.ltb_spec n (Z.max s (e + 1))), (Z.leb_spec n e); simpl; try done; lia. }
  assert (same_shape b (set_pages (o_mem s') (set_counts (new_counts op i (o_total s') (bm_set (set_private f' b))) (set_private f' b))))
    as Hshape by done.
  split; try done.
  - apply (pr_len _ _ _ _ _ _ Hp).
  - intros n Hn. rewrite (bm_bit_same b) by done. simpl. rewrite Hbits, Z.eqb_refl by done. simpl.
    destruct (modifies op) eqn:Hm; [by rewrite abs_op_new|rewrite abs_op_still by done].
    unfold new_bit, modifies in *. destruct op; try done; by destruct (_ && _).
  - intros j n Hj Hne Hn. rewrite (bm_bit_same b) by done. simpl. rewrite Hbits by done.
    by rewrite (proj2 (Z.eqb_neq j i)).
  - simpl. rewrite Hres1. unfold new_counts, modifies, wanted in *. destruct op; simpl in *; try done; by rewrite Ht.
  - destruct (decide (op = BM_OP_EXTRACT)) as [Eo|Eo]; [|by apply (pr_buf _ _ _ _ _ _ Hp)]. intros Hle.
    split; [apply (pr_blen _ _ _ _ _ _ Hp)|]. split; [done|]. intros q Hq.
    pose proof (pr_ext _ _ _ _ _ _ Hp Eo q Hq) as He'. simpl in He'. rewrite Z.sub_diag, Hst in He'.
    rewrite (proj2 (Z.ltb_ge q 0)) in He' by lia. rewrite He'. clear He'.
    pose proof (pr_next _ _ _ _ _ _ Hp Eo) as Hn. simpl in Hn. specialize (Hn ltac:(lia)).
    destruct (Z.leb_spec (q + s) e), (Z.ltb_spec q (Z.max s (e + 1) - s)); try lia; [done|].
    destruct (Z.leb_spec (q / 32) ((e - s) / 32)), (Z.ltb_spec q (32 * o_next s')); try done; zdiv.
Qed.

Lemma bm_op_done b i s e op buf : bm_wf b -> 0 < bm_bits b -> op_pre b i s e op buf ->
  exists r b' buf', ____bm_op b i s e op buf = Ret (r, b', buf') /\ op_done b i s (clip b e) op buf r b' buf'.
Proof.
  intros Hwf Hbits Hpre. destruct (bm_op_walk b i s e op buf Hwf Hbits Hpre) as (res & -> & Hres).
  pose proof (bits_small b Hwf). assert (0 <= clip b e < 2 ^ 63) as Hce by (unfold clip; destruct Hpre as (_ & _ & ? & _); lia).
  destruct Hres as [Hf|Hf].
  - destruct (found_done _ _ _ _ _ _ _ Hce Hwf Hf) as (r & -> & Hd). by exists r, b, buf.
  - destruct Hpre as (Hi & Hs & He & Hbuf & Hu).
    destruct (finished_done b i s (clip b e) op buf res) as (r & b' & buf' & -> & Hd); try done; [intros Hub; by apply Hu|].
    by exists r, b', buf'.
Qed.

Lemma shape_wf b b' : bm_wf b -> same_shape b b' -> length (bm_pages b') = length (bm_pages b) ->
  length (page_private b') = length (page_private b) -> length (bm_set b') = length (bm_set b) ->
  Forall is_word32 (bm_pages b') -> bm_wf b'.
Proof.
  intros [] (E1 & E2 & E3 & E4 & E5 & E6 & E7 & E8 & E9) Hp Hf Hs Hw. split; rewrite ?E1, ?E4, ?E7, ?Hp, ?Hf, ?Hs; done.
Qed.

Lemma new_counts_length op i r c : length (new_counts op i r c) = length c.
Proof. unfold new_counts. destruct op; try done; apply length_alter. Qed.

Lemma op_done_wf b i s e op buf r b' buf' : bm_wf b -> op_done b i s e op buf r b' buf' -> bm_wf b'.
Proof.
  intros Hwf Hd. apply (shape_wf b); try apply Hd; try done. rewrite (od_counts _ _ _ _ _ _ _ _ _ Hd). apply new_counts_length.
Qed.

Lemma count_bits_small b i : bm_wf b -> 0 <= count_range (bm_bit b i) 0 (bm_bits b) < 2 ^ 64.
Proof.
  intros Hwf. pose proof (bits_small b Hwf). pose proof (count_range_bounds (bm_bit b i) 0 (bm_bits b)). lia.
Qed.

(** The counter of the slot follows the number of changed bits. *)
Lemma op_done_count b i s e op buf r b' buf' : bm_wf b -> 0 <= i < bm_max_peers b -> 0 <= s -> e < bm_bits b ->
  op_done b i s e op buf r b' buf' ->
  count_range (bm_bit b' i) 0 (bm_bits b) =
    count_range (bm_bit b i) 0 (bm_bits b) +
    match op with BM_OP_CLEAR => - r | BM_OP_SET | BM_OP_MERGE => r | _ => 0 end.
Proof.
  intros Hwf Hi Hs He Hd. pose proof (od_result _ _ _ _ _ _ _ _ _ Hd) as Hr. pose proof (od_bits _ _ _ _ _ _ _ _ _ Hd) as Hb.
  set (nb := fun n => mbit buf (n - s)) in *.
  destruct (modifies op) eqn:Hm.
  - assert (forall n, 0 <= n -> bm_bit b' i n = if (s <=? n) && (n <=? e) then new_bit op (bm_bit b i n) (nb n) else bm_bit b i n) as Hn
      by (intros; rewrite Hb by done; by apply abs_op_new).
    assert (forall k, 0 <= k < bm_bits b -> k < s \/ e < k -> bm_bit b' i k = bm_bit b i k) as Hout.
    { intros k Hk Hor. rewrite Hn by lia. destruct (Z.leb_spec s k), (Z.leb_spec k e); simpl; try done; lia. }
    assert (forall k, 0 <= k -> s <= k <= e -> bm_bit b' i k = new_bit op (bm_bit b i k) (nb k)) as Hin.
    { intros k Hk Hse. rewrite Hn by done. by rewrite (proj2 (Z.leb_le s k)), (proj2 (Z.leb_le k e)) by lia. }
    rewrite Hr. unfold modifies in Hm. destruct op; try done; simpl.
    + rewrite (count_range_change (bm_bit b i) (bm_bit b' i) (bm_bit b i) 0 s e (bm_bits b) (-1)); [lia|done|done| |done|by right].
      intros k Hk Hse. rewrite Hin by lia. simpl. lia.
    + rewrite (count_range_change (bm_bit b i) (bm_bit b' i) (fun n => negb (bm_bit b i n)) 0 s e (bm_bits b) 1); [lia|done|done| |done|by left].
      intros k Hk Hse. rewrite Hin by lia. simpl. by destruct (bm_bit b i k).
    + rewrite (count_range_change (bm_bit b i) (bm_bit b' i) (fun n => negb (bm_bit b i n) && nb n) 0 s e (bm_bits b) 1); [lia|done|done| |done|by left].
      intros k Hk Hse. rewrite Hin by lia. simpl. by destruct (bm_bit b i k), (nb k).
  - rewrite (count_range_ext _ (bm_bit b i)).
    + unfold modifies in Hm. destruct op; try done; lia.
    + intros k Hk. rewrite Hb by lia. by apply abs_op_still.
Qed.

Lemma alter_count (f : Z -> Z) (l : list Z) i j c : 0 <= i -> 0 <= j -> l !! Z.to_nat j = Some c ->
  alter f (Z.to_nat i) l !! Z.to_nat j = Some (if j =? i then f c else c).
Proof.
  intros Hi Hj Hl. destruct (Z.eqb_spec j i) as [->|Hne].
  - by rewrite list_lookup_alter_eq, Hl.
  - rewrite list_lookup_alter_ne by lia. done.
Qed.

Lemma op_done_counts b i s e op buf r b' buf' : bm_wf b -> 0 <= i < bm_max_peers b -> 0 <= s -> e < bm_bits b ->
  bm_counts b -> op_done b i s e op buf r b' buf' -> bm_counts b'.
Proof.
  intros Hwf Hi Hs He Hc Hd j Hj. pose proof (od_shape _ _ _ _ _ _ _ _ _ Hd) as (E1 & _ & _ & _ & _ & _ & E7 & _).
  rewrite E7 in Hj. rewrite E1. specialize (Hc j Hj) as Hcj. rewrite (od_counts _ _ _ _ _ _ _ _ _ Hd).
  pose proof (op_done_wf _ _ _ _ _ _ _ _ _ Hwf Hd) as Hwf'. pose proof (count_bits_small b' i Hwf') as Hsm. rewrite E1 in Hsm.
  pose proof (op_done_count _ _ _ _ _ _ _ _ _ Hwf Hi Hs He Hd) as Hn.
  assert (j <> i -> count_range (bm_bit b' j) 0 (bm_bits b) = count_range (bm_bit b j) 0 (bm_bits b)) as Ho.
  { intros Hne. apply count_range_ext. intros k Hk. apply (od_others _ _ _ _ _ _ _ _ _ Hd); (done || lia). }
  unfold new_counts. destruct op; rewrite ?(alter_count _ _ i j _ (proj1 Hi) (proj1 Hj) Hcj), ?Hcj; f_equal;
    (destruct (Z.eqb_spec j i) as [->|Hne]; [rewrite ?Hn in *; rewrite ?u64_small; lia|by rewrite Ho]) ||
    (destruct (decide (j = i)) as [->|Hne]; [rewrite Hn; lia|by rewrite Ho]).
Qed.

(** ** Setting and clearing ranges *)

Definition op_of (v : bool) : bitmap_operations := if v then BM_OP_SET else BM_OP_CLEAR.

Record range_set (v : bool) (b : drbd_bitmap) (i s e : Z) (b' : drbd_bitmap) : Prop := {
  rs_shape : same_shape b b';
  rs_wf : bm_wf b';
  rs_bits n : 0 <= n -> bm_bit b' i n = if (s <=? n) && (n <=? e) then v else bm_bit b i n;
  rs_others j n : 0 <= j < bm_max_peers b -> j <> i -> 0 <= n -> bm_bit b' j n = bm_bit b j n;
  rs_counts : bm_counts b -> bm_counts b';
  rs_set_others j : 0 <= j -> j <> i -> bm_set b' !! Z.to_nat j = bm_set b !! Z.to_nat j;
  rs_len : length (bm_set b') = length (bm_set b);
  rs_marks : marked b (op_of v) (page_private b) (page_private b') (bm_pages b) (bm_pages b') }.

Lemma same_shape_refl b : same_shape b b.
Proof. by repeat split. Qed.

Lemma same_shape_trans b1 b2 b3 : same_shape b1 b2 -> same_shape b2 b3 -> same_shape b1 b3.
Proof. unfold same_shape. intros (? & ? & ? & ? & ? & ? & ? & ? & ?) (? & ? & ? & ? & ? & ? & ? & ? & ?). repeat split; congruence. Qed.

(** Marking depends on the bitmap only by the place of its memory. *)
Lemma marked_shape b b' op f f' m m' : same_shape b b' -> marked b' op f f' m m' -> marked b op f f' m m'.
Proof. intros (_ & _ & _ & _ & _ & Ed & _) [Hl Hm]. split; [done|]. by rewrite Ed in Hm. Qed.

Lemma range_set_nil v b i s e : bm_wf b -> e < s -> range_set v b i s e b.
Proof.
  intros Hwf Hes. split; try done; [|apply marked_unchanged].
  intros n Hn. destruct (Z.leb_spec s n), (Z.leb_spec n e); simpl; try done; lia.
Qed.

Lemma range_set_app v b i s m e b1 b2 : s <= m + 1 -> m <= e -> 0 <= i < bm_max_peers b ->
  range_set v b i s m b1 -> range_set v b1 i (m + 1) e b2 -> range_set v b i s e b2.
Proof.
  intros Hsm Hme Hi H1 H2. pose proof (rs_shape _ _ _ _ _ _ H1) as Hs1. pose proof Hs1 as (_ & _ & _ & _ & _ & _ & Ep & _). split.
  - by eapply same_shape_trans; [|apply H2].
  - apply H2.
  - intros n Hn. rewrite (rs_bits _ _ _ _ _ _ H2 n Hn), (rs_bits _ _ _ _ _ _ H1 n Hn).
    destruct (Z.leb_spec s n), (Z.leb_spec n m), (Z.leb_spec (m + 1) n), (Z.leb_spec n e); simpl; try done; lia.
  - intros j n Hj Hne Hn. rewrite (rs_others _ _ _ _ _ _ H2 j n) by (rewrite ?Ep; done). by apply H1.
  - intros Hc. by apply H2, H1.
  - intros j Hj Hne. rewrite (rs_set_others _ _ _ _ _ _ H2 j Hj Hne). by apply H1.
  - rewrite (rs_len _ _ _ _ _ _ H2). apply H1.
  - eapply marked_compose; [apply H1|]. apply (marked_shape b b1); [done|]. apply H2.
Qed.

Lemma op_done_range v b i s e r b' buf' : bm_wf b -> 0 <= i < bm_max_peers b -> 0 <= s -> e < bm_bits b ->
  op_done b i s e (op_of v) [] r b' buf' -> range_set v b i s e b'.
Proof.
  intros Hwf Hi Hs He Hd. split; try apply Hd.
  - by eapply op_done_wf.
  - intros n Hn. rewrite (od_bits _ _ _ _ _ _ _ _ _ Hd) by done. by destruct v.
  - intros Hc. by eapply op_done_counts.
  - intros j Hj Hne. rewrite (od_counts _ _ _ _ _ _ _ _ _ Hd). destruct v; simpl; apply list_lookup_alter_ne; lia.
  - rewrite (od_counts _ _ _ _ _ _ _ _ _ Hd). apply new_counts_length.
Qed.

Lemma clip_id b e : e < bm_bits b -> clip b e = e.
Proof. unfold clip. lia. Qed.

Lemma op_pre_nobuf b i s e op : 0 <= i < bm_max_peers b -> 0 <= s -> 0 <= e < 2 ^ 64 -> uses_buf op = false -> op_pre b i s e op [].
Proof. intros Hi Hs He Hu. split_and!; try done; try lia. by rewrite Hu. Qed.

(** No pages means no bits. *)
Lemma no_pages b : bm_wf b -> bm_number_of_pages b = 0 -> bm_bits b = 0.
Proof. intros Hwf Hn. pose proof (wf_room b Hwf) as Hr. pose proof (wf_peers b Hwf). pose proof (wf_bits b Hwf). rewrite Hn in Hr. assert ((bm_bits b + 31) / 32 <= 0) by nia. zdiv. Qed.

Lemma bm_op_runs b i s e op buf : bm_wf b -> 0 < bm_bits b -> bm_op b i s e op buf = ____bm_op b i s e op buf.
Proof.
  intros Hwf Hb. unfold bm_op. destruct (Z.eqb_spec (bm_number_of_pages b) 0) as [Hn|]; [apply (no_pages b Hwf) in Hn; lia|].
  by rewrite (proj2 (Z.eqb_neq (bm_bits b) 0)) by lia.
Qed.

Lemma bm_op_range v b i s e : bm_wf b -> 0 < bm_bits b -> 0 <= i < bm_max_peers b -> 0 <= s -> 0 <= e < 2 ^ 64 ->
  exists r b', bm_op_nobuf b i s e (op_of v) = Ret (r, b') /\ range_set v b i s (clip b e) b' /\
    r = fst (abs_op (op_of v) (bm_bit b i) (fun n => mbit [] (n - s)) s (clip b e)).
Proof.
  intros Hwf Hb Hi Hs He. unfold bm_op_nobuf. rewrite bm_op_runs by done.
  destruct (bm_op_done b i s e (op_of v) []) as (r & b' & buf' & -> & Hd); try done; [by apply op_pre_nobuf; try done; destruct v|].
  exists r, b'. split_and!; [done| |apply Hd]. eapply op_done_range; try done. unfold clip. lia.
Qed.

(** ** One page at a time *)

Lemma mod_neg_succ w W : 0 < W -> (- (w + 1)) mod W = W - 1 - w mod W.
Proof.
  intros HW. symmetry. apply Z.mod_unique with (- (w / W) - 1); [left; pose proof (Z.mod_pos_bound w W HW); lia|].
  pose proof (Z.div_mod w W). lia.
Qed.

Lemma u64_mod_page x : u64 x mod WORDS32_PER_PAGE = x mod WORDS32_PER_PAGE.
Proof.
  unfold u64, WORDS32_PER_PAGE. pose proof page_shift_range. rewrite Z.shiftl_1_l.
  rewrite <- Znumtheory.Zmod_div_mod; [done|lia|lia|]. exists (2 ^ (64 - (PAGE_SHIFT - 2))). rewrite <- Z.pow_add_r by lia. f_equal. lia.
Qed.

Lemma last_bit_spec b i bit : bm_wf b -> 0 <= i < bm_max_peers b -> 0 <= bit ->
  let last := last_bit_on_page b i bit in
  bit <= last /\ last mod 32 = 31 /\
  pos b i last / 32 < (bit_to_page_interleaved b i bit + 1) * WORDS32_PER_PAGE /\
  bit_to_page_interleaved b i bit < bit_to_page_interleaved b i (last + 1).
Proof.
  intros Hwf Hi Hbit. pose proof words32_pos as HW. assert (0 < WORDS32_PER_PAGE) as HW0 by lia. pose proof (wf_peers b Hwf) as Hp.
  unfold last_bit_on_page, bit_to_page_interleaved. rewrite !to_page, to_in_page, u64_mod_page, mod_neg_succ, lor31 by lia.
  rewrite Z.shiftl_mul_pow2 by lia. change (2 ^ 5) with 32. rewrite pos_word. unfold interleaved_word32. rewrite !shiftr5.
  set (w := bit / 32 * bm_max_peers b + i). set (rem := WORDS32_PER_PAGE - 1 - w mod WORDS32_PER_PAGE).
  pose proof (Z.mod_pos_bound w WORDS32_PER_PAGE HW0) as Hmod. pose proof (Z.div_mod w WORDS32_PER_PAGE) as Hdm.
  assert (0 <= rem / bm_max_peers b) by (apply Z.div_pos; lia).
  pose proof (Z.div_mod rem (bm_max_peers b) ltac:(lia)). pose proof (Z.mod_pos_bound rem (bm_max_peers b) ltac:(lia)).
  set (k := rem / bm_max_peers b) in *.
  replace ((32 * (bit / 32) + 31 + k * 32) / 32) with (bit / 32 + k) by zdiv.
  replace ((32 * (bit / 32) + 31 + k * 32 + 1) / 32) with (bit / 32 + k + 1) by zdiv.
  split; [zdiv|]. split; [zdiv|]. split; [nia|].
  apply Z.lt_le_trans with (w / WORDS32_PER_PAGE + 1); [lia|]. apply Z.div_le_lower_bound; [done|]. nia.
Qed.

Lemma page_of_bit b i n : bm_wf b -> 0 <= i < bm_max_peers b -> 0 <= n < bm_bits b ->
  0 <= bit_to_page_interleaved b i n < bm_number_of_pages b.
Proof.
  intros Hwf Hi Hn. pose proof words32_pos as HW. pose proof (pos_in_pages b i n Hwf Hi Hn) as Hp. rewrite (wf_pages b Hwf) in Hp.
  pose proof (pos_nonneg b (wf_peers b Hwf) i n (proj1 Hi) (proj1 Hn)). unfold bit_to_page_interleaved. rewrite to_page.
  assert (pos b i n / 32 = interleaved_word32 b i n) as Hw by (rewrite pos_word; unfold interleaved_word32; by rewrite shiftr5).
  rewrite Hw in Hp. assert (0 <= interleaved_word32 b i n) by (rewrite <- Hw; zdiv).
  split; [apply Z.div_pos; lia|apply Z.div_lt_upper_bound; lia].
Qed.

Lemma last_bit_small b i bit : bm_wf b -> 0 <= i < bm_max_peers b -> 0 <= bit < bm_bits b -> last_bit_on_page b i bit < 2 ^ 48.
Proof.
  intros Hwf Hi Hbit. destruct (last_bit_spec b i bit Hwf Hi (proj1 Hbit)) as (_ & _ & Hl & _). rewrite pos_word in Hl.
  pose proof (page_of_bit b i bit Hwf Hi Hbit). pose proof (wf_npages b Hwf). pose proof (wf_peers b Hwf). pose proof words32_pos.
  assert ((bit_to_page_interleaved b i bit + 1) * WORDS32_PER_PAGE <= 2 ^ 24 * 2 ^ 18) by nia.
  assert (last_bit_on_page b i bit / 32 < 2 ^ 42) by nia. zdiv.
Qed.

Lemma shape_page b b' i n : same_shape b b' -> bit_to_page_interleaved b' i n = bit_to_page_interleaved b i n.
Proof. intros (_ & _ & _ & _ & _ & _ & Hp & _). unfold bit_to_page_interleaved, interleaved_word32. by rewrite Hp. Qed.

Lemma page_mono b i n n' : bm_wf b -> 0 <= i < bm_max_peers b -> 0 <= n <= n' ->
  bit_to_page_interleaved b i n <= bit_to_page_interleaved b i n'.
Proof.
  intros Hwf Hi Hn. pose proof words32_pos. unfold bit_to_page_interleaved, interleaved_word32. rewrite !to_page, !shiftr5.
  apply Z.div_le_mono; [lia|]. pose proof (wf_peers b Hwf). assert (n / 32 <= n' / 32) by zdiv. nia.
Qed.

Lemma many_bits_loop_ok v i e fuel b bit : bm_wf b -> 0 < bm_bits b -> 0 <= i < bm_max_peers b -> 0 <= bit -> 0 <= e < bm_bits b ->
  (bit <= e -> bm_number_of_pages b - bit_to_page_interleaved b i bit <= Z.of_nat fuel) ->
  exists b', many_bits_loop i (op_of v) e fuel bit b = Ret b' /\ range_set v b i bit e b'.
Proof.
  revert b bit. induction fuel as [|fuel IH]; intros b bit Hwf Hb Hi Hbit He Hf; cbn [many_bits_loop];
    (destruct (Z.leb_spec bit e) as [Hle|Hgt]; [|exists b; split; [done|by apply range_set_nil]]).
  - pose proof (page_of_bit b i bit Hwf Hi ltac:(lia)). lia.
  - pose proof (bits_small b Hwf). destruct (last_bit_spec b i bit Hwf Hi Hbit) as (Hl1 & _ & _ & Hl4).
    set (last := if e <? last_bit_on_page b i bit then e else last_bit_on_page b i bit).
    assert (bit <= last <= e) as Hlast by (unfold last; destruct (Z.ltb_spec e (last_bit_on_page b i bit)); lia).
    destruct (bm_op_range v b i bit last) as (r & b1 & -> & H1 & _); try done; try lia. cbn [obind].
    rewrite clip_id in H1 by lia. pose proof (rs_shape _ _ _ _ _ _ H1) as Hs1. pose proof Hs1 as (E1 & _ & _ & E4 & _ & _ & E7 & _).
    rewrite u64_small by lia. destruct (IH b1 (last + 1)) as (b' & -> & H2); try apply H1; rewrite ?E1, ?E4, ?E7; try done; try lia.
    + intros Hle'. rewrite (shape_page b b1) by done. specialize (Hf Hle).
      assert (last = last_bit_on_page b i bit) as -> by (unfold last in *; destruct (Z.ltb_spec e (last_bit_on_page b i bit)); lia). lia.
    + exists b'. split; [done|]. apply (range_set_app v b i bit last e b1 b'); (done || lia).
Qed.

Lemma many_bits_ok v b i s e : bm_wf b -> 0 < bm_bits b -> 0 <= i < bm_max_peers b -> 0 <= s -> 0 <= e < 2 ^ 64 ->
  exists b', __bm_many_bits_op b i s e (op_of v) = Ret b' /\ range_set v b i s (clip b e) b'.
Proof.
  intros Hwf Hb Hi Hs He. pose proof (bits_small b Hwf). unfold __bm_many_bits_op.
  replace (if bm_bits b <=? e then u64 (bm_bits b - 1) else e) with (clip b e)
    by (unfold clip; case_if; [rewrite u64_small by lia|]; lia).
  apply many_bits_loop_ok; try done; [unfold clip; lia|]. intros Hle.
  pose proof (page_of_bit b i s Hwf Hi ltac:(unfold clip in *; lia)). lia.
Qed.

Lemma count_op b i s e : bm_wf b -> 0 < bm_bits b -> 0 <= i < bm_max_peers b -> 0 <= s -> 0 <= e < 2 ^ 64 ->
  exists b', ____bm_op_nobuf b i s e BM_OP_COUNT = Ret (count_range (bm_bit b i) s (clip b e + 1), b').
Proof.
  intros Hwf Hb Hi Hs He. unfold ____bm_op_nobuf.
  destruct (bm_op_done b i s e BM_OP_COUNT []) as (r & b' & buf' & -> & Hd); try done.
  exists b'. simpl. by rewrite (od_result _ _ _ _ _ _ _ _ _ Hd).
Qed.

Lemma count_slot_ok b i fuel bit acc : bm_wf b -> 0 < bm_bits b -> 0 <= i < bm_max_peers b -> 0 <= bit ->
  (bit < bm_bits b -> bm_number_of_pages b - bit_to_page_interleaved b i bit <= Z.of_nat fuel) ->
  count_slot_loop b i fuel bit acc = Ret (acc + count_range (bm_bit b i) bit (bm_bits b)).
Proof.
  intros Hwf Hb Hi. revert bit acc. induction fuel as [|fuel IH]; intros bit acc Hbit Hf; cbn [count_slot_loop];
    (destruct (Z.ltb_spec bit (bm_bits b)) as [Hlt|Hge];
     [|f_equal; unfold count_range; replace (Z.to_nat (bm_bits b - bit)) with O by lia; simpl; lia]).
  - pose proof (page_of_bit b i bit Hwf Hi ltac:(lia)). lia.
  - destruct (last_bit_spec b i bit Hwf Hi Hbit) as (Hl1 & Hl2 & Hl3 & Hl4). pose proof (last_bit_small b i bit Hwf Hi ltac:(lia)).
    set (last := last_bit_on_page b i bit) in *.
    destruct (count_op b i bit last) as (b' & ->); try done; try lia. cbn [obind]. rewrite IH.
    + f_equal. rewrite <- Z.add_assoc. f_equal. unfold clip. destruct (Z.le_gt_cases (bm_bits b) last).
      * replace (Z.min last (bm_bits b - 1) + 1) with (bm_bits b) by lia.
        unfold count_range at 2. replace (Z.to_nat (bm_bits b - (last + 1))) with O by lia. simpl. lia.
      * rewrite Z.min_l by lia. symmetry. apply count_range_split. lia.
    + lia.
    + intros Hlt'. specialize (Hf Hlt). lia.
Qed.

(** ** Counting all bits *)

Lemma for_slots_ok (P : Z -> drbd_bitmap -> Prop) body n i b :
  P i b -> (forall k b, i <= k < i + Z.of_nat n -> P k b -> exists b', body k b = Ret b' /\ P (k + 1) b') ->
  exists b', for_slots body n i b = Ret b' /\ P (i + Z.of_nat n) b'.
Proof.
  revert i b. induction n as [|n IH]; intros i b HP Hstep; cbn [for_slots].
  - exists b. by rewrite Z.add_0_r.
  - destruct (Hstep i b ltac:(lia) HP) as (b1 & -> & H1). cbn [obind].
    destruct (IH (i + 1) b1 H1) as (b' & -> & H'); [intros; apply Hstep; [lia|done]|].
    exists b'. split; [done|]. by replace (i + Z.of_nat (S n)) with (i + 1 + Z.of_nat n) by lia.
Qed.

Lemma set_count_shape i n b : same_shape b (set_count i n b).
Proof. done. Qed.

Lemma set_count_wf i n b : bm_wf b -> bm_wf (set_count i n b).
Proof. intros Hwf. apply (shape_wf b); try done; [simpl; apply length_insert|]. apply (wf_words b Hwf). Qed.

Lemma count_slot_all b i : bm_wf b -> 0 <= i < bm_max_peers b ->
  count_slot_loop b i (S (Z.to_nat (bm_number_of_pages b))) 0 0 = Ret (count_range (bm_bit b i) 0 (bm_bits b)).
Proof.
  intros Hwf Hi. destruct (decide (bm_bits b = 0)) as [Hz|Hne].
  - cbn [count_slot_loop]. by rewrite Hz.
  - pose proof (wf_bits b Hwf). rewrite count_slot_ok; try done; try lia. intros Hlt.
    pose proof (page_of_bit b i 0 Hwf Hi ltac:(lia)). lia.
Qed.

(** Recounting leaves the bits alone and makes the counters exact. *)
Lemma bm_count_bits_ok b : bm_wf b ->
  exists b', bm_count_bits b = Ret b' /\ same_shape b b' /\ bm_wf b' /\ bm_pages b' = bm_pages b /\
    page_private b' = page_private b /\ bm_counts b'.
Proof.
  intros Hwf. pose proof (wf_peers b Hwf) as Hp.
  destruct (for_slots_ok (fun k b' => same_shape b b' /\ bm_wf b' /\ bm_pages b' = bm_pages b /\ page_private b' = page_private b /\
      forall i, 0 <= i < k -> bm_set b' !! Z.to_nat i = Some (count_range (bm_bit b i) 0 (bm_bits b)))
    (fun i b => let! n := count_slot_loop b i (S (Z.to_nat (bm_number_of_pages b))) 0 0 in Ret (set_count i n b))
    (Z.to_nat (bm_max_peers b)) 0 b) as (b' & Hrun & Hs & Hwf' & Hpg & Hpr & Hc).
  - split_and!; try done. intros; lia.
  - intros k b1 Hk (Hs & Hwf1 & Hpg & Hpr & Hc). pose proof Hs as (E1 & _ & _ & _ & _ & _ & E7 & _).
    rewrite count_slot_all by (done || lia). cbn [obind]. eexists. split; [done|]. split_and!; try done; [by apply set_count_wf|].
    assert (forall i, bm_bit b1 i = bm_bit b i) as Hbit by (intros; unfold bm_bit, pos, interleaved_word32; by rewrite Hpg, E7).
    pose proof (wf_set b1 Hwf1). intros i Hi. simpl. destruct (decide (i = k)) as [->|Hne].
    + rewrite list_lookup_insert_eq by lia. by rewrite Hbit, E1.
    + rewrite list_lookup_insert_ne by lia. apply Hc. lia.
  - exists b'. split_and!; try done. intros i Hi. pose proof Hs as (E1 & _ & _ & _ & _ & _ & E7 & _).
    rewrite (Hc i) by lia. rewrite E1. f_equal. apply count_range_ext. intros n _. unfold bm_bit, pos, interleaved_word32. by rewrite Hpg, E7.
Qed.

End ops.

(** A bitmap of one page for two peers and 100 blocks. *)
Definition demo_bitmap : drbd_bitmap :=
  mk_bitmap (replicate 1024 0) [0] [0; 0] 100 100 4 1 800 false 2 12 [].

Lemma demo_bitmap_wf : @bm_wf PAGE_SHIFT_4k demo_bitmap.
Proof. split; try done; try (simpl; lia). unfold demo_bitmap, bm_pages. apply Forall_replicate. by unfold is_word32. Qed.

Lemma demo_bitmap_counts : @bm_counts demo_bitmap.
Proof. intros i Hi. simpl in Hi. destruct (decide (i = 0)) as [->|]; [vm_compute; reflexivity|]. replace i with 1 by lia. vm_compute. reflexivity. Qed.

