(* ===== verification/BitmapResize.v ===== *)
(** * The bitmap: resizing and copying a slot

    [drbd_bm_resize] keeps the bits of the blocks that stay and sets or clears those of
    the new blocks on the page of the first new bit and on the added pages.  When the
    last bits of every slot are on the last page these are all new blocks, and the
    counters stay exact.  Where they are not, new blocks are missed; an example shows
    it. *)
From S2P Require Import Prelude Bitmap BitmapProps BitmapOps.

Section resize.
Context `{Arch}.

(** ** Sizes *)

Lemma align_pow2 x k : 0 <= k -> ALIGN x (2 ^ k) = (x + (2 ^ k - 1)) / 2 ^ k * 2 ^ k.
Proof.
  intros Hk. unfold ALIGN. replace (2 ^ k - 1) with (Z.ones k) by (rewrite Z.ones_equiv; lia).
  by rewrite Z.ldiff_ones_r, Z.shiftl_mul_pow2, Z.shiftr_div_pow2 by done.
Qed.

Lemma align64 x : ALIGN x 64 = (x + 63) / 64 * 64.
Proof. exact (align_pow2 x 6 ltac:(lia)). Qed.

Lemma pfn_up x : PFN_UP x = (x + PAGE_SIZE - 1) / PAGE_SIZE.
Proof.
  unfold PFN_UP, PAGE_SIZE. pose proof page_shift_range. rewrite Z.shiftr_div_pow2 by lia. by rewrite Z.shiftl_1_l.
Qed.

(** Bits, words and pages for a capacity. *)
Definition bits_for (b : drbd_bitmap) (capacity : Z) : Z := bm_sect_to_bit b (ALIGN capacity (bm_sect_per_bit b)).
Definition words_for (b : drbd_bitmap) (bits : Z) : Z := ALIGN bits 64 * bm_max_peers b / BITS_PER_LONG.
Definition pages_for (b : drbd_bitmap) (bits : Z) : Z := PFN_UP (words_for b bits * 8).

Lemma words_for_eq b bits : words_for b bits = (bits + 63) / 64 * bm_max_peers b.
Proof. unfold words_for, BITS_PER_LONG. rewrite align64. rewrite <- Z.mul_assoc, (Z.mul_comm 64), Z.mul_assoc. by rewrite Z.div_mul. Qed.

(** The pages hold the words of all slots, and none is superfluous. *)
Lemma pages_for_bounds b bits : 0 <= words_for b bits ->
  2 * words_for b bits <= pages_for b bits * WORDS32_PER_PAGE < 2 * words_for b bits + WORDS32_PER_PAGE.
Proof.
  intros Hw. unfold pages_for. rewrite pfn_up, page_size. pose proof words32_pos. set (w := words_for b bits) in *.
  pose proof (Z.div_mod (w * 8 + 4 * WORDS32_PER_PAGE - 1) (4 * WORDS32_PER_PAGE)).
  pose proof (Z.mod_pos_bound (w * 8 + 4 * WORDS32_PER_PAGE - 1) (4 * WORDS32_PER_PAGE)). nia.
Qed.

Lemma pages_for_0 b : pages_for b 0 = 0.
Proof.
  unfold pages_for. rewrite words_for_eq, pfn_up, page_size. pose proof words32_pos. apply Z.div_small. replace ((0 + 63) / 64) with 0 by done. lia.
Qed.

(** The sizes belong together: what [drbd_bm_resize] leaves behind. *)
Definition bm_sized (b : drbd_bitmap) : Prop :=
  bm_words b = words_for b (bm_bits b) /\ bm_number_of_pages b = pages_for b (bm_bits b).

Lemma words_for_nonneg b bits : 1 <= bm_max_peers b -> 0 <= bits -> 0 <= words_for b bits.
Proof. intros. rewrite words_for_eq. assert (0 <= (bits + 63) / 64) by zdiv. nia. Qed.

Lemma room_for b bits : 1 <= bm_max_peers b -> 0 <= bits ->
  (bits + 31) / 32 * bm_max_peers b <= 2 * ((bits + 63) / 64) * bm_max_peers b <= pages_for b bits * WORDS32_PER_PAGE.
Proof.
  intros Hp Hb. pose proof (pages_for_bounds b bits (words_for_nonneg b bits Hp Hb)). rewrite words_for_eq in *.
  assert ((bits + 31) / 32 <= 2 * ((bits + 63) / 64)) by zdiv. nia.
Qed.

Lemma pages_for_mono b bits bits' : 1 <= bm_max_peers b -> 0 <= bits <= bits' -> pages_for b bits <= pages_for b bits'.
Proof.
  intros Hp Hb. unfold pages_for. rewrite !pfn_up, page_size, !words_for_eq. pose proof words32_pos. apply Z.div_le_mono; [lia|].
  assert ((bits + 63) / 64 <= (bits' + 63) / 64) by zdiv. nia.
Qed.

Lemma bits_for_eq b capacity : 9 <= bm_block_shift b ->
  bits_for b capacity = (capacity + (2 ^ (bm_block_shift b - 9) - 1)) / 2 ^ (bm_block_shift b - 9).
Proof.
  intros Hs. unfold bits_for, bm_sect_to_bit, bm_sect_per_bit. rewrite Z.shiftl_1_l, align_pow2, Z.shiftr_div_pow2 by lia.
  apply Z.div_mul. pose proof (Z.pow_pos_nonneg 2 (bm_block_shift b - 9)). lia.
Qed.

Lemma bits_for_pos b capacity : 9 <= bm_block_shift b -> 0 < capacity -> 0 < bits_for b capacity.
Proof.
  intros Hs Hc. rewrite bits_for_eq by done. pose proof (Z.pow_pos_nonneg 2 (bm_block_shift b - 9)). apply Z.div_str_pos. lia.
Qed.

(** ** The pages of the new size *)

Lemma new_private_length have n : length (new_private have n) = Z.to_nat n.
Proof. unfold new_private. by rewrite length_fmap, length_seq. Qed.

Lemma mword_app m n w : 0 <= w -> mword (m ++ replicate n 0) w = mword m w.
Proof.
  intros Hw. unfold mword. destruct (Z.lt_ge_cases w (Z.of_nat (length m))).
  - by rewrite lookup_app_l by lia.
  - rewrite lookup_app_r by lia. rewrite (lookup_ge_None_2 m) by lia. simpl.
    destruct (replicate n 0 !! _) eqn:E; [|done]. by apply lookup_replicate in E as [-> _].
Qed.

Lemma mbit_app m n p : 0 <= p -> mbit (m ++ replicate n 0) p = mbit m p.
Proof. intros Hp. unfold mbit. rewrite mword_app; [done|]. zdiv. Qed.

Lemma mbit_take m n p : 0 <= p -> p / 32 < Z.of_nat n -> mbit (take n m) p = mbit m p.
Proof. intros Hp Hn. unfold mbit, mword. rewrite lookup_take_lt; [done|]. assert (0 <= p / 32) by zdiv. lia. Qed.

(** Bits beyond the memory are 0. *)
Lemma mbit_beyond m p : 0 <= p -> Z.of_nat (length m) <= p / 32 -> mbit m p = false.
Proof. intros Hp Hn. unfold mbit, mword. rewrite lookup_ge_None_2 by lia. apply Z.bits_0. Qed.

Definition resized (b : drbd_bitmap) (pages private : list Z) (capacity : Z) : drbd_bitmap :=
  let bits := bits_for b capacity in
  mk_bitmap pages private (bm_set b) bits
    (sect_to_bit (ALIGN capacity (sect_per_bit BM_BLOCK_SHIFT_4k)) BM_BLOCK_SHIFT_4k) (words_for b bits) (pages_for b bits)
    capacity (bm_on_dax b) (bm_max_peers b) (bm_block_shift b) (al_bitmap_hints b).

(** The array of pages for the new size: the common bits stay, new pages are 0. *)
Lemma realloc_ok b capacity :
  bm_wf b -> bm_sized b -> 9 <= bm_block_shift b -> 0 < capacity -> pages_for b (bits_for b capacity) <= 2 ^ 24 ->
  exists pages private,
    (if pages_for b (bits_for b capacity) =? bm_number_of_pages b then Ret (bm_pages b, page_private b)
     else bm_realloc_pages b (pages_for b (bits_for b capacity))) = Ret (pages, private) /\
    bm_wf (resized b pages private capacity) /\
    forall p, 0 <= p -> p / 32 < pages_for b (bits_for b capacity) * WORDS32_PER_PAGE -> mbit pages p = mbit (bm_pages b) p.
Proof.
  intros Hwf Hsz Hsh Hcap Hmax. set (want := pages_for b (bits_for b capacity)) in *. set (have := bm_number_of_pages b).
  pose proof (bits_for_pos b capacity Hsh Hcap). pose proof (wf_peers b Hwf) as Hpe. pose proof (wf_npages b Hwf) as Hnp. fold have in Hnp.
  pose proof (room_for b (bits_for b capacity) ltac:(lia) ltac:(lia)) as Hroom. fold want in Hroom.
  pose proof (wf_pages b Hwf) as Hlen. pose proof (wf_private b Hwf) as Hpl. fold have in Hlen, Hpl. pose proof words32_pos.
  assert (0 < want) as Hwant.
  { assert (1 <= (bits_for b capacity + 31) / 32) by zdiv. assert (1 <= want * WORDS32_PER_PAGE) by nia. nia. }
  assert (forall pages private, Z.of_nat (length pages) = want * WORDS32_PER_PAGE -> Z.of_nat (length private) = want ->
    Forall is_word32 pages -> bm_wf (resized b pages private capacity)) as Hres.
  { intros pages private Hl1 Hl2 Hw. split; simpl; try done; fold want; try lia. apply (wf_set b Hwf). }
  destruct (Z.eqb_spec want have) as [Heq|Hne].
  { exists (bm_pages b), (page_private b). split; [done|]. split; [|done]. apply Hres; try lia. apply (wf_words b Hwf). }
  assert (have = 0 <-> bm_pages b = []) as Hnil.
  { split; [|intros Hn; rewrite Hn in Hlen; simpl in Hlen; nia]. intros Hz. apply length_zero_iff_nil. rewrite Hz in Hlen. lia. }
  unfold bm_realloc_pages. fold have.
  assert ((have =? 0) && negb (bool_decide (bm_pages b = [])) = false) as ->.
  { destruct (Z.eqb_spec have 0); [|done]. rewrite bool_decide_true by (by apply Hnil). done. }
  assert (negb (have =? 0) && bool_decide (bm_pages b = []) = false) as ->.
  { destruct (Z.eqb_spec have 0); [done|]. rewrite bool_decide_false; [done|]. intros E. by apply Hnil in E. }
  destruct (Z.leb_spec have want).
  - assert ((have <? want) && negb (Z.ldiff (want - 1) BM_PAGE_IDX_MASK =? 0) = false) as ->.
    { destruct (have <? want); [|done]. simpl. apply negb_false_iff, Z.eqb_eq. unfold BM_PAGE_IDX_MASK. change (Z.shiftl 1 24 - 1) with (Z.ones 24).
      apply Z.ldiff_ones_r_low; [lia|]. destruct (decide (want - 1 = 0)) as [->|]; [done|]. apply Z.log2_lt_pow2; lia. }
    eexists _, _. split; [done|]. split.
    + apply Hres.
      * rewrite length_app, length_replicate. nia.
      * rewrite length_app, new_private_length. lia.
      * apply Forall_app. split; [apply (wf_words b Hwf)|]. by apply Forall_replicate.
    + intros p Hp _. by apply mbit_app.
  - eexists _, _. split; [done|]. split.
    + apply Hres.
      * rewrite length_take. nia.
      * rewrite length_take. lia.
      * apply Forall_take, (wf_words b Hwf).
    + intros p Hp Hlt. apply mbit_take; [done|]. lia.
Qed.

(** ** The new bits of one slot *)

Record slot_done (v : bool) (new : Z -> bool) (b : drbd_bitmap) (i c : Z) (b' : drbd_bitmap) : Prop := {
  sd_shape : same_shape b b';
  sd_wf : bm_wf b';
  sd_bits n : 0 <= n -> bm_bit b' i n = if new n then v else bm_bit b i n;
  sd_others j n : 0 <= j < bm_max_peers b -> j <> i -> 0 <= n -> bm_bit b' j n = bm_bit b j n;
  sd_set : bm_set b' !! Z.to_nat i = Some c;
  sd_set_others j : 0 <= j -> j <> i -> bm_set b' !! Z.to_nat j = bm_set b !! Z.to_nat j }.

Definition page_end (b : drbd_bitmap) (i obits : Z) : Z := Z.min (last_bit_on_page b i obits) (bm_bits b - 1).

(** The bits that are written one by one: the rest of the page of the first new bit,
    and those from the first bit on the last page. *)
Definition slot_new (v more : bool) (obits pe first bits n : Z) : bool :=
  (negb (obits =? 0) && (obits <=? n) && (n <=? pe)) || (v && more && (first <=? n) && (n <=? bits - 1)).

Lemma page_end_range b i obits : bm_wf b -> 0 <= i < bm_max_peers b -> 0 <= obits < bm_bits b ->
  obits <= page_end b i obits < bm_bits b.
Proof. intros Hwf Hi Ho. destruct (last_bit_spec b i obits Hwf Hi (proj1 Ho)) as (? & _). unfold page_end. lia. Qed.

Lemma range_slot v b i s e b' c : bm_wf b -> 0 <= i < bm_max_peers b ->
  range_set v b i s e b' -> slot_done v (fun n => (s <=? n) && (n <=? e)) b i c (set_count i c b').
Proof.
  intros Hwf Hi Hr. pose proof (rs_shape _ _ _ _ _ _ Hr) as Hsh. split; simpl.
  - done.
  - apply set_count_wf, Hr.
  - intros n Hn. change (bm_bit (set_count i c b') i n) with (bm_bit b' i n). by apply (rs_bits _ _ _ _ _ _ Hr).
  - intros j n Hj Hne Hn. change (bm_bit (set_count i c b') j n) with (bm_bit b' j n). by apply (rs_others _ _ _ _ _ _ Hr).
  - apply list_lookup_insert_eq. rewrite (rs_len _ _ _ _ _ _ Hr). pose proof (wf_set b Hwf). lia.
  - intros j Hj Hne. rewrite list_lookup_insert_ne by lia. by apply (rs_set_others _ _ _ _ _ _ Hr).
Qed.

(** Two ranges of the same slot. *)
Lemma range_slot2 v b i s e b1 s2 e2 b2 c : bm_wf b -> 0 <= i < bm_max_peers b ->
  range_set v b i s e b1 -> range_set v b1 i s2 e2 b2 ->
  slot_done v (fun n => ((s <=? n) && (n <=? e)) || ((s2 <=? n) && (n <=? e2))) b i c (set_count i c b2).
Proof.
  intros Hwf Hi H1 H2. pose proof (rs_shape _ _ _ _ _ _ H1) as Hs1. pose proof Hs1 as (_ & _ & _ & _ & _ & _ & Ep & _).
  pose proof (range_slot v b1 i s2 e2 b2 c (rs_wf _ _ _ _ _ _ H1) ltac:(rewrite Ep; lia) H2) as Hd. split; try apply Hd.
  - eapply same_shape_trans; [apply Hs1|apply Hd].
  - intros n Hn. rewrite (sd_bits _ _ _ _ _ _ Hd n Hn), (rs_bits _ _ _ _ _ _ H1 n Hn).
    destruct ((s <=? n) && (n <=? e)), ((s2 <=? n) && (n <=? e2)); done.
  - intros j n Hj Hne Hn. rewrite (sd_others _ _ _ _ _ _ Hd j n) by (rewrite ?Ep; done). by apply (rs_others _ _ _ _ _ _ H1).
  - intros j Hj Hne. rewrite (sd_set_others _ _ _ _ _ _ Hd j Hj Hne). by apply (rs_set_others _ _ _ _ _ _ H1).
Qed.

Lemma slot_done_ext v new new' b i c b' : (forall n, 0 <= n -> new n = new' n) ->
  slot_done v new b i c b' -> slot_done v new' b i c b'.
Proof. intros Hn Hd. split; try apply Hd. intros n Hn0. rewrite (sd_bits _ _ _ _ _ _ Hd n Hn0). by rewrite Hn. Qed.

Lemma resize_slot_ok v obits have want first i b :
  bm_wf b -> 0 <= i < bm_max_peers b -> 0 <= obits < bm_bits b -> 0 <= first ->
  exists b', resize_slot obits (bm_bits b) have want first v i b = Ret b' /\
    slot_done v (slot_new v (have <? want) obits (page_end b i obits) first (bm_bits b)) b i
      (if v then u64 (default 0 (bm_set b !! Z.to_nat i) + (bm_bits b - obits)) else default 0 (bm_set b !! Z.to_nat i)) b'.
Proof.
  intros Hwf Hi Ho Hf. pose proof (bits_small b Hwf). pose proof (page_end_range b i obits Hwf Hi Ho) as Hpe.
  unfold resize_slot. replace (if bm_bits b <=? last_bit_on_page b i obits then bm_bits b - 1 else last_bit_on_page b i obits)
    with (page_end b i obits) by (unfold page_end; case_if; lia).
  set (old := default 0 (bm_set b !! Z.to_nat i)).
  assert (exists b1, (if obits =? 0 then Ret b else let! (_, b) := bm_op_nobuf b i obits (page_end b i obits) (op_of v) in Ret b) = Ret b1 /\
    range_set v b i (if obits =? 0 then 1 else obits) (if obits =? 0 then 0 else page_end b i obits) b1) as (b1 & Hrun1 & H1).
  { destruct (obits =? 0) eqn:E0; [exists b; split; [done|by apply range_set_nil]|].
    destruct (bm_op_range v b i obits (page_end b i obits)) as (r & b1 & -> & Hr & _); try done; try lia.
    exists b1. split; [done|]. by rewrite clip_id in Hr by lia. }
  pose proof (rs_shape _ _ _ _ _ _ H1) as (E1 & _ & _ & _ & _ & _ & E7 & _).
  destruct v; simpl in *; rewrite Hrun1; cbn [obind].
  - destruct (have <? want) eqn:Ew.
    + destruct (bm_op_range true b1 i first (bm_bits b - 1)) as (r & b2 & Hrun2 & H2 & _); rewrite ?E1, ?E7; try apply H1; try done; try lia.
      change BM_OP_SET with (op_of true). rewrite Hrun2. cbn [obind]. eexists. split; [done|]. rewrite clip_id in H2 by lia.
      eapply slot_done_ext; [|by eapply range_slot2]. intros n Hn. unfold slot_new. simpl. f_equal.
      destruct (Z.eqb_spec obits 0); simpl; [|done]. destruct (Z.leb_spec 1 n), (Z.leb_spec n 0); simpl; done || lia.
    + eexists. split; [done|]. eapply slot_done_ext; [|by eapply range_slot]. intros n Hn. unfold slot_new. simpl. rewrite orb_false_r.
      destruct (Z.eqb_spec obits 0); simpl; [|done]. destruct (Z.leb_spec 1 n), (Z.leb_spec n 0); simpl; done || lia.
  - eexists. split; [done|]. eapply slot_done_ext; [|by eapply range_slot]. intros n Hn. unfold slot_new. simpl. rewrite orb_false_r.
    destruct (Z.eqb_spec obits 0); simpl; [|done]. destruct (Z.leb_spec 1 n), (Z.leb_spec n 0); simpl; done || lia.
Qed.

(** ** All slots *)

Definition slot_count (v : bool) (b : drbd_bitmap) (obits i : Z) : Z :=
  if v then u64 (default 0 (bm_set b !! Z.to_nat i) + (bm_bits b - obits)) else default 0 (bm_set b !! Z.to_nat i).

Lemma page_end_shape b b' i obits : same_shape b b' -> page_end b' i obits = page_end b i obits.
Proof. intros (E1 & _ & _ & _ & _ & _ & E7 & _). unfold page_end, last_bit_on_page, interleaved_word32. by rewrite E1, E7. Qed.

Lemma resize_slots_ok v obits have want first b : bm_wf b -> 0 <= obits < bm_bits b -> 0 <= first ->
  exists b', for_each_slot (resize_slot obits (bm_bits b) have want first v) b = Ret b' /\ same_shape b b' /\ bm_wf b' /\
    forall i, 0 <= i < bm_max_peers b -> bm_set b' !! Z.to_nat i = Some (slot_count v b obits i) /\
      forall n, 0 <= n -> bm_bit b' i n =
        if slot_new v (have <? want) obits (page_end b i obits) first (bm_bits b) n then v else bm_bit b i n.
Proof.
  intros Hwf Ho Hf. pose proof (wf_peers b Hwf) as Hp.
  destruct (for_slots_ok (fun k b' => same_shape b b' /\ bm_wf b' /\
      (forall i, 0 <= i < k -> bm_set b' !! Z.to_nat i = Some (slot_count v b obits i) /\
        forall n, 0 <= n -> bm_bit b' i n =
          if slot_new v (have <? want) obits (page_end b i obits) first (bm_bits b) n then v else bm_bit b i n) /\
      (forall i, k <= i < bm_max_peers b -> bm_set b' !! Z.to_nat i = bm_set b !! Z.to_nat i /\
        forall n, 0 <= n -> bm_bit b' i n = bm_bit b i n))
    (resize_slot obits (bm_bits b) have want first v) (Z.to_nat (bm_max_peers b)) 0 b) as (b' & Hrun & Hs & Hwf' & Hdone & _).
  - split_and!; try done. intros; lia.
  - intros k b1 Hk (Hs & Hwf1 & Hdone & Hrest). pose proof Hs as (E1 & _ & _ & _ & _ & _ & E7 & _).
    destruct (resize_slot_ok v obits have want first k b1) as (b2 & Hrun & Hd); rewrite ?E1, ?E7; try done; try lia.
    rewrite E1 in Hrun, Hd. exists b2. split; [done|]. rewrite (page_end_shape b b1) in Hd by done.
    split_and!; [by eapply same_shape_trans; [|apply Hd]|apply Hd| |].
    + intros i Hi. destruct (decide (i = k)) as [->|Hne].
      * destruct (Hrest k ltac:(lia)) as [Hset Hbit]. split; [rewrite (sd_set _ _ _ _ _ _ Hd); unfold slot_count; by rewrite Hset|].
        intros n Hn. rewrite (sd_bits _ _ _ _ _ _ Hd n Hn). by rewrite Hbit.
      * destruct (Hdone i ltac:(lia)) as [Hset Hbit]. split; [by rewrite (sd_set_others _ _ _ _ _ _ Hd) by lia|].
        intros n Hn. rewrite (sd_others _ _ _ _ _ _ Hd) by (rewrite ?E7; lia). by apply Hbit.
    + intros i Hi. destruct (Hrest i ltac:(lia)) as [Hset Hbit]. split; [by rewrite (sd_set_others _ _ _ _ _ _ Hd) by lia|].
      intros n Hn. rewrite (sd_others _ _ _ _ _ _ Hd) by (rewrite ?E7; lia). by apply Hbit.
  - exists b'. split_and!; try done. intros i Hi. apply Hdone. lia.
Qed.

(** ** Filling whole pages *)

Lemma mword_fill m first size w : (first + size <= length m)%nat -> 0 <= w ->
  mword (take first m ++ replicate size (2 ^ 32 - 1) ++ drop (first + size) m) w =
    if (Z.of_nat first <=? w) && (w <? Z.of_nat (first + size)) then 2 ^ 32 - 1 else mword m w.
Proof.
  intros Hl Hw. unfold mword. destruct (Z.leb_spec (Z.of_nat first) w), (Z.ltb_spec w (Z.of_nat (first + size))); simpl; try lia.
  - rewrite lookup_app_r, length_take, lookup_app_l by (rewrite ?length_take, ?length_replicate; lia).
    rewrite lookup_replicate_2 by lia. done.
  - rewrite lookup_app_r, length_take, lookup_app_r by (rewrite ?length_take, ?length_replicate; lia).
    rewrite length_replicate, lookup_drop. do 2 f_equal. lia.
  - rewrite lookup_app_l by (rewrite length_take; lia). by rewrite lookup_take_lt by lia.
Qed.

Lemma fill_pages_ok n p b : bm_wf b -> 0 <= p -> p + Z.of_nat n <= bm_number_of_pages b ->
  same_shape b (fill_pages n p b) /\ bm_wf (fill_pages n p b) /\ bm_set (fill_pages n p b) = bm_set b /\
  forall q, 0 <= q -> mbit (bm_pages (fill_pages n p b)) q =
    if (p * WORDS32_PER_PAGE <=? q / 32) && (q / 32 <? (p + Z.of_nat n) * WORDS32_PER_PAGE) then true else mbit (bm_pages b) q.
Proof.
  revert p b. induction n as [|n IH]; intros p b Hwf Hp Hn; cbn [fill_pages].
  - split_and!; try done. intros q Hq. rewrite Z.add_0_r.
    destruct (Z.leb_spec (p * WORDS32_PER_PAGE) (q / 32)), (Z.ltb_spec (q / 32) (p * WORDS32_PER_PAGE)); done || lia.
  - pose proof words32_pos. pose proof (wf_pages b Hwf) as Hlen.
    set (first := Z.to_nat (p * WORDS32_PER_PAGE)). set (size := Z.to_nat WORDS32_PER_PAGE).
    set (m := take first (bm_pages b) ++ replicate size (2 ^ 32 - 1) ++ drop (first + size) (bm_pages b)).
    assert (first + size <= length (bm_pages b))%nat as Hfit by (unfold first, size; nia).
    set (b1 := bm_set_page_need_writeout p (set_pages m b)).
    assert (same_shape b b1 /\ bm_pages b1 = m /\ bm_set b1 = bm_set b /\ length (page_private b1) = length (page_private b)) as (Hs & Hm & Hset & Hpr).
    { unfold b1, bm_set_page_need_writeout, set_page_flag. simpl. destruct (bm_on_dax b) eqn:E; split_and!; try done; apply length_alter. }
    assert (bm_wf b1) as Hwf1.
    { apply (shape_wf b); try done; rewrite ?Hset, ?Hpr, ?Hm; try done.
      - unfold m. rewrite !length_app, length_take, length_replicate, length_drop. lia.
      - unfold m. repeat (apply Forall_app; split); [apply Forall_take|by apply Forall_replicate|apply Forall_drop]; apply (wf_words b Hwf). }
    pose proof Hs as (_ & _ & _ & E4 & _).
    destruct (IH (p + 1) b1 Hwf1 ltac:(lia) ltac:(rewrite E4; lia)) as (Hs' & Hwf' & Hset' & Hb').
    split_and!; [by eapply same_shape_trans|done|congruence|]. intros q Hq. rewrite Hb' by done.
    assert (mbit (bm_pages b1) q = if (p * WORDS32_PER_PAGE <=? q / 32) && (q / 32 <? (p + 1) * WORDS32_PER_PAGE) then true else mbit (bm_pages b) q) as Hq1.
    { rewrite Hm. unfold mbit, m. rewrite mword_fill by (done || zdiv). unfold first, size.
      replace (Z.of_nat (Z.to_nat (p * WORDS32_PER_PAGE))) with (p * WORDS32_PER_PAGE) by nia.
      replace (Z.of_nat (Z.to_nat (p * WORDS32_PER_PAGE) + Z.to_nat WORDS32_PER_PAGE)) with ((p + 1) * WORDS32_PER_PAGE) by nia.
      destruct (_ && _); [|done]. apply ones32_bit. zdiv. }
    rewrite Hq1. replace (p + 1 + Z.of_nat n) with (p + Z.of_nat (S n)) by lia.
    destruct (Z.leb_spec ((p + 1) * WORDS32_PER_PAGE) (q / 32)), (Z.ltb_spec (q / 32) ((p + Z.of_nat (S n)) * WORDS32_PER_PAGE)),
      (Z.leb_spec (p * WORDS32_PER_PAGE) (q / 32)), (Z.ltb_spec (q / 32) ((p + 1) * WORDS32_PER_PAGE)); simpl; try done; nia.
Qed.

(** ** Growing *)

(** The new bits begin on the last page of every slot, or behind it. *)
Definition tail_on_last_page (b : drbd_bitmap) : Prop :=
  forall i, 0 <= i < bm_max_peers b -> bm_number_of_pages b - 1 <= bit_to_page_interleaved b i (bm_bits b).

(** What the loop over the slots and the filling of pages reach: the page of the first
    new bit of the slot, and the pages that were added. *)
Definition reached (b : drbd_bitmap) (i n : Z) : Prop :=
  bit_to_page_interleaved b i n = bit_to_page_interleaved b i (bm_bits b) \/
  bm_number_of_pages b <= bit_to_page_interleaved b i n.

Lemma bit_page b i n : 0 <= n -> bit_to_page_interleaved b i n = pos b i n / 32 / WORDS32_PER_PAGE.
Proof. intros Hn. unfold bit_to_page_interleaved. rewrite to_page, pos_word. unfold interleaved_word32. by rewrite shiftr5. Qed.

(** A bit on a page is at most the last one. *)
Lemma on_page_le b i n m : bm_wf b -> 0 <= i < bm_max_peers b -> 0 <= n <= m ->
  bit_to_page_interleaved b i m = bit_to_page_interleaved b i n -> m <= last_bit_on_page b i n.
Proof.
  intros Hwf Hi Hn Heq. destruct (last_bit_spec b i n Hwf Hi (proj1 Hn)) as (_ & _ & _ & Hl).
  destruct (Z.le_gt_cases m (last_bit_on_page b i n)) as [|Hgt]; [done|].
  destruct (last_bit_spec b i n Hwf Hi (proj1 Hn)) as (Hge & _).
  assert (0 <= last_bit_on_page b i n + 1 <= m) as Hr by lia. pose proof (page_mono b i _ m Hwf Hi Hr). lia.
Qed.

(** When the old bits end on the last page, all new ones are reached. *)
Lemma tail_reached b i n : bm_wf b -> tail_on_last_page b -> 0 <= i < bm_max_peers b -> bm_bits b <= n -> reached b i n.
Proof.
  intros Hwf Htail Hi Hn. pose proof (wf_bits b Hwf). specialize (Htail i Hi). unfold reached.
  pose proof (page_mono b i (bm_bits b) n Hwf Hi ltac:(lia)). lia.
Qed.

(** The first bit of the last page, when pages are added. *)
Definition first_bit_last_page (b : drbd_bitmap) (want : Z) : Z :=
  Z.shiftl ((want - 1) * (PAGE_SIZE / 4) / bm_max_peers b) 5.

Lemma first_last_page_spec b want : 1 <= bm_max_peers b ->
  first_bit_last_page b want = 32 * ((want - 1) * WORDS32_PER_PAGE / bm_max_peers b).
Proof.
  intros Hp. unfold first_bit_last_page. rewrite page_size, Z.mul_comm with (n := 4), Z.div_mul by lia.
  rewrite Z.shiftl_mul_pow2 by lia. lia.
Qed.

(** Bits on the last page are from the first bit of it on. *)
Lemma last_page_le b i n want : 1 <= bm_max_peers b -> 0 <= i < bm_max_peers b -> 0 <= n -> 1 <= want ->
  want - 1 <= bit_to_page_interleaved b i n -> first_bit_last_page b want <= n.
Proof.
  intros Hp Hi Hn Hw Hpage. rewrite first_last_page_spec by done. rewrite bit_page, pos_word in Hpage by done. pose proof words32_pos.
  assert ((want - 1) * WORDS32_PER_PAGE <= n / 32 * bm_max_peers b + i).
  { pose proof (Z.mul_div_le (n / 32 * bm_max_peers b + i) WORDS32_PER_PAGE). nia. }
  assert ((want - 1) * WORDS32_PER_PAGE / bm_max_peers b <= n / 32); [|zdiv].
  apply Z.lt_succ_r, Z.div_lt_upper_bound; nia.
Qed.

(** It is behind the old bits. *)
Lemma first_bit_new b obits have want : 1 <= bm_max_peers b -> 0 <= obits -> 0 <= have ->
  2 * ((obits + 63) / 64) * bm_max_peers b <= have * WORDS32_PER_PAGE -> have < want -> obits <= first_bit_last_page b want.
Proof.
  intros Hp Ho Hh Hroom Hw. rewrite first_last_page_spec by done. pose proof words32_pos.
  assert (2 * ((obits + 63) / 64) <= (want - 1) * WORDS32_PER_PAGE / bm_max_peers b); [|zdiv].
  apply Z.div_le_lower_bound; nia.
Qed.

(** The bits after growing: [b0] is the bitmap with its new pages, [b1] the one after
    the loop over the slots. *)
Section grow.
Variables (b b0 : drbd_bitmap) (v : bool).
Hypothesis Hwf : bm_wf b.
Hypothesis Hsz : bm_sized b.
Hypothesis Hwf0 : bm_wf b0.
Hypothesis Hpeers : bm_max_peers b0 = bm_max_peers b.
Hypothesis Hsz0 : bm_number_of_pages b0 = pages_for b (bm_bits b0).
Hypothesis Hgrow : bm_bits b < bm_bits b0.
Hypothesis Hold : forall i n, 0 <= i < bm_max_peers b -> 0 <= n < bm_bits b0 -> bm_bit b0 i n = bm_bit b i n.

Let have := bm_number_of_pages b.
Let want := bm_number_of_pages b0.
Let first := if v && (have <? want) then first_bit_last_page b want else 0.

Lemma grow_room : 2 * ((bm_bits b + 63) / 64) * bm_max_peers b <= have * WORDS32_PER_PAGE /\ 0 <= have <= want.
Proof.
  pose proof (wf_peers b Hwf). pose proof (wf_bits b Hwf). destruct Hsz as [_ Hn]. unfold have, want. rewrite Hsz0, Hn.
  pose proof (room_for b (bm_bits b) ltac:(lia) ltac:(lia)). pose proof (pages_for_mono b (bm_bits b) (bm_bits b0) ltac:(lia) ltac:(lia)).
  pose proof (wf_npages b Hwf). lia.
Qed.

Lemma empty_no_pages : bm_bits b = 0 -> have = 0.
Proof.
  intros Hz. destruct Hsz as [_ Hp]. unfold have. rewrite Hp, Hz. apply pages_for_0.
Qed.

Lemma pages_same_layout i n : bit_to_page_interleaved b0 i n = bit_to_page_interleaved b i n.
Proof. unfold bit_to_page_interleaved, interleaved_word32. by rewrite Hpeers. Qed.

Lemma new_bit_page i n : 0 <= i < bm_max_peers b -> bm_bits b <= n < bm_bits b0 -> reached b i n ->
  n <= page_end b0 i (bm_bits b) \/ have <= bit_to_page_interleaved b i n.
Proof.
  intros Hi Hn [Heq|]; [left|by right]. pose proof (wf_bits b Hwf).
  assert (n <= last_bit_on_page b0 i (bm_bits b)); [|unfold page_end; lia].
  apply on_page_le; try done; try lia. by rewrite !pages_same_layout.
Qed.

Lemma new_bits_zero i n : 0 <= i < bm_max_peers b -> bm_bits b <= n < bm_bits b0 ->
  have <= bit_to_page_interleaved b i n -> bm_bit b0 i n = false.
Proof.
  intros Hi Hn Hp. pose proof (wf_bits b Hwf). rewrite Hold by lia. unfold bm_bit. pose proof (wf_peers b Hwf). pose proof words32_pos.
  apply mbit_beyond; [apply pos_nonneg; lia|]. rewrite (wf_pages b Hwf). fold have. rewrite bit_page in Hp by lia.
  pose proof (Z.mul_div_le (pos b i n / 32) WORDS32_PER_PAGE). nia.
Qed.

Definition slot_at (i n : Z) : bool := slot_new v (have <? want) (bm_bits b) (page_end b0 i (bm_bits b)) first (bm_bits b0) n.

(** Old bits are neither written nor on a filled page. *)
Lemma old_not_new i n : 0 <= i < bm_max_peers b -> 0 <= n < bm_bits b -> slot_at i n = false.
Proof.
  intros Hi Hn. destruct grow_room as [Hr Hh]. pose proof (wf_peers b Hwf). unfold slot_at, slot_new, first.
  rewrite (proj2 (Z.leb_gt (bm_bits b) n)) by lia. rewrite andb_false_r. simpl.
  destruct (v && (have <? want)) eqn:E; [|done]. simpl. apply andb_true_iff in E as [_ E]. apply Z.ltb_lt in E.
  pose proof (first_bit_new b (bm_bits b) have want ltac:(lia) ltac:(lia) ltac:(lia) Hr E).
  by rewrite (proj2 (Z.leb_gt _ n)) by lia.
Qed.

Lemma old_not_filled i n : 0 <= i < bm_max_peers b -> 0 <= n < bm_bits b -> pos b i n / 32 < have * WORDS32_PER_PAGE.
Proof. intros Hi Hn. pose proof (pos_in_pages b i n Hwf Hi Hn) as Hp. by rewrite (wf_pages b Hwf) in Hp. Qed.

(** Every new bit that is reached is written, or on a filled page. *)
Lemma new_is_set i n : v = true -> 0 <= i < bm_max_peers b -> bm_bits b <= n < bm_bits b0 -> reached b i n ->
  slot_at i n = true \/ have <= bit_to_page_interleaved b i n < want - 1.
Proof.
  intros Hv Hi Hn Hre. pose proof (wf_bits b Hwf). pose proof (wf_peers b Hwf). destruct grow_room as [_ Hh].
  pose proof empty_no_pages as Hz. pose proof (page_of_bit b0 i n Hwf0 ltac:(lia) ltac:(lia)) as Hpn. rewrite pages_same_layout in Hpn. fold want in Hpn.
  assert (have <= bit_to_page_interleaved b i n -> slot_at i n = true \/ bit_to_page_interleaved b i n < want - 1) as Hnew.
  { intros Hp. destruct (Z.lt_ge_cases (bit_to_page_interleaved b i n) (want - 1)); [by right|left].
    unfold slot_at, slot_new, first. rewrite Hv, (proj2 (Z.ltb_lt have want)) by lia. simpl.
    pose proof (last_page_le b i n want ltac:(lia) Hi ltac:(lia) ltac:(lia) ltac:(lia)).
    rewrite (proj2 (Z.leb_le (first_bit_last_page b want) n)), (proj2 (Z.leb_le n (bm_bits b0 - 1))) by lia. apply orb_true_r. }
  destruct (decide (bm_bits b = 0)) as [Hb0|Hb0]; [specialize (Hz Hb0); destruct Hnew; [lia|by left|right; lia]|].
  destruct (new_bit_page i n Hi Hn Hre) as [Hle|Hp]; [left|destruct (Hnew Hp); [by left|right; lia]].
  unfold slot_at, slot_new. rewrite (proj2 (Z.eqb_neq _ _)), (proj2 (Z.leb_le (bm_bits b) n)), (proj2 (Z.leb_le n _)) by lia. done.
Qed.

Definition filled (q : Z) : bool :=
  v && (have + 1 <? want) && (have * WORDS32_PER_PAGE <=? q / 32) && (q / 32 <? (want - 1) * WORDS32_PER_PAGE).

(** Together: old bits stay, new ones that are reached have the value asked for. *)
Lemma grown_bits i n : 0 <= i < bm_max_peers b -> 0 <= n < bm_bits b0 -> (bm_bits b <= n -> reached b i n) ->
  (if filled (pos b i n) then true else if slot_at i n then v else bm_bit b0 i n) = if n <? bm_bits b then bm_bit b i n else v.
Proof.
  intros Hi Hn Hre. pose proof words32_pos. destruct (Z.ltb_spec n (bm_bits b)) as [Hlt|Hge].
  - rewrite (old_not_new i n) by (done || lia). unfold filled. pose proof (old_not_filled i n Hi ltac:(lia)).
    rewrite (proj2 (Z.leb_gt (have * WORDS32_PER_PAGE) _)) by lia. rewrite andb_false_r. simpl. by apply Hold.
  - destruct (decide (v = true)) as [Ev|Ev].
    + rewrite Ev. destruct (filled (pos b i n)) eqn:Efl; [done|]. destruct (new_is_set i n Ev Hi ltac:(lia) (Hre Hge)) as [->|Hp]; [done|].
      exfalso. unfold filled in Efl. rewrite Ev in Efl. rewrite bit_page in Hp by lia. simpl in Efl.
      assert (have * WORDS32_PER_PAGE <= pos b i n / 32 < (want - 1) * WORDS32_PER_PAGE) as Hw.
      { pose proof (Z.mul_div_le (pos b i n / 32) WORDS32_PER_PAGE). pose proof (Z.mul_succ_div_gt (pos b i n / 32) WORDS32_PER_PAGE). nia. }
      rewrite (proj2 (Z.ltb_lt _ _)), (proj2 (Z.leb_le _ _)), (proj2 (Z.ltb_lt _ _)) in Efl by lia. done.
    + apply not_true_is_false in Ev. unfold filled. rewrite Ev. simpl.
      destruct (slot_at i n) eqn:Es; [done|]. apply new_bits_zero; [done|lia|].
      destruct (decide (bm_bits b = 0)) as [Hz|Hz].
      * rewrite (empty_no_pages Hz), bit_page by lia. pose proof (pos_nonneg b (wf_peers b Hwf) i n ltac:(lia) ltac:(lia)).
        apply Z.div_pos; [zdiv|lia].
      * destruct (new_bit_page i n Hi ltac:(lia) (Hre Hge)) as [Hle|]; [|done]. exfalso. unfold slot_at, slot_new in Es. rewrite Ev in Es. simpl in Es.
        rewrite (proj2 (Z.eqb_neq _ _)), (proj2 (Z.leb_le (bm_bits b) n)), (proj2 (Z.leb_le n _)) in Es by lia. done.
Qed.

(** The counter of a slot is increased by the number of new set bits. *)
Lemma grown_count i (f : Z -> bool) : (forall n, 0 <= n < bm_bits b0 -> f n = if n <? bm_bits b then bm_bit b i n else v) ->
  count_range f 0 (bm_bits b0) = count_range (bm_bit b i) 0 (bm_bits b) + (if v then bm_bits b0 - bm_bits b else 0).
Proof.
  intros Hf. pose proof (wf_bits b Hwf). rewrite (count_range_split _ 0 (bm_bits b) (bm_bits b0)) by lia. f_equal.
  - apply count_range_ext. intros k Hk. rewrite Hf by lia. by rewrite (proj2 (Z.ltb_lt k _)) by lia.
  - destruct (decide (v = true)) as [Ev|Ev].
    + rewrite Ev. apply count_range_all; [lia|]. intros k Hk. rewrite Hf by lia. by rewrite (proj2 (Z.ltb_ge k _)) by lia.
    + apply not_true_is_false in Ev. rewrite Ev. apply count_range_none. intros k Hk. rewrite Hf by lia. by rewrite (proj2 (Z.ltb_ge k _)) by lia.
Qed.
End grow.

(** ** The whole routine *)

Record resize_ok (b : drbd_bitmap) (v : bool) (capacity : Z) (b' : drbd_bitmap) : Prop := {
  ro_wf : bm_wf b';
  ro_sized : bm_sized b';
  ro_length : bm_bits b' = bits_for b capacity;
  ro_capacity : bm_dev_capacity b' = capacity;
  ro_peers : bm_max_peers b' = bm_max_peers b;
  ro_shift : bm_block_shift b' = bm_block_shift b;
  ro_bits i n : 0 <= i < bm_max_peers b -> 0 <= n < bm_bits b' -> (bm_bits b <= n -> reached b i n) ->
    bm_bit b' i n = if n <? bm_bits b then bm_bit b i n else v;
  ro_counts : (bm_bits b < bits_for b capacity -> bm_counts b /\ tail_on_last_page b) -> bm_counts b' }.

Lemma shape_sized b b' : same_shape b b' -> bm_sized b -> bm_sized b'.
Proof. intros (E1 & _ & E3 & E4 & _ & _ & E7 & _) [H1 H2]. unfold bm_sized, pages_for, words_for in *. by rewrite E1, E3, E4, E7. Qed.

Lemma resize_shrink b v capacity pages private :
  bm_wf b -> bm_wf (resized b pages private capacity) -> bits_for b capacity <= bm_bits b ->
  (forall p, 0 <= p -> p / 32 < pages_for b (bits_for b capacity) * WORDS32_PER_PAGE -> mbit pages p = mbit (bm_pages b) p) ->
  exists b', bm_count_bits (resized b pages private capacity) = Ret b' /\ resize_ok b v capacity b'.
Proof.
  intros Hwf Hwf0 Hle Hbits. destruct (bm_count_bits_ok _ Hwf0) as (b' & -> & Hs & Hwf' & Hpg & _ & Hc).
  exists b'. split; [done|]. pose proof Hs as (E1 & _ & _ & _ & E5 & _ & E7 & E8 & _).
  split; try done; [by apply (shape_sized _ _ Hs)|].
  intros i n Hi Hn _. rewrite E1 in Hn. simpl in Hn. rewrite (proj2 (Z.ltb_lt n (bm_bits b))) by lia.
  rewrite (bm_bit_same (resized b pages private capacity) b') by done. rewrite Hpg. simpl. apply Hbits.
  - apply (pos_nonneg b (wf_peers b Hwf)); lia.
  - pose proof (pos_in_pages _ i n Hwf0 Hi Hn) as Hp. by rewrite (wf_pages _ Hwf0) in Hp.
Qed.

Lemma resize_grow b v capacity pages private :
  bm_wf b -> bm_sized b -> bm_wf (resized b pages private capacity) -> bm_bits b < bits_for b capacity ->
  (forall p, 0 <= p -> p / 32 < pages_for b (bits_for b capacity) * WORDS32_PER_PAGE -> mbit pages p = mbit (bm_pages b) p) ->
  let b0 := resized b pages private capacity in
  let have := bm_number_of_pages b in let want := bm_number_of_pages b0 in
  exists b',
    (let! b1 := for_each_slot (resize_slot (bm_bits b) (bm_bits b0) have want
        (if v && (have <? want) then first_bit_last_page b want else 0) v) b0 in
     Ret (if v && (have + 1 <? want) then fill_pages (Z.to_nat (want - 1 - have)) have b1 else b1)) = Ret b' /\
    resize_ok b v capacity b'.
Proof.
  intros Hwf Hsz Hwf0 Hgrow Hbits b0 have want. pose proof (wf_bits b Hwf) as Hob. pose proof (wf_peers b Hwf) as Hpe.
  assert (forall i n, 0 <= i < bm_max_peers b -> 0 <= n < bm_bits b0 -> bm_bit b0 i n = bm_bit b i n) as Hold.
  { intros i n Hi Hn. apply Hbits; [apply (pos_nonneg b Hpe); lia|].
    pose proof (pos_in_pages b0 i n Hwf0 Hi Hn) as Hp. by rewrite (wf_pages b0 Hwf0) in Hp. }
  pose proof words32_pos as HW. destruct (grow_room b b0 v Hwf Hsz eq_refl Hgrow) as [_ Hh]. fold have want in Hh.
  set (first := if v && (have <? want) then first_bit_last_page b want else 0).
  assert (0 <= first) as Hf.
  { unfold first. destruct (v && (have <? want)) eqn:Ef; [|done]. reflect_bools. rewrite first_last_page_spec by lia.
    assert (0 <= (want - 1) * WORDS32_PER_PAGE / bm_max_peers b); [apply Z.div_pos; nia|lia]. }
  destruct (resize_slots_ok v (bm_bits b) have want first b0 Hwf0 (conj Hob Hgrow) Hf) as (b1 & -> & Hs1 & Hwf1 & Hsl). cbn [obind].
  pose proof Hs1 as (_ & _ & _ & E4 & _). change (bm_number_of_pages b0) with want in E4.
  assert (exists b2, (if v && (have + 1 <? want) then fill_pages (Z.to_nat (want - 1 - have)) have b1 else b1) = b2 /\
    same_shape b1 b2 /\ bm_wf b2 /\ bm_set b2 = bm_set b1 /\
    forall q, 0 <= q -> mbit (bm_pages b2) q = if filled b b0 v q then true else mbit (bm_pages b1) q) as (b2 & -> & Hs2 & Hwf2 & Hset2 & Hb2).
  { eexists. split; [done|]. unfold filled. fold have want. destruct (v && (have + 1 <? want)) eqn:Ef; [|by split_and!]. reflect_bools.
    destruct (fill_pages_ok (Z.to_nat (want - 1 - have)) have b1) as (A & B & C & D); [done|lia|lia|]. split_and!; try done.
    intros q Hq. rewrite D by done. by replace (have + Z.of_nat (Z.to_nat (want - 1 - have))) with (want - 1) by lia. }
  pose proof (same_shape_trans _ _ _ Hs1 Hs2) as Hs. pose proof Hs as (E1 & _ & _ & _ & E5 & _ & E7 & E8 & _).
  assert (forall i n, 0 <= i < bm_max_peers b -> 0 <= n < bm_bits b0 -> (bm_bits b <= n -> reached b i n) ->
    bm_bit b2 i n = if n <? bm_bits b then bm_bit b i n else v) as Hbit.
  { intros i n Hi Hn Hre. rewrite <- (grown_bits b b0 v Hwf Hsz Hwf0 eq_refl eq_refl Hgrow Hold i n Hi Hn Hre).
    rewrite (bm_bit_same b0 b2) by done. rewrite Hb2 by (apply (pos_nonneg b Hpe); lia). change (pos b0 i n) with (pos b i n).
    destruct (filled b b0 v (pos b i n)); [done|]. destruct (Hsl i Hi) as [_ Hsl'].
    transitivity (bm_bit b1 i n); [by rewrite (bm_bit_same b0 b1)|apply Hsl'; lia]. }
  exists b2. split; [done|]. split; try done; [by apply (shape_sized _ _ Hs)|by rewrite E1|].
  intros Hpre i Hi. destruct (Hpre Hgrow) as [Hc Htail]. rewrite E7 in Hi. rewrite Hset2. destruct (Hsl i Hi) as [-> _]. rewrite E1. f_equal.
  rewrite (grown_count b b0 v Hwf Hgrow i _ (fun n Hn => Hbit i n Hi Hn (tail_reached b i n Hwf Htail Hi))). unfold slot_count. change (bm_set b0) with (bm_set b). rewrite (Hc i Hi). simpl.
  pose proof (count_range_bounds (bm_bit b i) 0 (bm_bits b) Hob). pose proof (bits_small _ Hwf0) as Hsm. fold b0 in Hsm.
  change (bits_for b capacity) with (bm_bits b0) in *. destruct v; [apply u64_small|]; lia.
Qed.

(** Growing and shrinking keep the bits of the blocks that stay, new blocks whose bits
    are reached have the value asked for, and the counters are exact if all are. *)
Lemma resize_correct on_disk v capacity b :
  bm_wf b -> bm_sized b -> 9 <= bm_block_shift b -> 0 < capacity -> capacity <> bm_dev_capacity b ->
  (if on_disk is Some n then bits_for b capacity <= n else True) -> pages_for b (bits_for b capacity) <= 2 ^ 24 ->
  exists b', drbd_bm_resize on_disk true capacity v b = Ret b' /\ resize_ok b v capacity b'.
Proof.
  intros Hwf Hsz Hsh Hcap Hne Hdisk Hmax. unfold drbd_bm_resize.
  rewrite (proj2 (Z.eqb_neq capacity _)), (proj2 (Z.eqb_neq capacity 0)) by lia.
  fold (bits_for b capacity). fold (words_for b (bits_for b capacity)). fold (pages_for b (bits_for b capacity)).
  replace (match on_disk with Some n => n <? bits_for b capacity | None => false end) with false
    by (destruct on_disk; [symmetry; apply Z.ltb_ge; done|done]).
  destruct (realloc_ok b capacity Hwf Hsz Hsh Hcap Hmax) as (pages & private & -> & Hwf0 & Hbits). cbn [obind].
  destruct (Z.ltb_spec (bm_bits b) (bits_for b capacity)) as [Hlt|Hge].
  - by apply (resize_grow b v capacity pages private); auto.
  - by apply (resize_shrink b v capacity pages private).
Qed.

(** ** Copying a slot *)

Lemma load_word_ok m w : 0 <= w < Z.of_nat (length m) ->
  load_word32 m w = Ret (mword m w) /\ forall v, store_word32 m w v = Ret (<[Z.to_nat w := v]> m).
Proof.
  intros Hw. pose proof words32_pos as HW. assert (0 < WORDS32_PER_PAGE) as HW0 by lia.
  pose proof (Z.mod_pos_bound w WORDS32_PER_PAGE HW0). pose proof (Z.div_mod w WORDS32_PER_PAGE).
  assert (0 <= w / WORDS32_PER_PAGE) by (apply Z.div_pos; lia). unfold load_word32, store_word32.
  rewrite to_page, to_in_page, Z.shiftl_mul_pow2 by lia.
  assert (w / WORDS32_PER_PAGE * BITS_PER_PAGE + w mod WORDS32_PER_PAGE * 2 ^ 5 = 32 * w) as He by (rewrite bits_per_page; lia).
  assert (0 <= w mod WORDS32_PER_PAGE * 2 ^ 5 < BITS_PER_PAGE) as Hb by (rewrite bits_per_page; lia).
  assert (32 * w / 32 = w) as Hd by zdiv.
  split.
  - destruct (load_ok m (32 * w) (w / WORDS32_PER_PAGE) (w mod WORDS32_PER_PAGE * 2 ^ 5)) as (Hl & _); try done; rewrite ?Hd in *; done || lia.
  - intros v. rewrite (store_ok m (32 * w)); rewrite ?Hd; done || lia.
Qed.

(** The rows below [r] have been copied. *)
Record copied (b : drbd_bitmap) (from_i to_i r : Z) (b' : drbd_bitmap) : Prop := {
  cp_shape : same_shape b b';
  cp_wf : bm_wf b';
  cp_bits n : 0 <= n -> bm_bit b' to_i n = if n / 32 <? r then bm_bit b from_i n else bm_bit b to_i n;
  cp_others j n : 0 <= j < bm_max_peers b -> j <> to_i -> 0 <= n -> bm_bit b' j n = bm_bit b j n;
  cp_set : bm_set b' !! Z.to_nat to_i = Some (count_range (bm_bit b from_i) 0 (32 * r));
  cp_set_others j : 0 <= j -> j <> to_i -> bm_set b' !! Z.to_nat j = bm_set b !! Z.to_nat j }.

Lemma copy_row b from_i to_i r b1 :
  0 <= from_i < bm_max_peers b -> 0 <= to_i < bm_max_peers b -> from_i <> to_i -> 0 <= r ->
  (r + 1) * bm_max_peers b <= bm_number_of_pages b * WORDS32_PER_PAGE ->
  copied b from_i to_i r b1 ->
  exists b2, copy_slot_loop from_i to_i 1 (r * bm_max_peers b) b1 = Ret b2 /\ copied b from_i to_i (r + 1) b2.
Proof.
  intros Hf Ht Hne Hr Hroom Hc. pose proof (cp_shape _ _ _ _ _ Hc) as Hs. pose proof Hs as (_ & _ & _ & E4 & _ & _ & E7 & _).
  pose proof (cp_wf _ _ _ _ _ Hc) as Hwf. pose proof (wf_pages b1 Hwf) as Hlen. rewrite E4 in Hlen.
  pose proof (wf_peers b1 Hwf) as Hpe. rewrite E7 in Hpe.
  cbn [copy_slot_loop]. destruct (load_word_ok (bm_pages b1) (r * bm_max_peers b + from_i) ltac:(nia)) as [-> _].
  destruct (load_word_ok (bm_pages b1) (r * bm_max_peers b + to_i) ltac:(nia)) as [-> Hst]. cbn [obind].
  set (w := mword (bm_pages b1) (r * bm_max_peers b + from_i)).
  set (b1' := if negb (mword (bm_pages b1) (r * bm_max_peers b + to_i) =? w) then _ else b1).
  assert (bm_pages b1' = bm_pages b1 /\ same_shape b1 b1' /\ bm_set b1' = bm_set b1 /\ length (page_private b1') = length (page_private b1))
    as (Epg & Hs1 & Eset & Elen).
  { unfold b1'. destruct (negb _); [|by split_and!]. unfold bm_set_page_need_writeout, set_page_flag.
    destruct (bm_on_dax b1); split_and!; try done. apply length_alter. }
  rewrite Epg, Hst. cbn [obind]. eexists. split; [done|].
  assert (is_word32 w) as Hw by (apply mword_word, (wf_words b1 Hwf)).
  assert (forall j n, pos b1 j n = pos b j n) as Hpos by (intros; unfold pos, interleaved_word32; by rewrite E7).
  assert (forall n, 0 <= n -> n / 32 = r -> Z.testbit w (n mod 32) = bm_bit b from_i n) as Hwb.
  { intros n Hn Hnr. rewrite <- (cp_others _ _ _ _ _ Hc from_i n) by done. unfold bm_bit. rewrite mbit_word, Hpos, pos_word, Hnr. done. }
  set (b2 := set_counts _ _).
  assert (same_shape b b2) as Hs2 by (apply (same_shape_trans _ b1 _ Hs); by apply (same_shape_trans _ b1' _ Hs1)).
  assert (forall j n, 0 <= j < bm_max_peers b -> 0 <= n -> bm_bit b2 j n =
    if (j =? to_i) && (n / 32 =? r) then bm_bit b from_i n else bm_bit b1 j n) as Hbits.
  { intros j n Hj Hn. rewrite (bm_bit_same b) by done. simpl. rewrite mbit_insert by (nia || (apply (pos_nonneg b Hpe); lia)).
    rewrite pos_word, pos_bit. rewrite (bm_bit_same b b1) by done. destruct (Z.eqb_spec j to_i) as [->|Hj'], (Z.eqb_spec (n / 32) r) as [Hn'|Hn']; simpl.
    - rewrite Hn', Z.eqb_refl. by apply Hwb.
    - rewrite (proj2 (Z.eqb_neq _ _)); [done|]. assert (0 <= n / 32) by zdiv. nia.
    - rewrite (proj2 (Z.eqb_neq _ _)); [done|]. nia.
    - rewrite (proj2 (Z.eqb_neq _ _)); [done|]. assert (0 <= n / 32) by zdiv. nia. }
  split; [done| | | | |].
  - apply (shape_wf b1); try done; simpl.
    + by rewrite length_insert.
    + by rewrite length_alter, Eset.
    + apply Forall_insert; [apply (wf_words b1 Hwf)|done].
  - intros n Hn. rewrite Hbits, Z.eqb_refl by done. simpl. rewrite (cp_bits _ _ _ _ _ Hc n Hn).
    destruct (Z.eqb_spec (n / 32) r), (Z.ltb_spec (n / 32) r), (Z.ltb_spec (n / 32) (r + 1)); done || lia.
  - intros j n Hj Hj' Hn. rewrite Hbits by done. rewrite (proj2 (Z.eqb_neq j to_i)) by done. by apply (cp_others _ _ _ _ _ Hc).
  - simpl. rewrite Eset, list_lookup_alter_eq, (cp_set _ _ _ _ _ Hc). simpl. f_equal.
    rewrite (count_range_split _ 0 (32 * r) (32 * (r + 1))) by lia.
    assert (hweight32 w = count_range (bm_bit b from_i) (32 * r) (32 * (r + 1))) as Hh.
    { rewrite hweight32_range. replace (32 * (r + 1)) with (32 * r + 32) by lia. apply count_range_shift; [lia|]. intros k Hk.
      rewrite Z.add_0_l. rewrite <- (Hwb (32 * r + k)) by zdiv. f_equal. zdiv. }
    rewrite <- Hh. apply u64_small. pose proof (count_range_bounds (bm_bit b from_i) 0 (32 * r) ltac:(lia)).
    pose proof (count_range_bounds (bm_bit b from_i) (32 * r) (32 * (r + 1)) ltac:(lia)). pose proof (wf_npages b1 Hwf) as Hnp. rewrite E4 in Hnp.
    pose proof words32_pos. assert (r + 1 <= 2 ^ 24 * 2 ^ 18) by nia. lia.
  - intros j Hj Hj'. simpl. rewrite Eset, list_lookup_alter_ne by lia. by apply (cp_set_others _ _ _ _ _ Hc).
Qed.

Lemma copy_loop_snoc from_i to_i n word b : 
  copy_slot_loop from_i to_i (S n) word b =
  let! b1 := copy_slot_loop from_i to_i 1 word b in copy_slot_loop from_i to_i n (word + bm_max_peers b1) b1.
Proof.
  cbn [copy_slot_loop]. destruct (load_word32 _ _); try done. cbn [obind]. destruct (load_word32 _ _); try done. cbn [obind].
  by destruct (store_word32 _ _ _).
Qed.

Lemma copy_loop_ok b from_i to_i n r b1 :
  0 <= from_i < bm_max_peers b -> 0 <= to_i < bm_max_peers b -> from_i <> to_i -> 0 <= r ->
  (r + Z.of_nat n) * bm_max_peers b <= bm_number_of_pages b * WORDS32_PER_PAGE -> copied b from_i to_i r b1 ->
  exists b2, copy_slot_loop from_i to_i n (r * bm_max_peers b) b1 = Ret b2 /\ copied b from_i to_i (r + Z.of_nat n) b2.
Proof.
  intros Hf Ht Hne. revert r b1. induction n as [|n IH]; intros r b1 Hr Hroom Hc.
  - exists b1. split; [done|]. by rewrite Z.add_0_r.
  - destruct (copy_row b from_i to_i r b1) as (b2 & Hrow & Hc2); try done; [nia|].
    pose proof (cp_shape _ _ _ _ _ Hc2) as (_ & _ & _ & _ & _ & _ & E7 & _).
    rewrite copy_loop_snoc, Hrow. cbn [obind]. rewrite E7. replace (r * bm_max_peers b + bm_max_peers b) with ((r + 1) * bm_max_peers b) by lia.
    destruct (IH (r + 1) b2) as (b3 & Hrun & Hc3); try done; [lia|nia|]. exists b3. split; [done|].
    by replace (r + Z.of_nat (S n)) with (r + 1 + Z.of_nat n) by lia.
Qed.

(** The bits between the end of the bitmap and the end of its last words. *)
Definition clean_padding (b : drbd_bitmap) (i : Z) : Prop :=
  forall n, bm_bits b <= n < 64 * ((bm_bits b + 63) / 64) -> bm_bit b i n = false.

Lemma copy_slot_ok b from_i to_i : bm_wf b -> bm_sized b ->
  0 <= from_i < bm_max_peers b -> 0 <= to_i < bm_max_peers b -> from_i <> to_i ->
  exists b', drbd_bm_copy_slot b from_i to_i = Ret b' /\ copied b from_i to_i (2 * ((bm_bits b + 63) / 64)) b'.
Proof.
  intros Hwf Hsz Hf Ht Hne. pose proof (wf_peers b Hwf) as Hpe. pose proof (wf_bits b Hwf). destruct Hsz as [Hw Hn].
  unfold drbd_bm_copy_slot. rewrite Hw, words_for_eq. set (rows := (bm_bits b + 63) / 64). assert (0 <= rows) by (unfold rows; zdiv).
  replace ((rows * bm_max_peers b * 8 / 4 + bm_max_peers b - 1) / bm_max_peers b) with (2 * rows).
  2: { replace (rows * bm_max_peers b * 8 / 4) with (2 * rows * bm_max_peers b) by zdiv. symmetry.
       replace (2 * rows * bm_max_peers b + bm_max_peers b - 1) with (bm_max_peers b - 1 + 2 * rows * bm_max_peers b) by lia.
       rewrite Z.div_add by lia. rewrite Z.div_small by lia. lia. }
  pose proof (room_for b (bm_bits b) ltac:(lia) ltac:(lia)) as Hroom. rewrite <- Hn in Hroom. fold rows in Hroom.
  destruct (copy_loop_ok b from_i to_i (Z.to_nat (2 * rows)) 0 (set_count to_i 0 b)) as (b' & Hrun & Hc); try done; try lia.
  - split; try done.
    + by apply set_count_wf.
    + intros n Hn0. rewrite (proj2 (Z.ltb_ge _ _)) by zdiv. done.
    + simpl. rewrite list_lookup_insert_eq; [done|]. pose proof (wf_set b Hwf). lia.
    + intros j Hj Hj'. simpl. by rewrite list_lookup_insert_ne by lia.
  - exists b'. split; [done|]. by replace (0 + Z.of_nat (Z.to_nat (2 * rows))) with (2 * rows) in Hc by lia.
Qed.

(** The counter of a copy is exact when the padding of the source is clean. *)
Lemma copied_counts b from_i to_i b' : bm_wf b -> bm_counts b -> 0 <= to_i < bm_max_peers b ->
  clean_padding b from_i -> copied b from_i to_i (2 * ((bm_bits b + 63) / 64)) b' -> bm_counts b'.
Proof.
  intros Hwf Hc Ht Hpad Hcp j Hj. pose proof (cp_shape _ _ _ _ _ Hcp) as (E1 & _ & _ & _ & _ & _ & E7 & _). rewrite E7 in Hj. rewrite E1.
  pose proof (wf_bits b Hwf). destruct (decide (j = to_i)) as [->|Hne].
  - rewrite (cp_set _ _ _ _ _ Hcp). f_equal. rewrite (count_range_split _ 0 (bm_bits b) (32 * _)) by zdiv.
    rewrite (count_range_none _ (bm_bits b)) by (intros; apply Hpad; lia). rewrite Z.add_0_r. apply count_range_ext. intros k Hk.
    rewrite (cp_bits _ _ _ _ _ Hcp) by lia. by rewrite (proj2 (Z.ltb_lt _ _)) by zdiv.
  - rewrite (cp_set_others _ _ _ _ _ Hcp) by lia. rewrite (Hc j Hj). f_equal. apply count_range_ext. intros k Hk. symmetry.
    apply (cp_others _ _ _ _ _ Hcp); lia.
Qed.

Lemma free_ok on_disk alloc v b : bm_wf b -> 0 <> bm_dev_capacity b ->
  exists b', drbd_bm_resize on_disk alloc 0 v b = Ret b' /\ bm_wf b' /\ bm_sized b' /\ bm_counts b' /\ bm_block_shift b' = bm_block_shift b.
Proof.
  intros Hwf Hne. unfold drbd_bm_resize. rewrite (proj2 (Z.eqb_neq 0 _)) by done. simpl. eexists. split; [done|].
  pose proof (wf_set b Hwf) as Hset. split_and!; try done.
  - destruct Hwf. split; simpl; try done; try lia. rewrite length_app, length_replicate. lia.
  - split; [done|symmetry; apply pages_for_0].
  - intros i Hi. simpl in *. rewrite lookup_app_l by (rewrite length_replicate; lia). apply lookup_replicate_2. lia.
Qed.

(** ** Every sequence of calls *)

(** The calls that change the bitmap.  The boolean says whether the counters are known
    to be exact: counting, and the counting that ends a resize to fewer blocks, make
    them exact; a resize to more blocks keeps them so when all new bits are reached,
    and copying a slot when the padding of its source is clean.  A device has at most
    [2 ^ 24] pages of bitmap, the limit of [bm_store_page_idx]. *)
Inductive bm_step : bool -> drbd_bitmap -> bool -> drbd_bitmap -> Prop :=
  | step_op x b i s e op buf r b' buf' :
      op_pre b i s e op buf -> bm_op b i s e op buf = Ret (r, b', buf') -> bm_step x b x b'
  | step_many x b i s e v b' :
      0 < bm_bits b -> 0 <= i < bm_max_peers b -> 0 <= s -> 0 <= e < 2 ^ 64 ->
      __bm_many_bits_op b i s e (op_of v) = Ret b' -> bm_step x b x b'
  | step_recount x b b' : bm_count_bits b = Ret b' -> bm_step x b true b'
  | step_copy x b from_i to_i x' b' :
      0 <= from_i < bm_max_peers b -> 0 <= to_i < bm_max_peers b -> from_i <> to_i ->
      (x' = true -> x = true /\ clean_padding b from_i) ->
      drbd_bm_copy_slot b from_i to_i = Ret b' -> bm_step x b x' b'
  | step_resize x b on_disk alloc v capacity x' b' :
      0 <= capacity -> pages_for b (bits_for b capacity) <= 2 ^ 24 ->
      (x' = true -> (capacity = bm_dev_capacity b -> x = true) /\ (bm_bits b < bits_for b capacity -> x = true /\ tail_on_last_page b)) ->
      drbd_bm_resize on_disk alloc capacity v b = Ret b' -> bm_step x b x' b'.

Inductive bm_reachable (shift_min size_max : Z) (peers_max : nat) : bool -> drbd_bitmap -> Prop :=
  | reach_alloc peers shift b : drbd_bm_alloc shift_min size_max peers_max peers shift = Some b ->
      bm_reachable shift_min size_max peers_max true b
  | reach_step x b x' b' : bm_reachable shift_min size_max peers_max x b -> bm_step x b x' b' ->
      bm_reachable shift_min size_max peers_max x' b'.

Definition bm_inv (x : bool) (b : drbd_bitmap) : Prop :=
  bm_wf b /\ bm_sized b /\ (x = true -> bm_counts b) /\ 9 <= bm_block_shift b.

Lemma alloc_inv shift_min size_max peers_max peers shift b : 9 <= shift_min -> (peers_max <= 64)%nat ->
  drbd_bm_alloc shift_min size_max peers_max peers shift = Some b -> bm_inv true b.
Proof.
  intros Hs Hp. unfold drbd_bm_alloc. case_if; [done|]. case_if; [done|]. intros [= <-]. pose proof words32_pos. split; [|split; [|split]].
  - split; simpl; try done; try lia. rewrite length_replicate. lia.
  - split; [done|symmetry; apply pages_for_0].
  - intros _ i Hi. simpl in *. apply lookup_replicate_2. lia.
  - simpl. lia.
Qed.

Lemma shape_inv x x' b b' : bm_inv x b -> same_shape b b' -> bm_wf b' -> (x' = true -> bm_counts b') -> bm_inv x' b'.
Proof.
  intros (_ & Hsz & _ & Hsh) Hs Hwf Hc. split; [done|]. split; [apply (shape_sized _ _ Hs Hsz)|]. split; [done|].
  by destruct Hs as (_ & _ & _ & _ & _ & _ & _ & -> & _).
Qed.

(** The checks only keep it from running. *)
Lemma resize_ret on_disk alloc v capacity b b' :
  drbd_bm_resize on_disk alloc capacity v b = Ret b' -> drbd_bm_resize None true capacity v b = Ret b'.
Proof.
  unfold drbd_bm_resize. destruct (capacity =? bm_dev_capacity b); [done|]. destruct (capacity =? 0); [done|].
  destruct (match on_disk with Some n => _ | None => false end); [done|]. destruct alloc; [done|].
  by destruct (PFN_UP _ =? bm_number_of_pages b).
Qed.

Lemma resize_cases on_disk alloc v capacity b : 0 < capacity -> capacity <> bm_dev_capacity b ->
  drbd_bm_resize on_disk alloc capacity v b = Fail ENOSPC /\ (exists n, on_disk = Some n /\ n < bits_for b capacity) \/
  drbd_bm_resize on_disk alloc capacity v b = Fail ENOMEM /\ alloc = false \/
  drbd_bm_resize on_disk alloc capacity v b = drbd_bm_resize None true capacity v b.
Proof.
  intros Hcap Hne. unfold drbd_bm_resize. rewrite (proj2 (Z.eqb_neq capacity _)), (proj2 (Z.eqb_neq capacity 0)) by lia.
  fold (bits_for b capacity). destruct on_disk as [n|]; [destruct (Z.ltb_spec n (bits_for b capacity)); [left; by eauto|]|].
  all: destruct alloc; [by right; right|]; destruct (PFN_UP _ =? bm_number_of_pages b); [by right; right|by right; left].
Qed.

Lemma resize_inv x x' b v capacity b' : bm_inv x b -> 0 <= capacity -> pages_for b (bits_for b capacity) <= 2 ^ 24 ->
  (x' = true -> (capacity = bm_dev_capacity b -> x = true) /\ (bm_bits b < bits_for b capacity -> x = true /\ tail_on_last_page b)) ->
  drbd_bm_resize None true capacity v b = Ret b' -> bm_inv x' b'.
Proof.
  intros (Hwf & Hsz & Hc & Hsh) Hcap Hmax Hx Hrun. destruct (decide (capacity = bm_dev_capacity b)) as [Heq|Hne].
  { unfold drbd_bm_resize in Hrun. rewrite (proj2 (Z.eqb_eq _ _) Heq) in Hrun. simplify_eq. split; [done|]. split; [done|]. split; [|done]. intros E. apply Hc. by apply (proj1 (Hx E)). }
  destruct (decide (capacity = 0)) as [->|Hnz].
  - destruct (free_ok None true v b Hwf Hne) as (b1 & Hrun1 & Hwf1 & Hsz1 & Hc1 & Hsh1). rewrite Hrun1 in Hrun. simplify_eq.
    split; [done|]. split; [done|]. split; [done|lia].
  - destruct (resize_correct None v capacity b) as (b1 & Hrun1 & Hr); try done; [lia|]. rewrite Hrun1 in Hrun. simplify_eq.
    split; [apply Hr|]. split; [apply Hr|]. split; [|rewrite (ro_shift _ _ _ _ Hr); lia].
    intros E. apply (ro_counts _ _ _ _ Hr). intros Hgrow. destruct (Hx E) as [_ Hg]. destruct (Hg Hgrow). split; [by apply Hc|done].
Qed.

Lemma step_inv x b x' b' : bm_inv x b -> bm_step x b x' b' -> bm_inv x' b'.
Proof.
  intros Hinv Hstep. pose proof Hinv as (Hwf & Hsz & Hc & Hsh). destruct Hstep as [x b i s e op buf r b' buf' Hpre Hrun|
    x b i s e v b' Hb Hi Hs He Hrun|x b b' Hrun|x b from_i to_i x' b' Hf Ht Hne Hpad Hrun|x b on_disk alloc v capacity x' b' Hcap Hmax Htail Hrun].
  - destruct (decide (bm_bits b = 0)) as [Hz|Hz].
    + unfold bm_op in Hrun. rewrite Hz in Hrun. simpl in Hrun. by destruct (bm_number_of_pages b =? 0); simplify_eq.
    + pose proof (wf_bits b Hwf). rewrite bm_op_runs in Hrun by (done || lia).
      destruct (bm_op_done b i s e op buf Hwf ltac:(lia) Hpre) as (r1 & b1 & buf1 & Hrun1 & Hd). rewrite Hrun1 in Hrun. simplify_eq.
      apply (shape_inv x x b); [done|apply Hd|by eapply op_done_wf|]. destruct Hpre as (Hi & Hs & _). intros E.
      eapply op_done_counts; [..|exact Hd]; try done; [|by apply Hc]. unfold clip. lia.
  - destruct (many_bits_ok v b i s e) as (b1 & Hrun1 & Hr); try done. rewrite Hrun1 in Hrun. simplify_eq.
    apply (shape_inv x x b); [done|apply Hr|apply Hr|]. intros E. specialize (Hc E). by apply Hr.
  - destruct (bm_count_bits_ok b Hwf) as (b1 & Hrun1 & Hs & Hwf1 & _ & _ & Hc1). rewrite Hrun1 in Hrun. simplify_eq. by apply (shape_inv x true b).
  - destruct (copy_slot_ok b from_i to_i) as (b1 & Hrun1 & Hcp); try done. rewrite Hrun1 in Hrun. simplify_eq.
    apply (shape_inv x x' b); [done|apply Hcp|apply Hcp|]. intros E. destruct (Hpad E). eapply copied_counts; try done. by apply Hc.
  - apply resize_ret in Hrun. by eapply (resize_inv x x').
Qed.

(** C31: in every state that allocation, operations on bits, copying slots, recounting
    and resizing can reach, in any order and whatever the sizes, the sizes of the
    bitmap belong together, its arrays have these sizes and hold 32 bit words.  The
    counter of every slot is the number of its set bits in every state of which
    [bm_reachable] says [true]: from the allocation, or the last call that counts the
    bits (a recount, a resize to fewer blocks), on, as long as no resize grew a bitmap
    whose last bits are not on its last page and no slot was copied whose padding has
    set bits; [resize_misses_blocks] and [copy_counts_padding] are these two cases.
    [shift_min], [size_max] and [peers_max] are [BM_BLOCK_SHIFT_MIN],
    [BM_BLOCK_SIZE_MAX] and [DRBD_PEERS_MAX]. *)
Theorem bm_reachable_inv shift_min size_max peers_max exact b : 9 <= shift_min -> (peers_max <= 64)%nat ->
  bm_reachable shift_min size_max peers_max exact b -> bm_wf b /\ bm_sized b /\ (exact = true -> bm_counts b).
Proof.
  intros Hs Hp Hr. assert (bm_inv exact b) as (? & ? & ? & _); [|done].
  induction Hr as [peers shift b Ha|x b x' b' _ IH Hst]; [by eapply alloc_inv|by eapply step_inv].
Qed.


Lemma tail_one_page b : bm_wf b -> bm_number_of_pages b <= 1 -> tail_on_last_page b.
Proof.
  intros Hwf Hn i Hi. pose proof (wf_bits b Hwf). rewrite bit_page by done. pose proof words32_pos.
  pose proof (pos_nonneg b (wf_peers b Hwf) i (bm_bits b) ltac:(lia) ltac:(lia)).
  assert (0 <= pos b i (bm_bits b) / 32 / WORDS32_PER_PAGE); [|lia]. apply Z.div_pos; [zdiv|lia].
Qed.
End resize.

(** ** Runs *)

Definition after {A} (d : A) (o : outcome A) : A := match o with Ret a => a | _ => d end.
Definition fresh_bitmap (peers : Z) : drbd_bitmap := default demo_bitmap (drbd_bm_alloc 12 (2 ^ 20) 32 peers 12).
Definition with_capacity (capacity : Z) (v : bool) (b : drbd_bitmap) : drbd_bitmap :=
  after demo_bitmap (@drbd_bm_resize PAGE_SHIFT_4k None true capacity v b).

(** A new bitmap for two peers, then 100 blocks, out of sync. *)
Definition run_bitmap : drbd_bitmap := with_capacity 800 true (fresh_bitmap 2).

Lemma bm_reachable_inv_witness :
  bm_reachable (H := PAGE_SHIFT_4k) 12 (2 ^ 20) 32 true run_bitmap /\ @bm_wf PAGE_SHIFT_4k run_bitmap /\ @bm_counts run_bitmap.
Proof.
  assert (bm_reachable (H := PAGE_SHIFT_4k) 12 (2 ^ 20) 32 true (fresh_bitmap 2)) as Hf by (by apply (reach_alloc _ _ _ 2 12)).
  assert (bm_reachable (H := PAGE_SHIFT_4k) 12 (2 ^ 20) 32 true run_bitmap) as Hr.
  { eapply reach_step; [exact Hf|].
    apply (step_resize true (fresh_bitmap 2) None true true 800); [lia|done| |vm_compute; reflexivity].
    intros _. split; [done|]. intros _. split; [done|]. apply tail_one_page; [|done].
    exact (proj1 (@bm_reachable_inv PAGE_SHIFT_4k 12 (2 ^ 20) 32 true (fresh_bitmap 2) ltac:(lia) ltac:(lia) Hf)). }
  destruct (@bm_reachable_inv PAGE_SHIFT_4k 12 (2 ^ 20) 32 true run_bitmap ltac:(lia) ltac:(lia) Hr) as (Hw & _ & Hc).
  split; [exact Hr|]. split; [exact Hw|exact (Hc eq_refl)].
Defined.

Lemma run_bitmap_inv : @bm_inv PAGE_SHIFT_4k true run_bitmap.
Proof.
  apply (resize_inv (H := PAGE_SHIFT_4k) true true (fresh_bitmap 2) true 800); [by apply (alloc_inv 12 (2 ^ 20) 32 2 12); try lia|lia|done| |vm_compute; reflexivity].
  intros _. split; [done|]. intros _. split; [done|]. apply tail_one_page; [|done].
  by apply (alloc_inv 12 (2 ^ 20) 32 2 12); try lia.
Qed.


(** With three peers and 10885 blocks the bitmap has two pages, because the words for
    the blocks 10880 to 10943 reach beyond the first page; the first block after them
    is on the first page.  Growing to 20000 blocks that are to be resynchronised sets
    the bits up to the end of the first page only: the second page is neither the one
    of the first new block nor a new one.  The counters count all of them. *)
Example resize_misses_blocks :
  let b := with_capacity (8 * 20000) true (with_capacity (8 * 10885) false (fresh_bitmap 3)) in
  bm_bits b = 20000 /\ bm_bit b 0 10943 = true /\ bm_bit b 0 10944 = false /\ bm_bit b 0 19999 = false /\
  bm_bit b 1 10911 = true /\ bm_bit b 1 10912 = false /\
  bm_set b !! 1%nat = Some 9115 /\ count_range (bm_bit b 1) 0 20000 = 27.
Proof. vm_compute. repeat split. Qed.

(** After the bitmap has become smaller, the rest of its last word still has the old
    bits, and [drbd_bm_copy_slot] counts them. *)
Example copy_counts_padding :
  let b := with_capacity 320 false (with_capacity 800 true (fresh_bitmap 2)) in
  let b' := after demo_bitmap (@drbd_bm_copy_slot PAGE_SHIFT_4k b 0 1) in
  bm_set b !! 0%nat = Some 40 /\ bm_set b' !! 1%nat = Some 64 /\ count_range (bm_bit b' 1) 0 (bm_bits b') = 40.
Proof. vm_compute. repeat split. Qed.
