(* ===== verification/BitmapDisk.v ===== *)
(** * The bitmap: its copy on disk

    A page without marks and without an I/O error is the same on disk and in memory
    ([synced]).  Operations on bits keep this because they mark the pages they
    change; writing keeps it and brings the selected pages to the disk. *)
From S2P Require Import Prelude Bitmap BitmapProps BitmapOps.

Section disk.
Context `{Arch}.

(** Page [k] on disk is the page in memory, as far as the area reaches. *)
Definition on_disk (m area : list Z) (k : Z) : Prop :=
  forall w, 0 <= w < Z.of_nat (length area) -> w / WORDS32_PER_PAGE = k -> mword area w = mword m w.

Definition clean_page (p : Z) : bool := bm_test_page_unchanged p && negb (Z.testbit p BM_PAGE_IO_ERROR).

Definition synced (b : drbd_bitmap) (area : list Z) : Prop :=
  forall k p, page_private b !! k = Some p -> clean_page p = true -> on_disk (bm_pages b) area (Z.of_nat k).

Lemma unchanged_bits p : bm_test_page_unchanged p =
  negb (Z.testbit p BM_PAGE_NEED_WRITEOUT) && negb (Z.testbit p BM_PAGE_LAZY_WRITEOUT).
Proof.
  unfold bm_test_page_unchanged. destruct (Z.eqb_spec (Z.land p (Z.lor (Z.shiftl 1 BM_PAGE_NEED_WRITEOUT) (Z.shiftl 1 BM_PAGE_LAZY_WRITEOUT))) 0) as [He|He].
  - assert (forall k, 0 <= k -> Z.testbit (Z.lor (Z.shiftl 1 BM_PAGE_NEED_WRITEOUT) (Z.shiftl 1 BM_PAGE_LAZY_WRITEOUT)) k = true -> Z.testbit p k = false) as Hk.
    { intros k Hk Ht. apply (f_equal (fun z => Z.testbit z k)) in He. by rewrite Z.land_spec, Ht, andb_true_r, Z.bits_0 in He. }
    by rewrite !Hk.
  - symmetry. apply not_true_is_false. intros Ht. apply andb_true_iff in Ht as [H1 H2]. reflect_bools. destruct He.
    apply Z.bits_inj'. intros k Hk. rewrite Z.land_spec, Z.lor_spec, !Z.shiftl_1_l, Z.bits_0, !Z.pow2_bits_eqb by done.
    destruct (Z.eqb_spec BM_PAGE_NEED_WRITEOUT k) as [<-|]; [by rewrite H1|].
    destruct (Z.eqb_spec BM_PAGE_LAZY_WRITEOUT k) as [<-|]; [by rewrite H2|]. apply andb_false_r.
Qed.

Lemma marked_not_clean p op : clean_page (Z.setbit p (page_flag op)) = false.
Proof.
  unfold clean_page. rewrite unchanged_bits, !Z.setbit_eqb by apply page_flag_nonneg. unfold page_flag.
  destruct (decide (op = BM_OP_CLEAR)); simpl; [by rewrite andb_false_r|done].
Qed.

(** Changing bits keeps it, whatever the operation, because changed pages are marked. *)
Lemma marked_synced b b' op area : bm_on_dax b = false -> synced b area ->
  marked b op (page_private b) (page_private b') (bm_pages b) (bm_pages b') -> synced b' area.
Proof.
  intros Hdax Hs [Hl Hm] k p' Hp' Hc w Hw Hk.
  destruct (lookup_lt_is_Some_2 (page_private b) k) as [p Hp]; [rewrite <- Hl; by apply lookup_lt_Some in Hp'|].
  destruct (Hm k p Hp) as (p1 & Hp1 & Hor & Hch). assert (p1 = p') as -> by congruence.
  destruct (decide (mword (bm_pages b') w = mword (bm_pages b) w)) as [Heq|Hne].
  - rewrite Heq. destruct Hor as [->| ->]; [by apply (Hs k p)|by rewrite marked_not_clean in Hc].
  - rewrite (Hch Hdax) in Hc by (exists w; split_and!; done || lia). by rewrite marked_not_clean in Hc.
Qed.

(** ** Writing a page *)

Lemma write_words (area page : list Z) first w :
  (first < length area)%nat -> 0 <= w < Z.of_nat (length area) ->
  mword (take first area ++ take (length area - first) page ++ drop (first + length page) area) w =
    if (Z.of_nat first <=? w) && (w <? Z.of_nat (first + length page)) then mword page (w - Z.of_nat first) else mword area w.
Proof.
  intros Hf Hw. unfold mword. destruct (Z.leb_spec (Z.of_nat first) w); simpl.
  - rewrite lookup_app_r by (rewrite length_take; lia). rewrite length_take. replace (first `min` length area)%nat with first by lia.
    destruct (Z.ltb_spec w (Z.of_nat (first + length page))).
    + rewrite lookup_app_l by (rewrite length_take; lia). rewrite lookup_take_lt by lia. do 2 f_equal. lia.
    + rewrite lookup_app_r by (rewrite length_take; lia). rewrite length_take, lookup_drop. do 2 f_equal. lia.
  - rewrite lookup_app_l by (rewrite length_take; lia). by rewrite lookup_take_lt by lia.
Qed.

Lemma clean_after_error p : clean_page (Z.setbit p BM_PAGE_IO_ERROR) = false.
Proof. unfold clean_page. rewrite Z.setbit_eqb by done. simpl. apply andb_false_r. Qed.

Record page_written (b : drbd_bitmap) (d : bm_disk) (k : Z) (b' : drbd_bitmap) (d' : bm_disk) : Prop := {
  pw_shape : same_shape b b';
  pw_pages : bm_pages b' = bm_pages b;
  pw_set : bm_set b' = bm_set b;
  pw_len : length (bm_area d') = length (bm_area d);
  pw_private j : j <> Z.to_nat k -> page_private b' !! j = page_private b !! j;
  pw_plen : length (page_private b') = length (page_private b);
  pw_other j : j <> k -> forall w, 0 <= w < Z.of_nat (length (bm_area d)) -> w / WORDS32_PER_PAGE = j ->
    mword (bm_area d') w = mword (bm_area d) w;
  pw_ok : io_error d' = false -> on_disk (bm_pages b) (bm_area d') k;
  pw_error : io_error d = true -> io_error d' = true;
  pw_noerr : io_error d' = false -> forall p, page_private b' !! Z.to_nat k = Some p -> Z.testbit p BM_PAGE_IO_ERROR = false;
  pw_hints j p' : page_private b' !! j = Some p' ->
    exists p, page_private b !! j = Some p /\ Z.testbit p' BM_PAGE_HINT_WRITEOUT = Z.testbit p BM_PAGE_HINT_WRITEOUT;
  pw_words w : 0 <= w < Z.of_nat (length (bm_area d)) ->
    mword (bm_area d') w = mword (bm_area d) w \/ mword (bm_area d') w = mword (bm_pages b) w;
  pw_bad : (forall p, page_private b' !! Z.to_nat k = Some p -> clean_page p = false) \/ on_disk (bm_pages b) (bm_area d') k }.

(** Writing does not touch the hints. *)
Lemma alter_hint (f : Z -> Z) (l : list Z) k j p' :
  (forall p, Z.testbit (f p) BM_PAGE_HINT_WRITEOUT = Z.testbit p BM_PAGE_HINT_WRITEOUT) ->
  alter f k l !! j = Some p' -> exists p, l !! j = Some p /\ Z.testbit p' BM_PAGE_HINT_WRITEOUT = Z.testbit p BM_PAGE_HINT_WRITEOUT.
Proof.
  intros Hf Hl. destruct (decide (j = k)) as [->|Hne].
  - rewrite list_lookup_alter_eq in Hl. apply fmap_Some in Hl as (p & Hp & ->). by exists p.
  - rewrite list_lookup_alter_ne in Hl by done. by exists p'.
Qed.

Lemma unchanged_hint p : Z.testbit (bm_set_page_unchanged p) BM_PAGE_HINT_WRITEOUT = Z.testbit p BM_PAGE_HINT_WRITEOUT.
Proof. unfold bm_set_page_unchanged. by rewrite !Z.clearbit_eqb, !andb_true_r. Qed.

Lemma page_write_ok io_ok b d k : bm_wf b -> 0 <= k < bm_number_of_pages b ->
  let r := bm_page_write io_ok k (b, d) in page_written b d k (fst r) (snd r).
Proof.
  intros Hwf Hk. pose proof words32_pos as HW. unfold bm_page_write. set (first := Z.to_nat (k * WORDS32_PER_PAGE)).
  destruct (Nat.leb_spec (length (bm_area d)) first) as [Hle|Hlt]; simpl.
  - assert (on_disk (bm_pages b) (bm_area d) k) as Hon.
    { intros w Hw Hwk. pose proof (Z.mul_div_le w WORDS32_PER_PAGE). nia. }
    split; simpl; try done; [|apply length_alter| |by left|by right].
    + intros j Hj. by rewrite list_lookup_alter_ne.
    + intros j p'. apply alter_hint. intros p. by rewrite Z.setbit_eqb.
  - destruct (io_ok k); simpl.
    + set (page := take (Z.to_nat WORDS32_PER_PAGE) (drop first (bm_pages b))).
      assert (length page = Z.to_nat WORDS32_PER_PAGE) as Hpl.
      { unfold page. rewrite length_take, length_drop. pose proof (wf_pages b Hwf). nia. }
      assert (Z.of_nat first = k * WORDS32_PER_PAGE) as Hfz by (unfold first; nia).
      assert (on_disk (bm_pages b) (take first (bm_area d) ++ take (length (bm_area d) - first) page ++ drop (first + length page) (bm_area d)) k) as Hon.
      { intros w Hw Hwk. rewrite !length_app, !length_take, length_drop in Hw.
        pose proof (Z.mul_div_le w WORDS32_PER_PAGE). pose proof (Z.mul_succ_div_gt w WORDS32_PER_PAGE).
        rewrite write_words by lia. rewrite (proj2 (Z.leb_le _ w)), (proj2 (Z.ltb_lt w _)) by nia. simpl. unfold page, mword.
        rewrite lookup_take_lt by nia. rewrite lookup_drop. do 2 f_equal. lia. }
      split; simpl; try done; [| |apply length_alter| | | | |by right].
      * rewrite !length_app, !length_take, length_drop. lia.
      * intros j Hj. by rewrite list_lookup_alter_ne.
      * intros j Hj w Hw Hwj. rewrite write_words by done. pose proof (Z.mul_div_le w WORDS32_PER_PAGE). pose proof (Z.mul_succ_div_gt w WORDS32_PER_PAGE).
        destruct (Z.leb_spec (Z.of_nat first) w), (Z.ltb_spec w (Z.of_nat (first + length page))); simpl; try done. nia.
      * intros _ p Hp. change (Z.testbit p BM_PAGE_IO_ERROR = false). rewrite list_lookup_alter_eq in Hp. apply fmap_Some in Hp as (x & _ & ->). cbv beta. rewrite Z.clearbit_eqb. apply andb_false_r.
      * intros j p'. apply alter_hint. intros p. by rewrite Z.clearbit_eqb, unchanged_hint, andb_true_r.
      * intros w Hw. destruct (decide (w / WORDS32_PER_PAGE = k)) as [Hwk|Hwk].
        -- right. apply Hon; [|done]. rewrite !length_app, !length_take, length_drop. lia.
        -- left. rewrite write_words by done. pose proof (Z.mul_div_le w WORDS32_PER_PAGE). pose proof (Z.mul_succ_div_gt w WORDS32_PER_PAGE).
           destruct (Z.leb_spec (Z.of_nat first) w), (Z.ltb_spec w (Z.of_nat (first + length page))); simpl; try done. nia.
    + split; simpl; try done; [|apply length_alter| |by left|left].
      * intros j Hj. by rewrite list_lookup_alter_ne.
      * intros j p'. apply alter_hint. intros p. by rewrite Z.setbit_eqb, unchanged_hint.
      * intros p Hp. rewrite list_lookup_alter_eq in Hp. apply fmap_Some in Hp as (x & _ & ->). apply clean_after_error.
Qed.

Lemma page_written_synced b d k b' d' : 0 <= k -> synced b (bm_area d) -> page_written b d k b' d' -> synced b' (bm_area d').
Proof.
  intros Hk Hs Hw j p Hp Hc. rewrite (pw_pages _ _ _ _ _ Hw). destruct (decide (j = Z.to_nat k)) as [->|Hne].
  - destruct (pw_bad _ _ _ _ _ Hw) as [Hb|Hon]; [by rewrite (Hb p Hp) in Hc|]. by rewrite Z2Nat.id.
  - rewrite (pw_private _ _ _ _ _ Hw j Hne) in Hp. intros w Hw1 Hwj. rewrite (pw_len _ _ _ _ _ Hw) in Hw1.
    rewrite (pw_other _ _ _ _ _ Hw (Z.of_nat j)) by (done || lia). by apply (Hs j p).
Qed.

(** Pages that are on disk stay there while others are written. *)
Lemma page_written_keeps b d k b' d' j : page_written b d k b' d' -> io_error d' = false ->
  on_disk (bm_pages b) (bm_area d) j -> on_disk (bm_pages b) (bm_area d') j.
Proof.
  intros Hw He Hon. destruct (decide (j = k)) as [->|Hne]; [by apply (pw_ok _ _ _ _ _ Hw)|].
  intros w Hw1 Hwj. rewrite (pw_len _ _ _ _ _ Hw) in Hw1. rewrite (pw_other _ _ _ _ _ Hw j) by done. by apply Hon.
Qed.

Lemma page_written_wf b d k b' d' : bm_wf b -> page_written b d k b' d' -> bm_wf b'.
Proof.
  intros Hwf Hw. apply (shape_wf b); try apply Hw; try done; rewrite ?(pw_pages _ _ _ _ _ Hw), ?(pw_set _ _ _ _ _ Hw); try done.
  apply (wf_words b Hwf).
Qed.

(** ** Writing many pages *)

Definition no_io_error (b : drbd_bitmap) : Prop :=
  forall j p, page_private b !! j = Some p -> Z.testbit p BM_PAGE_IO_ERROR = false.

(** The bitmap and the disk while pages are written. *)
Record writing (b0 b : drbd_bitmap) (d : bm_disk) : Prop := {
  wr_shape : same_shape b0 b;
  wr_pages : bm_pages b = bm_pages b0;
  wr_set : bm_set b = bm_set b0;
  wr_wf : bm_wf b;
  wr_synced : synced b (bm_area d);
  wr_noerr : io_error d = false -> no_io_error b }.

Lemma writing_page b0 b d io_ok k : writing b0 b d -> 0 <= k < bm_number_of_pages b0 ->
  let r := bm_page_write io_ok k (b, d) in writing b0 (fst r) (snd r) /\ page_written b d k (fst r) (snd r).
Proof.
  intros Hw Hk r. pose proof (wr_shape _ _ _ Hw) as (_ & _ & _ & E4 & _).
  assert (page_written b d k (fst r) (snd r)) as Hp by (apply page_write_ok; [apply Hw|by rewrite E4]). split; [|done]. split.
  - eapply same_shape_trans; [apply Hw|apply Hp].
  - rewrite (pw_pages _ _ _ _ _ Hp). apply Hw.
  - rewrite (pw_set _ _ _ _ _ Hp). apply Hw.
  - eapply page_written_wf; [apply Hw|done].
  - eapply page_written_synced; [|apply Hw|done]. lia.
  - intros He j p Hj. destruct (decide (j = Z.to_nat k)) as [->|Hne]; [by apply (pw_noerr _ _ _ _ _ Hp He)|].
    rewrite (pw_private _ _ _ _ _ Hp j Hne) in Hj. apply (wr_noerr _ _ _ Hw) with j; [|done].
    destruct (io_error d) eqn:Ed; [|done]. by rewrite (pw_error _ _ _ _ _ Hp Ed) in He.
Qed.

(** From one state to a later one: nothing that is on disk is lost, and an error stays. *)
Definition keeps (b0 : drbd_bitmap) (d d' : bm_disk) : Prop :=
  (io_error d' = false -> io_error d = false) /\
  (io_error d' = false -> forall j, on_disk (bm_pages b0) (bm_area d) j -> on_disk (bm_pages b0) (bm_area d') j) /\
  length (bm_area d') = length (bm_area d) /\
  (forall w, 0 <= w < Z.of_nat (length (bm_area d)) ->
    mword (bm_area d') w = mword (bm_area d) w \/ mword (bm_area d') w = mword (bm_pages b0) w).

Lemma keeps_refl b0 d : keeps b0 d d.
Proof. split_and!; try done. by left. Qed.

Lemma keeps_trans b0 d d1 d2 : keeps b0 d d1 -> keeps b0 d1 d2 -> keeps b0 d d2.
Proof.
  intros (H1 & H2 & L1 & W1) (H3 & H4 & L2 & W2). split_and!; auto; [congruence|]. intros w Hw.
  destruct (W2 w ltac:(by rewrite L1)) as [->| ->]; [by apply W1|by right].
Qed.

Lemma page_keeps b0 b d k b' d' : bm_pages b = bm_pages b0 -> page_written b d k b' d' -> keeps b0 d d'.
Proof.
  intros Hp Hw. split; [|split; [|split]].
  - intros He. destruct (io_error d) eqn:Ed; [|done]. by rewrite (pw_error _ _ _ _ _ Hw Ed) in He.
  - intros He j Hj. rewrite <- Hp in *. by eapply page_written_keeps.
  - apply Hw.
  - rewrite <- Hp. apply Hw.
Qed.

Lemma clean_on_disk b0 b d j p : writing b0 b d -> io_error d = false -> 0 <= j ->
  page_private b !! Z.to_nat j = Some p -> bm_test_page_unchanged p = true -> on_disk (bm_pages b0) (bm_area d) j.
Proof.
  intros Hw He Hj Hp Hu. rewrite <- (wr_pages _ _ _ Hw). rewrite <- (Z2Nat.id j) by done. apply (wr_synced _ _ _ Hw _ p Hp).
  unfold clean_page. by rewrite Hu, (wr_noerr _ _ _ Hw He _ _ Hp).
Qed.

Lemma private_some b k : bm_wf b -> 0 <= k < bm_number_of_pages b -> exists p, page_private b !! Z.to_nat k = Some p.
Proof. intros Hwf Hk. apply lookup_lt_is_Some_2. pose proof (wf_private b Hwf). lia. Qed.

Lemma write_range_ok io_ok flags n k b0 b d : writing b0 b d -> 0 <= k -> k + Z.of_nat n <= bm_number_of_pages b0 ->
  let r := write_range io_ok flags n k (b, d) in
  writing b0 (fst r) (snd r) /\ keeps b0 d (snd r) /\
  (io_error (snd r) = false -> aio_flag flags BM_AIO_WRITE_LAZY = false ->
   forall j, k <= j < k + Z.of_nat n -> on_disk (bm_pages b0) (bm_area (snd r)) j).
Proof.
  revert k b d. induction n as [|n IH]; intros k b d Hw Hk Hn; cbn [write_range].
  - split; [done|]. split; [apply keeps_refl|]. intros; lia.
  - simpl fst. pose proof (wr_shape _ _ _ Hw) as (_ & _ & _ & E4 & _).
    destruct (private_some b k (wr_wf _ _ _ Hw) ltac:(rewrite E4; lia)) as [p Hp]. rewrite Hp. simpl default.
    destruct (writing_page b0 b d io_ok k Hw ltac:(lia)) as [Hw1 Hpw]. simpl in Hw1, Hpw.
    set (r1 := if negb _ && _ then (b, d) else _).
    assert (writing b0 (fst r1) (snd r1) /\ keeps b0 d (snd r1) /\
      (io_error (snd r1) = false -> aio_flag flags BM_AIO_WRITE_LAZY = false -> on_disk (bm_pages b0) (bm_area (snd r1)) k)) as (A & B & C).
    { unfold r1. destruct (negb (aio_flag flags BM_AIO_WRITE_ALL_PAGES) && bm_test_page_unchanged p) eqn:E1.
      - split; [done|]. split; [apply keeps_refl|]. intros He _. reflect_bools. by apply (clean_on_disk b0 b d k p).
      - destruct (aio_flag flags BM_AIO_WRITE_LAZY && negb (bm_test_page_lazy_writeout p)) eqn:E2.
        + split; [done|]. split; [apply keeps_refl|]. intros _ Hl. by rewrite Hl in E2.
        + split; [done|]. split; [by eapply page_keeps; [apply Hw|apply Hpw]|]. intros He _. rewrite <- (wr_pages _ _ _ Hw).
          by apply (pw_ok _ _ _ _ _ Hpw). }
    destruct (IH (k + 1) (fst r1) (snd r1) A ltac:(lia) ltac:(lia)) as (A' & B' & C'). rewrite <- surjective_pairing in *.
    split; [done|]. split; [by eapply keeps_trans|]. intros He Hl j Hj. destruct (decide (j = k)) as [->|Hne].
    + apply (proj1 (proj2 B') He). apply C; [|done]. by apply (proj1 B').
    + apply C'; (done || lia).
Qed.

(** [bm_rw_range] for a range of pages. *)
Lemma rw_range_ok io_ok first last flags b area : bm_wf b -> bm_on_dax b = false -> synced b area -> no_io_error b -> 0 < bm_number_of_pages b ->
  aio_flag flags BM_AIO_WRITE_HINTED = false -> 0 <= first -> 0 <= last ->
  let r := bm_rw_range io_ok first last flags b area in
  writing b (fst r) (snd r) /\ keeps b (mk_disk area false) (snd r) /\
  (io_error (snd r) = false -> aio_flag flags BM_AIO_WRITE_LAZY = false ->
   forall k, first <= k < bm_number_of_pages b -> k <= last -> on_disk (bm_pages b) (bm_area (snd r)) k).
Proof.
  intros Hwf Hdax Hs Hne Hnp Hfl Hf Hl. unfold bm_rw_range. rewrite Hdax, (proj2 (Z.eqb_neq _ 0)), Hfl by lia.
  set (e := if bm_number_of_pages b <=? last then _ else last). assert (e = Z.min last (bm_number_of_pages b - 1)) as -> by (unfold e; case_if; lia).
  destruct (decide (first <= bm_number_of_pages b - 1)).
  - destruct (write_range_ok io_ok flags (Z.to_nat (Z.min last (bm_number_of_pages b - 1) + 1 - first)) first b b (mk_disk area false)) as (A & B & C);
      [by split|lia|lia|]. split; [done|]. split; [done|]. intros He Hz k Hk Hkl. apply C; (done || lia).
  - replace (Z.to_nat _) with O by lia. cbn [write_range fst snd]. split; [by split|]. split; [apply keeps_refl|]. intros; lia.
Qed.

(** [drbd_bm_write]: without an error the whole bitmap is on disk afterwards. *)
Lemma bm_write_ok io_ok b area : bm_wf b -> bm_on_dax b = false -> synced b area -> no_io_error b -> 0 < bm_number_of_pages b ->
  let r := drbd_bm_write io_ok b area in
  writing b (fst r) (snd r) /\
  (io_error (snd r) = false -> forall k, 0 <= k < bm_number_of_pages b -> on_disk (bm_pages b) (bm_area (snd r)) k).
Proof.
  intros Hwf Hdax Hs Hne Hnp. pose proof (wf_npages b Hwf).
  destruct (rw_range_ok io_ok 0 (2 ^ 32 - 1) 0 b area) as (A & _ & C); try done. split; [done|]. intros He k Hk. apply C; (done || lia).
Qed.

(** ** Hints *)

Definition hinted (b : drbd_bitmap) (k : Z) : Prop :=
  0 <= k < bm_number_of_pages b /\ exists p, page_private b !! Z.to_nat k = Some p /\ Z.testbit p BM_PAGE_HINT_WRITEOUT = true.

(** The array has the pages with the hint, each once. *)
Record hints_ok (b : drbd_bitmap) : Prop := {
  ho_nodup : NoDup (al_bitmap_hints b);
  ho_hinted k : k ∈ al_bitmap_hints b <-> hinted b k }.

Definition clear_hint (k p : Z) (b : drbd_bitmap) : drbd_bitmap :=
  set_private (<[Z.to_nat k := Z.clearbit p BM_PAGE_HINT_WRITEOUT]> (page_private b)) b.

Lemma clear_hint_flag p f : f <> BM_PAGE_HINT_WRITEOUT -> Z.testbit (Z.clearbit p BM_PAGE_HINT_WRITEOUT) f = Z.testbit p f.
Proof. intros Hf. rewrite Z.clearbit_eqb. rewrite (proj2 (Z.eqb_neq _ f)) by done. apply andb_true_r. Qed.

(** Hints do not count as changes. *)
Lemma clean_flags q q' : (forall f, f <> BM_PAGE_HINT_WRITEOUT -> Z.testbit q f = Z.testbit q' f) -> clean_page q = clean_page q'.
Proof. intros Hf. unfold clean_page. by rewrite !unchanged_bits, !Hf. Qed.

Lemma writing_hint b0 b d k p : writing b0 b d -> page_private b !! Z.to_nat k = Some p -> writing b0 (clear_hint k p b) d.
Proof.
  intros Hw Hp. assert (forall j q, page_private (clear_hint k p b) !! j = Some q -> exists q', page_private b !! j = Some q' /\
    forall f, f <> BM_PAGE_HINT_WRITEOUT -> Z.testbit q f = Z.testbit q' f) as Hpr.
  { intros j q Hq. simpl in Hq. destruct (decide (j = Z.to_nat k)) as [->|Hne].
    - rewrite list_lookup_insert_eq in Hq by (by eapply lookup_lt_Some). injection Hq as <-. exists p. split; [done|]. intros f Hf. by apply clear_hint_flag.
    - rewrite list_lookup_insert_ne in Hq by done. by exists q. }
  split; try apply Hw.
  - apply (shape_wf b); try apply Hw; try done. simpl. apply length_insert.
  - intros j q Hq Hc. destruct (Hpr j q Hq) as (q' & Hq' & Hf). apply (wr_synced _ _ _ Hw j q' Hq').
    by rewrite <- (clean_flags q q').
  - intros He j q Hq. destruct (Hpr j q Hq) as (q' & Hq' & Hf). rewrite Hf by done. by apply (wr_noerr _ _ _ Hw He j).
Qed.

Lemma write_hinted_ok io_ok end_page hints b0 b d :
  writing b0 b d -> NoDup hints -> end_page < bm_number_of_pages b0 ->
  (forall k, k ∈ hints -> k <= end_page /\ hinted b k) ->
  let r := write_hinted io_ok end_page hints (b, d) in
  writing b0 (fst r) (snd r) /\ keeps b0 d (snd r) /\
  (io_error (snd r) = false -> forall k, k ∈ hints -> on_disk (bm_pages b0) (bm_area (snd r)) k).
Proof.
  revert b d. induction hints as [|k hints IH]; intros b d Hw Hnd Hend Hh; cbn [write_hinted].
  - split; [done|]. split; [apply keeps_refl|]. intros _ k Hk. by apply elem_of_nil in Hk.
  - apply NoDup_cons in Hnd as [Hk Hnd]. destruct (Hh k ltac:(by left)) as (Hle & Hr & p & Hp & Hb).
    rewrite (proj2 (Z.ltb_ge end_page k)), Hp, Hb by done. cbn [negb].
    pose proof (writing_hint b0 b d k p Hw Hp) as Hw1. fold (clear_hint k p b).
    pose proof (wr_shape _ _ _ Hw) as (_ & _ & _ & E4 & _).
    destruct (writing_page b0 (clear_hint k p b) d io_ok k Hw1 ltac:(lia)) as [Hw2 Hpw].
    set (r2 := bm_page_write io_ok k (clear_hint k p b, d)) in *. set (r1 := if bm_test_page_unchanged p then _ else _).
    assert (writing b0 (fst r1) (snd r1) /\ keeps b0 d (snd r1) /\ (io_error (snd r1) = false -> on_disk (bm_pages b0) (bm_area (snd r1)) k) /\
      forall j, j ∈ hints -> hinted (fst r1) j) as (A & B & C & D).
    { assert (forall j, j ∈ hints -> hinted (clear_hint k p b) j) as Hh1.
      { intros j Hj. destruct (Hh j ltac:(by right)) as (_ & Hjr & q & Hq & Hqb). split; [done|]. exists q. simpl.
        rewrite list_lookup_insert_ne; [done|]. assert (j <> k) by congruence. lia. }
      unfold r1. destruct (bm_test_page_unchanged p) eqn:Eu; simpl.
      - split; [done|]. split; [apply keeps_refl|]. split; [|done]. intros He. apply (clean_on_disk b0 b d k p); (done || lia).
      - split; [done|]. split; [by eapply page_keeps; [apply Hw1|apply Hpw]|]. split.
        + intros He. rewrite <- (wr_pages _ _ _ Hw1). by apply (pw_ok _ _ _ _ _ Hpw).
        + intros j Hj. destruct (Hh1 j Hj) as (Hjr & q & Hq & Hqb).
          pose proof (pw_shape _ _ _ _ _ Hpw) as (_ & _ & _ & E4' & _). split; [by rewrite E4'|].
          destruct (lookup_lt_is_Some_2 (page_private (fst r2)) (Z.to_nat j)) as [q' Hq'].
          { rewrite (pw_plen _ _ _ _ _ Hpw). by eapply lookup_lt_Some. }
          exists q'. split; [done|]. destruct (pw_hints _ _ _ _ _ Hpw _ _ Hq') as (q2 & Hq2 & ->). by simplify_eq. }
    destruct (IH (fst r1) (snd r1) A Hnd Hend) as (A' & B' & C').
    { intros j Hj. split; [by apply Hh; right|by apply D]. }
    rewrite <- surjective_pairing in *. split; [done|]. split; [by eapply keeps_trans|]. intros He j Hj. apply elem_of_cons in Hj as [->|Hj].
    + apply (proj1 (proj2 B') He), C. by apply (proj1 B').
    + by apply C'.
Qed.

Lemma bm_write_hinted_ok io_ok b area : bm_wf b -> bm_on_dax b = false -> synced b area -> no_io_error b -> 0 < bm_number_of_pages b ->
  hints_ok b ->
  let r := drbd_bm_write_hinted io_ok b area in
  writing b (fst r) (snd r) /\ keeps b (mk_disk area false) (snd r) /\
  (io_error (snd r) = false -> forall k, hinted b k -> on_disk (bm_pages b) (bm_area (snd r)) k).
Proof.
  intros Hwf Hdax Hs Hne Hnp [Hnd Hh]. unfold drbd_bm_write_hinted, bm_rw, bm_rw_range. rewrite Hdax, (proj2 (Z.eqb_neq _ 0)) by lia.
  pose proof (wf_npages b Hwf). rewrite (proj2 (Z.leb_le (bm_number_of_pages b) (2 ^ 32 - 1))) by lia.
  change (aio_flag (Z.lor BM_AIO_WRITE_HINTED BM_AIO_COPY_PAGES) BM_AIO_WRITE_HINTED) with true. cbv iota.
  destruct (write_hinted_ok io_ok (bm_number_of_pages b - 1) (al_bitmap_hints b) b b (mk_disk area false)) as (A & B & C); try done; [lia| |].
  - intros k Hk. apply Hh in Hk. split; [|done]. destruct Hk as [? _]. lia.
  - split; [done|]. split; [done|]. intros He k Hk. apply C; [done|]. by apply Hh.
Qed.

(** ** Which pages have a hint after a write *)

Lemma hinted_alter g k b j : (forall p, Z.testbit (g p) BM_PAGE_HINT_WRITEOUT = Z.testbit p BM_PAGE_HINT_WRITEOUT) ->
  hinted (set_private (alter g k (page_private b)) b) j <-> hinted b j.
Proof.
  intros Hg. unfold hinted. cbn [page_private bm_number_of_pages set_private].
  enough ((exists p, alter g k (page_private b) !! Z.to_nat j = Some p /\ Z.testbit p BM_PAGE_HINT_WRITEOUT = true) <->
    exists p, page_private b !! Z.to_nat j = Some p /\ Z.testbit p BM_PAGE_HINT_WRITEOUT = true) by naive_solver.
  destruct (decide (Z.to_nat j = k)) as [<-|Hne]; [|by rewrite list_lookup_alter_ne].
  rewrite list_lookup_alter_eq. split.
  - intros (p & Hp & Hb). apply fmap_Some in Hp as (q & Hq & ->). rewrite Hg in Hb. by exists q.
  - intros (p & -> & Hb). exists (g p). by rewrite Hg.
Qed.

Lemma page_write_hints io_ok k b d j : hinted (fst (bm_page_write io_ok k (b, d))) j <-> hinted b j.
Proof.
  unfold bm_page_write. destruct (Nat.leb (length (bm_area d)) _); [|destruct (io_ok k)]; apply hinted_alter; intros p.
  - by rewrite Z.setbit_eqb.
  - by rewrite Z.clearbit_eqb, unchanged_hint, andb_true_r.
  - by rewrite Z.setbit_eqb, unchanged_hint.
Qed.

Lemma write_range_hints io_ok flags n k bd j : hinted (fst (write_range io_ok flags n k bd)) j <-> hinted (fst bd) j.
Proof.
  revert k bd. induction n as [|n IH]; intros k [b d]; cbn [write_range]; [done|]. rewrite IH.
  case_if; [done|]. case_if; [done|]. apply page_write_hints.
Qed.

Lemma rw_range_hints io_ok first last flags b area j : aio_flag flags BM_AIO_WRITE_HINTED = false ->
  hinted (fst (bm_rw_range io_ok first last flags b area)) j <-> hinted b j.
Proof.
  intros Hf. unfold bm_rw_range. case_if; [done|]. case_if; [done|]. rewrite Hf. apply write_range_hints.
Qed.

Lemma clear_hint_hinted k p b j : page_private b !! Z.to_nat k = Some p -> hinted (clear_hint k p b) j <-> Z.to_nat j <> Z.to_nat k /\ hinted b j.
Proof.
  intros Hp. unfold hinted. cbn [page_private bm_number_of_pages set_private clear_hint].
  destruct (decide (Z.to_nat j = Z.to_nat k)) as [E|Hne].
  - rewrite E, list_lookup_insert_eq by (by eapply lookup_lt_Some). split; [|naive_solver]. intros (_ & q & [= <-] & Hb).
    by rewrite Z.clearbit_eq in Hb.
  - rewrite list_lookup_insert_ne by done. naive_solver.
Qed.

(** [write_hinted] takes the hints away. *)
Lemma write_hinted_hints io_ok end_page hints b d j :
  hinted (fst (write_hinted io_ok end_page hints (b, d))) j -> hinted b j /\ (j ∈ hints -> end_page < j).
Proof.
  revert b d. induction hints as [|k hints IH]; intros b d; cbn [write_hinted fst].
  { intros Hj. split; [done|]. by rewrite elem_of_nil. }
  destruct (Z.ltb_spec end_page k) as [Hk|Hk].
  { intros [Hj Hl]%IH. split; [done|]. rewrite elem_of_cons. intros [->|]; auto. }
  destruct (page_private b !! Z.to_nat k) as [p|] eqn:Hp.
  2: { intros [Hj Hl]%IH. split; [done|]. rewrite elem_of_cons. intros [->|]; auto. destruct Hj as (_ & q & Hq & _). congruence. }
  fold (clear_hint k p b). destruct (Z.testbit p BM_PAGE_HINT_WRITEOUT) eqn:Eb; cbn [negb].
  - assert (forall bd, (hinted (fst bd) j <-> hinted (clear_hint k p b) j) -> hinted (fst (write_hinted io_ok end_page hints bd)) j ->
      hinted b j /\ (j ∈ k :: hints -> end_page < j)) as Hgo.
    { intros [b1 d1] Hiff [Hj Hl]%IH. apply Hiff, clear_hint_hinted in Hj as [Hne Hj]; [|done]. split; [done|].
      rewrite elem_of_cons. intros [->|]; [done|auto]. }
    destruct (bm_test_page_unchanged p); apply Hgo; [done|]. apply page_write_hints.
  - intros [Hj Hl]%IH. split; [done|]. rewrite elem_of_cons. intros [->|]; auto. destruct Hj as (_ & q & Hq & Hqb). congruence.
Qed.

Lemma bm_write_hinted_none io_ok b area j : bm_wf b -> bm_on_dax b = false -> 0 < bm_number_of_pages b -> hints_ok b ->
  ~ hinted (fst (drbd_bm_write_hinted io_ok b area)) j.
Proof.
  intros Hwf Hdax Hnp Hh. unfold drbd_bm_write_hinted, bm_rw, bm_rw_range. rewrite Hdax, (proj2 (Z.eqb_neq _ 0)) by lia.
  pose proof (wf_npages b Hwf). rewrite (proj2 (Z.leb_le (bm_number_of_pages b) (2 ^ 32 - 1))) by lia.
  change (aio_flag (Z.lor BM_AIO_WRITE_HINTED BM_AIO_COPY_PAGES) BM_AIO_WRITE_HINTED) with true. cbv iota.
  intros [Hj Hl]%write_hinted_hints. pose proof Hj as [? _]. apply (ho_hinted b Hh) in Hj. specialize (Hl Hj). lia.
Qed.

(** Marks for writing are not hints. *)
Lemma marked_hints b b' op j : marked b op (page_private b) (page_private b') (bm_pages b) (bm_pages b') ->
  bm_number_of_pages b' = bm_number_of_pages b -> hinted b' j <-> hinted b j.
Proof.
  intros [Hl Hm] Hn. unfold hinted. rewrite Hn.
  assert (forall p, Z.testbit (Z.setbit p (page_flag op)) BM_PAGE_HINT_WRITEOUT = Z.testbit p BM_PAGE_HINT_WRITEOUT) as Hset.
  { intros p. rewrite Z.setbit_eqb by apply page_flag_nonneg. unfold page_flag. by destruct (decide (op = BM_OP_CLEAR)). }
  enough ((exists p, page_private b' !! Z.to_nat j = Some p /\ Z.testbit p BM_PAGE_HINT_WRITEOUT = true) <->
    exists p, page_private b !! Z.to_nat j = Some p /\ Z.testbit p BM_PAGE_HINT_WRITEOUT = true) by naive_solver. split.
  - intros (p' & Hp' & Hb). destruct (lookup_lt_is_Some_2 (page_private b) (Z.to_nat j)) as [p Hp].
    { rewrite <- Hl. by eapply lookup_lt_Some. }
    exists p. split; [done|]. destruct (Hm _ _ Hp) as (p1 & Hp1 & Hor & _). assert (p1 = p') as -> by congruence.
    destruct Hor as [->| ->]; [done|]. by rewrite Hset in Hb.
  - intros (p & Hp & Hb). destruct (Hm _ _ Hp) as (p1 & Hp1 & Hor & _). exists p1. split; [done|].
    destruct Hor as [->| ->]; [done|]. by rewrite Hset.
Qed.

(** ** Marking *)

(** At most [n] more pages have a hint; the rest of the bitmap is the same. *)
Record hints_step (n : nat) (b b' : drbd_bitmap) : Prop := {
  hs_ok : hints_ok b';
  hs_wf : bm_wf b';
  hs_keep k : hinted b k -> hinted b' k;
  hs_pages : bm_pages b' = bm_pages b;
  hs_npages : bm_number_of_pages b' = bm_number_of_pages b;
  hs_bits : bm_bits b' = bm_bits b;
  hs_peers : bm_max_peers b' = bm_max_peers b;
  hs_dax : bm_on_dax b' = bm_on_dax b;
  hs_shift : bm_block_shift b' = bm_block_shift b;
  hs_set : bm_set b' = bm_set b;
  hs_len : (length (al_bitmap_hints b') <= n + length (al_bitmap_hints b))%nat;
  hs_synced area : synced b area -> synced b' area;
  hs_noerr : no_io_error b -> no_io_error b' }.

Lemma hints_step_trans n m b b1 b2 : hints_step n b b1 -> hints_step m b1 b2 -> hints_step (n + m) b b2.
Proof. intros H1 H2. destruct H1, H2. split; try done; try congruence; auto. lia. Qed.

Lemma push_hint_ok k b : bm_wf b -> hints_ok b -> 0 <= k < bm_number_of_pages b ->
  Z.of_nat (length (al_bitmap_hints b)) < 2 * AL_UPDATES_PER_TRANSACTION ->
  exists b', push_al_bitmap_hint k b = Ret b' /\ hints_step 1 b b' /\ hinted b' k.
Proof.
  intros Hwf Hho Hk Hlen. pose proof Hho as [Hnd Hh]. unfold push_al_bitmap_hint. rewrite (proj2 (Z.leb_gt _ _)) by done.
  destruct (private_some b k Hwf Hk) as [p Hp]. rewrite Hp. destruct (Z.testbit p BM_PAGE_HINT_WRITEOUT) eqn:Eb.
  - exists b. assert (hinted b k) by (split; [done|by exists p]). split; [done|]. split; [|done]. split; try done. lia.
  - eexists. split; [done|].
    assert (forall j, hinted (set_hints (al_bitmap_hints b ++ [k]) (set_private (<[Z.to_nat k := Z.setbit p BM_PAGE_HINT_WRITEOUT]> (page_private b)) b)) j
      <-> j = k \/ hinted b j) as Hiff.
    { intros j. unfold hinted. cbn [page_private bm_number_of_pages set_hints set_private]. split.
      - intros (Hj & q & Hq & Hqb). destruct (decide (j = k)) as [->|Hne]; [by left|right]. split; [done|]. exists q.
        by rewrite list_lookup_insert_ne in Hq by lia.
      - intros [->|(Hj & q & Hq & Hqb)].
        + split; [done|]. exists (Z.setbit p BM_PAGE_HINT_WRITEOUT). rewrite list_lookup_insert_eq by (by eapply lookup_lt_Some).
          split; [done|]. by rewrite Z.setbit_eqb.
        + split; [done|]. exists q. rewrite list_lookup_insert_ne; [done|]. intros E. assert (j = k) as -> by lia. congruence. }
    assert (k ∉ al_bitmap_hints b) as Hnk by (rewrite Hh; intros (_ & q & Hq & Hqb); congruence).
    assert (forall j q, <[Z.to_nat k := Z.setbit p BM_PAGE_HINT_WRITEOUT]> (page_private b) !! j = Some q -> exists q', page_private b !! j = Some q' /\
      forall f, f <> BM_PAGE_HINT_WRITEOUT -> Z.testbit q f = Z.testbit q' f) as Hpr.
    { intros j q Hq. destruct (decide (j = Z.to_nat k)) as [->|Hne].
      - rewrite list_lookup_insert_eq in Hq by (by eapply lookup_lt_Some). injection Hq as <-. exists p. split; [done|]. intros f Hf.
        rewrite Z.setbit_eqb by done. by rewrite (proj2 (Z.eqb_neq _ f)).
      - rewrite list_lookup_insert_ne in Hq by done. by exists q. }
    split; [|apply Hiff; by left]. split; try done.
    + split.
      * simpl. apply NoDup_app. split_and!; [done| |apply NoDup_singleton]. intros j Hj Hj'. apply list_elem_of_singleton in Hj' as ->. done.
      * intros j. rewrite Hiff. simpl. rewrite elem_of_app, list_elem_of_singleton, Hh. naive_solver.
    + destruct Hwf. split; simpl; try done. by rewrite length_insert.
    + intros j Hj. apply Hiff. by right.
    + simpl. rewrite length_app. simpl. lia.
    + intros area Hs j q Hq Hc. destruct (Hpr j q Hq) as (q' & Hq' & Hf). apply (Hs j q' Hq').
      by rewrite <- (clean_flags q q').
    + intros Hn j q Hq. destruct (Hpr j q Hq) as (q' & Hq' & Hf). rewrite Hf by done. by apply (Hn j).
Qed.

Lemma push_hints_ok n k b : bm_wf b -> hints_ok b -> 0 <= k -> k + Z.of_nat n <= bm_number_of_pages b ->
  Z.of_nat (n + length (al_bitmap_hints b)) <= 2 * AL_UPDATES_PER_TRANSACTION ->
  exists b', push_hints n k b = Ret b' /\ hints_step n b b' /\ forall j, k <= j < k + Z.of_nat n -> hinted b' j.
Proof.
  revert k b. induction n as [|n IH]; intros k b Hwf Hh Hk Hn Hlen; cbn [push_hints].
  - exists b. split; [done|]. split; [by split|]. intros; lia.
  - destruct (push_hint_ok k b) as (b1 & -> & Hs & Hk1); try done; try lia. cbn [obind].
    pose proof (hs_npages _ _ _ Hs) as En. pose proof (hs_len _ _ _ Hs) as El.
    destruct (IH (k + 1) b1 (hs_wf _ _ _ Hs) (hs_ok _ _ _ Hs)) as (b' & -> & Hs' & Hall); [lia|lia|lia|].
    + exists b'. split; [done|]. split; [by apply (hints_step_trans 1 n b b1 b')|]. intros j Hj.
      destruct (decide (j = k)) as [->|]; [by apply (hs_keep _ _ _ Hs')|apply Hall; lia].
Qed.

(** The pages of the bits of a range, for all slots. *)
Definition first_page (b : drbd_bitmap) (s : Z) : Z := bit_to_page_interleaved b 0 s.
Definition last_page (b : drbd_bitmap) (e : Z) : Z := bit_to_page_interleaved b (bm_max_peers b - 1) (clip b e).

Lemma mark_range_ok s e b : bm_wf b -> bm_on_dax b = false -> hints_ok b -> 0 < bm_bits b -> 0 <= s <= e -> e < 2 ^ 64 ->
  let n := Z.to_nat (last_page b e + 1 - first_page b s) in
  Z.of_nat (n + length (al_bitmap_hints b)) <= 2 * AL_UPDATES_PER_TRANSACTION ->
  exists b', drbd_bm_mark_range_for_writeout b s e = Ret b' /\ hints_step n b b' /\
    forall i k, 0 <= i < bm_max_peers b -> s <= k <= clip b e -> hinted b' (bit_to_page_interleaved b i k).
Proof.
  intros Hwf Hdax Hh Hb Hs He n Hlen. pose proof (wf_peers b Hwf) as Hp. pose proof (bits_small b Hwf). pose proof words32_pos as HW.
  unfold drbd_bm_mark_range_for_writeout. rewrite Hdax.
  replace (if bm_bits b <=? e then u64 (bm_bits b - 1) else e) with (clip b e)
    by (unfold clip; case_if; [rewrite u64_small by lia|]; lia).
  fold (first_page b s). fold (last_page b e). fold n.
  assert (0 <= first_page b s) as Hf0.
  { unfold first_page, bit_to_page_interleaved, interleaved_word32. rewrite to_page, shiftr5. apply Z.div_pos; [|lia]. assert (0 <= s / 32) by zdiv. nia. }
  pose proof (page_of_bit b (bm_max_peers b - 1) (clip b e) Hwf ltac:(lia) ltac:(unfold clip; lia)) as Hl. fold (last_page b e) in Hl.
  assert (forall i k, 0 <= i < bm_max_peers b -> s <= k <= clip b e -> first_page b s <= bit_to_page_interleaved b i k <= last_page b e) as Hin.
  { intros i k Hi Hk. unfold first_page, last_page, bit_to_page_interleaved, interleaved_word32. rewrite !to_page, !shiftr5.
    assert (s / 32 <= k / 32) by zdiv. assert (k / 32 <= clip b e / 32) by zdiv.
    split; apply Z.div_le_mono; (lia || nia). }
  destruct (Z.le_gt_cases (first_page b s) (last_page b e)) as [Hle|Hgt].
  - destruct (push_hints_ok n (first_page b s) b) as (b' & -> & Hst & Hall); try done; [lia|].
    exists b'. split; [done|]. split; [done|]. intros i k Hi Hk. apply Hall. specialize (Hin i k Hi Hk). lia.
  - exists b. replace n with O by lia. split; [done|]. split; [by split|]. intros i k Hi Hk. specialize (Hin i k Hi Hk). lia.
Qed.

(** An extent of the activity log is on at most two pages. *)
Lemma extent_two_pages b s e : bm_wf b -> bm_max_peers b <= 32 -> 0 <= s -> e / 32 <= s / 32 + 31 ->
  last_page b e + 1 - first_page b s <= 2.
Proof.
  intros Hwf Hp Hs He. pose proof words32_pos as HW. pose proof (wf_peers b Hwf). unfold first_page, last_page, bit_to_page_interleaved, interleaved_word32.
  rewrite !to_page, !shiftr5. assert (clip b e / 32 <= s / 32 + 31) by (unfold clip; zdiv).
  assert ((clip b e / 32 * bm_max_peers b + (bm_max_peers b - 1)) / WORDS32_PER_PAGE <= (s / 32 * bm_max_peers b + 0 + 1 * WORDS32_PER_PAGE) / WORDS32_PER_PAGE).
  { apply Z.div_le_mono; nia. }
  rewrite Z.div_add in * by lia. lia.
Qed.

(** ** Bits on disk *)

Definition disk_bit (b : drbd_bitmap) (area : list Z) (i k : Z) : bool := mbit area (pos b i k).

(** A page that is on disk has no bit that is only in memory. *)
Lemma on_disk_bit b area i k : bm_wf b -> 0 <= i < bm_max_peers b -> 0 <= k < bm_bits b ->
  (bm_bits b + 31) / 32 * bm_max_peers b <= Z.of_nat (length area) ->
  on_disk (bm_pages b) area (bit_to_page_interleaved b i k) -> disk_bit b area i k = bm_bit b i k.
Proof.
  intros Hwf Hi Hk Hfit Hon. unfold disk_bit, bm_bit. rewrite !mbit_word. f_equal. apply Hon.
  - rewrite pos_word. assert (0 <= k / 32) by zdiv. assert (k / 32 + 1 <= (bm_bits b + 31) / 32) by zdiv. nia.
  - unfold bit_to_page_interleaved. rewrite to_page. f_equal. rewrite pos_word. unfold interleaved_word32. by rewrite shiftr5.
Qed.

Lemma marked_no_error b b' op : marked b op (page_private b) (page_private b') (bm_pages b) (bm_pages b') -> no_io_error b -> no_io_error b'.
Proof.
  intros [Hl Hm] Hn j p' Hp'. destruct (lookup_lt_is_Some_2 (page_private b) j) as [p Hp]; [rewrite <- Hl; by eapply lookup_lt_Some|].
  destruct (Hm _ _ Hp) as (p1 & Hp1 & Hor & _). assert (p1 = p') as -> by congruence. specialize (Hn j p Hp).
  destruct Hor as [->| ->]; [done|]. rewrite Z.setbit_eqb by apply page_flag_nonneg. rewrite Hn, orb_false_r. unfold page_flag.
  by destruct (decide (op = BM_OP_CLEAR)).
Qed.

End disk.
