(* ===== verification/BitmapAttach.v ===== *)
(** * The bitmap across a detach and an attach

    Reading the bitmap, and that it brings back what was written. *)
From S2P Require Import Prelude Bitmap BitmapProps BitmapOps BitmapResize BitmapDisk.

Section attach.
Context `{Arch}.

(** What reading never changes. *)
Record read_shape (b0 b : drbd_bitmap) : Prop := {
  rs_shape : same_shape b0 b;
  rs_len : length (bm_pages b) = length (bm_pages b0);
  rs_plen : length (page_private b) = length (page_private b0);
  rs_set : bm_set b = bm_set b0;
  rs_words : Forall is_word32 (bm_pages b) }.

(** The first [k] pages are read: they have the words of the area. *)
Record reading (area : list Z) (k : Z) (b : drbd_bitmap) : Prop := {
  rd_read w : 0 <= w < k * WORDS32_PER_PAGE -> w < Z.of_nat (length area) -> mword (bm_pages b) w = mword area w;
  rd_clean j p : Z.of_nat j < k -> page_private b !! j = Some p -> clean_page p = true }.

Lemma read_shape_wf b0 b : bm_wf b0 -> read_shape b0 b -> bm_wf b.
Proof. intros Hwf Hr. apply (shape_wf b0); try apply Hr; [done|]. by rewrite (rs_set _ _ Hr). Qed.

Lemma clean_after_io p : clean_page (Z.clearbit (bm_set_page_unchanged p) BM_PAGE_IO_ERROR) = true.
Proof. unfold clean_page. rewrite unchanged_bits. unfold bm_set_page_unchanged. rewrite !Z.clearbit_eqb. cbn. by rewrite !andb_false_r. Qed.

Lemma read_words (m data : list Z) first w : (first + length data <= length m)%nat -> 0 <= w ->
  mword (take first m ++ data ++ drop (first + length data) m) w =
    if (Z.of_nat first <=? w) && (w <? Z.of_nat (first + length data)) then mword data (w - Z.of_nat first) else mword m w.
Proof.
  intros Hf Hw. unfold mword. destruct (Z.leb_spec (Z.of_nat first) w); simpl.
  - rewrite lookup_app_r by (rewrite length_take; lia). rewrite length_take. replace (first `min` length m)%nat with first by lia.
    destruct (Z.ltb_spec w (Z.of_nat (first + length data))).
    + rewrite lookup_app_l by lia. do 2 f_equal. lia.
    + rewrite lookup_app_r by lia. rewrite lookup_drop. do 2 f_equal. lia.
  - rewrite lookup_app_l by (rewrite length_take; lia). by rewrite lookup_take_lt by lia.
Qed.

Lemma page_read_ok io_ok b0 area k b d : bm_wf b0 -> Forall is_word32 area -> 0 <= k < bm_number_of_pages b0 ->
  bm_area d = area -> read_shape b0 b ->
  let r := bm_page_read io_ok k (b, d) in
  bm_area (snd r) = area /\ read_shape b0 (fst r) /\ (io_error (snd r) = false -> io_error d = false) /\
  (io_error (snd r) = false -> reading area k b -> reading area (k + 1) (fst r)).
Proof.
  intros Hwf Hwords Hk Ha Hr. pose proof words32_pos as HW. unfold bm_page_read. set (first := Z.to_nat (k * WORDS32_PER_PAGE)).
  assert (forall g, length (alter g (Z.to_nat k) (page_private b)) = length (page_private b0)) as Hpl by (intros g; rewrite length_alter; apply Hr).
  destruct (Nat.leb_spec (length (bm_area d)) first) as [Hle|Hlt]; [|destruct (io_ok k)]; cbn [fst snd bm_area io_error].
  - split; [done|]. split; [|done]. split; try apply Hr. apply Hpl.
  - set (data := take (Z.to_nat WORDS32_PER_PAGE) (drop first (bm_area d))).
    assert (length data = Nat.min (Z.to_nat WORDS32_PER_PAGE) (length area - first)) as Hdl by (unfold data; rewrite length_take, length_drop; by rewrite Ha).
    assert (first + length data <= length (bm_pages b))%nat as Hfit.
    { rewrite (rs_len _ _ Hr), Hdl. pose proof (wf_pages b0 Hwf). unfold first. nia. }
    split; [done|]. split; [|split; [done|]].
    + split; cbn [bm_pages page_private set_private set_pages]; try apply Hr; [|apply Hpl|].
      * rewrite !length_app, length_take, length_drop. rewrite (rs_len _ _ Hr) in *. lia.
      * apply Forall_app; split; [apply Forall_take, Hr|]. apply Forall_app; split; [|apply Forall_drop, Hr].
        unfold data. rewrite Ha. by apply Forall_take, Forall_drop.
    + intros _ Hrd. split; cbn [bm_pages page_private set_private set_pages].
      * intros w Hw Hwa. rewrite read_words by lia. assert (Z.of_nat first = k * WORDS32_PER_PAGE) as Hfz by (unfold first; nia).
        destruct (Z.leb_spec (Z.of_nat first) w) as [Hfw'|Hfw']; cbn [andb].
        -- rewrite (proj2 (Z.ltb_lt w _)) by nia. unfold data, mword. rewrite lookup_take_lt by nia. rewrite lookup_drop, Ha. do 2 f_equal. lia.
        -- apply Hrd; lia.
      * intros j p Hj Hp. destruct (decide (j = Z.to_nat k)) as [->|Hne].
        -- rewrite list_lookup_alter_eq in Hp. apply fmap_Some in Hp as (q & _ & ->). apply clean_after_io.
        -- rewrite list_lookup_alter_ne in Hp by done. apply (rd_clean _ _ _ Hrd j); [lia|done].
  - split; [done|]. split; [|done]. split; try apply Hr. apply Hpl.
Qed.

Lemma read_range_ok io_ok b0 area n k b d : bm_wf b0 -> Forall is_word32 area -> 0 <= k -> k + Z.of_nat n <= bm_number_of_pages b0 ->
  bm_area d = area -> read_shape b0 b ->
  let r := read_range io_ok n k (b, d) in
  bm_area (snd r) = area /\ read_shape b0 (fst r) /\ (io_error (snd r) = false -> io_error d = false) /\
  (io_error (snd r) = false -> reading area k b -> reading area (k + Z.of_nat n) (fst r)).
Proof.
  intros Hwf Hwords. revert k b d. induction n as [|n IH]; intros k b d Hk Hn Ha Hr; cbn [read_range].
  { split; [done|]. split; [done|]. split; [done|]. intros _ Hrd. by replace (k + Z.of_nat 0) with k by lia. }
  destruct (page_read_ok io_ok b0 area k b d) as (A & B & C & D); try done; [lia|].
  destruct (bm_page_read io_ok k (b, d)) as [b1 d1]. cbn [fst snd] in *.
  destruct (IH (k + 1) b1 d1) as (A' & B' & C' & D'); try done; try lia. split; [done|]. split; [done|]. split; [by auto|].
  intros He Hrd. replace (k + Z.of_nat (S n)) with (k + 1 + Z.of_nat n) by lia. apply D'; [done|]. apply D; auto.
Qed.

(** [drbd_bm_read] returns; without an error the bits are those of the area, and the
    counters are exact. *)
Lemma bm_read_ok io_ok b area : bm_wf b -> bm_on_dax b = false -> 0 < bm_number_of_pages b -> Forall is_word32 area ->
  (bm_bits b + 31) / 32 * bm_max_peers b <= Z.of_nat (length area) ->
  exists b' d, drbd_bm_read io_ok b area = Ret (b', d) /\ bm_wf b' /\ same_shape b b' /\ bm_counts b' /\
    (io_error d = false -> synced b' area /\ no_io_error b' /\
     forall i k, 0 <= i < bm_max_peers b -> 0 <= k < bm_bits b -> bm_bit b' i k = mbit area (pos b i k)).
Proof.
  intros Hwf Hdax Hnp Hwords Hfit. unfold drbd_bm_read. rewrite Hdax, (proj2 (Z.eqb_neq _ 0)) by lia.
  destruct (read_range_ok io_ok b area (Z.to_nat (bm_number_of_pages b)) 0 b (mk_disk area false)) as (A & B & _ & D); try done; try lia; [split; try done; apply Hwf|].
  destruct (read_range io_ok (Z.to_nat (bm_number_of_pages b)) 0 (b, mk_disk area false)) as [b1 d1]. cbn [fst snd] in *.
  destruct (bm_count_bits_ok b1 (read_shape_wf _ _ Hwf B)) as (b' & -> & Hs & Hwf' & Hpg & Hpr & Hc). cbn [obind].
  pose proof (same_shape_trans _ _ _ (rs_shape _ _ B) Hs) as Hsh. exists b', d1. split; [done|]. split; [done|]. split; [done|]. split; [done|].
  intros He. specialize (D He). assert (reading area (0 + Z.of_nat (Z.to_nat (bm_number_of_pages b))) b1) as Hrd.
  { apply D. split; [intros w Hw; lia|intros j p Hj; lia]. }
  replace (0 + Z.of_nat (Z.to_nat (bm_number_of_pages b))) with (bm_number_of_pages b) in Hrd by lia.
  pose proof words32_pos as HW. pose proof (wf_private b Hwf) as Hpv. rewrite <- (rs_plen _ _ B), <- Hpr in Hpv.
  assert (forall j p, page_private b' !! j = Some p -> clean_page p = true) as Hcl.
  { intros j p Hp. pose proof (lookup_lt_Some _ _ _ Hp). rewrite Hpr in Hp. apply (rd_clean _ _ _ Hrd j); [lia|done]. }
  split; [|split].
  - intros j p Hp _ w Hw Hj. rewrite Hpg. symmetry. apply Hrd; [|lia].
    apply lookup_lt_Some in Hp. pose proof (Z.mul_succ_div_gt w WORDS32_PER_PAGE). nia.
  - intros j p Hp. specialize (Hcl j p Hp). unfold clean_page in Hcl. apply andb_true_iff in Hcl as [_ Hcl]. by apply negb_true_iff in Hcl.
  - intros i k Hi Hk. rewrite (bm_bit_same b b') by done. rewrite !mbit_word, Hpg. f_equal. pose proof (pos_in_pages b i k Hwf Hi Hk) as Hp.
    rewrite (wf_pages b Hwf) in Hp. rewrite pos_word in *. assert (0 <= k / 32) by zdiv. assert (k / 32 + 1 <= (bm_bits b + 31) / 32) by zdiv.
    apply Hrd; nia.
Qed.

(** The check of [drbd_bm_resize] against the size on disk gives the room that reading and
    writing need. *)
Lemma on_disk_bits_fit al_offset md_size_sect bm_offset max_peers bits sectors :
  sectors = (if al_offset =? 8 then u32 (md_size_sect - bm_offset) else to_int (al_offset - bm_offset)) -> 1 <= max_peers -> 0 <= sectors < 2 ^ 45 ->
  0 <= bits <= drbd_md_on_disk_bits al_offset md_size_sect bm_offset max_peers -> (bits + 31) / 32 * max_peers <= 128 * sectors.
Proof.
  intros -> Hp Hs. unfold drbd_md_on_disk_bits. set (n := if al_offset =? 8 then _ else _) in *. intros Hb.
  rewrite (u64_small n), !Z.shiftl_mul_pow2 in Hb by lia. change (2 ^ (9 - 3)) with 64 in Hb. change (2 ^ 6) with 64 in Hb.
  rewrite (u64_small (n * 64)) in Hb by lia. assert (0 <= n * 64 / max_peers <= n * 64) as Hq by (split; [apply Z.div_pos; lia|apply Z.div_le_upper_bound; nia]).
  rewrite u64_small in Hb by lia. pose proof (Z.mul_div_le (n * 64) max_peers ltac:(lia)).
  assert ((bits + 31) / 32 <= 2 * (n * 64 / max_peers)) by (Z.div_mod_to_equations; lia). nia.
Qed.

(** ** Runs between an attach and a detach *)

Lemma words_mword (l : list Z) : Forall is_word32 l <-> forall w, 0 <= w < Z.of_nat (length l) -> is_word32 (mword l w).
Proof.
  rewrite Forall_lookup. split.
  - intros Hl w Hw. unfold mword. destruct (l !! Z.to_nat w) eqn:E; [by apply (Hl (Z.to_nat w))|]. apply lookup_ge_None in E. lia.
  - intros Hl i x Hx. pose proof (lookup_lt_Some _ _ _ Hx). specialize (Hl (Z.of_nat i) ltac:(lia)). unfold mword in Hl.
    by rewrite Nat2Z.id, Hx in Hl.
Qed.

(** The bitmap of a device with a disk whose area for it has the words [area]. *)
Record md_good (b : drbd_bitmap) (area : list Z) : Prop := {
  mg_wf : bm_wf b;
  mg_dax : bm_on_dax b = false;
  mg_bits : 0 < bm_bits b;
  mg_fit : (bm_bits b + 31) / 32 * bm_max_peers b <= Z.of_nat (length area);
  mg_area : Forall is_word32 area }.

Lemma good_pages b area : md_good b area -> 0 < bm_number_of_pages b.
Proof.
  intros Hg. pose proof (mg_bits _ _ Hg). pose proof (wf_room b (mg_wf _ _ Hg)). pose proof (wf_peers b (mg_wf _ _ Hg)).
  pose proof (wf_npages b (mg_wf _ _ Hg)). pose proof words32_pos. assert (1 <= (bm_bits b + 31) / 32) by (apply Z.div_le_lower_bound; lia). nia.
Qed.

(** A bitmap that was read, then operations on its bits, and writes of the pages without an I/O error;
    no resize, no copy of a slot and no hinted write. *)
Inductive md_run : drbd_bitmap -> list Z -> Prop :=
  | md_attach io_ok b0 area b d :
      md_good b0 area -> drbd_bm_read io_ok b0 area = Ret (b, d) -> io_error d = false -> md_run b area
  | md_op b area i s e op buf r b' buf' :
      md_run b area -> op_pre b i s e op buf -> bm_op b i s e op buf = Ret (r, b', buf') -> md_run b' area
  | md_write b area io_ok first last flags b' d :
      md_run b area -> aio_flag flags BM_AIO_WRITE_HINTED = false -> 0 <= first -> 0 <= last ->
      bm_rw_range io_ok first last flags b area = (b', d) -> io_error d = false -> md_run b' (bm_area d).

Lemma good_shape_md b b' area : md_good b area -> bm_wf b' -> same_shape b b' -> md_good b' area.
Proof. intros [H1 H2 H3 H4 H5] Hwf (E1 & _ & _ & _ & _ & E6 & E7 & _). split; try done; congruence. Qed.

Lemma md_write_good b area io_ok first last flags : md_good b area -> synced b area -> no_io_error b ->
  aio_flag flags BM_AIO_WRITE_HINTED = false -> 0 <= first -> 0 <= last ->
  let r := bm_rw_range io_ok first last flags b area in
  writing b (fst r) (snd r) /\ md_good (fst r) (bm_area (snd r)) /\
  (io_error (snd r) = false -> aio_flag flags BM_AIO_WRITE_LAZY = false ->
   forall k, first <= k < bm_number_of_pages b -> k <= last -> on_disk (bm_pages b) (bm_area (snd r)) k).
Proof.
  intros Hg Hs Hn Hf H1 H2 r. destruct (rw_range_ok io_ok first last flags b area) as (Hw & (_ & _ & Hl & Hk) & Hon);
    try done; try apply Hg; [by eapply good_pages|]. fold r in Hw, Hl, Hk, Hon. split; [done|]. split; [|done].
  cbn [bm_area] in Hl, Hk. pose proof (good_shape_md b (fst r) area Hg (wr_wf _ _ _ Hw) (wr_shape _ _ _ Hw)) as [G1 G2 G3 G4 G5].
  split; try done; [by rewrite Hl|]. apply words_mword. rewrite Hl. intros w Hw0. destruct (Hk w Hw0) as [->| ->].
  - by apply (proj1 (words_mword area)).
  - unfold mword. destruct (bm_pages b !! Z.to_nat w) as [x|] eqn:E; [|unfold is_word32; simpl; lia].
    pose proof (wf_words b (mg_wf _ _ Hg)) as Hfw. rewrite Forall_lookup in Hfw. by apply (Hfw _ _ E).
Qed.

(** All along, pages without a mark are on disk. *)
Lemma md_run_ok b area : md_run b area -> md_good b area /\ synced b area /\ no_io_error b.
Proof.
  induction 1 as [io_ok b0 area b d Hg Hr He|b area i s e op buf r b' buf' _ (Hg & Hs & Hn) Hpre Hrun|
    b area io_ok first last flags b' d _ (Hg & Hs & Hn) Hf H1 H2 Hrun He].
  - destruct (bm_read_ok io_ok b0 area) as (b1 & d1 & Hr1 & Hwf & Hsh & _ & Hok); try apply Hg; [by eapply good_pages|].
    assert (b1 = b /\ d1 = d) as [-> ->] by (split; congruence). destruct (Hok He) as (Hsy & Hne & _). split; [|done]. by eapply good_shape_md.
  - pose proof (good_pages _ _ Hg). pose proof (mg_bits _ _ Hg).
    destruct (bm_op_done b i s e op buf (mg_wf _ _ Hg) (mg_bits _ _ Hg) Hpre) as (r1 & b1 & buf1 & Hrun1 & Hd).
    unfold bm_op in Hrun. rewrite !(proj2 (Z.eqb_neq _ 0)) in Hrun by lia. assert (b1 = b') as -> by congruence.
    pose proof (od_marks _ _ _ _ _ _ _ _ _ Hd) as Hm. split; [|split].
    + eapply good_shape_md; [done|by eapply op_done_wf; [apply Hg|]|apply Hd].
    + eapply marked_synced; [apply Hg|done|done].
    + by eapply marked_no_error.
  - destruct (md_write_good b area io_ok first last flags Hg Hs Hn Hf H1 H2) as (Hw & Hg' & _). rewrite Hrun in Hw, Hg'. cbn [fst snd] in *.
    split; [done|]. split; [apply Hw|by apply Hw].
Qed.

(** C36: the bitmap survives a detach.  After any operations on ranges of bits and any writes
    of ranges of pages without an I/O error since it was attached ([md_run]), when
    [drbd_bm_write], which only writes pages marked as changed, ends without an
    error, a later [drbd_bm_read] without an error into a bitmap of the same size brings back every bit
    of every slot, with exact counters.  The bitmap is not in persistent memory, and the
    run has no resize (a growth that clears the new bits leaves the new pages
    unmarked), no copy of a slot and no write of hinted pages. *)
Theorem bitmap_survives_reattach b area io_w b1 d1 io_r b0 : md_run b area ->
  drbd_bm_write io_w b area = (b1, d1) -> io_error d1 = false ->
  bm_wf b0 -> bm_on_dax b0 = false -> bm_bits b0 = bm_bits b -> bm_max_peers b0 = bm_max_peers b ->
  exists b2 d2, drbd_bm_read io_r b0 (bm_area d1) = Ret (b2, d2) /\ bm_counts b2 /\
    (io_error d2 = false -> forall i k, 0 <= i < bm_max_peers b -> 0 <= k < bm_bits b -> bm_bit b2 i k = bm_bit b i k).
Proof.
  intros Hrun Hw He Hwf0 Hdax0 Eb Ep. destruct (md_run_ok b area Hrun) as (Hg & Hs & Hn).
  destruct (md_write_good b area io_w 0 (2 ^ 32 - 1) 0 Hg Hs Hn) as (_ & Hg1 & Hon); try done. change (bm_rw_range io_w 0 (2 ^ 32 - 1) 0 b area) with (drbd_bm_write io_w b area) in *.
  destruct (md_write_good b area io_w 0 (2 ^ 32 - 1) 0 Hg Hs Hn) as (Hwr & _ & _); try done. change (bm_rw_range io_w 0 (2 ^ 32 - 1) 0 b area) with (drbd_bm_write io_w b area) in Hwr.
  rewrite Hw in *. cbn [fst snd] in *. pose proof (wr_shape _ _ _ Hwr) as (E1 & _ & _ & _ & _ & _ & E7 & _).
  assert (md_good b0 (bm_area d1)) as Hg0.
  { destruct Hg1 as [G1 G2 G3 G4 G5]. split; try done; [rewrite Eb, <- E1|rewrite Eb, Ep, <- E1, <- E7]; done. }
  destruct (bm_read_ok io_r b0 (bm_area d1)) as (b2 & d2 & Hr & _ & _ & Hc & Hok); try apply Hg0; [by eapply good_pages|].
  exists b2, d2. split; [done|]. split; [done|]. intros He2 i k Hi Hk. destruct (Hok He2) as (_ & _ & Hbits).
  rewrite Hbits by (rewrite ?Ep, ?Eb; done). pose proof (page_of_bit b i k (mg_wf _ _ Hg) Hi Hk). pose proof (wf_npages b (mg_wf _ _ Hg)).
  assert (pos b0 i k = pos b i k) as -> by (unfold pos, interleaved_word32; by rewrite Ep).
  apply (on_disk_bit b (bm_area d1) i k); try done; [apply Hg| |apply Hon; (done || lia)]. rewrite <- E1, <- E7. apply Hg1.
Qed.
End attach.

(** A bitmap that is read from an empty area, has bits set, is written and read again. *)
Definition reattach_io (page : Z) : bool := true.
Definition reattach_b0 : drbd_bitmap := demo_bitmap.
Definition reattach_area : list Z := replicate 64 0.
Definition reattach_read (area : list Z) : drbd_bitmap :=
  match @drbd_bm_read PAGE_SHIFT_4k reattach_io reattach_b0 area with Ret (b, _) => b | _ => reattach_b0 end.
Definition reattach_set : drbd_bitmap :=
  match @bm_op PAGE_SHIFT_4k (reattach_read reattach_area) 1 5 70 BM_OP_SET [] with Ret (_, b, _) => b | _ => reattach_b0 end.
Definition reattach_written : drbd_bitmap * bm_disk := @drbd_bm_write PAGE_SHIFT_4k reattach_io reattach_set reattach_area.

Lemma reattach_run : @md_run PAGE_SHIFT_4k reattach_set reattach_area.
Proof.
  eapply (md_op (reattach_read reattach_area) reattach_area 1 5 70 BM_OP_SET [] 66 reattach_set []).
  - apply (md_attach reattach_io reattach_b0 reattach_area (reattach_read reattach_area) (mk_disk reattach_area false)).
    + split; [exact demo_bitmap_wf|reflexivity|reflexivity|vm_compute; discriminate|]. apply Forall_replicate. split; [discriminate|reflexivity].
    + vm_compute. reflexivity.
    + reflexivity.
  - split; [vm_compute; split; [discriminate|reflexivity]|]. split; [lia|]. split; [lia|]. split; [constructor|discriminate].
  - vm_compute. reflexivity.
Qed.

Lemma bitmap_survives_reattach_witness :
  exists b2 d2, @drbd_bm_read PAGE_SHIFT_4k reattach_io reattach_b0 (bm_area (snd reattach_written)) = Ret (b2, d2) /\
    (io_error d2 = false -> bm_bit b2 1 70 = true /\ bm_bit b2 1 71 = false).
Proof.
  destruct (@bitmap_survives_reattach PAGE_SHIFT_4k reattach_set reattach_area reattach_io (fst reattach_written) (snd reattach_written)
    reattach_io reattach_b0) as (b2 & d2 & Hr & _ & Hb).
  - exact reattach_run.
  - vm_compute. reflexivity.
  - vm_compute. reflexivity.
  - exact demo_bitmap_wf.
  - reflexivity.
  - vm_compute. reflexivity.
  - vm_compute. reflexivity.
  - exists b2, d2. split; [exact Hr|]. intros He.
    assert (0 <= 1 < bm_max_peers reattach_set) as Hi by (vm_compute; split; [discriminate|reflexivity]).
    assert (0 <= 70 < bm_bits reattach_set /\ 0 <= 71 < bm_bits reattach_set) as [H70 H71] by (vm_compute; repeat split; discriminate).
    split; [refine (eq_trans (Hb He 1 70 Hi H70) _)|refine (eq_trans (Hb He 1 71 Hi H71) _)]; vm_compute; reflexivity.
Defined.
