(* ===== verification/BitmapSync.v ===== *)
(** * Marking ranges of sectors in and out of sync ([drbd_actlog.c] 647-870)

    The sectors of a request or of a resync block are converted to bits of the bitmap: a
    block that is touched is marked, only a block that is covered is unmarked. *)
From S2P Require Import Prelude Headers Bitmap BitmapProps BitmapOps BitmapResize.

(** The part of [struct drbd_peer_device] for the progress of a resync; [posted] has the work
    items posted with [drbd_peer_device_post_work]. *)
Inductive rs_work := RS_PROGRESS | RS_LAZY_BM_WRITE | RS_DONE.

Record rs_peer := mk_peer {
  bitmap_index : Z;
  repl_state : Z;
  agreed_pro_version : Z;
  rs_total : Z;
  rs_failed : Z;
  rs_mark_left : list Z;
  rs_mark_time : list Z;
  rs_last_mark : Z;
  rs_last_progress_report_ts : Z;
  rs_last_writeout : Z;
  posted : list rs_work }.

Inductive update_sync_bits_mode := RECORD_RS_FAILED | SET_OUT_OF_SYNC | SET_IN_SYNC.

Definition DRBD_SYNC_MARKS : Z := 8.

Definition post_work (w : rs_work) (p : rs_peer) : rs_peer :=
  mk_peer (bitmap_index p) (repl_state p) (agreed_pro_version p) (rs_total p) (rs_failed p) (rs_mark_left p) (rs_mark_time p)
    (rs_last_mark p) (rs_last_progress_report_ts p) (rs_last_writeout p) (posted p ++ [w]).
Definition set_totals (total failed : Z) (p : rs_peer) : rs_peer :=
  mk_peer (bitmap_index p) (repl_state p) (agreed_pro_version p) total failed (rs_mark_left p) (rs_mark_time p)
    (rs_last_mark p) (rs_last_progress_report_ts p) (rs_last_writeout p) (posted p).

(** [time_after], [time_after_eq] on [unsigned long] *)
Definition time_after (a b : Z) : bool := 2 ^ 63 <? u64 (b - a).
Definition time_after_eq (a b : Z) : bool := u64 (a - b) <? 2 ^ 63.

Section sync.
Context `{DrbdHeaders} `{Arch}.
(** [HZ] of the kernel, and [jiffies] at the call. *)
Context (HZ now : Z).

Definition drbd_advance_rs_marks (still_to_go : Z) (p : rs_peer) : rs_peer :=
  if default 0 (rs_mark_left p !! Z.to_nat (rs_last_mark p)) =? still_to_go then p
  else if negb (time_after_eq now (u64 (rs_last_progress_report_ts p + 3 * HZ))) then p
  else
    let p :=
      if negb (repl_state p =? L_PAUSED_SYNC_T) && negb (repl_state p =? L_PAUSED_SYNC_S) then
        let next := (rs_last_mark p + 1) mod DRBD_SYNC_MARKS in
        mk_peer (bitmap_index p) (repl_state p) (agreed_pro_version p) (rs_total p) (rs_failed p)
          (<[Z.to_nat next := still_to_go]> (rs_mark_left p)) (<[Z.to_nat next := now]> (rs_mark_time p))
          next (rs_last_progress_report_ts p) (rs_last_writeout p) (posted p)
      else p in
    post_work RS_PROGRESS
      (mk_peer (bitmap_index p) (repl_state p) (agreed_pro_version p) (rs_total p) (rs_failed p) (rs_mark_left p) (rs_mark_time p)
         (rs_last_mark p) now (rs_last_writeout p) (posted p)).

Definition drbd_lazy_bitmap_update_due (p : rs_peer) : bool := time_after now (u64 (rs_last_writeout p + 2 * HZ)).

Definition repl_is_sync_source (repl_state : Z) : bool := (repl_state =? L_SYNC_SOURCE) || (repl_state =? L_PAUSED_SYNC_S).

(** The part of [update_sync_bits] after the bitmap was changed. *)
Definition account_sync_bits (count : Z) (mode : update_sync_bits_mode) (b : drbd_bitmap) (p : rs_peer) : rs_peer :=
  if count =? 0 then p
  else
    match mode with
    | SET_IN_SYNC =>
        let still_to_go := drbd_bm_total_weight b true (bitmap_index p) in
        let p := drbd_advance_rs_marks still_to_go p in
        let p := if drbd_lazy_bitmap_update_due p then post_work RS_LAZY_BM_WRITE p else p in
        if (agreed_pro_version p <=? 95) && (still_to_go <=? rs_failed p) && repl_is_sync_source (repl_state p)
        then post_work RS_DONE p else p
    | RECORD_RS_FAILED => set_totals (rs_total p) (u64 (rs_failed p + count)) p
    | SET_OUT_OF_SYNC =>
        if (L_SYNC_SOURCE <=? repl_state p) && (repl_state p <=? L_PAUSED_SYNC_T)
        then set_totals (u64 (rs_total p + count)) (rs_failed p) p else p
    end.

Definition update_sync_bits (b : drbd_bitmap) (p : rs_peer) (sbnr ebnr : Z) (mode : update_sync_bits_mode)
    : outcome (Z * drbd_bitmap * rs_peer) :=
  let bmi := bitmap_index p in
  let! (count, b) :=
    match mode with
    | RECORD_RS_FAILED => let! c := drbd_bm_count_bits b bmi sbnr ebnr in Ret (u64 c, b)
    | SET_IN_SYNC => drbd_bm_clear_bits b bmi sbnr ebnr
    | SET_OUT_OF_SYNC => drbd_bm_set_bits b bmi sbnr ebnr
    end in
  Ret (to_int count, b, account_sync_bits count mode b p).

(** [__drbd_change_sync]; [has_disk] is the result of [get_ldev]. *)
Definition __drbd_change_sync (has_disk : bool) (nr_sectors : Z) (b : drbd_bitmap) (p : rs_peer) (sector size : Z)
    (mode : update_sync_bits_mode) : outcome (Z * drbd_bitmap * rs_peer) :=
  if (match mode with SET_OUT_OF_SYNC => true | _ => false end) && (size =? 0) then Ret (0, b, p)
  else if bitmap_index p =? -1 then Ret (0, b, p)
  else if negb has_disk then Ret (0, b, p)
  else
    let esector := u64 (sector + Z.shiftr size 9 - 1) in
    if negb (sector <? nr_sectors) then Ret (0, b, p)
    else
      let esector := if negb (esector <? nr_sectors) then nr_sectors - 1 else esector in
      let lbnr := bm_sect_to_bit b (nr_sectors - 1) in
      match mode with
      | SET_IN_SYNC =>
          if esector <? bm_sect_per_bit b - 1 then Ret (0, b, p)
          else
            let ebnr := if esector =? nr_sectors - 1 then lbnr else bm_sect_to_bit b (esector - (bm_sect_per_bit b - 1)) in
            let sbnr := bm_sect_to_bit b (u64 (sector + bm_sect_per_bit b - 1)) in
            update_sync_bits b p sbnr ebnr mode
      | _ => update_sync_bits b p (bm_sect_to_bit b sector) (bm_sect_to_bit b esector) mode
      end.

(** [(1 << bm_max_peers) - 1] in [int]; the shift is not defined for 32 and more. *)
Definition all_slots_mask (max_peers : Z) : outcome Z :=
  if max_peers <? 32 then Ret (Z.shiftl 1 max_peers - 1) else BUG.

(** The ranges of [drbd_set_sync]; [clear_end] can be negative. *)
Definition set_range (b : drbd_bitmap) (sector esector : Z) : Z * Z := (bm_sect_to_bit b sector, bm_sect_to_bit b esector).
Definition clear_range (b : drbd_bitmap) (nr_sectors sector esector : Z) : Z * Z :=
  (bm_sect_to_bit b (u64 (sector + bm_sect_per_bit b - 1)),
   if esector =? nr_sectors - 1 then bm_sect_to_bit b esector else bm_sect_to_bit b (u64 (esector + 1)) - 1).

(** The loop over the peer devices. *)
Fixpoint set_sync_peers (setr clearr : Z * Z) (bits : Z) (l : list rs_peer) (mask modified : Z) (b : drbd_bitmap)
    : outcome (Z * Z * drbd_bitmap * list rs_peer) :=
  match l with
  | [] => Ret (mask, modified, b, [])
  | p :: l =>
      let i := bitmap_index p in
      if (i =? -1) || negb (Z.testbit mask i)
      then let! (mask, modified, b, l) := set_sync_peers setr clearr bits l mask modified b in Ret (mask, modified, b, p :: l)
      else
        let mask := Z.clearbit mask i in
        let! (c, b, p) :=
          if Z.testbit bits i then update_sync_bits b p (fst setr) (snd setr) SET_OUT_OF_SYNC
          else if fst clearr <=? snd clearr then update_sync_bits b p (fst clearr) (snd clearr) SET_IN_SYNC
          else Ret (0, b, p) in
        let modified := if c =? 0 then modified else Z.setbit modified i in
        let! (mask, modified, b, l) := set_sync_peers setr clearr bits l mask modified b in Ret (mask, modified, b, p :: l)
  end.

(** [for_each_set_bit] over the slots without a peer device. *)
Fixpoint set_sync_slots (setr clearr : Z * Z) (bits mask : Z) (n : nat) (i modified : Z) (b : drbd_bitmap) : outcome (Z * drbd_bitmap) :=
  match n with
  | O => Ret (modified, b)
  | S n =>
      if negb (Z.testbit mask i) then set_sync_slots setr clearr bits mask n (i + 1) modified b
      else
        let! (c, b) :=
          if Z.testbit bits i then drbd_bm_set_bits b i (fst setr) (snd setr)
          else if fst clearr <=? snd clearr then drbd_bm_clear_bits b i (fst clearr) (snd clearr)
          else Ret (0, b) in
        set_sync_slots setr clearr bits mask n (i + 1) (if c =? 0 then modified else Z.setbit modified i) b
  end.

(** [drbd_set_sync]: the slots that were modified, the bitmap and the peer devices. *)
Definition drbd_set_sync (has_disk : bool) (nr_sectors : Z) (b : drbd_bitmap) (peers : list rs_peer) (sector size bits mask : Z)
    : outcome (Z * drbd_bitmap * list rs_peer) :=
  if (size <=? 0) || negb (size mod 512 =? 0) then Ret (0, b, peers)
  else if negb has_disk then Ret (0, b, peers)
  else
    let! all := all_slots_mask (bm_max_peers b) in
    let mask := Z.land mask all in
    let esector := u64 (sector + Z.shiftr size 9 - 1) in
    if negb (sector <? nr_sectors) then Ret (0, b, peers)
    else
      let esector := if negb (esector <? nr_sectors) then nr_sectors - 1 else esector in
      let setr := set_range b sector esector in
      let clearr := clear_range b nr_sectors sector esector in
      let! (mask, modified, b, peers) := set_sync_peers setr clearr bits peers mask 0 b in
      let! (modified, b) :=
        if mask =? 0 then Ret (modified, b) else set_sync_slots setr clearr bits mask 64 0 modified b in
      Ret (modified, b, peers).

Definition drbd_set_all_out_of_sync (has_disk : bool) (nr_sectors : Z) (b : drbd_bitmap) (peers : list rs_peer) (sector size : Z)
    : outcome (Z * drbd_bitmap * list rs_peer) :=
  drbd_set_sync has_disk nr_sectors b peers sector size (2 ^ 64 - 1) (2 ^ 64 - 1).

(** ** What a call does to the bits *)

Definition in_pair (r : Z * Z) (k : Z) : bool := (fst r <=? k) && (k <=? snd r).

(** A bit of a slot after the call. *)
Definition synced_bit (bits : Z) (setr clearr : Z * Z) (i k : Z) (old : bool) : bool :=
  if Z.testbit bits i then old || in_pair setr k else old && negb (in_pair clearr k).

Definition slot_changed (b b' : drbd_bitmap) (i : Z) : Prop := exists k, 0 <= k < bm_bits b /\ bm_bit b' i k <> bm_bit b i k.

(** From one bitmap to a later one: the slots in [done] are treated, and [m] tells which of
    them changed. *)
Record slots_synced (bits : Z) (setr clearr : Z * Z) (done : Z -> bool) (b b' : drbd_bitmap) (m m' : Z) : Prop := {
  sy_shape : same_shape b b';
  sy_wf : bm_wf b';
  sy_counts : bm_counts b -> bm_counts b';
  sy_bits i k : 0 <= i < bm_max_peers b -> 0 <= k < bm_bits b ->
    bm_bit b' i k = if done i then synced_bit bits setr clearr i k (bm_bit b i k) else bm_bit b i k;
  sy_mod i : 0 <= i < bm_max_peers b -> Z.testbit m' i = true <-> Z.testbit m i = true \/ (done i = true /\ slot_changed b b' i) }.

Lemma slots_synced_refl bits setr clearr done b m : bm_wf b -> (forall i, 0 <= i < bm_max_peers b -> done i = false) ->
  slots_synced bits setr clearr done b b m m.
Proof.
  intros Hwf Hd. split; try done.
  - intros i k Hi Hk. by rewrite Hd.
  - intros i Hi. rewrite Hd by done. naive_solver.
Qed.

Lemma slots_synced_trans bits setr clearr d1 d2 d b b1 b2 m m1 m2 :
  slots_synced bits setr clearr d1 b b1 m m1 -> slots_synced bits setr clearr d2 b1 b2 m1 m2 ->
  (forall i, 0 <= i < bm_max_peers b -> d i = d1 i || d2 i /\ d1 i && d2 i = false) -> slots_synced bits setr clearr d b b2 m m2.
Proof.
  intros H1 H2 Hd. pose proof (sy_shape _ _ _ _ _ _ _ _ H1) as (E1 & _ & _ & _ & _ & _ & E7 & _).
  assert (forall i k, 0 <= i < bm_max_peers b -> 0 <= k < bm_bits b -> d2 i = false -> bm_bit b2 i k = bm_bit b1 i k) as Hsame2.
  { intros i k Hi Hk Hd2. rewrite (sy_bits _ _ _ _ _ _ _ _ H2) by (rewrite ?E1, ?E7; done). by rewrite Hd2. }
  assert (forall i k, 0 <= i < bm_max_peers b -> 0 <= k < bm_bits b -> d1 i = false -> bm_bit b1 i k = bm_bit b i k) as Hsame1.
  { intros i k Hi Hk Hd1. rewrite (sy_bits _ _ _ _ _ _ _ _ H1) by done. by rewrite Hd1. }
  split.
  - eapply same_shape_trans; [apply H1|apply H2].
  - apply H2.
  - intros Hc. by apply H2, H1.
  - intros i k Hi Hk. destruct (Hd i Hi) as [-> Hx]. destruct (d1 i) eqn:D1, (d2 i) eqn:D2; try done; simpl.
    + rewrite Hsame2 by done. rewrite (sy_bits _ _ _ _ _ _ _ _ H1) by done. by rewrite D1.
    + rewrite (sy_bits _ _ _ _ _ _ _ _ H2) by (rewrite ?E1, ?E7; done). by rewrite D2, Hsame1.
    + by rewrite Hsame2, Hsame1.
  - intros i Hi. destruct (Hd i Hi) as [-> Hx].
    rewrite (sy_mod _ _ _ _ _ _ _ _ H2) by (by rewrite E7). rewrite (sy_mod _ _ _ _ _ _ _ _ H1) by done. unfold slot_changed. rewrite E1.
    destruct (d1 i) eqn:D1, (d2 i) eqn:D2; try done; simpl.
    + split; [intros [[?|[_ (k & Hk & Hne)]]|[? _]]; [by left|right|done]|intros [?|[_ (k & Hk & Hne)]]; [by do 2 left|left; right]].
      * split; [done|]. exists k. by rewrite Hsame2.
      * split; [done|]. exists k. by rewrite Hsame2 in Hne.
    + split; [intros [[?|[? _]]|[_ (k & Hk & Hne)]]; [by left|done|right]|intros [?|[_ (k & Hk & Hne)]]; [by do 2 left|right]].
      * split; [done|]. exists k. by rewrite Hsame1 in Hne.
      * split; [done|]. exists k. by rewrite Hsame1.
    + naive_solver.
Qed.

(** ** One slot *)

Definition range_ok (b : drbd_bitmap) (r : Z * Z) : Prop := 0 <= fst r /\ snd r < bm_bits b /\ snd r - fst r < 2 ^ 30.

Lemma to_int_small c : 0 <= c < 2 ^ 31 -> to_int c = c.
Proof. intros Hc. unfold to_int. rewrite Z.mod_small by lia. lia. Qed.

Lemma u32_count c : 0 <= c < 2 ^ 31 -> u32 c = c.
Proof. intros Hc. unfold u32. apply Z.mod_small. lia. Qed.

(** The number of changed bits is small, and zero exactly when nothing changed. *)
Lemma bm_op_counted v b i r : bm_wf b -> 0 <= i < bm_max_peers b -> range_ok b r -> fst r <= snd r ->
  exists c b', bm_op_nobuf b i (fst r) (snd r) (op_of v) = Ret (c, b') /\ 0 <= c < 2 ^ 31 /\
    range_set v b i (fst r) (snd r) b' /\ (c <> 0 <-> slot_changed b b' i).
Proof.
  intros Hwf Hi (Hs & He & Hlen) Hle. pose proof (bits_small b Hwf).
  destruct (bm_op_range v b i (fst r) (snd r)) as (c & b' & Hrun & Hset & Hc); try done; try lia. rewrite clip_id in Hset, Hc by done.
  set (d := fun n => if v then negb (bm_bit b i n) else bm_bit b i n).
  assert (c = count_range d (fst r) (snd r + 1)) as Hcd by (rewrite Hc; by destruct v).
  exists c, b'. split; [done|]. pose proof (count_range_bounds d (fst r) (snd r + 1) ltac:(lia)). split; [lia|]. split; [done|].
  assert (forall k, 0 <= k -> bm_bit b' i k <> bm_bit b i k <-> fst r <= k <= snd r /\ d k = true) as Hd.
  { intros k Hk. rewrite (rs_bits _ _ _ _ _ _ Hset) by done. unfold d.
    destruct (Z.leb_spec (fst r) k), (Z.leb_spec k (snd r)), v, (bm_bit b i k); simpl; naive_solver lia. }
  split.
  - intros Hne. destruct (decide (Exists (fun k => d k = true) (seqZ (fst r) (snd r + 1 - fst r)))) as [Hx|Hx].
    + apply Exists_exists in Hx as (k & Hk & Hdk). apply elem_of_seqZ in Hk. exists k. split; [lia|]. apply Hd; [lia|]. split; [lia|done].
    + destruct Hne. rewrite Hcd. apply count_range_none. intros k Hk. apply not_true_iff_false. intros Hdk. apply Hx.
      apply Exists_exists. exists k. split; [apply elem_of_seqZ; lia|done].
  - intros (k & Hk & Hne) Hz. apply Hd in Hne as [Hr Hdk]; [|lia]. rewrite Hcd in Hz.
    by rewrite (count_range_zero _ _ _ Hz k) in Hdk by lia.
Qed.

Lemma slot_changed_self b i : ~ slot_changed b b i.
Proof. by intros (k & _ & Hne). Qed.

Lemma synced_one bits setr clearr v r b b' i m (c : Z) : 0 <= i < bm_max_peers b ->
  v = Z.testbit bits i -> r = (if v then setr else clearr) -> range_set v b i (fst r) (snd r) b' -> (c <> 0 <-> slot_changed b b' i) ->
  slots_synced bits setr clearr (Z.eqb i) b b' m (if c =? 0 then m else Z.setbit m i).
Proof.
  intros Hi Hv Hr Hset Hc. split; try apply Hset.
  - intros j k Hj Hk. destruct (Z.eqb_spec i j) as [->|Hne]; [|by apply Hset; try lia; congruence].
    rewrite (rs_bits _ _ _ _ _ _ Hset) by lia. unfold synced_bit, in_pair. rewrite <- Hv, Hr. by destruct v, (_ && _), (bm_bit b j k).
  - intros j Hj. destruct (Z.eqb_spec c 0) as [Hz|Hz].
    + split; [by left|]. intros [?|[E ?]]; [done|]. apply Z.eqb_eq in E as ->. by apply Hc in Hz.
    + rewrite Z.setbit_eqb by lia. destruct (Z.eqb_spec i j) as [->|Hne]; simpl; [|naive_solver].
      split; [|done]. intros _. right. split; [done|]. by apply Hc.
Qed.

Lemma slot_treated bits setr clearr b i m : bm_wf b -> 0 <= i < bm_max_peers b -> range_ok b setr -> range_ok b clearr -> fst setr <= snd setr ->
  exists c b',
    (if Z.testbit bits i then bm_op_nobuf b i (fst setr) (snd setr) BM_OP_SET
     else if fst clearr <=? snd clearr then bm_op_nobuf b i (fst clearr) (snd clearr) BM_OP_CLEAR else Ret (0, b)) = Ret (c, b') /\
    0 <= c < 2 ^ 31 /\ slots_synced bits setr clearr (Z.eqb i) b b' m (if c =? 0 then m else Z.setbit m i).
Proof.
  intros Hwf Hi Hs Hc Hle. destruct (Z.testbit bits i) eqn:Ev.
  - destruct (bm_op_counted true b i setr) as (c & b' & Hrun & Hb & Hset & Hch); try done. exists c, b'. split_and!; [exact Hrun|lia|lia|].
    by eapply (synced_one _ _ _ true).
  - destruct (Z.leb_spec (fst clearr) (snd clearr)).
    + destruct (bm_op_counted false b i clearr) as (c & b' & Hrun & Hb & Hset & Hch); try done. exists c, b'. split_and!; [exact Hrun|lia|lia|].
      by eapply (synced_one _ _ _ false).
    + exists 0, b. split_and!; [done|lia|lia|]. eapply (synced_one _ _ _ false); [done|done|done|by apply range_set_nil|].
      split; [done|]. intros Hch. by apply slot_changed_self in Hch.
Qed.

(** ** All slots *)

Lemma range_ok_shape b b' r : same_shape b b' -> range_ok b r -> range_ok b' r.
Proof. unfold range_ok. by intros (-> & _). Qed.

Definition slots_in (b : drbd_bitmap) (mask : Z) : Prop := forall j, Z.testbit mask j = true -> 0 <= j < bm_max_peers b.

Lemma slots_in_shape b b' mask : same_shape b b' -> slots_in b mask -> slots_in b' mask.
Proof. unfold slots_in. by intros (_ & _ & _ & _ & _ & _ & -> & _). Qed.

Lemma update_sync_one bits setr clearr b p m : bm_wf b -> 0 <= bitmap_index p < bm_max_peers b ->
  range_ok b setr -> range_ok b clearr -> fst setr <= snd setr ->
  exists c b' p',
    (if Z.testbit bits (bitmap_index p) then update_sync_bits b p (fst setr) (snd setr) SET_OUT_OF_SYNC
     else if fst clearr <=? snd clearr then update_sync_bits b p (fst clearr) (snd clearr) SET_IN_SYNC else Ret (0, b, p)) =
      Ret (c, b', p') /\
    slots_synced bits setr clearr (Z.eqb (bitmap_index p)) b b' m (if c =? 0 then m else Z.setbit m (bitmap_index p)).
Proof.
  intros Hwf Hi Hs Hc Hle. destruct (slot_treated bits setr clearr b (bitmap_index p) m) as (c & b' & Hrun & Hb & Hsy); try done.
  destruct (Z.testbit bits (bitmap_index p)); [|destruct (fst clearr <=? snd clearr)].
  - exists c, b'. eexists. split; [|done]. unfold update_sync_bits, drbd_bm_set_bits. rewrite Hrun. simpl. by rewrite u32_count, to_int_small.
  - exists c, b'. eexists. split; [|done]. unfold update_sync_bits, drbd_bm_clear_bits. rewrite Hrun. simpl. by rewrite u32_count, to_int_small.
  - inversion Hrun. subst. by exists 0, b', p.
Qed.

Lemma set_sync_peers_ok bits setr clearr l mask m b : bm_wf b -> slots_in b mask ->
  range_ok b setr -> range_ok b clearr -> fst setr <= snd setr ->
  exists mask' m' b' l', set_sync_peers setr clearr bits l mask m b = Ret (mask', m', b', l') /\
    (forall j, Z.testbit mask' j = true -> Z.testbit mask j = true) /\
    slots_synced bits setr clearr (fun j => Z.testbit mask j && negb (Z.testbit mask' j)) b b' m m'.
Proof.
  revert mask m b. induction l as [|p l IH]; intros mask m b Hwf Hin Hs Hc Hle.
  { exists mask, m, b, []. split_and!; [done|done|]. apply slots_synced_refl; [done|]. intros j _. by destruct (Z.testbit mask j). }
  cbn [set_sync_peers]. destruct ((bitmap_index p =? -1) || negb (Z.testbit mask (bitmap_index p))) eqn:Eg.
  { destruct (IH mask m b) as (mask' & m' & b' & l' & -> & Hsub & Hsy); try done. by exists mask', m', b', (p :: l'). }
  apply orb_false_elim in Eg as [_ Et]. apply negb_false_iff in Et. pose proof (Hin _ Et) as Hi.
  destruct (update_sync_one bits setr clearr b p m) as (c & b1 & p1 & -> & Hs1); try done. cbn.
  pose proof (sy_shape _ _ _ _ _ _ _ _ Hs1) as Hsh.
  assert (forall j, 0 <= j -> Z.testbit (Z.clearbit mask (bitmap_index p)) j = Z.testbit mask j && negb (bitmap_index p =? j)) as Hclr
    by (intros; by rewrite Z.clearbit_eqb by lia).
  assert (slots_in b (Z.clearbit mask (bitmap_index p))) as Hin1.
  { intros j Hj. destruct (decide (0 <= j)); [|by rewrite Z.testbit_neg_r in Hj by lia].
    rewrite Hclr in Hj by done. apply andb_prop in Hj as [Hj _]. by apply Hin. }
  destruct (IH (Z.clearbit mask (bitmap_index p)) (if c =? 0 then m else Z.setbit m (bitmap_index p)) b1) as (mask' & m' & b' & l' & -> & Hsub & Hsy);
    [apply Hs1|by eapply slots_in_shape|by eapply range_ok_shape|by eapply range_ok_shape|done|].
  exists mask', m', b', (p1 :: l'). split; [done|]. split.
  - intros j Hj. apply Hsub in Hj. destruct (decide (0 <= j)); [|by rewrite Z.testbit_neg_r in Hj by lia].
    rewrite Hclr in Hj by done. by apply andb_prop in Hj as [Hj _].
  - eapply slots_synced_trans; [exact Hs1|exact Hsy|]. intros j Hj. cbn beta. specialize (Hsub j). rewrite Hclr by lia. rewrite Hclr in Hsub by lia.
    destruct (Z.eqb_spec (bitmap_index p) j) as [Hji|Hji]; [rewrite <- Hji in *; clear Hji|by destruct (Z.testbit mask j), (Z.testbit mask' j)].
    rewrite Et in *. destruct (Z.testbit mask' (bitmap_index p)); [|done]. by specialize (Hsub eq_refl).
Qed.

Lemma set_sync_slots_ok bits setr clearr mask n i m b : bm_wf b -> slots_in b mask ->
  range_ok b setr -> range_ok b clearr -> fst setr <= snd setr ->
  exists m' b', set_sync_slots setr clearr bits mask n i m b = Ret (m', b') /\
    slots_synced bits setr clearr (fun j => Z.testbit mask j && ((i <=? j) && (j <? i + Z.of_nat n))) b b' m m'.
Proof.
  revert i m b. induction n as [|n IH]; intros i m b Hwf Hin Hs Hc Hle.
  { exists m, b. split; [done|]. apply slots_synced_refl; [done|]. intros j _.
    destruct (Z.leb_spec i j), (Z.ltb_spec j (i + Z.of_nat 0)); rewrite ?andb_false_r; try done; lia. }
  cbn [set_sync_slots]. destruct (Z.testbit mask i) eqn:Et; cbn [negb].
  - pose proof (Hin _ Et) as Hi. destruct (slot_treated bits setr clearr b i m) as (c & b1 & Hrun & Hb & Hs1); try done.
    pose proof (sy_shape _ _ _ _ _ _ _ _ Hs1) as Hsh.
    assert ((if Z.testbit bits i then drbd_bm_set_bits b i (fst setr) (snd setr)
             else if fst clearr <=? snd clearr then drbd_bm_clear_bits b i (fst clearr) (snd clearr) else Ret (0, b)) = Ret (c, b1)) as ->.
    { unfold drbd_bm_set_bits, drbd_bm_clear_bits. destruct (Z.testbit bits i); [|destruct (fst clearr <=? snd clearr)]; rewrite ?Hrun; simpl;
        by rewrite ?u32_count. }
    cbn. destruct (IH (i + 1) (if c =? 0 then m else Z.setbit m i) b1) as (m' & b' & -> & Hsy);
      [apply Hs1|by eapply slots_in_shape|by eapply range_ok_shape|by eapply range_ok_shape|done|].
    exists m', b'. split; [done|]. eapply slots_synced_trans; [exact Hs1|exact Hsy|]. intros j Hj. cbn beta.
    destruct (Z.eqb_spec i j) as [<-|]; rewrite ?Et; (destruct (Z.testbit mask j) || idtac);
      repeat match goal with |- context [Z.leb ?x ?y] => destruct (Z.leb_spec x y) | |- context [Z.ltb ?x ?y] => destruct (Z.ltb_spec x y) end;
      try done; lia.
  - destruct (IH (i + 1) m b) as (m' & b' & -> & Hsy); try done. exists m', b'. split; [done|].
    eapply slots_synced_trans; [apply (slots_synced_refl _ _ _ (fun _ => false)); done|exact Hsy|]. intros j Hj. cbn beta.
    destruct (Z.eqb_spec i j) as [<-|]; rewrite ?Et; [done|]. destruct (Z.testbit mask j);
      repeat match goal with |- context [Z.leb ?x ?y] => destruct (Z.leb_spec x y) | |- context [Z.ltb ?x ?y] => destruct (Z.ltb_spec x y) end;
      try done; lia.
Qed.

(** ** Sectors and blocks *)

Lemma sect_to_bit_div b s : 9 <= bm_block_shift b -> bm_sect_to_bit b s = s / 2 ^ (bm_block_shift b - 9).
Proof. intros Hs. unfold bm_sect_to_bit. apply Z.shiftr_div_pow2. lia. Qed.

Lemma covered_div w nr lo hi k : 0 < w -> 0 <= lo <= hi -> hi < nr -> 0 <= k <= (nr - 1) / w ->
  (lo + w - 1) / w <= k <= (if hi =? nr - 1 then hi / w else (hi + 1) / w - 1) <->
  forall s, 0 <= s < nr -> s / w = k -> lo <= s <= hi.
Proof.
  intros Hw Hlo Hhi Hk. assert (forall s, s / w = k <-> k * w <= s < k * w + w) as Hblk.
  { intros s. split; [intros <-; pose proof (Z.div_mod s w); pose proof (Z.mod_pos_bound s w); nia|].
    intros Hs. symmetry. apply (Z.div_unique_pos s w k (s - k * w)); lia. }
  assert (k * w <= nr - 1) as Hbase by (pose proof (Z.mul_div_le (nr - 1) w Hw); nia).
  assert (lo <= k * w <-> (lo + w - 1) / w <= k) as Hleft.
  { split; intros Hx; [apply Z.lt_succ_r, Z.div_lt_upper_bound; nia|]. pose proof (Z.mul_succ_div_gt (lo + w - 1) w Hw). nia. }
  assert (k <= (if hi =? nr - 1 then hi / w else (hi + 1) / w - 1) <-> Z.min (k * w + w - 1) (nr - 1) <= hi) as Hright.
  { destruct (Z.eqb_spec hi (nr - 1)) as [->|Hne]; [lia|].
    split; intros Hx; [pose proof (Z.mul_div_le (hi + 1) w Hw); nia|]. apply Z.le_add_le_sub_r, Z.div_le_lower_bound; [done|lia]. }
  rewrite <- Hleft, Hright. split.
  - intros Hx s Hs Hsk. apply Hblk in Hsk. lia.
  - intros Hall. pose proof (Hall (k * w) ltac:(lia) ltac:(apply Hblk; lia)).
    pose proof (Hall (Z.min (k * w + w - 1) (nr - 1)) ltac:(lia) ltac:(apply Hblk; lia)). lia.
Qed.

Record sync_args (b : drbd_bitmap) (nr_sectors sector size : Z) : Prop := {
  sa_wf : bm_wf b;
  sa_bits : bm_bits b = bits_for b nr_sectors;
  sa_shift : 9 <= bm_block_shift b <= 40;
  sa_nr : nr_sectors < 2 ^ 62;
  sa_sector : 0 <= sector < nr_sectors;
  sa_size : 0 < size < 2 ^ 31;
  sa_aligned : size mod 512 = 0 }.

Definition last_sector (nr_sectors sector size : Z) : Z := Z.min (sector + size / 512 - 1) (nr_sectors - 1).

Lemma esector_min b nr sector size : sync_args b nr sector size ->
  (if negb (u64 (sector + Z.shiftr size 9 - 1) <? nr) then nr - 1 else u64 (sector + Z.shiftr size 9 - 1)) = last_sector nr sector size /\
  sector <= last_sector nr sector size < nr /\ last_sector nr sector size < sector + 2 ^ 22.
Proof.
  intros [_ _ _ Hnr Hs Hsz Ha]. rewrite Z.shiftr_div_pow2 by lia. change (2 ^ 9) with 512.
  assert (1 <= size / 512 < 2 ^ 22) by zdiv. unfold u64. rewrite Z.mod_small by lia. unfold last_sector.
  destruct (Z.ltb_spec (sector + size / 512 - 1) nr); simpl; lia.
Qed.

Lemma last_bit b nr sector size : sync_args b nr sector size -> bm_bits b = (nr - 1) / 2 ^ (bm_block_shift b - 9) + 1.
Proof.
  intros [_ -> Hsh _ Hs _ _]. rewrite bits_for_eq by lia. pose proof (Z.pow_pos_nonneg 2 (bm_block_shift b - 9) ltac:(lia) ltac:(lia)) as Hw.
  replace (nr + (2 ^ (bm_block_shift b - 9) - 1)) with (nr - 1 + 1 * 2 ^ (bm_block_shift b - 9)) by lia. apply Z.div_add. lia.
Qed.

Lemma block_width b nr sector size : sync_args b nr sector size -> 1 <= 2 ^ (bm_block_shift b - 9) <= 2 ^ 31.
Proof. intros [_ _ Hsh _ _ _ _]. split; [pose proof (Z.pow_pos_nonneg 2 (bm_block_shift b - 9)); lia|apply Z.pow_le_mono_r; lia]. Qed.

Lemma div_diff w lo hi : 0 < w -> lo <= hi -> hi / w - lo / w <= hi - lo.
Proof.
  intros Hw Hle. pose proof (Z.div_mod lo w). pose proof (Z.div_mod hi w). pose proof (Z.mod_pos_bound lo w Hw). pose proof (Z.mod_pos_bound hi w Hw). nia.
Qed.

Lemma ranges_in b nr sector size : sync_args b nr sector size ->
  let hi := last_sector nr sector size in
  range_ok b (set_range b sector hi) /\ fst (set_range b sector hi) <= snd (set_range b sector hi) /\
  range_ok b (clear_range b nr sector hi).
Proof.
  intros Ha hi. destruct (esector_min _ _ _ _ Ha) as (_ & Hhi & Hlen). fold hi in Hhi, Hlen. pose proof (sa_shift _ _ _ _ Ha).
  pose proof (last_bit _ _ _ _ Ha) as Hb. pose proof (block_width _ _ _ _ Ha) as Hw. destruct (sa_sector _ _ _ _ Ha) as [Hs0 Hs1].
  pose proof (sa_nr _ _ _ _ Ha). unfold range_ok, set_range, clear_range. cbn [fst snd]. rewrite !sect_to_bit_div by lia.
  unfold bm_sect_per_bit. rewrite Z.shiftl_1_l. set (w := 2 ^ (bm_block_shift b - 9)) in *. unfold u64. rewrite !Z.mod_small by lia.
  pose proof (Z.div_le_mono hi (nr - 1) w ltac:(lia) ltac:(lia)). pose proof (Z.div_le_mono sector hi w ltac:(lia) ltac:(lia)).
  pose proof (Z.div_pos sector w ltac:(lia) ltac:(lia)). pose proof (Z.div_pos (sector + w - 1) w ltac:(lia) ltac:(lia)).
  pose proof (div_diff w sector hi ltac:(lia) ltac:(lia)).
  pose proof (Z.div_le_mono sector (sector + w - 1) w ltac:(lia) ltac:(lia)).
  pose proof (Z.div_le_mono (hi + 1) (hi + 1 * w) w ltac:(lia) ltac:(lia)) as Hup. rewrite Z.div_add in Hup by lia.
  destruct (Z.eqb_spec hi (nr - 1)); split_and!; lia.
Qed.

(** The ranges of bits are the blocks of the sectors. *)
Lemma in_set_range b nr sector size k : sync_args b nr sector size ->
  in_pair (set_range b sector (last_sector nr sector size)) k = true <->
  exists s, sector <= s <= last_sector nr sector size /\ bm_sect_to_bit b s = k.
Proof.
  intros Ha. destruct (esector_min _ _ _ _ Ha) as (_ & Hhi & _). pose proof (block_width _ _ _ _ Ha). pose proof (sa_shift _ _ _ _ Ha).
  pose proof (sa_sector _ _ _ _ Ha). unfold in_pair, set_range. cbn [fst snd]. rewrite andb_true_iff, !Z.leb_le, !sect_to_bit_div by lia.
  rewrite touched_div by lia. by setoid_rewrite sect_to_bit_div; [|lia].
Qed.

Lemma in_clear_range b nr sector size k : sync_args b nr sector size -> 0 <= k < bm_bits b ->
  in_pair (clear_range b nr sector (last_sector nr sector size)) k = true <->
  forall s, 0 <= s < nr -> bm_sect_to_bit b s = k -> sector <= s <= last_sector nr sector size.
Proof.
  intros Ha Hk. destruct (esector_min _ _ _ _ Ha) as (_ & Hhi & _). pose proof (block_width _ _ _ _ Ha). pose proof (sa_shift _ _ _ _ Ha).
  pose proof (sa_sector _ _ _ _ Ha). pose proof (sa_nr _ _ _ _ Ha). rewrite (last_bit _ _ _ _ Ha) in Hk.
  unfold in_pair, clear_range. cbn [fst snd]. rewrite andb_true_iff, !Z.leb_le, !sect_to_bit_div by lia.
  unfold bm_sect_per_bit. rewrite Z.shiftl_1_l. unfold u64. rewrite !Z.mod_small by lia. rewrite covered_div by lia.
  by setoid_rewrite sect_to_bit_div; [|lia].
Qed.

Lemma mask_slots b mask all : 0 <= bm_max_peers b -> all_slots_mask (bm_max_peers b) = Ret all ->
  slots_in b (Z.land mask all) /\ forall j, 0 <= j < bm_max_peers b -> Z.testbit (Z.land mask all) j = Z.testbit mask j.
Proof.
  unfold all_slots_mask. intros Hp Hall. destruct (bm_max_peers b <? 32); [|done]. injection Hall as <-.
  assert (forall j, Z.testbit (Z.land mask (Z.shiftl 1 (bm_max_peers b) - 1)) j = Z.testbit mask j && ((0 <=? j) && (j <? bm_max_peers b))) as Hb.
  { intros j. rewrite Z.land_spec. f_equal. rewrite Z.shiftl_1_l, Z.sub_1_r, <- Z.ones_equiv. destruct (Z.leb_spec 0 j); [|by rewrite Z.testbit_neg_r by lia].
    apply Z.testbit_ones_nonneg; lia. }
  split.
  - intros j Hj. rewrite Hb in Hj. apply andb_prop in Hj as [_ Hj]. lia.
  - intros j Hj. rewrite Hb. rewrite (proj2 (Z.leb_le 0 j)), (proj2 (Z.ltb_lt j (bm_max_peers b))) by lia. apply andb_true_r.
Qed.

Lemma set_sync_all bits setr clearr mask peers b : bm_wf b -> slots_in b mask -> range_ok b setr -> range_ok b clearr -> fst setr <= snd setr ->
  exists m' b' peers',
    (let! (mask, modified, b, peers) := set_sync_peers setr clearr bits peers mask 0 b in
     let! (modified, b) := if mask =? 0 then Ret (modified, b) else set_sync_slots setr clearr bits mask 64 0 modified b in
     Ret (modified, b, peers)) = Ret (m', b', peers') /\ slots_synced bits setr clearr (Z.testbit mask) b b' 0 m'.
Proof.
  intros Hwf Hin Hs Hc Hle. destruct (set_sync_peers_ok bits setr clearr peers mask 0 b) as (mask1 & m1 & b1 & peers1 & -> & Hsub & Hs1); try done.
  cbn [obind]. pose proof (sy_shape _ _ _ _ _ _ _ _ Hs1) as Hsh. pose proof (wf_peers b Hwf).
  assert (slots_in b mask1) as Hin1 by (intros j Hj; by apply Hin, Hsub).
  destruct (set_sync_slots_ok bits setr clearr mask1 64 0 m1 b1) as (m2 & b2 & Hrun & Hs2);
    [apply Hs1|by eapply slots_in_shape|by eapply range_ok_shape|by eapply range_ok_shape|done|].
  destruct (Z.eqb_spec mask1 0) as [->|Hm]; cbn [obind].
  - exists m1, b1, peers1. split; [reflexivity|]. eapply slots_synced_trans; [exact Hs1|by apply slots_synced_refl; [apply Hs1|]|].
    intros j Hj. cbn beta. by rewrite Z.bits_0, andb_true_r, orb_false_r, andb_false_r.
  - exists m2, b2, peers1. rewrite Hrun. split; [reflexivity|]. eapply slots_synced_trans; [exact Hs1|exact Hs2|].
    intros j Hj. cbn beta. rewrite (proj2 (Z.leb_le 0 j)), (proj2 (Z.ltb_lt j (0 + Z.of_nat 64))) by lia. specialize (Hsub j).
    destruct (Z.testbit mask j), (Z.testbit mask1 j); try done. by specialize (Hsub eq_refl).
Qed.

(** C37: with fewer than 32 slots (with 32 the code marks nothing, [drbd_actlog.c] line 824),
    [drbd_set_sync] on a range of sectors inside the device runs to its end, whatever
    the peer devices are, and keeps the bitmap well formed and its counters exact.  In a slot
    that the mask selects, a block is out of sync afterwards exactly when: for a slot whose
    value is set, it was out of sync or a sector of the range lies in it; for a slot whose
    value is clear, it was out of sync and not every sector of it is in the range (the last
    block ends with the device).  Other slots are not changed, and the result has exactly the
    slots in which a bit changed. *)
Theorem drbd_set_sync_spec b nr_sectors peers sector size bits mask :
  sync_args b nr_sectors sector size -> bm_counts b -> bm_max_peers b < 32 ->
  exists m' b' peers', drbd_set_sync true nr_sectors b peers sector size bits mask = Ret (m', b', peers') /\
    bm_wf b' /\ same_shape b b' /\ bm_counts b' /\
    forall i, 0 <= i < bm_max_peers b ->
      (Z.testbit m' i = true <-> exists k, 0 <= k < bm_bits b /\ bm_bit b' i k <> bm_bit b i k) /\
      forall k, 0 <= k < bm_bits b ->
        bm_bit b' i k = true <->
        if negb (Z.testbit mask i) then bm_bit b i k = true
        else if Z.testbit bits i
        then bm_bit b i k = true \/ exists s, sector <= s <= last_sector nr_sectors sector size /\ bm_sect_to_bit b s = k
        else bm_bit b i k = true /\
          ~ (forall s, 0 <= s < nr_sectors -> bm_sect_to_bit b s = k -> sector <= s <= last_sector nr_sectors sector size).
Proof.
  intros Ha Hcnt Hp. pose proof (sa_wf _ _ _ _ Ha) as Hwf. pose proof (wf_peers b Hwf). destruct (esector_min _ _ _ _ Ha) as (Ee & _ & _).
  destruct (ranges_in _ _ _ _ Ha) as (Hs & Hle & Hc). pose proof (sa_sector _ _ _ _ Ha). pose proof (sa_size _ _ _ _ Ha).
  unfold drbd_set_sync. rewrite (proj2 (Z.leb_gt size 0)), (sa_aligned _ _ _ _ Ha) by lia. cbn [orb negb Z.eqb].
  destruct (all_slots_mask (bm_max_peers b)) as [all| |] eqn:Eall;
    [|unfold all_slots_mask in Eall; by rewrite (proj2 (Z.ltb_lt _ _) Hp) in Eall..].
  destruct (mask_slots b mask all ltac:(lia) Eall) as [Hin Hmask]. cbn [obind].
  rewrite (proj2 (Z.ltb_lt sector nr_sectors)) by lia. cbn [negb]. cbv zeta. rewrite Ee.
  destruct (set_sync_all bits _ _ (Z.land mask all) peers b Hwf Hin Hs Hc Hle) as (m' & b' & peers' & -> & Hsy).
  exists m', b', peers'. split_and!; [done|apply Hsy|apply Hsy|by apply Hsy|]. intros i Hi. split.
  - rewrite (sy_mod _ _ _ _ _ _ _ _ Hsy) by done. rewrite Z.bits_0, Hmask by done. split; [intros [?|[_ ?]]; done|].
    intros (k & Hk & Hne). right. split; [|by exists k]. destruct (Z.testbit mask i) eqn:Em; [done|].
    rewrite (sy_bits _ _ _ _ _ _ _ _ Hsy), Hmask, Em in Hne by done. done.
  - intros k Hk. rewrite (sy_bits _ _ _ _ _ _ _ _ Hsy), Hmask by done. destruct (Z.testbit mask i); [|done]. cbn [negb].
    unfold synced_bit. destruct (Z.testbit bits i).
    + rewrite orb_true_iff. by rewrite (in_set_range _ _ _ _ _ Ha).
    + rewrite andb_true_iff, <- (in_clear_range _ _ _ _ _ Ha) by done. by rewrite negb_true_iff, not_true_iff_false.
Qed.
End sync.

(** One connected peer in slot 0 and none in slot 1: the 16 sectors from sector 4 are written. *)
Definition demo_rs_peer : rs_peer := mk_peer 0 0 120 0 0 (replicate 8 0) (replicate 8 0) 0 0 0 [].

Lemma demo_sync_args : @sync_args PAGE_SHIFT_4k demo_bitmap 800 4 8192.
Proof. split; [exact demo_bitmap_wf|vm_compute; reflexivity|vm_compute..]; by repeat split. Qed.

Lemma demo_counts : bm_counts demo_bitmap.
Proof. intros i Hi. change (0 <= i < 2) in Hi. destruct (decide (i = 0)) as [->|]; [|replace i with 1 by lia]; vm_compute; reflexivity. Qed.

Lemma drbd_set_sync_spec_witness : exists m' b' peers',
  @drbd_set_sync small_headers PAGE_SHIFT_4k 250 1000 true 800 demo_bitmap [demo_rs_peer] 4 8192 1 3 = Ret (m', b', peers') /\
  bm_bit b' 0 2 = true /\ ~ bm_bit b' 0 3 = true.
Proof.
  assert (0 <= 0 < bm_max_peers demo_bitmap) as Hi by (split; vm_compute; [discriminate|reflexivity]).
  assert (0 <= 2 < bm_bits demo_bitmap /\ 0 <= 3 < bm_bits demo_bitmap) as [Hk2 Hk3] by (vm_compute; repeat split; discriminate).
  assert (4 <= 16 <= last_sector 800 4 8192 /\ bm_sect_to_bit demo_bitmap 16 = 2) as H16 by (vm_compute; repeat split; discriminate).
  assert (bm_bit demo_bitmap 0 3 = false) as H3 by (vm_compute; reflexivity).
  assert (forall s, 4 <= s <= last_sector 800 4 8192 -> bm_sect_to_bit demo_bitmap s <> 3) as Hno.
  { intros s Hs. change (last_sector 800 4 8192) with 19 in Hs. rewrite sect_to_bit_div by (vm_compute; discriminate).
    change (2 ^ (bm_block_shift demo_bitmap - 9)) with 8. zdiv. }
  destruct (@drbd_set_sync_spec small_headers PAGE_SHIFT_4k 250 1000 demo_bitmap 800 [demo_rs_peer] 4 8192 1 3 demo_sync_args demo_counts eq_refl)
    as (m' & b' & peers' & Hrun & _ & _ & _ & Hall).
  exists m', b', peers'. split; [exact Hrun|]. clear Hrun. destruct (Hall 0 Hi) as [_ Hbits]. split.
  - apply (Hbits 2 Hk2). right. exists 16. exact H16.
  - intros Hb. apply (Hbits 3 Hk3) in Hb. destruct Hb as [Hb|(s & Hs & Hk)]; [|exact (Hno s Hs Hk)].
    rewrite H3 in Hb. discriminate.
Defined.
