(* ===== verification/BitmapXfer.v ===== *)
(** * The bitmap on the wire ([drbd_main.c] 1897-2218, [drbd_receiver.c] 8552-8935)

    Two nodes that begin a resync send each other their bitmaps.  The bits are sent as if a
    bit was for a block of 4 KiB, as run lengths in the code of [Vli] or, where this does
    not pay, as plain words.  The receiver adds the bits to its own. *)
From S2P Require Import Prelude Vli Headers Bitmap BitmapProps BitmapOps BitmapResize.

(** Sizes and codes of the protocol headers, which are in the header submodule.  The sizes
    of the packet headers are in comments of [drbd_header_size], the size of the buffer
    in a comment of [send_bitmap_rle_or_plain]. *)
Class BmProtocol := {
  DRBD_SOCKET_BUFFER_SIZE : Z;
  sizeof_p_compressed_bm : Z;
  RLE_VLI_Bits : Z;
  socket_buffer_room : 2048 + 16 + sizeof_p_compressed_bm <= DRBD_SOCKET_BUFFER_SIZE < 2 ^ 24;
  compressed_bm_size : 1 <= sizeof_p_compressed_bm;
  rle_code_range : 0 <= RLE_VLI_Bits < 16 }.

Definition drbd_header_size (agreed_pro_version : Z) : Z := if 100 <=? agreed_pro_version then 16 else 8.

(** [struct bm_xfer_ctx]; the statistics are left out. *)
Record bm_xfer_ctx := mk_ctx {
  x_bits_4k : Z;
  x_bits : Z;
  x_words : Z;
  x_scale : Z;
  bit_offset : Z;
  bit_offset_4k : Z;
  word_offset : Z }.

Definition set_bit_offset (n : Z) (c : bm_xfer_ctx) : bm_xfer_ctx :=
  mk_ctx (x_bits_4k c) (x_bits c) (x_words c) (x_scale c) n (bit_offset_4k c) (word_offset c).
Definition set_word_offset (n : Z) (c : bm_xfer_ctx) : bm_xfer_ctx :=
  mk_ctx (x_bits_4k c) (x_bits c) (x_words c) (x_scale c) (bit_offset c) (bit_offset_4k c) n.
Definition set_bit_offset_4k (n : Z) (c : bm_xfer_ctx) : bm_xfer_ctx :=
  mk_ctx (x_bits_4k c) (x_bits c) (x_words c) (x_scale c) (bit_offset c) n (word_offset c).

Definition bm_xfer_ctx_bit_to_word_offset (c : bm_xfer_ctx) : bm_xfer_ctx := set_word_offset (Z.shiftr (bit_offset c) 6) c.

(** The initial context on both sides. *)
Definition new_ctx (b : drbd_bitmap) : bm_xfer_ctx :=
  mk_ctx (bm_bits_4k b) (bm_bits b) (drbd_bm_words b) (bm_block_shift b - BM_BLOCK_SHIFT_4k) 0 0 0.

(** What is sent: the byte [encoding] and the code, or words of the bitmap. *)
Inductive bm_packet :=
  | P_COMPRESSED_BITMAP (encoding : Z) (code : list Z)
  | P_BITMAP (words : list Z).

(** ** Fields of the encoding *)

Definition dcbp_set_code (encoding code : Z) : outcome Z :=
  bug_on! negb (Z.ldiff code 0xf =? 0) in Ret (Z.lor (Z.ldiff encoding 0xf) code).
Definition dcbp_set_start (encoding : Z) (set : bool) : Z := Z.lor (Z.ldiff encoding 0x80) (if set then 0x80 else 0).
(** [~0x7 << 4] keeps only the highest bit of a byte. *)
Definition dcbp_set_pad_bits (encoding n : Z) : outcome Z :=
  bug_on! negb (Z.ldiff n 0x7 =? 0) in Ret (Z.lor (Z.land encoding 0x80) (Z.shiftl n 4)).
Definition dcbp_get_code (encoding : Z) : Z := Z.land encoding 0xf.
Definition dcbp_get_start (encoding : Z) : bool := negb (Z.land encoding 0x80 =? 0).
Definition dcbp_get_pad_bits (encoding : Z) : Z := Z.land (Z.shiftr encoding 4) 0x7.

Section xfer.
Context `{DrbdHeaders} `{Arch} `{BmProtocol}.

(** ** Sending *)

Inductive rle_exit :=
  | rle_break (c : bm_xfer_ctx) (bs : bitstream) (plain_bits encoding : Z)
  | rle_return (r : Z) (c : bm_xfer_ctx).

(** The loop of [fill_bitmap_rle_bits]. *)
Fixpoint rle_loop (b : drbd_bitmap) (bitmap_index : Z) (fuel : nat) (c : bm_xfer_ctx) (bs : bitstream)
    (plain_bits toggle encoding : Z) : outcome rle_exit :=
  match fuel with
  | O => BUG
  | S fuel =>
      let! tmp :=
        if toggle =? 0 then _drbd_bm_find_next_zero b bitmap_index (bit_offset c)
        else _drbd_bm_find_next b bitmap_index (bit_offset c) in
      let none := tmp =? 2 ^ 64 - 1 in
      let tmp := if none then x_bits c else tmp in
      let rl := u64 (tmp - bit_offset c) in
      let rl_4k :=
        if none then u64 (x_bits_4k c - Z.shiftl (bit_offset c) (x_scale c)) else u64 (Z.shiftl rl (x_scale c)) in
      if (toggle =? 2) && (rl =? 0) then
        let encoding := dcbp_set_start encoding true in
        if bit_offset c <? x_bits c then rle_loop b bitmap_index fuel c bs plain_bits 0 encoding
        else Ret (rle_break c bs plain_bits encoding)
      else
        let encoding := if toggle =? 2 then dcbp_set_start encoding false else encoding in
        if rl =? 0 then Ret (rle_return (-1) c)
        else
          match vli_encode_bits bs rl_4k with
          | BUG => BUG
          | Fail e => Ret (if decide (e = ENOBUFS) then rle_break c bs plain_bits encoding else rle_return 0 c)
          | Ret (bits, bs) =>
              if bits <=? 0 then Ret (rle_return 0 c)
              else
                let c := set_bit_offset tmp c in
                let plain_bits := u64 (plain_bits + rl) in
                if bit_offset c <? x_bits c
                then rle_loop b bitmap_index fuel c bs plain_bits (if toggle =? 0 then 1 else 0) encoding
                else Ret (rle_break c bs plain_bits encoding)
          end
  end.

(** [fill_bitmap_rle_bits] with the byte that was in the buffer at [p->encoding]: its result,
    the new context, the encoding and the buffer.  A code word has 2 bits or more, so a buffer
    of [size] bytes has room for [4 * size] of them. *)
Definition fill_bitmap_rle_bits (use_rle : bool) (agreed_pro_version : Z) (b : drbd_bitmap) (bitmap_index size encoding : Z)
    (c : bm_xfer_ctx) : outcome (Z * bm_xfer_ctx * Z * list Z) :=
  if negb use_rle || (agreed_pro_version <? 90) then Ret (0, c, encoding, [])
  else if x_bits c <=? bit_offset c then Ret (0, c, encoding, [])
  else
    let! r := rle_loop b bitmap_index (Z.to_nat (4 * size + 3)) c (bitstream_init (replicate (Z.to_nat size) 0) 0) 0 2 encoding in
    match r with
    | rle_return r c => Ret (r, c, encoding, [])
    | rle_break c bs plain_bits encoding =>
        let len := bs_cur_b bs + (if bs_cur_bit bs =? 0 then 0 else 1) in
        if u64 (Z.shiftl plain_bits (x_scale c)) <? u32 (Z.shiftl len 3) then
          let c := bm_xfer_ctx_bit_to_word_offset (set_bit_offset (u64 (bit_offset c - plain_bits)) c) in
          Ret (0, set_bit_offset (word_offset c * BITS_PER_LONG) c, encoding, [])
        else
          let! encoding := dcbp_set_pad_bits encoding (Z.land (8 - bs_cur_bit bs) 0x7) in
          Ret (len, bm_xfer_ctx_bit_to_word_offset c, encoding, bs_buf bs)
    end.

(** ** Plain words

    A buffer is a list of 32 bit words in little endian order; an [unsigned long] is two of
    them, and [mbit] is [test_bit]. *)

Definition store64 (base : list Z) (n v : Z) : list Z :=
  <[Z.to_nat (2 * n + 1) := Z.shiftr v 32]> (<[Z.to_nat (2 * n) := Z.land v (2 ^ 32 - 1)]> base).

(** The word [*dst]. *)
Definition repeated_word (base : list Z) (n i scale : Z) : Z :=
  foldl (fun v dbit => if mbit base (64 * n + Z.shiftr (i * BITS_PER_LONG + dbit) scale) then Z.lor v (Z.shiftl 1 dbit) else v)
    0 (seqZ 0 BITS_PER_LONG).

(** [repeat_bits]; the loop ends before word 0. *)
Definition repeat_bits (base : list Z) (num scale : Z) : list Z :=
  let repeat := Z.shiftl 1 scale in
  foldl (fun base n =>
    foldl (fun base i => store64 base (n * repeat + i) (repeated_word base n i scale)) base (seqZ 0 repeat))
    base (reverse (seqZ 1 (num - 1))).

Definition set_bit_ul (base : list Z) (n : Z) : list Z :=
  alter (fun w => Z.lor w (Z.shiftl 1 (n mod 32))) (Z.to_nat (n / 32)) base.

Definition scale_bits (base : list Z) (num_4k scale : Z) : list Z :=
  if scale =? 0 then base
  else
    foldl (fun base sbit => if mbit base sbit then set_bit_ul base (Z.shiftr sbit scale) else base)
      base (seqZ 0 (u32 (num_4k * BITS_PER_LONG))).

Definition ALIGN_DOWN (x a : Z) : Z := x - x mod a.

(** The rest of the connection: the protocol, the configuration and what is in the send buffer
    before a packet is made, by the offset of the transfer. *)
Record bm_sender := mk_sender {
  use_rle : bool;
  agreed_pro_version : Z;
  old_encoding : Z -> Z;
  old_words : Z -> list Z }.

Definition plain_words (sd : bm_sender) (c : bm_xfer_ctx) : Z :=
  let data_size := DRBD_SOCKET_BUFFER_SIZE - drbd_header_size (agreed_pro_version sd) in
  let data_size := ALIGN_DOWN data_size (8 * Z.shiftl 1 (x_scale c)) in
  Z.min (Z.shiftr (data_size / 8) (x_scale c)) (u64 (x_words c - word_offset c)).

(** The branch of [send_bitmap_rle_or_plain] for plain words: [len] in bytes, the context and the packet. *)
Definition send_plain (sd : bm_sender) (b : drbd_bitmap) (bitmap_index : Z) (c : bm_xfer_ctx) : outcome (Z * bm_xfer_ctx * bm_packet) :=
  let num_words := plain_words sd c in
  let len := num_words * 8 in
  let! (len, pu) :=
    if negb (len =? 0) then
      let! (_, _, pu) := drbd_bm_get_lel b bitmap_index (word_offset c) num_words (old_words sd (word_offset c)) in
      if negb (x_scale c =? 0) then Ret (Z.shiftl len (x_scale c), repeat_bits pu num_words (x_scale c)) else Ret (len, pu)
    else if negb (x_words c - word_offset c =? 0) then Fail ERANGE
    else Ret (0, old_words sd (word_offset c)) in
  let c := set_word_offset (word_offset c + num_words) c in
  let c := set_bit_offset (word_offset c * BITS_PER_LONG) c in
  Ret (len, if x_bits c <? bit_offset c then set_bit_offset (x_bits c) c else c, P_BITMAP (take (Z.to_nat (len / 4)) pu)).

(** [send_bitmap_rle_or_plain], where the socket takes the packet: 0 when done, 1 when
    another iteration is needed. *)
Definition send_bitmap_rle_or_plain (sd : bm_sender) (b : drbd_bitmap) (bitmap_index : Z) (c : bm_xfer_ctx)
    : outcome (Z * bm_xfer_ctx * bm_packet) :=
  let header_size := drbd_header_size (agreed_pro_version sd) in
  let! (len, c, encoding, code) :=
    fill_bitmap_rle_bits (use_rle sd) (agreed_pro_version sd) b bitmap_index
      (DRBD_SOCKET_BUFFER_SIZE - header_size - sizeof_p_compressed_bm) (old_encoding sd (bit_offset c)) c in
  if len <? 0 then Fail EIO
  else
    let! (len, c, p) :=
      if negb (len =? 0) then
        let! encoding := dcbp_set_code encoding RLE_VLI_Bits in
        Ret (if x_bits c <=? bit_offset c then 0 else len, c, P_COMPRESSED_BITMAP encoding (take (Z.to_nat len) code))
      else send_plain sd b bitmap_index c in
    Ret (if len =? 0 then 0 else 1, c, p).

(** The loop of [_drbd_send_bitmap]: the packets. *)
Fixpoint send_loop (sd : bm_sender) (b : drbd_bitmap) (bitmap_index : Z) (fuel : nat) (c : bm_xfer_ctx) : outcome (list bm_packet) :=
  match fuel with
  | O => BUG
  | S fuel =>
      let! (res, c, p) := send_bitmap_rle_or_plain sd b bitmap_index c in
      if 0 <? res then let! l := send_loop sd b bitmap_index fuel c in Ret (p :: l) else Ret [p]
  end.

(** [_drbd_send_bitmap] with a disk; [full_sync] is the flag [MDF_PEER_FULL_SYNC] and [written]
    tells that [drbd_bm_write] succeeded: the packets, the bitmap and the flag. *)
Definition _drbd_send_bitmap (sd : bm_sender) (full_sync written : bool) (b : drbd_bitmap) (bitmap_index : Z)
    : outcome (list bm_packet * drbd_bitmap * bool) :=
  let! b := if full_sync then drbd_bm_set_many_bits b bitmap_index 0 (2 ^ 64 - 1) else Ret b in
  let! l := send_loop sd b bitmap_index (Z.to_nat (bm_bits b + 2)) (new_ctx b) in
  Ret (l, b, full_sync && negb written).

(** ** Receiving

    A routine that fails ends the connection; the bits that were added before stay, which
    the result [Fail] does not show. *)

Definition receive_bitmap_plain (pro_version : Z) (has_disk : bool) (bitmap_index : Z) (words : list Z) (c : bm_xfer_ctx) (b : drbd_bitmap)
    : outcome (Z * bm_xfer_ctx * drbd_bitmap) :=
  let data_size := DRBD_SOCKET_BUFFER_SIZE - drbd_header_size pro_version in
  let num_words_4k := Z.min (data_size / 8) (u64 (Z.shiftl (u64 (x_words c - word_offset c)) (x_scale c))) in
  let want := num_words_4k * 8 in
  if negb (want =? 4 * Z.of_nat (length words)) then Fail EIO
  else if want =? 0 then Ret (0, c, b)
  else if negb (Z.land num_words_4k (Z.shiftl 1 (x_scale c) - 1) =? 0) then Fail ERANGE
  else if negb has_disk then Fail EIO
  else
    let! (_, b, _) := drbd_bm_merge_lel b bitmap_index (word_offset c) (Z.shiftr num_words_4k (x_scale c)) (scale_bits words num_words_4k (x_scale c)) in
    let c := set_word_offset (word_offset c + Z.shiftr num_words_4k (x_scale c)) c in
    let c := set_bit_offset_4k (u64 (Z.shiftl (word_offset c) (x_scale c) * BITS_PER_LONG)) (set_bit_offset (word_offset c * BITS_PER_LONG) c) in
    Ret (1, if x_bits c <? bit_offset c then set_bit_offset (x_bits c) c else c, b).

(** A run of set bits. *)
Definition recv_run (bitmap_index : Z) (c : bm_xfer_ctx) (s_4k rl_4k : Z) (b : drbd_bitmap) : outcome drbd_bitmap :=
  let s := Z.shiftr s_4k (x_scale c) in
  let e := u64 (Z.shiftr (u64 (s_4k + rl_4k + Z.shiftl 1 (x_scale c) - 1)) (x_scale c) - 1) in
  if x_bits c <=? e then Fail EIO else drbd_bm_set_many_bits b bitmap_index s e.

(** [bitstream_get_bits] as its caller sees it. *)
Definition get_bits_eio (bs : bitstream) (bits : Z) : outcome (Z * Z * bitstream) :=
  match bitstream_get_bits bs bits with
  | Ret (n, out, bs) => if n <? 0 then Fail EIO else Ret (n, out, bs)
  | Fail _ => Fail EIO
  | BUG => BUG
  end.

(** The loop of [recv_bm_rle_bits]. *)
Fixpoint rle_decode_loop (bitmap_index : Z) (c : bm_xfer_ctx) (fuel : nat) (bs : bitstream) (look_ahead have s_4k : Z) (toggle : bool)
    (b : drbd_bitmap) : outcome (Z * drbd_bitmap) :=
  if have <=? 0 then Ret (s_4k, b)
  else
    match fuel with
    | O => BUG
    | S fuel =>
        let! (rl_4k, bits) := vli_decode_bits look_ahead in
        if bits <=? 0 then Fail EIO
        else
          let! b := if toggle then recv_run bitmap_index c s_4k rl_4k b else Ret b in
          if have <? bits then Fail EIO
          else
            let look_ahead := if bits <? 64 then Z.shiftr look_ahead bits else 0 in
            let have := have - bits in
            let! (bits, tmp, bs) := get_bits_eio bs (64 - have) in
            rle_decode_loop bitmap_index c fuel bs (Z.lor look_ahead (u64 (Z.shiftl tmp have))) (have + bits) (u64 (s_4k + rl_4k)) (negb toggle) b
    end.

Definition recv_bm_rle_bits (bitmap_index encoding : Z) (code : list Z) (c : bm_xfer_ctx) (b : drbd_bitmap)
    : outcome (Z * bm_xfer_ctx * drbd_bitmap) :=
  let! (have, look_ahead, bs) := get_bits_eio (bitstream_init code (dcbp_get_pad_bits encoding)) 64 in
  let! (s_4k, b) :=
    rle_decode_loop bitmap_index c (S (8 * length code)) bs look_ahead have (bit_offset_4k c) (dcbp_get_start encoding) b in
  let c := bm_xfer_ctx_bit_to_word_offset (set_bit_offset (Z.shiftr s_4k (x_scale c)) (set_bit_offset_4k s_4k c)) in
  Ret (if bit_offset_4k c =? x_bits_4k c then 0 else 1, c, b).

Definition decode_bitmap_c (has_disk : bool) (bitmap_index encoding : Z) (code : list Z) (c : bm_xfer_ctx) (b : drbd_bitmap)
    : outcome (Z * bm_xfer_ctx * drbd_bitmap) :=
  if dcbp_get_code encoding =? RLE_VLI_Bits then
    if negb has_disk then Fail EIO else recv_bm_rle_bits bitmap_index encoding code c b
  else Fail EIO.

(** The loop of [receive_bitmap] over the packets that arrive: the bitmap and the packets
    that are left. *)
Fixpoint receive_loop (pro_version : Z) (has_disk : bool) (bitmap_index : Z) (l : list bm_packet) (c : bm_xfer_ctx) (b : drbd_bitmap)
    : outcome (drbd_bitmap * list bm_packet) :=
  match l with
  | [] => Fail EIO
  | p :: l =>
      let! (err, c, b) :=
        match p with
        | P_BITMAP words => receive_bitmap_plain pro_version has_disk bitmap_index words c b
        | P_COMPRESSED_BITMAP encoding code =>
            let size := sizeof_p_compressed_bm + Z.of_nat (length code) in
            if DRBD_SOCKET_BUFFER_SIZE - drbd_header_size pro_version <? size then Fail EIO
            else if size <=? sizeof_p_compressed_bm then Fail EIO
            else decode_bitmap_c has_disk bitmap_index encoding code c b
        end in
      if err <=? 0 then Ret (b, l) else receive_loop pro_version has_disk bitmap_index l c b
  end.

(** What follows the exchange. *)
Inductive xfer_action := START_SYNC_SOURCE | START_SYNC_TARGET | WAIT_SYNC_UUID | RECEIVED_TWICE | UNEXPECTED_STATE.

Definition xfer_next (repl_state pro_version : Z) (rs_h_done : bool) : xfer_action :=
  if rs_h_done then RECEIVED_TWICE
  else if repl_state =? L_WF_BITMAP_S then START_SYNC_SOURCE
  else if repl_state =? L_WF_BITMAP_T then if pro_version <? 110 then WAIT_SYNC_UUID else START_SYNC_TARGET
  else UNEXPECTED_STATE.

(** [receive_bitmap]: the new bitmap, the packets of the answer, and what follows.  The
    reply is sent with the meta-data flag [full_sync]. *)
Definition receive_bitmap (sd : bm_sender) (has_disk full_sync written rs_h_done : bool) (repl_state bitmap_index : Z) (l : list bm_packet)
    (b : drbd_bitmap) : outcome (drbd_bitmap * list bm_packet * xfer_action) :=
  if bitmap_index =? -1 then Fail EIO
  else if negb has_disk then Fail EIO
  else
    let! (b, _) := receive_loop (agreed_pro_version sd) has_disk bitmap_index l (new_ctx b) b in
    let! (answer, b) :=
      if repl_state =? L_WF_BITMAP_T
      then let! (answer, b, _) := _drbd_send_bitmap sd full_sync written b bitmap_index in Ret (answer, b)
      else Ret ([], b) in
    Ret (b, answer, xfer_next repl_state (agreed_pro_version sd) rs_h_done).
End xfer.
