(* ===== verification/BitmapXferProps.v ===== *)
(** * The exchange of bitmaps gives the union

    Run lengths in a bit stream, the runs of a slot of the bitmap, and the two ends of the
    transfer.  The last part follows all packets from the sender to the receiver. *)
From S2P Require Import Prelude Vli Headers Bitmap BitmapProps BitmapOps BitmapResize BitmapXfer.

(** ** Code words in a stream *)

Definition word_at (buf : list Z) (p code t : Z) : Prop := forall j, 0 <= j < t -> stream_bit buf (p + j) = Z.testbit code j.

(** The code words of the values [rs] lie one after the other between two positions. *)
Inductive coded (buf : list Z) : Z -> list Z -> Z -> Prop :=
  | coded_nil p : coded buf p [] p
  | coded_cons p r rs code t e : 1 <= r <= vli_max -> vli_encode_levels VLI_L_1_1 0 1 r = Ret (code, t) ->
      word_at buf p code t -> coded buf (p + t) rs e -> coded buf p (r :: rs) e.

Lemma code_length r code t : 1 <= r <= vli_max -> vli_encode_levels VLI_L_1_1 0 1 r = Ret (code, t) -> 0 <= code < 2 ^ t /\ 2 <= t <= 64.
Proof. intros Hr Henc. destruct (vli_code_word r Hr) as (code' & t' & Henc' & Hc). rewrite Henc in Henc'. by injection Henc' as <- <-. Qed.

Lemma coded_le buf p rs e : coded buf p rs e -> p + 2 * Z.of_nat (length rs) <= e.
Proof. induction 1 as [|p r rs code t e Hr Henc Hw Hc IH]; simpl; [lia|]. pose proof (code_length r code t Hr Henc). lia. Qed.

Lemma coded_ext buf buf' p rs e : coded buf p rs e -> (forall i, p <= i < e -> stream_bit buf' i = stream_bit buf i) -> coded buf' p rs e.
Proof.
  induction 1 as [|p r rs code t e Hr Henc Hw Hc IH]; intros Hsame; [constructor|].
  pose proof (coded_le _ _ _ _ Hc). pose proof (code_length r code t Hr Henc). econstructor; [done|done| |].
  - intros j Hj. rewrite Hsame by lia. by apply Hw.
  - apply IH. intros i Hi. apply Hsame. lia.
Qed.

(** The stream behind the cursor is still clear, as it is in a new buffer. *)
Definition clear_behind (bs : bitstream) : Prop := forall i, bs_pos bs <= i -> stream_bit (bs_buf bs) i = false.

Lemma encode_step bs r : bs_wf bs -> bs_pad_bits bs = 0 -> clear_behind bs -> 1 <= r <= vli_max ->
  exists code t, vli_encode_levels VLI_L_1_1 0 1 r = Ret (code, t) /\
    if 8 * bs_buf_len bs <? bs_pos bs + t then vli_encode_bits bs r = Fail ENOBUFS
    else exists bs', vli_encode_bits bs r = Ret (t, bs') /\ bs_wf bs' /\ bs_pad_bits bs' = 0 /\ clear_behind bs' /\
      bs_pos bs' = bs_pos bs + t /\ bs_buf_len bs' = bs_buf_len bs /\ word_at (bs_buf bs') (bs_pos bs) code t /\
      (forall i, 0 <= i < bs_pos bs -> stream_bit (bs_buf bs') i = stream_bit (bs_buf bs) i).
Proof.
  intros Hwf Hpad Hclr Hr. destruct (vli_code_word r Hr) as (code & t & Henc & Hcode & Ht). exists code, t. split; [done|].
  unfold vli_encode_bits, __vli_encode_bits. rewrite (proj2 (Z.eqb_neq r 0)) by lia. rewrite Henc. cbn [obind].
  assert (2 ^ t <= 2 ^ 64) by (apply Z.pow_le_mono_r; lia).
  assert (0 <= bs_pos bs) as Hp0 by (pose proof (wf_cur_b bs Hwf); pose proof (wf_cur_bit bs Hwf); unfold bs_pos; lia).
  destruct (Z.ltb_spec (8 * bs_buf_len bs) (bs_pos bs + t)) as [Hfull|Hroom]; [by apply bitstream_put_bits_full; try lia|].
  destruct (bitstream_put_bits_spec bs code t) as (bs' & Hput & Hwf' & Hpos & Hlen & Hpad' & Hbits); try done; try lia.
  exists bs'. split_and!; try done; [by rewrite Hpad'| | |].
  - intros i Hi. rewrite Hpos in Hi. rewrite Hbits, Hclr by lia.
    rewrite (proj2 (Z.ltb_ge i (bs_pos bs + t))), andb_false_r by lia. done.
  - intros j Hj. rewrite Hbits, Hclr by lia. rewrite (proj2 (Z.leb_le _ _)), (proj2 (Z.ltb_lt _ _)) by lia. simpl. f_equal. lia.
  - intros i Hi. rewrite Hbits by lia. rewrite (proj2 (Z.leb_gt (bs_pos bs) i)) by lia. simpl. by rewrite orb_false_r.
Qed.

(** ** Runs *)

Definition run_total (rs : list Z) : Z := foldr Z.add 0 rs.

(** The values from [s] on are runs of the lengths [rs], the first one of the value [v]. *)
Fixpoint alternates (f : Z -> bool) (v : bool) (s : Z) (rs : list Z) : Prop :=
  match rs with
  | [] => True
  | r :: rs => (forall k, s <= k < s + r -> f k = v) /\ alternates f (negb v) (s + r) rs
  end.

Lemma coded_total buf p rs e : coded buf p rs e -> 0 <= run_total rs.
Proof. induction 1 as [|p r rs code t e Hr Henc Hw Hc IH]; simpl; lia. Qed.

Lemma first_bit_cases want f n a :
  match first_bit want f n a with
  | Some r => a <= r < a + Z.of_nat n /\ f r = want /\ forall k, a <= k < r -> f k = negb want
  | None => forall k, a <= k < a + Z.of_nat n -> f k = negb want
  end.
Proof.
  revert a. induction n as [|n IH]; intros a; simpl; [intros k Hk; lia|]. destruct (Bool.eqb (f a) want) eqn:Eb.
  - apply Bool.eqb_prop in Eb. split_and!; [lia|lia|done|]. intros k Hk. lia.
  - apply Bool.eqb_false_iff in Eb. assert (f a = negb want) as Ha by (by destruct (f a), want).
    specialize (IH (a + 1)). destruct (first_bit want f n (a + 1)) as [r|].
    + destruct IH as (Hr & Hf & Hk). split_and!; [lia|lia|done|]. intros k Hk'. destruct (decide (k = a)) as [->|]; [done|]. apply Hk. lia.
    + intros k Hk. destruct (decide (k = a)) as [->|]; [done|]. apply IH. lia.
Qed.

Section runs.
Context `{Arch}.

(** The end of the run of [negb want] that begins at [off]. *)
Lemma find_next_ok (want : bool) b i off : bm_wf b -> 0 <= i < bm_max_peers b -> 0 <= off < bm_bits b ->
  exists tmp, (if want then _drbd_bm_find_next b i off else _drbd_bm_find_next_zero b i off) = Ret tmp /\
    let e := if tmp =? 2 ^ 64 - 1 then bm_bits b else tmp in
    off <= e <= bm_bits b /\ (forall k, off <= k < e -> bm_bit b i k = negb want) /\
    (if tmp =? 2 ^ 64 - 1 then e = bm_bits b else e < bm_bits b /\ bm_bit b i e = want).
Proof.
  intros Hwf Hi Hoff. pose proof (bits_small b Hwf) as Hsm.
  set (op := if want then BM_OP_FIND_BIT else BM_OP_FIND_ZERO_BIT).
  destruct (bm_op_done b i off DRBD_END_OF_BITMAP op []) as (r & b' & buf' & Hrun & Hd); try done; try lia.
  { apply op_pre_nobuf; try done; unfold DRBD_END_OF_BITMAP; (lia || by destruct want). }
  exists r. split.
  { destruct want; subst op; unfold _drbd_bm_find_next, _drbd_bm_find_next_zero, ____bm_op_nobuf; by rewrite Hrun. }
  assert (r = default DRBD_END_OF_BITMAP (first_bit want (bm_bit b i) (Z.to_nat (bm_bits b - off)) off)) as ->.
  { rewrite (od_result _ _ _ _ _ _ _ _ _ Hd). replace (clip b DRBD_END_OF_BITMAP) with (bm_bits b - 1) by (unfold clip, DRBD_END_OF_BITMAP; lia).
    replace (bm_bits b - off) with (bm_bits b - 1 + 1 - off) by lia. by destruct want. }
  pose proof (first_bit_cases want (bm_bit b i) (Z.to_nat (bm_bits b - off)) off) as Hc.
  destruct (first_bit want (bm_bit b i) (Z.to_nat (bm_bits b - off)) off) as [r|]; cbn [from_option]; unfold id.
  - destruct Hc as (Hr & Hf & Hk). rewrite (proj2 (Z.eqb_neq r (2 ^ 64 - 1))) by lia. split_and!; (done || lia).
  - change (DRBD_END_OF_BITMAP =? 2 ^ 64 - 1) with true. cbv iota zeta. split_and!; [lia|lia| |done]. intros k Hk. apply Hc. lia.
Qed.
End runs.

(** ** Both sides see blocks of 4 KiB *)

Definition xscale (b : drbd_bitmap) : Z := bm_block_shift b - BM_BLOCK_SHIFT_4k.

(** Bitmaps that [drbd_bm_resize] sized; the number of blocks fits the code. *)
Record xfer_ok `{Arch} (b : drbd_bitmap) : Prop := {
  xo_wf : bm_wf b;
  xo_scale : 0 <= xscale b <= 8;
  xo_bits : 0 < bm_bits b;
  xo_4k : (bm_bits b - 1) * 2 ^ xscale b < bm_bits_4k b <= bm_bits b * 2 ^ xscale b;
  xo_small : bm_bits_4k b <= 2 ^ 56;
  xo_words : drbd_bm_words b = (bm_bits b + 63) / 64 }.

(** Position and value of blocks of 4 KiB. *)
Definition off4k (b : drbd_bitmap) (off : Z) : Z := Z.min (off * 2 ^ xscale b) (bm_bits_4k b).
Definition bit4k (b : drbd_bitmap) (i n : Z) : bool := bm_bit b i (n / 2 ^ xscale b).

Definition ctx_of (b : drbd_bitmap) (c : bm_xfer_ctx) : Prop :=
  x_bits_4k c = bm_bits_4k b /\ x_bits c = bm_bits b /\ x_words c = drbd_bm_words b /\ x_scale c = xscale b.

Section sender.
Context `{Arch}.
Variables (b : drbd_bitmap) (i : Z).
Hypothesis Hok : xfer_ok b.
Hypothesis Hi : 0 <= i < bm_max_peers b.

Lemma scale_pos : 0 < 2 ^ xscale b <= 2 ^ 20.
Proof. pose proof (xo_scale b Hok). split; [apply Z.pow_pos_nonneg; lia|apply Z.pow_le_mono_r; lia]. Qed.

(** The length of a run in blocks of 4 KiB. *)
Lemma run_4k off e (none : bool) : 0 <= off < e -> e <= bm_bits b -> (if none then e = bm_bits b else e < bm_bits b) ->
  (if none then u64 (bm_bits_4k b - Z.shiftl off (xscale b)) else u64 (Z.shiftl (u64 (e - off)) (xscale b))) = off4k b e - off4k b off /\
  1 <= off4k b e - off4k b off <= bm_bits_4k b /\ off4k b off = off * 2 ^ xscale b.
Proof.
  intros Hoff He Hn. pose proof scale_pos as Hs. pose proof (xo_scale b Hok). destruct (xo_4k b Hok) as [Hlo Hhi]. pose proof (xo_small b Hok).
  pose proof (bits_small b (xo_wf b Hok)). assert (off * 2 ^ xscale b <= (bm_bits b - 1) * 2 ^ xscale b) by nia. unfold off4k. destruct none.
  - subst e. rewrite Z.shiftl_mul_pow2 by lia. rewrite (Z.min_r (bm_bits b * _)), Z.min_l by lia. unfold u64. rewrite Z.mod_small by nia. nia.
  - assert (e * 2 ^ xscale b <= (bm_bits b - 1) * 2 ^ xscale b) by nia. rewrite !Z.min_l by lia.
    rewrite (u64_small (e - off)) by lia. rewrite Z.shiftl_mul_pow2, u64_small by nia. nia.
Qed.

Lemma run_value off e v : 0 <= off <= e -> e <= bm_bits b -> (forall k, off <= k < e -> bm_bit b i k = v) ->
  forall n, off4k b off <= n < off4k b e -> bit4k b i n = v.
Proof.
  intros Hoff He Hv n Hn. pose proof scale_pos as Hs. destruct (xo_4k b Hok). unfold bit4k. apply Hv. unfold off4k in Hn. split.
  - apply Z.div_le_lower_bound; nia.
  - apply Z.div_lt_upper_bound; nia.
Qed.

(** What the loop has written when it stops at the offset [off']. *)
Record runs_sent (c : bm_xfer_ctx) (v : bool) (bs : bitstream) (off' : Z) (bs' : bitstream) (rs : list Z) : Prop := {
  rn_off : bit_offset c <= off' <= bm_bits b;
  rn_coded : coded (bs_buf bs') (bs_pos bs) rs (bs_pos bs');
  rn_alt : alternates (bit4k b i) v (off4k b (bit_offset c)) rs;
  rn_total : off4k b off' = off4k b (bit_offset c) + run_total rs;
  rn_wf : bs_wf bs';
  rn_pad : bs_pad_bits bs' = 0;
  rn_len : bs_buf_len bs' = bs_buf_len bs;
  rn_keep : forall p, 0 <= p < bs_pos bs -> stream_bit (bs_buf bs') p = stream_bit (bs_buf bs) p;
  rn_progress : bs_pos bs + 64 <= 8 * bs_buf_len bs -> bit_offset c < off' \/ off' = bm_bits b }.

Lemma runs_sent_nil c v bs : 0 <= bit_offset c <= bm_bits b -> bs_wf bs -> bs_pad_bits bs = 0 ->
  8 * bs_buf_len bs < bs_pos bs + 64 -> runs_sent c v bs (bit_offset c) bs [].
Proof. intros Hc Hwf Hpad Hfull. split; simpl; try done; try lia. constructor. Qed.

Lemma runs_sent_cons c v bs bs1 off1 off' bs' r rs code t : 0 <= bit_offset c < off1 ->
  1 <= r <= vli_max -> vli_encode_levels VLI_L_1_1 0 1 r = Ret (code, t) -> word_at (bs_buf bs1) (bs_pos bs) code t ->
  bs_pos bs1 = bs_pos bs + t -> bs_buf_len bs1 = bs_buf_len bs -> 0 <= bs_pos bs ->
  (forall p, 0 <= p < bs_pos bs -> stream_bit (bs_buf bs1) p = stream_bit (bs_buf bs) p) ->
  off4k b off1 = off4k b (bit_offset c) + r -> (forall k, bit_offset c <= k < off1 -> bm_bit b i k = v) ->
  runs_sent (set_bit_offset off1 c) (negb v) bs1 off' bs' rs -> runs_sent c v bs off' bs' (r :: rs).
Proof.
  intros Hc Hr Henc Hw Hp Hl Hp0 Hk Ho Hv Hs. pose proof (code_length _ _ _ Hr Henc) as [_ Ht].
  pose proof (rn_off _ _ _ _ _ _ Hs) as Hoff. simpl in Hoff. split; try apply Hs.
  - lia.
  - econstructor; [done|done| |rewrite <- Hp; apply Hs]. intros j Hj. rewrite (rn_keep _ _ _ _ _ _ Hs) by lia. by apply Hw.
  - split; [|rewrite <- Ho; apply Hs]. rewrite <- Ho. apply (run_value (bit_offset c) off1); (done || lia).
  - rewrite (rn_total _ _ _ _ _ _ Hs). simpl. lia.
  - rewrite (rn_len _ _ _ _ _ _ Hs). done.
  - intros p Hpp. rewrite (rn_keep _ _ _ _ _ _ Hs) by lia. by apply Hk.
  - lia.
Qed.

Lemma rle_loop_ok fuel c bs plain v tg enc :
  ctx_of b c -> 0 <= bit_offset c < bm_bits b -> bm_bit b i (bit_offset c) = v -> (tg =? 0) = v -> 0 <= plain -> plain + (bm_bits b - bit_offset c) < 2 ^ 63 ->
  bs_wf bs -> bs_pad_bits bs = 0 -> clear_behind bs -> 8 * bs_buf_len bs - bs_pos bs + 2 <= 2 * Z.of_nat fuel ->
  exists off' bs' rs,
    rle_loop b i fuel c bs plain tg enc =
      Ret (rle_break (set_bit_offset off' c) bs' (plain + (off' - bit_offset c)) (if tg =? 2 then dcbp_set_start enc false else enc)) /\
    runs_sent c v bs off' bs' rs.
Proof.
  revert c bs plain v tg enc. induction fuel as [|fuel IH]; intros c bs plain v tg enc Hc Hoff Hv Htg Hpl Hpl' Hwf Hpad Hclr Hf;
    pose proof (wf_pos bs Hwf) as Hpos; [unfold bs_buf_len in *; lia|].
  assert (0 <= bs_pos bs) as Hp0 by (pose proof (wf_cur_b bs Hwf); pose proof (wf_cur_bit bs Hwf); unfold bs_pos; lia).
  pose proof (bits_small b (xo_wf b Hok)) as Hsm. pose proof (xo_small b Hok) as H4k. destruct Hc as (E1 & E2 & E3 & E4).
  destruct (find_next_ok (negb v) b i (bit_offset c) (xo_wf b Hok) Hi Hoff) as (tmp & Hfind & He & Hk & Hend).
  cbn [rle_loop]. rewrite Htg. replace (if v then _ else _) with (Ret tmp) by (rewrite <- Hfind; by destruct v). cbn [obind].
  rewrite E1, E2, E4. set (none := tmp =? 2 ^ 64 - 1) in *. set (e := if none then bm_bits b else tmp) in *. rewrite negb_involutive in Hk.
  assert (bit_offset c < e) as Hlt.
  { destruct (decide (e = bit_offset c)) as [Heq|]; [|lia]. destruct none; [lia|]. destruct Hend as [_ Hend]. rewrite Heq, Hv in Hend.
    by destruct v. }
  rewrite (u64_small (e - bit_offset c)) by lia. rewrite (proj2 (Z.eqb_neq (e - bit_offset c) 0)), andb_false_r by lia.
  destruct (run_4k (bit_offset c) e none) as (Hrl & Hrange & _); [lia|lia|by destruct none; [|apply Hend]|].
  rewrite (u64_small (e - bit_offset c)) in Hrl by lia. rewrite Hrl. set (r := off4k b e - off4k b (bit_offset c)) in *.
  assert (1 <= r <= vli_max) as Hr by (unfold vli_max; lia).
  destruct (encode_step bs r Hwf Hpad Hclr Hr) as (code & t & Henc & Hstep). pose proof (code_length _ _ _ Hr Henc) as [_ Ht].
  destruct (Z.ltb_spec (8 * bs_buf_len bs) (bs_pos bs + t)) as [Hfull|Hroom].
  - rewrite Hstep. destruct (decide (ENOBUFS = ENOBUFS)) as [_|?]; [|done]. exists (bit_offset c), bs, []. split.
    + rewrite Z.sub_diag, Z.add_0_r. destruct c; simpl in *. done.
    + apply runs_sent_nil; (done || lia).
  - destruct Hstep as (bs1 & -> & Hwf1 & Hpad1 & Hclr1 & Hpos1 & Hlen1 & Hword & Hkeep). rewrite (proj2 (Z.leb_gt t 0)) by lia.
    rewrite (u64_small (plain + _)) by lia. cbn [bit_offset x_bits set_bit_offset]. rewrite E2.
    destruct (Z.ltb_spec e (bm_bits b)) as [Hmore|Hdone].
    + assert (none = false) as Hn by (destruct none; [unfold e in Hmore; lia|done]). rewrite Hn in Hend. destruct Hend as [_ Hend].
      destruct (IH (set_bit_offset e c) bs1 (plain + (e - bit_offset c)) (negb v) (if v then 1 else 0) (if tg =? 2 then dcbp_set_start enc false else enc))
        as (off' & bs' & rs & Hrun & Hs); try done; try (simpl; lia).
      * by destruct v.
      * exists off', bs', (r :: rs). split.
        { rewrite Hrun. replace ((if v then 1 else 0) =? 2) with false by (by destruct v). change (set_bit_offset off' (set_bit_offset e c)) with (set_bit_offset off' c).
          replace (plain + (e - bit_offset c) + _) with (plain + (off' - bit_offset c)) by (simpl; lia). done. }
        { apply (runs_sent_cons c v bs bs1 e off' bs' r rs code t); try done; try (unfold r; lia). }
    + exists e, bs1, [r]. split; [done|].
      apply (runs_sent_cons c v bs bs1 e e bs1 r [] code t); try done; try (unfold r; lia).
      split; simpl; try done; try lia. constructor.
Qed.

(** The first round only looks at the first bit when it is set. *)
Lemma rle_first fuel c bs enc :
  ctx_of b c -> 0 <= bit_offset c < bm_bits b -> bs_wf bs -> bs_pad_bits bs = 0 -> clear_behind bs ->
  8 * bs_buf_len bs - bs_pos bs + 4 <= 2 * Z.of_nat fuel ->
  exists off' bs' rs,
    rle_loop b i fuel c bs 0 2 enc =
      Ret (rle_break (set_bit_offset off' c) bs' (off' - bit_offset c) (dcbp_set_start enc (bm_bit b i (bit_offset c)))) /\
    runs_sent c (bm_bit b i (bit_offset c)) bs off' bs' rs.
Proof.
  intros Hc Hoff Hwf Hpad Hclr Hf. pose proof (bits_small b (xo_wf b Hok)).
  destruct (bm_bit b i (bit_offset c)) eqn:Hv.
  2: { by destruct (rle_loop_ok fuel c bs 0 false 2 enc) as (off' & bs' & rs & -> & Hs); try done; try lia; exists off', bs', rs. }
  pose proof (wf_pos bs Hwf). destruct fuel as [|fuel]; [unfold bs_buf_len in *; lia|]. cbn [rle_loop]. cbn [Z.eqb Pos.eqb].
  destruct (find_next_ok true b i (bit_offset c) (xo_wf b Hok) Hi Hoff) as (tmp & -> & He & Hk & Hend). cbn [obind].
  destruct Hc as (E1 & E2 & E3 & E4). rewrite E2. set (e := if tmp =? 2 ^ 64 - 1 then bm_bits b else tmp) in *.
  assert (e = bit_offset c) as ->.
  { destruct (decide (e = bit_offset c)); [done|]. by rewrite (Hk (bit_offset c) ltac:(lia)) in Hv. }
  rewrite Z.sub_diag. change (u64 0 =? 0) with true. cbn [andb]. rewrite (proj2 (Z.ltb_lt (bit_offset c) (bm_bits b))) by lia.
  destruct (rle_loop_ok fuel c bs 0 true 0 (dcbp_set_start enc true)) as (off' & bs' & rs & -> & Hs); try done; try lia.
  by exists off', bs', rs.
Qed.

(** The fields of the finished encoding. *)
Lemma encoding_fields enc v pad code : 0 <= pad < 8 -> 0 <= code < 16 ->
  exists enc1 enc2, dcbp_set_pad_bits (dcbp_set_start enc v) pad = Ret enc1 /\ dcbp_set_code enc1 code = Ret enc2 /\
    dcbp_get_start enc2 = v /\ dcbp_get_pad_bits enc2 = pad /\ dcbp_get_code enc2 = code.
Proof.
  intros Hpad Hcode. assert (Z.land (dcbp_set_start enc v) 0x80 = if v then 0x80 else 0) as Hs.
  { unfold dcbp_set_start. rewrite Z.land_lor_distr_l. rewrite Z.land_ldiff. by destruct v. }
  unfold dcbp_set_pad_bits. rewrite Hs.
  assert (forallb (fun pad => forallb (fun code => forallb (fun v : bool =>
    let enc1 := Z.lor (if v then 0x80 else 0) (Z.shiftl pad 4) in let enc2 := Z.lor (Z.ldiff enc1 0xf) code in
    (Z.ldiff pad 0x7 =? 0) && (Z.ldiff code 0xf =? 0) && Bool.eqb (dcbp_get_start enc2) v && (dcbp_get_pad_bits enc2 =? pad) &&
    (dcbp_get_code enc2 =? code)) [true; false]) (seqZ 0 16)) (seqZ 0 8) = true) as Hall by (vm_compute; done).
  rewrite forallb_forall in Hall. specialize (Hall pad). rewrite forallb_forall in Hall.
  assert (In code (seqZ 0 16)) as Hc by (apply list_elem_of_In, elem_of_seqZ; lia).
  specialize (Hall ltac:(apply list_elem_of_In, elem_of_seqZ; lia) code Hc). rewrite forallb_forall in Hall.
  specialize (Hall v ltac:(destruct v; simpl; auto)). cbv zeta in Hall. apply andb_prop in Hall as [Hall Hc3]. apply andb_prop in Hall as [Hall Hc2].
  apply andb_prop in Hall as [Hall Hc1]. apply andb_prop in Hall as [Hp0 Hc0]. rewrite Hp0. do 2 eexists. split; [done|].
  unfold dcbp_set_code. rewrite Hc0. split; [done|]. split_and!; [by apply Bool.eqb_prop|by apply Z.eqb_eq|by apply Z.eqb_eq].
Qed.

(** A packet of run lengths for the bits from [off] to [off']. *)
Record rle_packet (off off' enc : Z) (code : list Z) (rs : list Z) : Prop := {
  rp_off : off < off' <= bm_bits b;
  rp_bytes : bytes_ok code;
  rp_pad : 0 <= dcbp_get_pad_bits enc < 8;
  rp_coded : coded code 0 rs (8 * Z.of_nat (length code) - dcbp_get_pad_bits enc);
  rp_alt : alternates (bit4k b i) (dcbp_get_start enc) (off4k b off) rs;
  rp_total : off4k b off' = off4k b off + run_total rs;
  rp_some : rs <> [] }.

Lemma stream_bit_take buf n p : 0 <= p < 8 * n -> stream_bit (take (Z.to_nat n) buf) p = stream_bit buf p.
Proof.
  intros Hp. unfold stream_bit. rewrite lookup_take_lt; [done|].
  assert (p / 8 < n) by (apply Z.div_lt_upper_bound; lia). pose proof (Z.div_pos p 8). lia.
Qed.

Lemma new_stream size : 0 <= size -> let bs := bitstream_init (replicate (Z.to_nat size) 0) 0 in
  bs_wf bs /\ bs_pad_bits bs = 0 /\ clear_behind bs /\ bs_pos bs = 0 /\ bs_buf_len bs = size.
Proof.
  intros Hs bs. assert (bs_buf_len bs = size) as Hl by (unfold bs_buf_len; simpl; rewrite length_replicate; lia). split_and!; try done.
  - split; try done; [|rewrite Hl; unfold bs_pos; simpl; lia]. simpl. apply Forall_replicate. lia.
  - intros p Hp. unfold stream_bit. simpl. destruct (replicate (Z.to_nat size) 0 !! Z.to_nat (p / 8)) as [x|] eqn:Ex; [|apply Z.bits_0].
    apply lookup_replicate in Ex as [-> _]. apply Z.bits_0.
Qed.

(** The length in bytes and the padding. *)
Lemma stream_length bs : 0 <= bs_cur_b bs -> 0 <= bs_cur_bit bs < 8 ->
  let len := bs_cur_b bs + (if bs_cur_bit bs =? 0 then 0 else 1) in let pad := Z.land (8 - bs_cur_bit bs) 0x7 in
  0 <= pad < 8 /\ 8 * len - pad = bs_pos bs.
Proof.
  intros Hb Hbit len pad. assert (pad = (8 - bs_cur_bit bs) mod 8) as -> by (apply (Z.land_ones _ 3); lia). subst len.
  unfold bs_pos. destruct (Z.eqb_spec (bs_cur_bit bs) 0) as [->|Hne]; [vm_compute (_ mod _); lia|]. rewrite Z.mod_small by lia. lia.
Qed.

Lemma fill_rle_ok pv size enc0 rle c : 90 <= pv -> 8 <= size -> 0 <= rle < 16 -> ctx_of b c -> 0 <= bit_offset c < bm_bits b ->
  (exists enc code, fill_bitmap_rle_bits true pv b i size enc0 c =
     Ret (0, set_bit_offset (bit_offset c / 64 * 64) (set_word_offset (bit_offset c / 64) c), enc, code)) \/
  (exists len enc1 enc code off' rs, fill_bitmap_rle_bits true pv b i size enc0 c =
     Ret (len, bm_xfer_ctx_bit_to_word_offset (set_bit_offset off' c), enc1, code) /\
     dcbp_set_code enc1 rle = Ret enc /\ dcbp_get_code enc = rle /\ 0 < len <= size /\ len <= Z.of_nat (length code) /\
     rle_packet (bit_offset c) off' enc (take (Z.to_nat len) code) rs).
Proof.
  intros Hpv Hsz Hrle Hc Hoff. pose proof (bits_small b (xo_wf b Hok)). unfold fill_bitmap_rle_bits. rewrite (proj2 (Z.ltb_ge pv 90)) by lia. cbn [negb orb].
  destruct (new_stream size ltac:(lia)) as (Hwf & Hpad & Hclr & Hpos & Hlen). set (bs := bitstream_init _ 0) in *.
  pose proof Hc as (_ & E2 & _ & _). rewrite E2. rewrite (proj2 (Z.leb_gt (bm_bits b) (bit_offset c))) by lia.
  destruct (rle_first (Z.to_nat (4 * size + 3)) c bs enc0) as (off' & bs' & rs & -> & Hs); try done; [rewrite Hlen, Hpos; lia|].
  cbn [obind]. pose proof (rn_wf _ _ _ _ _ _ Hs) as Hwf'. destruct (stream_length bs' (wf_cur_b bs' Hwf') (wf_cur_bit bs' Hwf')) as [Hpb Hle].
  cbv zeta in Hpb, Hle. set (len := bs_cur_b bs' + _) in *. set (pad := Z.land _ 7) in *. cbn [x_scale set_bit_offset].
  pose proof (rn_off _ _ _ _ _ _ Hs) as Ho. case_if; [left|right].
  - do 2 eexists. do 4 f_equal. cbn [bit_offset set_bit_offset]. replace (off' - (off' - bit_offset c)) with (bit_offset c) by lia.
    rewrite u64_small by lia. unfold bm_xfer_ctx_bit_to_word_offset. cbn. by rewrite Z.shiftr_div_pow2 by lia.
  - destruct (encoding_fields enc0 (bm_bit b i (bit_offset c)) pad rle Hpb Hrle) as (enc1 & enc & -> & Henc & G1 & G2 & G3). cbn [obind].
    exists len, enc1, enc, (bs_buf bs'), off', rs. split; [done|]. split; [done|]. split; [done|].
    pose proof (wf_pos bs' Hwf') as Hfit. rewrite (rn_pad _ _ _ _ _ _ Hs), (rn_len _ _ _ _ _ _ Hs), Hlen in Hfit.
    pose proof (rn_len _ _ _ _ _ _ Hs) as Hl2. rewrite Hlen in Hl2. unfold bs_buf_len in Hl2.
    pose proof (rn_coded _ _ _ _ _ _ Hs) as Hcoded. rewrite Hpos in Hcoded. pose proof (coded_le _ _ _ _ Hcoded) as Hcl.
    assert (bit_offset c < off') as Hpr by (destruct (rn_progress _ _ _ _ _ _ Hs); [rewrite Hlen, Hpos; lia|lia|lia]).
    assert (rs <> []) as Hrs.
    { intros ->. pose proof (rn_total _ _ _ _ _ _ Hs) as Ht. simpl in Ht. pose proof scale_pos. destruct (xo_4k b Hok). unfold off4k in Ht. nia. }
    assert (1 <= Z.of_nat (length rs)) by (destruct rs; [done|simpl; lia]). assert (0 < len <= size) as Hls by lia.
    split; [done|]. split; [lia|]. split; rewrite ?G2, ?G1; try apply Hs; try done; try lia.
    + apply Forall_take, Hwf'.
    + rewrite length_take. replace (Z.of_nat (Z.to_nat len `min` length (bs_buf bs'))) with len by lia.
      rewrite Hle. eapply coded_ext; [exact Hcoded|]. intros p Hp. apply stream_bit_take. lia.
Qed.
End sender.

(** ** Receiving run lengths *)

(** The receiver added the blocks from [lo] to [hi] that [f] says. *)
Record merged `{Arch} (f : Z -> bool) (lo hi i : Z) (b b' : drbd_bitmap) : Prop := {
  mg_shape : same_shape b b';
  mg_wf : bm_wf b';
  mg_counts : bm_counts b -> bm_counts b';
  mg_bits k : 0 <= k < bm_bits b ->
    bm_bit b' i k = true <-> bm_bit b i k = true \/ exists n, lo <= n < hi /\ f n = true /\ n / 2 ^ xscale b = k;
  mg_others j k : 0 <= j < bm_max_peers b -> j <> i -> 0 <= k < bm_bits b -> bm_bit b' j k = bm_bit b j k }.

Section receiver.
Context `{Arch}.
Variables (f : Z -> bool) (i : Z).

Lemma merged_none lo hi b : bm_wf b -> (forall n, lo <= n < hi -> f n = false) -> merged f lo hi i b b.
Proof. intros Hwf Hf. split; try done. intros k Hk. split; [by left|]. intros [?|(n & Hn & Hfn & _)]; [done|]. by rewrite Hf in Hfn. Qed.

Lemma xscale_shape b b' : same_shape b b' -> xscale b' = xscale b.
Proof. intros (_ & _ & _ & _ & _ & _ & _ & Hsh & _). unfold xscale. by rewrite Hsh. Qed.

Lemma merged_trans lo lo' mid hi b b1 b2 : lo <= lo' <= mid -> mid <= hi ->
  merged f lo mid i b b1 -> merged f lo' hi i b1 b2 -> merged f lo hi i b b2.
Proof.
  intros Hm Hh M1 M2. pose proof (mg_shape _ _ _ _ _ _ M1) as Hs1. pose proof Hs1 as (Eb & _ & _ & _ & _ & _ & Ep & _).
  pose proof (xscale_shape _ _ Hs1) as Ex. split.
  - eapply same_shape_trans; [apply M1|apply M2].
  - apply M2.
  - intros Hc. by apply M2, M1.
  - intros k Hk. rewrite (mg_bits _ _ _ _ _ _ M2) by (by rewrite Eb). rewrite (mg_bits _ _ _ _ _ _ M1) by done. rewrite Ex. split.
    + intros [[?|(n & Hn & Hr)]|(n & Hn & Hr)]; [by left|right; exists n; split; [lia|done]..].
    + intros [?|(n & Hn & Hr)]; [by do 2 left|]. destruct (decide (n < mid)); [left; right|right]; exists n; (split; [lia|done]).
  - intros j k Hj Hne Hk. rewrite (mg_others _ _ _ _ _ _ M2) by (rewrite ?Eb, ?Ep; done). by apply M1.
Qed.

Lemma ctx_of_shape b b' c : same_shape b b' -> ctx_of b c -> ctx_of b' c.
Proof.
  intros Hsh (C1 & C2 & C3 & C4). pose proof (xscale_shape _ _ Hsh) as Ex. destruct Hsh as (E1 & E2 & E3 & E4 & _ & _ & E7 & _).
  unfold ctx_of, drbd_bm_words. by rewrite Ex, E1, E2, E3, E4, E7.
Qed.

Lemma xfer_ok_shape b b' : same_shape b b' -> bm_wf b' -> xfer_ok b -> xfer_ok b'.
Proof.
  intros Hs Hwf Hok. pose proof (xscale_shape _ _ Hs) as Ex. destruct Hs as (E1 & E2 & E3 & E4 & _ & _ & E7 & _). destruct Hok as [O1 O2 O3 O4 O5 O6].
  split; rewrite ?Ex, ?E1, ?E2; try done. unfold drbd_bm_words in *. by rewrite E3, E4, E7.
Qed.

Lemma recv_run_ok b c s r : xfer_ok b -> 0 <= i < bm_max_peers b -> ctx_of b c -> 0 <= s -> 1 <= r -> s + r <= bm_bits_4k b ->
  (forall n, s <= n < s + r -> f n = true) ->
  exists b', recv_run i c s r b = Ret b' /\ merged f s (s + r) i b b'.
Proof.
  intros Hok Hi (E1 & E2 & E3 & E4) Hs Hr Hend Hf. pose proof (scale_pos b Hok) as Hw. pose proof (xo_small b Hok). destruct (xo_4k b Hok) as [_ H4k].
  pose proof (bits_small b (xo_wf b Hok)). pose proof (xo_scale b Hok). unfold recv_run. rewrite E2, E4.
  rewrite Z.shiftl_1_l, !Z.shiftr_div_pow2 by lia. set (w := 2 ^ xscale b) in *. rewrite (u64_small (s + r + w - 1)) by lia.
  replace (s + r + w - 1) with (s + r - 1 + 1 * w) by lia. rewrite Z.div_add by lia. replace ((s + r - 1) / w + 1 - 1) with ((s + r - 1) / w) by lia.
  assert (0 <= s / w) by (apply Z.div_pos; lia). assert (s / w <= (s + r - 1) / w) by (apply Z.div_le_mono; lia).
  assert ((s + r - 1) / w < bm_bits b) as He by (apply Z.div_lt_upper_bound; nia). rewrite u64_small by lia. rewrite (proj2 (Z.leb_gt _ _)) by lia.
  unfold drbd_bm_set_many_bits. rewrite (proj2 (Z.eqb_neq i (-1))) by lia.
  destruct (many_bits_ok true b i (s / w) ((s + r - 1) / w) (xo_wf b Hok)) as (b' & Hrun & Hset); try done; try lia.
  rewrite clip_id in Hset by done. exists b'. split; [exact Hrun|]. split; try apply Hset.
  - intros k Hk. rewrite (rs_bits _ _ _ _ _ _ Hset) by lia.
    assert ((s / w <=? k) && (k <=? (s + r - 1) / w) = true <-> exists n, s <= n < s + r /\ f n = true /\ n / w = k) as Hx.
    { rewrite andb_true_iff, !Z.leb_le, touched_div by lia. split; intros (n & Hn & Hr'); exists n; [split_and!; [lia|lia|apply Hf; lia|done]|].
      split; [lia|apply Hr']. }
    fold w. rewrite <- Hx. destruct ((s / w <=? k) && (k <=? (s + r - 1) / w)); [naive_solver|]. split; [by left|]. by intros [?|?].
  - intros j k Hj Hne Hk. apply Hset; (done || lia).
Qed.

(** [look_ahead] has the next [have] bits of the stream, which are all that are left or 64. *)
Record window (bs : bitstream) (look_ahead have q : Z) : Prop := {
  wi_wf : bs_wf bs;
  wi_q : 0 <= q;
  wi_pos : bs_pos bs = q + have;
  wi_have : have = Z.min 64 (8 * bs_buf_len bs - bs_pad_bits bs - q);
  wi_bits j : 0 <= j -> Z.testbit look_ahead j = (j <? have) && stream_bit (bs_buf bs) (q + j) }.

Lemma get_bits_eio_ok bs bits n : bs_wf bs -> 1 <= bits <= 64 -> n = Z.min bits (8 * bs_buf_len bs - bs_pos bs - bs_pad_bits bs) ->
  exists out bs', get_bits_eio bs bits = Ret (n, out, bs') /\ bs_wf bs' /\ bs_pos bs' = bs_pos bs + n /\ bs_buf bs' = bs_buf bs /\
    bs_pad_bits bs' = bs_pad_bits bs /\ 0 <= out < 2 ^ n /\ 0 <= n /\
    forall j, 0 <= j -> Z.testbit out j = (j <? n) && stream_bit (bs_buf bs) (bs_pos bs + j).
Proof.
  intros Hwf Hb Hn. pose proof (wf_pos bs Hwf). destruct (get_bits_fetches bs bits n Hwf Hb Hn) as (out & bs' & Hget & Hwf' & Hp & Hbuf & Hpad & Hout & Hbits).
  exists out, bs'. unfold get_bits_eio. rewrite Hget, (proj2 (Z.ltb_ge n 0)) by lia. split_and!; (done || lia).
Qed.

Lemma window_first bs : bs_wf bs -> bs_pos bs = 0 ->
  exists have look_ahead bs', get_bits_eio bs 64 = Ret (have, look_ahead, bs') /\ window bs' look_ahead have 0 /\ bs_buf bs' = bs_buf bs /\
    bs_pad_bits bs' = bs_pad_bits bs.
Proof.
  intros Hwf Hp. destruct (get_bits_eio_ok bs 64 (Z.min 64 (8 * bs_buf_len bs - bs_pos bs - bs_pad_bits bs))) as (out & bs' & -> & Hwf' & Hp' & Hbuf & Hpad & Hout & Hn & Hbits); try done; try lia.
  do 3 eexists. split; [done|]. split; [|done]. split; try done; unfold bs_buf_len in *; rewrite ?Hp', ?Hbuf, ?Hpad, ?Hp in *; try lia.
  intros j Hj. by rewrite Hbits.
Qed.

Lemma window_next bs look_ahead have q t : window bs look_ahead have q -> 2 <= t <= have ->
  exists n tmp bs', get_bits_eio bs (64 - (have - t)) = Ret (n, tmp, bs') /\
    window bs' (Z.lor (if t <? 64 then Z.shiftr look_ahead t else 0) (u64 (Z.shiftl tmp (have - t)))) (have - t + n) (q + t) /\
    bs_buf bs' = bs_buf bs /\ bs_pad_bits bs' = bs_pad_bits bs.
Proof.
  intros [Hwf Hq Hpos Hhave Hbits] Ht.
  destruct (get_bits_eio_ok bs (64 - (have - t)) (Z.min (64 - (have - t)) (8 * bs_buf_len bs - bs_pos bs - bs_pad_bits bs))) as (tmp & bs' & -> & Hwf' & Hp' & Hbuf & Hpad & Hout & Hn & Htmp); try done; try lia.
  set (n := Z.min (64 - (have - t)) _) in *. do 3 eexists. split; [done|]. split; [|done].
  split; try done; unfold bs_buf_len in *; rewrite ?Hbuf, ?Hpad; try lia. intros j Hj.
  assert (Z.testbit (if t <? 64 then Z.shiftr look_ahead t else 0) j = (j <? have - t) && stream_bit (bs_buf bs) (q + t + j)) as Hlow.
  { destruct (Z.ltb_spec t 64).
    - rewrite Z.shiftr_spec, Hbits by lia. replace (q + (j + t)) with (q + t + j) by lia. f_equal.
      destruct (Z.ltb_spec (j + t) have), (Z.ltb_spec j (have - t)); (done || lia).
    - rewrite Z.bits_0, (proj2 (Z.ltb_ge j (have - t))) by lia. done. }
  rewrite Z.lor_spec, Hlow. unfold u64. rewrite testbit_mod_pow2, Z.shiftl_spec by lia.
  destruct (Z.ltb_spec j (have - t)).
  - rewrite (Z.testbit_neg_r tmp), andb_false_r, orb_false_r, (proj2 (Z.ltb_lt j (have - t + n))) by lia. done.
  - cbn [andb orb]. rewrite Htmp by lia. replace (bs_pos bs + (j - (have - t))) with (q + t + j) by lia.
    destruct (Z.ltb_spec j 64), (Z.ltb_spec (j - (have - t)) n), (Z.ltb_spec j (have - t + n)); cbn [andb]; (done || lia).
Qed.

Lemma window_decodes bs look_ahead have q r code t : window bs look_ahead have q -> 1 <= r <= vli_max ->
  vli_encode_levels VLI_L_1_1 0 1 r = Ret (code, t) -> word_at (bs_buf bs) q code t -> t <= have -> vli_decode_bits look_ahead = Ret (r, t).
Proof.
  intros Hw Hr Henc Hword Hth. pose proof (code_length _ _ _ Hr Henc) as [Hc Ht]. eapply vli_code_decodes; [done|done|].
  apply (bits_eq_below t); [lia|apply Z.mod_pos_bound; lia|done|]. intros j Hj. rewrite testbit_mod_pow2 by lia.
  rewrite (proj2 (Z.ltb_lt j t)), (wi_bits _ _ _ _ Hw), (proj2 (Z.ltb_lt j have)) by lia. by apply Hword.
Qed.

(** The runs of a packet, decoded one after the other. *)
Lemma rle_decode_ok rs fuel c bs look_ahead have q s v b :
  xfer_ok b -> 0 <= i < bm_max_peers b -> ctx_of b c -> window bs look_ahead have q -> (length rs < fuel)%nat ->
  coded (bs_buf bs) q rs (8 * bs_buf_len bs - bs_pad_bits bs) -> alternates f v s rs -> 0 <= s -> s + run_total rs <= bm_bits_4k b ->
  exists b', rle_decode_loop i c fuel bs look_ahead have s v b = Ret (s + run_total rs, b') /\ merged f s (s + run_total rs) i b b'.
Proof.
  revert fuel bs look_ahead have q s v b. induction rs as [|r rs IH]; intros fuel bs la have q s v b Hok Hi Hc Hw Hf Hcoded Halt Hs Hend.
  { inversion Hcoded; subst. destruct fuel as [|fuel]; [simpl in Hf; lia|]. cbn [rle_decode_loop]. pose proof (wi_have _ _ _ _ Hw).
    rewrite (proj2 (Z.leb_le have 0)) by lia. exists b. simpl. rewrite Z.add_0_r. split; [done|]. apply merged_none; [apply Hok|]. intros; lia. }
  destruct fuel as [|fuel]; [simpl in Hf; lia|]. cbn [length] in Hf. inversion Hcoded as [|? ? ? code t ? Hr Henc Hword Hrest]; subst. destruct Halt as [Hrun Halt].
  cbn [run_total foldr] in *. fold (run_total rs) in *. pose proof (code_length _ _ _ Hr Henc) as [_ Ht]. pose proof (coded_le _ _ _ _ Hrest).
  pose proof (coded_total _ _ _ _ Hrest). pose proof (wi_have _ _ _ _ Hw) as Hhave. pose proof (xo_small b Hok).
  cbn [rle_decode_loop]. rewrite (proj2 (Z.leb_gt have 0)) by lia. rewrite (window_decodes _ _ _ _ _ _ _ Hw Hr Henc Hword) by lia. cbn [obind].
  rewrite (proj2 (Z.leb_gt t 0)), (proj2 (Z.ltb_ge have t)) by lia.
  assert (exists b1, (if v then recv_run i c s r b else Ret b) = Ret b1 /\ merged f s (s + r) i b b1) as (b1 & -> & M1).
  { destruct v; [apply recv_run_ok; (done || lia)|]. exists b. split; [done|]. apply merged_none; [apply Hok|done]. }
  cbn [obind]. destruct (window_next _ _ _ _ t Hw) as (n & tmp & bs' & -> & Hw' & Hbuf & Hpad); [lia|]. cbn [obind]. rewrite (u64_small (s + r)) by lia.
  pose proof (mg_shape _ _ _ _ _ _ M1) as Hsh. pose proof Hsh as (E1 & E2 & E3 & E4 & _ & _ & E7 & _).
  destruct (IH fuel bs' (Z.lor (if t <? 64 then Z.shiftr la t else 0) (u64 (Z.shiftl tmp (have - t)))) (have - t + n) (q + t) (s + r) (negb v) b1)
    as (b' & -> & M2); try done; try lia.
  - eapply xfer_ok_shape; [done|apply M1|done].
  - by eapply ctx_of_shape.
  - unfold bs_buf_len in *. by rewrite Hbuf, Hpad.
  - exists b'. replace (s + r + run_total rs) with (s + (r + run_total rs)) in * by lia. split; [done|]. eapply (merged_trans _ (s + r) (s + r)); [lia|lia|done|done].
Qed.
End receiver.
