(* ===== verification/BitmapExchange.v ===== *)
(** * All packets of an exchange

    What one packet does on both sides, and the transfer as a whole: the receiver ends with
    the union of its bits and those of the sender. *)
From S2P Require Import Prelude Vli Headers Bitmap BitmapProps BitmapOps BitmapResize BitmapXfer BitmapXferProps.

Section exchange.
Context `{Arch} `{BmProtocol}.

(** ** A packet of run lengths *)

Lemma recv_rle_ok bsrc isrc off off' enc code rs b i c :
  xfer_ok bsrc -> rle_packet bsrc isrc off off' enc code rs -> 0 <= off ->
  xfer_ok b -> 0 <= i < bm_max_peers b -> ctx_of b c -> bm_bits_4k b = bm_bits_4k bsrc -> bit_offset_4k c = off4k bsrc off ->
  exists b', recv_bm_rle_bits i enc code c b =
      Ret (if off4k bsrc off' =? bm_bits_4k b then 0 else 1,
           bm_xfer_ctx_bit_to_word_offset (set_bit_offset (Z.shiftr (off4k bsrc off') (xscale b)) (set_bit_offset_4k (off4k bsrc off') c)), b') /\
    merged (bit4k bsrc isrc) (off4k bsrc off) (off4k bsrc off') i b b'.
Proof.
  intros Hsrc Hp Hoff Hok Hi Hc E4k Ec. unfold recv_bm_rle_bits. set (bs := bitstream_init code (dcbp_get_pad_bits enc)).
  pose proof (rp_coded _ _ _ _ _ _ _ Hp) as Hcoded. pose proof (rp_pad _ _ _ _ _ _ _ Hp) as Hpad. pose proof (coded_le _ _ _ _ Hcoded) as Hle.
  destruct (window_first bs) as (have & la & bs1 & -> & Hw & Hbuf & Hpad1); [|done|].
  { split; try done; [apply Hp|]. unfold bs_pos, bs_buf_len. simpl. lia. }
  cbn [obind]. rewrite Ec. assert (0 <= off4k bsrc off) as Hlo0.
  { unfold off4k. pose proof (scale_pos bsrc Hsrc). destruct (xo_4k bsrc Hsrc). pose proof (xo_bits bsrc Hsrc). nia. }
  assert (off4k bsrc off + run_total rs <= bm_bits_4k b) as Hend by (rewrite <- (rp_total _ _ _ _ _ _ _ Hp), E4k; unfold off4k; lia).
  destruct (rle_decode_ok (bit4k bsrc isrc) i rs (S (8 * length code)) c bs1 la have 0 (off4k bsrc off) (dcbp_get_start enc) b) as (b' & -> & M); try done.
  - lia.
  - unfold bs_buf_len. by rewrite Hbuf, Hpad1.
  - apply Hp.
  - cbn [obind]. rewrite <- (rp_total _ _ _ _ _ _ _ Hp) in *. destruct Hc as (C1 & C2 & C3 & C4). exists b'. split; [|done].
    cbn [x_scale set_bit_offset set_bit_offset_4k]. rewrite C4. cbn. by rewrite C1.
Qed.

(** ** A packet of words *)

Definition sender_ok (sd : bm_sender) : Prop := forall n, Forall is_word32 (old_words sd n) /\
  Z.of_nat (length (old_words sd n)) = (DRBD_SOCKET_BUFFER_SIZE - drbd_header_size (agreed_pro_version sd)) / 4.

Lemma header_size_cases pv : drbd_header_size pv = 16 \/ drbd_header_size pv = 8.
Proof. unfold drbd_header_size. destruct (100 <=? pv); auto. Qed.

Lemma data_size_range pv : 2048 <= DRBD_SOCKET_BUFFER_SIZE - drbd_header_size pv < 2 ^ 24.
Proof. pose proof socket_buffer_room. pose proof compressed_bm_size. destruct (header_size_cases pv); lia. Qed.

(** As many whole words as fit, but one at least. *)
Lemma plain_words_ok sd c w words : 0 <= x_scale c <= 8 -> x_words c = words -> word_offset c = w -> 0 <= w <= words -> words < 2 ^ 60 ->
  let n := plain_words sd c in
  0 <= n <= words - w /\ (w < words -> 1 <= n) /\
  8 * n <= DRBD_SOCKET_BUFFER_SIZE - drbd_header_size (agreed_pro_version sd) /\
  (x_scale c = 0 -> n = Z.min ((DRBD_SOCKET_BUFFER_SIZE - drbd_header_size (agreed_pro_version sd)) / 8) (words - w)).
Proof.
  intros Hs Hw Ho Hr Hsm. cbv zeta. pose proof (data_size_range (agreed_pro_version sd)) as Hd. unfold plain_words.
  set (data := DRBD_SOCKET_BUFFER_SIZE - drbd_header_size (agreed_pro_version sd)) in *. rewrite Hw, Ho, u64_small by lia.
  unfold ALIGN_DOWN. rewrite Z.shiftl_1_l, Z.shiftr_div_pow2 by lia.
  assert (1 <= 2 ^ x_scale c <= 2 ^ 8) as Hp by (split; [pose proof (Z.pow_pos_nonneg 2 (x_scale c)); lia|apply Z.pow_le_mono_r; lia]).
  set (p := 2 ^ x_scale c) in *. assert ((data - data mod (8 * p)) / 8 / p = data / (8 * p)) as ->.
  { rewrite Z.div_div by lia. replace (data - data mod (8 * p)) with (data / (8 * p) * (8 * p)) by (pose proof (Z.div_mod data (8 * p)); lia).
    apply Z.div_mul. lia. }
  assert (1 <= data / (8 * p)) by (apply Z.div_le_lower_bound; nia). pose proof (Z.mul_div_le data (8 * p) ltac:(lia)).
  split_and!; try lia; [nia|]. intros Hs0. assert (p = 1) as -> by (subst p; by rewrite Hs0). rewrite Z.mul_1_r. lia.
Qed.

Lemma mbit_take_words (m : list Z) n q : 0 <= q < 32 * n -> mbit (take (Z.to_nat n) m) q = mbit m q.
Proof. intros Hq. apply mbit_take; [lia|]. rewrite Z2Nat.id by lia. apply Z.div_lt_upper_bound; lia. Qed.

Lemma words_bits b : xfer_ok b -> 0 < drbd_bm_words b < 2 ^ 42 /\ bm_bits b <= 64 * drbd_bm_words b < bm_bits b + 64.
Proof. intros Hok. pose proof (bits_small b (xo_wf b Hok)). pose proof (xo_bits b Hok). rewrite (xo_words b Hok). zdiv. Qed.

(** The words for the wire, read from the bitmap. *)
Lemma get_lel_ok b i w n buf : xfer_ok b -> 0 <= i < bm_max_peers b -> 0 <= w -> 1 <= n -> w + n <= drbd_bm_words b ->
  Forall is_word32 buf -> 2 * n <= Z.of_nat (length buf) ->
  exists r b' buf', drbd_bm_get_lel b i w n buf = Ret (r, b', buf') /\ length buf' = length buf /\ Forall is_word32 buf' /\
    forall q, 0 <= q -> 64 * w + q < bm_bits b -> q < 64 * n -> mbit buf' q = bm_bit b i (64 * w + q).
Proof.
  intros Hok Hi Hw Hn Hend Hbuf Hlen. destruct (words_bits b Hok) as [Hwd Hwb]. pose proof (xo_bits b Hok). pose proof (bits_small b (xo_wf b Hok)).
  unfold drbd_bm_get_lel, BITS_PER_LONG. rewrite (u64_small (w * 64)), u64_small by lia. rewrite bm_op_runs by (done || apply Hok).
  set (e := w * 64 + n * 64 - 1). assert (w * 64 <= clip b e) as Hse by (unfold clip, e; lia).
  destruct (bm_op_done b i (w * 64) e BM_OP_EXTRACT buf (xo_wf b Hok) ltac:(done)) as (r & b' & buf' & -> & Hd).
  { split_and!; try done; try lia. intros _. split; [zdiv|].
    apply Z.div_lt_upper_bound; [lia|]. unfold clip, e. lia. }
  exists r, b', buf'. split; [done|]. pose proof (od_buffer _ _ _ _ _ _ _ _ _ Hd) as Hx.
  destruct (decide (BM_OP_EXTRACT = BM_OP_EXTRACT)) as [_|]; [|done]. destruct (Hx Hse) as (Hl & Hf & Hq). split; [done|]. split; [done|].
  intros q Hq0 Hqb Hqn. rewrite Hq by done. rewrite (proj2 (Z.leb_le (q + w * 64) (clip b e))) by (unfold clip, e; lia). f_equal. lia.
Qed.

(** Words from the wire, added to the bitmap. *)
Lemma merge_lel_ok b i w n buf f : xfer_ok b -> xscale b = 0 -> 0 <= i < bm_max_peers b -> 0 <= w -> 1 <= n -> w + n <= drbd_bm_words b ->
  Forall is_word32 buf -> Z.of_nat (length buf) = 2 * n ->
  (forall q, 0 <= q -> 64 * w + q < bm_bits b -> q < 64 * n -> mbit buf q = f (64 * w + q)) ->
  exists r b' buf', drbd_bm_merge_lel b i w n buf = Ret (r, b', buf') /\ merged f (64 * w) (Z.min (64 * (w + n)) (bm_bits b)) i b b'.
Proof.
  intros Hok Hsc Hi Hw Hn Hend Hbuf Hlen Hf. destruct (words_bits b Hok) as [Hwd Hwb]. pose proof (xo_bits b Hok). pose proof (bits_small b (xo_wf b Hok)).
  unfold drbd_bm_merge_lel, BITS_PER_LONG. rewrite (u64_small (w * 64)), u64_small by lia. rewrite bm_op_runs by (done || apply Hok).
  set (e := w * 64 + n * 64 - 1).
  destruct (bm_op_done b i (w * 64) e BM_OP_MERGE buf (xo_wf b Hok) ltac:(done)) as (r & b' & buf' & -> & Hd).
  { split_and!; try done; try lia. intros _. split; [zdiv|].
    apply Z.div_lt_upper_bound; [lia|]. unfold clip, e. lia. }
  exists r, b', buf'. split; [done|]. split; try apply Hd.
  - eapply op_done_wf; [apply Hok|done].
  - intros Hc. eapply op_done_counts; [apply Hok| | | | |exact Hd]; try done; [lia|unfold clip; lia].
  - intros k Hk. rewrite (od_bits _ _ _ _ _ _ _ _ _ Hd) by lia. cbn [abs_op snd]. rewrite Hsc, Z.pow_0_r.
    destruct (Z.leb_spec (w * 64) k), (Z.leb_spec k (clip b e)); cbn [andb]; unfold clip, e in *.
    + rewrite Hf by lia. replace (64 * w + (k - w * 64)) with k by lia. rewrite orb_true_iff. split.
      * intros [?|Hk']; [by left|]. right. exists k. rewrite Z.div_1_r. split; [lia|done].
      * intros [?|(m & Hm & Hfm & Hmk)]; [by left|]. rewrite Z.div_1_r in Hmk. subst m. by right.
    + split; [by left|]. intros [?|(m & Hm & Hfm & Hmk)]; [done|]. rewrite Z.div_1_r in Hmk. lia.
    + split; [by left|]. intros [?|(m & Hm & Hfm & Hmk)]; [done|]. rewrite Z.div_1_r in Hmk. lia.
    + split; [by left|]. intros [?|(m & Hm & Hfm & Hmk)]; [done|]. rewrite Z.div_1_r in Hmk. lia.
  - intros j k Hj Hne Hk. apply Hd; (done || lia).
Qed.

(** The context after a packet of [n] words. *)
Definition after_plain (c : bm_xfer_ctx) (n : Z) : bm_xfer_ctx :=
  set_bit_offset (Z.min (64 * (word_offset c + n)) (x_bits c)) (set_word_offset (word_offset c + n) c).

Lemma after_plain_eq c n : let c1 := set_word_offset (word_offset c + n) c in
  let c2 := set_bit_offset (word_offset c1 * BITS_PER_LONG) c1 in
  (if x_bits c2 <? bit_offset c2 then set_bit_offset (x_bits c2) c2 else c2) = after_plain c n.
Proof.
  unfold after_plain, set_bit_offset, set_word_offset, BITS_PER_LONG. simpl. destruct (Z.ltb_spec (x_bits c) ((word_offset c + n) * 64)); f_equal; lia.
Qed.

Lemma send_plain_ok sd b i c : xfer_ok b -> 0 <= i < bm_max_peers b -> sender_ok sd -> ctx_of b c -> 0 <= word_offset c < drbd_bm_words b ->
  let n := plain_words sd c in
  exists len p, send_plain sd b i c = Ret (len, after_plain c n, P_BITMAP p) /\ 0 < len /\
    (xscale b = 0 -> Z.of_nat (length p) = 2 * n /\ Forall is_word32 p /\
      forall q, 0 <= q -> 64 * word_offset c + q < bm_bits b -> q < 64 * n -> mbit p q = bm_bit b i (64 * word_offset c + q)).
Proof.
  intros Hok Hi Hsd (E1 & E2 & E3 & E4) Hw n. destruct (words_bits b Hok) as [Hwd _]. pose proof (xo_scale b Hok).
  destruct (plain_words_ok sd c (word_offset c) (drbd_bm_words b)) as (Hn & Hn1 & Hfit & _); try done; try lia. fold n in Hn, Hn1, Hfit.
  destruct (Hsd (word_offset c)) as [Hbuf Hlen]. specialize (Hn1 ltac:(lia)).
  assert (2 * n <= Z.of_nat (length (old_words sd (word_offset c)))) as Hl by (rewrite Hlen; apply Z.div_le_lower_bound; lia).
  destruct (get_lel_ok b i (word_offset c) n _ Hok Hi ltac:(lia) Hn1 ltac:(lia) Hbuf Hl) as (r & b' & buf' & Hget & Hl' & Hf' & Hbits).
  unfold send_plain. fold n. cbv zeta. rewrite (proj2 (Z.eqb_neq (n * 8) 0)) by lia. cbn [negb]. rewrite Hget. cbn [obind]. rewrite E4.
  destruct (Z.eqb_spec (xscale b) 0) as [Hz|Hz]; cbn [negb obind]; rewrite after_plain_eq.
  - do 2 eexists. split; [done|]. split; [lia|]. intros _. replace (n * 8 / 4) with (2 * n) by zdiv. split_and!.
    + rewrite length_take. lia.
    + by apply Forall_take.
    + intros q Hq Hqb Hqn. rewrite mbit_take_words by lia. by apply Hbits.
  - do 2 eexists. split; [done|]. split; [|done]. rewrite Z.shiftl_mul_pow2 by lia. pose proof (scale_pos b Hok). lia.
Qed.

(** The last, empty packet. *)
Lemma send_plain_end sd b i c : xfer_ok b -> ctx_of b c -> word_offset c = drbd_bm_words b ->
  send_plain sd b i c = Ret (0, after_plain c 0, P_BITMAP []).
Proof.
  intros Hok (E1 & E2 & E3 & E4) Hw. destruct (words_bits b Hok) as [Hwd _]. pose proof (xo_scale b Hok).
  destruct (plain_words_ok sd c (drbd_bm_words b) (drbd_bm_words b)) as (Hn & _); try done; try lia.
  unfold send_plain. replace (plain_words sd c) with 0 by lia. cbv zeta. change (negb (0 * 8 =? 0)) with false. cbv iota.
  rewrite E3, Hw, Z.sub_diag. change (negb (0 =? 0)) with false. cbn [obind]. cbv iota. rewrite <- Hw. by rewrite after_plain_eq.
Qed.

Lemma recv_plain_ok pv b i c w n words f : xfer_ok b -> xscale b = 0 -> 0 <= i < bm_max_peers b -> ctx_of b c -> word_offset c = w -> 0 <= w -> 1 <= n ->
  n = Z.min ((DRBD_SOCKET_BUFFER_SIZE - drbd_header_size pv) / 8) (drbd_bm_words b - w) ->
  Z.of_nat (length words) = 2 * n -> Forall is_word32 words ->
  (forall q, 0 <= q -> 64 * w + q < bm_bits b -> q < 64 * n -> mbit words q = f (64 * w + q)) ->
  exists b', receive_bitmap_plain pv true i words c b = Ret (1, set_bit_offset_4k (64 * (w + n)) (after_plain c n), b') /\
    merged f (64 * w) (Z.min (64 * (w + n)) (bm_bits b)) i b b'.
Proof.
  intros Hok Hsc Hi (E1 & E2 & E3 & E4) Hw Hw0 Hn Hmin Hlen Hwd Hbits. destruct (words_bits b Hok) as [Hwords _]. pose proof (data_size_range pv).
  unfold receive_bitmap_plain. rewrite E3, E4, Hsc, Hw. change (Z.shiftl 1 0 - 1) with 0. rewrite !Z.shiftl_0_r, !Z.shiftr_0_r, Z.land_0_r.
  rewrite (u64_small (drbd_bm_words b - w)), u64_small, <- Hmin by lia. rewrite (proj2 (Z.eqb_eq (n * 8) _)), (proj2 (Z.eqb_neq (n * 8) 0)) by lia.
  cbn [negb Z.eqb]. unfold scale_bits. cbn [Z.eqb].
  destruct (merge_lel_ok b i w n words f) as (r & b' & buf' & -> & M); try done; try lia. cbn [obind]. exists b'. split; [|done]. do 3 f_equal.
  unfold after_plain, set_bit_offset_4k, set_bit_offset, set_word_offset, BITS_PER_LONG. cbn [x_bits x_bits_4k x_words x_scale bit_offset bit_offset_4k word_offset].
  rewrite ?E4, ?Hsc, Z.shiftl_0_r, Hw, u64_small by lia.
  destruct (Z.ltb_spec (x_bits c) ((w + n) * 64)); f_equal; lia.
Qed.

(** ** One packet from the sender *)

(** The offsets between two packets: in the bitmap, or behind its last word. *)
Definition at_bit (b : drbd_bitmap) (c : bm_xfer_ctx) : Prop := 0 <= bit_offset c < bm_bits b /\ word_offset c = bit_offset c / 64.
Definition at_end (b : drbd_bitmap) (c : bm_xfer_ctx) : Prop := bit_offset c = bm_bits b /\ word_offset c = drbd_bm_words b.

Inductive sent_packet (sd : bm_sender) (b : drbd_bitmap) (i : Z) (c : bm_xfer_ctx) : Z -> bm_xfer_ctx -> bm_packet -> Prop :=
  | sent_rle enc code off' rs : rle_packet b i (bit_offset c) off' enc code rs -> dcbp_get_code enc = RLE_VLI_Bits ->
      Z.of_nat (length code) <= DRBD_SOCKET_BUFFER_SIZE - drbd_header_size (agreed_pro_version sd) - sizeof_p_compressed_bm ->
      0 < Z.of_nat (length code) ->
      sent_packet sd b i c (if bm_bits b <=? off' then 0 else 1) (bm_xfer_ctx_bit_to_word_offset (set_bit_offset off' c)) (P_COMPRESSED_BITMAP enc code)
  | sent_plain words : let n := plain_words sd c in
      (xscale b = 0 -> Z.of_nat (length words) = 2 * n /\ Forall is_word32 words /\
        forall q, 0 <= q -> 64 * word_offset c + q < bm_bits b -> q < 64 * n -> mbit words q = bm_bit b i (64 * word_offset c + q)) ->
      sent_packet sd b i c 1 (after_plain c n) (P_BITMAP words).

Lemma send_one sd b i c : xfer_ok b -> 0 <= i < bm_max_peers b -> sender_ok sd -> ctx_of b c -> at_bit b c ->
  exists res c' p, send_bitmap_rle_or_plain sd b i c = Ret (res, c', p) /\ sent_packet sd b i c res c' p.
Proof.
  intros Hok Hi Hsd Hc [Hoff Hw]. pose proof Hc as (E1 & E2 & E3 & E4). destruct (words_bits b Hok) as [Hwd Hwb]. unfold send_bitmap_rle_or_plain.
  pose proof socket_buffer_room. pose proof compressed_bm_size. set (pv := agreed_pro_version sd). set (size := DRBD_SOCKET_BUFFER_SIZE - _ - _).
  assert (8 <= size) as Hsize by (unfold size; destruct (header_size_cases pv); lia).
  assert (forall c1 enc code, ctx_of b c1 -> word_offset c1 = word_offset c -> bit_offset_4k c1 = bit_offset_4k c ->
    fill_bitmap_rle_bits (use_rle sd) pv b i size (old_encoding sd (bit_offset c)) c = Ret (0, c1, enc, code) ->
    exists res c' p,
      (let! (len, c, encoding, code) := fill_bitmap_rle_bits (use_rle sd) pv b i size (old_encoding sd (bit_offset c)) c in
       if len <? 0 then Fail EIO
       else
         let! (len, c, p) :=
           if negb (len =? 0) then
             let! encoding := dcbp_set_code encoding RLE_VLI_Bits in
             Ret (if x_bits c <=? bit_offset c then 0 else len, c, P_COMPRESSED_BITMAP encoding (take (Z.to_nat len) code))
           else send_plain sd b i c in
         Ret (if len =? 0 then 0 else 1, c, p)) = Ret (res, c', p) /\ sent_packet sd b i c res c' p) as Hplain.
  { intros c1 enc code Hc1 Hw1 Hb1 ->. cbn [obind Z.ltb Z.compare Z.eqb negb]. pose proof Hc1 as (F1 & F2 & F3 & F4).
    destruct (send_plain_ok sd b i c1) as (len & p & -> & Hlen & Hp); try done.
    { rewrite Hw1, Hw. pose proof (Z.div_pos (bit_offset c) 64). assert (bit_offset c / 64 < drbd_bm_words b) by (apply Z.div_lt_upper_bound; lia). lia. }
    cbn [obind]. rewrite (proj2 (Z.eqb_neq len 0)) by lia. do 3 eexists. split; [done|].
    assert (plain_words sd c1 = plain_words sd c) as En by (unfold plain_words; by rewrite F4, E4, F3, E3, Hw1).
    replace (after_plain c1 (plain_words sd c1)) with (after_plain c (plain_words sd c)).
    - rewrite En, Hw1 in Hp. by constructor.
    - rewrite En. unfold after_plain, set_bit_offset, set_word_offset. cbn. by rewrite Hw1, Hb1, F1, F2, F3, F4, E1, E2, E3, E4. }
  destruct (use_rle sd && (90 <=? pv)) eqn:Erle.
  - apply andb_prop in Erle as [Eu Epv]. apply Z.leb_le in Epv.
    destruct (fill_rle_ok b i Hok Hi pv size (old_encoding sd (bit_offset c)) RLE_VLI_Bits c Epv Hsize rle_code_range Hc Hoff)
      as [(enc & code & Hfill)|(len & enc1 & enc & code & off' & rs & Hfill & Hcode & Hget & Hlen & Hlc & Hp)].
    + eapply Hplain; [| | |rewrite Eu; exact Hfill]; done.
    + rewrite Eu, Hfill. cbn [obind]. rewrite (proj2 (Z.ltb_ge len 0)), (proj2 (Z.eqb_neq len 0)) by lia. cbn [negb]. rewrite Hcode. cbn [obind].
      cbn [x_bits bit_offset bm_xfer_ctx_bit_to_word_offset set_word_offset set_bit_offset]. rewrite E2. do 3 eexists. split; [done|].
      assert (Z.of_nat (length (take (Z.to_nat len) code)) = len) as Hlt by (rewrite length_take; lia).
      replace (if (if bm_bits b <=? off' then 0 else len) =? 0 then 0 else 1) with (if bm_bits b <=? off' then 0 else 1)
        by (destruct (bm_bits b <=? off'); [done|by rewrite (proj2 (Z.eqb_neq len 0)) by lia]).
      econstructor; [exact Hp|done|rewrite Hlt; unfold size, pv in Hlen; lia|lia].
  - eapply (Hplain c (old_encoding sd (bit_offset c)) []); try done. unfold fill_bitmap_rle_bits.
    replace (negb (use_rle sd) || (pv <? 90)) with true; [done|]. rewrite Z.ltb_antisym, <- negb_andb, Erle. done.
Qed.

Lemma send_last sd b i c : xfer_ok b -> ctx_of b c -> at_end b c ->
  send_bitmap_rle_or_plain sd b i c = Ret (0, after_plain c 0, P_BITMAP []).
Proof.
  intros Hok Hc [Hoff Hw]. pose proof Hc as (_ & E2 & _ & _). unfold send_bitmap_rle_or_plain, fill_bitmap_rle_bits. rewrite E2, Hoff.
  rewrite (proj2 (Z.leb_le (bm_bits b) (bm_bits b))) by lia. destruct (negb (use_rle sd) || (agreed_pro_version sd <? 90));
    cbn [obind Z.ltb Z.compare Z.eqb negb]; by rewrite (send_plain_end _ _ _ _ Hok Hc Hw).
Qed.

(** Where a packet leaves the sender. *)
Lemma sent_next sd b i c res c' p : xfer_ok b -> ctx_of b c -> at_bit b c -> sent_packet sd b i c res c' p ->
  ctx_of b c' /\ (res = 0 \/ res = 1 /\ bit_offset c < bit_offset c' /\ (at_bit b c' \/ at_end b c')).
Proof.
  intros Hok Hc [Hoff Hw] Hp. pose proof Hc as (E1 & E2 & E3 & E4). destruct (words_bits b Hok) as [Hwd Hwb]. pose proof (xo_scale b Hok).
  destruct Hp as [enc code off' rs Hp Hcode Hlen Hlen0|words n Hp]; (split; [done|]).
  - pose proof (rp_off _ _ _ _ _ _ _ Hp). destruct (Z.leb_spec (bm_bits b) off'); [by left|right]. cbn. split; [done|]. split; [lia|left].
    unfold at_bit. cbn. rewrite Z.shiftr_div_pow2 by lia. split; [lia|done].
  - right. split; [done|]. assert (word_offset c < drbd_bm_words b) by (rewrite Hw; apply Z.div_lt_upper_bound; lia).
    assert (0 <= word_offset c /\ 64 * word_offset c <= bit_offset c < 64 * word_offset c + 64) by (rewrite Hw; split; [apply Z.div_pos; lia|zdiv]).
    destruct (plain_words_ok sd c (word_offset c) (drbd_bm_words b)) as (Hn & Hn1 & _ & _); try done; try lia. fold n in Hn, Hn1. specialize (Hn1 ltac:(lia)).
    unfold at_bit, at_end, after_plain. cbn. rewrite E2. split; [lia|]. destruct (Z.lt_ge_cases (64 * (word_offset c + n)) (bm_bits b)).
    + left. rewrite Z.min_l by lia. split; [lia|]. symmetry. rewrite Z.mul_comm. by apply Z.div_mul.
    + right. lia.
Qed.

(** ** All packets *)

Definition compressed (p : bm_packet) : bool := match p with P_COMPRESSED_BITMAP _ _ => true | P_BITMAP _ => false end.

(** Plain words are only exchanged between bitmaps of blocks of 4 KiB. *)
Definition plain_only_4k (bsrc b : drbd_bitmap) (l : list bm_packet) : Prop :=
  (xscale bsrc = 0 /\ xscale b = 0) \/ Forall (fun p => compressed p = true) l.

(** The receiver is where the sender is, and has everything up to there. *)
Definition follows (bsrc : drbd_bitmap) (isrc : Z) (b0 b : drbd_bitmap) (i : Z) (cs cr : bm_xfer_ctx) : Prop :=
  ctx_of b cr /\ merged (bit4k bsrc isrc) 0 (off4k bsrc (bit_offset cs)) i b0 b /\
  (at_bit bsrc cs -> bit_offset_4k cr = off4k bsrc (bit_offset cs)) /\
  (xscale bsrc = 0 /\ xscale b = 0 -> word_offset cr = word_offset cs).

Lemma scale0_bits b : xfer_ok b -> xscale b = 0 -> bm_bits b = bm_bits_4k b.
Proof. intros Hok Hz. pose proof (xo_4k b Hok) as Hb. rewrite Hz in Hb. lia. Qed.

Lemma off4k_0 b off : xfer_ok b -> xscale b = 0 -> off <= bm_bits b -> off4k b off = off.
Proof. intros Hok Hz Hoff. pose proof (scale0_bits b Hok Hz). unfold off4k. rewrite Hz. lia. Qed.

Lemma off4k_end b : xfer_ok b -> off4k b (bm_bits b) = bm_bits_4k b.
Proof. intros Hok. destruct (xo_4k b Hok). unfold off4k. lia. Qed.

Lemma off4k_mono b x y : xfer_ok b -> 0 <= x <= y -> 0 <= off4k b x <= off4k b y.
Proof. intros Hok Hxy. pose proof (scale_pos b Hok). destruct (xo_4k b Hok). pose proof (xo_bits b Hok). unfold off4k. nia. Qed.

Section transfer.
Variables (sd : bm_sender) (bsrc b0 : drbd_bitmap) (isrc i : Z).
Hypothesis Hsd : sender_ok sd.
Hypothesis Hsrc : xfer_ok bsrc.
Hypothesis Hisrc : 0 <= isrc < bm_max_peers bsrc.
Hypothesis Hdst : xfer_ok b0.
Hypothesis Hi : 0 <= i < bm_max_peers b0.
Hypothesis H4k : bm_bits_4k b0 = bm_bits_4k bsrc.

Let pv := agreed_pro_version sd.

(** A packet, received: the loop ends or goes on behind it. *)
Lemma receive_one cs res cs' p b cr l :
  ctx_of bsrc cs -> at_bit bsrc cs -> sent_packet sd bsrc isrc cs res cs' p -> follows bsrc isrc b0 b i cs cr -> plain_only_4k bsrc b0 [p] ->
  exists b' cr', receive_loop pv true i (p :: l) cr b =
      (if res =? 0 then Ret (b', l) else receive_loop pv true i l cr' b') /\
    (res = 0 -> merged (bit4k bsrc isrc) 0 (bm_bits_4k bsrc) i b0 b') /\ (res = 1 -> follows bsrc isrc b0 b' i cs' cr').
Proof.
  intros Hcs [Hoff Hws] Hp (Hcr & Hm & Hat & Hwo) Hpl. pose proof (mg_shape _ _ _ _ _ _ Hm) as Hsh.
  pose proof (xfer_ok_shape _ _ Hsh (mg_wf _ _ _ _ _ _ Hm) Hdst) as Hok. pose proof (xscale_shape _ _ Hsh) as Ex.
  pose proof Hsh as (Eb & E4 & _ & _ & _ & _ & Ep & _). assert (0 <= i < bm_max_peers b) as Hi' by (by rewrite Ep).
  specialize (Hat ltac:(by split)). rewrite Ex in Hwo. pose proof Hcs as (_ & F2 & _ & _).
  destruct Hp as [enc code off' rs Hp Hcode Hlen Hlen0|words n Hp].
  - destruct (recv_rle_ok bsrc isrc (bit_offset cs) off' enc code rs b i cr) as (b' & Hrun & M); try done; try lia.
    pose proof (rp_off _ _ _ _ _ _ _ Hp) as Ho. pose proof (off4k_mono bsrc (bit_offset cs) off' Hsrc ltac:(lia)).
    pose proof (off4k_mono bsrc 0 (bit_offset cs) Hsrc ltac:(lia)).
    assert (merged (bit4k bsrc isrc) 0 (off4k bsrc off') i b0 b') as Hm' by (eapply merged_trans; [| |exact Hm|exact M]; lia).
    cbn [receive_loop]. rewrite (proj2 (Z.ltb_ge _ _)) by (unfold pv; lia). rewrite (proj2 (Z.leb_gt _ _)) by lia.
    unfold decode_bitmap_c. rewrite Hcode, Z.eqb_refl. cbn [negb]. rewrite Hrun. cbn [obind]. rewrite E4, H4k.
    exists b', (bm_xfer_ctx_bit_to_word_offset (set_bit_offset (Z.shiftr (off4k bsrc off') (xscale b)) (set_bit_offset_4k (off4k bsrc off') cr))).
    destruct (Z.leb_spec (bm_bits bsrc) off').
    + assert (off' = bm_bits bsrc) as -> by lia. rewrite off4k_end, Z.eqb_refl in * by done. split_and!; done.
    + assert (off4k bsrc off' <> bm_bits_4k bsrc) as Hne.
      { destruct (xo_4k bsrc Hsrc). pose proof (scale_pos bsrc Hsrc). unfold off4k. nia. }
      rewrite (proj2 (Z.eqb_neq _ _) Hne). cbn [Z.leb Z.compare Z.eqb]. split; [done|]. split; [done|]. intros _. unfold follows. split_and!.
      * apply (ctx_of_shape b); [apply M|done].
      * done.
      * done.
      * rewrite (xscale_shape _ _ (mg_shape _ _ _ _ _ _ M)), Ex. intros [Hz1 Hz2]. cbn. rewrite Hz2, Z.shiftr_0_r, off4k_0 by (done || lia). done.
  - destruct Hpl as [[Hz1 Hz2]|Hpl]; [|inversion Hpl; subst; done]. destruct (Hp Hz1) as (Hlen & Hwords & Hbits). specialize (Hwo ltac:(done)).
    pose proof (scale0_bits bsrc Hsrc Hz1) as B1. pose proof (scale0_bits b0 Hdst Hz2) as B2. assert (bm_bits b = bm_bits bsrc) as B3 by congruence.
    assert (drbd_bm_words b = drbd_bm_words bsrc) as W by (by rewrite (xo_words b Hok), (xo_words bsrc Hsrc), B3).
    destruct (words_bits bsrc Hsrc) as [Hwd Hwb]. assert (word_offset cs < drbd_bm_words bsrc) by (rewrite Hws; apply Z.div_lt_upper_bound; lia).
    assert (0 <= word_offset cs /\ 64 * word_offset cs <= bit_offset cs < 64 * word_offset cs + 64) by (rewrite Hws; split; [apply Z.div_pos; lia|zdiv]).
    pose proof Hcs as (G1 & G2 & G3 & G4).
    destruct (plain_words_ok sd cs (word_offset cs) (drbd_bm_words bsrc)) as (Hn & Hn1 & _ & Hnmin); try done; try lia.
    fold n in Hn, Hn1, Hnmin. specialize (Hn1 ltac:(lia)). specialize (Hnmin ltac:(congruence)).
    destruct (recv_plain_ok pv b i cr (word_offset cs) n words (bit4k bsrc isrc)) as (b' & Hrun & M); try done; try lia; [by rewrite W| |].
    { intros q Hq Hqb Hqn. rewrite Hbits by (done || congruence || lia). unfold bit4k. by rewrite Hz1, Z.div_1_r. }
    cbn [receive_loop]. rewrite Hrun. cbn [obind Z.leb Z.compare Z.eqb]. exists b', (set_bit_offset_4k (64 * (word_offset cs + n)) (after_plain cr n)).
    split; [done|]. split; [done|]. intros _. rewrite B3 in M. rewrite (off4k_0 bsrc) in Hm by (done || lia).
    assert (bit_offset (after_plain cs n) = Z.min (64 * (word_offset cs + n)) (bm_bits bsrc)) as Hbo by (unfold after_plain; cbn; by rewrite G2).
    unfold follows. split_and!.
    + apply (ctx_of_shape b); [apply M|done].
    + rewrite Hbo, off4k_0 by (done || lia). eapply merged_trans; [| |exact Hm|exact M]; lia.
    + intros [Hat' _]. rewrite Hbo in *. rewrite off4k_0 by (done || lia). cbn. lia.
    + intros _. cbn. by rewrite Hwo.
Qed.

Lemma receive_last b cs cr : at_end bsrc cs -> follows bsrc isrc b0 b i cs cr -> plain_only_4k bsrc b0 [P_BITMAP []] ->
  receive_loop pv true i [P_BITMAP []] cr b = Ret (b, []).
Proof.
  intros [Hoff Hw] (Hcr & Hm & _ & Hwo) [[Hz1 Hz2]|Hpl]; [|inversion Hpl; subst; done]. pose proof (mg_shape _ _ _ _ _ _ Hm) as Hsh.
  rewrite (xscale_shape _ _ Hsh) in Hwo. specialize (Hwo ltac:(done)). pose proof (xfer_ok_shape _ _ Hsh (mg_wf _ _ _ _ _ _ Hm) Hdst) as Hok.
  pose proof Hsh as (Eb & _ & _ & _ & _ & _ & _ & _). destruct Hcr as (_ & _ & F3 & F4).
  assert (drbd_bm_words b = drbd_bm_words bsrc) as W.
  { rewrite (xo_words b Hok), (xo_words bsrc Hsrc), Eb, (scale0_bits b0), (scale0_bits bsrc), H4k; done. }
  cbn [receive_loop]. unfold receive_bitmap_plain. rewrite F3, W, Hwo, Hw, Z.sub_diag. change (u64 0) with 0. rewrite Z.shiftl_0_l. change (u64 0) with 0.
  pose proof (data_size_range pv). rewrite (Z.min_r _ 0) by (apply Z.div_pos; lia). done.
Qed.

Lemma transfer_ok fuel cs : ctx_of bsrc cs -> at_bit bsrc cs \/ at_end bsrc cs -> bm_bits bsrc - bit_offset cs + 1 <= Z.of_nat fuel ->
  exists l, send_loop sd bsrc isrc fuel cs = Ret l /\
    forall b cr, follows bsrc isrc b0 b i cs cr -> plain_only_4k bsrc b0 l ->
      exists b', receive_loop pv true i l cr b = Ret (b', []) /\ merged (bit4k bsrc isrc) 0 (bm_bits_4k bsrc) i b0 b'.
Proof.
  revert cs. induction fuel as [|fuel IH]; intros cs Hcs Hst Hf; [destruct Hst as [[? _]|[? _]]; lia|]. cbn [send_loop]. destruct Hst as [Hst|Hst].
  - destruct (send_one sd bsrc isrc cs Hsrc Hisrc Hsd Hcs Hst) as (res & cs' & p & -> & Hp). cbn [obind].
    destruct (sent_next _ _ _ _ _ _ _ Hsrc Hcs Hst Hp) as [Hcs' [->|(-> & Hlt & Hst')]].
    + exists [p]. split; [done|]. intros b cr Hfo Hpl. destruct (receive_one cs 0 cs' p b cr [] Hcs Hst Hp Hfo Hpl) as (b' & cr' & -> & Hm & _).
      exists b'. split; [done|]. by apply Hm.
    + destruct (IH cs' Hcs' Hst' ltac:(lia)) as (l & -> & Hrec). cbn [obind Z.ltb Z.compare]. exists (p :: l). split; [done|]. intros b cr Hfo Hpl.
      assert (plain_only_4k bsrc b0 [p] /\ plain_only_4k bsrc b0 l) as [Hpl1 Hpl2].
      { destruct Hpl as [?|Hall]; [by split; left|]. inversion Hall; subst. split; right; auto. }
      destruct (receive_one cs 1 cs' p b cr l Hcs Hst Hp Hfo Hpl1) as (b' & cr' & -> & _ & Hfo'). apply Hrec; auto.
  - rewrite (send_last _ _ _ _ Hsrc Hcs Hst). cbn [obind Z.ltb Z.compare]. exists [P_BITMAP []]. split; [done|]. intros b cr Hfo Hpl.
    exists b. split; [by eapply receive_last|]. destruct Hfo as (_ & Hm & _). destruct Hst as [Hoff _]. by rewrite Hoff, off4k_end in Hm.
Qed.
End transfer.

(** The flag for a full sync sets all bits first. *)
Lemma full_sync_ok (full : bool) b i : xfer_ok b -> 0 <= i < bm_max_peers b ->
  exists b', (if full then drbd_bm_set_many_bits b i 0 (2 ^ 64 - 1) else Ret b) = Ret b' /\ xfer_ok b' /\ same_shape b b' /\
    forall k, 0 <= k < bm_bits b -> bm_bit b' i k = full || bm_bit b i k.
Proof.
  intros Hok Hi. destruct full; [|exists b; split_and!; try done; apply Hok]. pose proof (xo_bits b Hok). pose proof (bits_small b (xo_wf b Hok)).
  destruct (many_bits_ok true b i 0 (2 ^ 64 - 1) (xo_wf b Hok)) as (b' & Hrun & Hset); try done; try lia. exists b'.
  unfold drbd_bm_set_many_bits. rewrite (proj2 (Z.eqb_neq i (-1))) by lia. split; [exact Hrun|].
  split; [eapply xfer_ok_shape; [apply Hset|apply Hset|done]|]. split; [apply Hset|]. intros k Hk.
  rewrite (rs_bits _ _ _ _ _ _ Hset) by lia. rewrite (proj2 (Z.leb_le 0 k)), (proj2 (Z.leb_le k _)) by (unfold clip; lia). done.
Qed.

(** C38: sending a bitmap ends, for every content, page size and sizes of blocks; and when all
    packets of it are received, the receiver's slot has exactly the union of its bits and those
    of the sender: a block is marked if it was marked or if a block of 4 KiB in it is in a
    marked block of the sender (in any block if the sender wants a full sync).  Other slots keep
    their bits and the counters stay exact.  Run lengths and plain words may alternate; between
    bitmaps with larger blocks this needs that no plain words are sent. *)
Theorem bitmap_exchange_union sd full_sync written bsrc isrc b i :
  sender_ok sd -> xfer_ok bsrc -> 0 <= isrc < bm_max_peers bsrc -> xfer_ok b -> 0 <= i < bm_max_peers b ->
  bm_bits_4k b = bm_bits_4k bsrc -> bm_counts b ->
  exists l bsrc', _drbd_send_bitmap sd full_sync written bsrc isrc = Ret (l, bsrc', full_sync && negb written) /\
    (plain_only_4k bsrc b l ->
     exists b', receive_loop (agreed_pro_version sd) true i l (new_ctx b) b = Ret (b', []) /\ bm_wf b' /\ same_shape b b' /\ bm_counts b' /\
       (forall k, 0 <= k < bm_bits b ->
          bm_bit b' i k = true <-> bm_bit b i k = true \/
            exists n, 0 <= n < bm_bits_4k b /\ n / 2 ^ xscale b = k /\ full_sync || bm_bit bsrc isrc (n / 2 ^ xscale bsrc) = true) /\
       (forall j k, 0 <= j < bm_max_peers b -> j <> i -> 0 <= k < bm_bits b -> bm_bit b' j k = bm_bit b j k)).
Proof.
  intros Hsd Hsrc Hisrc Hdst Hi H4k Hcnt. unfold _drbd_send_bitmap.
  destruct (full_sync_ok full_sync bsrc isrc Hsrc Hisrc) as (bsrc' & -> & Hsrc' & Hsh & Hbits). cbn [obind].
  pose proof Hsh as (Eb & E4 & _ & _ & _ & _ & Ep & _). pose proof (xscale_shape _ _ Hsh) as Ex. pose proof (xo_bits bsrc' Hsrc').
  destruct (transfer_ok sd bsrc' b isrc i Hsd Hsrc' ltac:(lia) Hdst Hi ltac:(congruence) (Z.to_nat (bm_bits bsrc' + 2)) (new_ctx bsrc')) as (l & -> & Hrec).
  - done.
  - left. split; [simpl; lia|done].
  - simpl. lia.
  - cbn [obind]. exists l, bsrc'. split; [done|]. intros Hpl. destruct (Hrec b (new_ctx b)) as (b' & -> & M).
    + assert (off4k bsrc' (bit_offset (new_ctx bsrc')) = 0) as E0.
      { simpl. unfold off4k. destruct (xo_4k bsrc' Hsrc'). pose proof (scale_pos bsrc' Hsrc'). nia. }
      unfold follows. rewrite E0. split_and!; try done. apply merged_none; [apply Hdst|intros; lia].
    + unfold plain_only_4k. by rewrite Ex.
    + exists b'. split; [done|]. split; [apply M|]. split; [apply M|]. split; [by apply M|]. split; [|apply M].
      intros k Hk. rewrite (mg_bits _ _ _ _ _ _ M) by done. rewrite E4, <- H4k. unfold bit4k. rewrite Ex.
      pose proof (scale_pos bsrc Hsrc). destruct (xo_4k bsrc Hsrc).
      assert (forall n, 0 <= n < bm_bits_4k b -> bm_bit bsrc' isrc (n / 2 ^ xscale bsrc) = full_sync || bm_bit bsrc isrc (n / 2 ^ xscale bsrc)) as Hb.
      { intros n Hn. apply Hbits. split; [apply Z.div_pos; lia|apply Z.div_lt_upper_bound; nia]. }
      split; (intros [?|(n & Hn & Hx & Hy)]; [by left|right; exists n]); rewrite Hb in * by done; done.
Qed.
End exchange.

(** ** Examples *)

Program Definition protocol_4k : BmProtocol :=
  {| DRBD_SOCKET_BUFFER_SIZE := 4096; sizeof_p_compressed_bm := 1; RLE_VLI_Bits := 2 |}.
Solve All Obligations with lia.

(** A sender whose buffer is clear. *)
Definition demo_sender (rle : bool) : bm_sender := mk_sender rle 120 (fun _ => 0) (fun _ => replicate 1020 0).

Lemma demo_sender_ok rle : @sender_ok protocol_4k (demo_sender rle).
Proof. intros n. split; [by apply Forall_replicate|vm_compute; reflexivity]. Qed.

Lemma demo_xfer_ok : @xfer_ok PAGE_SHIFT_4k demo_bitmap.
Proof. split; [exact demo_bitmap_wf|vm_compute; split; discriminate..|vm_compute; reflexivity|vm_compute; split; [reflexivity|discriminate]|vm_compute; discriminate|vm_compute; reflexivity]. Qed.

Lemma demo_no_bits : bm_counts demo_bitmap.
Proof. intros i Hi. change (0 <= i < 2) in Hi. destruct (decide (i = 0)) as [->|]; [|replace i with 1 by lia]; vm_compute; reflexivity. Qed.

Lemma bitmap_exchange_union_witness :
  exists l bsrc' b', @_drbd_send_bitmap PAGE_SHIFT_4k protocol_4k (demo_sender true) true true demo_bitmap 1 = Ret (l, bsrc', false) /\
    @receive_loop PAGE_SHIFT_4k protocol_4k 120 true 0 l (new_ctx demo_bitmap) demo_bitmap = Ret (b', []) /\ bm_bit b' 0 70 = true.
Proof.
  assert (0 <= 1 < bm_max_peers demo_bitmap /\ 0 <= 0 < bm_max_peers demo_bitmap /\ 0 <= 70 < bm_bits demo_bitmap) as (H1 & H0 & H70)
    by (vm_compute; repeat split; discriminate).
  assert (0 <= 70 < bm_bits_4k demo_bitmap /\ 70 / 2 ^ xscale demo_bitmap = 70) as [Hn Hk] by (vm_compute; repeat split; discriminate).
  assert (xscale demo_bitmap = 0) as Hz by (vm_compute; reflexivity).
  destruct (@bitmap_exchange_union PAGE_SHIFT_4k protocol_4k (demo_sender true) true true demo_bitmap 1 demo_bitmap 0 (demo_sender_ok true) demo_xfer_ok H1
    demo_xfer_ok H0 eq_refl demo_no_bits) as (l & bsrc' & Hsend & Hrec).
  destruct (Hrec (or_introl (conj Hz Hz))) as (b' & Hrun & _ & _ & _ & Hbits & _).
  exists l, bsrc', b'. split; [exact Hsend|]. split; [exact Hrun|]. apply (Hbits 70 H70). right. exists 70.
  split; [exact Hn|]. split; [exact Hk|]. reflexivity.
Defined.

(** Runs and plain words together: the pattern does not compress. *)
Definition alternating (b : drbd_bitmap) (n : Z) : outcome drbd_bitmap :=
  foldl (fun b k => let! b := b in @drbd_bm_set_many_bits PAGE_SHIFT_4k b 1 (2 * k) (2 * k)) (Ret b) (seqZ 0 n).

Definition exchanged (rle : bool) (src : outcome drbd_bitmap) (dst : drbd_bitmap) : outcome (list bool * list bool) :=
  let! b := src in
  let! (l, _, _) := @_drbd_send_bitmap PAGE_SHIFT_4k protocol_4k (demo_sender rle) false false b 1 in
  let! (b', _) := @receive_loop PAGE_SHIFT_4k protocol_4k 120 true 0 l (new_ctx dst) dst in
  Ret (map compressed l, map (bm_bit b' 0) (seqZ 0 (bm_bits b'))).

Example alternating_is_plain : exchanged true (alternating demo_bitmap 50) demo_bitmap = Ret ([false; false], map Z.even (seqZ 0 100)).
Proof. vm_compute. reflexivity. Qed.

(** 64 blocks of 8 KiB on one node, 128 of 4 KiB on the other: of plain words only the first
    half of the blocks arrives, because [repeat_bits] leaves out the first word. *)
Definition demo_8k : drbd_bitmap := mk_bitmap (replicate 1024 0) [0] [0; 0] 64 128 2 1 1024 false 2 13 [].
Definition demo_128 : drbd_bitmap := mk_bitmap (replicate 1024 0) [0] [0; 0] 128 128 4 1 1024 false 2 12 [].

Example plain_scaled_loses_blocks : exchanged false (@drbd_bm_set_many_bits PAGE_SHIFT_4k demo_8k 1 0 63) demo_128 =
  Ret ([false; false], replicate 64 true ++ replicate 64 false).
Proof. vm_compute. reflexivity. Qed.

Example rle_scaled_keeps_blocks : exchanged true (@drbd_bm_set_many_bits PAGE_SHIFT_4k demo_8k 1 0 63) demo_128 = Ret ([true], replicate 128 true).
Proof. vm_compute. reflexivity. Qed.
