(* ===== verification/ActLog.v ===== *)
(** * The activity log ([drbd_actlog.c], and its sizes in [drbd_nl.c])

    The activity log names the extents of 4 MiB that may be written to at the moment.
    The set is kept by the cache of [LruCache], changes are logged to a ring of
    blocks of the meta-data, and before an extent leaves the log its part of the
    bitmap is written.  This file has the definitions: the device with its cache,
    bitmap and meta-data on disk, the transaction and the routines. *)
From S2P Require Import Prelude LruCache Bitmap.

Definition AL_EXTENT_SHIFT : Z := 22.
Definition AL_CONTEXT_PER_TRANSACTION : nat := 919.

Definition u16 (z : Z) : Z := z mod 2 ^ 16.

(** One block of the log.  Magic and checksum, by which a reader recognises a block
    that was never or only partly written, are left out: a block is written in one step,
    and a block that was not written is [None]. *)
Record al_transaction_on_disk := mk_transaction {
  tr_number : Z;
  n_updates : Z;
  update_slot_nr : list Z;
  update_extent_nr : list Z;
  context_size : Z;
  context_start_slot_nr : Z;
  context : list Z }.

(** The part of the meta-data that places the log. *)
Record al_md := mk_md {
  md_offset : Z; al_offset : Z; al_stripes : Z; al_stripe_size_4k : Z; al_size_4k : Z;
  al_disabled : bool }.

(** A device.  [bm_area_on_disk] has the words of the bitmap and [al_blocks] the blocks
    of the log on disk. *)
Record al_device := mk_device {
  act_log : lru_cache;
  al_tr_number : Z;
  al_tr_cycle : Z;
  al_bitmap : drbd_bitmap;
  bm_area_on_disk : list Z;
  al_blocks : list (option al_transaction_on_disk);
  md : al_md }.

Definition set_act_log (lc : lru_cache) (d : al_device) : al_device :=
  mk_device lc (al_tr_number d) (al_tr_cycle d) (al_bitmap d) (bm_area_on_disk d) (al_blocks d) (md d).
Definition set_bitmap (b : drbd_bitmap) (area : list Z) (d : al_device) : al_device :=
  mk_device (act_log d) (al_tr_number d) (al_tr_cycle d) b area (al_blocks d) (md d).
Definition set_cycle (c : Z) (d : al_device) : al_device :=
  mk_device (act_log d) (al_tr_number d) c (al_bitmap d) (bm_area_on_disk d) (al_blocks d) (md d).
Definition set_log (n : Z) (l : list (option al_transaction_on_disk)) (d : al_device) : al_device :=
  mk_device (act_log d) n (al_tr_cycle d) (al_bitmap d) (bm_area_on_disk d) l (md d).

(** ** Sizes *)

Definition drbd_al_extents_max (DRBD_AL_EXTENTS_MAX size_4k : Z) : Z :=
  let max_al_nr := DRBD_AL_EXTENTS_MAX in
  let sufficient_on_disk := (max_al_nr + Z.of_nat AL_CONTEXT_PER_TRANSACTION - 1) / Z.of_nat AL_CONTEXT_PER_TRANSACTION in
  if sufficient_on_disk <? size_4k then max_al_nr
  else u32 ((size_4k - 1) * Z.of_nat AL_CONTEXT_PER_TRANSACTION).

(** [check_activity_log_stripe_size]; the meta-data with the size, or an error. *)
Definition check_activity_log_stripe_size (m : al_md) : outcome al_md :=
  let '(stripes, stripe_size_4k) :=
    if (al_stripes m =? 0) && (al_stripe_size_4k m =? 0) then (1, Z.shiftr 32768 9 / 8)
    else (al_stripes m, al_stripe_size_4k m) in
  if (stripes =? 0) || (stripe_size_4k =? 0) then Fail EINVAL
  else
    let size_4k := stripes * stripe_size_4k in
    if 16 * 1024 * 1024 / 4 <? size_4k then Fail EINVAL
    else if size_4k <? Z.shiftr 32768 9 / 8 then Fail EINVAL
    else Ret (mk_md (md_offset m) (al_offset m) (al_stripes m) (al_stripe_size_4k m) size_4k (al_disabled m)).

(** ** Extents of an interval *)

Definition first_extent (sector : Z) : Z := u32 (Z.shiftr sector (AL_EXTENT_SHIFT - 9)).
Definition last_extent (sector size : Z) : Z :=
  if size =? 0 then first_extent sector
  else u32 (Z.shiftr (u64 (sector + Z.shiftr size 9 - 1)) (AL_EXTENT_SHIFT - 9)).

Fixpoint al_active_loop (lc : lru_cache) (n : nat) (enr : Z) : outcome bool :=
  match n with
  | O => Ret false
  | S n =>
      let! r := lc_find lc enr in
      match r with
      | Some i => if 0 <? refcnt (elem lc i) then Ret true else al_active_loop lc n (enr + 1)
      | None => al_active_loop lc n (enr + 1)
      end
  end.

Definition drbd_al_active (d : al_device) (sector size : Z) : outcome bool :=
  let first := first_extent sector in
  al_active_loop (act_log d) (Z.to_nat (last_extent sector size + 1 - first)) first.

(** [drbd_al_begin_io_fastpath] without persistent memory. *)
Definition drbd_al_begin_io_fastpath (d : al_device) (sector size : Z) : outcome (bool * al_device) :=
  let first := first_extent sector in
  if negb (first =? last_extent sector size) then Ret (false, d)
  else
    let! (r, lc) := lc_try_get (act_log d) first in
    Ret (match r with Some _ => true | None => false end, set_act_log lc d).

(** [drbd_al_begin_io_nonblock]: [None] is success; otherwise the new
    [partially_in_al_next_enr] with [-ENOBUFS]. *)
Fixpoint begin_io_loop (lc : lru_cache) (first next : Z) (n : nat) (enr : Z) : outcome (option Z * lru_cache) :=
  match n with
  | O => Ret (None, lc)
  | S n =>
      let! (r, lc) := lc_get_cumulative lc enr in
      match r with
      | None => Ret (Some (if first <? enr then enr else next), lc)
      | Some _ => begin_io_loop lc first next n (enr + 1)
      end
  end.

Definition drbd_al_begin_io_nonblock (d : al_device) (sector size next : Z) : outcome (option Z * al_device) :=
  let first := if next =? 0 then first_extent sector else next in
  let! (r, lc) := begin_io_loop (act_log d) first next (Z.to_nat (last_extent sector size + 1 - first)) first in
  Ret (r, set_act_log lc d).

(** [put_actlog] *)
Fixpoint put_actlog (n : nat) (enr : Z) (wake : bool) (lc : lru_cache) : outcome (bool * lru_cache) :=
  match n with
  | O => Ret (wake, lc)
  | S n =>
      let! r := lc_find lc enr in
      match r with
      | None => put_actlog n (enr + 1) wake lc
      | Some i =>
          if refcnt (elem lc i) =? 0 then put_actlog n (enr + 1) wake lc
          else
            let! (c, lc) := lc_put lc i in
            put_actlog n (enr + 1) (if c =? 0 then true else wake) lc
      end
  end.

Definition drbd_al_complete_io (d : al_device) (sector size : Z) : outcome (bool * al_device) :=
  let first := first_extent sector in
  let! (wake, lc) := put_actlog (Z.to_nat (last_extent sector size + 1 - first)) first false (act_log d) in
  Ret (wake, set_act_log lc d).

(** [drbd_al_shrink]: [None] means that it waits for an extent that is in use. *)
Fixpoint shrink_loop (n i : nat) (lc : lru_cache) : outcome (option lru_cache) :=
  match n with
  | O => Ret (Some lc)
  | S n =>
      let! i := lc_element_by_index lc i in
      if lc_number (elem lc i) =? LC_FREE then shrink_loop n (S i) lc
      else if refcnt (elem lc i) =? 0 then
        let! (_, lc) := lc_del lc i in shrink_loop n (S i) lc
      else Ret None
  end.

Definition drbd_al_shrink (d : al_device) : outcome (option al_device) :=
  let! r := shrink_loop (nr_elements (act_log d)) 0 (act_log d) in
  Ret (match r with Some lc => Some (set_act_log lc d) | None => None end).

(** [drbd_check_al_size]: [alloc] tells whether [lc_create] succeeds. *)
Definition drbd_check_al_size (alloc : option lru_cache) (al_extents : nat) (d : al_device) : outcome al_device :=
  if Nat.eqb (nr_elements (act_log d)) al_extents then Ret d
  else
    match alloc with
    | None => Fail ENOMEM
    | Some n =>
        if u32 (foldr (fun e acc => refcnt e + acc) 0 (elements (act_log d))) =? 0 then Ret (set_act_log n d)
        else Fail EBUSY
    end.

(** [disk_opts_check_al_size]: [busy] when application I/O is in progress; [None] means that it
    waits; otherwise the error, if any, and the device. *)
Definition disk_opts_check_al_size (busy : bool) (alloc : option lru_cache) (al_extents : nat) (d : al_device)
    : outcome (option (option errno * al_device)) :=
  if Nat.eqb (nr_elements (act_log d)) al_extents then Ret (Some (None, d))
  else if busy then Ret (Some (Some EBUSY, d))
  else
    match lc_try_lock (act_log d) with
    | None | Some (false, _) => Ret None
    | Some (true, lc) =>
        let! r := drbd_al_shrink (set_act_log lc d) in
        match r with
        | None => Ret None
        | Some d =>
            let unlock d := set_act_log (lc_unlock (act_log d)) d in
            match drbd_check_al_size alloc al_extents d with
            | Ret d => Ret (Some (None, unlock d))
            | Fail e => Ret (Some (Some e, unlock d))
            | BUG => BUG
            end
        end
    end.

(** ** Transactions *)

Section actlog.
Context `{Arch}.

Definition al_extent_to_bm_bit (b : drbd_bitmap) (al_enr : Z) : Z :=
  u64 (Z.shiftl al_enr (AL_EXTENT_SHIFT - bm_block_shift b)).

(** The 4 kB block of a transaction in the log, and its sector on the device. *)
Definition al_block (m : al_md) (number : Z) : Z :=
  let t := number mod al_size_4k m in
  u32 (u32 (t mod al_stripes m * al_stripe_size_4k m) + t / al_stripes m).
Definition al_tr_number_to_on_disk_sector (d : al_device) : Z :=
  md_offset (md d) + al_offset (md d) + u32 (al_block (md d) (al_tr_number d) * 8).

(** The loop over [to_be_changed]: the updates, the bitmap with the hints, and [i]. *)
Fixpoint transaction_updates (lc : lru_cache) (l : list nat) (i : Z) (b : drbd_bitmap)
    : outcome (list Z * list Z * drbd_bitmap * Z) :=
  match l with
  | [] => Ret ([], [], b, i)
  | j :: l =>
      if i =? AL_UPDATES_PER_TRANSACTION then Ret ([], [], b, i + 1)
      else
        let e := elem lc j in
        let! b :=
          if lc_number e =? LC_FREE then Ret b
          else drbd_bm_mark_range_for_writeout b (al_extent_to_bm_bit b (lc_number e))
                 (u64 (al_extent_to_bm_bit b (u32 (lc_number e + 1)) - 1)) in
        let! (slots, extents, b, i) := transaction_updates lc l (i + 1) b in
        Ret (u16 (Z.of_nat (lc_index e)) :: slots, lc_new_number e :: extents, b, i)
  end.

(** The numbers of the slots from [idx] on. *)
Fixpoint transaction_context (lc : lru_cache) (n : nat) (idx : nat) : outcome (list Z) :=
  match n with
  | O => Ret []
  | S n =>
      let! j := lc_element_by_index lc idx in
      let! l := transaction_context lc n (S idx) in
      Ret (lc_number (elem lc j) :: l)
  end.

(** [__al_write_transaction] up to the first write: the block, and the device with the
    hints and the next cycle. *)
Definition al_fill_transaction (d : al_device) : outcome (al_transaction_on_disk * al_device) :=
  let lc := act_log d in
  let! (slots, extents, b, i) :=
    transaction_updates lc (to_be_changed (lists lc)) 0 (drbd_bm_reset_al_hints (al_bitmap d)) in
  bug_on! (AL_UPDATES_PER_TRANSACTION <? i) in
  let rest := Z.to_nat (AL_UPDATES_PER_TRANSACTION - i) in
  let nr := Z.of_nat (nr_elements lc) in
  let mx := Z.to_nat (Z.min (Z.of_nat AL_CONTEXT_PER_TRANSACTION) (nr - al_tr_cycle d)) in
  let! ctx := transaction_context lc mx (Z.to_nat (al_tr_cycle d)) in
  let cycle := al_tr_cycle d + Z.of_nat AL_CONTEXT_PER_TRANSACTION in
  Ret (mk_transaction (al_tr_number d) (u16 i) (slots ++ replicate rest (u16 (-1))) (extents ++ replicate rest LC_FREE)
         (u16 nr) (u16 (al_tr_cycle d)) (ctx ++ replicate (AL_CONTEXT_PER_TRANSACTION - mx) LC_FREE),
       set_cycle (if nr <=? cycle then 0 else cycle) (set_bitmap b (bm_area_on_disk d) d)).

(** [drbd_bm_write_hinted]; the boolean is the error. *)
Definition al_bm_write (io_ok : Z -> bool) (d : al_device) : bool * al_device :=
  let '(b, disk) := drbd_bm_write_hinted io_ok (al_bitmap d) (bm_area_on_disk d) in
  (io_error disk, set_bitmap b (bm_area disk) d).

(** Writing the block. *)
Definition al_block_write (ok : bool) (buffer : al_transaction_on_disk) (d : al_device) : bool * al_device :=
  if ok then
    (false, set_log (u32 (al_tr_number d + 1))
              (<[Z.to_nat (al_block (md d) (al_tr_number d)) := Some buffer]> (al_blocks d)) d)
  else (true, d).

Definition __al_write_transaction (io_ok : Z -> bool) (ok : bool) (d : al_device) : outcome (bool * al_device) :=
  let! (buffer, d) := al_fill_transaction d in
  let '(err, d) := al_bm_write io_ok d in
  if err then Ret (true, d) else Ret (al_block_write ok buffer d).

(** [al_write_transaction]: [disk_ok] is false when the disk is lost or failed, or the buffer
    can not be had. *)
Definition al_write_transaction (disk_ok : bool) (io_ok : Z -> bool) (ok : bool) (d : al_device) : outcome (bool * al_device) :=
  if negb disk_ok then Ret (true, d) else __al_write_transaction io_ok ok d.

(** [drbd_al_begin_io_commit] after the wait: either nothing is pending or the lock was tried. *)
Definition drbd_al_begin_io_commit (disk_ok : bool) (io_ok : Z -> bool) (ok : bool) (d : al_device) : outcome al_device :=
  if pending_changes (act_log d) =? 0 then Ret d
  else
    let '(locked, lc) := lc_try_lock_for_transaction (act_log d) in
    let d := set_act_log lc d in
    if negb locked then Ret d
    else
      let! d :=
        if pending_changes (act_log d) =? 0 then Ret d
        else
          let! (_, d) := if al_disabled (md d) then Ret (false, d) else al_write_transaction disk_ok io_ok ok d in
          let! (_, lc) := lc_committed (act_log d) in
          Ret (set_act_log lc d) in
      Ret (set_act_log (lc_unlock (act_log d)) d).

(** [drbd_al_initialize] without persistent memory: [n] more transactions. *)
Fixpoint initialize_loop (io_ok : Z -> bool) (ok : Z -> bool) (n : nat) (d : al_device) : outcome (bool * al_device) :=
  match n with
  | O => Ret (false, d)
  | S n =>
      let! (err, d) := __al_write_transaction io_ok (ok (al_tr_number d)) d in
      if err then Ret (true, d) else initialize_loop io_ok ok n d
  end.

Definition drbd_al_initialize (io_ok : Z -> bool) (ok : Z -> bool) (d : al_device) : outcome (bool * al_device) :=
  let size := u32 (al_stripes (md d) * al_stripe_size_4k (md d)) in
  let! (_, d) := __al_write_transaction io_ok (ok (al_tr_number d)) d in
  let! (_, lc) := lc_committed (act_log d) in
  initialize_loop io_ok ok (Z.to_nat (size - 1)) (set_act_log lc d).
End actlog.
