(* ===== verification/ActLogProps.v ===== *)
(** * The activity log: what the operations of the cache keep, the block of a
      transaction, and the log as a reader sees it *)
From S2P Require Import Prelude LruCache Bitmap BitmapProps BitmapOps BitmapDisk ActLog.

(** ** The cache while references come and go *)

(** What a change of references keeps: the numbers that are committed, and, while the
    cache is locked, the pending changes. *)
Record lc_frame (lc lc' : lru_cache) : Prop := {
  lf_nr : nr_elements lc' = nr_elements lc;
  lf_max : max_pending_changes lc' = max_pending_changes lc;
  lf_number j : lc_number (elem lc' j) = lc_number (elem lc j);
  lf_locked : Z.testbit (flags lc') __LC_LOCKED = Z.testbit (flags lc) __LC_LOCKED;
  lf_pending : Z.testbit (flags lc) __LC_LOCKED = true ->
    to_be_changed (lists lc') = to_be_changed (lists lc) /\
    forall j, lc_new_number (elem lc' j) = lc_new_number (elem lc j) }.

Lemma lc_frame_refl lc : lc_frame lc lc.
Proof. by split. Qed.

Lemma lc_frame_trans lc lc1 lc2 : lc_frame lc lc1 -> lc_frame lc1 lc2 -> lc_frame lc lc2.
Proof.
  intros H1 H2. split.
  - rewrite (lf_nr _ _ H2). apply H1.
  - rewrite (lf_max _ _ H2). apply H1.
  - intros j. rewrite (lf_number _ _ H2). apply H1.
  - rewrite (lf_locked _ _ H2). apply H1.
  - intros Hl. destruct (lf_pending _ _ H1 Hl) as [E1 N1]. destruct (lf_pending _ _ H2) as [E2 N2]; [by rewrite (lf_locked _ _ H1)|].
    split; [congruence|]. intros j. by rewrite N2.
Qed.

Lemma move_keeps_pending i t lc : lc_wf lc -> i ∈ on t (lists lc) -> t <> TO_BE_CHANGED -> forall t', t' <> TO_BE_CHANGED ->
  to_be_changed (list_move i t' (lists lc)) = to_be_changed (lists lc).
Proof.
  intros Hwf Hi Ht t' Ht'. change (to_be_changed ?l) with (on TO_BE_CHANGED l). rewrite on_move, decide_False by done.
  apply filter_id. intros j Hj ->. apply Ht. eapply on_disjoint; [apply (core_nodup (wf_core _ Hwf))|done|done].
Qed.

Lemma get_keeps lc enr mc mu r lc' : lc_wf lc -> __lc_get lc enr mc mu = Ret (r, lc') ->
  nr_elements lc' = nr_elements lc /\ max_pending_changes lc' = max_pending_changes lc /\
  Z.testbit (flags lc') __LC_LOCKED = Z.testbit (flags lc) __LC_LOCKED.
Proof.
  intros Hwf. unfold __lc_get. rewrite paranoia_entry_ok by done. cbn [obind]. lc_simpl.
  case_if; [intros [= <- <-]; lc_simpl; split_and!; try done; by flag_bits|].
  rewrite lc_find_eq by apply Hwf. cbn [obind].
  destruct (lc_lookup _ _ _) as [i|].
  - destruct (negb (_ =? _)).
    + destruct (negb mu); intros [= <- <-]; lc_simpl; split_and!; try done; by flag_bits.
    + intros [= <- <-]. destruct (_ =? 0); lc_simpl; split_and!; try done; by flag_bits.
  - destruct (negb mc); [intros [= <- <-]; lc_simpl; split_and!; try done; by flag_bits|].
    case_if; [intros [= <- <-]; lc_simpl; split_and!; try done; by flag_bits|].
    destruct (negb _); [intros [= <- <-]; lc_simpl; split_and!; try done; by flag_bits|].
    destruct (_ <=? _); [intros [= <- <-]; lc_simpl; split_and!; try done; by flag_bits|].
    unfold lc_prepare_for_change. lc_simpl.
    destruct (free (lists lc)), (last (lru (lists lc))); try done;
      (destruct (PARANOIA_LC_ELEMENT _ _); [done|]); cbn [obind];
      (case_if; [done|]); intros [= <- <-]; case_if; lc_simpl; split_and!; try done; by flag_bits.
Qed.

Lemma get_locked lc enr mc mu r lc' : lc_wf lc -> Z.testbit (flags lc) __LC_LOCKED = true -> __lc_get lc enr mc mu = Ret (r, lc') ->
  to_be_changed (lists lc') = to_be_changed (lists lc) /\
  forall j, lc_new_number (elem lc' j) = lc_new_number (elem lc j).
Proof.
  intros Hwf Hlk. unfold __lc_get. rewrite paranoia_entry_ok by done. cbn [obind]. lc_simpl.
  case_if; [by intros [= <- <-]|].
  rewrite lc_find_eq by apply Hwf. cbn [obind]. rewrite lookup_set_flags.
  destruct (lc_lookup lc enr true) as [i|] eqn:El.
  - pose proof (lookup_hashed lc enr i Hwf El) as (Hi & Hf & Hnew). pose proof (found_list lc i Hwf Hi Hf) as Hcase.
    change (elem (set_flags _ lc) i) with (elem lc i).
    assert (forall lc1, elements lc1 = alter (fun e => set_refcnt (u32 (refcnt e + 1)) e) i (elements lc) ->
      forall j, lc_new_number (elem lc1 j) = lc_new_number (elem lc j)) as Hel.
    { intros lc1 He j. rewrite (elem_altered lc lc1 i _ j Hwf Hi He). case_decide; [by subst|done]. }
    destruct (lc_new_number (elem lc i) =? lc_number (elem lc i)); cbn [negb].
    + intros [= <- <-]. assert (exists t, i ∈ on t (lists lc) /\ t <> TO_BE_CHANGED) as (t & Ht & Hne)
        by (destruct Hcase as [[? _]|[? _]]; [by exists IN_USE|by exists LRU]).
      destruct (_ =? 0); lc_simpl; (split; [by eapply move_keeps_pending|by apply Hel]).
    + destruct mu; cbn [negb]; intros [= <- <-]; [|done]. split; [done|by apply Hel].
  - destruct (negb mc); [by intros [= <- <-]|]. lc_simpl. rewrite !flag_setbit by done.
    cbn [__LC_PARANOIA __LC_DIRTY __LC_LOCKED Z.eqb Pos.eqb orb]. rewrite Hlk. by intros [= <- <-].
Qed.

Lemma get_frame lc enr mc mu r lc' : lc_wf lc -> label_ok enr -> refcnt_room lc ->
  __lc_get lc enr mc mu = Ret (r, lc') -> lc_wf lc' /\ lc_frame lc lc'.
Proof.
  intros Hwf Hlab Hroom Hg. destruct (lc_get_spec lc enr mc mu Hwf Hlab Hroom) as (r1 & lc1 & Hg1 & Hwf1 & Hpost).
  assert (r1 = r /\ lc1 = lc') as [-> ->] by (split; congruence). split; [done|].
  destruct (get_keeps _ _ _ _ _ _ Hwf Hg) as (E1 & E2 & E3). split; try done.
  - intros j. destruct Hpost as [Hother Hr]. destruct (decide (r = Some j)) as [->|Hne]; [by destruct Hr as (_ & -> & _)|by rewrite Hother].
  - intros Hlk. by eapply get_locked.
Qed.

Lemma put_frame lc i n lc' : lc_wf lc -> i ∈ in_use (lists lc) -> lc_put lc i = Ret (n, lc') -> lc_wf lc' /\ lc_frame lc lc'.
Proof.
  intros Hwf Hi Hp. destruct (lc_put_spec lc i Hwf Hi) as (lc1 & Hp1 & Hwf1 & Hel & _).
  assert (lc1 = lc') as -> by congruence. split; [done|].
  assert (forall j, lc_number (elem lc' j) = lc_number (elem lc j) /\ lc_new_number (elem lc' j) = lc_new_number (elem lc j)) as Hn.
  { intros j. rewrite Hel. case_decide; [by subst|done]. }
  assert (nr_elements lc' = nr_elements lc /\ max_pending_changes lc' = max_pending_changes lc /\
    Z.testbit (flags lc') __LC_LOCKED = Z.testbit (flags lc) __LC_LOCKED /\ to_be_changed (lists lc') = to_be_changed (lists lc)) as (? & ? & ? & ?).
  { revert Hp. unfold lc_put. rewrite paranoia_entry_ok by done. cbn [obind]. do 3 (case_if; [done|]).
    intros [= _ <-]. unfold set_elem. lc_simpl. case_if; lc_simpl; split_and!; try done; try (by flag_bits).
    by eapply (move_keeps_pending i IN_USE). }
  split; try done; [intros j; apply Hn|]. intros _. split; [done|]. intros j. apply Hn.
Qed.

(** ** Taking and giving references for the extents of an interval *)

Definition room_for_refs (n : nat) (lc : lru_cache) : Prop := forall i, refcnt (elem lc i) + Z.of_nat n <= 2 ^ 32 - 1.

Lemma refcnt_nonneg lc i : lc_wf lc -> 0 <= refcnt (elem lc i).
Proof.
  intros Hwf. destruct (decide (i < nr_elements lc)%nat) as [Hi|Hi].
  - destruct (core_list (wf_core _ Hwf) i Hi) as [t Ht]. pose proof (ok_elem lc t i Hwf Ht) as Hok. destruct t; simpl in Hok; lia.
  - unfold elem. rewrite lookup_ge_None_2; [done|]. rewrite (core_len _ _ _ _ (wf_core _ Hwf)). lia.
Qed.

(** Only an unused element gets a new number. *)
Lemma get_new lc enr mc mu r lc' j : lc_wf lc -> 1 <= refcnt (elem lc j) -> __lc_get lc enr mc mu = Ret (r, lc') ->
  lc_new_number (elem lc' j) = lc_new_number (elem lc j).
Proof.
  intros Hwf Hj. destruct (decide (Z.testbit (flags lc) __LC_LOCKED = true)) as [Hlk|Hlk].
  { intros Hg. by destruct (get_locked _ _ _ _ _ _ Hwf Hlk Hg) as [_ ->]. }
  unfold __lc_get. rewrite paranoia_entry_ok by done. cbn [obind]. lc_simpl.
  case_if; [by intros [= <- <-]|].
  rewrite lc_find_eq by apply Hwf. cbn [obind]. rewrite lookup_set_flags.
  destruct (lc_lookup lc enr true) as [i|] eqn:El.
  - pose proof (lookup_hashed lc enr i Hwf El) as (Hi & _).
    change (elem (set_flags _ lc) i) with (elem lc i).
    assert (forall lc1, elements lc1 = alter (fun e => set_refcnt (u32 (refcnt e + 1)) e) i (elements lc) ->
      lc_new_number (elem lc1 j) = lc_new_number (elem lc j)) as Hel.
    { intros lc1 He. rewrite (elem_altered lc lc1 i _ j Hwf Hi He). case_decide; [by subst|done]. }
    destruct (lc_new_number (elem lc i) =? lc_number (elem lc i)); cbn [negb].
    + intros [= <- <-]. destruct (_ =? 0); by apply Hel.
    + destruct mu; cbn [negb]; intros [= <- <-]; [|done]. by apply Hel.
  - destruct (negb mc); [by intros [= <- <-]|]. lc_simpl.
    case_if; [by intros [= <- <-]|]. pose proof (unused_available lc) as Hua.
    change (lc_unused_element_available _) with (lc_unused_element_available lc).
    destruct (lc_unused_element_available lc); cbn [negb]; [|by intros [= <- <-]].
    destruct (_ <=? _); [by intros [= <- <-]|].
    destruct Hua as [i Hv]. rewrite (prepare_eq _ enr i) by (apply Hwf || apply Hv). cbn [obind].
    unfold set_elem. lc_simpl. rewrite list_alter_alter_eq. case_if; [done|]. intros [= <- <-].
    pose proof (victim_unused _ _ Hv) as Hu.
    assert (i < nr_elements lc)%nat as Hi by (destruct Hu; [by apply (core_on_lt (wf_core _ Hwf) FREE)|by apply (core_on_lt (wf_core _ Hwf) LRU)]).
    assert (i <> j) as Hne.
    { intros ->. destruct Hu as [Hu|Hu]; [apply (ok_elem lc FREE j Hwf) in Hu|apply (ok_elem lc LRU j Hwf) in Hu]; simpl in Hu; lia. }
    match goal with |- lc_new_number (elem ?l j) = _ => rewrite (elem_altered lc l i _ j Hwf Hi eq_refl) end. by rewrite decide_False.
Qed.

(** One reference. *)
Lemma get_one lc enr mc mu r lc' n : lc_wf lc -> label_ok enr -> room_for_refs (S n) lc ->
  __lc_get lc enr mc mu = Ret (r, lc') ->
  lc_wf lc' /\ lc_frame lc lc' /\ room_for_refs n lc' /\
  (forall j, refcnt (elem lc' j) = refcnt (elem lc j) + if decide (r = Some j) then 1 else 0) /\
  (forall j, 1 <= refcnt (elem lc j) -> lc_new_number (elem lc' j) = lc_new_number (elem lc j)) /\
  (forall i, r = Some i -> lc_new_number (elem lc' i) = enr).
Proof.
  intros Hwf Hlab Hroom Hg. assert (refcnt_room lc) as Hr1 by (intros i; specialize (Hroom i); lia).
  destruct (get_frame _ _ _ _ _ _ Hwf Hlab Hr1 Hg) as [Hwf' Hfr]. split; [done|]. split; [done|].
  destruct (lc_get_spec lc enr mc mu Hwf Hlab Hr1) as (r1 & lc1 & Hg1 & _ & Hother & Hpost).
  assert (r1 = r /\ lc1 = lc') as [-> ->] by (split; congruence).
  assert (forall j, refcnt (elem lc' j) = refcnt (elem lc j) + if decide (r = Some j) then 1 else 0) as Hc.
  { intros j. case_decide as Hd; [|rewrite Hother by done; lia]. subst r. by destruct Hpost as (_ & _ & -> & _). }
  split; [intros j; rewrite Hc; specialize (Hroom j); case_decide; lia|]. split; [done|]. split.
  - intros j Hj. by eapply get_new.
  - intros i ->. apply Hpost.
Qed.

(** An element with a number that is not [LC_FREE] is not free, so numbers are unique. *)
Lemma number_not_free lc i : lc_wf lc -> lc_new_number (elem lc i) <> LC_FREE -> (i < nr_elements lc)%nat /\ i ∉ free (lists lc).
Proof.
  intros Hwf Hn. split.
  - destruct (decide (i < nr_elements lc)%nat) as [|Hi]; [done|]. destruct Hn. unfold elem. rewrite lookup_ge_None_2; [done|].
    rewrite (core_len _ _ _ _ (wf_core _ Hwf)). lia.
  - intros Hf. apply (ok_elem lc FREE i Hwf) in Hf. simpl in Hf. naive_solver.
Qed.

Lemma new_number_inj lc i j : lc_wf lc -> lc_new_number (elem lc i) = lc_new_number (elem lc j) ->
  lc_new_number (elem lc i) <> LC_FREE -> i = j.
Proof.
  intros Hwf He Hn. destruct (number_not_free lc i Hwf Hn) as [Hi Hif].
  destruct (number_not_free lc j Hwf ltac:(congruence)) as [Hj Hjf]. by apply (core_inj _ _ _ _ (wf_core _ Hwf)).
Qed.

Definition between (a e x : Z) : bool := (a <=? x) && (x <? e).

Lemma between_nil a e x : e <= a -> between a e x = false.
Proof. unfold between. intros. lia. Qed.

Lemma between_cons a e x : a < e -> between a e x = (x =? a) || between (a + 1) e x.
Proof. unfold between. intros. lia. Qed.

(** [drbd_al_begin_io_nonblock]: a reference for each extent up to the first that can
    not be had. *)
Lemma begin_io_loop_ok n lc first next enr : lc_wf lc -> room_for_refs n lc -> 0 <= enr -> enr + Z.of_nat n <= LC_FREE -> first <= enr ->
  exists r lc' stop, begin_io_loop lc first next n enr = Ret (r, lc') /\ lc_wf lc' /\ lc_frame lc lc' /\
    enr <= stop <= enr + Z.of_nat n /\
    (r = None <-> stop = enr + Z.of_nat n) /\ (r <> None -> r = Some (if first <? stop then stop else next)) /\
    (forall j, refcnt (elem lc' j) = refcnt (elem lc j) + Z.b2z (between enr stop (lc_new_number (elem lc' j)))) /\
    (forall j, 1 <= refcnt (elem lc j) -> lc_new_number (elem lc' j) = lc_new_number (elem lc j)) /\
    (forall x, enr <= x < stop -> exists j, lc_new_number (elem lc' j) = x).
Proof.
  revert lc enr. induction n as [|n IH]; intros lc enr Hwf Hroom He Hn Hfe; cbn [begin_io_loop].
  { exists None, lc, enr. assert (forall x, between enr enr x = false) as Hr by (intros x; by apply between_nil).
    split; [done|]. split; [done|]. split; [apply lc_frame_refl|]. split; [lia|]. split; [split; [lia|done]|]. split; [done|].
    split; [intros j; rewrite Hr; simpl; lia|]. split; [done|]. intros; lia. }
  assert (label_ok enr) as Hlab by (unfold label_ok; lia). assert (refcnt_room lc) as Hr1 by (intros i; specialize (Hroom i); lia).
  destruct (lc_get_spec lc enr true true Hwf Hlab Hr1) as (r & lc1 & Hg & _ & _ & _).
  destruct (get_one _ _ _ _ _ _ n Hwf Hlab Hroom Hg) as (Hwf1 & Hfr & Hroom1 & Hc & Hnew & Hi).
  unfold lc_get_cumulative. rewrite Hg. cbn [obind]. destruct r as [i|].
  - destruct (IH lc1 (enr + 1) Hwf1 Hroom1 ltac:(lia) ltac:(lia) ltac:(lia)) as (r & lc' & stop & -> & Hwf' & Hfr' & Hst & Hr & Hr2 & Hc' & Hnew' & Hx).
    assert (1 <= refcnt (elem lc1 i)) as Hi1 by (rewrite Hc, decide_True by done; pose proof (refcnt_nonneg lc i Hwf); lia).
    assert (lc_new_number (elem lc' i) = enr) as Hi' by (rewrite Hnew' by done; by apply Hi).
    exists r, lc', stop. split; [done|]. split; [done|]. split; [by eapply lc_frame_trans|]. split; [lia|].
    split; [rewrite Hr; lia|]. split; [done|]. split; [|split].
    + intros j. rewrite Hc', Hc. destruct (decide (Some i = Some j)) as [[= <-]|Hne].
      * rewrite Hi', (between_cons enr), Z.eqb_refl by lia. unfold between. replace (enr + 1 <=? enr) with false by lia. simpl. lia.
      * assert (lc_new_number (elem lc' j) <> enr) as Hjn.
        { intros E. destruct Hne. f_equal. apply (new_number_inj lc'); [done|congruence|]. unfold label_ok in Hlab. lia. }
        rewrite (between_cons enr), (proj2 (Z.eqb_neq _ enr)) by (done || lia). simpl. lia.
    + intros j Hj. rewrite Hnew', Hnew; [done|done|]. rewrite Hc. case_decide; lia.
    + intros x Hxr. destruct (decide (x = enr)) as [->|]; [by exists i|apply Hx; lia].
  - exists (Some (if first <? enr then enr else next)), lc1, enr. assert (forall x, between enr enr x = false) as Hr by (intros x; by apply between_nil).
    split; [done|]. split; [done|]. split; [done|]. split; [lia|]. split; [split; [done|lia]|]. split; [done|].
    split; [intros j; rewrite Hr, Hc; simpl; lia|]. split; [done|]. intros; lia.
Qed.

(** [put_actlog] gives back one reference for each extent of the range that is in use. *)
Lemma put_actlog_ok n lc enr wake : lc_wf lc -> 0 <= enr -> enr + Z.of_nat n <= LC_FREE ->
  (forall x j, enr <= x < enr + Z.of_nat n -> lc_new_number (elem lc j) = x -> lc_number (elem lc j) = x) ->
  exists w lc', put_actlog n enr wake lc = Ret (w, lc') /\ lc_wf lc' /\ lc_frame lc lc' /\
    (forall j, lc_new_number (elem lc' j) = lc_new_number (elem lc j)) /\
    (forall j, refcnt (elem lc' j) =
      if between enr (enr + Z.of_nat n) (lc_new_number (elem lc j)) then Z.max 0 (refcnt (elem lc j) - 1) else refcnt (elem lc j)).
Proof.
  revert lc enr wake. induction n as [|n IH]; intros lc enr wake Hwf He Hn Hcom; cbn [put_actlog].
  { exists wake, lc. split; [done|]. split; [done|]. split; [apply lc_frame_refl|]. split; [done|]. intros j. by rewrite between_nil by lia. }
  unfold lc_find. rewrite lc_find_eq by apply Hwf. cbn [obind].
  assert (forall lc1, lc_wf lc1 -> lc_frame lc lc1 -> (forall j, lc_new_number (elem lc1 j) = lc_new_number (elem lc j)) ->
    (forall j, refcnt (elem lc1 j) = if lc_new_number (elem lc j) =? enr then Z.max 0 (refcnt (elem lc j) - 1) else refcnt (elem lc j)) ->
    forall wk, exists w lc', put_actlog n (enr + 1) wk lc1 = Ret (w, lc') /\ lc_wf lc' /\ lc_frame lc lc' /\
    (forall j, lc_new_number (elem lc' j) = lc_new_number (elem lc j)) /\
    (forall j, refcnt (elem lc' j) =
      if between enr (enr + Z.of_nat (S n)) (lc_new_number (elem lc j)) then Z.max 0 (refcnt (elem lc j) - 1) else refcnt (elem lc j))) as Hgo.
  { intros lc1 Hwf1 Hfr1 Hnn1 Hrc1 wk. destruct (IH lc1 (enr + 1) wk Hwf1 ltac:(lia) ltac:(lia)) as (w & lc' & -> & Hwf' & Hfr' & Hnn' & Hrc').
    { intros x j Hx Hj. rewrite (lf_number _ _ Hfr1). apply Hcom; [lia|]. by rewrite <- Hnn1. }
    exists w, lc'. split; [done|]. split; [done|]. split; [by eapply lc_frame_trans|]. split; [intros j; by rewrite Hnn', Hnn1|].
    intros j. rewrite Hrc', Hnn1, Hrc1, (between_cons enr) by lia. replace (enr + 1 + Z.of_nat n) with (enr + Z.of_nat (S n)) by lia.
    destruct (Z.eqb_spec (lc_new_number (elem lc j)) enr) as [->|Hne]; [|done]. unfold between. by replace (enr + 1 <=? enr) with false by lia. }
  assert (forall j, refcnt (elem lc j) = 0 \/ lc_new_number (elem lc j) <> enr -> refcnt (elem lc j) =
    if lc_new_number (elem lc j) =? enr then Z.max 0 (refcnt (elem lc j) - 1) else refcnt (elem lc j)) as Hsame.
  { intros j [Hz|Hne]; [case_if; lia|]. by rewrite (proj2 (Z.eqb_neq _ _)). }
  destruct (lc_lookup lc enr false) as [i|] eqn:El.
  - assert (lc_new_number (elem lc i) = enr /\ lc_number (elem lc i) = enr) as [Hin Hinn].
    { assert (lc_new_number (elem lc i) = enr) as Hin; [|split; [done|apply (Hcom enr); [lia|done]]].
      revert El. unfold lc_lookup. generalize (default [] (lc_slot lc !! lc_hash_slot lc enr)). intros chain.
      induction chain as [|k chain IHc]; simpl; [done|]. destruct (Z.eqb_spec (lc_new_number (elem lc k)) enr); simpl; [|done].
      case_if; [by intros [= ->]|done]. }
    destruct (number_not_free lc i Hwf) as [Hi Hif]; [unfold LC_FREE in *; lia|].
    destruct (Z.eqb_spec (refcnt (elem lc i)) 0) as [Hz|Hz].
    + apply Hgo; try done. intros j. apply Hsame.
      destruct (decide (j = i)) as [->|Hne]; [by left|right]. intros E. apply Hne. apply (new_number_inj lc); [done|congruence|unfold LC_FREE in *; lia].
    + pose proof (found_list lc i Hwf Hi Hif) as Hf. rewrite Hin, Hinn, Z.eqb_refl in Hf.
      destruct Hf as [[Huse _]|[_ Hz']]; [|done].
      destruct (lc_put_spec lc i Hwf Huse) as (lc1 & Hp & Hwf1 & Hel & _). rewrite Hp. cbn [obind].
      destruct (put_frame _ _ _ _ Hwf Huse Hp) as [_ Hfr]. apply Hgo; try done.
      * intros j. rewrite Hel. case_decide; [by subst|done].
      * intros j. rewrite Hel. case_decide as Hd; [subst j; rewrite Hin, Z.eqb_refl; simpl; pose proof (refcnt_nonneg lc i Hwf); lia|].
        apply Hsame. right. intros E. apply Hd. apply (new_number_inj lc); [done|congruence|unfold LC_FREE in *; lia].
  - apply Hgo; try done. intros j. apply Hsame. right. intros E.
    assert (lc_number (elem lc j) = enr) as Hnum by (apply (Hcom enr); [lia|done]).
    destruct (number_not_free lc j Hwf) as [Hj Hjf]; [unfold LC_FREE in *; lia|].
    assert (lc_lookup lc enr true = Some j) as Ht by (apply lc_lookup_Some; [apply Hwf|by split_and!]).
    revert El Ht. unfold lc_lookup. generalize (default [] (lc_slot lc !! lc_hash_slot lc enr)). intros chain.
    induction chain as [|k chain IHc]; simpl; [done|]. destruct (Z.eqb_spec (lc_new_number (elem lc k)) enr) as [Ek|Ek]; simpl; [|done].
    rewrite orb_true_r, orb_false_r. intros Hk [= ->]. rewrite E, Hnum, Z.eqb_refl in Hk. done.
Qed.

(** ** The log as a reader sees it *)

(** What a block says about a slot: its updates come before its context. *)
Fixpoint find_update (l : list (Z * Z)) (s : Z) : option Z :=
  match l with
  | [] => None
  | (x, e) :: l => if x =? s then Some e else find_update l s
  end.

Definition al_mentions (tr : al_transaction_on_disk) (s : Z) : option Z :=
  match find_update (take (Z.to_nat (n_updates tr)) (zip (update_slot_nr tr) (update_extent_nr tr))) s with
  | Some e => Some e
  | None =>
      if (context_start_slot_nr tr <=? s) && (s <? context_size tr)
      then context tr !! Z.to_nat (s - context_start_slot_nr tr) else None
  end.

(** The block of transaction [t]. *)
Definition al_block_at (m : al_md) (blocks : list (option al_transaction_on_disk)) (t : Z) : option al_transaction_on_disk :=
  default None (blocks !! Z.to_nat (al_block m t)).

(** The newest of the [n] transactions before [t] that mentions the slot. *)
Fixpoint al_search (m : al_md) (blocks : list (option al_transaction_on_disk)) (n : nat) (t s : Z) : option Z :=
  match n with
  | O => None
  | S n =>
      if t <=? 0 then None
      else match al_block_at m blocks (t - 1) ≫= (fun tr => al_mentions tr s) with
           | Some e => Some e
           | None => al_search m blocks n (t - 1) s
           end
  end.

Definition newer (o : option al_transaction_on_disk) (t : option Z) : option Z :=
  match o with
  | None => t
  | Some tr => Some (match t with None => tr_number tr | Some t => Z.max t (tr_number tr) end)
  end.

Definition al_newest (blocks : list (option al_transaction_on_disk)) : option Z := foldr newer None blocks.

(** The extent that the log on disk has in a slot. *)
Definition al_logged (m : al_md) (blocks : list (option al_transaction_on_disk)) (s : Z) : option Z :=
  match al_newest blocks with
  | None => None
  | Some t => al_search m blocks (Z.to_nat (al_size_4k m)) (t + 1) s
  end.

Lemma newest_of blocks t tr : Some tr ∈ blocks -> tr_number tr = t ->
  (forall tr', Some tr' ∈ blocks -> tr_number tr' <= t) -> al_newest blocks = Some t.
Proof.
  intros Hin Ht Hmax. assert (forall l, (forall tr', Some tr' ∈ l -> tr_number tr' <= t) ->
    match al_newest l with Some x => x <= t | None => True end) as Hle.
  { intros l. induction l as [|o l IH]; intros Hl; simpl; [done|]. fold (al_newest l).
    specialize (IH ltac:(intros; apply Hl; by right)). destruct o as [tr'|]; simpl; [|done].
    specialize (Hl tr' ltac:(by left)). destruct (al_newest l); lia. }
  revert Hmax Hin. induction blocks as [|o l IH]; intros Hmax Hin; [by apply elem_of_nil in Hin|]. simpl. fold (al_newest l).
  specialize (Hle l ltac:(intros; apply Hmax; by right)). apply elem_of_cons in Hin as [<-|Hin].
  - simpl. destruct (al_newest l); f_equal; lia.
  - rewrite IH; [|intros; apply Hmax; by right|done]. destruct o as [tr'|]; simpl; [|done]. f_equal.
    specialize (Hmax tr' ltac:(by left)). lia.
Qed.

(** *** Places of the blocks *)

Record md_ok (m : al_md) : Prop := {
  mo_stripes : 1 <= al_stripes m;
  mo_stripe_size : 1 <= al_stripe_size_4k m;
  mo_size : al_size_4k m = al_stripes m * al_stripe_size_4k m;
  mo_range : 8 <= al_size_4k m <= 4194304 }.

(** The check at attach, unless both values are unset. *)
Lemma check_stripe_size_ok m m' : 0 <= al_stripes m -> 0 <= al_stripe_size_4k m -> al_stripes m <> 0 ->
  check_activity_log_stripe_size m = Ret m' -> md_ok m' /\ al_stripes m' = al_stripes m /\ al_stripe_size_4k m' = al_stripe_size_4k m.
Proof.
  intros H1 H2 Hne. unfold check_activity_log_stripe_size. rewrite (proj2 (Z.eqb_neq (al_stripes m) 0)) by done. cbv beta iota zeta. cbn [andb orb]. rewrite (proj2 (Z.eqb_neq (al_stripes m) 0)) by done. cbn [orb].
  destruct (Z.eqb_spec (al_stripe_size_4k m) 0); [done|]. do 2 (case_if; [done|]). intros [= <-].
  change (16 * 1024 * 1024 / 4) with 4194304 in *. change (Z.shiftr 32768 9 / 8) with 8 in *. split; [|done]. split; simpl; lia.
Qed.

Lemma al_block_eq m t : md_ok m -> al_block m t = t mod al_size_4k m mod al_stripes m * al_stripe_size_4k m + t mod al_size_4k m / al_stripes m.
Proof.
  intros Hm. destruct Hm as [H1 H2 H3 H4]. unfold al_block. set (x := t mod al_size_4k m).
  assert (0 <= x < al_size_4k m) as Hx by (apply Z.mod_pos_bound; lia).
  pose proof (Z.mod_pos_bound x (al_stripes m) ltac:(lia)). assert (0 <= x / al_stripes m < al_stripe_size_4k m).
  { split; [apply Z.div_pos; lia|]. apply Z.div_lt_upper_bound; lia. }
  rewrite (u32_small (_ * _)) by nia. apply u32_small. nia.
Qed.

Lemma al_block_range m t : md_ok m -> 0 <= al_block m t < al_size_4k m.
Proof.
  intros Hm. rewrite al_block_eq by done. destruct Hm as [H1 H2 H3 H4]. set (x := t mod al_size_4k m).
  assert (0 <= x < al_size_4k m) as Hx by (apply Z.mod_pos_bound; lia).
  pose proof (Z.mod_pos_bound x (al_stripes m) ltac:(lia)). assert (0 <= x / al_stripes m < al_stripe_size_4k m).
  { split; [apply Z.div_pos; lia|]. apply Z.div_lt_upper_bound; lia. }
  nia.
Qed.

(** Transactions that are less than the size of the ring apart have blocks of their own. *)
Lemma al_block_inj m t t' : md_ok m -> 0 < t - t' < al_size_4k m -> al_block m t <> al_block m t'.
Proof.
  intros Hm Ht. rewrite !al_block_eq by done. destruct Hm as [H1 H2 H3 H4]. intros E.
  assert (t mod al_size_4k m = t' mod al_size_4k m) as Emod.
  { set (x := t mod al_size_4k m) in *. set (y := t' mod al_size_4k m) in *.
    assert (0 <= x < al_size_4k m) by (apply Z.mod_pos_bound; lia). assert (0 <= y < al_size_4k m) by (apply Z.mod_pos_bound; lia).
    assert (0 <= x / al_stripes m < al_stripe_size_4k m) by (split; [apply Z.div_pos; lia|apply Z.div_lt_upper_bound; lia]).
    assert (0 <= y / al_stripes m < al_stripe_size_4k m) by (split; [apply Z.div_pos; lia|apply Z.div_lt_upper_bound; lia]).
    assert (x mod al_stripes m = y mod al_stripes m) as Em by nia. assert (x / al_stripes m = y / al_stripes m) as Ed by nia.
    rewrite (Z.div_mod x (al_stripes m)), (Z.div_mod y (al_stripes m)) by lia. congruence. }
  assert ((t - t') mod al_size_4k m = 0) as Ez by (rewrite Zminus_mod, Emod, Z.sub_diag; by apply Z.mod_0_l; lia).
  rewrite Z.mod_small in Ez by lia. lia.
Qed.

(** ** Filling the block *)

Section fill.
Context `{Arch}.

(** The extent of a bit. *)
Definition bit_extent (b : drbd_bitmap) (k : Z) : Z := Z.shiftr k (AL_EXTENT_SHIFT - bm_block_shift b).

(** The bitmap of a device with an activity log.  The block size of a bit is at least
    4 kB, so that an extent has at most 1024 bits. *)
Record al_geom (b : drbd_bitmap) : Prop := {
  ag_wf : bm_wf b;
  ag_peers : bm_max_peers b <= 32;
  ag_shift : 12 <= bm_block_shift b <= AL_EXTENT_SHIFT;
  ag_bits : 0 < bm_bits b;
  ag_dax : bm_on_dax b = false;
  ag_extents : bit_extent b (bm_bits b - 1) < LC_FREE }.

Lemma extent_not_free b k : al_geom b -> 0 <= k < bm_bits b -> label_ok (bit_extent b k).
Proof.
  intros Hg Hk. pose proof (ag_extents b Hg) as He. pose proof (ag_shift b Hg). unfold label_ok, bit_extent in *. rewrite Z.shiftr_div_pow2 in * by lia.
  assert (0 < 2 ^ (AL_EXTENT_SHIFT - bm_block_shift b)) by (apply Z.pow_pos_nonneg; lia). split; [apply Z.div_pos; lia|].
  eapply Z.le_lt_trans; [|exact He]. apply Z.div_le_mono; lia.
Qed.

Lemma geom_same b b' : al_geom b -> bm_wf b' -> bm_bits b' = bm_bits b -> bm_max_peers b' = bm_max_peers b ->
  bm_block_shift b' = bm_block_shift b -> bm_on_dax b' = bm_on_dax b -> al_geom b'.
Proof. intros [] Hwf E1 E2 E3 E4. split; [done|by rewrite E2|by rewrite E3|by rewrite E1|by rewrite E4|]. unfold bit_extent. by rewrite E1, E3. Qed.

(** Pages in memory and on disk agree where they say so. *)
Definition bm_good (b : drbd_bitmap) (area : list Z) : Prop := al_geom b /\ synced b area /\ no_io_error b.

Lemma geom_pages b : al_geom b -> 0 < bm_number_of_pages b.
Proof.
  intros Hg. pose proof (ag_wf b Hg) as Hwf. pose proof (ag_bits b Hg). pose proof (wf_room b Hwf). pose proof (wf_peers b Hwf).
  pose proof (wf_npages b Hwf). pose proof words32_pos. assert (1 <= (bm_bits b + 31) / 32) by (apply Z.div_le_lower_bound; lia). nia.
Qed.

Lemma hints_step_geom n b b' : al_geom b -> hints_step n b b' -> al_geom b'.
Proof.
  intros Hg Hs. apply (geom_same b); try apply Hs. done.
Qed.

Lemma hints_step_mono n m b b' : (n <= m)%nat -> hints_step n b b' -> hints_step m b b'.
Proof. intros Hn Hs. destruct Hs. split; try done. lia. Qed.

Lemma mark_extent_ok b enr : al_geom b -> hints_ok b -> label_ok enr ->
  Z.of_nat (2 + length (al_bitmap_hints b)) <= 2 * AL_UPDATES_PER_TRANSACTION ->
  exists b', drbd_bm_mark_range_for_writeout b (al_extent_to_bm_bit b enr) (u64 (al_extent_to_bm_bit b (u32 (enr + 1)) - 1)) = Ret b' /\
    hints_step 2 b b' /\
    forall i k, 0 <= i < bm_max_peers b -> 0 <= k < bm_bits b -> bit_extent b k = enr -> hinted b' (bit_to_page_interleaved b i k).
Proof.
  intros Hg Hh Hlab Hlen. pose proof (ag_wf b Hg) as Hwf. pose proof (ag_shift b Hg) as Hsh. unfold label_ok, LC_FREE in Hlab.
  set (n := 2 ^ (AL_EXTENT_SHIFT - bm_block_shift b)).
  assert (n = 1 \/ n = 2 \/ n = 4 \/ n = 8 \/ n = 16 \/ n = 32 \/ n = 64 \/ n = 128 \/ n = 256 \/ n = 512 \/ n = 1024) as Hn.
  { unfold n, AL_EXTENT_SHIFT in *. assert (bm_block_shift b = 12 \/ bm_block_shift b = 13 \/ bm_block_shift b = 14 \/ bm_block_shift b = 15 \/
      bm_block_shift b = 16 \/ bm_block_shift b = 17 \/ bm_block_shift b = 18 \/ bm_block_shift b = 19 \/ bm_block_shift b = 20 \/
      bm_block_shift b = 21 \/ bm_block_shift b = 22) as Hc by lia.
    destruct Hc as [->|[->|[->|[->|[->|[->|[->|[->|[->|[->| ->]]]]]]]]]]; simpl; lia. }
  assert (forall x, 0 <= x < 2 ^ 32 -> al_extent_to_bm_bit b x = x * n) as Hbit.
  { intros x Hx. unfold al_extent_to_bm_bit. rewrite Z.shiftl_mul_pow2 by lia. fold n. apply u64_small. lia. }
  rewrite u32_small by lia. rewrite !Hbit by lia. rewrite u64_small by lia.
  assert (last_page b ((enr + 1) * n - 1) + 1 - first_page b (enr * n) <= 2) as Htwo.
  { apply extent_two_pages; [done|apply Hg|lia|]. destruct Hn as [->|[->|[->|[->|[->|[->|[->|[->|[->|[->| ->]]]]]]]]]]; Z.div_mod_to_equations; lia. }
  destruct (mark_range_ok (enr * n) ((enr + 1) * n - 1) b) as (b' & -> & Hs & Hall); try done; try apply Hg; try lia.
  exists b'. split; [done|]. split; [eapply hints_step_mono; [|done]; lia|].
  intros i k Hi Hk He. apply Hall; [done|]. unfold bit_extent in He. rewrite Z.shiftr_div_pow2 in He by lia. fold n in He.
  unfold clip. subst enr. assert (0 < n) by lia. pose proof (Z.mul_div_le k n). pose proof (Z.mul_succ_div_gt k n). lia.
Qed.

Definition numbers_ok (lc : lru_cache) : Prop := forall j, lc_number (elem lc j) = LC_FREE \/ label_ok (lc_number (elem lc j)).

(** The part of the loop that is left to do. *)
Lemma transaction_updates_ok lc l i b : numbers_ok lc -> al_geom b -> hints_ok b ->
  0 <= i -> i + Z.of_nat (length l) <= AL_UPDATES_PER_TRANSACTION ->
  Z.of_nat (length (al_bitmap_hints b)) <= 2 * i ->
  exists b', transaction_updates lc l i b =
      Ret ((fun j => u16 (Z.of_nat (lc_index (elem lc j)))) <$> l, (fun j => lc_new_number (elem lc j)) <$> l, b', i + Z.of_nat (length l)) /\
    hints_step (2 * length l) b b' /\
    forall j x k, j ∈ l -> lc_number (elem lc j) <> LC_FREE -> 0 <= x < bm_max_peers b -> 0 <= k < bm_bits b ->
      bit_extent b k = lc_number (elem lc j) -> hinted b' (bit_to_page_interleaved b x k).
Proof.
  intros Hnum. revert i b. induction l as [|j l IH]; intros i b Hg Hh Hi Hlen Hhl; cbn [transaction_updates fmap list_fmap length].
  { exists b. replace (i + Z.of_nat 0) with i by lia. split; [done|]. split; [split; try done; apply Hg|]. intros ? ? ? Hj. by apply elem_of_nil in Hj. }
  cbn [length] in Hlen. rewrite (proj2 (Z.eqb_neq i _)) by lia.
  assert (exists b1, (if lc_number (elem lc j) =? LC_FREE then Ret b
    else drbd_bm_mark_range_for_writeout b (al_extent_to_bm_bit b (lc_number (elem lc j)))
           (u64 (al_extent_to_bm_bit b (u32 (lc_number (elem lc j) + 1)) - 1))) = Ret b1 /\ hints_step 2 b b1 /\
    (lc_number (elem lc j) <> LC_FREE -> forall x k, 0 <= x < bm_max_peers b -> 0 <= k < bm_bits b ->
       bit_extent b k = lc_number (elem lc j) -> hinted b1 (bit_to_page_interleaved b x k))) as (b1 & -> & Hs1 & Hm1).
  { destruct (Z.eqb_spec (lc_number (elem lc j)) LC_FREE) as [Hf|Hf].
    - exists b. split; [done|]. split; [split; try done; try apply Hg; lia|done].
    - destruct (mark_extent_ok b (lc_number (elem lc j))) as (b1 & Hr & Hs & Hm); try done; [by destruct (Hnum j)|lia|by exists b1]. }
  cbn [obind]. destruct (IH (i + 1) b1) as (b' & -> & Hs' & Hm'); try done; try lia.
  - by eapply hints_step_geom.
  - apply Hs1.
  - pose proof (hs_len _ _ _ Hs1). lia.
  - cbn [obind]. rewrite (hs_peers _ _ _ Hs1), (hs_bits _ _ _ Hs1) in Hm'.
    assert (forall x k, bit_to_page_interleaved b1 x k = bit_to_page_interleaved b x k /\ bit_extent b1 k = bit_extent b k) as Hsame.
    { intros x k. unfold bit_to_page_interleaved, bit_extent, interleaved_word32. by rewrite (hs_peers _ _ _ Hs1), (hs_shift _ _ _ Hs1). }
    exists b'. replace (i + 1 + Z.of_nat (length l)) with (i + Z.of_nat (S (length l))) by lia. split; [done|]. split.
    + eapply hints_step_mono; [|eapply hints_step_trans; done]. lia.
    + intros j' x k Hj Hf Hx Hk He. destruct (Hsame x k) as [E1 E2]. apply elem_of_cons in Hj as [->|Hj].
      * apply (hs_keep _ _ _ Hs'). by apply Hm1.
      * rewrite <- E1. apply (Hm' j'); try done. by rewrite E2.
Qed.
Lemma transaction_context_ok lc n idx : lc_wf lc -> (idx + n <= nr_elements lc)%nat ->
  transaction_context lc n idx = Ret ((fun j => lc_number (elem lc j)) <$> seq idx n).
Proof.
  intros Hwf. revert idx. induction n as [|n IH]; intros idx Hn; cbn [transaction_context seq fmap list_fmap]; [done|].
  unfold lc_element_by_index. rewrite (proj2 (Nat.leb_gt _ _)) by lia.
  rewrite (core_index _ _ _ _ (wf_core _ Hwf) idx ltac:(lia) : lc_index (elem lc idx) = idx), Nat.eqb_refl. cbn [negb obind].
  by rewrite IH by lia.
Qed.

Lemma find_update_spec lc l s : lc_wf lc -> (Z.of_nat (nr_elements lc) < 2 ^ 16) -> (forall j, j ∈ l -> (j < nr_elements lc)%nat) ->
  (s < nr_elements lc)%nat ->
  find_update (zip ((fun j => u16 (Z.of_nat (lc_index (elem lc j)))) <$> l) ((fun j => lc_new_number (elem lc j)) <$> l)) (Z.of_nat s) =
    if decide (s ∈ l) then Some (lc_new_number (elem lc s)) else None.
Proof.
  intros Hwf Hnr Hl Hs. induction l as [|j l IH]; cbn [fmap list_fmap zip zip_with find_update].
  { rewrite decide_False; [done|]. apply not_elem_of_nil. }
  assert (j < nr_elements lc)%nat as Hj by (apply Hl; by left).
  rewrite (core_index _ _ _ _ (wf_core _ Hwf) j Hj : lc_index (elem lc j) = j). unfold u16. rewrite Z.mod_small by lia.
  destruct (Z.eqb_spec (Z.of_nat j) (Z.of_nat s)) as [E|E].
  - assert (j = s) as -> by lia. rewrite decide_True; [done|]. by left.
  - etrans; [apply IH; intros k Hk; apply Hl; by right|]. destruct (decide (s ∈ l)) as [Hin|Hin].
    + rewrite decide_True; [done|]. by right.
    + rewrite decide_False; [done|]. rewrite elem_of_cons. intros [->|]; [lia|done].
Qed.

(** What a filled block says. *)
Definition filled (lc : lru_cache) (cycle : Z) (tr : al_transaction_on_disk) : Prop :=
  forall s, (s < nr_elements lc)%nat -> al_mentions tr (Z.of_nat s) =
    if decide (s ∈ to_be_changed (lists lc)) then Some (lc_new_number (elem lc s))
    else if between cycle (cycle + Z.of_nat AL_CONTEXT_PER_TRANSACTION) (Z.of_nat s) then Some (lc_number (elem lc s)) else None.

Definition next_cycle (nr cycle : Z) : Z :=
  if nr <=? cycle + Z.of_nat AL_CONTEXT_PER_TRANSACTION then 0 else cycle + Z.of_nat AL_CONTEXT_PER_TRANSACTION.

(** The pages of the extents that leave the log have a hint. *)
Definition leaving_hinted (lc : lru_cache) (b : drbd_bitmap) : Prop :=
  forall j x k, j ∈ to_be_changed (lists lc) -> lc_number (elem lc j) <> LC_FREE -> 0 <= x < bm_max_peers b -> 0 <= k < bm_bits b ->
    bit_extent b k = lc_number (elem lc j) -> hinted b (bit_to_page_interleaved b x k).

Lemma mentions_eq number i slots extents nr cycle ctx s : length slots = Z.to_nat i -> length extents = Z.to_nat i -> 0 <= i <= AL_UPDATES_PER_TRANSACTION ->
  0 <= cycle < 2 ^ 16 -> 0 <= nr < 2 ^ 16 -> forall r1 r2,
  al_mentions (mk_transaction number (u16 i) (slots ++ r1) (extents ++ r2) (u16 nr) (u16 cycle) ctx) s =
    match find_update (zip slots extents) s with
    | Some e => Some e
    | None => if (cycle <=? s) && (s <? nr) then ctx !! Z.to_nat (s - cycle) else None
    end.
Proof.
  intros H1 H2 Hi Hc Hn r1 r2. unfold al_mentions. cbn [n_updates update_slot_nr update_extent_nr context_size context_start_slot_nr context].
  unfold AL_UPDATES_PER_TRANSACTION in Hi. unfold u16. rewrite !Z.mod_small by lia.
  rewrite zip_with_app by lia. rewrite take_app_length'; [done|]. rewrite length_zip_with. lia.
Qed.

Lemma fill_ok d : lc_wf (act_log d) -> numbers_ok (act_log d) -> max_pending_changes (act_log d) = AL_UPDATES_PER_TRANSACTION ->
  Z.of_nat (nr_elements (act_log d)) < 2 ^ 16 -> 0 <= al_tr_cycle d < Z.of_nat (nr_elements (act_log d)) ->
  al_geom (al_bitmap d) -> (forall k, ~ hinted (al_bitmap d) k) ->
  exists tr b, al_fill_transaction d =
      Ret (tr, set_cycle (next_cycle (Z.of_nat (nr_elements (act_log d))) (al_tr_cycle d)) (set_bitmap b (bm_area_on_disk d) d)) /\
    tr_number tr = al_tr_number d /\ filled (act_log d) (al_tr_cycle d) tr /\
    hints_step (2 * length (to_be_changed (lists (act_log d)))) (drbd_bm_reset_al_hints (al_bitmap d)) b /\ leaving_hinted (act_log d) b.
Proof.
  intros Hwf Hnum Hmax Hnr Hcy Hg Hnh. set (lc := act_log d) in *. set (b0 := drbd_bm_reset_al_hints (al_bitmap d)).
  assert (al_geom b0) as Hg0 by (apply (geom_same (al_bitmap d)); try done; destruct (ag_wf _ Hg); by split).
  assert (hints_ok b0) as Hh0.
  { split; [apply NoDup_nil_2|]. intros k. split; [intros Hk; by apply elem_of_nil in Hk|]. intros Hk. by destruct (Hnh k). }
  assert (forall j, j ∈ to_be_changed (lists lc) -> (j < nr_elements lc)%nat) as Hlt by (intros j Hj; by apply (core_on_lt (wf_core _ Hwf) TO_BE_CHANGED)).
  pose proof (wf_pending _ Hwf) as Hp. pose proof (wf_max _ Hwf) as Hm.
  destruct (transaction_updates_ok lc (to_be_changed (lists lc)) 0 b0 Hnum Hg0 Hh0 ltac:(done) ltac:(lia) ltac:(done)) as (b & Hrun & Hs & Hall).
  set (n := length (to_be_changed (lists lc))) in *. unfold al_fill_transaction. fold lc b0. rewrite Hrun. cbn [obind].
  rewrite (proj2 (Z.ltb_ge _ _)) by lia. set (mx := Z.to_nat (Z.min _ _)).
  rewrite transaction_context_ok by (done || lia). cbn [obind]. do 2 eexists. split; [done|]. split; [done|]. split; [|split; [done|]].
  - intros s Hsl. rewrite mentions_eq by (rewrite ?length_fmap; lia). rewrite find_update_spec by done.
    case_decide; [done|]. unfold between.
    destruct (Z.leb_spec (al_tr_cycle d) (Z.of_nat s)) as [Hc|Hc]; cbn [andb]; [|done]. rewrite (proj2 (Z.ltb_lt (Z.of_nat s) _)) by lia.
    destruct (Z.ltb_spec (Z.of_nat s) (al_tr_cycle d + Z.of_nat AL_CONTEXT_PER_TRANSACTION)) as [Hc2|Hc2].
    + rewrite lookup_app_l by (rewrite length_fmap, length_seq; lia). rewrite list_lookup_fmap, lookup_seq_lt by lia. simpl. do 3 f_equal. lia.
    + apply lookup_ge_None_2. rewrite length_app, length_fmap, length_seq, length_replicate. unfold AL_CONTEXT_PER_TRANSACTION in *. lia.
  - intros j x k Hj Hf Hx Hk He.
    assert (bit_to_page_interleaved b x k = bit_to_page_interleaved b0 x k /\ bit_extent b k = bit_extent b0 k) as [-> E].
    { unfold bit_to_page_interleaved, bit_extent, interleaved_word32. by rewrite (hs_peers _ _ _ Hs), (hs_shift _ _ _ Hs). }
    rewrite (hs_peers _ _ _ Hs) in Hx. rewrite (hs_bits _ _ _ Hs) in Hk. apply (Hall j); try done. by rewrite <- E.
Qed.
End fill.
