(* ===== verification/ActLogSafe.v ===== *)
(** * The activity log: what a crash may lose

    The routines of [ActLog] as steps that interleave with other users of the bitmap
    and of the cache: taking and giving references, setting and clearing bits, writing
    pages, and the transaction in its parts.  The invariant says what the log and the
    bitmap on disk have at every moment. *)
From S2P Require Import Prelude LruCache Bitmap BitmapProps BitmapOps BitmapDisk ActLog ActLogProps.

Section safe.
Context `{Arch}.

(** How far the transaction is. *)
Inductive al_stage :=
  | Idle
  | Locked
  | Filled (tr : al_transaction_on_disk)
  | Hinted (tr : al_transaction_on_disk)
  | Logged.

(** ** Searching the log *)

Lemma search_mono m bl n t s x : al_search m bl n t s = Some x -> al_search m bl (S n) t s = Some x.
Proof.
  revert t. induction n as [|n IH]; intros t; [done|]. cbn [al_search]. case_if; [done|].
  destruct (al_block_at m bl (t - 1) ≫= _); [done|]. apply IH.
Qed.

Lemma search_clip m bl n t s : t <= Z.of_nat n -> al_search m bl (S n) t s = al_search m bl n t s.
Proof.
  revert t. induction n as [|n IH]; intros t Ht.
  - cbn [al_search]. by rewrite (proj2 (Z.leb_le t 0)) by lia.
  - cbn [al_search]. case_if; [done|]. destruct (al_block_at m bl (t - 1) ≫= _); [done|].
    exact (IH (t - 1) ltac:(lia)).
Qed.

Lemma search_found m bl n t t0 s tr : 0 <= t0 -> t - Z.of_nat n <= t0 < t -> al_block_at m bl t0 = Some tr -> al_mentions tr s <> None ->
  al_search m bl n t s <> None.
Proof.
  revert t. induction n as [|n IH]; intros t H0 Ht Hb Hm; [lia|]. cbn [al_search]. rewrite (proj2 (Z.leb_gt t 0)) by lia.
  destruct (decide (t0 = t - 1)) as [->|Hne].
  - rewrite Hb. cbn [mbind option_bind]. by destruct (al_mentions tr s).
  - destruct (al_block_at m bl (t - 1) ≫= _); [done|]. apply IH; (done || lia).
Qed.

Lemma search_same m bl bl' n t s : (forall t0, 0 <= t0 -> t - Z.of_nat n <= t0 < t -> al_block_at m bl' t0 = al_block_at m bl t0) ->
  al_search m bl' n t s = al_search m bl n t s.
Proof.
  revert t. induction n as [|n IH]; intros t Hs; [done|]. cbn [al_search]. case_if; [done|].
  rewrite Hs by lia. destruct (al_block_at m bl (t - 1) ≫= _); [done|]. apply IH. intros t0 H0 Ht. apply Hs; lia.
Qed.

(** ** The rotation of the context *)

Definition rounds (nr : Z) : Z := (nr + 918) / 919.

Lemma rounds_pos nr : 1 <= nr -> 1 <= rounds nr /\ 919 * (rounds nr - 1) < nr <= 919 * rounds nr.
Proof. unfold rounds. intros. Z.div_mod_to_equations; lia. Qed.

Lemma next_cycle_eq nr t : 1 <= nr -> 0 <= t -> next_cycle nr (919 * (t mod rounds nr)) = 919 * ((t + 1) mod rounds nr).
Proof.
  intros Hn Ht. pose proof (rounds_pos nr Hn) as [HR Hb]. unfold next_cycle. change (Z.of_nat AL_CONTEXT_PER_TRANSACTION) with 919.
  pose proof (Z.mod_pos_bound t (rounds nr) ltac:(lia)) as Hq. set (q := t mod rounds nr) in *.
  assert ((t + 1) mod rounds nr = if q =? rounds nr - 1 then 0 else q + 1) as ->.
  { rewrite Z.add_mod by lia. fold q. destruct (Z.eqb_spec q (rounds nr - 1)) as [E|E].
    - destruct (decide (rounds nr = 1)) as [E1|E1]; [rewrite E1; apply Z.mod_1_r|].
      rewrite (Z.mod_small 1) by lia. rewrite E. replace (rounds nr - 1 + 1) with (rounds nr) by lia. apply Z.mod_same. lia.
    - rewrite (Z.mod_small 1) by lia. apply Z.mod_small. lia. }
  destruct (Z.eqb_spec q (rounds nr - 1)) as [E|E]; [rewrite (proj2 (Z.leb_le _ _)) by lia|rewrite (proj2 (Z.leb_gt _ _)) by lia]; lia.
Qed.

(** Among [rounds nr] transactions in a row one has the context of the slot. *)
Lemma round_of nr t s : 1 <= nr -> 0 <= s < nr -> rounds nr <= t ->
  exists t0, t - rounds nr <= t0 < t /\ t0 mod rounds nr = s / 919.
Proof.
  intros Hn Hs Ht. pose proof (rounds_pos nr Hn) as [HR Hb]. assert (0 <= s / 919 < rounds nr) as Hq by (Z.div_mod_to_equations; lia).
  exists (t - 1 - (t - 1 - s / 919) mod rounds nr). pose proof (Z.mod_pos_bound (t - 1 - s / 919) (rounds nr) ltac:(lia)). split; [lia|].
  rewrite Zminus_mod, Zmod_mod, <- Zminus_mod. replace (t - 1 - (t - 1 - s / 919)) with (s / 919) by lia. by apply Z.mod_small.
Qed.

Lemma round_between nr t s : 1 <= nr -> 0 <= t -> 0 <= s ->
  between (919 * (t mod rounds nr)) (919 * (t mod rounds nr) + 919) s = (s / 919 =? t mod rounds nr).
Proof.
  intros Hn Ht Hs. unfold between. pose proof (rounds_pos nr Hn) as [HR _]. pose proof (Z.mod_pos_bound t (rounds nr) ltac:(lia)).
  apply eq_true_iff_eq. rewrite andb_true_iff, Z.leb_le, Z.ltb_lt, Z.eqb_eq. Z.div_mod_to_equations; lia.
Qed.

(** ** The invariant *)

(** The transaction is past the point where the pages of the leaving extents are written. *)
Definition pages_written (st : al_stage) : bool := match st with Hinted _ | Logged => true | _ => false end.
Definition in_flight (st : al_stage) : Z := match st with Filled _ | Hinted _ => 1 | _ => 0 end.

(** The number that the log has for a slot. *)
Definition logged_number (lc : lru_cache) (st : al_stage) (s : nat) : Z :=
  match st with
  | Logged => if decide (s ∈ to_be_changed (lists lc)) then lc_new_number (elem lc s) else lc_number (elem lc s)
  | _ => lc_number (elem lc s)
  end.

Definition stage_block (d : al_device) (st : al_stage) : Prop :=
  match st with
  | Filled tr | Hinted tr =>
      tr_number tr = al_tr_number d /\
      filled (act_log d) (919 * (al_tr_number d mod rounds (Z.of_nat (nr_elements (act_log d))))) tr
  | _ => True
  end.

Definition stage_hints (d : al_device) (st : al_stage) : Prop :=
  match st with
  | Filled _ => hints_ok (al_bitmap d) /\ leaving_hinted (act_log d) (al_bitmap d)
  | _ => forall k, ~ hinted (al_bitmap d) k
  end.

(** The ring. *)
Record ring_ok (d : al_device) : Prop := {
  ro_md : md_ok (md d);
  ro_len : Z.of_nat (length (al_blocks d)) = al_size_4k (md d);
  ro_number : 0 <= al_tr_number d < 2 ^ 32;
  ro_window t : 0 <= t -> al_tr_number d - al_size_4k (md d) <= t < al_tr_number d ->
    exists tr, al_block_at (md d) (al_blocks d) t = Some tr /\ tr_number tr = t /\
      forall s, (s < nr_elements (act_log d))%nat -> Z.of_nat s / 919 = t mod rounds (Z.of_nat (nr_elements (act_log d))) ->
        al_mentions tr (Z.of_nat s) <> None;
  ro_stored tr : Some tr ∈ al_blocks d -> tr_number tr < al_tr_number d }.

(** What is only in memory: bits that are set there and not on disk belong to an extent
    in the cache. *)
Definition out_covered (d : al_device) (st : al_stage) : Prop :=
  forall i k, 0 <= i < bm_max_peers (al_bitmap d) -> 0 <= k < bm_bits (al_bitmap d) ->
    bm_bit (al_bitmap d) i k = true -> disk_bit (al_bitmap d) (bm_area_on_disk d) i k = false ->
    exists s, (s < nr_elements (act_log d))%nat /\ lc_number (elem (act_log d) s) = bit_extent (al_bitmap d) k /\
      (pages_written st = true -> s ∉ to_be_changed (lists (act_log d))).

Record al_inv (d : al_device) (st : al_stage) : Prop := {
  ai_lc : lc_wf (act_log d);
  ai_num : numbers_ok (act_log d);
  ai_max : max_pending_changes (act_log d) = AL_UPDATES_PER_TRANSACTION;
  ai_nr : Z.of_nat (nr_elements (act_log d)) <= 919 * (al_size_4k (md d) - 1) /\ Z.of_nat (nr_elements (act_log d)) < 2 ^ 16;
  ai_bm : bm_good (al_bitmap d) (bm_area_on_disk d);
  ai_fit : (bm_bits (al_bitmap d) + 31) / 32 * bm_max_peers (al_bitmap d) <= Z.of_nat (length (bm_area_on_disk d));
  ai_ring : ring_ok d;
  ai_cycle : al_tr_cycle d = 919 * ((al_tr_number d + in_flight st) mod rounds (Z.of_nat (nr_elements (act_log d))));
  ai_logged s : (s < nr_elements (act_log d))%nat -> logged_number (act_log d) st s <> LC_FREE ->
    al_search (md d) (al_blocks d) (Z.to_nat (al_size_4k (md d))) (al_tr_number d) (Z.of_nat s) = Some (logged_number (act_log d) st s);
  ai_out : out_covered d st;
  ai_hints : stage_hints d st;
  ai_lock : st <> Idle -> Z.testbit (flags (act_log d)) __LC_LOCKED = true;
  ai_block : stage_block d st }.

(** ** References *)

Lemma filled_frame lc lc' c tr : lc_frame lc lc' -> Z.testbit (flags lc) __LC_LOCKED = true -> filled lc c tr -> filled lc' c tr.
Proof.
  intros Hf Hlk Hfi s Hs. rewrite (lf_nr _ _ Hf) in Hs. destruct (lf_pending _ _ Hf Hlk) as [E N].
  by rewrite Hfi, E, N, (lf_number _ _ Hf).
Qed.

Lemma inv_frame d st lc' : al_inv d st -> lc_wf lc' -> lc_frame (act_log d) lc' -> al_inv (set_act_log lc' d) st.
Proof.
  intros Hi Hwf Hf. pose proof (lf_nr _ _ Hf) as En.
  assert (st <> Idle -> to_be_changed (lists lc') = to_be_changed (lists (act_log d)) /\
    forall j, lc_new_number (elem lc' j) = lc_new_number (elem (act_log d) j)) as Hp.
  { intros Hst. apply (lf_pending _ _ Hf). by apply (ai_lock _ _ Hi). }
  assert (forall s, logged_number lc' st s = logged_number (act_log d) st s) as Hl.
  { intros s. destruct st; simpl; try apply Hf. destruct (Hp ltac:(done)) as [-> ->]. by rewrite (lf_number _ _ Hf). }
  destruct Hi as [I1 I2 I3 I4 I5 I6 I7 I8 I9 I10 I11 I12 I13]. split; try done; cbn [act_log set_act_log].
  - intros j. rewrite (lf_number _ _ Hf). apply I2.
  - by rewrite (lf_max _ _ Hf).
  - by rewrite En.
  - destruct I7 as [R1 R2 R3 R4 R5]. split; try done. cbn [act_log set_act_log]. by rewrite En.
  - cbn [al_tr_cycle al_tr_number set_act_log]. by rewrite En.
  - intros s. cbn [md al_blocks al_tr_number set_act_log]. rewrite En, Hl. apply I9.
  - intros i k Hi0 Hk Hb Hd. destruct (I10 i k Hi0 Hk Hb Hd) as (s & Hs & Hn & Hw). exists s. cbn [act_log set_act_log al_bitmap].
    rewrite En, (lf_number _ _ Hf). split; [done|]. split; [done|]. intros Hpw. destruct (Hp ltac:(by destruct st)) as [-> _]. by apply Hw.
  - destruct st; try done. destruct I11 as [Hh Hl']. split; [done|]. destruct (Hp ltac:(done)) as [E _].
    intros j x k. cbn [act_log set_act_log al_bitmap]. rewrite E, (lf_number _ _ Hf). apply Hl'.
  - intros Hst. rewrite (lf_locked _ _ Hf). by apply I12.
  - destruct st; try done; destruct I13 as [E1 E2]; (split; [done|]); cbn [act_log set_act_log al_tr_number]; rewrite En;
      (eapply filled_frame; [done|by apply I12|done]).
Qed.

(** ** Changes of the bitmap *)

(** An extent that is in use and committed. *)
Definition held (lc : lru_cache) (x : Z) : Prop := exists j, j ∈ in_use (lists lc) /\ lc_number (elem lc j) = x.

Lemma shape_extent b b' i k area : same_shape b b' ->
  bit_extent b' k = bit_extent b k /\ disk_bit b' area i k = disk_bit b area i k /\ bit_to_page_interleaved b' i k = bit_to_page_interleaved b i k.
Proof.
  intros (_ & _ & _ & _ & _ & _ & E7 & E8 & _). unfold bit_extent, disk_bit, bit_to_page_interleaved, pos, interleaved_word32. by rewrite E7, E8.
Qed.

Lemma inv_bitmap d st b' area' : al_inv d st -> bm_good b' area' -> length area' = length (bm_area_on_disk d) ->
  same_shape (al_bitmap d) b' -> (forall k, hinted b' k <-> hinted (al_bitmap d) k) ->
  (forall i k, 0 <= i < bm_max_peers b' -> 0 <= k < bm_bits b' -> bm_bit b' i k = true -> disk_bit b' area' i k = false ->
    (bm_bit (al_bitmap d) i k = true /\ disk_bit (al_bitmap d) (bm_area_on_disk d) i k = false) \/ held (act_log d) (bit_extent b' k)) ->
  al_inv (set_bitmap b' area' d) st.
Proof.
  intros Hi Hgood Hlen Hsh Hh Hout. pose proof Hsh as (E1 & _ & _ & _ & _ & _ & E7 & _ & E9).
  destruct Hi as [I1 I2 I3 I4 I5 I6 I7 I8 I9 I10 I11 I12 I13]. split; try done; cbn [al_bitmap bm_area_on_disk set_bitmap].
  - by rewrite E1, E7, Hlen.
  - destruct I7 as [R1 R2 R3 R4 R5]. by split.
  - intros i k Hi0 Hk Hb Hd. cbn [al_bitmap bm_area_on_disk set_bitmap act_log] in *.
    destruct (Hout i k Hi0 Hk Hb Hd) as [[Hb0 Hd0]|(j & Hj & Hn)].
    + rewrite E7 in Hi0. rewrite E1 in Hk. destruct (I10 i k Hi0 Hk Hb0 Hd0) as (s & Hs & Hn & Hw). exists s.
      destruct (shape_extent _ _ i k area' Hsh) as (-> & _). done.
    + exists j. split; [by apply (core_on_lt (wf_core _ I1) IN_USE)|]. split; [done|]. intros _ Ht.
      by assert (IN_USE = TO_BE_CHANGED) by (eapply on_disjoint; [apply (core_nodup (wf_core _ I1))|done|done]).
  - destruct st; cbn [stage_hints al_bitmap set_bitmap act_log]; try (intros k Hk; by apply (I11 k), Hh).
    destruct I11 as [[Hnd Hho] Hl]. split; [split; [by rewrite E9|intros k; by rewrite E9, Hho, Hh]|].
    intros j x k Hj Hf Hx Hk He. rewrite E7 in Hx. rewrite E1 in Hk. destruct (shape_extent _ _ x k area' Hsh) as (E & _ & ->).
    apply Hh, (Hl j); try done. by rewrite <- E.
Qed.

(** Writing pages only adds bits of the memory to the disk. *)
Lemma keeps_out b d d' i k : bm_wf b -> 0 <= i < bm_max_peers b -> 0 <= k < bm_bits b ->
  (bm_bits b + 31) / 32 * bm_max_peers b <= Z.of_nat (length (bm_area d)) -> keeps b d d' ->
  bm_bit b i k = true -> disk_bit b (bm_area d') i k = false -> disk_bit b (bm_area d) i k = false.
Proof.
  intros Hwf Hi Hk Hfit (_ & _ & Hlen & Hw). unfold disk_bit, bm_bit. rewrite !mbit_word.
  destruct (Hw (pos b i k / 32)) as [->| ->]; [|done|congruence].
  rewrite pos_word. assert (0 <= k / 32) by zdiv. assert (k / 32 + 1 <= (bm_bits b + 31) / 32) by zdiv. nia.
Qed.

Lemma bm_bit_pages b b' i k : same_shape b b' -> bm_pages b' = bm_pages b -> bm_bit b' i k = bm_bit b i k.
Proof. intros Hs Hp. rewrite (bm_bit_same b b') by done. by rewrite Hp. Qed.

Definition may_set (op : bitmap_operations) : bool := match op with BM_OP_SET | BM_OP_MERGE => true | _ => false end.

Lemma good_shape b b' area area' : bm_good b area -> bm_wf b' -> same_shape b b' -> synced b' area' -> no_io_error b' -> bm_good b' area'.
Proof.
  intros [Hg _] Hwf Hsh Hs Hn. split; [|done]. pose proof Hsh as (E1 & _ & _ & _ & _ & E6 & E7 & E8 & _). by apply (geom_same b).
Qed.

Lemma inv_bits d st i s e op buf r b' buf' : al_inv d st -> op_pre (al_bitmap d) i s e op buf ->
  (may_set op = true -> forall k, s <= k <= clip (al_bitmap d) e -> held (act_log d) (bit_extent (al_bitmap d) k)) ->
  bm_op (al_bitmap d) i s e op buf = Ret (r, b', buf') -> al_inv (set_bitmap b' (bm_area_on_disk d) d) st.
Proof.
  intros Hi Hpre Hheld Hrun. destruct (ai_bm _ _ Hi) as (Hg & Hs & Hn). pose proof (geom_pages _ Hg) as Hnp. pose proof (ag_bits _ Hg) as Hb.
  destruct (bm_op_done _ i s e op buf (ag_wf _ Hg) Hb Hpre) as (r1 & b1 & buf1 & Hrun1 & Hd).
  unfold bm_op in Hrun. rewrite !(proj2 (Z.eqb_neq _ 0)) in Hrun by lia.
  assert (b1 = b') as -> by congruence. pose proof (od_shape _ _ _ _ _ _ _ _ _ Hd) as Hsh. pose proof (od_marks _ _ _ _ _ _ _ _ _ Hd) as Hm.
  apply inv_bitmap; try done.
  - eapply good_shape; [by apply (ai_bm _ _ Hi)|by eapply op_done_wf; [apply Hg|]|done|eapply marked_synced; [apply Hg|done|done]|by eapply marked_no_error].
  - intros k. eapply marked_hints; [done|]. apply Hsh.
  - intros x k Hx Hk Hbit Hdisk. pose proof Hsh as (E1 & _ & _ & _ & _ & _ & E7 & _). rewrite E7 in Hx. rewrite E1 in Hk.
    destruct (shape_extent _ _ x k (bm_area_on_disk d) Hsh) as (-> & Ed & _). rewrite Ed in Hdisk.
    destruct (decide (x = i)) as [->|Hne]; [|left; by rewrite (od_others _ _ _ _ _ _ _ _ _ Hd) in Hbit by (done || lia)].
    rewrite (od_bits _ _ _ _ _ _ _ _ _ Hd) in Hbit by lia. destruct (modifies op) eqn:Em; [|rewrite abs_op_still in Hbit by done; by left].
    rewrite abs_op_new in Hbit by done. destruct ((s <=? k) && (k <=? clip (al_bitmap d) e)) eqn:Er; [|by left].
    destruct (may_set op) eqn:Es; [right; apply Hheld; [done|lia]|]. by destruct op.
Qed.

Lemma inv_write d st io_ok first last flags : al_inv d st -> aio_flag flags BM_AIO_WRITE_HINTED = false -> 0 <= first -> 0 <= last ->
  let r := bm_rw_range io_ok first last flags (al_bitmap d) (bm_area_on_disk d) in
  io_error (snd r) = false -> al_inv (set_bitmap (fst r) (bm_area (snd r)) d) st.
Proof.
  intros Hi Hf H1 H2 r He. destruct (ai_bm _ _ Hi) as (Hg & Hs & Hn). pose proof (geom_pages _ Hg) as Hnp.
  destruct (rw_range_ok io_ok first last flags (al_bitmap d) (bm_area_on_disk d)) as (Hw & Hk & _); try done; try apply Hg. fold r in Hw, Hk.
  pose proof (wr_shape _ _ _ Hw) as Hsh. apply inv_bitmap; try done.
  - eapply good_shape; [by apply (ai_bm _ _ Hi)|apply Hw|done|apply Hw|by apply Hw].
  - apply Hk.
  - intros k. by apply rw_range_hints.
  - intros x k Hx Hkk Hbit Hdisk. left. pose proof Hsh as (E1 & _ & _ & _ & _ & _ & E7 & _). rewrite E7 in Hx. rewrite E1 in Hkk.
    rewrite (bm_bit_pages (al_bitmap d)) in Hbit by (done || apply Hw). destruct (shape_extent _ _ x k (bm_area (snd r)) Hsh) as (_ & Ed & _).
    rewrite Ed in Hdisk. split; [done|]. eapply (keeps_out (al_bitmap d) (mk_disk (bm_area_on_disk d) false) (snd r)); try done; [apply Hg|].
    apply (ai_fit _ _ Hi).
Qed.

(** ** The parts of a transaction *)

Definition no_transaction (st : al_stage) : Prop := st = Idle \/ st = Locked.

Lemma inv_flags d st st' f : al_inv d st -> no_transaction st -> no_transaction st' -> lc_wf (set_flags f (act_log d)) ->
  (st' <> Idle -> Z.testbit f __LC_LOCKED = true) -> al_inv (set_act_log (set_flags f (act_log d)) d) st'.
Proof.
  intros Hi Hst Hst' Hwf Hf. destruct Hi as [I1 I2 I3 I4 I5 I6 I7 I8 I9 I10 I11 I12 I13].
  split; try done; destruct Hst as [-> | ->], Hst' as [-> | ->]; try done; (destruct I7 as [R1 R2 R3 R4 R5]; by split).
Qed.

Lemma inv_lock d lc' : al_inv d Idle -> lc_try_lock_for_transaction (act_log d) = (true, lc') -> al_inv (set_act_log lc' d) Locked.
Proof.
  intros Hi [= Hl <-]. eapply inv_flags; [done|by left|by right| |].
  - apply (lc_step_wf (act_log d)); [apply Hi|apply step_try_lock_for_transaction].
  - intros _. by rewrite flag_setbit.
Qed.

Lemma inv_unlock d : al_inv d Locked -> al_inv (set_act_log (lc_unlock (act_log d)) d) Idle.
Proof.
  intros Hi. eapply inv_flags; [done|by right|by left| |done]. apply (lc_step_wf (act_log d)); [apply Hi|apply step_unlock].
Qed.

Lemma nr_pos lc : lc_wf lc -> 1 <= Z.of_nat (nr_elements lc).
Proof. intros Hwf. pose proof (core_nr _ _ _ _ (wf_core _ Hwf)). lia. Qed.

(** Filling always returns: at most 64 updates, and their hints fit. *)
Lemma inv_fill_runs d : al_inv d Locked ->
  exists tr b, al_fill_transaction d =
      Ret (tr, set_cycle (next_cycle (Z.of_nat (nr_elements (act_log d))) (al_tr_cycle d)) (set_bitmap b (bm_area_on_disk d) d)) /\
    tr_number tr = al_tr_number d /\ filled (act_log d) (al_tr_cycle d) tr /\
    hints_step (2 * length (to_be_changed (lists (act_log d)))) (drbd_bm_reset_al_hints (al_bitmap d)) b /\ leaving_hinted (act_log d) b.
Proof.
  intros Hi. pose proof (nr_pos _ (ai_lc _ _ Hi)) as Hnr. apply fill_ok; try apply Hi.
  rewrite (ai_cycle _ _ Hi). cbn [in_flight]. pose proof (rounds_pos _ Hnr) as [HR Hb].
  pose proof (Z.mod_pos_bound (al_tr_number d + 0) (rounds (Z.of_nat (nr_elements (act_log d)))) ltac:(lia)). lia.
Qed.

Lemma inv_fill d tr d' : al_inv d Locked -> al_fill_transaction d = Ret (tr, d') -> al_inv d' (Filled tr).
Proof.
  intros Hi Hrun. destruct (inv_fill_runs d Hi) as (tr1 & b & Hrun1 & Hnum & Hfill & Hs & Hleave).
  rewrite Hrun1 in Hrun. injection Hrun as -> <-. pose proof (nr_pos _ (ai_lc _ _ Hi)) as Hnr.
  destruct Hi as [I1 I2 I3 I4 I5 I6 I7 I8 I9 I10 I11 I12 I13]. cbn [in_flight] in I8. rewrite Z.add_0_r in I8.
  pose proof (ro_number _ I7) as Hn. destruct I5 as (Hg & Hsy & Hne).
  split; try done; cbn [al_bitmap bm_area_on_disk set_bitmap set_cycle act_log md al_tr_cycle al_tr_number].
  - split; [|split].
    + eapply hints_step_geom; [|done]. apply (geom_same (al_bitmap d)); try done. destruct (ag_wf _ Hg); by split.
    + by apply (hs_synced _ _ _ Hs).
    + by apply (hs_noerr _ _ _ Hs).
  - by rewrite (hs_bits _ _ _ Hs), (hs_peers _ _ _ Hs).
  - destruct I7 as [R1 R2 R3 R4 R5]. by split.
  - cbn [in_flight]. rewrite I8. apply next_cycle_eq; lia.
  - intros x k Hx Hk Hbit Hdisk. cbn [al_bitmap bm_area_on_disk set_bitmap set_cycle act_log] in *.
    rewrite (hs_peers _ _ _ Hs) in Hx. rewrite (hs_bits _ _ _ Hs) in Hk.
    assert (bm_bit b x k = bm_bit (al_bitmap d) x k /\ disk_bit b (bm_area_on_disk d) x k = disk_bit (al_bitmap d) (bm_area_on_disk d) x k /\
      bit_extent b k = bit_extent (al_bitmap d) k) as (E1 & E2 & E3).
    { unfold bm_bit, disk_bit, bit_extent, pos, interleaved_word32. by rewrite (hs_pages _ _ _ Hs), (hs_peers _ _ _ Hs), (hs_shift _ _ _ Hs). }
    rewrite E1 in Hbit. rewrite E2 in Hdisk. rewrite E3. destruct (I10 x k Hx Hk Hbit Hdisk) as (s & Hs1 & Hs2 & _). by exists s.
  - split; [apply Hs|done].
  - intros _. by apply I12.
  - split; [done|]. cbn [al_bitmap bm_area_on_disk set_bitmap set_cycle act_log al_tr_number]. by rewrite <- I8.
Qed.

Lemma inv_bm_write d tr io_ok d' : al_inv d (Filled tr) -> al_bm_write io_ok d = (false, d') -> al_inv d' (Hinted tr).
Proof.
  intros Hi. destruct (ai_bm _ _ Hi) as (Hg & Hsy & Hne). pose proof (geom_pages _ Hg) as Hnp. destruct (ai_hints _ _ Hi) as [Hho Hleave].
  pose proof (bm_write_hinted_ok io_ok (al_bitmap d) (bm_area_on_disk d) (ag_wf _ Hg) (ag_dax _ Hg) Hsy Hne Hnp Hho) as (Hw & Hk & Hon).
  pose proof (fun j => bm_write_hinted_none io_ok (al_bitmap d) (bm_area_on_disk d) j (ag_wf _ Hg) (ag_dax _ Hg) Hnp Hho) as Hnone.
  unfold al_bm_write. destruct (drbd_bm_write_hinted io_ok (al_bitmap d) (bm_area_on_disk d)) as [b disk].
  cbn [fst snd] in *. intros [= He <-]. pose proof (wr_shape _ _ _ Hw) as Hsh. pose proof Hsh as (E1 & _ & _ & _ & _ & _ & E7 & _).
  destruct Hi as [I1 I2 I3 I4 I5 I6 I7 I8 I9 I10 I11 I12 I13].
  split; try done; cbn [al_bitmap bm_area_on_disk set_bitmap set_cycle act_log md al_tr_cycle al_tr_number].
  - eapply good_shape; [exact I5|apply Hw|done|apply Hw|by apply Hw].
  - rewrite E1, E7. destruct Hk as (_ & _ & -> & _). done.
  - destruct I7 as [R1 R2 R3 R4 R5]. by split.
  - intros x k Hx Hkk Hbit Hdisk. cbn [al_bitmap bm_area_on_disk set_bitmap act_log pages_written] in *.
    rewrite E7 in Hx. rewrite E1 in Hkk. rewrite (bm_bit_pages (al_bitmap d)) in Hbit by (done || apply Hw).
    destruct (shape_extent _ _ x k (bm_area disk) Hsh) as (-> & Ed & _). rewrite Ed in Hdisk.
    assert (disk_bit (al_bitmap d) (bm_area_on_disk d) x k = false) as Hd0
      by (eapply (keeps_out (al_bitmap d) (mk_disk (bm_area_on_disk d) false) disk); try done; apply Hg).
    destruct (I10 x k Hx Hkk Hbit Hd0) as (s & Hs & Hn & _). exists s. split; [done|]. split; [done|]. intros _ Ht.
    assert (lc_number (elem (act_log d) s) <> LC_FREE) as Hf.
    { rewrite Hn. pose proof (extent_not_free _ k Hg Hkk) as Hl. unfold label_ok in Hl. lia. }
    rewrite (on_disk_bit (al_bitmap d) (bm_area disk) x k) in Hdisk; try done; [congruence|apply Hg| |].
    + destruct Hk as (_ & _ & -> & _). done.
    + apply Hon; [done|]. by apply (Hleave s).
  - intros _. by apply I12.
Qed.

(** The new block is the only one that changes, and what it does not mention is in the
    blocks that stay. *)
Lemma log_step_search d tr s : ring_ok d -> 1 <= Z.of_nat (nr_elements (act_log d)) <= 919 * (al_size_4k (md d) - 1) ->
  al_tr_number d + 1 < 2 ^ 32 -> (s < nr_elements (act_log d))%nat ->
  let bl := <[Z.to_nat (al_block (md d) (al_tr_number d)) := Some tr]> (al_blocks d) in
  al_search (md d) bl (Z.to_nat (al_size_4k (md d))) (al_tr_number d + 1) (Z.of_nat s) =
    match al_mentions tr (Z.of_nat s) with
    | Some e => Some e
    | None => al_search (md d) (al_blocks d) (Z.to_nat (al_size_4k (md d))) (al_tr_number d) (Z.of_nat s)
    end.
Proof.
  intros Hr Hnr Hn Hs bl. pose proof (ro_md _ Hr) as Hm. pose proof (mo_range _ Hm) as Hsz. pose proof (ro_number _ Hr) as HN. pose proof (ro_len _ Hr) as Hlen.
  pose proof (al_block_range (md d) (al_tr_number d) Hm) as Hblk.
  replace (Z.to_nat (al_size_4k (md d))) with (S (Z.to_nat (al_size_4k (md d) - 1))) by lia. set (n := Z.to_nat (al_size_4k (md d) - 1)).
  cbn [al_search]. rewrite (proj2 (Z.leb_gt (al_tr_number d + 1) 0)) by lia. replace (al_tr_number d + 1 - 1) with (al_tr_number d) by lia.
  assert (al_block_at (md d) bl (al_tr_number d) = Some tr) as ->.
  { unfold al_block_at, bl. by rewrite list_lookup_insert_eq by lia. }
  cbn [mbind option_bind]. destruct (al_mentions tr (Z.of_nat s)); [done|].
  rewrite (search_same (md d) (al_blocks d) bl n).
  2: { intros t0 H0 Ht0. unfold al_block_at, bl. pose proof (al_block_range (md d) t0 Hm). rewrite list_lookup_insert_ne; [done|].
       pose proof (al_block_inj (md d) (al_tr_number d) t0 Hm ltac:(lia)). lia. }
  change (al_search (md d) (al_blocks d) n (al_tr_number d) (Z.of_nat s) = al_search (md d) (al_blocks d) (S n) (al_tr_number d) (Z.of_nat s)).
  destruct (decide (al_tr_number d <= Z.of_nat n)) as [Hle|Hgt]; [by rewrite search_clip|].
  pose proof (rounds_pos (Z.of_nat (nr_elements (act_log d))) ltac:(lia)) as [HR Hb]. set (R := rounds (Z.of_nat (nr_elements (act_log d)))) in *.
  destruct (round_of (Z.of_nat (nr_elements (act_log d))) (al_tr_number d) (Z.of_nat s)) as (t0 & Ht0 & Hq); [lia|lia|fold R; lia|]. fold R in Ht0, Hq.
  destruct (ro_window _ Hr t0) as (tr0 & Hb0 & _ & Hm0); [lia|lia|].
  pose proof (search_found (md d) (al_blocks d) n (al_tr_number d) t0 (Z.of_nat s) tr0 ltac:(lia) ltac:(lia) Hb0 (Hm0 s Hs (eq_sym Hq))) as Hf.
  destruct (al_search (md d) (al_blocks d) n (al_tr_number d) (Z.of_nat s)) eqn:E; [|done]. symmetry. by apply search_mono.
Qed.

Lemma log_step_ring d tr : ring_ok d -> 1 <= Z.of_nat (nr_elements (act_log d)) -> al_tr_number d + 1 < 2 ^ 32 -> tr_number tr = al_tr_number d ->
  filled (act_log d) (919 * (al_tr_number d mod rounds (Z.of_nat (nr_elements (act_log d))))) tr ->
  ring_ok (set_log (al_tr_number d + 1) (<[Z.to_nat (al_block (md d) (al_tr_number d)) := Some tr]> (al_blocks d)) d).
Proof.
  intros Hr Hnr Hn Htr Hf. pose proof Hr as [R1 R2 R3 R4 R5]. pose proof (al_block_range (md d) (al_tr_number d) R1) as Hblk.
  split; cbn [md al_blocks al_tr_number act_log set_log]; try done.
  - by rewrite length_insert.
  - lia.
  - intros t Ht0 Ht. destruct (decide (t = al_tr_number d)) as [->|Hne].
    + exists tr. split; [unfold al_block_at; by rewrite list_lookup_insert_eq by lia|]. split; [done|]. intros s Hs Hq.
      rewrite Hf by done. case_decide; [done|]. change (Z.of_nat AL_CONTEXT_PER_TRANSACTION) with 919.
      rewrite round_between by lia. by rewrite (proj2 (Z.eqb_eq _ _)).
    + destruct (R4 t) as (tr0 & Hb0 & Hn0 & Hm0); [done|lia|]. exists tr0. split; [|done]. rewrite <- Hb0. unfold al_block_at.
      pose proof (al_block_range (md d) t R1). rewrite list_lookup_insert_ne; [done|].
      pose proof (al_block_inj (md d) (al_tr_number d) t R1 ltac:(lia)). lia.
  - intros tr' Hin. apply list_elem_of_lookup in Hin as [j Hj]. destruct (decide (j = Z.to_nat (al_block (md d) (al_tr_number d)))) as [->|Hne].
    + rewrite list_lookup_insert_eq in Hj by lia. injection Hj as <-. lia.
    + rewrite list_lookup_insert_ne in Hj by done. assert (Some tr' ∈ al_blocks d) as Hin by (apply list_elem_of_lookup; by exists j).
      specialize (R5 tr' Hin). lia.
Qed.

Lemma inv_log d tr d' : al_inv d (Hinted tr) -> al_tr_number d + 1 < 2 ^ 32 -> al_block_write true tr d = (false, d') -> al_inv d' Logged.
Proof.
  intros Hi Hn. unfold al_block_write. intros [= <-]. pose proof (nr_pos _ (ai_lc _ _ Hi)) as Hnr.
  destruct Hi as [I1 I2 I3 I4 I5 I6 I7 I8 I9 I10 I11 I12 I13]. destruct I13 as [Htr Hf]. pose proof (ro_number _ I7) as HN.
  rewrite u32_small by lia. pose proof (log_step_ring d tr I7 Hnr Hn Htr Hf) as Hring.
  split; try done; cbn [act_log md al_blocks al_tr_number set_log al_tr_cycle].
  - cbn [in_flight] in I8 |- *. by rewrite Z.add_0_r.
  - intros s Hs Hne. rewrite log_step_search by (done || lia). rewrite Hf by done. cbn [logged_number] in *.
    case_decide; [done|]. destruct (between _ _ _); [done|]. by apply I9.
  - intros _. by apply I12.
Qed.

Lemma commit_max l lc : max_pending_changes (commit_elements l lc) = max_pending_changes lc.
Proof. revert lc. induction l as [|j l IH]; intros lc; [done|]. cbn [commit_elements]. by rewrite IH. Qed.

Lemma inv_commit d lc' : al_inv d Logged -> lc_committed (act_log d) = Ret (tt, lc') ->
  al_inv (set_act_log (lc_unlock lc') d) Idle.
Proof.
  intros Hi Hc. destruct (lc_committed_spec (act_log d) (ai_lc _ _ Hi)) as (lc1 & Hc1 & Hwf & Htbc & _ & Hel & Hnr & _).
  assert (lc1 = lc') as -> by congruence. clear Hc1.
  assert (lc_wf (lc_unlock lc')) as Hwf' by (apply (lc_step_wf lc'); [done|apply step_unlock]).
  assert (max_pending_changes lc' = max_pending_changes (act_log d)) as Emax.
  { revert Hc. unfold lc_committed. rewrite paranoia_entry_ok by apply Hi. cbn [obind]. intros [= <-]. lc_simpl.
    by rewrite commit_max. }
  assert (forall s, lc_number (elem (lc_unlock lc') s) = logged_number (act_log d) Logged s) as Hnum.
  { intros s. change (elem (lc_unlock lc') s) with (elem lc' s). rewrite Hel. cbn [logged_number]. by case_decide. }
  destruct Hi as [I1 I2 I3 I4 I5 I6 I7 I8 I9 I10 I11 I12 I13].
  split; try done; cbn [act_log set_act_log md al_blocks al_tr_number al_tr_cycle].
  - intros s. rewrite Hnum. cbn [logged_number]. case_decide as Hd; [|apply I2]. right.
    pose proof (ok_elem (act_log d) TO_BE_CHANGED s I1 Hd) as Hok. simpl in Hok. tauto.
  - change (max_pending_changes lc' = AL_UPDATES_PER_TRANSACTION). congruence.
  - change (nr_elements (lc_unlock lc')) with (nr_elements lc'). by rewrite Hnr.
  - destruct I7 as [R1 R2 R3 R4 R5]. split; try done. cbn [act_log set_act_log md al_blocks al_tr_number].
    change (nr_elements (lc_unlock lc')) with (nr_elements lc'). by rewrite Hnr.
  - change (nr_elements (lc_unlock lc')) with (nr_elements lc'). by rewrite Hnr.
  - intros s Hs Hne. change (nr_elements (lc_unlock lc')) with (nr_elements lc') in Hs. rewrite Hnr in Hs.
    cbn [logged_number] in *. rewrite Hnum in *. by apply I9.
  - intros x k Hx Hk Hbit Hdisk. destruct (I10 x k Hx Hk Hbit Hdisk) as (s & Hs & Hn & Hw). exists s. cbn [act_log set_act_log al_bitmap].
    change (nr_elements (lc_unlock lc')) with (nr_elements lc'). rewrite Hnr, Hnum. cbn [logged_number]. rewrite decide_False by (by apply Hw). done.
Qed.

(** ** Runs *)

(** [put_actlog] only puts elements that are in use. *)
Lemma put_actlog_frame n enr wake lc w lc' : lc_wf lc -> put_actlog n enr wake lc = Ret (w, lc') -> lc_wf lc' /\ lc_frame lc lc'.
Proof.
  revert enr wake lc. induction n as [|n IH]; intros enr wake lc Hwf; cbn [put_actlog].
  { intros [= <- <-]. by split; [|apply lc_frame_refl]. }
  unfold lc_find. rewrite lc_find_eq by apply Hwf. cbn [obind]. destruct (lc_lookup lc enr false) as [i|] eqn:El; [|by apply IH].
  destruct (Z.eqb_spec (refcnt (elem lc i)) 0) as [Hz|Hz]; [by apply IH|].
  assert (i ∈ in_use (lists lc)) as Hin.
  { assert (lc_lookup lc enr true = Some i /\ lc_new_number (elem lc i) = lc_number (elem lc i)) as [Ht He].
    { revert El. unfold lc_lookup. generalize (default [] (lc_slot lc !! lc_hash_slot lc enr)). intros chain.
      induction chain as [|k chain IHc]; simpl; [done|]. destruct (negb (lc_new_number (elem lc k) =? enr)); [done|].
      rewrite orb_true_r, orb_false_r. destruct (Z.eqb_spec (lc_new_number (elem lc k)) (lc_number (elem lc k))); [|done]. by intros [= ->]. }
    apply lookup_hashed in Ht as (Hi & Hf & _); [|done]. pose proof (found_list lc i Hwf Hi Hf) as Hc. rewrite He, Z.eqb_refl in Hc.
    by destruct Hc as [[? _]|[_ ?]]. }
  destruct (lc_put_spec lc i Hwf Hin) as (lc1 & Hp & _). rewrite Hp. cbn [obind].
  destruct (put_frame _ _ _ _ Hwf Hin Hp) as [Hwf1 Hf1]. intros [Hwf' Hf']%IH; [|done]. split; [done|]. by eapply lc_frame_trans.
Qed.

(** What callers see to: extents in range, reference counters that do not overflow. *)
Definition begin_ok (d : al_device) (sector size next : Z) : Prop :=
  let first := if next =? 0 then first_extent sector else next in
  0 <= first <= last_extent sector size /\ last_extent sector size < LC_FREE /\
  room_for_refs (Z.to_nat (last_extent sector size + 1 - first)) (act_log d).

(** One step.  Bits are set for extents that are held, by a request that waited for the
    transaction.  An I/O error ends the run: the disk is detached.  Not among the steps are
    a change of the size of the log ([al_resize_loses_extents] shows what it loses), a transaction
    that fails and is committed all the same ([drbd_al_begin_io_commit] ignores its result),
    bits that are set without a held extent (a received bitmap, invalidating a disk: they rely on a
    write of the bitmap), and a transaction number that wraps around. *)
Inductive al_step : al_device * al_stage -> al_device * al_stage -> Prop :=
  | al_begin d st sector size next r d' :
      begin_ok d sector size next -> drbd_al_begin_io_nonblock d sector size next = Ret (r, d') -> al_step (d, st) (d', st)
  | al_begin_fast d st sector size r d' :
      begin_ok d sector size 0 -> drbd_al_begin_io_fastpath d sector size = Ret (r, d') -> al_step (d, st) (d', st)
  | al_complete d st sector size r d' :
      drbd_al_complete_io d sector size = Ret (r, d') -> al_step (d, st) (d', st)
  | al_bits d st i s e op buf r b' buf' :
      op_pre (al_bitmap d) i s e op buf ->
      (may_set op = true -> forall k, s <= k <= clip (al_bitmap d) e -> held (act_log d) (bit_extent (al_bitmap d) k)) ->
      bm_op (al_bitmap d) i s e op buf = Ret (r, b', buf') -> al_step (d, st) (set_bitmap b' (bm_area_on_disk d) d, st)
  | al_write d st io_ok first last flags b' disk :
      aio_flag flags BM_AIO_WRITE_HINTED = false -> 0 <= first -> 0 <= last ->
      bm_rw_range io_ok first last flags (al_bitmap d) (bm_area_on_disk d) = (b', disk) -> io_error disk = false ->
      al_step (d, st) (set_bitmap b' (bm_area disk) d, st)
  | al_lock d lc' :
      lc_try_lock_for_transaction (act_log d) = (true, lc') -> al_step (d, Idle) (set_act_log lc' d, Locked)
  | al_nothing_pending d :
      pending_changes (act_log d) = 0 -> al_step (d, Locked) (set_act_log (lc_unlock (act_log d)) d, Idle)
  | al_fill d tr d' :
      al_fill_transaction d = Ret (tr, d') -> al_step (d, Locked) (d', Filled tr)
  | al_hinted d tr io_ok d' :
      al_bm_write io_ok d = (false, d') -> al_step (d, Filled tr) (d', Hinted tr)
  | al_log d tr d' :
      al_tr_number d + 1 < 2 ^ 32 -> al_block_write true tr d = (false, d') -> al_step (d, Hinted tr) (d', Logged)
  | al_commit d lc' :
      lc_committed (act_log d) = Ret (tt, lc') -> al_step (d, Logged) (set_act_log (lc_unlock lc') d, Idle).

Lemma al_step_inv d st d' st' : al_inv d st -> al_step (d, st) (d', st') -> al_inv d' st'.
Proof.
  intros Hi Hstep. inversion Hstep as [? ? ? ? ? r0 ? Hok Hrun|? ? ? ? r0 ? Hok Hrun|? ? ? ? r0 ? Hrun|? ? ? ? ? ? ? ? ? ? Hpre Hheld Hrun|
    ? ? ? ? ? ? ? ? Hf H1 H2 Hrun He|? ? Hl|? Hp|? ? ? Hrun|? ? ? ? Hrun|? ? ? Hn Hrun|? ? Hrun]; subst.
  - unfold drbd_al_begin_io_nonblock in Hrun. unfold begin_ok in Hok. set (first := if next =? 0 then _ else next) in *. destruct Hok as (Hr & Hl & Hroom).
    destruct (begin_io_loop_ok (Z.to_nat (last_extent sector size + 1 - first)) (act_log d) first next first) as (r & lc' & stop & Hb & Hwf & Hfr & _);
      try done; try lia; [apply Hi|]. rewrite Hb in Hrun. injection Hrun as <- <-. by apply inv_frame.
  - unfold drbd_al_begin_io_fastpath in Hrun. destruct Hok as (Hr & Hl & Hroom). cbn [Z.eqb] in *. destruct (negb _) eqn:En; [by injection Hrun as <- <-|].
    apply negb_false_iff, Z.eqb_eq in En.
    destruct (lc_try_get (act_log d) (first_extent sector)) as [[r lc']| |] eqn:Eg; try done. cbn [obind] in Hrun. injection Hrun as <- <-.
    destruct (get_frame (act_log d) (first_extent sector) false false r lc') as [Hwf Hf]; try done; [apply Hi|unfold label_ok; lia| |by apply inv_frame].
    intros j. specialize (Hroom j). lia.
  - unfold drbd_al_complete_io in Hrun. destruct (put_actlog _ _ _ _) as [[w lc']| |] eqn:Ep; try done. cbn [obind] in Hrun. injection Hrun as <- <-.
    apply put_actlog_frame in Ep as [Hwf Hf]; [|apply Hi]. by apply inv_frame.
  - by eapply inv_bits.
  - pose proof (inv_write _ _ io_ok _ _ _ Hi Hf H1 H2) as Hw. rewrite Hrun in Hw. by apply Hw.
  - by apply inv_lock.
  - by apply inv_unlock.
  - by eapply inv_fill.
  - by eapply inv_bm_write.
  - by eapply inv_log.
  - by apply inv_commit.
Qed.

(** A device after attaching: nothing is logged or referenced, the bitmap in memory is
    the one on disk, and the size of the cache is within the limit of the log. *)
Record al_start (extents_max : Z) (d : al_device) : Prop := {
  as_lc : exists nr, act_log d = fresh_cache nr AL_UPDATES_PER_TRANSACTION /\ (0 < nr)%nat /\ Z.of_nat nr <= drbd_al_extents_max extents_max (al_size_4k (md d));
  as_md : md_ok (md d);
  as_number : al_tr_number d = 0 /\ al_tr_cycle d = 0 /\ al_blocks d = replicate (Z.to_nat (al_size_4k (md d))) None;
  as_bm : bm_good (al_bitmap d) (bm_area_on_disk d);
  as_fit : (bm_bits (al_bitmap d) + 31) / 32 * bm_max_peers (al_bitmap d) <= Z.of_nat (length (bm_area_on_disk d));
  as_hints k : ~ hinted (al_bitmap d) k;
  as_same k : 0 <= k < bm_number_of_pages (al_bitmap d) -> on_disk (bm_pages (al_bitmap d)) (bm_area_on_disk d) k }.

Lemma extents_max_bound m size : 1 <= m -> 8 <= size <= 4194304 -> drbd_al_extents_max m size <= 919 * (size - 1) /\ drbd_al_extents_max m size <= m.
Proof.
  intros Hm Hs. unfold drbd_al_extents_max. change (Z.of_nat AL_CONTEXT_PER_TRANSACTION) with 919.
  destruct (Z.ltb_spec ((m + 919 - 1) / 919) size) as [Hl|Hl].
  - split; [|lia]. assert (m <= 919 * ((m + 919 - 1) / 919)) by (Z.div_mod_to_equations; lia). lia.
  - rewrite u32_small by lia. split; [lia|]. assert (919 * ((m + 919 - 1) / 919) <= m + 918) by (Z.div_mod_to_equations; lia). lia.
Qed.

Lemma start_inv extents_max d : 1 <= extents_max < 2 ^ 16 -> al_start extents_max d -> al_inv d Idle.
Proof.
  intros Hmax [(nr & Elc & Hnr & Hle) Hm (EN & Ecy & Ebl) Hgood Hfit Hnh Hsame].
  pose proof (mo_range _ Hm) as Hsz. destruct (extents_max_bound extents_max (al_size_4k (md d)) ltac:(lia) Hsz) as [Hb1 Hb2].
  assert (lc_wf (act_log d)) as Hwf by (rewrite Elc; apply fresh_cache_wf; [done|change LC_MAX_ACTIVE with 16777216; lia|done]).
  assert (nr_elements (act_log d) = nr) as En by (by rewrite Elc).
  assert (forall s, lc_number (elem (act_log d) s) = LC_FREE) as Hfree.
  { intros s. destruct (decide (s < nr)%nat) as [Hs|Hs].
    - rewrite Elc. change (elem (fresh_cache nr AL_UPDATES_PER_TRANSACTION) s) with (el ((fun i => mk_element 0 i LC_FREE LC_FREE) <$> seq 0 nr) s).
      by rewrite fresh_elem, decide_True.
    - unfold elem. rewrite lookup_ge_None_2; [done|]. rewrite (core_len _ _ _ _ (wf_core _ Hwf)). lia. }
  split; try done.
  - intros s. left. apply Hfree.
  - by rewrite Elc.
  - rewrite En. lia.
  - split; [done| |lia| |].
    + rewrite Ebl, length_replicate. lia.
    + intros t H0 Ht. lia.
    + intros tr Hin. rewrite Ebl in Hin. by apply elem_of_replicate in Hin as [? _].
  - rewrite Ecy, EN. cbn [in_flight]. rewrite Z.mod_0_l; [done|]. rewrite En. pose proof (rounds_pos (Z.of_nat nr)). lia.
  - intros s Hs Hne. destruct Hne. apply Hfree.
  - intros i k Hi Hk Hbit Hdisk. destruct Hgood as (Hg & _).
    rewrite on_disk_bit in Hdisk; try done; [congruence|apply Hg|]. apply Hsame. apply page_of_bit; (done || apply Hg).
Qed.

Inductive al_reachable (extents_max : Z) : al_device * al_stage -> Prop :=
  | al_reach_start d : al_start extents_max d -> al_reachable extents_max (d, Idle)
  | al_reach_step x y : al_reachable extents_max x -> al_step x y -> al_reachable extents_max y.

Lemma reachable_inv extents_max d st : 1 <= extents_max < 2 ^ 16 -> al_reachable extents_max (d, st) -> al_inv d st.
Proof.
  intros Hm Hr. remember (d, st) as x eqn:E. revert d st E. induction Hr as [d0 Hs|[d1 st1] [d2 st2] _ IH Hstep]; intros d st [= <- <-].
  - by eapply start_inv.
  - eapply al_step_inv; [by apply IH|done].
Qed.
End safe.
