(* ===== verification/ActLogClaims.v ===== *)
(** * The activity log: properties *)
From S2P Require Import Prelude LruCache Bitmap BitmapProps BitmapOps BitmapDisk ActLog ActLogProps ActLogSafe.

Section claims.
Context `{Arch}.

(** ** Crash safety *)

Lemma inv_logged_on_disk d st s : al_inv d st -> (s < nr_elements (act_log d))%nat -> logged_number (act_log d) st s <> LC_FREE ->
  al_logged (md d) (al_blocks d) (Z.of_nat s) = Some (logged_number (act_log d) st s).
Proof.
  intros Hi Hs Hne. pose proof (ai_logged _ _ Hi s Hs Hne) as Hl. pose proof (ai_ring _ _ Hi) as Hr.
  pose proof (ro_md _ Hr) as Hm. pose proof (mo_range _ Hm) as Hsz. pose proof (ro_number _ Hr) as HN.
  assert (1 <= al_tr_number d) as H1.
  { destruct (decide (1 <= al_tr_number d)) as [|Hz]; [done|]. revert Hl. replace (Z.to_nat (al_size_4k (md d))) with (S (Z.to_nat (al_size_4k (md d) - 1))) by lia.
    cbn [al_search]. by rewrite (proj2 (Z.leb_le _ _)) by lia. }
  destruct (ro_window _ Hr (al_tr_number d - 1)) as (tr & Hb & Ht & _); [lia|lia|].
  unfold al_logged. rewrite (newest_of _ (al_tr_number d - 1) tr); [|..].
  - by replace (al_tr_number d - 1 + 1) with (al_tr_number d) by lia.
  - unfold al_block_at in Hb. destruct (al_blocks d !! _) as [o|] eqn:Eo; simpl in Hb; [|done]. subst o. by eapply list_elem_of_lookup_2.
  - done.
  - intros tr' Hin. pose proof (ro_stored _ Hr tr' Hin). lia.
Qed.


(** ** Transactions *)

Lemma reset_hints_length b : length (al_bitmap_hints (drbd_bm_reset_al_hints b)) = 0%nat.
Proof. done. Qed.

(** C34: a transaction always fits.  In every state in which one is about to be
    written, filling the block returns: there are at most 64 updates, the hints for the bitmap
    pages of the extents that leave stay within the array of 128, and no slot number is cut.  The block
    says exactly: the new extents of the pending slots, the current ones of the slots of
    its part of the context. *)
Theorem al_transaction_fits extents_max d : 1 <= extents_max < 2 ^ 16 -> al_reachable extents_max (d, Locked) ->
  exists tr d', al_fill_transaction d = Ret (tr, d') /\
    Z.of_nat (length (al_bitmap_hints (al_bitmap d'))) <= 2 * AL_UPDATES_PER_TRANSACTION /\
    forall s, (s < nr_elements (act_log d))%nat -> al_mentions tr (Z.of_nat s) =
      if decide (s ∈ to_be_changed (lists (act_log d))) then Some (lc_new_number (elem (act_log d) s))
      else if between (al_tr_cycle d) (al_tr_cycle d + 919) (Z.of_nat s) then Some (lc_number (elem (act_log d) s)) else None.
Proof.
  intros Hm Hr. pose proof (reachable_inv _ _ _ Hm Hr) as Hinv.
  destruct (inv_fill_runs d Hinv) as (tr & b & Hrun & _ & Hf & Hs & _). do 2 eexists. split; [exact Hrun|]. split; [|exact Hf].
  cbn [al_bitmap set_cycle set_bitmap]. pose proof (hs_len _ _ _ Hs) as Hl. rewrite reset_hints_length in Hl.
  pose proof (wf_pending _ (ai_lc _ _ Hinv)). pose proof (wf_max _ (ai_lc _ _ Hinv)). pose proof (ai_max _ _ Hinv). lia.
Qed.

(** ** References *)

Lemma write_keeps_cache io_ok ok d err d' : __al_write_transaction io_ok ok d = Ret (err, d') -> act_log d' = act_log d.
Proof.
  unfold __al_write_transaction. destruct (al_fill_transaction d) as [[tr d1]| |] eqn:Ef; try done. cbn [obind].
  assert (act_log d1 = act_log d) as E1.
  { revert Ef. unfold al_fill_transaction. destruct (transaction_updates _ _ _ _) as [[[[? ?] ?] ?]| |]; try done. cbn [obind].
    case_if; [done|]. destruct (transaction_context _ _ _); try done. cbn [obind]. by intros [= _ <-]. }
  unfold al_bm_write. destruct (drbd_bm_write_hinted _ _ _) as [b disk]. case_if; [by intros [= _ <-]|].
  unfold al_block_write. destruct ok; by intros [= _ <-].
Qed.

(** After the commit nothing is pending. *)
Lemma commit_cache disk_ok io_ok ok d d' : lc_wf (act_log d) -> Z.testbit (flags (act_log d)) __LC_LOCKED = false ->
  drbd_al_begin_io_commit disk_ok io_ok ok d = Ret d' ->
  lc_wf (act_log d') /\ to_be_changed (lists (act_log d')) = [] /\
  (forall j, refcnt (elem (act_log d') j) = refcnt (elem (act_log d) j)) /\
  (forall j, lc_new_number (elem (act_log d') j) = lc_new_number (elem (act_log d) j)).
Proof.
  intros Hwf Hlk. unfold drbd_al_begin_io_commit. destruct (Z.eqb_spec (pending_changes (act_log d)) 0) as [Hp|Hp].
  { intros [= <-]. split; [done|]. split; [|done]. rewrite (wf_pending _ Hwf) in Hp. by destruct (to_be_changed (lists (act_log d))). }
  unfold lc_try_lock_for_transaction. rewrite Hlk. cbn [negb]. set (lc1 := set_flags _ (act_log d)).
  assert (lc_wf lc1) as Hwf1 by (apply (lc_step_wf (act_log d)); [done|apply step_try_lock_for_transaction]).
  set (d1 := set_act_log lc1 d). change (pending_changes (act_log d1)) with (pending_changes (act_log d)).
  rewrite (proj2 (Z.eqb_neq _ 0)) by done. intros Hrun.
  assert (exists d2, act_log d2 = lc1 /\ (let! (_, lc) := lc_committed (act_log d2) in Ret (set_act_log (lc_unlock lc) d2)) = Ret d') as (d2 & E2 & Hrun2).
  { destruct (al_disabled (md d1)).
    - exists d1. split; [done|]. cbn [obind] in Hrun. by destruct (lc_committed (act_log d1)) as [[? ?]| |].
    - unfold al_write_transaction in Hrun. destruct (negb disk_ok).
      + exists d1. split; [done|]. cbn [obind] in Hrun. by destruct (lc_committed (act_log d1)) as [[? ?]| |].
      + destruct (__al_write_transaction io_ok ok d1) as [[err d2]| |] eqn:Ew; try done. apply write_keeps_cache in Ew. exists d2.
        split; [done|]. cbn [obind] in Hrun. by destruct (lc_committed (act_log d2)) as [[? ?]| |]. }
  rewrite E2 in Hrun2. destruct (lc_committed_spec lc1 Hwf1) as (lc' & Hc & Hwf' & Htbc & _ & Hel & _). rewrite Hc in Hrun2. cbn [obind] in Hrun2.
  injection Hrun2 as <-. cbn [act_log set_act_log]. split; [apply (lc_step_wf lc'); [done|apply step_unlock]|]. split; [done|].
  split; intros j; change (elem (lc_unlock lc') j) with (elem lc' j); rewrite Hel; change (elem lc1 j) with (elem (act_log d) j); by case_decide.
Qed.

(** C35: references are taken and given back once.  [drbd_al_begin_io_nonblock] always
    returns; it takes one reference for every extent from the first up to where it stops, and
    what it leaves in [partially_in_al_next_enr] is where the next attempt goes on.  If it
    succeeds and the changes are committed, then all extents of the interval are active
    and held, and [drbd_al_complete_io] gives back exactly these references. *)
Theorem al_io_references d sector size next : lc_wf (act_log d) -> Z.testbit (flags (act_log d)) __LC_LOCKED = false ->
  begin_ok d sector size next ->
  let first := if next =? 0 then first_extent sector else next in
  exists r d1 stop, drbd_al_begin_io_nonblock d sector size next = Ret (r, d1) /\
    (r = None <-> stop = last_extent sector size + 1) /\ (r <> None -> r = Some (if first <? stop then stop else next)) /\
    (forall j, refcnt (elem (act_log d1) j) = refcnt (elem (act_log d) j) + Z.b2z (between first stop (lc_new_number (elem (act_log d1) j)))) /\
    forall disk_ok io_ok ok d2, next = 0 -> r = None -> drbd_al_begin_io_commit disk_ok io_ok ok d1 = Ret d2 ->
      (forall x, first <= x <= last_extent sector size -> held (act_log d2) x) /\
      exists w d3, drbd_al_complete_io d2 sector size = Ret (w, d3) /\ forall j, refcnt (elem (act_log d3) j) = refcnt (elem (act_log d) j).
Proof.
  intros Hwf Hlk (Hr & Hl & Hroom) first. fold first in Hr, Hroom. set (n := Z.to_nat (last_extent sector size + 1 - first)) in *.
  destruct (begin_io_loop_ok n (act_log d) first next first) as (r & lc' & stop & Hb & Hwf' & Hfr & Hst & Hiff & Hnone & Hc & _ & Hx); try done; try lia.
  exists r, (set_act_log lc' d), stop. unfold drbd_al_begin_io_nonblock. fold first n. rewrite Hb. cbn [obind]. split; [done|].
  split; [rewrite Hiff; lia|]. split; [done|]. split; [exact Hc|]. intros disk_ok io_ok ok d2 Hn0 Hrn Hrun.
  destruct (commit_cache disk_ok io_ok ok (set_act_log lc' d) d2 Hwf' (eq_trans (lf_locked _ _ Hfr) Hlk) Hrun) as (Hwf2 & Htbc & Hrc & Hnn). cbn [act_log set_act_log] in Hrc, Hnn.
  assert (stop = last_extent sector size + 1) as Estop by (apply Hiff in Hrn; lia).
  assert (forall j x, lc_new_number (elem (act_log d2) j) = x -> first <= x < stop -> lc_number (elem (act_log d2) j) = x) as Hcom.
  { intros j x Hj Hxr. destruct (number_not_free (act_log d2) j Hwf2) as [Hjn Hjf]; [unfold LC_FREE in *; lia|].
    pose proof (found_list _ _ Hwf2 Hjn Hjf) as Hfl. rewrite Htbc in Hfl. destruct (Z.eqb_spec (lc_new_number (elem (act_log d2) j)) (lc_number (elem (act_log d2) j))); [congruence|].
    destruct Hfl as [Hin _]. by apply elem_of_nil in Hin. }
  split.
  - intros x Hxr. destruct (Hx x ltac:(lia)) as [j Hj]. exists j. assert (lc_new_number (elem (act_log d2) j) = x) as Hj2 by (by rewrite Hnn).
    split; [|apply Hcom; [done|lia]]. destruct (number_not_free (act_log d2) j Hwf2) as [Hjn Hjf]; [unfold LC_FREE in *; lia|].
    pose proof (found_list _ _ Hwf2 Hjn Hjf) as Hfl. rewrite (Hcom j x), Hj2, Z.eqb_refl in Hfl by (done || lia).
    assert (1 <= refcnt (elem (act_log d2) j)) as H1.
    { rewrite Hrc, Hc, Hj. unfold between. replace ((first <=? x) && (x <? stop)) with true by lia. simpl. pose proof (refcnt_nonneg _ j Hwf). lia. }
    destruct Hfl as [[? _]|[_ ?]]; [done|lia].
  - unfold drbd_al_complete_io. assert (first_extent sector = first) as -> by (unfold first; by rewrite Hn0). fold n.
    destruct (put_actlog_ok n (act_log d2) first false Hwf2) as (w & lc3 & -> & _ & _ & _ & Hrc3); [lia|lia| |].
    { intros x j Hxr Hj. apply (Hcom j x); [done|lia]. }
    cbn [obind]. exists w, (set_act_log lc3 d2). split; [done|]. intros j. cbn [act_log set_act_log]. rewrite Hrc3, Hrc, Hnn, Hc.
    replace (first + Z.of_nat n) with stop by lia. pose proof (refcnt_nonneg _ j Hwf). destruct (between first stop _); simpl; lia.
Qed.

(** ** The commit as steps *)

Inductive al_steps : al_device * al_stage -> al_device * al_stage -> Prop :=
  | al_steps_refl x : al_steps x x
  | al_steps_cons x y z : al_step x y -> al_steps y z -> al_steps x z.

(** [drbd_al_begin_io_commit] that gets the lock and has no I/O error runs through the
    stages, one after the other. *)
Lemma commit_is_steps io_ok d d' : Z.testbit (flags (act_log d)) __LC_LOCKED = false -> pending_changes (act_log d) <> 0 ->
  al_disabled (md d) = false -> al_tr_number d + 1 < 2 ^ 32 ->
  (forall tr d1, al_fill_transaction (set_act_log (snd (lc_try_lock_for_transaction (act_log d))) d) = Ret (tr, d1) -> fst (al_bm_write io_ok d1) = false) ->
  drbd_al_begin_io_commit true io_ok true d = Ret d' -> al_steps (d, Idle) (d', Idle).
Proof.
  intros Hlk Hp Hdis HN Hio. unfold drbd_al_begin_io_commit. rewrite (proj2 (Z.eqb_neq _ 0)) by done.
  destruct (lc_try_lock_for_transaction (act_log d)) as [locked lc1] eqn:El.
  assert (locked = true /\ pending_changes lc1 = pending_changes (act_log d)) as [-> Ep].
  { unfold lc_try_lock_for_transaction in El. rewrite Hlk in El. by injection El as <- <-. }
  cbn [negb snd] in *. change (act_log (set_act_log lc1 d)) with lc1. rewrite Ep, (proj2 (Z.eqb_neq _ 0)) by done.
  change (md (set_act_log lc1 d)) with (md d). rewrite Hdis. unfold al_write_transaction, __al_write_transaction. cbn [negb].
  destruct (al_fill_transaction (set_act_log lc1 d)) as [[tr d1]| |] eqn:Ef; try done. cbn [obind].
  specialize (Hio tr d1 eq_refl). destruct (al_bm_write io_ok d1) as [err d2] eqn:Eb. simpl in Hio. subst err. cbn [obind].
  assert (al_tr_number d2 = al_tr_number d) as EN.
  { revert Ef Eb. unfold al_fill_transaction, al_bm_write. destruct (transaction_updates _ _ _ _) as [[[[? ?] ?] ?]| |]; try done. cbn [obind].
    case_if; [done|]. destruct (transaction_context _ _ _); try done. cbn [obind]. intros [= _ <-].
    destruct (drbd_bm_write_hinted _ _ _). by intros [= _ <-]. }
  destruct (al_block_write true tr d2) as [err d3] eqn:Ew. assert (err = false) as -> by (by injection Ew as <- <-).
  destruct (lc_committed (act_log d3)) as [[[] lc4]| |] eqn:Ec; try done. cbn [obind]. intros [= <-].
  eapply al_steps_cons; [by apply al_lock|]. eapply al_steps_cons; [by apply al_fill|]. eapply al_steps_cons; [by eapply al_hinted|].
  eapply al_steps_cons; [apply al_log; [by rewrite EN|done]|]. eapply al_steps_cons; [by apply al_commit|]. apply al_steps_refl.
Qed.
End claims.

(** ** A small device

    16 MiB, so four extents, for two peers, a log of 8 blocks and a cache of two slots. *)
Definition demo_al_bitmap : drbd_bitmap :=
  mk_bitmap (replicate 1024 0) [0] [0; 0] 4096 4096 128 1 32768 false 2 12 [].

Definition demo_al : al_device :=
  mk_device (fresh_cache 2 AL_UPDATES_PER_TRANSACTION) 0 0 demo_al_bitmap (replicate 1024 0) (replicate 8 None) (mk_md 0 8 1 8 8 false).

Definition all_ok (page : Z) : bool := true.

Definition ret_device {A} (o : outcome (A * al_device)) (d : al_device) : al_device :=
  match o with Ret (_, d) => d | _ => d end.

Lemma demo_start : @al_start PAGE_SHIFT_4k 65534 demo_al.
Proof.
  assert (@bm_wf PAGE_SHIFT_4k demo_al_bitmap) as Hwf.
  { split; try done; try (simpl; lia). unfold demo_al_bitmap, bm_pages. apply Forall_replicate. by unfold is_word32. }
  split.
  - exists 2%nat. split; [done|]. split; [lia|]. by vm_compute.
  - by split.
  - done.
  - split; [|split].
    + split; try done; try (simpl; lia).
    + intros k p Hk _ w Hw _. done.
    + intros j p Hp. destruct j as [|[|j]]; [|done..]. by injection Hp as <-.
  - vm_compute. discriminate.
  - intros k (Hk & p & Hp & Hb). simpl in Hk. replace (Z.to_nat k) with 0%nat in Hp by lia. injection Hp as <-. done.
  - intros k Hk w Hw _. done.
Qed.

(** A write to the first block: its extent is logged, then a bit is set for a peer that
    missed it.  The page of the bitmap is not written. *)
Definition demo_begun : al_device := ret_device (drbd_al_begin_io_nonblock demo_al 0 4096 0) demo_al.
Definition demo_locked : al_device := set_act_log (snd (lc_try_lock_for_transaction (act_log demo_begun))) demo_begun.
Definition demo_fill : outcome (al_transaction_on_disk * al_device) := @al_fill_transaction PAGE_SHIFT_4k demo_locked.
Definition demo_filled : al_device := ret_device demo_fill demo_locked.
Definition demo_tr : al_transaction_on_disk :=
  match demo_fill with Ret (tr, _) => tr | _ => mk_transaction 0 0 [] [] 0 0 [] end.
Definition demo_hinted : al_device := snd (@al_bm_write PAGE_SHIFT_4k all_ok demo_filled).
Definition demo_logged : al_device := snd (@al_block_write true demo_tr demo_hinted).
Definition demo_lc : lru_cache := match lc_committed (act_log demo_logged) with Ret (_, lc) => lc | _ => act_log demo_logged end.
Definition demo_committed : al_device := set_act_log (lc_unlock demo_lc) demo_logged.
Definition demo_bm : drbd_bitmap :=
  match @bm_op PAGE_SHIFT_4k (al_bitmap demo_committed) 1 3 3 BM_OP_SET [] with Ret (_, b, _) => b | _ => demo_al_bitmap end.
Definition demo_marked : al_device := set_bitmap demo_bm (bm_area_on_disk demo_committed) demo_committed.

Lemma demo_begin_ok : begin_ok demo_al 0 4096 0.
Proof. split; [vm_compute; split; discriminate|]. split; [by vm_compute|]. intros [|[|j]]; vm_compute; discriminate. Qed.

Lemma demo_locked_reachable : @al_reachable PAGE_SHIFT_4k 65534 (demo_locked, Locked).
Proof.
  eapply al_reach_step; [eapply al_reach_step; [apply al_reach_start, demo_start|]|].
  - eapply (al_begin _ _ 0 4096 0 None demo_begun); [apply demo_begin_ok|]. vm_compute. reflexivity.
  - apply (al_lock demo_begun). vm_compute. reflexivity.
Qed.

Lemma demo_reachable : @al_reachable PAGE_SHIFT_4k 65534 (demo_marked, Idle).
Proof.
  assert (@al_reachable PAGE_SHIFT_4k 65534 (demo_committed, Idle)) as Hc.
  { eapply al_reach_step; [eapply al_reach_step; [eapply al_reach_step; [eapply al_reach_step; [exact demo_locked_reachable|]|]|]|].
    - apply (al_fill demo_locked demo_tr demo_filled). vm_compute. reflexivity.
    - apply (al_hinted demo_filled demo_tr all_ok demo_hinted). vm_compute. reflexivity.
    - apply (al_log demo_hinted demo_tr demo_logged); vm_compute; reflexivity.
    - apply (al_commit demo_logged demo_lc). vm_compute. reflexivity. }
  eapply al_reach_step; [exact Hc|].
  apply (al_bits demo_committed Idle 1 3 3 BM_OP_SET [] 1 demo_bm []).
  - split; [vm_compute; split; [discriminate|reflexivity]|]. split; [lia|]. split; [lia|]. split; [constructor|done].
  - assert (clip (al_bitmap demo_committed) 3 = 3) as -> by (vm_compute; reflexivity).
    intros _ k Hk. exists 1%nat. assert (k = 3) as -> by lia. vm_compute. split; [left|reflexivity].
  - vm_compute. reflexivity.
Qed.


Lemma al_transaction_fits_witness :
  exists tr d', @al_fill_transaction PAGE_SHIFT_4k demo_locked = Ret (tr, d') /\ al_mentions tr 1 = Some 0 /\ al_mentions tr 0 = Some LC_FREE.
Proof.
  destruct (@al_transaction_fits PAGE_SHIFT_4k 65534 demo_locked ltac:(lia) demo_locked_reachable) as (tr & d' & Hr & _ & Hm).
  exists tr, d'. split; [exact Hr|]. pose proof (Hm 0%nat ltac:(vm_compute; lia)) as H0. pose proof (Hm 1%nat ltac:(vm_compute; lia)) as H1.
  vm_compute in H0, H1. split; assumption.
Defined.

Lemma ret_pair_inj {A B} (a a' : A) (b b' : B) : Ret (a, b) = Ret (a', b') -> a = a' /\ b = b'.
Proof. by intros [= -> ->]. Qed.

(** A write across the border of two extents. *)
Definition demo_two : al_device := ret_device (drbd_al_begin_io_nonblock demo_al 8184 8192 0) demo_al.
Definition demo_two_committed : al_device :=
  match @drbd_al_begin_io_commit PAGE_SHIFT_4k true all_ok true demo_two with Ret d => d | _ => demo_al end.

Lemma demo_two_eq : drbd_al_begin_io_nonblock demo_al 8184 8192 0 = Ret (None, demo_two).
Proof. vm_compute. reflexivity. Qed.

Lemma demo_two_committed_eq : @drbd_al_begin_io_commit PAGE_SHIFT_4k true all_ok true demo_two = Ret demo_two_committed.
Proof. vm_compute. reflexivity. Qed.

Lemma al_io_references_witness :
  refcnt (elem (act_log demo_two) 0) = 1 /\ refcnt (elem (act_log demo_two) 1) = 1 /\
  exists w d3, drbd_al_complete_io demo_two_committed 8184 8192 = Ret (w, d3) /\ refcnt (elem (act_log d3) 0) = 0.
Proof.
  split; [vm_compute; reflexivity|]. split; [vm_compute; reflexivity|].
  destruct (@al_io_references PAGE_SHIFT_4k demo_al 8184 8192 0) as (r & d1 & stop & Hb & _ & _ & _ & Hrest).
  - apply fresh_cache_wf; [lia|vm_compute; discriminate|split; [discriminate|reflexivity]].
  - reflexivity.
  - split; [vm_compute; split; discriminate|]. split; [vm_compute; reflexivity|]. intros [|[|j]]; vm_compute; discriminate.
  - rewrite demo_two_eq in Hb. apply ret_pair_inj in Hb as [Er Ed]. rewrite <- Ed in Hrest.
    destruct (Hrest true all_ok true demo_two_committed eq_refl (eq_sym Er) demo_two_committed_eq) as (_ & w & d3 & Hd & Hj).
    exists w, d3. split; [exact Hd|]. rewrite Hj. reflexivity.
Defined.

(** ** Changing the size of the cache

    [disk_opts_check_al_size] takes all extents out of the cache and replaces it, without writing
    the bitmap.  The next transaction has a context of free slots: the bit of the block
    is only in memory, and its extent is no longer in the log. *)
Definition demo_resized : outcome al_device :=
  let! (_, d) := drbd_al_complete_io demo_marked 0 4096 in
  let! r := disk_opts_check_al_size false (Some (fresh_cache 3 AL_UPDATES_PER_TRANSACTION)) 3 d in
  match r with
  | Some (None, d) =>
      let! (_, d) := drbd_al_begin_io_nonblock d 16384 4096 0 in
      @drbd_al_begin_io_commit PAGE_SHIFT_4k true all_ok true d
  | _ => BUG
  end.

Example al_resize_loses_extents :
  match demo_resized with
  | Ret d => bm_bit (al_bitmap d) 1 3 = true /\ disk_bit (al_bitmap d) (bm_area_on_disk d) 1 3 = false /\
      (forall s, (s < 3)%nat -> al_logged (md d) (al_blocks d) (Z.of_nat s) <> Some 0)
  | _ => False
  end.
Proof.
  vm_compute. split; [reflexivity|]. split; [reflexivity|]. intros s Hs. destruct s as [|[|[|s]]]; [discriminate..|lia].
Qed.

(** A transaction that fails is committed all the same: the extent is active and the log does not have it. *)
Example failed_transaction_is_committed :
  match @drbd_al_begin_io_commit PAGE_SHIFT_4k true all_ok false demo_begun with
  | Ret d => drbd_al_active d 0 4096 = Ret true /\ al_logged (md d) (al_blocks d) 1 = None
  | _ => False
  end.
Proof. vm_compute. by split. Qed.
