(* ===== verification/MetaData.v ===== *)
(** * The super block and the layout of the meta-data

    [drbd_main.c] 4546-4584, [drbd_nl.c] 1477-1555 and 2971-3320, [drbd_legacy_84.c]
    and [drbd_int.h] 733-763 and 2557-2615: the super block of a device is written, read and checked,
    and the sectors of activity log and bitmap follow from its offsets. *)
From S2P Require Import Prelude Bitmap ActLog.

(** [ALIGN_DOWN] to 4096 and [is_power_of_2]. *)
Definition ALIGN_DOWN_4k (x : Z) : Z := Z.ldiff x 4095.
Definition is_power_of_2 (n : Z) : bool := negb (n =? 0) && (Z.land n (n - 1) =? 0).

(** Constants of headers that are not in the repository. *)
Class MdHeaders := {
  DRBD_MD_INDEX_INTERNAL : Z; DRBD_MD_INDEX_FLEX_EXT : Z; DRBD_MD_INDEX_FLEX_INT : Z;
  DRBD_MD_MAGIC_07 : Z; DRBD_MD_MAGIC_08 : Z; DRBD_MD_MAGIC_09 : Z; DRBD_MD_MAGIC_84_UNCLEAN : Z;
  NODE_IDS : nat; BM_BLOCK_SIZE_MIN : Z; BM_BLOCK_SIZE_MAX : Z; MDF_HAVE_BITMAP_bit : Z;
  UI_CURRENT : nat; UI_BITMAP : nat; UI_HISTORY_START : nat; UI_HISTORY_END : nat;
  index_negative : DRBD_MD_INDEX_INTERNAL < 0 /\ DRBD_MD_INDEX_FLEX_EXT < 0 /\ DRBD_MD_INDEX_FLEX_INT < 0;
  index_distinct : DRBD_MD_INDEX_FLEX_EXT <> DRBD_MD_INDEX_INTERNAL /\ DRBD_MD_INDEX_FLEX_EXT <> DRBD_MD_INDEX_FLEX_INT;
  magic_distinct : DRBD_MD_MAGIC_09 <> DRBD_MD_MAGIC_84_UNCLEAN /\ DRBD_MD_MAGIC_09 <> DRBD_MD_MAGIC_08 /\ DRBD_MD_MAGIC_08 <> DRBD_MD_MAGIC_84_UNCLEAN;
  block_size_range : 4096 <= BM_BLOCK_SIZE_MIN /\ BM_BLOCK_SIZE_MAX <= 2 ^ 30;
  have_bitmap_range : 0 <= MDF_HAVE_BITMAP_bit < 32;
  have_bitmap_own : MDF_HAVE_BITMAP_bit ∉ [0; 1; 2; 3; 4; 16] }.

(** Flags, as the table of [drbd_legacy_84.c] lists them. *)
Definition MDF_CONSISTENT : Z := Z.shiftl 1 0.
Definition MDF_PRIMARY_IND : Z := Z.shiftl 1 1.
Definition MDF_WAS_UP_TO_DATE : Z := Z.shiftl 1 4.
Definition MDF_CRASHED_PRIMARY : Z := Z.shiftl 1 6.
Definition MDF_AL_CLEAN : Z := Z.shiftl 1 7.
Definition MDF_AL_DISABLED : Z := Z.shiftl 1 8.
Definition MDF_PEER_CONNECTED : Z := Z.shiftl 1 0.
Definition MDF_PEER_OUTDATED : Z := Z.shiftl 1 1.
Definition MDF_PEER_FULL_SYNC : Z := Z.shiftl 1 3.
Definition MDF_PEER_DEVICE_SEEN : Z := Z.shiftl 1 4.
Definition MDF_84_CONNECTED_IND : Z := Z.shiftl 1 2.
Definition MDF_84_PEER_OUTDATED : Z := Z.shiftl 1 5.
Definition MDF_84_PEER_MASK : Z := MDF_PEER_FULL_SYNC.
Definition MDF_84_MASK : Z :=
  fold_right Z.lor 0 [MDF_CONSISTENT; MDF_PRIMARY_IND; MDF_WAS_UP_TO_DATE; MDF_CRASHED_PRIMARY; MDF_AL_CLEAN; MDF_AL_DISABLED].

Definition test (flags mask : Z) : bool := negb (Z.land flags mask =? 0).
Definition flag_if (b : bool) (mask : Z) : Z := if b then mask else 0.

(** [BUILD_BUG_ON(DRBD_PEERS_MAX != 32)] of [__drbd_md_sync]. *)
Definition PEERS_MAX : nat := 32.

(** [struct drbd_peer_md] and [struct drbd_md]. *)
Record peer_meta := mk_peer_meta { pm_bitmap_uuid : Z; pm_bitmap_dagtag : Z; pm_flags : Z; pm_bitmap_index : Z }.

Record meta_data := mk_meta {
  m_md_offset : Z;                  (* u64 *)
  effective_size : Z;               (* u64 *)
  prev_members : Z;                 (* u64 *)
  members : Z;                      (* u64 *)
  current_uuid : Z;                 (* u64 *)
  device_uuid : Z;                  (* u64 *)
  m_flags : Z;                      (* u32 *)
  node_id : Z;                      (* s32 *)
  md_size_sect : Z;                 (* u32 *)
  m_al_offset : Z;                  (* s32 *)
  bm_offset : Z;                    (* s32 *)
  max_peers : Z;                    (* u32 *)
  bm_block_size : Z;                (* u32 *)
  m_bm_block_shift : Z;             (* u32 *)
  peers : list peer_meta;
  history_uuids : list Z;
  meta_dev_idx : Z;                 (* s32 *)
  m_al_stripes : Z;                 (* u32 *)
  m_al_stripe_size_4k : Z;          (* u32 *)
  m_al_size_4k : Z }.               (* u32 *)

Definition set_layout (mdo : Z) (size alo bmo : Z) (m : meta_data) : meta_data :=
  mk_meta mdo (effective_size m) (prev_members m) (members m) (current_uuid m) (device_uuid m) (m_flags m) (node_id m) size alo bmo
    (max_peers m) (bm_block_size m) (m_bm_block_shift m) (peers m) (history_uuids m) (meta_dev_idx m) (m_al_stripes m) (m_al_stripe_size_4k m) (m_al_size_4k m).
Definition set_shift (x : Z) (m : meta_data) : meta_data :=
  mk_meta (m_md_offset m) (effective_size m) (prev_members m) (members m) (current_uuid m) (device_uuid m) (m_flags m) (node_id m) (md_size_sect m) (m_al_offset m) (bm_offset m)
    (max_peers m) (bm_block_size m) x (peers m) (history_uuids m) (meta_dev_idx m) (m_al_stripes m) (m_al_stripe_size_4k m) (m_al_size_4k m).
Definition set_al (stripes stripe_size size : Z) (m : meta_data) : meta_data :=
  mk_meta (m_md_offset m) (effective_size m) (prev_members m) (members m) (current_uuid m) (device_uuid m) (m_flags m) (node_id m) (md_size_sect m) (m_al_offset m) (bm_offset m)
    (max_peers m) (bm_block_size m) (m_bm_block_shift m) (peers m) (history_uuids m) (meta_dev_idx m) stripes stripe_size size.
Definition set_effective (x : Z) (m : meta_data) : meta_data :=
  mk_meta (m_md_offset m) x (prev_members m) (members m) (current_uuid m) (device_uuid m) (m_flags m) (node_id m) (md_size_sect m) (m_al_offset m) (bm_offset m)
    (max_peers m) (bm_block_size m) (m_bm_block_shift m) (peers m) (history_uuids m) (meta_dev_idx m) (m_al_stripes m) (m_al_stripe_size_4k m) (m_al_size_4k m).
Definition set_marks (fl : Z) (ps : list peer_meta) (m : meta_data) : meta_data :=
  mk_meta (m_md_offset m) (effective_size m) (prev_members m) (members m) (current_uuid m) (device_uuid m) fl (node_id m) (md_size_sect m) (m_al_offset m) (bm_offset m)
    (max_peers m) (bm_block_size m) (m_bm_block_shift m) ps (history_uuids m) (meta_dev_idx m) (m_al_stripes m) (m_al_stripe_size_4k m) (m_al_size_4k m).

(** [struct meta_data_on_disk_9]; a field is the number that its bytes stand for. *)
Record peer_on_disk := mk_peer_on_disk { od_bitmap_uuid : Z; od_bitmap_dagtag : Z; od_peer_flags : Z; od_bitmap_index : Z }.
Record meta_data_on_disk_9 := mk_on_disk_9 {
  od_effective_size : Z; od_current_uuid : Z; od_members : Z; od_flags : Z; od_magic : Z; od_md_size_sect : Z; od_al_offset : Z;
  od_al_nr_extents : Z; od_bm_bytes_per_bit : Z; od_device_uuid : Z; od_bm_offset : Z; od_la_peer_max_bio_size : Z; od_bm_max_peers : Z;
  od_node_id : Z; od_peers : list peer_on_disk; od_history_uuids : list Z; od_al_stripes : Z; od_al_stripe_size_4k : Z }.

(** [struct meta_data_on_disk_84]; [o8_uuid] has [UI_SIZE] entries. *)
Record meta_data_on_disk_84 := mk_on_disk_84 {
  o8_la_size_sect : Z; o8_uuid : list Z; o8_device_uuid : Z; o8_flags : Z; o8_magic : Z; o8_md_size_sect : Z; o8_al_offset : Z; o8_al_nr_extents : Z;
  o8_bm_offset : Z; o8_bm_bytes_per_bit : Z; o8_la_peer_max_bio_size : Z; o8_al_stripes : Z; o8_al_stripe_size_4k : Z }.

Section meta.
Context `{MdHeaders}.

Definition MDF_HAVE_BITMAP : Z := Z.shiftl 1 MDF_HAVE_BITMAP_bit.

(** ** Writing and reading *)

Definition encode_peer (p : peer_meta) : peer_on_disk :=
  mk_peer_on_disk (u64 (pm_bitmap_uuid p)) (u64 (pm_bitmap_dagtag p)) (u32 (Z.ldiff (pm_flags p) MDF_HAVE_BITMAP)) (u32 (pm_bitmap_index p)).

(** [bitmap]: the device has one; [nr_elements], [max_bio_size]: of its activity log and settings. *)
Definition drbd_md_encode_9 (bitmap : bool) (nr_elements max_bio_size : Z) (m : meta_data) : meta_data_on_disk_9 :=
  let full_sync p := mk_peer_on_disk (od_bitmap_uuid p) (od_bitmap_dagtag p) (Z.lor (od_peer_flags p) MDF_PEER_FULL_SYNC) (od_bitmap_index p) in
  mk_on_disk_9 (u64 (effective_size m)) (u64 (current_uuid m)) (u64 (members m)) (u32 (m_flags m)) DRBD_MD_MAGIC_09 (u32 (md_size_sect m)) (u32 (m_al_offset m))
    (u32 nr_elements) (u32 (bm_block_size m)) (u64 (device_uuid m)) (u32 (bm_offset m)) (u32 max_bio_size) (u32 (max_peers m)) (u32 (node_id m))
    (let l := encode_peer <$> peers m in if bitmap then l else (full_sync <$> take PEERS_MAX l) ++ drop PEERS_MAX l)
    (u64 <$> history_uuids m) (u32 (m_al_stripes m)) (u32 (m_al_stripe_size_4k m)).

Definition decode_peer (p : peer_on_disk) : peer_meta :=
  let index := to_int (od_bitmap_index p) in
  mk_peer_meta (od_bitmap_uuid p) (od_bitmap_dagtag p) (if index =? -1 then od_peer_flags p else Z.lor (od_peer_flags p) MDF_HAVE_BITMAP) index.

(** Into the meta-data [m] that has the place of the super block. *)
Definition decode_md_9 (b : meta_data_on_disk_9) (m : meta_data) : meta_data :=
  mk_meta (m_md_offset m) (od_effective_size b) (od_members b) (members m) (od_current_uuid b) (od_device_uuid b) (od_flags b) (to_int (od_node_id b))
    (od_md_size_sect b) (to_int (od_al_offset b)) (to_int (od_bm_offset b)) (od_bm_max_peers b) (od_bm_bytes_per_bit b) (m_bm_block_shift m)
    (decode_peer <$> od_peers b) (od_history_uuids b) (meta_dev_idx m) (od_al_stripes b) (od_al_stripe_size_4k b) (m_al_size_4k m).

(** The older format: one peer. *)
Definition no_peer : peer_meta := mk_peer_meta 0 0 0 (-1).
#[export] Instance peer_meta_inhabited : Inhabited peer_meta := populate no_peer.

Definition drbd_md_decode_84 (b : meta_data_on_disk_84) (m : meta_data) : meta_data :=
  let f := o8_flags b in
  let peer := mk_peer_meta (o8_uuid b !!! UI_BITMAP) 0
    (Z.lor (Z.lor (Z.lor (Z.land f MDF_84_PEER_MASK) MDF_HAVE_BITMAP) (flag_if (test f MDF_84_PEER_OUTDATED) MDF_PEER_OUTDATED))
       (flag_if (test f MDF_84_CONNECTED_IND) MDF_PEER_CONNECTED)) 0 in
  mk_meta (m_md_offset m) (o8_la_size_sect b) 0 (members m) (o8_uuid b !!! UI_CURRENT) (o8_device_uuid b) (Z.land f MDF_84_MASK) (-1)
    (o8_md_size_sect b) (to_int (o8_al_offset b)) (to_int (o8_bm_offset b)) 1 (o8_bm_bytes_per_bit b) (m_bm_block_shift m)
    (<[0%nat := peer]> (replicate NODE_IDS no_peer))
    (list_inserts 0 (take (UI_HISTORY_END - UI_HISTORY_START) (drop UI_HISTORY_START (o8_uuid b))) (history_uuids m))
    (meta_dev_idx m) (o8_al_stripes b) (o8_al_stripe_size_4k b) (m_al_size_4k m).

Definition drbd_md_encode_84 (bitmap : bool) (nr_elements max_bio_size : Z) (uuid : list Z) (m : meta_data) : meta_data_on_disk_84 :=
  let peer := peers m !!! (if node_id m =? 0 then 1%nat else 0%nat) in
  let flags := Z.lor (Z.land (m_flags m) MDF_84_MASK) (Z.land (pm_flags peer) MDF_84_PEER_MASK) in
  let flags := if bitmap then flags else Z.lor flags MDF_PEER_FULL_SYNC in
  let flags := Z.lor flags (flag_if (test (pm_flags peer) MDF_PEER_OUTDATED) MDF_84_PEER_OUTDATED) in
  let flags := Z.lor flags (flag_if (test (pm_flags peer) MDF_PEER_CONNECTED) MDF_84_CONNECTED_IND) in
  mk_on_disk_84 (u64 (effective_size m))
    (list_inserts UI_HISTORY_START (u64 <$> take (UI_HISTORY_END - UI_HISTORY_START) (history_uuids m))
      (<[UI_BITMAP := u64 (pm_bitmap_uuid peer)]> (<[UI_CURRENT := u64 (current_uuid m)]> uuid)))
    (u64 (device_uuid m)) (u32 flags) DRBD_MD_MAGIC_84_UNCLEAN (u32 (md_size_sect m)) (u32 (m_al_offset m)) (u32 nr_elements) (u32 (bm_offset m)) 4096
    (u32 max_bio_size) (u32 (m_al_stripes m)) (u32 (m_al_stripe_size_4k m)).

(** ** Layout *)

(** [struct drbd_backing_dev]: the meta-data and the sectors of the two devices; with internal
    meta-data they are the same device. *)
Record backing_dev := mk_bdev { bd_md : meta_data; backing_sectors : Z; md_sectors : Z }.
Definition set_md (m : meta_data) (b : backing_dev) : backing_dev := mk_bdev m (backing_sectors b) (md_sectors b).

Definition is_internal (idx : Z) : bool := (idx =? DRBD_MD_INDEX_INTERNAL) || (idx =? DRBD_MD_INDEX_FLEX_INT).

Definition drbd_md_first_sector (m : meta_data) : Z :=
  if is_internal (meta_dev_idx m) then u64 (m_md_offset m + bm_offset m) else m_md_offset m.

Definition drbd_md_last_sector (m : meta_data) : Z :=
  if is_internal (meta_dev_idx m) then u64 (m_md_offset m + 8 - 1) else u64 (m_md_offset m + md_size_sect m - 1).

Definition MD_INDEXED_SECT : Z := Z.shiftr (Z.shiftl 128 20) 9.

Definition drbd_md_ss (b : backing_dev) : Z :=
  let idx := meta_dev_idx (bd_md b) in
  if idx =? DRBD_MD_INDEX_FLEX_EXT then 0
  else if is_internal idx then u64 (Z.ldiff (backing_sectors b) 7 - 8)
  else u64 (to_int (MD_INDEXED_SECT * idx)).

Definition drbd_capacity_to_on_disk_bm_sect (capacity_sect : Z) (m : meta_data) : Z :=
  let aligned := u64 (ALIGN capacity_sect (sect_per_bit (m_bm_block_shift m))) in
  let bits := u64 (ALIGN (sect_to_bit aligned (m_bm_block_shift m)) 64) in
  let bytes := u64 (ALIGN (u64 (bits / 8 * max_peers m)) 4096) in
  Z.shiftr bytes 9.

Definition drbd_md_set_sector_offsets (b : backing_dev) : backing_dev :=
  let m := bd_md b in
  let al_size_sect := u32 (m_al_size_4k m * 8) in
  let ss := drbd_md_ss b in
  let m' :=
    if meta_dev_idx m =? DRBD_MD_INDEX_FLEX_EXT then set_layout ss (u32 (md_sectors b)) 8 (to_int (8 + al_size_sect)) m
    else if is_internal (meta_dev_idx m) then
      let md_size_sect := u64 (drbd_capacity_to_on_disk_bm_sect (backing_sectors b) m + 8 + al_size_sect) in
      set_layout ss (u32 md_size_sect) (to_int (- al_size_sect)) (to_int (- md_size_sect + 8)) m
    else set_layout ss MD_INDEXED_SECT 8 (to_int (8 + al_size_sect)) m in
  set_md m' b.

(** ** Checks *)

Definition al_part (m : meta_data) : al_md :=
  mk_md (m_md_offset m) (m_al_offset m) (m_al_stripes m) (m_al_stripe_size_4k m) (m_al_size_4k m) (test (m_flags m) MDF_AL_DISABLED).

(** The activity log's routine on the whole meta-data. *)
Definition check_stripes (m : meta_data) : option meta_data :=
  match check_activity_log_stripe_size (al_part m) with
  | Ret a => Some (set_al (m_al_stripes m) (m_al_stripe_size_4k m) (al_size_4k a) m)
  | _ => None
  end.

(** The sizes that follow from the offsets; [None]: the jump to [err]. *)
Definition on_disk_sect (m : meta_data) : option (Z * Z) :=
  if m_al_offset m <? 0 then
    if m_al_offset m <? bm_offset m then None
    else Some (to_int (- m_al_offset m), to_int (m_al_offset m - bm_offset m))
  else if negb (m_al_offset m =? 8) then None
  else if u32 (bm_offset m) <? u32 (m_al_offset m + u32 (m_al_size_4k m * 8)) then None
  else Some (to_int (bm_offset m - 8), to_int (md_size_sect m - bm_offset m)).

Definition fixed_layout (m : meta_data) : bool :=
  (bm_block_size m =? 4096) && (md_size_sect m =? MD_INDEXED_SECT) && (m_al_offset m =? 8)
  && (bm_offset m =? 8 + Z.shiftr 32768 9) && (m_al_stripes m =? 1) && (m_al_stripe_size_4k m =? Z.shiftr 32768 12).

Definition check_offsets_and_sizes (b : backing_dev) : bool :=
  let m := bd_md b in
  let capacity := md_sectors b in
  if Z.of_nat PEERS_MAX <? max_peers m then false
  else match on_disk_sect m with
  | None => false
  | Some (on_disk_al_sect, on_disk_bm_sect) =>
      if (0 <=? meta_dev_idx m) && negb (fixed_layout m) then false
      else if capacity <? md_size_sect m then false
      else if u64 (capacity - md_size_sect m) <? drbd_md_first_sector m then false
      else if negb (Z.land on_disk_al_sect 7 =? 0) || (on_disk_al_sect <? Z.shiftr 32768 9) then false
      else if negb (u32 on_disk_al_sect =? u32 (m_al_size_4k m * 8)) then false
      else if negb (Z.land (bm_offset m) 7 =? 0) then false
      else if u64 on_disk_bm_sect <? drbd_capacity_to_on_disk_bm_sect (effective_size m) m then false
      else true
  end.

(** ** Reading the super block *)

Inductive md_ret := NO_ERROR | ERR_MD_UNCLEAN | ERR_MD_INVALID.

(** A block of the disk, read as either format; magic and flags are at the same place. *)
Record md_block := mk_block { as_9 : meta_data_on_disk_9; as_84 : meta_data_on_disk_84 }.
Definition decode_magic (b : md_block) : Z * Z := (od_magic (as_9 b), od_flags (as_9 b)).

(** [bitmap_index >= max_peers] compares as unsigned, after the test for negative values. *)
Definition index_ok (my_node_id : Z) (mp : Z) (i : nat) (p : peer_meta) : bool :=
  (pm_bitmap_index p =? -1)
  || negb (Z.of_nat i =? my_node_id) && negb ((pm_bitmap_index p <? -1) || (mp <=? u32 (pm_bitmap_index p))).

(** The checks after decoding; also the state of the meta-data is returned. *)
Definition md_checks (my_node_id : Z) (b : backing_dev) : md_ret * backing_dev :=
  let m := bd_md b in
  if negb (is_power_of_2 (bm_block_size m)) || (bm_block_size m <? BM_BLOCK_SIZE_MIN) || (BM_BLOCK_SIZE_MAX <? bm_block_size m) then (ERR_MD_INVALID, b)
  else
    let m := set_shift (Z.log2 (bm_block_size m)) m in
    match check_stripes m with
    | None => (ERR_MD_INVALID, set_md m b)
    | Some m =>
        let b := set_md m b in
        if negb (check_offsets_and_sizes b) then (ERR_MD_INVALID, b)
        else if negb (node_id m =? -1) && negb (node_id m =? my_node_id) then (ERR_MD_INVALID, b)
        else if forallb (fun '(i, p) => index_ok my_node_id (max_peers m) i p) (imap pair (peers m)) then (NO_ERROR, b)
        else (ERR_MD_INVALID, b)
    end.

(** Also whether the block has the older format ([LEGACY_84_MD]), if that is decided. *)
Definition drbd_md_decode (drbd8_compat_mode : bool) (my_node_id : Z) (blk : md_block) (b : backing_dev) : md_ret * option bool * backing_dev :=
  let '(magic, flags) := decode_magic blk in
  let clean := test flags MDF_AL_CLEAN in
  if (magic =? DRBD_MD_MAGIC_09) && negb clean || (magic =? DRBD_MD_MAGIC_84_UNCLEAN) || (magic =? DRBD_MD_MAGIC_08) && negb clean
  then (ERR_MD_UNCLEAN, None, b)
  else if negb (magic =? DRBD_MD_MAGIC_09) && negb (magic =? DRBD_MD_MAGIC_84_UNCLEAN) && negb (magic =? DRBD_MD_MAGIC_08) then (ERR_MD_INVALID, None, b)
  else if magic =? DRBD_MD_MAGIC_09 then
    let (r, b) := md_checks my_node_id (set_md (decode_md_9 (as_9 blk) (bd_md b)) b) in (r, Some false, b)
  else if negb drbd8_compat_mode then (ERR_MD_INVALID, None, b)
  else
    let b := set_md (drbd_md_decode_84 (as_84 blk) (bd_md b)) b in
    if negb (bm_block_size (bd_md b) =? 4096) then (ERR_MD_INVALID, Some true, b)
    else let (r, b) := md_checks my_node_id b in (r, Some true, b).

(** [drbd_md_read]: where the super block is, and what is in it. *)
Definition drbd_md_read (drbd8_compat_mode : bool) (my_node_id idx : Z) (read : Z -> option md_block) (b : backing_dev)
    : option md_ret * backing_dev :=
  let m := bd_md b in
  let m := mk_meta (m_md_offset m) (effective_size m) (prev_members m) (members m) (current_uuid m) (device_uuid m) (m_flags m) (node_id m) (md_size_sect m)
    (m_al_offset m) (bm_offset m) (max_peers m) (bm_block_size m) (m_bm_block_shift m) (peers m) (history_uuids m) idx (m_al_stripes m) (m_al_stripe_size_4k m) (m_al_size_4k m) in
  let ss := drbd_md_ss (set_md m b) in
  let b := set_md (set_layout ss 8 (m_al_offset m) (bm_offset m) m) b in
  match read ss with
  | None => (None, b)                                  (* ERR_IO_MD_DISK *)
  | Some blk => let '(r, _, b) := drbd_md_decode drbd8_compat_mode my_node_id blk b in (Some r, b)
  end.
End meta.
