(* ===== verification/MetaLayout.v ===== *)
(** * Theorems on the layout of the meta-data

    What the checks at attach guarantee of the places of super block, activity log and bitmap, and
    that a super block that was written is accepted and read back. *)
From S2P Require Import Prelude Bitmap BitmapResize BitmapSync ActLog ActLogProps MetaData.

(** ** Integers *)

Lemma to_int_id z : - 2 ^ 31 <= z < 2 ^ 31 -> to_int z = z.
Proof. intros. unfold to_int. rewrite Z.mod_small by lia. lia. Qed.

Lemma to_int_range z : - 2 ^ 31 <= to_int z < 2 ^ 31.
Proof. unfold to_int. pose proof (Z.mod_pos_bound (z + 2 ^ 31) (2 ^ 32) ltac:(lia)). lia. Qed.

Lemma to_int_u32 z : - 2 ^ 31 <= z < 2 ^ 31 -> to_int (u32 z) = z.
Proof. intros. unfold to_int, u32. rewrite Zplus_mod_idemp_l, Z.mod_small by lia. lia. Qed.

Lemma to_int_inv z : - 2 ^ 31 - 8 <= z < 2 ^ 31 -> 0 <= to_int z <= 2 ^ 30 -> to_int z = z.
Proof. unfold to_int. intros. Z.div_mod_to_equations. lia. Qed.

Lemma u64_neg z : - 2 ^ 64 <= z < 0 -> u64 z = z + 2 ^ 64.
Proof. intros. unfold u64. rewrite <- (Z_mod_plus_full z 1), Z.mod_small by lia. lia. Qed.

Lemma land7 x : Z.land x 7 = x mod 8.
Proof. apply (Z.land_ones x 3). lia. Qed.

Lemma ldiff7 x : Z.ldiff x 7 = x - x mod 8.
Proof. change 7 with (Z.ones 3). rewrite Z.ldiff_ones_r, Z.shiftl_mul_pow2, Z.shiftr_div_pow2 by lia. change (2 ^ 3) with 8. pose proof (Z.div_mod x 8). lia. Qed.

(** ** Sectors of the bitmap *)

Definition bits_of (shift cap : Z) : Z := (cap + (2 ^ (shift - 9) - 1)) / 2 ^ (shift - 9).
Definition words64_of (shift cap : Z) : Z := (bits_of shift cap + 63) / 64.
Definition bm_sect_of (shift mp cap : Z) : Z := (words64_of shift cap * 8 * mp + 4095) / 4096 * 8.

Lemma bits_of_range shift cap : 12 <= shift -> 0 <= cap -> 0 <= bits_of shift cap /\ 8 * bits_of shift cap <= cap + 7 /\ cap <= bits_of shift cap * 2 ^ (shift - 9).
Proof.
  intros Hs Hc. unfold bits_of. set (p := 2 ^ (shift - 9)). assert (8 <= p) by (apply (Z.pow_le_mono_r 2 3 (shift - 9)); lia).
  pose proof (Z.div_mod (cap + (p - 1)) p ltac:(lia)) as E. pose proof (Z.mod_pos_bound (cap + (p - 1)) p ltac:(lia)) as B.
  set (q := (cap + (p - 1)) / p) in *. set (r := (cap + (p - 1)) mod p) in *. assert (0 <= q) by (apply Z.div_pos; lia). nia.
Qed.

Lemma words64_range shift cap : 12 <= shift -> 0 <= cap -> 0 <= words64_of shift cap /\ 512 * words64_of shift cap <= cap + 511 /\ bits_of shift cap <= 64 * words64_of shift cap.
Proof. intros Hs Hc. pose proof (bits_of_range shift cap Hs Hc). unfold words64_of. Z.div_mod_to_equations. lia. Qed.

Lemma bm_sect_range shift mp cap : 12 <= shift -> 0 <= mp <= 32 -> 0 <= cap <= 2 ^ 41 ->
  0 <= bm_sect_of shift mp cap <= 2 ^ 31 /\ bm_sect_of shift mp cap mod 8 = 0 /\ words64_of shift cap * mp <= 64 * bm_sect_of shift mp cap.
Proof.
  intros Hs Hm Hc. destruct (words64_range shift cap Hs ltac:(lia)) as (W1 & W2 & _). unfold bm_sect_of. set (w := words64_of shift cap) in *.
  assert (0 <= w <= 2 ^ 32) by lia. assert (0 <= w * mp <= 2 ^ 37) by nia.
  replace (w * 8 * mp) with (w * mp * 8) by lia. set (x := w * mp) in *. split; [Z.div_mod_to_equations; lia|]. split; [apply Z_mod_mult|]. Z.div_mod_to_equations. lia.
Qed.

Lemma bm_sect_mono shift mp c1 c2 : 12 <= shift -> 0 <= mp -> c1 <= c2 -> bm_sect_of shift mp c1 <= bm_sect_of shift mp c2.
Proof.
  intros Hs Hm Hc. unfold bm_sect_of, words64_of, bits_of. set (p := 2 ^ (shift - 9)). assert (0 < p) by (apply Z.pow_pos_nonneg; lia).
  assert ((c1 + (p - 1)) / p <= (c2 + (p - 1)) / p) by (apply Z.div_le_mono; lia).
  set (b1 := (c1 + (p - 1)) / p) in *. set (b2 := (c2 + (p - 1)) / p) in *. assert ((b1 + 63) / 64 <= (b2 + 63) / 64) by (apply Z.div_le_mono; lia).
  apply Z.mul_le_mono_nonneg_r; [lia|]. apply Z.div_le_mono; nia.
Qed.

(** The routine, for the sizes that a device can have. *)
Lemma bm_sect_eq m cap : 12 <= m_bm_block_shift m <= 30 -> 0 <= max_peers m <= 32 -> 0 <= cap <= 2 ^ 41 ->
  drbd_capacity_to_on_disk_bm_sect cap m = bm_sect_of (m_bm_block_shift m) (max_peers m) cap.
Proof.
  intros Hs Hm Hc. unfold drbd_capacity_to_on_disk_bm_sect, sect_per_bit, sect_to_bit. rewrite Z.shiftl_1_l, align_pow2 by lia.
  fold (bits_of (m_bm_block_shift m) cap). destruct (bits_of_range (m_bm_block_shift m) cap) as (B1 & B2 & B3); [lia..|].
  destruct (words64_range (m_bm_block_shift m) cap) as (W1 & W2 & W3); [lia..|].
  assert (2 ^ 3 <= 2 ^ (m_bm_block_shift m - 9) <= 2 ^ 21) as Hp by (split; apply Z.pow_le_mono_r; lia).
  pose proof (Z.mul_div_le (cap + (2 ^ (m_bm_block_shift m - 9) - 1)) (2 ^ (m_bm_block_shift m - 9)) ltac:(lia)) as Hq. fold (bits_of (m_bm_block_shift m) cap) in Hq.
  rewrite (u64_small (bits_of _ _ * _)) by (split; [apply Z.mul_nonneg_nonneg; lia|lia]). rewrite (Z.shiftr_div_pow2 (bits_of _ _ * _)), Z.div_mul by lia. rewrite align64. fold (words64_of (m_bm_block_shift m) cap).
  unfold bm_sect_of. set (w := words64_of (m_bm_block_shift m) cap) in *. rewrite (u64_small (w * 64)) by lia.
  replace (w * 64 / 8) with (w * 8) by (Z.div_mod_to_equations; lia). assert (0 <= w * 8 * max_peers m <= 2 ^ 40) by nia.
  rewrite (u64_small (w * 8 * _)) by lia. change 4096 with (2 ^ 12). rewrite align_pow2 by lia. change (2 ^ 12) with 4096. change (4096 - 1) with 4095.
  set (x := w * 8 * max_peers m) in *. rewrite (u64_small (_ * 4096)) by (Z.div_mod_to_equations; lia). rewrite Z.shiftr_div_pow2 by lia.
  change (2 ^ 9) with 512. replace ((x + 4095) / 4096 * 4096) with ((x + 4095) / 4096 * 8 * 512) by lia. by rewrite Z.div_mul.
Qed.

(** ** Accepted meta-data *)

Record md_width (m : meta_data) : Prop := {
  mw_effective : 0 <= effective_size m < 2 ^ 64;
  mw_size : 0 <= md_size_sect m < 2 ^ 32;
  mw_al : - 2 ^ 31 <= m_al_offset m < 2 ^ 31;
  mw_bm : - 2 ^ 31 <= bm_offset m < 2 ^ 31;
  mw_peers : 0 <= max_peers m < 2 ^ 32;
  mw_stripes : 0 <= m_al_stripes m < 2 ^ 32 /\ 0 <= m_al_stripe_size_4k m < 2 ^ 32 }.

(** A stretch of sectors: the first and their number. *)
Definition super_area (m : meta_data) : Z * Z := (m_md_offset m, 8).
Definition al_area (m : meta_data) : Z * Z := (m_md_offset m + m_al_offset m, 8 * m_al_size_4k m).
Definition bm_area (m : meta_data) : Z * Z := (m_md_offset m + bm_offset m, drbd_capacity_to_on_disk_bm_sect (effective_size m) m).
Definition apart (a b : Z * Z) : Prop := fst a + snd a <= fst b \/ fst b + snd b <= fst a.
Definition within (lo hi : Z) (a : Z * Z) : Prop := lo <= fst a /\ fst a + snd a <= hi.

Section layout.
Context `{MdHeaders}.

Record md_layout (b : backing_dev) : Prop := {
  ly_super : within (drbd_md_first_sector (bd_md b)) (md_sectors b) (super_area (bd_md b));
  ly_al : within (drbd_md_first_sector (bd_md b)) (md_sectors b) (al_area (bd_md b));
  ly_bm : within (drbd_md_first_sector (bd_md b)) (md_sectors b) (bm_area (bd_md b));
  ly_super_al : apart (super_area (bd_md b)) (al_area (bd_md b));
  ly_super_bm : apart (super_area (bd_md b)) (bm_area (bd_md b));
  ly_al_bm : apart (al_area (bd_md b)) (bm_area (bd_md b));
  ly_bits : 1 <= max_peers (bd_md b) -> bits_of (m_bm_block_shift (bd_md b)) (effective_size (bd_md b)) <=
    drbd_md_on_disk_bits (m_al_offset (bd_md b)) (md_size_sect (bd_md b)) (bm_offset (bd_md b)) (max_peers (bd_md b)) }.

(** What the checks before leave to [check_offsets_and_sizes]. *)
Record md_checked (m : meta_data) : Prop := {
  mc_width : md_width m;
  mc_shift : 12 <= m_bm_block_shift m <= 30;
  mc_al_size : 8 <= m_al_size_4k m <= 2 ^ 22;
  mc_effective : effective_size m <= 2 ^ 41 }.

Lemma check_stripes_size m m' : check_stripes m = Some m' -> exists s, m' = set_al (m_al_stripes m) (m_al_stripe_size_4k m) s m /\ 8 <= s <= 2 ^ 22.
Proof.
  unfold check_stripes, check_activity_log_stripe_size. destruct (if (_ && _)%bool then _ else _) as [st sz].
  change (16 * 1024 * 1024 / 4) with (2 ^ 22). change (Z.shiftr 32768 9 / 8) with 8. do 3 (case_if; [done|]). intros [= <-]. eexists. split; [done|]. simpl. lia.
Qed.

(** The bits that fit in [s] sectors. *)
Lemma on_disk_bits_room shift mp cap s : 12 <= shift -> 1 <= mp <= 32 -> 0 <= cap <= 2 ^ 41 -> bm_sect_of shift mp cap <= s < 2 ^ 32 ->
  bits_of shift cap <= u64 (Z.shiftl (u64 (Z.shiftl (u64 s) (9 - 3)) / mp) 6).
Proof.
  intros Hs Hm Hc Hn. destruct (bm_sect_range shift mp cap) as (R1 & _ & R3); [lia..|]. destruct (words64_range shift cap) as (W1 & _ & W3); [lia..|].
  rewrite (u64_small s), !Z.shiftl_mul_pow2 by lia. change (2 ^ (9 - 3)) with 64. change (2 ^ 6) with 64. rewrite (u64_small (s * 64)) by lia.
  assert (words64_of shift cap <= s * 64 / mp) by (apply Z.div_le_lower_bound; lia).
  assert (s * 64 / mp <= s * 64) by (apply Z.div_le_upper_bound; nia). rewrite u64_small by lia. lia.
Qed.

(** The last whole block of 4k. *)
Lemma last_block cap : 0 <= cap < 2 ^ 62 ->
  (8 <= cap /\ u64 (Z.ldiff cap 7 - 8) = cap - cap mod 8 - 8) \/ (cap < 8 /\ u64 (Z.ldiff cap 7 - 8) = 2 ^ 64 - 8).
Proof.
  intros Hc. rewrite ldiff7. pose proof (Z.mod_pos_bound cap 8 ltac:(lia)). destruct (Z.le_gt_cases 8 cap).
  - left. split; [done|]. rewrite u64_small; [lia|]. pose proof (Z.mod_le cap 8 ltac:(lia) ltac:(lia)). assert (8 <= cap - cap mod 8) by (Z.div_mod_to_equations; lia). lia.
  - right. split; [lia|]. rewrite (Z.mod_small cap 8) by lia. rewrite Z.sub_diag. by rewrite u64_neg by lia.
Qed.

(** The offsets of accepted internal meta-data. *)
Record internal_offsets (m : meta_data) (cap : Z) : Prop := {
  io_al : m_al_offset m = - (8 * m_al_size_4k m);
  io_bm : bm_offset m <= m_al_offset m;
  io_md : 0 <= m_md_offset m + bm_offset m /\ m_md_offset m + 8 <= cap;
  io_first : drbd_md_first_sector m = m_md_offset m + bm_offset m;
  io_size : drbd_capacity_to_on_disk_bm_sect (effective_size m) m <= m_al_offset m - bm_offset m;
  io_peers : max_peers m <= 32 }.

Lemma internal_checked b : md_checked (bd_md b) -> is_internal (meta_dev_idx (bd_md b)) = true -> 0 <= md_sectors b < 2 ^ 62 ->
  m_md_offset (bd_md b) = u64 (Z.ldiff (md_sectors b) 7 - 8) -> check_offsets_and_sizes b = true -> internal_offsets (bd_md b) (md_sectors b).
Proof.
  destruct b as [m bs cap]. cbn [bd_md md_sectors]. intros [[W1 W2 W3 W4 W5 W6] Hsh Hal Heff] Hint Hcap Hoff. unfold check_offsets_and_sizes, on_disk_sect. cbn [bd_md md_sectors].
  assert (meta_dev_idx m < 0) as Hidx. { unfold is_internal in Hint. apply orb_true_iff in Hint. pose proof index_negative. destruct Hint; reflect_bools; lia. }
  rewrite (proj2 (Z.leb_gt 0 (meta_dev_idx m))) by done. cbn [andb]. rewrite land7. change (Z.shiftr 32768 9) with 64. change (Z.of_nat PEERS_MAX) with 32.
  assert (drbd_md_first_sector m = u64 (m_md_offset m + bm_offset m)) as Hf by (unfold drbd_md_first_sector; by rewrite Hint). rewrite Hf.
  rewrite (u32_small (m_al_size_4k m * 8)) by lia. case_if; [done|]. pose proof (Z.mod_pos_bound cap 8 ltac:(lia)) as Hmod.
  assert (0 <= m_md_offset m < 2 ^ 64) as Hr by (rewrite Hoff; apply u64_range).
  case_if.
  - case_if; [done|]. case_if; [done|]. rewrite (u64_small (cap - _)) by lia. case_if; [done|]. case_if; [done|]. case_if; [done|]. do 2 (case_if; [done|]). intros _. reflect_bools.
    assert (m_al_offset m <> - 2 ^ 31) by (intros E; rewrite E in H1; vm_compute in H1; congruence).
    rewrite to_int_id in H1, Ec4, Ec6 by lia. rewrite u32_small in Ec4 by lia. rewrite (u64_small (_ - _)) in Ec6 by lia.
    assert (8 <= cap /\ m_md_offset m = cap - cap mod 8 - 8) as [Hc8 Hmd].
    { destruct (last_block cap Hcap) as [|[Hc E]]; [intuition congruence|]. rewrite E in Hoff. rewrite Hoff, u64_small in Ec3 by lia. lia. }
    assert (0 <= m_md_offset m + bm_offset m) by (destruct (Z.le_gt_cases 0 (m_md_offset m + bm_offset m)); [done|]; rewrite u64_neg in Ec3 by lia; lia).
    rewrite u64_small in Hf by lia. split; lia || done.
  - case_if; [done|]. case_if; [done|]. case_if; [done|]. rewrite (u64_small (cap - _)) by lia. case_if; [done|]. case_if; [done|]. case_if; [done|]. do 2 (case_if; [done|]). intros _. exfalso.
    pose proof (to_int_range (bm_offset m - 8)). rewrite u32_small in Ec5 by lia. rewrite (to_int_inv (bm_offset m - 8)) in * by lia.
    destruct (last_block cap Hcap) as [[Hc E]|[Hc E]]; rewrite E in Hoff.
    + rewrite u64_small in Ec4 by lia. lia.
    + replace (m_md_offset m + bm_offset m) with (bm_offset m - 8 + 1 * 2 ^ 64) in Ec4 by lia. unfold u64 in Ec4. rewrite Z_mod_plus_full, Z.mod_small in Ec4 by lia. lia.
Qed.

Lemma internal_layout b : md_checked (bd_md b) -> is_internal (meta_dev_idx (bd_md b)) = true -> 0 <= md_sectors b < 2 ^ 62 ->
  m_md_offset (bd_md b) = u64 (Z.ldiff (md_sectors b) 7 - 8) -> check_offsets_and_sizes b = true -> md_layout b.
Proof.
  intros Hc Hint Hcap Hoff Hck. destruct (internal_checked b Hc Hint Hcap Hoff Hck) as [I1 I2 [I3 I3'] I4 I5 I6]. destruct Hc as [W Hsh Hal Heff].
  pose proof (mw_effective _ W). pose proof (mw_peers _ W). pose proof (mw_bm _ W). rewrite bm_sect_eq in I5 by lia. destruct (bm_sect_range (m_bm_block_shift (bd_md b)) (max_peers (bd_md b)) (effective_size (bd_md b))) as (R1 & _); [lia..|].
  split; unfold within, apart, super_area, al_area, bm_area; simpl; rewrite ?I4, ?bm_sect_eq by lia; try lia.
  intros Hp. unfold drbd_md_on_disk_bits. rewrite (proj2 (Z.eqb_neq (m_al_offset (bd_md b)) 8)) by lia. rewrite to_int_id by lia. apply on_disk_bits_room; lia.
Qed.

(** Meta-data on a device of its own, and in a slot of a shared one. *)
Record external_offsets (m : meta_data) (cap : Z) : Prop := {
  xo_al : m_al_offset m = 8;
  xo_bm : bm_offset m = 8 + 8 * m_al_size_4k m;
  xo_md : m_md_offset m + md_size_sect m <= cap;
  xo_size : bm_offset m <= md_size_sect m -> drbd_capacity_to_on_disk_bm_sect (effective_size m) m <= md_size_sect m - bm_offset m;
  xo_peers : max_peers m <= 32 }.

Lemma external_checked b : md_checked (bd_md b) -> is_internal (meta_dev_idx (bd_md b)) = false -> 0 <= md_sectors b < 2 ^ 62 ->
  0 <= m_al_offset (bd_md b) -> check_offsets_and_sizes b = true -> external_offsets (bd_md b) (md_sectors b).
Proof.
  destruct b as [m bs cap]. cbn [bd_md md_sectors]. intros [[W1 W2 W3 W4 W5 W6] Hsh Hal Heff] Hint Hcap Hoff. unfold check_offsets_and_sizes, on_disk_sect. cbn [bd_md md_sectors].
  assert (drbd_md_first_sector m = m_md_offset m) as Hf by (unfold drbd_md_first_sector; by rewrite Hint). rewrite Hf. change (Z.of_nat PEERS_MAX) with 32.
  rewrite (u32_small (m_al_size_4k m * 8)) by lia. case_if; [done|]. rewrite (proj2 (Z.ltb_ge (m_al_offset m) 0)) by done. case_if; [done|]. case_if; [done|]. case_if; [done|].
  case_if; [done|]. rewrite (u64_small (cap - _)) by lia. case_if; [done|]. case_if; [done|]. case_if; [done|]. do 2 (case_if; [done|]). intros _.
  pose proof (to_int_range (bm_offset m - 8)). change (Z.shiftr 32768 9) with 64 in *. rewrite u32_small in Ec5 by lia. rewrite (to_int_inv (bm_offset m - 8)) in * by lia.
  split; try lia. intros Hle. destruct (Z.lt_ge_cases (md_size_sect m - bm_offset m) (2 ^ 31)).
  - rewrite to_int_id, u64_small in Ec7 by lia. done.
  - rewrite bm_sect_eq by lia. destruct (bm_sect_range (m_bm_block_shift m) (max_peers m) (effective_size m)) as (R1 & _); [lia..|]. lia.
Qed.

Lemma external_layout b : md_checked (bd_md b) -> is_internal (meta_dev_idx (bd_md b)) = false -> 0 <= md_sectors b < 2 ^ 62 ->
  0 <= m_al_offset (bd_md b) -> bm_offset (bd_md b) <= md_size_sect (bd_md b) -> check_offsets_and_sizes b = true -> md_layout b.
Proof.
  intros Hc Hint Hcap Hal0 Hle Hck. destruct (external_checked b Hc Hint Hcap Hal0 Hck) as [I1 I2 I3 I4 I5]. destruct Hc as [W Hsh Hal Heff]. specialize (I4 Hle).
  pose proof (mw_effective _ W). pose proof (mw_peers _ W). pose proof (mw_size _ W). rewrite bm_sect_eq in I4 by lia. destruct (bm_sect_range (m_bm_block_shift (bd_md b)) (max_peers (bd_md b)) (effective_size (bd_md b))) as (R1 & _); [lia..|].
  assert (drbd_md_first_sector (bd_md b) = m_md_offset (bd_md b)) as Hf by (unfold drbd_md_first_sector; by rewrite Hint).
  split; unfold within, apart, super_area, al_area, bm_area; simpl; rewrite ?Hf, ?bm_sect_eq by lia; try lia.
  intros Hp. unfold drbd_md_on_disk_bits. rewrite I1. simpl (8 =? 8). cbv iota. rewrite u32_small by lia. apply on_disk_bits_room; lia.
Qed.

(** *** What reading accepts *)

(** Numbers of the width of their fields. *)
Record block_ok (blk : md_block) : Prop := {
  bo_size_9 : 0 <= od_effective_size (as_9 blk) < 2 ^ 64 /\ 0 <= od_md_size_sect (as_9 blk) < 2 ^ 32 /\ 0 <= od_bm_max_peers (as_9 blk) < 2 ^ 32;
  bo_al_9 : 0 <= od_al_stripes (as_9 blk) < 2 ^ 32 /\ 0 <= od_al_stripe_size_4k (as_9 blk) < 2 ^ 32;
  bo_size_84 : 0 <= o8_la_size_sect (as_84 blk) < 2 ^ 64 /\ 0 <= o8_md_size_sect (as_84 blk) < 2 ^ 32;
  bo_al_84 : 0 <= o8_al_stripes (as_84 blk) < 2 ^ 32 /\ 0 <= o8_al_stripe_size_4k (as_84 blk) < 2 ^ 32 }.

Lemma decode_9_width blk m : block_ok blk -> md_width (decode_md_9 (as_9 blk) m).
Proof. intros [? ? ? ?]. split; simpl; try apply to_int_range; lia || intuition. Qed.

Lemma decode_84_width blk m : block_ok blk -> md_width (drbd_md_decode_84 (as_84 blk) m).
Proof. intros [? ? ? ?]. split; simpl; try apply to_int_range; lia || intuition. Qed.

(** Peers that have a slot have one that exists, and the node itself has none. *)
Definition slots_ok (my_node_id : Z) (m : meta_data) : Prop :=
  forall i p, peers m !! i = Some p -> pm_bitmap_index p <> -1 -> Z.of_nat i <> my_node_id /\ 0 <= pm_bitmap_index p < max_peers m.

Record accepted (my_node_id : Z) (b b' : backing_dev) : Prop := {
  ac_same : md_sectors b' = md_sectors b /\ backing_sectors b' = backing_sectors b;
  ac_place : m_md_offset (bd_md b') = m_md_offset (bd_md b) /\ meta_dev_idx (bd_md b') = meta_dev_idx (bd_md b);
  ac_width : md_width (bd_md b');
  ac_shift : 12 <= m_bm_block_shift (bd_md b') <= 30;
  ac_al_size : 8 <= m_al_size_4k (bd_md b') <= 2 ^ 22 /\ (m_al_stripes (bd_md b') <> 0 -> md_ok (al_part (bd_md b')));
  ac_check : check_offsets_and_sizes b' = true;
  ac_node : node_id (bd_md b') = -1 \/ node_id (bd_md b') = my_node_id;
  ac_slots : (forall p, p ∈ peers (bd_md b) -> - 2 ^ 31 <= pm_bitmap_index p < 2 ^ 31) -> slots_ok my_node_id (bd_md b') }.

Lemma forallb_imap {A} (f : nat -> A -> bool) l : forallb (fun '(i, p) => f i p) (imap pair l) = true -> forall i p, l !! i = Some p -> f i p = true.
Proof.
  rewrite forallb_forall. intros Hf i p Hl. specialize (Hf (i, p)). apply Hf. apply list_elem_of_In, elem_of_lookup_imap. eauto.
Qed.

Lemma block_shift_range bs : BM_BLOCK_SIZE_MIN <= bs -> bs <= BM_BLOCK_SIZE_MAX -> 12 <= Z.log2 bs <= 30.
Proof. intros Hmin Hmax. pose proof block_size_range. split; [apply (Z.log2_le_mono (2 ^ 12)); lia|]. apply (Z.log2_le_mono bs (2 ^ 30)). lia. Qed.

Lemma md_checks_accept my_node_id b b' : md_width (bd_md b) -> md_checks my_node_id b = (NO_ERROR, b') -> accepted my_node_id b b'.
Proof.
  intros W. unfold md_checks. case_if; [done|]. destruct (check_stripes _) as [m|] eqn:Es; [|done]. case_if; [done|]. case_if; [done|]. destruct (forallb _ _) eqn:Ef; [|done]. intros [= <-].
  pose proof Es as Es'. apply check_stripes_size in Es as (s & -> & Hs). split; simpl; try done.
  - destruct W; split; done.
  - by apply block_shift_range.
  - split; [done|]. intros Hne. unfold check_stripes in Es'. destruct (check_activity_log_stripe_size _) as [a| |] eqn:Ea; try done. simplify_eq/=.
    pose proof (mw_stripes _ W). apply check_stripe_size_ok in Ea as ([O1 O2 O3 O4] & E1 & E2); try done; simpl in *; try lia. split; simpl; lia || congruence.
  - apply andb_false_iff in Ec0 as [Ec0|Ec0]; reflect_bools; auto.
  - intros Hw i p Hp Hne. pose proof (forallb_imap _ _ Ef i p Hp) as Hi. unfold index_ok in Hi. simpl in *. apply orb_true_iff in Hi as [Hi|Hi]; reflect_bools; [done|].
    split; [done|]. specialize (Hw p (list_elem_of_lookup_2 _ _ _ Hp)). rewrite u32_small in * by lia. lia.
Qed.

Lemma decode_9_index blk m p : p ∈ peers (decode_md_9 blk m) -> - 2 ^ 31 <= pm_bitmap_index p < 2 ^ 31.
Proof. simpl. intros (q & -> & _)%list_elem_of_fmap. apply to_int_range. Qed.

Lemma decode_84_index blk m p : p ∈ peers (drbd_md_decode_84 blk m) -> - 2 ^ 31 <= pm_bitmap_index p < 2 ^ 31.
Proof.
  simpl. intros Hp. apply list_elem_of_lookup in Hp as [i Hi]. apply list_lookup_insert_Some in Hi as [(_ & <- & _)|[_ Hi]]; [simpl; lia|].
  apply lookup_replicate in Hi as [-> _]. simpl. lia.
Qed.

Lemma drbd_md_read_accept compat my_node_id idx read b b' : (forall s blk, read s = Some blk -> block_ok blk) ->
  drbd_md_read compat my_node_id idx read b = (Some NO_ERROR, b') ->
  exists b1, accepted my_node_id b1 b' /\ md_sectors b1 = md_sectors b /\ backing_sectors b1 = backing_sectors b /\ meta_dev_idx (bd_md b1) = idx /\
    m_md_offset (bd_md b1) = drbd_md_ss b1 /\ slots_ok my_node_id (bd_md b').
Proof.
  intros Hread. unfold drbd_md_read. set (b0 := set_md _ b). assert (forall m, meta_dev_idx m = idx -> drbd_md_ss (set_md m b) = drbd_md_ss b0) as Hss by (intros m <-; done).
  destruct (read _) as [blk|] eqn:Er; [|done]. apply Hread in Er. unfold drbd_md_decode. destruct (decode_magic blk) as [magic flags].
  case_if; [done|]. case_if; [done|]. case_if; [|case_if; [done|]; case_if; [done|]].
  - match goal with |- context [md_checks _ ?x] => destruct (md_checks my_node_id x) as [r b2] eqn:Ek; pose (b1 := x) end. intros [= -> <-].
    apply md_checks_accept in Ek; [|by apply decode_9_width]. exists b1. do 5 (split; [done|]). apply (ac_slots _ _ _ Ek). intros p. apply decode_9_index.
  - match goal with |- context [md_checks _ ?x] => destruct (md_checks my_node_id x) as [r b2] eqn:Ek; pose (b1 := x) end. intros [= -> <-].
    apply md_checks_accept in Ek; [|by apply decode_84_width]. exists b1. do 5 (split; [done|]). apply (ac_slots _ _ _ Ek). intros p. apply decode_84_index.
Qed.

Lemma check_fixed b : check_offsets_and_sizes b = true -> 0 <= meta_dev_idx (bd_md b) -> fixed_layout (bd_md b) = true.
Proof.
  unfold check_offsets_and_sizes. case_if; [done|]. destruct (on_disk_sect _) as [[? ?]|]; [|done]. intros Hc Hi. apply Z.leb_le in Hi. rewrite Hi in Hc.
  by destruct (fixed_layout _).
Qed.

(** The gaps of the check: an external device whose log lies before the super block, or whose
    bitmap starts behind its end. *)
Definition no_gap (m : meta_data) : Prop := meta_dev_idx m = DRBD_MD_INDEX_FLEX_EXT -> 0 <= m_al_offset m /\ bm_offset m <= md_size_sect m.

Definition index_known (idx : Z) : Prop := 0 <= idx \/ is_internal idx = true \/ idx = DRBD_MD_INDEX_FLEX_EXT.

Lemma accepted_layout my_node_id b b' : accepted my_node_id b b' -> m_md_offset (bd_md b) = drbd_md_ss b -> 0 <= md_sectors b < 2 ^ 62 ->
  (is_internal (meta_dev_idx (bd_md b)) = true -> backing_sectors b = md_sectors b) -> index_known (meta_dev_idx (bd_md b)) ->
  effective_size (bd_md b') <= 2 ^ 41 -> no_gap (bd_md b') -> md_layout b'.
Proof.
  intros [[S1 S2] [P1 P2] W Hsh [Hal _] Hck _ _] Hoff Hcap Hsame Hk Heff Hgap. pose proof index_negative as (N1 & N2 & N3).
  assert (md_checked (bd_md b')) as Hc by (by split). destruct (is_internal (meta_dev_idx (bd_md b))) eqn:Hint.
  - apply internal_layout; rewrite ?P2, ?S1, ?P1; try done. rewrite Hoff. unfold drbd_md_ss. rewrite Hint, Hsame by done.
    rewrite (proj2 (Z.eqb_neq _ DRBD_MD_INDEX_FLEX_EXT)); [done|]. intros E. rewrite E in Hint. unfold is_internal in Hint. pose proof index_distinct. apply orb_true_iff in Hint as [Hint|Hint]; reflect_bools; tauto.
  - destruct Hk as [Hk|[Hk|Hk]]; [|congruence|].
    + pose proof (check_fixed b' Hck ltac:(lia)) as Hfix. unfold fixed_layout in Hfix. reflect_bools. change MD_INDEXED_SECT with 262144 in *. change (8 + Z.shiftr 32768 9) with 72 in *.
      apply external_layout; rewrite ?P2, ?S1; try done; lia.
    + destruct (Hgap ltac:(congruence)). apply external_layout; rewrite ?P2, ?S1; done.
Qed.

(** ** A new layout is accepted *)

(** The devices have the room that the layout takes. *)
Definition has_room (b : backing_dev) : Prop :=
  let m := bd_md b in
  let al := 8 * m_al_size_4k m in
  let bm := bm_sect_of (m_bm_block_shift m) (max_peers m) in
  if is_internal (meta_dev_idx m) then
    backing_sectors b = md_sectors b /\ effective_size m <= md_sectors b <= 2 ^ 41 /\
    bm (md_sectors b) + 8 + al <= 2 ^ 31 /\ bm (md_sectors b) + 8 + al <= md_sectors b - md_sectors b mod 8
  else if meta_dev_idx m =? DRBD_MD_INDEX_FLEX_EXT then
    effective_size m <= 2 ^ 41 /\ 8 + al + bm (effective_size m) <= md_sectors b < 2 ^ 32
  else
    effective_size m <= 2 ^ 41 /\ 0 <= meta_dev_idx m < 8192 /\ MD_INDEXED_SECT * (meta_dev_idx m + 1) <= md_sectors b < 2 ^ 62 /\
    bm_block_size m = 4096 /\ m_al_stripes m = 1 /\ m_al_stripe_size_4k m = 8 /\ m_al_size_4k m = 8 /\ bm (effective_size m) <= 262144 - 72.

(** Settings that can be used. *)
Record md_settings (m : meta_data) : Prop := {
  ms_effective : 0 <= effective_size m;
  ms_block_size : is_power_of_2 (bm_block_size m) = true /\ BM_BLOCK_SIZE_MIN <= bm_block_size m <= BM_BLOCK_SIZE_MAX;
  ms_shift : m_bm_block_shift m = Z.log2 (bm_block_size m);
  ms_peers : 1 <= max_peers m <= 32;
  ms_stripes : 1 <= m_al_stripes m < 2 ^ 32 /\ 1 <= m_al_stripe_size_4k m < 2 ^ 32;
  ms_al_size : m_al_size_4k m = m_al_stripes m * m_al_stripe_size_4k m /\ 8 <= m_al_size_4k m <= 2 ^ 22 }.

Lemma first_sector_external m : is_internal (meta_dev_idx m) = false -> drbd_md_first_sector m = m_md_offset m.
Proof. unfold drbd_md_first_sector. by intros ->. Qed.

Lemma flex_ext_external : is_internal DRBD_MD_INDEX_FLEX_EXT = false.
Proof. unfold is_internal. pose proof index_distinct as [? ?]. by rewrite !(proj2 (Z.eqb_neq _ _)). Qed.

Lemma settings_shift m : md_settings m -> 12 <= m_bm_block_shift m <= 30.
Proof. intros Hm. rewrite (ms_shift m Hm). destruct (ms_block_size m Hm) as [_ [? ?]]. by apply block_shift_range. Qed.

(** The offsets as plain integers. *)
Definition plain_layout (b : backing_dev) : Z * Z * Z * Z :=
  let m := bd_md b in
  let al := 8 * m_al_size_4k m in
  if is_internal (meta_dev_idx m) then
    let size := bm_sect_of (m_bm_block_shift m) (max_peers m) (md_sectors b) + 8 + al in
    (md_sectors b - md_sectors b mod 8 - 8, size, - al, 8 - size)
  else if meta_dev_idx m =? DRBD_MD_INDEX_FLEX_EXT then (0, md_sectors b, 8, 8 + al)
  else (MD_INDEXED_SECT * meta_dev_idx m, MD_INDEXED_SECT, 8, 8 + al).

Lemma set_sector_offsets_eq b : md_settings (bd_md b) -> has_room b ->
  drbd_md_set_sector_offsets b = let '(mdo, size, alo, bmo) := plain_layout b in set_md (set_layout mdo size alo bmo (bd_md b)) b.
Proof.
  intros Hm Hroom. pose proof (settings_shift _ Hm) as Hsh. destruct b as [m bs cap]. destruct Hm as [M1 M2 M3 M4 M5 [_ M6]]. unfold has_room, plain_layout, drbd_md_set_sector_offsets, drbd_md_ss in *.
  cbn [bd_md md_sectors backing_sectors] in *. rewrite (u32_small (m_al_size_4k m * 8)) by lia. destruct (is_internal (meta_dev_idx m)) eqn:Hint.
  - destruct Hroom as (-> & [R1 R1'] & R2 & R3). assert ((meta_dev_idx m =? DRBD_MD_INDEX_FLEX_EXT) = false) as ->.
    { apply Z.eqb_neq. intros E. rewrite E, flex_ext_external in Hint. done. }
    destruct (bm_sect_range (m_bm_block_shift m) (max_peers m) cap) as (B1 & B2 & _); [lia..|]. pose proof (Z.mod_pos_bound cap 8 ltac:(lia)).
    rewrite bm_sect_eq, ldiff7 by lia. rewrite (u64_small (_ - _ - 8)) by lia. rewrite (u64_small (_ + _)) by lia. rewrite !(u32_small (_ + _)) by lia. rewrite !to_int_id by lia. do 2 f_equal; lia.
  - case_if; [destruct Hroom as (R1 & R2)|destruct Hroom as (R1 & R2 & R3 & R4)]; unfold set_md; cbn [bd_md md_sectors backing_sectors].
    + destruct (bm_sect_range (m_bm_block_shift m) (max_peers m) (effective_size m)) as (B1 & _); [lia..|]. rewrite u32_small, to_int_id by lia. do 2 f_equal; lia.
    + change MD_INDEXED_SECT with 262144 in *. rewrite !to_int_id by lia. rewrite u64_small by lia. do 2 f_equal; lia.
Qed.

(** What is not in the super block, or read into another place. *)
Definition as_read (m0 m : meta_data) : meta_data :=
  mk_meta (m_md_offset m) (effective_size m) (members m) (members m0) (current_uuid m) (device_uuid m) (m_flags m) (node_id m) (md_size_sect m)
    (m_al_offset m) (bm_offset m) (max_peers m) (bm_block_size m) (m_bm_block_shift m) (peers m) (history_uuids m) (meta_dev_idx m) (m_al_stripes m) (m_al_stripe_size_4k m) (m_al_size_4k m).

Lemma check_offsets_intro b a s : max_peers (bd_md b) <= 32 -> on_disk_sect (bd_md b) = Some (a, s) -> (0 <= meta_dev_idx (bd_md b) -> fixed_layout (bd_md b) = true) ->
  md_size_sect (bd_md b) <= md_sectors b -> drbd_md_first_sector (bd_md b) <= u64 (md_sectors b - md_size_sect (bd_md b)) -> a mod 8 = 0 -> 64 <= a ->
  u32 a = u32 (m_al_size_4k (bd_md b) * 8) -> bm_offset (bd_md b) mod 8 = 0 -> drbd_capacity_to_on_disk_bm_sect (effective_size (bd_md b)) (bd_md b) <= u64 s ->
  check_offsets_and_sizes b = true.
Proof.
  intros H1 H2 H3 H4 H5 H6 H7 H8 H9 H10. unfold check_offsets_and_sizes. rewrite H2, !land7, H6, H8, H9, !Z.eqb_refl. change (Z.of_nat PEERS_MAX) with 32. change (Z.shiftr 32768 9) with 64.
  rewrite !(proj2 (Z.ltb_ge _ _)) by done. destruct (Z.leb_spec 0 (meta_dev_idx (bd_md b))) as [Hi|]; [by rewrite (H3 Hi)|done].
Qed.

Lemma on_disk_internal m a s : m_al_offset m = - a -> bm_offset m = - a - s -> 0 < a -> 0 <= s -> a + s <= 2 ^ 31 -> a < 2 ^ 31 -> s < 2 ^ 31 -> on_disk_sect m = Some (a, s).
Proof.
  intros E1 E2 H1 H2 H3 H4 H5. unfold on_disk_sect. rewrite E1, E2, (proj2 (Z.ltb_lt _ _)), (proj2 (Z.ltb_ge _ _)) by lia. rewrite !to_int_id by lia. do 2 f_equal; lia.
Qed.

Lemma on_disk_external m a size : md_size_sect m = size -> m_al_offset m = 8 -> bm_offset m = 8 + a -> 0 <= a < 2 ^ 30 -> a = 8 * m_al_size_4k m -> on_disk_sect m = Some (a, to_int (size - (8 + a))).
Proof.
  intros <- E1 E2 H1 H2. unfold on_disk_sect. rewrite E1, E2. simpl (8 <? 0). simpl (8 =? 8). cbn [negb]. cbv iota.
  rewrite (u32_small (m_al_size_4k m * 8)), (u32_small (8 + a)), u32_small by lia. rewrite (proj2 (Z.ltb_ge (8 + a) _)) by lia. rewrite (to_int_id (8 + a - 8)) by lia. by replace (8 + a - 8) with a by lia.
Qed.

(** [int] back to [u64] does not get smaller. *)
Lemma u64_to_int_le x : 0 <= x < 2 ^ 32 -> x <= u64 (to_int x).
Proof.
  intros Hx. destruct (Z.lt_ge_cases x (2 ^ 31)); [rewrite to_int_id, u64_small; lia|].
  assert (to_int x = x - 2 ^ 32) as -> by (unfold to_int; Z.div_mod_to_equations; lia). rewrite u64_neg; lia.
Qed.

Lemma mod8 x : x mod 8 = 0 <-> (8 | x).
Proof. apply Z.mod_divide. lia. Qed.

Lemma new_layout_accepted b m0 : md_settings (bd_md b) -> has_room b ->
  check_offsets_and_sizes (let '(mdo, size, alo, bmo) := plain_layout b in set_md (as_read m0 (set_layout mdo size alo bmo (bd_md b))) b) = true.
Proof.
  intros Hm Hroom. pose proof (settings_shift _ Hm) as Hsh. destruct b as [m bs cap]. destruct Hm as [M1 M2 M3 M4 M5 [_ M6]]. unfold has_room, plain_layout in *. cbn [bd_md md_sectors backing_sectors] in *.
  destruct (bm_sect_range (m_bm_block_shift m) (max_peers m) (effective_size m)) as (E1 & E2 & _); [lia| lia| repeat case_if_in Hroom; lia|].
  pose proof index_negative as (N1 & N2 & N3). destruct (is_internal (meta_dev_idx m)) eqn:Hint.
  - destruct Hroom as (-> & [R1 R1'] & R2 & R3). destruct (bm_sect_range (m_bm_block_shift m) (max_peers m) cap) as (B1 & B2 & _); [lia..|].
    pose proof (bm_sect_mono (m_bm_block_shift m) (max_peers m) (effective_size m) cap ltac:(lia) ltac:(lia) ltac:(lia)) as Hmono.
    set (sz := bm_sect_of _ _ cap) in *. pose proof (Z.mod_pos_bound cap 8 ltac:(lia)) as Hmod. apply mod8 in B2 as [k Hk].
    assert (meta_dev_idx m < 0) by (unfold is_internal in Hint; apply orb_true_iff in Hint; destruct Hint; reflect_bools; lia).
    apply (check_offsets_intro _ (8 * m_al_size_4k m) sz); cbn; try lia.
    + apply on_disk_internal; cbn; lia.
    + unfold drbd_md_first_sector. cbn. rewrite Hint, !u64_small by lia. lia.
    + apply mod8. exists (m_al_size_4k m). lia.
    + f_equal. lia.
    + apply mod8. exists (- k - m_al_size_4k m). lia.
    + rewrite bm_sect_eq, u64_small by (cbn; lia). done.
  - case_if; [destruct Hroom as (R1 & R2)|destruct Hroom as (R1 & R2 & R3 & R4 & R5 & R6 & R7 & R8)].
    + apply (check_offsets_intro _ (8 * m_al_size_4k m) (to_int (cap - (8 + 8 * m_al_size_4k m)))); cbn -[on_disk_sect]; try lia.
      * apply on_disk_external; cbn; lia.
      * rewrite first_sector_external by done. cbn. apply u64_range.
      * apply mod8. exists (m_al_size_4k m). lia.
      * f_equal. lia.
      * apply mod8. exists (1 + m_al_size_4k m). lia.
      * rewrite bm_sect_eq by (cbn; lia). cbn. etransitivity; [|apply u64_to_int_le; lia]. lia.
    + change MD_INDEXED_SECT with 262144 in *. rewrite R7. apply (check_offsets_intro _ 64 (to_int (262144 - 72))); cbn -[on_disk_sect fixed_layout]; try lia; try done.
      * apply (on_disk_external _ 64 262144); cbn; lia.
      * intros _. unfold fixed_layout. cbn. by rewrite R4, R5, R6.
      * rewrite first_sector_external by done. cbn. rewrite u64_small by lia. lia.
      * by rewrite R7.
      * rewrite bm_sect_eq by (cbn; lia). cbn. rewrite to_int_id, u64_small by lia. lia.
Qed.

(** ** Writing and reading back *)

(** The in-core mark of a peer with a bitmap says that it has a slot. *)
Record peer_values (p : peer_meta) : Prop := {
  pv_uuid : 0 <= pm_bitmap_uuid p < 2 ^ 64 /\ 0 <= pm_bitmap_dagtag p < 2 ^ 64;
  pv_flags : 0 <= pm_flags p < 2 ^ 32;
  pv_index : - 2 ^ 31 <= pm_bitmap_index p < 2 ^ 31;
  pv_mark : Z.testbit (pm_flags p) MDF_HAVE_BITMAP_bit = negb (pm_bitmap_index p =? -1) }.

Record meta_values (m : meta_data) : Prop := {
  mv_uuids : 0 <= current_uuid m < 2 ^ 64 /\ 0 <= device_uuid m < 2 ^ 64 /\ 0 <= members m < 2 ^ 64;
  mv_effective : effective_size m < 2 ^ 64;
  mv_flags : 0 <= m_flags m < 2 ^ 32;
  mv_node : - 2 ^ 31 <= node_id m < 2 ^ 31;
  mv_peers : Forall peer_values (peers m);
  mv_history : Forall (fun u => 0 <= u < 2 ^ 64) (history_uuids m) }.

Lemma ldiff_mask_width x y n : 0 <= n -> 0 <= x < 2 ^ n -> 0 <= Z.ldiff x y < 2 ^ n.
Proof.
  intros Hn Hx. assert (0 <= Z.ldiff x y) as H0 by (apply Z.ldiff_nonneg; lia). split; [done|]. destruct (Z.eq_dec (Z.ldiff x y) 0) as [->|Hne]; [lia|].
  apply Z.log2_lt_pow2; [lia|]. destruct (Z.eq_dec x 0) as [->|]; [by rewrite Z.ldiff_0_l in Hne|].
  eapply Z.le_lt_trans; [|apply (Z.log2_lt_pow2 x n); lia]. apply Z.log2_le_mono. apply Z.ldiff_le; [lia|].
  apply Z.bits_inj'. intros k Hk. rewrite !Z.ldiff_spec, Z.bits_0. by destruct (Z.testbit x k), (Z.testbit y k).
Qed.

Lemma peer_roundtrip p : peer_values p -> decode_peer (encode_peer p) = p.
Proof.
  intros [[V1 V2] V3 V4 V5]. destruct p as [u g f ix]. unfold decode_peer, encode_peer, MDF_HAVE_BITMAP. simpl in *. pose proof have_bitmap_range. rewrite to_int_u32, !u64_small by done.
  rewrite u32_small by (by apply ldiff_mask_width). f_equal. rewrite Z.shiftl_1_l. apply Z.bits_inj'. intros k Hk. destruct (Z.eqb_spec ix (-1)) as [->|Hne].
  - rewrite Z.ldiff_spec, Z.pow2_bits_eqb by lia. destruct (Z.eqb_spec MDF_HAVE_BITMAP_bit k) as [<-|]; [by rewrite V5|]. by destruct (Z.testbit f k).
  - rewrite Z.lor_spec, Z.ldiff_spec, Z.pow2_bits_eqb by lia. destruct (Z.eqb_spec MDF_HAVE_BITMAP_bit k) as [<-|]; [by rewrite V5, orb_true_r|]. by rewrite andb_true_r, orb_false_r.
Qed.

Lemma fmap_id_on {A} (f : A -> A) (P : A -> Prop) l : (forall x, P x -> f x = x) -> Forall P l -> f <$> l = l.
Proof. intros Hf. induction 1; simpl; [done|]. f_equal; auto. Qed.

(** Decoding what was encoded into the meta-data [m0]. *)
Lemma meta_roundtrip nr mbs m m0 : meta_values m -> md_settings m -> 0 <= md_size_sect m < 2 ^ 32 -> - 2 ^ 31 <= m_al_offset m < 2 ^ 31 -> - 2 ^ 31 <= bm_offset m < 2 ^ 31 ->
  decode_md_9 (drbd_md_encode_9 true nr mbs m) m0 =
  mk_meta (m_md_offset m0) (effective_size m) (members m) (members m0) (current_uuid m) (device_uuid m) (m_flags m) (node_id m) (md_size_sect m)
    (m_al_offset m) (bm_offset m) (max_peers m) (bm_block_size m) (m_bm_block_shift m0) (peers m) (history_uuids m) (meta_dev_idx m0) (m_al_stripes m) (m_al_stripe_size_4k m) (m_al_size_4k m0).
Proof.
  intros [(U1 & U2 & U3) V1 V2 V3 V4 V5] [M1 [_ M2] _ M4 [M5 M5'] _] H1 H2 H3. unfold decode_md_9, drbd_md_encode_9. pose proof block_size_range. simpl.
  rewrite !to_int_u32, !u64_small, !u32_small by lia. f_equal.
  - rewrite <- list_fmap_compose. by apply (fmap_id_on _ peer_values); [apply peer_roundtrip|].
  - apply (fmap_id_on _ (fun u => 0 <= u < 2 ^ 64)); [|done]. apply u64_small.
Qed.

(** Without a bitmap the marks for a full sync are added to the peers. *)
Definition full_sync_mark (p : peer_meta) : peer_meta :=
  mk_peer_meta (pm_bitmap_uuid p) (pm_bitmap_dagtag p) (Z.lor (pm_flags p) MDF_PEER_FULL_SYNC) (pm_bitmap_index p).
Definition as_written (bitmap : bool) (m : meta_data) : meta_data :=
  if bitmap then m else set_marks (m_flags m) ((full_sync_mark <$> take PEERS_MAX (peers m)) ++ drop PEERS_MAX (peers m)) m.

Lemma lor_bit_width f k : 0 <= k < 32 -> 0 <= f < 2 ^ 32 -> 0 <= Z.lor f (Z.shiftl 1 k) < 2 ^ 32.
Proof.
  intros Hk Hf. rewrite Z.shiftl_1_l. assert (2 ^ k < 2 ^ 32) by (apply Z.pow_lt_mono_r; lia). assert (0 < 2 ^ k) by (apply Z.pow_pos_nonneg; lia).
  assert (0 <= Z.lor f (2 ^ k)) as Hlor by (apply Z.lor_nonneg; lia). split; [done|].
  destruct (Z.eq_dec (Z.lor f (2 ^ k)) 0) as [->|Hne]; [lia|]. apply Z.log2_lt_pow2; [lia|]. rewrite Z.log2_lor, Z.log2_pow2 by lia.
  apply Z.max_lub_lt; [|lia]. destruct (Z.eq_dec f 0) as [->|]; [done|]. apply Z.log2_lt_pow2; lia.
Qed.

Lemma encode_full_sync p : peer_values p ->
  encode_peer (full_sync_mark p) = mk_peer_on_disk (od_bitmap_uuid (encode_peer p)) (od_bitmap_dagtag (encode_peer p)) (Z.lor (od_peer_flags (encode_peer p)) MDF_PEER_FULL_SYNC) (od_bitmap_index (encode_peer p)).
Proof.
  intros [_ V3 _ _]. unfold encode_peer, full_sync_mark, MDF_PEER_FULL_SYNC, MDF_HAVE_BITMAP.
  cbn [pm_flags od_peer_flags od_bitmap_uuid od_bitmap_dagtag od_bitmap_index pm_bitmap_uuid pm_bitmap_dagtag pm_bitmap_index].
  f_equal. pose proof have_bitmap_range. pose proof have_bitmap_own as Hown.
  rewrite (u32_small (Z.ldiff (pm_flags p) _)) by (apply ldiff_mask_width; [lia|exact V3]).
  rewrite u32_small by (apply ldiff_mask_width; [lia|apply lor_bit_width; [lia|exact V3]]). apply Z.bits_inj'. intros k Hk.
  rewrite !Z.shiftl_1_l, !Z.lor_spec, !Z.ldiff_spec, Z.lor_spec, !Z.pow2_bits_eqb by lia. destruct (Z.eqb_spec 3 k) as [<-|]; [|by rewrite !orb_false_r].
  rewrite (proj2 (Z.eqb_neq MDF_HAVE_BITMAP_bit 3)) by (intros E; rewrite E in Hown; set_solver). by rewrite !orb_true_r.
Qed.

Lemma encode_as_written bitmap nr mbs m : meta_values m -> drbd_md_encode_9 bitmap nr mbs m = drbd_md_encode_9 true nr mbs (as_written bitmap m).
Proof.
  intros Hv. destruct bitmap; [done|]. unfold drbd_md_encode_9, as_written, set_marks. simpl. f_equal. rewrite fmap_app. f_equal; [|by rewrite fmap_drop].
  rewrite <- fmap_take, <- !list_fmap_compose. apply list_fmap_ext. intros i p Hp. simpl. symmetry. apply encode_full_sync.
  apply (Forall_lookup_1 _ _ i _ (mv_peers _ Hv)). by apply lookup_take_Some in Hp as [Hp _].
Qed.

Lemma as_written_values bitmap m : meta_values m -> meta_values (as_written bitmap m).
Proof.
  intros Hv. destruct bitmap; [done|]. destruct Hv as [V1 V2 V3 V4 V5 V6]. split; try done. simpl. apply Forall_app. split; [|by apply Forall_drop].
  apply Forall_fmap. apply (Forall_impl peer_values); [by apply Forall_take|]. intros p [P1 P2 P3 P4]. split; try done; simpl; [apply lor_bit_width; lia|].
  rewrite Z.lor_spec, P4. unfold MDF_PEER_FULL_SYNC. rewrite Z.shiftl_1_l, Z.pow2_bits_eqb by lia. pose proof have_bitmap_own as Hown.
  rewrite (proj2 (Z.eqb_neq 3 MDF_HAVE_BITMAP_bit)) by (intros E; rewrite <- E in Hown; set_solver). by rewrite orb_false_r.
Qed.

Lemma as_written_settings bitmap m : md_settings m -> md_settings (as_written bitmap m).
Proof. intros Hm. destruct bitmap; [done|]. by destruct Hm; split. Qed.

Lemma as_written_slots bitmap my m : slots_ok my m -> slots_ok my (as_written bitmap m).
Proof.
  intros Hs. destruct bitmap; [done|]. intros i p Hp. simpl in Hp. apply lookup_app_Some in Hp as [Hp|[Hlen Hp]].
  - apply list_lookup_fmap_Some in Hp as (q & -> & Hq). apply lookup_take_Some in Hq as [Hq _]. apply (Hs i q Hq).
  - rewrite length_fmap, length_take, lookup_drop in *. apply (Hs i p). rewrite <- Hp. f_equal.
    destruct (Nat.le_gt_cases PEERS_MAX (length (peers m))); [rewrite Nat.min_l in * by done; lia|].
    apply lookup_lt_Some in Hp. lia.
Qed.

Lemma as_written_offsets bitmap b :
  drbd_md_set_sector_offsets (set_md (as_written bitmap (bd_md b)) b) = set_md (as_written bitmap (bd_md (drbd_md_set_sector_offsets b))) b.
Proof.
  destruct b as [m bs cap], bitmap; [reflexivity|]. unfold as_written, set_md, drbd_md_set_sector_offsets, drbd_md_ss.
  cbn [bd_md md_sectors backing_sectors meta_dev_idx set_marks m_al_size_4k].
  assert (forall l, drbd_capacity_to_on_disk_bm_sect bs (set_marks (m_flags m) l m) = drbd_capacity_to_on_disk_bm_sect bs m) as Hcap by done. rewrite Hcap.
  generalize (drbd_capacity_to_on_disk_bm_sect bs m). intros n. destruct (meta_dev_idx m =? DRBD_MD_INDEX_FLEX_EXT); [reflexivity|]. by destruct (is_internal (meta_dev_idx m)).
Qed.
End layout.
