(* ===== verification/DevSize.v ===== *)
(** * The size of a device

    [drbd_main.c] 6184-6291 and [drbd_nl.c] 1619-2024 and 5446-5461: how large a device may be on
    the local disk and with its peers, and the change of its size, which moves activity log and
    bitmap on disk. *)
From S2P Require Import Prelude Bitmap ActLog MetaData.

(** 1 PiB in sectors. *)
Definition DRBD_MAX_SECTORS : Z := Z.shiftl 1 (50 - 9).
Definition DRBD_BM_SECTORS_INDEXED : Z := Z.shiftr (Z.shiftl 128 20 - Z.shiftl 32 10 - Z.shiftl 4 10) 9.

(** What the device knows of a peer. *)
Record size_peer := mk_size_peer { sp_node_id : Z; have_sizes : bool; d_size : Z; max_size : Z; sp_up_to_date : bool }.

Record dds_flags := mk_dds { assume_unconnected_peer_has_space : bool; no_resync : bool; dds_2pc : bool }.

(** [struct resize_parms] *)
Record resize_parms := mk_rs { rs_al_stripes : Z; rs_al_stripe_size : Z }.

(** The answers to a two phase commit. *)
Record size_reply := mk_reply { reachable_nodes : Z; max_possible_size : Z }.

(** A device with a disk. [disk_size]: of its configuration; [sd_get_ldev]: [get_ldev] of
    [drbd_bm_resize] succeeds. *)
Record size_device := mk_size_device {
  sd_ldev : backing_dev;
  sd_peers : list size_peer;
  sd_vdisk : Z;
  sd_bitmap : option drbd_bitmap;
  sd_up_to_date : bool;
  sd_get_ldev : bool;
  disk_size : Z;
  twopc_reply : size_reply }.

Definition set_ldev (b : backing_dev) (d : size_device) : size_device :=
  mk_size_device b (sd_peers d) (sd_vdisk d) (sd_bitmap d) (sd_up_to_date d) (sd_get_ldev d) (disk_size d) (twopc_reply d).
Definition set_meta (m : meta_data) (d : size_device) : size_device := set_ldev (set_md m (sd_ldev d)) d.
Definition set_size_peers (l : list size_peer) (d : size_device) : size_device :=
  mk_size_device (sd_ldev d) l (sd_vdisk d) (sd_bitmap d) (sd_up_to_date d) (sd_get_ldev d) (disk_size d) (twopc_reply d).
Definition set_capacity (size : Z) (bm : option drbd_bitmap) (d : size_device) : size_device :=
  mk_size_device (sd_ldev d) (sd_peers d) size bm (sd_up_to_date d) (sd_get_ldev d) (disk_size d) (twopc_reply d).
Definition meta (d : size_device) : meta_data := bd_md (sd_ldev d).

Definition min_not_zero (x y : Z) : Z := if x =? 0 then y else if y =? 0 then x else Z.min x y.

(** Writes to the meta-data, in their order. *)
Inductive md_event :=
  | WriteSuper (m : meta_data)
  | InitializeAl (m : meta_data)
  | WriteBitmap (all : bool) (m : meta_data) (b : option drbd_bitmap).

Inductive determine_dev_size :=
  | DS_ERROR_SHRINK | DS_ERROR_SPACE_MD | DS_ERROR | DS_UNCHANGED | DS_SHRUNK | DS_GREW | DS_GREW_FROM_ZERO.

#[export] Instance determine_dev_size_eq_dec : EqDecision determine_dev_size.
Proof. solve_decision. Defined.

Section size.
Context `{Arch} `{MdHeaders}.

(** ** The local disk *)

(** [BUG]: the division by zero. *)
Definition bm_sect_to_max_capacity (m : meta_data) (bm_sect : Z) : outcome Z :=
  let bm_bytes := ALIGN_DOWN_4k (u64 (Z.shiftl bm_sect 9)) in
  bug_on! max_peers m =? 0 in
  let bm_bytes_per_peer := bm_bytes / max_peers m in
  let bm_bits_per_peer := u64 (bm_bytes_per_peer * 8) in
  Ret (u64 (Z.shiftl bm_bits_per_peer (m_bm_block_shift m - 9))).

Definition drbd_get_max_capacity (b : backing_dev) : outcome Z :=
  let m := bd_md b in
  let '(bm_sect, remaining) :=
    if is_internal (meta_dev_idx m) then (u64 (to_int (m_al_offset m - bm_offset m)), drbd_md_first_sector m)
    else if meta_dev_idx m =? DRBD_MD_INDEX_FLEX_EXT then (u32 (md_size_sect m - bm_offset m), backing_sectors b)
    else (DRBD_BM_SECTORS_INDEXED, backing_sectors b) in
  let! metadata_limit := bm_sect_to_max_capacity m bm_sect in
  let max_capacity := if DRBD_MAX_SECTORS <? remaining then DRBD_MAX_SECTORS else remaining in
  Ret (if metadata_limit <? max_capacity then metadata_limit else max_capacity).

(** [alloc]: there is memory for the copy of the device. *)
Definition drbd_local_max_size (alloc : bool) (b : backing_dev) : outcome Z :=
  if alloc then drbd_get_max_capacity (drbd_md_set_sector_offsets b) else Ret 0.

(** ** The peers *)

(** [ldev]: the device has a disk. *)
Definition drbd_partition_data_capacity (alloc : bool) (ldev : bool) (d : size_device) : outcome Z :=
  let capacity := fold_left (fun c p => if have_sizes p then min_not_zero c (d_size p) else c) (sd_peers d) (2 ^ 64 - 1) in
  let! capacity :=
    (if ldev then let! local_capacity := drbd_local_max_size alloc (sd_ldev d) in Ret (min_not_zero capacity local_capacity) else Ret capacity) in
  Ret (if capacity =? 2 ^ 64 - 1 then 0 else capacity).

(** They said yes to [size]. *)
Definition learn_size (size : Z) (p : size_peer) : size_peer :=
  mk_size_peer (sp_node_id p) (have_sizes p)
    (if negb (d_size p =? 0) && (d_size p <? size) then size else d_size p)
    (if max_size p <? size then size else max_size p) (sp_up_to_date p).

Definition update_first (f : size_peer -> size_peer) (id : Z) (l : list size_peer) : list size_peer :=
  match list_find (fun p => sp_node_id p = id) l with
  | Some (k, p) => <[k := f p]> l
  | None => l
  end.

(** The body of the loop for one node; all known so far, the maximum and the peers. *)
Definition max_agreeable_step (m : meta_data) (reachable size i : Z) (acc : bool * Z * list size_peer) : bool * Z * list size_peer :=
  let '(all_known, max, l) := acc in
  let seen := match peers m !! Z.to_nat i with Some p => test (pm_flags p) MDF_PEER_DEVICE_SEEN | None => false end in
  let unseen := (if seen then false else all_known, max, l) in
  if node_id m =? i then acc
  else if Z.testbit reachable i then (all_known, max, update_first (learn_size size) i l)
  else match snd <$> list_find (fun p => sp_node_id p = i) l with
       | Some p => if have_sizes p then (all_known, min_not_zero max (max_size p), l) else unseen
       | None => unseen
       end.

(** [n] nodes from [i] on. *)
Fixpoint max_agreeable_loop (m : meta_data) (reachable size : Z) (n : nat) (i : Z) (acc : bool * Z * list size_peer) : bool * Z * list size_peer :=
  match n with
  | O => acc
  | S n => max_agreeable_loop m reachable size n (i + 1) (max_agreeable_step m reachable size i acc)
  end.

Definition get_max_agreeable_size (reachable : Z) (max : Z) (d : size_device) : bool * Z * list size_peer :=
  max_agreeable_loop (meta d) reachable (max_possible_size (twopc_reply d)) NODE_IDS 0 (true, max, sd_peers d).

(** [current_size] is not used. *)
Definition drbd_new_dev_size (alloc : bool) (current_size user_capped_size : Z) (flags : dds_flags) (d : size_device) : outcome (Z * size_device) :=
  let la_size := effective_size (meta d) in
  let '(all_known_connected, p_size, l) := get_max_agreeable_size (if dds_2pc flags then reachable_nodes (twopc_reply d) else 0) 0 d in
  let d := set_size_peers l d in
  let! m_size := drbd_partition_data_capacity alloc true d in
  let p_size :=
    if all_known_connected then min_not_zero p_size m_size
    else if assume_unconnected_peer_has_space flags then min_not_zero p_size m_size
    else min_not_zero p_size la_size in
  let size := min_not_zero p_size m_size in
  Ret (if size <? user_capped_size then size else if negb (user_capped_size =? 0) then user_capped_size else size, d).

(** ** Changing the size *)

Definition effective_disk_size_determined (d : size_device) : bool :=
  negb (effective_size (meta d) =? 0) || sd_up_to_date d || existsb sp_up_to_date (sd_peers d).

(** The new layout of the activity log. *)
Definition apply_rs (rs : option resize_parms) (m : meta_data) : meta_data :=
  match rs with
  | Some rs => set_al (rs_al_stripes rs) (rs_al_stripe_size rs / 4) (u32 (u64 (rs_al_stripes rs * rs_al_stripe_size rs) / 4)) m
  | None => m
  end.

(** The code at [err_out]. *)
Definition restore (prev : meta_data) (m : meta_data) : meta_data :=
  set_effective (effective_size prev)
    (set_layout (m_md_offset prev) (md_size_sect prev) (m_al_offset prev) (bm_offset prev)
       (set_al (m_al_stripes prev) (m_al_stripe_size_4k prev) (u32 (m_al_stripes prev * m_al_stripe_size_4k prev)) m)).

(** The marks of an unreliable bitmap and activity log. *)
Definition with_peer_flags (f : Z -> Z) (p : peer_meta) : peer_meta := mk_peer_meta (pm_bitmap_uuid p) (pm_bitmap_dagtag p) (f (pm_flags p)) (pm_bitmap_index p).
Definition mark_unreliable (m : meta_data) : meta_data :=
  set_marks (Z.lor (m_flags m) MDF_AL_DISABLED)
    ((with_peer_flags (fun f => Z.lor f MDF_PEER_FULL_SYNC) <$> take PEERS_MAX (peers m)) ++ drop PEERS_MAX (peers m)) m.
(** [prev]: before the marks. *)
Definition mark_reliable (prev m : meta_data) : meta_data :=
  set_marks (if test (m_flags prev) MDF_AL_DISABLED then m_flags m else Z.ldiff (m_flags m) MDF_AL_DISABLED)
    (zip_with (fun p0 p => if test (pm_flags p0) MDF_PEER_FULL_SYNC then p else with_peer_flags (fun f => Z.ldiff f MDF_PEER_FULL_SYNC) p)
       (take PEERS_MAX (peers prev)) (take PEERS_MAX (peers m)) ++ drop PEERS_MAX (peers m)) m.

(** The bitmap gets its new size: [None] is an error. *)
Definition resize_bitmap (alloc : bool) (size : Z) (flags : dds_flags) (d : size_device) : outcome (option (option drbd_bitmap)) :=
  match sd_bitmap d with
  | None => Ret (Some None)
  | Some b =>
      let m := meta d in
      let on_disk := if sd_get_ldev d then Some (drbd_md_on_disk_bits (m_al_offset m) (md_size_sect m) (bm_offset m) (max_peers m)) else None in
      match drbd_bm_resize on_disk alloc size (negb (no_resync flags)) b with
      | Ret b => Ret (Some (Some b))
      | Fail _ => Ret None
      | BUG => BUG
      end
  end.

(** After the checks: the capacity of the device and its bitmap. *)
Definition change_capacity (alloc : bool) (size : Z) (flags : dds_flags) (d : size_device) : outcome (option size_device) :=
  if negb (sd_vdisk d =? size) || (match sd_bitmap d with Some b => negb (bm_dev_capacity b =? size) | None => false end) then
    let! r := resize_bitmap alloc size flags d in
    match r with
    | None => Ret None
    | Some bm =>
        let d := set_capacity size bm d in
        Ret (Some (if effective_disk_size_determined d && negb (effective_size (meta d) =? size) then set_meta (set_effective size (meta d)) d else d))
    end
  else Ret (Some d).

(** Memory for each of the allocations, and the mapping of persistent memory: [None] is
    meta-data that is not in it, [Some ok] the result of [drbd_dax_map]. *)
Record resources := mk_resources { buffer_ok : bool; copy_ok : bool; bitmap_ok : bool; dax : option bool }.

Definition ds_result (prev_size size : Z) : determine_dev_size :=
  if size <? prev_size then DS_SHRUNK
  else if prev_size <? size then if prev_size =? 0 then DS_GREW_FROM_ZERO else DS_GREW
  else DS_UNCHANGED.

(** Layout or size changed: mark, write all, unmark. *)
Definition write_layout (md_moved : bool) (d : size_device) : size_device * list md_event :=
  let m1 := mark_unreliable (meta d) in
  let m2 := mark_reliable (meta d) m1 in
  (set_meta m2 d, [WriteSuper m1; InitializeAl m1; WriteBitmap md_moved m1 (sd_bitmap d); WriteSuper m2]).

Definition drbd_determine_dev_size (res : resources) (peer_current_size : Z) (flags : dds_flags) (rs : option resize_parms) (d : size_device)
    : outcome (determine_dev_size * size_device * list md_event) :=
  if negb (buffer_ok res) then Ret (DS_ERROR, d, [])
  else
    let prev := meta d in
    let prev_size := sd_vdisk d in
    let d := set_meta (apply_rs rs prev) d in
    let d := set_ldev (drbd_md_set_sector_offsets (sd_ldev d)) d in
    let u_size := disk_size d in
    let! (size, d) := drbd_new_dev_size (copy_ok res) peer_current_size u_size flags d in
    let err_out rv d := Ret (rv, set_meta (restore prev (meta d)) d, []) in
    if (size <? effective_size prev) && (size <? u_size) then err_out DS_ERROR_SPACE_MD d
    else if (size <? effective_size prev) && bool_decide (is_Some rs) && (u_size =? 0) then err_out DS_ERROR_SHRINK d
    else
      let! r := change_capacity (bitmap_ok res) size flags d in
      match r with
      | None => err_out DS_ERROR d
      | Some d =>
          let la_size_changed := negb (effective_size prev =? effective_size (meta d)) in
          let md_moved := negb (m_md_offset prev =? m_md_offset (meta d)) || negb (md_size_sect prev =? md_size_sect (meta d)) in
          if la_size_changed || md_moved || bool_decide (is_Some rs) then
            if bool_decide (dax res = Some false) then err_out DS_UNCHANGED d
            else let (d, w) := write_layout md_moved d in Ret (ds_result prev_size size, d, w)
          else Ret (ds_result prev_size size, d, [])
      end.
End size.
