(* ===== verification/DevSizeProps.v ===== *)
(** * Lemmas on the size of a device *)
From S2P Require Import Prelude Bitmap BitmapResize ActLog MetaData MetaLayout DevSize.

(** ** Minima *)

Lemma min_not_zero_le x y z : z <> 0 -> x = z \/ y = z -> 0 <= x -> 0 <= y -> min_not_zero x y <> 0 /\ min_not_zero x y <= z.
Proof. unfold min_not_zero. intros. repeat case_if; lia. Qed.

Lemma min_not_zero_keep x y z : x <> 0 -> x <= z -> 0 <= x -> 0 <= y -> min_not_zero x y <> 0 /\ min_not_zero x y <= z.
Proof. unfold min_not_zero. intros. repeat case_if; lia. Qed.

Lemma min_not_zero_nonneg x y : 0 <= x -> 0 <= y -> 0 <= min_not_zero x y.
Proof. unfold min_not_zero. intros. repeat case_if; lia. Qed.

(** ** The capacity of a resized bitmap *)

Section capacity.
Context `{Arch}.

Lemma page_flag_capacity fl page b : bm_dev_capacity (set_page_flag fl page b) = bm_dev_capacity b.
Proof. unfold set_page_flag. by try case_match. Qed.

Lemma op_pages_capacity i op e fuel page b s r b' buf : bm_op_pages i op e fuel page b s = Ret (r, b', buf) -> bm_dev_capacity b' = bm_dev_capacity b.
Proof.
  revert page b s. induction fuel as [|fuel IH]; intros page b s; simpl; (case_if; [|by destruct op; intros [= <- <- <-]]); [done|].
  destruct (bm_op_page b op page e s) as [[s'|s'|r']| |]; simpl; try done; [| |by intros [= <- <- <-]].
  all: unfold bm_op_next_page; destruct op; try case_if; intros Hr; apply IH in Hr; rewrite Hr; done || apply page_flag_capacity.
Qed.

Lemma op_nobuf_capacity b i s e op r b' : bm_op_nobuf b i s e op = Ret (r, b') -> bm_dev_capacity b' = bm_dev_capacity b.
Proof.
  unfold bm_op_nobuf, bm_op. repeat case_if; try (by intros [= <- <-]).
  destruct (____bm_op b i s e op []) as [[[r1 b1] buf]| |] eqn:E; simpl; try done. intros [= <- <-]. unfold ____bm_op in E. by apply op_pages_capacity in E.
Qed.

Lemma for_slots_capacity body n i b b' : (forall i b b', body i b = Ret b' -> bm_dev_capacity b' = bm_dev_capacity b) ->
  for_slots body n i b = Ret b' -> bm_dev_capacity b' = bm_dev_capacity b.
Proof.
  intros Hb. revert i b. induction n as [|n IH]; intros i b; simpl; [by intros [= <-]|]. destruct (body i b) as [b1| |] eqn:E; simpl; try done.
  intros Hr. apply IH in Hr. rewrite Hr. by apply (Hb i).
Qed.

Lemma resize_slot_capacity obits bits have want first v i b b' : resize_slot obits bits have want first v i b = Ret b' -> bm_dev_capacity b' = bm_dev_capacity b.
Proof.
  unfold resize_slot. destruct v.
  - case_if; simpl; [|destruct (bm_op_nobuf _ _ _ _ _) as [[r1 b1]| |] eqn:E1; simpl; try done; apply op_nobuf_capacity in E1].
    all: case_if; simpl; [destruct (bm_op_nobuf _ _ first _ _) as [[r2 b2]| |] eqn:E2; simpl; try done; apply op_nobuf_capacity in E2|]; intros [= <-]; simpl; congruence.
  - case_if; simpl; [|destruct (bm_op_nobuf _ _ _ _ _) as [[r1 b1]| |] eqn:E1; simpl; try done; apply op_nobuf_capacity in E1]; intros [= <-]; simpl; congruence.
Qed.

Lemma fill_pages_capacity n p b : bm_dev_capacity (fill_pages n p b) = bm_dev_capacity b.
Proof. revert p b. induction n as [|n IH]; intros p b; simpl; [done|]. rewrite IH. by etransitivity; [apply page_flag_capacity|]. Qed.

Lemma resize_capacity on_disk alloc capacity v b b' : drbd_bm_resize on_disk alloc capacity v b = Ret b' -> bm_dev_capacity b' = capacity.
Proof.
  unfold drbd_bm_resize. case_if; [by intros [= <-]|]. case_if; [by intros [= <-]|]. case_if; [done|].
  destruct (if PFN_UP _ =? _ then _ else _) as [[pages private]| |]; simpl; try done. set (b0 := mk_bitmap _ _ _ _ _ _ _ _ _ _ _ _). case_if.
  - destruct (for_each_slot _ b0) as [b1| |] eqn:E; simpl; try done. apply for_slots_capacity in E; [|intros; by eapply resize_slot_capacity].
    intros [= <-]. case_if; [rewrite fill_pages_capacity|]; by rewrite E.
  - intros E. apply for_slots_capacity in E; [by rewrite E|]. intros i b1 b2. destruct (count_slot_loop _ _ _ _ _); simpl; by try intros [= <-].
Qed.
End capacity.

(** ** What the peers allow *)

Definition peer_sizes (p : size_peer) : Prop := 0 <= d_size p < 2 ^ 64 - 1 /\ 0 <= max_size p.
Definition find_peer (id : Z) (l : list size_peer) : option size_peer := snd <$> list_find (fun p => sp_node_id p = id) l.

Lemma learn_sizes size p : 0 <= size < 2 ^ 64 - 1 -> peer_sizes p -> peer_sizes (learn_size size p).
Proof. intros Hs [H1 H2]. unfold learn_size, peer_sizes. simpl. repeat case_if; lia. Qed.

Lemma update_sizes size id l : 0 <= size < 2 ^ 64 - 1 -> Forall peer_sizes l -> Forall peer_sizes (update_first (learn_size size) id l).
Proof.
  intros Hs Hl. unfold update_first. destruct (list_find _ l) as [[k p]|] eqn:E; [|done]. apply list_find_Some in E as (Hk & _ & _).
  apply Forall_insert; [done|]. apply learn_sizes; [done|]. by eapply Forall_lookup_1.
Qed.

Lemma find_update size id id' l : id <> id' -> find_peer id (update_first (learn_size size) id' l) = find_peer id l.
Proof.
  intros Hne. unfold find_peer, update_first. destruct (list_find (fun p => sp_node_id p = id') l) as [[k p]|] eqn:E; [|done]. apply list_find_Some in E as (Hk & Hp & _).
  revert k Hk. induction l as [|q l IH]; intros [|k] Hk; try done; simpl in *.
  - simplify_eq. rewrite !decide_False by (simpl; congruence). done.
  - case_decide; [done|]. specialize (IH k Hk). destruct (list_find _ (<[k:=_]> l)) as [[? ?]|], (list_find _ l) as [[? ?]|]; simpl in *; simplify_eq; done.
Qed.

Section agree.
Context `{MdHeaders} (m : meta_data) (reachable size : Z) (Hsize : 0 <= size < 2 ^ 64 - 1).

Definition acc_ok (acc : bool * Z * list size_peer) : Prop := 0 <= snd (fst acc) /\ Forall peer_sizes (snd acc).

Lemma find_in id l p : find_peer id l = Some p -> p ∈ l /\ sp_node_id p = id.
Proof.
  unfold find_peer. destruct (list_find _ l) as [[k q]|] eqn:E; [|done]. intros [= <-]. apply list_find_Some in E as (Hk & Hp & _). split; [by eapply list_elem_of_lookup_2|done].
Qed.

Lemma step_ok i acc : acc_ok acc -> acc_ok (max_agreeable_step m reachable size i acc).
Proof.
  destruct acc as [[a mx] l]. intros [H1 H2]. unfold max_agreeable_step. case_if; [done|]. case_if; [split; [done|]; by apply update_sizes|].
  fold (find_peer i l). destruct (find_peer i l) as [p|] eqn:E; [|by case_if]. case_if; [|by case_if]. split; [|done]. apply find_in in E as [Hp _].
  apply min_not_zero_nonneg; [done|]. rewrite Forall_forall in H2. apply (H2 p Hp).
Qed.

Lemma loop_ok n i acc : acc_ok acc -> acc_ok (max_agreeable_loop m reachable size n i acc).
Proof. revert i acc. induction n as [|n IH]; intros i acc Ha; simpl; [done|]. by apply IH, step_ok. Qed.

(** A limit stays. *)
Lemma step_keep i acc z : acc_ok acc -> snd (fst acc) <> 0 -> snd (fst acc) <= z ->
  let r := max_agreeable_step m reachable size i acc in snd (fst r) <> 0 /\ snd (fst r) <= z.
Proof.
  destruct acc as [[a mx] l]. intros [H1 H2] Hn Hz. unfold max_agreeable_step. simpl in *. case_if; [done|]. case_if; [done|].
  fold (find_peer i l). destruct (find_peer i l) as [p|] eqn:E; [|by case_if]. case_if; [|by case_if]. apply find_in in E as [Hp _]. rewrite Forall_forall in H2.
  simpl. apply min_not_zero_keep; try done. apply (H2 p Hp).
Qed.

Lemma loop_keep n i acc z : acc_ok acc -> snd (fst acc) <> 0 -> snd (fst acc) <= z ->
  let r := max_agreeable_loop m reachable size n i acc in snd (fst r) <> 0 /\ snd (fst r) <= z.
Proof.
  revert i acc. induction n as [|n IH]; intros i acc Ha Hn Hz; simpl; [done|]. destruct (step_keep i acc z Ha Hn Hz). apply IH; [by apply step_ok|done..].
Qed.

Lemma step_find i acc id : id <> i \/ Z.testbit reachable i = false -> find_peer id (snd (max_agreeable_step m reachable size i acc)) = find_peer id (snd acc).
Proof.
  destruct acc as [[a mx] l]. intros Hor. unfold max_agreeable_step. case_if; [done|]. case_if.
  - simpl. apply find_update. destruct Hor; congruence.
  - repeat case_match; done.
Qed.

(** The size of a peer that is not asked limits the result. *)
Lemma loop_limit n i acc p : acc_ok acc -> find_peer (sp_node_id p) (snd acc) = Some p -> have_sizes p = true -> max_size p <> 0 ->
  i <= sp_node_id p < i + Z.of_nat n -> sp_node_id p <> node_id m -> Z.testbit reachable (sp_node_id p) = false ->
  let r := max_agreeable_loop m reachable size n i acc in snd (fst r) <> 0 /\ snd (fst r) <= max_size p.
Proof.
  revert i acc. induction n as [|n IH]; intros i acc Ha Hf Hh Hm Hi Hn Hr; simpl; [lia|]. destruct (decide (sp_node_id p = i)) as [<-|Hne].
  - apply loop_keep; [by apply step_ok|..].
    all: destruct acc as [[a mx] l]; unfold max_agreeable_step; rewrite (proj2 (Z.eqb_neq _ _)), Hr by congruence; simpl in Hf; fold (find_peer (sp_node_id p) l); rewrite Hf, Hh; simpl.
    all: destruct Ha as [A1 A2]; apply find_in in Hf as [Hp _]; rewrite Forall_forall in A2; destruct (A2 p Hp); destruct (min_not_zero_le mx (max_size p) (max_size p)); auto.
  - apply IH; try done; [by apply step_ok| |lia]. rewrite step_find; [done|]. by left.
Qed.
End agree.

(** ** The size of the device *)

Section new_size.
Context `{Arch} `{MdHeaders}.

Lemma max_capacity_range b c : drbd_get_max_capacity b = Ret c -> 0 <= backing_sectors b ->
  0 <= c <= DRBD_MAX_SECTORS /\ c <= if is_internal (meta_dev_idx (bd_md b)) then drbd_md_first_sector (bd_md b) else backing_sectors b.
Proof.
  intros Hr Hb. unfold drbd_get_max_capacity in Hr. change DRBD_MAX_SECTORS with (2 ^ 41) in *.
  assert (forall x rem, 0 <= rem -> (let! lim := bm_sect_to_max_capacity (bd_md b) x in
     Ret (if lim <? (if 2 ^ 41 <? rem then 2 ^ 41 else rem) then lim else if 2 ^ 41 <? rem then 2 ^ 41 else rem)) = Ret c -> 0 <= c <= 2 ^ 41 /\ c <= rem) as Hlim.
  { intros x rem Hrem. unfold bm_sect_to_max_capacity. case_if; [done|]. cbn [obind]. intros [= <-]. match goal with |- context [u64 ?y <? _] => pose proof (u64_range y) end.
    destruct (Z.ltb_spec (2 ^ 41) rem); case_if; lia. }
  destruct (is_internal _) eqn:E; [|case_if_in Hr]; apply Hlim in Hr; try done. unfold drbd_md_first_sector. rewrite E. apply u64_range.
Qed.

Lemma local_max_range alloc b l : drbd_local_max_size alloc b = Ret l -> 0 <= backing_sectors b -> 0 <= l <= 2 ^ 41.
Proof.
  unfold drbd_local_max_size. case_if; [|intros [= <-]; lia]. intros Hr Hb. apply max_capacity_range in Hr as [Hr _]; [done|].
  unfold drbd_md_set_sector_offsets. by repeat case_if.
Qed.

Lemma partition_limit alloc d c : drbd_partition_data_capacity alloc true d = Ret c -> 0 <= backing_sectors (sd_ldev d) ->
  Forall peer_sizes (sd_peers d) -> exists l, drbd_local_max_size alloc (sd_ldev d) = Ret l /\ 0 <= c /\ (l <> 0 -> 0 < c <= l).
Proof.
  intros Hr Hb Hp. unfold drbd_partition_data_capacity in Hr. destruct (drbd_local_max_size _ _) as [l| |] eqn:Hl; try done. exists l. split; [done|].
  apply local_max_range in Hl as Hrange; [|done]. simpl in Hr. injection Hr as <-.
  assert (forall c0, 0 < c0 -> 0 < fold_left (fun c p => if have_sizes p then min_not_zero c (d_size p) else c) (sd_peers d) c0) as Hfold.
  { induction Hp as [|p ps Hp Hps IH]; intros c0 Hc; simpl; [done|]. apply IH. case_if; [|done]. destruct Hp. unfold min_not_zero. repeat case_if; lia. }
  specialize (Hfold (2 ^ 64 - 1) ltac:(lia)). set (x := fold_left _ _ _) in *. pose proof (min_not_zero_nonneg x l ltac:(lia) ltac:(lia)). split; [case_if; lia|].
  intros Hn. destruct (min_not_zero_le x l l) as [M1 M2]; [lia|auto|lia..|]. case_if; lia.
Qed.

(** The new size is one that the known peers, the user and, when its size could be found out, the
    local disk have. *)
Lemma new_dev_size_limits alloc cs us flags d size d' : drbd_new_dev_size alloc cs us flags d = Ret (size, d') ->
  0 <= backing_sectors (sd_ldev d) -> 0 <= us -> 0 <= effective_size (meta d) ->
  0 <= max_possible_size (twopc_reply d) < 2 ^ 64 - 1 -> Forall peer_sizes (sd_peers d) ->
  (exists ps, d' = set_size_peers ps d) /\
  (forall l, drbd_local_max_size alloc (sd_ldev d) = Ret l -> l <> 0 -> 0 < size <= l) /\
  (forall p, find_peer (sp_node_id p) (sd_peers d) = Some p -> have_sizes p = true -> max_size p <> 0 -> 0 <= sp_node_id p < Z.of_nat NODE_IDS ->
     sp_node_id p <> node_id (meta d) -> (dds_2pc flags = true -> Z.testbit (reachable_nodes (twopc_reply d)) (sp_node_id p) = false) -> size <= max_size p) /\
  (us <> 0 -> size <= us).
Proof.
  intros Hr Hbs Hus Hla Hmax Hp. unfold drbd_new_dev_size, get_max_agreeable_size in Hr. set (rn := if dds_2pc flags then _ else 0) in *.
  pose proof (loop_ok (meta d) rn (max_possible_size (twopc_reply d)) Hmax NODE_IDS 0 (true, 0, sd_peers d)) as Hok.
  pose proof (fun p => loop_limit (meta d) rn (max_possible_size (twopc_reply d)) Hmax NODE_IDS 0 (true, 0, sd_peers d) p) as Hlim.
  destruct (max_agreeable_loop _ _ _ _ _ _) as [[all mx] ps]. simpl in Hok, Hlim. destruct Hok as [Hmx Hps]; [by split|]. simpl in Hmx, Hps.
  destruct (drbd_partition_data_capacity alloc true _) as [c| |] eqn:Ec; try done. apply (partition_limit alloc (set_size_peers ps d) c) in Ec as (l & Hl & Hc & Hcl); try done. simpl in Hr, Hl.
  set (p1 := if all then _ else _) in *. assert (0 <= p1) as Hp1. { subst p1. repeat case_if; apply min_not_zero_nonneg; lia. }
  pose proof (min_not_zero_nonneg p1 c Hp1 ltac:(lia)) as S3.
  assert (forall z, mx <> 0 -> mx <= z -> min_not_zero p1 c <= z) as Hz.
  { intros z Hn Hle. assert (p1 <> 0 /\ p1 <= z) as [N1 N2] by (subst p1; repeat case_if; apply min_not_zero_keep; lia). apply (min_not_zero_keep p1 c z); lia. }
  injection Hr as <- <-. set (sz := min_not_zero p1 c) in *. split; [by eexists|]. split_and!.
  - rewrite Hl. intros ? [= <-] Hn. destruct (min_not_zero_le p1 c c) as [S1 S2]; [lia|auto|lia..|]. fold sz in S1, S2. repeat case_if; lia.
  - intros p F1 F2 F3 F4 F5 F6. destruct (Hlim p) as [L1 L2]; try done; try (by split).
    { subst rn. destruct (dds_2pc flags); [auto|]. apply Z.bits_0. }
    specialize (Hz _ L1 L2). repeat case_if; lia.
  - intros Hu. repeat case_if; lia.
Qed.
End new_size.

(** ** Marks *)

Lemma test_bit f k : 0 <= k -> test f (Z.shiftl 1 k) = Z.testbit f k.
Proof.
  intros Hk. unfold test. rewrite Z.shiftl_1_l. destruct (Z.testbit f k) eqn:E; [apply negb_true_iff, Z.eqb_neq|apply negb_false_iff, Z.eqb_eq].
  - intros E0. assert (Z.testbit (Z.land f (2 ^ k)) k = false) as Hb by (by rewrite E0, Z.bits_0). by rewrite Z.land_spec, E, Z.pow2_bits_true in Hb by done.
  - apply Z.bits_inj'. intros i Hi. rewrite Z.land_spec, Z.bits_0, Z.pow2_bits_eqb by done. destruct (Z.eqb_spec k i) as [<-|]; [by rewrite E|apply andb_false_r].
Qed.

(** Setting a flag and clearing it if it was not set. *)
Lemma mark_unmark f k : 0 <= k -> (if test f (Z.shiftl 1 k) then Z.lor f (Z.shiftl 1 k) else Z.ldiff (Z.lor f (Z.shiftl 1 k)) (Z.shiftl 1 k)) = f.
Proof.
  intros Hk. rewrite test_bit by done. rewrite Z.shiftl_1_l. apply Z.bits_inj'. intros i Hi. destruct (Z.testbit f k) eqn:E; rewrite ?Z.ldiff_spec, Z.lor_spec, Z.pow2_bits_eqb by done.
  all: destruct (Z.eqb_spec k i) as [<-|]; rewrite ?E; try done; by destruct (Z.testbit f i).
Qed.

Lemma test_marked f k : 0 <= k -> test (Z.lor f (Z.shiftl 1 k)) (Z.shiftl 1 k) = true.
Proof. intros Hk. rewrite test_bit, Z.lor_spec, Z.shiftl_1_l, Z.pow2_bits_true by done. apply orb_true_r. Qed.

Lemma mark_reliable_back m : mark_reliable m (mark_unreliable m) = m.
Proof.
  unfold mark_reliable, mark_unreliable, MDF_AL_DISABLED. destruct m as [a1 a2 a3 a4 a5 a6 f a8 a9 a10 a11 a12 a13 a14 ps a16 a17 a18 a19 a20]. unfold set_marks. simpl. f_equal; [by apply mark_unmark|].
  generalize PEERS_MAX as n. induction ps as [|p ps IH]; intros [|n]; simpl; try done. f_equal; [|apply IH].
  pose proof (mark_unmark (pm_flags p) 3 ltac:(lia)) as Hm. unfold MDF_PEER_FULL_SYNC. destruct p as [u g fl ix]. unfold with_peer_flags. simpl in *. destruct (test fl _); f_equal; done.
Qed.

Definition unreliable (m : meta_data) : Prop :=
  test (m_flags m) MDF_AL_DISABLED = true /\ Forall (fun p => test (pm_flags p) MDF_PEER_FULL_SYNC = true) (take PEERS_MAX (peers m)).

Lemma mark_unreliable_marks m : unreliable (mark_unreliable m).
Proof.
  split; [by apply test_marked|]. simpl. rewrite Forall_forall. intros p Hp. rewrite take_app in Hp. apply elem_of_app in Hp as [Hp|Hp].
  - apply elem_of_take in Hp as (i & Hi & _). apply list_elem_of_lookup_2, list_elem_of_fmap in Hi as (q & -> & _). by apply test_marked.
  - exfalso. revert Hp. rewrite length_fmap, length_take. destruct (Nat.le_gt_cases PEERS_MAX (length (peers m))).
    + rewrite Nat.min_l, Nat.sub_diag by done. apply not_elem_of_nil.
    + rewrite drop_ge, take_nil by lia. apply not_elem_of_nil.
Qed.

(** ** Layouts *)

Section relayout.
Context `{Arch} `{MdHeaders}.

Lemma set_offsets_shape b : exists o s a f, drbd_md_set_sector_offsets b = set_md (set_layout o s a f (bd_md b)) b.
Proof. unfold drbd_md_set_sector_offsets. repeat case_if; by repeat eexists. Qed.

Lemma set_offsets_idem b : drbd_md_set_sector_offsets (drbd_md_set_sector_offsets b) = drbd_md_set_sector_offsets b.
Proof.
  unfold drbd_md_set_sector_offsets at 1. unfold drbd_md_set_sector_offsets, drbd_md_ss, drbd_capacity_to_on_disk_bm_sect. destruct b as [m bs cap]. simpl.
  destruct (meta_dev_idx m =? DRBD_MD_INDEX_FLEX_EXT) eqn:E1; simpl; rewrite ?E1; [done|]. destruct (is_internal (meta_dev_idx m)) eqn:E2; simpl; rewrite ?E1, ?E2; done.
Qed.

Lemma local_max_relaid alloc b : drbd_local_max_size alloc (drbd_md_set_sector_offsets b) = drbd_local_max_size alloc b.
Proof. unfold drbd_local_max_size. by rewrite set_offsets_idem. Qed.

(** A failure gives the meta-data back. *)
Lemma restore_back rs o s a f e m : m_al_size_4k m = u32 (m_al_stripes m * m_al_stripe_size_4k m) ->
  restore m (set_effective e (set_layout o s a f (apply_rs rs m))) = m.
Proof. intros E. unfold restore. rewrite <- E. by destruct rs, m. Qed.

Lemma set_effective_same m : set_effective (effective_size m) m = m.
Proof. by destruct m. Qed.

Lemma change_capacity_spec alloc size flags d d1 : change_capacity alloc size flags d = Ret (Some d1) ->
  sd_vdisk d1 = size /\ (forall bm, sd_bitmap d1 = Some bm -> bm_dev_capacity bm = size) /\
  exists e, sd_ldev d1 = set_md (set_effective e (meta d)) (sd_ldev d) /\ (e = effective_size (meta d) \/ e = size).
Proof.
  unfold change_capacity. case_if.
  - unfold resize_bitmap. destruct (sd_bitmap d) as [b|] eqn:Eb; simpl.
    + destruct (drbd_bm_resize _ _ _ _ b) as [b'| |] eqn:Er; simpl; try done. apply resize_capacity in Er. intros [= <-]. case_if; simpl; (split; [done|]); (split; [by intros bm [= <-]|]).
      * eexists. split; [done|]. by right.
      * exists (effective_size (meta d)). unfold set_md. rewrite set_effective_same. split; [|by left]. unfold meta. by destruct (sd_ldev d).
    + intros [= <-]. case_if; simpl; (split; [done|]); (split; [done|]).
      * eexists. split; [done|]. by right.
      * exists (effective_size (meta d)). unfold set_md. rewrite set_effective_same. split; [|by left]. unfold meta. by destruct (sd_ldev d).
  - intros [= <-]. split; [done|]. split.
    + intros bm Hb. match goal with Hm : match sd_bitmap d with _ => _ end = false |- _ => rewrite Hb in Hm end. by reflect_bools.
    + exists (effective_size (meta d)). unfold set_md. rewrite set_effective_same. split; [|by left]. unfold meta. by destruct (sd_ldev d).
Qed.
End relayout.

(** ** The largest size has room for its bitmap *)

Section fits.
Context `{Arch} `{MdHeaders}.

Lemma u64_le x : 0 <= x -> u64 x <= x.
Proof. intros. unfold u64. apply Z.mod_le; lia. Qed.

Lemma bits_of_mul shift n c : 12 <= shift -> 0 <= c <= n * 2 ^ (shift - 9) -> bits_of shift c <= n.
Proof.
  intros Hs Hc. unfold bits_of. assert (0 < 2 ^ (shift - 9)) by (apply Z.pow_pos_nonneg; lia). apply Z.lt_succ_r. apply Z.div_lt_upper_bound; lia.
Qed.

(** [k] peers with [k * n = 64]: their share of a block of 4k is a number of words. *)
Lemma share_words s k n : 0 <= s < 2 ^ 32 -> 0 < k -> k * n = 64 -> ALIGN_DOWN_4k (s * 512) / k * 8 <= s * 64 / k * 64.
Proof.
  intros Hs Hk Hn. unfold ALIGN_DOWN_4k. change 4095 with (Z.ones 12). rewrite Z.ldiff_ones_r, Z.shiftl_mul_pow2, Z.shiftr_div_pow2 by lia. change (2 ^ 12) with 4096.
  replace (s * 512 / 4096) with (s / 8) by (change 4096 with (8 * 512); by rewrite Z.div_mul_cancel_r). replace (s / 8 * 4096) with (s / 8 * 64 * n * k) by (transitivity (s / 8 * 64 * (k * n)); [ring|rewrite Hn; ring]). rewrite Z.div_mul by lia.
  replace (s * 64) with (s * n * k) by (rewrite <- Hn; ring). rewrite Z.div_mul by lia. assert (s / 8 * 8 <= s) by (Z.div_mod_to_equations; lia). nia.
Qed.

Lemma max_capacity_fits b c n : drbd_get_max_capacity b = Ret c -> is_internal (meta_dev_idx (bd_md b)) = true \/ meta_dev_idx (bd_md b) = DRBD_MD_INDEX_FLEX_EXT ->
  12 <= m_bm_block_shift (bd_md b) <= 30 -> 0 < max_peers (bd_md b) -> max_peers (bd_md b) * n = 64 -> 0 <= backing_sectors b ->
  (if is_internal (meta_dev_idx (bd_md b)) then m_al_offset (bd_md b) < 0 /\ 0 <= m_al_offset (bd_md b) - bm_offset (bd_md b) < 2 ^ 31
   else m_al_offset (bd_md b) = 8 /\ 0 <= md_size_sect (bd_md b) - bm_offset (bd_md b) < 2 ^ 32) ->
  bits_of (m_bm_block_shift (bd_md b)) c <= drbd_md_on_disk_bits (m_al_offset (bd_md b)) (md_size_sect (bd_md b)) (bm_offset (bd_md b)) (max_peers (bd_md b)).
Proof.
  intros Hr Hidx Hsh Hp Hn Hb Hoff. pose proof (max_capacity_range b c Hr Hb) as [Hc _]. unfold drbd_get_max_capacity in Hr. unfold drbd_md_on_disk_bits.
  set (sect := if m_al_offset (bd_md b) =? 8 then _ else _).
  assert (0 <= sect < 2 ^ 32 /\ exists rem, (let! lim := bm_sect_to_max_capacity (bd_md b) sect in Ret (if lim <? rem then lim else rem)) = Ret c) as (Hs & rem & Hr').
  { subst sect. destruct (is_internal _) eqn:E.
    - destruct Hoff as [H1 H2]. rewrite (proj2 (Z.eqb_neq (m_al_offset _) 8)) by lia. rewrite to_int_id, u64_small in Hr by (rewrite ?to_int_id; lia). rewrite to_int_id by lia. split; [lia|eauto].
    - destruct Hidx as [|Hidx]; [done|]. rewrite Hidx, Z.eqb_refl in Hr. destruct Hoff as [-> H2]. simpl (8 =? 8). rewrite u32_small in * by lia. split; [lia|eauto]. }
  clear Hr. unfold bm_sect_to_max_capacity in Hr'. rewrite (proj2 (Z.eqb_neq (max_peers _) 0)) in Hr' by lia. cbn [obind] in Hr'. rewrite (Z.shiftl_mul_pow2 sect 9) in Hr' by lia. change (2 ^ 9) with 512 in Hr'.
  rewrite (u64_small (sect * 512)) in Hr' by lia. pose proof (share_words sect (max_peers (bd_md b)) n Hs Hp Hn) as Hw. set (bits := ALIGN_DOWN_4k (sect * 512) / max_peers (bd_md b) * 8) in *.
  assert (0 <= bits) by (apply Z.mul_nonneg_nonneg; [apply Z.div_pos; [|lia]|lia]; apply Z.ldiff_nonneg; lia).
  assert (sect * 64 / max_peers (bd_md b) <= sect * 64) by (apply Z.div_le_upper_bound; nia). rewrite (u64_small bits), Z.shiftl_mul_pow2 in Hr' by lia.
  rewrite (u64_small sect), !Z.shiftl_mul_pow2 by lia. change (2 ^ (9 - 3)) with 64. change (2 ^ 6) with 64. rewrite (u64_small (sect * 64)) by lia.
  rewrite u64_small by (split; [apply Z.mul_nonneg_nonneg; [apply Z.div_pos|]; lia|lia]). transitivity bits; [|done]. apply bits_of_mul; [lia|]. split; [lia|].
  assert (0 <= bits * 2 ^ (m_bm_block_shift (bd_md b) - 9)) by (apply Z.mul_nonneg_nonneg; [lia|apply Z.pow_nonneg; lia]). pose proof (u64_le _ ltac:(eassumption)).
  injection Hr' as <-. case_if; lia.
Qed.
End fits.
