(* ===== verification/MetaClaims.v ===== *)
(** * Properties of the meta-data and of the device size *)
From S2P Require Import Prelude Bitmap BitmapResize ActLog ActLogProps MetaData MetaLayout DevSize DevSizeProps.

Section claims.
Context `{MdHeaders}.

Lemma check_stripes_new m : 1 <= m_al_stripes m -> 1 <= m_al_stripe_size_4k m -> 8 <= m_al_stripes m * m_al_stripe_size_4k m <= 2 ^ 22 ->
  check_stripes m = Some (set_al (m_al_stripes m) (m_al_stripe_size_4k m) (m_al_stripes m * m_al_stripe_size_4k m) m).
Proof.
  intros H1 H2 H3. unfold check_stripes, check_activity_log_stripe_size, al_part. cbn [al_stripes al_stripe_size_4k]. rewrite !(proj2 (Z.eqb_neq (_ m) 0)) by lia. cbn [andb].
  rewrite !(proj2 (Z.eqb_neq (_ m) 0)) by lia. cbn [orb]. change (16 * 1024 * 1024 / 4) with (2 ^ 22). change (Z.shiftr 32768 9 / 8) with 8. by rewrite !(proj2 (Z.ltb_ge _ _)) by lia.
Qed.

(** The checks, on meta-data that was just laid out. *)
Lemma md_checks_new my_node_id b m : md_settings m -> check_offsets_and_sizes (set_md m b) = true ->
  (node_id m = -1 \/ node_id m = my_node_id) -> slots_ok my_node_id m ->
  forall sh al, md_checks my_node_id (set_md (set_shift sh (set_al (m_al_stripes m) (m_al_stripe_size_4k m) al m)) b) = (NO_ERROR, set_md m b).
Proof.
  intros [M1 [M2 M2'] M3 M4 [M5 M5'] [M6 M6']] Hck Hn Hs sh al. destruct m as [a1 a2 a3 a4 a5 a6 a7 a8 a9 a10 a11 a12 a13 a14 a15 a16 a17 a18 a19 a20]. unfold md_checks, set_md, set_shift, set_al in *. simpl in *.
  rewrite M2, !(proj2 (Z.ltb_ge _ _)) by lia. cbn [negb orb]. rewrite check_stripes_new by (simpl; lia). unfold set_al. simpl. rewrite <- M3, <- M6, Hck. simpl.
  assert (negb (a8 =? -1) && negb (a8 =? my_node_id) = false) as -> by (destruct Hn as [->| ->]; [done|]; by rewrite Z.eqb_refl, andb_false_r).
  assert (forallb (λ '(i, p), index_ok my_node_id a12 i p) (imap pair a15) = true) as ->; [|done].
  apply forallb_forall. intros [i p] Hin%list_elem_of_In. apply elem_of_lookup_imap in Hin as (i' & p' & [= <- <-] & Hp). unfold index_ok.
  destruct (Z.eqb_spec (pm_bitmap_index p) (-1)); [done|]. destruct (Hs i p Hp) as [Hne Hr]; [done|]. simpl in Hr. rewrite (proj2 (Z.eqb_neq _ _)) by done. simpl.
  rewrite u32_small by lia. by rewrite (proj2 (Z.ltb_ge _ _)), (proj2 (Z.leb_gt _ _)) by lia.
Qed.

Lemma plain_layout_width b : md_settings (bd_md b) -> has_room b ->
  let '(_, size, alo, bmo) := plain_layout b in 0 <= size < 2 ^ 32 /\ - 2 ^ 31 <= alo < 2 ^ 31 /\ - 2 ^ 31 <= bmo < 2 ^ 31.
Proof.
  intros Hm Hroom. pose proof (settings_shift _ Hm) as Hsh. destruct b as [m bs cap]. destruct Hm as [M1 M2 M3 M4 M5 [_ M6]]. unfold has_room, plain_layout in *. cbn [bd_md md_sectors backing_sectors] in *.
  change MD_INDEXED_SECT with 262144 in *. repeat case_if.
  - destruct (bm_sect_range (m_bm_block_shift m) (max_peers m) cap) as (B1 & _); lia.
  - destruct (bm_sect_range (m_bm_block_shift m) (max_peers m) (effective_size m)) as (B1 & _); lia.
  - lia.
Qed.

Lemma ss_same b b' : meta_dev_idx (bd_md b) = meta_dev_idx (bd_md b') -> backing_sectors b = backing_sectors b' -> drbd_md_ss b = drbd_md_ss b'.
Proof. unfold drbd_md_ss. by intros -> ->. Qed.

Lemma set_offsets_place b : m_md_offset (bd_md (drbd_md_set_sector_offsets b)) = drbd_md_ss b /\ drbd_md_ss (drbd_md_set_sector_offsets b) = drbd_md_ss b.
Proof. split; [|apply ss_same; [|done]]; unfold drbd_md_set_sector_offsets; simpl; by repeat case_if. Qed.

(** Meta-data with a clean log that is written with a bitmap. *)
Lemma layout_read_back compat my_node_id nr mbs b b0 blk read :
  md_settings (bd_md b) -> meta_values (bd_md b) -> has_room b -> test (m_flags (bd_md b)) MDF_AL_CLEAN = true ->
  node_id (bd_md b) = -1 \/ node_id (bd_md b) = my_node_id -> slots_ok my_node_id (bd_md b) ->
  md_sectors b0 = md_sectors b -> backing_sectors b0 = backing_sectors b ->
  as_9 blk = drbd_md_encode_9 true nr mbs (bd_md (drbd_md_set_sector_offsets b)) ->
  read (drbd_md_ss (drbd_md_set_sector_offsets b)) = Some blk ->
  drbd_md_read compat my_node_id (meta_dev_idx (bd_md b)) read b0 = (Some NO_ERROR, set_md (as_read (bd_md b0) (bd_md (drbd_md_set_sector_offsets b))) b0).
Proof.
  intros Hset Hval Hroom Hclean Hnode Hslots E1 E2 Hblk Hread. pose proof (set_offsets_place b) as [Hplace Hss]. pose proof (plain_layout_width b Hset Hroom) as Hw.
  pose proof (new_layout_accepted b (bd_md b0) Hset Hroom) as Hck. rewrite (set_sector_offsets_eq b Hset Hroom) in *. destruct (plain_layout b) as [[[mdo size] alo] bmo]. destruct Hw as (W1 & W2 & W3).
  set (m1 := set_layout mdo size alo bmo (bd_md b)) in *. assert (md_settings m1) as Hset1 by (destruct Hset; by split). assert (meta_values m1) as Hval1 by (destruct Hval; by split).
  unfold drbd_md_read. set (m0 := mk_meta _ _ _ _ _ _ _ _ _ _ _ _ _ _ _ _ _ _ _ _). rewrite (ss_same (set_md m0 b0) (set_md m1 b)), Hread by done.
  unfold drbd_md_decode, decode_magic. rewrite Hblk. cbn [od_magic od_flags drbd_md_encode_9]. rewrite (u32_small (m_flags _)) by apply (mv_flags _ Hval1).
  change (m_flags (bd_md (set_md m1 b))) with (m_flags (bd_md b)). rewrite Hclean, Z.eqb_refl. pose proof magic_distinct as (D1 & D2 & D3). rewrite !(proj2 (Z.eqb_neq DRBD_MD_MAGIC_09 _)) by done. cbn [negb andb orb].
  rewrite meta_roundtrip by (done || apply W1 || apply W2 || apply W3). simpl in Hplace.
  rewrite Hss, <- Hplace. destruct b0 as [mb0 bs0 cap0], b as [mb bs cap]. simpl in E1, E2. subst bs0 cap0.
  pose proof (md_checks_new my_node_id (mk_bdev mb0 bs cap) (as_read mb0 m1)) as Hnew. unfold set_md, set_layout, set_shift, set_al, as_read in *. simpl in *.
  rewrite Hnew; try done. by destruct Hset; split.
Qed.

(** C16. Meta-data gets a new layout ([drbd_md_set_sector_offsets]) on devices with room for
    it, and its super block is then written ([drbd_md_encode_9]).  If its log is marked as clean, the
    next attach accepts it: [drbd_md_read] finds the super block, all checks pass, and it brings
    back every field, layout and bitmap slots included, but the members, which go to the field for the
    previous ones; written without a bitmap, every peer is marked for a full sync in addition.
    If the log is not clean, the attach is refused as [ERR_MD_UNCLEAN]. *)
Theorem layout_written_and_read compat my_node_id bitmap nr mbs b b0 blk read :
  md_settings (bd_md b) -> meta_values (bd_md b) -> has_room b ->
  node_id (bd_md b) = -1 \/ node_id (bd_md b) = my_node_id -> slots_ok my_node_id (bd_md b) ->
  md_sectors b0 = md_sectors b -> backing_sectors b0 = backing_sectors b ->
  as_9 blk = drbd_md_encode_9 bitmap nr mbs (bd_md (drbd_md_set_sector_offsets b)) ->
  read (drbd_md_ss (drbd_md_set_sector_offsets b)) = Some blk ->
  let r := drbd_md_read compat my_node_id (meta_dev_idx (bd_md b)) read b0 in
  if test (m_flags (bd_md b)) MDF_AL_CLEAN
  then r = (Some NO_ERROR, set_md (as_read (bd_md b0) (as_written bitmap (bd_md (drbd_md_set_sector_offsets b)))) b0)
  else fst r = Some ERR_MD_UNCLEAN.
Proof.
  intros Hset Hval Hroom Hnode Hslots E1 E2 Hblk Hread. cbn zeta. pose proof (set_offsets_place b) as [_ Hss].
  assert (meta_values (bd_md (drbd_md_set_sector_offsets b))) as Hv.
  { rewrite (set_sector_offsets_eq b Hset Hroom). destruct (plain_layout b) as [[[? ?] ?] ?]. by destruct Hval; split. }
  rewrite encode_as_written in Hblk by done. set (b1 := set_md (as_written bitmap (bd_md b)) b).
  assert (drbd_md_set_sector_offsets b1 = set_md (as_written bitmap (bd_md (drbd_md_set_sector_offsets b))) b) as Hb1 by apply as_written_offsets.
  destruct (test (m_flags (bd_md b)) MDF_AL_CLEAN) eqn:Hclean.
  - assert (meta_dev_idx (bd_md b) = meta_dev_idx (bd_md b1)) as -> by (by destruct bitmap).
    change (as_written bitmap (bd_md (drbd_md_set_sector_offsets b))) with (bd_md (set_md (as_written bitmap (bd_md (drbd_md_set_sector_offsets b))) b)). rewrite <- Hb1.
    apply (layout_read_back compat my_node_id nr mbs b1 b0 blk read); try done; try (by destruct bitmap).
    + by apply as_written_settings.
    + by apply as_written_values.
    + by apply as_written_slots.
    + by rewrite Hb1.
    + rewrite <- Hread. f_equal. apply ss_same; [|done]. rewrite Hb1. by destruct bitmap.
  - unfold drbd_md_read. set (m0 := mk_meta _ _ _ _ _ _ _ _ _ _ _ _ _ _ _ _ _ _ _ _).
    rewrite (ss_same (set_md m0 b0) b), <- Hss, Hread by done. unfold drbd_md_decode, decode_magic. rewrite Hblk. cbn [od_magic od_flags drbd_md_encode_9].
    rewrite u32_small by apply (mv_flags _ (as_written_values bitmap _ Hv)).
    assert (m_flags (as_written bitmap (bd_md (drbd_md_set_sector_offsets b))) = m_flags (bd_md b)) as ->.
    { rewrite (set_sector_offsets_eq b Hset Hroom). destruct (plain_layout b) as [[[? ?] ?] ?]. by destruct bitmap. }
    by rewrite Hclean, Z.eqb_refl.
Qed.

(** The sectors of the block of a transaction. *)
Definition al_block_area (m : meta_data) (t : Z) : Z * Z := (m_md_offset m + m_al_offset m + 8 * al_block (al_part m) t, 8).
Definition inside (a b : Z * Z) : Prop := fst b <= fst a /\ fst a + snd a <= fst b + snd b.


End claims.

(** ** Changing the size *)

Section change.
Context `{Arch} `{MdHeaders}.

(** The super block on disk after some writes. *)
Fixpoint last_super (w : list md_event) : option meta_data :=
  match w with
  | [] => None
  | e :: w => match last_super w with Some m => Some m | None => match e with WriteSuper m => Some m | _ => None end end
  end.

(** Meta-data is where it was and as large as it was. *)
Definition in_place (m m' : meta_data) : Prop := m_md_offset m' = m_md_offset m /\ md_size_sect m' = md_size_sect m.

(** After a crash that cuts the writes [w] of a change from the meta-data [m]: nothing happened, or
    the super block asks for a full resync and does not trust the log, or everything was written and
    the write of the bitmap, of all of its pages if the meta-data moved, came before. *)
Definition crash_safe (m : meta_data) (w : list md_event) (d' : size_device) : Prop :=
  forall w1 w2, w = w1 ++ w2 -> w1 = [] \/
    exists s, last_super w1 = Some s /\
      (unreliable s \/ w2 = [] /\ s = meta d' /\ exists moved s1, WriteBitmap moved s1 (sd_bitmap d') ∈ w1 /\ (moved = true \/ in_place m (meta d')) /\
         (m_md_offset s1, m_al_offset s1, bm_offset s1) = (m_md_offset (meta d'), m_al_offset (meta d'), bm_offset (meta d'))).

Lemma write_layout_crash moved m d d' w : write_layout moved d = (d', w) -> moved = true \/ in_place m (meta d) ->
  meta d' = meta d /\ sd_bitmap d' = sd_bitmap d /\ sd_vdisk d' = sd_vdisk d /\ w <> [] /\ crash_safe m w d'.
Proof.
  unfold write_layout. intros [= <- <-] Hmoved. unfold set_meta, meta, set_ldev, set_md. simpl. rewrite mark_reliable_back. do 4 (split; [done|]). intros w1 w2 Hw.
  pose proof (mark_unreliable_marks (bd_md (sd_ldev d))) as Hm. destruct w1 as [|? [|? [|? [|? [|? ?]]]]]; simplify_list_eq; [by left|right..].
  1-3: by eexists; split; [done|left].
  eexists. split; [done|]. right. split; [done|]. split; [done|]. eexists moved, _. split; [do 2 (apply elem_of_cons; right); apply elem_of_cons; by left|done].
Qed.

Definition is_error (rv : determine_dev_size) : bool := match rv with DS_ERROR_SHRINK | DS_ERROR_SPACE_MD | DS_ERROR => true | _ => false end.

(** Sizes of their width; the cached size of the log is that of its stripes. *)
Record sizes_ok (d : size_device) : Prop := {
  so_al : m_al_size_4k (meta d) = u32 (m_al_stripes (meta d) * m_al_stripe_size_4k (meta d));
  so_backing : 0 <= backing_sectors (sd_ldev d);
  so_effective : 0 <= effective_size (meta d);
  so_user : 0 <= disk_size d;
  so_reply : 0 <= max_possible_size (twopc_reply d) < 2 ^ 64 - 1;
  so_peers : Forall peer_sizes (sd_peers d) }.

(** Who limits the new size: the local disk unless its size is given as 0, which is what the code
    makes of a missing copy of the device; every peer that told its sizes and was not asked in the two phase commit; the
    user. *)
Record size_allowed (res : resources) (flags : dds_flags) (rs : option resize_parms) (d : size_device) (size : Z) : Prop := {
  sa_local : forall l, drbd_local_max_size (copy_ok res) (set_md (apply_rs rs (meta d)) (sd_ldev d)) = Ret l -> l <> 0 -> 0 < size <= l;
  sa_peers : forall p, find_peer (sp_node_id p) (sd_peers d) = Some p -> have_sizes p = true -> max_size p <> 0 -> 0 <= sp_node_id p < Z.of_nat NODE_IDS ->
    sp_node_id p <> node_id (meta d) -> (dds_2pc flags = true -> Z.testbit (reachable_nodes (twopc_reply d)) (sp_node_id p) = false) -> size <= max_size p;
  sa_user : disk_size d <> 0 -> size <= disk_size d }.

Definition bitmap_has (size : Z) (d : size_device) : Prop := forall bm, sd_bitmap d = Some bm -> bm_dev_capacity bm = size.

(** What a change of size achieves. *)
Record size_changed (res : resources) (flags : dds_flags) (rs : option resize_parms) (d : size_device) (rv : determine_dev_size) (d' : size_device) (w : list md_event) : Prop := {
  sc_allowed : size_allowed res flags rs d (sd_vdisk d');
  sc_bitmap : bitmap_has (sd_vdisk d') d';
  sc_result : rv = ds_result (sd_vdisk d) (sd_vdisk d');
  sc_meta : exists e, (e = effective_size (meta d) \/ e = sd_vdisk d') /\ meta d' = set_effective e (bd_md (drbd_md_set_sector_offsets (set_md (apply_rs rs (meta d)) (sd_ldev d))));
  sc_quiet : w = [] -> rs = None /\ effective_size (meta d') = effective_size (meta d) /\ in_place (meta d) (meta d');
  sc_crash : crash_safe (meta d) w d' }.

(** The meta-data is in persistent memory that cannot be mapped again: it is as before and nothing
    was written, but device and bitmap have the new size. *)
Record remap_failed (res : resources) (flags : dds_flags) (rs : option resize_parms) (d : size_device) (rv : determine_dev_size) (d' : size_device) (w : list md_event) : Prop := {
  rf_dax : dax res = Some false;
  rf_allowed : size_allowed res flags rs d (sd_vdisk d');
  rf_bitmap : bitmap_has (sd_vdisk d') d';
  rf_result : rv = DS_UNCHANGED;
  rf_meta : meta d' = meta d;
  rf_quiet : w = [] }.

Lemma ds_result_ok a b : is_error (ds_result a b) = false.
Proof. unfold ds_result. by repeat case_if. Qed.

Lemma crash_safe_nil m d : crash_safe m [] d.
Proof. intros [|] w2; [by left|done]. Qed.

End change.

(** ** Instances *)

Section demo.
#[local] Instance demo_headers : MdHeaders.
Proof.
  refine (Build_MdHeaders (-1) (-2) (-3) 1 2 3 4 32%nat 4096 (2 ^ 20) 31 0%nat 1%nat 2%nat 4%nat _ _ _ _ _ _); try (split_and?; lia || discriminate || done).
  by apply (bool_decide_unpack _).
Defined.
#[local] Existing Instance PAGE_SHIFT_4k.

(** A node with one peer, and internal meta-data at the end of 16384 sectors. *)
Definition demo_meta (idx effective : Z) : meta_data :=
  mk_meta 0 effective 0 3 17 18 MDF_AL_CLEAN 0 0 0 0 1 4096 12 [no_peer; mk_peer_meta 15 0 (2 ^ 31 + 16) 0] [7; 0] idx 1 8 8.
Definition demo_bdev : backing_dev := mk_bdev (demo_meta (-1) 16000) 16384 16384.
Definition demo_84 : meta_data_on_disk_84 := mk_on_disk_84 0 [] 0 0 0 0 0 0 0 0 0 0 0.
Definition demo_block : md_block := mk_block (drbd_md_encode_9 true 1237 1048576 (bd_md (drbd_md_set_sector_offsets demo_bdev))) demo_84.
Definition demo_read (s : Z) : option md_block := if s =? 16376 then Some demo_block else None.
Definition demo_empty : backing_dev := mk_bdev (mk_meta 0 0 0 0 0 0 0 0 0 0 0 0 0 0 [] [] 0 0 0 0) 16384 16384.

Lemma demo_settings : md_settings (bd_md demo_bdev).
Proof. split; vm_compute; intuition congruence. Qed.

Lemma demo_values : meta_values (bd_md demo_bdev).
Proof.
  split; cbn -[MDF_AL_CLEAN]; try lia; [by change MDF_AL_CLEAN with 128| |].
  - apply Forall_cons. split; [|apply Forall_cons; split; [|apply Forall_nil; done]]; (split; [cbn; lia..|vm_compute; reflexivity]).
  - apply Forall_cons. split; [lia|]. apply Forall_cons. split; [lia|by apply Forall_nil].
Qed.

Lemma demo_slots : slots_ok 0 (bd_md demo_bdev).
Proof. intros [|[|i]] p; simpl; [intros [= <-]; done|intros [= <-] _; simpl; lia|done]. Qed.

Lemma demo_room : has_room demo_bdev.
Proof. vm_compute. intuition congruence. Qed.

Lemma layout_written_and_read_witness :
  has_room demo_bdev /\ drbd_md_read false 0 (-1) demo_read demo_empty = (Some NO_ERROR, set_md (as_read (bd_md demo_empty) (as_written true (bd_md (drbd_md_set_sector_offsets demo_bdev)))) demo_empty).
Proof.
  split; [exact demo_room|].
  apply (layout_written_and_read false 0 true 1237 1048576 demo_bdev demo_empty demo_block demo_read demo_settings demo_values demo_room (or_intror eq_refl) demo_slots eq_refl eq_refl eq_refl eq_refl).
Defined.

Definition demo_attached : backing_dev := snd (drbd_md_read false 0 (-1) demo_read demo_empty).

Lemma demo_block_ok s blk : demo_read s = Some blk -> block_ok blk.
Proof. unfold demo_read. case_if; [|done]. intros [= <-]. split; vm_compute; intuition congruence. Qed.


(** The same device without meta-data in use grows from zero; the peer has room for 20000 sectors. *)
Definition demo_bitmap : drbd_bitmap := mk_bitmap [] [] (replicate 32 0) 0 0 0 0 0 false 1 12 [].
Definition demo_peer (size : Z) : size_peer := mk_size_peer 1 true size size true.
Definition demo_dev (b : backing_dev) (p : size_peer) (user : Z) : size_device := mk_size_device b [p] 0 (Some demo_bitmap) true true user (mk_reply 0 0).
Definition demo_flags : dds_flags := mk_dds false false false.
Definition demo_resources (copy : bool) : resources := mk_resources true copy true None.
Definition demo_grow : determine_dev_size * size_device * list md_event :=
  match drbd_determine_dev_size (demo_resources true) 0 demo_flags None (demo_dev (mk_bdev (demo_meta (-1) 0) 16384 16384) (demo_peer 20000) 0) with Ret r => r | _ => (DS_ERROR, demo_dev demo_bdev (demo_peer 0) 0, []) end.

Definition demo_small : size_device := demo_dev (mk_bdev (demo_meta (-1) 0) 16384 16384) (demo_peer 20000) 0.

Lemma demo_small_sizes : sizes_ok demo_small.
Proof. split; cbn; try lia; [reflexivity|]. apply Forall_cons. split; [|by apply Forall_nil]. split; cbn; lia. Qed.


(** *** Limits of the code *)

(** Three peers on external meta-data: the largest size that [drbd_get_max_capacity] gives has more
    bits than the bitmap on disk, and setting it fails. *)
Definition three_peers : backing_dev :=
  mk_bdev (mk_meta 0 0 0 3 17 18 MDF_AL_CLEAN 0 80 8 72 3 4096 12 [no_peer; mk_peer_meta 15 0 (2 ^ 31 + 16) 0] [7; 0] (-2) 1 8 8) 1000000 80.
Definition dev_size_of (r : outcome (determine_dev_size * size_device * list md_event)) : option (determine_dev_size * Z * Z) :=
  match r with Ret (rv, d, _) => Some (rv, sd_vdisk d, effective_size (meta d)) | _ => None end.

Lemma max_capacity_too_large : drbd_get_max_capacity three_peers = Ret 87360 /\
  drbd_md_on_disk_bits 8 80 72 3 < bits_of 12 87360 /\
  dev_size_of (drbd_determine_dev_size (demo_resources true) 0 demo_flags None (demo_dev three_peers (demo_peer 1000000) 0)) = Some (DS_ERROR, 0, 0).
Proof. split; [vm_compute; reflexivity|]. split; vm_compute; reflexivity. Qed.

(** Without memory for the copy of the device its own size does not count: the device gets larger
    than the disk. *)
Lemma local_limit_lost :
  dev_size_of (drbd_determine_dev_size (demo_resources false) 0 demo_flags None (demo_dev (mk_bdev (demo_meta (-1) 0) 16384 16384) (demo_peer 20000) 0)) =
  Some (DS_GREW_FROM_ZERO, 20000, 20000).
Proof. vm_compute. reflexivity. Qed.

(** If persistent memory cannot be mapped again, the result is that nothing changed, but the device
    and its bitmap have the new size and the meta-data the old one. *)
Lemma remap_failure_unnoticed :
  dev_size_of (drbd_determine_dev_size (mk_resources true true true (Some false)) 0 demo_flags None (demo_dev (mk_bdev (demo_meta (-1) 0) 16384 16384) (demo_peer 20000) 0)) =
  Some (DS_UNCHANGED, 16304, 0).
Proof. vm_compute. reflexivity. Qed.

(** The gaps of the check for external meta-data: a bitmap that starts behind the end of the
    meta-data, and a log before the first sector. *)
Definition gap_meta (size al bm : Z) : meta_data := mk_meta 0 100000 0 0 0 0 MDF_AL_CLEAN 0 size al bm 1 4096 12 [] [] (-2) 1 8 8.

Lemma check_gaps : check_offsets_and_sizes (mk_bdev (gap_meta 8 8 72) 100000 8) = true /\
  check_offsets_and_sizes (mk_bdev (gap_meta 8 (-64) (-128)) 100000 8) = true.
Proof. split; vm_compute; reflexivity. Qed.

(** Internal meta-data for the largest size and 32 peers: the offset of the bitmap does not fit. *)
Definition largest : backing_dev :=
  mk_bdev (mk_meta 0 0 0 0 0 0 MDF_AL_CLEAN 0 0 0 0 32 4096 12 [] [] (-1) 1 8 8) DRBD_MAX_SECTORS DRBD_MAX_SECTORS.

Lemma layout_overflow : bm_offset (bd_md (drbd_md_set_sector_offsets largest)) = 2 ^ 31 - 64 /\
  check_offsets_and_sizes (drbd_md_set_sector_offsets largest) = false.
Proof. split; vm_compute; reflexivity. Qed.

(** No peers: accepted, but the capacity divides by them. *)
Definition no_slots : backing_dev := mk_bdev (mk_meta 0 0 0 0 0 0 MDF_AL_CLEAN 0 72 8 72 0 4096 12 [] [] (-2) 1 8 8) 100000 72.

Lemma no_slots_accepted : check_offsets_and_sizes no_slots = true /\ drbd_get_max_capacity no_slots = BUG.
Proof. split; vm_compute; reflexivity. Qed.
End demo.
