(* ===== verification/Epoch.v ===== *)
(** * Write epochs on the receiving node

    The writes that a peer sends come in epochs, which [P_BARRIER] packets separate.  The epochs of a
    connection are a list from the oldest to the current one; each is acknowledged with one
    [P_BARRIER_ACK] when all its writes and all epochs before it are done. *)
From S2P Require Import Prelude.

Inductive write_ordering_e := WO_NONE | WO_DRAIN_IO | WO_BDEV_FLUSH | WO_BIO_BARRIER.

#[export] Instance write_ordering_e_eq_dec : EqDecision write_ordering_e.
Proof. solve_decision. Defined.

(** The values of the enum come from a header that is not in the repository. *)
Class WriteOrdering := {
  wo_value : write_ordering_e -> Z;
  wo_increasing : wo_value WO_NONE < wo_value WO_DRAIN_IO < wo_value WO_BDEV_FLUSH /\ wo_value WO_BDEV_FLUSH < wo_value WO_BIO_BARRIER }.

Inductive epoch_event := EV_PUT | EV_GOT_BARRIER_NR | EV_BARRIER_DONE | EV_BECAME_LAST.
Inductive finish_epoch := FE_STILL_LIVE | FE_DESTROYED | FE_RECYCLED.

#[export] Instance epoch_event_eq_dec : EqDecision epoch_event.
Proof. solve_decision. Defined.
#[export] Instance finish_epoch_eq_dec : EqDecision finish_epoch.
Proof. solve_decision. Defined.

(** [struct drbd_epoch]; [ep_id] stands for its address. *)
Record drbd_epoch := mk_epoch {
  ep_id : nat;
  barrier_nr : Z;
  epoch_size : Z;
  ep_active : Z;
  confirmed : Z;
  oldest_unconfirmed_peer_req : option nat;
  DE_BARRIER_IN_NEXT_EPOCH_ISSUED : bool;
  DE_BARRIER_IN_NEXT_EPOCH_DONE : bool;
  DE_CONTAINS_A_BARRIER : bool;
  DE_HAVE_BARRIER_NUMBER : bool;
  DE_IS_FINISHING : bool }.

Definition new_epoch (id : nat) : drbd_epoch := mk_epoch id 0 0 0 0 None false false false false false.
Definition set_nr (x : Z) (e : drbd_epoch) : drbd_epoch :=
  mk_epoch (ep_id e) x (epoch_size e) (ep_active e) (confirmed e) (oldest_unconfirmed_peer_req e) (DE_BARRIER_IN_NEXT_EPOCH_ISSUED e)
    (DE_BARRIER_IN_NEXT_EPOCH_DONE e) (DE_CONTAINS_A_BARRIER e) (DE_HAVE_BARRIER_NUMBER e) (DE_IS_FINISHING e).
Definition set_counts (size act conf : Z) (oldest : option nat) (e : drbd_epoch) : drbd_epoch :=
  mk_epoch (ep_id e) (barrier_nr e) size act conf oldest (DE_BARRIER_IN_NEXT_EPOCH_ISSUED e)
    (DE_BARRIER_IN_NEXT_EPOCH_DONE e) (DE_CONTAINS_A_BARRIER e) (DE_HAVE_BARRIER_NUMBER e) (DE_IS_FINISHING e).
Definition set_de (issued done contains have finishing : bool) (e : drbd_epoch) : drbd_epoch :=
  mk_epoch (ep_id e) (barrier_nr e) (epoch_size e) (ep_active e) (confirmed e) (oldest_unconfirmed_peer_req e) issued done contains have finishing.
Definition add_active (x : Z) (e : drbd_epoch) : drbd_epoch :=
  set_counts (epoch_size e) (ep_active e + x) (confirmed e) (oldest_unconfirmed_peer_req e) e.
Definition set_issued (e : drbd_epoch) : drbd_epoch :=
  set_de true (DE_BARRIER_IN_NEXT_EPOCH_DONE e) (DE_CONTAINS_A_BARRIER e) (DE_HAVE_BARRIER_NUMBER e) (DE_IS_FINISHING e) e.
Definition set_contains (x : bool) (e : drbd_epoch) : drbd_epoch :=
  set_de (DE_BARRIER_IN_NEXT_EPOCH_ISSUED e) (DE_BARRIER_IN_NEXT_EPOCH_DONE e) x (DE_HAVE_BARRIER_NUMBER e) (DE_IS_FINISHING e) e.

(** ** Write ordering *)

Record disk_conf := mk_disk_conf { disk_barrier : bool; disk_flushes : bool; disk_drain : bool }.

Definition max_allowed_wo (dc : disk_conf) (wo : write_ordering_e) : write_ordering_e :=
  let wo := if bool_decide (wo = WO_BIO_BARRIER) && negb (disk_barrier dc) then WO_BDEV_FLUSH else wo in
  let wo := if bool_decide (wo = WO_BDEV_FLUSH) && negb (disk_flushes dc) then WO_DRAIN_IO else wo in
  if bool_decide (wo = WO_DRAIN_IO) && negb (disk_drain dc) then WO_NONE else wo.

Section epochs.
Context `{WriteOrdering}.

Definition wo_min (a b : write_ordering_e) : write_ordering_e := if wo_value b <? wo_value a then b else a.

(** [disks] are the devices of the resource, [Some] with a local disk. *)
Fixpoint limit_wo (i : nat) (disks : list (option disk_conf)) (wo : write_ordering_e) : write_ordering_e :=
  match disks with
  | [] => wo
  | d :: rest =>
      let wo := if Nat.eqb i 1 && bool_decide (wo = WO_BIO_BARRIER) then WO_BDEV_FLUSH else wo in
      limit_wo (S i) rest (match d with Some dc => max_allowed_wo dc wo | None => wo end)
  end.

(** [bdev]: a disk that is not among those of the devices, because it is not attached yet or
    [get_ldev] fails for its device. *)
Definition drbd_bump_write_ordering (disks : list (option disk_conf)) (bdev : option disk_conf) (pwo wo : write_ordering_e) : write_ordering_e :=
  let wo := if bool_decide (wo = WO_BIO_BARRIER) then wo else wo_min pwo wo in
  let wo := limit_wo 0 disks wo in
  match bdev with Some dc => max_allowed_wo dc wo | None => wo end.

(** ** Writes and epochs of a connection *)

(** A write has joined its epoch; counts as active; its I/O is done; its callback ran. *)
Inductive stage := Joined | Active | Done | Put.

#[export] Instance stage_eq_dec : EqDecision stage.
Proof. solve_decision. Defined.

Record peer_write := mk_write { w_epoch : nat; w_stage : stage; EE_IS_BARRIER : bool; EE_RESUBMITTED : bool; EE_TRIM : bool; EE_ZEROOUT : bool }.

(** What happened, newest first. *)
Inductive event :=
  | Received (i : nat)              (* a write joined the current epoch *)
  | Refused                         (* a write without a local disk *)
  | Completed (i : nat)
  | Flushed
  | FlushFailed
  | Confirmed (count : Z)           (* P_CONFIRM_STABLE *)
  | Barrier (nr : Z)
  | BarrierAck (nr size : Z)        (* P_BARRIER_ACK *)
  | SetOrdering (wo : write_ordering_e)
  | Cancelled                       (* epochs are dropped without an answer *)
  | Disconnected
  | NoMemory
  | FailedBarrier
  | UseAfterFree.

#[export] Instance event_eq_dec : EqDecision event.
Proof. solve_decision. Defined.

(** A call of [drbd_may_finish_epoch]: for which epoch; the event; [EV_CLEANUP]; whether it has let go
    of the lock to send an answer; what it returns so far; the call of the same thread after it; and
    whether [done_ee_cnt] counts it. *)
Record call := mk_call {
  k_id : nat;
  k_ev : epoch_event;
  k_cleanup : bool;
  k_window : bool;
  k_rv : finish_epoch;
  k_then : list (nat * epoch_event * bool);
  k_done : bool }.

Definition call_of (id : nat) (ev : epoch_event) (cleanup : bool) (next : list (nat * epoch_event * bool)) (done : bool) : call :=
  mk_call id ev cleanup false FE_STILL_LIVE next done.

(** Where the receiver thread is: idle; a write joined, a flush before it is confirmed was done, it
    is confirmed; or in [receive_Barrier]. *)
Inductive receiver_state :=
  | RIdle
  | RJoined (i : nat)
  | RFlushed (i : nat)
  | RConfirmed (i : nat)
  | RNumber (k : call)              (* drbd_may_finish_epoch(EV_GOT_BARRIER_NR) *)
  | RDrain                          (* waits for active_ee_cnt *)
  | RFinish (k : call)              (* drbd_may_finish_epoch of drbd_flush_after_epoch *)
  | RAlloc
  | RSlow (issue_flush : bool)      (* without memory: waits for active_ee_cnt *)
  | RSlowFinish (k : call)
  | RSlowDone.                      (* waits for done_ee_cnt *)

Record connection := mk_conn {
  epochs : list drbd_epoch;         (* from the oldest to [current_epoch] *)
  write_ordering : write_ordering_e;
  disks : list (option disk_conf);
  connected : bool;
  writes : list peer_write;
  active_ee_cnt : Z;
  done_ee_cnt : Z;
  flush_works : list nat;
  calls : list call;                (* of the other threads *)
  receiver : receiver_state;
  next_id : nat;
  log : list event }.

Definition set_epochs (x : list drbd_epoch) (c : connection) : connection :=
  mk_conn x (write_ordering c) (disks c) (connected c) (writes c) (active_ee_cnt c) (done_ee_cnt c) (flush_works c) (calls c) (receiver c) (next_id c) (log c).
Definition set_ordering (x : write_ordering_e) (c : connection) : connection :=
  mk_conn (epochs c) x (disks c) (connected c) (writes c) (active_ee_cnt c) (done_ee_cnt c) (flush_works c) (calls c) (receiver c) (next_id c) (SetOrdering x :: log c).
Definition set_connected (x : bool) (c : connection) : connection :=
  mk_conn (epochs c) (write_ordering c) (disks c) x (writes c) (active_ee_cnt c) (done_ee_cnt c) (flush_works c) (calls c) (receiver c) (next_id c) (log c).
Definition set_writes (x : list peer_write) (act done : Z) (c : connection) : connection :=
  mk_conn (epochs c) (write_ordering c) (disks c) (connected c) x act done (flush_works c) (calls c) (receiver c) (next_id c) (log c).
Definition set_flush_works (x : list nat) (c : connection) : connection :=
  mk_conn (epochs c) (write_ordering c) (disks c) (connected c) (writes c) (active_ee_cnt c) (done_ee_cnt c) x (calls c) (receiver c) (next_id c) (log c).
Definition set_calls (x : list call) (c : connection) : connection :=
  mk_conn (epochs c) (write_ordering c) (disks c) (connected c) (writes c) (active_ee_cnt c) (done_ee_cnt c) (flush_works c) x (receiver c) (next_id c) (log c).
Definition set_receiver (x : receiver_state) (c : connection) : connection :=
  mk_conn (epochs c) (write_ordering c) (disks c) (connected c) (writes c) (active_ee_cnt c) (done_ee_cnt c) (flush_works c) (calls c) x (next_id c) (log c).
Definition set_next_id (x : nat) (c : connection) : connection :=
  mk_conn (epochs c) (write_ordering c) (disks c) (connected c) (writes c) (active_ee_cnt c) (done_ee_cnt c) (flush_works c) (calls c) (receiver c) x (log c).
Definition note (e : event) (c : connection) : connection :=
  mk_conn (epochs c) (write_ordering c) (disks c) (connected c) (writes c) (active_ee_cnt c) (done_ee_cnt c) (flush_works c) (calls c) (receiver c) (next_id c) (e :: log c).

#[export] Instance epoch_inhabited : Inhabited drbd_epoch := populate (new_epoch 0).

Definition current_epoch (c : connection) : drbd_epoch := default inhabitant (last (epochs c)).
Definition is_current (c : connection) (id : nat) : bool := match last (epochs c) with Some e => Nat.eqb (ep_id e) id | None => false end.
(** [epoch->list.prev == &connection->current_epoch->list] *)
Definition is_oldest (c : connection) (id : nat) : bool := match epochs c with e :: _ => Nat.eqb (ep_id e) id | [] => false end.
Definition get_epoch (c : connection) (id : nat) : option drbd_epoch := find (fun e => Nat.eqb (ep_id e) id) (epochs c).
Definition alter_epoch (id : nat) (f : drbd_epoch -> drbd_epoch) (c : connection) : connection :=
  set_epochs (map (fun e => if Nat.eqb (ep_id e) id then f e else e) (epochs c)) c.

Fixpoint epoch_before (id : nat) (l : list drbd_epoch) : option drbd_epoch :=
  match l with
  | p :: (e :: _) as rest => if Nat.eqb (ep_id e) id then Some p else epoch_before id rest
  | _ => None
  end.
Definition previous_epoch (c : connection) (id : nat) : option nat := ep_id <$> epoch_before id (epochs c).

Fixpoint epoch_after (id : nat) (l : list drbd_epoch) : option drbd_epoch :=
  match l with
  | e :: rest => if Nat.eqb (ep_id e) id then head rest else epoch_after id rest
  | [] => None
  end.

(** ** [drbd_may_finish_epoch] *)

Definition apply_event (wo : write_ordering_e) (current : bool) (ev : epoch_event) (e : drbd_epoch) : drbd_epoch :=
  match ev with
  | EV_PUT => add_active (-1) e
  | EV_GOT_BARRIER_NR =>
      let contains := if DE_CONTAINS_A_BARRIER e && (epoch_size e =? 1) && negb (bool_decide (wo = WO_BIO_BARRIER)) && current then false else DE_CONTAINS_A_BARRIER e in
      set_de (DE_BARRIER_IN_NEXT_EPOCH_ISSUED e) (DE_BARRIER_IN_NEXT_EPOCH_DONE e) contains true (DE_IS_FINISHING e) e
  | EV_BARRIER_DONE => set_de (DE_BARRIER_IN_NEXT_EPOCH_ISSUED e) true (DE_CONTAINS_A_BARRIER e) (DE_HAVE_BARRIER_NUMBER e) (DE_IS_FINISHING e) e
  | EV_BECAME_LAST => e
  end.

(** Nearly all conditions are met to finish that epoch. *)
Definition nearly_done (oldest cleanup : bool) (e : drbd_epoch) : bool :=
  negb (epoch_size e =? 0) && (ep_active e =? 0) && (DE_HAVE_BARRIER_NUMBER e || cleanup) && oldest && negb (DE_IS_FINISHING e).

Definition may_finish (wo : write_ordering_e) (cleanup : bool) (e : drbd_epoch) : bool :=
  DE_BARRIER_IN_NEXT_EPOCH_DONE e || bool_decide (wo = WO_NONE) || ((epoch_size e =? 1) && DE_CONTAINS_A_BARRIER e) || cleanup.

Definition finishing (e : drbd_epoch) : drbd_epoch :=
  set_de (DE_BARRIER_IN_NEXT_EPOCH_ISSUED e) (DE_BARRIER_IN_NEXT_EPOCH_DONE e) (DE_CONTAINS_A_BARRIER e) (DE_HAVE_BARRIER_NUMBER e) true e.

(** The epoch after the event, whether it is finished, and whether a flush is to be scheduled. *)
Definition check_epoch (wo : write_ordering_e) (current oldest cleanup : bool) (ev : epoch_event) (e : drbd_epoch) : drbd_epoch * bool * bool :=
  let e := apply_event wo current ev e in
  if nearly_done oldest cleanup e
  then if may_finish wo cleanup e then (finishing e, true, false)
       else if negb (DE_BARRIER_IN_NEXT_EPOCH_ISSUED e) && bool_decide (wo = WO_BIO_BARRIER) then (add_active 1 e, false, true)
       else (e, false, false)
  else (e, false, false).

Definition drbd_send_b_ack (nr size : Z) (c : connection) : connection :=
  if connected c then note (BarrierAck nr (u32 size)) c else c.

(** The end of a call: its result, and the epoch for which a flush is to be scheduled. *)
Inductive outcome_of_call := Goes (k : call) | Returns (rv : finish_epoch) (flush : option nat).

Definition first_result (rv x : finish_epoch) : finish_epoch := if bool_decide (rv = FE_STILL_LIVE) then x else rv.

(** A finished epoch goes, or starts anew if it is the current one; the next epoch became the oldest. *)
Definition recycled (e : drbd_epoch) : drbd_epoch := mk_epoch (ep_id e) (barrier_nr e) 0 (ep_active e) 0 None false false false false false.
Definition remove_epoch (id : nat) (c : connection) : connection * option nat * finish_epoch :=
  if is_current c id then (alter_epoch id recycled c, None, FE_RECYCLED)
  else (set_epochs (filter (fun e => ep_id e <> id) (epochs c)) c, ep_id <$> epoch_after id (epochs c), FE_DESTROYED).

(** The loop up to the place where the lock is given up to send an answer, or to its end.  Every round
    but the last removes an epoch, so that [fuel] is enough if it is more than the number of epochs. *)
Fixpoint finish_loop (fuel : nat) (id : nat) (ev : epoch_event) (rv : finish_epoch) (k : call) (c : connection) : connection * outcome_of_call :=
  match fuel with
  | O => (c, Returns rv None)
  | S fuel =>
      match get_epoch c id with
      | None => (note UseAfterFree c, Returns rv None)
      | Some e =>
          let '(e', finish, flush) := check_epoch (write_ordering c) (is_current c id) (is_oldest c id) (k_cleanup k) ev e in
          let c := alter_epoch id (fun _ => e') c in
          let c := if bool_decide (ev = EV_GOT_BARRIER_NR) then note (Barrier (barrier_nr e)) c else c in
          if finish
          then if k_cleanup k
               then match remove_epoch id c with
                    | (c, Some n, x) => finish_loop fuel n EV_BECAME_LAST (first_result rv x) k c
                    | (c, None, x) => (c, Returns (first_result rv x) None)
                    end
               else (drbd_send_b_ack (barrier_nr e') (epoch_size e' - confirmed e') c, Goes (mk_call id EV_BECAME_LAST false true rv (k_then k) (k_done k)))
          else (c, Returns rv (if flush then Some id else None))
      end
  end.

(** [drbd_may_finish_epoch], from its start or from where it takes the lock again. *)
Definition drbd_may_finish_epoch (k : call) (c : connection) : connection * outcome_of_call :=
  if k_window k
  then match remove_epoch (k_id k) c with
       | (c, Some n, x) => finish_loop (S (length (epochs c))) n EV_BECAME_LAST (first_result (k_rv k) x) k c
       | (c, None, x) => (c, Returns (first_result (k_rv k) x) None)
       end
  else finish_loop (S (length (epochs c))) (k_id k) (k_ev k) (k_rv k) k c.

Definition next_call (next : list (nat * epoch_event * bool)) (done : bool) : option call :=
  match next with (id, ev, cleanup) :: rest => Some (call_of id ev cleanup rest done) | [] => None end.

(** [schedule_flush]; without memory the thread does it by itself. *)
Definition schedule_flush (memory : bool) (flush : option nat) (next : list (nat * epoch_event * bool)) (done : bool) (c : connection) : connection * option call :=
  match flush with
  | None => (c, next_call next done)
  | Some id =>
      if memory then (set_flush_works (id :: flush_works c) c, next_call next done)
      else (note NoMemory (alter_epoch id set_issued c), next_call ((id, EV_BARRIER_DONE, false) :: (id, EV_PUT, false) :: next) done)
  end.

(** ** Flushes *)

(** Whether all flushes succeed is given. *)
Definition flush_devices (ok : bool) (c : connection) : connection :=
  if wo_value WO_BDEV_FLUSH <=? wo_value (write_ordering c)
  then if ok then note Flushed c
       else set_ordering (drbd_bump_write_ordering (disks c) None (write_ordering c) WO_DRAIN_IO) (note FlushFailed c)
  else c.

Definition w_flush (ok : bool) (id : nat) (c : connection) : connection :=
  match get_epoch c id with
  | None => note UseAfterFree c
  | Some e =>
      let put := (id, EV_PUT, negb (connected c)) in
      if DE_BARRIER_IN_NEXT_EPOCH_ISSUED e then set_calls (call_of id EV_PUT (negb (connected c)) [] false :: calls c) c
      else let c := flush_devices ok (alter_epoch id set_issued c) in
           set_calls (call_of id EV_BARRIER_DONE false [put] false :: calls c) c
  end.

(** ** Writes *)

Definition alter_write (i : nat) (f : peer_write -> peer_write) (c : connection) : connection :=
  set_writes (alter f i (writes c)) (active_ee_cnt c) (done_ee_cnt c) c.
Definition set_stage (x : stage) (w : peer_write) : peer_write := mk_write (w_epoch w) x (EE_IS_BARRIER w) (EE_RESUBMITTED w) (EE_TRIM w) (EE_ZEROOUT w).

(** Whether the first write of an epoch is made a barrier, and whether the epoch before is told so. *)
Definition makes_barrier (c : connection) : bool * bool :=
  let e := current_epoch c in
  if bool_decide (write_ordering c = WO_BIO_BARRIER) && (epoch_size e =? 1)
  then match epoch_before (ep_id e) (epochs c) with
       | None => (true, false)
       | Some p => if (1 <? epoch_size p) || negb (DE_CONTAINS_A_BARRIER p) then (true, true) else (false, false)
       end
  else (false, false).

(** The part of [receive_Data] under [epoch_lock]. *)
Definition receive_Data (trim zeroout : bool) (c : connection) : connection :=
  let id := ep_id (current_epoch c) in
  let i := length (writes c) in
  let join e := set_counts (epoch_size e + 1) (ep_active e + 1) (confirmed e)
                  (match oldest_unconfirmed_peer_req e with None => Some i | x => x end) e in
  let c := alter_epoch id join c in
  let '(barrier, tell) := makes_barrier c in
  let c := if tell then match previous_epoch c id with Some p => alter_epoch p set_issued c | None => c end else c in
  let c := if barrier then alter_epoch id (set_contains true) c else c in
  note (Received i) (set_receiver (RJoined i) (set_writes (writes c ++ [mk_write id Joined barrier false trim zeroout]) (active_ee_cnt c) (done_ee_cnt c) c)).

(** Without a local disk. *)
Definition receive_Data_no_disk (c : connection) : connection :=
  note Refused (alter_epoch (ep_id (current_epoch c)) (fun e => set_counts (epoch_size e + 1) (ep_active e) (confirmed e) (oldest_unconfirmed_peer_req e) e) c).

Definition drbd_send_confirm_stable (i : nat) (c : connection) : connection :=
  let e := current_epoch c in
  if negb (connected c) || bool_decide (oldest_unconfirmed_peer_req e = Some i) then c
  else
    let count := epoch_size e - confirmed e - 1 in
    note (Confirmed count) (alter_epoch (ep_id e) (set_counts (epoch_size e) (ep_active e) (confirmed e + count) (Some i)) c).

(** [drbd_endio_write_sec_final] *)
Definition is_failed_barrier (w : peer_write) (error : bool) : bool := EE_IS_BARRIER w && error && negb (EE_RESUBMITTED w) && negb (EE_TRIM w) && negb (EE_ZEROOUT w).

(** [bdev] is the disk of the write, if [get_ldev] does not give it any more. *)
Definition drbd_endio_write_sec_final (bdev : option disk_conf) (error : bool) (i : nat) (c : connection) : connection :=
  match writes c !! i with
  | None => c
  | Some w =>
      if is_failed_barrier w error
      then
        let c := note FailedBarrier (set_ordering (drbd_bump_write_ordering (disks c) bdev (write_ordering c) WO_BDEV_FLUSH) c) in
        set_writes (alter (fun w => mk_write (w_epoch w) (w_stage w) (EE_IS_BARRIER w) true (EE_TRIM w) (EE_ZEROOUT w)) i (writes c)) (active_ee_cnt c - 1) (done_ee_cnt c) c
      else note (Completed i) (set_writes (alter (set_stage Done) i (writes c)) (active_ee_cnt c - 1) (done_ee_cnt c + 1) c)
  end.

(** [e_end_block], the part that concerns epochs. *)
Definition e_end_block (cancel : bool) (i : nat) (c : connection) : connection :=
  match writes c !! i with
  | None => c
  | Some w =>
      let c := if cancel then note Cancelled c else c in
      let c := alter_write i (set_stage Put) c in
      let k := match (if EE_IS_BARRIER w then previous_epoch c (w_epoch w) else None) with
               | Some p => call_of p EV_BARRIER_DONE cancel [(w_epoch w, EV_PUT, cancel)] true
               | None => call_of (w_epoch w) EV_PUT cancel [] true
               end in
      set_calls (k :: calls c) c
  end.

(** ** [receive_Barrier] *)

Definition receive_Barrier (nr : Z) (c : connection) : connection :=
  let id := ep_id (current_epoch c) in
  set_receiver (RNumber (call_of id EV_GOT_BARRIER_NR false [] false)) (alter_epoch id (set_nr nr) c).

(** After the first call. *)
Definition barrier_numbered (rv : finish_epoch) (c : connection) : connection :=
  match write_ordering c with
  | WO_BIO_BARRIER | WO_NONE => set_receiver (if bool_decide (rv = FE_RECYCLED) then RIdle else RAlloc) c
  | WO_BDEV_FLUSH | WO_DRAIN_IO =>
      match rv with
      | FE_STILL_LIVE => set_receiver RDrain (alter_epoch (ep_id (current_epoch c)) set_issued c)
      | FE_RECYCLED => set_receiver RIdle c
      | FE_DESTROYED => set_receiver RAlloc c
      end
  end.

(** [drbd_flush_after_epoch] for the current epoch, up to its call. *)
Definition flush_after_epoch (ok : bool) (c : connection) : connection * call :=
  (flush_devices ok c, call_of (ep_id (current_epoch c)) EV_BARRIER_DONE false [] false).

Definition barrier_alloc (memory : bool) (c : connection) : connection :=
  let e := current_epoch c in
  if memory
  then set_receiver RIdle (if epoch_size e =? 0 then c else set_next_id (S (next_id c)) (set_epochs (epochs c ++ [new_epoch (next_id c)]) c))
  else note NoMemory (set_receiver (RSlow (negb (DE_BARRIER_IN_NEXT_EPOCH_ISSUED e))) (alter_epoch (ep_id e) set_issued c)).
End epochs.
