(* ===== verification/EpochSpec.v ===== *)
(** * Write epochs: the threads, and what they promise

    The receiver, the sender of answers and the worker as steps at the granularity of the lock; and
    the specification, a queue of epochs. *)
From S2P Require Import Prelude Epoch.

Section steps.
Context `{WriteOrdering}.

(** ** Calls *)

(** A call of the receiver goes on; [back] says what the receiver does with its result.  The calls in
    place of a flush for which there is no memory go on beside the receiver. *)
Definition advance_receiver (memory : bool) (k : call) (wait : call -> receiver_state) (back : finish_epoch -> connection -> connection) (c : connection) : connection :=
  match drbd_may_finish_epoch k c with
  | (c, Goes k') => set_receiver (wait k') c
  | (c, Returns rv flush) =>
      let '(c, next) := schedule_flush memory flush [] false c in
      back rv (match next with Some k' => set_calls (k' :: calls c) c | None => c end)
  end.

(** A call of another thread goes on; after its last one [done_ee_cnt] is given back. *)
Definition advance_call (memory : bool) (k : call) (c : connection) : connection :=
  match drbd_may_finish_epoch k c with
  | (c, Goes k') => set_calls (k' :: calls c) c
  | (c, Returns _ flush) =>
      match schedule_flush memory flush (k_then k) (k_done k) c with
      | (c, Some k') => set_calls (k' :: calls c) c
      | (c, None) => if k_done k then set_writes (writes c) (active_ee_cnt c) (done_ee_cnt c - 1) c else c
      end
  end.

Definition after_flush (rv : finish_epoch) (c : connection) : connection := set_receiver (if bool_decide (rv = FE_RECYCLED) then RIdle else RAlloc) c.
Definition after_slow_flush (rv : finish_epoch) (c : connection) : connection := set_receiver (if bool_decide (rv = FE_RECYCLED) then RIdle else RSlowDone) c.

(** [conn_wait_active_ee_empty_or_disconnect], [conn_wait_done_ee_empty_or_disconnect] *)
Definition drained (c : connection) : Prop := active_ee_cnt c = 0 \/ connected c = false.
Definition all_done (c : connection) : Prop := done_ee_cnt c = 0 \/ connected c = false.

Definition activate (i : nat) (c : connection) : connection :=
  set_receiver RIdle (set_writes (alter (set_stage Active) i (writes c)) (active_ee_cnt c + 1) (done_ee_cnt c) c).

(** A write is given up, with [EV_PUT] and [EV_CLEANUP]; [counted]: and [active_ee_cnt] decremented. *)
Definition cancel_write (counted : bool) (i : nat) (w : peer_write) (c : connection) : connection :=
  let act := if counted then active_ee_cnt c - 1 else active_ee_cnt c in
  note Cancelled (set_calls (call_of (w_epoch w) EV_PUT true [] false :: calls c)
    (set_receiver (match receiver c with RJoined _ | RFlushed _ | RConfirmed _ => RIdle | r => r end)
      (set_writes (alter (set_stage Put) i (writes c)) act (done_ee_cnt c) c))).

(** A peer sends a barrier only after writes. *)
Inductive step : connection -> connection -> Prop :=
  | step_data trim zeroout c : receiver c = RIdle -> step c (receive_Data trim zeroout c)
  | step_no_disk c : receiver c = RIdle -> step c (receive_Data_no_disk c)
  | step_log_full ok i c : receiver c = RJoined i -> drained c -> step c (set_receiver (RFlushed i) (flush_devices ok c))
  | step_confirm i c : receiver c = RFlushed i -> all_done c -> step c (set_receiver (RConfirmed i) (drbd_send_confirm_stable i c))
  | step_no_confirm i c : receiver c = RFlushed i -> all_done c -> step c (set_receiver (RConfirmed i) c)
  | step_activate i c : receiver c = RJoined i \/ receiver c = RConfirmed i -> step c (activate i c)
  | step_barrier nr c : receiver c = RIdle -> epoch_size (current_epoch c) <> 0 -> step c (receive_Barrier nr c)
  | step_number memory k c : receiver c = RNumber k -> step c (advance_receiver memory k RNumber barrier_numbered c)
  | step_drained ok c : receiver c = RDrain -> drained c ->
      step c (let '(c, k) := flush_after_epoch ok c in set_receiver (RFinish k) c)
  | step_finish memory k c : receiver c = RFinish k -> step c (advance_receiver memory k RFinish after_flush c)
  | step_alloc memory c : receiver c = RAlloc -> step c (barrier_alloc memory c)
  | step_slow ok c : receiver c = RSlow true -> drained c ->
      step c (let '(c, k) := flush_after_epoch ok c in set_receiver (RSlowFinish k) c)
  | step_slow_issued c : receiver c = RSlow false -> drained c -> step c (set_receiver RSlowDone c)
  | step_slow_finish memory k c : receiver c = RSlowFinish k -> step c (advance_receiver memory k RSlowFinish after_slow_flush c)
  | step_slow_done c : receiver c = RSlowDone -> all_done c -> step c (set_receiver RIdle c)
  | step_complete bdev error i w c : writes c !! i = Some w -> w_stage w = Active -> step c (drbd_endio_write_sec_final bdev error i c)
  | step_end_block cancel i w c : writes c !! i = Some w -> w_stage w = Done -> step c (e_end_block cancel i c)
  | step_flush_work ok id l1 l2 c : flush_works c = l1 ++ id :: l2 -> step c (w_flush ok id (set_flush_works (l1 ++ l2) c))
  | step_thread memory k l1 l2 c : calls c = l1 ++ k :: l2 -> step c (advance_call memory k (set_calls (l1 ++ l2) c))
  | step_cancel_joined i w c : writes c !! i = Some w -> w_stage w = Joined -> step c (cancel_write false i w c)
  | step_cancel_active counted i w c : writes c !! i = Some w -> w_stage w = Active -> step c (cancel_write counted i w c)
  | step_disconnect c : step c (note Disconnected (set_connected false c))
  | step_ordering bdev wo c : step c (set_ordering (drbd_bump_write_ordering (disks c) bdev (write_ordering c) wo) c).

(** A new connection. *)
Definition initial (wo : write_ordering_e) (d : list (option disk_conf)) : connection :=
  mk_conn [new_epoch 0] wo d true [] 0 0 [] [] RIdle 1 [].

Definition reachable (c : connection) : Prop := exists wo d, rtc step (initial wo d) c.

(** ** The specification *)

(** The writes of an epoch, and how many of them are not confirmed. *)
Record batch := mk_batch { b_count : Z; b_writes : list nat }.
Definition no_batch : batch := mk_batch 0 [].

(** Closed epochs from the oldest, the open one, the completed writes, and those of them before the
    last flush. *)
Record spec := mk_spec { sp_closed : list (Z * batch); sp_open : batch; sp_completed : list nat; sp_flushed : list nat }.

(** [o] is the write ordering if it stays the same: with [WO_BDEV_FLUSH] a write is durable after a
    flush, without it there is no more than its completion. *)
Definition durable (o : option write_ordering_e) (s : spec) (l : list nat) : bool :=
  forallb (fun i => bool_decide (i ∈ (if bool_decide (o = Some WO_BDEV_FLUSH) then sp_flushed s else sp_completed s))) l.
Definition drains (o : option write_ordering_e) : bool := bool_decide (o = Some WO_DRAIN_IO) || bool_decide (o = Some WO_BDEV_FLUSH).
Definition plain (o : option write_ordering_e) : bool := drains o || bool_decide (o = Some WO_NONE).

(** Epochs are acknowledged in their order, each once and with its number of writes, when all its
    writes are durable; a confirmation is for all writes but the newest; and if the ordering drains,
    a write comes only after all writes of closed epochs are durable. *)
Definition spec_step (o : option write_ordering_e) (e : event) (s : spec) : option spec :=
  let b := sp_open s in
  match e with
  | Received i =>
      if negb (drains o) || forallb (fun nb => durable o s (b_writes (snd nb))) (sp_closed s)
      then Some (mk_spec (sp_closed s) (mk_batch (b_count b + 1) (b_writes b ++ [i])) (sp_completed s) (sp_flushed s)) else None
  | Refused => Some (mk_spec (sp_closed s) (mk_batch (b_count b + 1) (b_writes b)) (sp_completed s) (sp_flushed s))
  | Completed i => Some (mk_spec (sp_closed s) b (i :: sp_completed s) (sp_flushed s))
  | Flushed => Some (mk_spec (sp_closed s) b (sp_completed s) (sp_completed s))
  | Confirmed k =>
      if (0 <? k) && (k =? b_count b - 1) && durable o s (removelast (b_writes b))
      then Some (mk_spec (sp_closed s) (mk_batch 1 (b_writes b)) (sp_completed s) (sp_flushed s)) else None
  | Barrier nr => Some (mk_spec (sp_closed s ++ [(nr, b)]) no_batch (sp_completed s) (sp_flushed s))
  | BarrierAck nr k =>
      match sp_closed s with
      | (nr', b') :: rest =>
          if (nr =? nr') && (k =? u32 (b_count b')) && durable o s (b_writes b')
          then Some (mk_spec rest b (sp_completed s) (sp_flushed s)) else None
      | [] => None
      end
  | UseAfterFree => None
  | _ => Some s
  end.

Definition spec_run (o : option write_ordering_e) (l : list event) : option spec :=
  foldr (fun e s => s ≫= spec_step o e) (Some (mk_spec [] no_batch [] [])) l.

(** The ordering of a connection that starts with [wo], if it stays the same. *)
Definition ordering_kept (wo : write_ordering_e) (l : list event) : option write_ordering_e :=
  if forallb (fun e => match e with SetOrdering _ => false | _ => true end) l then Some wo else None.

(** No epoch was dropped and nothing ran out; and no epoch was used after it was freed, or the writes
    were never made barriers. *)
Definition clean (o : option write_ordering_e) (l : list event) : Prop :=
  Cancelled ∉ l /\ Disconnected ∉ l /\ NoMemory ∉ l /\ FailedBarrier ∉ l /\ (plain o = true \/ UseAfterFree ∉ l).
End steps.
