(* ===== verification/EpochInv.v ===== *)
(** * Write epochs: the invariant of a connection

    It relates the epochs of a connection to the queue of the specification, and counts the references
    that writes, calls and scheduled flushes hold on an epoch. *)
From S2P Require Import Prelude Epoch EpochSpec.

Section total.
Context {A : Type}.

Definition total (f : A -> Z) (l : list A) : Z := foldr (fun x n => f x + n) 0 l.

Lemma total_app f l1 l2 : total f (l1 ++ l2) = total f l1 + total f l2.
Proof. induction l1; simpl in *; lia. Qed.

Lemma total_nonneg f l : (forall x, 0 <= f x) -> 0 <= total f l.
Proof. intros Hf. induction l as [|x l IH]; simpl; [lia|]. specialize (Hf x). lia. Qed.

Lemma total_member f l x : (forall y, 0 <= f y) -> x ∈ l -> f x <= total f l.
Proof.
  intros Hf Hx. apply list_elem_of_split in Hx as (l1 & l2 & ->). rewrite total_app. simpl.
  pose proof (total_nonneg f l1 Hf). pose proof (total_nonneg f l2 Hf). lia.
Qed.

Lemma total_perm f l1 l2 : l1 ≡ₚ l2 -> total f l1 = total f l2.
Proof. induction 1; simpl in *; lia. Qed.

Lemma total_alter f g (l : list A) i x : l !! i = Some x -> total f (alter g i l) = total f l - f x + f (g x).
Proof.
  intros Hi. rewrite <- (take_drop_middle l i x Hi) at 2.
  assert (Hlt := lookup_lt_Some _ _ _ Hi). rewrite <- (take_drop_middle l i x Hi) at 1.
  rewrite alter_app_r_alt by (rewrite length_take; lia). rewrite length_take, Nat.min_l, Nat.sub_diag by lia.
  simpl. rewrite !total_app. simpl. lia.
Qed.
End total.

Section invariant.
Context `{WriteOrdering}.

(** ** References to an epoch *)

Definition b2z (b : bool) : Z := if b then 1 else 0.

Definition held (id : nat) (w : peer_write) : Z := b2z (Nat.eqb (w_epoch w) id && negb (bool_decide (w_stage w = Put))).
Definition put_later (id : nat) (x : nat * epoch_event * bool) : Z := b2z (Nat.eqb x.1.1 id && bool_decide (x.1.2 = EV_PUT)).
Definition puts (id : nat) (k : call) : Z :=
  b2z (negb (k_window k) && Nat.eqb (k_id k) id && bool_decide (k_ev k = EV_PUT)) + total (put_later id) (k_then k).
Definition flushes (id x : nat) : Z := b2z (Nat.eqb x id).

Definition references (c : connection) (K : list call) (id : nat) : Z :=
  total (held id) (writes c) + total (puts id) K + total (flushes id) (flush_works c).
Definition active_of (c : connection) (id : nat) : Z := match get_epoch c id with Some e => ep_active e | None => 0 end.

Definition window (k : call) : Z := b2z (k_window k).
Definition is_active (w : peer_write) : Z := b2z (bool_decide (w_stage w = Active)).

(** ** Epochs and the specification *)

Definition owned (c : connection) (id : nat) (l : list nat) : Prop :=
  Forall (fun i => exists w, writes c !! i = Some w /\ w_epoch w = id) l.

(** An epoch that is being acknowledged, a closed one, the open one. *)
Record fin_ok (o : option write_ordering_e) (e : drbd_epoch) : Prop := {
  fi_finishing : DE_IS_FINISHING e = true;
  fi_number : DE_HAVE_BARRIER_NUMBER e = true;
  fi_size : epoch_size e <> 0;
  fi_active : ep_active e = 0;
  fi_done : drains o = true -> DE_BARRIER_IN_NEXT_EPOCH_DONE e = true }.

Record closed_ok (o : option write_ordering_e) (c : connection) (s : spec) (e : drbd_epoch) (nb : Z * batch) : Prop := {
  cl_finishing : DE_IS_FINISHING e = false;
  cl_number : DE_HAVE_BARRIER_NUMBER e = true;
  cl_nr : barrier_nr e = nb.1;
  cl_size : epoch_size e <> 0;
  cl_count : epoch_size e - confirmed e = b_count nb.2;
  cl_owned : owned c (ep_id e) (b_writes nb.2);
  cl_barrier : drains o = true -> DE_CONTAINS_A_BARRIER e = false;
  cl_done : drains o = true -> DE_BARRIER_IN_NEXT_EPOCH_DONE e = true -> durable o s (b_writes nb.2) = true }.

Record open_ok (o : option write_ordering_e) (c : connection) (e : drbd_epoch) (b : batch) : Prop := {
  op_finishing : DE_IS_FINISHING e = false;
  op_number : DE_HAVE_BARRIER_NUMBER e = false;
  op_count : epoch_size e - confirmed e = b_count b;
  op_nonneg : 0 <= b_count b;
  op_owned : owned c (ep_id e) (b_writes b);
  op_some : oldest_unconfirmed_peer_req e = None -> b_writes b = [];
  op_oldest : forall i, oldest_unconfirmed_peer_req e = Some i -> 1 <= b_count b /\ (2 <= b_count b \/ last (b_writes b) = Some i);
  op_barrier : drains o = true -> DE_CONTAINS_A_BARRIER e = false;
  op_done : drains o = true -> DE_BARRIER_IN_NEXT_EPOCH_DONE e = false }.

(** A call of another thread, or one on the way. *)
Record call_ok (o : option write_ordering_e) (k : call) : Prop := {
  ca_cleanup : k_cleanup k = false;
  ca_event : k_window k = false -> k_ev k = EV_PUT \/ k_ev k = EV_BARRIER_DONE;
  ca_then : Forall (fun x => x.2 = false /\ (x.1.2 = EV_PUT \/ x.1.2 = EV_BARRIER_DONE)) (k_then k);
  ca_plain : plain o = true -> k_then k = [] /\ (k_window k = false -> k_ev k = EV_PUT) }.

(** The state without the receiver: [K] are all calls, the epochs are [F ++ C ++ O]. *)
Record core (o : option write_ordering_e) (c : connection) (s : spec) (K : list call) (F C O : list drbd_epoch) : Prop := {
  co_spec : spec_run o (log c) = Some s;
  co_epochs : epochs c = F ++ C ++ O;
  co_some : epochs c <> [];
  co_fin : F = [] \/ exists e, F = [e] /\ fin_ok o e;
  co_closed : Forall2 (closed_ok o c s) C (sp_closed s);
  co_open : (O = [] /\ sp_open s = no_batch) \/ (exists e, O = [e] /\ open_ok o c e (sp_open s));
  co_nodup : NoDup (ep_id <$> epochs c);
  co_next : Forall (fun e => (ep_id e < next_id c)%nat) (epochs c);
  co_active : forall id, active_of c id = references c K id;
  co_windows : total window K = Z.of_nat (length F);
  co_window : forall k, k ∈ K -> k_window k = true -> exists e, F = [e] /\ k_id k = ep_id e;
  co_connected : connected c = true;
  co_ordering : forall wo, o = Some wo -> write_ordering c = wo;
  co_plain : plain o = true -> flush_works c = [] /\ Forall (fun w => EE_IS_BARRIER w = false) (writes c);
  co_count : active_ee_cnt c = total is_active (writes c);
  co_done : forall i w, writes c !! i = Some w -> w_stage w = Done \/ w_stage w = Put -> i ∈ sp_completed s;
  co_flushed : forall i, i ∈ sp_flushed s -> i ∈ sp_completed s }.

(** ** The receiver *)

Definition receiver_call (r : receiver_state) : list call :=
  match r with RNumber k | RFinish k | RSlowFinish k => [k] | _ => [] end.

(** No write but [x] is between joining its epoch and becoming active. *)
Definition joined_only (c : connection) (x : option nat) : Prop := forall i w, writes c !! i = Some w -> w_stage w = Joined -> x = Some i.

Definition all_durable (o : option write_ordering_e) (s : spec) : Prop :=
  drains o = true -> Forall (fun nb => durable o s (b_writes nb.2) = true) (sp_closed s).

(** The write at hand is the newest of the open epoch. *)
Definition newest (c : connection) (s : spec) (i : nat) : Prop :=
  exists l w, b_writes (sp_open s) = l ++ [i] /\ Forall (fun j => (j < i)%nat) l /\ writes c !! i = Some w /\ w_stage w = Joined.

(** Once the barrier is noted the open epoch can only be a recycled one. *)
Definition unused (s : spec) (O : list drbd_epoch) : Prop := forall e, O = [e] -> epoch_size e = 0 /\ sp_open s = no_batch.

(** A call of the receiver for the current epoch. *)
Definition call_at (k : call) (c : connection) : Prop :=
  k_id k = ep_id (current_epoch c) /\ k_cleanup k = false /\ k_then k = [] /\ k_rv k = FE_STILL_LIVE.

Definition undrained (o : option write_ordering_e) (c : connection) (O : list drbd_epoch) : Prop :=
  drains o = true -> O = [] /\ DE_BARRIER_IN_NEXT_EPOCH_DONE (current_epoch c) = false.

Definition receiver_ok (o : option write_ordering_e) (c : connection) (s : spec) (O : list drbd_epoch) : Prop :=
  match receiver c with
  | RIdle => O <> [] /\ joined_only c None /\ all_durable o s
  | RJoined i => O <> [] /\ joined_only c (Some i) /\ newest c s i /\ all_durable o s
  | RFlushed i | RConfirmed i => O <> [] /\ joined_only c (Some i) /\ newest c s i /\ all_durable o s /\ durable o s (removelast (b_writes (sp_open s))) = true
  | RNumber k =>
      joined_only c None /\ all_durable o s /\ call_at k c /\
      (if k_window k then length (epochs c) = 1%nat else k_ev k = EV_GOT_BARRIER_NR /\ O <> [] /\ epoch_size (current_epoch c) <> 0)
  | RDrain => joined_only c None /\ unused s O /\ undrained o c O
  | RFinish k =>
      joined_only c None /\ all_durable o s /\ call_at k c /\
      (if k_window k then length (epochs c) = 1%nat else k_ev k = EV_BARRIER_DONE /\ unused s O /\ undrained o c O)
  | RAlloc => joined_only c None /\ unused s O /\ all_durable o s
  | RSlow _ | RSlowFinish _ | RSlowDone => False
  end.

Definition invariant (o : option write_ordering_e) (c : connection) (s : spec) : Prop :=
  exists F C O, core o c s (receiver_call (receiver c) ++ calls c) F C O /\ Forall (call_ok o) (calls c) /\ receiver_ok o c s O.
End invariant.
