(* ===== verification/EpochStep.v ===== *)
(** * Write epochs: what the calls do to the invariant *)
From S2P Require Import Prelude Epoch EpochSpec EpochInv.

Section lemmas.
Context `{WriteOrdering}.

(** ** Epochs by their address *)

Lemma Forall2_impl_in {A B} (P Q : A -> B -> Prop) l k :
  Forall2 P l k -> (forall x y, x ∈ l -> y ∈ k -> P x y -> Q x y) -> Forall2 Q l k.
Proof. induction 1 as [|x y l k Hxy Hl IH]; intros HPQ; constructor; [apply HPQ; set_solver|]. apply IH. intros; apply HPQ; set_solver. Qed.

Definition replace (e' x : drbd_epoch) : drbd_epoch := if Nat.eqb (ep_id x) (ep_id e') then e' else x.

Lemma replace_id e' x : ep_id (replace e' x) = ep_id x.
Proof. unfold replace. destruct (Nat.eqb_spec (ep_id x) (ep_id e')); congruence. Qed.

Lemma replace_ids e' (l : list drbd_epoch) : ep_id <$> (replace e' <$> l) = ep_id <$> l.
Proof. induction l as [|x l IH]; csimpl; [done|]. by rewrite replace_id, IH. Qed.

Lemma alter_replace id e' c : ep_id e' = id -> epochs (alter_epoch id (fun _ => e') c) = replace e' <$> epochs c.
Proof. by intros <-. Qed.

Lemma find_epoch (l : list drbd_epoch) e : NoDup (ep_id <$> l) -> e ∈ l -> find (fun x => Nat.eqb (ep_id x) (ep_id e)) l = Some e.
Proof.
  induction l as [|x l IH]; intros Hnd He; [by apply not_elem_of_nil in He|]. csimpl in Hnd. apply NoDup_cons in Hnd as [Hx Hl]. simpl.
  destruct (Nat.eqb_spec (ep_id x) (ep_id e)) as [Heq|Hne].
  - apply elem_of_cons in He as [->|He]; [done|]. destruct Hx. rewrite Heq. by apply list_elem_of_fmap_2.
  - apply elem_of_cons in He as [->|He]; [done|auto].
Qed.

Lemma find_epoch_some l id e : find (fun x => Nat.eqb (ep_id x) id) l = Some e -> e ∈ l /\ ep_id e = id.
Proof. intros [Hin Hid]%find_some. split; [by apply list_elem_of_In|by apply Nat.eqb_eq in Hid]. Qed.

Lemma same_epoch (l : list drbd_epoch) (e x : drbd_epoch) : NoDup (ep_id <$> l) -> e ∈ l -> x ∈ l -> ep_id x = ep_id e -> x = e.
Proof. intros Hnd He Hx Heq. pose proof (find_epoch l e Hnd He). pose proof (find_epoch l x Hnd Hx) as Hf. rewrite Heq in Hf. congruence. Qed.

Lemma find_replace (l : list drbd_epoch) e' x : find (fun y => Nat.eqb (ep_id y) x) (replace e' <$> l) =
  replace e' <$> find (fun y => Nat.eqb (ep_id y) x) l.
Proof. induction l as [|y l IH]; simpl; [done|]. rewrite replace_id. destruct (ep_id y =? x)%nat; done. Qed.

Lemma get_alter c id e' x : ep_id e' = id -> get_epoch (alter_epoch id (fun _ => e') c) x = replace e' <$> get_epoch c x.
Proof. intros Hid. unfold get_epoch. rewrite alter_replace by done. apply find_replace. Qed.

Lemma closed_ok_writes o c c' s e nb : writes c' = writes c -> closed_ok o c s e nb -> closed_ok o c' s e nb.
Proof. intros Hw [H1 H2 H3 H4 H5 H6 H7 H8]. constructor; auto. unfold owned in *. by rewrite Hw. Qed.
Lemma open_ok_writes o c c' e b : writes c' = writes c -> open_ok o c e b -> open_ok o c' e b.
Proof. intros Hw [H1 H2 H3 H4 H5 H6 H7 H8]. constructor; auto. unfold owned in *. by rewrite Hw. Qed.

(** A call that has done its work for an epoch. *)
Definition spent (k : call) : call := mk_call (k_id k) EV_BECAME_LAST (k_cleanup k) false (k_rv k) (k_then k) (k_done k).

Lemma puts_spent id k : puts id (spent k) = total (put_later id) (k_then k).
Proof. unfold puts, spent; simpl. rewrite andb_false_r. simpl. lia. Qed.

Lemma b2z_nonneg b : 0 <= b2z b.
Proof. destruct b; simpl; lia. Qed.
Lemma puts_nonneg id k : 0 <= puts id k.
Proof. unfold puts. pose proof (b2z_nonneg (negb (k_window k) && Nat.eqb (k_id k) id && bool_decide (k_ev k = EV_PUT))).
  pose proof (total_nonneg (put_later id) (k_then k) ltac:(intros; apply b2z_nonneg)). lia. Qed.

(** ** An epoch changes its counters or flags *)

Lemma core_alter o c s k k' K F C O id e e' fw :
  core o c s (k :: K) F C O -> get_epoch c id = Some e -> ep_id e' = id ->
  k_window k = false -> k_window k' = false ->
  (forall x, puts x k' + total (flushes x) fw + (if Nat.eqb id x then ep_active e else 0) =
             puts x k + total (flushes x) (flush_works c) + (if Nat.eqb id x then ep_active e' else 0)) ->
  (plain o = true -> fw = []) ->
  (fin_ok o e -> fin_ok o e') ->
  (forall nb, nb ∈ sp_closed s -> closed_ok o c s e nb -> closed_ok o c s e' nb) ->
  (e ∈ O -> open_ok o c e (sp_open s) -> open_ok o c e' (sp_open s)) ->
  core o (set_flush_works fw (alter_epoch id (fun _ => e') c)) s (k' :: K) (replace e' <$> F) (replace e' <$> C) (replace e' <$> O).
Proof.
  intros Hc Hget Hid Hk Hk' Hpend Hfw Hfin Hcl Hop.
  pose proof (find_epoch_some _ _ _ Hget) as [He Heid].
  assert (Hsame : forall x, x ∈ epochs c -> Nat.eqb (ep_id x) (ep_id e') = true -> x = e).
  { intros x Hx Hxe%Nat.eqb_eq. eapply same_epoch; eauto; [apply Hc|congruence]. }
  assert (Hep := co_epochs _ _ _ _ _ _ _ Hc).
  constructor; try solve [apply Hc].
  - simpl. rewrite <- !fmap_app, <- Hep. by rewrite <- (alter_replace id e' c Hid).
  - simpl. rewrite <- Hid. intros Hnil%map_eq_nil. by apply (co_some _ _ _ _ _ _ _ Hc).
  - destruct (co_fin _ _ _ _ _ _ _ Hc) as [->|(f & -> & Hf)]; [by left|]. right. simpl. eexists; split; [done|].
    unfold replace. destruct (ep_id f =? ep_id e')%nat eqn:Hfe; [|done].
    assert (f = e) as -> by (apply Hsame; [rewrite Hep; set_solver|done]). by apply Hfin.
  - apply Forall2_fmap_l. eapply Forall2_impl_in; [apply (co_closed _ _ _ _ _ _ _ Hc)|]. intros x nb Hx Hnb Hok.
    apply (closed_ok_writes _ c); [done|]. unfold replace. destruct (ep_id x =? ep_id e')%nat eqn:Hxe; [|done].
    assert (x = e) as -> by (apply Hsame; [rewrite Hep; set_solver|done]). auto.
  - destruct (co_open _ _ _ _ _ _ _ Hc) as [[-> Ho]|(x & -> & Ho)]; [by left|]. right. simpl. eexists; split; [done|].
    apply (open_ok_writes _ c); [done|]. unfold replace. destruct (ep_id x =? ep_id e')%nat eqn:Hxe; [|done].
    assert (x = e) as -> by (apply Hsame; [rewrite Hep; set_solver|done]). apply Hop; [set_solver|done].
  - simpl. change (NoDup (ep_id <$> epochs (alter_epoch id (fun _ => e') c))). rewrite alter_replace, replace_ids by done. apply Hc.
  - simpl. change (Forall (fun x => (ep_id x < next_id c)%nat) (epochs (alter_epoch id (fun _ => e') c))). rewrite alter_replace by done.
    apply Forall_fmap. eapply Forall_impl; [apply Hc|]. intros x Hx; simpl. by rewrite replace_id.
  - intros x. specialize (Hpend x). pose proof (co_active _ _ _ _ _ _ _ Hc x) as Hact. unfold active_of, references in *. simpl in *.
    change (get_epoch (set_flush_works fw (alter_epoch id (fun _ => e') c)) x) with (get_epoch (alter_epoch id (fun _ => e') c) x).
    rewrite get_alter by done. destruct (Nat.eqb_spec id x) as [Hix|Hne].
    + rewrite <- Hix in *. rewrite Hget in *. simpl. unfold replace. rewrite Hid, Heid, Nat.eqb_refl. lia.
    + destruct (get_epoch c x) as [y|] eqn:Hy; simpl; [|lia]. apply find_epoch_some in Hy as [_ Hyx]. unfold replace.
      destruct (Nat.eqb_spec (ep_id y) (ep_id e')); [congruence|]. lia.
  - simpl. rewrite length_fmap, <- (co_windows _ _ _ _ _ _ _ Hc). simpl. unfold window. rewrite Hk, Hk'. done.
  - intros k0 Hk0 Hw. apply elem_of_cons in Hk0 as [->|Hk0]; [congruence|].
    destruct (co_window _ _ _ _ _ _ _ Hc k0 ltac:(set_solver) Hw) as (f & -> & ->). simpl. eexists; split; [done|]. by rewrite replace_id.
  - intros Hp. simpl. split; [auto|]. by apply (co_plain _ _ _ _ _ _ _ Hc).
Qed.

Lemma core_perm o c s K K' F C O : core o c s K F C O -> K ≡ₚ K' -> core o c s K' F C O.
Proof.
  intros Hc HK. constructor; try solve [apply Hc].
  - intros id. rewrite (co_active _ _ _ _ _ _ _ Hc). unfold references. by rewrite (total_perm _ _ _ HK).
  - rewrite <- (total_perm _ _ _ HK). apply Hc.
  - intros k Hk. apply Hc. by rewrite HK.
Qed.

(** A call is replaced by one that owes the same, or goes when it owes nothing. *)
Lemma core_swap o c s k k' K F C O :
  core o c s (k :: K) F C O -> (forall x, puts x k' = puts x k) -> k_window k = false -> k_window k' = false ->
  core o c s (k' :: K) F C O.
Proof.
  intros Hc Hp Hk Hk'. constructor; try solve [apply Hc].
  - intros id. rewrite (co_active _ _ _ _ _ _ _ Hc). unfold references. simpl. by rewrite Hp.
  - rewrite <- (co_windows _ _ _ _ _ _ _ Hc). simpl. unfold window. by rewrite Hk, Hk'.
  - intros k0 [->|Hk0]%elem_of_cons Hw; [congruence|]. apply (co_window _ _ _ _ _ _ _ Hc); set_solver.
Qed.

Lemma core_drop o c s k K F C O :
  core o c s (k :: K) F C O -> (forall x, puts x k = 0) -> k_window k = false -> core o c s K F C O.
Proof.
  intros Hc Hp Hk. constructor; try solve [apply Hc].
  - intros id. rewrite (co_active _ _ _ _ _ _ _ Hc). unfold references. simpl. by rewrite Hp.
  - rewrite <- (co_windows _ _ _ _ _ _ _ Hc). simpl. unfold window. by rewrite Hk.
  - intros k0 Hk0 Hw. apply (co_window _ _ _ _ _ _ _ Hc); set_solver.
Qed.

(** Changes that leave the meaning of an epoch as it is. *)
Record mild (e e' : drbd_epoch) : Prop := {
  mi_id : ep_id e' = ep_id e;
  mi_nr : barrier_nr e' = barrier_nr e;
  mi_size : epoch_size e' = epoch_size e;
  mi_confirmed : confirmed e' = confirmed e;
  mi_oldest : oldest_unconfirmed_peer_req e' = oldest_unconfirmed_peer_req e;
  mi_contains : DE_CONTAINS_A_BARRIER e' = DE_CONTAINS_A_BARRIER e;
  mi_number : DE_HAVE_BARRIER_NUMBER e' = DE_HAVE_BARRIER_NUMBER e;
  mi_finishing : DE_IS_FINISHING e' = DE_IS_FINISHING e;
  mi_done : DE_BARRIER_IN_NEXT_EPOCH_DONE e = true -> DE_BARRIER_IN_NEXT_EPOCH_DONE e' = true }.

Lemma fin_ok_mild o e e' : mild e e' -> ep_active e' = 0 -> fin_ok o e -> fin_ok o e'.
Proof. intros [] Hact []. constructor; try congruence; auto. Qed.

Lemma closed_ok_mild o c s e e' nb : mild e e' ->
  (drains o = true -> DE_BARRIER_IN_NEXT_EPOCH_DONE e' = true -> DE_BARRIER_IN_NEXT_EPOCH_DONE e = true \/ durable o s (b_writes nb.2) = true) ->
  closed_ok o c s e nb -> closed_ok o c s e' nb.
Proof.
  intros [Hid Hnr Hsz Hcf Hol Hcn Hnu Hfi Hdo] Hd []. constructor; try congruence; rewrite ?Hid, ?Hcn; auto.
  intros Hdr Hd'. destruct (Hd Hdr Hd'); auto.
Qed.

Lemma open_ok_mild o c e e' b : mild e e' ->
  (drains o = true -> DE_BARRIER_IN_NEXT_EPOCH_DONE e' = true -> DE_BARRIER_IN_NEXT_EPOCH_DONE e = true) ->
  open_ok o c e b -> open_ok o c e' b.
Proof.
  intros [Hid Hnr Hsz Hcf Hol Hcn Hnu Hfi Hdo] Hd []. constructor; try congruence; rewrite ?Hid, ?Hcn, ?Hol; auto.
  intros Hdr. apply not_true_is_false. intros Hd'. specialize (Hd Hdr Hd'). rewrite op_done in Hd; done.
Qed.

(** What other threads leave to the receiver. *)
Record evolves (d : bool) (c : connection) (s : spec) (O : list drbd_epoch) (c' : connection) (s' : spec) (O' : list drbd_epoch) : Prop := {
  ev_writes : writes c' = writes c;
  ev_receiver : receiver c' = receiver c;
  ev_completed : sp_completed s' = sp_completed s;
  ev_flushed : sp_flushed s' = sp_flushed s;
  ev_open : sp_open s' = sp_open s;
  ev_closed : forall nb, nb ∈ sp_closed s' -> nb ∈ sp_closed s;
  ev_current : ep_id (current_epoch c') = ep_id (current_epoch c);
  ev_length : (length (epochs c') <= length (epochs c))%nat;
  ev_kind :
    (Forall2 (fun e e' => epoch_size e' = epoch_size e) O O' /\ epoch_size (current_epoch c') = epoch_size (current_epoch c) /\
      (d = true -> DE_BARRIER_IN_NEXT_EPOCH_DONE (current_epoch c') = DE_BARRIER_IN_NEXT_EPOCH_DONE (current_epoch c))) \/
    (O = [] /\ (d = true -> DE_BARRIER_IN_NEXT_EPOCH_DONE (current_epoch c) = true) /\ sp_open s = no_batch /\
      exists e', O' = [e'] /\ epoch_size e' = 0) }.

Lemma evolves_trans d c s O c1 s1 O1 c2 s2 O2 :
  evolves d c s O c1 s1 O1 -> evolves d c1 s1 O1 c2 s2 O2 -> evolves d c s O c2 s2 O2.
Proof.
  intros [Hw Hr Hcp Hf Ho Hcl Hcu Hl Hk] [Hw1 Hr1 Hcp1 Hf1 Ho1 Hcl1 Hcu1 Hl1 Hk1]. constructor; try congruence; auto; [lia|].
  destruct Hk as [(Hs & Hz & Hd)|(Ha & Hd & Hn & e1 & He1 & Hz1)], Hk1 as [(Hs1 & Hcz1 & Hd1)|(Ha1 & Hd1 & Hn1 & e2 & He2 & Hz2)].
  - left. repeat split; [|congruence|intros Hdr; rewrite Hd1; auto]. eapply Forall2_trans; [|exact Hs|exact Hs1]. simpl. congruence.
  - right. subst. apply Forall2_nil_inv_r in Hs. repeat split; auto; [|congruence|eauto]. intros Hdr. rewrite <- Hd; auto.
  - right. subst. repeat split; auto. apply Forall2_cons_inv_l in Hs1 as (e2 & l & Hz2 & ->%Forall2_nil_inv_l & ->). exists e2. split; [done|congruence].
  - congruence.
Qed.

Lemma current_replace c id e' : ep_id e' = id -> epochs c <> [] ->
  current_epoch (alter_epoch id (fun _ => e') c) = replace e' (current_epoch c).
Proof.
  intros Hid Hne. unfold current_epoch. rewrite alter_replace by done. rewrite fmap_last.
  destruct (last (epochs c)) eqn:Hl; [done|]. by apply last_None in Hl.
Qed.

Lemma current_in c : epochs c <> [] -> current_epoch c ∈ epochs c.
Proof. intros Hne. unfold current_epoch. destruct (last (epochs c)) eqn:Hl; [by apply last_Some_elem_of|by apply last_None in Hl]. Qed.

Lemma evolves_mild o d c s k K F C O id e e' fw :
  core o c s (k :: K) F C O -> get_epoch c id = Some e -> mild e e' ->
  (d = true -> DE_BARRIER_IN_NEXT_EPOCH_DONE e' = DE_BARRIER_IN_NEXT_EPOCH_DONE e) ->
  evolves d c s O (set_flush_works fw (alter_epoch id (fun _ => e') c)) s (replace e' <$> O).
Proof.
  intros Hc Hget Hm Hd. destruct (find_epoch_some _ _ _ Hget) as [He Hid].
  assert (Hid' : ep_id e' = id) by (rewrite (mi_id _ _ Hm); done).
  assert (Hsame : forall x, x ∈ epochs c -> Nat.eqb (ep_id x) (ep_id e') = true -> x = e).
  { intros x Hx Hxe%Nat.eqb_eq. eapply same_epoch; eauto; [apply Hc|congruence]. }
  assert (Hcur : current_epoch (set_flush_works fw (alter_epoch id (fun _ => e') c)) = replace e' (current_epoch c)).
  { change (current_epoch (alter_epoch id (fun _ => e') c) = replace e' (current_epoch c)). apply current_replace; [done|apply Hc]. }
  assert (Hci := current_in c (co_some _ _ _ _ _ _ _ Hc)).
  constructor; try done.
  - by rewrite Hcur, replace_id.
  - simpl. by rewrite length_map.
  - left. rewrite Hcur. repeat split.
    + apply Forall2_fmap_r, Forall_Forall2_diag, Forall_forall. intros x Hx. unfold replace, compose.
      destruct (ep_id x =? ep_id e')%nat eqn:Hxe; [|done].
      assert (x = e) as -> by (apply Hsame; [rewrite (co_epochs _ _ _ _ _ _ _ Hc); set_solver|done]). apply Hm.
    + unfold replace. destruct (ep_id (current_epoch c) =? ep_id e')%nat eqn:Hxe; [|done]. rewrite (Hsame _ Hci Hxe). apply Hm.
    + intros Hdr. unfold replace. destruct (ep_id (current_epoch c) =? ep_id e')%nat eqn:Hxe; [|done]. rewrite (Hsame _ Hci Hxe). auto.
Qed.

Lemma core_mild o c s k k' K F C O id e e' fw :
  core o c s (k :: K) F C O -> get_epoch c id = Some e -> mild e e' ->
  k_window k = false -> k_window k' = false ->
  (forall x, puts x k' + total (flushes x) fw + (if Nat.eqb id x then ep_active e else 0) =
             puts x k + total (flushes x) (flush_works c) + (if Nat.eqb id x then ep_active e' else 0)) ->
  (plain o = true -> fw = []) ->
  (DE_IS_FINISHING e = true -> ep_active e = 0 -> ep_active e' = 0) ->
  (drains o = true -> DE_BARRIER_IN_NEXT_EPOCH_DONE e' = true -> DE_BARRIER_IN_NEXT_EPOCH_DONE e = true \/ (O = [] /\ all_durable o s)) ->
  core o (set_flush_works fw (alter_epoch id (fun _ => e') c)) s (k' :: K) (replace e' <$> F) (replace e' <$> C) (replace e' <$> O).
Proof.
  intros Hc Hget Hm Hk Hk' Hp Hfw Hact Hd. eapply core_alter; eauto.
  - rewrite (mi_id _ _ Hm). by apply find_epoch_some in Hget as [_ ?].
  - intros Hf. eapply fin_ok_mild; eauto. apply Hact; apply Hf.
  - intros nb Hnb. apply closed_ok_mild; [done|]. intros Hdr Hd'. destruct (Hd Hdr Hd') as [?|[_ Ha]]; [by left|right].
    specialize (Ha Hdr). rewrite Forall_forall in Ha. auto.
  - intros He. apply open_ok_mild; [done|]. intros Hdr Hd'. destruct (Hd Hdr Hd') as [?|[-> _]]; [done|]. by apply not_elem_of_nil in He.
Qed.

(** ** An epoch is acknowledged *)

Lemma durable_completed o s l : o <> Some WO_BDEV_FLUSH -> Forall (fun i => i ∈ sp_completed s) l -> durable o s l = true.
Proof. intros Ho Hl. unfold durable. rewrite bool_decide_eq_false_2 by done. apply forallb_forall. intros x Hx%list_elem_of_In.
  rewrite Forall_forall in Hl. by apply bool_decide_eq_true_2, Hl. Qed.

(** When nothing refers to an epoch, all its writes are completed. *)
Lemma released o c s K F C O id l :
  core o c s K F C O -> references c K id <= 0 -> owned c id l -> Forall (fun i => i ∈ sp_completed s) l.
Proof.
  intros Hc Href Hown. eapply Forall_impl; [exact Hown|]. intros i (w & Hw & Hid). apply (co_done _ _ _ _ _ _ _ Hc i w Hw). right.
  unfold references in Href.
  pose proof (total_nonneg (puts id) K (puts_nonneg id)). pose proof (total_nonneg (flushes id) (flush_works c) ltac:(intros; apply b2z_nonneg)).
  pose proof (total_member (held id) (writes c) w ltac:(intros; apply b2z_nonneg) (list_elem_of_lookup_2 _ _ _ Hw)) as Hm.
  unfold held at 1 in Hm. rewrite Hid, Nat.eqb_refl in Hm. case_bool_decide; [done|]. simpl in Hm. lia.
Qed.

Lemma durable_same o s s' l : sp_completed s' = sp_completed s -> sp_flushed s' = sp_flushed s -> durable o s' l = durable o s l.
Proof. unfold durable. by intros -> ->. Qed.

Lemma closed_ok_spec o c s s' e nb : sp_completed s' = sp_completed s -> sp_flushed s' = sp_flushed s -> closed_ok o c s e nb -> closed_ok o c s' e nb.
Proof. intros Hcp Hf []. constructor; auto. rewrite (durable_same o s s') by done. auto. Qed.

Lemma replace_other e' (l : list drbd_epoch) : ep_id e' ∉ ep_id <$> l -> replace e' <$> l = l.
Proof.
  induction l as [|x l IH]; csimpl; intros Hni; [done|]. apply not_elem_of_cons in Hni as [Hne Hni]. rewrite IH by done. unfold replace.
  destruct (Nat.eqb_spec (ep_id x) (ep_id e')); congruence.
Qed.

Lemma last_cons_some {A} (x : A) l y : last (x :: l) = Some y -> (l = [] /\ y = x) \/ last l = Some y.
Proof. destruct l; simpl; [intros [= ->]; auto|auto]. Qed.

(** The head of the list is the epoch that finishes. *)
Lemma oldest_head c e : get_epoch c (ep_id e) = Some e -> is_oldest c (ep_id e) = true -> exists l, epochs c = e :: l.
Proof.
  unfold get_epoch, is_oldest. destruct (epochs c) as [|x l]; [done|]. simpl. intros Hf Hx. rewrite Hx in Hf. simplify_eq. eauto.
Qed.

Lemma finishing_head o c s K F C O e :
  core o c s K F C O -> get_epoch c (ep_id e) = Some e -> nearly_done (is_oldest c (ep_id e)) false e = true ->
  F = [] /\ exists C', C = e :: C'.
Proof.
  unfold nearly_done. intros Hc Hget Hn. rewrite orb_false_r, !andb_true_iff, !negb_true_iff in Hn. destruct Hn as [[[[Hsz Hact] Hnum] Hold] Hfin].
  destruct (oldest_head c e Hget Hold) as [l Hl]. assert (Hep := co_epochs _ _ _ _ _ _ _ Hc). rewrite Hl in Hep.
  destruct (co_fin _ _ _ _ _ _ _ Hc) as [->|(f & -> & Hf)]; simpl in Hep.
  - split; [done|]. destruct C as [|e1 C']; simplify_eq/=; [|eauto].
    destruct (co_open _ _ _ _ _ _ _ Hc) as [[Hx _]|(x & Hx & Ho)]; simplify_eq/=. destruct Ho; congruence.
  - simplify_eq/=. destruct Hf; congruence.
Qed.

Lemma finish_durable o c s K F C O e nb :
  core o c s K F C O -> get_epoch c (ep_id e) = Some e -> closed_ok o c s e nb -> ep_active e = 0 ->
  may_finish (write_ordering c) false e = true -> durable o s (b_writes nb.2) = true.
Proof.
  intros Hc Hget Hok Hact Hmay. destruct (decide (o = Some WO_BDEV_FLUSH)) as [Ho|Ho].
  - assert (Hdr : drains o = true) by (unfold drains; by rewrite Ho).
    apply (cl_done _ _ _ _ _ Hok Hdr). unfold may_finish in Hmay. rewrite (cl_barrier _ _ _ _ _ Hok Hdr), (co_ordering _ _ _ _ _ _ _ Hc _ Ho) in Hmay.
    rewrite andb_false_r, !orb_false_r in Hmay. by destruct (DE_BARRIER_IN_NEXT_EPOCH_DONE e).
  - apply durable_completed; [done|]. eapply (released _ _ _ _ _ _ _ (ep_id e)); [exact Hc| |apply Hok].
    rewrite <- (co_active _ _ _ _ _ _ _ Hc). unfold active_of. rewrite Hget. lia.
Qed.

Lemma finish_drains o c s K F C O e nb :
  core o c s K F C O -> closed_ok o c s e nb -> may_finish (write_ordering c) false e = true -> drains o = true -> DE_BARRIER_IN_NEXT_EPOCH_DONE e = true.
Proof.
  intros Hc Hok Hmay Hdr. unfold may_finish in Hmay. rewrite (cl_barrier _ _ _ _ _ Hok Hdr), andb_false_r, !orb_false_r in Hmay.
  destruct (DE_BARRIER_IN_NEXT_EPOCH_DONE e); [done|]. simpl in Hmay. apply bool_decide_eq_true in Hmay.
  unfold drains in Hdr. apply orb_true_iff in Hdr as [Ho|Ho]; apply bool_decide_eq_true in Ho;
    rewrite (co_ordering _ _ _ _ _ _ _ Hc _ Ho) in Hmay; done.
Qed.

Lemma core_finish o d c s k k' K F C O e :
  core o c s (k :: K) F C O -> k_window k = false -> k_window k' = true -> k_id k' = ep_id e -> (forall x, puts x k' = puts x k) ->
  get_epoch c (ep_id e) = Some e -> nearly_done (is_oldest c (ep_id e)) false e = true -> may_finish (write_ordering c) false e = true ->
  let c' := drbd_send_b_ack (barrier_nr e) (epoch_size e - confirmed e) (alter_epoch (ep_id e) (fun _ => finishing e) c) in
  exists s' C', F = [] /\ C = e :: C' /\ core o c' s' (k' :: K) [finishing e] C' O /\ evolves d c s O c' s' O.
Proof.
  intros Hc Hk Hk' Hkid Hp Hget Hn Hmay. destruct (finishing_head _ _ _ _ _ _ _ _ Hc Hget Hn) as (-> & C' & ->).
  destruct (Forall2_cons_inv_l _ _ _ _ (co_closed _ _ _ _ _ _ _ Hc)) as (nb & rest & Hok & Hrest & Hcl).
  unfold nearly_done in Hn. rewrite orb_false_r, !andb_true_iff, !negb_true_iff, Z.eqb_eq, Z.eqb_neq in Hn. destruct Hn as [[[[Hsz Hact] Hnum] Hold] Hfin].
  pose proof (finish_durable _ _ _ _ _ _ _ _ _ Hc Hget Hok Hact Hmay) as Hdur.
  assert (Hep := co_epochs _ _ _ _ _ _ _ Hc). simpl in Hep. assert (Hnd := co_nodup _ _ _ _ _ _ _ Hc). rewrite Hep in Hnd. csimpl in Hnd.
  apply NoDup_cons in Hnd as [Hni Hnd]. unfold drbd_send_b_ack. simpl. rewrite (co_connected _ _ _ _ _ _ _ Hc).
  set (c' := note _ _). assert (Hep' : epochs c' = finishing e :: C' ++ O).
  { simpl. rewrite Hep. change (replace (finishing e) <$> (e :: C' ++ O) = finishing e :: C' ++ O). csimpl.
    f_equal; [unfold replace; simpl; by rewrite Nat.eqb_refl|by apply replace_other]. }
  exists (mk_spec rest (sp_open s) (sp_completed s) (sp_flushed s)), C'. split; [done|]. split; [done|]. split.
  - constructor; try solve [apply Hc].
    + simpl. rewrite (co_spec _ _ _ _ _ _ _ Hc). simpl. rewrite Hcl. destruct nb as [nr b].
      rewrite (cl_nr _ _ _ _ _ Hok), (cl_count _ _ _ _ _ Hok), !Z.eqb_refl. simpl in *. by rewrite Hdur.
    + done.
    + by rewrite Hep'.
    + right. eexists; split; [done|]. constructor; simpl; auto. eapply finish_drains; eauto.
    + eapply Forall2_impl; [exact Hrest|]. intros x y Hxy. apply (closed_ok_writes _ c); [done|]. by apply (closed_ok_spec _ _ s).
    + destruct (co_open _ _ _ _ _ _ _ Hc) as [?|(x & -> & Ho)]; [by left|right]. exists x. split; [done|]. by apply (open_ok_writes _ c).
    + rewrite Hep'. csimpl. by constructor.
    + rewrite Hep'. assert (Hnx := co_next _ _ _ _ _ _ _ Hc). rewrite Hep in Hnx. inversion Hnx; subst. by constructor.
    + intros x. pose proof (co_active _ _ _ _ _ _ _ Hc x) as Ha. unfold references, active_of, get_epoch in *. rewrite Hep'. rewrite Hep in Ha. simpl in *.
      rewrite Hp. by destruct (ep_id e =? x)%nat.
    + pose proof (co_windows _ _ _ _ _ _ _ Hc) as Ht. simpl in *. unfold window in *. rewrite Hk in Ht. rewrite Hk'. simpl in *. lia.
    + intros k0 [->|Hk0]%elem_of_cons Hw; [eexists; split; [done|]; by rewrite Hkid|].
      destruct (co_window _ _ _ _ _ _ _ Hc k0 ltac:(set_solver) Hw) as (x & Hx & _). done.
  - constructor; try done.
    + simpl. intros x Hx. rewrite Hcl. set_solver.
    + unfold current_epoch. rewrite Hep, Hep'. by destruct (C' ++ O).
    + by rewrite Hep', Hep.
    + left. unfold current_epoch. rewrite Hep, Hep'. repeat split; [|by destruct (C' ++ O)|by destruct (C' ++ O)]. by apply Forall_Forall2_diag, Forall_true.
Qed.

(** ** A finished epoch goes *)

Lemma filter_others e (l : list drbd_epoch) : ep_id e ∉ ep_id <$> l -> filter (fun x => ep_id x <> ep_id e) (e :: l) = l.
Proof.
  intros Hni. rewrite filter_cons_False by naive_solver. apply filter_id. intros x Hx Heq. apply Hni. rewrite <- Heq. by apply list_elem_of_fmap_2.
Qed.

Lemma spent_window x k : k_window k = true -> puts x (spent k) = puts x k.
Proof. intros Hk. rewrite puts_spent. unfold puts. rewrite Hk. simpl. lia. Qed.

Lemma one_window o c s k K F C O k0 : core o c s (k :: K) F C O -> k_window k = true -> k0 ∈ K -> k_window k0 = false.
Proof.
  intros Hc Hk Hk0. apply not_true_is_false. intros Hw. pose proof (co_windows _ _ _ _ _ _ _ Hc) as Ht. simpl in Ht.
  pose proof (total_member window K k0 ltac:(intros; apply b2z_nonneg) Hk0) as Hm. unfold window at 1 in Hm. rewrite Hw in Hm.
  unfold window at 1 in Ht. rewrite Hk in Ht. simpl in *.
  destruct (co_fin _ _ _ _ _ _ _ Hc) as [->|(e & -> & _)]; simpl in Ht; lia.
Qed.

Lemma core_recycle o c s k K e :
  core o c s (k :: K) [e] [] [] -> k_window k = true -> k_id k = ep_id e ->
  let c' := alter_epoch (k_id k) recycled c in
  core o c' s (spent k :: K) [] [] [recycled e] /\ evolves (drains o) c s [] c' s [recycled e].
Proof.
  intros Hc Hk Hkid c'. assert (Hep := co_epochs _ _ _ _ _ _ _ Hc). simpl in Hep.
  assert (Hep' : epochs c' = [recycled e]) by (simpl; rewrite Hep, Hkid; simpl; by rewrite Nat.eqb_refl).
  destruct (co_open _ _ _ _ _ _ _ Hc) as [[_ Hop]|(x & Hx & _)]; [|done].
  destruct (co_fin _ _ _ _ _ _ _ Hc) as [Hx|(x & Hx & Hf)]; [done|]. simplify_eq. split.
  - constructor; try solve [apply Hc].
    + done.
    + by rewrite Hep'.
    + by left.
    + pose proof (co_closed _ _ _ _ _ _ _ Hc) as Hcl. apply Forall2_nil_inv_l in Hcl. by rewrite Hcl.
    + right. eexists; split; [done|]. rewrite Hop. constructor; simpl; try done. constructor.
    + rewrite Hep'. csimpl. apply NoDup_singleton.
    + rewrite Hep'. pose proof (co_next _ _ _ _ _ _ _ Hc) as Hnx. rewrite Hep in Hnx. inversion Hnx; subst. by constructor.
    + intros y. pose proof (co_active _ _ _ _ _ _ _ Hc y) as Ha. unfold references, active_of, get_epoch in *. rewrite Hep'. rewrite Hep in Ha.
      simpl total in *. rewrite spent_window by done. simpl in *. by destruct (ep_id x =? y)%nat.
    + pose proof (co_windows _ _ _ _ _ _ _ Hc) as Ht. simpl in *. unfold window in *. rewrite Hk in Ht. simpl in *. lia.
    + intros k0 [->|Hk0]%elem_of_cons Hw; [done|]. rewrite (one_window _ _ _ _ _ _ _ _ _ Hc Hk Hk0) in Hw. done.
  - constructor; try done.
    + unfold current_epoch. by rewrite Hep, Hep'.
    + by rewrite Hep', Hep.
    + right. unfold current_epoch. rewrite Hep. repeat split; [apply Hf|done|eauto].
Qed.

Lemma core_destroy o d c s k K e C O :
  core o c s (k :: K) [e] C O -> k_window k = true -> k_id k = ep_id e -> C ++ O <> [] ->
  let c' := set_epochs (filter (fun x => ep_id x <> k_id k) (epochs c)) c in
  core o c' s (spent k :: K) [] C O /\ evolves d c s O c' s O.
Proof.
  intros Hc Hk Hkid Hne c'. assert (Hep := co_epochs _ _ _ _ _ _ _ Hc). simpl in Hep.
  assert (Hnd := co_nodup _ _ _ _ _ _ _ Hc). rewrite Hep in Hnd. csimpl in Hnd. apply NoDup_cons in Hnd as [Hni Hnd].
  assert (Hep' : epochs c' = C ++ O) by (simpl; rewrite Hep, Hkid; by apply filter_others).
  assert (Hcur : current_epoch c' = current_epoch c).
  { unfold current_epoch. rewrite Hep, Hep'. by destruct (C ++ O). }
  destruct (co_fin _ _ _ _ _ _ _ Hc) as [Hx|(x & Hx & Hf)]; [done|]. simplify_eq. split.
  - constructor; try solve [apply Hc].
    + done.
    + by rewrite Hep'.
    + by left.
    + eapply Forall2_impl; [apply Hc|]. intros y z. by apply closed_ok_writes.
    + destruct (co_open _ _ _ _ _ _ _ Hc) as [?|(y & -> & Ho)]; [by left|right]. exists y. split; [done|]. by apply (open_ok_writes _ c).
    + by rewrite Hep'.
    + rewrite Hep'. pose proof (co_next _ _ _ _ _ _ _ Hc) as Hnx. rewrite Hep in Hnx. by inversion Hnx.
    + intros y. pose proof (co_active _ _ _ _ _ _ _ Hc y) as Ha. unfold references, active_of, get_epoch in *. rewrite Hep'. rewrite Hep in Ha.
      simpl total in *. rewrite spent_window by done. simpl in *. destruct (Nat.eqb_spec (ep_id x) y) as [Hy|]; [|exact Ha].
      rewrite <- Ha, (fi_active _ _ Hf). destruct (find _ (C ++ O)) eqn:Hfd; [|done]. apply find_epoch_some in Hfd as [Hin Hid].
      destruct Hni. rewrite Hy, <- Hid. by apply list_elem_of_fmap_2.
    + pose proof (co_windows _ _ _ _ _ _ _ Hc) as Ht. simpl in *. unfold window in *. rewrite Hk in Ht. simpl in *. lia.
    + intros k0 [->|Hk0]%elem_of_cons Hw; [done|]. rewrite (one_window _ _ _ _ _ _ _ _ _ Hc Hk Hk0) in Hw. done.
  - constructor; try done.
    + by rewrite Hcur.
    + rewrite Hep', Hep. simpl. lia.
    + left. rewrite Hcur. split_and!; [by apply Forall_Forall2_diag, Forall_true|done|done].
Qed.
End lemmas.
