(* ===== verification/EpochUpdate.v ===== *)
(** * Write epochs: what writes and flushes do to the invariant *)
From S2P Require Import Prelude Epoch EpochSpec EpochInv EpochStep.

Section updates.
Context `{WriteOrdering}.

(** ** More is completed or flushed *)

Record grows (s s' : spec) : Prop := {
  gr_closed : sp_closed s' = sp_closed s;
  gr_open : sp_open s' = sp_open s;
  gr_completed : forall i, i ∈ sp_completed s -> i ∈ sp_completed s';
  gr_flushed : forall i, i ∈ sp_flushed s -> i ∈ sp_flushed s' }.

Lemma grows_refl s : grows s s.
Proof. done. Qed.

Lemma durable_mono o s s' l : (forall i, i ∈ sp_completed s -> i ∈ sp_completed s') -> (forall i, i ∈ sp_flushed s -> i ∈ sp_flushed s') ->
  durable o s l = true -> durable o s' l = true.
Proof.
  intros Hcp Hf. unfold durable. rewrite !forallb_forall. intros Hl x Hx. specialize (Hl x Hx).
  apply bool_decide_eq_true in Hl. apply bool_decide_eq_true_2. case_bool_decide; auto.
Qed.

Lemma all_durable_grows o s s' : grows s s' -> all_durable o s -> all_durable o s'.
Proof. intros [Hcl _ Hcp Hf] Ha Hdr. rewrite Hcl. eapply Forall_impl; [exact (Ha Hdr)|]. intros nb. by apply durable_mono. Qed.

Lemma owned_sub c c' id l :
  (forall i w, writes c !! i = Some w -> exists w', writes c' !! i = Some w' /\ w_epoch w' = w_epoch w) -> owned c id l -> owned c' id l.
Proof.
  intros Hw Ho. eapply Forall_impl; [exact Ho|]. intros i (w & Hi & Hid). destruct (Hw i w Hi) as (w' & Hi' & Hid'). exists w'. split; [done|congruence].
Qed.

Lemma closed_ok_grows o c c' s s' e nb :
  (forall i w, writes c !! i = Some w -> exists w', writes c' !! i = Some w' /\ w_epoch w' = w_epoch w) ->
  (forall i, i ∈ sp_completed s -> i ∈ sp_completed s') -> (forall i, i ∈ sp_flushed s -> i ∈ sp_flushed s') ->
  closed_ok o c s e nb -> closed_ok o c' s' e nb.
Proof.
  intros Hw Hcp Hf []. constructor; auto; [by eapply owned_sub|]. intros Hdr Hd. eapply durable_mono; eauto.
Qed.

Lemma open_ok_grows o c c' e b :
  (forall i w, writes c !! i = Some w -> exists w', writes c' !! i = Some w' /\ w_epoch w' = w_epoch w) -> open_ok o c e b -> open_ok o c' e b.
Proof. intros Hw []. constructor; auto. by eapply owned_sub. Qed.

(** The stage of a write, the calls and the specification change, the epochs do not. *)
Lemma core_stage o c c' s s' K ks F C O i w x :
  core o c s K F C O -> writes c !! i = Some w -> writes c' = alter (set_stage x) i (writes c) ->
  epochs c' = epochs c -> next_id c' = next_id c -> connected c' = connected c -> write_ordering c' = write_ordering c -> flush_works c' = flush_works c ->
  spec_run o (log c') = Some s' -> grows s s' ->
  (forall j, j ∈ sp_flushed s' -> j ∈ sp_completed s') -> (x = Done \/ x = Put -> i ∈ sp_completed s') ->
  active_ee_cnt c' = active_ee_cnt c - is_active w + is_active (set_stage x w) ->
  (forall id, held id (set_stage x w) + total (puts id) ks = held id w) -> Forall (fun k => k_window k = false) ks ->
  core o c' s' (ks ++ K) F C O.
Proof.
  intros Hc Hi Hw Hep Hnx Hcn Hwo Hfw Hspec Hg Hsub Hx Hcnt Hrefs Hks. pose proof Hg as [Hcl Hop Hcp Hf].
  assert (Hws : forall j u, writes c !! j = Some u -> exists u', writes c' !! j = Some u' /\ w_epoch u' = w_epoch u).
  { intros j u Hj. rewrite Hw. destruct (decide (j = i)) as [->|Hne]; [rewrite list_lookup_alter_eq, Hj|rewrite list_lookup_alter_ne by done]; simpl; eauto. }
  assert (Ht : forall f : peer_write -> Z, total f (writes c') = total f (writes c) - f w + f (set_stage x w)) by (intros f; rewrite Hw; by apply total_alter).
  constructor; rewrite ?Hcl, ?Hop, ?Hep, ?Hnx, ?Hcn, ?Hwo, ?Hfw; try solve [apply Hc].
  - done.
  - eapply Forall2_impl; [apply Hc|]. intros y z. by apply closed_ok_grows.
  - destruct (co_open _ _ _ _ _ _ _ Hc) as [?|(e & -> & Ho)]; [by left|right]. exists e. split; [done|]. by apply (open_ok_grows _ c).
  - intros id. pose proof (co_active _ _ _ _ _ _ _ Hc id) as Ha. specialize (Hrefs id). unfold references, active_of, get_epoch in *.
    rewrite Hep, Hfw, Ht, total_app, Ha. lia.
  - rewrite total_app, (co_windows _ _ _ _ _ _ _ Hc). enough (total window ks = 0) by lia. clear -Hks.
    induction Hks as [|k l Hk Hl IH]; simpl; [done|]. unfold window at 1. rewrite Hk, IH. done.
  - intros k Hk Hwin. apply elem_of_app in Hk as [Hk|Hk]; [|by apply Hc]. rewrite Forall_forall in Hks. by rewrite Hks in Hwin.
  - intros Hp. destruct (co_plain _ _ _ _ _ _ _ Hc Hp) as [Hfw0 Hb]. split; [done|]. rewrite Hw. apply Forall_alter; [done|]. intros u Hu. done.
  - rewrite Hcnt, Ht, (co_count _ _ _ _ _ _ _ Hc). done.
  - intros j u Hj Hst. rewrite Hw in Hj. destruct (decide (j = i)) as [->|Hne].
    + rewrite list_lookup_alter_eq, Hi in Hj. simplify_eq/=. auto.
    + rewrite list_lookup_alter_ne in Hj by done. apply Hcp. eapply Hc; eauto.
  - done.
Qed.

(** ** The open epoch *)

Lemma current_open o c s K F C e : core o c s K F C [e] -> current_epoch c = e.
Proof. intros Hc. unfold current_epoch. by rewrite (co_epochs _ _ _ _ _ _ _ Hc), app_assoc, last_snoc. Qed.

Lemma get_open o c s K F C e : core o c s K F C [e] -> get_epoch c (ep_id e) = Some e.
Proof. intros Hc. apply find_epoch; [apply Hc|]. rewrite (co_epochs _ _ _ _ _ _ _ Hc). set_solver. Qed.

Lemma open_not_before o c s K F C e : core o c s K F C [e] -> ep_id e ∉ ep_id <$> F ++ C.
Proof.
  intros Hc. assert (Hnd := co_nodup _ _ _ _ _ _ _ Hc). rewrite (co_epochs _ _ _ _ _ _ _ Hc), app_assoc, fmap_app in Hnd.
  apply NoDup_app in Hnd as (_ & Hni & _). intros Hin. apply (Hni _ Hin). set_solver.
Qed.

Lemma alter_get o c s K F C O id f e : core o c s K F C O -> get_epoch c id = Some e -> alter_epoch id f c = alter_epoch id (fun _ => f e) c.
Proof.
  intros Hc Hget. destruct (find_epoch_some _ _ _ Hget) as [He Hid]. unfold alter_epoch. f_equal. apply map_ext_in. intros x Hx%list_elem_of_In.
  destruct (Nat.eqb_spec (ep_id x) id) as [Heq|]; [|done]. f_equal. eapply same_epoch; eauto; [apply Hc|congruence].
Qed.

Lemma alter_open o c s K F C e f : core o c s K F C [e] -> ep_id (f e) = ep_id e -> epochs (alter_epoch (ep_id e) f c) = F ++ C ++ [f e].
Proof.
  intros Hc Hf. rewrite (alter_get _ _ _ _ _ _ _ _ _ _ Hc (get_open _ _ _ _ _ _ _ Hc)), alter_replace by done.
  rewrite (co_epochs _ _ _ _ _ _ _ Hc), app_assoc, fmap_app, replace_other by (rewrite Hf; by eapply open_not_before). rewrite <- app_assoc. do 2 f_equal.
  csimpl. unfold replace. by rewrite Hf, Nat.eqb_refl.
Qed.

Lemma held_joined id x (ws : list peer_write) :
  Forall (fun w => w_stage w = Joined /\ w_epoch w = id) ws -> total (held x) ws = (if Nat.eqb id x then Z.of_nat (length ws) else 0).
Proof.
  induction 1 as [|w ws [Hst Hid] Hws IH]; simpl; [by destruct (id =? x)%nat|]. rewrite IH. unfold held. rewrite Hst, Hid.
  destruct (id =? x)%nat; simpl; lia.
Qed.

Lemma find_app {A} (f : A -> bool) l1 l2 : find f (l1 ++ l2) = match find f l1 with Some x => Some x | None => find f l2 end.
Proof. induction l1 as [|x l IH]; simpl; [done|]. by destruct (f x). Qed.

(** The open epoch changes, and writes may join it. *)
Lemma core_open_change o c c' s s' K F C e e' ws :
  core o c s K F C [e] -> ep_id e' = ep_id e -> epochs c' = F ++ C ++ [e'] -> spec_run o (log c') = Some s' ->
  sp_closed s' = sp_closed s -> sp_completed s' = sp_completed s -> sp_flushed s' = sp_flushed s -> open_ok o c' e' (sp_open s') ->
  writes c' = writes c ++ ws -> Forall (fun w => w_stage w = Joined /\ w_epoch w = ep_id e) ws -> (plain o = true -> Forall (fun w => EE_IS_BARRIER w = false) ws) ->
  ep_active e' = ep_active e + Z.of_nat (length ws) ->
  next_id c' = next_id c -> connected c' = connected c -> write_ordering c' = write_ordering c -> active_ee_cnt c' = active_ee_cnt c -> flush_works c' = flush_works c ->
  core o c' s' K F C [e'].
Proof.
  intros Hc Hid Hep Hspec Hcl Hcp Hf Hop Hw Hws Hbar Hact Hnx Hcn Hwo Hcnt Hfw.
  assert (Hep0 := co_epochs _ _ _ _ _ _ _ Hc).
  assert (Hids : ep_id <$> epochs c' = ep_id <$> epochs c) by (rewrite Hep, Hep0, !fmap_app; csimpl; by rewrite Hid).
  constructor; rewrite ?Hcl, ?Hcp, ?Hf, ?Hids, ?Hnx, ?Hcn, ?Hwo, ?Hfw; try solve [apply Hc].
  - done.
  - done.
  - rewrite Hep. by destruct F, C.
  - eapply Forall2_impl; [apply Hc|]. intros y z. apply closed_ok_grows; [|rewrite ?Hcp, ?Hf; done..].
    intros j u Hj. exists u. rewrite Hw. split; [|done]. by apply lookup_app_l_Some.
  - right. eauto.
  - pose proof (co_next _ _ _ _ _ _ _ Hc) as Hnx'. rewrite Hep0 in Hnx'. rewrite Hep. apply Forall_app in Hnx' as [H1 [H2 H3]%Forall_app].
    apply Forall_app; split; [done|]. apply Forall_app; split; [done|]. inversion H3; subst. constructor; [congruence|done].
  - intros x. pose proof (co_active _ _ _ _ _ _ _ Hc x) as Ha. unfold references, active_of, get_epoch in *. rewrite Hep, Hw, Hfw, total_app, (held_joined _ _ _ Hws).
    rewrite Hep0, app_assoc, find_app in Ha. rewrite app_assoc, find_app. pose proof (open_not_before _ _ _ _ _ _ _ Hc) as Hni.
    destruct (find _ (F ++ C)) as [y|] eqn:Hfd.
    + apply find_epoch_some in Hfd as [Hy Hyx]. destruct (Nat.eqb_spec (ep_id e) x) as [Heq|]; [|lia].
      destruct Hni. rewrite Heq, <- Hyx. by apply list_elem_of_fmap_2.
    + simpl in *. rewrite Hid. destruct (ep_id e =? x)%nat; lia.
  - intros Hp. destruct (co_plain _ _ _ _ _ _ _ Hc Hp). split; [done|]. rewrite Hw. apply Forall_app. auto.
  - rewrite Hcnt, Hw, total_app, (co_count _ _ _ _ _ _ _ Hc). enough (total is_active ws = 0) by lia. clear -Hws.
    induction Hws as [|w ws [Hst _] _ IH]; simpl; [done|]. rewrite IH. unfold is_active. by rewrite Hst.
  - intros j u Hj Hst. rewrite Hw in Hj. apply lookup_app_Some in Hj as [Hj|[_ Hj]]; [by eapply Hc|].
    rewrite Forall_forall in Hws. destruct (Hws u (list_elem_of_lookup_2 _ _ _ Hj)) as [Hs _]. destruct Hst; congruence.
Qed.

(** The open epoch gets its number. *)
Lemma core_close o c s K F C e cur :
  core o c s K F C [e] -> epoch_size e <> 0 ->
  let e1 := apply_event (write_ordering c) cur EV_GOT_BARRIER_NR e in
  let c' := note (Barrier (barrier_nr e)) (alter_epoch (ep_id e) (fun _ => e1) c) in
  core o c' (mk_spec (sp_closed s ++ [(barrier_nr e, sp_open s)]) no_batch (sp_completed s) (sp_flushed s)) K F (C ++ [e1]) [].
Proof.
  intros Hc Hsz e1 c'. assert (Hep : epochs c' = F ++ C ++ [e1]) by exact (alter_open _ _ _ _ _ _ _ (fun _ => e1) Hc eq_refl).
  assert (Hids : ep_id <$> epochs c' = ep_id <$> epochs c) by (rewrite Hep, (co_epochs _ _ _ _ _ _ _ Hc), !fmap_app; done).
  destruct (co_open _ _ _ _ _ _ _ Hc) as [[Ho _]|(x & Ho & Hop)]; [done|]. simplify_eq. constructor; rewrite ?Hids; try solve [apply Hc].
  - simpl. by rewrite (co_spec _ _ _ _ _ _ _ Hc).
  - by rewrite app_nil_r.
  - rewrite Hep. by destruct F, C.
  - apply Forall2_app; [eapply Forall2_impl; [apply Hc|]; intros y z; by apply closed_ok_grows; eauto|]. constructor; [|constructor].
    destruct Hop. constructor; simpl; auto; [|intros Hdr; rewrite op_done; done].
    intros Hdr. rewrite op_barrier by done. done.
  - by left.
  - pose proof (co_next _ _ _ _ _ _ _ Hc) as Hnx. rewrite Hep. rewrite (co_epochs _ _ _ _ _ _ _ Hc) in Hnx.
    apply Forall_app in Hnx as [H1 [H2 H3]%Forall_app]. apply Forall_app; split; [done|]. apply Forall_app; split; [done|]. inversion H3; subst. by constructor.
  - intros y. rewrite <- (co_active _ _ _ _ _ _ _ Hc y : _ = references c' K y). unfold active_of.
    change (get_epoch c' y) with (get_epoch (alter_epoch (ep_id x) (fun _ => e1) c) y). rewrite get_alter by done.
    destruct (get_epoch c y) as [z|] eqn:Hz; simpl; [|done]. unfold replace. destruct (Nat.eqb_spec (ep_id z) (ep_id e1)) as [Heq|]; [|done].
    destruct (find_epoch_some _ _ _ Hz) as [Hin _].
    assert (z = x) as ->; [|done]. apply (same_epoch (epochs c)); [apply Hc| |done|done]. rewrite (co_epochs _ _ _ _ _ _ _ Hc). set_solver.
Qed.

(** A new epoch opens. *)
Lemma core_push o c s K F C :
  core o c s K F C [] -> core o (set_next_id (S (next_id c)) (set_epochs (epochs c ++ [new_epoch (next_id c)]) c)) s K F C [new_epoch (next_id c)].
Proof.
  intros Hc. set (c' := set_next_id _ _). assert (Hep := co_epochs _ _ _ _ _ _ _ Hc). rewrite app_nil_r in Hep.
  assert (Hep' : epochs c' = F ++ C ++ [new_epoch (next_id c)]) by (simpl; rewrite Hep; by rewrite app_assoc).
  assert (Hni : next_id c ∉ ep_id <$> epochs c).
  { intros (e & Heq & He)%list_elem_of_fmap_1. pose proof (co_next _ _ _ _ _ _ _ Hc) as Hnx. rewrite Forall_forall in Hnx. specialize (Hnx e He). lia. }
  destruct (co_open _ _ _ _ _ _ _ Hc) as [[_ Hop]|(x & Ho & _)]; [|done].
  constructor; try solve [apply Hc].
  - done.
  - rewrite Hep'. by destruct F, C.
  - eapply Forall2_impl; [apply Hc|]. intros y z. by apply closed_ok_writes.
  - right. eexists. split; [done|]. rewrite Hop. constructor; simpl; try done. constructor.
  - simpl. rewrite fmap_app. apply NoDup_app. split_and!; [apply Hc| |apply NoDup_singleton]. intros y Hy ->%list_elem_of_singleton. done.
  - simpl. apply Forall_app. split; [|constructor; [simpl; lia|done]]. eapply Forall_impl; [apply Hc|]. simpl. lia.
  - intros y. rewrite <- (co_active _ _ _ _ _ _ _ Hc y : _ = references c' K y). unfold active_of, get_epoch. simpl. rewrite find_app.
    destruct (find _ (epochs c)); [done|]. simpl. by destruct (next_id c =? y)%nat.
Qed.

(** ** Flushes and the ordering *)

Lemma core_grow o c c' s s' K F C O :
  core o c s K F C O -> spec_run o (log c') = Some s' -> grows s s' -> (forall i, i ∈ sp_flushed s' -> i ∈ sp_completed s') ->
  (forall wo, o = Some wo -> write_ordering c' = wo) ->
  epochs c' = epochs c -> next_id c' = next_id c -> connected c' = connected c ->
  writes c' = writes c -> active_ee_cnt c' = active_ee_cnt c -> flush_works c' = flush_works c -> core o c' s' K F C O.
Proof.
  intros Hc Hspec [Hcl Hop Hcp Hf] Hsub Hwo Hep Hnx Hcn Hw Hac Hfw. destruct Hc.
  constructor; rewrite ?Hep, ?Hnx, ?Hcn, ?Hw, ?Hac, ?Hfw, ?Hcl, ?Hop; auto.
  - eapply Forall2_impl; [eassumption|]. intros x y. apply closed_ok_grows; [|done..]. rewrite Hw. eauto.
  - destruct co_open as [?|(e & -> & ?)]; [by left|right]. exists e. split; [done|]. by apply (open_ok_writes _ c).
  - intros id. specialize (co_active id). unfold references, active_of, get_epoch in *. by rewrite Hep, Hw, Hfw.
  - intros i w Hi Hst. apply Hcp. eauto.
Qed.

Definition steady (o : option write_ordering_e) (l : list event) : Prop := is_Some o -> forall x, SetOrdering x ∉ l.

Lemma core_flush o c s K F C O ok :
  core o c s K F C O -> steady o (log (flush_devices ok c)) ->
  exists s', core o (flush_devices ok c) s' K F C O /\ grows s s' /\ sp_completed s' = sp_completed s /\ (o = Some WO_BDEV_FLUSH -> sp_flushed s' = sp_completed s).
Proof.
  intros Hc Hst. unfold flush_devices in *. destruct (wo_value WO_BDEV_FLUSH <=? wo_value (write_ordering c)) eqn:Hwo.
  - destruct ok.
    + exists (mk_spec (sp_closed s) (sp_open s) (sp_completed s) (sp_completed s)).
      assert (Hg : grows s (mk_spec (sp_closed s) (sp_open s) (sp_completed s) (sp_completed s))) by (constructor; try done; apply Hc).
      split_and!; [|done..]. eapply core_grow; try done; [|by apply Hc]. simpl. by rewrite (co_spec _ _ _ _ _ _ _ Hc).
    + assert (Hn : ~ is_Some o) by (intros Ho; eapply (Hst Ho); simpl; by left). exists s. split_and!; [|done|done|intros ->; by destruct Hn].
      eapply core_grow; try done; [simpl; by rewrite (co_spec _ _ _ _ _ _ _ Hc)|apply Hc|intros wo ->; by destruct Hn].
  - exists s. split_and!; [done|done|done|]. intros Ho. rewrite (co_ordering _ _ _ _ _ _ _ Hc _ Ho), Z.leb_refl in Hwo. done.
Qed.

(** The flag of an epoch for which a flush or barrier is on the way. *)
Lemma core_issued o c s K F C O id e :
  core o c s K F C O -> get_epoch c id = Some e ->
  core o (alter_epoch id set_issued c) s K (replace (set_issued e) <$> F) (replace (set_issued e) <$> C) (replace (set_issued e) <$> O) /\
  evolves (drains o) c s O (alter_epoch id set_issued c) s (replace (set_issued e) <$> O).
Proof.
  intros Hc Hget. rewrite (alter_get _ _ _ _ _ _ _ _ _ _ Hc Hget). set (k := call_of 0 EV_BECAME_LAST false [] false).
  assert (Hk : core o c s (k :: K) F C O).
  { constructor; try solve [apply Hc].
    - intros x. rewrite (co_active _ _ _ _ _ _ _ Hc x). unfold references. simpl. unfold puts at 2. simpl. rewrite andb_false_r. simpl. lia.
    - intros k0 [->|Hk0]%elem_of_cons; [done|]. by apply Hc. }
  assert (Hm : mild e (set_issued e)) by done. split; [|exact (evolves_mild _ (drains o) _ _ _ _ _ _ _ _ _ _ (flush_works c) Hk Hget Hm (fun _ => eq_refl))].
  eapply (core_drop _ _ _ k); [|intros x; unfold puts; simpl; by rewrite andb_false_r|done].
  apply (core_mild _ c s k k _ _ _ _ id e (set_issued e) (flush_works c) Hk Hget Hm); try done; [apply Hc|]. by left.
Qed.

(** ** Waiting *)

(** When no write is active, all but the one at hand are completed. *)
Lemma quiet o c s K F C O x i w :
  core o c s K F C O -> active_ee_cnt c = 0 -> joined_only c x -> writes c !! i = Some w -> x <> Some i -> i ∈ sp_completed s.
Proof.
  intros Hc Hact Hj Hw Hx. apply (co_done _ _ _ _ _ _ _ Hc i w Hw). rewrite (co_count _ _ _ _ _ _ _ Hc) in Hact.
  pose proof (total_member is_active (writes c) w ltac:(intros; apply b2z_nonneg) (list_elem_of_lookup_2 _ _ _ Hw)) as Hm. unfold is_active at 1 in Hm.
  destruct (w_stage w) eqn:Hst; auto; [by destruct (Hx (Hj i w Hw Hst))|]. simpl in Hm. lia.
Qed.

Lemma flushed_durable o s s' l :
  sp_completed s' = sp_completed s -> (o = Some WO_BDEV_FLUSH -> sp_flushed s' = sp_completed s) -> Forall (fun i => i ∈ sp_completed s) l -> durable o s' l = true.
Proof.
  intros Hcp Hf Hl. unfold durable. apply forallb_forall. intros i Hi%list_elem_of_In. apply bool_decide_eq_true_2. rewrite Forall_forall in Hl.
  case_bool_decide as Ho; [rewrite (Hf Ho)|rewrite Hcp]; auto.
Qed.

Lemma quiet_owned o c s K F C O x id l :
  core o c s K F C O -> active_ee_cnt c = 0 -> joined_only c x -> owned c id l -> (forall i, x = Some i -> i ∉ l) -> Forall (fun i => i ∈ sp_completed s) l.
Proof.
  intros Hc Hact Hj Ho Hx. apply Forall_forall. intros i Hi. unfold owned in Ho. rewrite Forall_forall in Ho. destruct (Ho i Hi) as (w & Hw & _).
  eapply quiet; eauto. intros Heq. by apply (Hx i Heq).
Qed.

Lemma quiet_closed o c s s' K F C O :
  core o c s K F C O -> active_ee_cnt c = 0 -> joined_only c None -> grows s s' -> sp_completed s' = sp_completed s ->
  (o = Some WO_BDEV_FLUSH -> sp_flushed s' = sp_completed s) -> all_durable o s'.
Proof.
  intros Hc Hact Hj Hg Hcp Hf _. rewrite (gr_closed _ _ Hg). apply Forall_forall. intros nb Hnb.
  apply list_elem_of_lookup_1 in Hnb as [j Hnb]. destruct (Forall2_lookup_r _ _ _ _ _ (co_closed _ _ _ _ _ _ _ Hc) Hnb) as (e & _ & Hok). apply (flushed_durable o s); [done..|].
  by apply (quiet_owned _ _ _ _ _ _ _ None _ _ Hc Hact Hj (cl_owned _ _ _ _ _ Hok)).
Qed.
End updates.
