(* ===== verification/EpochCall.v ===== *)
(** * Write epochs: [drbd_may_finish_epoch] keeps the invariant *)
From S2P Require Import Prelude Epoch EpochSpec EpochInv EpochStep.

Section calls.
Context `{WriteOrdering}.

Lemma alter_alter id a b c : ep_id b = id -> alter_epoch id (fun _ => a) (alter_epoch id (fun _ => b) c) = alter_epoch id (fun _ => a) c.
Proof.
  intros Hb. unfold alter_epoch, set_epochs. simpl. f_equal. rewrite map_map. apply map_ext. intros x.
  destruct (Nat.eqb_spec (ep_id x) id); simpl; [by rewrite Hb, Nat.eqb_refl|by rewrite (proj2 (Nat.eqb_neq _ _))].
Qed.

Lemma oldest_alter id e' c x : ep_id e' = id -> is_oldest (alter_epoch id (fun _ => e') c) x = is_oldest c x.
Proof. intros Hid. unfold is_oldest. rewrite alter_replace by done. destruct (epochs c); [done|]. simpl. by rewrite replace_id. Qed.

Lemma apply_mild wo current ev e : ev <> EV_GOT_BARRIER_NR -> mild e (apply_event wo current ev e).
Proof. by destruct ev. Qed.

(** The three ends of a round. *)
Variant round (wo : write_ordering_e) (oldest : bool) (e1 : drbd_epoch) : drbd_epoch * bool * bool -> Prop :=
  | round_finish : nearly_done oldest false e1 = true -> may_finish wo false e1 = true -> round wo oldest e1 (finishing e1, true, false)
  | round_flush : wo = WO_BIO_BARRIER -> nearly_done oldest false e1 = true -> round wo oldest e1 (add_active 1 e1, false, true)
  | round_none : round wo oldest e1 (e1, false, false).

Lemma check_round wo current oldest ev e : round wo oldest (apply_event wo current ev e) (check_epoch wo current oldest false ev e).
Proof.
  unfold check_epoch. destruct (nearly_done _ _ _) eqn:Hn; [|by constructor]. destruct (may_finish _ _ _) eqn:Hm; [by constructor|].
  destruct (negb _ && _) eqn:Hf; [|by constructor]. apply andb_true_iff in Hf as [_ Hwo%bool_decide_eq_true]. by constructor.
Qed.

(** What a round of the loop leaves to its thread. *)
Definition round_ok (o : option write_ordering_e) (d : bool) (c : connection) (s : spec) (k : call) (K : list call) (O : list drbd_epoch)
    (id : nat) (rv : finish_epoch) (c' : connection) (out : outcome_of_call) : Prop :=
  exists s' F' C' O', evolves d c s O c' s' O' /\ calls c' = calls c /\
  match out with
  | Goes k' => k' = mk_call id EV_BECAME_LAST false true rv (k_then k) (k_done k) /\ core o c' s' (k' :: K) F' C' O'
  | Returns rv' None => rv' = rv /\ core o c' s' (spent k :: K) F' C' O'
  | Returns rv' (Some x) => rv' = rv /\ core o (set_flush_works (x :: flush_works c') c') s' (spent k :: K) F' C' O'
  end.

(** The call at the start of a round. *)
Definition starting (id : nat) (ev : epoch_event) (k : call) : call := mk_call id ev false false FE_STILL_LIVE (k_then k) (k_done k).

Lemma puts_starting x id ev k : puts x (starting id ev k) = b2z (Nat.eqb id x && bool_decide (ev = EV_PUT)) + total (put_later x) (k_then k).
Proof. done. Qed.

(** A put finds its epoch, which is not finishing. *)
Lemma put_alive o c s k K F C O id :
  core o c s (starting id EV_PUT k :: K) F C O -> exists e, get_epoch c id = Some e /\ 1 <= ep_active e.
Proof.
  intros Hc. pose proof (co_active _ _ _ _ _ _ _ Hc id) as Ha. unfold references in Ha. simpl total in Ha. rewrite puts_starting, Nat.eqb_refl in Ha. simpl in Ha.
  pose proof (total_nonneg (held id) (writes c) ltac:(intros; apply b2z_nonneg)). pose proof (total_nonneg (puts id) K (puts_nonneg id)).
  pose proof (total_nonneg (flushes id) (flush_works c) ltac:(intros; apply b2z_nonneg)).
  pose proof (total_nonneg (put_later id) (k_then k) ltac:(intros; apply b2z_nonneg)).
  unfold active_of in Ha. destruct (get_epoch c id) as [e|]; [|lia]. exists e. split; [done|lia].
Qed.

Lemma apply_core o c s k K F C O id ev e wo cur :
  core o c s (starting id ev k :: K) F C O -> get_epoch c id = Some e -> ev <> EV_GOT_BARRIER_NR ->
  (drains o = true -> ev = EV_BARRIER_DONE -> O = [] /\ all_durable o s) ->
  let e1 := apply_event wo cur ev e in
  core o (alter_epoch id (fun _ => e1) c) s (spent k :: K) (replace e1 <$> F) (replace e1 <$> C) (replace e1 <$> O).
Proof.
  intros Hc Hget Hev Hd e1. apply (core_mild _ c s (starting id ev k) _ _ _ _ _ id e e1 (flush_works c) Hc Hget); try done.
  - by apply apply_mild.
  - intros x. rewrite puts_spent, puts_starting. unfold e1. destruct (Nat.eqb id x), ev; simpl; lia.
  - apply Hc.
  - intros Hfin Hact. unfold e1. destruct ev; try done. destruct (put_alive _ _ _ _ _ _ _ _ _ Hc) as (x & Hx & Hle). simplify_eq. lia.
  - intros Hdr He1. destruct ev; try (by left). right. auto.
Qed.

Lemma plain_no_barrier o c s K F C O : core o c s K F C O -> plain o = true -> write_ordering c <> WO_BIO_BARRIER.
Proof.
  intros Hc Hp Hwo. unfold plain, drains in Hp. rewrite !orb_true_iff, !bool_decide_eq_true in Hp.
  destruct Hp as [[Ho|Ho]|Ho]; by rewrite (co_ordering _ _ _ _ _ _ _ Hc _ Ho) in Hwo.
Qed.

Lemma apply_id wo cur ev e : ep_id (apply_event wo cur ev e) = ep_id e.
Proof. by destruct ev. Qed.

Lemma flush_core o c s k K F C O id ev e wo cur :
  core o c s (starting id ev k :: K) F C O -> get_epoch c id = Some e -> ev <> EV_GOT_BARRIER_NR -> plain o = false -> DE_IS_FINISHING e = false ->
  let e' := add_active 1 (apply_event wo cur ev e) in
  core o (set_flush_works (id :: flush_works c) (alter_epoch id (fun _ => e') c)) s (spent k :: K) (replace e' <$> F) (replace e' <$> C) (replace e' <$> O).
Proof.
  intros Hc Hget Hev Hp Hfin e'. apply (core_mild _ c s (starting id ev k) _ _ _ _ _ id e e' _ Hc Hget); try done.
  - by destruct ev.
  - intros x. rewrite puts_spent, puts_starting. change (total (flushes x) (id :: flush_works c)) with (b2z (Nat.eqb id x) + total (flushes x) (flush_works c)).
    unfold e'. destruct (Nat.eqb id x), ev; simpl; lia.
  - congruence.
  - congruence.
  - intros Hdr. unfold plain in Hp. rewrite Hdr in Hp. done.
Qed.

Lemma loop_round o d c s k K F C O id ev rv fuel e :
  core o c s (starting id ev k :: K) F C O -> get_epoch c id = Some e -> k_cleanup k = false -> ev <> EV_GOT_BARRIER_NR ->
  (drains o = true -> ev = EV_BARRIER_DONE -> O = [] /\ all_durable o s) -> (d = true -> ev <> EV_BARRIER_DONE) ->
  let '(c', out) := finish_loop (S fuel) id ev rv k c in round_ok o d c s k K O id rv c' out.
Proof.
  intros Hc Hget Hcl Hev Hd Hdd. simpl. rewrite Hget, Hcl, bool_decide_eq_false_2 by done.
  destruct (find_epoch_some _ _ _ Hget) as [_ Hid]. set (e1 := apply_event (write_ordering c) (is_current c id) ev e).
  assert (Hid1 : ep_id e1 = id) by (unfold e1; by rewrite apply_id).
  assert (Hm := apply_mild (write_ordering c) (is_current c id) ev e Hev). fold e1 in Hm.
  assert (Hdone : d = true -> DE_BARRIER_IN_NEXT_EPOCH_DONE e1 = DE_BARRIER_IN_NEXT_EPOCH_DONE e) by (intros Hd1; specialize (Hdd Hd1); unfold e1; by destruct ev).
  pose proof (check_round (write_ordering c) (is_current c id) (is_oldest c id) ev e) as Hr. fold e1 in Hr.
  pose proof (apply_core _ _ _ _ _ _ _ _ _ _ _ (write_ordering c) (is_current c id) Hc Hget Hev Hd) as Hc1. fold e1 in Hc1. simpl in Hc1.
  assert (Hev1 := evolves_mild _ d _ _ _ _ _ _ _ _ _ _ (flush_works c) Hc Hget Hm Hdone).
  destruct Hr as [Hn Hmay|Hwo Hn|].
  - assert (Hget1 : get_epoch (alter_epoch id (fun _ => e1) c) (ep_id e1) = Some e1).
    { rewrite get_alter, Hid1, Hget by done. simpl. unfold replace. by rewrite Hid, Hid1, Nat.eqb_refl. }
    destruct (core_finish _ d _ _ _ (mk_call id EV_BECAME_LAST false true rv (k_then k) (k_done k)) _ _ _ _ e1 Hc1) as (s' & C' & HF & HC & Hc2 & Hev2); try done.
    { intros x. by rewrite puts_spent. }
    { by rewrite oldest_alter, Hid1. }
    rewrite Hid1, alter_alter in Hc2, Hev2 by done.
    exists s', [finishing e1], C', (replace e1 <$> O). split; [eapply evolves_trans; [exact Hev1|exact Hev2]|]. split; [|done].
    unfold drbd_send_b_ack. by destruct (connected _).
  - exists s, (replace (add_active 1 e1) <$> F), (replace (add_active 1 e1) <$> C), (replace (add_active 1 e1) <$> O). split; [|split; [done|split; [done|]]].
    + assert (Hm' : mild e (add_active 1 e1)) by (by destruct Hm). exact (evolves_mild _ d _ _ _ _ _ _ _ _ _ _ (flush_works c) Hc Hget Hm' Hdone).
    + assert (Hp : plain o = false) by (apply not_true_is_false; intros Hp; by apply (plain_no_barrier _ _ _ _ _ _ _ Hc Hp)).
      unfold nearly_done in Hn. rewrite !andb_true_iff, !negb_true_iff in Hn. destruct Hn as [_ Hn]. rewrite (mi_finishing _ _ Hm) in Hn.
      exact (flush_core _ _ _ _ _ _ _ _ _ _ _ (write_ordering c) (is_current c id) Hc Hget Hev Hp Hn).
  - exists s, (replace e1 <$> F), (replace e1 <$> C), (replace e1 <$> O). auto.
Qed.

(** ** A call of another thread *)

Lemma current_head c e l : epochs c = e :: l -> NoDup (ep_id <$> epochs c) -> is_current c (ep_id e) = bool_decide (l = []).
Proof.
  intros Hep Hnd. unfold is_current. rewrite Hep in *. csimpl in Hnd. apply NoDup_cons in Hnd as [Hni _]. destruct l as [|y l].
  - simpl. by rewrite Nat.eqb_refl.
  - rewrite bool_decide_eq_false_2 by done. rewrite last_cons_cons. destruct (last (y :: l)) as [z|] eqn:Hl; [|done].
    apply Nat.eqb_neq. intros Heq. apply Hni. rewrite <- Heq. apply list_elem_of_fmap_2. by apply last_Some_elem_of.
Qed.

(** The removal of the epoch of a call: the last one starts anew, else the next one became the oldest. *)
Lemma remove_core o c s k K F C O :
  core o c s (k :: K) F C O -> k_window k = true ->
  (exists e, remove_epoch (k_id k) c = (alter_epoch (k_id k) recycled c, None, FE_RECYCLED) /\ F = [e] /\ C = [] /\ O = [] /\
    core o (alter_epoch (k_id k) recycled c) s (spent k :: K) [] [] [recycled e] /\ evolves (drains o) c s O (alter_epoch (k_id k) recycled c) s [recycled e]) \/
  (exists c' n, remove_epoch (k_id k) c = (c', Some (ep_id n), FE_DESTROYED) /\ calls c' = calls c /\ log c' = log c /\ get_epoch c' (ep_id n) = Some n /\
    (length (epochs c') < length (epochs c))%nat /\ (1 < length (epochs c))%nat /\ core o c' s (spent k :: K) [] C O /\ evolves (drains o) c s O c' s O).
Proof.
  intros Hc Hk. destruct (co_window _ _ _ _ _ _ _ Hc k ltac:(set_solver) Hk) as (e & -> & Hid).
  assert (Hep := co_epochs _ _ _ _ _ _ _ Hc). simpl in Hep.
  unfold remove_epoch. rewrite Hid, (current_head _ _ _ Hep (co_nodup _ _ _ _ _ _ _ Hc)). case_bool_decide as Hl.
  - left. apply app_nil in Hl as [-> ->]. exists e. destruct (core_recycle _ _ _ _ _ _ Hc Hk Hid) as [Hc1 Hev]. rewrite Hid in *. auto 10.
  - right. destruct (C ++ O) as [|n l] eqn:HCO; [done|]. destruct (core_destroy _ (drains o) _ _ _ _ _ _ _ Hc Hk Hid) as [Hc1 Hev]; [by rewrite HCO|].
    rewrite Hid in *. eexists _, n. split; [rewrite Hep at 2; simpl; by rewrite Nat.eqb_refl|]. split; [done|]. split; [done|].
    assert (Hep1 := co_epochs _ _ _ _ _ _ _ Hc1). simpl app in Hep1. rewrite HCO in Hep1. split; [unfold get_epoch; rewrite Hep1; simpl; by rewrite Nat.eqb_refl|].
    split; [rewrite Hep1, Hep; simpl; lia|]. split; [rewrite Hep; simpl; lia|]. auto.
Qed.

Lemma thread_call o c s k K F C O c' out :
  core o c s (k :: K) F C O -> call_ok o k -> drbd_may_finish_epoch k c = (c', out) -> (plain o = true \/ UseAfterFree ∉ log c') ->
  exists s' F' C' O', evolves (drains o) c s O c' s' O' /\ calls c' = calls c /\
  match out with
  | Goes k' => call_ok o k' /\ core o c' s' (k' :: K) F' C' O'
  | Returns _ None => core o c' s' (spent k :: K) F' C' O'
  | Returns _ (Some x) => core o (set_flush_works (x :: flush_works c') c') s' (spent k :: K) F' C' O'
  end.
Proof.
  intros Hc [Hcl Hkev Hth Hpl] Hrun Huaf. unfold drbd_may_finish_epoch in Hrun. destruct (k_window k) eqn:Hk.
  - destruct (remove_core _ _ _ _ _ _ _ _ Hc Hk) as [(e & Hr & -> & -> & -> & Hc1 & Hev)|(c1 & n & Hr & Hcalls & Hlog & Hget & _ & _ & Hc1 & Hev)]; rewrite Hr in Hrun.
    + simplify_eq. eexists s, _, _, _. split; [exact Hev|]. by split.
    + assert (Hc2 : core o c1 s (starting (ep_id n) EV_BECAME_LAST k :: K) [] C O).
      { eapply core_swap; [exact Hc1| |done|done]. intros x. rewrite puts_spent, puts_starting, andb_false_r. simpl. lia. }
      pose proof (loop_round _ (drains o) _ _ _ _ _ _ _ _ _ (first_result (k_rv k) FE_DESTROYED) (length (epochs c1)) _ Hc2 Hget Hcl ltac:(done)
        ltac:(intros; discriminate) ltac:(intros; discriminate)) as Hround.
      rewrite Hrun in Hround. destruct Hround as (s' & F' & C' & O' & Hev2 & Hcalls2 & Hout).
      exists s', F', C', O'. split; [by eapply evolves_trans|]. split; [congruence|].
      destruct out as [k'|rv' [x|]]; [|apply Hout..]. destruct Hout as [-> Hout]. split; [|done]. constructor; simpl; try done. intros Hp. by destruct (Hpl Hp).
  - assert (Hc2 : core o c s (starting (k_id k) (k_ev k) k :: K) F C O).
    { eapply core_swap; [exact Hc| |done|done]. intros x. rewrite puts_starting. unfold puts. rewrite Hk. simpl. done. }
    assert (Hget : exists e, get_epoch c (k_id k) = Some e).
    { destruct (Hkev eq_refl) as [Hev|Hev].
      - rewrite Hev in Hc2. destruct (put_alive _ _ _ _ _ _ _ _ _ Hc2) as (e & He & _). eauto.
      - destruct (get_epoch c (k_id k)) eqn:Hg; [eauto|]. simpl in Hrun. rewrite Hg in Hrun. simplify_eq. destruct Huaf as [Hp|Hni]; [|set_solver].
        destruct (Hpl Hp) as [_ Hput]. rewrite Hput in Hev; done. }
    destruct Hget as [e Hget].
    assert (Hnd : drains o = true -> k_ev k <> EV_BARRIER_DONE).
    { intros Hdr Hev. destruct Hpl as [_ Hput]; [unfold plain; by rewrite Hdr|]. rewrite Hput in Hev; done. }
    pose proof (loop_round _ (drains o) _ _ _ _ _ _ _ _ _ (k_rv k) (length (epochs c)) _ Hc2 Hget Hcl
      ltac:(destruct (Hkev eq_refl); congruence) ltac:(intros Hdr Hev; by destruct (Hnd Hdr)) Hnd) as Hround.
    rewrite Hrun in Hround. destruct Hround as (s' & F' & C' & O' & Hev2 & Hcalls2 & Hout).
    exists s', F', C', O'. split; [done|]. split; [done|].
    destruct out as [k'|rv' [x|]]; [|apply Hout..]. destruct Hout as [-> Hout]. split; [|done]. constructor; simpl; try done. intros Hp. by destruct (Hpl Hp).
Qed.
End calls.
