(* ===== verification/EpochProps.v ===== *)
(** * Write epochs: every step keeps the invariant *)
From S2P Require Import Prelude Epoch EpochSpec EpochInv EpochStep EpochCall.

Section steps_ok.
Context `{WriteOrdering}.

(** ** Threads *)

Lemma core_fields o c c' s K F C O :
  core o c s K F C O -> log c' = log c -> epochs c' = epochs c -> next_id c' = next_id c -> connected c' = connected c ->
  write_ordering c' = write_ordering c -> writes c' = writes c -> active_ee_cnt c' = active_ee_cnt c -> flush_works c' = flush_works c ->
  core o c' s K F C O.
Proof.
  intros Hc Hlog Hep Hnx Hcn Hwo Hw Hac Hfw. destruct Hc. constructor; rewrite ?Hlog, ?Hep, ?Hnx, ?Hcn, ?Hwo, ?Hw, ?Hac, ?Hfw; auto.
  - eapply Forall2_impl; [eassumption|]. intros x y. by apply closed_ok_writes.
  - destruct co_open as [?|(e & -> & ?)]; [by left|right]. exists e. split; [done|]. by apply (open_ok_writes _ c).
  - intros id. specialize (co_active id). unfold references, active_of, get_epoch in *. by rewrite Hep, Hw, Hfw.
Qed.

Lemma joined_writes c c' x : writes c' = writes c -> joined_only c x -> joined_only c' x.
Proof. unfold joined_only. by intros ->. Qed.

Lemma all_durable_sub o s s' :
  sp_completed s' = sp_completed s -> sp_flushed s' = sp_flushed s -> (forall nb, nb ∈ sp_closed s' -> nb ∈ sp_closed s) -> all_durable o s -> all_durable o s'.
Proof.
  intros Hcp Hf Hsub Ha Hdr. specialize (Ha Hdr). rewrite Forall_forall in *. intros nb Hnb. rewrite (durable_same o s s') by done. auto.
Qed.

Lemma evolves_durable o d c s O c' s' O' : evolves d c s O c' s' O' -> all_durable o s -> all_durable o s'.
Proof. intros [Hw Hr Hcp Hf Ho Hcl Hcu Hl Hk]. by apply all_durable_sub. Qed.

Lemma evolves_unused d c s O c' s' O' : evolves d c s O c' s' O' -> unused s O -> unused s' O'.
Proof.
  intros [Hw Hr Hcp Hf Ho Hcl Hcu Hl Hk] HU e' ->. rewrite Ho. destruct Hk as [(Hk & _)|(-> & _ & Hn & x & ? & Hx)]; [|simplify_eq; auto].
  apply Forall2_cons_inv_r in Hk as (e & l & Hee & ->%Forall2_nil_inv_r & ->). rewrite Hee. by apply HU.
Qed.

Lemma evolves_undrained o c s O c' s' O' : evolves (drains o) c s O c' s' O' -> undrained o c O -> undrained o c' O'.
Proof.
  intros [Hw Hr Hcp Hf Ho Hcl Hcu Hl Hk] HD Hdr. destruct (HD Hdr) as [-> Hdone].
  destruct Hk as [(->%Forall2_nil_inv_l & _ & Hk)|(_ & Hk & _)]; [|rewrite Hk in Hdone; done]. split; [done|]. rewrite Hk; done.
Qed.

Lemma evolves_receiver d c s O c' s' O' r : evolves d c s O c' s' O' -> evolves d (set_receiver r c) s O (set_receiver r c') s' O'.
Proof. intros [Hw Hr Hcp Hf Ho Hcl Hcu Hl Hk]. by constructor. Qed.

Lemma receiver_evolves o c s O c' s' O' :
  evolves (drains o) c s O c' s' O' -> epochs c' <> [] -> receiver_ok o c s O -> receiver_ok o c' s' O'.
Proof.
  intros Hev Hne. pose proof (evolves_durable o _ _ _ _ _ _ _ Hev) as HA. pose proof (evolves_unused _ _ _ _ _ _ _ Hev) as HU.
  pose proof (evolves_undrained _ _ _ _ _ _ _ Hev) as HD. destruct Hev as [Hw Hr Hcp Hf Ho Hcl Hcu Hl Hk]. unfold receiver_ok, call_at. rewrite Hr.
  pose proof (joined_writes c c') as HJ. specialize (fun x => HJ x Hw).
  assert (HO : O <> [] -> O' <> []).
  { intros HO ->. destruct Hk as [(Hk & _)|(_ & _ & _ & e' & ? & _)]; [|done]. by apply Forall2_nil_inv_r in Hk. }
  assert (HN : forall i, newest c s i -> newest c' s' i) by (intros i; unfold newest; by rewrite Ho, Hw).
  assert (Hlen : length (epochs c) = 1%nat -> length (epochs c') = 1%nat) by (destruct (epochs c'); simpl in *; [done|lia]).
  destruct (receiver c) as [|i|i|i|k| |k| | | |]; rewrite ?Ho, ?Hcu, ?(durable_same o s s' _ Hcp Hf);
    try solve [intros; destruct_and?; split_and?; auto].
  - intros (? & ? & ? & Hkk). do 3 (split; [auto|]). destruct (k_window k); [auto|]. destruct Hkk as (Hke & HOn & Hsz). do 2 (split; [auto|]).
    destruct Hk as [(_ & -> & _)|(? & _)]; done.
  - intros (? & ? & ? & Hkk). do 3 (split; [auto|]). destruct (k_window k); [auto|]. destruct_and!. auto.
Qed.

(** The call after a call. *)
Lemma core_next o c s k K F C O :
  core o c s (spent k :: K) F C O -> core o c s (option_list (next_call (k_then k) (k_done k)) ++ K) F C O.
Proof.
  intros Hc. destruct (k_then k) as [|[[id ev] cl] rest] eqn:Hk; simpl.
  - eapply core_drop; [exact Hc| |done]. intros x. rewrite puts_spent, Hk. done.
  - eapply core_swap; [exact Hc| |done|done]. intros x. by rewrite puts_spent, Hk.
Qed.

Lemma call_ok_next o k k' : call_ok o k -> next_call (k_then k) (k_done k) = Some k' -> call_ok o k'.
Proof.
  intros [Hcl Hev Hth Hpl]. destruct (k_then k) as [|[[id ev] cl] rest]; [done|]. intros [= <-]. inversion Hth as [|x l [Hx1 Hx2] Hl]; subst.
  constructor; simpl in *; auto. intros Hp. by destruct (Hpl Hp).
Qed.

Lemma receiver_fields o c c' s O :
  receiver_ok o c s O -> receiver c' = receiver c -> epochs c' = epochs c -> writes c' = writes c -> receiver_ok o c' s O.
Proof. unfold receiver_ok, call_at, joined_only, newest, undrained, current_epoch. by intros ? -> -> ->. Qed.

(** New calls of other threads, beside fields that do not matter. *)
Lemma invariant_calls o c c' s ks F C O :
  core o c s (ks ++ receiver_call (receiver c) ++ calls c) F C O -> Forall (call_ok o) ks -> Forall (call_ok o) (calls c) -> receiver_ok o c s O ->
  log c' = log c -> epochs c' = epochs c -> next_id c' = next_id c -> connected c' = connected c ->
  write_ordering c' = write_ordering c -> writes c' = writes c -> active_ee_cnt c' = active_ee_cnt c -> flush_works c' = flush_works c ->
  receiver c' = receiver c -> calls c' = ks ++ calls c -> invariant o c' s.
Proof.
  intros Hc Hks Hcalls Hr ? ? ? ? ? ? ? ? Hrec Hcl. exists F, C, O. rewrite Hrec, Hcl. split.
  - apply (core_fields _ c); try done. eapply core_perm; [exact Hc|]. by rewrite !app_assoc, (Permutation_app_comm ks).
  - split; [by apply Forall_app|]. by apply (receiver_fields _ c).
Qed.

Lemma clean_uaf o l : clean o l -> plain o = true \/ UseAfterFree ∉ l.
Proof. by intros (_ & _ & _ & _ & ?). Qed.
Lemma clean_memory o l : clean o l -> NoMemory ∉ l.
Proof. by intros (_ & _ & ? & _). Qed.

Lemma option_list_ok o k : call_ok o k -> Forall (call_ok o) (option_list (next_call (k_then k) (k_done k))).
Proof. intros Hk. destruct (next_call _ _) as [k'|] eqn:Hn; simpl; [|done]. constructor; [|done]. by eapply call_ok_next. Qed.

Lemma thread_step o c s k l1 l2 memory :
  invariant o c s -> calls c = l1 ++ k :: l2 -> clean o (log (advance_call memory k (set_calls (l1 ++ l2) c))) ->
  exists s', invariant o (advance_call memory k (set_calls (l1 ++ l2) c)) s'.
Proof.
  intros (F & C & O & Hc & Hcalls & Hr) Hl Hclean. rewrite Hl in Hc, Hcalls.
  assert (Hok : call_ok o k /\ Forall (call_ok o) (l1 ++ l2)).
  { apply Forall_app in Hcalls as [H1 [H2 H3]%Forall_cons]. split; [done|]. by apply Forall_app. }
  destruct Hok as [Hk Hrest]. set (c0 := set_calls (l1 ++ l2) c) in *. unfold advance_call in *.
  assert (Hc0 : core o c0 s (k :: receiver_call (receiver c) ++ l1 ++ l2) F C O).
  { apply (core_fields _ c); try done. eapply core_perm; [exact Hc|]. by rewrite app_assoc, <- Permutation_middle, <- app_assoc. }
  destruct (drbd_may_finish_epoch k c0) as [c1 out] eqn:Hrun.
  assert (Huaf : plain o = true \/ UseAfterFree ∉ log c1).
  { apply clean_uaf in Hclean as [?|Hni]; [by left|right]. intros Hin; apply Hni. destruct out as [k'|rv [x|]]; [done| |].
    - destruct memory; simpl in *; [by destruct (next_call (k_then k) (k_done k)), (k_done k)|set_solver].
    - simpl in *. by destruct (next_call (k_then k) (k_done k)), (k_done k). }
  destruct (thread_call _ _ _ _ _ _ _ _ _ _ Hc0 Hk Hrun Huaf) as (s' & F' & C' & O' & Hev & Hcl & Hout).
  assert (Hrec := ev_receiver _ _ _ _ _ _ _ Hev). simpl in Hrec, Hcl.
  assert (Hr1 : epochs c1 <> [] -> receiver_ok o c1 s' O').
  { intros Hne. apply (receiver_evolves o c0 s O c1 s' O' Hev Hne). by apply (receiver_fields _ c). }
  assert (Hrest1 : Forall (call_ok o) (calls c1)) by (by rewrite Hcl).
  exists s'. destruct out as [k'|rv [x|]].
  - destruct Hout as [Hk' Hout]. rewrite <- Hrec, <- Hcl in Hout. apply (invariant_calls o c1 _ _ [k'] F' C' O'); try done; [by constructor|apply Hr1, Hout].
  - destruct memory; [|exfalso; apply clean_memory in Hclean; apply Hclean; simpl; set_solver].
    rewrite <- Hrec, <- Hcl in Hout. apply core_next in Hout. pose proof (option_list_ok _ _ Hk). unfold schedule_flush.
    set (c2 := set_flush_works (x :: flush_works c1) c1) in *.
    assert (Hr2 : receiver_ok o c2 s' O') by (apply (receiver_fields _ c1); try done; apply Hr1, Hout).
    apply (invariant_calls o c2 _ _ (option_list (next_call (k_then k) (k_done k))) F' C' O'); try done; destruct (next_call _ _), (k_done k); done.
  - rewrite <- Hrec, <- Hcl in Hout. pose proof (option_list_ok _ _ Hk). simpl. pose proof (Hr1 (co_some _ _ _ _ _ _ _ Hout)). apply core_next in Hout.
    apply (invariant_calls o c1 _ _ (option_list (next_call (k_then k) (k_done k))) F' C' O'); try done; destruct (next_call _ _), (k_done k); done.
Qed.
End steps_ok.
