(* ===== verification/EpochReceiver.v ===== *)
(** * Write epochs: the receiver keeps the invariant *)
From S2P Require Import Prelude Epoch EpochSpec EpochInv EpochStep EpochUpdate EpochCall EpochProps.

Section receiver_steps.
Context `{WriteOrdering}.

Lemma idle_open o c s K F C O : core o c s K F C O -> O <> [] -> exists e, O = [e] /\ open_ok o c e (sp_open s).
Proof. intros Hc HO. destruct (co_open _ _ _ _ _ _ _ Hc) as [[-> _]|?]; [done|eauto]. Qed.

(** ** Data *)

Lemma no_disk_step o c s : invariant o c s -> receiver c = RIdle -> exists s', invariant o (receive_Data_no_disk c) s'.
Proof.
  intros (F & C & O & Hc & Hcl & Hr) HR. unfold receiver_ok in Hr. rewrite HR in Hc, Hr. destruct Hr as (HO & HJ & HD).
  destruct (idle_open _ _ _ _ _ _ _ Hc HO) as (e & -> & Hop). assert (Hcur := current_open _ _ _ _ _ _ _ Hc).
  set (f := fun e => set_counts (epoch_size e + 1) (ep_active e) (confirmed e) (oldest_unconfirmed_peer_req e) e).
  exists (mk_spec (sp_closed s) (mk_batch (b_count (sp_open s) + 1) (b_writes (sp_open s))) (sp_completed s) (sp_flushed s)), F, C, [f e].
  assert (Hrec : receiver (receive_Data_no_disk c) = RIdle) by done. split; [|split; [done|]].
  - rewrite Hrec. eapply (core_open_change _ c _ s _ _ _ _ e (f e) []); try done.
    + unfold receive_Data_no_disk. rewrite Hcur. exact (alter_open _ _ _ _ _ _ _ f Hc eq_refl).
    + simpl. by rewrite (co_spec _ _ _ _ _ _ _ Hc).
    + destruct Hop. constructor; simpl; auto; [lia..|]. intros i Hi. destruct (op_oldest i Hi) as [? ?]. split; [lia|]. left. lia.
    + by rewrite app_nil_r.
    + simpl. lia.
  - unfold receiver_ok. rewrite Hrec. done.
Qed.

Definition join (i : nat) (e : drbd_epoch) : drbd_epoch :=
  set_counts (epoch_size e + 1) (ep_active e + 1) (confirmed e) (match oldest_unconfirmed_peer_req e with None => Some i | x => x end) e.
Definition contain (b : bool) (e : drbd_epoch) : drbd_epoch := if b then set_contains true e else e.

Lemma alter_comm p q f g c :
  (forall e, ep_id (f e) = ep_id e) -> (forall e, ep_id (g e) = ep_id e) -> (forall e, f (g e) = g (f e)) ->
  alter_epoch p f (alter_epoch q g c) = alter_epoch q g (alter_epoch p f c).
Proof.
  intros Hf Hg Hfg. unfold alter_epoch, set_epochs. simpl. f_equal. rewrite !map_map. apply map_ext. intros e.
  destruct (ep_id e =? q)%nat eqn:Hq, (ep_id e =? p)%nat eqn:Hp; rewrite ?Hf, ?Hg, ?Hq, ?Hp; simpl; rewrite ?Hq, ?Hp, ?Hfg; done.
Qed.

Lemma alter_compose q f g c : (forall e, ep_id (g e) = ep_id e) -> alter_epoch q f (alter_epoch q g c) = alter_epoch q (fun e => f (g e)) c.
Proof.
  intros Hg. unfold alter_epoch, set_epochs. simpl. f_equal. rewrite map_map. apply map_ext. intros e.
  destruct (ep_id e =? q)%nat eqn:Hq; rewrite ?Hg, ?Hq; done.
Qed.

Lemma epoch_before_in id l e : epoch_before id l = Some e -> e ∈ l.
Proof.
  induction l as [|x l IH]; [done|]. destruct l as [|y l]; [done|]. intros Hb. change ((if Nat.eqb (ep_id y) id then Some x else epoch_before id (y :: l)) = Some e) in Hb.
  destruct (Nat.eqb (ep_id y) id); [simplify_eq; set_solver|]. apply elem_of_cons. right. auto.
Qed.

Lemma previous_get c id p f q : NoDup (ep_id <$> epochs c) -> (forall e, ep_id (f e) = ep_id e) -> previous_epoch (alter_epoch q f c) id = Some p -> exists x, get_epoch c p = Some x.
Proof.
  unfold previous_epoch. intros Hnd Hf Hp. destruct (epoch_before id _) as [e|] eqn:He; [|done]. simplify_eq/=.
  apply epoch_before_in, list_elem_of_fmap_1 in He as (x & -> & Hx). exists x. apply find_epoch in Hx as Hg; [|done].
  destruct (ep_id x =? q)%nat; rewrite ?Hf; done.
Qed.

(** The parts of [receive_Data]: the flag of the epoch before, then the current epoch, then the write. *)
Lemma receive_Data_parts trim zeroout c : NoDup (ep_id <$> epochs c) ->
  exists b q, (b = true -> write_ordering c = WO_BIO_BARRIER) /\ (q = c \/ exists p x, get_epoch c p = Some x /\ q = alter_epoch p set_issued c) /\
  let id := ep_id (current_epoch c) in let i := length (writes c) in
  receive_Data trim zeroout c = note (Received i) (set_receiver (RJoined i)
    (set_writes (writes c ++ [mk_write id Joined b false trim zeroout]) (active_ee_cnt c) (done_ee_cnt c) (alter_epoch id (fun e => contain b (join i e)) q))).
Proof.
  intros Hnd. unfold receive_Data. set (id := ep_id (current_epoch c)). set (i := length (writes c)). fold (join i). set (c1 := alter_epoch id (join i) c).
  destruct (makes_barrier c1) as [b tell] eqn:Hmb. exists b.
  assert (Hb : b = true -> write_ordering c = WO_BIO_BARRIER).
  { unfold makes_barrier in Hmb. destruct (bool_decide (write_ordering c1 = WO_BIO_BARRIER)) eqn:Hwo; [by apply bool_decide_eq_true in Hwo|]. simpl in Hmb. intros ->. by simplify_eq. }
  assert (Hcont : forall q, (if b then alter_epoch id (set_contains true) (alter_epoch id (join i) q) else alter_epoch id (join i) q) = alter_epoch id (fun e => contain b (join i e)) q).
  { intros q. destruct b; [by apply alter_compose|done]. }
  destruct (if tell then previous_epoch c1 id else None) as [p|] eqn:Hp.
  - destruct tell; [|done]. rewrite Hp. destruct (previous_get c id p (join i) id Hnd ltac:(done) Hp) as [x Hx].
    exists (alter_epoch p set_issued c). split; [done|]. split; [right; eauto|]. simpl.
    unfold c1. rewrite (alter_comm p id set_issued (join i)) by done. rewrite Hcont. by destruct b.
  - exists c. split; [done|]. split; [by left|]. destruct tell; rewrite ?Hp; unfold c1; rewrite Hcont; by destruct b.
Qed.

Definition received (i : nat) (s : spec) : spec :=
  mk_spec (sp_closed s) (mk_batch (b_count (sp_open s) + 1) (b_writes (sp_open s) ++ [i])) (sp_completed s) (sp_flushed s).

Lemma owned_app c c' id l ws : writes c' = writes c ++ ws -> owned c id l -> owned c' id l.
Proof. intros Hw. apply owned_sub. intros j u Hj. exists u. rewrite Hw. split; [|done]. by apply lookup_app_l_Some. Qed.

Lemma spec_received o s i : all_durable o s -> spec_step o (Received i) s = Some (received i s).
Proof.
  intros HD. simpl. destruct (drains o) eqn:Hdr; [|done]. simpl. specialize (HD Hdr). rewrite (proj2 (forallb_forall _ _)); [done|].
  intros nb Hnb%list_elem_of_In. rewrite Forall_forall in HD. auto.
Qed.

Lemma join_core o q s K F C e b trim zeroout r a :
  core o q s K F C [e] -> (b = true -> plain o = false) -> all_durable o s -> a = active_ee_cnt q ->
  let i := length (writes q) in let e' := contain b (join i e) in
  core o (note (Received i) (set_receiver r (set_writes (writes q ++ [mk_write (ep_id e) Joined b false trim zeroout]) a (done_ee_cnt q) (alter_epoch (ep_id e) (fun e => contain b (join i e)) q))))
    (received i s) K F C [e'].
Proof.
  intros Hc Hb HD -> i e'. set (c' := note _ _).
  destruct (co_open _ _ _ _ _ _ _ Hc) as [[Ho _]|(x & Ho & Hop)]; [done|]. simplify_eq.
  apply (core_open_change o q _ s _ _ _ _ x e' [mk_write (ep_id x) Joined b false trim zeroout] Hc); try done.
  - by destruct b.
  - exact (alter_open _ _ _ _ _ _ _ (fun e => contain b (join i e)) Hc ltac:(by destruct b)).
  - change (spec_run o (log c')) with (spec_run o (log q) ≫= spec_step o (Received i)). rewrite (co_spec _ _ _ _ _ _ _ Hc). by apply spec_received.
  - assert (Hown : owned c' (ep_id x) (b_writes (sp_open s) ++ [i])).
    { apply Forall_app. split; [by eapply owned_app; [|apply Hop]|]. constructor; [|done]. exists (mk_write (ep_id x) Joined b false trim zeroout). split; [|done].
      simpl. by rewrite lookup_app_r, Nat.sub_diag by lia. }
    destruct Hop. assert (Hd : drains o = true -> b = false) by (destruct b; [|done]; unfold plain in Hb; intros Hdr; rewrite Hdr in Hb; by specialize (Hb eq_refl)).
    constructor; unfold e'; destruct b; simpl; auto; try lia; try (intros Hdr; by specialize (Hd Hdr)); try (by destruct (oldest_unconfirmed_peer_req x)).
    + intros j Hj. rewrite last_snoc. destruct (oldest_unconfirmed_peer_req x) as [z|] eqn:Hz; simplify_eq; [destruct (op_oldest j eq_refl) as [? _]; split; [lia|left; lia]|split; [lia|by right]].
    + intros j Hj. rewrite last_snoc. destruct (oldest_unconfirmed_peer_req x) as [z|] eqn:Hz; simplify_eq; [destruct (op_oldest j eq_refl) as [? _]; split; [lia|left; lia]|split; [lia|by right]].
  - by constructor.
  - intros Hp. destruct b; [rewrite Hb in Hp; done|by constructor].
  - unfold e'. destruct b; simpl; lia.
Qed.

Lemma join_receiver o q s c' e i b trim zeroout :
  joined_only q None -> all_durable o s -> open_ok o q e (sp_open s) -> i = length (writes q) ->
  writes c' = writes q ++ [mk_write (ep_id e) Joined b false trim zeroout] -> joined_only c' (Some i) /\ newest c' (received i s) i /\ all_durable o (received i s).
Proof.
  intros HJ HD Hop -> Hw. split_and!; [| |done].
  - intros j u Hj Hst. rewrite Hw in Hj. apply lookup_app_Some in Hj as [Hj|[Hle Hj]]; [by specialize (HJ j u Hj Hst)|].
    apply list_lookup_singleton_Some in Hj as [Hz _]. f_equal. lia.
  - exists (b_writes (sp_open s)), (mk_write (ep_id e) Joined b false trim zeroout). split_and!; [done| | |done].
    + eapply Forall_impl; [apply Hop|]. intros j (u & Hj & _). by eapply lookup_lt_Some.
    + rewrite Hw. by rewrite lookup_app_r, Nat.sub_diag by lia.
Qed.

Lemma data_step o c s trim zeroout : invariant o c s -> receiver c = RIdle -> exists s', invariant o (receive_Data trim zeroout c) s'.
Proof.
  intros (F & C & O & Hc & Hcl & Hr) HR. rewrite HR in Hc.
  destruct (receive_Data_parts trim zeroout c (co_nodup _ _ _ _ _ _ _ Hc)) as (b & q & Hb & Hq & Heq). rewrite Heq. clear Heq.
  assert (Hpl : b = true -> plain o = false) by (intros Hbt; apply not_true_is_false; intros Hp; by apply (plain_no_barrier _ _ _ _ _ _ _ Hc Hp), Hb).
  assert (Hqq : exists F' C' O', core o q s (calls c) F' C' O' /\ evolves (drains o) c s O q s O' /\ calls q = calls c /\ active_ee_cnt q = active_ee_cnt c /\ done_ee_cnt q = done_ee_cnt c).
  { destruct Hq as [->|(p & x & Hx & ->)].
    - exists F, C, O. split_and!; try done. constructor; try done. left. split_and!; try done. by apply Forall_Forall2_diag, Forall_true.
    - destruct (core_issued _ _ _ _ _ _ _ _ _ Hc Hx) as [H1 H2]. eexists _, _, _. split; [exact H1|]. by split. }
  destruct Hqq as (F' & C' & O' & Hcq & Hev & Hcalls & Hact & Hdn).
  apply (receiver_evolves _ _ _ _ _ _ _ Hev (co_some _ _ _ _ _ _ _ Hcq)) in Hr. unfold receiver_ok in Hr.
  rewrite (ev_receiver _ _ _ _ _ _ _ Hev), HR in Hr. destruct Hr as (HO & HJ & HD). destruct (idle_open _ _ _ _ _ _ _ Hcq HO) as (e & -> & Hop).
  rewrite <- (ev_writes _ _ _ _ _ _ _ Hev), <- (ev_current _ _ _ _ _ _ _ Hev), (current_open _ _ _ _ _ _ _ Hcq), <- Hdn.
  exists (received (length (writes q)) s), F', C', [contain b (join (length (writes q)) e)].
  split; [|split; [simpl; by rewrite Hcalls|]].
  - simpl receiver_call. simpl calls. rewrite Hcalls. by apply join_core.
  - unfold receiver_ok. simpl receiver. split; [done|]. by eapply join_receiver.
Qed.

(** ** A full activity log *)

Lemma flush_same ok c : let c' := flush_devices ok c in
  epochs c' = epochs c /\ writes c' = writes c /\ receiver c' = receiver c /\ calls c' = calls c /\ active_ee_cnt c' = active_ee_cnt c.
Proof. unfold flush_devices. destruct (_ <=? _), ok; done. Qed.

Lemma removelast_snoc {A} (l : list A) x : removelast (l ++ [x]) = l.
Proof. by rewrite removelast_app, app_nil_r. Qed.

Lemma drained_zero o c s K F C O : core o c s K F C O -> drained c -> active_ee_cnt c = 0.
Proof. intros Hc [?|Hd]; [done|]. by rewrite (co_connected _ _ _ _ _ _ _ Hc) in Hd. Qed.

Lemma core_receiver o c s K F C O r : core o c s K F C O -> core o (set_receiver r c) s K F C O.
Proof. intros Hc. by apply (core_fields _ c). Qed.

Lemma log_full_step o c s ok i :
  invariant o c s -> receiver c = RJoined i -> drained c -> steady o (log (flush_devices ok c)) ->
  exists s', invariant o (set_receiver (RFlushed i) (flush_devices ok c)) s'.
Proof.
  intros (F & C & O & Hc & Hcl & Hr) HR Hdr Hst. unfold receiver_ok in Hr. rewrite HR in Hc, Hr. destruct Hr as (HO & HJ & HN & HD).
  destruct (core_flush _ _ _ _ _ _ _ ok Hc Hst) as (s' & Hc' & Hg & Hcp & Hf). destruct (flush_same ok c) as (Hep & Hw & Hrec & Hcalls & Hact).
  exists s', F, C, O. split; [simpl; rewrite Hcalls; by apply core_receiver|]. split; [simpl; by rewrite Hcalls|].
  unfold receiver_ok. simpl receiver. split; [done|]. split; [by apply (joined_writes c)|].
  split; [unfold newest; simpl writes; by rewrite (gr_open _ _ Hg), Hw|]. split; [by eapply all_durable_grows|].
  destruct HN as (l & w & Hl & Hlt & Hi & Hstg). rewrite (gr_open _ _ Hg), Hl, removelast_snoc. apply (flushed_durable o s); [done..|].
  destruct (idle_open _ _ _ _ _ _ _ Hc HO) as (e & -> & Hop). pose proof (op_owned _ _ _ _ Hop) as Hown. rewrite Hl in Hown. apply Forall_app in Hown as [Hown _].
  eapply (quiet_owned _ _ _ _ _ _ _ (Some i)); [exact Hc|by eapply drained_zero|done|exact Hown|]. intros j [= <-] Hin. rewrite Forall_forall in Hlt. specialize (Hlt _ Hin). lia.
Qed.

Lemma confirmed_same_step o c s i : invariant o c s -> receiver c = RFlushed i -> invariant o (set_receiver (RConfirmed i) c) s.
Proof.
  intros (F & C & O & Hc & Hcl & Hr) HR. unfold receiver_ok in Hr. rewrite HR in Hc, Hr. exists F, C, O. split; [by apply core_receiver|]. by split.
Qed.

Lemma confirm_step o c s i : invariant o c s -> receiver c = RFlushed i -> exists s', invariant o (set_receiver (RConfirmed i) (drbd_send_confirm_stable i c)) s'.
Proof.
  intros Hinv HR. unfold drbd_send_confirm_stable. destruct (negb (connected c) || _) eqn:Hcase; [exists s; by apply confirmed_same_step|].
  destruct Hinv as (F & C & O & Hc & Hcl & Hr). unfold receiver_ok in Hr. rewrite HR in Hc, Hr. destruct Hr as (HO & HJ & HN & HA & HD).
  destruct (idle_open _ _ _ _ _ _ _ Hc HO) as (e & -> & Hop). rewrite (current_open _ _ _ _ _ _ _ Hc) in *. apply orb_false_iff in Hcase as [_ Hold%bool_decide_eq_false].
  destruct HN as (l & w & Hl & Hlt & Hi & Hstg). set (count := epoch_size e - confirmed e - 1).
  assert (Hcount : count = b_count (sp_open s) - 1) by (unfold count; rewrite (op_count _ _ _ _ Hop); done).
  assert (Hge : 2 <= b_count (sp_open s)).
  { destruct (oldest_unconfirmed_peer_req e) as [j|] eqn:Hj; [|by rewrite (op_some _ _ _ _ Hop Hj) in Hl; destruct l].
    destruct (op_oldest _ _ _ _ Hop j Hj) as [_ [?|Hlast]]; [done|]. rewrite Hl, last_snoc in Hlast. congruence. }
  set (e' := set_counts (epoch_size e) (ep_active e) (confirmed e + count) (Some i) e).
  exists (mk_spec (sp_closed s) (mk_batch 1 (b_writes (sp_open s))) (sp_completed s) (sp_flushed s)), F, C, [e']. split; [|split; [done|]].
  - simpl receiver_call. simpl calls. apply core_receiver. eapply (core_open_change _ c _ s _ _ _ _ e e' []); try done.
    + exact (alter_open _ _ _ _ _ _ _ (set_counts (epoch_size e) (ep_active e) (confirmed e + count) (Some i)) Hc eq_refl).
    + simpl. rewrite (co_spec _ _ _ _ _ _ _ Hc). simpl. rewrite HD, Hcount, Z.eqb_refl, (proj2 (Z.ltb_lt _ _)) by lia. done.
    + destruct Hop. constructor; simpl; auto; [lia|lia|done|]. intros j [= <-]. split; [lia|]. right. by rewrite Hl, last_snoc.
    + by rewrite app_nil_r.
    + simpl. lia.
  - unfold receiver_ok. simpl receiver. split_and!; try done. by exists l, w.
Qed.

Lemma activate_step o c s i : invariant o c s -> receiver c = RJoined i \/ receiver c = RConfirmed i -> exists s', invariant o (activate i c) s'.
Proof.
  intros (F & C & O & Hc & Hcl & Hr) HR.
  assert (Hr' : O <> [] /\ joined_only c (Some i) /\ newest c s i /\ all_durable o s /\ receiver_call (receiver c) = []).
  { unfold receiver_ok in Hr. destruct HR as [HR|HR]; rewrite HR in *; destruct_and?; auto. }
  destruct Hr' as (HO & HJ & (l & w & Hl & Hlt & Hi & Hstg) & HD & HK). rewrite HK in Hc. exists s, F, C, O. split; [|split; [done|]].
  - apply (core_stage _ c _ s s (calls c) [] F C O i w Active Hc Hi); try done; try apply Hc.
    + intros [?|?]; done.
    + unfold is_active. rewrite Hstg. simpl. lia.
    + intros id. unfold held. rewrite Hstg. simpl. lia.
  - unfold receiver_ok. simpl receiver. split_and!; try done. intros j u Hj Hst. simpl in Hj. destruct (decide (i = j)) as [->|Hne].
    + rewrite list_lookup_alter_eq, Hi in Hj. by simplify_eq/=.
    + rewrite list_lookup_alter_ne in Hj by done. specialize (HJ j u Hj Hst). congruence.
Qed.
End receiver_steps.
