(* ===== verification/EpochBarrier.v ===== *)
(** * Write epochs: [receive_Barrier] keeps the invariant *)
From S2P Require Import Prelude Epoch EpochSpec EpochInv EpochStep EpochUpdate EpochCall EpochProps EpochReceiver.

Section barrier_steps.
Context `{WriteOrdering}.

Lemma core_add o c s k K F C O : core o c s K F C O -> (forall x, puts x k = 0) -> k_window k = false -> core o c s (k :: K) F C O.
Proof.
  intros Hc Hp Hk. constructor; try solve [apply Hc].
  - intros x. rewrite (co_active _ _ _ _ _ _ _ Hc x). unfold references. simpl. by rewrite Hp.
  - simpl. unfold window at 1. rewrite Hk, (co_windows _ _ _ _ _ _ _ Hc). done.
  - intros k0 [->|Hk0]%elem_of_cons Hw; [congruence|by apply Hc].
Qed.

Lemma barrier_step o c s nr :
  invariant o c s -> receiver c = RIdle -> epoch_size (current_epoch c) <> 0 -> invariant o (receive_Barrier nr c) s.
Proof.
  intros (F & C & O & Hc & Hcl & Hr) HR Hsz. unfold receiver_ok in Hr. rewrite HR in Hc, Hr. destruct Hr as (HO & HJ & HD).
  destruct (idle_open _ _ _ _ _ _ _ Hc HO) as (e & -> & Hop). assert (Hcur := current_open _ _ _ _ _ _ _ Hc).
  assert (Hep : epochs (receive_Barrier nr c) = F ++ C ++ [set_nr nr e]).
  { unfold receive_Barrier. rewrite Hcur. exact (alter_open _ _ _ _ _ _ _ (set_nr nr) Hc eq_refl). }
  assert (Hcur' : current_epoch (receive_Barrier nr c) = set_nr nr e) by (unfold current_epoch; by rewrite Hep, app_assoc, last_snoc).
  exists F, C, [set_nr nr e]. split; [|split; [done|]].
  - simpl. apply core_add; [|intros x; unfold puts; simpl; by rewrite andb_false_r|done].
    eapply (core_open_change _ c _ s s _ _ _ e (set_nr nr e) []); try done; [apply Hc|by destruct Hop|by rewrite app_nil_r|simpl; lia].
  - unfold receiver_ok, call_at. rewrite Hcur'. simpl receiver. cbn [k_window k_id call_of]. rewrite Hcur in *. split_and!; done.
Qed.

(** The call that finished the current epoch recycles it. *)
Lemma recycle_receiver o c s k K F C O r :
  core o c s (k :: K) F C O -> k_window k = true -> call_at k c -> length (epochs c) = 1%nat -> joined_only c None -> Forall (call_ok o) K -> calls c = K ->
  r = RIdle ->
  exists c', drbd_may_finish_epoch k c = (c', Returns FE_RECYCLED None) /\ invariant o (set_receiver r c') s.
Proof.
  intros Hc Hk (Hid & _ & Hth & Hrv) Hlen HJ Hok Hcalls ->. unfold drbd_may_finish_epoch. rewrite Hk, Hrv.
  destruct (remove_core _ _ _ _ _ _ _ _ Hc Hk) as [(e & Hr & -> & -> & -> & Hc1 & Hev)|(c1 & n & _ & _ & _ & _ & _ & Hgt & _)]; [|lia].
  rewrite Hr. eexists; split; [done|]. exists [], [], [recycled e]. split; [|split; [simpl; by rewrite Hcalls|]].
  - simpl. apply core_receiver. rewrite Hcalls. apply core_next in Hc1. by rewrite Hth in Hc1.
  - unfold receiver_ok. simpl receiver. split_and!; [done|done|]. intros _. pose proof (co_closed _ _ _ _ _ _ _ Hc1) as Hcl. by apply Forall2_nil_inv_l in Hcl as ->.
Qed.

Lemma got_loop fuel id rv k c e : get_epoch c id = Some e -> k_cleanup k = false ->
  finish_loop (S fuel) id EV_GOT_BARRIER_NR rv k c =
  finish_loop (S fuel) id EV_BECAME_LAST rv k (note (Barrier (barrier_nr e)) (alter_epoch id (fun _ => apply_event (write_ordering c) (is_current c id) EV_GOT_BARRIER_NR e) c)).
Proof.
  intros Hget Hcl. destruct (find_epoch_some _ _ _ Hget) as [_ Hid]. set (e1 := apply_event _ _ _ e). set (c1 := note _ _).
  assert (Hid1 : ep_id e1 = id) by done.
  assert (Hget1 : get_epoch c1 id = Some e1).
  { change (get_epoch (alter_epoch id (fun _ => e1) c) id = Some e1). rewrite get_alter, Hget by done. simpl. unfold replace. by rewrite Hid, Hid1, Nat.eqb_refl. }
  assert (Hold : is_oldest c1 id = is_oldest c id) by exact (oldest_alter id e1 c id Hid1).
  assert (Hal : forall x, alter_epoch id (fun _ => x) c1 = note (Barrier (barrier_nr e)) (alter_epoch id (fun _ => x) c)).
  { intros x. pose proof (alter_alter id x e1 c Hid1) as Ha. unfold c1. unfold alter_epoch, set_epochs, note in *. simpl in *. by injection Ha as ->. }
  assert (Hchk : forall wo cur old, check_epoch wo cur old (k_cleanup k) EV_GOT_BARRIER_NR e = check_epoch wo cur old (k_cleanup k) EV_BECAME_LAST (apply_event wo cur EV_GOT_BARRIER_NR e)) by done.
  simpl. rewrite Hget, Hget1, Hold, Hchk. change (write_ordering c1) with (write_ordering c). fold e1.
  assert (Hck : check_epoch (write_ordering c) (is_current c1 id) (is_oldest c id) (k_cleanup k) EV_BECAME_LAST e1 = check_epoch (write_ordering c) (is_current c id) (is_oldest c id) (k_cleanup k) EV_BECAME_LAST e1) by done.
  rewrite Hck. destruct (check_epoch _ _ _ _ _ _) as [[e' fin] fl]. rewrite !Hal, Hcl. done.
Qed.

(** A call that finishes the current epoch does so as the only one. *)
Lemma window_single o c s k K F C O :
  core o c s (k :: K) F C O -> k_window k = true -> k_id k = ep_id (current_epoch c) -> length (epochs c) = 1%nat /\ sp_closed s = [].
Proof.
  intros Hc Hk Hid. destruct (co_window _ _ _ _ _ _ _ Hc k ltac:(set_solver) Hk) as (f & -> & Hf). assert (Hep := co_epochs _ _ _ _ _ _ _ Hc). simpl in Hep.
  pose proof (current_head _ _ _ Hep (co_nodup _ _ _ _ _ _ _ Hc)) as Hh. rewrite <- Hf, Hid in Hh. unfold is_current, current_epoch in Hh.
  destruct (last (epochs c)) as [x|] eqn:Hl; [|apply last_None in Hl; by rewrite Hep in Hl]. simpl in Hh. rewrite Nat.eqb_refl in Hh. symmetry in Hh.
  apply bool_decide_eq_true, app_nil in Hh as [-> ->]. rewrite Hep. split; [done|]. by apply Forall2_nil_inv_l with (1 := co_closed _ _ _ _ _ _ _ Hc).
Qed.

Lemma get_current o c s K F C O : core o c s K F C O -> get_epoch c (ep_id (current_epoch c)) = Some (current_epoch c).
Proof. intros Hc. apply find_epoch; [apply Hc|apply current_in, Hc]. Qed.

Lemma ordering_drains o c s K F C O : core o c s K F C O -> drains o = true -> write_ordering c = WO_DRAIN_IO \/ write_ordering c = WO_BDEV_FLUSH.
Proof.
  intros Hc Hdr. unfold drains in Hdr. rewrite orb_true_iff, !bool_decide_eq_true in Hdr. destruct Hdr as [Ho|Ho]; rewrite (co_ordering _ _ _ _ _ _ _ Hc _ Ho); auto.
Qed.

Lemma numbered_still o c s F C O :
  core o c s (calls c) F C O -> Forall (call_ok o) (calls c) -> joined_only c None -> unused s O -> undrained o c O ->
  invariant o (barrier_numbered FE_STILL_LIVE c) s.
Proof.
  intros Hc Hok HJ HU HD.
  assert (Halloc : write_ordering c = WO_BIO_BARRIER \/ write_ordering c = WO_NONE -> invariant o (set_receiver RAlloc c) s).
  { intros Hwo. exists F, C, O. split; [by apply core_receiver|]. split; [done|]. unfold receiver_ok. simpl receiver. split_and!; [done..|].
    intros Hdr. destruct (ordering_drains _ _ _ _ _ _ _ Hc Hdr), Hwo; congruence. }
  assert (Hdrain : invariant o (set_receiver RDrain (alter_epoch (ep_id (current_epoch c)) set_issued c)) s).
  { destruct (core_issued _ _ _ _ _ _ _ _ _ Hc (get_current _ _ _ _ _ _ _ Hc)) as [Hc1 Hev]. eexists _, _, _. split; [apply core_receiver, Hc1|]. split; [done|].
    unfold receiver_ok. simpl receiver. split; [done|]. split; [by eapply evolves_unused|]. by eapply (evolves_undrained _ _ _ _ _ _ _ Hev). }
  unfold barrier_numbered. destruct (write_ordering c); auto.
Qed.

Lemma number_out o d c1 s1 k K O1 id c' out memory :
  round_ok o d c1 s1 k K O1 id FE_STILL_LIVE c' out -> k_then k = [] -> calls c1 = K -> Forall (call_ok o) K ->
  joined_only c1 None -> unused s1 O1 -> id = ep_id (current_epoch c1) ->
  NoMemory ∉ log (match out with Goes k' => c' | Returns _ flush => fst (schedule_flush memory flush [] false c') end) ->
  exists s' F' C' O', evolves d c1 s1 O1 c' s' O' /\
  match out with
  | Goes k' => call_at k' c' /\ k_window k' = true /\ core o c' s' (k' :: calls c') F' C' O' /\ length (epochs c') = 1%nat /\ all_durable o s'
  | Returns rv flush => rv = FE_STILL_LIVE /\ exists c2, schedule_flush memory flush [] false c' = (c2, None) /\ core o c2 s' (calls c2) F' C' O' /\
      calls c2 = K /\ writes c2 = writes c' /\ epochs c2 = epochs c'
  end /\ Forall (call_ok o) (calls c') /\ joined_only c' None /\ unused s' O'.
Proof.
  intros (s' & F' & C' & O' & Hev & Hcalls & Hout) Hth HK Hok HJ HU Hid Hmem. exists s', F', C', O'. split; [done|].
  split; [|split; [by rewrite Hcalls, HK|split; [by eapply joined_writes; [apply Hev|]|by eapply evolves_unused]]].
  destruct out as [k'|rv [x|]].
  - destruct Hout as [-> Hc']. rewrite <- HK, <- Hcalls in Hc'. pose proof (ev_current _ _ _ _ _ _ _ Hev) as Hcu.
    destruct (window_single _ _ _ _ _ _ _ _ Hc' eq_refl) as [Hlen Hcl]; [simpl; congruence|]. split; [split_and!; simpl; [congruence|done..]|].
    split_and!; [done|done|done|]. intros _. by rewrite Hcl.
  - destruct Hout as [-> Hc']. split; [done|]. destruct memory; [|exfalso; apply Hmem; simpl; set_solver]. eexists; split; [done|].
    rewrite <- HK, <- Hcalls in Hc'. apply core_next in Hc'. rewrite Hth in Hc'. split_and!; try done. simpl. congruence.
  - destruct Hout as [-> Hc']. split; [done|]. eexists; split; [done|].
    rewrite <- HK, <- Hcalls in Hc'. apply core_next in Hc'. rewrite Hth in Hc'. split_and!; try done. congruence.
Qed.

Lemma call_puts k c x : call_at k c -> k_ev k <> EV_PUT -> puts x k = 0.
Proof. intros (_ & _ & Hth & _) Hev. unfold puts. rewrite Hth, bool_decide_eq_false_2, andb_false_r by done. done. Qed.

(** The log of the receiver's step has that of its call. *)
Lemma numbered_log rv c : log (barrier_numbered rv c) = log c.
Proof. unfold barrier_numbered. by destruct (write_ordering c), rv. Qed.

Lemma number_step o c s k memory :
  invariant o c s -> receiver c = RNumber k -> clean o (log (advance_receiver memory k RNumber barrier_numbered c)) ->
  exists s', invariant o (advance_receiver memory k RNumber barrier_numbered c) s'.
Proof.
  intros (F & C & O & Hc & Hcl & Hr) HR Hclean. unfold receiver_ok in Hr. rewrite HR in Hc, Hr. simpl in Hc. destruct Hr as (HJ & HD & Hat & Hk).
  apply clean_memory in Hclean. destruct (k_window k) eqn:Hwin.
  - destruct (recycle_receiver _ _ _ _ _ _ _ _ RIdle Hc Hwin Hat Hk HJ Hcl eq_refl eq_refl) as (c1 & Hrun & Hinv).
    exists s. unfold advance_receiver. rewrite Hrun. simpl. unfold barrier_numbered. by destruct (write_ordering c1).
  - destruct Hk as (Hev & HO & Hsz). destruct (idle_open _ _ _ _ _ _ _ Hc HO) as (e & -> & Hop). assert (Hcur := current_open _ _ _ _ _ _ _ Hc).
    pose proof Hat as (Hid & Hcln & Hth & Hrv). rewrite Hcur in Hid, Hsz. assert (Hget := get_open _ _ _ _ _ _ _ Hc).
    pose proof (core_close _ _ _ _ _ _ _ (is_current c (ep_id e)) Hc Hsz) as Hc1. cbv zeta in Hc1.
    set (e1 := apply_event (write_ordering c) (is_current c (ep_id e)) EV_GOT_BARRIER_NR e) in *.
    set (c1 := note (Barrier (barrier_nr e)) (alter_epoch (ep_id e) (fun _ => e1) c)) in *. set (s1 := mk_spec _ _ _ _) in *.
    assert (Hrun : drbd_may_finish_epoch k c = finish_loop (S (length (epochs c))) (ep_id e) EV_BECAME_LAST FE_STILL_LIVE k c1).
    { unfold drbd_may_finish_epoch. rewrite Hwin, Hev, Hrv, Hid. by apply got_loop. }
    assert (Hcur1 : current_epoch c1 = e1).
    { unfold current_epoch. by rewrite (co_epochs _ _ _ _ _ _ _ Hc1), app_nil_r, app_assoc, last_snoc. }
    assert (Hget1 : get_epoch c1 (ep_id e) = Some e1) by (pose proof (get_current _ _ _ _ _ _ _ Hc1) as Hg; rewrite Hcur1 in Hg; exact Hg).
    assert (Hc2 : core o c1 s1 (starting (ep_id e) EV_BECAME_LAST k :: calls c) F (C ++ [e1]) []).
    { eapply core_swap; [exact Hc1| |done|done]. intros x. rewrite puts_starting, Hth, (call_puts k c x Hat), andb_false_r by (by rewrite Hev). done. }
    pose proof (loop_round _ (drains o) _ _ _ _ _ _ _ _ _ FE_STILL_LIVE (length (epochs c)) _ Hc2 Hget1 Hcln ltac:(done) ltac:(intros; discriminate) ltac:(intros; discriminate)) as Hround.
    unfold advance_receiver in *. rewrite Hrun in *. destruct (finish_loop _ _ _ _ _ c1) as [c' out].
    destruct (number_out _ _ _ _ _ _ _ _ _ _ memory Hround Hth eq_refl Hcl HJ) as (s' & F' & C' & O' & Hevo & Hout & Hok & HJ' & HU'); [by intros x|by rewrite Hcur1| |].
    { destruct out as [k'|rv fl]; [done|]. destruct (schedule_flush _ _ _ _ c') as [c2 [k2|]]; simpl in *; rewrite numbered_log in Hclean; done. }
    exists s'. destruct out as [k'|rv fl].
    + destruct Hout as (Hat' & Hw' & Hc' & Hlen & HD'). exists F', C', O'. split; [by apply core_receiver|]. split; [done|].
      unfold receiver_ok. simpl receiver. do 3 (split; [done|]). by rewrite Hw'.
    + destruct Hout as (-> & c2 & Hsch & Hc2' & Hcalls & Hw2 & Hep2). rewrite Hsch. eapply numbered_still; [exact Hc2'|by rewrite Hcalls|by apply (joined_writes c')|done|].
      assert (HUD : undrained o c' O').
      { eapply evolves_undrained; [exact Hevo|]. intros Hdr. split; [done|]. rewrite Hcur1. exact (op_done _ _ _ _ Hop Hdr). }
      unfold undrained, current_epoch in *. by rewrite Hep2.
Qed.

Lemma drained_step o c s ok :
  invariant o c s -> receiver c = RDrain -> drained c -> steady o (log (flush_devices ok c)) ->
  exists s', invariant o (let '(c, k) := flush_after_epoch ok c in set_receiver (RFinish k) c) s'.
Proof.
  intros (F & C & O & Hc & Hcl & Hr) HR Hdr Hst. unfold receiver_ok in Hr. rewrite HR in Hc, Hr. destruct Hr as (HJ & HU & HD).
  destruct (core_flush _ _ _ _ _ _ _ ok Hc Hst) as (s' & Hc' & Hg & Hcp & Hf). destruct (flush_same ok c) as (Hep & Hw & Hrec & Hcalls & Hact).
  assert (Hcur : current_epoch (flush_devices ok c) = current_epoch c) by (unfold current_epoch; by rewrite Hep).
  exists s', F, C, O. simpl. rewrite Hcalls. split; [|split; [done|]].
  - apply core_receiver, core_add; [done|intros x; unfold puts; simpl; by rewrite andb_false_r|done].
  - unfold receiver_ok. simpl receiver. split; [by apply (joined_writes c)|]. split; [exact (quiet_closed _ _ _ _ _ _ _ _ Hc (drained_zero _ _ _ _ _ _ _ Hc Hdr) HJ Hg Hcp Hf)|].
    split; [split_and!; try done; simpl; by rewrite <- Hcur|]. simpl k_window. split; [done|]. split.
    + intros e He. rewrite (gr_open _ _ Hg). by apply HU.
    + intros Hd. destruct (HD Hd) as [? ?]. split; [done|]. unfold current_epoch in *. simpl. by rewrite Hep.
Qed.

Lemma finish_step o c s k memory :
  invariant o c s -> receiver c = RFinish k -> clean o (log (advance_receiver memory k RFinish after_flush c)) ->
  exists s', invariant o (advance_receiver memory k RFinish after_flush c) s'.
Proof.
  intros (F & C & O & Hc & Hcl & Hr) HR Hclean. unfold receiver_ok in Hr. rewrite HR in Hc, Hr. simpl in Hc. destruct Hr as (HJ & HD & Hat & Hk).
  apply clean_memory in Hclean. destruct (k_window k) eqn:Hwin.
  - destruct (recycle_receiver _ _ _ _ _ _ _ _ RIdle Hc Hwin Hat Hk HJ Hcl eq_refl eq_refl) as (c1 & Hrun & Hinv).
    exists s. unfold advance_receiver. rewrite Hrun. done.
  - destruct Hk as (Hev & HU & HUD). pose proof Hat as (Hid & Hcln & Hth & Hrv). assert (Hget := get_current _ _ _ _ _ _ _ Hc).
    assert (Hc2 : core o c s (starting (ep_id (current_epoch c)) EV_BARRIER_DONE k :: calls c) F C O).
    { eapply core_swap; [exact Hc| |done|done]. intros x. rewrite puts_starting, Hth, (call_puts k c x Hat), andb_false_r by (by rewrite Hev). done. }
    pose proof (loop_round _ false _ _ _ _ _ _ _ _ _ FE_STILL_LIVE (length (epochs c)) _ Hc2 Hget Hcln ltac:(done)
      ltac:(intros Hdr _; destruct (HUD Hdr); done) ltac:(intros; discriminate)) as Hround.
    assert (Hrun : drbd_may_finish_epoch k c = finish_loop (S (length (epochs c))) (ep_id (current_epoch c)) EV_BARRIER_DONE FE_STILL_LIVE k c).
    { unfold drbd_may_finish_epoch. by rewrite Hwin, Hev, Hrv, Hid. }
    unfold advance_receiver in *. rewrite Hrun in *. destruct (finish_loop _ _ _ _ _ c) as [c' out].
    destruct (number_out _ _ _ _ _ _ _ _ _ _ memory Hround Hth eq_refl Hcl HJ HU eq_refl) as (s' & F' & C' & O' & Hevo & Hout & Hok & HJ' & HU').
    { destruct out as [k'|rv fl]; [done|]. destruct (schedule_flush _ _ _ _ c') as [c2 [k2|]]; done. }
    exists s'. destruct out as [k'|rv fl].
    + destruct Hout as (Hat' & Hw' & Hc' & Hlen & HD'). exists F', C', O'. split; [by apply core_receiver|]. split; [done|].
      unfold receiver_ok. simpl receiver. do 3 (split; [done|]). by rewrite Hw'.
    + destruct Hout as (-> & c2 & Hsch & Hc2' & Hcalls & Hw2 & Hep2). rewrite Hsch. exists F', C', O'. unfold after_flush. rewrite bool_decide_eq_false_2 by done.
      split; [by apply core_receiver|]. split; [simpl; by rewrite Hcalls|]. unfold receiver_ok. simpl receiver.
      split; [by apply (joined_writes c')|]. split; [done|]. by eapply evolves_durable.
Qed.

Lemma current_closed_size o c s K F C : core o c s K F C [] -> epoch_size (current_epoch c) <> 0.
Proof.
  intros Hc. pose proof (current_in c (co_some _ _ _ _ _ _ _ Hc)) as Hin. rewrite (co_epochs _ _ _ _ _ _ _ Hc), app_nil_r in Hin.
  apply elem_of_app in Hin as [Hin|Hin].
  - destruct (co_fin _ _ _ _ _ _ _ Hc) as [->|(f & -> & Hf)]; [by apply not_elem_of_nil in Hin|]. apply list_elem_of_singleton in Hin as ->. apply Hf.
  - apply list_elem_of_lookup_1 in Hin as [j Hj]. destruct (Forall2_lookup_l _ _ _ _ _ (co_closed _ _ _ _ _ _ _ Hc) Hj) as (nb & _ & Hok). apply Hok.
Qed.

Lemma alloc_step o c s memory : invariant o c s -> receiver c = RAlloc -> clean o (log (barrier_alloc memory c)) -> exists s', invariant o (barrier_alloc memory c) s'.
Proof.
  intros (F & C & O & Hc & Hcl & Hr) HR Hclean. unfold receiver_ok in Hr. rewrite HR in Hc, Hr. destruct Hr as (HJ & HU & HD). apply clean_memory in Hclean.
  unfold barrier_alloc in *. destruct memory; [|exfalso; apply Hclean; simpl; set_solver]. exists s.
  destruct (co_open _ _ _ _ _ _ _ Hc) as [[-> _]|(e & -> & Hop)].
  - rewrite (proj2 (Z.eqb_neq _ _)) by (by eapply current_closed_size). exists F, C, [new_epoch (next_id c)].
    split; [apply core_receiver; by apply core_push|]. split; [done|]. done.
  - rewrite (current_open _ _ _ _ _ _ _ Hc). destruct (HU e eq_refl) as [-> _]. exists F, C, [e]. split; [by apply core_receiver|]. by split.
Qed.
End barrier_steps.
