(* ===== verification/EpochClaims.v ===== *)
(** * Write epochs: the connection implements its specification *)
From S2P Require Import Prelude Epoch EpochSpec EpochInv EpochStep EpochUpdate EpochCall EpochProps EpochReceiver EpochBarrier.

Section claims.
Context `{WriteOrdering}.

(** ** Writes *)

Lemma receiver_grows o c c' s s' O :
  receiver_ok o c s O -> receiver c' = receiver c -> epochs c' = epochs c -> grows s s' ->
  (forall y, joined_only c y -> joined_only c' y) -> (forall j, newest c s j -> newest c' s' j) -> receiver_ok o c' s' O.
Proof.
  intros Hr HR Hep Hg HJ HN. pose proof Hg as [Hcl Hop Hcp Hf].
  pose proof (all_durable_grows o _ _ Hg) as HD. assert (HU : unused s O -> unused s' O) by (unfold unused; by rewrite Hop).
  assert (HP : forall l, durable o s l = true -> durable o s' l = true) by (intros l; by apply durable_mono).
  assert (Hcur : current_epoch c' = current_epoch c) by (unfold current_epoch; by rewrite Hep).
  unfold receiver_ok, call_at, undrained in *. rewrite HR, Hep, Hop, Hcur.
  destruct (receiver c) as [|j|j|j|k| |k| | | |]; try solve [destruct_and?; split_and?; auto].
  destruct Hr as (? & ? & ? & Hk). do 3 (split; [auto|]). destruct (k_window k); [done|]. destruct_and!. auto.
Qed.

(** A write that is not at hand goes on. *)
Lemma receiver_stage o c c' s s' O i w x :
  receiver_ok o c s O -> receiver c' = receiver c -> epochs c' = epochs c -> writes c !! i = Some w -> w_stage w <> Joined -> x <> Joined ->
  writes c' = alter (set_stage x) i (writes c) -> grows s s' -> receiver_ok o c' s' O.
Proof.
  intros Hr HR Hep Hi Hst Hx Hw Hg. apply (receiver_grows o c c' s s' O Hr HR Hep Hg).
  - intros y HJ j u Hj Hs. rewrite Hw in Hj. destruct (decide (i = j)) as [->|Hne]; [rewrite list_lookup_alter_eq, Hi in Hj; by simplify_eq/=|].
    rewrite list_lookup_alter_ne in Hj by done. by eapply HJ.
  - intros j (l & u & Hl & Hlt & Hj & Hs). exists l, u. rewrite (gr_open _ _ Hg), Hw. split_and!; try done. rewrite list_lookup_alter_ne; [done|]. intros ->. congruence.
Qed.

Lemma complete_step o c s bdev error i w :
  invariant o c s -> writes c !! i = Some w -> w_stage w = Active -> clean o (log (drbd_endio_write_sec_final bdev error i c)) ->
  exists s', invariant o (drbd_endio_write_sec_final bdev error i c) s'.
Proof.
  intros (F & C & O & Hc & Hcl & Hr) Hi Hst Hclean. unfold drbd_endio_write_sec_final in *. rewrite Hi in *.
  destruct (is_failed_barrier w error); [destruct Hclean as (_ & _ & _ & Hf & _); exfalso; apply Hf; simpl; set_solver|].
  set (s' := mk_spec (sp_closed s) (sp_open s) (i :: sp_completed s) (sp_flushed s)).
  assert (Hg : grows s s') by (constructor; try done; simpl; set_solver). exists s', F, C, O. split; [|split; [done|]].
  - apply (core_stage _ c _ s s' _ [] F C O i w Done Hc Hi); try done; simpl.
    + by rewrite (co_spec _ _ _ _ _ _ _ Hc).
    + intros j Hj. apply elem_of_cons. right. by apply Hc.
    + intros _. by left.
    + unfold is_active. rewrite Hst. simpl. lia.
    + intros id. unfold held. rewrite Hst. simpl. lia.
  - eapply (receiver_stage o c _ s s' O i w Done Hr); try done. congruence.
Qed.

Lemma end_block_call o c s K F C O i w x k :
  core o c s K F C O -> writes c !! i = Some w -> w_stage w = Done -> x = previous_epoch (alter_write i (set_stage Put) c) (w_epoch w) ->
  k = match (if EE_IS_BARRIER w then x else None) with
      | Some p => call_of p EV_BARRIER_DONE false [(w_epoch w, EV_PUT, false)] true
      | None => call_of (w_epoch w) EV_PUT false [] true end ->
  call_ok o k /\ k_window k = false /\ forall id, puts id k = held id w.
Proof.
  intros Hc Hi Hst Hx ->. assert (Hheld : forall id, held id w = b2z (Nat.eqb (w_epoch w) id)).
  { intros id. unfold held. rewrite Hst. simpl. by rewrite andb_true_r. }
  destruct (if EE_IS_BARRIER w then x else None) as [p|] eqn:Hb.
  - split; [|split; [done|]].
    + constructor; simpl; [done|by right|by constructor; [split; [|left]|]|]. intros Hp. destruct (co_plain _ _ _ _ _ _ _ Hc Hp) as [_ Hw]. rewrite Forall_forall in Hw. rewrite (Hw w) in Hb; [done|]. by eapply list_elem_of_lookup_2.
    + intros id. rewrite Hheld. unfold puts, put_later. simpl. rewrite !andb_false_r, andb_true_r. simpl. lia.
  - split; [constructor; simpl; auto|]. split; [done|]. intros id. rewrite Hheld. unfold puts. simpl. rewrite andb_true_r. lia.
Qed.

Lemma end_block_step o c s cancel i w :
  invariant o c s -> writes c !! i = Some w -> w_stage w = Done -> clean o (log (e_end_block cancel i c)) -> exists s', invariant o (e_end_block cancel i c) s'.
Proof.
  intros (F & C & O & Hc & Hcl & Hr) Hi Hst Hclean. unfold e_end_block in *. rewrite Hi in *.
  destruct cancel; [destruct Hclean as [Hf _]; exfalso; apply Hf; simpl; set_solver|].
  set (k := match _ with Some p => _ | None => _ end). destruct (end_block_call _ _ _ _ _ _ _ _ _ _ k Hc Hi Hst eq_refl eq_refl) as (Hk & Hwin & Hputs).
  set (c1 := alter_write i (set_stage Put) c). exists s. apply (invariant_calls o c1 _ _ [k] F C O); try done.
  - simpl. apply (core_stage _ c c1 s s _ [k] F C O i w Put Hc Hi); try done; simpl.
    + apply Hc.
    + apply Hc.
    + intros _. eapply Hc; eauto.
    + unfold is_active. rewrite Hst. simpl. lia.
    + intros id. rewrite Hputs. unfold held at 1. simpl. rewrite andb_false_r. simpl. lia.
    + by constructor.
  - by constructor.
  - eapply (receiver_stage o c _ s s O i w Put Hr); try done. congruence.
Qed.

(** ** Scheduled flushes and the ordering *)

Lemma core_work o c s K F C O id l1 l2 k :
  core o c s K F C O -> flush_works c = l1 ++ id :: l2 -> (forall x, puts x k = flushes x id) -> k_window k = false ->
  core o (set_flush_works (l1 ++ l2) c) s (k :: K) F C O.
Proof.
  intros Hc Hl Hp Hk. constructor; try solve [apply Hc].
  - eapply Forall2_impl; [apply Hc|]. intros y z. by apply closed_ok_writes.
  - destruct (co_open _ _ _ _ _ _ _ Hc) as [?|(y & -> & Ho)]; [by left|right]. exists y. split; [done|]. by apply (open_ok_writes _ c).
  - intros x. pose proof (co_active _ _ _ _ _ _ _ Hc x) as Ha. unfold references in *. rewrite Hl, total_app in Ha. simpl in *. rewrite total_app, Hp.
    change (active_of (set_flush_works (l1 ++ l2) c) x) with (active_of c x). lia.
  - simpl. unfold window at 1. rewrite Hk, (co_windows _ _ _ _ _ _ _ Hc). done.
  - intros k0 [->|Hk0]%elem_of_cons Hw; [congruence|by apply Hc].
  - intros Hpl. destruct (co_plain _ _ _ _ _ _ _ Hc Hpl) as [Hfw _]. rewrite Hl in Hfw. by destruct l1.
Qed.

Lemma work_alive o c s K F C O id l1 l2 : core o c s K F C O -> flush_works c = l1 ++ id :: l2 -> plain o = false /\ exists e, get_epoch c id = Some e.
Proof.
  intros Hc Hl. split.
  - apply not_true_is_false. intros Hp. destruct (co_plain _ _ _ _ _ _ _ Hc Hp) as [Hfw _]. rewrite Hl in Hfw. by destruct l1.
  - pose proof (co_active _ _ _ _ _ _ _ Hc id) as Ha. unfold references in Ha.
    pose proof (total_nonneg (held id) (writes c) ltac:(intros; apply b2z_nonneg)). pose proof (total_nonneg (puts id) K (puts_nonneg id)).
    pose proof (total_member (flushes id) (flush_works c) id ltac:(intros; apply b2z_nonneg) ltac:(rewrite Hl; set_solver)) as Hm.
    unfold flushes at 1 in Hm. rewrite Nat.eqb_refl in Hm. simpl in Hm. unfold active_of in Ha. destruct (get_epoch c id); [eauto|lia].
Qed.

Lemma flush_work_step o c s ok id l1 l2 :
  invariant o c s -> flush_works c = l1 ++ id :: l2 -> steady o (log (w_flush ok id (set_flush_works (l1 ++ l2) c))) ->
  exists s', invariant o (w_flush ok id (set_flush_works (l1 ++ l2) c)) s'.
Proof.
  intros (F & C & O & Hc & Hcl & Hr) Hl Hst. destruct (work_alive _ _ _ _ _ _ _ _ _ _ Hc Hl) as [Hp [e Hget]].
  set (c0 := set_flush_works (l1 ++ l2) c) in *. assert (Hget0 : get_epoch c0 id = Some e) by done. unfold w_flush in *. rewrite Hget0 in *.
  assert (Hcn : connected c0 = true) by apply Hc. rewrite Hcn in *. simpl negb in *.
  assert (Hr0 : receiver_ok o c0 s O) by (by apply (receiver_fields _ c)).
  destruct (DE_BARRIER_IN_NEXT_EPOCH_ISSUED e).
  - set (k := call_of id EV_PUT false [] false). exists s. apply (invariant_calls o c0 _ _ [k] F C O); try done.
    + apply (core_work _ c _ _ _ _ _ id); try done. intros x. unfold puts, flushes. simpl. rewrite andb_true_r. lia.
    + constructor; [|done]. constructor; simpl; auto.
  - set (k := call_of id EV_BARRIER_DONE false [(id, EV_PUT, false)] false). set (c1 := alter_epoch id set_issued c0) in *.
    assert (Hc0 : core o c0 s (k :: receiver_call (receiver c) ++ calls c) F C O).
    { apply (core_work _ c _ _ _ _ _ id); try done. intros x. unfold puts, flushes, put_later. simpl. rewrite andb_false_r, andb_true_r. simpl. lia. }
    destruct (core_issued _ _ _ _ _ _ _ _ _ Hc0 Hget0) as [Hc1 Hev]. fold c1 in Hc1, Hev.
    destruct (core_flush _ _ _ _ _ _ _ ok Hc1 Hst) as (s' & Hc2 & Hg & _). destruct (flush_same ok c1) as (Hep & Hw & Hrec & Hcalls & _).
    exists s'. eapply (invariant_calls o (flush_devices ok c1) _ _ [k]); try done; [rewrite Hcalls, Hrec; exact Hc2| |by rewrite Hcalls|].
    + constructor; [|done]. constructor; simpl; [done|by right|by constructor; [split; [|left]|]|]. by rewrite Hp.
    + pose proof (receiver_evolves _ _ _ _ _ _ _ Hev (co_some _ _ _ _ _ _ _ Hc1) Hr0) as Hr1.
      apply (receiver_grows o c1 _ s s'); try done; [by intros y; apply joined_writes|]. intros j. unfold newest. by rewrite (gr_open _ _ Hg), Hw.
Qed.

Lemma ordering_step o c s wo : invariant o c s -> steady o (log (set_ordering wo c)) -> invariant o (set_ordering wo c) s.
Proof.
  intros (F & C & O & Hc & Hcl & Hr) Hst. exists F, C, O. split; [|split; [done|by apply (receiver_fields _ c)]].
  eapply core_grow; try done; [simpl; by rewrite (co_spec _ _ _ _ _ _ _ Hc)|apply Hc|].
  intros wo' Ho. exfalso. eapply (Hst ltac:(rewrite Ho; by eexists)). simpl. by left.
Qed.

(** ** All steps *)

Lemma step_invariant o c c' s : step c c' -> invariant o c s -> clean o (log c') -> steady o (log c') -> exists s', invariant o c' s'.
Proof.
  intros Hstep Hinv Hclean Hst.
  assert (Hslow : match receiver c with RSlow _ | RSlowFinish _ | RSlowDone => False | _ => True end).
  { destruct Hinv as (F & C & O & _ & _ & Hr). unfold receiver_ok in Hr. by destruct (receiver c). }
  destruct Hstep; try (match goal with HR : receiver _ = _ |- _ => rewrite HR in Hslow; done end).
  - by apply data_step with s.
  - by apply no_disk_step with s.
  - by apply log_full_step with s.
  - by apply confirm_step with s.
  - exists s. by apply confirmed_same_step.
  - by apply activate_step with s.
  - exists s. by apply barrier_step.
  - by apply number_step with s.
  - by apply drained_step with s.
  - by apply finish_step with s.
  - by apply alloc_step with s.
  - by eapply complete_step.
  - by eapply end_block_step.
  - by eapply flush_work_step.
  - by eapply thread_step.
  - exfalso. destruct Hclean as [Hf _]. apply Hf. simpl. by left.
  - exfalso. destruct Hclean as [Hf _]. apply Hf. simpl. by left.
  - exfalso. destruct Hclean as (_ & Hf & _). apply Hf. simpl. by left.
  - exists s. by apply ordering_step.
Qed.

(** ** The log only grows *)

Lemma note_suffix e c c' : log c `suffix_of` log c' -> log c `suffix_of` log (note e c').
Proof. apply suffix_cons_r. Qed.

Lemma flush_suffix ok c : log c `suffix_of` log (flush_devices ok c).
Proof. unfold flush_devices. destruct (_ <=? _), ok; simpl; repeat apply suffix_cons_r; done. Qed.

Lemma remove_log id c : log (remove_epoch id c).1.1 = log c.
Proof. unfold remove_epoch. by destruct (is_current c id). Qed.

Lemma loop_suffix fuel id ev rv k c : log c `suffix_of` log (finish_loop fuel id ev rv k c).1.
Proof.
  revert id ev rv c. induction fuel as [|fuel IH]; intros id ev rv c; simpl; [done|]. destruct (get_epoch c id) as [e|]; [|by apply suffix_cons_r].
  destruct (check_epoch _ _ _ _ _ _) as [[e' fin] fl]. set (c1 := if bool_decide _ then _ else _).
  assert (Hc1 : log c `suffix_of` log c1) by (unfold c1; case_bool_decide; simpl; [by apply suffix_cons_r|done]).
  destruct fin; [|done]. destruct (k_cleanup k).
  - pose proof (remove_log id c1) as Hr. destruct (remove_epoch id c1) as [[c2 [n|]] x]; simpl in *; rewrite <- Hr in Hc1; [|done]. etrans; [exact Hc1|apply IH].
  - unfold drbd_send_b_ack. destruct (connected c1); simpl; [by apply suffix_cons_r|done].
Qed.

Lemma call_suffix k c : log c `suffix_of` log (drbd_may_finish_epoch k c).1.
Proof.
  unfold drbd_may_finish_epoch. destruct (k_window k); [|apply loop_suffix]. pose proof (remove_log (k_id k) c) as Hr.
  destruct (remove_epoch (k_id k) c) as [[c2 [n|]] x]; simpl in Hr; rewrite <- Hr; [apply loop_suffix|done].
Qed.

Lemma schedule_suffix memory fl next done c : log c `suffix_of` log (schedule_flush memory fl next done c).1.
Proof. unfold schedule_flush. destruct fl, memory; simpl; try apply suffix_cons_r; reflexivity. Qed.

Lemma advance_receiver_suffix memory k wait back c :
  (forall rv c, log (back rv c) = log c) -> log c `suffix_of` log (advance_receiver memory k wait back c).
Proof.
  intros Hback. unfold advance_receiver. pose proof (call_suffix k c) as Hc. destruct (drbd_may_finish_epoch k c) as [c1 [k'|rv fl]]; [done|].
  pose proof (schedule_suffix memory fl [] false c1) as Hs. destruct (schedule_flush _ _ _ _ c1) as [c2 [k2|]]; simpl in *; rewrite Hback; by etrans.
Qed.

Lemma advance_call_suffix memory k c : log c `suffix_of` log (advance_call memory k c).
Proof.
  unfold advance_call. pose proof (call_suffix k c) as Hc. destruct (drbd_may_finish_epoch k c) as [c1 [k'|rv fl]]; [done|].
  pose proof (schedule_suffix memory fl (k_then k) (k_done k) c1) as Hs. destruct (schedule_flush _ _ _ _ c1) as [c2 [k2|]]; simpl in *; [by etrans|].
  destruct (k_done k); by etrans.
Qed.

Lemma data_log trim zeroout c : log (receive_Data trim zeroout c) = Received (length (writes c)) :: log c.
Proof.
  unfold receive_Data. destruct (makes_barrier _) as [b tell]. destruct tell; [destruct (previous_epoch _ _)|]; by destruct b.
Qed.

Lemma step_suffix c c' : step c c' -> log c `suffix_of` log c'.
Proof.
  destruct 1; try solve [apply advance_receiver_suffix; intros; apply numbered_log || done | by apply suffix_cons_r | done | apply flush_suffix | apply advance_call_suffix].
  - rewrite data_log. by apply suffix_cons_r.
  - simpl. unfold drbd_send_confirm_stable. destruct (_ || _); simpl; [done|by apply suffix_cons_r].
  - unfold barrier_alloc. destruct memory; simpl; [by destruct (_ =? _)|by apply suffix_cons_r].
  - unfold drbd_endio_write_sec_final. destruct (writes c !! i); [|done]. destruct (is_failed_barrier _ _); simpl; repeat apply suffix_cons_r; done.
  - unfold e_end_block. destruct (writes c !! i); [|done]. destruct cancel; simpl; [by apply suffix_cons_r|done].
  - unfold w_flush. change (log c) with (log (set_flush_works (l1 ++ l2) c)). destruct (get_epoch _ id) as [e|]; [|by apply suffix_cons_r].
    destruct (DE_BARRIER_IN_NEXT_EPOCH_ISSUED e); [done|]. simpl. exact (flush_suffix ok (alter_epoch id set_issued (set_flush_works (l1 ++ l2) c))).
  - exact (advance_call_suffix memory k (set_calls (l1 ++ l2) c)).
Qed.

Lemma suffix_in {A} (l1 l2 : list A) x : l1 `suffix_of` l2 -> x ∈ l1 -> x ∈ l2.
Proof. intros [k ->]. set_solver. Qed.

Lemma clean_suffix o l1 l2 : l1 `suffix_of` l2 -> clean o l2 -> clean o l1.
Proof. intros Hs (H1 & H2 & H3 & H4 & H5). pose proof (suffix_in l1 l2) as Hin. unfold clean. split_and!; try (intros Hx; by eauto). destruct H5; [by left|right]. intros Hx; by eauto. Qed.
Lemma steady_suffix o l1 l2 : l1 `suffix_of` l2 -> steady o l2 -> steady o l1.
Proof. intros Hs Hst Ho x Hx. eapply Hst; eauto. by eapply suffix_in. Qed.

Lemma initial_invariant o wo d : (forall x, o = Some x -> x = wo) -> invariant o (initial wo d) (mk_spec [] no_batch [] []).
Proof.
  intros Ho. exists [], [], [new_epoch 0]. split; [|split; [done|]].
  - constructor; try done.
    + by left.
    + right. eexists; split; [done|]. constructor; try done. constructor.
    + apply NoDup_singleton.
    + constructor; [simpl; lia|done].
    + intros id. unfold active_of, get_epoch, references. simpl. by destruct id.
    + intros k Hk. by apply not_elem_of_nil in Hk.
    + intros x Hx. by rewrite (Ho x Hx).
  - unfold receiver_ok. simpl receiver. split_and!; [done|by intros i w Hi|intros _; constructor].
Qed.

Lemma run_invariant o wo d c : rtc step (initial wo d) c -> (forall x, o = Some x -> x = wo) -> clean o (log c) -> steady o (log c) -> exists s, invariant o c s.
Proof.
  intros Hrun Ho. revert c Hrun. apply (rtc_ind_r (fun c => clean o (log c) -> steady o (log c) -> exists s, invariant o c s)); [eauto using initial_invariant|].
  intros c1 c2 Hrun Hstep IH Hclean Hst. pose proof (step_suffix _ _ Hstep) as Hs. destruct IH as [s Hs1]; [by eapply clean_suffix|by eapply steady_suffix|]. by eapply step_invariant.
Qed.

Lemma kept_steady wo l : steady (ordering_kept wo l) l /\ forall x, ordering_kept wo l = Some x -> x = wo.
Proof.
  unfold ordering_kept, steady. destruct (forallb _ l) eqn:Hf; [|split; [by intros [? ?]|done]]. split; [|by intros x [= <-]].
  intros _ x Hx%list_elem_of_In. rewrite forallb_forall in Hf. by specialize (Hf _ Hx).
Qed.

(** C6: however the receiver, the sender of answers and the worker interleave, a connection answers as
    the queue of epochs does, up to the first of these events ([clean]): a write is aborted or its
    callback cancelled, the connection is lost, memory for an epoch or for the work of a flush is not to be
    had, a barrier write fails, or, if the ordering is [WO_BIO_BARRIER] or has changed, an epoch is used
    after it was freed (without barrier writes this does not happen, it is part of the conclusion).
    Each epoch is acknowledged once, in order, with its number of writes not yet
    confirmed and only when all of them are durable; confirmations are exact; and if the ordering
    drains, no write is received before those of the epochs before are durable.  For a
    connection whose ordering is [WO_BDEV_FLUSH] from its start and is not set again (as after a failed
    flush), durable means completed before a flush that succeeded; in all other cases it means no
    more than completed. *)
Theorem epochs_refine_queue wo d c :
  rtc step (initial wo d) c -> let o := ordering_kept wo (log c) in clean o (log c) -> is_Some (spec_run o (log c)).
Proof.
  intros Hrun o Hclean. destruct (kept_steady wo (log c)) as [Hst Ho].
  destruct (run_invariant o wo d c Hrun Ho Hclean Hst) as (s & F & C & O & Hc & _). rewrite (co_spec _ _ _ _ _ _ _ Hc). by eexists.
Qed.
End claims.

(** ** Fuel *)

Lemma remove_shrinks id c c' n x :
  remove_epoch id c = (c', Some n, x) -> is_Some (get_epoch c id) -> (length (epochs c') < length (epochs c))%nat.
Proof.
  unfold remove_epoch. intros Hr [e He]. destruct (is_current c id); simplify_eq. simpl. apply find_epoch_some in He as [Hin Hid].
  apply list_elem_of_split in Hin as (l1 & l2 & Hl). rewrite Hl, filter_app, filter_cons_False by (by rewrite Hid; auto).
  rewrite !length_app. simpl. pose proof (length_filter (fun e => ep_id e <> id) l1). pose proof (length_filter (fun e => ep_id e <> id) l2). lia.
Qed.

(** Fuel above the number of epochs is enough. *)
Lemma finish_loop_fuel `{WriteOrdering} fuel fuel' id ev rv k c :
  (length (epochs c) < fuel)%nat -> (length (epochs c) < fuel')%nat -> finish_loop fuel id ev rv k c = finish_loop fuel' id ev rv k c.
Proof.
  revert fuel' id ev rv c. induction fuel as [|fuel IH]; intros fuel' id ev rv c Hf Hf'; [lia|]. destruct fuel' as [|fuel']; [lia|]. simpl.
  destruct (get_epoch c id) as [e|] eqn:He; [|done]. destruct (find_epoch_some _ _ _ He) as [_ Hid].
  pose proof (apply_id (write_ordering c) (is_current c id) ev e) as Hid1.
  destruct (check_epoch _ _ _ _ _ _) as [[e' fin] fl] eqn:Hck. destruct fin; [|done]. destruct (k_cleanup k); [|done].
  assert (Hid' : ep_id e' = id).
  { unfold check_epoch in Hck. destruct (nearly_done _ _ _); [|done]. destruct (may_finish _ _ _); [by simplify_eq/=|]. by destruct (negb _ && _). }
  set (c1 := if bool_decide _ then _ else _). assert (Hg1 : is_Some (get_epoch c1 id)).
  { assert (Hg : is_Some (get_epoch (alter_epoch id (fun _ => e') c) id)) by (rewrite get_alter, He by done; by eexists). unfold c1. by case_bool_decide. }
  assert (Hl1 : length (epochs c1) = length (epochs c)) by (unfold c1; case_bool_decide; simpl; by rewrite length_map).
  destruct (remove_epoch id c1) as [[c2 [n|]] x] eqn:Hr; [|done]. apply remove_shrinks in Hr; [|done]. apply IH; lia.
Qed.

(** ** A run *)

#[local] Instance demo_values : WriteOrdering :=
  {| wo_value wo := match wo with WO_NONE => 0 | WO_DRAIN_IO => 1 | WO_BDEV_FLUSH => 2 | WO_BIO_BARRIER => 3 end;
     wo_increasing := conj (conj eq_refl eq_refl) eq_refl |}.

(** Two writes, the second after a full activity log, then a barrier. *)
Definition demo_start : connection := initial WO_BDEV_FLUSH [Some (mk_disk_conf false true true)].
Definition demo_first : connection :=
  let c := drbd_endio_write_sec_final None false 0 (activate 0 (receive_Data false false demo_start)) in
  advance_call true (call_of 0 EV_PUT false [] true) (set_calls [] (e_end_block false 0 c)).
Definition demo_second : connection :=
  activate 1 (set_receiver (RConfirmed 1) (drbd_send_confirm_stable 1 (set_receiver (RFlushed 1) (flush_devices true (receive_Data false false demo_first))))).
Definition demo_barrier : connection :=
  let c := advance_receiver true (call_of 0 EV_GOT_BARRIER_NR false [] false) RNumber barrier_numbered (receive_Barrier 7 demo_second) in
  let '(c, k) := flush_after_epoch true (drbd_endio_write_sec_final None false 1 c) in
  barrier_alloc true (advance_receiver true k RFinish after_flush (set_receiver (RFinish k) c)).
Definition demo_end : connection :=
  advance_call true (call_of 0 EV_PUT false [] true) (set_calls [] (e_end_block false 1 demo_barrier)).

Lemma demo_run : rtc step demo_start demo_end.
Proof.
  unfold demo_end, demo_barrier, demo_second, demo_first.
  eapply rtc_r; [|eapply (step_thread true _ [] []); reflexivity].
  eapply rtc_r; [|eapply step_end_block; [vm_compute; reflexivity|reflexivity]].
  eapply rtc_r; [|apply step_alloc; reflexivity].
  eapply rtc_r; [|apply step_finish; reflexivity].
  eapply rtc_r; [|apply step_drained; [reflexivity|left; reflexivity]].
  eapply rtc_r; [|eapply step_complete; [vm_compute; reflexivity|reflexivity]].
  eapply rtc_r; [|apply step_number; reflexivity].
  eapply rtc_r; [|apply step_barrier; [reflexivity|done]].
  eapply rtc_r; [|apply step_activate; right; reflexivity].
  eapply rtc_r; [|apply step_confirm; [reflexivity|left; reflexivity]].
  eapply rtc_r; [|apply step_log_full; [reflexivity|left; reflexivity]].
  eapply rtc_r; [|apply step_data; reflexivity].
  eapply rtc_r; [|eapply (step_thread true _ [] []); reflexivity].
  eapply rtc_r; [|eapply step_end_block; [vm_compute; reflexivity|reflexivity]].
  eapply rtc_r; [|eapply step_complete; [vm_compute; reflexivity|reflexivity]].
  eapply rtc_r; [|apply step_activate; left; reflexivity].
  eapply rtc_r; [|apply step_data; reflexivity].
  apply rtc_refl.
Qed.

Lemma demo_log : log demo_end =
  [BarrierAck 7 1; Flushed; Completed 1; Barrier 7; Confirmed 1; Flushed; Received 1; Completed 0; Received 0].
Proof. vm_compute. reflexivity. Qed.

Lemma epochs_refine_queue_witness : is_Some (spec_run (Some WO_BDEV_FLUSH) (log demo_end)).
Proof.
  apply (epochs_refine_queue WO_BDEV_FLUSH [Some (mk_disk_conf false true true)] demo_end demo_run).
  rewrite demo_log. unfold clean. split_and!; [set_solver..|]. left. reflexivity.
Defined.

(** ** Barrier writes *)

(** The worker flushes for a closed epoch while the first write of the next epoch, a barrier, ends:
    between [previous_epoch] and [drbd_may_finish_epoch] of [e_end_block] the worker's call frees the
    epoch. *)
Definition race_start : connection := initial WO_BIO_BARRIER [Some (mk_disk_conf true true true)].
Definition race_write (i : nat) (c : connection) : connection :=
  advance_call true (call_of 0 EV_PUT false [] true) (set_calls [] (e_end_block false i (drbd_endio_write_sec_final None false i (activate i (receive_Data false false c))))).
Definition race_closed : connection :=
  let c := race_write 1 (race_write 0 race_start) in
  barrier_alloc true (advance_receiver true (call_of 0 EV_GOT_BARRIER_NR false [] false) RNumber barrier_numbered (receive_Barrier 7 c)).
Definition race_next : connection :=
  e_end_block false 2 (drbd_endio_write_sec_final None false 2 (activate 2 (receive_Data false false (w_flush true 0 (set_flush_works [] race_closed))))).
Definition race_worker : call := call_of 0 EV_BARRIER_DONE false [(0%nat, EV_PUT, false)] false.
Definition race_sender : call := call_of 0 EV_BARRIER_DONE false [(1%nat, EV_PUT, false)] true.
Definition race_end : connection :=
  let c := advance_call true race_worker (set_calls [race_sender] race_next) in
  let c := advance_call true (call_of 0 EV_PUT false [] false) (set_calls [race_sender] c) in
  let c := advance_call true (mk_call 0 EV_BECAME_LAST false true FE_STILL_LIVE [] false) (set_calls [race_sender] c) in
  advance_call true race_sender (set_calls [] c).

Lemma race_write_run i c :
  let c1 := activate i (receive_Data false false c) in let c2 := drbd_endio_write_sec_final None false i c1 in
  receiver c = RIdle -> receiver (receive_Data false false c) = RJoined i ->
  (exists w, writes c1 !! i = Some w /\ w_stage w = Active) -> (exists w, writes c2 !! i = Some w /\ w_stage w = Done) ->
  calls (e_end_block false i c2) = [call_of 0 EV_PUT false [] true] -> rtc step c (race_write i c).
Proof.
  intros c1 c2 HR HJ (w1 & Hw1 & Hs1) (w2 & Hw2 & Hs2) HK. unfold race_write. eapply rtc_r; [|by apply (step_thread true _ [] [])].
  eapply rtc_r; [|by eapply step_end_block]. eapply rtc_r; [|by eapply step_complete].
  eapply rtc_r; [|apply step_activate; by left]. eapply rtc_r; [|by apply step_data]. apply rtc_refl.
Qed.

Lemma race_run : rtc step race_start race_end.
Proof.
  unfold race_end, race_next, race_closed.
  eapply rtc_r; [|apply (step_thread true _ [] []); vm_compute; reflexivity].
  eapply rtc_r; [|apply (step_thread true _ [] [race_sender]); vm_compute; reflexivity].
  eapply rtc_r; [|apply (step_thread true _ [] [race_sender]); vm_compute; reflexivity].
  eapply rtc_r; [|apply (step_thread true _ [race_sender] []); vm_compute; reflexivity].
  eapply rtc_r; [|eapply step_end_block; [vm_compute; reflexivity|reflexivity]].
  eapply rtc_r; [|eapply step_complete; [vm_compute; reflexivity|reflexivity]].
  eapply rtc_r; [|apply step_activate; left; reflexivity].
  eapply rtc_r; [|apply step_data; reflexivity].
  eapply rtc_r; [|apply (step_flush_work true 0 [] []); vm_compute; reflexivity].
  eapply rtc_r; [|apply step_alloc; vm_compute; reflexivity].
  eapply rtc_r; [|apply step_number; vm_compute; reflexivity].
  eapply rtc_r; [|apply step_barrier; [vm_compute; reflexivity|done]].
  etrans; apply race_write_run; try reflexivity; eexists; (split; [vm_compute; reflexivity|reflexivity]).
Qed.

Lemma barrier_use_after_free : rtc step race_start race_end /\
  log race_end = [UseAfterFree; BarrierAck 7 2; Completed 2; Received 2; Flushed; Barrier 7; Completed 1; Received 1; Completed 0; Received 0].
Proof. split; [exact race_run|]. vm_compute. reflexivity. Qed.
