(* ===== verification/State.v ===== *)
(** * The state engine ([drbd_state.c])

    A resource has connections and devices, and a peer device for each device on a
    connection.  A state change works on a copy of the state: it is begun, changed, sanitized,
    validated, and then either applied or dropped.  [OLD] is the state before, [NEW] the copy. *)
From S2P Require Import Prelude Headers.

(** More constants of the header submodule; the laws are the order in which the enumerations
    list them. *)
Class StateHeaders := {
  state_headers :: DrbdHeaders;
  D_ATTACHING : Z; D_DETACHING : Z;
  L_STARTING_SYNC_S : Z; L_STARTING_SYNC_T : Z; L_WF_SYNC_UUID : Z; L_VERIFY_S : Z; L_VERIFY_T : Z; L_AHEAD : Z;
  L_NEGOTIATING : Z; L_NEG_NO_RESULT : Z;
  C_STANDALONE : Z; C_DISCONNECTING : Z; C_UNCONNECTED : Z; C_TIMEOUT : Z; C_PROTOCOL_ERROR : Z; C_TEAR_DOWN : Z;
  C_CONNECTING : Z; C_CONNECTED : Z;
  (* the number that [QOU_OFF] stands for *)
  QOU_OFF_NR : Z;
  attach_order : D_DISKLESS < D_ATTACHING /\ D_ATTACHING < D_DETACHING /\ D_DETACHING < D_FAILED;
  repl_order_all : L_ESTABLISHED < L_STARTING_SYNC_S /\ L_STARTING_SYNC_S < L_STARTING_SYNC_T /\ L_STARTING_SYNC_T < L_WF_BITMAP_S /\
    L_WF_BITMAP_T < L_WF_SYNC_UUID /\ L_WF_SYNC_UUID < L_SYNC_SOURCE /\ L_SYNC_TARGET < L_VERIFY_S /\ L_VERIFY_S < L_VERIFY_T /\
    L_VERIFY_T < L_PAUSED_SYNC_S /\ L_PAUSED_SYNC_T < L_AHEAD /\ L_AHEAD < L_BEHIND /\ L_BEHIND < L_NEG_NO_RESULT;
  conn_order : C_STANDALONE < C_DISCONNECTING /\ C_DISCONNECTING < C_UNCONNECTED /\ C_UNCONNECTED < C_TIMEOUT /\
    C_TIMEOUT < C_PROTOCOL_ERROR /\ C_PROTOCOL_ERROR < C_TEAR_DOWN /\ C_TEAR_DOWN < C_CONNECTING /\ C_CONNECTING < C_CONNECTED }.

(** Results; the first three are not errors. *)
Inductive drbd_state_rv :=
  | SS_SUCCESS | SS_NOTHING_TO_DO | SS_CW_SUCCESS
  | SS_TWO_PRIMARIES | SS_NO_UP_TO_DATE_DISK | SS_NO_LOCAL_DISK | SS_NO_REMOTE_DISK | SS_CONNECTED_OUTDATES | SS_PRIMARY_NOP
  | SS_RESYNC_RUNNING | SS_ALREADY_STANDALONE | SS_IS_DISKLESS | SS_DEVICE_IN_USE | SS_NO_NET_CONFIG | SS_NO_VERIFY_ALG
  | SS_NEED_CONNECTION | SS_LOWER_THAN_OUTDATED | SS_NOT_SUPPORTED | SS_IN_TRANSIENT_STATE | SS_PRIMARY_READER | SS_NO_QUORUM
  | SS_ATTACH_NO_BITMAP | SS_CW_FAILED_BY_PEER | SS_CONCURRENT_ST_CHG | SS_WEAKLY_CONNECTED | SS_TIMEOUT | SS_INTERRUPTED
  | SS_HANDSHAKE_RETRY | SS_HANDSHAKE_DISCONNECT | SS_UNKNOWN_ERROR.

#[export] Instance state_rv_eq_dec : EqDecision drbd_state_rv.
Proof. solve_decision. Defined.

(** [rv >= SS_SUCCESS] *)
Definition rv_ok (rv : drbd_state_rv) : bool := match rv with SS_SUCCESS | SS_NOTHING_TO_DO | SS_CW_SUCCESS => true | _ => false end.

Inductive quorum_setting := QOU_OFF | QOU_MAJORITY | QOU_ALL | QOU_NR (n : Z).
Inductive fencing_policy := FP_DONT_CARE | FP_RESOURCE | FP_STONITH.
Inductive on_no_quorum := ONQ_IO_ERROR | ONQ_SUSPEND_IO.
Inductive on_no_data := OND_IO_ERROR | OND_SUSPEND_IO.

#[export] Instance quorum_setting_eq_dec : EqDecision quorum_setting.
Proof. solve_decision. Defined.
#[export] Instance fencing_policy_eq_dec : EqDecision fencing_policy.
Proof. solve_decision. Defined.
#[export] Instance on_no_quorum_eq_dec : EqDecision on_no_quorum.
Proof. solve_decision. Defined.
#[export] Instance on_no_data_eq_dec : EqDecision on_no_data.
Proof. solve_decision. Defined.

(** [enum which_state]; [NOW] is [OLD]. *)
Inductive which_state := OLD | NEW.

(** ** The part of the objects that only the actions after a state change use *)

(** Flags of a connection that a two phase commit uses. *)
Record conn_votes := mk_votes {
  TWOPC_YES : bool;
  TWOPC_NO : bool;
  CONN_HANDSHAKE_DISCONNECT : bool;
  CONN_HANDSHAKE_RETRY : bool;
  CONN_HANDSHAKE_READY : bool;
  DISCONNECT_EXPECTED : bool }.

Record conn_more := mk_cm {
  cm_peer_node_id : nat;
  cm_send_dagtag : Z;
  cm_requests : Z;                          (* active_ee_cnt and done_ee_cnt *)
  cm_pending_flush_mask : Z;
  FF_2PC_V2 : bool;
  SEND_STATE_AFTER_AHEAD_C : bool;
  CONN_CONGESTED : bool;
  NOTIFY_PEERS_LOST_PRIMARY : bool;
  RECONNECT : bool;
  TWOPC_PREPARED : bool;
  TWOPC_RETRY : bool;
  cm_last_reconnect_jif : Z;
  cm_votes : conn_votes }.

Definition no_conn_more : conn_more := mk_cm 0 0 0 0 false false false false false false false 0 (mk_votes false false false false false false).

(** Online verify and the progress of a resync. *)
Record progress := mk_pg {
  ov_start_sector : Z;
  ov_position : Z;
  ov_left : Z;
  ov_skipped : Z;
  ov_last : Z * Z * Z * Z;                  (* ov_last_oos_size, _start, ov_last_skipped_size, _start *)
  last_in_sync_end : Z;
  resync_next_bit : Z;
  last_resync_pass_bits : Z;
  rs_failed : Z;
  rs_paused : Z;
  rs_same_csum : Z;
  rs_total : Z;
  rs_start : Z;
  rs_last_writeout : Z;
  rs_last_progress_report_ts : Z;
  rs_mark_left : list Z;
  rs_mark_time : list Z;
  rs_last_mark : nat }.

(** [union drbd_state]: the values, and a mask that says which of them count.  A mask has all bits
    of a field or none where the sources build it; the fields of one bit are [bool]s. *)
Record state_val := mk_val {
  v_role : drbd_role;
  v_peer : drbd_role;
  v_conn : Z;
  v_disk : Z;
  v_pdsk : Z;
  v_susp : bool;
  v_susp_nod : bool;
  v_susp_fen : bool;
  v_user_isp : bool;
  v_peer_isp : bool;
  v_aftr_isp : bool }.
Record state_mask := mk_mask {
  m_role : Z;
  m_peer : Z;
  m_conn : Z;
  m_disk : Z;
  m_pdsk : Z;
  m_susp : bool;
  m_susp_nod : bool;
  m_susp_fen : bool;
  m_user_isp : bool;
  m_peer_isp : bool;
  m_aftr_isp : bool }.

Definition no_val : state_val := mk_val R_UNKNOWN R_UNKNOWN 0 0 0 false false false false false false.
Definition no_mask : state_mask := mk_mask 0 0 0 0 0 false false false false false false.

#[export] Instance state_val_eq_dec : EqDecision state_val.
Proof. solve_decision. Defined.
#[export] Instance state_mask_eq_dec : EqDecision state_mask.
Proof. solve_decision. Defined.

(** What a two phase commit that connects gathers about a peer device. *)
Record pd_connect := mk_pdc {
  INITIAL_STATE_SENT : bool;
  INITIAL_STATE_RECEIVED : bool;
  HAVE_SIZES : bool;
  CURRENT_UUID_RECEIVED : bool;
  DISCARD_MY_DATA : bool;
  connect_state : state_val }.

Record pd_more := mk_pm {
  B_RS_H_DONE : bool;
  RS_DONE : bool;
  SYNC_TARGET_TO_BEHIND : bool;
  AHEAD_TO_SYNC_SOURCE : bool;
  CONSIDER_RESYNC : bool;
  SEND_STATE_AFTER_AHEAD : bool;
  GOT_NEG_ACK : bool;
  SYNC_SRC_CRASHED_PRI : bool;
  UNSTABLE_RESYNC : bool;
  PEER_CRASHED_PRIMARY : bool;              (* UUID_FLAG_CRASHED_PRIMARY in uuid_flags *)
  pm_uuid_node_mask : Z;
  pm_bitmap_index : Z;
  pm_bitmap_uuid : Z;                       (* drbd_bitmap_uuid() *)
  pm_progress : progress;
  pm_connect : pd_connect }.

Definition no_progress : progress := mk_pg 0 0 0 0 (0, 0, 0, 0) 0 0 0 0 0 0 0 0 0 0 (replicate 8 0) (replicate 8 0) 0.
Definition no_pd_more : pd_more := mk_pm false false false false false false false false false false 0 (-1) 0 no_progress (mk_pdc false false false false false no_val).

Record dev_more := mk_dm {
  UNREGISTERED : bool;
  CRASHED_PRIMARY : bool;
  PRIMARY_LOST_QUORUM : bool;
  FORCE_DETACH : bool;
  __NEW_CUR_UUID : bool;
  AL_SUSPENDED : bool;
  MD_DIRTY : bool;
  MDF_AL_CLEAN : bool;
  MDF_CRASHED_PRIMARY : bool;
  MDF_PRIMARY_LOST_QUORUM : bool;
  MDF_PRIMARY_IND : bool;
  MDF_HAVE_QUORUM : bool;
  MDF_AL_DISABLED : bool;
  dm_md_members : Z;
  dm_max_peers : Z;
  dm_al_updates : bool;
  dm_has_bitmap : bool;
  dm_bm_bits : Z;
  dm_bm_block_shift : Z;
  dm_local_cnt : Z;
  dm_last_reattach_jif : Z;
  OUTDATE_ON_2PC_COMMIT : bool;
  dm_next_exposed_uuid : Z }.

Definition no_dev_more : dev_more :=
  mk_dm false false false false false false false false false false false false false 0 1 true true 0 12 0 0 false 0.

Record twopc_reply := mk_reply {
  tr_vnr : Z;
  tr_tid : Z;
  tr_initiator_node_id : Z;
  tr_target_node_id : Z;
  tr_target_reachable_nodes : Z;
  tr_reachable_nodes : Z;
  tr_primary_nodes : Z;
  tr_weak_nodes : Z;
  tr_is_disconnect : bool;
  tr_is_connect : bool;
  tr_is_aborted : bool;
  tr_state_change_failed : bool }.

Definition no_reply : twopc_reply := mk_reply 0 0 0 0 0 0 0 0 false false false false.

Record res_more := mk_rm {
  rm_dagtag_sector : Z;
  rm_peer_ack_req : option Z;               (* the dagtag of [peer_ack_req] *)
  rm_last_peer_acked_dagtag : Z;
  rm_current_flush_sequence : Z;
  rm_current_tle_writes : Z;
  rm_current_tle_nr : Z;
  TRY_BECOME_UP_TO_DATE_PENDING : bool;
  R_UNREGISTERED : bool;
  rm_remote_state_change : bool;
  rm_twopc_reply : twopc_reply }.

Definition no_res_more : res_more := mk_rm 0 None 0 0 0 0 false false false (mk_reply 0 0 (-1) (-1) 0 0 0 0 false false false false).

(** ** Connections *)

Record net_conf := mk_net_conf { two_primaries : bool; allow_remote_read : bool; has_verify_alg : bool }.

Record conn_state := mk_cs { cs_cstate : Z; cs_peer_role : drbd_role; cs_susp_fen : bool }.

Record connection := mk_conn {
  c_old : conn_state;
  c_new : conn_state;
  c_net_conf : option net_conf;
  c_fencing : fencing_policy;
  c_pro_version : Z;
  c_rs_skip_uuid : bool;
  c_more : conn_more }.

Definition c_at (w : which_state) (c : connection) : conn_state := match w with OLD => c_old c | NEW => c_new c end.
Definition cstate (w : which_state) (c : connection) : Z := cs_cstate (c_at w c).
Definition peer_role (w : which_state) (c : connection) : drbd_role := cs_peer_role (c_at w c).
Definition susp_fen (w : which_state) (c : connection) : bool := cs_susp_fen (c_at w c).

Definition upd_conn (f : conn_state -> conn_state) (c : connection) : connection :=
  mk_conn (c_old c) (f (c_new c)) (c_net_conf c) (c_fencing c) (c_pro_version c) (c_rs_skip_uuid c) (c_more c).
Definition set_cstate (x : Z) : connection -> connection := upd_conn (fun s => mk_cs x (cs_peer_role s) (cs_susp_fen s)).
Definition set_peer_role (x : drbd_role) : connection -> connection := upd_conn (fun s => mk_cs (cs_cstate s) x (cs_susp_fen s)).
Definition set_susp_fen (x : bool) : connection -> connection := upd_conn (fun s => mk_cs (cs_cstate s) (cs_peer_role s) x).

#[export] Instance connection_inhabited : Inhabited connection :=
  populate (mk_conn (mk_cs 0 R_UNKNOWN false) (mk_cs 0 R_UNKNOWN false) None FP_DONT_CARE 0 false no_conn_more).

(** ** Peer devices *)

Record pd_state := mk_pds {
  ps_repl : Z;
  ps_disk : Z;
  ps_susp_user : bool;
  ps_susp_peer : bool;
  ps_susp_dependency : bool;
  ps_susp_other_c : bool;
  ps_resync_active : bool;
  ps_replication : bool;
  ps_peer_replication : bool }.

(** [p_conn] is the place of the connection, [p_weight] the result of [drbd_bm_total_weight],
    and flags of [flags] and [uuid_flags] are fields of their own. *)
Record peer_device := mk_pd {
  p_old : pd_state;
  p_new : pd_state;
  p_conn : nat;
  p_node_id : nat;
  p_bitmap : bool;
  p_tiebreaker : bool;
  p_weight : Z;
  p_current_uuid : Z;
  p_negotiation_result : Z;
  UUID_STABLE : bool;
  UUID_GOT_STABLE : bool;
  UUIDS_RECEIVED : bool;
  HOLDING_UUID_READ_LOCK : bool;
  PEER_QUORATE : bool;
  PEER_REPLICATION_NEXT : bool;
  REPLICATION_NEXT : bool;
  RECONCILIATION_RESYNC : bool;
  p_more : pd_more }.

Definition p_at (w : which_state) (p : peer_device) : pd_state := match w with OLD => p_old p | NEW => p_new p end.
Definition repl_state (w : which_state) (p : peer_device) : Z := ps_repl (p_at w p).
Definition peer_disk_state (w : which_state) (p : peer_device) : Z := ps_disk (p_at w p).

Definition upd_pd (f : pd_state -> pd_state) (p : peer_device) : peer_device :=
  mk_pd (p_old p) (f (p_new p)) (p_conn p) (p_node_id p) (p_bitmap p) (p_tiebreaker p) (p_weight p) (p_current_uuid p)
    (p_negotiation_result p) (UUID_STABLE p) (UUID_GOT_STABLE p) (UUIDS_RECEIVED p) (HOLDING_UUID_READ_LOCK p) (PEER_QUORATE p)
    (PEER_REPLICATION_NEXT p) (REPLICATION_NEXT p) (RECONCILIATION_RESYNC p) (p_more p).
Definition set_repl (x : Z) : peer_device -> peer_device :=
  upd_pd (fun s => mk_pds x (ps_disk s) (ps_susp_user s) (ps_susp_peer s) (ps_susp_dependency s) (ps_susp_other_c s) (ps_resync_active s) (ps_replication s) (ps_peer_replication s)).
Definition set_peer_disk (x : Z) : peer_device -> peer_device :=
  upd_pd (fun s => mk_pds (ps_repl s) x (ps_susp_user s) (ps_susp_peer s) (ps_susp_dependency s) (ps_susp_other_c s) (ps_resync_active s) (ps_replication s) (ps_peer_replication s)).
Definition set_susp_peer (x : bool) : peer_device -> peer_device :=
  upd_pd (fun s => mk_pds (ps_repl s) (ps_disk s) (ps_susp_user s) x (ps_susp_dependency s) (ps_susp_other_c s) (ps_resync_active s) (ps_replication s) (ps_peer_replication s)).
Definition set_susp_dependency (x : bool) : peer_device -> peer_device :=
  upd_pd (fun s => mk_pds (ps_repl s) (ps_disk s) (ps_susp_user s) (ps_susp_peer s) x (ps_susp_other_c s) (ps_resync_active s) (ps_replication s) (ps_peer_replication s)).
Definition set_susp_other_c (x : bool) : peer_device -> peer_device :=
  upd_pd (fun s => mk_pds (ps_repl s) (ps_disk s) (ps_susp_user s) (ps_susp_peer s) (ps_susp_dependency s) x (ps_resync_active s) (ps_replication s) (ps_peer_replication s)).
Definition set_resync_active (x : bool) : peer_device -> peer_device :=
  upd_pd (fun s => mk_pds (ps_repl s) (ps_disk s) (ps_susp_user s) (ps_susp_peer s) (ps_susp_dependency s) (ps_susp_other_c s) x (ps_replication s) (ps_peer_replication s)).
Definition set_replication (x : bool) : peer_device -> peer_device :=
  upd_pd (fun s => mk_pds (ps_repl s) (ps_disk s) (ps_susp_user s) (ps_susp_peer s) (ps_susp_dependency s) (ps_susp_other_c s) (ps_resync_active s) x (ps_peer_replication s)).
Definition set_peer_replication (x : bool) : peer_device -> peer_device :=
  upd_pd (fun s => mk_pds (ps_repl s) (ps_disk s) (ps_susp_user s) (ps_susp_peer s) (ps_susp_dependency s) (ps_susp_other_c s) (ps_resync_active s) (ps_replication s) x).
Definition set_negotiation_result (x : Z) (p : peer_device) : peer_device :=
  mk_pd (p_old p) (p_new p) (p_conn p) (p_node_id p) (p_bitmap p) (p_tiebreaker p) (p_weight p) (p_current_uuid p)
    x (UUID_STABLE p) (UUID_GOT_STABLE p) (UUIDS_RECEIVED p) (HOLDING_UUID_READ_LOCK p) (PEER_QUORATE p)
    (PEER_REPLICATION_NEXT p) (REPLICATION_NEXT p) (RECONCILIATION_RESYNC p) (p_more p).
Definition set_got_stable (x : bool) (p : peer_device) : peer_device :=
  mk_pd (p_old p) (p_new p) (p_conn p) (p_node_id p) (p_bitmap p) (p_tiebreaker p) (p_weight p) (p_current_uuid p)
    (p_negotiation_result p) (UUID_STABLE p) x (UUIDS_RECEIVED p) (HOLDING_UUID_READ_LOCK p) (PEER_QUORATE p)
    (PEER_REPLICATION_NEXT p) (REPLICATION_NEXT p) (RECONCILIATION_RESYNC p) (p_more p).
Definition set_reconciliation (x : bool) (p : peer_device) : peer_device :=
  mk_pd (p_old p) (p_new p) (p_conn p) (p_node_id p) (p_bitmap p) (p_tiebreaker p) (p_weight p) (p_current_uuid p)
    (p_negotiation_result p) (UUID_STABLE p) (UUID_GOT_STABLE p) (UUIDS_RECEIVED p) (HOLDING_UUID_READ_LOCK p) (PEER_QUORATE p)
    (PEER_REPLICATION_NEXT p) (REPLICATION_NEXT p) x (p_more p).

(** ** Devices *)

(** Flags of [struct drbd_peer_md]. *)
Record peer_md := mk_pmd {
  MD_HAVE_BITMAP : bool;
  MD_NODE_EXISTS : bool;
  MD_PEER_DEVICE_SEEN : bool;
  MD_PEER_OUTDATED : bool;
  MD_PEER_FENCING : bool;
  MD_PEER_CONNECTED : bool }.

#[export] Instance peer_md_inhabited : Inhabited peer_md := populate (mk_pmd false false false false false false).

Record dev_state := mk_ds { ds_disk : Z; ds_have_quorum : bool }.

(** [d_md] are the peers of the meta-data, [d_current_uuid] is [drbd_current_uuid]. *)
Record device := mk_dev {
  d_old : dev_state;
  d_new : dev_state;
  d_peers : list peer_device;
  d_md : list peer_md;
  MDF_CONSISTENT : bool;
  MDF_WAS_UP_TO_DATE : bool;
  d_current_uuid : Z;
  d_exposed_uuid : Z;
  intentional_diskless : bool;
  writable : bool;
  open_cnt : Z;
  RESTORE_QUORUM : bool;
  RESTORING_QUORUM : bool;
  TRY_TO_GET_RESYNC : bool;
  NEW_CUR_UUID : bool;
  d_more : dev_more }.

Definition d_at (w : which_state) (d : device) : dev_state := match w with OLD => d_old d | NEW => d_new d end.
Definition disk_state (w : which_state) (d : device) : Z := ds_disk (d_at w d).
Definition have_quorum (w : which_state) (d : device) : bool := ds_have_quorum (d_at w d).

Definition upd_dev (new : dev_state) (peers : list peer_device) (md : list peer_md) (restoring try_resync : bool) (d : device) : device :=
  mk_dev (d_old d) new peers md (MDF_CONSISTENT d) (MDF_WAS_UP_TO_DATE d) (d_current_uuid d) (d_exposed_uuid d) (intentional_diskless d)
    (writable d) (open_cnt d) (RESTORE_QUORUM d) restoring try_resync (NEW_CUR_UUID d) (d_more d).
Definition set_disk (x : Z) (d : device) : device :=
  upd_dev (mk_ds x (ds_have_quorum (d_new d))) (d_peers d) (d_md d) (RESTORING_QUORUM d) (TRY_TO_GET_RESYNC d) d.
Definition set_have_quorum (x : bool) (d : device) : device :=
  upd_dev (mk_ds (ds_disk (d_new d)) x) (d_peers d) (d_md d) (RESTORING_QUORUM d) (TRY_TO_GET_RESYNC d) d.
Definition set_peers (l : list peer_device) (d : device) : device :=
  upd_dev (d_new d) l (d_md d) (RESTORING_QUORUM d) (TRY_TO_GET_RESYNC d) d.
Definition set_md (l : list peer_md) (d : device) : device :=
  upd_dev (d_new d) (d_peers d) l (RESTORING_QUORUM d) (TRY_TO_GET_RESYNC d) d.
Definition set_restoring (x : bool) (d : device) : device :=
  upd_dev (d_new d) (d_peers d) (d_md d) x (TRY_TO_GET_RESYNC d) d.
Definition set_try_resync (x : bool) (d : device) : device :=
  upd_dev (d_new d) (d_peers d) (d_md d) (RESTORING_QUORUM d) x d.
(** A change of the peer device at a place. *)
Definition upd_peer (j : nat) (f : peer_device -> peer_device) (d : device) : device := set_peers (alter f j (d_peers d)) d.

(** ** Resources *)

Record res_state := mk_rs {
  rs_role : drbd_role;
  rs_susp_user : bool;
  rs_susp_nod : bool;
  rs_susp_quorum : bool;
  rs_susp_uuid : bool;
  rs_fail_io : bool }.

(** [state_change_flags] *)
Record cs_flags := mk_flags {
  CS_HARD : bool;
  CS_PREPARE : bool;
  CS_ABORT : bool;
  CS_TWOPC : bool;
  CS_IGN_OUTD_FAIL : bool;
  CS_FS_IGN_OPENERS : bool;
  CS_FORCE_RECALC : bool }.

Record resource := mk_res {
  r_old : res_state;
  r_new : res_state;
  r_conns : list connection;
  r_devs : list device;
  r_flags : cs_flags;
  r_node_id : nat;
  r_members : Z;
  opt_quorum : quorum_setting;
  opt_min_redundancy : quorum_setting;
  opt_on_no_quorum : on_no_quorum;
  opt_on_no_data : on_no_data;
  r_more : res_more }.

Definition r_at (w : which_state) (r : resource) : res_state := match w with OLD => r_old r | NEW => r_new r end.
Definition role (w : which_state) (r : resource) : drbd_role := rs_role (r_at w r).
Definition is_primary (ro : drbd_role) : bool := bool_decide (ro = R_PRIMARY).
Definition is_secondary (ro : drbd_role) : bool := bool_decide (ro = R_SECONDARY).

Definition upd_res (new : res_state) (conns : list connection) (devs : list device) (r : resource) : resource :=
  mk_res (r_old r) new conns devs (r_flags r) (r_node_id r) (r_members r) (opt_quorum r) (opt_min_redundancy r) (opt_on_no_quorum r) (opt_on_no_data r) (r_more r).
Definition set_susp_nod (x : bool) (s : res_state) : res_state := mk_rs (rs_role s) (rs_susp_user s) x (rs_susp_quorum s) (rs_susp_uuid s) (rs_fail_io s).
Definition set_susp_quorum (x : bool) (s : res_state) : res_state := mk_rs (rs_role s) (rs_susp_user s) (rs_susp_nod s) x (rs_susp_uuid s) (rs_fail_io s).
Definition set_susp_uuid (x : bool) (s : res_state) : res_state := mk_rs (rs_role s) (rs_susp_user s) (rs_susp_nod s) (rs_susp_quorum s) x (rs_fail_io s).
Definition set_fail_io (x : bool) (s : res_state) : res_state := mk_rs (rs_role s) (rs_susp_user s) (rs_susp_nod s) (rs_susp_quorum s) (rs_susp_uuid s) x.

Section engine.
Context `{StateHeaders}.

(** ** Helpers *)

Definition conn_of (conns : list connection) (p : peer_device) : connection := conns !!! p_conn p.

Definition repl_is_sync_target (s : Z) : bool := (s =? L_SYNC_TARGET) || (s =? L_PAUSED_SYNC_T).
Definition repl_is_sync_source (s : Z) : bool := (s =? L_SYNC_SOURCE) || (s =? L_PAUSED_SYNC_S).

(** [nc && !nc->allow_remote_read] *)
Definition no_remote_read (c : connection) : bool :=
  match c_net_conf c with Some nc => negb (allow_remote_read nc) | None => false end.

Definition drbd_data_accessible (conns : list connection) (w : which_state) (d : device) : bool :=
  (disk_state w d =? D_UP_TO_DATE) ||
  existsb (fun p => negb (no_remote_read (conn_of conns p)) && (peer_disk_state w p =? D_UP_TO_DATE)) (d_peers d).

Definition is_suspended_fen (w : which_state) (conns : list connection) : bool := existsb (susp_fen w) conns.

Definition resource_is_suspended (w : which_state) (s : res_state) (conns : list connection) : bool :=
  (rs_susp_user s || rs_susp_nod s || rs_susp_quorum s || rs_susp_uuid s) || is_suspended_fen w conns.

Definition resync_susp_comb_dep (w : which_state) (d : device) (p : peer_device) : bool :=
  ps_susp_dependency (p_at w p) || ps_susp_other_c (p_at w p) ||
  (repl_is_sync_source (repl_state w p) && (disk_state w d <=? D_INCONSISTENT)).

Definition resync_suspended (w : which_state) (d : device) (p : peer_device) : bool :=
  ps_susp_user (p_at w p) || ps_susp_peer (p_at w p) || resync_susp_comb_dep w d p.

Definition peer_device_by_node_id (d : device) (node_id : nat) : option peer_device :=
  find (fun p => Nat.eqb (p_node_id p) node_id) (d_peers d).

Definition may_return_to_up_to_date (conns : list connection) (w : which_state) (d : device) : bool :=
  negb (existsb (fun p => (peer_disk_state w p =? D_DISKLESS) && is_primary (peer_role w (conn_of conns p)) &&
                          negb (p_current_uuid p =? d_current_uuid d)) (d_peers d)).

(** One round of the loop of [may_be_up_to_date]: [true] is [continue]. *)
Definition peer_is_outdated (node_id my_node_id : nat) (d : device) : bool :=
  let md := d_md d !!! node_id in
  if Nat.eqb node_id my_node_id then true
  else if negb (MD_HAVE_BITMAP md) && negb (MD_NODE_EXISTS md) then true
  else if negb (MD_PEER_FENCING md) then true
  else
    let po := peer_device_by_node_id d node_id in
    let want_bitmap := match po with Some p => p_bitmap p | None => true end in
    let s := match po with Some p => peer_disk_state NEW p | None => D_UNKNOWN end in
    if (s =? D_DISKLESS) && negb (MD_PEER_DEVICE_SEEN md) then true
    else if (s =? D_DISKLESS) || (s =? D_ATTACHING) || (s =? D_DETACHING) || (s =? D_FAILED) || (s =? D_NEGOTIATING) || (s =? D_UNKNOWN)
    then negb want_bitmap || MD_PEER_OUTDATED md
    else (s =? D_INCONSISTENT) || (s =? D_OUTDATED) || (s =? D_CONSISTENT) || (s =? D_UP_TO_DATE).

Definition may_be_up_to_date (conns : list connection) (my_node_id : nat) (w : which_state) (d : device) : bool :=
  may_return_to_up_to_date conns w d &&
  forallb (fun node_id => peer_is_outdated node_id my_node_id d) (seq 0 DRBD_NODE_ID_MAX).

Definition stable_up_to_date_neighbor (d : device) : bool :=
  existsb (fun p => (peer_disk_state NEW p =? D_UP_TO_DATE) && UUID_STABLE p && (p_current_uuid p =? d_current_uuid d)) (d_peers d).

Definition disk_state_from_md (conns : list connection) (my_node_id : nat) (d : device) : Z :=
  if negb (MDF_CONSISTENT d) then D_INCONSISTENT
  else if negb (MDF_WAS_UP_TO_DATE d) then D_OUTDATED
  else if may_be_up_to_date conns my_node_id OLD d then D_UP_TO_DATE else D_CONSISTENT.

(** ** Quorum *)

Record quorum_detail := mk_qd {
  qd_up_to_date : Z;
  qd_present : Z;
  qd_outdated : Z;
  qd_diskless : Z;
  qd_missing_diskless : Z;
  qd_quorumless : Z;
  qd_unknown : Z;
  qd_quorate_peers : Z }.

(** How a node counts. *)
Inductive vote := V_NONE | V_UP_TO_DATE | V_PRESENT | V_OUTDATED | V_DISKLESS | V_MISSING_DISKLESS | V_QUORUMLESS | V_UNKNOWN.

Definition add_vote (v : vote) (q : quorum_detail) : quorum_detail :=
  match v with
  | V_NONE => q
  | V_UP_TO_DATE => mk_qd (qd_up_to_date q + 1) (qd_present q) (qd_outdated q) (qd_diskless q) (qd_missing_diskless q) (qd_quorumless q) (qd_unknown q) (qd_quorate_peers q)
  | V_PRESENT => mk_qd (qd_up_to_date q) (qd_present q + 1) (qd_outdated q) (qd_diskless q) (qd_missing_diskless q) (qd_quorumless q) (qd_unknown q) (qd_quorate_peers q)
  | V_OUTDATED => mk_qd (qd_up_to_date q) (qd_present q) (qd_outdated q + 1) (qd_diskless q) (qd_missing_diskless q) (qd_quorumless q) (qd_unknown q) (qd_quorate_peers q)
  | V_DISKLESS => mk_qd (qd_up_to_date q) (qd_present q) (qd_outdated q) (qd_diskless q + 1) (qd_missing_diskless q) (qd_quorumless q) (qd_unknown q) (qd_quorate_peers q)
  | V_MISSING_DISKLESS => mk_qd (qd_up_to_date q) (qd_present q) (qd_outdated q) (qd_diskless q) (qd_missing_diskless q + 1) (qd_quorumless q) (qd_unknown q) (qd_quorate_peers q)
  | V_QUORUMLESS => mk_qd (qd_up_to_date q) (qd_present q) (qd_outdated q) (qd_diskless q) (qd_missing_diskless q) (qd_quorumless q + 1) (qd_unknown q) (qd_quorate_peers q)
  | V_UNKNOWN => mk_qd (qd_up_to_date q) (qd_present q) (qd_outdated q) (qd_diskless q) (qd_missing_diskless q) (qd_quorumless q) (qd_unknown q + 1) (qd_quorate_peers q)
  end.
Definition add_quorate_peer (q : quorum_detail) : quorum_detail :=
  mk_qd (qd_up_to_date q) (qd_present q) (qd_outdated q) (qd_diskless q) (qd_missing_diskless q) (qd_quorumless q) (qd_unknown q) (qd_quorate_peers q + 1).
Definition no_votes : quorum_detail := mk_qd 0 0 0 0 0 0 0 0.

Definition calc_quorum_at (setting : quorum_setting) (voters : Z) : Z :=
  match setting with
  | QOU_MAJORITY => voters / 2 + 1
  | QOU_ALL => voters
  | QOU_OFF => QOU_OFF_NR
  | QOU_NR n => n
  end.

(** [quorumless_nodes] *)
Definition quorumless (members : Z) (d : device) (node_id : nat) : bool :=
  have_quorum OLD d && negb (Z.testbit members (Z.of_nat node_id)).

(** The vote of a node in [__calc_quorum_with_disk]. *)
Definition vote_with_disk (conns : list connection) (my_node_id : nat) (members : Z) (d : device) (node_id : nat) : vote :=
  if Nat.eqb node_id my_node_id then
    let s := disk_state NEW d in
    if D_DISKLESS <? s then if s =? D_UP_TO_DATE then V_UP_TO_DATE else V_PRESENT else V_NONE
  else
    let md := d_md d !!! node_id in
    if negb (MD_HAVE_BITMAP md || MD_NODE_EXISTS md || MD_PEER_DEVICE_SEEN md) then V_NONE
    else
      let po := peer_device_by_node_id d node_id in
      let skip := match po with Some p => no_remote_read (conn_of conns p) | None => false end in
      let is_intentional_diskless := match po with Some p => negb (p_bitmap p) | None => negb (MD_PEER_DEVICE_SEEN md) end in
      let is_tiebreaker := match po with Some p => p_tiebreaker p | None => true end in
      if skip then V_NONE
      else if is_intentional_diskless && negb is_tiebreaker then V_NONE
      else
        let rs := match po with Some p => repl_state NEW p | None => L_OFF end in
        let s := match po with Some p => peer_disk_state NEW p | None => D_UNKNOWN end in
        if rs =? L_OFF then
          if is_intentional_diskless then V_MISSING_DISKLESS
          else if (s <=? D_OUTDATED) || MD_PEER_OUTDATED md then V_OUTDATED
          else if quorumless members d node_id then V_QUORUMLESS
          else V_UNKNOWN
        else if (s =? D_DISKLESS) && is_intentional_diskless then V_DISKLESS
        else if s =? D_UP_TO_DATE then V_UP_TO_DATE
        else V_PRESENT.

(** [check_wrongly_set_mdf_exists]; [get_ldev] needs a consistent disk before the change. *)
Definition check_wrongly_set_mdf_exists (my_node_id : nat) (d : device) : device :=
  if disk_state OLD d <? D_INCONSISTENT then d
  else
    let configured id := bool_decide (is_Some (peer_device_by_node_id d id)) in
    if forallb (fun id => MD_NODE_EXISTS (d_md d !!! id) || configured id || Nat.eqb id my_node_id) (seq 0 DRBD_NODE_ID_MAX) then
      set_md (imap (fun id md =>
        if configured id then md
        else mk_pmd (MD_HAVE_BITMAP md) false (MD_PEER_DEVICE_SEEN md) (MD_PEER_OUTDATED md) (MD_PEER_FENCING md) (MD_PEER_CONNECTED md)) (d_md d)) d
    else d.

Definition __calc_quorum_with_disk (conns : list connection) (my_node_id : nat) (members : Z) (d : device) : quorum_detail :=
  foldl (fun q id => add_vote (vote_with_disk conns my_node_id members d id) q) no_votes (seq 0 DRBD_NODE_ID_MAX).

(** The vote of a peer device in [__calc_quorum_no_disk]. *)
Definition vote_no_disk (members : Z) (d : device) (p : peer_device) : vote :=
  let is_intentional_diskless := negb (p_bitmap p) in
  if is_intentional_diskless && negb (p_tiebreaker p) then V_NONE
  else if repl_state NEW p =? L_OFF then
    if is_intentional_diskless then V_MISSING_DISKLESS
    else if peer_disk_state NEW p <=? D_OUTDATED then V_OUTDATED
    else if quorumless members d (p_node_id p) then V_QUORUMLESS
    else V_UNKNOWN
  else if peer_disk_state NEW p =? D_DISKLESS then V_DISKLESS
  else if peer_disk_state NEW p =? D_UP_TO_DATE then V_UP_TO_DATE
  else V_PRESENT.

Definition __calc_quorum_no_disk (conns : list connection) (members : Z) (d : device) : quorum_detail :=
  let q :=
    if disk_state NEW d =? D_DISKLESS then add_vote (if intentional_diskless d then V_DISKLESS else V_UNKNOWN) no_votes else no_votes in
  foldl (fun q p =>
    if no_remote_read (conn_of conns p) then q
    else if negb (p_bitmap p) && negb (p_tiebreaker p) then q
    else
      let q := add_vote (vote_no_disk members d p) q in
      if (peer_disk_state NEW p =? D_UP_TO_DATE) && PEER_QUORATE p then add_quorate_peer q else q) q (d_peers d).

(** [calc_quorum] from the counts on. *)
Definition quorum_decision (quorum min_redundancy : quorum_setting) (have_now : bool) (q : quorum_detail) : bool :=
  let voters := qd_outdated q + qd_quorumless q + qd_unknown q + qd_up_to_date q + qd_present q in
  let missing_win := calc_quorum_at quorum voters <=? qd_outdated q + qd_quorumless q + qd_unknown q in
  let unknown := if missing_win then qd_unknown q + qd_quorumless q else qd_unknown q in
  let quorumless := if missing_win then 0 else qd_quorumless q in
  let voters :=
    if negb (unknown =? 0) then qd_outdated q + quorumless + unknown + qd_up_to_date q + qd_present q
    else qd_up_to_date q + qd_present q in
  let quorum_at := calc_quorum_at quorum voters in
  let diskless_majority_at := calc_quorum_at QOU_MAJORITY (qd_diskless q + qd_missing_diskless q) in
  let min_redundancy_at := calc_quorum_at min_redundancy voters in
  negb (qd_quorate_peers q =? 0) ||
  ((quorum_at <=? qd_up_to_date q + qd_present q) && (min_redundancy_at <=? qd_up_to_date q)) ||
  (negb (voters =? 0) && (voters mod 2 =? 0) && (qd_up_to_date q + qd_present q =? quorum_at - 1) &&
   (diskless_majority_at <=? qd_diskless q) && have_now).

(** [calc_quorum]: its result and the device, whose meta-data [check_wrongly_set_mdf_exists] may
    correct. *)
Definition calc_quorum (r : resource) (conns : list connection) (d : device) : bool * device :=
  let with_disk := (D_ATTACHING <? disk_state NEW d) && negb (disk_state OLD d =? D_DISKLESS) && (D_ATTACHING <=? disk_state OLD d) in
  let d := if with_disk then check_wrongly_set_mdf_exists (r_node_id r) d else d in
  let q := if with_disk then __calc_quorum_with_disk conns (r_node_id r) (r_members r) d else __calc_quorum_no_disk conns (r_members r) d in
  (quorum_decision (opt_quorum r) (opt_min_redundancy r) (have_quorum OLD d) q, d).

(** ** Choosing the source of a resync *)

Definition is_sync_target_other_c (j : nat) (d : device) : bool :=
  existsb (fun k => negb (Nat.eqb k j) && match d_peers d !! k with Some p => repl_is_sync_target (repl_state NEW p) | None => false end)
    (seq 0 (length (d_peers d))).

Definition drbd_start_other_targets_paused (j : nat) (d : device) : device :=
  set_peers (imap (fun k p =>
    if negb (Nat.eqb k j) && (D_INCONSISTENT <=? peer_disk_state NEW p) && (repl_state NEW p =? L_ESTABLISHED)
    then set_repl L_PAUSED_SYNC_T p else p) (d_peers d)) d.

Definition drbd_is_sync_target_candidate (p : peer_device) : bool :=
  repl_is_sync_target (repl_state NEW p) &&
  negb (ps_susp_dependency (p_new p) || ps_susp_peer (p_new p) || ps_susp_user (p_new p)) &&
  (D_OUTDATED <=? peer_disk_state NEW p).

(** The last peer device with a property. *)
Definition last_peer (f : peer_device -> bool) (l : list peer_device) : option nat :=
  foldl (fun acc k => match l !! k with Some p => if f p then Some k else acc | None => acc end) None (seq 0 (length l)).

Definition weight_at (l : list peer_device) (k : nat) : Z := match l !! k with Some p => p_weight p | None => 0 end.

(** The candidate with the least to resync; the last of equal ones. *)
Definition lightest_candidate (l : list peer_device) : option nat :=
  foldl (fun acc k =>
    match l !! k with
    | Some p =>
        if negb (drbd_is_sync_target_candidate p) then acc
        else match acc with
             | Some best => if weight_at l best <? p_weight p then acc else Some k
             | None => Some k
             end
    | None => acc
    end) None (seq 0 (length l)).

Definition target_desired (l : list peer_device) : option nat :=
  let current := last_peer (fun p => (repl_state OLD p =? L_SYNC_TARGET) && drbd_is_sync_target_candidate p) l in
  let active := last_peer (fun p => ps_resync_active (p_new p)) l in
  let desired := lightest_candidate l in
  let desired :=
    match current, desired with
    | Some c, Some t => if weight_at l c <? weight_at l t + 256 then current else desired
    | _, _ => desired
    end in
  match desired, active with
  | Some t, Some a => if Nat.eqb t a then desired else None
  | _, _ => desired
  end.

Definition drbd_select_sync_target (d : device) : device :=
  let desired := target_desired (d_peers d) in
  let is_desired k := bool_decide (desired = Some k) in
  set_peers (imap (fun k p =>
    let p := if is_desired k then set_resync_active true p else p in
    let p := set_susp_other_c (bool_decide (is_Some desired) && negb (is_desired k)) p in
    if repl_is_sync_target (repl_state NEW p) then set_repl (if is_desired k then L_SYNC_TARGET else L_PAUSED_SYNC_T) p else p) (d_peers d)) d.

(** ** Sanitizing *)

Definition sanitize_connection (c : connection) : connection :=
  if cstate NEW c <? C_CONNECTED then set_peer_role R_UNKNOWN c else c.

(** [maybe_crashed_primary] *)
Definition lost_primary (hard : bool) (c : connection) : bool :=
  is_primary (peer_role OLD c) && (cstate OLD c =? C_CONNECTED) &&
  (((C_TIMEOUT <=? cstate NEW c) && (cstate NEW c <=? C_PROTOCOL_ERROR)) || ((cstate NEW c =? C_DISCONNECTING) && hard)).

(** The negotiation of an attaching disk: [None] while a peer has not answered. *)
Definition negotiating_peer (p : peer_device) : bool := negb ((peer_disk_state NEW p <? D_NEGOTIATING) || (repl_state NEW p =? L_OFF)).

Definition negotiated_disk (conns : list connection) (my_node_id : nat) (d : device) : option Z :=
  let l := filter (fun p => negotiating_peer p = true) (d_peers d) in
  if existsb (fun p => p_negotiation_result p =? L_NEGOTIATING) l then None
  else
    let no_result := forallb (fun p => p_negotiation_result p =? L_NEG_NO_RESULT) l && negb (bool_decide (l = [])) in
    Some (if no_result then D_DETACHING
          else if existsb (fun p => p_negotiation_result p =? L_WF_BITMAP_T) l then D_INCONSISTENT
          else if existsb (fun p => peer_disk_state NEW p =? D_UP_TO_DATE) l then D_UP_TO_DATE
          else disk_state_from_md conns my_node_id d).

Definition negotiated_repl (conns : list connection) (disk : Z) (p : peer_device) : peer_device :=
  let nr := p_negotiation_result p in
  if (cstate NEW (conn_of conns p) <? C_CONNECTED) || (nr =? L_NEGOTIATING) then p
  else
    let nr := if nr =? L_NEG_NO_RESULT then L_ESTABLISHED else nr in
    if (nr =? L_WF_BITMAP_S) && (disk =? D_INCONSISTENT) then set_repl L_PAUSED_SYNC_S (set_susp_other_c true p)
    else set_repl nr p.

Definition sanitize_negotiation (conns : list connection) (my_node_id : nat) (d : device) : device :=
  if negb (disk_state NEW d =? D_NEGOTIATING) then d
  else
    let d := if negb (disk_state OLD d =? D_NEGOTIATING) then set_peers (map (set_negotiation_result L_NEGOTIATING) (d_peers d)) d else d in
    match negotiated_disk conns my_node_id d with
    | None => d
    | Some disk => set_peers (map (negotiated_repl conns disk) (d_peers d)) (set_disk disk d)
    end.

(** The changes of the disk before. *)
Definition sanitize_disk (ign_outd_fail : bool) (d : device) : device :=
  let d := if (disk_state OLD d =? D_DISKLESS) && (disk_state NEW d =? D_DETACHING) then set_disk D_DISKLESS d else d in
  if ign_outd_fail && (disk_state OLD d <? D_OUTDATED) && (disk_state NEW d =? D_OUTDATED) then set_disk (disk_state OLD d) d else d.

(** The first loop over the peer devices. *)
Definition good_peer (d : device) (p : peer_device) : bool :=
  (peer_disk_state NEW p =? D_UP_TO_DATE) && (no_primary (d_exposed_uuid d) =? no_primary (p_current_uuid p)).

Definition lost_peer (p : peer_device) : bool := (L_ESTABLISHED <=? repl_state OLD p) && (repl_state NEW p <? L_ESTABLISHED).

Definition sanitize_peer_first (ro : drbd_role) (conns : list connection) (d : device) (p : peer_device) : peer_device :=
  let lost := lost_peer p in
  let p :=
    if repl_state NEW p <? L_ESTABLISHED then
      let p := set_susp_peer false p in
      if (D_UNKNOWN <? peer_disk_state NEW p) || (peer_disk_state NEW p <? D_INCONSISTENT) then set_peer_disk D_UNKNOWN p else p
    else p in
  let p := if lost then set_resync_active false p else p in
  let p :=
    if (cstate NEW (conn_of conns p) =? C_STANDALONE) && (disk_state NEW d =? D_DISKLESS) && is_secondary ro
    then set_susp_dependency false p else p in
  if (L_ESTABLISHED <? repl_state NEW p) && ((disk_state NEW d <=? D_FAILED) || (peer_disk_state NEW p <=? D_FAILED))
  then set_resync_active false (set_reconciliation false (set_repl L_ESTABLISHED p)) else p.

(** I/O is suspended while the peer is fenced; [p] is the peer device after the changes above. *)
Definition suspends_fencing (ro_old ro_new : drbd_role) (conns : list connection) (p : peer_device) : bool :=
  bool_decide (c_fencing (conn_of conns p) = FP_STONITH) &&
  (is_primary ro_new && (repl_state NEW p <? L_ESTABLISHED) && (peer_disk_state NEW p =? D_UNKNOWN)) &&
  (negb (is_primary ro_old) || negb (peer_disk_state OLD p =? D_UNKNOWN)).

Definition suspend_fencing (ro_old ro_new : drbd_role) (conns : list connection) (p : peer_device) : list connection :=
  if suspends_fencing ro_old ro_new conns p then alter (set_susp_fen true) (p_conn p) conns else conns.

(** The limits of the disk states by the replication state: minimum and maximum of the local
    disk and of the disk of the peer. *)
Definition disk_limits (rs : Z) : Z * Z * Z * Z :=
  if rs =? L_OFF then (D_DISKLESS, D_UP_TO_DATE, D_INCONSISTENT, D_UNKNOWN)
  else if (rs =? L_WF_BITMAP_T) || (rs =? L_STARTING_SYNC_T) || (rs =? L_WF_SYNC_UUID) || (rs =? L_BEHIND)
  then (D_INCONSISTENT, D_OUTDATED, D_INCONSISTENT, D_UP_TO_DATE)
  else if (rs =? L_VERIFY_S) || (rs =? L_VERIFY_T) then (D_INCONSISTENT, D_UP_TO_DATE, D_INCONSISTENT, D_UP_TO_DATE)
  else if rs =? L_ESTABLISHED then (D_DISKLESS, D_UP_TO_DATE, D_DISKLESS, D_UP_TO_DATE)
  else if (rs =? L_WF_BITMAP_S) || (rs =? L_PAUSED_SYNC_S) || (rs =? L_STARTING_SYNC_S) || (rs =? L_AHEAD)
  then (D_INCONSISTENT, D_UP_TO_DATE, D_INCONSISTENT, D_CONSISTENT)
  else if (rs =? L_PAUSED_SYNC_T) || (rs =? L_SYNC_TARGET) then (D_INCONSISTENT, D_INCONSISTENT, D_INCONSISTENT, D_UP_TO_DATE)
  else if rs =? L_SYNC_SOURCE then (D_INCONSISTENT, D_UP_TO_DATE, D_INCONSISTENT, D_INCONSISTENT)
  else (D_DISKLESS, D_UP_TO_DATE, D_INCONSISTENT, D_UNKNOWN).

Definition clamp (lo hi x : Z) : Z := let x := if hi <? x then hi else x in if x <? lo then lo else x.

Definition drbd_change_to_inconsistent (old new c_old c_new : Z) : bool :=
  negb ((old =? D_INCONSISTENT) && (c_old =? C_CONNECTED)) && ((new =? D_INCONSISTENT) && (c_new =? C_CONNECTED)).

(** The second loop: one step for each paragraph of the code, on the device and the place [j] of
    the peer device. *)
Definition at_peer (j : nat) (d : device) (f : peer_device -> device) : device :=
  match d_peers d !! j with Some p => f p | None => d end.

Definition pause_source (j : nat) (d : device) : device :=
  at_peer j d (fun p =>
    let d :=
      if negb (repl_state OLD p =? L_SYNC_SOURCE) && (repl_state NEW p =? L_SYNC_SOURCE) && is_sync_target_other_c j d
      then upd_peer j (set_susp_other_c true) d else d in
    at_peer j d (fun p =>
      if resync_suspended NEW d p then if repl_state NEW p =? L_SYNC_SOURCE then upd_peer j (set_repl L_PAUSED_SYNC_S) d else d
      else if repl_state NEW p =? L_PAUSED_SYNC_S then upd_peer j (set_repl L_SYNC_SOURCE) d else d)).

Definition start_targets (j : nat) (d : device) : device :=
  at_peer j d (fun p =>
    if negb (repl_state OLD p =? L_STARTING_SYNC_T) && (repl_state NEW p =? L_STARTING_SYNC_T) then drbd_start_other_targets_paused j d else d).

Definition consistent_vanishes (conns : list connection) (j : nat) (d : device) : device :=
  at_peer j d (fun p =>
    if (c_pro_version (conn_of conns p) <? 110) && (L_ESTABLISHED <=? repl_state NEW p) && (repl_state NEW p <? L_AHEAD) then
      let d := if disk_state NEW d =? D_CONSISTENT then set_disk D_UP_TO_DATE d else d in
      if peer_disk_state NEW p =? D_CONSISTENT then upd_peer j (set_peer_disk D_UP_TO_DATE) d else d
    else d).

Definition limit_disks (j : nat) (d : device) : device :=
  at_peer j d (fun p =>
    let '(min_disk, max_disk, min_peer_disk, max_peer_disk) := disk_limits (repl_state NEW p) in
    let pdsk := clamp min_peer_disk max_peer_disk (peer_disk_state NEW p) in
    let pdsk := if (peer_disk_state OLD p =? D_DISKLESS) && ((pdsk =? D_FAILED) || (pdsk =? D_DETACHING)) then D_DISKLESS else pdsk in
    upd_peer j (set_peer_disk pdsk) (set_disk (clamp min_disk max_disk (disk_state NEW d)) d)).

Definition upgrade_disk (conns : list connection) (my_node_id : nat) (j : nat) (d : device) : device :=
  at_peer j d (fun p =>
    let d :=
      if (repl_state NEW p =? L_ESTABLISHED) && (disk_state NEW d =? D_OUTDATED) && (D_CONSISTENT <=? peer_disk_state NEW p) &&
         UUIDS_RECEIVED p && UUID_STABLE p &&
         ((repl_state OLD p <? L_ESTABLISHED) || UUID_GOT_STABLE p || (peer_disk_state OLD p =? D_OUTDATED))
      then set_disk (peer_disk_state NEW p) d else d in
    let d :=
      if (repl_state OLD p =? L_WF_BITMAP_T) && (repl_state NEW p =? L_OFF) && (disk_state NEW d =? D_OUTDATED) &&
         stable_up_to_date_neighbor d && may_be_up_to_date conns my_node_id NEW d
      then set_disk D_UP_TO_DATE d else d in
    let d :=
      if (repl_state OLD p <? L_ESTABLISHED) && (L_ESTABLISHED <=? repl_state NEW p) && (disk_state NEW d =? D_CONSISTENT) &&
         may_be_up_to_date conns my_node_id NEW d
      then set_disk D_UP_TO_DATE d else d in
    let d :=
      if (disk_state NEW d =? D_CONSISTENT) && (peer_disk_state OLD p =? D_CONSISTENT) && (peer_disk_state NEW p =? D_UP_TO_DATE) && UUID_STABLE p
      then set_disk D_UP_TO_DATE d else d in
    upd_peer j (set_got_stable false) d).

Definition uuids_match (d : device) (p : peer_device) : bool := no_primary (p_current_uuid p) =? no_primary (d_current_uuid d).

Definition diskless_primary (conns : list connection) (j : nat) (d : device) : device :=
  at_peer j d (fun p =>
    if bool_decide (peer_role OLD (conn_of conns p) = R_UNKNOWN) && is_primary (peer_role NEW (conn_of conns p)) &&
       (peer_disk_state NEW p =? D_DISKLESS) && (D_NEGOTIATING <=? disk_state NEW d)
    then
      if uuids_match d p && negb (is_sync_target_other_c j d)
      then if disk_state OLD d <? D_UP_TO_DATE then set_disk D_UP_TO_DATE d else d
      else
        let d := set_try_resync true d in
        if disk_state NEW d =? D_UP_TO_DATE then set_disk D_CONSISTENT d else d
    else d).

(** The peer claims to be up to date but has other data. *)
Definition distrusted (ro_new : drbd_role) (c : connection) (have_good_peer : bool) (d : device) (p : peer_device) : bool :=
  if c_rs_skip_uuid c then
    (have_good_peer || negb (d_exposed_uuid d =? 0)) && negb (peer_disk_state OLD p =? D_UP_TO_DATE) &&
    negb (no_primary (d_exposed_uuid d) =? no_primary (p_current_uuid p))
  else (peer_disk_state OLD p =? D_UNKNOWN) && is_primary ro_new && negb (uuids_match d p).

Definition distrust_peer (ro_new : drbd_role) (conns : list connection) (have_good_peer : bool) (j : nat) (d : device) : device :=
  at_peer j d (fun p =>
    if (disk_state NEW d =? D_DISKLESS) && (peer_disk_state NEW p =? D_UP_TO_DATE) && distrusted ro_new (conn_of conns p) have_good_peer d p
    then upd_peer j (set_peer_disk D_CONSISTENT) d else d).

Definition decide_replication (conns : list connection) (j : nat) (d : device) : device :=
  at_peer j d (fun p =>
    let c := conn_of conns p in
    let d :=
      if drbd_change_to_inconsistent (disk_state OLD d) (disk_state NEW d) (cstate OLD c) (cstate NEW c) ||
         (negb (repl_is_sync_target (repl_state OLD p)) && repl_is_sync_target (repl_state NEW p))
      then upd_peer j (set_peer_replication (PEER_REPLICATION_NEXT p)) d else d in
    let d :=
      if drbd_change_to_inconsistent (peer_disk_state OLD p) (peer_disk_state NEW p) (cstate OLD c) (cstate NEW c) ||
         (negb (repl_is_sync_source (repl_state OLD p)) && repl_is_sync_source (repl_state NEW p))
      then upd_peer j (set_replication (REPLICATION_NEXT p)) d else d in
    if (peer_disk_state OLD p =? D_INCONSISTENT) && negb (peer_disk_state NEW p =? D_INCONSISTENT)
    then upd_peer j (set_replication true) d else d).

Definition sanitize_peer_second (ro_new : drbd_role) (conns : list connection) (my_node_id : nat) (have_good_peer : bool) (d : device) (j : nat) : device :=
  decide_replication conns j
    (distrust_peer ro_new conns have_good_peer j
      (diskless_primary conns j
        (upgrade_disk conns my_node_id j (limit_disks j (consistent_vanishes conns j (start_targets j (pause_source j d))))))).

(** What the devices tell about the resource. *)
Record san_acc := mk_acc {
  a_conns : list connection;
  a_have_access : bool;
  a_lost_access : bool;
  a_has_quorum : bool }.

(** The body of the loop over the devices, by its paragraphs: the disk, the peer devices up to the
    choice of a resync source, the peer devices after it, the quorum, and the disk again. *)
Definition sanitize_peers_first (r : resource) (conns : list connection) (d : device) : device :=
  drbd_select_sync_target (set_peers (map (sanitize_peer_first (role NEW r) conns d) (d_peers d)) d).

Definition sanitize_peers_second (r : resource) (conns : list connection) (have_good_peer : bool) (d : device) : device :=
  foldl (sanitize_peer_second (role NEW r) conns (r_node_id r) have_good_peer) d (seq 0 (length (d_peers d))).

Definition sanitize_quorum (r : resource) (conns : list connection) (d : device) : device :=
  let '(q, d) := if bool_decide (opt_quorum r = QOU_OFF) then (true, d) else calc_quorum r conns d in
  let d := set_have_quorum q d in
  if negb q && (disk_state NEW d =? D_UP_TO_DATE) && RESTORE_QUORUM d then set_restoring true (set_have_quorum true d) else d.

Definition sanitize_disk_last (r : resource) (conns : list connection) (lost_connection crashed : bool) (d : device) : device :=
  let d := if lost_connection && (disk_state NEW d =? D_NEGOTIATING) then set_disk (disk_state_from_md conns (r_node_id r) d) d else d in
  if crashed && (disk_state NEW d =? D_UP_TO_DATE) && is_secondary (role OLD r) then set_disk D_CONSISTENT d else d.

Definition sanitize_device (r : resource) (crashed : bool) (a : san_acc) (d : device) : san_acc * device :=
  let ro := role NEW r in
  let conns := a_conns a in
  let d := sanitize_negotiation conns (r_node_id r) (sanitize_disk (CS_IGN_OUTD_FAIL (r_flags r)) d) in
  let have_good_peer := existsb (good_peer d) (d_peers d) in
  let lost_connection := existsb lost_peer (d_peers d) in
  let conns := foldl (suspend_fencing (role OLD r) ro) conns (map (sanitize_peer_first ro conns d) (d_peers d)) in
  let d := sanitize_quorum r conns (sanitize_peers_second r conns have_good_peer (sanitize_peers_first r (a_conns a) d)) in
  let no_access := is_primary ro && negb (drbd_data_accessible conns NEW d) in
  let lost_access := no_access && (negb (is_primary (role OLD r)) || drbd_data_accessible conns OLD d) in
  (mk_acc conns (a_have_access a && negb no_access) (a_lost_access a || lost_access) (a_has_quorum a && have_quorum NEW d),
   sanitize_disk_last r conns lost_connection crashed d).

Fixpoint sanitize_devices (r : resource) (crashed : bool) (a : san_acc) (l : list device) : san_acc * list device :=
  match l with
  | [] => (a, [])
  | d :: l =>
      let '(a, d) := sanitize_device r crashed a d in
      let '(a, l) := sanitize_devices r crashed a l in
      (a, d :: l)
  end.

(** [drbd_open_counts], the read-write count *)
Definition rw_count (l : list device) : Z := foldr (fun d n => (if writable d then open_cnt d else 0) + n) 0 l.

Definition sanitize_state (r : resource) : resource :=
  let conns := map sanitize_connection (r_conns r) in
  let crashed := existsb (lost_primary (CS_HARD (r_flags r))) (r_conns r) && negb (existsb (fun c => is_primary (peer_role NEW c)) conns) in
  let '(a, devs) := sanitize_devices r crashed (mk_acc conns true false true) (r_devs r) in
  let s := r_new r in
  let s := if a_have_access a then set_susp_nod false s else s in
  let s := if a_lost_access a && bool_decide (opt_on_no_data r = OND_SUSPEND_IO) then set_susp_nod true s else s in
  let s := set_susp_quorum (if bool_decide (opt_on_no_quorum r = ONQ_SUSPEND_IO) then negb (a_has_quorum a) else false) s in
  let s :=
    if negb (rs_susp_uuid (r_old r)) && resource_is_suspended OLD (r_old r) (a_conns a) && negb (resource_is_suspended NEW s (a_conns a)) &&
       existsb NEW_CUR_UUID devs
    then set_susp_uuid true s else s in
  let s :=
    if is_primary (role OLD r) && is_secondary (role NEW r) && CS_FS_IGN_OPENERS (r_flags r) && negb (rw_count devs =? 0)
    then set_fail_io true s else s in
  upd_res s (a_conns a) devs r.

(** ** Validation *)

(** The first error of a sequence of checks. *)
Definition check (bad : bool) (rv : drbd_state_rv) (k : drbd_state_rv) : drbd_state_rv := if bad then rv else k.

Fixpoint first_error {A} (f : A -> drbd_state_rv) (l : list A) : drbd_state_rv :=
  match l with
  | [] => SS_SUCCESS
  | x :: l => if decide (f x = SS_SUCCESS) then first_error f l else f x
  end.

Definition local_disk_may_be_outdated (r : resource) (d : device) : bool :=
  if is_primary (role NEW r) then
    existsb (fun p => (peer_disk_state NEW p =? D_UP_TO_DATE) && (repl_state NEW p =? L_WF_BITMAP_T)) (d_peers d)
  else
    match find (fun p => is_primary (peer_role NEW (conn_of (r_conns r) p)) && (L_OFF <? repl_state NEW p)) (d_peers d) with
    | None => true
    | Some p =>
        ((peer_disk_state NEW p =? D_DISKLESS) && (repl_state OLD p =? L_OFF) && (repl_state NEW p =? L_ESTABLISHED)) ||
        existsb (fun p => let s := repl_state NEW p in
          (s =? L_WF_SYNC_UUID) || (s =? L_WF_BITMAP_T) || (s =? L_STARTING_SYNC_T) || (s =? L_SYNC_TARGET) || (s =? L_PAUSED_SYNC_T) || (s =? L_BEHIND))
          (d_peers d)
    end.

Definition in_handshake (r : resource) : bool :=
  existsb (fun d => existsb (fun p => HOLDING_UUID_READ_LOCK p && (repl_state OLD p =? L_OFF)) (d_peers d)) (r_devs r).

Definition promotes (r : resource) : bool := negb (is_primary (role OLD r)) && is_primary (role NEW r).

(** [!nc || nc->two_primaries] and [nc ? nc->two_primaries : false] *)
Definition two_primaries_or_no_conf (c : connection) : bool := match c_net_conf c with Some nc => two_primaries nc | None => true end.
Definition two_primaries_allowed (c : connection) : bool := match c_net_conf c with Some nc => two_primaries nc | None => false end.

Definition check_role (r : resource) : drbd_state_rv :=
  check (promotes r && existsb (fun c => negb (two_primaries_or_no_conf c) && is_primary (peer_role NEW c)) (r_conns r)) SS_TWO_PRIMARIES
  (check (in_handshake r && negb (bool_decide (role OLD r = role NEW r))) SS_IN_TRANSIENT_STATE
  (check (is_secondary (role OLD r) && is_primary (role NEW r) && rs_fail_io (r_new r)) SS_DEVICE_IN_USE SS_SUCCESS)).

Definition check_connection (r : resource) (c : connection) : drbd_state_rv :=
  let new_primary := is_primary (peer_role NEW c) && negb (is_primary (peer_role OLD c)) && negb (two_primaries_allowed c) in
  check ((cstate NEW c =? C_DISCONNECTING) && (cstate OLD c =? C_STANDALONE)) SS_ALREADY_STANDALONE
  (check ((cstate NEW c =? C_CONNECTING) && (cstate OLD c <? C_UNCONNECTED)) SS_NO_NET_CONFIG
  (check ((cstate NEW c =? C_DISCONNECTING) && (cstate OLD c =? C_UNCONNECTED)) SS_IN_TRANSIENT_STATE
  (check (new_primary && is_primary (role OLD r)) SS_TWO_PRIMARIES
  (check (new_primary && negb (rs_fail_io (r_new r)) && existsb (fun d => negb (writable d) && negb (open_cnt d =? 0)) (r_devs r))
     SS_PRIMARY_READER SS_SUCCESS)))).

Definition verifies (w : which_state) (p : peer_device) : bool := (repl_state w p =? L_VERIFY_S) || (repl_state w p =? L_VERIFY_T).

(** The checks for a peer device. *)
Definition check_peer_device (r : resource) (d : device) (p : peer_device) : drbd_state_rv :=
  let c := conn_of (r_conns r) p in
  let unfenced w := is_primary (role w r) && (repl_state w p <? L_ESTABLISHED) && negb (peer_disk_state w p <=? D_OUTDATED) in
  let no_disk w := (L_ESTABLISHED <? repl_state w p) && (disk_state w d <? D_INCONSISTENT) in
  let no_peer_disk w := (L_ESTABLISHED <? repl_state w p) && (peer_disk_state w p <? D_INCONSISTENT) in
  let starting := (repl_state NEW p =? L_STARTING_SYNC_T) || (repl_state NEW p =? L_STARTING_SYNC_S) in
  let same := repl_state NEW p =? repl_state OLD p in
  check (negb (bool_decide (c_fencing c = FP_DONT_CARE)) && negb (unfenced OLD) && unfenced NEW) SS_PRIMARY_NOP
  (check (negb (no_disk OLD) && no_disk NEW) SS_NO_LOCAL_DISK
  (check (negb (no_peer_disk OLD) && no_peer_disk NEW) SS_NO_REMOTE_DISK
  (check ((D_OUTDATED <? disk_state OLD d) && (disk_state NEW d =? D_OUTDATED) && negb (local_disk_may_be_outdated r d)) SS_CONNECTED_OUTDATES
  (check (negb (verifies OLD p) && verifies NEW p && match c_net_conf c with Some nc => negb (has_verify_alg nc) | None => true end) SS_NO_VERIFY_ALG
  (check (negb (verifies OLD p) && verifies NEW p && (c_pro_version c <? 88)) SS_NOT_SUPPORTED
  (check (repl_is_sync_source (repl_state OLD p) && (repl_state NEW p =? L_WF_BITMAP_S)) SS_RESYNC_RUNNING
  (check (repl_is_sync_target (repl_state OLD p) && (repl_state NEW p =? L_WF_BITMAP_T)) SS_RESYNC_RUNNING
  (check (negb same && starting && (L_ESTABLISHED <? repl_state OLD p)) SS_RESYNC_RUNNING
  (check (verifies NEW p && (repl_state OLD p <? L_ESTABLISHED)) SS_NEED_CONNECTION
  (check (verifies NEW p && negb same && (L_ESTABLISHED <? repl_state OLD p)) SS_RESYNC_RUNNING
  (check (starting && (repl_state OLD p <? L_ESTABLISHED)) SS_NEED_CONNECTION
  (check (((repl_state NEW p =? L_SYNC_TARGET) || (repl_state NEW p =? L_SYNC_SOURCE)) && (repl_state OLD p <? L_OFF)) SS_NEED_CONNECTION
  (check ((D_DISKLESS <? peer_disk_state NEW p) && negb (peer_disk_state NEW p =? D_UNKNOWN) && (peer_disk_state OLD p =? D_DISKLESS) && negb (p_bitmap p))
     SS_ATTACH_NO_BITMAP SS_SUCCESS))))))))))))).

(** The loop over the peer devices of a device counts the disks that negotiate. *)
Fixpoint check_peer_devices (r : resource) (d : device) (nr_negotiating : Z) (l : list peer_device) : drbd_state_rv :=
  match l with
  | [] => SS_SUCCESS
  | p :: l =>
      let n := if peer_disk_state NEW p =? D_NEGOTIATING then nr_negotiating + 1 else nr_negotiating in
      if 1 <? n then SS_IN_TRANSIENT_STATE
      else if decide (check_peer_device r d p = SS_SUCCESS) then check_peer_devices r d n l else check_peer_device r d p
  end.

Definition check_device (r : resource) (d : device) : drbd_state_rv :=
  let accessible w := drbd_data_accessible (r_conns r) w d in
  check (in_handshake r && (((disk_state OLD d <? D_ATTACHING) && (disk_state NEW d =? D_ATTACHING)) ||
                            ((D_DETACHING <? disk_state OLD d) && (disk_state NEW d =? D_DETACHING)))) SS_IN_TRANSIENT_STATE
  (check (is_primary (role OLD r) && is_secondary (role NEW r) && writable d && negb (CS_FS_IGN_OPENERS (r_flags r))) SS_DEVICE_IN_USE
  (check ((D_ATTACHING <? disk_state NEW d) && (disk_state OLD d =? D_DISKLESS)) SS_IS_DISKLESS
  (check ((disk_state NEW d =? D_OUTDATED) && (disk_state OLD d <? D_OUTDATED) && negb (disk_state OLD d =? D_ATTACHING) &&
          negb (disk_state OLD d =? D_NEGOTIATING) &&
          negb (existsb (fun p => (repl_state OLD p =? L_SYNC_TARGET) && (repl_state NEW p =? L_ESTABLISHED)) (d_peers d))) SS_LOWER_THAN_OUTDATED
  (check (negb (is_primary (role OLD r) && negb (accessible OLD)) && (is_primary (role NEW r) && negb (accessible NEW))) SS_NO_UP_TO_DATE_DISK
  (check (negb (writable d) && negb (open_cnt d =? 0) && accessible OLD && negb (accessible NEW)) SS_NO_UP_TO_DATE_DISK
  (check ((is_secondary (role OLD r) || have_quorum OLD d) && is_primary (role NEW r) && negb (have_quorum NEW d)) SS_NO_QUORUM
     (check_peer_devices r d (if disk_state NEW d =? D_NEGOTIATING then 1 else 0) (d_peers d)))))))).

Definition is_valid_soft_transition (r : resource) : drbd_state_rv :=
  if decide (check_role r = SS_SUCCESS) then
    if decide (first_error (check_connection r) (r_conns r) = SS_SUCCESS) then first_error (check_device r) (r_devs r)
    else first_error (check_connection r) (r_conns r)
  else check_role r.

Definition is_valid_conn_transition (oc nc : Z) : drbd_state_rv :=
  check (oc =? nc) SS_NOTHING_TO_DO
  (check ((oc =? C_STANDALONE) && (nc =? C_DISCONNECTING)) SS_ALREADY_STANDALONE
  (check ((oc =? C_STANDALONE) && negb (nc =? C_UNCONNECTED)) SS_NEED_CONNECTION
  (check ((C_TIMEOUT <=? oc) && (oc <=? C_TEAR_DOWN) && negb (nc =? C_UNCONNECTED) && negb (nc =? C_DISCONNECTING)) SS_IN_TRANSIENT_STATE
  (check ((oc =? C_DISCONNECTING) && negb (nc =? C_STANDALONE)) SS_IN_TRANSIENT_STATE SS_SUCCESS)))).

Definition is_valid_transition (r : resource) : drbd_state_rv :=
  let conn c := let rv := is_valid_conn_transition (cstate OLD c) (cstate NEW c) in if rv_ok rv then SS_SUCCESS else rv in
  let dev d := check (((disk_state NEW d =? D_FAILED) || (disk_state NEW d =? D_DETACHING)) && (disk_state OLD d =? D_DISKLESS)) SS_IS_DISKLESS SS_SUCCESS in
  if decide (first_error conn (r_conns r) = SS_SUCCESS) then first_error dev (r_devs r) else first_error conn (r_conns r).

(** ** The state change *)

Definition conn_changed (c : connection) : bool :=
  negb (cstate OLD c =? cstate NEW c) || negb (bool_decide (peer_role OLD c = peer_role NEW c)) || negb (Bool.eqb (susp_fen OLD c) (susp_fen NEW c)).

Definition pd_changed (p : peer_device) : bool :=
  let o := p_old p in let n := p_new p in
  negb (ps_disk o =? ps_disk n) || negb (ps_repl o =? ps_repl n) || negb (Bool.eqb (ps_susp_user o) (ps_susp_user n)) ||
  negb (Bool.eqb (ps_susp_peer o) (ps_susp_peer n)) || negb (Bool.eqb (ps_susp_dependency o) (ps_susp_dependency n)) ||
  negb (Bool.eqb (ps_susp_other_c o) (ps_susp_other_c n)) || negb (Bool.eqb (ps_resync_active o) (ps_resync_active n)) ||
  negb (Bool.eqb (ps_replication o) (ps_replication n)) || negb (Bool.eqb (ps_peer_replication o) (ps_peer_replication n)) || UUID_GOT_STABLE p.

Definition dev_changed (d : device) : bool :=
  negb (disk_state OLD d =? disk_state NEW d) || negb (Bool.eqb (have_quorum OLD d) (have_quorum NEW d)) || existsb pd_changed (d_peers d).

Definition state_has_changed (r : resource) : bool :=
  let o := r_old r in let n := r_new r in
  CS_FORCE_RECALC (r_flags r) || negb (bool_decide (rs_role o = rs_role n)) || negb (Bool.eqb (rs_susp_user o) (rs_susp_user n)) ||
  negb (Bool.eqb (rs_susp_nod o) (rs_susp_nod n)) || negb (Bool.eqb (rs_susp_quorum o) (rs_susp_quorum n)) ||
  negb (Bool.eqb (rs_susp_uuid o) (rs_susp_uuid n)) || negb (Bool.eqb (rs_fail_io o) (rs_fail_io n)) ||
  existsb conn_changed (r_conns r) || existsb dev_changed (r_devs r).

Definition try_state_change (r : resource) : drbd_state_rv * resource :=
  if negb (state_has_changed r) then (SS_NOTHING_TO_DO, r)
  else
    let r := sanitize_state r in
    let rv := is_valid_transition r in
    (if rv_ok rv && negb (CS_HARD (r_flags r)) then is_valid_soft_transition r else rv, r).

(** Copies of the state, from [NOW] to [NEW] and back. *)
Definition begin_pd (p : peer_device) : peer_device := upd_pd (fun _ => p_old p) p.
Definition begin_conn (c : connection) : connection := upd_conn (fun _ => c_old c) c.
Definition begin_dev (d : device) : device :=
  upd_dev (d_old d) (map begin_pd (d_peers d)) (d_md d) (RESTORING_QUORUM d) (TRY_TO_GET_RESYNC d) d.
Definition ___begin_state_change (r : resource) : resource := upd_res (r_old r) (map begin_conn (r_conns r)) (map begin_dev (r_devs r)) r.

End engine.

(** An instance, to run the definitions on. *)
Program Definition small_state_headers : StateHeaders := {|
  state_headers := small_headers;
  D_ATTACHING := 1; D_DETACHING := 2;
  L_STARTING_SYNC_S := 11; L_STARTING_SYNC_T := 12; L_WF_SYNC_UUID := 15; L_VERIFY_S := 18; L_VERIFY_T := 19; L_AHEAD := 22;
  L_NEGOTIATING := 9; L_NEG_NO_RESULT := 24;
  C_STANDALONE := 0; C_DISCONNECTING := 1; C_UNCONNECTED := 2; C_TIMEOUT := 3; C_PROTOCOL_ERROR := 6; C_TEAR_DOWN := 7;
  C_CONNECTING := 8; C_CONNECTED := 9; QOU_OFF_NR := 0 |}.
Next Obligation. cbn; lia. Qed.
Next Obligation. cbn; lia. Qed.
Next Obligation. cbn; lia. Qed.
