(* ===== verification/StateQuorum.v ===== *)
(** * Quorum: two partitions never have it at once

    The nodes of a cluster are the voters [V], which have a disk, and the tie-breakers [T], which
    are diskless on purpose.  A node of a partition sees the nodes of its partition connected and
    all others gone.  The theorem at the end is the promise of [calc_quorum]. *)
From S2P Require Import Prelude Headers State.

(** ** Counting nodes *)

Fixpoint tally (f : nat -> bool) (l : list nat) : Z :=
  match l with
  | [] => 0
  | i :: l => (if f i then 1 else 0) + tally f l
  end.

Lemma tally_nonneg f l : 0 <= tally f l.
Proof. induction l as [|i l IH]; cbn; [lia|]. destruct (f i); lia. Qed.

Lemma tally_ext f g l : (forall i, i ∈ l -> f i = g i) -> tally f l = tally g l.
Proof.
  induction l as [|i l IH]; intros Hfg; cbn; [done|]. rewrite (Hfg i), IH by set_solver. done.
Qed.

Lemma tally_ge_1 f l i : i ∈ l -> f i = true -> 1 <= tally f l.
Proof.
  intros Hi Hf. induction l as [|j l IH]; [by apply elem_of_nil in Hi|]. cbn. pose proof (tally_nonneg f l).
  apply elem_of_cons in Hi as [<-|Hi]; [rewrite Hf; lia|]. specialize (IH Hi). destruct (f j); lia.
Qed.

(** Disjoint sets of nodes. *)
Lemma tally_disjoint f g h l :
  (forall i, f i = true -> g i = true -> False) -> (forall i, f i = true -> h i = true) -> (forall i, g i = true -> h i = true) ->
  tally f l + tally g l <= tally h l.
Proof.
  intros Hfg Hf Hg. induction l as [|i l IH]; cbn; [lia|]. specialize (Hfg i). specialize (Hf i). specialize (Hg i).
  destruct (f i), (g i); try (exfalso; by apply Hfg); destruct (h i); try lia; exfalso; naive_solver.
Qed.

Lemma tally_split f g h l : (forall i, h i = xorb (f i) (g i) /\ f i && g i = false) -> tally f l + tally g l = tally h l.
Proof.
  intros Hh. induction l as [|i l IH]; cbn; [lia|]. destruct (Hh i) as [-> Hfg]. destruct (f i), (g i); cbn in *; try done; lia.
Qed.

(** ** Counting votes *)

Definition is_here (v : vote) : bool := match v with V_UP_TO_DATE | V_PRESENT => true | _ => false end.
Definition is_gone (v : vote) : bool := match v with V_OUTDATED | V_QUORUMLESS | V_UNKNOWN => true | _ => false end.
Definition is_unknown (v : vote) : bool := match v with V_UNKNOWN => true | _ => false end.
Definition is_unknown_or_quorumless (v : vote) : bool := match v with V_UNKNOWN | V_QUORUMLESS => true | _ => false end.
Definition is_diskless (v : vote) : bool := match v with V_DISKLESS => true | _ => false end.
Definition is_missing_diskless (v : vote) : bool := match v with V_MISSING_DISKLESS => true | _ => false end.

(** The counts of a fold of votes are tallies. *)
Lemma fold_votes (votes : nat -> vote) l q0 :
  let q := foldl (fun q id => add_vote (votes id) q) q0 l in
  qd_up_to_date q + qd_present q = qd_up_to_date q0 + qd_present q0 + tally (fun i => is_here (votes i)) l /\
  qd_outdated q + qd_quorumless q + qd_unknown q = qd_outdated q0 + qd_quorumless q0 + qd_unknown q0 + tally (fun i => is_gone (votes i)) l /\
  qd_unknown q = qd_unknown q0 + tally (fun i => is_unknown (votes i)) l /\
  qd_unknown q + qd_quorumless q = qd_unknown q0 + qd_quorumless q0 + tally (fun i => is_unknown_or_quorumless (votes i)) l /\
  qd_diskless q = qd_diskless q0 + tally (fun i => is_diskless (votes i)) l /\
  qd_missing_diskless q = qd_missing_diskless q0 + tally (fun i => is_missing_diskless (votes i)) l /\
  qd_quorate_peers q = qd_quorate_peers q0 /\
  (0 <= qd_outdated q0 -> 0 <= qd_quorumless q0 -> 0 <= qd_outdated q /\ 0 <= qd_quorumless q).
Proof.
  revert q0. induction l as [|i l IH]; intros q0; cbn; [repeat split; lia|].
  destruct (IH (add_vote (votes i) q0)) as (E1 & E2 & E3 & E4 & E5 & E6 & E7 & E8).
  set (q := foldl _ _ _) in *. clearbody q. destruct (votes i); cbn in *; repeat split; try lia; apply E8; lia.
Qed.

(** ** The decision

    [n] voters of which [here] are connected; the rest is gone. *)

Section decision.
Context `{StateHeaders}.

(** What the decision uses of the counts. *)
Record counted (n t here friends : Z) (q : quorum_detail) : Prop := {
  q_here : qd_up_to_date q + qd_present q = here;
  q_gone : qd_outdated q + qd_quorumless q + qd_unknown q = n - here;
  q_friends : qd_diskless q = friends;
  q_missing : qd_missing_diskless q = t - friends;
  q_direct : qd_quorate_peers q = 0;
  q_nonneg : 0 <= qd_outdated q /\ 0 <= qd_quorumless q /\ 0 <= qd_unknown q }.

(** With an unknown node the whole cluster is the base: quorum needs [quorum_at] voters, or one less
    with the majority of the tie-breakers and quorum before. *)
Lemma decision_unknown s mr have_now n t here friends q :
  counted n t here friends q ->
  0 < qd_unknown q \/ (0 < qd_unknown q + qd_quorumless q /\ calc_quorum_at s n <= n - here) ->
  quorum_decision s mr have_now q = true ->
  calc_quorum_at s n <= here \/
  (n mod 2 = 0 /\ here = calc_quorum_at s n - 1 /\ t < 2 * friends /\ have_now = true).
Proof.
  intros [Hhere Hgone Hfr Hmiss Hd Hnn] Hun. unfold quorum_decision. rewrite Hgone, Hfr, Hmiss, Hd, Hhere.
  replace (n - here + qd_up_to_date q + qd_present q) with n by lia.
  set (missing_win := calc_quorum_at s n <=? n - here).
  assert (negb ((if missing_win then qd_unknown q + qd_quorumless q else qd_unknown q) =? 0) = true) as ->.
  { apply negb_true_iff, Z.eqb_neq. unfold missing_win. destruct (Z.leb_spec (calc_quorum_at s n) (n - here)); lia. }
  replace (qd_outdated q + (if missing_win then 0 else qd_quorumless q) + (if missing_win then qd_unknown q + qd_quorumless q else qd_unknown q) +
           qd_up_to_date q + qd_present q) with n by (destruct missing_win; lia).
  replace (friends + (t - friends)) with t by lia. cbn [negb Z.eqb orb calc_quorum_at].
  intros [Hq|Hq]%orb_prop; [left; lia|]. right. repeat (apply andb_prop in Hq as [Hq ?]). reflect_bools.
  repeat split; try lia; [|done]. pose proof (Z.div_mod t 2). pose proof (Z.mod_pos_bound t 2). lia.
Qed.

(** Two sides of the same cluster with disjoint voters and tie-breakers. *)
Lemma decisions_exclusive s mr1 mr2 now1 now2 n t here1 here2 friends1 friends2 q1 q2 :
  counted n t here1 friends1 q1 -> counted n t here2 friends2 q2 ->
  here1 + here2 <= n -> friends1 + friends2 <= t -> n < 2 * calc_quorum_at s n ->
  0 < qd_unknown q1 + qd_quorumless q1 -> 0 < qd_unknown q2 + qd_quorumless q2 ->
  (now1 = false \/ now2 = true -> 0 < qd_unknown q1) -> (now2 = false \/ now1 = true -> 0 < qd_unknown q2) ->
  quorum_decision s mr1 now1 q1 && quorum_decision s mr2 now2 q2 = false.
Proof.
  intros C1 C2 Hsum Hfr Hmaj Hq1 Hq2 Hu1 Hu2. apply not_true_is_false. intros [D1 D2]%andb_prop.
  pose proof (fun Hu => decision_unknown _ _ _ _ _ _ _ _ C1 Hu D1) as R1.
  pose proof (fun Hu => decision_unknown _ _ _ _ _ _ _ _ C2 Hu D2) as R2.
  pose proof (Z.div_mod n 2). destruct now1, now2.
  - specialize (R1 (or_introl (Hu1 (or_intror eq_refl)))). specialize (R2 (or_introl (Hu2 (or_intror eq_refl)))). lia.
  - specialize (R2 (or_introl (Hu2 (or_introl eq_refl)))). destruct R2 as [R2|(_ & _ & _ & [=])].
    destruct R1 as [R1|R1]; [right; lia|lia..].
  - specialize (R1 (or_introl (Hu1 (or_introl eq_refl)))). destruct R1 as [R1|(_ & _ & _ & [=])].
    destruct R2 as [R2|R2]; [right; lia|lia..].
  - specialize (R1 (or_introl (Hu1 (or_introl eq_refl)))). specialize (R2 (or_introl (Hu2 (or_introl eq_refl)))).
    destruct R1 as [R1|(_ & _ & _ & [=])], R2 as [R2|(_ & _ & _ & [=])]. lia.
Qed.
End decision.

(** ** What a node sees *)

Section partitions.
Context `{StateHeaders}.

(** The voters [V], the tie-breakers [T] and the partition [A] of the node [my], as its device [d]
    has them after a change: it has a disk itself, knows every node, has the nodes of its partition
    connected and no others. *)
Record sees (V T A : nat -> bool) (conns : list connection) (my : nat) (d : device) : Prop := {
  sees_self : (my < DRBD_NODE_ID_MAX)%nat /\ V my = true /\ A my = true;
  sees_disk : D_ATTACHING < disk_state NEW d /\ D_ATTACHING <= disk_state OLD d;
  sees_voter i : V i = true -> i <> my -> exists p, peer_device_by_node_id d i = Some p /\
    p_bitmap p = true /\ no_remote_read (conn_of conns p) = false /\ MD_HAVE_BITMAP (d_md d !!! i) = true /\
    (repl_state NEW p =? L_OFF) = negb (A i);
  sees_tiebreaker i : T i = true -> V i = false /\ exists p, peer_device_by_node_id d i = Some p /\
    p_bitmap p = false /\ p_tiebreaker p = true /\ no_remote_read (conn_of conns p) = false /\ MD_NODE_EXISTS (d_md d !!! i) = true /\
    (repl_state NEW p =? L_OFF) = negb (A i) /\ (A i = true -> peer_disk_state NEW p = D_DISKLESS);
  sees_other i : V i = false -> T i = false ->
    MD_HAVE_BITMAP (d_md d !!! i) || MD_NODE_EXISTS (d_md d !!! i) || MD_PEER_DEVICE_SEEN (d_md d !!! i) = false }.

Lemma imap_lookup_total {A} `{!Inhabited A} (f : nat -> A -> A) (l : list A) i : f i inhabitant = inhabitant -> imap f l !!! i = f i (l !!! i).
Proof.
  intros Hi. rewrite !list_lookup_total_alt, list_lookup_imap. by destruct (l !! i).
Qed.

(** The correction of the meta-data does not change what a node sees. *)
Lemma check_wrongly_keeps my d : let d' := check_wrongly_set_mdf_exists my d in
  d_peers d' = d_peers d /\ d_old d' = d_old d /\ d_new d' = d_new d /\
  forall i, MD_HAVE_BITMAP (d_md d' !!! i) = MD_HAVE_BITMAP (d_md d !!! i) /\
            MD_PEER_DEVICE_SEEN (d_md d' !!! i) = MD_PEER_DEVICE_SEEN (d_md d !!! i) /\
            MD_PEER_OUTDATED (d_md d' !!! i) = MD_PEER_OUTDATED (d_md d !!! i) /\
            (MD_NODE_EXISTS (d_md d' !!! i) = MD_NODE_EXISTS (d_md d !!! i) \/
             (peer_device_by_node_id d i = None /\ MD_NODE_EXISTS (d_md d' !!! i) = false)).
Proof.
  cbn. unfold check_wrongly_set_mdf_exists. case_if; [naive_solver|]. case_if; [|naive_solver].
  repeat split; cbn; rewrite imap_lookup_total by (by case_match); case_match; cbn; try done; [by left|].
  right. split; [|done]. apply eq_None_not_Some. by eapply bool_decide_eq_false_1.
Qed.

Lemma check_wrongly_sees V T A conns my d : sees V T A conns my d -> sees V T A conns my (check_wrongly_set_mdf_exists my d).
Proof.
  intros [Hs Hd Hv Ht Ho]. destruct (check_wrongly_keeps my d) as (Hp & Hold & Hnew & Hmd).
  split; unfold peer_device_by_node_id, disk_state, d_at in *; rewrite ?Hp, ?Hold, ?Hnew; try done.
  - intros i Hi Hne. destruct (Hv i Hi Hne) as (p & ? & ? & ? & ? & ?). exists p. by rewrite (proj1 (Hmd i)).
  - intros i Hi. destruct (Ht i Hi) as (? & p & Hf & ? & ? & ? & ? & ? & ?). split; [done|]. exists p.
    destruct (Hmd i) as (_ & _ & _ & [-> | [Hn _]]); [done|]. unfold peer_device_by_node_id in Hn. congruence.
  - intros i Hi Hti. specialize (Ho i Hi Hti). destruct (Hmd i) as (-> & -> & _ & [-> | [_ ->]]); [done|].
    destruct (MD_HAVE_BITMAP _), (MD_NODE_EXISTS _), (MD_PEER_DEVICE_SEEN _); done.
Qed.

(** How the nodes vote. *)
Definition expected (V T A : nat -> bool) (i : nat) (v : vote) : Prop :=
  is_here v = V i && A i /\ is_gone v = V i && negb (A i) /\ is_diskless v = T i && A i /\ is_missing_diskless v = T i && negb (A i).

Lemma sees_votes V T A conns my members d i :
  sees V T A conns my d -> expected V T A i (vote_with_disk conns my members d i).
Proof.
  intros [(_ & Hv & Ha) [Hdn _] Hvoter Htie Hother]. pose proof attach_order as [Hao _]. unfold expected, vote_with_disk.
  destruct (Nat.eqb_spec i my) as [->|Hne].
  { assert (T my = false) as -> by (destruct (T my) eqn:E; [destruct (Htie my E); congruence|done]).
    rewrite Hv, Ha. rewrite (proj2 (Z.ltb_lt _ _)) by lia. case_if; done. }
  destruct (V i) eqn:HV; [destruct (Hvoter i HV Hne) as (p & -> & Hb & -> & -> & ->)|destruct (T i) eqn:HT].
  - assert (T i = false) as -> by (destruct (T i) eqn:E; [destruct (Htie i E); congruence|done]).
    rewrite Hb. cbn. destruct (A i); cbn; [rewrite andb_false_r; by case_if|]. repeat case_if; done.
  - destruct (Htie i HT) as (_ & p & -> & -> & -> & -> & -> & -> & HA). rewrite orb_true_r. cbn.
    destruct (A i); cbn; [|done]. rewrite HA, Z.eqb_refl; done.
  - by rewrite Hother.
Qed.

(** The counts of [calc_quorum] on a node of the partition [A]. *)
Lemma sees_counted V T A conns my members d :
  sees V T A conns my d ->
  let ids := seq 0 DRBD_NODE_ID_MAX in
  let votes := vote_with_disk conns my members d in
  let q := __calc_quorum_with_disk conns my members d in
  counted (tally V ids) (tally T ids) (tally (fun i => V i && A i) ids) (tally (fun i => T i && A i) ids) q /\
  qd_unknown q = tally (fun i => is_unknown (votes i)) ids /\
  qd_unknown q + qd_quorumless q = tally (fun i => is_unknown_or_quorumless (votes i)) ids.
Proof.
  intros Hsees ids votes q. assert (forall i, expected V T A i (votes i)) as Hx by (intros i; by apply sees_votes).
  pose proof (fold_votes votes ids no_votes) as Hf. cbv zeta in Hf. change (foldl _ _ _) with q in Hf.
  destruct Hf as (E1 & E2 & E3 & E4 & E5 & E6 & E7 & E8).
  rewrite (tally_ext _ (fun i => V i && A i)) in E1 by (intros; apply Hx).
  rewrite (tally_ext _ (fun i => V i && negb (A i))) in E2 by (intros; apply Hx).
  rewrite (tally_ext _ (fun i => T i && A i)) in E5 by (intros; apply Hx).
  rewrite (tally_ext _ (fun i => T i && negb (A i))) in E6 by (intros; apply Hx).
  pose proof (tally_split (fun i => V i && A i) (fun i => V i && negb (A i)) V ids) as HV.
  pose proof (tally_split (fun i => T i && A i) (fun i => T i && negb (A i)) T ids) as HT.
  rewrite <-HV by (intros i; by destruct (V i), (A i)). rewrite <-HT by (intros i; by destruct (T i), (A i)).
  pose proof (tally_nonneg (fun i => is_unknown (votes i)) ids). cbn in *.
  destruct E8 as [? ?]; [lia..|]. split; [split; lia|split; lia].
Qed.

Lemma calc_quorum_with_disk r V T A conns d :
  sees V T A conns (r_node_id r) d ->
  let d' := check_wrongly_set_mdf_exists (r_node_id r) d in
  fst (calc_quorum r conns d) =
    quorum_decision (opt_quorum r) (opt_min_redundancy r) (have_quorum OLD d) (__calc_quorum_with_disk conns (r_node_id r) (r_members r) d').
Proof.
  intros [_ [Hn Ho] _ _ _]. pose proof attach_order as [Hao _]. cbn. unfold calc_quorum.
  rewrite (proj2 (Z.ltb_lt _ _) Hn), (proj2 (Z.leb_le _ _) Ho), (proj2 (Z.eqb_neq _ _)) by lia. cbn.
  destruct (check_wrongly_keeps (r_node_id r) d) as (_ & Hold & _). unfold have_quorum, d_at. by rewrite Hold.
Qed.

(** The node knows the peer to be outdated. *)
Definition known_outdated (d : device) (i : nat) : bool :=
  match peer_device_by_node_id d i with
  | Some p => (peer_disk_state NEW p <=? D_OUTDATED) || MD_PEER_OUTDATED (d_md d !!! i)
  | None => false
  end.

Lemma known_outdated_check my d i : known_outdated (check_wrongly_set_mdf_exists my d) i = known_outdated d i.
Proof.
  destruct (check_wrongly_keeps my d) as (Hp & _ & _ & Hmd). unfold known_outdated, peer_device_by_node_id.
  destruct (Hmd i) as (_ & _ & -> & _). by rewrite Hp.
Qed.

Lemma gone_vote V T A conns my members d i :
  sees V T A conns my d -> V i = true -> A i = false -> known_outdated d i = false ->
  vote_with_disk conns my members d i = if quorumless members d i then V_QUORUMLESS else V_UNKNOWN.
Proof.
  intros [(_ & _ & Ha) _ Hvoter _ _] HV HA Hout. unfold vote_with_disk. destruct (Nat.eqb_spec i my) as [->|Hne]; [congruence|].
  unfold known_outdated in Hout. destruct (Hvoter i HV Hne) as (p & Hp & Hb & Hr & Hm & Ho). rewrite Hp in Hout |- *.
  by rewrite Hr, Hm, Ho, Hb, HA, Hout.
Qed.

(** A voter of the other partition is among the unknown ones or the quorumless, and among the
    unknown ones unless the node had quorum without it. *)
Lemma other_side_counts V T A conns my members d i :
  sees V T A conns my d -> (i < DRBD_NODE_ID_MAX)%nat -> V i = true -> A i = false -> known_outdated d i = false ->
  let q := __calc_quorum_with_disk conns my members d in
  0 < qd_unknown q + qd_quorumless q /\
  ((have_quorum OLD d = true -> Z.testbit members (Z.of_nat i) = true) -> 0 < qd_unknown q).
Proof.
  intros Hs Hi HV HA Hout q. destruct (sees_counted _ _ _ _ _ members _ Hs) as (_ & Hu & Huq).
  pose proof (gone_vote _ _ _ _ _ members _ _ Hs HV HA Hout) as Hv. fold q in Hu, Huq. rewrite Huq, Hu. unfold quorumless in Hv.
  assert (i ∈ seq 0 DRBD_NODE_ID_MAX) as Hin by (apply elem_of_seq; lia). split; [|intros Hm].
  - pose proof (tally_ge_1 (fun i => is_unknown_or_quorumless (vote_with_disk conns my members d i)) _ _ Hin) as Ht. cbn beta in Ht.
    rewrite Hv in Ht. case_match; specialize (Ht eq_refl); lia.
  - pose proof (tally_ge_1 (fun i => is_unknown (vote_with_disk conns my members d i)) _ _ Hin) as Ht. cbn beta in Ht.
    rewrite Hv in Ht. destruct (have_quorum OLD d); [rewrite Hm in Ht by done|]; specialize (Ht eq_refl); lia.
Qed.

(** C39: two nodes with a disk in partitions that do not overlap do not both have quorum, if: they have a
    common view of the cluster, that is, the same voters and tie-breakers, and each is connected to
    exactly the nodes of its partition ([sees]); they have the same setting, which asks for more than
    half of the voters; neither knows the other to be outdated; and when both had quorum before,
    each has the other among its last members.  Then [calc_quorum] refuses one of them, whatever the tie-breakers,
    the other nodes that are known to be outdated and those that were without quorum before.  (A node that knows
    all others to be outdated keeps quorum on its own.) *)
Theorem quorum_exclusive V T A B ra rb conns_a conns_b da db :
  let a := r_node_id ra in
  let b := r_node_id rb in
  let voters := tally V (seq 0 DRBD_NODE_ID_MAX) in
  sees V T A conns_a a da -> sees V T B conns_b b db -> (forall i, A i && B i = false) ->
  opt_quorum ra = opt_quorum rb -> voters < 2 * calc_quorum_at (opt_quorum ra) voters ->
  known_outdated da b = false -> known_outdated db a = false ->
  (have_quorum OLD da = true -> have_quorum OLD db = true ->
   Z.testbit (r_members ra) (Z.of_nat b) = true /\ Z.testbit (r_members rb) (Z.of_nat a) = true) ->
  fst (calc_quorum ra conns_a da) && fst (calc_quorum rb conns_b db) = false.
Proof.
  intros a b voters Ha Hb Hdisj Hset Hmaj Hoa Hob Hmem.
  destruct (sees_self _ _ _ _ _ _ Ha) as (Hla & HVa & HAa). destruct (sees_self _ _ _ _ _ _ Hb) as (Hlb & HVb & HBb).
  pose proof (Hdisj b) as HAb. pose proof (Hdisj a) as HBa. rewrite HBb, andb_true_r in HAb. rewrite HAa in HBa. cbn in HBa.
  rewrite (calc_quorum_with_disk _ _ _ _ _ _ Ha), (calc_quorum_with_disk _ _ _ _ _ _ Hb), <-Hset. fold a b.
  pose proof (check_wrongly_sees _ _ _ _ _ _ Ha) as Ha'. pose proof (check_wrongly_sees _ _ _ _ _ _ Hb) as Hb'.
  destruct (check_wrongly_keeps a da) as (_ & Hoa' & _). destruct (check_wrongly_keeps b db) as (_ & Hob' & _).
  rewrite <-(known_outdated_check a) in Hoa. rewrite <-(known_outdated_check b) in Hob.
  destruct (sees_counted _ _ _ _ _ (r_members ra) _ Ha') as [Ca _]. destruct (sees_counted _ _ _ _ _ (r_members rb) _ Hb') as [Cb _].
  destruct (other_side_counts _ _ _ _ _ (r_members ra) _ _ Ha' Hlb HVb HAb Hoa) as [Hqa Hua].
  destruct (other_side_counts _ _ _ _ _ (r_members rb) _ _ Hb' Hla HVa HBa Hob) as [Hqb Hub].
  unfold have_quorum, d_at in *. rewrite Hoa' in Hua. rewrite Hob' in Hub.
  apply (decisions_exclusive _ _ _ _ _ _ _ _ _ _ _ _ _ Ca Cb); try done.
  - apply tally_disjoint; intros i; specialize (Hdisj i); destruct (V i), (A i), (B i); done.
  - apply tally_disjoint; intros i; specialize (Hdisj i); destruct (T i), (A i), (B i); done.
  - intros Hn. apply Hua. intros Hn'. destruct Hn as [|Hn]; [congruence|]. by apply Hmem.
  - intros Hn. apply Hub. intros Hn'. destruct Hn as [|Hn]; [congruence|]. by apply Hmem.
Qed.
End partitions.

(** ** Two nodes and a tie-breaker *)

Section demo.
#[local] Existing Instance small_state_headers.

Definition demo_peer (conn id : nat) (bitmap : bool) (disk_old repl disk : Z) : peer_device :=
  let st rs ds := mk_pds rs ds false false false false false false false in
  mk_pd (st L_ESTABLISHED disk_old) (st repl disk) conn id bitmap true 0 0 0 true false true false false false false false no_pd_more.

Definition demo_device (peers : list peer_device) (md : list peer_md) (quorum : bool) : device :=
  mk_dev (mk_ds D_UP_TO_DATE quorum) (mk_ds D_UP_TO_DATE quorum) peers md true true 0 0 false true 0 false false false false no_dev_more.

Definition demo_conn : connection :=
  let c := mk_cs C_CONNECTED R_SECONDARY false in mk_conn c c (Some (mk_net_conf false true true)) FP_DONT_CARE 122 true no_conn_more.

Definition demo_resource (my : nat) (members : Z) (d : device) : resource :=
  let s := mk_rs R_SECONDARY false false false false false in
  mk_res s s [demo_conn; demo_conn] [d] (mk_flags false false false false false false false) my members QOU_MAJORITY QOU_OFF ONQ_SUSPEND_IO OND_SUSPEND_IO no_res_more.

Definition voter_md : peer_md := mk_pmd true true true false false false.
Definition tiebreaker_md : peer_md := mk_pmd false true false false false false.

(** Node 0 keeps the connection to the tie-breaker 2, node 1 loses both. *)
Definition demo_0 : device :=
  demo_device [demo_peer 0 1 true D_UP_TO_DATE L_OFF D_UNKNOWN; demo_peer 1 2 false D_DISKLESS L_ESTABLISHED D_DISKLESS] [inhabitant; voter_md; tiebreaker_md] true.
Definition demo_1 : device :=
  demo_device [demo_peer 0 0 true D_UP_TO_DATE L_OFF D_UNKNOWN; demo_peer 1 2 false D_DISKLESS L_OFF D_UNKNOWN] [voter_md; inhabitant; tiebreaker_md] true.

Definition voters_01 (i : nat) : bool := match i with 0%nat | 1%nat => true | _ => false end.
Definition only (i j : nat) : bool := Nat.eqb i j.
Definition side_0 (i : nat) : bool := match i with 0%nat | 2%nat => true | _ => false end.

Lemma demo_0_sees : sees voters_01 (only 2) side_0 [demo_conn; demo_conn] 0 demo_0.
Proof.
  split; [repeat split; cbn; lia|repeat split; cbn; lia|..].
  - intros [|[|i]] Hi Hne; try done. exists (demo_peer 0 1 true D_UP_TO_DATE L_OFF D_UNKNOWN). by vm_compute.
  - intros [|[|[|i]]] Hi; try done. split; [done|]. exists (demo_peer 1 2 false D_DISKLESS L_ESTABLISHED D_DISKLESS). by vm_compute.
  - by intros [|[|[|i]]] Hv Ht.
Qed.

Lemma demo_1_sees : sees voters_01 (only 2) (only 1) [demo_conn; demo_conn] 1 demo_1.
Proof.
  split; [repeat split; cbn; lia|repeat split; cbn; lia|..].
  - intros [|[|i]] Hi Hne; try done. exists (demo_peer 0 0 true D_UP_TO_DATE L_OFF D_UNKNOWN). by vm_compute.
  - intros [|[|[|i]]] Hi; try done. split; [done|]. exists (demo_peer 1 2 false D_DISKLESS L_OFF D_UNKNOWN). by vm_compute.
  - by intros [|[|[|i]]] Hv Ht.
Qed.

Lemma quorum_exclusive_witness :
  fst (calc_quorum (demo_resource 0 7 demo_0) [demo_conn; demo_conn] demo_0) = true /\
  fst (calc_quorum (demo_resource 1 7 demo_1) [demo_conn; demo_conn] demo_1) = false.
Proof.
  assert (fst (calc_quorum (demo_resource 0 7 demo_0) [demo_conn; demo_conn] demo_0) = true) as H0 by (vm_compute; reflexivity).
  split; [exact H0|].
  assert (fst (calc_quorum (demo_resource 0 7 demo_0) [demo_conn; demo_conn] demo_0) &&
          fst (calc_quorum (demo_resource 1 7 demo_1) [demo_conn; demo_conn] demo_1) = false) as Hx.
  { apply (quorum_exclusive voters_01 (only 2) side_0 (only 1)).
    - exact demo_0_sees.
    - exact demo_1_sees.
    - intros [|[|[|i]]]; reflexivity.
    - reflexivity.
    - vm_compute. reflexivity.
    - vm_compute. reflexivity.
    - vm_compute. reflexivity.
    - intros _ _. split; vm_compute; reflexivity. }
  rewrite H0 in Hx. exact Hx.
Defined.
End demo.
