(* ===== verification/StateFinish.v ===== *)
(** * What a state change does ([finish_state_change] and the end of a change)

    The flags, counters and meta-data that an accepted change sets, and in order the calls it makes
    to other parts of the program: these are [action]s. *)
From S2P Require Import Prelude Headers State.

Inductive walk_event := CANCEL_SUSPENDED_IO | RESEND | COMPLETION_RESUMED.

(** Calls to other parts; a connection and a device are given by their place. *)
Inductive action :=
  | queue_send_dagtag (c : nat)
  | wake_all_senders
  | queue_peer_ack (dagtag : Z)
  | rs_controller_reset (d j : nat)
  | wake_sender (c : nat)
  | stop_receiver (c : nat)
  | restart_receiver (c : nat)
  | maybe_cluster_wide_reply
  | tl_walk (c : option nat) (ev : walk_event)
  | apply_unacked_peer_requests (c : nat)
  | restart_suspended_reqs
  | schedule_empty_twopc
  | queue_after_state_change
  | clear_remote_state_change.

#[export] Instance peer_md_eq_dec : EqDecision peer_md.
Proof. solve_decision. Defined.

(** ** Setters *)

Definition with_c_more (f : conn_more -> conn_more) (c : connection) : connection :=
  mk_conn (c_old c) (c_new c) (c_net_conf c) (c_fencing c) (c_pro_version c) (c_rs_skip_uuid c) (f (c_more c)).

Definition set_send_dagtag (x : Z) (m : conn_more) : conn_more :=
  mk_cm (cm_peer_node_id m) x (cm_requests m) (cm_pending_flush_mask m) (FF_2PC_V2 m) (SEND_STATE_AFTER_AHEAD_C m) (CONN_CONGESTED m)
    (NOTIFY_PEERS_LOST_PRIMARY m) (RECONNECT m) (TWOPC_PREPARED m) (TWOPC_RETRY m) (cm_last_reconnect_jif m) (cm_votes m).
Definition set_pending_flush_mask (x : Z) (m : conn_more) : conn_more :=
  mk_cm (cm_peer_node_id m) (cm_send_dagtag m) (cm_requests m) x (FF_2PC_V2 m) (SEND_STATE_AFTER_AHEAD_C m) (CONN_CONGESTED m)
    (NOTIFY_PEERS_LOST_PRIMARY m) (RECONNECT m) (TWOPC_PREPARED m) (TWOPC_RETRY m) (cm_last_reconnect_jif m) (cm_votes m).
Definition set_after_ahead (m : conn_more) : conn_more :=
  mk_cm (cm_peer_node_id m) (cm_send_dagtag m) (cm_requests m) (cm_pending_flush_mask m) (FF_2PC_V2 m) true false
    (NOTIFY_PEERS_LOST_PRIMARY m) (RECONNECT m) (TWOPC_PREPARED m) (TWOPC_RETRY m) (cm_last_reconnect_jif m) (cm_votes m).

Definition with_p_more (f : pd_more -> pd_more) (p : peer_device) : peer_device :=
  mk_pd (p_old p) (p_new p) (p_conn p) (p_node_id p) (p_bitmap p) (p_tiebreaker p) (p_weight p) (p_current_uuid p)
    (p_negotiation_result p) (UUID_STABLE p) (UUID_GOT_STABLE p) (UUIDS_RECEIVED p) (HOLDING_UUID_READ_LOCK p) (PEER_QUORATE p)
    (PEER_REPLICATION_NEXT p) (REPLICATION_NEXT p) (RECONCILIATION_RESYNC p) (f (p_more p)).

Definition set_progress (x : progress) (m : pd_more) : pd_more :=
  mk_pm (B_RS_H_DONE m) (RS_DONE m) (SYNC_TARGET_TO_BEHIND m) (AHEAD_TO_SYNC_SOURCE m) (CONSIDER_RESYNC m) (SEND_STATE_AFTER_AHEAD m)
    (GOT_NEG_ACK m) (SYNC_SRC_CRASHED_PRI m) (UNSTABLE_RESYNC m) (PEER_CRASHED_PRIMARY m) (pm_uuid_node_mask m) (pm_bitmap_index m) (pm_bitmap_uuid m) x (pm_connect m).
Definition set_bitmap_index (x : Z) (m : pd_more) : pd_more :=
  mk_pm (B_RS_H_DONE m) (RS_DONE m) (SYNC_TARGET_TO_BEHIND m) (AHEAD_TO_SYNC_SOURCE m) (CONSIDER_RESYNC m) (SEND_STATE_AFTER_AHEAD m)
    (GOT_NEG_ACK m) (SYNC_SRC_CRASHED_PRI m) (UNSTABLE_RESYNC m) (PEER_CRASHED_PRIMARY m) (pm_uuid_node_mask m) x (pm_bitmap_uuid m) (pm_progress m) (pm_connect m).
Definition set_unstable_resync (m : pd_more) : pd_more :=
  mk_pm (B_RS_H_DONE m) (RS_DONE m) (SYNC_TARGET_TO_BEHIND m) (AHEAD_TO_SYNC_SOURCE m) (CONSIDER_RESYNC m) (SEND_STATE_AFTER_AHEAD m)
    (GOT_NEG_ACK m) (SYNC_SRC_CRASHED_PRI m) true (PEER_CRASHED_PRIMARY m) (pm_uuid_node_mask m) (pm_bitmap_index m) (pm_bitmap_uuid m) (pm_progress m) (pm_connect m).

Definition with_d_more (f : dev_more -> dev_more) (d : device) : device :=
  mk_dev (d_old d) (d_new d) (d_peers d) (d_md d) (MDF_CONSISTENT d) (MDF_WAS_UP_TO_DATE d) (d_current_uuid d) (d_exposed_uuid d) (intentional_diskless d)
    (writable d) (open_cnt d) (RESTORE_QUORUM d) (RESTORING_QUORUM d) (TRY_TO_GET_RESYNC d) (NEW_CUR_UUID d) (f (d_more d)).

Definition set_exposed (x : Z) (d : device) : device :=
  mk_dev (d_old d) (d_new d) (d_peers d) (d_md d) (MDF_CONSISTENT d) (MDF_WAS_UP_TO_DATE d) (d_current_uuid d) x (intentional_diskless d)
    (writable d) (open_cnt d) (RESTORE_QUORUM d) (RESTORING_QUORUM d) (TRY_TO_GET_RESYNC d) (NEW_CUR_UUID d) (d_more d).
Definition set_new_cur_uuid (x : bool) (d : device) : device :=
  mk_dev (d_old d) (d_new d) (d_peers d) (d_md d) (MDF_CONSISTENT d) (MDF_WAS_UP_TO_DATE d) (d_current_uuid d) (d_exposed_uuid d) (intentional_diskless d)
    (writable d) (open_cnt d) (RESTORE_QUORUM d) (RESTORING_QUORUM d) (TRY_TO_GET_RESYNC d) x (d_more d).
Definition set_restore_quorum (restore restoring : bool) (d : device) : device :=
  mk_dev (d_old d) (d_new d) (d_peers d) (d_md d) (MDF_CONSISTENT d) (MDF_WAS_UP_TO_DATE d) (d_current_uuid d) (d_exposed_uuid d) (intentional_diskless d)
    (writable d) (open_cnt d) restore restoring (TRY_TO_GET_RESYNC d) (NEW_CUR_UUID d) (d_more d).

(** The flags of the device and of its meta-data. *)
Definition set_lost_quorum (x : bool) (m : dev_more) : dev_more :=
  mk_dm (UNREGISTERED m) (CRASHED_PRIMARY m) x (FORCE_DETACH m) (__NEW_CUR_UUID m) (AL_SUSPENDED m) (MD_DIRTY m) (MDF_AL_CLEAN m) (MDF_CRASHED_PRIMARY m)
    (MDF_PRIMARY_LOST_QUORUM m) (MDF_PRIMARY_IND m) (MDF_HAVE_QUORUM m) (MDF_AL_DISABLED m) (dm_md_members m) (dm_max_peers m) (dm_al_updates m)
    (dm_has_bitmap m) (dm_bm_bits m) (dm_bm_block_shift m) (dm_local_cnt m) (dm_last_reattach_jif m) (OUTDATE_ON_2PC_COMMIT m) (dm_next_exposed_uuid m).
Definition set_dev_crashed (x : bool) (m : dev_more) : dev_more :=
  mk_dm (UNREGISTERED m) x (PRIMARY_LOST_QUORUM m) (FORCE_DETACH m) (__NEW_CUR_UUID m) (AL_SUSPENDED m) (MD_DIRTY m) (MDF_AL_CLEAN m) (MDF_CRASHED_PRIMARY m)
    (MDF_PRIMARY_LOST_QUORUM m) (MDF_PRIMARY_IND m) (MDF_HAVE_QUORUM m) (MDF_AL_DISABLED m) (dm_md_members m) (dm_max_peers m) (dm_al_updates m)
    (dm_has_bitmap m) (dm_bm_bits m) (dm_bm_block_shift m) (dm_local_cnt m) (dm_last_reattach_jif m) (OUTDATE_ON_2PC_COMMIT m) (dm_next_exposed_uuid m).
Definition set_next_cur_uuid (x : bool) (m : dev_more) : dev_more :=
  mk_dm (UNREGISTERED m) (CRASHED_PRIMARY m) (PRIMARY_LOST_QUORUM m) (FORCE_DETACH m) x (AL_SUSPENDED m) (MD_DIRTY m) (MDF_AL_CLEAN m) (MDF_CRASHED_PRIMARY m)
    (MDF_PRIMARY_LOST_QUORUM m) (MDF_PRIMARY_IND m) (MDF_HAVE_QUORUM m) (MDF_AL_DISABLED m) (dm_md_members m) (dm_max_peers m) (dm_al_updates m)
    (dm_has_bitmap m) (dm_bm_bits m) (dm_bm_block_shift m) (dm_local_cnt m) (dm_last_reattach_jif m) (OUTDATE_ON_2PC_COMMIT m) (dm_next_exposed_uuid m).
Definition set_al_suspended (x : bool) (m : dev_more) : dev_more :=
  mk_dm (UNREGISTERED m) (CRASHED_PRIMARY m) (PRIMARY_LOST_QUORUM m) (FORCE_DETACH m) (__NEW_CUR_UUID m) x (MD_DIRTY m) (MDF_AL_CLEAN m) (MDF_CRASHED_PRIMARY m)
    (MDF_PRIMARY_LOST_QUORUM m) (MDF_PRIMARY_IND m) (MDF_HAVE_QUORUM m) (MDF_AL_DISABLED m) (dm_md_members m) (dm_max_peers m) (dm_al_updates m)
    (dm_has_bitmap m) (dm_bm_bits m) (dm_bm_block_shift m) (dm_local_cnt m) (dm_last_reattach_jif m) (OUTDATE_ON_2PC_COMMIT m) (dm_next_exposed_uuid m).
Definition drbd_md_mark_dirty (m : dev_more) : dev_more :=
  mk_dm (UNREGISTERED m) (CRASHED_PRIMARY m) (PRIMARY_LOST_QUORUM m) (FORCE_DETACH m) (__NEW_CUR_UUID m) (AL_SUSPENDED m) true (MDF_AL_CLEAN m) (MDF_CRASHED_PRIMARY m)
    (MDF_PRIMARY_LOST_QUORUM m) (MDF_PRIMARY_IND m) (MDF_HAVE_QUORUM m) (MDF_AL_DISABLED m) (dm_md_members m) (dm_max_peers m) (dm_al_updates m)
    (dm_has_bitmap m) (dm_bm_bits m) (dm_bm_block_shift m) (dm_local_cnt m) (dm_last_reattach_jif m) (OUTDATE_ON_2PC_COMMIT m) (dm_next_exposed_uuid m).
Definition set_mdf_al_disabled (x : bool) (m : dev_more) : dev_more :=
  mk_dm (UNREGISTERED m) (CRASHED_PRIMARY m) (PRIMARY_LOST_QUORUM m) (FORCE_DETACH m) (__NEW_CUR_UUID m) (AL_SUSPENDED m) (MD_DIRTY m) (MDF_AL_CLEAN m) (MDF_CRASHED_PRIMARY m)
    (MDF_PRIMARY_LOST_QUORUM m) (MDF_PRIMARY_IND m) (MDF_HAVE_QUORUM m) x (dm_md_members m) (dm_max_peers m) (dm_al_updates m)
    (dm_has_bitmap m) (dm_bm_bits m) (dm_bm_block_shift m) (dm_local_cnt m) (dm_last_reattach_jif m) (OUTDATE_ON_2PC_COMMIT m) (dm_next_exposed_uuid m).
Definition set_local_cnt (x : Z) (m : dev_more) : dev_more :=
  mk_dm (UNREGISTERED m) (CRASHED_PRIMARY m) (PRIMARY_LOST_QUORUM m) (FORCE_DETACH m) (__NEW_CUR_UUID m) (AL_SUSPENDED m) (MD_DIRTY m) (MDF_AL_CLEAN m) (MDF_CRASHED_PRIMARY m)
    (MDF_PRIMARY_LOST_QUORUM m) (MDF_PRIMARY_IND m) (MDF_HAVE_QUORUM m) (MDF_AL_DISABLED m) (dm_md_members m) (dm_max_peers m) (dm_al_updates m)
    (dm_has_bitmap m) (dm_bm_bits m) (dm_bm_block_shift m) x (dm_last_reattach_jif m) (OUTDATE_ON_2PC_COMMIT m) (dm_next_exposed_uuid m).
Definition set_last_reattach (x : Z) (m : dev_more) : dev_more :=
  mk_dm (UNREGISTERED m) (CRASHED_PRIMARY m) (PRIMARY_LOST_QUORUM m) (FORCE_DETACH m) (__NEW_CUR_UUID m) (AL_SUSPENDED m) (MD_DIRTY m) (MDF_AL_CLEAN m) (MDF_CRASHED_PRIMARY m)
    (MDF_PRIMARY_LOST_QUORUM m) (MDF_PRIMARY_IND m) (MDF_HAVE_QUORUM m) (MDF_AL_DISABLED m) (dm_md_members m) (dm_max_peers m) (dm_al_updates m)
    (dm_has_bitmap m) (dm_bm_bits m) (dm_bm_block_shift m) (dm_local_cnt m) x (OUTDATE_ON_2PC_COMMIT m) (dm_next_exposed_uuid m).

Section finish.
Context `{StateHeaders}.

(** ** Members of the cluster *)

(** [const int peer_node_mask = NODE_MASK(...)], then widened to the 64 bits of [members] *)
Definition s32 (z : Z) : Z := let x := u32 z in if 2 ^ 31 <=? x then x - 2 ^ 32 else x.
Definition peer_node_mask (c : connection) : Z := u64 (s32 (NODE_MASK (cm_peer_node_id (c_more c)))).

Definition connects (c : connection) : bool := (cstate OLD c <? C_CONNECTED) && (cstate NEW c =? C_CONNECTED).
Definition disconnects (c : connection) : bool := (cstate OLD c =? C_CONNECTED) && (cstate NEW c <? C_CONNECTED).

Definition drbd_need_twopc_after_lost_peer (c : connection) : bool :=
  disconnects c && (negb (FF_2PC_V2 (c_more c)) || negb (cstate NEW c =? C_TEAR_DOWN)).

Definition update_members (r : resource) : Z * list action :=
  let reply := rm_twopc_reply (r_more r) in
  if CS_TWOPC (r_flags r) && (tr_initiator_node_id reply =? Z.of_nat (r_node_id r)) then (tr_reachable_nodes reply, [])
  else
    foldl (fun '(m, acts) c =>
      let m := if connects c then Z.lor m (peer_node_mask c) else m in
      (m, acts ++ if drbd_need_twopc_after_lost_peer c && negb (Z.land m (peer_node_mask c) =? 0) then [schedule_empty_twopc] else []))
      (r_members r, []) (r_conns r).

(** ** The first loop over the devices *)

Definition drbd_should_do_remote (w : which_state) (p : peer_device) : bool :=
  (peer_disk_state w p =? D_UP_TO_DATE) ||
  ((peer_disk_state w p =? D_INCONSISTENT) && ps_replication (p_at w p) &&
   ((repl_state w p =? L_ESTABLISHED) || ((L_WF_BITMAP_T <=? repl_state w p) && (repl_state w p <? L_AHEAD)))).

Definition repl_is_sync (s : Z) : bool := repl_is_sync_source s || repl_is_sync_target s.

Definition becomes (s : Z) (p : peer_device) : bool := negb (repl_state OLD p =? s) && (repl_state NEW p =? s).
Definition starts_sync (p : peer_device) : bool := negb (repl_is_sync (repl_state OLD p)) && repl_is_sync (repl_state NEW p).

Definition clear_resync_flags (p : peer_device) : peer_device :=
  with_p_more (fun m =>
    let sync := starts_sync p in
    mk_pm (B_RS_H_DONE m && negb (becomes L_WF_BITMAP_S p || becomes L_WF_BITMAP_T p || sync)) (RS_DONE m && negb sync)
      (SYNC_TARGET_TO_BEHIND m && negb sync) (AHEAD_TO_SYNC_SOURCE m) (CONSIDER_RESYNC m) (SEND_STATE_AFTER_AHEAD m) (GOT_NEG_ACK m)
      (SYNC_SRC_CRASHED_PRI m) (UNSTABLE_RESYNC m) (PEER_CRASHED_PRIMARY m) (pm_uuid_node_mask m) (pm_bitmap_index m) (pm_bitmap_uuid m) (pm_progress m) (pm_connect m)) p.

Definition first_loop_device (r : resource) (d : device) : device :=
  let d := set_peers (map clear_resync_flags (d_peers d)) d in
  if is_primary (role NEW r) && negb (have_quorum NEW d) then with_d_more (set_lost_quorum true) d else d.

Definition all_peers (r : resource) : list peer_device := concat (d_peers <$> r_devs r).

Definition starts_remote (p : peer_device) : bool := negb (drbd_should_do_remote OLD p) && drbd_should_do_remote NEW p.

(** The connections that get a dagtag, in the order of the loop. *)
Definition dagtag_conns (r : resource) : list nat := p_conn <$> filter (fun p => starts_remote p = true) (all_peers r).

Definition start_new_epoch (r : resource) : bool :=
  existsb (fun p => negb (Bool.eqb (drbd_should_do_remote OLD p) (drbd_should_do_remote NEW p))) (all_peers r).

Definition start_new_tl_epoch (m : res_more) : res_more * list action :=
  if rm_current_tle_writes m =? 0 then (m, [])
  else (mk_rm (rm_dagtag_sector m) (rm_peer_ack_req m) (rm_last_peer_acked_dagtag m) (rm_current_flush_sequence m) 0 (rm_current_tle_nr m + 1)
          (TRY_BECOME_UP_TO_DATE_PENDING m) (R_UNREGISTERED m) (rm_remote_state_change m) (rm_twopc_reply m), [wake_all_senders]).

Definition finish_peer_ack (r : resource) (m : res_more) : res_more * list action :=
  match rm_peer_ack_req m with
  | Some dagtag =>
      if is_primary (role OLD r) && is_secondary (role NEW r) then
        (mk_rm (rm_dagtag_sector m) None dagtag (rm_current_flush_sequence m) (rm_current_tle_writes m) (rm_current_tle_nr m)
           (TRY_BECOME_UP_TO_DATE_PENDING m) (R_UNREGISTERED m) (rm_remote_state_change m) (rm_twopc_reply m), [queue_peer_ack dagtag])
      else (m, [])
  | None => (m, [])
  end.

(** ** Flushes *)

Definition drbd_any_peer_device_up_to_date (r : resource) (c : nat) : bool :=
  existsb (fun p => Nat.eqb (p_conn p) c && (peer_disk_state NEW p =? D_UP_TO_DATE)) (all_peers r).

Definition drbd_all_peer_replication (w : which_state) (d : device) : bool := forallb (fun p => ps_peer_replication (p_at w p)) (d_peers d).

Definition needs_flush (d : device) : bool :=
  existsb (fun p => negb (repl_is_sync_target (repl_state OLD p) && drbd_all_peer_replication OLD d) &&
                    repl_is_sync_target (repl_state NEW p) && drbd_all_peer_replication NEW d) (d_peers d).

(** The masks of the connections for which the condition holds. *)
Definition nodes_of (f : nat -> connection -> bool) (conns : list connection) : Z :=
  foldr Z.lor 0 (imap (fun k c => if f k c then NODE_MASK (cm_peer_node_id (c_more c)) else 0) conns).

Definition clear_flush (r : resource) (c : connection) : connection :=
  if negb (cstate NEW c =? C_CONNECTED) then with_c_more (set_pending_flush_mask 0) c
  else
    let gone := nodes_of (fun k _ => negb (drbd_any_peer_device_up_to_date r k)) (r_conns r) in
    with_c_more (fun m => set_pending_flush_mask (Z.ldiff (cm_pending_flush_mask m) gone) m) c.

Definition expect_flush (r : resource) (c : connection) : connection :=
  let mask :=
    if is_primary (peer_role NEW c) && negb (c_pro_version c <? 123)
    then nodes_of (fun k c => drbd_any_peer_device_up_to_date r k && negb (c_pro_version c <? 123)) (r_conns r) else 0 in
  with_c_more (set_pending_flush_mask mask) c.

(** [drbd_determine_flush_pending]: the connections and whether there is a new flush *)
Definition drbd_determine_flush_pending (r : resource) : list connection * bool :=
  let conns := map (clear_flush r) (r_conns r) in
  let flush := existsb needs_flush (r_devs r) in
  (if flush then map (expect_flush r) conns else conns, flush).

Definition next_flush (flush : bool) (m : res_more) : res_more :=
  if flush then
    mk_rm (rm_dagtag_sector m) (rm_peer_ack_req m) (rm_last_peer_acked_dagtag m) (u64 (rm_current_flush_sequence m + 1)) (rm_current_tle_writes m)
      (rm_current_tle_nr m) (TRY_BECOME_UP_TO_DATE_PENDING m) (R_UNREGISTERED m) (rm_remote_state_change m) (rm_twopc_reply m)
  else m.

(** ** Online verify and resync progress *)

Definition DRBD_SYNC_MARKS : nat := 8.
Definition bit_to_sect (m : dev_more) (bit : Z) : Z := u64 (Z.shiftl bit (dm_bm_block_shift m - 9)).
Definition sect_to_bit (m : dev_more) (s : Z) : Z := Z.shiftr s (dm_bm_block_shift m - 9).

Definition set_ov_start (x : Z) (g : progress) : progress :=
  mk_pg x (ov_position g) (ov_left g) (ov_skipped g) (ov_last g) (last_in_sync_end g) (resync_next_bit g) (last_resync_pass_bits g) (rs_failed g)
    (rs_paused g) (rs_same_csum g) (rs_total g) (rs_start g) (rs_last_writeout g) (rs_last_progress_report_ts g) (rs_mark_left g) (rs_mark_time g) (rs_last_mark g).

Definition set_ov_position (dm : dev_more) (pro_version rs : Z) (g : progress) : progress :=
  let start := if pro_version <? 90 then 0 else ov_start_sector g in
  let total := dm_bm_bits dm in
  let '(start, total, position) :=
    if rs =? L_VERIFY_T then (2 ^ 64 - 1, total, 0)
    else
      let bit := sect_to_bit dm start in
      if total <=? bit then let start := bit_to_sect dm (u64 (total - 1)) in (start, 1, start) else (start, total - bit, start) in
  mk_pg start position total 0 (ov_last g) (last_in_sync_end g) (resync_next_bit g) (last_resync_pass_bits g) (rs_failed g)
    (rs_paused g) (rs_same_csum g) total (rs_start g) (rs_last_writeout g) (rs_last_progress_report_ts g) (rs_mark_left g) (rs_mark_time g) (rs_last_mark g).

Definition start_verify (now : Z) (dm : dev_more) (pro_version rs : Z) (g : progress) : progress :=
  let g := set_ov_position dm pro_version rs g in
  mk_pg (ov_start_sector g) (ov_position g) (ov_left g) (ov_skipped g) (0, 0, 0, 0) (last_in_sync_end g) (resync_next_bit g) (last_resync_pass_bits g) (rs_failed g)
    (rs_paused g) (rs_same_csum g) (rs_total g) now now now (replicate DRBD_SYNC_MARKS (rs_total g)) (replicate DRBD_SYNC_MARKS now) (rs_last_mark g).

Definition initialize_resync_progress_marks (now tw : Z) (g : progress) : progress :=
  mk_pg (ov_start_sector g) (ov_position g) (ov_left g) (ov_skipped g) (ov_last g) (last_in_sync_end g) (resync_next_bit g) (last_resync_pass_bits g) (rs_failed g)
    (rs_paused g) (rs_same_csum g) (rs_total g) (rs_start g) (rs_last_writeout g) now (replicate DRBD_SYNC_MARKS tw) (replicate DRBD_SYNC_MARKS now) (rs_last_mark g).

Definition initialize_resync (now tw : Z) (g : progress) : progress :=
  initialize_resync_progress_marks now tw
    (mk_pg (ov_start_sector g) (ov_position g) (ov_left g) (ov_skipped g) (ov_last g) 0 0 tw 0 0 0 tw now now
       (rs_last_progress_report_ts g) (rs_mark_left g) (rs_mark_time g) (rs_last_mark g)).

Definition mark_time (g : progress) : Z := rs_mark_time g !!! rs_last_mark g.

Definition continue_resync (now tw : Z) (g : progress) : progress :=
  let g := initialize_resync_progress_marks now tw
    (mk_pg (ov_start_sector g) (ov_position g) (ov_left g) (ov_skipped g) (ov_last g) (last_in_sync_end g) (resync_next_bit g) (last_resync_pass_bits g) (rs_failed g)
       (u64 (rs_paused g + (now - mark_time g))) (rs_same_csum g) (rs_total g) (rs_start g) (rs_last_writeout g) (rs_last_progress_report_ts g)
       (rs_mark_left g) (rs_mark_time g) (rs_last_mark g)) in
  mk_pg (ov_start_sector g) (ov_position g) (ov_left g) (ov_skipped g) (ov_last g) (last_in_sync_end g) 0 (last_resync_pass_bits g) (rs_failed g)
    (rs_paused g) (rs_same_csum g) (rs_total g) (rs_start g) (rs_last_writeout g) (rs_last_progress_report_ts g) (rs_mark_left g) (rs_mark_time g) (rs_last_mark g).

Definition suspend_resync (now : Z) (g : progress) : progress :=
  mk_pg (ov_start_sector g) (ov_position g) (ov_left g) (ov_skipped g) (ov_last g) (last_in_sync_end g) (resync_next_bit g) (last_resync_pass_bits g) (rs_failed g)
    (rs_paused g) (rs_same_csum g) (rs_total g) (rs_start g) (rs_last_writeout g) (rs_last_progress_report_ts g) (rs_mark_left g)
    (<[rs_last_mark g := now]> (rs_mark_time g)) (rs_last_mark g).

Definition is_paused (s : Z) : bool := (s =? L_PAUSED_SYNC_T) || (s =? L_PAUSED_SYNC_S).
Definition is_syncing (s : Z) : bool := (s =? L_SYNC_TARGET) || (s =? L_SYNC_SOURCE).
Definition sync_range (s : Z) : bool := (L_SYNC_SOURCE <=? s) && (s <=? L_PAUSED_SYNC_T).
Definition starts_verify (p : peer_device) : bool := (repl_state OLD p =? L_ESTABLISHED) && verifies NEW p.
Definition starts_resync (p : peer_device) : bool := negb (starts_verify p) && negb (sync_range (repl_state OLD p)) && sync_range (repl_state NEW p).

Definition finish_progress (now : Z) (dm : dev_more) (conns : list connection) (p : peer_device) : progress :=
  let o := repl_state OLD p in
  let n := repl_state NEW p in
  let g := pm_progress (p_more p) in
  let g := if verifies OLD p && (n <=? L_ESTABLISHED) then set_ov_start (bit_to_sect dm (u64 (dm_bm_bits dm - ov_left g))) g else g in
  let g := if is_paused o && is_syncing n then continue_resync now (p_weight p) g else g in
  let g := if is_syncing o && is_paused n then suspend_resync now g else g in
  if starts_verify p then start_verify now dm (c_pro_version (conn_of conns p)) n g
  else if starts_resync p then initialize_resync now (p_weight p) g else g.

(** ** The meta-data about a peer *)

(** [get_ldev] *)
Definition has_ldev (min_state : Z) (d : device) : bool := negb (disk_state OLD d =? D_DISKLESS) && (min_state <=? disk_state OLD d).

Definition finish_peer_md (conns : list connection) (p : peer_device) (md : peer_md) : peer_md :=
  let pdsk := peer_disk_state NEW p in
  let seen := MD_PEER_DEVICE_SEEN md || ((D_INCONSISTENT <=? pdsk) && negb (pdsk =? D_UNKNOWN)) in
  mk_pmd (MD_HAVE_BITMAP md) (MD_NODE_EXISTS md) (seen && negb ((pdsk =? D_DISKLESS) && negb (p_bitmap p)))
    ((D_INCONSISTENT <=? pdsk) && (pdsk <=? D_OUTDATED)) (negb (bool_decide (c_fencing (conn_of conns p) = FP_DONT_CARE))) (L_OFF <? repl_state NEW p).

(** [the_only_peer_with_disk]: the place of its connection *)
Definition the_only_peer_with_disk (my_node_id : nat) (w : which_state) (d : device) : option nat :=
  let others := filter (fun id => id <> my_node_id) (seq 0 DRBD_NODE_ID_MAX) in
  if (1 <? length (filter (fun id => MD_PEER_DEVICE_SEEN (d_md d !!! id) = true) others))%nat then None
  else foldl (fun acc id =>
    match peer_device_by_node_id d id with
    | Some p => if (D_INCONSISTENT <=? peer_disk_state w p) && negb (peer_disk_state w p =? D_UNKNOWN) then Some (p_conn p) else acc
    | None => acc
    end) None others.

Definition drbd_update_mdf_al_disabled (r : resource) (w : which_state) (d : device) : device :=
  if negb (has_ldev D_INCONSISTENT d) then d
  else
    let m := d_more d in
    let al_updates := dm_al_updates m in
    let peer := if al_updates then the_only_peer_with_disk (r_node_id r) w d else None in
    let primary_peer := match peer with Some c => is_primary (peer_role w (r_conns r !!! c)) | None => false end in
    let al_updates :=
      if negb (dm_has_bitmap m) || (al_updates && (dm_max_peers m =? 1) && primary_peer && is_secondary (role w r)) then false else al_updates in
    if Bool.eqb (negb (MDF_AL_DISABLED m)) al_updates then d
    else with_d_more (fun m => drbd_md_mark_dirty (set_mdf_al_disabled (negb al_updates) m)) d.

(** ** The second loop: a peer device *)

Definition both_up_to_date (d : device) (p : peer_device) : bool :=
  (negb (disk_state OLD d =? D_UP_TO_DATE) || negb (peer_disk_state OLD p =? D_UP_TO_DATE)) &&
  (disk_state NEW d =? D_UP_TO_DATE) && (peer_disk_state NEW p =? D_UP_TO_DATE).

Definition ends_resync (p : peer_device) : bool := (L_ESTABLISHED <? repl_state OLD p) && (repl_state NEW p <=? L_ESTABLISHED).

(** Peer was forced up to date and primary. *)
Definition considers_resync (conns : list connection) (d : device) (p : peer_device) : bool :=
  (disk_state OLD d =? D_INCONSISTENT) && (peer_disk_state OLD p =? D_INCONSISTENT) && (peer_disk_state NEW p =? D_UP_TO_DATE) &&
  is_secondary (peer_role OLD (conn_of conns p)) && is_primary (peer_role NEW (conn_of conns p)).

Definition leaves_ahead (p : peer_device) : bool := (repl_state OLD p =? L_AHEAD) && (repl_state NEW p =? L_SYNC_SOURCE).

Definition updates_md (d : device) : bool := negb (disk_state NEW d =? D_NEGOTIATING) && has_ldev D_INCONSISTENT d.

Definition finish_peer (now : Z) (conns : list connection) (d : device) (p : peer_device) : peer_device :=
  let p' := if ends_resync p then set_reconciliation false p else p in
  with_p_more (fun m =>
    mk_pm (B_RS_H_DONE m) (RS_DONE m) (SYNC_TARGET_TO_BEHIND m) (AHEAD_TO_SYNC_SOURCE m && negb (lost_peer p))
      (CONSIDER_RESYNC m || (updates_md d && considers_resync conns d p)) (SEND_STATE_AFTER_AHEAD m || leaves_ahead p)
      (GOT_NEG_ACK m && negb (peer_disk_state NEW p <? D_UP_TO_DATE)) (SYNC_SRC_CRASHED_PRI m && negb (ends_resync p)) (UNSTABLE_RESYNC m)
      (PEER_CRASHED_PRIMARY m && negb (both_up_to_date d p && UUIDS_RECEIVED p)) (pm_uuid_node_mask m) (pm_bitmap_index m) (pm_bitmap_uuid m)
      (finish_progress now (d_more d) conns p) (pm_connect m)) p'.

Definition lost_contact_to_peer_data (os ns : Z) : bool :=
  ((D_INCONSISTENT <=? os) && negb (os =? D_UNKNOWN) && negb (os =? D_OUTDATED)) &&
  ((ns <? D_INCONSISTENT) || (ns =? D_UNKNOWN) || (ns =? D_OUTDATED)).

Definition peer_returns_diskless (d : device) (p : peer_device) (os ns : Z) : bool :=
  has_ldev D_INCONSISTENT d && (os =? D_UNKNOWN) && ((ns =? D_DISKLESS) || (ns =? D_FAILED) || (ns =? D_OUTDATED)) && (pm_bitmap_uuid (p_more p) =? 0).

(** The change of a peer device that starts a new data generation. *)
Definition peer_creates_uuid (r : resource) (d : device) (p : peer_device) : bool :=
  let c := conn_of (r_conns r) p in
  let os := peer_disk_state OLD p in
  let ns := peer_disk_state NEW p in
  let primary := is_primary (role NEW r) in
  let accessible := drbd_data_accessible (r_conns r) NEW d in
  becomes L_AHEAD p ||
  (lost_contact_to_peer_data os ns &&
   ((primary && negb (UNREGISTERED (d_more d)) && accessible) ||
    ((c_pro_version c <? 110) && is_primary (peer_role NEW c) && (D_UP_TO_DATE <=? disk_state NEW d)))) ||
  (peer_returns_diskless d p os ns && primary && negb (UNREGISTERED (d_more d)) && (disk_state NEW d =? D_UP_TO_DATE)) ||
  ((D_FAILED <? disk_state OLD d) && (disk_state NEW d =? D_FAILED) && primary && accessible).

Definition create_new_uuid (r : resource) (d : device) : bool :=
  existsb (peer_creates_uuid r d) (d_peers d) ||
  ((D_INCONSISTENT <=? disk_state OLD d) && (disk_state NEW d <? D_INCONSISTENT) && is_primary (role NEW r) && drbd_data_accessible (r_conns r) NEW d) ||
  (is_secondary (role OLD r) && is_primary (role NEW r)).

(** What the loop changes in the device for the peer device [p]. *)
Definition finish_device_peer (r : resource) (d : device) (p : peer_device) : device :=
  let d := if both_up_to_date d p then with_d_more (set_dev_crashed false) d else d in
  let d :=
    if updates_md d then
      let d :=
        if pm_bitmap_index (p_more p) =? -1 then d
        else
          let md := d_md d !!! p_node_id p in
          let md' := finish_peer_md (r_conns r) p md in
          if decide (md' = md) then d else with_d_more drbd_md_mark_dirty (set_md (<[p_node_id p := md']> (d_md d)) d) in
      if (repl_state OLD p <? L_ESTABLISHED) && (L_ESTABLISHED <=? repl_state NEW p) then with_d_more (set_al_suspended false) d else d
    else d in
  let c := conn_of (r_conns r) p in
  if negb (bool_decide (peer_role OLD c = peer_role NEW c)) || negb (bool_decide (role OLD r = role NEW r)) ||
     negb (peer_disk_state OLD p =? peer_disk_state NEW p)
  then drbd_update_mdf_al_disabled r NEW d else d.

Definition peer_actions (v j : nat) (p : peer_device) : list action :=
  (if starts_verify p || starts_resync p then [rs_controller_reset v j] else []) ++ (if leaves_ahead p then [wake_sender (p_conn p)] else []).

(** ** The second loop: a device *)

Definition drbd_twopc_between_peer_and_me (r : resource) (c : connection) : bool :=
  let o := rm_twopc_reply (r_more r) in
  let me := Z.of_nat (r_node_id r) in
  let peer := Z.of_nat (cm_peer_node_id (c_more c)) in
  (((tr_target_node_id o =? me) || (tr_target_node_id o =? -1)) && (tr_initiator_node_id o =? peer)) ||
  (((tr_target_node_id o =? peer) || (tr_target_node_id o =? -1)) && (tr_initiator_node_id o =? me)).

Definition primary_and_data_present (r : resource) (d : device) : bool :=
  let considered p :=
    negb (rm_remote_state_change (r_more r) && drbd_twopc_between_peer_and_me r (conn_of (r_conns r) p) && tr_is_disconnect (rm_twopc_reply (r_more r))) in
  (is_primary (role NEW r) || existsb (fun p => considered p && is_primary (peer_role NEW (conn_of (r_conns r) p))) (d_peers d)) &&
  ((disk_state NEW d =? D_UP_TO_DATE) || existsb (fun p => considered p && (peer_disk_state NEW p =? D_UP_TO_DATE)) (d_peers d)).

Definition extra_ldev_ref_for_after_state_chg (o n : Z) : bool :=
  (negb (o =? D_FAILED) && (n =? D_FAILED)) || (negb (o =? D_DETACHING) && (n =? D_DETACHING)) || (negb (o =? D_DISKLESS) && (n =? D_DISKLESS)).

Definition drbd_uuid_set_exposed (r : resource) (val : Z) (d : device) : device :=
  if (no_primary (d_exposed_uuid d) =? no_primary val) || (val =? UUID_JUST_CREATED) then d
  else set_exposed (if is_primary (role OLD r) then Z.lor val UUID_PRIMARY else no_primary val) d.

(** Another node is primary, or one of its requests may be in flight. *)
Definition some_peer_is_primary (r : resource) : bool := existsb (fun c => is_primary (peer_role NEW c)) (r_conns r).
Definition some_peer_request_in_flight (r : resource) : bool :=
  existsb (fun c =>
    if cstate NEW c =? C_CONNECTED then negb (cm_requests (c_more c) =? 0)
    else negb ((cstate NEW c =? C_STANDALONE) || (cstate NEW c =? C_UNCONNECTED) || (cstate NEW c =? C_CONNECTING))) (r_conns r).

(** The flags of the meta-data, [CONSISTENT] and [WAS_UP_TO_DATE] first. *)
Definition finish_consistent (r : resource) (d : device) : bool * bool :=
  let n := disk_state NEW d in
  if D_INCONSISTENT <=? n then (D_INCONSISTENT <? n, D_OUTDATED <? n)
  else if ((n =? D_FAILED) || (n =? D_DETACHING)) && MDF_WAS_UP_TO_DATE d && primary_and_data_present r d then (MDF_CONSISTENT d, false)
  else (MDF_CONSISTENT d, MDF_WAS_UP_TO_DATE d).

Definition graceful_detach (d : device) : bool := (disk_state NEW d =? D_DETACHING) && negb (FORCE_DETACH (d_more d)).

Definition finish_primary_ind (r : resource) (d : device) : bool :=
  if is_primary (role NEW r) || some_peer_is_primary r then true
  else if negb (some_peer_request_in_flight r) &&
          (graceful_detach d || (is_secondary (role NEW r) && negb (some_peer_is_primary r) && (D_INCONSISTENT <=? disk_state NEW d)))
  then false else MDF_PRIMARY_IND (d_more d).

Definition finish_md_flags (r : resource) (members : Z) (d : device) : device :=
  let m := d_more d in
  let '(consistent, was_up_to_date) := finish_consistent r d in
  let crashed := CRASHED_PRIMARY m || (is_primary (role NEW r) && negb (graceful_detach d)) in
  let ind := finish_primary_ind r d in
  let quorum := have_quorum NEW d in
  let same :=
    Bool.eqb consistent (MDF_CONSISTENT d) && Bool.eqb was_up_to_date (MDF_WAS_UP_TO_DATE d) && negb (MDF_AL_CLEAN m) &&
    Bool.eqb crashed (MDF_CRASHED_PRIMARY m) && Bool.eqb (PRIMARY_LOST_QUORUM m) (MDF_PRIMARY_LOST_QUORUM m) && Bool.eqb ind (MDF_PRIMARY_IND m) &&
    Bool.eqb quorum (MDF_HAVE_QUORUM m) && (dm_md_members m =? members) in
  if same then d
  else
    mk_dev (d_old d) (d_new d) (d_peers d) (d_md d) consistent was_up_to_date (d_current_uuid d) (d_exposed_uuid d) (intentional_diskless d)
      (writable d) (open_cnt d) (RESTORE_QUORUM d) (RESTORING_QUORUM d) (TRY_TO_GET_RESYNC d) (NEW_CUR_UUID d)
      (mk_dm (UNREGISTERED m) (CRASHED_PRIMARY m) (PRIMARY_LOST_QUORUM m) (FORCE_DETACH m) (__NEW_CUR_UUID m) (AL_SUSPENDED m) true false crashed
         (PRIMARY_LOST_QUORUM m) ind quorum (MDF_AL_DISABLED m) members (dm_max_peers m) (dm_al_updates m)
         (dm_has_bitmap m) (dm_bm_bits m) (dm_bm_block_shift m) (dm_local_cnt m) (dm_last_reattach_jif m) (OUTDATE_ON_2PC_COMMIT m) (dm_next_exposed_uuid m)).

(** The body of the loop up to the peer devices. *)
Definition finish_device_before (d : device) : device :=
  let o := disk_state OLD d in
  let n := disk_state NEW d in
  let restored := negb (have_quorum OLD d) && have_quorum NEW d in
  let d := set_restore_quorum (RESTORE_QUORUM d && negb (have_quorum NEW d || (n <? D_UP_TO_DATE))) (RESTORING_QUORUM d && negb restored) d in
  let d := if extra_ldev_ref_for_after_state_chg o n then with_d_more (fun m => set_local_cnt (dm_local_cnt m + 1) m) d else d in
  if negb (o =? D_DISKLESS) && (n =? D_DISKLESS) then set_peers (map (with_p_more (set_bitmap_index (-1))) (d_peers d)) d else d.

(** And from there on. *)
Definition finish_device_after (now : Z) (r : resource) (members : Z) (create_uuid : bool) (d : device) : device :=
  let o := disk_state OLD d in
  let n := disk_state NEW d in
  let d := if create_uuid && negb (rs_susp_uuid (r_old r)) then with_d_more (set_next_cur_uuid true) d else d in
  let d :=
    if negb (n =? D_NEGOTIATING) && has_ldev D_DETACHING d then
      let d := finish_md_flags r members d in
      if (o <? D_CONSISTENT) && (D_CONSISTENT <=? n) then drbd_uuid_set_exposed r (d_current_uuid d) d else d
    else d in
  let d := if ((o =? D_ATTACHING) || (o =? D_NEGOTIATING)) && (D_NEGOTIATING <? n) then with_d_more (set_last_reattach now) d else d in
  let d := if negb (have_quorum OLD d) && have_quorum NEW d then with_d_more (set_lost_quorum false) d else d in
  if is_primary (role OLD r) && is_secondary (role NEW r) then set_new_cur_uuid false d else d.

Definition finish_device (now : Z) (r : resource) (members : Z) (d : device) : device :=
  let d := finish_device_before d in
  let create_uuid := create_new_uuid r d in
  let peers := map (finish_peer now (r_conns r) d) (d_peers d) in
  let d := foldl (finish_device_peer r) d (d_peers d) in
  finish_device_after now r members create_uuid (set_peers peers d).

Definition should_try_become_up_to_date (r : resource) (d : device) : bool :=
  (disk_state OLD d =? D_UP_TO_DATE) && (disk_state NEW d =? D_CONSISTENT) && may_return_to_up_to_date (r_conns r) NEW d.

(** Suspended requests are to fail. *)
Definition unfreezes_io (r : resource) (d : device) : bool :=
  let no_data w := is_primary (role w r) && negb (drbd_data_accessible (r_conns r) w d) in
  (resource_is_suspended NEW (r_new r) (r_conns r) && negb (no_data OLD) && no_data NEW && bool_decide (opt_on_no_data r = OND_IO_ERROR)) ||
  (negb (rs_fail_io (r_old r)) && rs_fail_io (r_new r)).

(** ** The loop over the connections *)

Definition has_starting_resyncs (r : resource) (i : nat) : bool :=
  existsb (fun p => Nat.eqb (p_conn p) i && (L_ESTABLISHED <? repl_state NEW p)) (all_peers r).

Definition twopc_hit (r : resource) (c : connection) : bool :=
  disconnects c && negb (tr_initiator_node_id (rm_twopc_reply (r_more r)) =? -1) && TWOPC_PREPARED (c_more c).

Definition finish_conn (now : Z) (r : resource) (c : connection) : connection :=
  with_c_more (fun m =>
    mk_cm (cm_peer_node_id m) (cm_send_dagtag m) (cm_requests m) (cm_pending_flush_mask m) (FF_2PC_V2 m) (SEND_STATE_AFTER_AHEAD_C m) (CONN_CONGESTED m)
      (NOTIFY_PEERS_LOST_PRIMARY m || (disconnects c && is_primary (peer_role OLD c))) (RECONNECT m || disconnects c) (TWOPC_PREPARED m)
      (TWOPC_RETRY m || twopc_hit r c) (if connects c then now else cm_last_reconnect_jif m) (cm_votes m)) c.

Definition walk_of (r : resource) (unfreeze_io : bool) (i : nat) (c : connection) : option walk_event :=
  if negb (resource_is_suspended OLD (r_old r) (r_conns r)) then None
  else if (negb (resource_is_suspended NEW (r_new r) (r_conns r)) || unfreeze_io) && (cstate NEW c <? C_CONNECTED) then Some CANCEL_SUSPENDED_IO
  else if connects c then Some (if has_starting_resyncs r i then CANCEL_SUSPENDED_IO else RESEND)
  else None.

Definition conn_actions (r : resource) (unfreeze_io starting_resync : bool) (i : nat) (c : connection) : list action :=
  (if negb (cstate OLD c =? C_DISCONNECTING) && (cstate NEW c =? C_DISCONNECTING) then [stop_receiver i] else []) ++
  (if negb (cstate OLD c =? C_STANDALONE) && (cstate NEW c =? C_STANDALONE) then [stop_receiver i] else []) ++
  (if (C_CONNECTING <=? cstate OLD c) && (cstate NEW c <=? C_TEAR_DOWN) && (C_TIMEOUT <=? cstate NEW c) then [restart_receiver i] else []) ++
  (if twopc_hit r c then [maybe_cluster_wide_reply] else []) ++
  match walk_of r unfreeze_io i c with
  | Some RESEND => [tl_walk (Some i) RESEND; wake_sender i]
  | Some ev => [tl_walk (Some i) ev]
  | None => []
  end ++
  (if starting_resync && is_primary (peer_role NEW c) then [apply_unacked_peer_requests i] else []).

(** ** After the loss of a primary *)

Definition drbd_stable_sync_source_present (r : resource) (w : which_state) (d : device) (j : nat) (except : peer_device) : bool :=
  let authoritative_nodes := if UUID_STABLE except then 0 else pm_uuid_node_mask (p_more except) in
  let authoritative id := negb (Z.land authoritative_nodes (NODE_MASK id) =? 0) in
  authoritative (r_node_id r) ||
  existsb (fun k =>
    match d_peers d !! k with
    | Some p =>
        let s := repl_state w p in
        let c := conn_of (r_conns r) p in
        negb (Nat.eqb k j) && ((s =? L_ESTABLISHED) || (s =? L_WF_BITMAP_S) || ((L_SYNC_SOURCE <=? s) && (s <? L_AHEAD))) &&
        (authoritative (p_node_id p) || (negb (two_primaries_or_no_conf c) && is_primary (peer_role w c)) || (repl_is_sync_target s && UUID_STABLE p))
    | None => false
    end) (seq 0 (length (d_peers d))).

Definition mark_unstable_resync (r : resource) (d : device) : device :=
  set_peers (imap (fun j p =>
    if negb (UNSTABLE_RESYNC (p_more p)) && repl_is_sync_target (repl_state NEW p) && negb (UUID_STABLE p) && negb (drbd_stable_sync_source_present r NEW d j p)
    then with_p_more set_unstable_resync p else p) (d_peers d)) d.

(** ** [finish_state_change] *)

Definition with_r (conns : list connection) (devs : list device) (members : Z) (m : res_more) (r : resource) : resource :=
  mk_res (r_old r) (r_new r) conns devs (r_flags r) (r_node_id r) members (opt_quorum r) (opt_min_redundancy r) (opt_on_no_quorum r) (opt_on_no_data r) m.

Definition set_try_become (x : bool) (m : res_more) : res_more :=
  mk_rm (rm_dagtag_sector m) (rm_peer_ack_req m) (rm_last_peer_acked_dagtag m) (rm_current_flush_sequence m) (rm_current_tle_writes m)
    (rm_current_tle_nr m) x (R_UNREGISTERED m) (rm_remote_state_change m) (rm_twopc_reply m).

(** Up to the loop over the devices that changes the meta-data. *)
Definition finish_begin (r : resource) : resource * list action :=
  let m := r_more r in
  let conns := foldl (fun l i => alter (with_c_more (set_send_dagtag (rm_dagtag_sector m))) i l) (r_conns r) (dagtag_conns r) in
  let acts := queue_send_dagtag <$> dagtag_conns r in
  let devs := map (first_loop_device r) (r_devs r) in
  let '(m, acts_epoch) := if start_new_epoch r then start_new_tl_epoch m else (m, []) in
  let '(m, acts_ack) := finish_peer_ack r m in
  let '(conns, flush) := drbd_determine_flush_pending (with_r conns devs (r_members r) m r) in
  (with_r conns devs (r_members r) (next_flush flush m) r, acts ++ acts_epoch ++ acts_ack).

(** The loop over the devices. *)
Definition finish_devices (now : Z) (r : resource) : resource * list action :=
  let conns := foldl (fun l p => if leaves_ahead p then alter (with_c_more set_after_ahead) (p_conn p) l else l) (r_conns r) (all_peers r) in
  let devs := map (finish_device now r (r_members r)) (r_devs r) in
  let acts := concat (imap (fun v d => concat (imap (peer_actions v) (d_peers d))) (r_devs r)) in
  let m := if existsb (should_try_become_up_to_date r) (r_devs r) then set_try_become true (r_more r) else r_more r in
  (with_r conns devs (r_members r) m r, acts).

Definition finish_state_change (now : Z) (r : resource) : resource * list action :=
  let suspended_old := resource_is_suspended OLD (r_old r) (r_conns r) in
  let suspended_new := resource_is_suspended NEW (r_new r) (r_conns r) in
  let '(r, acts1) := finish_begin r in
  let unfreeze_io := existsb (unfreezes_io r) (r_devs r) in
  let starting_resync := existsb (fun p => (repl_state OLD p <=? L_ESTABLISHED) && (repl_state NEW p =? L_WF_BITMAP_S)) (all_peers r) in
  let '(r, acts2) := finish_devices now r in
  let acts3 := concat (imap (conn_actions r unfreeze_io starting_resync) (r_conns r)) in
  let r := with_r (map (finish_conn now r) (r_conns r)) (r_devs r) (r_members r) (r_more r) r in
  let lost_a_primary_peer := existsb (fun c => is_primary (peer_role OLD c) && bool_decide (peer_role NEW c = R_UNKNOWN)) (r_conns r) in
  let r := if lost_a_primary_peer then with_r (r_conns r) (map (mark_unstable_resync r) (r_devs r)) (r_members r) (r_more r) r else r in
  let resumed := suspended_old && negb suspended_new in
  (r, acts1 ++ acts2 ++ acts3 ++ (if resumed then [restart_suspended_reqs] else []) ++ (if resumed || unfreeze_io then [tl_walk None COMPLETION_RESUMED] else [])).

(** ** The end of a state change *)

Definition apply_pd (p : peer_device) : peer_device :=
  mk_pd (p_new p) (p_new p) (p_conn p) (p_node_id p) (p_bitmap p) (p_tiebreaker p) (p_weight p) (p_current_uuid p)
    (p_negotiation_result p) (UUID_STABLE p) (UUID_GOT_STABLE p) (UUIDS_RECEIVED p) (HOLDING_UUID_READ_LOCK p) (PEER_QUORATE p)
    (PEER_REPLICATION_NEXT p) (REPLICATION_NEXT p) (RECONCILIATION_RESYNC p) (p_more p).
Definition apply_conn (c : connection) : connection := mk_conn (c_new c) (c_new c) (c_net_conf c) (c_fencing c) (c_pro_version c) (c_rs_skip_uuid c) (c_more c).
Definition apply_dev (d : device) : device :=
  mk_dev (d_new d) (d_new d) (map apply_pd (d_peers d)) (d_md d) (MDF_CONSISTENT d) (MDF_WAS_UP_TO_DATE d) (d_current_uuid d) (d_exposed_uuid d)
    (intentional_diskless d) (writable d) (open_cnt d) (RESTORE_QUORUM d) (RESTORING_QUORUM d) (TRY_TO_GET_RESYNC d) (NEW_CUR_UUID d) (d_more d).
Definition apply_state_change (r : resource) : resource :=
  mk_res (r_new r) (r_new r) (map apply_conn (r_conns r)) (map apply_dev (r_devs r)) (r_flags r) (r_node_id r) (r_members r) (opt_quorum r)
    (opt_min_redundancy r) (opt_on_no_quorum r) (opt_on_no_data r) (r_more r).

Definition state_is_stable (conns : list connection) (d : device) : bool :=
  forallb (fun p => negb ((repl_state OLD p =? L_WF_BITMAP_S) && (c_pro_version (conn_of conns p) <? 96)) &&
                    negb ((repl_state OLD p =? L_WF_BITMAP_T) || (repl_state OLD p =? L_WF_SYNC_UUID))) (d_peers d) &&
  negb ((disk_state OLD d =? D_ATTACHING) || (disk_state OLD d =? D_NEGOTIATING) || (disk_state OLD d =? D_UNKNOWN)).

Definition PRO_VERSION_MAX : Z := 124.

(** The values that [___end_state_change] caches for the path of requests. *)
Record cached_state := mk_cached {
  cached_susp : bool;
  cached_min_aggreed_protocol_version : Z;
  cached_all_devices_have_quorum : bool;
  cached_unstable : list bool;
  cached_err_io : list bool }.

Definition cache_state (r : resource) : cached_state :=
  mk_cached (resource_is_suspended NEW (r_new r) (r_conns r)) (foldr (fun c v => Z.min (c_pro_version c) v) PRO_VERSION_MAX (r_conns r)) (forallb (have_quorum OLD) (r_devs r))
    (map (fun d => negb (state_is_stable (r_conns r) d)) (r_devs r))
    (map (fun d =>
       (bool_decide (opt_on_no_quorum r = ONQ_IO_ERROR) && negb (have_quorum OLD d)) ||
       (bool_decide (opt_on_no_data r = OND_IO_ERROR) && negb (drbd_data_accessible (r_conns r) OLD d)) || rs_fail_io (r_new r)) (r_devs r)).

Definition drbd_state_change_is_connect (r : resource) : bool :=
  existsb (fun c => (cstate OLD c =? C_CONNECTING) && (cstate NEW c =? C_CONNECTED)) (r_conns r).

(** [exposable_data_uuid]: the first UUID of an accessible peer counts. *)
Definition exposable_data_uuid (r : resource) (d : device) : Z :=
  if has_ldev D_UP_TO_DATE d then d_current_uuid d
  else foldl (fun uuid p =>
    if no_remote_read (conn_of (r_conns r) p) then uuid
    else if (peer_disk_state OLD p =? D_UP_TO_DATE) && negb (no_primary uuid =? no_primary (p_current_uuid p)) && (uuid =? 0) then p_current_uuid p
    else uuid) 0 (d_peers d).

Definition ensure_exposed_data_uuid (r : resource) (d : device) : device :=
  let uuid := exposable_data_uuid r d in if uuid =? 0 then d else drbd_uuid_set_exposed r uuid d.

Definition release_uuid_lock (p : peer_device) : peer_device :=
  mk_pd (p_old p) (p_new p) (p_conn p) (p_node_id p) (p_bitmap p) (p_tiebreaker p) (p_weight p) (p_current_uuid p)
    (p_negotiation_result p) (UUID_STABLE p) (UUID_GOT_STABLE p) (UUIDS_RECEIVED p) false (PEER_QUORATE p)
    (PEER_REPLICATION_NEXT p) (REPLICATION_NEXT p) (RECONCILIATION_RESYNC p) (p_more p).

(** The last loop over the devices; [r] is the resource with the change applied. *)
Definition settle_device (r : resource) (is_connect : bool) (d : device) : device :=
  let d := if __NEW_CUR_UUID (d_more d) then set_new_cur_uuid true (with_d_more (set_next_cur_uuid false) d) else d in
  let d := ensure_exposed_data_uuid r d in
  if is_connect then set_peers (map release_uuid_lock (d_peers d)) d else d.

(** An accepted change is carried out; the work after the change is queued while the resource is
    registered. *)
Definition commit_state_change (now : Z) (r : resource) : resource * list action * cached_state :=
  let '(members, acts1) := update_members r in
  let r := with_r (r_conns r) (r_devs r) members (r_more r) r in
  let '(r, acts2) := finish_state_change now r in
  let is_connect := drbd_state_change_is_connect r in
  let r := apply_state_change r in
  let cached := cache_state r in
  let r := with_r (r_conns r) (map (settle_device r is_connect) (r_devs r)) (r_members r) (r_more r) r in
  (r, acts1 ++ acts2 ++ (if R_UNREGISTERED (r_more r) then [] else [queue_after_state_change]), cached).

Record change_result := mk_change {
  ch_rv : drbd_state_rv;
  ch_resource : resource;
  ch_actions : list action;
  ch_cached : option cached_state }.

(** [___end_state_change] with the result so far. *)
Definition ___end_state_change (now : Z) (rv : drbd_state_rv) (r : resource) : change_result :=
  let flags := r_flags r in
  let out := if CS_TWOPC flags && negb (CS_PREPARE flags) then [clear_remote_state_change] else [] in
  if CS_ABORT flags then mk_change rv r out None
  else
    let '(rv, r) := if rv_ok rv then try_state_change r else (rv, r) in
    if negb (rv_ok rv) then mk_change rv r out None
    else if CS_PREPARE flags then mk_change rv r out None
    else
      let '(r, acts, cached) := commit_state_change now r in
      mk_change rv r (acts ++ out) (Some cached).

Definition with_flags (f : cs_flags) (r : resource) : resource :=
  mk_res (r_old r) (r_new r) (r_conns r) (r_devs r) f (r_node_id r) (r_members r) (opt_quorum r) (opt_min_redundancy r) (opt_on_no_quorum r) (opt_on_no_data r) (r_more r).

Definition begin_state_change (f : cs_flags) (r : resource) : resource := ___begin_state_change (with_flags f r).
Definition end_state_change (now : Z) (r : resource) : change_result := ___end_state_change now SS_SUCCESS r.
Definition abort_state_change (now : Z) (r : resource) : change_result := ___end_state_change now SS_UNKNOWN_ERROR r.
End finish.
