(* ===== verification/StateProps.v ===== *)
(** * Sanitizing: what it keeps and what holds afterwards *)
From S2P Require Import Prelude Headers State.

Lemma alter_insert_at {A} (f : A -> A) j (l : list A) x : l !! j = Some x -> alter f j l = <[j := f x]> l.
Proof.
  intros Hx. apply list_eq. intros i. destruct (decide (i = j)) as [->|Hne].
  - rewrite list_lookup_alter_eq, Hx, list_lookup_insert_eq by (by eapply lookup_lt_Some). done.
  - by rewrite list_lookup_alter_ne, list_lookup_insert_ne by done.
Qed.

(** ** What is kept: the state before the change *)

Definition pd_same (p p' : peer_device) : Prop := p_old p' = p_old p /\ p_conn p' = p_conn p.

Record dev_same (d d' : device) : Prop := {
  same_old : d_old d' = d_old d;
  same_peers : Forall2 pd_same (d_peers d) (d_peers d') }.

Definition conn_same (c c' : connection) : Prop := c_old c' = c_old c /\ c_net_conf c' = c_net_conf c.

#[export] Instance pd_same_preorder : PreOrder pd_same.
Proof. split; [by intros p|]. intros p1 p2 p3 [H1 H2] [H3 H4]. split; congruence. Qed.

#[export] Instance conn_same_preorder : PreOrder conn_same.
Proof. split; [by intros p|]. intros p1 p2 p3 [H1 H2] [H3 H4]. split; congruence. Qed.

#[export] Instance dev_same_preorder : PreOrder dev_same.
Proof.
  split; [intros d; split; [done|reflexivity]|]. intros d1 d2 d3 [H1 H2] [H3 H4]. split; [congruence|]. by etrans.
Qed.

Create HintDb same.
#[export] Hint Extern 0 (pd_same _ _) => (split; reflexivity) : same.
#[export] Hint Extern 0 (dev_same ?d ?d) => reflexivity : same.

Lemma same_set_peers d l : Forall2 pd_same (d_peers d) l -> dev_same d (set_peers l d).
Proof. done. Qed.

Lemma same_map d f : (forall p, pd_same p (f p)) -> dev_same d (set_peers (map f (d_peers d)) d).
Proof. intros Hf. apply same_set_peers. induction (d_peers d); constructor; auto. Qed.

Lemma same_imap d f : (forall j p, pd_same p (f j p)) -> dev_same d (set_peers (imap f (d_peers d)) d).
Proof.
  intros Hf. apply same_set_peers. apply Forall2_same_length_lookup_2; [by rewrite length_imap|].
  intros i x y Hx Hy. rewrite list_lookup_imap, Hx in Hy. injection Hy as <-. apply Hf.
Qed.

Lemma same_upd_peer d j f : (forall p, pd_same p (f p)) -> dev_same d (upd_peer j f d).
Proof.
  intros Hf. apply same_set_peers. apply Forall2_same_length_lookup_2; [by rewrite length_alter|].
  intros i x y Hx Hy. destruct (decide (i = j)) as [->|Hne].
  - rewrite list_lookup_alter_eq, Hx in Hy. injection Hy as <-. apply Hf.
  - rewrite list_lookup_alter_ne in Hy by done. simplify_eq. reflexivity.
Qed.

(** A change of fields other than the peer devices and the old state. *)
Lemma same_fields d d' : d_old d' = d_old d -> d_peers d' = d_peers d -> dev_same d d'.
Proof. intros Ho Hp. split; [done|]. rewrite Hp. reflexivity. Qed.

#[export] Hint Resolve same_map same_imap same_upd_peer : same.
#[export] Hint Extern 1 (dev_same _ _) => (apply same_fields; reflexivity) : same.

(** Steps that are a case distinction over such changes. *)
Ltac same_steps := cbv zeta; repeat case_match; eauto with same.
Ltac same_ifs := repeat match goal with |- dev_same ?d (if ?b then _ else ?x) => transitivity x; [|destruct b; eauto with same] end; reflexivity.

(** The order of the states, as facts that [lia] uses. *)
Ltac orders :=
  pose proof disk_order as Hdo; pose proof attach_order as Hao; pose proof repl_order as Hro; pose proof repl_order_all as Hra.

Section sanitized.
Context `{StateHeaders}.

Lemma at_peer_same j d (f : peer_device -> device) : (forall p, dev_same d (f p)) -> dev_same d (at_peer j d f).
Proof. intros Hf. unfold at_peer. destruct (d_peers d !! j); [apply Hf|reflexivity]. Qed.

Lemma pause_source_same j d : dev_same d (pause_source j d).
Proof.
  apply at_peer_same. intros p. cbv zeta. match goal with |- dev_same _ (at_peer _ ?x _) => transitivity x end; [same_steps|].
  apply at_peer_same. intros q. same_steps.
Qed.

Lemma start_targets_same j d : dev_same d (start_targets j d).
Proof. apply at_peer_same. intros p. unfold drbd_start_other_targets_paused. case_match; [|same_steps]. apply same_imap. intros k q. case_match; by auto with same. Qed.

Lemma consistent_vanishes_same conns j d : dev_same d (consistent_vanishes conns j d).
Proof.
  apply at_peer_same. intros p. case_match; [|same_steps]. cbv zeta. same_ifs.
Qed.

Lemma limit_disks_same j d : dev_same d (limit_disks j d).
Proof.
  apply at_peer_same. intros p. destruct (disk_limits _) as [[[a b] c] e]. cbv zeta. etrans; [|apply same_upd_peer; auto with same]. same_steps.
Qed.

Lemma upgrade_disk_same conns my j d : dev_same d (upgrade_disk conns my j d).
Proof.
  apply at_peer_same. intros p. cbv zeta. etrans; [|apply same_upd_peer; auto with same].
  same_ifs.
Qed.

Lemma diskless_primary_same conns j d : dev_same d (diskless_primary conns j d).
Proof. apply at_peer_same. intros p. same_steps. Qed.

Lemma distrust_peer_same ro conns g j d : dev_same d (distrust_peer ro conns g j d).
Proof. apply at_peer_same. intros p. same_steps. Qed.

Lemma decide_replication_same conns j d : dev_same d (decide_replication conns j d).
Proof.
  apply at_peer_same. intros p. cbv zeta.
  same_ifs.
Qed.

Lemma second_same ro conns my g d j : dev_same d (sanitize_peer_second ro conns my g d j).
Proof.
  unfold sanitize_peer_second. etrans; [|apply decide_replication_same]. etrans; [|apply distrust_peer_same]. etrans; [|apply diskless_primary_same].
  etrans; [|apply upgrade_disk_same]. etrans; [|apply limit_disks_same]. etrans; [|apply consistent_vanishes_same].
  etrans; [|apply start_targets_same]. apply pause_source_same.
Qed.

Lemma peers_second_same r conns g d : dev_same d (sanitize_peers_second r conns g d).
Proof.
  unfold sanitize_peers_second. generalize (seq 0 (length (d_peers d))) as l. intros l. revert d.
  induction l as [|j l IH]; intros d; cbn; [reflexivity|]. etrans; [apply second_same|apply IH].
Qed.

Lemma select_same d : dev_same d (drbd_select_sync_target d).
Proof. apply same_imap. intros j p. cbv zeta. repeat case_match; auto with same. Qed.

Lemma peers_first_same r conns d : dev_same d (sanitize_peers_first r conns d).
Proof.
  etrans; [|apply select_same]. apply same_map. intros p. unfold sanitize_peer_first. cbv zeta.
  repeat match goal with |- pd_same p (if ?b then _ else ?x) => transitivity x; [|destruct b; auto with same] end;
  repeat case_match; auto with same.
Qed.

Lemma negotiation_same conns my d : dev_same d (sanitize_negotiation conns my d).
Proof.
  unfold sanitize_negotiation. case_match; [reflexivity|]. cbv zeta.
  match goal with |- dev_same d (match negotiated_disk _ _ ?x with _ => _ end) => transitivity x end; [case_match; auto with same|].
  match goal with |- dev_same ?x _ => generalize x end. intros e. destruct (negotiated_disk _ _ e) as [disk|]; [|reflexivity].
  etrans; [|apply (same_map (set_disk disk e))]; [auto with same|]. intros p. unfold negotiated_repl. cbv zeta.
  repeat case_match; auto with same.
Qed.

Lemma sanitize_disk_same b d : dev_same d (sanitize_disk b d).
Proof. unfold sanitize_disk. cbv zeta. same_ifs. Qed.

Lemma calc_quorum_same r conns d : dev_same d (snd (calc_quorum r conns d)).
Proof. unfold calc_quorum, check_wrongly_set_mdf_exists. cbn. same_steps. Qed.

Lemma sanitize_quorum_same r conns d : dev_same d (sanitize_quorum r conns d).
Proof.
  unfold sanitize_quorum. pose proof (calc_quorum_same r conns d) as Hc. destruct (calc_quorum r conns d) as [q e]. cbn in Hc.
  destruct (bool_decide (opt_quorum r = QOU_OFF)).
  - same_steps.
  - transitivity e; [done|]. same_steps.
Qed.

Lemma disk_last_same r conns l c d : dev_same d (sanitize_disk_last r conns l c d).
Proof. unfold sanitize_disk_last. cbv zeta. same_ifs. Qed.

Lemma sanitize_device_same r crashed a d : dev_same d (snd (sanitize_device r crashed a d)).
Proof.
  cbn. etrans; [|apply disk_last_same]. etrans; [|apply sanitize_quorum_same]. etrans; [|apply peers_second_same].
  etrans; [|apply peers_first_same]. etrans; [|apply negotiation_same]. apply sanitize_disk_same.
Qed.

(** ** The second loop *)

(** A step changes the peer device at its place only, and the disk. *)
Record touches (j : nat) (p p' : peer_device) (d d' : device) : Prop := {
  touch_here : d_peers d !! j = Some p;
  touch_peers : d_peers d' = <[j := p']> (d_peers d) }.

Lemma touches_refl j p d d' : d_peers d !! j = Some p -> d_peers d' = d_peers d -> touches j p p d d'.
Proof. intros Hp He. split; [done|]. by rewrite list_insert_id. Qed.

Lemma touches_lookup j p p' d d' : touches j p p' d d' -> d_peers d' !! j = Some p'.
Proof. intros [Hp He]. rewrite He, list_lookup_insert_eq; [done|]. by eapply lookup_lt_Some. Qed.

Lemma touches_trans j p p1 p2 d d1 d2 : touches j p p1 d d1 -> touches j p1 p2 d1 d2 -> touches j p p2 d d2.
Proof. intros [Hp He] [Hp1 He1]. split; [done|]. by rewrite He1, He, list_insert_insert_eq. Qed.

Lemma touches_upd j p f d d' : d_peers d !! j = Some p -> d_peers d' = d_peers (upd_peer j f d) -> touches j p (f p) d d'.
Proof. intros Hp He. split; [done|]. rewrite He. cbn. by apply alter_insert_at. Qed.

#[local] Hint Resolve touches_refl touches_upd touches_lookup : same.

(** Sources are paused and continued. *)
Definition source_flip (p p' : peer_device) : Prop :=
  repl_state NEW p' = repl_state NEW p \/ (repl_is_sync_source (repl_state NEW p) = true /\ repl_is_sync_source (repl_state NEW p') = true).

Lemma source_states : repl_is_sync_source L_SYNC_SOURCE = true /\ repl_is_sync_source L_PAUSED_SYNC_S = true.
Proof. unfold repl_is_sync_source. rewrite !Z.eqb_refl, orb_true_r. done. Qed.

Lemma pause_source_spec j p d d' : d_peers d !! j = Some p -> d' = pause_source j d ->
  exists p', touches j p p' d d' /\ source_flip p p' /\ peer_disk_state NEW p' = peer_disk_state NEW p /\ disk_state NEW d' = disk_state NEW d.
Proof.
  intros Hp Hd'. unfold pause_source, at_peer at 1 in Hd'. rewrite Hp in Hd'. cbv zeta in Hd'.
  set (b := negb _ && _ && _) in Hd'. set (d1 := if b then _ else d) in Hd'.
  assert (touches j p (if b then set_susp_other_c true p else p) d d1 /\ disk_state NEW d1 = disk_state NEW d) as [Ht Hd].
  { unfold d1. destruct b; [|by auto with same]. split; [|done]. by apply (touches_upd _ _ (set_susp_other_c true)). }
  set (p1 := if b then _ else p) in *. pose proof (touches_lookup _ _ _ _ _ Ht) as Hl.
  assert (repl_state NEW p1 = repl_state NEW p /\ peer_disk_state NEW p1 = peer_disk_state NEW p) as [Hr1 Hk1] by (unfold p1; by destruct b).
  clearbody d1 p1. unfold at_peer in Hd'. rewrite Hl in Hd'.
  assert (forall s s', d' = upd_peer j (set_repl s') d1 -> repl_state NEW p1 = s -> repl_is_sync_source s = true -> repl_is_sync_source s' = true ->
    exists p', touches j p p' d d' /\ source_flip p p' /\ peer_disk_state NEW p' = peer_disk_state NEW p /\ disk_state NEW d' = disk_state NEW d) as Hflip.
  { intros s s' -> Hs Hsrc Hs'. exists (set_repl s' p1). split; [|repeat split; try done; right; by rewrite <-Hr1, Hs].
    eapply touches_trans; [done|]. by apply (touches_upd _ _ (set_repl s')). }
  assert (d' = d1 -> exists p', touches j p p' d d' /\ source_flip p p' /\ peer_disk_state NEW p' = peer_disk_state NEW p /\
    disk_state NEW d' = disk_state NEW d) as Hsame by (intros ->; exists p1; repeat split; try done; [apply Ht..|by left]).
  destruct (resync_suspended NEW d1 p1); case_if_in Hd'; auto;
    apply (Hflip _ _ Hd' Ec); apply source_states.
Qed.

(** The states that a peer device has after another one started to become sync target. *)
Definition start_flip (p p' : peer_device) : Prop :=
  p' = p \/ (repl_state NEW p = L_ESTABLISHED /\ p' = set_repl L_PAUSED_SYNC_T p).

Lemma start_targets_spec j p d d' : d_peers d !! j = Some p -> d' = start_targets j d ->
  d_peers d' !! j = Some p /\ disk_state NEW d' = disk_state NEW d /\ Forall2 start_flip (d_peers d) (d_peers d').
Proof.
  intros Hp ->. unfold start_targets, at_peer. rewrite Hp.
  assert (Forall2 start_flip (d_peers d) (d_peers d)) as Hr by (apply Forall_Forall2_diag, Forall_true; intros q; by left).
  case_if; [|done]. unfold drbd_start_other_targets_paused. split_and!; [|done|].
  - cbn. rewrite list_lookup_imap, Hp. cbn. by rewrite Nat.eqb_refl.
  - apply Forall2_same_length_lookup_2; [cbn; by rewrite length_imap|]. cbn. intros k x y Hx Hy. rewrite list_lookup_imap, Hx in Hy.
    injection Hy as <-. destruct (negb _ && _ && _) eqn:E; [right|by left]. reflect_bools. done.
Qed.

(** The disk goes up to up to date, and the one of the peer. *)
Lemma consistent_vanishes_spec conns j p d d' : d_peers d !! j = Some p -> d' = consistent_vanishes conns j d ->
  exists p', touches j p p' d d' /\ repl_state NEW p' = repl_state NEW p /\
    (disk_state NEW d' = disk_state NEW d \/ (disk_state NEW d = D_CONSISTENT /\ disk_state NEW d' = D_UP_TO_DATE)).
Proof.
  intros Hp ->. unfold consistent_vanishes, at_peer. rewrite Hp. case_if; [|exists p; split_and!; auto with same]. cbv zeta.
  set (d1 := if disk_state NEW d =? D_CONSISTENT then _ else d).
  assert (d_peers d1 = d_peers d /\ (disk_state NEW d1 = disk_state NEW d \/ (disk_state NEW d = D_CONSISTENT /\ disk_state NEW d1 = D_UP_TO_DATE))) as [Hp1 Hd1].
  { unfold d1. case_if; [|auto]. split; [done|]. by right. }
  clearbody d1. case_if.
  - exists (set_peer_disk D_UP_TO_DATE p). split_and!; [|done|done]. apply (touches_upd _ _ (set_peer_disk D_UP_TO_DATE)); [done|]. cbn. by rewrite Hp1.
  - exists p. split_and!; auto with same.
Qed.

Lemma limit_disks_spec j p d d' : d_peers d !! j = Some p -> d' = limit_disks j d ->
  exists p', touches j p p' d d' /\ repl_state NEW p' = repl_state NEW p /\
    let '(lo, hi, plo, phi) := disk_limits (repl_state NEW p) in
    disk_state NEW d' = clamp lo hi (disk_state NEW d) /\
    (peer_disk_state NEW p' = clamp plo phi (peer_disk_state NEW p) \/
     (peer_disk_state NEW p' = D_DISKLESS /\ clamp plo phi (peer_disk_state NEW p) <= D_FAILED)).
Proof.
  intros Hp ->. unfold limit_disks, at_peer. rewrite Hp. orders. destruct (disk_limits (repl_state NEW p)) as [[[lo hi] plo] phi]. cbv zeta.
  match goal with |- context [upd_peer j ?f _] => exists (f p); split; [by apply (touches_upd _ _ f)|] end.
  split; [done|]. split; [done|]. cbn. case_if; [right|by left].
  split; [done|]. destruct (clamp plo phi (peer_disk_state NEW p) =? D_FAILED) eqn:E; cbn in *; reflect_bools; lia.
Qed.

Definition raised (x x' : Z) : Prop := x' = x \/ ((x = D_OUTDATED \/ x = D_CONSISTENT) /\ D_CONSISTENT <= x').

Lemma raise_step (b : bool) x y d :
  (b = true -> (disk_state NEW d = D_OUTDATED \/ disk_state NEW d = D_CONSISTENT) /\ D_CONSISTENT <= y) ->
  raised x (disk_state NEW d) -> raised x (disk_state NEW (if b then set_disk y d else d)).
Proof.
  intros Hb Hr. destruct b; [|done]. destruct (Hb eq_refl) as [Hd Hy]. change (raised x y). orders. unfold raised in *. lia.
Qed.

Lemma upgrade_disk_spec conns my j p d d' : d_peers d !! j = Some p -> d' = upgrade_disk conns my j d ->
  exists p', touches j p p' d d' /\ repl_state NEW p' = repl_state NEW p /\ peer_disk_state NEW p' = peer_disk_state NEW p /\
    raised (disk_state NEW d) (disk_state NEW d').
Proof.
  intros Hp ->. unfold upgrade_disk, at_peer. rewrite Hp. cbv zeta. orders.
  match goal with |- context [upd_peer j (set_got_stable false) ?x] => set (d4 := x) end.
  exists (set_got_stable false p). split; [|split; [done|split; [done|]]].
  - apply (touches_upd _ _ (set_got_stable false)); [done|]. cbn. f_equal. unfold d4. repeat case_match; done.
  - change (disk_state NEW (upd_peer j _ d4)) with (disk_state NEW d4). unfold d4.
    repeat (apply raise_step; [intros Hb; reflect_bools; split; [auto|lia]|]). by left.
Qed.

(** A diskless primary upgrades the disk only when no other peer is a source, and else takes the
    claim to be up to date from it. *)
Lemma diskless_primary_spec conns j p d d' : d_peers d !! j = Some p -> d' = diskless_primary conns j d ->
  d_peers d' = d_peers d /\
  (disk_state NEW d' = disk_state NEW d \/
   (disk_state NEW d = D_UP_TO_DATE /\ disk_state NEW d' = D_CONSISTENT) \/
   (peer_disk_state NEW p = D_DISKLESS /\ is_sync_target_other_c j d = false /\ disk_state NEW d' = D_UP_TO_DATE)).
Proof.
  intros Hp ->. unfold diskless_primary, at_peer. rewrite Hp. case_if; [|auto]. case_if.
  - case_if; [|auto]. split; [done|]. right. right. reflect_bools. done.
  - cbv zeta. case_if; [|by auto]. split; [done|]. right. left. done.
Qed.

Lemma distrust_peer_spec ro conns g j p d d' : d_peers d !! j = Some p -> d' = distrust_peer ro conns g j d ->
  exists p', touches j p p' d d' /\ repl_state NEW p' = repl_state NEW p /\ disk_state NEW d' = disk_state NEW d /\
    (peer_disk_state NEW p' = peer_disk_state NEW p \/ disk_state NEW d = D_DISKLESS).
Proof.
  intros Hp ->. unfold distrust_peer, at_peer. rewrite Hp. case_if; [|exists p; split_and!; auto with same].
  exists (set_peer_disk D_CONSISTENT p). split_and!; [by apply (touches_upd _ _ (set_peer_disk D_CONSISTENT))|done|done|by right].
Qed.

Lemma decide_replication_spec conns j p d d' : d_peers d !! j = Some p -> d' = decide_replication conns j d ->
  exists p', touches j p p' d d' /\ repl_state NEW p' = repl_state NEW p /\ disk_state NEW d' = disk_state NEW d /\
    peer_disk_state NEW p' = peer_disk_state NEW p.
Proof.
  intros Hp ->. unfold decide_replication, at_peer. rewrite Hp. cbv zeta.
  assert (forall (b : bool) f d1 p1, touches j p p1 d d1 -> repl_state NEW (f p1) = repl_state NEW p1 -> peer_disk_state NEW (f p1) = peer_disk_state NEW p1 ->
    repl_state NEW p1 = repl_state NEW p -> disk_state NEW d1 = disk_state NEW d -> peer_disk_state NEW p1 = peer_disk_state NEW p ->
    exists p', touches j p p' d (if b then upd_peer j f d1 else d1) /\ repl_state NEW p' = repl_state NEW p /\
      disk_state NEW (if b then upd_peer j f d1 else d1) = disk_state NEW d /\ peer_disk_state NEW p' = peer_disk_state NEW p) as Hstep.
  { intros [] f d1 p1 Ht Hr Hk Hr1 Hd1 Hk1; [|by exists p1]. exists (f p1). split_and!; [|congruence|done|congruence].
    eapply touches_trans; [done|]. apply (touches_upd _ _ f); [by eapply touches_lookup|done]. }
  match goal with |- context [if _ then upd_peer j (set_replication true) ?x else ?x] => set (d2 := x) end.
  assert (exists p2, touches j p p2 d d2 /\ repl_state NEW p2 = repl_state NEW p /\ disk_state NEW d2 = disk_state NEW d /\
    peer_disk_state NEW p2 = peer_disk_state NEW p) as (p2 & Ht2 & Hr2 & Hd2 & Hk2); [|by apply (Hstep _ _ _ p2)].
  unfold d2. match goal with |- context [if _ then upd_peer j (set_replication _) ?x else ?x] => set (d1 := x) end.
  assert (exists p1, touches j p p1 d d1 /\ repl_state NEW p1 = repl_state NEW p /\ disk_state NEW d1 = disk_state NEW d /\
    peer_disk_state NEW p1 = peer_disk_state NEW p) as (p1 & Ht1 & Hr1 & Hd1 & Hk1); [|by apply (Hstep _ _ _ p1)].
  unfold d1. apply (Hstep _ _ _ p); auto with same.
Qed.

Lemma limits_wide s : let '(lo, hi, _, _) := disk_limits s in lo <= D_INCONSISTENT <= hi.
Proof.
  pose proof disk_order. unfold disk_limits. repeat match goal with |- context [if ?c then _ else _] => destruct c end; lia.
Qed.

Ltac not_state x := rewrite (proj2 (Z.eqb_neq _ x)) by lia.

Lemma limits_target : disk_limits L_SYNC_TARGET = (D_INCONSISTENT, D_INCONSISTENT, D_INCONSISTENT, D_UP_TO_DATE).
Proof.
  orders. unfold disk_limits. not_state L_OFF. not_state L_WF_BITMAP_T. not_state L_STARTING_SYNC_T. not_state L_WF_SYNC_UUID. not_state L_BEHIND.
  not_state L_VERIFY_S. not_state L_VERIFY_T. not_state L_ESTABLISHED. not_state L_WF_BITMAP_S. not_state L_PAUSED_SYNC_S. not_state L_STARTING_SYNC_S.
  not_state L_AHEAD. by rewrite Z.eqb_refl, orb_true_r.
Qed.

Lemma limits_source : disk_limits L_SYNC_SOURCE = (D_INCONSISTENT, D_UP_TO_DATE, D_INCONSISTENT, D_INCONSISTENT).
Proof.
  orders. unfold disk_limits. not_state L_OFF. not_state L_WF_BITMAP_T. not_state L_STARTING_SYNC_T. not_state L_WF_SYNC_UUID. not_state L_BEHIND.
  not_state L_VERIFY_S. not_state L_VERIFY_T. not_state L_ESTABLISHED. not_state L_WF_BITMAP_S. not_state L_PAUSED_SYNC_S. not_state L_STARTING_SYNC_S.
  not_state L_AHEAD. not_state L_PAUSED_SYNC_T. not_state L_SYNC_TARGET. by rewrite Z.eqb_refl.
Qed.

Lemma clamp_range lo hi x : lo <= hi -> lo <= clamp lo hi x <= hi.
Proof.
  unfold clamp. intros Hx. destruct (Z.ltb_spec hi x); [destruct (Z.ltb_spec hi lo)|destruct (Z.ltb_spec x lo)]; lia.
Qed.

Lemma clamp_id lo hi x : lo <= x <= hi -> clamp lo hi x = x.
Proof.
  unfold clamp. intros Hx. destruct (Z.ltb_spec hi x); [lia|]. destruct (Z.ltb_spec x lo); lia.
Qed.

Lemma clamp_ge lo hi x y : y <= x -> y <= hi -> y <= clamp lo hi x.
Proof.
  unfold clamp. intros Hx Hy. destruct (Z.ltb_spec hi x); [destruct (Z.ltb_spec hi lo)|destruct (Z.ltb_spec x lo)]; lia.
Qed.

(** The steps that set the disk by the replication state; [d2] has the peer device [p1]. *)
Lemma second_limits conns j p1 d2 d3 d4 :
  d_peers d2 !! j = Some p1 -> d3 = consistent_vanishes conns j d2 -> d4 = limit_disks j d3 ->
  exists p4, touches j p1 p4 d2 d4 /\ repl_state NEW p4 = repl_state NEW p1 /\
    (repl_state NEW p1 = L_SYNC_TARGET -> disk_state NEW d4 = D_INCONSISTENT /\ D_INCONSISTENT <= peer_disk_state NEW p4 <= D_UP_TO_DATE) /\
    (repl_state NEW p1 = L_SYNC_SOURCE -> D_INCONSISTENT <= disk_state NEW d4 /\ peer_disk_state NEW p4 = D_INCONSISTENT) /\
    (D_INCONSISTENT <= disk_state NEW d2 -> D_INCONSISTENT <= disk_state NEW d4) /\
    (disk_state NEW d2 = D_INCONSISTENT -> disk_state NEW d4 = D_INCONSISTENT).
Proof.
  intros Hp H3 H4. orders. destruct (consistent_vanishes_spec _ _ _ _ _ Hp H3) as (p3 & Ht3 & Hr3 & Hd3).
  destruct (limit_disks_spec _ _ _ _ (touches_lookup _ _ _ _ _ Ht3) H4) as (p4 & Ht4 & Hr4 & Hl). rewrite Hr3 in Hl, Hr4.
  exists p4. split; [by eapply touches_trans|]. split; [done|]. pose proof (limits_wide (repl_state NEW p1)) as Hw. split_and!.
  - intros He. rewrite He, limits_target in Hl. destruct Hl as [-> Hk]. pose proof (clamp_range D_INCONSISTENT D_INCONSISTENT (disk_state NEW d3)).
    pose proof (clamp_range D_INCONSISTENT D_UP_TO_DATE (peer_disk_state NEW p3)). lia.
  - intros He. rewrite He, limits_source in Hl. destruct Hl as [-> Hk]. pose proof (clamp_range D_INCONSISTENT D_UP_TO_DATE (disk_state NEW d3)).
    pose proof (clamp_range D_INCONSISTENT D_INCONSISTENT (peer_disk_state NEW p3)). lia.
  - destruct (disk_limits _) as [[[lo hi] plo] phi]. destruct Hl as [-> _]. intros Hge. apply clamp_ge; lia.
  - destruct (disk_limits _) as [[[lo hi] plo] phi]. destruct Hl as [-> _]. intros He. rewrite clamp_id; lia.
Qed.

Lemma sync_target_other j k q d :
  k <> j -> d_peers d !! k = Some q -> repl_is_sync_target (repl_state NEW q) = true -> is_sync_target_other_c j d = true.
Proof.
  intros Hne Hk Hq. unfold is_sync_target_other_c. apply existsb_exists. exists k. split.
  - apply in_seq. apply lookup_lt_Some in Hk. lia.
  - rewrite Hk, Hq, (proj2 (Nat.eqb_neq _ _) Hne). done.
Qed.

(** The steps after that; [p4] is the peer device then. *)
Lemma second_after ro conns my g j p4 d4 d5 d6 d7 d8 :
  d_peers d4 !! j = Some p4 -> d5 = upgrade_disk conns my j d4 -> d6 = diskless_primary conns j d5 -> d7 = distrust_peer ro conns g j d6 ->
  d8 = decide_replication conns j d7 ->
  exists p', touches j p4 p' d4 d8 /\ repl_state NEW p' = repl_state NEW p4 /\
    (D_INCONSISTENT <= disk_state NEW d4 -> D_INCONSISTENT <= disk_state NEW d8 /\ peer_disk_state NEW p' = peer_disk_state NEW p4) /\
    (disk_state NEW d4 = D_INCONSISTENT ->
     peer_disk_state NEW p4 <> D_DISKLESS \/ (exists k q, k <> j /\ d_peers d4 !! k = Some q /\ repl_is_sync_target (repl_state NEW q) = true) ->
     disk_state NEW d8 = D_INCONSISTENT).
Proof.
  intros Hp H5 H6 H7 H8. orders. destruct (upgrade_disk_spec _ _ _ _ _ _ Hp H5) as (p5 & Ht5 & Hr5 & Hk5 & Hd5).
  destruct (diskless_primary_spec _ _ _ _ _ (touches_lookup _ _ _ _ _ Ht5) H6) as [Hp6 Hd6].
  assert (d_peers d6 !! j = Some p5) as Hl6 by (rewrite Hp6; by eapply touches_lookup).
  destruct (distrust_peer_spec _ _ _ _ _ _ _ Hl6 H7) as (p7 & Ht7 & Hr7 & Hd7 & Hk7).
  destruct (decide_replication_spec _ _ _ _ _ (touches_lookup _ _ _ _ _ Ht7) H8) as (p8 & Ht8 & Hr8 & Hd8 & Hk8).
  exists p8. unfold raised in Hd5. split; [|split; [congruence|split]].
  - eapply touches_trans; [done|]. eapply touches_trans; [|eapply touches_trans; [exact Ht7|exact Ht8]].
    apply touches_refl; [by eapply touches_lookup|done].
  - intros Hge. rewrite Hd8, Hd7, Hk8. split; [lia|]. destruct Hk7 as [Hk7|Hk7]; [congruence|]. lia.
  - intros Heq Hno. rewrite Hd8, Hd7. assert (disk_state NEW d5 = D_INCONSISTENT) as E5 by lia. rewrite E5 in Hd6.
    destruct Hd6 as [?|[?|(Hdl & Hot & _)]]; [done|lia|]. destruct Hno as [Hno|(k & q & Hne & Hq & Ht)]; [congruence|].
    rewrite (sync_target_other j k q d5) in Hot; try done. rewrite (touch_peers _ _ _ _ _ Ht5), list_lookup_insert_ne; done.
Qed.

(** What the states of a resync ask of the disks. *)
Definition disks_ok (disk : Z) (p : peer_device) : Prop :=
  (repl_state NEW p = L_SYNC_TARGET -> disk = D_INCONSISTENT /\ D_INCONSISTENT <= peer_disk_state NEW p <= D_UP_TO_DATE) /\
  (repl_state NEW p = L_SYNC_SOURCE -> D_INCONSISTENT <= disk /\ peer_disk_state NEW p = D_INCONSISTENT).

Lemma is_target_eq p : repl_state NEW p = L_SYNC_TARGET -> repl_is_sync_target (repl_state NEW p) = true.
Proof. intros ->. unfold repl_is_sync_target. by rewrite Z.eqb_refl. Qed.

(** A round of the loop: at its own place, and at the others. *)
Lemma second_step ro conns my g j p d : d_peers d !! j = Some p ->
  let d' := sanitize_peer_second ro conns my g d j in
  exists p', d_peers d' !! j = Some p' /\ source_flip p p' /\ disks_ok (disk_state NEW d') p' /\
    forall k q, k <> j -> d_peers d !! k = Some q ->
      exists q', d_peers d' !! k = Some q' /\ start_flip q q' /\ (disks_ok (disk_state NEW d) q -> disks_ok (disk_state NEW d') q').
Proof.
  intros Hp. unfold sanitize_peer_second. cbv zeta. orders. remember (pause_source j d) as d1 eqn:E1. remember (start_targets j d1) as d2 eqn:E2.
  remember (consistent_vanishes conns j d2) as d3 eqn:E3. remember (limit_disks j d3) as d4 eqn:E4. remember (upgrade_disk conns my j d4) as d5 eqn:E5.
  remember (diskless_primary conns j d5) as d6 eqn:E6. remember (distrust_peer ro conns g j d6) as d7 eqn:E7.
  remember (decide_replication conns j d7) as d' eqn:E8.
  destruct (pause_source_spec _ _ _ _ Hp E1) as (p1 & Ht1 & Hf1 & Hk1 & Hd1).
  destruct (start_targets_spec _ _ _ _ (touches_lookup _ _ _ _ _ Ht1) E2) as (Hl2 & Hd2 & HF).
  destruct (second_limits _ _ _ _ _ _ Hl2 E3 E4) as (p4 & Ht4 & Hr4 & HT4 & HS4 & Hge4 & Hinc4).
  destruct (second_after _ _ _ _ _ _ _ _ _ _ _ (touches_lookup _ _ _ _ _ Ht4) E5 E6 E7 E8) as (p' & Ht' & Hr' & Hge' & Hinc').
  clear E1 E2 E3 E4 E5 E6 E7 E8. rewrite Hd1 in Hd2. exists p'. split; [by eapply touches_lookup|]. split; [|split].
  - unfold source_flip in *. rewrite Hr', Hr4. done.
  - unfold disks_ok. rewrite Hr', Hr4. split; intros He.
    + destruct (HT4 He) as [E4 Hk4]. destruct (Hge' ltac:(lia)) as [_ ->]. split; [|done]. apply Hinc'; [done|]. left. lia.
    + destruct (HS4 He) as [E4 Hk4]. destruct (Hge' E4) as [? ->]. done.
  - intros k q Hne Hq. assert (d_peers d1 !! k = Some q) as Hq1 by (rewrite (touch_peers _ _ _ _ _ Ht1), list_lookup_insert_ne; done).
    destruct (Forall2_lookup_l _ _ _ _ _ HF Hq1) as (q' & Hq2 & Hfl). exists q'.
    assert (d_peers d4 !! k = Some q') as Hq4 by (rewrite (touch_peers _ _ _ _ _ Ht4), list_lookup_insert_ne; done).
    split; [rewrite (touch_peers _ _ _ _ _ Ht'), list_lookup_insert_ne; done|]. split; [done|].
    intros [HT HS]. destruct Hfl as [->|[He ->]]; [|split; cbn; lia]. split.
    + intros He. destruct (HT He) as [Ei Hk]. split; [|done]. apply Hinc'; [apply Hinc4; congruence|]. right. exists k, q. split_and!; try done. by apply is_target_eq.
    + intros He. destruct (HS He) as [Ei Hk]. split; [|done]. apply Hge', Hge4. lia.
Qed.

(** ** The choice of the source *)

Lemma select_one d k p : d_peers (drbd_select_sync_target d) !! k = Some p -> repl_state NEW p = L_SYNC_TARGET -> target_desired (d_peers d) = Some k.
Proof.
  orders. unfold drbd_select_sync_target. cbn [d_peers set_peers upd_dev]. rewrite list_lookup_imap. destruct (d_peers d !! k) as [q|]; [|done].
  cbn [fmap option_fmap option_map]. cbv zeta. set (b := bool_decide (target_desired (d_peers d) = Some k)).
  set (q' := set_susp_other_c _ _). intros [= <-] He. destruct (repl_is_sync_target (repl_state NEW q')) eqn:Hq.
  - destruct b eqn:Hb; [by apply bool_decide_eq_true in Hb|]. change (L_PAUSED_SYNC_T = L_SYNC_TARGET) in He. lia.
  - rewrite (is_target_eq _ He) in Hq. done.
Qed.

(** The loop keeps the choice and establishes what the states ask of the disks. *)
Lemma second_loop r conns g d t :
  (forall k p, d_peers d !! k = Some p -> repl_state NEW p = L_SYNC_TARGET -> t = Some k) ->
  let d' := sanitize_peers_second r conns g d in
  forall k p, d_peers d' !! k = Some p -> disks_ok (disk_state NEW d') p /\ (repl_state NEW p = L_SYNC_TARGET -> t = Some k).
Proof.
  intros Hone. unfold sanitize_peers_second. cbv zeta. orders.
  assert (forall n, (n <= length (d_peers d))%nat ->
    let d' := foldl (sanitize_peer_second (role NEW r) conns (r_node_id r) g) d (seq 0 n) in
    length (d_peers d') = length (d_peers d) /\
    forall k p, d_peers d' !! k = Some p -> ((k < n)%nat -> disks_ok (disk_state NEW d') p) /\ (repl_state NEW p = L_SYNC_TARGET -> t = Some k)) as Hn.
  { induction n as [|n IH]; intros Hle; cbn zeta; [split; [done|]; intros k p Hk; split; [lia|by apply Hone]|].
    rewrite seq_S, foldl_snoc, Nat.add_0_l. set (e := foldl _ d (seq 0 n)) in *. destruct IH as [Hlen IH]; [lia|].
    destruct (lookup_lt_is_Some_2 (d_peers e) n) as [p Hp]; [lia|].
    destruct (second_step (role NEW r) conns (r_node_id r) g n p e Hp) as (p' & Hp' & Hflip & Hok & Hother).
    pose proof (second_same (role NEW r) conns (r_node_id r) g e n) as [_ HF]. apply Forall2_length in HF. split; [lia|].
    intros k q Hq. destruct (decide (k = n)) as [->|Hne].
    - rewrite Hp' in Hq. injection Hq as <-. split; [done|]. intros He. apply (IH _ _ Hp).
      destruct Hflip as [<-|[_ Hs]]; [done|]. rewrite He in Hs. unfold repl_is_sync_source in Hs. apply orb_prop in Hs. lia.
    - destruct (lookup_lt_is_Some_2 (d_peers e) k) as [q0 Hq0]; [apply lookup_lt_Some in Hq; lia|].
      destruct (Hother k q0 Hne Hq0) as (q' & Hq' & Hfl & Hok'). rewrite Hq' in Hq. injection Hq as <-. destruct (IH _ _ Hq0) as [IH1 IH2].
      split; [intros Hlt; apply Hok', IH1; lia|]. intros He. apply IH2. destruct Hfl as [->|[_ ->]]; [done|]. cbn in He. lia. }
  destruct (Hn (length (d_peers d)) (le_n _)) as [Hlen Hall]. cbv zeta in Hlen, Hall. intros k p Hk. destruct (Hall k p Hk) as [H1 H2]. split; [|done].
  apply H1. rewrite <-Hlen. by eapply lookup_lt_Some.
Qed.

(** ** A device after sanitizing *)

(** At most one peer is the source of a resync, and the disks fit the states of the resyncs. *)
Definition device_ok (d : device) : Prop :=
  (forall k p, d_peers d !! k = Some p -> disks_ok (disk_state NEW d) p) /\
  (forall k k' p p', d_peers d !! k = Some p -> d_peers d !! k' = Some p' ->
     repl_state NEW p = L_SYNC_TARGET -> repl_state NEW p' = L_SYNC_TARGET -> k = k').

Lemma sanitize_quorum_fields r conns d : d_peers (sanitize_quorum r conns d) = d_peers d /\ disk_state NEW (sanitize_quorum r conns d) = disk_state NEW d.
Proof.
  unfold sanitize_quorum, calc_quorum, check_wrongly_set_mdf_exists. cbv zeta. destruct (bool_decide (opt_quorum r = QOU_OFF)); cbn; repeat case_match; done.
Qed.

Lemma disk_last_ok r conns l c d k p : disks_ok (disk_state NEW d) p -> d_peers d !! k = Some p -> disks_ok (disk_state NEW (sanitize_disk_last r conns l c d)) p.
Proof.
  intros [HT HS] Hp. orders. unfold sanitize_disk_last. cbv zeta. set (d1 := if l && _ then _ else d).
  assert (disk_state NEW d = D_NEGOTIATING \/ disk_state NEW d1 = disk_state NEW d) as E by (unfold d1; case_if; [left|right]; done).
  set (d2 := if c && _ && _ then _ else d1).
  assert (disk_state NEW d2 = disk_state NEW d1 \/ (disk_state NEW d1 = D_UP_TO_DATE /\ disk_state NEW d2 = D_CONSISTENT)) as E2
    by (unfold d2; case_if; [right|left]; done).
  clearbody d1 d2. split; intros He; [destruct (HT He)|destruct (HS He)]; (split; [lia|done]).
Qed.

Lemma disk_last_peers r conns l c d : d_peers (sanitize_disk_last r conns l c d) = d_peers d.
Proof. unfold sanitize_disk_last. cbv zeta. repeat case_match; done. Qed.

Lemma sanitize_device_ok r crashed a d : device_ok (snd (sanitize_device r crashed a d)).
Proof.
  unfold sanitize_device. cbv zeta. cbn [snd]. set (d0 := sanitize_negotiation _ _ _). set (conns := foldl _ _ _). set (g := existsb (good_peer d0) _). set (l := existsb lost_peer _).
  clearbody conns g l. unfold sanitize_peers_first. set (d1 := set_peers _ d0). clearbody d1.
  pose proof (second_loop r conns g _ (target_desired (d_peers d1)) (select_one d1)) as Hloop. cbv zeta in Hloop.
  set (d2 := sanitize_peers_second _ _ _ _) in *. clearbody d2. destruct (sanitize_quorum_fields r conns d2) as [Hp Hd].
  set (d3 := sanitize_quorum r conns d2) in *. clearbody d3. rewrite <-Hp, <-Hd in Hloop. split; rewrite disk_last_peers.
  - intros k p Hk. eapply disk_last_ok; [|done]. by apply (Hloop k).
  - intros k k' p p' Hk Hk' Ht Ht'. apply Hloop in Hk as [_ Hk]. apply Hloop in Hk' as [_ Hk']. specialize (Hk Ht). specialize (Hk' Ht'). congruence.
Qed.

(** ** The resource *)

(** Connections only get suspended for fencing. *)
Definition conn_fenced (c c' : connection) : Prop := conn_same c c' /\ cstate NEW c' = cstate NEW c /\ peer_role NEW c' = peer_role NEW c.

#[local] Instance conn_fenced_preorder : PreOrder conn_fenced.
Proof.
  split; [by intros c|]. intros c1 c2 c3 (Hs1 & He1 & Hr1) (Hs2 & He2 & Hr2). split; [by etrans|]. split; congruence.
Qed.

Lemma suspend_fencing_fenced ro ro' l conns : Forall2 conn_fenced conns (foldl (suspend_fencing ro ro') conns l).
Proof.
  revert conns. induction l as [|p l IH]; intros conns; cbn; [reflexivity|]. etrans; [|apply IH]. unfold suspend_fencing. case_match; [|reflexivity].
  apply Forall2_same_length_lookup_2; [by rewrite length_alter|]. intros k x y Hx Hy. destruct (decide (p_conn p = k)) as [<-|Hne].
  - rewrite list_lookup_alter_eq, Hx in Hy. by injection Hy as <-.
  - rewrite list_lookup_alter_ne in Hy by done. simplify_eq. reflexivity.
Qed.

Lemma sanitize_devices_spec r crashed l : forall a a' l', sanitize_devices r crashed a l = (a', l') ->
  Forall2 dev_same l l' /\ Forall device_ok l' /\ Forall2 conn_fenced (a_conns a) (a_conns a') /\
  a_has_quorum a' = a_has_quorum a && forallb (have_quorum NEW) l'.
Proof.
  induction l as [|d l IH]; intros a a' l' He; cbn [sanitize_devices] in He.
  - injection He as <- <-. split_and!; [constructor..|reflexivity|by rewrite andb_true_r].
  - destruct (sanitize_device r crashed a d) as [a1 d1] eqn:E1. destruct (sanitize_devices r crashed a1 l) as [a2 l2] eqn:E2. injection He as <- <-.
    destruct (IH _ _ _ E2) as (IH1 & IH2 & IH3 & IH4).
    pose proof (sanitize_device_same r crashed a d) as Hs. pose proof (sanitize_device_ok r crashed a d) as Ho. rewrite E1 in Hs, Ho. cbn [snd] in Hs, Ho.
    assert (Forall2 conn_fenced (a_conns a) (a_conns a1) /\ a_has_quorum a1 = a_has_quorum a && have_quorum NEW d1) as [Hc Hq].
    { unfold sanitize_device in E1. injection E1 as <- <-. split; [apply suspend_fencing_fenced|]. cbn [a_has_quorum]. f_equal.
      unfold sanitize_disk_last. cbv zeta. repeat case_match; done. }
    split_and!; [by constructor..|by etrans|]. rewrite IH4, Hq. cbn. by rewrite andb_assoc.
Qed.
End sanitized.
