(* ===== verification/StateClaims.v ===== *)
(** * The state engine: what a state change guarantees *)
From S2P Require Import Prelude Headers State StateQuorum StateFinish StateProps.

(** ** What carrying out a change keeps: both states of all objects *)

Definition conn_view (c : connection) : conn_state * conn_state * option net_conf := (c_old c, c_new c, c_net_conf c).
Definition pd_view (p : peer_device) : pd_state * pd_state * nat := (p_old p, p_new p, p_conn p).
Definition dev_view (d : device) : dev_state * dev_state * list (pd_state * pd_state * nat) := (d_old d, d_new d, pd_view <$> d_peers d).
Definition res_view (r : resource) := (r_old r, r_new r, conn_view <$> r_conns r, dev_view <$> r_devs r).

Section views.
Context `{StateHeaders}.

Lemma fmap_keeps {A B} (g : A -> B) (f : A -> A) (l : list A) : (forall x, g (f x) = g x) -> g <$> (map f l) = g <$> l.
Proof. intros Hf. induction l as [|x l IH]; [done|]. cbn. by rewrite Hf, <-IH. Qed.

Lemma imap_keeps {A B} (g : A -> B) (f : nat -> A -> A) (l : list A) : (forall i x, g (f i x) = g x) -> g <$> (imap f l) = g <$> l.
Proof. intros Hf. revert f Hf. induction l as [|x l IH]; intros f Hf; [done|]. cbn. rewrite Hf. f_equal. by apply (IH (fun i => f (S i))). Qed.

Lemma alter_keeps {A B} (g : A -> B) (f : A -> A) (j : nat) (l : list A) : (forall x, g (f x) = g x) -> g <$> (alter f j l) = g <$> l.
Proof.
  intros Hf. revert j. induction l as [|x l IH]; intros [|j]; cbn; [done..|by rewrite Hf|]. f_equal. apply IH.
Qed.

Lemma dev_view_set_peers d l : pd_view <$> l = pd_view <$> d_peers d -> dev_view (set_peers l d) = dev_view d.
Proof. intros Hl. unfold dev_view. cbn. by rewrite Hl. Qed.

Lemma first_loop_view r d : dev_view (first_loop_device r d) = dev_view d.
Proof.
  unfold first_loop_device. cbv zeta. transitivity (dev_view (set_peers (map clear_resync_flags (d_peers d)) d)); [by case_match|].
  apply dev_view_set_peers. by apply fmap_keeps.
Qed.

Lemma finish_before_view d : dev_view (finish_device_before d) = dev_view d.
Proof.
  unfold finish_device_before. cbv zeta. set (e := if extra_ldev_ref_for_after_state_chg _ _ then _ else _).
  assert (dev_view e = dev_view d) as <- by (unfold e; by case_match). clearbody e. case_match; [|done].
  apply dev_view_set_peers. by apply fmap_keeps.
Qed.

(** The loop over the peer devices changes the meta-data and the flags of the device only. *)
Lemma finish_device_peer_fields r d p : let d' := finish_device_peer r d p in
  d_old d' = d_old d /\ d_new d' = d_new d /\ d_peers d' = d_peers d /\ d_current_uuid d' = d_current_uuid d.
Proof.
  assert (forall b d, let d' := if b : bool then drbd_update_mdf_al_disabled r NEW d else d in
    d_old d' = d_old d /\ d_new d' = d_new d /\ d_peers d' = d_peers d /\ d_current_uuid d' = d_current_uuid d) as Hal.
  { intros b e. unfold drbd_update_mdf_al_disabled. cbv zeta. repeat case_match; done. }
  unfold finish_device_peer. cbv zeta. match goal with |- context [if _ then drbd_update_mdf_al_disabled r NEW ?x else ?x] => set (e := x) end.
  assert (d_old e = d_old d /\ d_new e = d_new d /\ d_peers e = d_peers d /\ d_current_uuid e = d_current_uuid d) as (E1 & E2 & E3 & E4)
    by (unfold e; repeat case_match; done).
  clearbody e. match goal with |- context [if ?b then drbd_update_mdf_al_disabled r NEW e else e] => destruct (Hal b e) as (-> & -> & -> & ->) end. done.
Qed.

Lemma finish_peers_fields r l d : let d' := foldl (finish_device_peer r) d l in
  d_old d' = d_old d /\ d_new d' = d_new d /\ d_peers d' = d_peers d /\ d_current_uuid d' = d_current_uuid d.
Proof.
  revert d. induction l as [|p l IH]; intros d; cbn; [done|]. destruct (IH (finish_device_peer r d p)) as (-> & -> & -> & ->).
  apply finish_device_peer_fields.
Qed.

Lemma finish_md_flags_view r m d : dev_view (finish_md_flags r m d) = dev_view d.
Proof. unfold finish_md_flags. destruct (finish_consistent r d). by case_match. Qed.

Lemma set_exposed_view r v d : dev_view (drbd_uuid_set_exposed r v d) = dev_view d.
Proof. unfold drbd_uuid_set_exposed. by case_match. Qed.

Lemma finish_after_view now r m b d : dev_view (finish_device_after now r m b d) = dev_view d.
Proof.
  unfold finish_device_after. cbv zeta. set (d1 := if b && _ then _ else d). assert (dev_view d1 = dev_view d) as <- by (unfold d1; by case_match).
  clearbody d1. match goal with |- context [if _ && has_ldev D_DETACHING d1 then ?y else d1] => set (e := y) end.
  assert (dev_view e = dev_view d1) as He by (unfold e; case_match; rewrite ?set_exposed_view; apply finish_md_flags_view).
  clearbody e. repeat match goal with |- dev_view (if ?c then _ else ?x) = _ => transitivity (dev_view x); [by destruct c|] end.
  done.
Qed.

Lemma finish_device_view now r m d : dev_view (finish_device now r m d) = dev_view d.
Proof.
  unfold finish_device. cbv zeta. rewrite finish_after_view, <-(finish_before_view d). set (e := finish_device_before d). clearbody e.
  destruct (finish_peers_fields r (d_peers e) e) as (Ho & Hn & Hp & _). unfold dev_view. cbn. rewrite Ho, Hn. f_equal.
  apply fmap_keeps. intros p. unfold finish_peer. cbv zeta. by case_match.
Qed.

Lemma settle_view r b d : dev_view (settle_device r b d) = dev_view d.
Proof.
  unfold settle_device. cbv zeta. set (e := if __NEW_CUR_UUID (d_more d) then _ else d). assert (dev_view e = dev_view d) as <- by (unfold e; by case_match).
  clearbody e. assert (dev_view (ensure_exposed_data_uuid r e) = dev_view e) as <-
    by (unfold ensure_exposed_data_uuid; cbv zeta; case_match; rewrite ?set_exposed_view; done).
  case_match; [|done]. apply dev_view_set_peers. by apply fmap_keeps.
Qed.

(** The connections. *)
Lemma foldl_alter_view f (l : list nat) (conns : list connection) : (forall c, conn_view (f c) = conn_view c) ->
  conn_view <$> (foldl (fun cs i => alter f i cs) conns l) = conn_view <$> conns.
Proof. intros Hf. revert conns. induction l as [|i l IH]; intros conns; cbn; [done|]. rewrite IH. by apply alter_keeps. Qed.

Lemma flush_view r : conn_view <$> fst (drbd_determine_flush_pending r) = conn_view <$> r_conns r.
Proof.
  unfold drbd_determine_flush_pending. cbn [fst]. assert (conn_view <$> map (clear_flush r) (r_conns r) = conn_view <$> r_conns r) as <-.
  { apply fmap_keeps. intros c. unfold clear_flush. by case_match. }
  case_match; [|done]. by apply fmap_keeps.
Qed.

Lemma finish_begin_view r : res_view (fst (finish_begin r)) = res_view r.
Proof.
  unfold finish_begin. cbv zeta. destruct (if start_new_epoch r then _ else _) as [m1 a1]. destruct (finish_peer_ack r m1) as [m2 a2].
  match goal with |- context [drbd_determine_flush_pending ?x] => pose proof (flush_view x) as Hf; destruct (drbd_determine_flush_pending x) as [conns fl] end.
  unfold res_view. cbn in *. rewrite Hf, foldl_alter_view by done. f_equal. apply fmap_keeps. apply first_loop_view.
Qed.

Lemma finish_devices_view now r : res_view (fst (finish_devices now r)) = res_view r.
Proof.
  unfold finish_devices, res_view. cbn. f_equal; [f_equal|].
  - generalize (all_peers r) as l. intros l. generalize (r_conns r). induction l as [|p l IH]; intros conns; cbn; [done|]. rewrite IH.
    case_match; [|done]. by apply alter_keeps.
  - apply fmap_keeps. intros d. apply finish_device_view.
Qed.

Lemma finish_state_change_view now r : res_view (fst (finish_state_change now r)) = res_view r.
Proof.
  unfold finish_state_change. cbv zeta. pose proof (finish_begin_view r) as H1. destruct (finish_begin r) as [r1 a1]. cbn in H1.
  pose proof (finish_devices_view now r1) as H2. destruct (finish_devices now r1) as [r2 a2]. cbn in H2. rewrite <-H1, <-H2. cbn [fst].
  assert (forall c, conn_view (finish_conn now r2 c) = conn_view c) as Hc by done.
  case_match; unfold res_view; cbn; rewrite fmap_keeps by done; [|done]. f_equal. apply fmap_keeps. intros d. apply dev_view_set_peers.
  apply imap_keeps. intros i p. by case_match.
Qed.
End views.

(** ** The state that counts, before and after *)

(** The current state, with the configuration that the checks use, and the new one. *)
Definition now_view (r : resource) :=
  (r_old r, (fun c => (c_old c, c_net_conf c)) <$> r_conns r, (fun d => (d_old d, (fun p => (p_old p, p_conn p)) <$> d_peers d)) <$> r_devs r).
Definition new_view (r : resource) :=
  (r_new r, (fun c => (c_new c, c_net_conf c)) <$> r_conns r, (fun d => (d_new d, (fun p => (p_new p, p_conn p)) <$> d_peers d)) <$> r_devs r).

Section changes.
Context `{StateHeaders}.

Lemma new_view_of_res_view r r' : res_view r' = res_view r -> new_view r' = new_view r.
Proof.
  intros Hv. injection Hv as _ Hn Hc Hd. unfold new_view. rewrite Hn. f_equal; [f_equal|].
  - transitivity ((fun v => (v.1.2, v.2)) <$> (conn_view <$> r_conns r')); [by rewrite <-list_fmap_compose|]. rewrite Hc. by rewrite <-list_fmap_compose.
  - transitivity ((fun v => (v.1.2, (fun w => (w.1.2, w.2)) <$> v.2)) <$> (dev_view <$> r_devs r'));
      [|rewrite Hd]; rewrite <-list_fmap_compose; apply list_fmap_ext; intros i d _; cbn; f_equal; by rewrite <-list_fmap_compose.
Qed.

Lemma apply_now_view r : now_view (apply_state_change r) = new_view r.
Proof.
  unfold now_view, new_view. cbn. f_equal; [f_equal|].
  - unfold fmap. generalize (r_conns r). induction l as [|c l IH]; cbn; [done|]. by rewrite IH.
  - unfold fmap. induction (r_devs r) as [|d l IH]; cbn; [done|]. rewrite IH. f_equal. f_equal.
    induction (d_peers d) as [|p l' IH']; cbn; [done|]. by rewrite IH'.
Qed.

Lemma now_view_devs r devs : (forall m, dev_view <$> devs = dev_view <$> r_devs r -> now_view (with_r (r_conns r) devs m (r_more r) r) = now_view r).
Proof.
  intros m Hd. unfold now_view. cbn. f_equal.
  transitivity ((fun v => (v.1.1, (fun w => (w.1.1, w.2)) <$> v.2)) <$> (dev_view <$> devs));
    [|rewrite Hd]; rewrite <-list_fmap_compose; apply list_fmap_ext; intros i d _; cbn; f_equal; by rewrite <-list_fmap_compose.
Qed.

(** An accepted change makes the new state the current one. *)
Lemma commit_now_view now r : now_view (fst (fst (commit_state_change now r))) = new_view r.
Proof.
  unfold commit_state_change. destruct (update_members r) as [m a]. pose proof (finish_state_change_view now (with_r (r_conns r) (r_devs r) m (r_more r) r)) as Hf.
  destruct (finish_state_change now _) as [r1 a1]. cbn [fst] in *. cbv zeta. rewrite now_view_devs.
  - rewrite apply_now_view. transitivity (new_view (with_r (r_conns r) (r_devs r) m (r_more r) r)); [by apply new_view_of_res_view|done].
  - apply fmap_keeps. intros d. apply settle_view.
Qed.

(** Sanitizing keeps the current state. *)
Lemma sanitize_state_kept r : let r' := sanitize_state r in
  r_old r' = r_old r /\ Forall2 conn_same (r_conns r) (r_conns r') /\ Forall2 dev_same (r_devs r) (r_devs r') /\ role NEW r' = role NEW r.
Proof.
  unfold sanitize_state. cbv zeta. destruct (sanitize_devices _ _ _ _) as [a devs] eqn:E. destruct (sanitize_devices_spec _ _ _ _ _ _ E) as (Hd & _ & Hc & _).
  split_and!; [done| |done|].
  - cbn in Hc |- *. transitivity (map sanitize_connection (r_conns r)).
    + clear. induction (r_conns r) as [|c l IH]; cbn; constructor; [|done]. unfold sanitize_connection. by case_match.
    + eapply Forall2_impl; [done|]. by intros x y [Hs _].
  - cbn. repeat (match goal with |- context [if ?b then _ else _] => destruct b end); done.
Qed.

Lemma now_view_same r r' :
  r_old r' = r_old r -> Forall2 conn_same (r_conns r) (r_conns r') -> Forall2 dev_same (r_devs r) (r_devs r') -> now_view r' = now_view r.
Proof.
  intros Ho Hc Hd. unfold now_view. rewrite Ho. f_equal; [f_equal|].
  - induction Hc as [|x y l k [E1 E2] _ IH]; cbn; [done|]. by rewrite E1, E2, IH.
  - induction Hd as [|x y l k [E1 E2] _ IH]; cbn; [done|]. rewrite E1, IH. f_equal. f_equal.
    induction E2 as [|p q l' k' [F1 F2] _ IH']; cbn; [done|]. by rewrite F1, F2, IH'.
Qed.

(** [try_state_change] *)
Lemma try_state_change_spec r : exists r1, try_state_change r = (fst (try_state_change r), r1) /\ now_view r1 = now_view r /\
  ((r1 = r /\ state_has_changed r = false) \/ (r1 = sanitize_state r /\
    (rv_ok (fst (try_state_change r)) = true -> rv_ok (is_valid_transition r1) = true /\
       (CS_HARD (r_flags r) = false -> rv_ok (is_valid_soft_transition r1) = true)))).
Proof.
  unfold try_state_change. destruct (state_has_changed r) eqn:Hc; cbn [negb].
  - exists (sanitize_state r). split; [done|]. destruct (sanitize_state_kept r) as (Ho & Hcs & Hds & _). split; [by apply now_view_same|]. right.
    split; [done|]. cbv zeta. cbn [fst]. assert (r_flags (sanitize_state r) = r_flags r) as ->.
    { unfold sanitize_state. cbv zeta. by destruct (sanitize_devices _ _ _ _). }
    destruct (rv_ok (is_valid_transition (sanitize_state r))) eqn:Hv; cbn [andb negb]; [|by rewrite Hv].
    by destruct (CS_HARD (r_flags r)).
  - exists r. split; [done|]. split; [done|]. by left.
Qed.

(** ** What the validation rules out *)

(** The checks return success or an error. *)
Definition clean (rv : drbd_state_rv) : Prop := rv = SS_SUCCESS \/ rv_ok rv = false.

Lemma clean_ok rv : clean rv -> rv_ok rv = true -> rv = SS_SUCCESS.
Proof. intros [->|Hf]; [done|congruence]. Qed.

Lemma check_clean b e k : rv_ok e = false -> clean k -> clean (check b e k).
Proof. intros He Hk. unfold check. destruct b; [by right|done]. Qed.

Lemma check_inv b e k : check b e k = SS_SUCCESS -> e <> SS_SUCCESS -> b = false /\ k = SS_SUCCESS.
Proof. unfold check. by destruct b. Qed.

Lemma success_clean : clean SS_SUCCESS.
Proof. by left. Qed.

#[local] Hint Resolve check_clean success_clean : same.
#[local] Hint Extern 1 (rv_ok _ = false) => reflexivity : same.

Lemma first_error_clean {A} (f : A -> drbd_state_rv) l : (forall x, clean (f x)) -> clean (first_error f l).
Proof. intros Hf. induction l as [|x l IH]; cbn; [apply success_clean|]. by case_match. Qed.

Lemma first_error_success {A} (f : A -> drbd_state_rv) l x : first_error f l = SS_SUCCESS -> x ∈ l -> f x = SS_SUCCESS.
Proof.
  induction l as [|y l IH]; [by intros _ ?%elem_of_nil|]. cbn. case_match; [|done]. intros Hl [->|Hx]%elem_of_cons; auto.
Qed.

Lemma check_role_clean r : clean (check_role r).
Proof. unfold check_role. auto with same. Qed.

Lemma check_connection_clean r c : clean (check_connection r c).
Proof. unfold check_connection. auto 10 with same. Qed.

Lemma check_device_clean r d : clean (check_device r d).
Proof.
  unfold check_device. repeat (apply check_clean; [done|]). generalize (if disk_state NEW d =? D_NEGOTIATING then 1 else 0) as n.
  induction (d_peers d) as [|p l IH]; intros n; cbn [check_peer_devices]; [apply success_clean|]. cbv zeta.
  destruct (1 <? _); [by right|]. destruct (decide _); [apply IH|]. unfold check_peer_device. cbv zeta. auto 20 with same.
Qed.

Lemma soft_transition_inv r : rv_ok (is_valid_soft_transition r) = true ->
  check_role r = SS_SUCCESS /\ (forall c, c ∈ r_conns r -> check_connection r c = SS_SUCCESS) /\ (forall d, d ∈ r_devs r -> check_device r d = SS_SUCCESS).
Proof.
  unfold is_valid_soft_transition. destruct (decide _) as [H1|H1]; [|intros Hok; by apply (clean_ok _ (check_role_clean r)) in Hok].
  destruct (decide _) as [H2|H2]; intros Hok.
  - apply clean_ok in Hok; [|apply first_error_clean; apply check_device_clean]. split_and!; [done|..]; intros x Hx; by eapply first_error_success.
  - apply clean_ok in Hok; [done|]. apply first_error_clean. apply check_connection_clean.
Qed.

Lemma transition_inv r : rv_ok (is_valid_transition r) = true ->
  (forall c, c ∈ r_conns r -> rv_ok (is_valid_conn_transition (cstate OLD c) (cstate NEW c)) = true) /\
  (forall d, d ∈ r_devs r -> disk_state OLD d = D_DISKLESS -> disk_state NEW d <> D_FAILED /\ disk_state NEW d <> D_DETACHING).
Proof.
  unfold is_valid_transition. cbv zeta. set (f := fun c => if rv_ok _ then SS_SUCCESS else _).
  assert (forall c, clean (f c)) as Hf by (intros c; unfold f; case_match eqn:E; [by left|by right]).
  destruct (decide _) as [Hc|Hc]; [|intros Hok; by apply clean_ok in Hok; [|apply first_error_clean]]. intros Hok.
  apply clean_ok in Hok; [|apply first_error_clean; auto with same]. split.
  - intros c Hin. pose proof (first_error_success _ _ _ Hc Hin) as E. unfold f in E. case_match eqn:E1; [done|]. by rewrite E in E1.
  - intros d Hin Ho. pose proof (first_error_success _ _ _ Hok Hin) as E. cbn beta in E. apply check_inv in E as [E _]; [|done].
    rewrite Ho, Z.eqb_refl, andb_true_r in E. reflect_bools. done.
Qed.

(** The role, the data and the quorum of a node that is primary after a soft change. *)
Lemma check_device_primary r d : check_device r d = SS_SUCCESS -> role NEW r = R_PRIMARY ->
  (is_primary (role OLD r) = false \/ drbd_data_accessible (r_conns r) OLD d = true -> drbd_data_accessible (r_conns r) NEW d = true) /\
  (role OLD r = R_SECONDARY \/ have_quorum OLD d = true -> have_quorum NEW d = true).
Proof.
  unfold check_device. intros Hc Hp. do 4 (apply check_inv in Hc as [_ Hc]; [|done]). apply check_inv in Hc as [Ha Hc]; [|done].
  apply check_inv in Hc as [_ Hc]; [|done]. apply check_inv in Hc as [Hq _]; [|done].
  rewrite Hp in Ha, Hq. change (is_primary R_PRIMARY) with true in *. split.
  - intros Hacc. destruct (drbd_data_accessible (r_conns r) NEW d); [done|].
    destruct Hacc as [E|E]; rewrite E in Ha; [done|]. by destruct (is_primary (role OLD r)).
  - intros Hor. destruct (have_quorum NEW d); [done|]. destruct Hor as [E|E]; rewrite E in Hq; [done|]. by rewrite orb_true_r in Hq.
Qed.

Lemma check_role_primary r c : check_role r = SS_SUCCESS -> is_primary (role OLD r) = false -> role NEW r = R_PRIMARY -> c ∈ r_conns r ->
  peer_role NEW c = R_PRIMARY -> two_primaries_or_no_conf c = true.
Proof.
  unfold check_role. intros Hc Ho Hn Hin Hp. apply check_inv in Hc as [Hc _]; [|done]. unfold promotes in Hc. rewrite Ho, Hn in Hc. cbn in Hc.
  apply not_false_iff_true. intros Hf. apply not_true_iff_false in Hc. apply Hc. apply existsb_exists. exists c. split; [by apply list_elem_of_In|].
  by rewrite Hf, Hp.
Qed.

(** ** From the views to the objects *)

Lemma view_conn r r1 i c : now_view r = new_view r1 -> r_conns r !! i = Some c ->
  exists c1, r_conns r1 !! i = Some c1 /\ c_old c = c_new c1 /\ c_net_conf c = c_net_conf c1.
Proof.
  intros Hv Hi. injection Hv as _ Hc _. apply (f_equal (lookup i)) in Hc. rewrite !list_lookup_fmap, Hi in Hc.
  destruct (r_conns r1 !! i) as [c1|]; [|done]. cbn in Hc. injection Hc as E1 E2. by exists c1.
Qed.

Lemma view_dev r r1 i d : now_view r = new_view r1 -> r_devs r !! i = Some d ->
  exists d1, r_devs r1 !! i = Some d1 /\ d_old d = d_new d1 /\ (fun p => (p_old p, p_conn p)) <$> d_peers d = (fun p => (p_new p, p_conn p)) <$> d_peers d1.
Proof.
  intros Hv Hi. injection Hv as _ _ Hd. apply (f_equal (lookup i)) in Hd. rewrite !list_lookup_fmap, Hi in Hd.
  destruct (r_devs r1 !! i) as [d1|]; [|done]. cbn in Hd. injection Hd as E1 E2. by exists d1.
Qed.

Lemma view_net_conf r r1 k : now_view r = new_view r1 -> c_net_conf (r_conns r !!! k) = c_net_conf (r_conns r1 !!! k).
Proof.
  intros Hv. rewrite !list_lookup_total_alt. destruct (r_conns r !! k) as [c|] eqn:E.
  - destruct (view_conn _ _ _ _ Hv E) as (c1 & -> & _ & E2). done.
  - injection Hv as _ Hc _. apply (f_equal (lookup k)) in Hc. rewrite !list_lookup_fmap, E in Hc. by destruct (r_conns r1 !! k).
Qed.

Lemma view_accessible r r1 d d1 : now_view r = new_view r1 -> d_old d = d_new d1 ->
  (fun p => (p_old p, p_conn p)) <$> d_peers d = (fun p => (p_new p, p_conn p)) <$> d_peers d1 ->
  drbd_data_accessible (r_conns r) OLD d = drbd_data_accessible (r_conns r1) NEW d1.
Proof.
  intros Hv Ho Hp. unfold drbd_data_accessible. f_equal; [unfold disk_state, d_at; by rewrite Ho|]. revert Hp. generalize (d_peers d), (d_peers d1).
  induction l as [|p l IH]; intros [|q l'] Hp; try done. cbn in Hp. injection Hp as E1 E2 E3. cbn. rewrite (IH l' E3). f_equal.
  unfold no_remote_read, conn_of, peer_disk_state, p_at. by rewrite E2, (view_net_conf _ _ _ Hv), E1.
Qed.

(** The current state of a device is the old one of the sanitized device. *)
Lemma same_accessible r r1 d d1 : Forall2 conn_same (r_conns r) (r_conns r1) -> dev_same d d1 ->
  drbd_data_accessible (r_conns r1) OLD d1 = drbd_data_accessible (r_conns r) OLD d.
Proof.
  intros Hc [Ho Hp]. unfold drbd_data_accessible. f_equal; [unfold disk_state, d_at; by rewrite Ho|].
  induction Hp as [|p q l l' [E1 E2] _ IH]; cbn; [done|]. rewrite IH. f_equal. unfold no_remote_read, conn_of, peer_disk_state, p_at. rewrite E1, E2. f_equal. f_equal.
  rewrite !list_lookup_total_alt. destruct (r_conns r !! p_conn p) as [c|] eqn:E.
  - destruct (Forall2_lookup_l _ _ _ _ _ Hc E) as (c1 & -> & _ & E4). cbn. by rewrite E4.
  - pose proof (Forall2_length _ _ _ Hc) as Hl. apply lookup_ge_None in E. rewrite (proj2 (lookup_ge_None (r_conns r1) _)); [done|lia].
Qed.

Lemma end_state_change_cases now r : let x := end_state_change now r in
  (ch_cached x = None /\ now_view (ch_resource x) = now_view r) \/
  (exists r1, ch_cached x <> None /\ rv_ok (ch_rv x) = true /\ now_view (ch_resource x) = new_view r1 /\ now_view r1 = now_view r /\
    ((r1 = r /\ state_has_changed r = false) \/ (r1 = sanitize_state r /\ rv_ok (is_valid_transition r1) = true /\
      (CS_HARD (r_flags r) = false -> rv_ok (is_valid_soft_transition r1) = true)))).
Proof.
  unfold end_state_change, ___end_state_change. cbv zeta. destruct (CS_ABORT (r_flags r)); [by left|]. cbn [rv_ok].
  destruct (try_state_change_spec r) as (r1 & Ht & Hv & Hcase). rewrite Ht. cbv beta iota.
  destruct (rv_ok (fst (try_state_change r))) eqn:Hok; cbn [negb]; [|by left]. destruct (CS_PREPARE (r_flags r)); [by left|].
  right. exists r1. pose proof (commit_now_view now r1) as Hc. destruct (commit_state_change now r1) as [[r2 acts] cached].
  split_and!; [done|done|done|done|]. destruct Hcase as [Hcase|[E Hval]]; [by left|]. right. split; [done|]. by apply Hval.
Qed.

(** ** Nothing changed *)

Lemma existsb_false {A} (f : A -> bool) l x : existsb f l = false -> x ∈ l -> f x = false.
Proof.
  intros Hf Hx. apply not_true_iff_false. intros Ht. apply not_true_iff_false in Hf. apply Hf, existsb_exists. exists x. split; [by apply list_elem_of_In|done].
Qed.

Ltac split_changed :=
  repeat match goal with
  | Hb : Bool.eqb _ _ = true |- _ => apply Bool.eqb_prop in Hb
  | Hb : bool_decide _ = true |- _ => apply bool_decide_eq_true in Hb
  end.

Lemma conn_unchanged c : conn_changed c = false -> c_new c = c_old c.
Proof.
  unfold conn_changed, cstate, peer_role, susp_fen, c_at. destruct (c_old c), (c_new c). cbn. intros Hc. reflect_bools. split_changed. congruence.
Qed.

Lemma pd_unchanged p : pd_changed p = false -> p_new p = p_old p.
Proof.
  unfold pd_changed. cbv zeta. destruct (p_old p), (p_new p). cbn. intros Hc. reflect_bools. split_changed. congruence.
Qed.

Lemma dev_unchanged d : dev_changed d = false -> d_new d = d_old d /\ forall p, p ∈ d_peers d -> p_new p = p_old p.
Proof.
  unfold dev_changed, disk_state, have_quorum, d_at. intros Hc. reflect_bools. split_changed. split; [destruct (d_old d), (d_new d); cbn in *; congruence|].
  intros p Hp. apply pd_unchanged. by eapply existsb_false.
Qed.

Lemma unchanged_view r : state_has_changed r = false -> new_view r = now_view r.
Proof.
  unfold state_has_changed. cbv zeta. intros Hc. reflect_bools. split_changed. unfold new_view, now_view. f_equal; [f_equal|].
  - destruct (r_old r), (r_new r). cbn in *. congruence.
  - apply list_fmap_ext. intros i c Hi%list_elem_of_lookup_2. cbn. rewrite conn_unchanged; [done|]. by eapply existsb_false.
  - apply list_fmap_ext. intros i d Hi%list_elem_of_lookup_2. cbn. destruct (dev_unchanged d) as [-> Hp]; [by eapply existsb_false|]. f_equal.
    apply list_fmap_ext. intros j p Hj%list_elem_of_lookup_2. by rewrite Hp.
Qed.

Lemma unchanged_device conns d : dev_changed d = false ->
  drbd_data_accessible conns NEW d = drbd_data_accessible conns OLD d /\ have_quorum NEW d = have_quorum OLD d.
Proof.
  intros Hd. destruct (dev_unchanged d Hd) as [E Hp]. split; [|unfold have_quorum, d_at; by rewrite E].
  unfold drbd_data_accessible. f_equal; [unfold disk_state, d_at; by rewrite E|]. clear Hd E. induction (d_peers d) as [|p l IH]; [done|]. cbn.
  rewrite IH by (intros q Hq; apply Hp; set_solver). unfold peer_disk_state, p_at. by rewrite (Hp p) by set_solver.
Qed.

(** What an accepted change guarantees of the state it was checked on. *)
Definition accepted (hard : bool) (r : resource) : Prop :=
  (forall c, c ∈ r_conns r -> rv_ok (is_valid_conn_transition (cstate OLD c) (cstate NEW c)) = true) /\
  (hard = false -> role NEW r = R_PRIMARY ->
    (is_primary (role OLD r) = false -> forall c, c ∈ r_conns r -> peer_role NEW c = R_PRIMARY -> two_primaries_or_no_conf c = true) /\
    (forall d, d ∈ r_devs r ->
      (is_primary (role OLD r) = false \/ drbd_data_accessible (r_conns r) OLD d = true -> drbd_data_accessible (r_conns r) NEW d = true) /\
      (role OLD r = R_SECONDARY \/ have_quorum OLD d = true -> have_quorum NEW d = true))).

Lemma accepted_unchanged hard r : state_has_changed r = false -> accepted hard r.
Proof.
  unfold state_has_changed. cbv zeta. intros Hc. reflect_bools. split_changed. split.
  - intros c Hin. unfold cstate, c_at. rewrite (conn_unchanged c) by (by eapply existsb_false). unfold is_valid_conn_transition, check. by rewrite Z.eqb_refl.
  - unfold role, r_at. intros _ Hp. assert (rs_role (r_old r) = R_PRIMARY) as -> by congruence. split; [done|]. intros d Hin.
    destruct (unchanged_device (r_conns r) d) as [-> ->]; [by eapply existsb_false|]. split; by intros [?|?].
Qed.

Lemma accepted_valid hard r : rv_ok (is_valid_transition r) = true -> (hard = false -> rv_ok (is_valid_soft_transition r) = true) -> accepted hard r.
Proof.
  intros Hv Hs. destruct (transition_inv r Hv) as [Hc _]. split; [done|]. intros Hh Hp. destruct (soft_transition_inv r (Hs Hh)) as (Hr & _ & Hd). split.
  - intros Ho c Hin Hpc. by eapply check_role_primary.
  - intros d Hin. apply check_device_primary; auto.
Qed.

(** C40: a state change is all or nothing and keeps a primary safe.  When it is refused, prepared or
    aborted, the current state of the resource, its connections, devices and peer devices is the one
    before.  When it is carried out, every connection made a legal transition, and if the node is
    primary afterwards without the change being forced: a node that was promoted sees no other
    primary on a connection that does not allow two, its data is accessible on every device and it
    has quorum, and a node that was primary keeps its data accessible and its quorum. *)
Theorem state_change_safe now r :
  let x := end_state_change now r in
  let r' := ch_resource x in
  (ch_cached x = None -> now_view r' = now_view r) /\
  (ch_cached x <> None ->
   rv_ok (ch_rv x) = true /\
   (forall i c c', r_conns r !! i = Some c -> r_conns r' !! i = Some c' ->
      rv_ok (is_valid_conn_transition (cstate OLD c) (cstate OLD c')) = true) /\
   (CS_HARD (r_flags r) = false -> role OLD r' = R_PRIMARY ->
    (is_primary (role OLD r) = false ->
       forall c', c' ∈ r_conns r' -> peer_role OLD c' = R_PRIMARY -> two_primaries_or_no_conf c' = true) /\
    (forall i d d', r_devs r !! i = Some d -> r_devs r' !! i = Some d' ->
       (is_primary (role OLD r) = false \/ drbd_data_accessible (r_conns r) OLD d = true -> drbd_data_accessible (r_conns r') OLD d' = true) /\
       (role OLD r = R_SECONDARY \/ have_quorum OLD d = true -> have_quorum OLD d' = true)))).
Proof.
  intros x r'. destruct (end_state_change_cases now r) as [[Hn Hv]|(r1 & Hs & Hok & Hnew & _ & Hcase)]; [by split|]. fold x r' in Hnew, Hs, Hok.
  split; [done|]. intros _. split; [done|].
  assert (accepted (CS_HARD (r_flags r)) r1 /\ r_old r1 = r_old r /\ Forall2 conn_same (r_conns r) (r_conns r1) /\ Forall2 dev_same (r_devs r) (r_devs r1))
    as (Hacc & Ho & Hc & Hd).
  { destruct Hcase as [[-> Hun]|(-> & Hval & Hsoft)]; [by split; [apply accepted_unchanged|]|]. split; [by apply accepted_valid|].
    destruct (sanitize_state_kept r) as (? & ? & ? & _). done. }
  clear Hcase. destruct Hacc as [Hconn Hprim]. split.
  - intros i c c' Hi Hi'. destruct (view_conn _ _ _ _ Hnew Hi') as (c1 & Hi1 & E1 & _). destruct (Forall2_lookup_lr _ _ _ _ _ _ Hc Hi Hi1) as [E2 _].
    unfold cstate at 2, c_at. rewrite E1. specialize (Hconn c1 ltac:(by eapply list_elem_of_lookup_2)). unfold cstate at 1, c_at in Hconn. by rewrite E2 in Hconn.
  - assert (r_old r' = r_new r1) as Hr by (by injection Hnew). unfold role, r_at in *. rewrite Hr, <-Ho. intros Hh Hp. destruct (Hprim Hh Hp) as [Hp1 Hp2]. split.
    + intros Hno c' Hin Hpr. apply list_elem_of_lookup in Hin as [i Hi]. destruct (view_conn _ _ _ _ Hnew Hi) as (c1 & Hi1 & E1 & E2).
      unfold two_primaries_or_no_conf. rewrite E2. apply (Hp1 Hno c1); [by eapply list_elem_of_lookup_2|]. unfold peer_role, c_at in *. by rewrite <-E1.
    + intros i d d' Hi Hi'. destruct (view_dev _ _ _ _ Hnew Hi') as (d1 & Hi1 & E1 & E2). pose proof (Forall2_lookup_lr _ _ _ _ _ _ Hd Hi Hi1) as Hsame.
      destruct (Hp2 d1) as [Ha Hq]; [by eapply list_elem_of_lookup_2|]. rewrite (view_accessible _ _ _ _ Hnew E1 E2), <-(same_accessible _ _ _ _ Hc Hsame).
      split; [done|]. unfold have_quorum, d_at in *. rewrite E1, <-(same_old _ _ Hsame). done.
Qed.

Lemma sanitize_connection_role c : cstate NEW (sanitize_connection c) < C_CONNECTED -> peer_role NEW (sanitize_connection c) = R_UNKNOWN.
Proof. unfold sanitize_connection. case_if; [done|]. lia. Qed.

Lemma forallb_quorum l : forallb (have_quorum NEW) l = false <-> exists d, d ∈ l /\ have_quorum NEW d = false.
Proof.
  rewrite <-not_true_iff_false, forallb_forall. split.
  - intros Hn. induction l as [|d l IH]; [by destruct Hn|]. destruct (have_quorum NEW d) eqn:E; [|exists d; split; [set_solver|done]].
    destruct IH as (d' & Hin & Hq); [|exists d'; split; [set_solver|done]]. intros Hl. apply Hn. intros x [<-|Hx]; auto.
  - intros (d & Hin & Hq) Hall. apply list_elem_of_In, Hall in Hin. congruence.
Qed.

(** C3: what holds of every new state after sanitizing, whatever change was asked for.  The role of a
    peer without a connection is unknown.  Each device is the target of at most one running resync;
    then its disk is inconsistent and the one of the peer is not worse.  The source of a running
    resync has at least an inconsistent disk and its peer an inconsistent one.  I/O is suspended for
    quorum exactly when that is configured and a device lacks it.  And the state before the change is
    as it was. *)
Theorem sanitize_state_inv r :
  let r' := sanitize_state r in
  (forall c, c ∈ r_conns r' -> cstate NEW c < C_CONNECTED -> peer_role NEW c = R_UNKNOWN) /\
  (forall d k p, d ∈ r_devs r' -> d_peers d !! k = Some p ->
     (repl_state NEW p = L_SYNC_TARGET ->
        disk_state NEW d = D_INCONSISTENT /\ D_INCONSISTENT <= peer_disk_state NEW p <= D_UP_TO_DATE /\
        forall k' p', d_peers d !! k' = Some p' -> repl_state NEW p' = L_SYNC_TARGET -> k' = k) /\
     (repl_state NEW p = L_SYNC_SOURCE -> D_INCONSISTENT <= disk_state NEW d /\ peer_disk_state NEW p = D_INCONSISTENT)) /\
  (rs_susp_quorum (r_new r') = true <-> opt_on_no_quorum r = ONQ_SUSPEND_IO /\ exists d, d ∈ r_devs r' /\ have_quorum NEW d = false) /\
  now_view r' = now_view r.
Proof.
  intros r'. destruct (sanitize_state_kept r) as (Ho & Hcs & Hds & _). split_and!; [..|by apply now_view_same]; clear Ho Hcs Hds; unfold r', sanitize_state;
    cbv zeta; destruct (sanitize_devices _ _ _ _) as [a devs] eqn:E; destruct (sanitize_devices_spec _ _ _ _ _ _ E) as (_ & Hok & Hc & Hq); cbn [r_conns r_devs r_new upd_res].
  - intros c [i Hi]%list_elem_of_lookup Hlt. cbn in Hc. destruct (Forall2_lookup_r _ _ _ _ _ Hc Hi) as (c0 & Hi0 & _ & Ec & Er). rewrite Er.
    rewrite Ec in Hlt. rewrite list_lookup_fmap in Hi0. destruct (r_conns r !! i); [|done]. injection Hi0 as <-. by apply sanitize_connection_role.
  - intros d k p Hin Hk. destruct (proj1 (Forall_forall _ _) Hok d Hin) as [H1 H2].
    destruct (H1 k p Hk) as [HT HS]. split; [|done]. intros He. destruct (HT He). split_and!; try done; try lia. intros k' p' Hk' He'. by apply (H2 k' k p' p).
  - rewrite <-forallb_quorum. cbn in Hq. rewrite <-Hq.
    match goal with |- rs_susp_quorum ?x = true <-> _ => assert (rs_susp_quorum x = (if bool_decide (opt_on_no_quorum r = ONQ_SUSPEND_IO) then negb (a_has_quorum a) else false)) as -> end.
    { repeat match goal with |- context [if ?b && _ then set_fail_io true _ else _] => destruct b; cbn [andb] end; repeat case_match; done. }
    case_bool_decide as Hon; [rewrite negb_true_iff; naive_solver|naive_solver].
Qed.
End changes.

(** ** A promotion *)

Section demo.
#[local] Existing Instance small_state_headers.

Definition promoted_peer : peer_device := demo_peer 0 1 true D_UP_TO_DATE L_ESTABLISHED D_UP_TO_DATE.
Definition promoted_device : device := demo_device [promoted_peer] [inhabitant; voter_md] true.
Definition promotion : resource :=
  let s ro := mk_rs ro false false false false false in
  mk_res (s R_SECONDARY) (s R_PRIMARY) [demo_conn] [promoted_device] (mk_flags false false false false false false false) 0 3 QOU_MAJORITY QOU_OFF ONQ_SUSPEND_IO
    OND_SUSPEND_IO no_res_more.

Lemma state_change_safe_witness :
  let x := end_state_change 1000 promotion in
  ch_rv x = SS_SUCCESS /\ role OLD (ch_resource x) = R_PRIMARY /\
  forall d', r_devs (ch_resource x) !! 0%nat = Some d' -> drbd_data_accessible (r_conns (ch_resource x)) OLD d' = true /\ have_quorum OLD d' = true.
Proof.
  assert (ch_rv (end_state_change 1000 promotion) = SS_SUCCESS) as H1 by (vm_compute; reflexivity).
  assert (role OLD (ch_resource (end_state_change 1000 promotion)) = R_PRIMARY) as H2 by (vm_compute; reflexivity).
  assert (ch_cached (end_state_change 1000 promotion) <> None) as H3 by (vm_compute; discriminate).
  assert (CS_HARD (r_flags promotion) = false) as H4 by reflexivity.
  assert (is_primary (role OLD promotion) = false) as H5 by reflexivity.
  assert (role OLD promotion = R_SECONDARY) as H6 by reflexivity.
  assert (r_devs promotion !! 0%nat = Some promoted_device) as H7 by reflexivity.
  destruct (state_change_safe 1000 promotion) as [_ Hs]. destruct (Hs H3) as (_ & _ & Hp). destruct (Hp H4 H2) as [_ Hd].
  intros x. split; [exact H1|]. split; [exact H2|]. intros d' Hd'. destruct (Hd 0%nat promoted_device d' H7 Hd') as [Ha Hq].
  split; [apply Ha; left; exact H5|apply Hq; left; exact H6].
Defined.
End demo.
