(* ===== verification/StateCommit.v ===== *)
(** * The state engine: what an accepted change leaves in the meta-data

    The flags that survive a crash, and the mark that makes the next write start a new data
    generation. *)
From S2P Require Import Prelude Headers State StateQuorum StateFinish StateProps StateClaims.

Section commit.
Context `{StateHeaders}.

(** ** The devices of a committed change *)

(** The loops over the devices, one after the other; [r1] is the resource after the first. *)
Definition committed_device (now : Z) (r r1 : resource) (mark : device -> device) (members : Z) (r2 : resource) (is_connect : bool) (d : device) : device :=
  settle_device r2 is_connect (apply_dev (mark (finish_device now r1 members (first_loop_device r d)))).

(** The last loop of [finish_state_change] changes flags of peer devices only. *)
Definition only_peers (mark : device -> device) : Prop := forall d, exists l, mark d = set_peers l d.

Lemma commit_devices now r : exists r1 mark members r2 b,
  r_devs (fst (fst (commit_state_change now r))) = map (committed_device now r r1 mark members r2 b) (r_devs r) /\
  r_members (fst (fst (commit_state_change now r))) = members /\
  res_view r1 = res_view (with_r (r_conns r1) (map (first_loop_device r) (r_devs r)) members (r_more r1) r1) /\
  r_old r1 = r_old r /\ r_new r1 = r_new r /\ conn_view <$> r_conns r1 = conn_view <$> r_conns r /\ only_peers mark.
Proof.
  unfold commit_state_change. destruct (update_members r) as [members a]. set (r0 := with_r (r_conns r) (r_devs r) members (r_more r) r).
  unfold finish_state_change. cbv zeta. pose proof (finish_begin_view r0) as Hv.
  assert (r_devs (fst (finish_begin r0)) = map (first_loop_device r) (r_devs r) /\ r_members (fst (finish_begin r0)) = members) as [Hd Hm].
  { unfold finish_begin. cbv zeta. destruct (if start_new_epoch r0 then _ else _) as [m1 a1]. destruct (finish_peer_ack r0 m1) as [m2 a2].
    by destruct (drbd_determine_flush_pending _). }
  destruct (finish_begin r0) as [r1 a1]. cbn [fst] in *. unfold finish_devices. cbv zeta.
  injection Hv as Ho Hn Hc _. match goal with |- context [apply_state_change (if ?c then _ else _)] => destruct c end.
  - eexists r1, _, members, _, _. split; [cbn; rewrite Hd, Hm, !map_map; reflexivity|]. split; [done|]. split_and!; try done.
    + unfold res_view. cbn. by rewrite Hd.
    + intros d. eexists. reflexivity.
  - eexists r1, (fun d => d), members, _, _. split; [cbn; rewrite Hd, Hm, !map_map; reflexivity|]. split; [done|]. split_and!; try done.
    + unfold res_view. cbn. by rewrite Hd.
    + intros d. exists (d_peers d). by destruct d.
Qed.

(** ** The flags of a device *)

(** The part of a device that the last steps leave alone. *)
Definition md_flags (d : device) := (MDF_CONSISTENT d, MDF_WAS_UP_TO_DATE d, MDF_CRASHED_PRIMARY (d_more d), MDF_PRIMARY_IND (d_more d), MDF_HAVE_QUORUM (d_more d), dm_md_members (d_more d), MDF_AL_CLEAN (d_more d)).

Lemma settle_flags r b d : md_flags (settle_device r b d) = md_flags d /\
  NEW_CUR_UUID (settle_device r b d) = NEW_CUR_UUID d || __NEW_CUR_UUID (d_more d).
Proof.
  unfold settle_device, ensure_exposed_data_uuid, drbd_uuid_set_exposed. cbv zeta.
  destruct (__NEW_CUR_UUID (d_more d)); rewrite ?orb_true_r, ?orb_false_r; repeat case_match; done.
Qed.

Lemma committed_flags now r r1 mark m r2 b d : only_peers mark ->
  let e := finish_device now r1 m (first_loop_device r d) in
  let d' := committed_device now r r1 mark m r2 b d in
  md_flags d' = md_flags e /\ NEW_CUR_UUID d' = NEW_CUR_UUID e || __NEW_CUR_UUID (d_more e).
Proof.
  intros Hmark e d'. unfold d', committed_device. fold e. destruct (Hmark e) as [l Hl]. rewrite Hl. clearbody e.
  destruct (settle_flags r2 b (apply_dev (set_peers l e))) as [-> ->]. done.
Qed.

(** The flags that [finish_md_flags] computes. *)
Lemma finish_md_flags_spec r m d : md_flags (finish_md_flags r m d) =
  (fst (finish_consistent r d), snd (finish_consistent r d), CRASHED_PRIMARY (d_more d) || (is_primary (role NEW r) && negb (graceful_detach d)),
   finish_primary_ind r d, have_quorum NEW d, m, false).
Proof.
  unfold finish_md_flags. cbv zeta. destruct (finish_consistent r d) as [c w]. case_if; [|done].
  repeat match goal with Hb : Bool.eqb _ _ = true |- _ => apply Bool.eqb_prop in Hb end. unfold md_flags. cbn. congruence.
Qed.

Lemma finish_after_flags now r m b d : let d' := finish_device_after now r m b d in
  __NEW_CUR_UUID (d_more d') = __NEW_CUR_UUID (d_more d) || (b && negb (rs_susp_uuid (r_old r))) /\
  (disk_state NEW d <> D_NEGOTIATING -> has_ldev D_DETACHING d = true -> exists e,
     d_new e = d_new d /\ FORCE_DETACH (d_more e) = FORCE_DETACH (d_more d) /\ MDF_WAS_UP_TO_DATE e = MDF_WAS_UP_TO_DATE d /\
     md_flags d' = md_flags (finish_md_flags r m e)).
Proof.
  unfold finish_device_after. cbv zeta. set (d1 := if b && _ then _ else d).
  assert (__NEW_CUR_UUID (d_more d1) = __NEW_CUR_UUID (d_more d) || (b && negb (rs_susp_uuid (r_old r))) /\ d_new d1 = d_new d /\
    has_ldev D_DETACHING d1 = has_ldev D_DETACHING d /\ FORCE_DETACH (d_more d1) = FORCE_DETACH (d_more d) /\ MDF_WAS_UP_TO_DATE d1 = MDF_WAS_UP_TO_DATE d) as (E1 & E2 & E3 & E4 & E5).
  { unfold d1. destruct (b && _); rewrite ?orb_true_r, ?orb_false_r; done. }
  clearbody d1. match goal with |- context [if _ && has_ldev D_DETACHING d1 then ?y else d1] => set (f := y) end.
  assert (md_flags f = md_flags (finish_md_flags r m d1) /\ __NEW_CUR_UUID (d_more f) = __NEW_CUR_UUID (d_more d1)) as [Hf Hu].
  { unfold f, drbd_uuid_set_exposed. assert (__NEW_CUR_UUID (d_more (finish_md_flags r m d1)) = __NEW_CUR_UUID (d_more d1)) as <-.
    { unfold finish_md_flags. cbv zeta. destruct (finish_consistent r d1). by case_match. }
    repeat case_match; done. }
  clearbody f. split.
  - rewrite <-E1. repeat case_match; done.
  - intros Hn Hl. exists d1. rewrite E3, Hl, (proj2 (Z.eqb_neq _ _) Hn). cbn [andb negb]. split_and!; try done. rewrite <-Hf. repeat case_match; done.
Qed.

(** ** What has to be written *)

(** All of the super block that a change of state touches. *)
Definition md_stored (d : device) :=
  (md_flags d, MDF_PRIMARY_LOST_QUORUM (d_more d), MDF_AL_DISABLED (d_more d), d_md d).

(** The mark stays, and is set with every change. *)
Definition marked (d d' : device) : Prop :=
  (MD_DIRTY (d_more d) = true -> MD_DIRTY (d_more d') = true) /\ (MD_DIRTY (d_more d') = true \/ md_stored d' = md_stored d).

#[export] Instance marked_preorder : PreOrder marked.
Proof.
  split; [intros d; split; [done|by right]|]. intros a b c [A1 A2] [B1 B2]. split; [auto|].
  destruct B2 as [|B2]; [by left|]. destruct A2 as [A2|A2]; [left; auto|right; congruence].
Qed.

Lemma marked_equal d d' : MD_DIRTY (d_more d') = MD_DIRTY (d_more d) -> md_stored d' = md_stored d -> marked d d'.
Proof. intros E1 E2. split; [congruence|by right]. Qed.

Lemma marked_dirty d d' : MD_DIRTY (d_more d') = true -> marked d d'.
Proof. intros E. by split; [|left]. Qed.

Lemma marked_foldl {A} (f : device -> A -> device) l d : (forall d x, marked d (f d x)) -> marked d (foldl f d l).
Proof. intros Hf. revert d. induction l as [|x l IH]; intros d; [done|]. cbn. etransitivity; [apply Hf|apply IH]. Qed.

Lemma exposed_marked r v d : marked d (drbd_uuid_set_exposed r v d).
Proof. unfold drbd_uuid_set_exposed. case_match; [done|by apply marked_equal]. Qed.

Lemma finish_device_peer_marked r d p : marked d (finish_device_peer r d p).
Proof.
  unfold finish_device_peer. cbv zeta. set (d1 := if both_up_to_date d p then _ else d).
  assert (marked d d1) as Hd1 by (unfold d1; case_match; [by apply marked_equal|done]). clearbody d1.
  match goal with |- context [drbd_update_mdf_al_disabled r NEW ?y] => set (d2 := y) end.
  assert (marked d1 d2) as Hd2.
  { unfold d2. destruct (updates_md d1); [|done]. repeat case_match; first [done|by apply marked_equal|by apply marked_dirty]. }
  clearbody d2. etransitivity; [exact Hd1|]. etransitivity; [exact Hd2|]. case_match; [|done].
  unfold drbd_update_mdf_al_disabled. cbv zeta. repeat case_match; first [done|by apply marked_equal|by apply marked_dirty].
Qed.

Lemma finish_md_flags_marked r m d : marked d (finish_md_flags r m d).
Proof. unfold finish_md_flags. cbv zeta. destruct (finish_consistent r d) as [c w]. case_if; [done|by apply marked_dirty]. Qed.

Lemma finish_after_marked now r m b d : marked d (finish_device_after now r m b d).
Proof.
  unfold finish_device_after. cbv zeta. set (d1 := if b && _ then _ else d).
  assert (marked d d1) as Hd1 by (unfold d1; case_match; [by apply marked_equal|done]). clearbody d1. etransitivity; [exact Hd1|].
  match goal with |- context [if _ && has_ldev D_DETACHING d1 then ?y else d1] => set (f := y) end.
  assert (marked d1 f) as Hf.
  { unfold f. etransitivity; [apply finish_md_flags_marked|]. case_match; [apply exposed_marked|done]. }
  clearbody f. match goal with |- context [if ?c then f else d1] => set (d2 := if c then f else d1) end. assert (marked d1 d2) as Hd2 by (unfold d2; by case_match). clearbody d2.
  etransitivity; [exact Hd2|]. repeat case_match; by apply marked_equal.
Qed.

Lemma settle_marked r b d : marked d (settle_device r b d).
Proof.
  unfold settle_device, ensure_exposed_data_uuid. cbv zeta. set (d1 := if __NEW_CUR_UUID _ then _ else d).
  assert (marked d d1) as Hd1 by (unfold d1; case_match; [by apply marked_equal|done]). clearbody d1. etransitivity; [exact Hd1|].
  match goal with |- context [if ?c then d1 else ?y] => set (d2 := if c then d1 else y) end. assert (marked d1 d2) as Hd2 by (unfold d2; case_match; [done|apply exposed_marked]). clearbody d2.
  etransitivity; [exact Hd2|]. case_match; [by apply marked_equal|done].
Qed.

Lemma committed_marked now r r1 mark m r2 b d : only_peers mark -> marked d (committed_device now r r1 mark m r2 b d).
Proof.
  intros Hmark. unfold committed_device. etransitivity; [|apply settle_marked]. unfold finish_device. cbv zeta.
  set (e0 := finish_device_before (first_loop_device r d)). set (e1 := foldl _ e0 _). set (e2 := finish_device_after _ _ _ _ _).
  assert (marked d e0) as H0.
  { unfold e0, finish_device_before, first_loop_device. cbv zeta. repeat case_match; by apply marked_equal. }
  assert (marked e0 e1) as H1 by (apply marked_foldl, finish_device_peer_marked).
  assert (marked e1 e2) as H2. { etransitivity; [|apply finish_after_marked]. by apply marked_equal. }
  etransitivity; [exact H0|]. etransitivity; [exact H1|]. etransitivity; [exact H2|]. destruct (Hmark e2) as [l ->]. by apply marked_equal.
Qed.

(** ** The reasons for a new data generation *)

Lemma conn_view_net_conf (conns conns' : list connection) (k : nat) : conn_view <$> conns = conn_view <$> conns' -> c_net_conf (conns !!! k) = c_net_conf (conns' !!! k).
Proof.
  intros Hc. rewrite !list_lookup_total_alt. apply (f_equal (lookup k)) in Hc. rewrite !list_lookup_fmap in Hc.
  destruct (conns !! k), (conns' !! k); try done. cbn in Hc. by injection Hc.
Qed.

Lemma accessible_view w (conns conns' : list connection) d d' : dev_view d = dev_view d' -> conn_view <$> conns = conn_view <$> conns' ->
  drbd_data_accessible conns w d = drbd_data_accessible conns' w d'.
Proof.
  intros Hd Hc. injection Hd as Ho Hn Hp. unfold drbd_data_accessible. f_equal; [unfold disk_state, d_at; by rewrite Ho, Hn|].
  revert Hp. generalize (d_peers d), (d_peers d'). induction l as [|p l IH]; intros [|q l'] Hp; try done. cbn in Hp. injection Hp as E1 E2 E3 E4.
  cbn. rewrite (IH l' E4). f_equal. unfold no_remote_read, conn_of, peer_disk_state, p_at. by rewrite E3, (conn_view_net_conf _ _ _ Hc), E1, E2.
Qed.

Lemma view_peer d d' p : dev_view d' = dev_view d -> p ∈ d_peers d -> exists p', p' ∈ d_peers d' /\ pd_view p' = pd_view p.
Proof.
  intros Hd Hp. injection Hd as _ _ Hl. apply list_elem_of_lookup in Hp as [i Hi]. apply (f_equal (lookup i)) in Hl. rewrite !list_lookup_fmap, Hi in Hl.
  destruct (d_peers d' !! i) as [p'|] eqn:Hi'; [|done]. cbn in Hl. exists p'. split; [by eapply list_elem_of_lookup_2|]. congruence.
Qed.

(** A primary that was promoted, or with its data and without contact to the data of a peer. *)
Lemma creates_uuid r r1 d d1 : r_old r1 = r_old r -> r_new r1 = r_new r -> conn_view <$> r_conns r1 = conn_view <$> r_conns r ->
  dev_view d1 = dev_view d -> UNREGISTERED (d_more d1) = UNREGISTERED (d_more d) -> role NEW r = R_PRIMARY ->
  role OLD r = R_SECONDARY \/
  (UNREGISTERED (d_more d) = false /\ drbd_data_accessible (r_conns r) NEW d = true /\
   exists p, p ∈ d_peers d /\ lost_contact_to_peer_data (peer_disk_state OLD p) (peer_disk_state NEW p) = true) ->
  create_new_uuid r1 d1 = true.
Proof.
  intros Ho Hn Hc Hd Hu Hp Hor. unfold create_new_uuid, role, r_at in *. rewrite Ho, Hn, Hp.
  destruct Hor as [->|(Hreg & Hacc & p & Hin & Hlost)]; [by rewrite orb_true_r|].
  assert (existsb (peer_creates_uuid r1 d1) (d_peers d1) = true) as ->; [|done].
  destruct (view_peer _ _ _ Hd Hin) as (p' & Hin' & Hpv). injection Hpv as E1 E2 _. apply existsb_exists. exists p'. split; [by apply list_elem_of_In|].
  unfold peer_creates_uuid, role, r_at, peer_disk_state, p_at in *. cbv zeta. rewrite Hn, Hp, E1, E2, Hlost, Hu, Hreg.
  rewrite (accessible_view NEW _ _ _ _ Hd Hc), Hacc. cbn. by rewrite orb_true_r.
Qed.

Lemma before_unregistered d : UNREGISTERED (d_more (finish_device_before d)) = UNREGISTERED (d_more d).
Proof. unfold finish_device_before. cbv zeta. repeat case_match; done. Qed.

Lemma first_loop_unregistered r d : UNREGISTERED (d_more (first_loop_device r d)) = UNREGISTERED (d_more d).
Proof. unfold first_loop_device. cbv zeta. by case_match. Qed.

Lemma primary_view (conns conns' : list connection) : conn_view <$> conns' = conn_view <$> conns ->
  existsb (fun c => is_primary (peer_role NEW c)) conns' = existsb (fun c => is_primary (peer_role NEW c)) conns.
Proof.
  revert conns'. induction conns as [|c l IH]; intros [|c' l'] Hc; try done. cbn in Hc. injection Hc as _ E _ El. cbn. rewrite (IH l' El). f_equal.
  unfold peer_role, c_at. by rewrite E.
Qed.

End commit.

(** ** The mask of the last node

    [update_members] keeps the mask of a node in an [int]: for node 31 the sign is extended, and the
    members get all bits from 31 on. *)
Lemma peer_node_mask_31 c : cm_peer_node_id (c_more c) = 31%nat -> peer_node_mask c = 2 ^ 64 - 2 ^ 31.
Proof. intros Hc. unfold peer_node_mask. rewrite Hc. reflexivity. Qed.

Lemma peer_node_mask_below c : (cm_peer_node_id (c_more c) < 31)%nat -> peer_node_mask c = NODE_MASK (cm_peer_node_id (c_more c)).
Proof.
  intros Hc. unfold peer_node_mask. generalize dependent (cm_peer_node_id (c_more c)). intros n Hn.
  do 31 (destruct n as [|n]; [reflexivity|]). lia.
Qed.

(** ** A promotion starts a new data generation *)

Section demo.
#[local] Existing Instance small_state_headers.

End demo.
