(* ===== verification/TwoPhase.v ===== *)
(** * Two phase commit: the state of a node and the votes ([drbd_state.c], [drbd_receiver.c])

    A cluster wide change is prepared on every node that can be reached, over other nodes if need
    be, and then committed or aborted everywhere.  This file has the state that a node keeps for
    it, the packets, and what prepares, forwards and votes.  The packets for a change of the size
    ([P_TWOPC_PREP_RSZ]) are not part of it. *)
From S2P Require Import Prelude Headers State StateFinish.

(** Constants of the header submodule: all bits of a field of [union drbd_state], and that the
    replication states continue the connection states. *)
Class TwopcHeaders := {
  twopc_headers :: StateHeaders;
  role_MASK : Z; conn_MASK : Z; D_MASK : Z;
  masks_pos : 0 < role_MASK /\ 0 < conn_MASK /\ 0 < D_MASK;
  off_is_connected : L_OFF = C_CONNECTED }.

(** ** Packets *)

Inductive twopc_cmd := P_TWOPC_PREPARE | P_TWOPC_ABORT | P_TWOPC_COMMIT.
Inductive twopc_answer := P_TWOPC_YES | P_TWOPC_NO | P_TWOPC_RETRY.

#[export] Instance twopc_cmd_eq_dec : EqDecision twopc_cmd.
Proof. solve_decision. Defined.
#[export] Instance twopc_answer_eq_dec : EqDecision twopc_answer.
Proof. solve_decision. Defined.

Record twopc_request := mk_request {
  rq_nodes_to_reach : Z;
  rq_cmd : twopc_cmd;
  rq_tid : Z;
  rq_initiator_node_id : Z;
  rq_target_node_id : Z;
  rq_vnr : Z;
  TWOPC_HAS_REACHABLE : bool;
  TWOPC_PRI_INCAPABLE : bool }.

(** [struct p_twopc_request].  In a prepare packet the place of [primary_nodes] is the padding
    that is sent as zero. *)
Record p_twopc_request := mk_p_request {
  pq_request : twopc_request;
  pq_mask : state_mask;
  pq_val : state_val;
  pq_primary_nodes : Z;
  pq_reachable_nodes : Z }.

Record p_twopc_reply := mk_p_reply {
  pr_cmd : twopc_answer;
  pr_tid : Z;
  pr_initiator_node_id : Z;
  pr_reachable_nodes : Z;
  pr_primary_nodes : Z;
  pr_weak_nodes : Z }.

Inductive message := Request (p : p_twopc_request) | Answer (p : p_twopc_reply).

(** What a handler does besides changing the node: packets to a peer, given by its node id; and
    calls to other parts, with connections and devices given by their place. *)
Inductive effect :=
  | Send (peer : nat) (m : message)
  | Connected (c : nat)                     (* [drbd_connected] for the peer devices *)
  | WriteBitmap (v : nat)                   (* [drbd_bitmap_io] *)
  | SyncMetaData (v : nat)                  (* [drbd_md_sync_if_dirty] *)
  | Engine (a : action).

(** ** The state of a node *)

Record twopc_state_change := mk_tsc {
  sc_mask : state_mask;
  sc_val : state_val;
  sc_primary_nodes : Z;
  sc_reachable_nodes : Z }.

(** [n_prepare_reply_cmd] is [None] where the code has 0.  [n_state_sem] is the count of
    [state_sem]; [n_resource] has the rest, the flags of the connections too. *)
Record node := mk_node {
  n_resource : resource;
  n_change : twopc_state_change;
  n_parent_nodes : Z;
  n_prepare_reply_cmd : option twopc_answer;
  n_state_sem : Z;
  n_all_quorate : bool;                     (* cached_all_devices_have_quorum *)
  TWOPC_EXECUTED : bool;
  TWOPC_ABORT_LOCAL : bool;
  TWOPC_WORK_PENDING : bool;
  TWOPC_RECV_SIZES_ERR : bool }.

Definition set_resource (r : resource) (n : node) : node :=
  mk_node r (n_change n) (n_parent_nodes n) (n_prepare_reply_cmd n) (n_state_sem n) (n_all_quorate n) (TWOPC_EXECUTED n) (TWOPC_ABORT_LOCAL n)
    (TWOPC_WORK_PENDING n) (TWOPC_RECV_SIZES_ERR n).
Definition set_change (x : twopc_state_change) (n : node) : node :=
  mk_node (n_resource n) x (n_parent_nodes n) (n_prepare_reply_cmd n) (n_state_sem n) (n_all_quorate n) (TWOPC_EXECUTED n) (TWOPC_ABORT_LOCAL n)
    (TWOPC_WORK_PENDING n) (TWOPC_RECV_SIZES_ERR n).
Definition set_parents (x : Z) (cmd : option twopc_answer) (n : node) : node :=
  mk_node (n_resource n) (n_change n) x cmd (n_state_sem n) (n_all_quorate n) (TWOPC_EXECUTED n) (TWOPC_ABORT_LOCAL n)
    (TWOPC_WORK_PENDING n) (TWOPC_RECV_SIZES_ERR n).
Definition set_state_sem (x : Z) (n : node) : node :=
  mk_node (n_resource n) (n_change n) (n_parent_nodes n) (n_prepare_reply_cmd n) x (n_all_quorate n) (TWOPC_EXECUTED n) (TWOPC_ABORT_LOCAL n)
    (TWOPC_WORK_PENDING n) (TWOPC_RECV_SIZES_ERR n).
Definition set_all_quorate (x : bool) (n : node) : node :=
  mk_node (n_resource n) (n_change n) (n_parent_nodes n) (n_prepare_reply_cmd n) (n_state_sem n) x (TWOPC_EXECUTED n) (TWOPC_ABORT_LOCAL n)
    (TWOPC_WORK_PENDING n) (TWOPC_RECV_SIZES_ERR n).
Definition set_executed (x : bool) (n : node) : node :=
  mk_node (n_resource n) (n_change n) (n_parent_nodes n) (n_prepare_reply_cmd n) (n_state_sem n) (n_all_quorate n) x (TWOPC_ABORT_LOCAL n)
    (TWOPC_WORK_PENDING n) (TWOPC_RECV_SIZES_ERR n).
Definition set_abort_local (x : bool) (n : node) : node :=
  mk_node (n_resource n) (n_change n) (n_parent_nodes n) (n_prepare_reply_cmd n) (n_state_sem n) (n_all_quorate n) (TWOPC_EXECUTED n) x
    (TWOPC_WORK_PENDING n) (TWOPC_RECV_SIZES_ERR n).
Definition set_work_pending (x : bool) (n : node) : node :=
  mk_node (n_resource n) (n_change n) (n_parent_nodes n) (n_prepare_reply_cmd n) (n_state_sem n) (n_all_quorate n) (TWOPC_EXECUTED n) (TWOPC_ABORT_LOCAL n)
    x (TWOPC_RECV_SIZES_ERR n).
Definition set_sizes_err (x : bool) (n : node) : node :=
  mk_node (n_resource n) (n_change n) (n_parent_nodes n) (n_prepare_reply_cmd n) (n_state_sem n) (n_all_quorate n) (TWOPC_EXECUTED n) (TWOPC_ABORT_LOCAL n)
    (TWOPC_WORK_PENDING n) x.

(** ** Parts of the resource *)

Definition conns (n : node) : list connection := r_conns (n_resource n).
Definition node_id (n : node) : nat := r_node_id (n_resource n).
Definition reply (n : node) : twopc_reply := rm_twopc_reply (r_more (n_resource n)).
Definition remote_state_change (n : node) : bool := rm_remote_state_change (r_more (n_resource n)).

Definition set_conns (l : list connection) (r : resource) : resource := with_r l (r_devs r) (r_members r) (r_more r) r.
Definition set_devs (l : list device) (r : resource) : resource := with_r (r_conns r) l (r_members r) (r_more r) r.
Definition set_members (x : Z) (r : resource) : resource := with_r (r_conns r) (r_devs r) x (r_more r) r.
Definition set_twopc (b : bool) (t : twopc_reply) (r : resource) : resource :=
  let m := r_more r in
  with_r (r_conns r) (r_devs r) (r_members r)
    (mk_rm (rm_dagtag_sector m) (rm_peer_ack_req m) (rm_last_peer_acked_dagtag m) (rm_current_flush_sequence m) (rm_current_tle_writes m)
       (rm_current_tle_nr m) (TRY_BECOME_UP_TO_DATE_PENDING m) (R_UNREGISTERED m) b t) r.
Definition with_res (f : resource -> resource) (n : node) : node := set_resource (f (n_resource n)) n.

Definition set_reply (t : twopc_reply) (n : node) : node := with_res (set_twopc (remote_state_change n) t) n.
Definition set_remote (b : bool) (n : node) : node := with_res (set_twopc b (reply n)) n.

Definition peer_id (c : connection) : nat := cm_peer_node_id (c_more c).

(** Flags of a connection. *)
Definition with_votes (f : conn_votes -> conn_votes) (m : conn_more) : conn_more :=
  mk_cm (cm_peer_node_id m) (cm_send_dagtag m) (cm_requests m) (cm_pending_flush_mask m) (FF_2PC_V2 m) (SEND_STATE_AFTER_AHEAD_C m) (CONN_CONGESTED m)
    (NOTIFY_PEERS_LOST_PRIMARY m) (RECONNECT m) (TWOPC_PREPARED m) (TWOPC_RETRY m) (cm_last_reconnect_jif m) (f (cm_votes m)).
Definition set_prepared (prepared retry : bool) (m : conn_more) : conn_more :=
  mk_cm (cm_peer_node_id m) (cm_send_dagtag m) (cm_requests m) (cm_pending_flush_mask m) (FF_2PC_V2 m) (SEND_STATE_AFTER_AHEAD_C m) (CONN_CONGESTED m)
    (NOTIFY_PEERS_LOST_PRIMARY m) (RECONNECT m) prepared retry (cm_last_reconnect_jif m) (cm_votes m).
Definition set_votes (yes no : bool) (v : conn_votes) : conn_votes :=
  mk_votes yes no (CONN_HANDSHAKE_DISCONNECT v) (CONN_HANDSHAKE_RETRY v) (CONN_HANDSHAKE_READY v) (DISCONNECT_EXPECTED v).
Definition set_disconnect_expected (v : conn_votes) : conn_votes :=
  mk_votes (TWOPC_YES v) (TWOPC_NO v) (CONN_HANDSHAKE_DISCONNECT v) (CONN_HANDSHAKE_RETRY v) (CONN_HANDSHAKE_READY v) true.
Definition set_handshake (disconnect retry ready : bool) (v : conn_votes) : conn_votes :=
  mk_votes (TWOPC_YES v) (TWOPC_NO v) disconnect retry ready (DISCONNECT_EXPECTED v).

Definition prepared (c : connection) : bool := TWOPC_PREPARED (c_more c).
Definition said_yes (c : connection) : bool := TWOPC_YES (cm_votes (c_more c)).
Definition said_no (c : connection) : bool := TWOPC_NO (cm_votes (c_more c)).
Definition said_retry (c : connection) : bool := TWOPC_RETRY (c_more c).

(** The connection to a node, by its place. *)
Definition drbd_connection_by_node_id (l : list connection) (id : Z) : option nat :=
  fst <$> list_find (fun c => Z.of_nat (peer_id c) = id) l.

Section twopc.
Context `{TwopcHeaders}.

(** ** Reaching the nodes *)

Definition node_bit (id : Z) : Z := u64 (Z.shiftl 1 id).
Definition my_bit (n : node) : Z := NODE_MASK (node_id n).
Definition in_nodes (mask : Z) (id : nat) : bool := Z.testbit mask (Z.of_nat id).

Definition directly_connected_nodes (w : which_state) (l : list connection) : Z :=
  foldl (fun m c => if cstate w c <? C_CONNECTED then m else Z.lor m (NODE_MASK (peer_id c))) 0 l.

Definition p_request_of (c : connection) (sc : twopc_state_change) (rq : twopc_request) : p_twopc_request :=
  let v2 := FF_2PC_V2 (c_more c) in
  let rq' := mk_request (rq_nodes_to_reach rq) (rq_cmd rq) (rq_tid rq) (rq_initiator_node_id rq) (rq_target_node_id rq) (rq_vnr rq)
               (v2 && TWOPC_HAS_REACHABLE rq) (v2 && TWOPC_PRI_INCAPABLE rq) in
  match rq_cmd rq with
  | P_TWOPC_PREPARE => mk_p_request rq' (sc_mask sc) (sc_val sc) 0 0
  | _ =>
      if TWOPC_HAS_REACHABLE rq && v2 then mk_p_request rq' no_mask no_val (sc_primary_nodes sc) (sc_reachable_nodes sc)
      else mk_p_request rq' (sc_mask sc) (sc_val sc) (sc_primary_nodes sc) 0
  end.

Definition conn_send_twopc_request (n : node) (rq : twopc_request) (c : connection) : effect :=
  Send (peer_id c) (Request (p_request_of c (n_change n) rq)).

Definition drbd_send_twopc_reply (cmd : twopc_answer) (t : twopc_reply) (c : connection) : effect :=
  Send (peer_id c) (Answer (mk_p_reply cmd (tr_tid t) (tr_initiator_node_id t) (tr_reachable_nodes t) (tr_primary_nodes t) (tr_weak_nodes t))).

(** The connections to which a request goes; [sends] says on which of them sending works. *)
Definition asked (reach : Z) (c : connection) : bool := (110 <=? c_pro_version c) && in_nodes reach (peer_id c).

Definition request_conn (sends : nat -> bool) (reach : Z) (c : connection) : connection :=
  if asked reach c
  then with_c_more (fun m => with_votes (set_votes false false) (set_prepared (sends (peer_id c)) false m)) c
  else with_c_more (fun m => set_prepared false (TWOPC_RETRY m) m) c.

Definition requested (sends : nat -> bool) (reach : Z) (l : list connection) : list connection :=
  filter (fun c => asked reach c && sends (peer_id c) = true) l.

Definition __cluster_wide_request (sends : nat -> bool) (rq : twopc_request) (reach_immediately : Z) (n : node) : drbd_state_rv * node * list effect :=
  let l := requested sends reach_immediately (conns n) in
  (match l with [] => SS_SUCCESS | _ => SS_CW_SUCCESS end,
   with_res (fun r => set_conns (map (request_conn sends reach_immediately) (r_conns r)) r) n,
   conn_send_twopc_request n rq <$> l).

(** ** The votes *)

Definition cluster_wide_reply_ready (n : node) : bool :=
  let r := n_resource n in
  let waits c := (118 <=? c_pro_version c) && negb (bool_decide (r_devs r = [])) && tr_is_connect (reply n) &&
                 drbd_twopc_between_peer_and_me r c && negb (CONN_HANDSHAKE_READY (cm_votes (c_more c))) in
  let have_no := tr_state_change_failed (reply n) || existsb (fun c => prepared c && said_no c) (conns n) in
  let have_retry := existsb (fun c => prepared c && said_retry c) (conns n) in
  let all_yes := forallb (fun c => negb (prepared c) || said_yes c) (conns n) in
  let connect_ready := negb (existsb waits (conns n)) in
  TWOPC_ABORT_LOCAL n || have_retry || (connect_ready && (have_no || all_yes)).

Definition get_cluster_wide_reply (n : node) : drbd_state_rv :=
  let r := n_resource n in
  let handshake f := existsb (fun c => tr_is_connect (reply n) && drbd_twopc_between_peer_and_me r c && f (cm_votes (c_more c))) (conns n) in
  let have_no := tr_state_change_failed (reply n) || existsb (fun c => prepared c && said_no c) (conns n) in
  let have_retry := existsb (fun c => prepared c && said_retry c) (conns n) in
  if TWOPC_ABORT_LOCAL n then SS_CONCURRENT_ST_CHG
  else if have_retry then SS_CONCURRENT_ST_CHG
  else if handshake CONN_HANDSHAKE_RETRY then SS_HANDSHAKE_RETRY
  else if handshake CONN_HANDSHAKE_DISCONNECT then SS_HANDSHAKE_DISCONNECT
  else if have_no then SS_CW_FAILED_BY_PEER
  else if TWOPC_RECV_SIZES_ERR n then SS_HANDSHAKE_DISCONNECT
  else SS_CW_SUCCESS.

Definition is_parent (parents : Z) (c : connection) : bool := in_nodes parents (peer_id c).

Definition twopc_end_nested (cmd : twopc_answer) (n : node) : node * list effect :=
  let t := reply n in
  let first := negb (tr_tid t =? 0) && bool_decide (n_prepare_reply_cmd n = None) in
  let parents := if first then n_parent_nodes n else 0 in
  let n := if first then set_parents (n_parent_nodes n) (Some cmd) n else n in
  let n := set_work_pending false n in
  if tr_tid t =? 0 then (n, [])
  else
    let mark c := if is_parent parents c && tr_is_disconnect t then with_c_more (with_votes set_disconnect_expected) c else c in
    (with_res (fun r => set_conns (map mark (r_conns r)) r) n,
     drbd_send_twopc_reply cmd t <$> filter (fun c => is_parent parents c = true) (conns n)).

Definition nested_twopc_work (n : node) : node * list effect :=
  let rv := get_cluster_wide_reply n in
  twopc_end_nested
    (if rv_ok rv then P_TWOPC_YES
     else match rv with SS_CONCURRENT_ST_CHG | SS_HANDSHAKE_RETRY => P_TWOPC_RETRY | _ => P_TWOPC_NO end) n.

(** The vote is sent from a work item. *)
Definition drbd_maybe_cluster_wide_reply (n : node) : node :=
  if negb (remote_state_change n) || negb (cluster_wide_reply_ready n) then n
  else if tr_initiator_node_id (reply n) =? Z.of_nat (node_id n) then n
  else set_work_pending true n.

(** The part of the nodes that are still to be reached which this node reaches. *)
Definition reach_of (nodes_to_reach : Z) (n : node) : Z * Z :=
  let reach := Z.land (directly_connected_nodes OLD (conns n)) nodes_to_reach in
  (reach, Z.ldiff nodes_to_reach (Z.lor reach (my_bit n))).

Definition forward (nodes_to_reach : Z) (rq : twopc_request) : twopc_request :=
  mk_request nodes_to_reach (rq_cmd rq) (rq_tid rq) (rq_initiator_node_id rq) (rq_target_node_id rq) (rq_vnr rq) (TWOPC_HAS_REACHABLE rq) (TWOPC_PRI_INCAPABLE rq).

Definition nested_twopc_request (sends : nat -> bool) (rq : twopc_request) (n : node) : node * list effect :=
  let '(reach, rest) := reach_of (rq_nodes_to_reach rq) n in
  let '(rv, n, out) := __cluster_wide_request sends (forward rest rq) reach n in
  let have_peers := bool_decide (rv = SS_CW_SUCCESS) in
  if bool_decide (rq_cmd rq = P_TWOPC_PREPARE)
  then if negb (rv_ok rv) then let '(n, out') := twopc_end_nested P_TWOPC_NO n in (n, out ++ out')
       else if negb have_peers && cluster_wide_reply_ready n then let '(n, out') := nested_twopc_work n in (n, out ++ out')
       else (n, out)
  else (n, out).

Definition nested_twopc_abort (rq : twopc_request) (n : node) : list effect :=
  let '(reach, rest) := reach_of (rq_nodes_to_reach rq) n in
  conn_send_twopc_request n (forward rest rq) <$> filter (fun c => in_nodes reach (peer_id c) = true) (conns n).
End twopc.
