(* ===== verification/TwoPhaseLocal.v ===== *)
(** * Two phase commit: what a request changes on a node ([drbd_receiver.c], [drbd_state.c])

    A participant changes a peer device, a connection with its peer devices, or, when the change
    is between other nodes, what it implies for the node itself. *)
From S2P Require Import Prelude Headers State StateFinish TwoPhase.

Section local.
Context `{TwopcHeaders}.

(** ** The point of view of the node *)

(** The table of [convert_state]; states that it does not list become the first state. *)
Definition c_tab (x : Z) : Z :=
  if x =? L_OFF then L_OFF
  else if x =? L_ESTABLISHED then L_ESTABLISHED
  else if x =? L_STARTING_SYNC_S then L_STARTING_SYNC_T
  else if x =? L_STARTING_SYNC_T then L_STARTING_SYNC_S
  else if x =? L_WF_BITMAP_S then L_WF_BITMAP_T
  else if x =? L_WF_BITMAP_T then L_WF_BITMAP_S
  else if x =? C_DISCONNECTING then C_TEAR_DOWN
  else if x =? C_CONNECTING then C_CONNECTING
  else if x =? L_VERIFY_S then L_VERIFY_T
  else if x =? conn_MASK then conn_MASK
  else 0.

Definition convert_val (v : state_val) : state_val :=
  mk_val (v_peer v) (v_role v) (c_tab (v_conn v)) (v_pdsk v) (v_disk v) (v_susp v) (v_susp_nod v) (v_susp_fen v) (v_user_isp v)
    (v_aftr_isp v || v_user_isp v) (v_aftr_isp v).
Definition convert_mask (m : state_mask) : state_mask :=
  mk_mask (m_peer m) (m_role m) (c_tab (m_conn m)) (m_pdsk m) (m_disk m) (m_susp m) (m_susp_nod m) (m_susp_fen m) (m_user_isp m)
    (m_aftr_isp m || m_user_isp m) (m_aftr_isp m).

(** ** Changes of single values *)

Definition with_new (f : res_state -> res_state) (r : resource) : resource := upd_res (f (r_new r)) (r_conns r) (r_devs r) r.
Definition alter_conn (i : nat) (f : connection -> connection) (r : resource) : resource := set_conns (alter f i (r_conns r)) r.
Definition alter_dev (v : nat) (f : device -> device) (r : resource) : resource := set_devs (alter f v (r_devs r)) r.
Definition alter_peer (v j : nat) (f : peer_device -> peer_device) : resource -> resource := alter_dev v (upd_peer j f).

(** A change of all peer devices of a connection. *)
Definition on_conn (i : nat) (f : peer_device -> peer_device) (p : peer_device) : peer_device := if Nat.eqb (p_conn p) i then f p else p.
Definition alter_peers_of (i : nat) (f : peer_device -> peer_device) (r : resource) : resource :=
  set_devs (map (fun d => set_peers (map (on_conn i f) (d_peers d)) d) (r_devs r)) r.

Definition __change_io_susp_user (x : bool) : resource -> resource :=
  with_new (fun s => mk_rs (rs_role s) x (rs_susp_nod s) (rs_susp_quorum s) (rs_susp_uuid s) (rs_fail_io s)).
Definition __change_io_susp_no_data (x : bool) : resource -> resource := with_new (set_susp_nod x).
Definition __change_io_susp_fencing (i : nat) (x : bool) : resource -> resource := alter_conn i (set_susp_fen x).
Definition __change_peer_role (i : nat) (x : drbd_role) : resource -> resource := alter_conn i (set_peer_role x).
Definition __change_disk_state (v : nat) (x : Z) : resource -> resource := alter_dev v (set_disk x).
Definition __change_peer_disk_state (v j : nat) (x : Z) : resource -> resource := alter_peer v j (set_peer_disk x).
Definition __change_resync_susp_user (v j : nat) (x : bool) : resource -> resource :=
  alter_peer v j (upd_pd (fun s => mk_pds (ps_repl s) (ps_disk s) x (ps_susp_peer s) (ps_susp_dependency s) (ps_susp_other_c s) (ps_resync_active s)
    (ps_replication s) (ps_peer_replication s))).
Definition __change_resync_susp_peer (v j : nat) (x : bool) : resource -> resource := alter_peer v j (set_susp_peer x).
Definition __change_resync_susp_dependency (v j : nat) (x : bool) : resource -> resource := alter_peer v j (set_susp_dependency x).

(** [i] is the place of the connection of the peer device. *)
Definition __change_repl_state (i v j : nat) (x : Z) (r : resource) : resource :=
  let r := alter_peer v j (set_repl x) r in
  if L_OFF <? x then alter_conn i (set_cstate C_CONNECTED) r else r.

Definition __change_cstate (i : nat) (x : Z) (r : resource) : resource :=
  let r := if x =? C_DISCONNECTING then alter_conn i (with_c_more (with_votes set_disconnect_expected)) r else r in
  let r := alter_conn i (set_cstate x) r in
  if x <? C_CONNECTED then alter_peers_of i (set_repl L_OFF) r else r.

Definition __downgrade_disk_states (x : Z) (r : resource) : resource :=
  set_devs (map (fun d => if x <? disk_state NEW d then set_disk x d else d) (r_devs r)) r.
Definition __downgrade_peer_disk_states (i : nat) (x : Z) : resource -> resource :=
  alter_peers_of i (fun p => if x <? peer_disk_state NEW p then set_peer_disk x p else p).
Definition __outdate_myself (r : resource) : resource :=
  set_devs (map (fun d => if D_OUTDATED <? disk_state OLD d then set_disk D_OUTDATED d else d) (r_devs r)) r.

(** ** A request for a connection or a peer device *)

(** A field of the mask that is understood and then taken away: [mask.x ^= -1]. *)
Definition taken (all m : Z) : Z := if m =? 0 then 0 else all - m.

(** The fields of the mask that a change of the connection leaves, and those that a change of the
    peer device leaves. *)
Definition rest_of_conn_mask (m : state_mask) : state_mask :=
  mk_mask (m_role m) (taken role_MASK (m_peer m)) (taken conn_MASK (m_conn m)) (taken D_MASK (m_disk m)) (taken D_MASK (m_pdsk m)) false false false
    (m_user_isp m) (m_peer_isp m) (m_aftr_isp m).
Definition rest_of_pd_mask (m : state_mask) : state_mask :=
  mk_mask (m_role m) (taken role_MASK (m_peer m)) (taken conn_MASK (m_conn m)) (taken D_MASK (m_disk m)) (taken D_MASK (m_pdsk m)) (m_susp m) (m_susp_nod m)
    (m_susp_fen m) false false false.

Definition when (b : bool) (f : resource -> resource) (r : resource) : resource := if b then f r else r.
Definition in_field (m : Z) : bool := negb (m =? 0).

Definition __change_connection_state (i : nat) (m : state_mask) (x : state_val) (r : resource) : drbd_state_rv * resource :=
  let r := when (m_susp m) (__change_io_susp_user (v_susp x)) r in
  let r := when (m_susp_nod m) (__change_io_susp_no_data (v_susp_nod x)) r in
  let r := when (m_susp_fen m) (__change_io_susp_fencing i (v_susp_fen x)) r in
  let r := when (in_field (m_conn m)) (__change_cstate i (Z.min (v_conn x) C_CONNECTED)) r in
  let r := when (in_field (m_peer m)) (__change_peer_role i (v_peer x)) r in
  (if bool_decide (rest_of_conn_mask m = no_mask) then SS_SUCCESS else SS_NOT_SUPPORTED, r).

Definition __change_peer_device_state (i v j : nat) (m : state_mask) (x : state_val) (r : resource) : drbd_state_rv * resource :=
  let r := when (in_field (m_disk m)) (__change_disk_state v (v_disk x)) r in
  let r := when (in_field (m_conn m)) (__change_repl_state i v j (Z.max (v_conn x) L_OFF)) r in
  let r := when (in_field (m_pdsk m)) (__change_peer_disk_state v j (v_pdsk x)) r in
  let r := when (m_user_isp m) (__change_resync_susp_user v j (v_user_isp x)) r in
  let r := when (m_peer_isp m) (__change_resync_susp_peer v j (v_peer_isp x)) r in
  let r := when (m_aftr_isp m) (__change_resync_susp_dependency v j (v_aftr_isp x)) r in
  (if bool_decide (rest_of_pd_mask m = no_mask) then SS_SUCCESS else SS_NOT_SUPPORTED, r).

(** The place of the peer device of a connection in a device. *)
Definition peer_of (i : nat) (d : device) : option nat := fst <$> list_find (fun p => p_conn p = i) (d_peers d).

Definition sanitize_outdate (d : device) (p : peer_device) (m : state_mask) (x : state_val) : state_mask :=
  mk_mask (m_role m) (m_peer m) (m_conn m)
    (if (v_disk x =? D_OUTDATED) && (disk_state NEW d <? D_OUTDATED) then 0 else m_disk m)
    (if (v_pdsk x =? D_OUTDATED) && (peer_disk_state NEW p <? D_OUTDATED) then 0 else m_pdsk m)
    (m_susp m) (m_susp_nod m) (m_susp_fen m) (m_user_isp m) (m_peer_isp m) (m_aftr_isp m).

(** The peer devices of the connection in turn; the first error stops. *)
Fixpoint change_peer_devices (is_disconnect : bool) (i : nat) (m : state_mask) (x : state_val) (vs : list nat) (r : resource) : drbd_state_rv * resource :=
  match vs with
  | [] => (SS_SUCCESS, r)
  | v :: vs =>
      match r_devs r !! v with
      | Some d =>
          match peer_of i d with
          | Some j =>
              let l_mask := if is_disconnect then match d_peers d !! j with Some p => sanitize_outdate d p m x | None => m end else m in
              let '(rv, r') := __change_peer_device_state i v j l_mask x r in
              if rv_ok rv then change_peer_devices is_disconnect i m x vs r' else (rv, r')
          | None => change_peer_devices is_disconnect i m x vs r
          end
      | None => change_peer_devices is_disconnect i m x vs r
      end
  end.

(** ** Connecting *)

Definition with_connect (f : pd_connect -> pd_connect) (m : pd_more) : pd_more :=
  mk_pm (B_RS_H_DONE m) (RS_DONE m) (SYNC_TARGET_TO_BEHIND m) (AHEAD_TO_SYNC_SOURCE m) (CONSIDER_RESYNC m) (SEND_STATE_AFTER_AHEAD m)
    (GOT_NEG_ACK m) (SYNC_SRC_CRASHED_PRI m) (UNSTABLE_RESYNC m) (PEER_CRASHED_PRIMARY m) (pm_uuid_node_mask m) (pm_bitmap_index m) (pm_bitmap_uuid m)
    (pm_progress m) (f (pm_connect m)).
Definition set_uuid_flags (received holding quorate : bool) (p : peer_device) : peer_device :=
  mk_pd (p_old p) (p_new p) (p_conn p) (p_node_id p) (p_bitmap p) (p_tiebreaker p) (p_weight p) (p_current_uuid p)
    (p_negotiation_result p) (UUID_STABLE p) (UUID_GOT_STABLE p) received holding quorate
    (PEER_REPLICATION_NEXT p) (REPLICATION_NEXT p) (RECONCILIATION_RESYNC p) (p_more p).

Definition abort_connect_pd (p : peer_device) : peer_device :=
  with_p_more (with_connect (fun k => mk_pdc false false (HAVE_SIZES k) false (DISCARD_MY_DATA k) (connect_state k)))
    (set_uuid_flags false false (PEER_QUORATE p) p).
Definition abort_connect (i : nat) : resource -> resource := alter_peers_of i abort_connect_pd.

Definition peer_device_init_connect_state (p : peer_device) : peer_device :=
  with_p_more (with_connect (fun k => mk_pdc false false false false (DISCARD_MY_DATA k)
                 (mk_val R_UNKNOWN R_UNKNOWN 0 D_MASK 0 false false false false false false)))
    (set_uuid_flags false (HOLDING_UUID_READ_LOCK p) false p).

Definition drbd_init_connect_state (i : nat) (r : resource) : resource :=
  alter_conn i (with_c_more (with_votes (set_handshake false false false))) (alter_peers_of i peer_device_init_connect_state r).

(** [conn_connect2]; what [drbd_connected] sends is an effect, and [sends] says whether the packets
    before the state could be sent. *)
Definition conn_connect2 (sends : bool) (i : nat) (r : resource) : resource * list effect :=
  let lock p := if 110 <=? c_pro_version (r_conns r !!! i) then set_uuid_flags (UUIDS_RECEIVED p) true (PEER_QUORATE p) p else p in
  let sent p := with_p_more (with_connect (fun k => mk_pdc (INITIAL_STATE_SENT k || sends) (INITIAL_STATE_RECEIVED k) (HAVE_SIZES k) (CURRENT_UUID_RECEIVED k) (DISCARD_MY_DATA k)
                               (connect_state k))) p in
  (alter_peers_of i (fun p => sent (lock p)) r, [Connected i]).

Definition clear_discard (p : peer_device) : peer_device :=
  with_p_more (with_connect (fun k => mk_pdc (INITIAL_STATE_SENT k) (INITIAL_STATE_RECEIVED k) (HAVE_SIZES k) (CURRENT_UUID_RECEIVED k) false (connect_state k))) p.

(** The states that the handshake agreed on, for one peer device. *)
Definition apply_connect_pd (i v j : nat) (d : device) (p : peer_device) (r : resource) : resource :=
  let s := connect_state (pm_connect (p_more p)) in
  let r := when (negb (v_disk s =? D_MASK)) (__change_disk_state v (v_disk s)) r in
  let r := when (negb (disk_state OLD d =? D_NEGOTIATING)) (__change_repl_state i v j (v_conn s)) r in
  let r := __change_peer_disk_state v j (v_pdsk s) r in
  let r := __change_resync_susp_peer v j (v_peer_isp s) r in
  let r := when (v_conn s =? L_OFF) (__change_cstate i C_DISCONNECTING) r in
  alter_peer v j clear_discard r.

Definition apply_connect (i : nat) (commit : bool) (r : resource) : resource :=
  if negb commit || negb (cstate NEW (r_conns r !!! i) =? C_CONNECTED) then r
  else foldl (fun r v =>
         match r_devs r !! v with
         | Some d => match peer_of i d with
                     | Some j => match d_peers d !! j with Some p => apply_connect_pd i v j d p r | None => r end
                     | None => r
                     end
         | None => r
         end) r (seq 0 (length (r_devs r))).

(** ** The whole change *)

(** The flags of a request, and what the environment does meanwhile: the time, on which connections
    sending works, and the open counts of the devices each time a wait for readers ends. *)
Record run_flags := mk_run_flags { CS_PREPARED : bool; rf_flags : cs_flags }.
Record env := mk_env { e_now : Z; e_sends : nat -> bool; e_opened : list (list Z) }.

Definition drbd_open_ro_count (r : resource) : Z := foldr (fun d n => (if writable d then 0 else open_cnt d) + n) 0 (r_devs r).
Definition set_open_cnt (d : device) (x : Z) : device :=
  mk_dev (d_old d) (d_new d) (d_peers d) (d_md d) (MDF_CONSISTENT d) (MDF_WAS_UP_TO_DATE d) (d_current_uuid d) (d_exposed_uuid d) (intentional_diskless d)
    (writable d) x (RESTORE_QUORUM d) (RESTORING_QUORUM d) (TRY_TO_GET_RESYNC d) (NEW_CUR_UUID d) (d_more d).
Definition set_opened (l : list Z) (r : resource) : resource := set_devs (zip_with set_open_cnt (r_devs r) l) r.

(** A change that failed is dropped; its result is the error. *)
Definition failed (now : Z) (rv : drbd_state_rv) (r : resource) : change_result :=
  let x := abort_state_change now r in mk_change rv (ch_resource x) (ch_actions x) (ch_cached x).

Definition all_reached (w : which_state) (r : resource) : Z := Z.lor (directly_connected_nodes w (r_conns r)) (NODE_MASK (r_node_id r)).

(** One attempt of [change_connection_state]. *)
Definition try_connection_state (now : Z) (i : nat) (m : state_mask) (x : state_val) (t : option twopc_reply) (is_connect is_disconnect : bool)
    (fl : run_flags) (r : resource) : change_result :=
  let abort := CS_ABORT (rf_flags fl) in
  let r := begin_state_change (rf_flags fl) r in
  let '(rv, r) := change_peer_devices is_disconnect i m x (seq 0 (length (r_devs r))) r in
  if negb (rv_ok rv) then failed now rv r
  else
    let '(rv, r) := __change_connection_state i m x r in
    if negb (rv_ok rv) then failed now rv r
    else
      let r := match t with
               | Some t => if negb abort && negb (Z.ldiff (tr_primary_nodes t) (all_reached NEW r) =? 0) then __outdate_myself r else r
               | None => r
               end in
      let r := if is_connect && (117 <=? c_pro_version (r_conns r !!! i)) then apply_connect i (CS_PREPARED fl && negb abort) r else r in
      end_state_change now r.

(** A failure that readers of the device cause is tried again when they are gone. *)
Fixpoint retry_connection_state (now : Z) (opened : list (list Z)) (i : nat) (m : state_mask) (x : state_val) (t : option twopc_reply)
    (is_connect is_disconnect : bool) (fl : run_flags) (r : resource) : change_result :=
  let res := try_connection_state now i m x t is_connect is_disconnect fl r in
  let readers := match ch_rv res with
                 | SS_NO_UP_TO_DATE_DISK => negb (is_primary (role OLD (ch_resource res)))
                 | SS_PRIMARY_READER => true
                 | _ => false
                 end in
  match opened with
  | o :: opened =>
      let r' := set_opened o (ch_resource res) in
      if readers && (drbd_open_ro_count r' =? 0) then retry_connection_state now opened i m x t is_connect is_disconnect fl r' else res
  | [] => res
  end.

Definition change_connection_state (e : env) (i : nat) (sc : twopc_state_change) (t : option twopc_reply) (fl : run_flags) (r : resource) : change_result * list effect :=
  let '(is_connect, is_disconnect) :=
    match t with
    | Some t => (tr_is_connect t, tr_is_disconnect t)
    | None => ((m_conn (sc_mask sc) =? conn_MASK) && (v_conn (sc_val sc) =? C_CONNECTED), (m_conn (sc_mask sc) =? conn_MASK) && (v_conn (sc_val sc) =? C_DISCONNECTING))
    end in
  let hand := is_connect && (118 <=? c_pro_version (r_conns r !!! i)) in
  let '(r, out) := if hand && CS_PREPARE (rf_flags fl) then conn_connect2 (e_sends e (peer_id (r_conns r !!! i))) i r else (r, []) in
  let r := if hand && CS_ABORT (rf_flags fl) then abort_connect i r else r in
  (retry_connection_state (e_now e) (e_opened e) i (convert_mask (sc_mask sc)) (convert_val (sc_val sc)) t is_connect is_disconnect fl r, out).

Definition change_peer_device_state (now : Z) (i v j : nat) (sc : twopc_state_change) (fl : run_flags) (r : resource) : change_result :=
  let m := convert_mask (sc_mask sc) in
  let x := convert_val (sc_val sc) in
  let r := begin_state_change (rf_flags fl) r in
  let '(rv, r) := __change_peer_device_state i v j m x r in
  if negb (rv_ok rv) then failed now rv r
  else
    let '(rv, r) := __change_connection_state i m x r in
    if negb (rv_ok rv) then failed now rv r else end_state_change now r.

Definition drbd_have_local_disk (r : resource) : bool := existsb (fun d => D_DISKLESS <? disk_state OLD d) (r_devs r).

Definition set_md_outdated (md : peer_md) : peer_md :=
  mk_pmd (MD_HAVE_BITMAP md) (MD_NODE_EXISTS md) (MD_PEER_DEVICE_SEEN md) true (MD_PEER_FENCING md) (MD_PEER_CONNECTED md).

(** The request asks for primaries and this node is one: the node that asked is outdated. *)
Definition outdate_initiator (prepared : bool) (id : Z) (r : resource) : resource :=
  match drbd_connection_by_node_id (r_conns r) id with
  | Some i => __downgrade_peer_disk_states i D_OUTDATED r
  | None =>
      if prepared
      then set_devs (map (fun d => if has_ldev D_INCONSISTENT d then with_d_more drbd_md_mark_dirty (set_md (alter set_md_outdated (Z.to_nat id) (d_md d)) d) else d) (r_devs r)) r
      else r
  end.

Definition far_away_change (now : Z) (i : nat) (rq : twopc_request) (sc : twopc_state_change) (fl : run_flags) (r : resource) : change_result :=
  let t := rm_twopc_reply (r_more r) in
  let primary := is_primary (role OLD r) in
  let two_primaries := match c_net_conf (r_conns r !!! i) with Some nc => two_primaries nc | None => false end in
  let promotes := CS_PREPARE (rf_flags fl) && (m_role (sc_mask sc) =? role_MASK) && is_primary (v_role (sc_val sc)) && primary in
  if promotes && negb two_primaries then mk_change SS_TWO_PRIMARIES r [] None
  else if promotes && drbd_have_local_disk r then mk_change SS_WEAKLY_CONNECTED r [] None
  else
    let reached := all_reached OLD r in
    let r := begin_state_change (rf_flags fl) r in
    let r := when (bool_decide (sc_mask sc = no_mask) && bool_decide (sc_val sc = no_val) && primary && (tr_vnr t =? -1))
               (outdate_initiator (CS_PREPARED fl) (tr_initiator_node_id t)) r in
    let r := when (negb (Z.ldiff (sc_primary_nodes sc) reached =? 0) && negb (TWOPC_PRI_INCAPABLE rq)) __outdate_myself r in
    let r := set_devs (map (fun d => if OUTDATE_ON_2PC_COMMIT (d_more d) && (D_OUTDATED <? disk_state NEW d) then set_disk D_OUTDATED d else d) (r_devs r)) r in
    end_state_change now r.
End local.
