(* ===== verification/TwoPhaseRecv.v ===== *)
(** * Two phase commit: packets from the peers ([drbd_receiver.c])

    [process_twopc] holds the lock only for its first part, so it is split where it lets go of it:
    [process_enter] and [process_fields], then after a ping [process_local], then [process_finish]. *)
From S2P Require Import Prelude Headers State StateFinish TwoPhase TwoPhaseLocal.

Inductive csc_rv := CSC_CLEAR | CSC_REJECT | CSC_ABORT_LOCAL | CSC_TID_MISS | CSC_MATCH.

#[export] Instance csc_rv_eq_dec : EqDecision csc_rv.
Proof. solve_decision. Defined.

(** How the first part ends: it returns; it waits until another transaction is over and tries again;
    it waits until the local transaction has been given up; or it goes on, with [CS_PREPARED] set
    or not. *)
Inductive entry :=
  | Leave (n : node) (out : list effect)
  | WaitDone
  | WaitAbort (n : node)
  | Enter (n : node) (prepared : bool).

(** The local variables of [process_twopc] that live across its parts; [w_peer] are the places of
    the connection, the device and the peer device. *)
Record run := mk_run {
  w_conn : nat;
  w_request : twopc_request;
  w_reply : twopc_reply;
  w_prepared : bool;
  w_affected : option nat;
  w_pinged : bool;
  w_peer : option (nat * nat * nat) }.

Section recv.
Context `{TwopcHeaders}.

Definition set_ids (tid initiator : Z) (t : twopc_reply) : twopc_reply :=
  mk_reply (tr_vnr t) tid initiator (tr_target_node_id t) (tr_target_reachable_nodes t) (tr_reachable_nodes t) (tr_primary_nodes t) (tr_weak_nodes t)
    (tr_is_disconnect t) (tr_is_connect t) (tr_is_aborted t) (tr_state_change_failed t).
Definition set_masks (target_reachable reachable primary weak : Z) (t : twopc_reply) : twopc_reply :=
  mk_reply (tr_vnr t) (tr_tid t) (tr_initiator_node_id t) (tr_target_node_id t) target_reachable reachable primary weak
    (tr_is_disconnect t) (tr_is_connect t) (tr_is_aborted t) (tr_state_change_failed t).
Definition set_kind (is_disconnect is_connect failed : bool) (t : twopc_reply) : twopc_reply :=
  mk_reply (tr_vnr t) (tr_tid t) (tr_initiator_node_id t) (tr_target_node_id t) (tr_target_reachable_nodes t) (tr_reachable_nodes t) (tr_primary_nodes t)
    (tr_weak_nodes t) is_disconnect is_connect (tr_is_aborted t) failed.

(** ** The end of a transaction on a node *)

Definition set_next_exposed (x : Z) (m : dev_more) : dev_more :=
  mk_dm (UNREGISTERED m) (CRASHED_PRIMARY m) (PRIMARY_LOST_QUORUM m) (FORCE_DETACH m) (__NEW_CUR_UUID m) (AL_SUSPENDED m) (MD_DIRTY m) (MDF_AL_CLEAN m) (MDF_CRASHED_PRIMARY m)
    (MDF_PRIMARY_LOST_QUORUM m) (MDF_PRIMARY_IND m) (MDF_HAVE_QUORUM m) (MDF_AL_DISABLED m) (dm_md_members m) (dm_max_peers m) (dm_al_updates m)
    (dm_has_bitmap m) (dm_bm_bits m) (dm_bm_block_shift m) (dm_local_cnt m) (dm_last_reattach_jif m) (OUTDATE_ON_2PC_COMMIT m) x.
Definition clear_outdate_on_commit (m : dev_more) : dev_more :=
  mk_dm (UNREGISTERED m) (CRASHED_PRIMARY m) (PRIMARY_LOST_QUORUM m) (FORCE_DETACH m) (__NEW_CUR_UUID m) (AL_SUSPENDED m) (MD_DIRTY m) (MDF_AL_CLEAN m) (MDF_CRASHED_PRIMARY m)
    (MDF_PRIMARY_LOST_QUORUM m) (MDF_PRIMARY_IND m) (MDF_HAVE_QUORUM m) (MDF_AL_DISABLED m) (dm_md_members m) (dm_max_peers m) (dm_al_updates m)
    (dm_has_bitmap m) (dm_bm_bits m) (dm_bm_block_shift m) (dm_local_cnt m) (dm_last_reattach_jif m) false (dm_next_exposed_uuid m).

Definition apply_update_to_exposed_data_uuid (r : resource) : resource :=
  set_devs (map (fun d =>
    let nedu := dm_next_exposed_uuid (d_more d) in
    if nedu =? 0 then d
    else with_d_more (set_next_exposed 0) (if disk_state OLD d <? D_INCONSISTENT then drbd_uuid_set_exposed r nedu d else d)) (r_devs r)) r.

Definition __clear_remote_state_change (n : node) : node :=
  let t := reply n in
  let n := with_res (set_twopc false (set_ids 0 (-1) t)) n in
  let n := if tr_is_connect t && bool_decide (n_prepare_reply_cmd n = None)
           then match drbd_connection_by_node_id (conns n) (tr_initiator_node_id t) with Some i => with_res (abort_connect i) n | None => n end
           else n in
  with_res apply_update_to_exposed_data_uuid n.

(** The node with the result of a state change; the calls that concern the two phase commit are
    made, the others are effects. *)
Definition run_action (n : node) (a : action) : node :=
  match a with
  | maybe_cluster_wide_reply => drbd_maybe_cluster_wide_reply n
  | clear_remote_state_change => __clear_remote_state_change n
  | _ => n
  end.
Definition is_effect (a : action) : bool := match a with maybe_cluster_wide_reply | clear_remote_state_change => false | _ => true end.

Definition changed (x : change_result) (n : node) : node * list effect :=
  let n := set_resource (ch_resource x) n in
  let n := match ch_cached x with Some k => set_all_quorate (cached_all_devices_have_quorum k) n | None => n end in
  (foldl run_action n (ch_actions x), Engine <$> filter (fun a => is_effect a = true) (ch_actions x)).

(** ** Concurrent transactions *)

Definition check_concurrent_transactions (n : node) (t : twopc_reply) : csc_rv :=
  let ongoing := reply n in
  if negb (remote_state_change n) then CSC_CLEAR
  else if tr_initiator_node_id t <? tr_initiator_node_id ongoing
  then if tr_initiator_node_id ongoing =? Z.of_nat (node_id n) then CSC_ABORT_LOCAL else CSC_REJECT
  else if tr_initiator_node_id ongoing <? tr_initiator_node_id t then CSC_REJECT
  else if negb (tr_tid t =? tr_tid ongoing) then CSC_TID_MISS
  else CSC_MATCH.

Definition is_prepare (rq : twopc_request) : bool := bool_decide (rq_cmd rq = P_TWOPC_PREPARE).
Definition is_abort (rq : twopc_request) : bool := bool_decide (rq_cmd rq = P_TWOPC_ABORT).

(** The node takes part from now on, and answers to the peer that asked. *)
Definition take_part (c : connection) (n : node) : node :=
  set_executed false (set_parents (NODE_MASK (peer_id c)) None (set_remote true n)).

Definition duplicate_prepare (i : nat) (n : node) : node * list effect :=
  let c := conns n !!! i in
  let n := set_parents (Z.lor (n_parent_nodes n) (NODE_MASK (peer_id c))) (n_prepare_reply_cmd n) n in
  match n_prepare_reply_cmd n with
  | Some cmd => (n, [drbd_send_twopc_reply cmd (reply n) c])
  | None => (drbd_maybe_cluster_wide_reply (with_res (alter_conn i (with_c_more (with_votes (fun v => set_votes true (TWOPC_NO v) v)))) n), [])
  end.

Definition process_enter (waiting_allowed : bool) (i : nat) (rq : twopc_request) (t : twopc_reply) (n : node) : entry :=
  let c := conns n !!! i in
  let csc := check_concurrent_transactions n t in
  let csc_is x := bool_decide (csc = x) in
  if csc_is CSC_CLEAR && negb (is_abort rq) then
    if negb (is_prepare rq) then Leave n []
    else if tr_is_aborted t then Leave n []
    else Enter (with_res (fun r => set_devs (map (with_d_more clear_outdate_on_commit) (r_devs r)) r) (take_part c n)) false
  else if csc_is CSC_MATCH && negb (is_prepare rq) then
    if TWOPC_EXECUTED n then Leave n [] else Enter (set_executed true n) true
  else if csc_is CSC_ABORT_LOCAL && is_prepare rq then WaitAbort (set_abort_local true n)
  else if is_abort rq then Leave n (nested_twopc_abort rq n)
  else if csc_is CSC_TID_MISS && is_prepare rq && waiting_allowed && negb (is_parent (n_parent_nodes n) c) then WaitDone
  else if csc_is CSC_REJECT || (csc_is CSC_TID_MISS && is_prepare rq) then Leave n [drbd_send_twopc_reply P_TWOPC_RETRY t c]
  else if is_prepare rq && csc_is CSC_MATCH then let '(n, out) := duplicate_prepare i n in Leave n out
  else Leave n [].

(** [abort_local_transaction] is back: the local transaction is gone, or the other transaction got
    here another way, or it took too long. *)
Definition abort_local_done (i : nat) (t : twopc_reply) (n : node) : entry :=
  let c := conns n !!! i in
  let n := set_abort_local false n in
  if negb (remote_state_change n) then if tr_is_aborted t then Leave n [] else Enter (take_part c n) false
  else if tr_tid (reply n) =? tr_tid t then let '(n, out) := duplicate_prepare i n in Leave n out
  else Leave n [drbd_send_twopc_reply P_TWOPC_RETRY t c].

(** ** What the request is about *)

Definition drbd_res_data_accessible (r : resource) : bool := existsb (drbd_data_accessible (r_conns r) OLD) (r_devs r).

Definition conn_peer_device (r : resource) (i : nat) (vnr : Z) : option (nat * nat * nat) :=
  d ← r_devs r !! Z.to_nat vnr; j ← peer_of i d; Some (i, Z.to_nat vnr, j).

Definition affected_connection (i : nat) (rq : twopc_request) (sc : twopc_state_change) (n : node) : option nat :=
  let a := if rq_initiator_node_id rq =? Z.of_nat (peer_id (conns n !!! i)) then Some i
           else drbd_connection_by_node_id (conns n) (rq_initiator_node_id rq) in
  let a := if negb (rq_target_node_id rq =? -1) && negb (rq_target_node_id rq =? Z.of_nat (node_id n)) then None else a in
  match a with
  | Some k => if (cstate OLD (conns n !!! k) <? C_CONNECTED) && (m_conn (sc_mask sc) =? 0) then None else Some k
  | None => None
  end.

Definition to_connect (sc : twopc_state_change) : bool := (m_conn (sc_mask sc) =? conn_MASK) && (v_conn (sc_val sc) =? C_CONNECTED).
Definition to_disconnect (sc : twopc_state_change) : bool := (m_conn (sc_mask sc) =? conn_MASK) && (v_conn (sc_val sc) =? C_DISCONNECTING).

(** What the node reports to the one that asks. *)
Definition fill_reply (rq : twopc_request) (p : p_twopc_request) (sc : twopc_state_change) (affected : bool) (n : node) (t : twopc_reply) : twopc_reply :=
  let m := node_bit (rq_initiator_node_id rq) in
  let t := if to_connect sc
           then set_kind (tr_is_disconnect t) (tr_is_connect t || affected) (tr_state_change_failed t)
                  (set_masks (tr_target_reachable_nodes t) (Z.lor (tr_reachable_nodes t) m) (tr_primary_nodes t) (tr_weak_nodes t) t)
           else t in
  let t := if to_disconnect sc
           then set_kind true (tr_is_connect t) (tr_state_change_failed t)
                  (set_masks (tr_target_reachable_nodes t) (Z.ldiff (tr_reachable_nodes t) m) (tr_primary_nodes t) (tr_weak_nodes t) t)
           else t in
  if is_prepare rq
  then
    let t := set_masks (tr_target_reachable_nodes t) (tr_reachable_nodes t) (pq_primary_nodes p) (tr_weak_nodes t) t in
    if is_primary (role OLD (n_resource n))
    then set_masks (tr_target_reachable_nodes t) (tr_reachable_nodes t) (Z.lor (tr_primary_nodes t) (my_bit n))
           (if drbd_res_data_accessible (n_resource n) then u64 (Z.lnot (tr_reachable_nodes t)) else tr_weak_nodes t) t
    else t
  else t.

Definition process_fields (prepared : bool) (i : nat) (p : p_twopc_request) (t : twopc_reply) (n : node) : run * node :=
  let rq := pq_request p in
  let old := n_change n in
  let sc := if is_prepare rq then mk_tsc (pq_mask p) (pq_val p) (sc_primary_nodes old) (sc_reachable_nodes old)
            else mk_tsc (sc_mask old) (sc_val old) (pq_primary_nodes p) (pq_reachable_nodes p) in
  let affected := affected_connection i rq sc n in
  let '(peer, affected) := match affected with
                           | Some k => if negb (rq_vnr rq =? -1) then (conn_peer_device (n_resource n) k (rq_vnr rq), None) else (None, Some k)
                           | None => (None, None)
                           end in
  let is_affected := bool_decide (is_Some affected) in
  let t := fill_reply rq p sc is_affected n t in
  let n := set_change sc n in
  let n := if to_connect sc && is_affected && is_prepare rq then with_res (drbd_init_connect_state i) n else n in
  let pinged := match affected with Some k => negb (Nat.eqb k i) && (cstate OLD (conns n !!! k) =? C_CONNECTED) | None => false end in
  (mk_run i rq t prepared affected pinged peer, set_reply t n).

(** ** The change itself *)

Definition any_neighbor_quorate (r : resource) : bool :=
  existsb (fun i => forallb (fun p => negb (Nat.eqb (p_conn p) i) || PEER_QUORATE p) (all_peers r)) (seq 0 (length (r_conns r))).

Definition handle_neighbor_demotion (c : connection) (sc : twopc_state_change) (t : twopc_reply) (r : resource) : list effect :=
  if negb (tr_initiator_node_id t =? Z.of_nat (peer_id c)) || negb (is_primary (peer_role OLD c)) ||
     negb (m_role (sc_mask sc) =? role_MASK) || negb (is_secondary (v_role (sc_val sc)))
  then []
  else concat (imap (fun v d => if has_ldev D_INCONSISTENT d then [WriteBitmap v] else []) (r_devs r)).

(** The members that a commit brings, and whether the quorum has to be computed anew. *)
Definition commit_members (rq : twopc_request) (sc : twopc_state_change) (t : twopc_reply) (n : node) : Z * bool :=
  let r := n_resource n in
  let take := (n_all_quorate n || any_neighbor_quorate r) && TWOPC_HAS_REACHABLE rq in
  let m := if take then sc_reachable_nodes sc else r_members r in
  (if to_connect sc then Z.lor m (Z.lor (node_bit (tr_initiator_node_id t)) (node_bit (tr_target_node_id t))) else m, take && negb (n_all_quorate n)).

Definition flags_of (rq : twopc_request) (w : run) (ign_outd_fail force_recalc : bool) : run_flags :=
  mk_run_flags (w_prepared w) (mk_flags false (is_prepare rq) (is_abort rq) false ign_outd_fail false force_recalc).

(** After the ping, a connection that got lost does not count. *)
Definition process_pinged (w : run) (n : node) : run :=
  let affected := match w_affected w with
                  | Some k => if w_pinged w && (cstate OLD (conns n !!! k) <? C_CONNECTED) then None else Some k
                  | None => None
                  end in
  mk_run (w_conn w) (w_request w) (w_reply w) (w_prepared w) affected false (w_peer w).

Definition process_local (e : env) (w : run) (n : node) : drbd_state_rv * node * list effect :=
  let rq := w_request w in
  let sc := n_change n in
  let commits := w_prepared w && negb (is_abort rq) in
  let c := conns n !!! w_conn w in
  let t := if commits then set_masks (tr_target_reachable_nodes (w_reply w)) (tr_reachable_nodes (w_reply w)) (sc_primary_nodes sc) (tr_weak_nodes (w_reply w)) (w_reply w)
           else w_reply w in
  let out1 := if commits then handle_neighbor_demotion c sc t (n_resource n) else [] in
  let '(members, recalc) := if commits then commit_members rq sc t n else (r_members (n_resource n), false) in
  let r := set_members members (n_resource n) in
  let '(x, out2) := match w_peer w, w_affected w with
                    | Some (i, v, j), _ => (change_peer_device_state (e_now e) i v j sc (flags_of rq w false recalc) r, [])
                    | None, Some k => change_connection_state e k sc (Some t) (flags_of rq w true recalc) r
                    | None, None => (far_away_change (e_now e) (w_conn w) rq sc (flags_of rq w false recalc) r, [])
                    end in
  let '(n, out3) := changed x n in
  (ch_rv x, n, out1 ++ out2 ++ out3).

(** ** The answer, or the end *)

Definition process_finish (e : env) (w : run) (rv : drbd_state_rv) (n : node) : node * list effect :=
  let rq := w_request w in
  let i := w_conn w in
  if is_prepare rq then
    if bool_decide (rv = SS_IN_TRANSIENT_STATE)
    then (set_parents (n_parent_nodes n) (Some P_TWOPC_RETRY) n, [drbd_send_twopc_reply P_TWOPC_RETRY (w_reply w) (conns n !!! i)])
    else
      let t := reply n in
      nested_twopc_request (e_sends e) rq (set_reply (set_kind (tr_is_disconnect t) (tr_is_connect t) (negb (rv_ok rv)) t) n)
  else
    let affected := bool_decide (is_Some (w_affected w)) in
    let '(n, out) := nested_twopc_request (e_sends e) rq n in
    let n := __clear_remote_state_change n in
    let ok := rv_ok rv && negb (is_abort rq) in
    let out_md := match w_peer w with Some (_, v, _) => if ok then [SyncMetaData v] else [] | None => [] end in
    let '(r, out_c) := if (c_pro_version (conns n !!! i) <? 117) && ok && affected && to_connect (n_change n)
                       then conn_connect2 (e_sends e (peer_id (conns n !!! i))) i (n_resource n) else (n_resource n, []) in
    (set_resource r n, out ++ out_md ++ out_c).

(** The parts without a break between them; the first result is that of the change here. *)
Definition process_entered (e : env) (prepared : bool) (i : nat) (p : p_twopc_request) (t : twopc_reply) (n : node) : drbd_state_rv * node * list effect :=
  let '(w, n) := process_fields prepared i p t n in
  let w := process_pinged w n in
  let '(rv, n, out1) := process_local e w n in
  let '(n, out2) := process_finish e w rv n in
  (rv, n, out1 ++ out2).

(** What [receive_twopc] fills in. *)
Definition received_reply (rq : twopc_request) (n : node) : twopc_reply :=
  mk_reply (rq_vnr rq) (rq_tid rq) (rq_initiator_node_id rq) (rq_target_node_id rq) 0
    (Z.lor (directly_connected_nodes OLD (conns n)) (my_bit n)) 0 0 false false false false.

Definition receive_twopc (i : nat) (p : p_twopc_request) (n : node) : twopc_reply * entry :=
  let rq := pq_request p in
  let t := received_reply rq n in
  (t, process_enter true i rq t (if is_prepare rq then set_sizes_err false n else n)).

(** ** Answers and lost connections *)

Definition alter_votes (i : nat) (f : conn_more -> conn_more) : node -> node := with_res (alter_conn i (with_c_more f)).

Definition vote_flag (cmd : twopc_answer) (m : conn_more) : conn_more :=
  match cmd with
  | P_TWOPC_YES => with_votes (fun v => set_votes true (TWOPC_NO v) v) m
  | P_TWOPC_NO => with_votes (fun v => set_votes (TWOPC_YES v) true v) m
  | P_TWOPC_RETRY => set_prepared (TWOPC_PREPARED m) true m
  end.

(** What a yes adds to the answer of this node. *)
Definition merge_reply (from : nat) (p : p_twopc_reply) (n : node) : twopc_reply :=
  let t := reply n in
  let target := (Z.of_nat (node_id n) =? tr_initiator_node_id t) && (Z.of_nat from =? tr_target_node_id t) in
  set_masks (if target then Z.lor (tr_target_reachable_nodes t) (pr_reachable_nodes p) else tr_target_reachable_nodes t)
    (if target then tr_reachable_nodes t else Z.lor (tr_reachable_nodes t) (pr_reachable_nodes p))
    (Z.lor (tr_primary_nodes t) (pr_primary_nodes p)) (Z.lor (tr_weak_nodes t) (pr_weak_nodes p)) t.

Definition got_twopc_reply (i : nat) (p : p_twopc_reply) (n : node) : node :=
  if (tr_initiator_node_id (reply n) =? pr_initiator_node_id p) && (tr_tid (reply n) =? pr_tid p)
  then
    let n := if bool_decide (pr_cmd p = P_TWOPC_YES) then set_reply (merge_reply (peer_id (conns n !!! i)) p n) n else n in
    drbd_maybe_cluster_wide_reply (alter_votes i (vote_flag (pr_cmd p)) n)
  else n.

Definition twopc_connection_down (i : nat) (n : node) : node :=
  if negb (tr_initiator_node_id (reply n) =? -1) && prepared (conns n !!! i)
  then drbd_maybe_cluster_wide_reply (alter_votes i (vote_flag P_TWOPC_RETRY) n)
  else n.

(** The initial state of a peer arrived. *)
Definition finish_nested_twopc (i : nat) (n : node) : node :=
  if existsb (fun p => Nat.eqb (p_conn p) i && negb (INITIAL_STATE_RECEIVED (pm_connect (p_more p)))) (all_peers (n_resource n)) then n
  else drbd_maybe_cluster_wide_reply
         (alter_votes i (with_votes (fun v => set_handshake (CONN_HANDSHAKE_DISCONNECT v) (CONN_HANDSHAKE_RETRY v) true v)) n).

(** ** Giving up *)

Definition drbd_abort_twopc (n : node) : node :=
  let t := reply n in
  let initiator := tr_initiator_node_id t in
  if initiator =? -1 then n
  else
    let is_connect := tr_is_connect t && (tr_target_node_id t =? Z.of_nat (node_id n)) in
    let n' := set_parents 0 (n_prepare_reply_cmd n) (with_res (set_twopc false (set_ids (tr_tid t) (-1) t)) n) in
    let n' := match drbd_connection_by_node_id (conns n') initiator with
              | Some i => if is_connect then with_res (abort_connect i) n' else n'
              | None => n'
              end in
    set_state_sem (n_state_sem n' + 1) n'.

Definition twopc_timer_fn (n : node) : node := if TWOPC_WORK_PENDING n then n else drbd_abort_twopc n.

Definition initiator_can_commit_or_abort (i : nat) (n : node) : bool * node :=
  let c := conns n !!! i in
  let remote := negb (tr_initiator_node_id (reply n) =? Z.of_nat (node_id n)) in
  let parents := Z.ldiff (n_parent_nodes n) (NODE_MASK (peer_id c)) in
  if remote && (parents =? 0) then (false, n)
  else
    let n := if remote then set_parents parents (n_prepare_reply_cmd n) n else n in
    (negb (prepared c && negb (said_yes c || said_no c || said_retry c)), n).

(** Of a lost connection; a local transaction is told to give up, and the caller waits for it. *)
Definition cleanup_remote_state_change (i : nat) (n : node) : entry :=
  if negb (remote_state_change n) then Leave n []
  else
    let '(can, n) := initiator_can_commit_or_abort i n in
    if can then Leave n []
    else
      let t := reply n in
      if tr_initiator_node_id t =? Z.of_nat (node_id n) then WaitAbort (set_abort_local true n)
      else
        let rq := mk_request (2 ^ 64 - 1) P_TWOPC_ABORT (tr_tid t) (tr_initiator_node_id t) (tr_target_node_id t) (tr_vnr t) false false in
        let n := __clear_remote_state_change n in
        Leave n (nested_twopc_abort rq n).
End recv.
