(* ===== verification/TwoPhaseChange.v ===== *)
(** * Two phase commit: the node that wants a change ([drbd_state.c])

    [change_cluster_wide_state] is split where it waits: [change_begin], [change_prepare] up to the
    wait for the votes, and [change_decide]. *)
From S2P Require Import Prelude Headers State StateFinish TwoPhase TwoPhaseLocal TwoPhaseRecv.

Inductive change_phase := PH_LOCAL_COMMIT | PH_PREPARE | PH_84_COMMIT | PH_COMMIT.
Inductive outdate_what := OUTDATE_NOTHING | OUTDATE_DISKS | OUTDATE_PEER_DISKS.

#[export] Instance change_phase_eq_dec : EqDecision change_phase.
Proof. solve_decision. Defined.

Record chg_flags := mk_chg {
  cf_engine : cs_flags;
  CS_LOCAL_ONLY : bool;
  CS_SERIALIZE : bool;
  CS_DONT_RETRY : bool;
  CS_CLUSTER_WIDE : bool;
  CS_FP_LOCAL_UP_TO_DATE : bool;
  CS_FP_OUTDATE_PEERS : bool }.

(** [struct change_context]; [cx_outdate] is of [struct change_cstate_context]. *)
Record change_context := mk_cx {
  cx_vnr : Z;
  cx_mask : state_mask;
  cx_val : state_val;
  cx_target_node_id : Z;
  cx_flags : chg_flags;
  cx_change_local_state_last : bool;
  cx_outdate : outdate_what }.

(** The function that makes the change: whether it is one for the cluster, the context that it may
    have completed, and the resource with the new state. *)
Definition change_fn : Type := change_context -> change_phase -> resource -> bool * change_context * resource.

(** How the wait for the votes ended. *)
Inductive wait_result := Woken | TimedOut | Interrupted.

Inductive progress_of_change :=
  | Ended (rv : drbd_state_rv) (n : node) (out : list effect)
  | Blocked (cx : change_context) (n : node)          (* waits until another transaction is over *)
  | AskOldPeer (cx : change_context) (n : node)       (* the peer has a protocol before 110 *)
  | Waiting (cx : change_context) (n : node) (out : list effect)
  | Retry (cx : change_context) (n : node) (out : list effect).

Section change.
Context `{TwopcHeaders}.

Definition local_state_change (f : chg_flags) : bool := CS_HARD (cf_engine f) || CS_LOCAL_ONLY f.

Definition supports_two_phase_commit (r : resource) : bool :=
  forallb (fun c => negb (cstate OLD c =? C_CONNECTED) || (110 <=? c_pro_version c)) (r_conns r).

Definition multiple_primaries_allowed (r : resource) : bool := existsb two_primaries_allowed (r_conns r).

Definition hweight64 (x : Z) : Z := foldr (fun i s => (if Z.testbit x (Z.of_nat i) then 1 else 0) + s) 0 (seq 0 64).

Definition connection_to (r : resource) (id : nat) : option connection :=
  i ← drbd_connection_by_node_id (r_conns r) (Z.of_nat id); r_conns r !! i.

Definition check_primaries_distances (n : node) : drbd_state_rv :=
  let r := n_resource n in
  let t := reply n in
  let common_server := u64 (Z.lnot (tr_weak_nodes t)) in
  if hweight64 (tr_primary_nodes t) <=? 1 then SS_SUCCESS
  else if negb (multiple_primaries_allowed r) then SS_TWO_PRIMARIES
  else if Z.land (tr_primary_nodes t) (tr_weak_nodes t) =? 0 then SS_SUCCESS
  else if negb (common_server =? 0) then
    if in_nodes (tr_primary_nodes t) (node_id n) && drbd_have_local_disk r then SS_WEAKLY_CONNECTED
    else if forallb (fun id => negb (in_nodes common_server id) ||
                               match connection_to r id with Some c => two_primaries_allowed c | None => true end) (seq 0 DRBD_NODE_ID_MAX)
    then SS_SUCCESS else SS_TWO_PRIMARIES
  else SS_WEAKLY_CONNECTED.

Definition check_ro_cnt_and_primary (n : node) : drbd_state_rv :=
  if drbd_open_ro_count (n_resource n) =? 0 then SS_SUCCESS
  else if existsb (fun c => negb (two_primaries_allowed c) && in_nodes (tr_primary_nodes (reply n)) (peer_id c)) (conns n) then SS_PRIMARY_READER
  else SS_SUCCESS.

Definition twopc_phase2 (rq : twopc_request) (reach : Z) (n : node) : list effect :=
  conn_send_twopc_request n rq <$> filter (fun c => in_nodes reach (peer_id c) = true) (conns n).

(** ** Up to the first wait *)

Definition end_change (now : Z) (rv : drbd_state_rv) (r : resource) (n : node) : progress_of_change :=
  let x := ___end_state_change now rv r in
  let '(n, out) := changed x n in Ended (ch_rv x) n out.

(** The change goes on only if it is one for the cluster and valid here. *)
Definition change_begin (now : Z) (change : change_fn) (cx : change_context) (n : node) : progress_of_change :=
  let r := begin_state_change (cf_engine (cx_flags cx)) (n_resource n) in
  if local_state_change (cx_flags cx) then let '(_, _, r) := change cx PH_LOCAL_COMMIT r in end_change now SS_SUCCESS r n
  else
    let '(wide, cx, r) := change cx PH_PREPARE r in
    if negb wide then end_change now SS_SUCCESS r n
    else
      let '(rv, r) := try_state_change r in
      if negb (bool_decide (rv = SS_SUCCESS)) then end_change now rv r n
      else if negb (supports_two_phase_commit r) then AskOldPeer cx (set_resource r n)
      else if negb (CS_SERIALIZE (cx_flags cx) || bool_decide (cx_mask cx = no_mask)) then end_change now SS_CW_FAILED_BY_PEER r n
      else Blocked cx (set_resource r n).

Definition asks (cx : change_context) (state : Z) : bool := (m_conn (cx_mask cx) =? conn_MASK) && (v_conn (cx_val cx) =? state).

(** The answer of the initiator, before those of the others. *)
Definition first_reply (cx : change_context) (tid : Z) (n : node) : twopc_reply :=
  let me := my_bit n in
  let target := node_bit (cx_target_node_id cx) in
  let reachable := Z.lor (directly_connected_nodes OLD (conns n)) me in
  let t := mk_reply 0 tid (Z.of_nat (node_id n)) (cx_target_node_id cx) reachable reachable 0 0 false false false false in
  if asks cx C_CONNECTED then set_kind false true false (set_masks (Z.lor reachable target) (Z.lor reachable target) 0 0 t)
  else if asks cx C_DISCONNECTING then set_kind true false false (set_masks target (Z.ldiff reachable target) 0 0 t)
  else t.

(** [Some None] without a target; [None] when the target cannot be reached. *)
Definition target_connection (cx : change_context) (n : node) : option (option nat) :=
  if cx_target_node_id cx =? -1 then Some None
  else match drbd_connection_by_node_id (conns n) (cx_target_node_id cx) with
       | Some i =>
           let s := cstate OLD (conns n !!! i) in
           if (s =? C_CONNECTED) || ((s =? C_CONNECTING) && asks cx C_CONNECTED) then Some (Some i) else None
       | None => None
       end.

Definition request_of (cx : change_context) (tid : Z) (reach : Z) (cmd : twopc_cmd) (incapable : bool) (n : node) : twopc_request :=
  mk_request (u64 (Z.lnot (Z.lor reach (my_bit n)))) cmd tid (Z.of_nat (node_id n)) (cx_target_node_id cx) (cx_vnr cx) true incapable.

(** ** The decision *)

(** The primaries that the votes tell of, and the nodes that are far from one. *)
Definition count_myself (cx : change_context) (reach : Z) (n : node) : twopc_reply :=
  let t := reply n in
  let r := n_resource n in
  let directly := Z.lor reach (my_bit n) in
  let directly := if asks cx C_DISCONNECTING then Z.ldiff directly (node_bit (cx_target_node_id cx)) else directly in
  if ((m_role (cx_mask cx) =? role_MASK) && is_primary (v_role (cx_val cx))) || (negb (m_role (cx_mask cx) =? role_MASK) && is_primary (role OLD r))
  then set_masks (tr_target_reachable_nodes t) (tr_reachable_nodes t) (Z.lor (tr_primary_nodes t) (my_bit n))
         (if drbd_res_data_accessible r then Z.lor (tr_weak_nodes t) (u64 (Z.lnot directly)) else tr_weak_nodes t) t
  else t.

(** All voted yes; the node has the last word. *)
Definition change_agreed (cx : change_context) (reach : Z) (n : node) : drbd_state_rv * bool * node :=
  let t := count_myself cx reach n in
  let n := set_reply t n in
  let incapable := negb (tr_primary_nodes t =? 0) && (tr_weak_nodes t =? 0) in
  let rv := if ((m_role (cx_mask cx) =? role_MASK) && is_primary (v_role (cx_val cx))) || asks cx C_CONNECTED
            then check_primaries_distances n else SS_CW_SUCCESS in
  let rv := if rv_ok rv && asks cx C_CONNECTED then check_ro_cnt_and_primary n else rv in
  let together := Z.lor (tr_reachable_nodes t) (tr_target_reachable_nodes t) in
  let t := if negb (asks cx C_DISCONNECTING) || negb (Z.land (tr_reachable_nodes t) (tr_target_reachable_nodes t) =? 0)
           then set_masks together together (tr_primary_nodes t) (tr_weak_nodes t) t else t in
  let n := set_reply t n in
  let sc := n_change n in
  (rv, incapable, set_change (mk_tsc (sc_mask sc) (sc_val sc) (tr_primary_nodes t) (tr_target_reachable_nodes t)) n).

Definition reach_of_change (cx : change_context) (target : option nat) (n : node) : Z :=
  let reach := directly_connected_nodes OLD (conns n) in
  match target with
  | Some i => if cstate OLD (conns n !!! i) =? C_CONNECTING then Z.lor reach (node_bit (cx_target_node_id cx)) else reach
  | None => reach
  end.

(** [context->flags | CS_TWOPC] *)
Definition twopc_flags (cx : change_context) : cs_flags :=
  let f := cf_engine (cx_flags cx) in
  mk_flags (CS_HARD f) (CS_PREPARE f) (CS_ABORT f) true (CS_IGN_OUTD_FAIL f) (CS_FS_IGN_OPENERS f) (CS_FORCE_RECALC f).

(** The change starts anew. *)
Definition end_remote_state_change (cx : change_context) (r : resource) : resource := ___begin_state_change (with_flags (twopc_flags cx) r).

(** The local part of the end: commit or drop. *)
Definition change_local (now : Z) (change : change_fn) (cx : change_context) (rv : drbd_state_rv) (n : node) : drbd_state_rv * node * list effect :=
  let r := end_remote_state_change cx (n_resource n) in
  if rv_ok rv
  then let '(_, _, r) := change cx PH_COMMIT r in
       let x := end_state_change now r in
       let '(n, out) := changed x n in (ch_rv x, n, out)
  else let '(n, out) := changed (abort_state_change now r) n in (rv, n, out).

(** The decision: commit if the result is not an error.  Without peers [rv] is the result so far. *)
Definition decision (cx : change_context) (target : option nat) (have_peers : bool) (rv : drbd_state_rv) (n : node) : drbd_state_rv * bool * node :=
  let '(rv, incapable, n) := if have_peers && bool_decide (rv = SS_CW_SUCCESS) then change_agreed cx (reach_of_change cx target n) n else (rv, false, n) in
  let rv := if have_peers && asks cx C_CONNECTED && match target with Some i => 118 <=? c_pro_version (conns n !!! i) | None => false end &&
               rv_ok rv && TWOPC_RECV_SIZES_ERR n then SS_HANDSHAKE_DISCONNECT else rv in
  (rv, incapable, n).

Definition change_decide (now : Z) (change : change_fn) (cx : change_context) (target : option nat) (have_peers : bool) (rv : drbd_state_rv) (n : node) : progress_of_change :=
  let reach := reach_of_change cx target n in
  let '(rv, incapable, n) := decision cx target have_peers rv n in
  let rq := request_of cx (tr_tid (reply n)) reach (if rv_ok rv then P_TWOPC_COMMIT else P_TWOPC_ABORT) incapable n in
  let n := match target with Some i => if rv_ok rv then n else with_res (abort_connect i) n | None => n end in
  let phase2 := if have_peers then twopc_phase2 rq reach n else [] in
  if (bool_decide (rv = SS_TIMEOUT) || bool_decide (rv = SS_CONCURRENT_ST_CHG)) && negb (CS_DONT_RETRY (cx_flags cx))
  then Retry cx (with_res (end_remote_state_change cx) (__clear_remote_state_change n)) phase2
  else
    let '(rv, n, out) := change_local now change cx rv n in
    Ended rv n (if cx_change_local_state_last cx then phase2 ++ out else out ++ phase2).

(** ** Asking the others *)

Definition change_prepare (now : Z) (sends : nat -> bool) (worker : bool) (tid : Z) (change : change_fn) (cx : change_context) (n : node) : progress_of_change :=
  if remote_state_change n then if worker then end_change now SS_CONCURRENT_ST_CHG (n_resource n) n else Blocked cx n
  else
    match target_connection cx n with
    | None => end_change now SS_NEED_CONNECTION (n_resource n) n
    | Some target =>
        let reach := directly_connected_nodes OLD (conns n) in
        let reach := if cx_target_node_id cx =? -1 then reach else Z.lor reach (node_bit (cx_target_node_id cx)) in
        let n := set_sizes_err false n in
        let n := set_change (mk_tsc (cx_mask cx) (cx_val cx) 0 0) n in
        let n := set_parents 0 (n_prepare_reply_cmd n) n in
        let t := first_reply cx tid n in
        let n := with_res (set_twopc true t) n in
        let n := match target with Some i => if asks cx C_CONNECTED then with_res (drbd_init_connect_state i) n else n | None => n end in
        let '(rv, n, out) := __cluster_wide_request sends (request_of cx tid reach P_TWOPC_PREPARE false n) reach n in
        let lost := match target with Some i => negb (prepared (conns n !!! i)) | None => false end in
        let rv := if lost then SS_NEED_CONNECTION else rv in
        if bool_decide (rv = SS_CW_SUCCESS)
        then
          match target with
          | Some i =>
              if asks cx C_CONNECTED && (118 <=? c_pro_version (conns n !!! i))
              then let '(r, out') := conn_connect2 (sends (peer_id (conns n !!! i))) i (n_resource n) in Waiting cx (set_resource r n) (out ++ out')
              else Waiting cx n out
          | None => Waiting cx n out
          end
        else
          match change_decide now change cx target false rv n with
          | Ended rv n out' => Ended rv n (out ++ out')
          | Retry cx n out' => Retry cx n (out ++ out')
          | x => x
          end
    end.

(** The wait is over. *)
Definition target_of (cx : change_context) (n : node) : option nat :=
  if cx_target_node_id cx =? -1 then None else drbd_connection_by_node_id (conns n) (cx_target_node_id cx).
Definition votes_of (w : wait_result) (n : node) : drbd_state_rv :=
  match w with Woken => get_cluster_wide_reply n | TimedOut => SS_TIMEOUT | Interrupted => SS_INTERRUPTED end.

Definition change_voted (now : Z) (change : change_fn) (cx : change_context) (w : wait_result) (n : node) : progress_of_change :=
  change_decide now change cx (target_of cx n) true (votes_of w n) n.

(** ** The changes *)

Definition set_role (x : drbd_role) : resource -> resource :=
  with_new (fun s => mk_rs x (rs_susp_user s) (rs_susp_nod s) (rs_susp_quorum s) (rs_susp_uuid s) (rs_fail_io s)).

(** Whether the change is for the cluster: only asked in the prepare phase. *)
Definition unless_prepare (phase : change_phase) (b : bool) : bool := negb (bool_decide (phase = PH_PREPARE)) || b.

Definition has_up_to_date_peer_disks (d : device) : bool := existsb (fun p => peer_disk_state NEW p =? D_UP_TO_DATE) (d_peers d).

Definition disconnect_where_resync_target (v : nat) (r : resource) : resource :=
  match r_devs r !! v with
  | Some d => foldl (fun r j =>
      match r_devs r !! v ≫= (fun d => d_peers d !! j) with
      | Some p => if repl_is_sync_target (repl_state NEW p) then __change_cstate (p_conn p) C_TEAR_DOWN r else r
      | None => r
      end) r (seq 0 (length (d_peers d)))
  | None => r
  end.

Definition outdate_unknown (f : peer_device -> bool) (d : device) : device :=
  set_peers (map (fun p => if (peer_disk_state NEW p =? D_UNKNOWN) && f p then set_peer_disk D_OUTDATED p else p) (d_peers d)) d.

Definition set_cx (m : state_mask) (x : state_val) (cx : change_context) : change_context :=
  mk_cx (cx_vnr cx) m x (cx_target_node_id cx) (cx_flags cx) (cx_change_local_state_last cx) (cx_outdate cx).
Definition set_mask_disk (disk pdsk : Z) (m : state_mask) : state_mask :=
  mk_mask (m_role m) (m_peer m) (m_conn m) disk pdsk (m_susp m) (m_susp_nod m) (m_susp_fen m) (m_user_isp m) (m_peer_isp m) (m_aftr_isp m).
Definition set_val_disk (disk pdsk : Z) (x : state_val) : state_val :=
  mk_val (v_role x) (v_peer x) (v_conn x) disk pdsk (v_susp x) (v_susp_nod x) (v_susp_fen x) (v_user_isp x) (v_peer_isp x) (v_aftr_isp x).

Definition do_change_role_dev (phase : change_phase) (acc : change_context * resource) (v : nat) : change_context * resource :=
  let '(cx, r) := acc in
  match r_devs r !! v with
  | None => acc
  | Some d =>
      let promote := is_primary (v_role (cx_val cx)) in
      let '(cx, r) :=
        if promote && CS_FP_LOCAL_UP_TO_DATE (cx_flags cx) && (disk_state NEW d <? D_UP_TO_DATE) && (D_INCONSISTENT <=? disk_state NEW d) &&
           negb (has_up_to_date_peer_disks d)
        then (set_cx (set_mask_disk (Z.lor (m_disk (cx_mask cx)) D_MASK) (m_pdsk (cx_mask cx)) (cx_mask cx))
                (set_val_disk (Z.lor (v_disk (cx_val cx)) D_UP_TO_DATE) (v_pdsk (cx_val cx)) (cx_val cx)) cx,
              disconnect_where_resync_target v (alter_dev v (set_disk D_UP_TO_DATE) r))
        else (cx, r) in
      let r := when (promote && CS_FP_OUTDATE_PEERS (cx_flags cx)) (alter_dev v (outdate_unknown (fun _ => true))) r in
      let reachable := tr_reachable_nodes (rm_twopc_reply (r_more r)) in
      let r := when (promote && bool_decide (phase = PH_COMMIT)) (alter_dev v (outdate_unknown (fun p => in_nodes reachable (p_node_id p) && p_bitmap p))) r in
      (cx, r)
  end.

Definition do_change_role : change_fn := fun cx phase r =>
  let '(cx, r) := foldl (do_change_role_dev phase) (cx, set_role (v_role (cx_val cx)) r) (seq 0 (length (r_devs r))) in
  (unless_prepare phase (negb (bool_decide (role OLD r = v_role (cx_val cx)))), cx, r).

Definition do_twopc_after_lost_peer : change_fn := fun cx phase r =>
  let t := rm_twopc_reply (r_more r) in
  let pri_incapable := negb (tr_primary_nodes t =? 0) && (tr_weak_nodes t =? 0) in
  let r' := if bool_decide (phase = PH_COMMIT) && negb (Z.ldiff (tr_primary_nodes t) (all_reached NEW r) =? 0) && negb pri_incapable
            then __outdate_myself r
            else set_devs (map (fun d => if (disk_state OLD d =? D_CONSISTENT) && may_return_to_up_to_date (r_conns r) OLD d
                                         then set_disk D_UP_TO_DATE d else d) (r_devs r)) r in
  (unless_prepare phase (negb (tr_reachable_nodes t =? NODE_MASK (r_node_id r))), cx, r').

(** The UUIDs of the peers are to be received anew; whether one of them has a disk. *)
Definition device_has_peer_devices_with_disk (conns : list connection) (d : device) : bool * device :=
  let connected p := cstate OLD (conn_of conns p) =? C_CONNECTED in
  (existsb (fun p => connected p && (D_DISKLESS <? peer_disk_state OLD p)) (d_peers d),
   set_peers (map (fun p => if connected p then set_uuid_flags false (HOLDING_UUID_READ_LOCK p) (PEER_QUORATE p) p else p) (d_peers d)) d).

Definition restore_outdated_in_pdsk (conns : list connection) (d : device) : device :=
  if has_ldev D_ATTACHING d
  then set_peers (map (fun p =>
         match d_md d !! peer_id (conn_of conns p) with
         | Some md => if MD_PEER_OUTDATED md && (peer_disk_state NEW p =? D_UNKNOWN) then set_peer_disk D_OUTDATED p else p
         | None => p
         end) (d_peers d)) d
  else d.

Definition do_change_disk_state (v : nat) : change_fn := fun cx phase r =>
  match r_devs r !! v with
  | None => (false, cx, r)
  | Some d =>
      let '(wide, cx, d) :=
        if (disk_state OLD d =? D_ATTACHING) && (v_disk (cx_val cx) =? D_NEGOTIATING)
        then let '(with_disk, d) := device_has_peer_devices_with_disk (r_conns r) d in
             if with_disk then (supports_two_phase_commit r, cx, d)
             else (false, set_cx (cx_mask cx) (set_val_disk (disk_state_from_md (r_conns r) (r_node_id r) d) (v_pdsk (cx_val cx)) (cx_val cx)) cx, restore_outdated_in_pdsk (r_conns r) d)
        else (negb (disk_state OLD d =? D_DETACHING) && (v_disk (cx_val cx) =? D_DETACHING) &&
              existsb (fun p => L_ESTABLISHED <=? repl_state OLD p) (d_peers d), cx, d) in
      (unless_prepare phase wide, cx, alter_dev v (fun _ => set_disk (v_disk (cx_val cx)) d) r)
  end.

Definition fences (c : connection) : bool := match c_fencing c with FP_DONT_CARE => false | FP_RESOURCE | FP_STONITH => true end.

Definition outdate_on_disconnect (r : resource) (c : connection) : outdate_what :=
  if (cstate OLD c =? C_CONNECTED) && (fences c || negb (bool_decide (opt_quorum r = QOU_OFF))) && negb (bool_decide (role OLD r = peer_role OLD c))
  then if is_primary (role OLD r) then OUTDATE_PEER_DISKS else if is_primary (peer_role OLD c) then OUTDATE_DISKS else OUTDATE_NOTHING
  else OUTDATE_NOTHING.

Definition __change_cstate_and_outdate (i : nat) (x : Z) (o : outdate_what) (r : resource) : resource :=
  let r := __change_cstate i x r in
  match o with
  | OUTDATE_DISKS => __downgrade_disk_states D_OUTDATED r
  | OUTDATE_PEER_DISKS => __downgrade_peer_disk_states i D_OUTDATED r
  | OUTDATE_NOTHING => r
  end.

(** The disks that a disconnect outdates are part of the request. *)
Definition plan_outdate (r : resource) (c : connection) (cx : change_context) : change_context :=
  let o := if (v_conn (cx_val cx) =? C_DISCONNECTING) && negb (CS_HARD (cf_engine (cx_flags cx))) then outdate_on_disconnect r c else OUTDATE_NOTHING in
  let m := cx_mask cx in let x := cx_val cx in
  let '(m, x) := match o with
                 | OUTDATE_DISKS => (set_mask_disk D_MASK (m_pdsk m) m, set_val_disk D_OUTDATED (v_pdsk x) x)
                 | OUTDATE_PEER_DISKS => (set_mask_disk (m_disk m) D_MASK m, set_val_disk (v_disk x) D_OUTDATED x)
                 | OUTDATE_NOTHING => (m, x)
                 end in
  mk_cx (cx_vnr cx) m x (cx_target_node_id cx) (cx_flags cx) (cx_change_local_state_last cx) o.

Definition do_change_cstate (i : nat) : change_fn := fun cx phase r =>
  let c := r_conns r !!! i in
  let t := rm_twopc_reply (r_more r) in
  let cx := if bool_decide (phase = PH_PREPARE) then plan_outdate r c cx else cx in
  let x := v_conn (cx_val cx) in
  let r := when (negb (x =? C_CONNECTED) || (cstate NEW c =? C_CONNECTING)) (__change_cstate_and_outdate i x (cx_outdate cx)) r in
  let r := when ((x =? C_CONNECTED) && (117 <=? c_pro_version c)) (apply_connect i (bool_decide (phase = PH_COMMIT))) r in
  let r := when (bool_decide (phase = PH_COMMIT) && negb (Z.ldiff (tr_primary_nodes t) (all_reached NEW r) =? 0)) __outdate_myself r in
  let r := when ((x =? C_CONNECTED) && bool_decide (peer_role OLD c = R_UNKNOWN))
             (__change_peer_role i (if negb (Z.land (tr_primary_nodes t) (node_bit (cx_target_node_id cx)) =? 0) then R_PRIMARY else R_SECONDARY)) r in
  (unless_prepare phase ((x =? C_CONNECTED) || ((x =? C_DISCONNECTING) && (cstate OLD c =? C_CONNECTED))), cx, r).

Definition do_change_repl_state (i v j : nat) : change_fn := fun cx phase r =>
  match r_devs r !! v ≫= (fun d => d_peers d !! j) with
  | None => (false, cx, r)
  | Some p =>
      let now := repl_state OLD p in
      let new := v_conn (cx_val cx) in
      (unless_prepare phase
         (((L_ESTABLISHED <=? now) && ((new =? L_STARTING_SYNC_S) || (new =? L_STARTING_SYNC_T))) ||
          ((now =? L_ESTABLISHED) && ((new =? L_VERIFY_S) || (new =? L_OFF))) ||
          ((now =? L_ESTABLISHED) && CS_CLUSTER_WIDE (cx_flags cx) && ((new =? L_WF_BITMAP_S) || (new =? L_WF_BITMAP_T)))),
       cx, __change_repl_state i v j new r)
  end.

(** The contexts in which they are called. *)
Definition set_serialize (f : chg_flags) : chg_flags :=
  mk_chg (cf_engine f) (CS_LOCAL_ONLY f) true (CS_DONT_RETRY f) (CS_CLUSTER_WIDE f) (CS_FP_LOCAL_UP_TO_DATE f) (CS_FP_OUTDATE_PEERS f).

Definition change_role_context (x : drbd_role) (f : chg_flags) : change_context :=
  mk_cx (-1) (mk_mask role_MASK 0 0 0 0 false false false false false false) (mk_val x R_UNKNOWN 0 0 0 false false false false false false)
    (-1) (set_serialize f) (is_secondary x) OUTDATE_NOTHING.

Definition twopc_after_lost_peer_context (r : resource) (f : chg_flags) : change_context :=
  let e := cf_engine f in
  let e := mk_flags (CS_HARD e) (CS_PREPARE e) (CS_ABORT e) (CS_TWOPC e) (CS_IGN_OUTD_FAIL e) (CS_FS_IGN_OPENERS e)
             (CS_FORCE_RECALC e || negb (bool_decide (opt_quorum r = QOU_OFF))) in
  mk_cx (-1) no_mask no_val (-1) (mk_chg e (CS_LOCAL_ONLY f) (CS_SERIALIZE f) (CS_DONT_RETRY f) (CS_CLUSTER_WIDE f) (CS_FP_LOCAL_UP_TO_DATE f) (CS_FP_OUTDATE_PEERS f))
    false OUTDATE_NOTHING.

Definition change_disk_state_context (vnr : Z) (x : Z) (f : chg_flags) : change_context :=
  mk_cx vnr (mk_mask 0 0 0 D_MASK 0 false false false false false false) (mk_val R_UNKNOWN R_UNKNOWN 0 x 0 false false false false false false) (-1) f true OUTDATE_NOTHING.

Definition change_cstate_context (r : resource) (c : connection) (x : Z) (f : chg_flags) : change_context :=
  let connect := x =? C_CONNECTED in
  mk_cx (-1) (mk_mask (if connect then role_MASK else 0) 0 conn_MASK 0 0 false false false false false false)
    (mk_val (if connect then role OLD r else R_UNKNOWN) R_UNKNOWN x 0 0 false false false false false false)
    (Z.of_nat (peer_id c)) (if CS_HARD (cf_engine f) then f else set_serialize f) true OUTDATE_NOTHING.

Definition change_repl_context (vnr : Z) (peer : nat) (x : Z) (f : chg_flags) : change_context :=
  mk_cx vnr (mk_mask 0 0 conn_MASK 0 0 false false false false false false) (mk_val R_UNKNOWN R_UNKNOWN x 0 0 false false false false false false)
    (Z.of_nat peer) f ((x =? L_WF_BITMAP_S) || (x =? L_VERIFY_S)) OUTDATE_NOTHING.
End change.
