(* ===== verification/TwoPhaseProps.v ===== *)
(** * Two phase commit: what state changes leave alone

    A state change keeps the node ids and the transaction; only its end clears the latter. *)
From S2P Require Import Prelude Headers State StateFinish TwoPhase TwoPhaseLocal TwoPhaseRecv TwoPhaseChange.

(** ** The part of a resource that belongs to the transaction *)

Definition ids (l : list connection) : list nat := peer_id <$> l.

Record same_net (r r' : resource) : Prop := {
  sn_id : r_node_id r' = r_node_id r;
  sn_flags : r_flags r' = r_flags r;
  sn_ids : ids (r_conns r') = ids (r_conns r);
  sn_reply : rm_twopc_reply (r_more r') = rm_twopc_reply (r_more r);
  sn_remote : rm_remote_state_change (r_more r') = rm_remote_state_change (r_more r) }.

#[export] Instance same_net_preorder : PreOrder same_net.
Proof. split; [done|]. intros r1 r2 r3 [? ? ? ? ?] [? ? ? ? ?]. split; congruence. Qed.

Create HintDb net.

(** ** Lists of connections *)

Lemma ids_map f l : (forall c, peer_id (f c) = peer_id c) -> ids (map f l) = ids l.
Proof. intros Hf. induction l as [|c l IH]; [done|]. change (peer_id (f c) :: ids (map f l) = peer_id c :: ids l). by rewrite Hf, IH. Qed.

Lemma ids_alter f i l : (forall c, peer_id (f c) = peer_id c) -> ids (alter f i l) = ids l.
Proof.
  intros Hf. unfold ids. apply list_eq. intros k. rewrite !list_lookup_fmap. destruct (decide (k = i)) as [->|Hne].
  - rewrite list_lookup_alter_eq. destruct (l !! i) as [c|]; [|done]. change (Some (peer_id (f c)) = Some (peer_id c)). by rewrite Hf.
  - by rewrite list_lookup_alter_ne.
Qed.

Lemma ids_foldl {A} (f : list connection -> A -> list connection) xs l :
  (forall l x, ids (f l x) = ids l) -> ids (foldl f l xs) = ids l.
Proof. intros Hf. revert l. induction xs as [|x xs IH]; intros l; cbn; [done|]. by rewrite IH, Hf. Qed.

Lemma with_c_more_id f c : (forall m, cm_peer_node_id (f m) = cm_peer_node_id m) -> peer_id (with_c_more f c) = peer_id c.
Proof. intros Hf. apply Hf. Qed.

Lemma upd_conn_id f c : peer_id (upd_conn f c) = peer_id c.
Proof. done. Qed.

#[export] Hint Resolve upd_conn_id : net.

(** ** Resources built from parts *)

Lemma upd_res_net s l devs r : ids l = ids (r_conns r) -> same_net r (upd_res s l devs r).
Proof. by split. Qed.

Lemma with_r_net l devs members m r : ids l = ids (r_conns r) -> rm_twopc_reply m = rm_twopc_reply (r_more r) ->
  rm_remote_state_change m = rm_remote_state_change (r_more r) -> same_net r (with_r l devs members m r).
Proof. by split. Qed.

Lemma set_devs_net l r : same_net r (set_devs l r).
Proof. by split. Qed.

Lemma set_members_net x r : same_net r (set_members x r).
Proof. by split. Qed.

Lemma alter_conn_net i f r : (forall c, peer_id (f c) = peer_id c) -> same_net r (alter_conn i f r).
Proof. intros Hf. split; try done. by apply ids_alter. Qed.

#[export] Hint Resolve set_devs_net set_members_net : net.

Section net.
Context `{TwopcHeaders}.

(** ** The engine *)

Lemma begin_net r : same_net r (___begin_state_change r).
Proof. apply upd_res_net. by apply ids_map. Qed.

Lemma begin_state_change_net f r : same_net (with_flags f r) (begin_state_change f r).
Proof. apply begin_net. Qed.

Lemma suspend_fencing_ids ro_old ro_new l p : ids (suspend_fencing ro_old ro_new l p) = ids l.
Proof. unfold suspend_fencing. case_match; [|done]. by apply ids_alter. Qed.

Lemma sanitize_devices_ids r crashed a l : ids (a_conns (fst (sanitize_devices r crashed a l))) = ids (a_conns a).
Proof.
  revert a. induction l as [|d l IH]; intros a; [done|]. cbn [sanitize_devices].
  destruct (sanitize_device r crashed a d) as [a' d'] eqn:Hd. specialize (IH a'). destruct (sanitize_devices r crashed a' l) as [a2 l2].
  cbn in *. rewrite IH. unfold sanitize_device in Hd. injection Hd as <- _. cbn. apply ids_foldl. intros. apply suspend_fencing_ids.
Qed.

Lemma sanitize_state_net r : same_net r (sanitize_state r).
Proof.
  unfold sanitize_state. cbv zeta. pose proof (fun b => sanitize_devices_ids r b (mk_acc (map sanitize_connection (r_conns r)) true false true) (r_devs r)) as Hs.
  match goal with |- context [sanitize_devices r ?b _ _] => specialize (Hs b) end.
  destruct (sanitize_devices _ _ _ _) as [a devs]. apply upd_res_net. cbn in Hs. rewrite Hs. apply ids_map.
  intros c. unfold sanitize_connection. by case_match.
Qed.

Lemma try_state_change_net r : same_net r (snd (try_state_change r)).
Proof. unfold try_state_change. case_match; [done|]. cbn. apply sanitize_state_net. Qed.

Lemma flush_ids r : ids (fst (drbd_determine_flush_pending r)) = ids (r_conns r).
Proof.
  assert (forall c, peer_id (clear_flush r c) = peer_id c) as H1 by (intros c; unfold clear_flush; by case_match).
  assert (forall c, peer_id (expect_flush r c) = peer_id c) as H2 by (intros c; unfold expect_flush; by repeat case_match).
  unfold drbd_determine_flush_pending. cbn. case_match; by rewrite ?(ids_map _ _ H2), (ids_map _ _ H1).
Qed.

Lemma finish_begin_net r : same_net r (fst (finish_begin r)).
Proof.
  unfold finish_begin. cbv zeta. set (l := foldl _ (r_conns r) _).
  assert (ids l = ids (r_conns r)) as Hl by (apply ids_foldl; intros; by apply ids_alter).
  assert (let m := fst (if start_new_epoch r then start_new_tl_epoch (r_more r) else (r_more r, [])) in
    rm_twopc_reply m = rm_twopc_reply (r_more r) /\ rm_remote_state_change m = rm_remote_state_change (r_more r)) as Hm1.
  { unfold start_new_tl_epoch. by repeat case_match. }
  destruct (if start_new_epoch r then _ else _) as [m1 a1]. cbn in Hm1. destruct Hm1 as [E1 E2].
  assert (let m := fst (finish_peer_ack r m1) in rm_twopc_reply m = rm_twopc_reply (r_more r) /\ rm_remote_state_change m = rm_remote_state_change (r_more r)) as Hm2.
  { unfold finish_peer_ack. by repeat case_match. }
  destruct (finish_peer_ack r m1) as [m2 a2]. cbn in Hm2. destruct Hm2 as [E3 E4].
  pose proof (flush_ids (with_r l (map (first_loop_device r) (r_devs r)) (r_members r) m2 r)) as Hf.
  destruct (drbd_determine_flush_pending _) as [l' flush]. cbn [fst r_conns with_r] in Hf |- *. apply with_r_net; [exact (eq_trans Hf Hl)|..]; unfold next_flush; by case_match.
Qed.

Lemma finish_devices_net now r : same_net r (fst (finish_devices now r)).
Proof.
  unfold finish_devices. cbv zeta. cbn [fst]. apply with_r_net; [|by case_match..].
  apply ids_foldl. intros l p. case_match; [|done]. by apply ids_alter.
Qed.

Lemma finish_state_change_net now r : same_net r (fst (finish_state_change now r)).
Proof.
  unfold finish_state_change. cbv zeta. pose proof (finish_begin_net r) as H1. destruct (finish_begin r) as [r1 a1].
  pose proof (finish_devices_net now r1) as H2. destruct (finish_devices now r1) as [r2 a2]. cbn in *. etransitivity; [exact H1|]. etransitivity; [exact H2|].
  match goal with |- same_net _ (if _ then with_r ?l _ _ _ _ else _) => assert (ids (map (finish_conn now r2) (r_conns r2)) = ids (r_conns r2)) as Hl by by apply ids_map end.
  case_match; by split.
Qed.

Lemma commit_net now r : same_net r (fst (fst (commit_state_change now r))).
Proof.
  unfold commit_state_change. destruct (update_members r) as [members a1]. set (r1 := with_r _ _ members _ r).
  pose proof (finish_state_change_net now r1) as H1. destruct (finish_state_change now r1) as [r2 a2]. cbn in *.
  destruct H1 as [E1 Ef E2 E3 E4]. split; [done|done| |done|done]. etransitivity; [|exact E2]. by apply (ids_map apply_conn).
Qed.

(** The end of a change keeps the transaction; with [CS_PREPARE] it makes no calls. *)
Lemma end_net now rv r : let x := ___end_state_change now rv r in
  same_net r (ch_resource x) /\ (CS_PREPARE (r_flags r) = true -> ch_actions x = [] /\ ch_cached x = None).
Proof.
  unfold ___end_state_change. cbv zeta. destruct (CS_ABORT (r_flags r)); [split; [done|]; intros ->; cbn; by rewrite andb_false_r|].
  pose proof (try_state_change_net r) as Ht.
  assert (exists rv' r', (if rv_ok rv then try_state_change r else (rv, r)) = (rv', r') /\ same_net r r') as (rv' & r' & -> & Hr).
  { destruct (rv_ok rv); [|by exists rv, r]. destruct (try_state_change r) as [rv' r']. by exists rv', r'. }
  destruct (negb (rv_ok rv')); [split; [done|]; intros ->; cbn; by rewrite andb_false_r|].
  destruct (CS_PREPARE (r_flags r)) eqn:Hp; [split; [done|]; intros _; cbn; by rewrite andb_false_r|].
  pose proof (commit_net now r') as Hc. destruct (commit_state_change now r') as [[r2 acts] k]. cbn in *. split; [by etransitivity|done].
Qed.

(** ** Changes of single values *)

Definition keeps (f : resource -> resource) : Prop := forall r, same_net r (f r).

Lemma keeps_when b f : keeps f -> keeps (when b f).
Proof. intros Hf r. unfold when. case_match; [apply Hf|done]. Qed.

Lemma net_keeps_trans f r r' : keeps f -> same_net r r' -> same_net r (f r').
Proof. intros Hf Hr. etransitivity; [exact Hr|apply Hf]. Qed.

Lemma keeps_foldl {A} (f : resource -> A -> resource) xs r : (forall x, keeps (fun r => f r x)) -> same_net r (foldl f r xs).
Proof. intros Hf. revert r. induction xs as [|x xs IH]; intros r; cbn; [done|]. etransitivity; [apply (Hf x)|apply IH]. Qed.

Lemma keeps_with_new f : keeps (with_new f).
Proof. intros r. by apply upd_res_net. Qed.

Lemma keeps_alter_conn i f : (forall c, peer_id (f c) = peer_id c) -> keeps (alter_conn i f).
Proof. intros Hf r. by apply alter_conn_net. Qed.

Lemma keeps_alter_dev v f : keeps (alter_dev v f).
Proof. intros r. apply set_devs_net. Qed.

Lemma keeps_alter_peer v j f : keeps (alter_peer v j f).
Proof. apply keeps_alter_dev. Qed.

Lemma keeps_alter_peers_of i f : keeps (alter_peers_of i f).
Proof. intros r. apply set_devs_net. Qed.

Lemma keeps_change_repl i v j x : keeps (__change_repl_state i v j x).
Proof.
  intros r. unfold __change_repl_state. cbv zeta. case_match; [|apply keeps_alter_peer].
  apply net_keeps_trans; [by apply keeps_alter_conn|apply keeps_alter_peer].
Qed.

Lemma keeps_change_cstate i x : keeps (__change_cstate i x).
Proof.
  intros r. unfold __change_cstate. cbv zeta. set (r1 := if x =? C_DISCONNECTING then _ else r).
  assert (same_net r r1) as H1 by (unfold r1; case_match; [by apply keeps_alter_conn|done]). clearbody r1.
  assert (same_net r (alter_conn i (set_cstate x) r1)) as H2 by (etransitivity; [exact H1|by apply keeps_alter_conn]).
  case_match; [|done]. etransitivity; [exact H2|apply keeps_alter_peers_of].
Qed.
End net.

#[export] Hint Resolve keeps_when keeps_with_new keeps_alter_dev keeps_alter_peer keeps_alter_peers_of keeps_change_repl keeps_change_cstate begin_state_change_net : net.
#[export] Hint Extern 1 (keeps (alter_conn _ _)) => apply keeps_alter_conn; done : net.
#[export] Hint Extern 1 (keeps (__change_io_susp_user _)) => apply keeps_with_new : net.
#[export] Hint Extern 1 (keeps (__change_io_susp_no_data _)) => apply keeps_with_new : net.
#[export] Hint Extern 1 (keeps (__change_io_susp_fencing _ _)) => apply keeps_alter_conn; done : net.
#[export] Hint Extern 1 (keeps (__change_peer_role _ _)) => apply keeps_alter_conn; done : net.
#[export] Hint Extern 1 (keeps (__change_disk_state _ _)) => apply keeps_alter_dev : net.
#[export] Hint Extern 1 (keeps (__change_peer_disk_state _ _ _)) => apply keeps_alter_peer : net.
#[export] Hint Extern 1 (keeps (__change_resync_susp_user _ _ _)) => apply keeps_alter_peer : net.
#[export] Hint Extern 1 (keeps (__change_resync_susp_peer _ _ _)) => apply keeps_alter_peer : net.
#[export] Hint Extern 1 (keeps (__change_resync_susp_dependency _ _ _)) => apply keeps_alter_peer : net.
#[export] Hint Extern 1 (keeps (__downgrade_peer_disk_states _ _)) => apply keeps_alter_peers_of : net.
#[export] Hint Extern 1 (keeps (__downgrade_disk_states _)) => intros ?; apply set_devs_net : net.
#[export] Hint Extern 1 (keeps __outdate_myself) => intros ?; apply set_devs_net : net.
#[export] Hint Extern 1 (keeps (abort_connect _)) => apply keeps_alter_peers_of : net.

(** A chain of changes that each keep the transaction. *)
Ltac net_chain := repeat (apply net_keeps_trans; [solve [auto with net]|]); try solve [auto with net | done].

Section local.
Context `{TwopcHeaders}.

Lemma change_connection_net i m x r : same_net r (snd (__change_connection_state i m x r)).
Proof. unfold __change_connection_state. cbn [snd]. net_chain. Qed.

Lemma change_peer_device_net i v j m x r : same_net r (snd (__change_peer_device_state i v j m x r)).
Proof. unfold __change_peer_device_state. cbn [snd]. net_chain. Qed.

Lemma change_peer_devices_net b i m x vs r : same_net r (snd (change_peer_devices b i m x vs r)).
Proof.
  revert r. induction vs as [|v vs IH]; intros r; cbn [change_peer_devices]; [done|].
  destruct (r_devs r !! v) as [d|]; [|apply IH]. destruct (peer_of i d) as [j|]; [|apply IH].
  match goal with |- context [__change_peer_device_state i v j ?l x r] => pose proof (change_peer_device_net i v j l x r) as Hp; destruct (__change_peer_device_state i v j l x r) as [rv r'] end.
  cbn in Hp. case_match; [|done]. etransitivity; [exact Hp|apply IH].
Qed.

Lemma apply_connect_net i b : keeps (apply_connect i b).
Proof.
  intros r. unfold apply_connect. case_match; [done|]. apply keeps_foldl. intros v r'. repeat case_match; try done.
  unfold apply_connect_pd. net_chain.
Qed.

Lemma init_connect_net i : keeps (drbd_init_connect_state i).
Proof. intros r. unfold drbd_init_connect_state. net_chain. Qed.

Lemma connect2_net b i r : same_net r (fst (conn_connect2 b i r)).
Proof. apply keeps_alter_peers_of. Qed.

(** ** Whole changes *)

Definition same_tx (r r' : resource) : Prop :=
  r_node_id r' = r_node_id r /\ ids (r_conns r') = ids (r_conns r) /\ rm_twopc_reply (r_more r') = rm_twopc_reply (r_more r) /\
  rm_remote_state_change (r_more r') = rm_remote_state_change (r_more r).

#[export] Instance same_tx_preorder : PreOrder same_tx.
Proof. split; [done|]. intros r1 r2 r3 (? & ? & ? & ?) (? & ? & ? & ?). split_and!; congruence. Qed.

Lemma same_net_tx r r' : same_net r r' -> same_tx r r'.
Proof. by intros []. Qed.

(** What a change with some flags does to the transaction. *)
Definition quiet (f : cs_flags) (r : resource) (x : change_result) : Prop :=
  same_tx r (ch_resource x) /\ (CS_PREPARE f = true -> ch_actions x = [] /\ ch_cached x = None).

Lemma quiet_trans f r r' x : same_tx r r' -> quiet f r' x -> quiet f r x.
Proof. intros Hr [Hx ?]. split; [|done]. by etransitivity. Qed.

Lemma end_quiet now rv f r r' : same_net (with_flags f r) r' -> quiet f r (___end_state_change now rv r').
Proof.
  intros Hr. destruct (end_net now rv r') as [H1 H2]. rewrite (sn_flags _ _ Hr) in H2. split; [|done].
  exact (same_net_tx (with_flags f r) _ (transitivity Hr H1)).
Qed.

Lemma failed_quiet now rv f r r' : same_net (with_flags f r) r' -> quiet f r (failed now rv r').
Proof. exact (end_quiet now SS_UNKNOWN_ERROR f r r'). Qed.

Lemma change_peer_device_state_quiet now i v j sc fl r : quiet (rf_flags fl) r (change_peer_device_state now i v j sc fl r).
Proof.
  unfold change_peer_device_state. cbv zeta. set (r1 := begin_state_change _ r). assert (same_net (with_flags (rf_flags fl) r) r1) as H1 by apply begin_net.
  clearbody r1. pose proof (change_peer_device_net i v j (convert_mask (sc_mask sc)) (convert_val (sc_val sc)) r1) as H2.
  destruct (__change_peer_device_state _ _ _ _ _ r1) as [rv r2]. cbn in H2. case_match; [apply failed_quiet; by etransitivity|].
  pose proof (change_connection_net i (convert_mask (sc_mask sc)) (convert_val (sc_val sc)) r2) as H3.
  destruct (__change_connection_state _ _ _ r2) as [rv' r3]. cbn in H3.
  case_match; [apply failed_quiet|apply end_quiet]; (etransitivity; [exact H1|]; by etransitivity).
Qed.

Lemma try_connection_state_quiet now i m x t b b' fl r : quiet (rf_flags fl) r (try_connection_state now i m x t b b' fl r).
Proof.
  unfold try_connection_state. cbv zeta. set (r1 := begin_state_change _ r). assert (same_net (with_flags (rf_flags fl) r) r1) as H1 by apply begin_net.
  clearbody r1. pose proof (change_peer_devices_net b' i m x (seq 0 (length (r_devs r1))) r1) as H2.
  destruct (change_peer_devices _ _ _ _ _ r1) as [rv r2]. cbn in H2. assert (same_net (with_flags (rf_flags fl) r) r2) as H12 by by etransitivity.
  case_match; [by apply failed_quiet|].
  pose proof (change_connection_net i m x r2) as H3. destruct (__change_connection_state _ _ _ r2) as [rv' r3]. cbn in H3.
  assert (same_net (with_flags (rf_flags fl) r) r3) as H13 by by etransitivity. case_match; [by apply failed_quiet|].
  apply end_quiet. set (r4 := match t with Some _ => _ | None => r3 end).
  assert (same_net (with_flags (rf_flags fl) r) r4) as H14.
  { unfold r4. destruct t; [|done]. case_match; [|done]. etransitivity; [exact H13|apply set_devs_net]. }
  clearbody r4. case_match; [|done]. etransitivity; [exact H14|apply apply_connect_net].
Qed.

Lemma retry_connection_state_quiet now opened i m x t b b' fl r : quiet (rf_flags fl) r (retry_connection_state now opened i m x t b b' fl r).
Proof.
  revert r. induction opened as [|o opened IH]; intros r; cbn [retry_connection_state]; pose proof (try_connection_state_quiet now i m x t b b' fl r) as Ht; [done|].
  match goal with |- context [if ?c then _ else _] => destruct c end; [|done]. eapply quiet_trans; [|apply IH]. exact (proj1 Ht).
Qed.

Lemma change_connection_state_quiet e i sc t fl r : quiet (rf_flags fl) r (fst (change_connection_state e i sc t fl r)).
Proof.
  unfold change_connection_state. destruct (match t with Some t0 => _ | None => _ end) as [b b']. cbv zeta.
  match goal with |- context [if ?c then conn_connect2 ?x i r else (r, [])] => set (y := if c then _ else _);
    assert (same_net r (fst y)) as H1 by (unfold y; case_match; [apply connect2_net|done]) end.
  destruct y as [r1 out]. cbn in H1 |- *. eapply quiet_trans; [|apply retry_connection_state_quiet]. apply same_net_tx.
  case_match; [|done]. etransitivity; [exact H1|apply keeps_alter_peers_of].
Qed.

Lemma change_connection_state_out e i sc t fl r m d : Send d m ∉ snd (change_connection_state e i sc t fl r).
Proof.
  unfold change_connection_state. destruct (match t with Some t0 => _ | None => _ end) as [b b']. cbv zeta.
  destruct (_ && CS_PREPARE _); cbn; set_solver.
Qed.

Lemma outdate_initiator_net b id : keeps (outdate_initiator b id).
Proof. intros r. unfold outdate_initiator. case_match; [apply keeps_alter_peers_of|]. case_match; [apply set_devs_net|done]. Qed.

Lemma far_away_change_quiet now i rq sc fl r : quiet (rf_flags fl) r (far_away_change now i rq sc fl r).
Proof.
  unfold far_away_change. cbv zeta. do 2 (match goal with |- context [if ?c then mk_change _ _ _ _ else _] => destruct c; [done|] end). apply end_quiet.
  etransitivity; [|apply set_devs_net]. apply net_keeps_trans; [apply keeps_when; intros ?; apply set_devs_net|].
  apply net_keeps_trans; [apply keeps_when, outdate_initiator_net|]. apply begin_net.
Qed.
End local.

(** ** The changes that a node can ask for *)

Definition good_change (f : change_fn) : Prop := forall cx ph r, same_net r (snd (f cx ph r)).

Section changes.
Context `{TwopcHeaders}.

Lemma disconnect_targets_net v : keeps (disconnect_where_resync_target v).
Proof.
  intros r. unfold disconnect_where_resync_target. case_match; [|done]. apply keeps_foldl. intros j r'. case_match; [|done].
  case_match; [apply keeps_change_cstate|done].
Qed.

Lemma do_change_role_dev_net ph acc v : same_net (snd acc) (snd (do_change_role_dev ph acc v)).
Proof.
  destruct acc as [cx r]. unfold do_change_role_dev. case_match; [|done]. cbv zeta. cbn [snd].
  match goal with |- context [if ?c then (?a, ?b) else (cx, r)] => set (y := if c then _ else _);
    assert (same_net r (snd y)) as H1 by (unfold y; destruct c; [apply (net_keeps_trans _ r _ (disconnect_targets_net v)), keeps_alter_dev|done]) end.
  destruct y as [cx' r']. cbn in H1 |- *. do 2 (apply net_keeps_trans; [auto with net|]). done.
Qed.

Lemma do_change_role_good : good_change do_change_role.
Proof.
  intros cx ph r. unfold do_change_role. generalize (seq 0 (length (r_devs r))). intros vs.
  assert (forall acc, same_net (snd acc) (snd (foldl (do_change_role_dev ph) acc vs))) as Hf.
  { induction vs as [|v vs IH]; intros acc; cbn; [done|]. etransitivity; [apply do_change_role_dev_net|apply IH]. }
  specialize (Hf (cx, set_role (v_role (cx_val cx)) r)). destruct (foldl _ _ vs) as [cx' r']. cbn in *.
  etransitivity; [|exact Hf]. by apply upd_res_net.
Qed.

Lemma do_twopc_after_lost_peer_good : good_change do_twopc_after_lost_peer.
Proof. intros cx ph r. unfold do_twopc_after_lost_peer. cbn. case_match; apply set_devs_net. Qed.

Lemma do_change_disk_state_good v : good_change (do_change_disk_state v).
Proof.
  intros cx ph r. unfold do_change_disk_state. case_match; [|done].
  repeat case_match; apply keeps_alter_dev.
Qed.

Lemma change_cstate_and_outdate_net i x o : keeps (__change_cstate_and_outdate i x o).
Proof.
  intros r. unfold __change_cstate_and_outdate. cbv zeta. destruct o; [apply keeps_change_cstate|..].
  - etransitivity; [apply keeps_change_cstate|apply set_devs_net].
  - etransitivity; [apply keeps_change_cstate|apply keeps_alter_peers_of].
Qed.

Lemma do_change_cstate_good i : good_change (do_change_cstate i).
Proof.
  intros cx ph r. unfold do_change_cstate. cbv zeta. cbn [snd]. apply net_keeps_trans; [auto with net|]. apply net_keeps_trans; [auto with net|].
  apply net_keeps_trans; [apply keeps_when, apply_connect_net|]. apply keeps_when, change_cstate_and_outdate_net.
Qed.

Lemma do_change_repl_state_good i v j : good_change (do_change_repl_state i v j).
Proof. intros cx ph r. unfold do_change_repl_state. case_match; [|done]. apply keeps_change_repl. Qed.
End changes.
