(* ===== verification/TwoPhaseNet.v ===== *)
(** * Two phase commit: the cluster

    Nodes, the packets that were ever sent, and the steps.  A packet may arrive late, more than once
    or never, in any order.  The steps are coarser than the code and leave cases out; the claims on
    clusters hold within these limits:
    - the handler of a packet runs without a break, and so does the work that it queues, although
      [process_twopc] lets go of the lock between storing the reply and checking the change (what a
      second request can do in between: [duplicate_votes_early] and [early_yes_and_failure]);
    - a participant does not give up before the decision: neither [twopc_timer_fn] nor
      [drbd_abort_twopc] nor [cleanup_remote_state_change] of a connection that is lost is a step
      (a connection may go down, [step_down]);
    - transactions have different numbers. *)
From S2P Require Import Prelude Headers State StateFinish TwoPhase TwoPhaseLocal TwoPhaseRecv TwoPhaseChange TwoPhaseProps.

(** What happened in a transaction: it was started on a node; a node took part, asked by [parent],
    was ready for the change or not, and was primary or not; it was decided. *)
Inductive event :=
  | Started (tid : Z) (i : nat)
  | Accepted (tid : Z) (m parent : nat) (ok primary : bool)
  | Decided (tid : Z).

Record pending := mk_pending { pe_fn : change_fn; pe_cx : change_context; pe_tid : Z }.

(** [parked] are the packets that wait until a local transaction has been given up: from and to, the
    place of the connection, the packet and the reply so far. *)
Record world := mk_world {
  nodes : nat -> node;
  soup : list (nat * nat * message);
  parked : list (nat * nat * nat * p_twopc_request * twopc_reply);
  running : nat -> option pending;
  log : list event }.

Definition upd {A} (f : nat -> A) (i : nat) (x : A) (j : nat) : A := if Nat.eqb j i then x else f j.

Definition sends_of (src : nat) (out : list effect) : list (nat * nat * message) :=
  omap (fun e => match e with Send d m => Some (src, d, m) | _ => None end) out.

Section cluster.
Context `{TwopcHeaders}.

(** The queued work runs at once. *)
Definition settle (n : node) : node * list effect := if TWOPC_WORK_PENDING n then nested_twopc_work n else (n, []).

(** Node [i] has done something. *)
Definition put (i : nat) (n : node) (out : list effect) (evs : list event) (w : world) : world :=
  let '(n, out') := settle n in
  mk_world (upd (nodes w) i n) (sends_of i (out ++ out') ++ soup w) (parked w) (running w) (evs ++ log w).

Definition set_running (i : nat) (p : option pending) (w : world) : world :=
  mk_world (nodes w) (soup w) (parked w) (upd (running w) i p) (log w).

(** The first part of a handler of [pk], from [s] to [d], came to an end. *)
Definition entered (e : env) (s d k : nat) (pk : p_twopc_request) (t : twopc_reply) (y : entry) (w : world) : world :=
  match y with
  | Leave n out => put d n out [] w
  | WaitDone => w
  | WaitAbort n => mk_world (upd (nodes w) d n) (soup w) ((s, d, k, pk, t) :: parked w) (running w) (log w)
  | Enter n prepared =>
      let primary := is_primary (role OLD (n_resource n)) in
      let '(rv, n, out) := process_entered e prepared k pk t n in
      put d n out (if prepared then [] else [Accepted (rq_tid (pq_request pk)) d s (rv_ok rv) primary]) w
  end.

(** The part of a node that other changes of its state leave alone. *)
Definition flag_of (c : connection) : nat * bool * bool := (peer_id c, prepared c, said_yes c).

Record same_view (n n' : node) : Prop := {
  sv_id : node_id n' = node_id n;
  sv_reply : reply n' = reply n;
  sv_remote : remote_state_change n' = remote_state_change n;
  sv_flags : flag_of <$> conns n' = flag_of <$> conns n;
  sv_cmd : n_prepare_reply_cmd n' = n_prepare_reply_cmd n }.

Definition fresh (tid : Z) (w : world) : Prop := tid <> 0 /\ forall j, Started tid j ∉ log w.

Definition link (w : world) (d k s : nat) : Prop := exists c, conns (nodes w d) !! k = Some c /\ peer_id c = s.

(** The steps of the cluster, with the limits that the head of this file lists. *)
Inductive step : world -> world -> Prop :=
  | step_start now sends tid f cx cx' i n out w :
      fresh tid w -> good_change f ->
      change_prepare now sends false tid f cx (nodes w i) = Waiting cx' n out ->
      step w (set_running i (Some (mk_pending f cx' tid)) (put i n out [Started tid i] w))
  | step_start_ended now sends tid f cx i rv n out w :
      fresh tid w -> good_change f ->
      change_prepare now sends false tid f cx (nodes w i) = Ended rv n out ->
      step w (put i n out [Decided tid; Started tid i] w)
  | step_start_again now sends tid f cx cx' i n out w :
      fresh tid w -> good_change f ->
      change_prepare now sends false tid f cx (nodes w i) = Retry cx' n out ->
      step w (put i n out [Decided tid; Started tid i] w)
  | step_request e waiting s d k pk w :
      (s, d, Request pk) ∈ soup w -> link w d k s ->
      let rq := pq_request pk in
      let t := received_reply rq (nodes w d) in
      step w (entered e s d k pk t (process_enter waiting k rq t (if is_prepare rq then set_sizes_err false (nodes w d) else nodes w d)) w)
  | step_parked e s d k pk t w :
      (s, d, k, pk, t) ∈ parked w ->
      step w (entered e s d k pk t (abort_local_done k t (nodes w d)) w)
  | step_answer s d k a w :
      (s, d, Answer a) ∈ soup w -> link w d k s ->
      step w (put d (got_twopc_reply k a (nodes w d)) [] [] w)
  | step_down d k w : step w (put d (twopc_connection_down k (nodes w d)) [] [] w)
  | step_handshake d k w : step w (put d (finish_nested_twopc k (nodes w d)) [] [] w)
  | step_decide now i pe y rv n out w :
      running w i = Some pe -> (y = Woken -> cluster_wide_reply_ready (nodes w i) = true) ->
      change_voted now (pe_fn pe) (pe_cx pe) y (nodes w i) = Ended rv n out ->
      step w (set_running i None (put i n out [Decided (pe_tid pe)] w))
  | step_decide_again now i pe y cx' n out w :
      running w i = Some pe -> (y = Woken -> cluster_wide_reply_ready (nodes w i) = true) ->
      change_voted now (pe_fn pe) (pe_cx pe) y (nodes w i) = Retry cx' n out ->
      step w (set_running i None (put i n out [Decided (pe_tid pe)] w))
  | step_local i n w :
      same_view (nodes w i) n -> TWOPC_WORK_PENDING n = TWOPC_WORK_PENDING (nodes w i) ->
      step w (mk_world (upd (nodes w) i n) (soup w) (parked w) (running w) (log w)).

(** At first there is no transaction, and no node is connected to itself. *)
Record initial (w : world) : Prop := {
  init_node m : node_id (nodes w m) = m /\ m ∉ ids (conns (nodes w m)) /\ remote_state_change (nodes w m) = false /\
                tr_tid (reply (nodes w m)) = 0 /\ TWOPC_WORK_PENDING (nodes w m) = false;
  init_soup : soup w = [];
  init_parked : parked w = [];
  init_running i : running w i = None;
  init_log : log w = [] }.

Inductive reachable : world -> Prop :=
  | reachable_initial w : initial w -> reachable w
  | reachable_step w w' : reachable w -> step w w' -> reachable w'.
End cluster.
