(* ===== verification/TwoPhaseSteps.v ===== *)
(** * Two phase commit: what each handler does to the votes

    The handlers in terms of the few values that the agreement depends on. *)
From S2P Require Import Prelude Headers State StateFinish TwoPhase TwoPhaseLocal TwoPhaseRecv TwoPhaseChange TwoPhaseProps TwoPhaseNet.

#[export] Instance same_view_preorder : PreOrder same_view.
Proof. split; [done|]. intros n1 n2 n3 [? ? ? ? ?] [? ? ? ? ?]. split; congruence. Qed.

Lemma sends_of_spec src out s d m : (s, d, m) ∈ sends_of src out <-> s = src /\ Send d m ∈ out.
Proof.
  unfold sends_of. rewrite list_elem_of_omap. split.
  - intros (e & He & Hs). destruct e; try done. injection Hs as <- <- <-. done.
  - intros [-> Hs]. by exists (Send d m).
Qed.

(** Two lists of connections with the same flags. *)
Lemma flags_elem (l l' : list connection) c' : flag_of <$> l' = flag_of <$> l -> c' ∈ l' -> exists c, c ∈ l /\ flag_of c = flag_of c'.
Proof.
  intros Hf Hc. assert (flag_of c' ∈ flag_of <$> l) as (c & Hc' & Hin)%list_elem_of_fmap by (rewrite <-Hf; by apply list_elem_of_fmap_2). by exists c.
Qed.

Lemma flags_ids (l l' : list connection) : flag_of <$> l' = flag_of <$> l -> ids l' = ids l.
Proof.
  intros Hf. apply (f_equal (fmap (fun x => fst (fst x)))) in Hf. rewrite <-!list_fmap_compose in Hf. exact Hf.
Qed.

Section steps.
Context `{TwopcHeaders}.

(** ** The vote *)

(** All that were asked said yes. *)
Definition all_yes (n : node) : Prop := forall c, c ∈ conns n -> prepared c = true -> said_yes c = true.

Lemma no_such {A} (f : A -> bool) (l : list A) x : existsb f l = false -> x ∈ l -> f x = false.
Proof.
  intros Hf Hx. destruct (f x) eqn:E; [|done]. assert (existsb f l = true) as E'; [|congruence].
  apply existsb_exists. exists x. split; [by apply list_elem_of_In|done].
Qed.

Lemma agreed_reply n : rv_ok (get_cluster_wide_reply n) = true ->
  get_cluster_wide_reply n = SS_CW_SUCCESS /\ tr_state_change_failed (reply n) = false /\
  (cluster_wide_reply_ready n = true -> all_yes n).
Proof.
  unfold get_cluster_wide_reply, cluster_wide_reply_ready. cbv zeta. intros Hok.
  destruct (TWOPC_ABORT_LOCAL n); [done|]. destruct (existsb (fun c => prepared c && said_retry c) (conns n)); [done|].
  repeat match type of Hok with context [if ?c then _ else _] => destruct c eqn:?; try done end.
  match goal with Hn : tr_state_change_failed _ || _ = false |- _ => apply orb_false_iff in Hn as [Hf Hno] end. split_and!; [done|done|].
  cbn. intros [_ Hy]%andb_true_iff c Hc Hp. rewrite forallb_forall in Hy. specialize (Hy c (proj1 (list_elem_of_In _ _) Hc)).
  by rewrite Hp in Hy.
Qed.

(** A node votes at most once for a transaction. *)
Record voting (n n' : node) (out : list effect) : Prop := {
  vo_id : node_id n' = node_id n;
  vo_reply : reply n' = reply n;
  vo_remote : remote_state_change n' = remote_state_change n;
  vo_flags : flag_of <$> conns n' = flag_of <$> conns n;
  vo_work : TWOPC_WORK_PENDING n' = false;
  vo_cmd :
    (n_prepare_reply_cmd n' = n_prepare_reply_cmd n /\ forall d m, Send d m ∉ out) \/
    (n_prepare_reply_cmd n = None /\ exists cmd, n_prepare_reply_cmd n' = Some cmd /\
     (forall d m, Send d m ∈ out -> exists a, m = Answer a /\ pr_cmd a = cmd /\ pr_tid a = tr_tid (reply n) /\ pr_primary_nodes a = tr_primary_nodes (reply n)) /\
     (cmd = P_TWOPC_YES -> remote_state_change n = true /\ tr_tid (reply n) <> 0 /\ tr_state_change_failed (reply n) = false /\ all_yes n)) }.

Lemma end_nested_voting cmd n :
  (cmd = P_TWOPC_YES -> remote_state_change n = true /\ tr_state_change_failed (reply n) = false /\ all_yes n) ->
  voting n (fst (twopc_end_nested cmd n)) (snd (twopc_end_nested cmd n)).
Proof.
  intros Hyes. unfold twopc_end_nested. cbv zeta. destruct (Z.eqb_spec (tr_tid (reply n)) 0) as [Ht|Ht].
  { cbn. split; try done. left. split; [done|]. intros ? ? ?%elem_of_nil. done. }
  cbn [negb andb]. set (first := bool_decide (n_prepare_reply_cmd n = None)).
  assert (forall parents t l, flag_of <$> map (fun c => if is_parent parents c && tr_is_disconnect t then with_c_more (with_votes set_disconnect_expected) c else c) l = flag_of <$> l) as Hfl.
  { intros parents t l. induction l as [|c l IH]; [done|]. cbn. rewrite IH. f_equal. by case_match. }
  split; cbn [fst snd]; try (unfold first; by case_match).
  - unfold first. case_match; apply Hfl.
  - unfold first. case_bool_decide as Hc; cbn.
    + right. split; [done|]. exists cmd. split; [done|]. split.
      * intros d m (c & E & _)%list_elem_of_fmap. injection E as -> ->. eexists. split; [reflexivity|]. done.
      * intros Hy. destruct (Hyes Hy) as (? & ? & ?). done.
    + left. split; [done|]. intros d m (c & _ & Hc')%list_elem_of_fmap. apply list_elem_of_filter in Hc' as [Hp _].
      unfold is_parent, in_nodes in Hp. by rewrite Z.testbit_0_l in Hp.
Qed.

Lemma work_voting n : cluster_wide_reply_ready n = true -> remote_state_change n = true ->
  voting n (fst (nested_twopc_work n)) (snd (nested_twopc_work n)).
Proof.
  intros Hr Hrem. unfold nested_twopc_work. cbv zeta. apply end_nested_voting. intros Hy.
  destruct (rv_ok (get_cluster_wide_reply n)) eqn:Hok.
  - destruct (agreed_reply n Hok) as (_ & Hf & Hall). by auto.
  - by destruct (get_cluster_wide_reply n).
Qed.

Lemma voting_refl n : TWOPC_WORK_PENDING n = false -> voting n n [].
Proof. intros Hw. split; try done. left. split; [done|]. by intros ? ? ?%elem_of_nil. Qed.

(** The check for a vote, with the work that it may queue. *)
Lemma maybe_voting n : TWOPC_WORK_PENDING n = false ->
  let y := settle (drbd_maybe_cluster_wide_reply n) in
  voting n (fst y) (snd y) /\ (n_prepare_reply_cmd (fst y) <> n_prepare_reply_cmd n -> tr_initiator_node_id (reply n) <> Z.of_nat (node_id n)).
Proof.
  intros Hw. unfold settle, drbd_maybe_cluster_wide_reply. destruct (negb (remote_state_change n) || negb (cluster_wide_reply_ready n)) eqn:Hr.
  { rewrite Hw. split; [by apply voting_refl|done]. }
  apply orb_false_iff in Hr as [Hrem Hr]. apply negb_false_iff in Hrem, Hr. destruct (Z.eqb_spec (tr_initiator_node_id (reply n)) (Z.of_nat (node_id n))).
  { rewrite Hw. split; [by apply voting_refl|done]. }
  cbn [TWOPC_WORK_PENDING set_work_pending]. split; [|done]. by destruct (work_voting (set_work_pending true n)) as [V1 V2 V3 V4 V5 V6].
Qed.

(** A node whose transaction is over has nothing to vote on. *)
Lemma settle_cleared n : tr_tid (reply n) = 0 ->
  let y := settle n in voting n (fst y) (snd y) /\ n_prepare_reply_cmd (fst y) = n_prepare_reply_cmd n /\ forall d m, Send d m ∉ snd y.
Proof.
  intros Ht. unfold settle. destruct (TWOPC_WORK_PENDING n) eqn:Hw.
  - unfold nested_twopc_work, twopc_end_nested. cbv zeta. rewrite Ht. cbn. split; [|split; [done|by intros ? ? ?%elem_of_nil]].
    split; try done. left. split; [done|]. by intros ? ? ?%elem_of_nil.
  - split; [by apply voting_refl|]. split; [done|by intros ? ? ?%elem_of_nil].
Qed.

(** ** Taking part *)

Record kept (n n' : node) : Prop := {
  ke_id : node_id n' = node_id n;
  ke_ids : ids (conns n') = ids (conns n);
  ke_remote : remote_state_change n' = remote_state_change n;
  ke_cmd : n_prepare_reply_cmd n' = n_prepare_reply_cmd n;
  ke_work : TWOPC_WORK_PENDING n' = TWOPC_WORK_PENDING n }.

Lemma kept_refl n : kept n n.
Proof. done. Qed.

Lemma kept_trans n1 n2 n3 : kept n1 n2 -> kept n2 n3 -> kept n1 n3.
Proof. intros [? ? ? ? ?] [? ? ? ? ?]. split; congruence. Qed.

Lemma kept_with_res f n : keeps f -> kept n (with_res f n).
Proof. intros Hf. destruct (Hf (n_resource n)). by split. Qed.

Lemma reply_with_res f n : keeps f -> reply (with_res f n) = reply n.
Proof. intros Hf. by destruct (Hf (n_resource n)). Qed.

Lemma my_bit_in x m : Z.testbit (Z.lor x (NODE_MASK m)) (Z.of_nat m) = true.
Proof. rewrite Z.lor_spec. unfold NODE_MASK. rewrite Z.shiftl_1_l, Z.pow2_bits_eqb by lia. by rewrite Z.eqb_refl, orb_true_r. Qed.

Lemma fill_reply_spec rq p sc b n t : let t' := fill_reply rq p sc b n t in
  tr_tid t' = tr_tid t /\ tr_initiator_node_id t' = tr_initiator_node_id t /\ tr_state_change_failed t' = tr_state_change_failed t /\
  (is_prepare rq = true -> is_primary (role OLD (n_resource n)) = true -> Z.testbit (tr_primary_nodes t') (Z.of_nat (node_id n)) = true).
Proof.
  unfold fill_reply. cbv zeta. destruct (to_connect sc), (to_disconnect sc), (is_prepare rq), (is_primary (role OLD (n_resource n))); cbn;
    split_and!; try done; intros _ _; apply my_bit_in.
Qed.

Lemma fields_spec b i p t n : let y := process_fields b i p t n in let w := fst y in let n1 := snd y in
  kept n n1 /\ reply n1 = w_reply w /\ w_request w = pq_request p /\ w_conn w = i /\ w_prepared w = b /\
  tr_tid (w_reply w) = tr_tid t /\ tr_initiator_node_id (w_reply w) = tr_initiator_node_id t /\
  (is_prepare (pq_request p) = true -> is_primary (role OLD (n_resource n)) = true -> Z.testbit (tr_primary_nodes (w_reply w)) (Z.of_nat (node_id n)) = true).
Proof.
  unfold process_fields. cbv zeta. set (sc := if is_prepare (pq_request p) then _ else _).
  destruct (match affected_connection i (pq_request p) sc n with Some k => _ | None => _ end) as [peer affected]. cbn [fst snd w_reply w_request w_conn w_prepared].
  match goal with |- context [fill_reply ?rq ?q ?c ?x n t] => destruct (fill_reply_spec rq q c x n t) as (E1 & E2 & E3 & E4) end.
  split_and!; try done. set (n1 := if to_connect sc && _ && _ then _ else _).
  assert (kept n n1) as [? ? ? ? ?]; [|by split]. unfold n1. destruct (to_connect sc && _ && _); [|done].
  by destruct (kept_with_res _ (set_change sc n) (init_connect_net i)).
Qed.

Lemma changed_out x n d m : Send d m ∉ snd (changed x n).
Proof. unfold changed. cbv zeta. cbn [snd]. by intros (a & ? & _)%list_elem_of_fmap. Qed.

(** The change of a request, whatever it is about. *)
Lemma local_change e w n : let '(rv, n1, out) := process_local e w n in
  exists f r x, CS_PREPARE f = is_prepare (w_request w) /\ same_tx (n_resource n) r /\ quiet f r x /\ n1 = fst (changed x n) /\ forall d m, Send d m ∉ out.
Proof.
  unfold process_local. cbv zeta.
  set (commits := w_prepared w && negb (is_abort (w_request w))). set (t := if commits then _ else w_reply w).
  set (dem := if commits then _ else []).
  assert (forall d m, Send d m ∉ dem) as Hd.
  { intros d m. unfold dem, handle_neighbor_demotion. case_match; [|apply not_elem_of_nil]. case_match; [apply not_elem_of_nil|].
    intros Hin. apply list_elem_of_In, in_concat in Hin as (l & Hl & Hin). apply list_elem_of_In in Hl, Hin. apply list_elem_of_lookup in Hl as [k Hk].
    rewrite list_lookup_imap in Hk. destruct (r_devs (n_resource n) !! k); [|done]. injection Hk as <-. case_match; set_solver. }
  clearbody dem t. destruct (if commits then commit_members _ _ _ _ else _) as [members recalc]. set (r := set_members members (n_resource n)).
  set (z := match w_peer w with Some _ => _ | None => _ end).
  assert (exists f, CS_PREPARE f = is_prepare (w_request w) /\ quiet f r (fst z) /\ forall d m, Send d m ∉ snd z) as (f & Hf & Hq & Hs).
  { unfold z. destruct (w_peer w) as [[[i v] j]|]; [|destruct (w_affected w) as [k|]].
    - exists (rf_flags (flags_of (w_request w) w false recalc)). split; [done|]. split; [apply change_peer_device_state_quiet|]. intros ? ?. apply not_elem_of_nil.
    - exists (rf_flags (flags_of (w_request w) w true recalc)). split; [done|]. split; [apply change_connection_state_quiet|]. intros d m. apply change_connection_state_out.
    - exists (rf_flags (flags_of (w_request w) w false recalc)). split; [done|]. split; [apply far_away_change_quiet|]. intros ? ?. apply not_elem_of_nil. }
  destruct z as [x out2]. cbn in Hq, Hs. pose proof (changed_out x n) as Ho. destruct (changed x n) as [n1 out3] eqn:Hc. cbn in Ho.
  exists f, r, x. rewrite Hc. split_and!; try done.
  intros d m. rewrite !elem_of_app. intros [?|[?|?]]; [by eapply Hd|by eapply Hs|by eapply Ho].
Qed.

Lemma local_prepare_spec e w n : is_prepare (w_request w) = true -> let '(rv, n1, out) := process_local e w n in
  kept n n1 /\ reply n1 = reply n /\ forall d m, Send d m ∉ out.
Proof.
  intros Hp. pose proof (local_change e w n) as Hl. destruct (process_local e w n) as [[rv n1] out].
  destruct Hl as (f & r & x & Hf & Hr & [Hq Hq'] & -> & Ho). rewrite Hp in Hf. destruct (Hq' Hf) as [Ha Hk]. unfold changed. cbv zeta. rewrite Ha, Hk. cbn [fst foldl].
  destruct (transitivity Hr Hq) as (E1 & E2 & E3 & E4). split; [by split|]. done.
Qed.

(** ** The end of a transaction *)

(** The transaction of a node goes on or is over. *)
Record over (n n' : node) : Prop := {
  ov_id : node_id n' = node_id n;
  ov_ids : ids (conns n') = ids (conns n);
  ov_tx : (remote_state_change n' = remote_state_change n /\ tr_tid (reply n') = tr_tid (reply n)) \/ (remote_state_change n' = false /\ tr_tid (reply n') = 0) }.

Lemma over_trans n1 n2 n3 : over n1 n2 -> over n2 n3 -> over n1 n3.
Proof. intros [? ? [[? ?]|[? ?]]] [? ? [[? ?]|[? ?]]]; split; try congruence; (left; split; congruence) || (right; split; congruence). Qed.

Lemma clear_spec n : let n' := __clear_remote_state_change n in
  node_id n' = node_id n /\ ids (conns n') = ids (conns n) /\ remote_state_change n' = false /\ tr_tid (reply n') = 0.
Proof.
  unfold __clear_remote_state_change. cbv zeta. set (n1 := with_res _ n).
  assert (node_id n1 = node_id n /\ ids (conns n1) = ids (conns n) /\ remote_state_change n1 = false /\ tr_tid (reply n1) = 0) as H1 by done. clearbody n1.
  destruct (_ && bool_decide _); [|done]. destruct (drbd_connection_by_node_id _ _); [|done].
  destruct (keeps_alter_peers_of n0 abort_connect_pd (n_resource n1)) as [E1 _ E2 E3 E4]. exact H1.
Qed.

Lemma run_action_over n a : over n (run_action n a).
Proof.
  destruct a; cbn; try by (split; try done; left).
  - unfold drbd_maybe_cluster_wide_reply. repeat case_match; (split; [done|done|by left]).
  - destruct (clear_spec n) as (E1 & E2 & E3 & E4). split; [done|done|]. by right.
Qed.

Lemma changed_over x n r f : same_tx (n_resource n) r -> quiet f r x -> over n (fst (changed x n)).
Proof.
  intros Hr [Hq _]. unfold changed. cbv zeta. cbn [fst]. set (n1 := match ch_cached x with Some _ => _ | None => _ end).
  assert (over n n1) as H1.
  { destruct (transitivity Hr Hq) as (E1 & E2 & E3 & E4). unfold n1. assert (tr_tid (reply (set_resource (ch_resource x) n)) = tr_tid (reply n)) as E5 by (unfold reply; cbn; by rewrite E3).
    destruct (ch_cached x); (split; [done|done|by left]). }
  clearbody n1. revert n1 H1. induction (ch_actions x) as [|a l IH]; intros n1 H1; cbn; [done|]. apply IH. eapply over_trans; [exact H1|apply run_action_over].
Qed.

(** ** Forwarding *)

Lemma request_conn_spec sends reach c : let c' := request_conn sends reach c in
  peer_id c' = peer_id c /\ prepared c' = asked reach c && sends (peer_id c) /\ (prepared c' = true -> said_yes c' = false).
Proof. unfold request_conn. destruct (asked reach c); cbn; by destruct (sends (peer_id c)). Qed.

(** Who is asked, and what. *)
Record asks_for (reach : Z) (rq : twopc_request) (n n' : node) (out : list effect) : Prop := {
  af_kept : kept n n';
  af_reply : reply n' = reply n;
  af_conn c : c ∈ conns n' -> prepared c = true ->
    said_yes c = false /\ exists pk, Send (peer_id c) (Request pk) ∈ out /\ rq_tid (pq_request pk) = rq_tid rq;
  af_send d m : Send d m ∈ out -> exists pk, m = Request pk /\ rq_cmd (pq_request pk) = rq_cmd rq /\ rq_tid (pq_request pk) = rq_tid rq /\
    rq_initiator_node_id (pq_request pk) = rq_initiator_node_id rq /\ rq_nodes_to_reach (pq_request pk) = rq_nodes_to_reach rq /\
    in_nodes reach d = true /\ exists c, c ∈ conns n' /\ peer_id c = d /\ prepared c = true }.

Lemma p_request_spec c sc rq : let rq' := pq_request (p_request_of c sc rq) in
  rq_cmd rq' = rq_cmd rq /\ rq_tid rq' = rq_tid rq /\ rq_initiator_node_id rq' = rq_initiator_node_id rq /\ rq_nodes_to_reach rq' = rq_nodes_to_reach rq.
Proof. unfold p_request_of. cbv zeta. destruct rq as [? cmd]. destruct cmd; cbn; [done|..]; by case_match. Qed.

Lemma cluster_wide_request_spec sends rq reach n : let '(rv, n', out) := __cluster_wide_request sends rq reach n in
  asks_for reach rq n n' out /\ (rv <> SS_CW_SUCCESS -> rv = SS_SUCCESS /\ out = [] /\ forall c, c ∈ conns n' -> prepared c = false).
Proof.
  unfold __cluster_wide_request. cbv zeta. set (l := requested sends reach (conns n)).
  assert (forall c, c ∈ conns n -> asked reach c && sends (peer_id c) = true -> c ∈ l) as Hl.
  { intros c Hc Ha. unfold l, requested. apply list_elem_of_filter. by split. }
  assert (forall c', c' ∈ map (request_conn sends reach) (conns n) -> prepared c' = true -> exists c, c ∈ l /\ c' = request_conn sends reach c) as Hp.
  { intros c' (c & -> & Hc)%list_elem_of_fmap Hp. exists c. split; [|done]. apply Hl; [done|]. by destruct (request_conn_spec sends reach c) as (_ & <- & _). }
  split.
  - split.
    + split; try done. cbn. apply ids_map. intros c. apply request_conn_spec.
    + done.
    + intros c' Hc Hpr. destruct (Hp c' Hc Hpr) as (c & Hin & ->). destruct (request_conn_spec sends reach c) as (E1 & _ & E3). split; [by apply E3|].
      eexists. rewrite E1. split; [apply list_elem_of_fmap; exists c; split; [reflexivity|done]|]. by destruct (p_request_spec c (n_change n) rq) as (_ & -> & _).
    + intros d m (c & E & Hc)%list_elem_of_fmap. injection E as -> ->. eexists. split; [reflexivity|].
      destruct (p_request_spec c (n_change n) rq) as (-> & -> & -> & ->). split_and!; try done.
      all: unfold l, requested in Hc; apply list_elem_of_filter in Hc as [Ha Hc].
      * apply andb_true_iff in Ha as [Ha _]. by apply andb_true_iff in Ha as [_ Ha].
      * exists (request_conn sends reach c). destruct (request_conn_spec sends reach c) as (E1 & E2 & _). split_and!; [|done|by rewrite E2].
        cbn. apply list_elem_of_fmap. by exists c.
  - intros Hrv. destruct l as [|c0 l'] eqn:El; [|done]. split; [done|]. split; [done|]. intros c Hc. destruct (prepared c) eqn:Ep; [|done].
    destruct (Hp c Hc Ep) as (c' & Hin & _). by apply elem_of_nil in Hin.
Qed.

Lemma reach_of_spec x n : let '(reach, rest) := reach_of x n in
  (forall j, 0 <= j -> Z.testbit reach j = true -> Z.testbit x j = true) /\
  (forall j, 0 <= j -> Z.testbit rest j = true -> Z.testbit x j = true /\ j <> Z.of_nat (node_id n)).
Proof.
  unfold reach_of. cbv zeta. split.
  - intros j Hj. rewrite Z.land_spec. by intros [_ ?]%andb_true_iff.
  - intros j Hj. rewrite Z.ldiff_spec. intros [Hx Hn]%andb_true_iff. split; [done|]. intros ->. unfold my_bit in Hn. by rewrite my_bit_in in Hn.
Qed.

Lemma nested_request_spec sends rq n : remote_state_change n = true ->
  rq_cmd rq = P_TWOPC_PREPARE -> TWOPC_WORK_PENDING n = false ->
  let '(n', out) := nested_twopc_request sends rq n in
  exists n1 out1 out2, asks_for (fst (reach_of (rq_nodes_to_reach rq) n)) (forward (snd (reach_of (rq_nodes_to_reach rq) n)) rq) n n1 out1 /\
    out = out1 ++ out2 /\ voting n1 n' out2 /\ (n_prepare_reply_cmd n' <> n_prepare_reply_cmd n -> forall c, c ∈ conns n' -> prepared c = false).
Proof.
  intros Hrem Hcmd Hw. unfold nested_twopc_request. destruct (reach_of (rq_nodes_to_reach rq) n) as [reach rest]. cbn [fst snd].
  pose proof (cluster_wide_request_spec sends (forward rest rq) reach n) as Hs. destruct (__cluster_wide_request sends (forward rest rq) reach n) as [[rv n1] out1].
  destruct Hs as [Haf Hno]. rewrite Hcmd, bool_decide_true by done. destruct Haf as [[K1 K2 K3 K4 K5] A2 A3 A4].
  assert (rv_ok rv = true) as ->. { destruct (decide (rv = SS_CW_SUCCESS)) as [->|Hrv]; [done|]. by destruct (Hno Hrv) as [-> _]. }
  cbn [negb]. destruct (negb (bool_decide (rv = SS_CW_SUCCESS)) && cluster_wide_reply_ready n1) eqn:Hc.
  - apply andb_true_iff in Hc as [Hrv Hready]. apply negb_true_iff, bool_decide_eq_false in Hrv. destruct (Hno Hrv) as (_ & _ & Hnone).
    pose proof (work_voting n1 Hready) as Hv. rewrite K3 in Hv. specialize (Hv Hrem). destruct (nested_twopc_work n1) as [n' out2]. cbn in Hv.
    exists n1, out1, out2. split_and!; [done|done|done|]. intros _ c Hc. destruct (flags_elem _ _ c (vo_flags _ _ _ Hv) Hc) as (c1 & Hc1 & E).
    injection E as _ <- _. by apply Hnone.
  - exists n1, out1, []. rewrite app_nil_r. split_and!; [done|done| |done]. apply voting_refl. by rewrite K5.
Qed.

(** A node takes part in a transaction. *)
Record accepts (pk : p_twopc_request) (primary ok : bool) (n n' : node) (out : list effect) : Prop := {
  ac_id : node_id n' = node_id n;
  ac_ids : ids (conns n') = ids (conns n);
  ac_remote : remote_state_change n' = true;
  ac_work : TWOPC_WORK_PENDING n' = false;
  ac_tid : tr_tid (reply n') = rq_tid (pq_request pk);
  ac_initiator : tr_initiator_node_id (reply n') = rq_initiator_node_id (pq_request pk);
  ac_primary : primary = true -> Z.testbit (tr_primary_nodes (reply n')) (Z.of_nat (node_id n)) = true;
  ac_failed : ok = false -> tr_state_change_failed (reply n') = true \/ n_prepare_reply_cmd n' <> None;
  ac_conn c : ok = true -> c ∈ conns n' -> prepared c = true ->
    said_yes c = false /\ exists pk', Send (peer_id c) (Request pk') ∈ out /\ rq_tid (pq_request pk') = rq_tid (pq_request pk);
  ac_request d pk' : Send d (Request pk') ∈ out ->
    rq_cmd (pq_request pk') = P_TWOPC_PREPARE /\ rq_tid (pq_request pk') = rq_tid (pq_request pk) /\
    rq_initiator_node_id (pq_request pk') = rq_initiator_node_id (pq_request pk) /\ Z.testbit (rq_nodes_to_reach (pq_request pk)) (Z.of_nat d) = true /\
    (forall j, Z.testbit (rq_nodes_to_reach (pq_request pk')) (Z.of_nat j) = true ->
       Z.testbit (rq_nodes_to_reach (pq_request pk)) (Z.of_nat j) = true /\ j <> node_id n) /\
    exists c, c ∈ conns n' /\ peer_id c = d /\ prepared c = true;
  ac_answer d a : Send d (Answer a) ∈ out -> pr_tid a = rq_tid (pq_request pk) /\
    (pr_cmd a = P_TWOPC_YES -> n_prepare_reply_cmd n' = Some P_TWOPC_YES /\ pr_primary_nodes a = tr_primary_nodes (reply n'));
  ac_yes : n_prepare_reply_cmd n' = Some P_TWOPC_YES -> ok = true /\ forall c, c ∈ conns n' -> prepared c = false }.

Lemma entered_accepts e i pk t n : is_prepare (pq_request pk) = true -> remote_state_change n = true -> n_prepare_reply_cmd n = None ->
  TWOPC_WORK_PENDING n = false -> tr_tid t = rq_tid (pq_request pk) -> tr_initiator_node_id t = rq_initiator_node_id (pq_request pk) ->
  let '(rv, n', out) := process_entered e false i pk t n in
  accepts pk (is_primary (role OLD (n_resource n))) (rv_ok rv) n n' out.
Proof.
  intros Hp Hrem Hcmd Hw Ht Hi. unfold process_entered. pose proof (fields_spec false i pk t n) as Hf. destruct (process_fields false i pk t n) as [w n1].
  cbn in Hf. destruct Hf as (K1 & R1 & W1 & _ & _ & W2 & W3 & W4). set (w' := process_pinged w n1).
  assert (w_request w' = pq_request pk /\ w_reply w' = w_reply w) as [Q1 Q2] by done. clearbody w'.
  pose proof (local_prepare_spec e w' n1) as Hl. rewrite Q1 in Hl. specialize (Hl Hp). destruct (process_local e w' n1) as [[rv n2] out1].
  destruct Hl as (K2 & R2 & S2). pose proof (kept_trans _ _ _ K1 K2) as [I1 I2 I3 I4 I5]. unfold process_finish. cbv zeta. rewrite Q1, Hp.
  assert (rq_cmd (pq_request pk) = P_TWOPC_PREPARE) as Hprep by by apply bool_decide_eq_true in Hp.
  destruct (bool_decide (rv = SS_IN_TRANSIENT_STATE)) eqn:Htr.
  - apply bool_decide_eq_true in Htr as ->. cbn [rv_ok]. assert (reply (set_parents (n_parent_nodes n2) (Some P_TWOPC_RETRY) n2) = w_reply w) as R3 by by rewrite <-R1, <-R2.
    split; try done; rewrite ?R3; try done.
    + by rewrite <-Hrem, <-I3.
    + by rewrite <-Hw, <-I5.
    + by rewrite W2.
    + by rewrite W3.
    + intros Hpr. by apply W4.
    + by right.
    + intros d pk' [Hin|Hin]%elem_of_app; [by apply S2 in Hin|]. by apply list_elem_of_singleton in Hin.
    + intros d a [Hin|Hin]%elem_of_app; [by apply S2 in Hin|]. apply list_elem_of_singleton in Hin. injection Hin as _ ->. cbn. by rewrite Q2, W2.
  - set (n3 := set_reply _ n2). assert (kept n n3) as K3 by by split.
    assert (tr_tid (reply n3) = rq_tid (pq_request pk) /\ tr_initiator_node_id (reply n3) = rq_initiator_node_id (pq_request pk) /\
      tr_primary_nodes (reply n3) = tr_primary_nodes (w_reply w) /\ tr_state_change_failed (reply n3) = negb (rv_ok rv)) as (T1 & T2 & T3 & T4).
    { assert (reply n3 = set_kind (tr_is_disconnect (reply n2)) (tr_is_connect (reply n2)) (negb (rv_ok rv)) (reply n2)) as -> by done. rewrite R2, R1. cbn. by rewrite W2, W3. }
    clearbody n3. destruct K3 as [J1 J2 J3 J4 J5]. pose proof (nested_request_spec (e_sends e) (pq_request pk) n3) as Hn.
    rewrite J3, J5 in Hn. specialize (Hn Hrem Hprep Hw). destruct (nested_twopc_request (e_sends e) (pq_request pk) n3) as [n' out2].
    destruct Hn as (n4 & o1 & o2 & [[L1 L2 L3 L4 L5] A2 A3 A4] & -> & [V1 V2 V3 V4 V5 V6] & Hnone).
    pose proof (reach_of_spec (rq_nodes_to_reach (pq_request pk)) n3) as Hrs. destruct (reach_of (rq_nodes_to_reach (pq_request pk)) n3) as [reach rest].
    destruct Hrs as [Hr1 Hr2]. cbn [fst snd] in *.
    assert (forall d pk', Send d (Request pk') ∈ out1 ++ o1 ++ o2 -> Send d (Request pk') ∈ o1) as Hreq.
    { intros d pk' [Hin|[Hin|Hin]%elem_of_app]%elem_of_app; [by apply S2 in Hin|done|]. destruct V6 as [[_ V6]|(_ & cmd & _ & V6 & _)]; [by apply V6 in Hin|].
      by destruct (V6 _ _ Hin) as (a & [=] & _). }
    assert (forall c', c' ∈ conns n' -> exists c, c ∈ conns n4 /\ flag_of c = flag_of c') as Hc' by (intros c' Hc'; by eapply flags_elem).
    assert (forall c, c ∈ conns n4 -> exists c', c' ∈ conns n' /\ flag_of c' = flag_of c) as Hc4 by (intros c Hc; by eapply flags_elem).
    split.
    + congruence.
    + rewrite (flags_ids _ _ V4). congruence.
    + congruence.
    + done.
    + by rewrite V2, A2.
    + by rewrite V2, A2.
    + intros Hpr. rewrite V2, A2, T3. by apply W4.
    + intros Hok. left. by rewrite V2, A2, T4, Hok.
    + intros c _ Hc Hpr. destruct (Hc' c Hc) as (c4 & Hin & E). injection E as E1 E2 E3. rewrite <-E2 in Hpr. destruct (A3 c4 Hin Hpr) as [Hy (pk' & Hs & Htid)].
      split; [by rewrite <-E3|]. exists pk'. split; [|done]. rewrite <-E1, !elem_of_app. by right; left.
    + intros d pk' Hin%Hreq. destruct (A4 _ _ Hin) as (q & [= <-] & B1 & B2 & B3 & B4 & B5 & c & Hc & B6 & B7). cbn in B1, B2, B3, B4. split_and!; [congruence|done|done|..].
      * apply Hr1; [lia|done].
      * intros j. rewrite B4. intros Hj. destruct (Hr2 (Z.of_nat j)) as [? ?]; [lia|done|]. split; [done|]. rewrite J1 in *. lia.
      * destruct (Hc4 c Hc) as (c2 & Hc2 & E). injection E as E1 E2 _. exists c2. split; [done|]. by rewrite E1, E2.
    + intros d a [Hin|[Hin|Hin]%elem_of_app]%elem_of_app; [by apply S2 in Hin|by destruct (A4 _ _ Hin) as (q & [=] & _)|].
      destruct V6 as [[_ V6]|(_ & cmd & Hc & V6 & _)]; [by apply V6 in Hin|]. destruct (V6 _ _ Hin) as (a' & [= <-] & B1 & B2 & B3). split; [by rewrite B2, A2|].
      intros Hy. rewrite Hc, B3, V2. by rewrite <-B1, Hy.
    + intros Hy. split; [|apply Hnone; rewrite J4, Hcmd, Hy; done]. destruct V6 as [[V6 _]|(_ & cmd & Hc & _ & V6)]; [congruence|].
      rewrite Hc in Hy. injection Hy as ->. destruct (V6 eq_refl) as (_ & _ & Hf & _). rewrite A2, T4 in Hf. by destruct (rv_ok rv).
Qed.

(** ** Commit and abort *)

(** Only packets of a transaction, and not the ones that vote. *)
Definition requests_of (tid : Z) (out : list effect) : Prop :=
  forall d m, Send d m ∈ out -> exists pk, m = Request pk /\ rq_tid (pq_request pk) = tid.

Lemma no_sends_requests tid out : (forall d m, Send d m ∉ out) -> requests_of tid out.
Proof. intros Ho d m Hin. by apply Ho in Hin. Qed.

Lemma requests_app tid o1 o2 : requests_of tid o1 -> requests_of tid o2 -> requests_of tid (o1 ++ o2).
Proof. intros H1 H2 d m [?|?]%elem_of_app; [by eapply H1|by eapply H2]. Qed.

Lemma requests_nil tid : requests_of tid [].
Proof. by intros d m ?%elem_of_nil. Qed.

Lemma send_list_requests n rq l : requests_of (rq_tid rq) (conn_send_twopc_request n rq <$> l).
Proof.
  intros d m (c & E & _)%list_elem_of_fmap. injection E as -> ->. eexists. split; [reflexivity|]. by destruct (p_request_spec c (n_change n) rq) as (_ & -> & _).
Qed.

Lemma nested_abort_requests rq n : requests_of (rq_tid rq) (nested_twopc_abort rq n).
Proof. unfold nested_twopc_abort. destruct (reach_of _ _) as [reach rest]. apply (send_list_requests n (forward rest rq)). Qed.

Lemma executed_spec e b i pk t n : is_prepare (pq_request pk) = false -> let '(rv, n', out) := process_entered e b i pk t n in
  node_id n' = node_id n /\ ids (conns n') = ids (conns n) /\ remote_state_change n' = false /\ tr_tid (reply n') = 0 /\
  requests_of (rq_tid (pq_request pk)) out.
Proof.
  intros Hp. unfold process_entered. pose proof (fields_spec b i pk t n) as Hf. destruct (process_fields b i pk t n) as [w n1].
  cbn in Hf. destruct Hf as ([K1 K2 K3 K4 K5] & _ & W1 & _). set (w' := process_pinged w n1). assert (w_request w' = pq_request pk) as Q1 by done. clearbody w'.
  pose proof (local_change e w' n1) as Hl. destruct (process_local e w' n1) as [[rv n2] out1]. destruct Hl as (f & r & x & _ & Hr & Hq & En2 & Ho).
  pose proof (changed_over x n1 r f Hr Hq) as [O1 O2 _]. rewrite <-En2 in O1, O2. clear En2. unfold process_finish. cbv zeta. rewrite Q1, Hp. unfold nested_twopc_request.
  destruct (reach_of (rq_nodes_to_reach (pq_request pk)) n2) as [reach rest].
  pose proof (cluster_wide_request_spec (e_sends e) (forward rest (pq_request pk)) reach n2) as Hs.
  destruct (__cluster_wide_request _ _ reach n2) as [[rv3 n3] out3]. destruct Hs as [[[J1 J2 J3 J4 J5] _ _ A4] _].
  unfold is_prepare in Hp. rewrite Hp. destruct (clear_spec n3) as (C1 & C2 & C3 & C4). set (n4 := __clear_remote_state_change n3) in *. clearbody n4.
  assert (requests_of (rq_tid (pq_request pk)) out3) as R3. { intros d m Hin. destruct (A4 d m Hin) as (pk' & -> & _ & ? & _). by exists pk'. }
  assert (node_id n4 = node_id n /\ ids (conns n4) = ids (conns n)) as [N1 N2] by (split; congruence).
  set (md := match w_peer w' with Some _ => _ | None => [] end).
  assert (forall d m, Send d m ∉ md) as Hmd. { intros d m. unfold md. destruct (w_peer w') as [[[? v] ?]|]; [|apply not_elem_of_nil]. case_match; set_solver. }
  destruct (_ && _ && _ && _).
  - destruct (connect2_net (e_sends e (peer_id (conns n4 !!! w_conn w'))) (w_conn w') (n_resource n4)) as [E1 _ E2 E3 E4].
    split_and!; [exact (eq_trans E1 N1)|exact (eq_trans E2 N2)|exact (eq_trans E4 C3)|exact (eq_trans (f_equal tr_tid E3) C4)|].
    repeat apply requests_app; try done; try by apply no_sends_requests. intros d m Hin. by apply list_elem_of_singleton in Hin.
  - split_and!; try done. repeat apply requests_app; try done; try by apply no_sends_requests. apply requests_nil.
Qed.

(** ** The initiator *)

Lemma change_local_spec now f cx rv n : good_change f -> let '(rv', n', out) := change_local now f cx rv n in over n n' /\ forall d m, Send d m ∉ out.
Proof.
  intros Hf. unfold change_local. cbv zeta. set (fl := twopc_flags cx). assert (same_net (with_flags fl (n_resource n)) (end_remote_state_change cx (n_resource n))) as Hb by apply begin_net.
  set (r := end_remote_state_change cx (n_resource n)) in *. clearbody r.
  destruct (rv_ok rv).
  - pose proof (Hf cx PH_COMMIT r) as Hc. destruct (f cx PH_COMMIT r) as [[b cx'] r2]. cbn in Hc.
    assert (quiet fl (n_resource n) (end_state_change now r2)) as Hq by (apply end_quiet; exact (transitivity Hb Hc)).
    pose proof (changed_over _ n (n_resource n) fl (reflexivity _) Hq) as Ho. pose proof (changed_out (end_state_change now r2) n) as Hs. by destruct (changed _ n).
  - assert (quiet fl (n_resource n) (abort_state_change now r)) as Hq by by apply end_quiet.
    pose proof (changed_over _ n (n_resource n) fl (reflexivity _) Hq) as Ho. pose proof (changed_out (abort_state_change now r) n) as Hs. by destruct (changed _ n).
Qed.

Lemma over_left n n' : node_id n' = node_id n -> ids (conns n') = ids (conns n) -> remote_state_change n' = remote_state_change n ->
  tr_tid (reply n') = tr_tid (reply n) -> over n n'.
Proof. intros. split; [done|done|by left]. Qed.

Lemma agreed_spec cx reach n : let '(rv, b, n') := change_agreed cx reach n in
  conns n' = conns n /\ over n n' /\ tr_tid (reply n') = tr_tid (reply n) /\
  (forall j, Z.testbit (tr_primary_nodes (reply n)) j = true -> Z.testbit (tr_primary_nodes (reply n')) j = true).
Proof.
  unfold change_agreed. cbv zeta. set (t := count_myself cx reach n).
  assert (tr_tid t = tr_tid (reply n) /\ forall j, Z.testbit (tr_primary_nodes (reply n)) j = true -> Z.testbit (tr_primary_nodes t) j = true) as [T1 T2].
  { unfold t, count_myself. cbv zeta. case_match; [|done]. cbn. split; [done|]. intros j Hj. by rewrite Z.lor_spec, Hj. }
  clearbody t. match goal with |- context [set_change _ (set_reply ?x (set_reply t n))] => set (t' := x) end.
  assert (tr_tid t' = tr_tid t /\ tr_primary_nodes t' = tr_primary_nodes t) as [T3 T4] by (unfold t'; by case_match). clearbody t'.
  split; [done|]. split; [|split].
  - apply over_left; try done. change (tr_tid t' = tr_tid (reply n)). congruence.
  - change (tr_tid t' = tr_tid (reply n)). congruence.
  - intros j Hj. change (Z.testbit (tr_primary_nodes t') j = true). rewrite T4. by apply T2.
Qed.

Lemma decision_spec cx target hp rv n : let '(rv', b, n') := decision cx target hp rv n in
  conns n' = conns n /\ over n n' /\ tr_tid (reply n') = tr_tid (reply n) /\
  (forall j, Z.testbit (tr_primary_nodes (reply n)) j = true -> Z.testbit (tr_primary_nodes (reply n')) j = true) /\
  (hp = true -> rv_ok rv' = true -> rv_ok rv = true).
Proof.
  unfold decision. destruct (hp && bool_decide (rv = SS_CW_SUCCESS)) eqn:Hc.
  - apply andb_true_iff in Hc as [-> ->%bool_decide_eq_true]. pose proof (agreed_spec cx (reach_of_change cx target n) n) as Ha.
    destruct (change_agreed _ _ n) as [[rv' b] n']. destruct Ha as (? & ? & ? & ?). by split_and!.
  - split_and!; try done; [by apply over_left|]. intros ->. cbn [andb] in *. destruct (_ && _ && _ && _); [done|]. done.
Qed.

Lemma change_decide_spec now f cx target hp rv n : good_change f ->
  match change_decide now f cx target hp rv n with
  | Ended _ n' out | Retry _ n' out => over n n' /\ requests_of (tr_tid (reply n)) out
  | _ => False
  end.
Proof.
  intros Hf. unfold change_decide. cbv zeta. pose proof (decision_spec cx target hp rv n) as Hd.
  destruct (decision cx target hp rv n) as [[rv' b] n1]. destruct Hd as (_ & O1 & T1 & _).
  match goal with |- context [twopc_phase2 ?q ?rc ?m] => set (rq := q); set (n2 := m); set (reach := rc) end.
  assert (rq_tid rq = tr_tid (reply n)) as Hrq by exact T1. clearbody rq reach.
  assert (over n n2) as O2.
  { unfold n2. destruct target; [|done]. case_match; [done|]. eapply over_trans; [exact O1|]. destruct (keeps_alter_peers_of n0 abort_connect_pd (n_resource n1)) as [E1 _ E2 E3 E4].
    apply over_left; try done. }
  clearbody n2. set (p2 := if hp then _ else []).
  assert (requests_of (tr_tid (reply n)) p2) as Hp2. { unfold p2. destruct hp; [|apply requests_nil]. rewrite <-Hrq. apply send_list_requests. }
  clearbody p2. destruct (_ && negb (CS_DONT_RETRY _)).
  - split; [|done]. eapply over_trans; [exact O2|]. destruct (clear_spec n2) as (C1 & C2 & C3 & C4). set (n3 := __clear_remote_state_change n2) in *.
    destruct (begin_net (with_flags (twopc_flags cx) (n_resource n3))) as [E1 _ E2 E3 E4].
    split; [exact (eq_trans E1 C1)|exact (eq_trans E2 C2)|]. right. split; [exact (eq_trans E4 C3)|exact (eq_trans (f_equal tr_tid E3) C4)].
  - pose proof (change_local_spec now f cx rv' n2 Hf) as Hl. destruct (change_local now f cx rv' n2) as [[rv2 n3] out]. destruct Hl as [O3 Hs].
    split; [by eapply over_trans|]. apply no_sends_requests with (tid := tr_tid (reply n)) in Hs. case_match; by apply requests_app.
Qed.

(** The initiator has asked all that it can reach. *)
Record initiates (tid : Z) (n n' : node) (out : list effect) : Prop := {
  in_id : node_id n' = node_id n;
  in_ids : ids (conns n') = ids (conns n);
  in_remote : remote_state_change n' = true;
  in_work : TWOPC_WORK_PENDING n' = TWOPC_WORK_PENDING n;
  in_tid : tr_tid (reply n') = tid;
  in_initiator : tr_initiator_node_id (reply n') = Z.of_nat (node_id n);
  in_conn c : c ∈ conns n' -> prepared c = true ->
    said_yes c = false /\ exists pk, Send (peer_id c) (Request pk) ∈ out /\ rq_tid (pq_request pk) = tid;
  in_send d m : Send d m ∈ out -> exists pk, m = Request pk /\ rq_cmd (pq_request pk) = P_TWOPC_PREPARE /\ rq_tid (pq_request pk) = tid /\
    rq_initiator_node_id (pq_request pk) = Z.of_nat (node_id n) /\ Z.testbit (rq_nodes_to_reach (pq_request pk)) (Z.of_nat (node_id n)) = false /\
    exists c, c ∈ conns n' /\ peer_id c = d /\ prepared c = true }.

Lemma not_to_reach x m : Z.testbit (u64 (Z.lnot (Z.lor x (NODE_MASK m)))) (Z.of_nat m) = false.
Proof.
  unfold u64. rewrite testbit_mod_pow2 by lia. rewrite Z.lnot_spec by lia. rewrite my_bit_in. apply andb_false_r.
Qed.

Lemma first_reply_spec cx tid n : tr_tid (first_reply cx tid n) = tid /\ tr_initiator_node_id (first_reply cx tid n) = Z.of_nat (node_id n).
Proof. unfold first_reply. cbv zeta. by repeat case_match. Qed.

Lemma change_prepare_spec now sends tid f cx n : good_change f ->
  match change_prepare now sends false tid f cx n with
  | Waiting _ n' out => remote_state_change n = false /\ initiates tid n n' out
  | Ended _ n' out | Retry _ n' out =>
      remote_state_change n = false /\ node_id n' = node_id n /\ ids (conns n') = ids (conns n) /\
      ((remote_state_change n' = true /\ tr_tid (reply n') = tid) \/ (remote_state_change n' = false /\ (tr_tid (reply n') = 0 \/ tr_tid (reply n') = tr_tid (reply n)))) /\
      requests_of tid out
  | _ => True
  end.
Proof.
  intros Hf. unfold change_prepare. destruct (remote_state_change n) eqn:Hrem; [done|].
  destruct (target_connection cx n) as [target|].
  2:{ unfold end_change. cbv zeta. destruct (end_net now SS_NEED_CONNECTION (n_resource n)) as [Hq1 Hq2].
      assert (quiet (r_flags (n_resource n)) (n_resource n) (___end_state_change now SS_NEED_CONNECTION (n_resource n))) as Hq by (split; [by apply same_net_tx|done]).
      pose proof (changed_over _ n _ _ (reflexivity _) Hq) as [O1 O2 O3]. pose proof (changed_out (___end_state_change now SS_NEED_CONNECTION (n_resource n)) n) as Hs.
      destruct (changed _ n) as [n' out]. cbn in *. split_and!; try done; [right; destruct O3 as [[? ?]|[? ?]]; split; auto; congruence|by apply no_sends_requests]. }
  cbv zeta. set (n1 := set_parents _ _ _). destruct (first_reply_spec cx tid n1) as [F1 F2]. set (t := first_reply cx tid n1) in *.
  match goal with |- context [__cluster_wide_request sends ?q ?rc ?m] => set (rq := q); set (n2 := m); set (reach := rc) end.
  assert (kept (with_res (set_twopc true t) n1) n2 /\ reply n2 = t) as [[K1 K2 K3 K4 K5] R2].
  { unfold n2. destruct target as [i|]; [|done]. case_match; [|done]. split; [apply kept_with_res, init_connect_net|]. by rewrite reply_with_res by apply init_connect_net. }
  change (node_id n2 = node_id n) in K1. change (ids (conns n2) = ids (conns n)) in K2. change (remote_state_change n2 = true) in K3.
  change (TWOPC_WORK_PENDING n2 = TWOPC_WORK_PENDING n) in K5. change (tr_initiator_node_id t = Z.of_nat (node_id n)) in F2.
  assert (rq_tid rq = tid /\ rq_cmd rq = P_TWOPC_PREPARE /\ rq_initiator_node_id rq = Z.of_nat (node_id n2) /\
    Z.testbit (rq_nodes_to_reach rq) (Z.of_nat (node_id n2)) = false) as (Q1 & Q2 & Q3 & Q4) by (split_and!; try done; apply not_to_reach).
  clearbody n1 n2 t rq reach. pose proof (cluster_wide_request_spec sends rq reach n2) as Hs.
  destruct (__cluster_wide_request sends rq reach n2) as [[rv n3] out]. destruct Hs as [[[J1 J2 J3 J4 J5] A2 A3 A4] _].
  assert (initiates tid n n3 out) as Hi.
  { split; try congruence.
    - intros c Hc Hp. destruct (A3 c Hc Hp) as [? (pk & ? & ?)]. split; [done|]. exists pk. split; [done|congruence].
    - intros d m Hin. destruct (A4 d m Hin) as (pk & -> & B1 & B2 & B3 & B4 & _ & Hc). exists pk. rewrite B1, B2, B3, B4. split_and!; try congruence; done. }
  assert (requests_of tid out) as Hreq. { intros d m Hin. destruct (A4 d m Hin) as (pk & -> & _ & ? & _). exists pk. split; [done|congruence]. }
  match goal with |- context [@bool_decide ?P ?D] => destruct (@bool_decide P D) end.
  - destruct target as [i|]; [|done]. destruct (asks cx C_CONNECTED && _); [|done].
    destruct (connect2_net (sends (peer_id (conns n3 !!! i))) i (n_resource n3)) as [E1 _ E2 E3 E4]. split; [done|]. destruct Hi as [I1 I2 I3 I4 I5 I6 I7 I8].
    split; [exact (eq_trans E1 I1)|exact (eq_trans E2 I2)|exact (eq_trans E4 I3)|done|exact (eq_trans (f_equal tr_tid E3) I5)|exact (eq_trans (f_equal tr_initiator_node_id E3) I6)|..].
    + intros c Hc Hp. destruct (I7 c Hc Hp) as [? (pk & ? & ?)]. split; [done|]. exists pk. split; [|done]. rewrite elem_of_app. by left.
    + intros d m [Hin|Hin]%elem_of_app; [by apply I8|]. by apply list_elem_of_singleton in Hin.
  - match goal with |- context [change_decide now f cx target false ?v n3] => pose proof (change_decide_spec now f cx target false v n3 Hf) as Hd; destruct (change_decide now f cx target false v n3) end; try done.
    all: destruct Hd as [[O1 O2 O3] Hr]; destruct Hi as [I1 I2 I3 I4 I5 I6 _ _]; rewrite I5 in *; split_and!; try congruence; try (by apply requests_app).
    all: destruct O3 as [[? ?]|[? ?]]; [left; split; congruence|right; auto].
Qed.
End steps.
