(* ===== verification/TwoPhaseAgree.v ===== *)
(** * Two phase commit: the invariant of a transaction

    Who asked whom is a tree: a node answers to the first that asked it.  A yes stands for the whole
    tree below a node, also when a peer counted as a yes only because it sent the request too. *)
From S2P Require Import Prelude Headers State StateFinish TwoPhase TwoPhaseLocal TwoPhaseRecv TwoPhaseChange TwoPhaseProps TwoPhaseNet TwoPhaseSteps.

Definition has (mask : Z) (m : nat) : Prop := Z.testbit mask (Z.of_nat m) = true.
Definition sub (a b : Z) : Prop := forall m, has a m -> has b m.

#[export] Instance sub_preorder : PreOrder sub.
Proof. split; [by intros a m|]. intros a b c H1 H2 m Hm. by apply H2, H1. Qed.

Lemma sub_lor_l a b : sub a (Z.lor a b).
Proof. intros m Hm. unfold has in *. by rewrite Z.lor_spec, Hm. Qed.

Lemma sub_lor_r a b : sub b (Z.lor a b).
Proof. intros m Hm. unfold has in *. by rewrite Z.lor_spec, Hm, orb_true_r. Qed.

Section transaction.
Context `{TwopcHeaders}.
Context (tid : Z) (i : nat).

Definition in_tx (n : node) : Prop := remote_state_change n = true /\ tr_tid (reply n) = tid.
Definition acc (w : world) (m p : nat) (ok primary : bool) : Prop := Accepted tid m p ok primary ∈ log w.
(** The node takes part; it is ready for the change; it said yes. *)
Definition part (w : world) (m : nat) : Prop := m = i \/ exists p ok pr, acc w m p ok pr.
Definition ready (w : world) (m : nat) : Prop := m = i \/ exists p pr, acc w m p true pr.
Definition voted (w : world) (m : nat) : Prop := n_prepare_reply_cmd (nodes w m) = Some P_TWOPC_YES.
Definition primaries (w : world) (m : nat) : Z := tr_primary_nodes (reply (nodes w m)).
Definition asked_conn (w : world) (m d : nat) : Prop := exists c, c ∈ conns (nodes w m) /\ peer_id c = d /\ prepared c = true.

(** A request that is under way. *)
Record request_ok (w : world) (s d : nat) (rq : twopc_request) : Prop := {
  ro_prepare : rq_cmd rq = P_TWOPC_PREPARE;
  ro_initiator : rq_initiator_node_id rq = Z.of_nat i;
  ro_part : part w s;
  ro_not_i : d <> i;
  ro_reach_i : ~ has (rq_nodes_to_reach rq) i;
  ro_reach_s : ~ has (rq_nodes_to_reach rq) s;
  ro_parent p ok pr : acc w s p ok pr -> d <> p;
  ro_asked : ready w s -> asked_conn w s d }.

(** [x] said yes to [s]; if [s] asked it first then with the primaries below [x]. *)
Definition yes_ok (V : nat -> Z) (w : world) (s x : nat) : Prop :=
  (exists p ok pr, acc w x p ok pr) /\ forall ok pr, acc w x s ok pr -> voted w x /\ sub (V x) (primaries w s).

(** [V m] are the primaries that node [m] answered for. *)
Record tx_inv (V : nat -> Z) (w : world) : Prop := {
  tx_init : in_tx (nodes w i) /\ tr_initiator_node_id (reply (nodes w i)) = Z.of_nat i;
  tx_acc m p ok pr : acc w m p ok pr -> in_tx (nodes w m) /\ m <> i /\ tr_initiator_node_id (reply (nodes w m)) = Z.of_nat i;
  tx_part m : in_tx (nodes w m) -> part w m;
  tx_fun m p ok pr p' ok' pr' : acc w m p ok pr -> acc w m p' ok' pr' -> p = p' /\ ok = ok' /\ pr = pr';
  tx_order l1 l2 m p ok pr : log w = l1 ++ Accepted tid m p ok pr :: l2 -> p = i \/ exists p' ok' pr', Accepted tid p p' ok' pr' ∈ l2;
  tx_request s d pk : (s, d, Request pk) ∈ soup w -> rq_tid (pq_request pk) = tid -> request_ok w s d (pq_request pk);
  tx_answer s d a : (s, d, Answer a) ∈ soup w -> pr_tid a = tid -> pr_cmd a = P_TWOPC_YES ->
    (exists p pr, acc w s p true pr) /\ voted w s /\ sub (V s) (pr_primary_nodes a);
  tx_yes s c : ready w s -> c ∈ conns (nodes w s) -> prepared c = true -> said_yes c = true -> yes_ok V w s (peer_id c);
  tx_sent s c : ready w s -> c ∈ conns (nodes w s) -> prepared c = true -> exists pk, (s, peer_id c, Request pk) ∈ soup w /\ rq_tid (pq_request pk) = tid;
  tx_child x m ok pr : acc w x m ok pr -> ready w m -> asked_conn w m x;
  tx_vote m p ok pr : acc w m p ok pr -> voted w m ->
    ok = true /\ (pr = true -> has (V m) m) /\ sub (V m) (primaries w m) /\ all_yes (nodes w m) /\
    (forall x ok' pr', acc w x m ok' pr' -> voted w x /\ sub (V x) (V m));
  tx_own m p ok pr : acc w m p ok pr -> (pr = true -> has (primaries w m) m) /\
    (ok = false -> tr_state_change_failed (reply (nodes w m)) = true \/ n_prepare_reply_cmd (nodes w m) <> None) }.

(** ** Steps that do not concern the transaction *)

Definition no_event (evs : list event) : Prop := forall m p ok pr, Accepted tid m p ok pr ∉ evs.

(** Only the state of [d] changes, packets are added and things happen. *)
Record step_at (w w' : world) (d : nat) (evs : list event) : Prop := {
  sa_nodes m : m <> d -> nodes w' m = nodes w m;
  sa_soup x : x ∈ soup w -> x ∈ soup w';
  sa_log : log w' = evs ++ log w }.

Lemma acc_frame w w' d evs m p ok pr : step_at w w' d evs -> no_event evs -> acc w' m p ok pr <-> acc w m p ok pr.
Proof. intros [_ _ Hl] Hn. unfold acc. rewrite Hl, elem_of_app. split; [intros [Hin|?]; [by apply Hn in Hin|done]|by right]. Qed.

Lemma part_frame w w' d evs m : step_at w w' d evs -> no_event evs -> part w' m <-> part w m.
Proof. intros Hs Hn. unfold part. by setoid_rewrite (acc_frame w w' d evs _ _ _ _ Hs Hn). Qed.

Lemma ready_frame w w' d evs m : step_at w w' d evs -> no_event evs -> ready w' m <-> ready w m.
Proof. intros Hs Hn. unfold ready. by setoid_rewrite (acc_frame w w' d evs _ _ _ _ Hs Hn). Qed.

(** A log that only grew by other events keeps the order. *)
Lemma order_frame w w' evs : log w' = evs ++ log w -> no_event evs ->
  (forall l1 l2 m p ok pr, log w = l1 ++ Accepted tid m p ok pr :: l2 -> p = i \/ exists p' ok' pr', Accepted tid p p' ok' pr' ∈ l2) ->
  forall l1 l2 m p ok pr, log w' = l1 ++ Accepted tid m p ok pr :: l2 -> p = i \/ exists p' ok' pr', Accepted tid p p' ok' pr' ∈ l2.
Proof.
  intros -> Hn Ho l1 l2 m p ok pr Hl. apply app_eq_app in Hl as (k & [[E1 E2]|[E1 E2]]).
  - destruct k as [|x k]; [by eapply (Ho []); cbn in E2|]. injection E2 as <- E2. exfalso. apply (Hn m p ok pr). rewrite E1. set_solver.
  - by eapply Ho.
Qed.

(** The node of a participant: votes are added, and primaries. *)
Record grows (V : nat -> Z) (w : world) (d : nat) (n n' : node) : Prop := {
  gr_tx : in_tx n';
  gr_initiator : tr_initiator_node_id (reply n') = tr_initiator_node_id (reply n);
  gr_failed : tr_state_change_failed (reply n') = tr_state_change_failed (reply n);
  gr_cmd : n_prepare_reply_cmd n' = Some P_TWOPC_YES <-> n_prepare_reply_cmd n = Some P_TWOPC_YES;
  gr_said : n_prepare_reply_cmd n <> None -> n_prepare_reply_cmd n' <> None;
  gr_primaries : sub (tr_primary_nodes (reply n)) (tr_primary_nodes (reply n'));
  gr_old c' : c' ∈ conns n' -> exists c, c ∈ conns n /\ peer_id c' = peer_id c /\ prepared c' = prepared c /\ (said_yes c = true -> said_yes c' = true) /\
    (prepared c' = true -> said_yes c' = true -> said_yes c = true \/
       (ready w d -> (exists p ok pr, acc w (peer_id c) p ok pr) /\
          forall ok pr, acc w (peer_id c) d ok pr -> voted w (peer_id c) /\ sub (V (peer_id c)) (tr_primary_nodes (reply n'))));
  gr_new c : c ∈ conns n -> exists c', c' ∈ conns n' /\ peer_id c' = peer_id c /\ prepared c' = prepared c }.

Lemma node_frame V w w' d evs :
  tx_inv V w -> step_at w w' d evs -> no_event evs ->
  (forall s x pk, (s, x, Request pk) ∈ soup w' -> rq_tid (pq_request pk) = tid -> (s, x, Request pk) ∈ soup w) ->
  (forall s x a, (s, x, Answer a) ∈ soup w' -> pr_tid a = tid -> pr_cmd a = P_TWOPC_YES ->
     (s, x, Answer a) ∈ soup w \/ (s = d /\ (exists p ok pr, acc w d p ok pr) /\ voted w d /\ sub (primaries w d) (pr_primary_nodes a))) ->
  (part w d -> grows V w d (nodes w d) (nodes w' d)) -> (~ part w d -> ~ in_tx (nodes w' d)) ->
  tx_inv V w'.
Proof.
  intros Hinv Hst Hev Hreq Hans Hpart Hidle. pose proof Hinv as [I1 I2 I3 I4 I5 I6 I7 I8 I9 I10 I11 I12].
  pose proof (fun m p ok pr => acc_frame w w' d evs m p ok pr Hst Hev) as Ea. pose proof (fun m => ready_frame w w' d evs m Hst Hev) as Er.
  pose proof (fun m => part_frame w w' d evs m Hst Hev) as Ep. destruct Hst as [Hn Hsoup Hlog].
  assert (forall m p ok pr, acc w m p ok pr -> part w m) as Hap by (intros m p ok pr Ha; right; by exists p, ok, pr).
  assert (forall m, ready w m -> part w m) as Hrp by (intros m [?|(p & pr & ?)]; [by left|right; by exists p, true, pr]).
  assert (forall m, part w m -> (nodes w' m = nodes w m \/ grows V w m (nodes w m) (nodes w' m))) as Hm.
  { intros m Hp. destruct (decide (m = d)) as [->|Hne]; [right; by apply Hpart|left; by apply Hn]. }
  assert (forall m p ok pr, acc w m p ok pr -> voted w' m <-> voted w m) as Ev.
  { intros m p ok pr Ha. unfold voted. destruct (Hm m (Hap _ _ _ _ Ha)) as [->|[_ _ _ ? _ _ _ _]]; done. }
  assert (forall m, part w m -> sub (primaries w m) (primaries w' m)) as Eps.
  { intros m Hp. unfold primaries. destruct (Hm m Hp) as [->|[_ _ _ _ _ ? _ _]]; done. }
  assert (forall m x, ready w m -> asked_conn w m x -> asked_conn w' m x) as Eas.
  { intros m x Hr (c & Hc & <- & Hp). destruct (Hm m (Hrp m Hr)) as [E|[_ _ _ _ _ _ _ Hnew]]; [exists c; by rewrite E|].
    destruct (Hnew c Hc) as (c' & Hc' & E1 & E2). exists c'. split; [done|]. by rewrite E1, E2. }
  split.
  - destruct (Hm i) as [->|[? -> _ _ _ _ _ _]]; [by left|done|by destruct I1].
  - intros m p ok pr Ha%Ea. destruct (I2 m p ok pr Ha) as (? & ? & ?). destruct (Hm m (Hap _ _ _ _ Ha)) as [->|[? -> _ _ _ _ _ _]]; done.
  - intros m Htx. apply Ep. destruct (decide (m = d)) as [->|Hne]; [|apply I3; by rewrite Hn in Htx]. destruct (decide (in_tx (nodes w d))) as [?|Hnd]; [by apply I3|].
    exfalso. apply (Hidle); [|done]. intros Hp. apply Hnd. destruct Hp as [->|(p & ok & pr & Ha)]; [by destruct I1|]. by destruct (I2 _ _ _ _ Ha).
  - intros m p ok pr p' ok' pr' Ha%Ea Ha'%Ea. by eapply I4.
  - by eapply order_frame.
  - intros s x pk Hin Ht. destruct (I6 s x pk (Hreq s x pk Hin Ht) Ht) as [? ? ? ? ? ? R7 R8]. split; try done; [by apply Ep|intros p ok pr ?%Ea; by eapply R7|].
    intros Hr%Er. by apply Eas, R8.
  - intros s x a Hin Ht Hy. setoid_rewrite Ea. destruct (Hans s x a Hin Ht Hy) as [Hin'|(-> & (p & ok & pr & Ha) & Hv & Hs)].
    + destruct (I7 s x a Hin' Ht Hy) as ((p & pr & Ha) & Hv & Hs). split; [by exists p, pr|]. split; [by apply (Ev s p true pr)|done].
    + destruct (I11 d p ok pr Ha Hv) as (-> & _ & Hs' & _). split; [by exists p, pr|]. split; [by apply (Ev d p true pr)|]. by etransitivity.
  - intros s c' Hr%Er Hc' Hp Hy. unfold yes_ok. setoid_rewrite Ea.
    assert (forall x, yes_ok V w s x -> (exists p ok pr, acc w x p ok pr) /\ forall ok pr, acc w x s ok pr -> voted w' x /\ sub (V x) (primaries w' s)) as Hok.
    { intros x [Hx Hs]. split; [done|]. intros ok pr Ha. destruct (Hs ok pr Ha) as [Hv Hsub]. split; [by apply (Ev _ _ _ _ Ha)|]. etransitivity; [exact Hsub|]. by apply Eps, Hrp. }
    destruct (Hm s (Hrp s Hr)) as [E|Hg]; [apply Hok; rewrite E in Hc'; by apply I8|]. destruct Hg as [_ _ _ _ _ _ Hold _]. destruct (Hold c' Hc') as (c & Hc & E1 & E2 & _ & Hor).
    rewrite E1. destruct (Hor Hp Hy) as [Hy'|Hj]; [apply Hok; apply I8; try done; by rewrite <-E2|]. destruct (Hj Hr) as [Hx Hsub]. split; [done|].
    intros ok pr Ha. destruct (Hsub ok pr Ha) as [Hv ?]. split; [by apply (Ev _ _ _ _ Ha)|done].
  - intros s c' Hr%Er Hc' Hp. assert (exists c, c ∈ conns (nodes w s) /\ peer_id c' = peer_id c /\ prepared c' = prepared c) as (c & Hc & E1 & E2).
    { destruct (Hm s (Hrp s Hr)) as [E|[_ _ _ _ _ _ Hold _]]; [exists c'; by rewrite E in Hc'|]. destruct (Hold c' Hc') as (c & ? & ? & ? & _). by exists c. }
    rewrite E1. rewrite E2 in Hp. destruct (I9 s c Hr Hc Hp) as (pk & ? & ?). exists pk. split; [by apply Hsoup|done].
  - intros x m ok pr Ha%Ea Hr%Er. apply Eas; [done|]. by eapply I10.
  - intros m p ok pr Ha%Ea Hv%(Ev _ _ _ _ Ha). destruct (I11 m p ok pr Ha Hv) as (J1 & J2 & J3 & J4 & J5). split_and!; try done.
    + etransitivity; [exact J3|]. by apply Eps, (Hap _ _ _ _ Ha).
    + destruct (Hm m (Hap _ _ _ _ Ha)) as [->|[_ _ _ _ _ _ Hold _]]; [done|].
      intros c' Hc' Hp. destruct (Hold c' Hc') as (c & Hc & E1 & E2 & Hy & _). rewrite E2 in Hp. by apply Hy, J4.
    + intros x ok' pr' Hx%Ea. destruct (J5 x ok' pr' Hx) as [? ?]. split; [by apply (Ev _ _ _ _ Hx)|done].
  - intros m p ok pr Ha%Ea. destruct (I12 m p ok pr Ha) as [J1 J2]. split.
    + intros Hpr. apply (Eps m (Hap _ _ _ _ Ha)), J1, Hpr.
    + destruct (Hm m (Hap _ _ _ _ Ha)) as [->|[_ _ -> _ Hsaid _ _ _]]; [done|]. intros Hok. destruct (J2 Hok); auto.
Qed.

(** ** A vote *)

Lemma vote_yes V w w' d evs p ok pr :
  tx_inv V w -> step_at w w' d evs -> no_event evs -> acc w d p ok pr ->
  (forall s x pk, (s, x, Request pk) ∈ soup w' -> rq_tid (pq_request pk) = tid -> (s, x, Request pk) ∈ soup w) ->
  (forall s x a, (s, x, Answer a) ∈ soup w' -> pr_tid a = tid -> pr_cmd a = P_TWOPC_YES ->
     (s, x, Answer a) ∈ soup w \/ (s = d /\ pr_primary_nodes a = primaries w d)) ->
  in_tx (nodes w' d) -> reply (nodes w' d) = reply (nodes w d) -> flag_of <$> conns (nodes w' d) = flag_of <$> conns (nodes w d) ->
  n_prepare_reply_cmd (nodes w d) = None -> n_prepare_reply_cmd (nodes w' d) = Some P_TWOPC_YES ->
  tr_state_change_failed (reply (nodes w d)) = false -> all_yes (nodes w d) ->
  tx_inv (upd V d (primaries w d)) w'.
Proof.
  intros Hinv Hst Hev Hacc Hreq Hans Htx Hrep Hfl Hnone Hyes Hfail Hall. pose proof Hinv as [I1 I2 I3 I4 I5 I6 I7 I8 I9 I10 I11 I12].
  pose proof (fun m p ok pr => acc_frame w w' d evs m p ok pr Hst Hev) as Ea. pose proof (fun m => ready_frame w w' d evs m Hst Hev) as Er.
  pose proof (fun m => part_frame w w' d evs m Hst Hev) as Ep. destruct Hst as [Hn Hsoup Hlog].
  assert (~ voted w d) as Hnv by (unfold voted; congruence).
  assert (forall m, voted w m -> voted w' m /\ upd V d (primaries w d) m = V m) as Ev.
  { intros m Hv. assert (m <> d) as Hne by (by intros ->). unfold voted, upd. by rewrite Hn, (proj2 (Nat.eqb_neq _ _) Hne). }
  assert (upd V d (primaries w d) d = primaries w d) as Ed by (unfold upd; by rewrite Nat.eqb_refl).
  assert (forall m, primaries w' m = primaries w m) as Epr. { intros m. unfold primaries. destruct (decide (m = d)) as [->|Hne]; [by rewrite Hrep|by rewrite Hn]. }
  assert (forall m c', c' ∈ conns (nodes w' m) -> exists c, c ∈ conns (nodes w m) /\ flag_of c = flag_of c') as Ec.
  { intros m c' Hc'. destruct (decide (m = d)) as [->|Hne]; [by eapply flags_elem|]. rewrite Hn in Hc' by done. by exists c'. }
  assert (forall m x, asked_conn w m x -> asked_conn w' m x) as Eas.
  { intros m x (c & Hc & Hx & Hp). destruct (decide (m = d)) as [->|Hne]; [|exists c; by rewrite Hn]. destruct (flags_elem _ _ c (eq_sym Hfl) Hc) as (c' & Hc' & E).
    injection E as E1 E2 _. exists c'. split; [done|]. by rewrite E1, E2. }
  assert (forall m x, yes_ok V w m x -> yes_ok (upd V d (primaries w d)) w' m x) as Ey.
  { intros m x [Hx Hs]. unfold yes_ok. setoid_rewrite Ea. split; [done|]. intros ok' pr' Ha. destruct (Hs ok' pr' Ha) as [Hv Hsub]. destruct (Ev x Hv) as [? ->]. by rewrite Epr. }
  split.
  - destruct (decide (i = d)) as [->|Hne]; [by rewrite Hrep; destruct I1|by rewrite Hn].
  - intros m p' ok' pr' Ha%Ea. destruct (I2 _ _ _ _ Ha) as (? & ? & ?). destruct (decide (m = d)) as [->|Hne]; [by rewrite Hrep|by rewrite Hn].
  - intros m Hm. apply Ep. destruct (decide (m = d)) as [->|Hne]; [right; by exists p, ok, pr|]. apply I3. by rewrite Hn in Hm.
  - intros m p1 ok1 pr1 p2 ok2 pr2 Ha%Ea Ha'%Ea. by eapply I4.
  - by eapply order_frame.
  - intros s x pk Hin Ht. destruct (I6 s x pk (Hreq s x pk Hin Ht) Ht) as [? ? ? ? ? ? R7 R8]. split; try done; [by apply Ep|intros p' ok' pr' ?%Ea; by eapply R7|].
    intros Hr%Er. by apply Eas, R8.
  - intros s x a Hin Ht Hy. setoid_rewrite Ea. destruct (Hans s x a Hin Ht Hy) as [Hin'|[-> E]].
    + destruct (I7 s x a Hin' Ht Hy) as (? & Hv & ?). destruct (Ev s Hv) as [? ->]. done.
    + rewrite Ed, E. split; [|done]. exists p, pr. assert (ok = true) as ->; [|done]. destruct ok; [done|]. destruct (I12 _ _ _ _ Hacc) as [_ Hf]. destruct Hf; [done|congruence|done].
  - intros s c' Hr%Er Hc' Hp Hy. destruct (Ec s c' Hc') as (c & Hc & E). injection E as E1 E2 E3. rewrite <-E1. apply Ey, I8; congruence.
  - intros s c' Hr%Er Hc' Hp. destruct (Ec s c' Hc') as (c & Hc & E). injection E as E1 E2 _. rewrite <-E1. rewrite <-E2 in Hp. destruct (I9 s c Hr Hc Hp) as (pk & ? & ?).
    exists pk. split; [by apply Hsoup|done].
  - intros x m ok' pr' Ha%Ea Hr%Er. apply Eas. by eapply I10.
  - intros m p' ok' pr' Ha%Ea Hv. assert (ok = true) as Hok. { destruct ok; [done|]. destruct (I12 _ _ _ _ Hacc) as [_ Hf]. destruct Hf; [done|congruence|done]. }
    destruct (decide (m = d)) as [->|Hne].
    + destruct (I4 _ _ _ _ _ _ _ Ha Hacc) as (-> & -> & ->). rewrite Ed, Epr. destruct (I12 _ _ _ _ Hacc) as [Hown _]. split_and!; try done.
      * intros c' Hc' Hp. destruct (Ec d c' Hc') as (c & Hc & E). injection E as _ E2 E3. rewrite <-E3. apply Hall; congruence.
      * intros x ok' pr' Hx%Ea. destruct (I10 x d ok' pr' Hx) as (c & Hc & <- & Hp); [right; exists p, pr; by rewrite <-Hok|].
        assert (ready w d) as Hr by (right; exists p, pr; by rewrite <-Hok).
        destruct (I8 d c Hr Hc Hp (Hall c Hc Hp)) as [_ Hs]. destruct (Hs _ _ Hx) as [Hv' Hsub]. destruct (Ev _ Hv') as [? ->]. done.
    + assert (voted w m) as Hv' by (unfold voted in *; by rewrite Hn in Hv). destruct (Ev m Hv') as [_ ->]. destruct (I11 m p' ok' pr' Ha Hv') as (? & ? & ? & ? & J5).
      rewrite Epr. rewrite Hn by done. split_and!; try done. intros x ok2 pr2 Hx%Ea. destruct (J5 _ _ _ Hx) as [Hvx ?]. destruct (Ev x Hvx) as [? ->]. done.
  - intros m p' ok' pr' Ha%Ea. rewrite Epr. destruct (I12 _ _ _ _ Ha) as [J1 J2]. split; [done|]. intros Hok. destruct (decide (m = d)) as [->|Hne]; [right; congruence|]. rewrite Hn by done. auto.
Qed.

(** ** A node takes part *)

(** The one that asked takes part itself. *)
Lemma parent_part V w m p ok pr : tx_inv V w -> acc w m p ok pr -> part w p.
Proof.
  intros Hinv Ha. apply list_elem_of_split in Ha as (l1 & l2 & Hl). destruct (tx_order V w Hinv _ _ _ _ _ _ Hl) as [->|(p' & ok' & pr' & Hin)]; [by left|].
  right. exists p', ok', pr'. unfold acc. rewrite Hl. set_solver.
Qed.

Definition new_packets (w w' : world) (d : nat) (out : list effect) : Prop :=
  (forall x y m, (x, y, m) ∈ soup w' -> (x, y, m) ∈ soup w \/ (x = d /\ Send y m ∈ out)) /\ (forall y m, Send y m ∈ out -> (d, y, m) ∈ soup w').

Lemma accept_step V w w' s d pk ok pr n out :
  tx_inv V w -> (s, d, Request pk) ∈ soup w -> rq_tid (pq_request pk) = tid -> ~ part w d -> node_id n = d ->
  accepts pk pr ok n (nodes w' d) out -> step_at w w' d [Accepted tid d s ok pr] -> new_packets w w' d out ->
  tx_inv (upd V d (primaries w' d)) w'.
Proof.
  intros Hinv Hin Ht Hnp Hid [A1 A2 A3 A4 A5 A6 A7 A8 A9 A10 A11 A12] [Hn Hsoup Hlog] [Hnew Hsent]. pose proof (parent_part V w) as Hpp.
  pose proof Hinv as [I1 I2 I3 I4 I5 I6 I7 I8 I9 I10 I11 I12]. pose proof (I6 s d pk Hin Ht) as [R1 R2 R3 R4 R5 R6 R7 R8].
  assert (forall m p ok' pr', acc w' m p ok' pr' <-> acc w m p ok' pr' \/ (m = d /\ p = s /\ ok' = ok /\ pr' = pr)) as Ea.
  { intros. unfold acc. rewrite Hlog. cbn. rewrite elem_of_cons. split; [intros [E|?]; [injection E as -> -> -> ->; by right|by left]|intros [?|(-> & -> & -> & ->)]; [by right|by left]]. }
  assert (forall m p ok' pr', acc w m p ok' pr' -> m <> d) as Hd by (intros m p ok' pr' Ha ->; apply Hnp; right; by exists p, ok', pr').
  assert (i <> d) as Hid' by (intros ->; apply Hnp; by left).
  assert (forall m p ok' pr', acc w m p ok' pr' -> acc w' m p ok' pr') as Eup by (intros; apply Ea; by left).
  assert (forall m, part w m -> part w' m) as Ep by (intros m [?|(p & ok' & pr' & ?)]; [by left|right; exists p, ok', pr'; by apply Eup]).
  assert (forall m, m <> d -> ready w' m -> ready w m) as Er. { intros m Hne [?|(p & pr' & [?|(? & _)]%Ea)]; [by left|right; by exists p, pr'|done]. }
  assert (ready w' d -> ok = true) as Erd. { intros [?|(p & pr' & [Ha|(_ & _ & <- & _)]%Ea)]; [congruence|by apply Hd in Ha|done]. }
  assert (forall m, m <> d -> (voted w' m <-> voted w m) /\ primaries w' m = primaries w m /\ upd V d (primaries w' d) m = V m) as En.
  { intros m Hne. unfold voted, primaries, upd. by rewrite Hn, (proj2 (Nat.eqb_neq _ _) Hne). }
  assert (upd V d (primaries w' d) d = primaries w' d) as Ed by (unfold upd; by rewrite Nat.eqb_refl).
  assert (forall m x, m <> d -> asked_conn w m x -> asked_conn w' m x) as Eas by (intros m x Hne (c & ?); exists c; by rewrite Hn).
  split.
  - by rewrite Hn.
  - intros m p ok' pr' [Ha|(-> & -> & -> & ->)]%Ea; [rewrite Hn by (by eapply Hd); by eapply I2|]. unfold in_tx. rewrite A5, A6, R2. by split_and!.
  - intros m Hm. destruct (decide (m = d)) as [->|Hne]; [right; exists s, ok, pr; apply Ea; by right|]. apply Ep, I3. by rewrite <-Hn.
  - intros m p1 ok1 pr1 p2 ok2 pr2 [Ha|(-> & -> & -> & ->)]%Ea [Ha'|(E & -> & -> & ->)]%Ea; [by eapply I4|exfalso; by eapply Hd|exfalso; by eapply Hd|done].
  - intros l1 l2 m p ok' pr' Hl. rewrite Hlog in Hl. destruct l1 as [|e l1]; cbn in Hl; [injection Hl as <- <- <- <- <-|injection Hl as _ Hl; by eapply I5].
    destruct R3 as [->|R3]; [by left|by right].
  - intros x y q Hq Hqt. destruct (Hnew x y (Request q) Hq) as [Hq'|[-> Hq']].
    + destruct (I6 x y q Hq' Hqt) as [? ? P3 ? ? ? P7 P8]. assert (x <> d) as Hne by (by intros ->). split; try done; [by apply Ep| |].
      * intros p ok' pr' [Ha|(-> & _)]%Ea; [by eapply P7|done].
      * intros Hr. apply Eas; [done|]. by apply P8, Er.
    + destruct (A10 y q Hq') as (B1 & B2 & B3 & B4 & B5 & B6). split; try done.
      * by rewrite B3.
      * right. exists s, ok, pr. apply Ea. by right.
      * intros ->. by apply R5.
      * intros [Hi _]%B5. by apply R5.
      * intros [_ Hi]%B5. by apply Hi.
      * intros p ok' pr' [Ha|(_ & -> & _)]%Ea; [exfalso; by eapply Hd|]. intros ->. by apply R6.
  - intros x y a Hq Hqt Hy. destruct (Hnew x y (Answer a) Hq) as [Hq'|[-> Hq']].
    + destruct (I7 x y a Hq' Hqt Hy) as ((p & pr' & Ha) & Hv & Hs). destruct (En x) as (Ev & _ & ->); [by eapply Hd|]. split; [exists p, pr'; by apply Eup|]. split; [by apply Ev|done].
    + destruct (A11 y a Hq') as [_ Hc]. destruct (Hc Hy) as [Hc1 Hc2]. destruct (A12 Hc1) as [-> _]. split; [exists s, pr; apply Ea; by right|]. split; [done|]. rewrite Ed, Hc2. done.
  - intros x c Hr Hc Hp Hy. destruct (decide (x = d)) as [->|Hne]; [destruct (A9 c (Erd Hr) Hc Hp); congruence|]. rewrite Hn in Hc by done.
    destruct (I8 x c (Er x Hne Hr) Hc Hp Hy) as [(p & ok' & pr' & Ha) Hs]. split; [exists p, ok', pr'; by apply Eup|].
    intros ok2 pr2 [Hx|(E & _)]%Ea; [|exfalso; by eapply Hd]. destruct (Hs _ _ Hx) as [Hv Hsub]. destruct (En (peer_id c)) as (Ev & _ & ->); [by eapply Hd|].
    destruct (En x Hne) as (_ & -> & _). split; [by apply Ev|done].
  - intros x c Hr Hc Hp. destruct (decide (x = d)) as [->|Hne].
    + destruct (A9 c (Erd Hr) Hc Hp) as [_ (q & Hq & Hqt)]. exists q. split; [by apply Hsent|congruence].
    + rewrite Hn in Hc by done. destruct (I9 x c (Er x Hne Hr) Hc Hp) as (q & ? & ?). exists q. split; [by apply Hsoup|done].
  - intros x m ok' pr' [Ha|(-> & -> & -> & ->)]%Ea Hr.
    + assert (m <> d) as Hne by (intros ->; by apply Hnp, (Hpp _ _ _ _ Hinv Ha)). apply Eas; [done|]. by eapply I10, Er.
    + assert (s <> d) as Hne by (by intros ->). apply Eas; [done|]. by apply R8, Er.
  - intros m p ok' pr' [Ha|(-> & -> & -> & ->)]%Ea Hv.
    + assert (m <> d) as Hne by by eapply Hd. destruct (En m Hne) as (Ev & -> & ->). apply Ev in Hv. destruct (I11 _ _ _ _ Ha Hv) as (-> & ? & ? & J4 & J5).
      rewrite Hn by done. split_and!; try done. intros x ok2 pr2 [Hx|(-> & -> & _)]%Ea.
      * destruct (J5 _ _ _ Hx) as [Hvx ?]. destruct (En x) as (Evx & _ & ->); [by eapply Hd|]. split; [by apply Evx|done].
      * exfalso. assert (ready w s) as Hr by (right; by exists p, pr'). destruct (R8 Hr) as (c & Hc & <- & Hp).
        destruct (I8 s c Hr Hc Hp (J4 c Hc Hp)) as [(? & ? & ? & Hx) _]. by eapply Hd.
    + destruct (A12 Hv) as [-> Hnone]. rewrite Ed. split_and!; try done.
      * intros Hpr. unfold has, primaries. rewrite <-Hid at 2. by apply A7.
      * intros c Hc Hp. by rewrite Hnone in Hp.
      * intros x ok2 pr2 [Hx|(-> & -> & _)]%Ea; exfalso; [by apply Hnp, (Hpp _ _ _ _ Hinv Hx)|by apply Hnp].
  - intros m p ok' pr' [Ha|(-> & -> & -> & ->)]%Ea.
    + destruct (En m) as (_ & -> & _); [by eapply Hd|]. rewrite Hn by (by eapply Hd). by eapply I12.
    + split; [|exact A8]. intros Hpr. unfold has, primaries. rewrite <-Hid at 2. by apply A7.
Qed.

(** ** The start *)

Lemma start_step V w w' n out :
  (forall x y m, (x, y, m) ∈ soup w -> match m with Request pk => rq_tid (pq_request pk) <> tid | Answer a => pr_tid a <> tid end) ->
  no_event (log w) -> (forall m, m <> i -> ~ in_tx (nodes w m)) -> i ∉ ids (conns n) -> node_id n = i ->
  initiates tid n (nodes w' i) out -> step_at w w' i [Started tid i] -> new_packets w w' i out ->
  tx_inv V w'.
Proof.
  intros Hold Hev Htx Hself Hid [N1 N2 N3 N4 N5 N6 N7 N8] [Hn Hsoup Hlog] [Hnew Hsent].
  assert (forall m p ok pr, ~ acc w' m p ok pr) as Ea. { intros m p ok pr Ha. unfold acc in Ha. rewrite Hlog in Ha. cbn in Ha. apply elem_of_cons in Ha as [?|Ha]; [done|]. by apply Hev in Ha. }
  assert (forall m, ready w' m -> m = i) as Er by (intros m [?|(p & pr & Ha)]; [done|by apply Ea in Ha]).
  assert (forall x y q, (x, y, Request q) ∈ soup w' -> rq_tid (pq_request q) = tid -> x = i /\ Send y (Request q) ∈ out) as Hq.
  { intros x y q Hq Ht. destruct (Hnew _ _ _ Hq) as [Hq'|?]; [by apply Hold in Hq'|done]. }
  split.
  - split; [by split|congruence].
  - intros m p ok pr Ha. by apply Ea in Ha.
  - intros m Hm. left. destruct (decide (m = i)) as [->|Hne]; [done|]. exfalso. apply (Htx m Hne). by rewrite <-Hn.
  - intros m p ok pr p' ok' pr' Ha. by apply Ea in Ha.
  - intros l1 l2 m p ok pr Hl. exfalso. apply (Ea m p ok pr). unfold acc. rewrite Hl. set_solver.
  - intros x y q Hin Ht. destruct (Hq x y q Hin Ht) as [-> Hs]. destruct (N8 _ _ Hs) as (q' & [= <-] & B1 & B2 & B3 & B4 & c & Hc & <- & Hp).
    rewrite Hid in B3, B4. split; try done.
    + by left.
    + intros Heq. apply Hself. rewrite <-N2. apply list_elem_of_fmap. by exists c.
    + unfold has. congruence.
    + unfold has. congruence.
    + intros p ok pr Ha. by apply Ea in Ha.
    + intros _. by exists c.
  - intros x y a Hin Ht. destruct (Hnew _ _ _ Hin) as [Hin'|[-> Hin']]; [by apply Hold in Hin'|]. by destruct (N8 _ _ Hin') as (q' & [=] & _).
  - intros s c ->%Er Hc Hp Hy. destruct (N7 c Hc Hp). congruence.
  - intros s c ->%Er Hc Hp. destruct (N7 c Hc Hp) as [_ (q & ? & ?)]. exists q. split; [by apply Hsent|done].
  - intros x m ok pr Ha. by apply Ea in Ha.
  - intros m p ok pr Ha. by apply Ea in Ha.
  - intros m p ok pr Ha. by apply Ea in Ha.
Qed.

(** ** The decision *)

(** When all that the initiator asked said yes, everyone below was ready, and its primaries are
    known. *)
Lemma all_agreed V w : tx_inv V w -> all_yes (nodes w i) ->
  (forall m p ok pr, acc w m p ok pr -> ok = true /\ (pr = true -> has (primaries w i) m)) /\
  (forall s d pk, (s, d, Request pk) ∈ soup w -> rq_tid (pq_request pk) = tid -> exists p pr, acc w d p true pr).
Proof.
  intros Hinv Hall. pose proof Hinv as [I1 I2 I3 I4 I5 I6 I7 I8 I9 I10 I11 I12].
  assert (forall k l1 l2 m p ok pr, length l2 <= k -> log w = l1 ++ Accepted tid m p ok pr :: l2 -> voted w m /\ sub (V m) (primaries w i))%nat as Hv.
  { intros k. induction k as [k IH] using lt_wf_ind. intros l1 l2 m p ok pr Hk Hl. assert (acc w m p ok pr) as Ha by (unfold acc; rewrite Hl; set_solver).
    destruct (I5 l1 l2 m p ok pr Hl) as [->|(p' & ok' & pr' & Hp)].
    - destruct (I10 _ _ _ _ Ha) as (c & Hc & <- & Hpr); [by left|]. destruct (I8 i c) as [_ Hs]; [by left|done|done|by apply Hall|]. by eapply Hs.
    - apply list_elem_of_split in Hp as (k1 & k2 & ->). rewrite length_app in Hk. cbn in Hk.
      destruct (IH (length k2)) with (l1 := l1 ++ Accepted tid m p ok pr :: k1) (l2 := k2) (m := p) (p := p') (ok := ok') (pr := pr') as [Hvp Hsub]; [lia|done|by rewrite Hl, <-app_assoc|].
      destruct (I11 p p' ok' pr') as (_ & _ & _ & _ & J5); [unfold acc; rewrite Hl; set_solver|done|]. destruct (J5 _ _ _ Ha) as [? ?]. split; [done|by etransitivity]. }
  assert (forall m p ok pr, acc w m p ok pr -> voted w m /\ sub (V m) (primaries w i)) as Hv'.
  { intros m p ok pr Ha. apply list_elem_of_split in Ha as (l1 & l2 & Hl). by eapply Hv. }
  split.
  - intros m p ok pr Ha. destruct (Hv' _ _ _ _ Ha) as [Hm Hsub]. destruct (I11 _ _ _ _ Ha Hm) as (-> & Hpr & _). split; [done|]. intros E. by apply Hsub, Hpr.
  - intros s d pk Hin Ht. destruct (I6 s d pk Hin Ht) as [_ _ R3 _ _ _ _ R8].
    assert (ready w s /\ all_yes (nodes w s)) as [Hr Hy].
    { destruct R3 as [->|(p & ok & pr & Ha)]; [by split; [left|]|]. destruct (Hv' _ _ _ _ Ha) as [Hm _]. destruct (I11 _ _ _ _ Ha Hm) as (-> & _ & _ & Hy & _). split; [right; by exists p, pr|done]. }
    destruct (R8 Hr) as (c & Hc & <- & Hp). destruct (I8 s c Hr Hc Hp (Hy c Hc Hp)) as [(p & ok & pr & Ha) _].
    destruct (Hv' _ _ _ _ Ha) as [Hm _]. destruct (I11 _ _ _ _ Ha Hm) as (-> & _). by exists p, pr.
Qed.
End transaction.
