(* ===== verification/TwoPhaseInv.v ===== *)
(** * Two phase commit: reachable clusters

    Every transaction that is under way has its invariant, in every cluster that can be reached. *)
From S2P Require Import Prelude Headers State StateFinish TwoPhase TwoPhaseLocal TwoPhaseRecv TwoPhaseChange TwoPhaseProps TwoPhaseNet TwoPhaseSteps TwoPhaseAgree.

Definition tid_of (m : message) : Z := match m with Request pk => rq_tid (pq_request pk) | Answer a => pr_tid a end.

Section one.
Context `{TwopcHeaders}.
Context (tid : Z) (i : nat).

(** ** One transaction *)

Lemma part_in_tx V w m : tx_inv tid i V w -> part tid i w m <-> in_tx tid (nodes w m).
Proof.
  intros Hinv. split; [|apply (tx_part _ _ _ _ Hinv)]. intros [->|(p & ok & pr & Ha)]; [apply (tx_init _ _ _ _ Hinv)|]. by destruct (tx_acc _ _ _ _ Hinv _ _ _ _ Ha).
Qed.

Lemma grows_flags V w d n n' :
  in_tx tid n' -> reply n' = reply n -> flag_of <$> conns n' = flag_of <$> conns n ->
  (n_prepare_reply_cmd n' = Some P_TWOPC_YES <-> n_prepare_reply_cmd n = Some P_TWOPC_YES) -> (n_prepare_reply_cmd n <> None -> n_prepare_reply_cmd n' <> None) ->
  grows tid i V w d n n'.
Proof.
  intros Htx Hr Hf Hc Hs. split; rewrite ?Hr; try done.
  - intros c' Hc'. destruct (flags_elem _ _ c' Hf Hc') as (c & Hin & E). injection E as E1 E2 E3. exists c. rewrite E1, E2, E3. by split_and!; auto.
  - intros c Hin. destruct (flags_elem _ _ c (eq_sym Hf) Hin) as (c' & Hc' & E). injection E as E1 E2 _. by exists c'.
Qed.

(** A node that does not take part does something about another transaction. *)
Lemma others_frame V w w' d evs out :
  tx_inv tid i V w -> step_at w w' d evs -> no_event tid evs -> new_packets w w' d out ->
  (forall y m, Send y m ∈ out -> tid_of m <> tid) -> ~ in_tx tid (nodes w d) -> ~ in_tx tid (nodes w' d) -> tx_inv tid i V w'.
Proof.
  intros Hinv Hst Hev [Hnew _] Hout Hb Ha. apply (node_frame tid i V w w' d evs); try done.
  - intros s x pk Hin Ht. destruct (Hnew _ _ _ Hin) as [?|[-> Hin']]; [done|]. by apply Hout in Hin'.
  - intros s x a Hin Ht _. destruct (Hnew _ _ _ Hin) as [?|[-> Hin']]; [by left|]. by apply Hout in Hin'.
  - by intros ?%(part_in_tx V).
Qed.

(** Votes are noted, and the node may vote itself. *)
Lemma vote_step V w w' d n1 out :
  tx_inv tid i V w -> (part tid i w d -> grows tid i V w d (nodes w d) n1) ->
  remote_state_change n1 = remote_state_change (nodes w d) -> tr_tid (reply n1) = tr_tid (reply (nodes w d)) ->
  voting n1 (nodes w' d) out -> (n_prepare_reply_cmd (nodes w' d) <> n_prepare_reply_cmd n1 -> tr_initiator_node_id (reply n1) <> Z.of_nat d) ->
  step_at w w' d [] -> new_packets w w' d out -> exists V', tx_inv tid i V' w'.
Proof.
  intros Hinv Hg Hrem Htid [_ Vr Vm Vf _ Vc] Hinit [Sn Ss Sl] [Hnew Hsent]. set (w1 := mk_world (upd (nodes w) d n1) (soup w) (parked w) (running w) (log w)).
  assert (nodes w1 d = n1) as E1 by (cbn; unfold upd; by rewrite Nat.eqb_refl). assert (no_event tid []) as Hno by (intros ? ? ? ?; apply not_elem_of_nil).
  assert (step_at w w1 d []) as Hs1. { split; try done. intros m Hm. cbn. unfold upd. by rewrite (proj2 (Nat.eqb_neq _ _) Hm). }
  assert (step_at w1 w' d []) as Hs2. { split; [|done|done]. intros m Hm. rewrite (sa_nodes _ _ _ _ Hs1 m Hm). by apply Sn. }
  assert (in_tx tid n1 <-> in_tx tid (nodes w d)) as Et1 by (unfold in_tx; by rewrite Hrem, Htid).
  assert (in_tx tid (nodes w' d) <-> in_tx tid n1) as Et2 by (unfold in_tx; by rewrite Vm, Vr).
  assert (tx_inv tid i V w1) as H1.
  { apply (node_frame tid i V w w1 d []); try done; [by left|by rewrite E1|]. rewrite E1, Et1. by rewrite (part_in_tx V). }
  assert ((in_tx tid n1 -> (n_prepare_reply_cmd (nodes w' d) = Some P_TWOPC_YES <-> n_prepare_reply_cmd n1 = Some P_TWOPC_YES) /\
    (n_prepare_reply_cmd n1 <> None -> n_prepare_reply_cmd (nodes w' d) <> None)) ->
    (forall y m, Send y m ∈ out -> exists a, m = Answer a /\ (pr_cmd a = P_TWOPC_YES -> pr_tid a <> tid)) -> tx_inv tid i V w') as Hframe.
  { intros Hc Ho. apply (node_frame tid i V w1 w' d []); try done.
    - intros s x pk Hin Ht. destruct (Hnew _ _ _ Hin) as [?|[-> Hin']]; [done|]. by destruct (Ho _ _ Hin') as (? & [=] & _).
    - intros s x a Hin Ht Hy. destruct (Hnew _ _ _ Hin) as [?|[-> Hin']]; [by left|]. destruct (Ho _ _ Hin') as (? & [= <-] & Hn'). by apply Hn' in Hy.
    - intros Hp%(part_in_tx V _ _ H1). rewrite E1 in *. destruct (Hc Hp). apply grows_flags; try done. by apply Et2.
    - rewrite (part_in_tx V _ _ H1), E1. by rewrite Et2. }
  destruct Vc as [[Hc Ho]|(Hnone & cmd & Hc & Ho & Hyes)].
  { exists V. apply Hframe; [by rewrite Hc|]. intros y m Hin. by apply Ho in Hin. }
  destruct (decide (cmd = P_TWOPC_YES /\ in_tx tid n1)) as [[-> Htx]|Hno'].
  - assert (part tid i w1 d) as [->|(p & ok & pr & Ha)] by (apply (part_in_tx V); [done|by rewrite E1]).
    { exfalso. apply Hinit; [congruence|]. rewrite <-E1. apply (tx_init _ _ _ _ H1). }
    destruct (Hyes eq_refl) as (_ & _ & Hf & Hall). eexists. rewrite <-E1 in *.
    eapply (vote_yes tid i V w1 w' d []); try done; [..|by apply Et2].
    + intros s x pk Hin Ht. destruct (Hnew _ _ _ Hin) as [?|[-> Hin']]; [done|]. by destruct (Ho _ _ Hin') as (? & [=] & _).
    + intros s x a Hin Ht Hc'. destruct (Hnew _ _ _ Hin) as [?|[-> Hin']]; [by left|]. right. destruct (Ho _ _ Hin') as (? & [= <-] & _ & _ & ->). done.
  - exists V. apply Hframe.
    + intros Htx. rewrite Hc, Hnone. split; [|done]. split; [|done]. intros [= ->]. by destruct Hno'.
    + intros y m Hin. destruct (Ho _ _ Hin) as (a & -> & Ec & Et & _). exists a. split; [done|]. intros Ey Ht. rewrite Ec in Ey. destruct (Hyes Ey) as (? & _). apply Hno'. split; [done|].
      split; congruence.
Qed.

(** The node repeats its answer. *)
Lemma repeat_step V w w' d cmd y a :
  tx_inv tid i V w -> step_at w w' d [] -> new_packets w w' d [Send y (Answer a)] ->
  same_view (nodes w d) (nodes w' d) -> (part tid i w d -> d <> i) ->
  n_prepare_reply_cmd (nodes w d) = Some cmd -> pr_cmd a = cmd -> pr_tid a = tr_tid (reply (nodes w d)) -> pr_primary_nodes a = primaries w d ->
  (in_tx tid (nodes w d) \/ tr_tid (reply (nodes w d)) <> tid) -> tx_inv tid i V w'.
Proof.
  intros Hinv Hst [Hnew _] [_ Vr Vm Vf Vc] Hi Hcmd Ea Et Ep Htx. assert (in_tx tid (nodes w' d) <-> in_tx tid (nodes w d)) as Et2 by (unfold in_tx; by rewrite Vm, Vr).
  apply (node_frame tid i V w w' d []); try done.
  - intros ? ? ? ?. apply not_elem_of_nil.
  - intros s x pk Hin Ht. by destruct (Hnew _ _ _ Hin) as [?|[-> ?%list_elem_of_singleton]].
  - intros s x b Hin Ht Hc'. destruct (Hnew _ _ _ Hin) as [?|[-> Hin'%list_elem_of_singleton]]; [by left|]. injection Hin' as -> ->. right. destruct Htx as [Htx|?]; [|congruence].
    destruct (tx_part _ _ _ _ Hinv d Htx) as [->|Ha]; [exfalso; apply Hi; [by left|done]|]. split_and!; [done|done|unfold voted; congruence|by rewrite Ep].
  - intros Hp%(part_in_tx V); [|done]. apply grows_flags; try done; [by apply Et2|by rewrite Vc|by rewrite Vc].
  - rewrite (part_in_tx V _ _ Hinv). by rewrite Et2.
Qed.

(** A yes is noted on a connection. *)
Lemma grows_yes V w d k c n1 :
  in_tx tid n1 -> conns (nodes w d) !! k = Some c ->
  tr_initiator_node_id (reply n1) = tr_initiator_node_id (reply (nodes w d)) -> tr_state_change_failed (reply n1) = tr_state_change_failed (reply (nodes w d)) ->
  n_prepare_reply_cmd n1 = n_prepare_reply_cmd (nodes w d) -> sub (primaries w d) (tr_primary_nodes (reply n1)) ->
  (exists g, (forall c, flag_of (g c) = (peer_id c, prepared c, true)) /\ conns n1 = alter g k (conns (nodes w d))) ->
  (ready tid i w d -> prepared c = true -> (exists p ok pr, acc tid w (peer_id c) p ok pr) /\
     forall ok pr, acc tid w (peer_id c) d ok pr -> voted w (peer_id c) /\ sub (V (peer_id c)) (tr_primary_nodes (reply n1))) ->
  grows tid i V w d (nodes w d) n1.
Proof.
  intros Htx Hk Ei Ef Ec Hs (g & Hg & Hconns) Hj. split; try done; try by rewrite Ec.
  - intros c' Hc'. rewrite Hconns in Hc'. apply list_elem_of_lookup in Hc' as [j Hjj]. destruct (decide (j = k)) as [->|Hne].
    + rewrite list_lookup_alter_eq, Hk in Hjj. injection Hjj as <-. injection (Hg c) as E1 E2 E3. exists c. rewrite E1, E2, E3. split_and!; try done; [by eapply list_elem_of_lookup_2|]. intros Hp _. right. auto.
    + rewrite list_lookup_alter_ne in Hjj by done. exists c'. split_and!; try done; [by eapply list_elem_of_lookup_2|by left].
  - intros c0 Hc0. apply list_elem_of_lookup in Hc0 as [j Hjj]. destruct (decide (j = k)) as [->|Hne].
    + exists (g c0). injection (Hg c0) as E1 E2 _. split; [|done]. rewrite Hconns. eapply list_elem_of_lookup_2 with (i := k). by rewrite list_lookup_alter_eq, Hjj.
    + exists c0. split; [|done]. rewrite Hconns. eapply list_elem_of_lookup_2 with (i := j). by rewrite list_lookup_alter_ne.
Qed.

(** A peer that asks too counts as a yes: another asked it first. *)
Lemma duplicate_yes V w s d pk c n1 : tx_inv tid i V w -> (s, d, Request pk) ∈ soup w -> rq_tid (pq_request pk) = tid ->
  c ∈ conns (nodes w d) -> peer_id c = s -> ready tid i w d -> prepared c = true ->
  (exists p ok pr, acc tid w (peer_id c) p ok pr) /\ forall ok pr, acc tid w (peer_id c) d ok pr -> voted w (peer_id c) /\ sub (V (peer_id c)) (tr_primary_nodes (reply n1)).
Proof.
  intros Hinv Hin Ht Hc <- Hr Hp. destruct (tx_request _ _ _ _ Hinv _ _ _ Hin Ht) as [_ _ R3 _ _ _ R7 _].
  destruct (tx_sent _ _ _ _ Hinv _ _ Hr Hc Hp) as (q & Hq & Hqt). destruct (tx_request _ _ _ _ Hinv _ _ _ Hq Hqt) as [_ _ _ Hni _ _ _ _].
  split; [by destruct R3|]. intros ok pr Ha. by apply R7 in Ha.
Qed.
End one.

#[export] Instance event_eq_dec : EqDecision event.
Proof. solve_decision. Defined.

Section cluster.
Context `{TwopcHeaders}.

(** ** The invariant of the cluster *)

Definition started (w : world) (tid : Z) : Prop := exists j, Started tid j ∈ log w.

Definition parked_ok (w : world) (x : nat * nat * nat * p_twopc_request * twopc_reply) : Prop :=
  let '(s, d, k, pk, t) := x in
  (s, d, Request pk) ∈ soup w /\ link w d k s /\ is_prepare (pq_request pk) = true /\
  tr_tid t = rq_tid (pq_request pk) /\ tr_initiator_node_id t = rq_initiator_node_id (pq_request pk).

Record good (w : world) : Prop := {
  g_node m : node_id (nodes w m) = m /\ m ∉ ids (conns (nodes w m)) /\ TWOPC_WORK_PENDING (nodes w m) = false;
  g_tid m : tr_tid (reply (nodes w m)) = 0 \/ started w (tr_tid (reply (nodes w m)));
  g_idle m : remote_state_change (nodes w m) = false -> tr_tid (reply (nodes w m)) = 0;
  g_soup s d m : (s, d, m) ∈ soup w -> started w (tid_of m);
  g_event e : e ∈ log w -> match e with Started _ _ => True | Accepted t _ _ _ _ | Decided t => started w t end;
  g_unique t i j : Started t i ∈ log w -> Started t j ∈ log w -> i = j /\ t <> 0;
  g_parked x : x ∈ parked w -> parked_ok w x;
  g_running j pe : running w j = Some pe -> Started (pe_tid pe) j ∈ log w /\ Decided (pe_tid pe) ∉ log w /\ good_change (pe_fn pe);
  g_tx tid i : Started tid i ∈ log w -> Decided tid ∉ log w -> exists V, tx_inv tid i V w }.

(** What a step does besides the transactions. *)
Record moves (w w' : world) (d : nat) (evs : list event) (out : list effect) : Prop := {
  mv_at : step_at w w' d evs;
  mv_new : new_packets w w' d out;
  mv_id : node_id (nodes w' d) = node_id (nodes w d);
  mv_ids : ids (conns (nodes w' d)) = ids (conns (nodes w d));
  mv_work : TWOPC_WORK_PENDING (nodes w' d) = false;
  mv_tid : tr_tid (reply (nodes w' d)) = 0 \/ started w' (tr_tid (reply (nodes w' d)));
  mv_idle : remote_state_change (nodes w' d) = false -> tr_tid (reply (nodes w' d)) = 0;
  mv_out y m : Send y m ∈ out -> started w' (tid_of m);
  mv_evs e : e ∈ evs -> match e with Started t j => fresh t w /\ j = d | Accepted t _ _ _ _ | Decided t => started w' t end;
  mv_parked x : x ∈ parked w' -> x ∈ parked w \/ parked_ok w' x }.

Definition runs (w w' : world) (evs : list event) : Prop := forall j pe, running w' j = Some pe ->
  (running w j = Some pe /\ Decided (pe_tid pe) ∉ evs) \/ (Started (pe_tid pe) j ∈ evs /\ Decided (pe_tid pe) ∉ evs /\ good_change (pe_fn pe)).

Lemma link_ids w d k s : link w d k s <-> ids (conns (nodes w d)) !! k = Some s.
Proof.
  unfold link, ids. rewrite list_lookup_fmap. split; [intros (c & -> & <-); done|]. destruct (conns (nodes w d) !! k) as [c|]; [|done]. intros [= <-]. by exists c.
Qed.

Lemma good_step w w' d evs out : good w -> moves w w' d evs out -> runs w w' evs ->
  (forall tid i V, Started tid i ∈ log w -> Decided tid ∉ log w -> Decided tid ∉ evs -> tx_inv tid i V w -> exists V', tx_inv tid i V' w') ->
  (forall tid i, Started tid i ∈ evs -> Decided tid ∉ evs -> exists V, tx_inv tid i V w') -> good w'.
Proof.
  intros [G1 G2 G2' G3 G4 G5 G6 G7 G8] [[Sn Ss Sl] [Hnew _] M3 M4 M5 M6 M6' M7 M8 M9] M10 Hold Hnewtx.
  assert (forall t, started w t -> started w' t) as Hst. { intros t [j Hj]. exists j. rewrite Sl, elem_of_app. by right. }
  assert (forall m, ids (conns (nodes w' m)) = ids (conns (nodes w m))) as Hids. { intros m. destruct (decide (m = d)) as [->|Hne]; [done|by rewrite Sn]. }
  split.
  - intros m. destruct (G1 m) as (? & ? & ?). destruct (decide (m = d)) as [->|Hne]; [|by rewrite Sn]. rewrite M3, M4. done.
  - intros m. destruct (decide (m = d)) as [->|Hne]; [done|]. rewrite Sn by done. destruct (G2 m); auto.
  - intros m. destruct (decide (m = d)) as [->|Hne]; [done|]. rewrite Sn by done. auto.
  - intros s x m Hin. destruct (Hnew _ _ _ Hin) as [Hin'|[-> Hin']]; [by eapply Hst, G3|by eapply M7].
  - intros e. rewrite Sl. intros [He|He]%elem_of_app; [apply M8 in He|apply G4 in He]; destruct e; auto.
  - intros t i j. rewrite Sl, !elem_of_app. intros [Hi|Hi] [Hj|Hj]; [apply M8 in Hi as [[? ?] ->]; apply M8 in Hj as [_ ->]; done|..|by eapply G5].
    + apply M8 in Hi as [[_ Hf] _]. by apply Hf in Hj.
    + apply M8 in Hj as [[_ Hf] _]. by apply Hf in Hi.
  - intros x Hx. destruct (M9 x Hx) as [Hx'|?]; [|done]. apply G6 in Hx'. destruct x as [[[[s y] k] pk] t]. destruct Hx' as (? & Hl & ?). split; [by apply Ss|]. split; [|done].
    apply link_ids. rewrite Hids. by apply link_ids.
  - intros j pe Hj. rewrite Sl, !elem_of_app. destruct (M10 j pe Hj) as [[Hj' Hd]|(Hs & Hd & Hg)].
    + destruct (G7 j pe Hj') as (? & ? & ?). split_and!; [by right|by intros [?|?]|done].
    + split_and!; [by left| |done]. intros [?|Hd']; [done|]. apply G4 in Hd' as [j' Hj']. apply M8 in Hs as [[_ Hf] _]. by apply Hf in Hj'.
  - intros tid i. rewrite Sl, !elem_of_app. intros [Hs|Hs] Hd.
    + apply Hnewtx; auto.
    + destruct (G8 tid i Hs) as [V HV]; [auto|]. eapply Hold; eauto.
Qed.

(** ** Putting the pieces in place *)

Lemma settle_none n : TWOPC_WORK_PENDING n = false -> settle n = (n, []).
Proof. unfold settle. by intros ->. Qed.

Lemma settle_spec n : let y := settle n in
  node_id (fst y) = node_id n /\ ids (conns (fst y)) = ids (conns n) /\ reply (fst y) = reply n /\ remote_state_change (fst y) = remote_state_change n /\
  TWOPC_WORK_PENDING (fst y) = false /\ forall d m, Send d m ∈ snd y -> tid_of m = tr_tid (reply n) /\ tr_tid (reply n) <> 0.
Proof.
  unfold settle. destruct (TWOPC_WORK_PENDING n) eqn:Hw; [|split_and!; try done; by intros ? ? ?%elem_of_nil].
  unfold nested_twopc_work, twopc_end_nested. cbv zeta. set (cmd := if rv_ok _ then _ else _). clearbody cmd.
  destruct (Z.eqb_spec (tr_tid (reply n)) 0) as [Ht|Ht]; [cbn; split_and!; try done; by intros ? ? ?%elem_of_nil|].
  cbn [negb andb]. destruct (bool_decide (n_prepare_reply_cmd n = None)); cbn [fst snd]; (split_and!; try done; [cbn; apply ids_map; intros c; by case_match|]).
  all: intros d m (c & E & _)%list_elem_of_fmap; injection E as -> ->; done.
Qed.

Lemma put_at d n out evs w : let w' := put d n out evs w in
  step_at w w' d evs /\ new_packets w w' d (out ++ snd (settle n)) /\ nodes w' d = fst (settle n) /\ parked w' = parked w /\ running w' = running w.
Proof.
  unfold put. destruct (settle n) as [n' out'] eqn:Es. cbn. split_and!; try done.
  - split; cbn; [|set_solver|done]. intros m Hm. unfold upd. by rewrite (proj2 (Nat.eqb_neq _ _) Hm).
  - split; cbn.
    + intros x y m [Hin|?]%elem_of_app; [right|by left]. by apply sends_of_spec in Hin.
    + intros y m Hin. apply elem_of_app. left. by apply sends_of_spec.
  - unfold upd. by rewrite Nat.eqb_refl.
Qed.

Lemma started_at w w' d evs t : step_at w w' d evs -> started w t -> started w' t.
Proof. intros [_ _ Hl] [j Hj]. exists j. rewrite Hl, elem_of_app. by right. Qed.

Lemma put_moves d n out evs w : let w' := put d n out evs w in
  node_id n = node_id (nodes w d) -> ids (conns n) = ids (conns (nodes w d)) -> (tr_tid (reply n) = 0 \/ started w' (tr_tid (reply n))) ->
  (remote_state_change n = false -> tr_tid (reply n) = 0) -> (forall y m, Send y m ∈ out -> started w' (tid_of m)) ->
  (forall e, e ∈ evs -> match e with Started t j => fresh t w /\ j = d | Accepted t _ _ _ _ | Decided t => started w' t end) ->
  moves w w' d evs (out ++ snd (settle n)).
Proof.
  intros w' Hid Hids Ht Hidle Hout Hevs. destruct (put_at d n out evs w) as (Hst & Hnew & En & Ep & _). fold w' in Hst, Hnew, En, Ep.
  destruct (settle_spec n) as (E1 & E2 & E3 & E4 & E5 & E6). split; rewrite ?En, ?E1, ?E2, ?E3, ?E4, ?Ep; try done.
  - intros y m [Hin|Hin]%elem_of_app; [by eapply Hout|]. destruct (E6 _ _ Hin) as [-> ?]. by destruct Ht.
  - by left.
Qed.

Lemma runs_same w w' : running w' = running w -> runs w w' [].
Proof. intros E j pe Hj. left. rewrite E in Hj. split; [done|apply not_elem_of_nil]. Qed.

(** ** Steps that leave the votes alone *)

Lemma plain_step w w' d out : good w -> moves w w' d [] out -> running w' = running w -> same_view (nodes w d) (nodes w' d) ->
  (forall y m, Send y m ∈ out -> match m with Request _ => Decided (tid_of m) ∈ log w | Answer a => pr_cmd a <> P_TWOPC_YES end) -> good w'.
Proof.
  intros G M Hrun [_ Vr Vm Vf Vc] Hout. apply (good_step w w' d [] out); try done; [by apply runs_same| |by intros ? ? ?%elem_of_nil].
  intros tid i V Hs Hd _ Hinv. exists V. destruct M as [Hst [Hnew _] _ _ _ _ _ _ _ _]. assert (in_tx tid (nodes w' d) <-> in_tx tid (nodes w d)) as Et by (unfold in_tx; by rewrite Vm, Vr).
  apply (node_frame tid i V w w' d []); try done.
  - intros ? ? ? ?. apply not_elem_of_nil.
  - intros s x pk Hin Ht. destruct (Hnew _ _ _ Hin) as [?|[-> Hin']]; [done|]. apply Hout in Hin'. cbn in Hin'. by rewrite Ht in Hin'.
  - intros s x a Hin _ Hy. destruct (Hnew _ _ _ Hin) as [?|[-> Hin']]; [by left|]. by apply Hout in Hin'.
  - intros Hp%(part_in_tx _ _ V); [|done]. apply grows_flags; try done; [by apply Et|by rewrite Vc|by rewrite Vc].
  - rewrite (part_in_tx _ _ V _ _ Hinv). by rewrite Et.
Qed.

Lemma plain_put w d n out : good w -> same_view (nodes w d) n -> TWOPC_WORK_PENDING n = false ->
  (forall y m, Send y m ∈ out -> started w (tid_of m) /\ match m with Request _ => Decided (tid_of m) ∈ log w | Answer a => pr_cmd a <> P_TWOPC_YES end) -> good (put d n out [] w).
Proof.
  intros G Hv Hw Hout. destruct (put_at d n out [] w) as (Hst & Hnew & En & _ & Er). pose proof Hv as [V1 V2 V3 V4 V5]. pose proof (settle_none n Hw) as Es.
  apply (plain_step w _ d out); try done.
  - pose proof (put_moves d n out [] w) as M. rewrite Es, app_nil_r in M. apply M; try done.
    + by apply flags_ids.
    + rewrite V2. destruct (g_tid w G d); [by left|right; by eapply started_at].
    + rewrite V2, V3. apply (g_idle w G).
    + intros y m Hin. eapply started_at; [done|]. by eapply Hout.
    + by intros ? ?%elem_of_nil.
  - by rewrite En, Es.
  - intros y m Hin. by eapply Hout.
Qed.

Lemma no_sends w : forall y m, Send y m ∈ ([] : list effect) -> started w (tid_of m) /\ match m with Request _ => Decided (tid_of m) ∈ log w | Answer a => pr_cmd a <> P_TWOPC_YES end.
Proof. by intros y m ?%elem_of_nil. Qed.

(** ** Votes *)

Lemma vote_put w d n1 : good w -> kept (nodes w d) n1 -> tr_tid (reply n1) = tr_tid (reply (nodes w d)) ->
  (forall tid i V, Started tid i ∈ log w -> Decided tid ∉ log w -> tx_inv tid i V w -> in_tx tid (nodes w d) -> grows tid i V w d (nodes w d) n1) ->
  good (put d (drbd_maybe_cluster_wide_reply n1) [] [] w).
Proof.
  intros G [K1 K2 K3 K4 K5] Ht Hg. destruct (g_node w G d) as (Hid & _ & Hw). destruct (maybe_voting n1) as [Hv Hi]; [congruence|].
  set (n2 := drbd_maybe_cluster_wide_reply n1) in *. destruct (put_at d n2 [] [] w) as (Hst & Hnew & En & _ & Er). cbn [app] in Hnew.
  assert (node_id n2 = node_id n1 /\ ids (conns n2) = ids (conns n1) /\ tr_tid (reply n2) = tr_tid (reply n1) /\ remote_state_change n2 = remote_state_change n1) as (N1 & N2 & N3 & N4).
  { unfold n2, drbd_maybe_cluster_wide_reply. by repeat case_match. }
  apply (good_step w _ d [] (snd (settle n2))); try done; [|by apply runs_same|..|by intros ? ? ?%elem_of_nil].
  - apply (put_moves d n2 [] [] w); try congruence.
    + rewrite N3, Ht. destruct (g_tid w G d); [by left|right; by eapply started_at].
    + rewrite N3, N4, Ht, K3. apply (g_idle w G).
    + by intros ? ? ?%elem_of_nil.
    + by intros ? ?%elem_of_nil.
  - intros tid i V Hs Hd _ Hinv. apply (vote_step tid i V w _ d n1 (snd (settle n2))); try done.
    + intros Hp%(part_in_tx _ _ V); [|done]. by apply Hg.
    + by rewrite En.
    + rewrite En. replace (Z.of_nat d) with (Z.of_nat (node_id n1)) by congruence. exact Hi.
Qed.

Lemma alter_flags g k (l : list connection) : (forall c, flag_of (g c) = flag_of c) -> flag_of <$> alter g k l = flag_of <$> l.
Proof.
  intros Hg. apply list_eq. intros j. rewrite !list_lookup_fmap. destruct (decide (j = k)) as [->|Hne]; [|by rewrite list_lookup_alter_ne].
  rewrite list_lookup_alter_eq. destruct (l !! k) as [c|]; [|done]. change (Some (flag_of (g c)) = Some (flag_of c)). by rewrite Hg.
Qed.

Lemma alter_votes_kept k f n : (forall m, cm_peer_node_id (f m) = cm_peer_node_id m) -> kept n (alter_votes k f n).
Proof. intros Hf. apply kept_with_res, keeps_alter_conn. intros c. apply Hf. Qed.

(** Flags other than a yes. *)
Lemma other_flag_put w d k f : good w -> (forall m, cm_peer_node_id (f m) = cm_peer_node_id m) -> (forall c, flag_of (with_c_more f c) = flag_of c) -> good (put d (drbd_maybe_cluster_wide_reply (alter_votes k f (nodes w d))) [] [] w).
Proof.
  intros G Hi Hf. apply vote_put; try done.
  - by apply alter_votes_kept.
  - intros tid i V Hs Hd Hinv Htx. apply grows_flags; try done. by apply alter_flags.
Qed.

Lemma yes_flag c v : flag_of (with_c_more (with_votes (fun x => set_votes true (v x) x)) c) = (peer_id c, prepared c, true).
Proof. done. Qed.

Lemma answer_good w s d k a : good w -> (s, d, Answer a) ∈ soup w -> link w d k s -> good (put d (got_twopc_reply k a (nodes w d)) [] [] w).
Proof.
  intros G Hin (c & Hc & Hs). unfold got_twopc_reply. destruct (_ && _) eqn:Hm.
  2:{ apply plain_put; try done; [by destruct (g_node w G d) as (_ & _ & ?)|apply no_sends]. }
  apply andb_true_iff in Hm as [_ Ht%Z.eqb_eq]. cbv zeta. case_bool_decide as Hy; [|apply other_flag_put; [done|intros ?; by destruct (pr_cmd a)..]].
  rewrite Hy. set (n0 := set_reply _ (nodes w d)). assert (kept (nodes w d) n0) as K0 by done.
  assert (kept n0 (alter_votes k (vote_flag P_TWOPC_YES) n0)) as K1 by by apply alter_votes_kept.
  apply vote_put; try done; [by eapply kept_trans|]. intros tid i V Hst Hd Hinv Htx. eapply grows_yes with (k := k) (c := c); try done.
  - apply sub_lor_l.
  - eexists. split; [|reflexivity]. intros c0. apply yes_flag.
  - intros Hr Hp. rewrite Hs. destruct Htx as [Hrem Htid]. destruct (tx_answer _ _ _ _ Hinv s d a Hin) as ((p & pr & Ha) & Hv & Hsub); [congruence|done|].
    split; [by exists p, true, pr|]. intros ok pr' Ha'. split; [done|]. etransitivity; [exact Hsub|apply sub_lor_r].
Qed.

(** A request that another one of the same transaction has preceded. *)
Lemma duplicate_good w s d k pk n : good w -> (s, d, Request pk) ∈ soup w -> link w d k s -> rq_tid (pq_request pk) = tr_tid (reply n) -> remote_state_change n = true ->
  same_view (nodes w d) n -> conns n = conns (nodes w d) -> TWOPC_WORK_PENDING n = false -> let '(n', out) := duplicate_prepare k n in good (put d n' out [] w).
Proof.
  intros G Hin (c & Hc & Hs) Ht Hrem Hv Hconns Hw. pose proof Hv as [V1 V2 V3 V4 V5]. unfold duplicate_prepare. cbv zeta. set (ps := Z.lor _ _). set (n0 := set_parents ps (n_prepare_reply_cmd n) n).
  assert (same_view (nodes w d) n0) as Hv0 by done. change (n_prepare_reply_cmd n0) with (n_prepare_reply_cmd n).
  assert (forall tid i V, tx_inv tid i V w -> in_tx tid (nodes w d) -> rq_tid (pq_request pk) = tid) as Htid.
  { intros tid i V Hinv [_ E]. rewrite <-E, <-V2. done. }
  assert (started w (tr_tid (reply n))) as Hst0 by (rewrite <-Ht; exact (g_soup w G _ _ _ Hin)).
  destruct (n_prepare_reply_cmd n) as [cmd|] eqn:Hcmd.
  - (* the answer again *)
    assert (settle n0 = (n0, [])) as Es by by apply settle_none. destruct (put_at d n0 [drbd_send_twopc_reply cmd (reply n0) (conns n !!! k)] [] w) as (Hst & Hnew & En & _ & Er).
    rewrite Es, ?app_nil_r in *. cbn [fst snd] in *. apply (good_step w _ d [] [drbd_send_twopc_reply cmd (reply n0) (conns n !!! k)]); [done| |by apply runs_same|..|by intros ? ? ?%elem_of_nil].
    + pose proof (put_moves d n0 [drbd_send_twopc_reply cmd (reply n0) (conns n !!! k)] [] w) as M. rewrite Es, app_nil_r in M. apply M; try done.
      * by apply flags_ids.
      * right. by eapply started_at.
      * change (remote_state_change n = false -> tr_tid (reply n) = 0). congruence.
      * intros y m Hm%list_elem_of_singleton. injection Hm as -> ->. eapply started_at; [done|]. done.
      * by intros ? ?%elem_of_nil.
    + intros tid i V Hs' Hd _ Hinv. exists V. eapply (repeat_step tid i V w _ d cmd); try done; [by rewrite En|..].
      * intros Hp%(part_in_tx _ _ V); [|done]. by destruct (tx_request _ _ _ _ Hinv _ _ _ Hin (Htid _ _ _ Hinv Hp)).
      * cbn. change (reply n0) with (reply n). by rewrite V2.
      * unfold primaries. by rewrite <-V2.
      * destruct (decide (tr_tid (reply (nodes w d)) = tid)); [left|by right]. split; [congruence|done].
  - apply vote_put; try done.
    + apply (kept_trans _ n0); [|by apply alter_votes_kept]. split; try done; [by apply flags_ids|]. destruct (g_node w G d) as (_ & _ & ->). done.
    + change (tr_tid (reply n) = tr_tid (reply (nodes w d))). by rewrite V2.
    + intros tid i V Hst Hd Hinv Htx. eapply grows_yes with (k := k) (c := c); try done.
      * split; [done|]. change (tr_tid (reply n) = tid). rewrite V2. apply Htx.
      * change (tr_initiator_node_id (reply n) = tr_initiator_node_id (reply (nodes w d))). by rewrite V2.
      * change (tr_state_change_failed (reply n) = tr_state_change_failed (reply (nodes w d))). by rewrite V2.
      * change (sub (primaries w d) (tr_primary_nodes (reply n))). by rewrite V2.
      * eexists. split; [intros c0; apply yes_flag|]. rewrite <-Hconns. reflexivity.
      * intros Hr Hp. eapply duplicate_yes; try done; [by eapply Htid|by eapply list_elem_of_lookup_2].
Qed.

(** ** A node takes part, and the end *)

Lemma runs_no_decision w w' evs : running w' = running w -> (forall t, Decided t ∉ evs) -> runs w w' evs.
Proof. intros E Hn j pe Hj. left. rewrite E in Hj. by split. Qed.

Lemma accept_good e w s d k pk t n : good w -> (s, d, Request pk) ∈ soup w -> is_prepare (pq_request pk) = true -> remote_state_change (nodes w d) = false ->
  node_id n = node_id (nodes w d) -> ids (conns n) = ids (conns (nodes w d)) -> remote_state_change n = true -> n_prepare_reply_cmd n = None -> TWOPC_WORK_PENDING n = false ->
  tr_tid t = rq_tid (pq_request pk) -> tr_initiator_node_id t = rq_initiator_node_id (pq_request pk) -> good (entered e s d k pk t (Enter n false) w).
Proof.
  intros G Hin Hp Hidle Hid Hids Hrem Hcmd Hw Ht Hi. cbn [entered]. cbv zeta. pose proof (entered_accepts e k pk t n Hp Hrem Hcmd Hw Ht Hi) as Hacc.
  destruct (process_entered e false k pk t n) as [[rv n'] out]. set (pr := is_primary (role OLD (n_resource n))) in *. set (ok := rv_ok rv) in *. clearbody pr ok.
  set (tid := rq_tid (pq_request pk)) in *. assert (started w tid) as Hst0 by exact (g_soup w G _ _ _ Hin). set (evs := [Accepted tid d s ok pr]).
  pose proof Hacc as [A1 A2 A3 A4 A5 A6 A7 A8 A9 A10 A11 A12]. pose proof (settle_none n' A4) as Es.
  destruct (put_at d n' out evs w) as (Hst & Hnew & En & _ & Er). pose proof (put_moves d n' out evs w) as M. rewrite Es in *. cbn [fst snd] in *. rewrite app_nil_r in *.
  assert (forall y m, Send y m ∈ out -> tid_of m = tid) as Hout. { intros y m Hm. destruct m as [pk'|a]; [by destruct (A10 _ _ Hm) as (_ & ? & _)|by destruct (A11 _ _ Hm)]. }
  apply (good_step w _ d evs out); try done.
  - apply M; try congruence.
    + right. rewrite A5. by eapply started_at.
    + intros y m Hm. rewrite (Hout _ _ Hm). by eapply started_at.
    + intros ev ->%list_elem_of_singleton. by eapply started_at.
  - apply runs_no_decision; [done|]. by intros t0 ?%list_elem_of_singleton.
  - intros tid' i V Hs Hd _ Hinv. assert (~ in_tx tid' (nodes w d)) as Hnt by (intros [? _]; congruence). destruct (decide (tid' = tid)) as [->|Hne].
    + eexists. eapply (accept_step tid i V w _ s d pk ok pr n out); try done.
      * by rewrite (part_in_tx _ _ V).
      * rewrite Hid. apply (g_node w G).
      * by rewrite En.
    + exists V. eapply (others_frame tid' i V w _ d evs out); try done.
      * intros m p ok' pr' Hm%list_elem_of_singleton. congruence.
      * intros y m Hm. rewrite (Hout _ _ Hm). congruence.
      * rewrite En. intros [_ E]. apply Hne. by rewrite <-E, A5.
  - intros tid' i Hm%list_elem_of_singleton. done.
Qed.

(** Only a decision sends anything but the request to prepare. *)
Lemma not_prepare_decided w s d pk : good w -> (s, d, Request pk) ∈ soup w -> is_prepare (pq_request pk) = false -> Decided (rq_tid (pq_request pk)) ∈ log w.
Proof.
  intros G Hin Hp. destruct (decide (Decided (rq_tid (pq_request pk)) ∈ log w)) as [?|Hd]; [done|]. destruct (g_soup w G _ _ _ Hin) as [j Hj].
  destruct (g_tx w G _ _ Hj Hd) as [V Hinv]. destruct (tx_request _ _ _ _ Hinv _ _ _ Hin eq_refl) as [E _ _ _ _ _ _ _]. unfold is_prepare in Hp. by rewrite E, bool_decide_true in Hp.
Qed.

(** The node of a transaction that is decided does something. *)
Lemma over_good w w' d evs out T : good w -> moves w w' d evs out -> runs w w' evs -> Decided T ∈ log w' ->
  (forall e, e ∈ evs -> e = Decided T \/ exists j, e = Started T j) ->
  (forall tid, in_tx tid (nodes w d) -> tid = T) -> (forall tid, in_tx tid (nodes w' d) -> tid = T) -> (forall y m, Send y m ∈ out -> tid_of m = T) -> good w'.
Proof.
  intros G M R Hd Hevs Hb Ha Hout. pose proof (sa_log _ _ _ _ (mv_at _ _ _ _ _ M)) as Hl. apply (good_step w w' d evs out); try done.
  - intros tid i V Hs Hn Hne Hinv. exists V. assert (tid <> T) as Ht. { intros ->. rewrite Hl in Hd. apply elem_of_app in Hd. tauto. }
    eapply (others_frame tid i V w w' d evs out); try done; [apply M| |apply M|..].
    + intros m p ok pr Hm. by destruct (Hevs _ Hm) as [?|[? ?]].
    + intros y m Hm. rewrite (Hout _ _ Hm). done.
    + intros Hx. by apply Ht, Hb.
    + intros Hx. by apply Ht, Ha.
  - intros tid i Hs Hn. exfalso. assert (tid = T) as -> by (destruct (Hevs _ Hs) as [?|[? ?]]; congruence). rewrite Hl in Hd. apply elem_of_app in Hd as [?|Hd]; [done|].
    destruct (mv_evs _ _ _ _ _ M _ Hs) as [[_ Hf] _]. apply (g_event w G) in Hd as [j Hj]. by apply Hf in Hj.
Qed.

Definition rerun (rn : nat -> option pending) (w : world) : world := mk_world (nodes w) (soup w) (parked w) rn (log w).

Lemma over_put w d n' out evs T rn : good w -> let w' := rerun rn (put d n' out evs w) in
  node_id n' = node_id (nodes w d) -> ids (conns n') = ids (conns (nodes w d)) ->
  ((remote_state_change n' = true /\ tr_tid (reply n') = T) \/ (remote_state_change n' = false /\ tr_tid (reply n') = 0)) ->
  (forall tid, in_tx tid (nodes w d) -> tid = T) -> requests_of T out -> started w' T -> Decided T ∈ log w' -> runs w w' evs ->
  (forall e, e ∈ evs -> e = Decided T \/ (e = Started T d /\ fresh T w)) -> good w'.
Proof.
  intros G w' Hid Hids Htx Hb Hreq Hst Hd R Hevs. destruct (settle_spec n') as (E1 & E2 & E3 & E4 & E5 & E6). destruct (put_at d n' out evs w) as (Hat & _ & En & _).
  assert (moves w (put d n' out evs w) d evs (out ++ snd (settle n'))) as M.
  { apply put_moves; try done.
    - destruct Htx as [[_ ->]|[_ ->]]; [by right|by left].
    - destruct Htx as [[? _]|[_ ?]]; [congruence|done].
    - intros y m Hm. destruct (Hreq _ _ Hm) as (pk & -> & E). cbn [tid_of]. by rewrite E.
    - intros e He. destruct (Hevs e He) as [->|[-> ?]]; done. }
  apply (over_good w w' d evs (out ++ snd (settle n')) T); try done.
  - destruct M as [M1 M2 M3 M4 M5 M6 M7 M8 M9 M10]. split; try done. by destruct M1.
  - intros e He. destruct (Hevs e He) as [->|[-> ?]]; [by left|right; by exists d].
  - intros tid. change (nodes w' d) with (nodes (put d n' out evs w) d). rewrite En. intros [? <-]. rewrite E3. rewrite E4 in *. destruct Htx as [[_ ?]|[? _]]; [done|congruence].
  - intros y m [Hm|Hm]%elem_of_app; [by destruct (Hreq _ _ Hm) as (pk & -> & ?)|]. destruct (E6 _ _ Hm) as [-> ?]. by destruct Htx as [[_ ?]|[_ ?]].
Qed.

Lemma put_rerun d n out evs w : put d n out evs w = rerun (running w) (put d n out evs w).
Proof. unfold put. by destruct (settle n). Qed.

Lemma executed_good e w s d k pk t n : good w -> (s, d, Request pk) ∈ soup w -> is_prepare (pq_request pk) = false ->
  node_id n = node_id (nodes w d) -> ids (conns n) = ids (conns (nodes w d)) -> tr_tid (reply (nodes w d)) = rq_tid (pq_request pk) ->
  good (entered e s d k pk t (Enter n true) w).
Proof.
  intros G Hin Hp Hid Hids Ht. cbn [entered]. cbv zeta. pose proof (executed_spec e true k pk t n Hp) as He. destruct (process_entered e true k pk t n) as [[rv n'] out].
  destruct He as (E1 & E2 & E3 & E4 & E5). rewrite put_rerun. destruct (put_at d n' out [] w) as (Hst & _ & _ & _ & _).
  assert (started (put d n' out [] w) (rq_tid (pq_request pk))) as Hs by exact (started_at _ _ _ _ _ Hst (g_soup w G _ _ _ Hin)).
  apply (over_put w d n' out [] (rq_tid (pq_request pk)) (running w)); try done; try congruence.
  - by right.
  - intros tid [_ ?]. congruence.
  - change (log (rerun (running w) (put d n' out [] w))) with (log (put d n' out [] w)). rewrite (sa_log _ _ _ _ Hst). by eapply not_prepare_decided.
  - by apply runs_same.
  - by intros ? ?%elem_of_nil.
Qed.

(** ** The initiator *)

Lemma start_good now sends tid f cx cx' i n out w : good w -> fresh tid w -> good_change f -> change_prepare now sends false tid f cx (nodes w i) = Waiting cx' n out ->
  good (set_running i (Some (mk_pending f cx' tid)) (put i n out [Started tid i] w)).
Proof.
  intros G [Hz Hfresh] Hf Hc. pose proof (change_prepare_spec now sends tid f cx (nodes w i) Hf) as Hs. rewrite Hc in Hs. destruct Hs as [Hidle Hi].
  pose proof Hi as [N1 N2 N3 N4 N5 N6 N7 N8]. destruct (g_node w G i) as (Hid & Hself & Hw). rewrite Hw in N4. pose proof (settle_none n N4) as Es.
  destruct (put_at i n out [Started tid i] w) as (Hst & Hnew & En & _ & Er). pose proof (put_moves i n out [Started tid i] w) as M. rewrite Es in *. cbn [fst snd] in *. rewrite app_nil_r in *.
  set (P := put i n out [Started tid i] w) in *. set (w' := set_running _ _ P). assert (step_at w w' i [Started tid i]) as Hst' by by destruct Hst.
  assert (started w' tid) as Hs. { exists i. rewrite (sa_log _ _ _ _ Hst'). set_solver. }
  assert (forall y m, Send y m ∈ out -> tid_of m = tid) as Hout. { intros y m Hm. by destruct (N8 _ _ Hm) as (pk & -> & _ & ? & _). }
  assert (forall t, started w t -> t <> tid) as Hold. { intros t [j Hj] ->. by apply Hfresh in Hj. }
  assert (forall x y m, (x, y, m) ∈ soup w -> tid_of m <> tid) as Hsoup. { intros x y m Hm. by eapply Hold, (g_soup w G). }
  assert (forall m, ~ in_tx tid (nodes w m)) as Hntx. { intros m [? Ht]. destruct (g_tid w G m) as [?|Hm]; [congruence|]. by apply Hold in Hm. }
  apply (good_step w w' i [Started tid i] out); try done.
  - destruct M as [M1 M2 M3 M4 M5 M6 M7 M8 M9 M10]; try congruence; [rewrite N5; by right|by intros y m ->%Hout|by intros e ->%list_elem_of_singleton|]. by split.
  - intros j pe Hj. cbn in Hj. unfold upd in Hj. destruct (Nat.eqb_spec j i) as [->|Hne].
    + injection Hj as <-. right. cbn. split_and!; [set_solver|by intros ?%list_elem_of_singleton|done].
    + left. rewrite <-Er. split; [done|by intros ?%list_elem_of_singleton].
  - intros tid' i' V Hs' Hd _ Hinv. exists V. assert (tid' <> tid) as Hne by (apply Hold; by exists i').
    eapply (others_frame tid' i' V w w' i [Started tid i] out); try done.
    + by intros ? ? ? ? ?%list_elem_of_singleton.
    + intros y m Hm. rewrite (Hout _ _ Hm). done.
    + intros [? _]. congruence.
    + change (nodes w' i) with (nodes P i). rewrite En. intros [_ ?]. congruence.
  - intros tid' i' Hm%list_elem_of_singleton _. injection Hm as -> ->. exists (fun _ => 0). eapply (start_step tid i _ w w' (nodes w i) out); try done.
    + intros x y m Hm. specialize (Hsoup x y m Hm). by destruct m.
    + intros m p ok pr Hm. apply (g_event w G) in Hm. by apply Hold in Hm.
    + change (nodes w' i) with (nodes P i). by rewrite En.
Qed.

(** The change came to an end before anyone could be asked. *)
Lemma start_over w tid i n out : good w -> fresh tid w -> remote_state_change (nodes w i) = false -> node_id n = node_id (nodes w i) -> ids (conns n) = ids (conns (nodes w i)) ->
  ((remote_state_change n = true /\ tr_tid (reply n) = tid) \/ (remote_state_change n = false /\ (tr_tid (reply n) = 0 \/ tr_tid (reply n) = tr_tid (reply (nodes w i))))) ->
  requests_of tid out -> good (put i n out [Decided tid; Started tid i] w).
Proof.
  intros G Hfr Hidle Hid Hids Htx Hreq. pose proof (g_idle w G i Hidle) as H0. rewrite put_rerun.
  destruct (put_at i n out [Decided tid; Started tid i] w) as (Hst & _ & _ & _ & _).
  assert (log (rerun (running w) (put i n out [Decided tid; Started tid i] w)) = [Decided tid; Started tid i] ++ log w) as Hl by exact (sa_log _ _ _ _ Hst).
  apply (over_put w i n out [Decided tid; Started tid i] tid (running w)); try done.
  - destruct Htx as [?|[? [?|?]]]; [by left|by right|right; split; congruence].
  - intros t [? _]. congruence.
  - exists i. rewrite Hl. set_solver.
  - rewrite Hl. set_solver.
  - intros j pe Hj. left. split; [done|]. destruct (g_running w G j pe Hj) as (Hs & _ & _). destruct Hfr as [_ Hfr].
    intros [Hm|Hm%list_elem_of_singleton]%elem_of_cons; [|done]. injection Hm as Hm. rewrite Hm in Hs. by apply Hfr in Hs.
  - intros e [->| ->%list_elem_of_singleton]%elem_of_cons; [by left|by right].
Qed.

Lemma decide_over w i pe n out : good w -> running w i = Some pe -> over (nodes w i) n -> requests_of (tr_tid (reply (nodes w i))) out ->
  good (set_running i None (put i n out [Decided (pe_tid pe)] w)).
Proof.
  intros G Hrun [O1 O2 O3] Hreq. destruct (g_running w G i pe Hrun) as (Hs & Hd & _). destruct (g_tx w G _ _ Hs Hd) as [V Hinv].
  destruct (tx_init _ _ _ _ Hinv) as [[Hrem Htid] _]. rewrite Htid in Hreq. destruct (put_at i n out [Decided (pe_tid pe)] w) as (Hst & _ & _ & _ & Er).
  set (rn := upd (running (put i n out [Decided (pe_tid pe)] w)) i None). change (set_running i None (put i n out [Decided (pe_tid pe)] w)) with (rerun rn (put i n out [Decided (pe_tid pe)] w)).
  assert (log (rerun rn (put i n out [Decided (pe_tid pe)] w)) = [Decided (pe_tid pe)] ++ log w) as Hl by exact (sa_log _ _ _ _ Hst).
  apply (over_put w i n out [Decided (pe_tid pe)] (pe_tid pe) rn); try done.
  - destruct O3 as [[? ?]|?]; [left; split; congruence|by right].
  - intros tid [_ ?]. congruence.
  - exists i. rewrite Hl. set_solver.
  - rewrite Hl. set_solver.
  - intros j pe' Hj. cbn in Hj. unfold rn, upd in Hj. destruct (Nat.eqb_spec j i) as [->|Hne]; [done|]. rewrite Er in Hj. left. split; [done|].
    intros Hm%list_elem_of_singleton. injection Hm as Hm. destruct (g_running w G j pe' Hj) as (Hs' & _). rewrite Hm in Hs'. by destruct (g_unique w G _ _ _ Hs Hs').
  - intros e ->%list_elem_of_singleton. by left.
Qed.

(** ** Every step *)

Lemma wait_abort_good w s d k pk t : good w -> (s, d, Request pk) ∈ soup w -> link w d k s -> is_prepare (pq_request pk) = true ->
  tr_tid t = rq_tid (pq_request pk) -> tr_initiator_node_id t = rq_initiator_node_id (pq_request pk) ->
  forall n, same_view (nodes w d) n -> TWOPC_WORK_PENDING n = false ->
  good (mk_world (upd (nodes w) d n) (soup w) ((s, d, k, pk, t) :: parked w) (running w) (log w)).
Proof.
  intros G Hin Hl Hp Ht Hi n Hv Hw. pose proof Hv as [V1 V2 V3 V4 V5]. set (w' := mk_world _ _ _ _ _).
  assert (nodes w' d = n) as En by (cbn; unfold upd; by rewrite Nat.eqb_refl).
  assert (step_at w w' d []) as Hst. { split; [|done|done]. intros m Hm. cbn. unfold upd. by rewrite (proj2 (Nat.eqb_neq _ _) Hm). }
  apply (plain_step w w' d []); try done; [|by rewrite En|by intros ? ? ?%elem_of_nil].
  split; rewrite ?En; try done.
  - split; [by left|by intros ? ? ?%elem_of_nil].
  - by apply flags_ids.
  - rewrite V2. destruct (g_tid w G d); [by left|right; by eapply started_at].
  - rewrite V2, V3. apply (g_idle w G).
  - by intros ? ? ?%elem_of_nil.
  - by intros ? ?%elem_of_nil.
  - intros x [->|Hx]%elem_of_cons; [right|by left]. split; [done|]. split; [|done]. apply link_ids. rewrite En, (flags_ids _ _ V4). by apply link_ids.
Qed.

Lemma take_part_spec c n : let n' := take_part c n in
  node_id n' = node_id n /\ ids (conns n') = ids (conns n) /\ remote_state_change n' = true /\ n_prepare_reply_cmd n' = None /\ TWOPC_WORK_PENDING n' = TWOPC_WORK_PENDING n.
Proof. done. Qed.

Lemma request_good e waiting w s d k pk : good w -> (s, d, Request pk) ∈ soup w -> link w d k s ->
  let rq := pq_request pk in let t := received_reply rq (nodes w d) in
  good (entered e s d k pk t (process_enter waiting k rq t (if is_prepare rq then set_sizes_err false (nodes w d) else nodes w d)) w).
Proof.
  intros G Hin Hl. cbv zeta. set (t := received_reply _ _). destruct (g_node w G d) as (Hid & _ & Hw). set (n := if is_prepare _ then _ else _).
  assert (same_view (nodes w d) n /\ conns n = conns (nodes w d) /\ TWOPC_WORK_PENDING n = false) as (Hv & Hc & Hw') by (unfold n; by case_match).
  pose proof Hv as [V1 V2 V3 V4 V5].
  assert (tr_tid t = rq_tid (pq_request pk) /\ tr_initiator_node_id t = rq_initiator_node_id (pq_request pk)) as [Ht Hi] by done. clearbody n t.
  assert (good (entered e s d k pk t (Leave n []) w)) as Hplain by (apply plain_put; try done; apply no_sends).
  unfold process_enter. cbv zeta. set (csc := check_concurrent_transactions n t).
  destruct (bool_decide (csc = CSC_CLEAR) && negb (is_abort (pq_request pk))) eqn:Hcase.
  { apply andb_true_iff in Hcase as [Hcsc%bool_decide_eq_true _]. destruct (is_prepare (pq_request pk)) eqn:Hp; cbn [negb]; [|done]. destruct (tr_is_aborted t); [done|].
    assert (remote_state_change n = false) as Hrem. { unfold csc, check_concurrent_transactions in Hcsc. cbv zeta in Hcsc. destruct (remote_state_change n); [|done]. by repeat case_match. }
    apply accept_good; try done; [congruence|]. change (ids (conns n) = ids (conns (nodes w d))). by rewrite Hc. }
  clear Hcase. destruct (bool_decide (csc = CSC_MATCH) && negb (is_prepare (pq_request pk))) eqn:Hcase.
  { apply andb_true_iff in Hcase as [Hcsc%bool_decide_eq_true Hp%negb_true_iff]. destruct (TWOPC_EXECUTED n); [done|].
    assert (tr_tid (reply n) = tr_tid t) as E.
    { unfold csc, check_concurrent_transactions in Hcsc. cbv zeta in Hcsc. repeat case_match; try done. by match goal with Hx : negb (_ =? _) = false |- _ => apply negb_false_iff, Z.eqb_eq in Hx end. }
    apply executed_good; try done; [by rewrite <-Hc|congruence]. }
  clear Hcase. destruct (bool_decide (csc = CSC_ABORT_LOCAL) && is_prepare (pq_request pk)) eqn:Hcase.
  { apply andb_true_iff in Hcase as [_ Hp]. by apply wait_abort_good. }
  clear Hcase. destruct (is_abort (pq_request pk)) eqn:Hab.
  { apply plain_put; try done. intros y m Hm. destruct (nested_abort_requests _ _ _ _ Hm) as (pk' & -> & E). cbn [tid_of]. rewrite E. split; [exact (g_soup w G _ _ _ Hin)|].
    eapply not_prepare_decided; try done. unfold is_abort in Hab. apply bool_decide_eq_true in Hab. unfold is_prepare. by rewrite Hab. }
  case_match; [exact G|].
  case_match.
  { apply plain_put; try done. intros y m Hm%list_elem_of_singleton. injection Hm as -> ->. split; [|done]. cbn. rewrite Ht. exact (g_soup w G _ _ _ Hin). }
  case_match eqn:Hcase; [|done]. apply andb_true_iff in Hcase as [_ Hcsc%bool_decide_eq_true].
  assert (tr_tid (reply n) = tr_tid t /\ remote_state_change n = true) as [E1 E2].
  { unfold csc, check_concurrent_transactions in Hcsc. cbv zeta in Hcsc. repeat case_match; try done. split; [|by apply negb_false_iff].
    by match goal with Hx : negb (_ =? _) = false |- _ => apply negb_false_iff, Z.eqb_eq in Hx end. }
  pose proof (duplicate_good w s d k pk n G Hin Hl) as Hdup. destruct (duplicate_prepare k n) as [n' out]. apply Hdup; try done. congruence.
Qed.

Lemma parked_good e w s d k pk t : good w -> (s, d, k, pk, t) ∈ parked w -> good (entered e s d k pk t (abort_local_done k t (nodes w d)) w).
Proof.
  intros G Hx. destruct (g_parked w G _ Hx) as (Hin & Hl & Hp & Ht & Hi). destruct (g_node w G d) as (Hid & _ & Hw). unfold abort_local_done. cbv zeta.
  set (n := set_abort_local false (nodes w d)). assert (same_view (nodes w d) n /\ conns n = conns (nodes w d) /\ TWOPC_WORK_PENDING n = false) as (Hv & Hc & Hw') by done.
  pose proof Hv as [V1 V2 V3 V4 V5]. clearbody n. destruct (remote_state_change n) eqn:Hrem; cbn [negb].
  - destruct (Z.eqb_spec (tr_tid (reply n)) (tr_tid t)) as [E|_].
    + pose proof (duplicate_good w s d k pk n G Hin Hl) as Hdup. destruct (duplicate_prepare k n) as [n' out]. apply Hdup; try done. congruence.
    + apply plain_put; try done. intros y m Hm%list_elem_of_singleton. injection Hm as -> ->. split; [|done]. cbn. rewrite Ht. exact (g_soup w G _ _ _ Hin).
  - destruct (tr_is_aborted t); [apply plain_put; try done; apply no_sends|].
    apply accept_good; try done. change (ids (conns n) = ids (conns (nodes w d))). by rewrite Hc.
Qed.

Lemma local_good w i n : good w -> same_view (nodes w i) n -> TWOPC_WORK_PENDING n = TWOPC_WORK_PENDING (nodes w i) -> good (mk_world (upd (nodes w) i n) (soup w) (parked w) (running w) (log w)).
Proof.
  intros G Hv Hw. destruct (g_node w G i) as (_ & _ & E). rewrite E in Hw. pose proof (plain_put w i n [] G Hv Hw (no_sends w)) as Hp. unfold put in Hp. by rewrite (settle_none n Hw) in Hp.
Qed.

Lemma step_good w w' : good w -> step w w' -> good w'.
Proof.
  intros G Hs. destruct Hs as [now sends tid f cx cx' i n out w Hfr Hf Hc|now sends tid f cx i rv n out w Hfr Hf Hc|now sends tid f cx cx' i n out w Hfr Hf Hc|
    e waiting s d k pk w Hin Hl rq t|e s d k pk t w Hx|s d k a w Hin Hl|d k w|d k w|now i pe y rv n out w Hrun _ Hc|now i pe y cx' n out w Hrun _ Hc|i n w Hv Hw].
  - by eapply start_good.
  - pose proof (change_prepare_spec now sends tid f cx (nodes w i) Hf) as Hs. rewrite Hc in Hs. destruct Hs as (? & ? & ? & ? & ?). by apply start_over.
  - pose proof (change_prepare_spec now sends tid f cx (nodes w i) Hf) as Hs. rewrite Hc in Hs. destruct Hs as (? & ? & ? & ? & ?). by apply start_over.
  - by apply request_good.
  - by apply parked_good.
  - by eapply answer_good.
  - unfold twopc_connection_down. case_match; [|apply plain_put; try done; [by destruct (g_node w G d) as (_ & _ & ?)|apply no_sends]]. by apply other_flag_put.
  - unfold finish_nested_twopc. case_match; [apply plain_put; try done; [by destruct (g_node w G d) as (_ & _ & ?)|apply no_sends]|]. by apply other_flag_put.
  - pose proof (change_decide_spec now (pe_fn pe) (pe_cx pe) (target_of (pe_cx pe) (nodes w i)) true (votes_of y (nodes w i)) (nodes w i)) as Hs.
    unfold change_voted in Hc. rewrite Hc in Hs. destruct Hs as [? ?]; [by eapply g_running|]. by apply decide_over.
  - pose proof (change_decide_spec now (pe_fn pe) (pe_cx pe) (target_of (pe_cx pe) (nodes w i)) true (votes_of y (nodes w i)) (nodes w i)) as Hs.
    unfold change_voted in Hc. rewrite Hc in Hs. destruct Hs as [? ?]; [by eapply g_running|]. by apply decide_over.
  - by apply local_good.
Qed.

Lemma initial_good w : initial w -> good w.
Proof.
  intros [I1 I2 I3 I4 I5]. split.
  - intros m. by destruct (I1 m) as (? & ? & _ & _ & ?).
  - intros m. left. by destruct (I1 m) as (_ & _ & _ & ? & _).
  - intros m _. by destruct (I1 m) as (_ & _ & _ & ? & _).
  - intros s d m. rewrite I2. by intros ?%elem_of_nil.
  - intros e. rewrite I5. by intros ?%elem_of_nil.
  - intros t i j. rewrite I5. by intros ?%elem_of_nil.
  - intros x. rewrite I3. by intros ?%elem_of_nil.
  - intros j pe. by rewrite I4.
  - intros tid i. rewrite I5. by intros ?%elem_of_nil.
Qed.

Lemma reachable_good w : reachable w -> good w.
Proof. induction 1 as [w Hi|w w' _ IH Hs]; [by apply initial_good|by eapply step_good]. Qed.
End cluster.
