(* ===== verification/TwoPhaseClaims.v ===== *)
(** * Two phase commit: what a commit means

    In every cluster that can be reached: who was ready when a commit is sent, and who can be
    primary after it. *)
From S2P Require Import Prelude Headers State StateFinish TwoPhase TwoPhaseLocal TwoPhaseRecv TwoPhaseChange TwoPhaseProps TwoPhaseNet TwoPhaseSteps TwoPhaseAgree TwoPhaseInv.

(** What the initiator sends at the end of its wait. *)
Definition sent (x : progress_of_change) : list effect := match x with Ended _ _ out | Retry _ _ out => out | _ => [] end.

Section claims.
Context `{TwopcHeaders}.

(** ** The commit *)

Lemma p_commit_primaries c sc rq : rq_cmd rq <> P_TWOPC_PREPARE -> pq_primary_nodes (p_request_of c sc rq) = sc_primary_nodes sc.
Proof. intros Hc. unfold p_request_of. destruct (rq_cmd rq); [done|..]; cbn; by case_match. Qed.

Lemma phase2_commit rq reach n d pk : Send d (Request pk) ∈ twopc_phase2 rq reach n -> rq_cmd (pq_request pk) = P_TWOPC_COMMIT ->
  rq_cmd rq = P_TWOPC_COMMIT /\ pq_primary_nodes pk = sc_primary_nodes (n_change n).
Proof.
  intros (c & E & _)%list_elem_of_fmap Hc. injection E as _ ->. destruct (p_request_spec c (n_change n) rq) as (E & _). rewrite E in Hc.
  split; [done|]. apply p_commit_primaries. congruence.
Qed.

Lemma decide_commit now f cx target hp rv n d pk : good_change f -> Send d (Request pk) ∈ sent (change_decide now f cx target hp rv n) -> rq_cmd (pq_request pk) = P_TWOPC_COMMIT ->
  hp = true /\ let '(rv', _, n') := decision cx target hp rv n in rv_ok rv' = true /\ pq_primary_nodes pk = sc_primary_nodes (n_change n').
Proof.
  intros Hf Hin Hc. unfold change_decide in Hin. cbv zeta in Hin. destruct (decision cx target hp rv n) as [[rv' b] n1].
  match type of Hin with context [twopc_phase2 ?q ?rc ?m] => set (rq := q) in Hin; set (reach := rc) in Hin; set (n2 := m) in Hin end.
  assert (n_change n2 = n_change n1) as E2 by (unfold n2; by repeat case_match). pose proof (change_local_spec now f cx rv' n2 Hf) as Hl.
  assert (Send d (Request pk) ∈ (if hp then twopc_phase2 rq reach n2 else [])) as Hp.
  { destruct (_ && _) in Hin; [done|]. destruct (change_local now f cx rv' n2) as [[rv2 n3] out]. destruct Hl as [_ Hl]. cbn in Hin.
    destruct (cx_change_local_state_last cx); apply elem_of_app in Hin as [Hin|Hin]; try done; by apply Hl in Hin. }
  destruct hp; [|by apply elem_of_nil in Hp]. split; [done|]. destruct (phase2_commit _ _ _ _ _ Hp Hc) as [E ->]. rewrite E2. split; [|done].
  cbn in E. by destruct (rv_ok rv').
Qed.

Lemma agreed_change cx reach n : let '(_, _, n') := change_agreed cx reach n in sc_primary_nodes (n_change n') = tr_primary_nodes (reply n').
Proof. unfold change_agreed. cbv zeta. done. Qed.

(** The votes when a commit is sent. *)
Lemma commit_votes now f cx y n d pk : good_change f -> (y = Woken -> cluster_wide_reply_ready n = true) ->
  Send d (Request pk) ∈ sent (change_voted now f cx y n) -> rq_cmd (pq_request pk) = P_TWOPC_COMMIT ->
  all_yes n /\ let '(rv, _, n') := change_agreed cx (reach_of_change cx (target_of cx n) n) n in rv_ok rv = true /\ pq_primary_nodes pk = tr_primary_nodes (reply n').
Proof.
  intros Hf Hready Hin Hc. destruct (decide_commit _ _ _ _ _ _ _ _ _ Hf Hin Hc) as [_ Hd].
  pose proof (decision_spec cx (target_of cx n) true (votes_of y n) n) as Hs. destruct (decision cx (target_of cx n) true (votes_of y n) n) as [[rv b] n1] eqn:E.
  destruct Hd as [Hok Hp]. destruct Hs as (_ & _ & _ & _ & Hs). specialize (Hs eq_refl Hok). destruct y; [|done|done]. cbn in Hs.
  destruct (agreed_reply n Hs) as (Hcw & _ & Hall). split; [by apply Hall, Hready|]. unfold decision, votes_of in E. rewrite Hcw in E. cbn [andb] in E. rewrite bool_decide_true in E by done.
  pose proof (agreed_change cx (reach_of_change cx (target_of cx n) n) n) as Hch. destruct (change_agreed _ _ n) as [[rva inc] na].
  injection E as E1 _ <-. rewrite Hp, Hch. split; [|done]. destruct (_ && _ && _ && _) in E1; subst rv; done.
Qed.

(** C9: in a cluster whose packets may be late, lost, repeated and reordered, when the initiator
    sends a commit, every node that took part was ready for the change, also the ones that it cannot
    reach itself; every node that was asked took part; and the commit names every one of them that
    was primary.  Within the limits of [step]: a handler and the work that it queues run without a
    break, transactions have different numbers, and no participant gives up before the decision
    (no timeout, no abort by the administrator, no cleanup of a lost connection).  In the code a second
    request that comes while the handler of the first has let go of the lock makes a node say yes
    before its check, [duplicate_votes_early]. *)
Theorem commit_agreed now w i pe y d pk :
  reachable w -> running w i = Some pe -> (y = Woken -> cluster_wide_reply_ready (nodes w i) = true) ->
  Send d (Request pk) ∈ sent (change_voted now (pe_fn pe) (pe_cx pe) y (nodes w i)) -> rq_cmd (pq_request pk) = P_TWOPC_COMMIT ->
  (forall m p ok primary, Accepted (pe_tid pe) m p ok primary ∈ log w -> ok = true /\ (primary = true -> Z.testbit (pq_primary_nodes pk) (Z.of_nat m) = true)) /\
  (forall s x q, (s, x, Request q) ∈ soup w -> rq_tid (pq_request q) = pe_tid pe -> exists p primary, Accepted (pe_tid pe) x p true primary ∈ log w).
Proof.
  intros G%reachable_good Hrun Hready Hin Hc. destruct (g_running w G i pe Hrun) as (Hs & Hd & Hf). destruct (g_tx w G _ _ Hs Hd) as [V Hinv].
  destruct (commit_votes _ _ _ _ _ _ _ Hf Hready Hin Hc) as [Hall Ha]. destruct (all_agreed _ _ _ _ Hinv Hall) as [H1 H2]. split; [|exact H2].
  pose proof (agreed_spec (pe_cx pe) (reach_of_change (pe_cx pe) (target_of (pe_cx pe) (nodes w i)) (nodes w i)) (nodes w i)) as Hsp.
  destruct (change_agreed _ _ _) as [[rv b] n']. destruct Ha as [_ ->]. destruct Hsp as (_ & _ & _ & Hsub).
  intros m p ok pr Hm. destruct (H1 _ _ _ _ Hm) as [? Hp]. split; [done|]. intros Hpr. by apply Hsub, Hp.
Qed.

(** ** One primary *)

Lemma hweight_two x a b : (a < 64)%nat -> (b < 64)%nat -> a <> b -> Z.testbit x (Z.of_nat a) = true -> Z.testbit x (Z.of_nat b) = true -> 2 <= hweight64 x.
Proof.
  intros Ha Hb Hab Ta Tb. unfold hweight64.
  assert (forall l, 0 <= foldr (fun i s => (if Z.testbit x (Z.of_nat i) then 1 else 0) + s) 0 l) as Hpos by (intros l; induction l; cbn; case_match || idtac; lia).
  assert (forall l c, c ∈ l -> Z.testbit x (Z.of_nat c) = true -> 1 <= foldr (fun i s => (if Z.testbit x (Z.of_nat i) then 1 else 0) + s) 0 l) as H1.
  { intros l c Hc Tc. induction Hc as [c l|c e l Hc IH]; cbn; [rewrite Tc; specialize (Hpos l); lia|specialize (IH Tc); case_match; lia]. }
  assert (forall l, a ∈ l -> b ∈ l -> 2 <= foldr (fun i s => (if Z.testbit x (Z.of_nat i) then 1 else 0) + s) 0 l) as H2.
  { intros l. induction l as [|e l IH]; [by intros ?%elem_of_nil|]. intros Hla Hlb. cbn. apply elem_of_cons in Hla, Hlb. destruct Hla as [<-|Hla], Hlb as [<-|Hlb]; [done|..].
    - rewrite Ta. specialize (H1 l b Hlb Tb). lia.
    - rewrite Tb. specialize (H1 l a Hla Ta). lia.
    - specialize (IH Hla Hlb). case_match; lia. }
  apply H2; apply elem_of_seq; lia.
Qed.

(** C20: when the initiator asks to become primary, no connection of it allows two primaries, and a
    commit is sent, then no node that took part (with an id below 64) was primary when it was asked.  Within the
    limits of [step]: a handler and the work that it queues run without a break, transactions have
    different numbers, and no participant gives up before the decision; a second request that comes
    while the handler of the first has let go of the lock is left out, [early_yes_and_failure]. *)
Theorem promotion_exclusive now w i pe y d pk m p ok primary :
  reachable w -> running w i = Some pe -> (y = Woken -> cluster_wide_reply_ready (nodes w i) = true) ->
  Send d (Request pk) ∈ sent (change_voted now (pe_fn pe) (pe_cx pe) y (nodes w i)) -> rq_cmd (pq_request pk) = P_TWOPC_COMMIT ->
  m_role (cx_mask (pe_cx pe)) = role_MASK -> is_primary (v_role (cx_val (pe_cx pe))) = true -> multiple_primaries_allowed (n_resource (nodes w i)) = false ->
  (i < 64)%nat -> (m < 64)%nat -> Accepted (pe_tid pe) m p ok primary ∈ log w -> primary = false.
Proof.
  intros G%reachable_good Hrun Hready Hin Hc Hrole Hpri Hmulti Hi Hm Hev. destruct (g_running w G i pe Hrun) as (Hs & Hd & Hf). destruct (g_tx w G _ _ Hs Hd) as [V Hinv].
  destruct (commit_votes _ _ _ _ _ _ _ Hf Hready Hin Hc) as [Hall Ha]. destruct (all_agreed _ _ _ _ Hinv Hall) as [H1 _]. destruct (H1 _ _ _ _ Hev) as [_ Hp].
  destruct primary; [|done]. specialize (Hp eq_refl). exfalso. destruct (tx_acc _ _ _ _ Hinv _ _ _ _ Hev) as (_ & Hne & _). destruct (g_node w G i) as (Hid & _ & _).
  unfold change_agreed, count_myself in Ha. cbv zeta in Ha. rewrite Hrole, Hpri, Z.eqb_refl in Ha. cbn [andb orb negb] in Ha.
  match type of Ha with context [check_primaries_distances ?n] => assert (check_primaries_distances n = SS_TWO_PRIMARIES) as E end.
  { unfold check_primaries_distances. cbv zeta. rewrite (proj2 (Z.leb_gt _ _)).
    - cbn [n_resource]. change (multiple_primaries_allowed (n_resource (set_reply _ (nodes w i)))) with (multiple_primaries_allowed (n_resource (nodes w i))). by rewrite Hmulti.
    - eapply Z.lt_le_trans; [|apply (hweight_two _ m i); try done]; [lia|..]; cbn -[Z.lor].
      + rewrite Z.lor_spec. unfold has, primaries in Hp. by rewrite Hp.
      + unfold my_bit. rewrite Hid. apply my_bit_in. }
  rewrite E in Ha. by destruct Ha as [Ha _].
Qed.

(** ** A vote before the check

    The handler of a request lets go of the lock before the change is checked.  A second request of
    the same transaction, from another peer, finds no one asked yet and ends the wait: the node says
    yes to all that asked, whatever the check will find. *)
Lemma duplicate_votes_early k n : remote_state_change n = true -> n_prepare_reply_cmd n = None -> tr_tid (reply n) <> 0 -> tr_initiator_node_id (reply n) <> Z.of_nat (node_id n) ->
  tr_is_connect (reply n) = false -> tr_state_change_failed (reply n) = false -> TWOPC_ABORT_LOCAL n = false -> TWOPC_RECV_SIZES_ERR n = false ->
  (forall c, c ∈ conns n -> prepared c = false) ->
  let '(n1, out) := duplicate_prepare k n in out = [] /\ n_prepare_reply_cmd (fst (settle n1)) = Some P_TWOPC_YES.
Proof.
  intros Hrem Hcmd Ht Hi Hcon Hf Hab Hsz Hp. unfold duplicate_prepare. cbv zeta. cbn [set_parents n_prepare_reply_cmd]. rewrite Hcmd. split; [done|].
  set (n1 := with_res _ _).
  assert (forall c, c ∈ conns n1 -> prepared c = false) as Hp1.
  { intros c Hc. apply list_elem_of_lookup in Hc as [j Hj]. change (alter (with_c_more (with_votes (fun v => set_votes true (TWOPC_NO v) v))) k (conns n) !! j = Some c) in Hj.
    destruct (decide (j = k)) as [->|Hne].
    - rewrite list_lookup_alter_eq in Hj. destruct (conns n !! k) as [c0|] eqn:E; [|done]. injection Hj as <-. by apply (Hp c0), (list_elem_of_lookup_2 _ k).
    - rewrite list_lookup_alter_ne in Hj by done. by apply Hp, (list_elem_of_lookup_2 _ j). }
  assert (forall g, existsb (fun c => prepared c && g c) (conns n1) = false) as Hnone.
  { intros g. apply not_true_is_false. intros (c & Hc & Hb)%existsb_exists. apply list_elem_of_In, Hp1 in Hc. by rewrite Hc in Hb. }
  assert (forall g h, existsb (fun c => g c && tr_is_connect (reply n1) && drbd_twopc_between_peer_and_me (n_resource n1) c && h c) (conns n1) = false) as Hwait.
  { intros g h. apply not_true_is_false. intros (c & Hc & Hb)%existsb_exists. change (reply n1) with (reply n) in Hb. rewrite Hcon, !andb_false_r in Hb. done. }
  assert (forall h, existsb (fun c => tr_is_connect (reply n1) && drbd_twopc_between_peer_and_me (n_resource n1) c && h (cm_votes (c_more c))) (conns n1) = false) as Hhand.
  { intros h. apply not_true_is_false. intros (c & Hc & Hb)%existsb_exists. change (reply n1) with (reply n) in Hb. by rewrite Hcon in Hb. }
  assert (cluster_wide_reply_ready n1 = true) as Hr.
  { unfold cluster_wide_reply_ready. cbv zeta. rewrite (Hnone said_retry), (Hwait _ (fun c => negb (CONN_HANDSHAKE_READY (cm_votes (c_more c))))). cbn [negb orb andb].
    assert (forallb (fun c => negb (prepared c) || said_yes c) (conns n1) = true) as ->; [|by rewrite !orb_true_r].
    apply forallb_forall. intros c Hc. apply list_elem_of_In, Hp1 in Hc. by rewrite Hc. }
  assert (get_cluster_wide_reply n1 = SS_CW_SUCCESS) as Hg.
  { unfold get_cluster_wide_reply. cbv zeta. change (TWOPC_ABORT_LOCAL n1) with (TWOPC_ABORT_LOCAL n). change (TWOPC_RECV_SIZES_ERR n1) with (TWOPC_RECV_SIZES_ERR n).
    change (tr_state_change_failed (reply n1)) with (tr_state_change_failed (reply n)). rewrite Hab, Hsz, Hf, !Hnone, !Hhand. done. }
  unfold drbd_maybe_cluster_wide_reply. change (remote_state_change n1) with (remote_state_change n). rewrite Hrem, Hr. cbn [negb orb].
  change (reply n1) with (reply n). change (node_id n1) with (node_id n). rewrite (proj2 (Z.eqb_neq _ _) Hi). unfold settle. cbn [TWOPC_WORK_PENDING set_work_pending].
  unfold nested_twopc_work. change (get_cluster_wide_reply (set_work_pending true n1)) with (get_cluster_wide_reply n1). rewrite Hg. cbn [rv_ok].
  unfold twopc_end_nested. cbv zeta. change (reply (set_work_pending true n1)) with (reply n). rewrite (proj2 (Z.eqb_neq _ _) Ht). cbn [negb andb].
  change (n_prepare_reply_cmd (set_work_pending true n1)) with (@None twopc_answer). by rewrite bool_decide_true.
Qed.
End claims.

(** ** A promotion in a chain of three nodes *)

Program Definition small_twopc_headers : TwopcHeaders := {| twopc_headers := small_state_headers; role_MASK := 3; conn_MASK := 31; D_MASK := 15 |}.
Next Obligation. lia. Qed.
Next Obligation. reflexivity. Qed.

Section demo.
#[local] Existing Instance small_twopc_headers.

Definition demo_link (peer : nat) : connection :=
  let s := mk_cs C_CONNECTED R_SECONDARY false in
  mk_conn s s (Some (mk_net_conf false false false)) FP_DONT_CARE 122 false (mk_cm peer 0 0 0 true false false false false false false 0 (mk_votes false false false false false false)).

Definition demo_peers (m : nat) : list nat := match m with 0%nat => [1%nat] | 1%nat => [0%nat; 2%nat] | 2%nat => [1%nat] | _ => [] end.

Definition demo_node (ro : drbd_role) (m : nat) : node :=
  let s := mk_rs ro false false false false false in
  mk_node (mk_res s s (demo_link <$> demo_peers m) [] (mk_flags false false false false false false false) m 7 QOU_OFF QOU_OFF ONQ_SUSPEND_IO OND_SUSPEND_IO no_res_more)
    (mk_tsc no_mask no_val 0 0) 0 None 1 true false false false false.

Definition demo_world : world := mk_world (demo_node R_SECONDARY) [] [] (fun _ => None) [].
Definition demo_env : env := mk_env 1000 (fun _ => true) [].
Definition demo_cx : change_context := change_role_context R_PRIMARY (mk_chg (mk_flags false false false false false false false) false false false false false false).
Definition demo_pending : pending := mk_pending do_change_role demo_cx 5.

Definition demo_linked (w : world) (d k s : nat) : bool := match conns (nodes w d) !! k with Some c => Nat.eqb (peer_id c) s | None => false end.

(** The newest packet arrives at node [d] by its connection [k]. *)
Definition demo_deliver (d k : nat) (w : world) : option world :=
  match soup w with
  | (s, d', m) :: _ =>
      if Nat.eqb d' d && demo_linked w d k s
      then Some match m with
                | Request pk =>
                    let rq := pq_request pk in let t := received_reply rq (nodes w d) in
                    entered demo_env s d k pk t (process_enter true k rq t (if is_prepare rq then set_sizes_err false (nodes w d) else nodes w d)) w
                | Answer a => put d (got_twopc_reply k a (nodes w d)) [] [] w
                end
      else None
  | _ => None
  end.

Definition demo_run : option world :=
  match change_prepare 1000 (fun _ => true) false 5 do_change_role demo_cx (nodes demo_world 0%nat) with
  | Waiting cx n out =>
      let w := set_running 0%nat (Some (mk_pending do_change_role cx 5)) (put 0%nat n out [Started 5 0%nat] demo_world) in
      w ← demo_deliver 1 0 w; w ← demo_deliver 2 0 w; w ← demo_deliver 1 1 w; demo_deliver 0 0 w
  | _ => None
  end.

Lemma demo_deliver_reachable d k w w' : reachable w -> demo_deliver d k w = Some w' -> reachable w'.
Proof.
  intros Hr Hd. eapply reachable_step; [exact Hr|]. unfold demo_deliver in Hd. destruct (soup w) as [|[[s d'] m] l] eqn:Es; [done|].
  destruct (Nat.eqb_spec d' d) as [->|]; [|done]. destruct (demo_linked w d k s) eqn:El; [|done]. cbn [andb] in Hd. injection Hd as <-.
  assert (link w d k s) as Hl. { unfold demo_linked in El. destruct (conns (nodes w d) !! k) as [c|] eqn:E; [|done]. exists c. split; [done|]. by apply Nat.eqb_eq. }
  assert ((s, d, m) ∈ soup w) as Hin by (rewrite Es; set_solver). destruct m as [pk|a]; [by apply step_request|by eapply step_answer].
Qed.

Lemma demo_initial : initial demo_world.
Proof.
  split; try done. intros m. split_and!; try done. change (ids (conns (nodes demo_world m))) with (peer_id <$> (demo_link <$> demo_peers m)).
  rewrite <-list_fmap_compose. change (peer_id ∘ demo_link) with (fun x : nat => x). rewrite list_fmap_id. destruct m as [|[|[|m]]]; cbn; set_solver by lia.
Qed.

Lemma demo_run_reachable w : demo_run = Some w -> reachable w.
Proof.
  unfold demo_run. cbv zeta. destruct (change_prepare _ _ _ _ _ _ _) as [| | |cx n out|] eqn:E; try done. intros Hw.
  set (w0 := set_running _ _ _) in Hw. assert (reachable w0) as Hr.
  { eapply reachable_step; [apply reachable_initial, demo_initial|]. eapply step_start; [|apply do_change_role_good|exact E]. split; [done|]. intros j. apply not_elem_of_nil. }
  clearbody w0. repeat (apply bind_Some in Hw as (? & ? & Hw)). eauto using demo_deliver_reachable.
Qed.

Lemma prepare_context now sends b tid f cx n cx' n' out : change_prepare now sends b tid f cx n = Waiting cx' n' out -> cx' = cx.
Proof.
  unfold change_prepare. cbv zeta. intros Hc. repeat case_match; try done; try congruence.
  all: match goal with Hd : change_decide _ _ _ _ _ _ _ = _ |- _ => unfold change_decide in Hd; cbv zeta in Hd; repeat case_match; congruence | _ => unfold end_change in Hc; cbv zeta in Hc; case_match; congruence end.
Qed.

Lemma entered_running e s d k pk t y w : running (entered e s d k pk t y w) = running w.
Proof. destruct y; cbn [entered]; try done; [apply put_at|]. cbv zeta. destruct (process_entered _ _ _ _ _ _) as [[? ?] ?]. apply put_at. Qed.

Lemma demo_deliver_running d k w w' : demo_deliver d k w = Some w' -> running w' = running w.
Proof.
  unfold demo_deliver. intros Hd. repeat case_match; try done; injection Hd as <-; apply put_at || apply entered_running.
Qed.

Lemma demo_running w : demo_run = Some w -> running w 0%nat = Some demo_pending.
Proof.
  unfold demo_run. cbv zeta. destruct (change_prepare _ _ _ _ _ _ _) as [| | |cx n out|] eqn:E; try done. apply prepare_context in E as ->. intros Hw.
  repeat (apply bind_Some in Hw as (? & ? & Hw)). by do 4 (erewrite demo_deliver_running by eassumption).
Qed.

Definition demo_voted : world := default demo_world demo_run.
Definition demo_commit : p_twopc_request :=
  match sent (change_voted 1000 do_change_role demo_cx Woken (nodes demo_voted 0%nat)) with
  | [_; Send _ (Request pk)] => pk
  | _ => mk_p_request (mk_request 0 P_TWOPC_ABORT 0 0 0 0 false false) no_mask no_val 0 0
  end.

Lemma demo_voted_run : demo_run = Some demo_voted.
Proof. unfold demo_voted. assert (match demo_run with Some _ => true | None => false end = true) as Hr by (vm_compute; reflexivity). by destruct demo_run. Qed.

Lemma demo_voted_log : log demo_voted = [Accepted 5 2 1 true false; Accepted 5 1 0 true false; Started 5 0].
Proof. vm_compute. reflexivity. Qed.

Lemma demo_accepted : Accepted (pe_tid demo_pending) 2 1 true false ∈ log demo_voted.
Proof. rewrite demo_voted_log. constructor. Qed.

Lemma demo_commit_sent : Send 1 (Request demo_commit) ∈ sent (change_voted 1000 (pe_fn demo_pending) (pe_cx demo_pending) Woken (nodes demo_voted 0%nat)).
Proof.
  cbn [demo_pending pe_fn pe_cx]. unfold demo_commit. set (l := sent _).
  assert (match l with [_; Send 1%nat (Request _)] => true | _ => false end = true) as Hl by (vm_compute; reflexivity). clearbody l.
  destruct l as [|a [|[[|[|]] [|]| | | |] [|]]]; try done. set_solver.
Qed.

Lemma commit_agreed_witness : exists w pe pk, reachable w /\ running w 0%nat = Some pe /\ Send 1 (Request pk) ∈ sent (change_voted 1000 (pe_fn pe) (pe_cx pe) Woken (nodes w 0%nat)) /\
  Accepted (pe_tid pe) 2 1 true false ∈ log w /\
  (forall m p ok primary, Accepted (pe_tid pe) m p ok primary ∈ log w -> ok = true /\ (primary = true -> Z.testbit (pq_primary_nodes pk) (Z.of_nat m) = true)).
Proof.
  exists demo_voted, demo_pending, demo_commit. pose proof (demo_running _ demo_voted_run) as Hrun. split; [exact (demo_run_reachable _ demo_voted_run)|]. split; [exact Hrun|]. split; [exact demo_commit_sent|]. split; [exact demo_accepted|].
  refine (proj1 (commit_agreed 1000 demo_voted 0 demo_pending Woken 1 demo_commit (demo_run_reachable _ demo_voted_run) Hrun _ demo_commit_sent _)).
  - intros _. vm_compute. reflexivity.
  - vm_compute. reflexivity.
Defined.

Lemma promotion_exclusive_witness : exists w pe pk primary, reachable w /\ running w 0%nat = Some pe /\
  Send 1 (Request pk) ∈ sent (change_voted 1000 (pe_fn pe) (pe_cx pe) Woken (nodes w 0%nat)) /\ rq_cmd (pq_request pk) = P_TWOPC_COMMIT /\
  Accepted (pe_tid pe) 2 1 true primary ∈ log w /\ primary = false.
Proof.
  exists demo_voted, demo_pending, demo_commit, false. pose proof (demo_running _ demo_voted_run) as Hrun. pose proof demo_accepted as Hin.
  split; [exact (demo_run_reachable _ demo_voted_run)|]. split; [exact Hrun|]. split; [exact demo_commit_sent|]. split; [vm_compute; reflexivity|]. split; [exact Hin|].
  refine (promotion_exclusive 1000 demo_voted 0 demo_pending Woken 1 demo_commit 2 1 true false (demo_run_reachable _ demo_voted_run) Hrun _ demo_commit_sent _ _ _ _ _ _ Hin).
  - intros _. vm_compute. reflexivity.
  - vm_compute. reflexivity.
  - reflexivity.
  - reflexivity.
  - vm_compute. reflexivity.
  - lia.
  - lia.
Defined.

(** A primary is asked twice: it says yes although its own check fails. *)
Definition early_request : p_twopc_request :=
  let cx := demo_cx in
  mk_p_request (mk_request (2 ^ 64 - 2) P_TWOPC_PREPARE 5 0 (-1) (-1) true false) (cx_mask cx) (cx_val cx) 0 0.
Definition early_node : node :=
  let n := demo_node R_PRIMARY 1 in
  match process_enter true 0 (pq_request early_request) (received_reply (pq_request early_request) n) n with
  | Enter n _ => snd (process_fields false 0 early_request (received_reply (pq_request early_request) n) n)
  | _ => n
  end.

Lemma early_yes_and_failure : n_prepare_reply_cmd (fst (settle (fst (duplicate_prepare 1 early_node)))) = Some P_TWOPC_YES /\
  rv_ok (fst (fst (process_local demo_env (process_pinged (fst (process_fields false 0 early_request (received_reply (pq_request early_request) (demo_node R_PRIMARY 1)) (demo_node R_PRIMARY 1))) early_node) early_node))) = false.
Proof. split; vm_compute; reflexivity. Qed.
End demo.
